(* ===== verification/_CoqProject ===== *)
-Q . S2P
Prelude.v
CFloat.v
GpsTypes.v
Buff.v
Daemon.v
CStruct.v
Agps.v
CTime.v
NmeaTok.v
NmeaReader.v
NmeaParse.v
NmeaSafe.v
NmeaProps.v
EpoConf.v
EpoTime.v
EpoFile.v
Threads.v
Mnld.v
MnldProps.v
GpsThread.v
Lifecycle.v
LifecycleProps.v
System.v
Frame.v
SystemProps.v
Lights.v
SensorQueue.v
Sensors.v
SensorsProps.v
SensorsSys.v
RilEvent.v
RilLists.v
RilEventProps.v
RilClient.v
RilLoop.v
RilProps.v
RilTables.v
Ril.v
RilCore.v
RilRequests.v
RilRun.v
RilFaults.v
Sap.v
SapProps.v
SapRun.v
Rild.v
Power.v
Wpa.v
RilMem.v
RilStructs.v
RilService.v
RilConvert.v
RilResponses.v
RilCodes.v
RilDispatch.v
RilRadio.v
RilIndications.v
RilAnswers.v
RilRefuse.v
RilSend.v
RilNotices.v
RilWhole.v
RilSignal.v
RilServiceRun.v
WifiNl.v
WifiTypes.v
WifiHal.v
WifiReq.v
WifiEvents.v
WifiApi.v
WifiTables.v
WifiMsgs.v
WifiWire.v
WifiInv.v
WifiSys.v
WifiStop.v
WifiScans.v
WifiReplies.v
WifiInit.v
WifiRun.v
