(* ===== verification/Prelude.v ===== *)
(** * Verification of the native code of the LG Magna (my90ds) device tree

    The program is the native part of an Android device tree for a phone with
    an MT6582 processor, 32-bit ARM: hardware abstraction layers (HAL), which the
    framework loads as libraries, and the radio daemon. Modelled are

    - the GPS HAL, src/hal/gps/hal/gps_mtk_aosp.c;
    - the lights HAL, src/hal/light/lights.c, and the power HAL,
      src/power/power.c;
    - the sensors HAL, src/hal/sensors: a multiplexer of other sensor HALs;
    - the radio interface layer's library, src/hal/libril: the event loop
      (ril_event.cpp), requests, responses, wake lock and channels (ril.cpp), the
      radio service of the framework (ril_service.cpp), and SIM access for
      Bluetooth (rilSocketQueue.h, RilSapSocket.cpp, sap_service.cpp);
    - the radio daemon's start, src/hal/rild/rild.c;
    - the driver commands of wpa_supplicant,
      src/wpa_supplicant/mediatek_driver_cmd_nl80211.c;
    - the Wi-Fi HAL, src/hal/wifi_hal: scans in the background, ranging, hot lists,
      keep-alive packets and their events, over netlink.

    ** The parts and how they interact

    GPS. The framework calls the entries of a table of functions (init, start, stop,
    cleanup, injection of time and position, deletion of aiding data, position
    mode, and the AGPS, NI, RIL, SUPL-certificate, measurement, navigation and
    EPO extensions). The HAL talks to the daemon [mnld] with datagrams over
    local sockets and reads NMEA sentences from /dev/gps. Two threads run beside
    the framework's: the GPS thread waits with epoll for command bytes of the
    framework's thread, device data, datagrams of the daemon and requests of a
    codec; the EPO thread downloads orbit predictions piece by piece. The
    threads share global variables and synchronise with the flags of
    [lock_for_sync].

    Sensors. The multiplexer loads the sub-HALs a configuration file names, gives
    their sensors global handles and passes requests on to the owner of a
    handle. One thread per sub-HAL polls it into a circular queue; the
    framework's [poll] takes events out of the queues in turn, and both sides
    sleep on condition variables.

    Radio. The event loop watches descriptors and runs timers; clients add events
    while it runs. The library keeps the requests that wait for the vendor's
    answer in a list per SIM slot, holds a wake lock while the framework has to
    acknowledge something, with a timer of the event loop that releases it, and hands
    timed callbacks to proxy threads. The radio service stands between the
    library and the framework: a method of the framework's interface copies its
    arguments to the heap, enters the request in the list and calls the vendor's
    library; the vendor's answer, a structure of ril.h in memory, goes through the
    function of the request's entry in the table, which converts it and calls an object
    of the framework while a lock protects that object. The service for SIM access
    has a queue of its own per slot. The daemon loads the vendor's library, gives it its
    arguments, and registers its functions with both.

    Wi-Fi. A call of the framework makes a command, an object with a reference
    count, enters it in the table of commands, builds a netlink message with
    nested attributes, sends it and reads the reply. A command that waits for
    events has handlers in a second table, which the event thread searches for each
    message; while it handles one it holds a reference. Cancelling takes the command
    out of the tables and drops the reference.

    ** How it is modelled

    C integers are [Z] with the wrap-around of their width written out ([u8],
    [u32], [i32], [i64]); bytes are [Z] in 0..255; C memory is a list of bytes
    with offsets as pointers, and an access outside of the list is an explicit
    failure. Where the code manages objects by hand (the events of the loop,
    requests, SIM access) memory is a finite map from addresses to objects, so a
    read of freed memory is undefined. A function is a computation of the state
    monad [ST] below over the state of its component: the global variables,
    the environment (files, properties, the clock, the outcomes of system calls
    and allocations that can fail, in the order in which they are made) and the
    trace of effects. It ends in [Ok], in undefined behaviour, or blocked for ever.
    A function of the GPS HAL during which another thread may run is a [prog]
    (Threads.v), a sequence of such computations, each atomic, of waits and
    of polling loops; the sensors' threads and the event loop are step relations
    (SensorsSys.v, RilLoop.v). The Wi-Fi HAL's calls are sequences of such atomic
    computations too, with loops (WifiHal.v), and two threads of them are interleaved
    (WifiSys.v). The table of commands has no lock in the code: an operation on it begins and ends in
    different steps, and a thread that comes to the table in between makes a data race, which is
    undefined. libnl is a class of operations with laws (WifiNl.v), the numbers of
    nl80211 and of the structures of the vendor's headers are another (WifiHal.v);
    WifiRun.v has instances of both, from the wire format. Code that is not in the repository is a
    parameter: the EPO server's address, nanopb's encoder and decoder, the
    sub-HALs; the vendor's radio library is what calls in and what is called. The
    radio service has two memories: the vendor's, of bytes, which it reads through
    the layout of the structures, and its own heap, of blocks; the numbers of the HIDL
    interface and the structures of CDMA messages, whose headers are not in the
    repository, are a class (RilService.v), and a call of an object of the framework
    is an entry of a trace, whose outcome the environment gives.

    ** The files

    - Prelude.v: machine integers, byte lists, little-endian words, record
      update, the monad with its rules ([preserves], [keeps], [hoare]), the hint databases and
      tactics.
    - CFloat.v, CTime.v: [double], [float], [strtod], ["%lf"]; [gmtime_r],
      [mktime] and [localtime_r], as far as the HAL uses them.
    - CStruct.v: layout of packed structures and its round trip.
    - GpsTypes.v: enumerations, structures, globals, environment, trace.
    - Buff.v: [buff_put_*], [buff_get_*], [asc_str_to_usc2_str],
      [raw_data_to_hex_string].
    - Daemon.v: [get_condition], [release_condition], [bind_udp_socket],
      [safe_read], [mtk_daemon_send], the one-byte commands, [mtk_start],
      properties, and the location file.
    - Agps.v: the [agps_*], [gps_ni_*] and [agps_ril_*] calls.
    - NmeaTok.v: [nmea_tokenizer_init], [nmea_tokenizer_get], [str2int],
      [str2float].
    - NmeaReader.v, NmeaParse.v: the reader, the [nmea_reader_update_*]
      routines, one definition per kind of sentence, the reports,
      [nmea_reader_parse] and [nmea_reader_addc]. NmeaSafe.v and NmeaProps.v
      hold their properties.
    - EpoConf.v: [get_val], [gps_download_epo_enable],
      [gps_download_epo_file_name], [read_prop].
    - EpoTime.v: [GpsToUtcTime], the first and last record of the file,
      [mtk_epo_is_expired].
    - EpoFile.v: [curl_easy_download_epo], [mtk_gps_epo_server_data_is_changed],
      [mtk_gps_epo_file_update], the retry alarm and the rounds of
      [mtk_gps_epo_thread].
    - Mnld.v, MnldProps.v: [mnld_to_gps_handler].
    - GpsThread.v: [gps_state_thread], [epoll_register], [gps_state_start],
      [gps_state_stop], [gps_state_restart].
    - Lifecycle.v, LifecycleProps.v: [gps_state_init], [gps_state_done],
      [mtk_gps_init] ... [mtk_gps_get_extension]; [api_prog] collects the calls
      of the framework.
    - System.v: the three threads interleaved, as a step relation with its
      reachable states. Frame.v shows which routines leave the synchronisation
      state alone, SystemProps.v holds the invariants.
    - Lights.v: the lights HAL. Power.v: the power HAL.
    - SensorQueue.v: [SensorEventQueue] and its refinement of a bounded queue.
      Sensors.v: multihal.cpp, from the configuration file to [poll];
      SensorsProps.v its properties. SensorsSys.v: the writers' threads and the
      framework's calls interleaved, with the invariant.
    - RilEvent.v: ril_event.cpp. RilLists.v: its linked lists in memory.
      RilEventProps.v, RilClient.v: what the loop's phases and the clients' calls
      do to them. RilLoop.v: the loop and its clients interleaved. RilProps.v:
      the calls' properties and examples.
    - RilTables.v: the tables of requests and unsolicited responses. Ril.v:
      ril.cpp. RilCore.v: the wake lock and its timers. RilRequests.v:
      requests and indications. RilRun.v: runs of the library. RilFaults.v:
      where it goes wrong, and the thread table.
    - Sap.v: the queue, the sockets and the service for SIM access. SapProps.v:
      the queue in memory and the abstract state. SapRun.v: the calls, failed
      allocations, and faults.
    - Rild.v: [make_argv], [switchUser] and [main] of the daemon.
    - Wpa.v: the driver commands of wpa_supplicant.
    - RilMem.v, RilStructs.v: the vendor's memory and the layout of the
      structures of ril.h. RilService.v: the clients, the lock,
      [checkReturnStatus], [setResponseFunctions], [registerService], the frames
      of answers and indications. RilConvert.v: the conversions.
    - RilResponses.v: the functions that answer requests, and their table.
      RilCodes.v: numbers of requests and errors. RilDispatch.v: copies on the
      heap, [sendErrorResponse], the [dispatch*] functions, [my_enqueue],
      [clearPendingBuffer]. RilRadio.v: the methods of [RadioImpl] and
      [OemHookImpl]. RilIndications.v: the functions for unsolicited responses.
    - RilAnswers.v: what every answer does, by which method, and a client that dies. RilRefuse.v:
      requests answered by the service. RilSend.v: strings and numbers on their
      way to the vendor's library. RilNotices.v: what every indication does, and
      messages in hexadecimal digits. RilWhole.v: library and service together.
      RilSignal.v: words in memory, and the signal strength. RilServiceRun.v:
      examples, and data that are not handled.
    - WifiNl.v: cpp_bindings.h and cpp_bindings.cpp, the messages: attributes,
      iterators, requests, parsing. WifiTypes.v: the parameters and structures of
      the calls. WifiHal.v: the tables of common.cpp, commands and their
      references, [requestResponse]. WifiReq.v: the [createRequest] methods.
      WifiEvents.v: the [handleResponse] and [handleEvent] methods. WifiApi.v:
      [start], [cancel], the framework's calls, the event loop. WifiInit.v, which comes after
      WifiReplies.v: [wifi_initialize] and what it acquires, the four requests for multicast
      groups among it, and the calls that answer by themselves.
    - WifiTables.v, WifiMsgs.v, WifiReplies.v, WifiScans.v: properties of the
      tables, of the messages built, of reading events and of the cached
      scans. WifiWire.v: the wire format of attributes.
      WifiInv.v, WifiSys.v: the invariant of the commands, and the two threads.
      WifiStop.v: what stopping a command does to the handlers of another one.
      WifiRun.v: the instances, runs at concrete inputs, and faults.

    ** What the theorems show

    - NMEA input: the reader makes no access outside of its arrays and returns
      for every byte stream up to the size at which its counters would
      overflow; the stream is cut into lines as stated, lines that are too long
      included; the tokens are the comma-separated fields; numbers, dates,
      satellites in use, satellite lists and reports have the meaning the
      sentence gives them, independently of the time zone (times in whole seconds).
    - Messages of the GPS HAL: what is packed is read back; every call of the AGPS, NI,
      RIL and SUPL-certificate interfaces refines an abstract message or two; the daemon's messages, as abstract
      values, have exactly their effect when the handler reads their bytes, with or
      without memory, and malformed datagrams do no harm outside of the cases stated; sending
      returns, and either delivers the datagram once or reports failure.
    - Threads of the GPS HAL: in every interleaving the descriptors of a live GPS
      thread are not closed or replaced and no second thread is started; at most
      one wake lock is held.
    - EPO: configuration in range, calendar conversion, expiry decision, the
      complete download, failed pieces and retries.
    - Sensors: the circular array is a first-in first-out queue; in every
      interleaving no event is lost, duplicated or reordered between a sub-HAL
      and the framework and no wake-up is lost; a scan is fair; requests reach
      the owner of the sensor with its own handle.
    - Event loop: whatever the clients do within the rules, the lists stay well
      linked and disjoint, so no operation follows a bad pointer or fails to
      return; callbacks run once each and in order; the loop waits until the
      first timer.
    - Radio library: every call within the rules (numbers with an entry, one of the two slots, tokens
      of requests that wait) returns and does what it says, with or without memory;
      a request is in memory exactly while it is on its list; the wake lock
      is never held without the timer that releases it.
    - Radio service: every function of the table of requests answers once, with
      its own method and the serial number of the request, and changes nothing
      else; a completed request is answered once and is gone; every indication
      tells once or not at all; what a request carries reaches the vendor's
      library unchanged and its copies are given back, or there is one answer
      that there is no memory; a client that dies is removed, but not one that
      registers meanwhile; messages and the signal strength arrive as stated;
      requests that the service refuses stay in the list.
    - SIM access: the service refines a pair of queues; every waiting request is
      answered once, with its token; what memory is left behind is counted; what
      happens when each allocation of a request fails.
    - Daemon and commands: the command line round trip, the library's arguments,
      the capabilities kept, the sequence of a start; no driver command overruns a
      buffer.
    - Wi-Fi: the tables are bounded lists; requests carry exactly the attributes
      they should; cached scans with results come back as the driver sent them; reading what
      the driver sends ends whatever its bytes are; no command is used after it
      is deleted in any interleaving of the threads, provided that no two commands that
      wait for the same event run and up to races for the table of commands, one of which is shown to
      happen; without the first proviso, stopping a command removes the handler of another one;
      initialisation gives back what it took, up to what is stated, and ends if the controller
      answers.
    - Lights and power: the LED's status machine, its writes, the backlight's
      range; the state written for double tap to wake reads back.
    - Some theorems state where the code goes wrong: buffers that particular
      inputs overrun, memory read after it is freed, a table that vendor
      requests index wrongly, a channel that stays busy, a sub-HAL that fails
      to open and upsets the others, an initialisation that waits for ever.

    ** Bounds and fuel

    Loops that are not structural carry fuel, and the theorems show that the
    fuel given is enough: the tokenizer has the length of the sentence (every
    round consumes a byte), the configuration loops the length of the file, the
    copy of a piece more rounds than the piece has bytes (a round copies 256), the
    calendar one round for every 365 days, the walks along the linked lists
    one round more than there are objects in memory, the scan of the sensors'
    queues a round for every event and queue, the iteration over netlink attributes
    one round for every byte, the daemon's arguments the length
    of their string. The search of the thread table has one round more than the
    table has entries, since the code looks at one more. The retries of a send
    are structural in the list of outcomes the environment supplies; past its end
    sends succeed, past the end of the list of downloads there is no connection.
    The length bound of 16 MB on NMEA input keeps 32-bit counters from
    overflowing.

    ** What is assumed

    Every access to a shared variable of the GPS HAL, and every system call, is one
    atomic action. Parsing one chunk of NMEA data and one round of the EPO thread
    are one action each: the variables they write, among those the thread
    properties speak of, are their own (Frame.v). The framework makes one call at a
    time. Operations of the sensors HAL and of the event loop that the code
    makes under a mutex are one action each, and so is the look at the descriptors and the first timer
    before [select], which it makes without; when the radio service gives its lock back for a client
    that died, other threads act once, before the lock is taken for writing; [select] returns a subset of the
    descriptors it was given, and its size. [malloc] returns addresses that are
    not in use. Clients of the event loop add an event once, keep its memory
    while the loop has it, and use descriptors that fit the set. [getEpoUrl] of
    the binary archive libepos is a parameter, and transfers of the download
    library have the outcomes the environment gives. The time zone has a fixed
    offset.

    ** What is not modelled

    The code under GPS_AT_COMMAND and NEMA_DEBUG (not defined in the build), the
    debug log, the file locks (one fcntl call each), the allocation of the
    device structure in [open_gps]; of the radio library the start of the
    event thread, [isInitialAttachAPN] and the names for the log; of the radio service
    the transport of the interface and its threads, and the copies of buffers that
    the queues of channels make when it is built with RIL_CHANNEL_QUEUING (the
    queues themselves are in Ril.v); the table of operator names of spn.h, which is not
    used; src/hal/graphics/libgralloc_extra/ge.c, which is not built; the stubs of
    src/libmagna, which forward to libraries that are not in the repository; the
    camera library, the wrappers of ioctl calls in src/hal/graphics and
    src/hal/m4u, and the latter's test image; of the Wi-Fi HAL the log, the names of
    nl80211's numbers, and the table of function pointers. *)

From stdpp Require Import base list gmap strings numbers.
From Stdlib Require Import ZArith Lia Ascii.

Local Open Scope Z_scope.

(** * Machine integers *)

Definition u8 (z : Z) : Z := z mod 2 ^ 8.
Definition u32 (z : Z) : Z := z mod 2 ^ 32.
Definition i32 (z : Z) : Z := (z + 2 ^ 31) mod 2 ^ 32 - 2 ^ 31.
Definition i64 (z : Z) : Z := (z + 2 ^ 63) mod 2 ^ 64 - 2 ^ 63.

Definition is_byte (z : Z) : Prop := 0 <= z < 256.
Definition is_i32 (z : Z) : Prop := - 2 ^ 31 <= z < 2 ^ 31.
Definition is_u32 (z : Z) : Prop := 0 <= z < 2 ^ 32.

(** C's [x & m], [x | m] and the shifts on values already reduced to their
    width are [Z.land], [Z.lor], [Z.shiftl] and [Z.shiftr]; a test [x != 0] is
    [negb (x =? 0)]. *)
Definition truth (z : Z) : bool := negb (z =? 0).
Definition c_bool (b : bool) : Z := if b then 1 else 0.

(** * Hint databases of the development *)

Create HintDb csem discriminated.
Create Rewrite HintDb clen.

(** * Tactics *)

(** Case analysis on the boolean comparisons that decide the goal, keeping the
    arithmetic fact each one stands for. *)
Ltac zb :=
  repeat match goal with
    | H : context [Z.eqb ?a ?b] |- _ => destruct (Z.eqb_spec a b)
    | H : context [Z.ltb ?a ?b] |- _ => destruct (Z.ltb_spec a b)
    | H : context [Z.leb ?a ?b] |- _ => destruct (Z.leb_spec a b)
    | |- context [Z.eqb ?a ?b] => destruct (Z.eqb_spec a b)
    | |- context [Z.ltb ?a ?b] => destruct (Z.ltb_spec a b)
    | |- context [Z.leb ?a ?b] => destruct (Z.leb_spec a b)
    end.

(** Take apart conjunctions, existentials and pairs in the context. *)
Ltac break :=
  repeat match goal with
    | H : _ /\ _ |- _ => destruct H
    | H : exists _, _ |- _ => destruct H
    | H : (_, _) = (_, _) |- _ => injection H; clear H; intros; subst
    | H : Some _ = Some _ |- _ => injection H; clear H; intros; subst
    end.

(** Case analysis on the scrutinee of a [match] or [if] of the goal. *)
Ltac case_goal :=
  match goal with
  | |- context [match ?x with _ => _ end] =>
      lazymatch x with
      | context [match _ with _ => _ end] => fail
      | _ => let E := fresh "E" in destruct x eqn:E
      end
  end.

Ltac case_hyp H :=
  match type of H with
  | context [match ?x with _ => _ end] =>
      lazymatch x with
      | context [match _ with _ => _ end] => fail
      | _ => let E := fresh "E" in destruct x eqn:E
      end
  end.

(** * Record update

    [Eta R] gives the eta expansion of a record; a setter for each projection
    is computed from it by abstracting the projection. [r <| f := v |>] is the
    record [r] with field [f] replaced. *)

Class Eta (R : Type) := eta : R -> R.

Class Setter {R T : Type} (proj : R -> T) := set : (T -> T) -> R -> R.
Arguments set {R T} proj {_} _ _.

Ltac solve_setter :=
  match goal with
  | |- @Setter ?R ?T ?proj =>
      let inst := constr:(_ : Eta R) in
      let e := eval hnf in inst in
      let p := eval pattern proj in e in
      match p with
      | ?h _ => let t := eval cbv beta in (fun (g : T -> T) => h (fun r : R => g (proj r))) in exact t
      end
  end.

#[export] Hint Extern 1 (Setter _) => solve_setter : typeclass_instances.

Declare Scope rec_scope.
Notation "r <| f := v |>" := (set f (fun _ => v) r)
  (at level 1, left associativity, f at level 0, v at level 200, format "r  <| f  :=  v |>") : rec_scope.
Notation "r <| f '::=' g |>" := (set f g r)
  (at level 1, left associativity, f at level 0, g at level 200, format "r  <| f  ::=  g |>") : rec_scope.

(** * Outcomes and the state monad

    A C function runs on a state [S]. It either returns a value with the new
    state, or its behaviour is undefined (an access outside an object, a call
    through a null pointer), or it never returns because the calling thread
    blocks for ever. *)

Inductive outcome (A : Type) : Type :=
  | Ok (a : A)
  | Undef
  | Blocked.
Arguments Ok {A} a.
Arguments Undef {A}.
Arguments Blocked {A}.

Definition ST (S A : Type) : Type := S -> outcome (A * S).

Definition retM {S A} (a : A) : ST S A := fun s => Ok (a, s).
Definition bindM {S A B} (m : ST S A) (k : A -> ST S B) : ST S B :=
  fun s => match m s with
           | Ok (a, s') => k a s'
           | Undef => Undef
           | Blocked => Blocked
           end.
Definition getM {S} : ST S S := fun s => Ok (s, s).
Definition modM {S} (f : S -> S) : ST S unit := fun s => Ok (tt, f s).
Definition undefM {S A} : ST S A := fun _ => Undef.
Definition blockM {S A} : ST S A := fun _ => Blocked.
Definition of_option {S A} (o : option A) : ST S A :=
  match o with Some a => retM a | None => undefM end.

Declare Scope st_scope.
Delimit Scope st_scope with st.
Notation "'let*' x := m 'in' k" := (bindM m (fun x => k))
  (at level 10, x pattern, m at level 99, k at level 200) : st_scope.
Notation "m ;; k" := (bindM m (fun _ => k))
  (at level 100, k at level 200, right associativity) : st_scope.

(** [succeeds m s]: the run returns (neither undefined nor blocked). *)
Definition succeeds {S A} (m : ST S A) (s : S) : Prop := exists a s', m s = Ok (a, s').

Section Monad.
Context {S : Type}.

Lemma bindM_ok {A B} (m : ST S A) (k : A -> ST S B) s a s' :
  m s = Ok (a, s') -> bindM m k s = k a s'.
Proof. intros H. unfold bindM. by rewrite H. Qed.

Lemma bindM_inv {A B} (m : ST S A) (k : A -> ST S B) s b s2 :
  bindM m k s = Ok (b, s2) -> exists a s1, m s = Ok (a, s1) /\ k a s1 = Ok (b, s2).
Proof.
  unfold bindM. destruct (m s) as [[a s1]| |]; intros H; try discriminate.
  by exists a, s1.
Qed.

Lemma bindM_assoc {A B C} (m : ST S A) (f : A -> ST S B) (g : B -> ST S C) s :
  bindM (bindM m f) g s = bindM m (fun x => bindM (f x) g) s.
Proof. unfold bindM. by destruct (m s) as [[? ?]| |]. Qed.

(** Every state reached by a run of [m] from a state satisfying [I] satisfies
    [I]. *)
Definition preserves {A} (I : S -> Prop) (m : ST S A) : Prop :=
  forall s a s', I s -> m s = Ok (a, s') -> I s'.

Lemma preserves_ret {A} I (a : A) : preserves I (retM a).
Proof. intros s b s' HI [= <- <-]. done. Qed.

Lemma preserves_get I : preserves I getM.
Proof. intros s b s' HI [= <- <-]. done. Qed.

Lemma preserves_bind {A B} I (m : ST S A) (k : A -> ST S B) :
  preserves I m -> (forall a, preserves I (k a)) -> preserves I (bindM m k).
Proof.
  intros Hm Hk s b s' HI (a & s1 & H1 & H2)%bindM_inv.
  eapply Hk; [|done]. by eapply Hm.
Qed.

Lemma preserves_mod I (f : S -> S) : (forall s, I s -> I (f s)) -> preserves I (modM f).
Proof. intros Hf s b s' HI [= <- <-]. auto. Qed.

Lemma preserves_undef {A} I : preserves I (@undefM S A).
Proof. intros s b s' HI [=]. Qed.

Lemma preserves_block {A} I : preserves I (@blockM S A).
Proof. intros s b s' HI [=]. Qed.

Lemma preserves_if {A} I (b : bool) (m1 m2 : ST S A) :
  preserves I m1 -> preserves I m2 -> preserves I (if b then m1 else m2).
Proof. by destruct b. Qed.
End Monad.

(** [keeps f m]: no run of [m] changes [f]. *)
Definition keeps {S A B} (f : S -> B) (m : ST S A) : Prop := forall s a s', m s = Ok (a, s') -> f s' = f s.

Section Keeps.
Context {S B : Type} (f : S -> B).

Lemma keeps_ret {A} (a : A) : keeps f (retM a).
Proof. intros s x s' [= <- <-]. done. Qed.

Lemma keeps_get : keeps f (@getM S).
Proof. intros s x s' [= <- <-]. done. Qed.

Lemma keeps_undef {A} : keeps f (@undefM S A).
Proof. intros s x s' [=]. Qed.

Lemma keeps_block {A} : keeps f (@blockM S A).
Proof. intros s x s' [=]. Qed.

Lemma keeps_of_option {A} (o : option A) : keeps f (of_option o).
Proof. destruct o; [apply keeps_ret|apply keeps_undef]. Qed.

Lemma keeps_mod (g : S -> S) : (forall s, f (g s) = f s) -> keeps f (modM g).
Proof. intros H s x s' [= <- <-]. apply H. Qed.

Lemma keeps_bind {A C} (m : ST S A) (k : A -> ST S C) : keeps f m -> (forall a, keeps f (k a)) -> keeps f (bindM m k).
Proof.
  intros Hm Hk s c s' H. apply bindM_inv in H as (a & s1 & E & H). rewrite (Hk _ _ _ _ H). by apply (Hm _ _ _ E).
Qed.
End Keeps.

Create HintDb keep.
#[export] Hint Resolve keeps_ret keeps_get keeps_undef keeps_block keeps_of_option : keep.

#[export] Hint Resolve preserves_ret preserves_get preserves_bind preserves_undef
  preserves_block preserves_if : csem.

(** Total correctness: from every state satisfying [P] the run returns, with a
    result and a state that satisfy [Q]. *)
Definition hoare {S A} (P : S -> Prop) (m : ST S A) (Q : A -> S -> Prop) : Prop :=
  forall s, P s -> exists a s', m s = Ok (a, s') /\ Q a s'.

Section Hoare.
Context {S : Type}.

Lemma hoare_ret {A} (a : A) (P : S -> Prop) (Q : A -> S -> Prop) :
  (forall s, P s -> Q a s) -> hoare P (retM a) Q.
Proof. intros H s Hs. exists a, s. auto. Qed.

Lemma hoare_bind {A B} (m : ST S A) (k : A -> ST S B) P R Q :
  hoare P m R -> (forall a, hoare (R a) (k a) Q) -> hoare P (bindM m k) Q.
Proof.
  intros Hm Hk s Hs. destruct (Hm s Hs) as (a & s1 & E & HR).
  destruct (Hk a s1 HR) as (b & s2 & E2 & HQ). exists b, s2. split; [|done].
  by rewrite (bindM_ok _ _ _ _ _ E).
Qed.

Lemma hoare_get P (Q : S -> S -> Prop) : (forall s, P s -> Q s s) -> hoare P getM Q.
Proof. intros H s Hs. exists s, s. auto. Qed.

Lemma hoare_mod f (P : S -> Prop) (Q : unit -> S -> Prop) : (forall s, P s -> Q tt (f s)) -> hoare P (modM f) Q.
Proof. intros H s Hs. exists tt, (f s). auto. Qed.

Lemma hoare_of_option {A} (o : option A) (P : S -> Prop) (Q : A -> S -> Prop) :
  (forall s, P s -> exists a, o = Some a /\ Q a s) -> hoare P (of_option o) Q.
Proof. intros H s Hs. destruct (H s Hs) as (a & -> & HQ). by exists a, s. Qed.

Lemma hoare_conseq {A} (m : ST S A) (P P' : S -> Prop) (Q Q' : A -> S -> Prop) :
  hoare P' m Q' -> (forall s, P s -> P' s) -> (forall a s, Q' a s -> Q a s) -> hoare P m Q.
Proof. intros H H1 H2 s Hs. destruct (H s (H1 s Hs)) as (a & s' & E & HQ). exists a, s'. auto. Qed.

Lemma hoare_if {A} (b : bool) (m1 m2 : ST S A) P Q :
  (b = true -> hoare P m1 Q) -> (b = false -> hoare P m2 Q) -> hoare P (if b then m1 else m2) Q.
Proof. destruct b; auto. Qed.
End Hoare.

(** Unfold the monad and compute one run. *)
Ltac run := unfold bindM, retM, getM, modM, undefM, blockM, of_option; cbn.

Lemma forallb_Forall {A} (f : A -> bool) l : forallb f l = true <-> Forall (fun x => f x = true) l.
Proof.
  induction l as [|x l IH]; cbn; [by split|]. rewrite andb_true_iff, IH. split.
  - intros [H1 H2]. by constructor.
  - inversion_clear 1. done.
Qed.

(** * Byte strings and C arrays *)

(** A byte string literal. *)
Definition str (s : string) : list Z :=
  map (fun a => Z.of_N (N_of_ascii a)) (String.list_ascii_of_string s).

Definition chr (s : string) : Z := match str s with c :: _ => c | [] => 0 end.

(** The element of an array at a C index; every use is accompanied by a bounds
    argument, outside of the array the default is 0. *)
Definition at_ (l : list Z) (i : Z) : Z := if i <? 0 then 0 else nth (Z.to_nat i) l 0.

Definition zlen {A} (l : list A) : Z := Z.of_nat (length l).
Arguments zlen {A} l : simpl never.

(** [memcpy] into an array of the size of [buf], undefined out of bounds. *)
Definition mem_write (buf : list Z) (off : Z) (bs : list Z) : option (list Z) :=
  if (0 <=? off) && (off + zlen bs <=? zlen buf) then
    Some (take (Z.to_nat off) buf ++ bs ++ drop (Z.to_nat off + length bs) buf)
  else None.

(** [memcpy] of [n] bytes out of an array. *)
Definition mem_read (buf : list Z) (off n : Z) : option (list Z) :=
  if (0 <=? off) && (0 <=? n) && (off + n <=? zlen buf) then
    Some (take (Z.to_nat n) (drop (Z.to_nat off) buf))
  else None.

(** The C string that starts at the head of an array: up to the first NUL. *)
Fixpoint cstr (l : list Z) : list Z :=
  match l with
  | [] => []
  | b :: l' => if b =? 0 then [] else b :: cstr l'
  end.

(** [memcmp (p, s, n) = 0] with [s] the constant of length [n]. *)
Fixpoint has_prefix (s l : list Z) : bool :=
  match s, l with
  | [], _ => true
  | a :: s', b :: l' => (a =? b) && has_prefix s' l'
  | _ :: _, [] => false
  end.

Definition bytes_eqb (a b : list Z) : bool := bool_decide (a = b).

(** [n] zero bytes, a zero-initialised array. *)
Definition zeros (n : nat) : list Z := replicate n 0.

(** Little-endian representation of an integer on [n] bytes. *)
Fixpoint le_bytes (n : nat) (z : Z) : list Z :=
  match n with
  | O => []
  | S n' => z mod 256 :: le_bytes n' (z / 256)
  end.

Fixpoint le_value (bs : list Z) : Z :=
  match bs with
  | [] => 0
  | b :: bs' => b + 256 * le_value bs'
  end.

Section Bytes.

Lemma i32_id z : is_i32 z -> i32 z = z.
Proof. unfold is_i32, i32. intros H. rewrite Z.mod_small; lia. Qed.

Lemma i32_range z : is_i32 (i32 z).
Proof. unfold is_i32, i32. pose proof (Z.mod_pos_bound (z + 2 ^ 31) (2 ^ 32)). lia. Qed.

Lemma u32_id z : is_u32 z -> u32 z = z.
Proof. apply Z.mod_small. Qed.

Lemma u32_range z : is_u32 (u32 z).
Proof. apply Z.mod_pos_bound. lia. Qed.

Lemma u8_range z : is_byte (u8 z).
Proof. unfold is_byte, u8. pose proof (Z.mod_pos_bound z (2 ^ 8)). lia. Qed.

Lemma i32_u32 z : i32 (u32 z) = i32 z.
Proof. unfold i32, u32. by rewrite Zplus_mod_idemp_l. Qed.

Lemma zlen_nonneg {A} (l : list A) : 0 <= zlen l.
Proof. unfold zlen. lia. Qed.

Lemma zlen_app {A} (l k : list A) : zlen (l ++ k) = zlen l + zlen k.
Proof. unfold zlen. rewrite length_app. lia. Qed.

Lemma zlen_nil {A} : zlen (@nil A) = 0.
Proof. done. Qed.

Lemma zlen_cons {A} (x : A) l : zlen (x :: l) = 1 + zlen l.
Proof. unfold zlen. cbn. lia. Qed.

Lemma zlen_zeros n : zlen (zeros n) = Z.of_nat n.
Proof. unfold zlen, zeros. by rewrite length_replicate. Qed.

Lemma length_le_bytes n z : length (le_bytes n z) = n.
Proof. revert z. induction n as [|n IH]; intros z; cbn; auto. Qed.

Lemma zlen_le_bytes n z : zlen (le_bytes n z) = Z.of_nat n.
Proof. unfold zlen. by rewrite length_le_bytes. Qed.

Lemma le_value_bytes n z : le_value (le_bytes n z) = z mod 256 ^ Z.of_nat n.
Proof.
  revert z. induction n as [|n IH]; intros z; cbn [le_bytes le_value].
  - by rewrite Z.mod_1_r.
  - rewrite IH, Nat2Z.inj_succ, Z.pow_succ_r by lia.
    symmetry. rewrite Z.rem_mul_r by lia. done.
Qed.

Lemma le_bytes_range n z : Forall is_byte (le_bytes n z).
Proof.
  revert z. induction n as [|n IH]; intros z; cbn [le_bytes]; constructor; auto.
  apply Z.mod_pos_bound. lia.
Qed.

Lemma le_value_range bs : Forall is_byte bs -> 0 <= le_value bs < 256 ^ zlen bs.
Proof.
  induction 1 as [|b bs Hb Hbs IH]; cbn [le_value]; [done|].
  rewrite zlen_cons, Z.pow_add_r by (pose proof (zlen_nonneg bs); lia).
  unfold is_byte in Hb. lia.
Qed.

Lemma le_bytes_value bs : Forall is_byte bs -> le_bytes (length bs) (le_value bs) = bs.
Proof.
  induction 1 as [|b bs Hb Hbs IH]; cbn [le_value length le_bytes]; [done|].
  unfold is_byte in Hb. f_equal.
  - rewrite (Z.mul_comm 256), Z.mod_add, Z.mod_small by lia. done.
  - rewrite (Z.mul_comm 256), Z.div_add, Z.div_small by lia. by rewrite Z.add_0_l.
Qed.

Lemma mem_write_len buf off bs buf' :
  mem_write buf off bs = Some buf' -> zlen buf' = zlen buf.
Proof.
  unfold mem_write. destruct (_ && _) eqn:E; [|done]. intros [= <-].
  apply andb_true_iff in E as [E1%Z.leb_le E2%Z.leb_le].
  unfold zlen in *. rewrite !length_app, length_take, length_drop. lia.
Qed.

Lemma mem_write_Some buf off bs :
  0 <= off -> off + zlen bs <= zlen buf ->
  mem_write buf off bs =
    Some (take (Z.to_nat off) buf ++ bs ++ drop (Z.to_nat off + length bs) buf).
Proof.
  intros H1 H2. unfold mem_write.
  by rewrite (proj2 (Z.leb_le _ _) H1), (proj2 (Z.leb_le _ _) H2).
Qed.

Lemma mem_write_None buf off bs :
  0 <= off -> zlen buf < off + zlen bs -> mem_write buf off bs = None.
Proof. intros H1 H2. unfold mem_write. zb; cbn; done || lia. Qed.

Lemma mem_write_at pre old post bs :
  length old = length bs ->
  mem_write (pre ++ old ++ post) (zlen pre) bs = Some (pre ++ bs ++ post).
Proof.
  intros Hl. rewrite mem_write_Some.
  - unfold zlen. rewrite Nat2Z.id, take_app_length, drop_app_add'; [|done].
    by rewrite <- Hl, drop_app_length.
  - apply zlen_nonneg.
  - rewrite !zlen_app. unfold zlen. lia.
Qed.

Lemma mem_read_at pre bs post :
  mem_read (pre ++ bs ++ post) (zlen pre) (zlen bs) = Some bs.
Proof.
  unfold mem_read. rewrite !zlen_app.
  pose proof (zlen_nonneg pre). pose proof (zlen_nonneg bs). pose proof (zlen_nonneg post).
  zb; cbn; try lia. unfold zlen. by rewrite !Nat2Z.id, drop_app_length, take_app_length.
Qed.

Lemma cstr_app_nul s post : Forall (fun b => b <> 0) s -> cstr (s ++ 0 :: post) = s.
Proof. induction 1 as [|b s Hb Hs IH]; cbn; [done|]. zb; [done|]. by rewrite IH. Qed.

Lemma has_prefix_app s l : has_prefix s (s ++ l) = true.
Proof. induction s as [|a s IH]; cbn; [done|]. by rewrite Z.eqb_refl, IH. Qed.

Lemma has_prefix_inv s l : has_prefix s l = true -> exists k, l = s ++ k.
Proof.
  revert l. induction s as [|a s IH]; intros [|b l]; cbn; try discriminate.
  - by exists [].
  - by exists (b :: l).
  - intros [->%Z.eqb_eq (k & ->)%IH]%andb_true_iff. by exists k.
Qed.

Lemma bytes_eqb_refl a : bytes_eqb a a = true.
Proof. by apply bool_decide_eq_true. Qed.

Lemma bytes_eqb_eq a b : bytes_eqb a b = true <-> a = b.
Proof. apply bool_decide_eq_true. Qed.

End Bytes.

#[export] Hint Rewrite @zlen_app @zlen_nil @zlen_cons zlen_zeros zlen_le_bytes : clen.
#[export] Hint Resolve zlen_nonneg i32_range u32_range u8_range le_bytes_range : csem.
