(* ===== verification/CFloat.v ===== *)
(** Binary floating point as the GPS HAL uses it: [double] and [float] as IEEE
    754 binary64 and binary32 values computed by the Standard Library's
    executable specification, the conversions to and from [int], and the two C
    library routines the HAL calls on text, [strtod] and [printf]'s ["%lf"]. *)

From stdpp Require Import base list gmap strings numbers.
From Stdlib Require Import ZArith Lia SpecFloat.
From S2P Require Import Prelude.

Local Open Scope Z_scope.

Definition double : Type := spec_float.
Definition float : Type := spec_float.

Definition dzero : double := S754_zero false.

Definition dadd : double -> double -> double := SFadd 53 1024.
Definition dsub : double -> double -> double := SFsub 53 1024.
Definition dmul : double -> double -> double := SFmul 53 1024.
Definition ddiv : double -> double -> double := SFdiv 53 1024.
Definition dopp : double -> double := SFopp.

(** Conversion from an integer; exact below [2^53]. *)
Definition d_of_Z (z : Z) : double := binary_normalize 53 1024 z 0 false.
Definition f_of_Z (z : Z) : float := binary_normalize 24 128 z 0 false.

(** Conversion of a [double] to a [float]. *)
Definition f_of_d (x : double) : float :=
  match x with
  | S754_finite s m e => binary_round 24 128 s m e
  | _ => x
  end.

(** Integer part, rounding towards zero ([d_trunc]) or downwards ([d_floorZ]). *)
Definition d_trunc (x : spec_float) : Z :=
  match x with
  | S754_finite s m e =>
      let a := if 0 <=? e then Zpos m * 2 ^ e else Zpos m / 2 ^ (- e) in
      if s then - a else a
  | _ => 0
  end.

Definition d_floorZ (x : spec_float) : Z :=
  match x with
  | S754_finite s m e =>
      let sm := if s then Zneg m else Zpos m in
      if 0 <=? e then sm * 2 ^ e else sm / 2 ^ (- e)
  | _ => 0
  end.

(** [(int) x]: truncation. A value outside of [int] saturates and a NaN gives 0,
    as the conversion instruction of the target does. *)
Definition d_to_int (x : spec_float) : Z :=
  match x with
  | S754_infinity s => if s then - 2 ^ 31 else 2 ^ 31 - 1
  | S754_nan => 0
  | _ => Z.max (- 2 ^ 31) (Z.min (2 ^ 31 - 1) (d_trunc x))
  end.

(** C's [floor]. *)
Definition dfloor (x : double) : double :=
  match x with
  | S754_finite s m e =>
      match d_floorZ x with
      | Z0 => S754_zero s
      | z => d_of_Z z
      end
  | _ => x
  end.

(** The double nearest to the rational [(-1)^s * m * 10^k] (ties to even). *)
Definition dec_round (s : bool) (m k : Z) : double :=
  match m with
  | Zpos p =>
      if 400 <? k then S754_infinity s
      else if k + Z.log2 m <? - 400 then S754_zero s
      else if 0 <=? k then binary_round 53 1024 s (p * Z.to_pos (10 ^ k))%positive 0
      else
        let '(q, e, l) := SFdiv_core_binary 53 1024 m 0 (10 ^ (- k)) 0 in
        binary_round_aux 53 1024 s q e l
  | _ => S754_zero s
  end.

(** The double nearest to [(-1)^s * m * 2^e]. *)
Definition bin_round (s : bool) (m e : Z) : double :=
  match m with
  | Zpos p =>
      if 3000 <? e then S754_infinity s
      else if e + Z.log2 m <? - 3000 then S754_zero s
      else binary_round 53 1024 s p e
  | _ => S754_zero s
  end.

(** ** [strtod] *)

Definition is_digit (c : Z) : bool := (48 <=? c) && (c <=? 57).
Definition is_cspace (c : Z) : bool := (c =? 32) || ((9 <=? c) && (c <=? 13)).
Definition hex_digit (c : Z) : option Z :=
  if is_digit c then Some (c - 48)
  else if (97 <=? c) && (c <=? 102) then Some (c - 87)
  else if (65 <=? c) && (c <=? 70) then Some (c - 55)
  else None.
Definition dec_digit (c : Z) : option Z := if is_digit c then Some (c - 48) else None.
Definition lower (c : Z) : Z := if (65 <=? c) && (c <=? 90) then c + 32 else c.

Fixpoint skip_space (l : list Z) : list Z :=
  match l with
  | c :: l' => if is_cspace c then skip_space l' else l
  | [] => []
  end.

(** The longest run of digits of a base: value, number of digits, the rest. *)
Fixpoint digits (dig : Z -> option Z) (base acc : Z) (n : nat) (l : list Z) : Z * nat * list Z :=
  match l with
  | c :: l' =>
      match dig c with
      | Some d => digits dig base (acc * base + d) (S n) l'
      | None => (acc, n, l)
      end
  | [] => (acc, n, [])
  end.

(** A mantissa [digits[.digits]]: value without the point, digits after the
    point, number of digits, the rest. *)
Definition mantissa (dig : Z -> option Z) (base : Z) (l : list Z) : Z * nat * nat * list Z :=
  let '(ip, n, r) := digits dig base 0 0 l in
  match r with
  | 46 :: r' =>
      let '(m, f, r2) := digits dig base ip 0 r' in
      (m, f, (n + f)%nat, r2)
  | _ => (ip, 0%nat, n, r)
  end.

(** An optional exponent introduced by the letter [c]. *)
Definition exponent (c : Z) (l : list Z) : Z :=
  match l with
  | e :: r =>
      if lower e =? c then
        let '(neg, r1) := match r with
                          | 45 :: r' => (true, r')
                          | 43 :: r' => (false, r')
                          | _ => (false, r)
                          end in
        let '(v, n, _) := digits dec_digit 10 0 0 r1 in
        match n with O => 0 | _ => if neg : bool then - v else v end
      else 0
  | [] => 0
  end.

Definition strtod (text : list Z) : double :=
  let l := skip_space text in
  let '(s, l) := match l with
                 | 45 :: r => (true, r)
                 | 43 :: r => (false, r)
                 | _ => (false, l)
                 end in
  let low := map lower l in
  if has_prefix (str "inf") low then S754_infinity s
  else if has_prefix (str "nan") low then S754_nan
  else
    let hex := if has_prefix (str "0x") low then
                 let '(m, f, n, r) := mantissa hex_digit 16 (drop 2 l) in
                 match n with
                 | O => None
                 | _ => Some (bin_round s m (exponent 112 r - 4 * Z.of_nat f))
                 end
               else None in
    match hex with
    | Some d => d
    | None =>
        let '(m, f, n, r) := mantissa dec_digit 10 l in
        match n with
        | O => dzero
        | _ => dec_round s m (exponent 101 r - Z.of_nat f)
        end
    end.

(** ** Decimal output *)

Fixpoint dec_digits (fuel : nat) (n : Z) (acc : list Z) : list Z :=
  match fuel with
  | O => acc
  | S f => let acc' := (48 + n mod 10) :: acc in
           if n <? 10 then acc' else dec_digits f (n / 10) acc'
  end.

(** ["%d"] and ["%u"]: the number of bits bounds the number of digits. *)
Definition print_nat (n : Z) : list Z := dec_digits (S (Z.to_nat (Z.log2 n))) n [].
Definition print_int (n : Z) : list Z := if n <? 0 then 45 :: print_nat (- n) else print_nat n.

(** Quotient rounded to nearest, ties to even. *)
Definition div_nearest (a b : Z) : Z :=
  let q := a / b in
  let r := a mod b in
  match Z.compare (2 * r) b with
  | Lt => q
  | Gt => q + 1
  | Eq => if Z.even q then q else q + 1
  end.

Definition pad6 (n : Z) : list Z :=
  let d := print_nat n in replicate (6 - length d) 48 ++ d.

(** ["%lf"]: six decimals, rounded from the exact value. *)
Definition print_lf (x : double) : list Z :=
  match x with
  | S754_zero s => (if s then [45] else []) ++ str "0.000000"
  | S754_infinity s => (if s then [45] else []) ++ str "inf"
  | S754_nan => str "nan"
  | S754_finite s m e =>
      let v := if 0 <=? e then Zpos m * 2 ^ e * 10 ^ 6
               else div_nearest (Zpos m * 10 ^ 6) (2 ^ (- e)) in
      (if s then [45] else []) ++ print_nat (v / 10 ^ 6) ++ [46] ++ pad6 (v mod 10 ^ 6)
  end.

(** ** The representation of floating point numbers in memory

    [mw] is the width of the stored significand, [ew] of the exponent field. *)

Definition f_emin (mw ew : Z) : Z := 3 - 2 ^ (ew - 1) - (mw + 1).

Definition bits_of (mw ew : Z) (x : spec_float) : Z :=
  let sgn (s : bool) := if s then 2 ^ (mw + ew) else 0 in
  match x with
  | S754_zero s => sgn s
  | S754_infinity s => sgn s + (2 ^ ew - 1) * 2 ^ mw
  | S754_nan => (2 ^ ew - 1) * 2 ^ mw + 2 ^ (mw - 1)
  | S754_finite s m e =>
      if 2 ^ mw <=? Zpos m
      then sgn s + (e - f_emin mw ew + 1) * 2 ^ mw + (Zpos m - 2 ^ mw)
      else sgn s + Zpos m
  end.

Definition of_bits (mw ew : Z) (z : Z) : spec_float :=
  let s := Z.odd (z / 2 ^ (mw + ew)) in
  let ex := (z / 2 ^ mw) mod 2 ^ ew in
  let fr := z mod 2 ^ mw in
  if ex =? 0 then
    match fr with
    | Zpos p => S754_finite s p (f_emin mw ew)
    | _ => S754_zero s
    end
  else if ex =? 2 ^ ew - 1 then
    (if fr =? 0 then S754_infinity s else S754_nan)
  else
    match fr + 2 ^ mw with
    | Zpos p => S754_finite s p (ex - 1 + f_emin mw ew)
    | _ => S754_nan
    end.

Definition d_bits : double -> Z := bits_of 52 11.
Definition d_of_bits : Z -> double := of_bits 52 11.
Definition f_bits : float -> Z := bits_of 23 8.
Definition f_of_bits : Z -> float := of_bits 23 8.

Definition d_valid (x : double) : Prop := valid_binary 53 1024 x = true.
Definition f_valid (x : float) : Prop := valid_binary 24 128 x = true.

(** * Facts *)

Lemma digits2_pos_bounds m :
  2 ^ (Zpos (digits2_pos m) - 1) <= Zpos m < 2 ^ Zpos (digits2_pos m).
Proof.
  induction m as [m IH|m IH|]; cbn [digits2_pos]; rewrite ?Pos2Z.inj_succ; [| |done].
  all: replace (Z.succ (Z.pos (digits2_pos m)) - 1) with (Z.succ (Z.pos (digits2_pos m) - 1)) by lia.
  all: rewrite !Z.pow_succ_r by lia; lia.
Qed.

(** The exponent and significand of a valid number, for a format given by its
    constants. *)
Lemma bounded_inv prec emax m e : 0 < prec ->
  bounded prec emax m e = true ->
  emin prec emax <= e <= emax - prec /\ Zpos m < 2 ^ prec /\
  (2 ^ (prec - 1) <= Zpos m \/ e = emin prec emax).
Proof.
  intros Hp. unfold bounded, canonical_mantissa, fexp. intros [H1%Z.eqb_eq H2%Z.leb_le]%andb_true_iff.
  pose proof (digits2_pos_bounds m) as Hd.
  assert (Zpos (digits2_pos m) <= prec) as Hle by lia.
  split_and!; [lia|lia| |].
  - eapply Z.lt_le_trans; [apply Hd|]. apply Z.pow_le_mono_r; lia.
  - destruct (Z.eq_dec (Zpos (digits2_pos m)) prec) as [E|E]; [left; rewrite <- E; lia|right; lia].
Qed.

(** Decoding of a sign, an exponent field and a fraction. *)
Lemma of_bits_fields mw ew (s : bool) ex fr :
  0 < mw -> 0 < ew -> 0 <= ex < 2 ^ ew -> 0 <= fr < 2 ^ mw ->
  let z := (if s then 2 ^ (mw + ew) else 0) + ex * 2 ^ mw + fr in
  Z.odd (z / 2 ^ (mw + ew)) = s /\ (z / 2 ^ mw) mod 2 ^ ew = ex /\ z mod 2 ^ mw = fr.
Proof.
  intros Hm He Hex Hfr z.
  assert (2 ^ (mw + ew) = 2 ^ ew * 2 ^ mw) as Hp by (rewrite Z.pow_add_r by lia; lia).
  assert (0 < 2 ^ mw) by (apply Z.pow_pos_nonneg; lia).
  assert (0 < 2 ^ ew) by (apply Z.pow_pos_nonneg; lia).
  pose (sg := if s then 1 else 0).
  assert (Hz : z = (sg * 2 ^ ew + ex) * 2 ^ mw + fr) by (unfold z, sg; destruct s; rewrite ?Hp; lia).
  assert (Hq : z / 2 ^ mw = sg * 2 ^ ew + ex)
    by (rewrite Hz, Z.div_add_l, (Z.div_small fr) by lia; lia).
  split_and!.
  - rewrite Hp, (Z.mul_comm (2 ^ ew)), <- Z.div_div, Hq by lia.
    rewrite Z.div_add_l, (Z.div_small ex), Z.add_0_r by lia. unfold sg. by destruct s.
  - rewrite Hq, Z.add_comm, Z.mod_add, Z.mod_small by lia. done.
  - rewrite Hz, Z.add_comm, Z.mod_add, Z.mod_small by lia. done.
Qed.

Section Bits.
Context (mw ew : Z) (Hmw : 1 < mw) (Hew : 1 < ew).
#[local] Abbreviation prec := (mw + 1).
#[local] Abbreviation emax := (2 ^ (ew - 1)).

Lemma emin_f_emin : emin prec emax = f_emin mw ew.
Proof. unfold emin, f_emin. lia. Qed.

Lemma pow_ew : 2 ^ ew = 2 * emax.
Proof. replace ew with (Z.succ (ew - 1)) at 1 by lia. apply Z.pow_succ_r. lia. Qed.

Lemma bits_roundtrip_finite s m e : bounded prec emax m e = true ->
  of_bits mw ew (bits_of mw ew (S754_finite s m e)) = S754_finite s m e.
Proof.
  intros (He & Hm & Hn)%bounded_inv; [|lia]. rewrite emin_f_emin in He, Hn.
  replace (prec - 1) with mw in Hn by lia. pose proof pow_ew as Hpe.
  assert (4 <= 2 ^ ew) as H4 by (change 4 with (2 ^ 2); apply Z.pow_le_mono_r; lia).
  assert (2 ^ prec = 2 * 2 ^ mw) as Hp by (apply Z.pow_succ_r; lia).
  unfold f_emin in *. unfold bits_of. destruct (Z.leb_spec (2 ^ mw) (Zpos m)) as [L|L].
  - assert (Hex : 0 <= e - f_emin mw ew + 1 < 2 ^ ew) by (unfold f_emin; lia).
    destruct (of_bits_fields mw ew s (e - f_emin mw ew + 1) (Zpos m - 2 ^ mw)) as (H1 & H2 & H3);
      [lia..|].
    unfold of_bits. rewrite H1, H2, H3. unfold f_emin in *.
    rewrite (proj2 (Z.eqb_neq _ _)) by lia. rewrite (proj2 (Z.eqb_neq _ _)) by lia.
    replace (Z.pos m - 2 ^ mw + 2 ^ mw) with (Z.pos m) by lia. f_equal. lia.
  - destruct (of_bits_fields mw ew s 0 (Zpos m)) as (H1 & H2 & H3); [lia..|].
    rewrite Z.mul_0_l, Z.add_0_r in H1, H2, H3.
    unfold of_bits. rewrite H1, H2, H3, Z.eqb_refl. f_equal. unfold f_emin. lia.
Qed.

Lemma bits_roundtrip x : valid_binary prec emax x = true -> of_bits mw ew (bits_of mw ew x) = x.
Proof.
  assert (4 <= 2 ^ ew) as H4 by (change 4 with (2 ^ 2); apply Z.pow_le_mono_r; lia).
  assert (0 < 2 ^ mw) as Hm by (apply Z.pow_pos_nonneg; lia).
  assert (0 < 2 ^ (mw - 1) < 2 ^ mw) as Hm1
    by (split; [apply Z.pow_pos_nonneg; lia|apply Z.pow_lt_mono_r; lia]).
  destruct x as [s|s| |s m e]; intros Hv; [| | |by apply bits_roundtrip_finite].
  - destruct (of_bits_fields mw ew s 0 0) as (H1 & H2 & H3); [lia..|].
    unfold of_bits, bits_of. rewrite Z.mul_0_l, !Z.add_0_r in H1, H2, H3. by rewrite H1, H2, H3.
  - destruct (of_bits_fields mw ew s (2 ^ ew - 1) 0) as (H1 & H2 & H3); [lia..|].
    unfold of_bits, bits_of. rewrite Z.add_0_r in H1, H2, H3. rewrite H1, H2, H3, !Z.eqb_refl.
    by rewrite (proj2 (Z.eqb_neq _ _)) by lia.
  - destruct (of_bits_fields mw ew false (2 ^ ew - 1) (2 ^ (mw - 1))) as (H1 & H2 & H3); [lia..|].
    unfold of_bits, bits_of. rewrite Z.add_0_l in H1, H2, H3. rewrite H1, H2, H3, !Z.eqb_refl.
    rewrite (proj2 (Z.eqb_neq (2 ^ ew - 1) 0)) by lia. by rewrite (proj2 (Z.eqb_neq _ _)) by lia.
Qed.

Lemma bits_range x : valid_binary prec emax x = true -> 0 <= bits_of mw ew x < 2 ^ (mw + ew + 1).
Proof.
  assert (4 <= 2 ^ ew) as H4 by (change 4 with (2 ^ 2); apply Z.pow_le_mono_r; lia).
  assert (0 < 2 ^ mw) as Hm by (apply Z.pow_pos_nonneg; lia).
  assert (0 < 2 ^ (mw - 1) < 2 ^ mw) as Hm1
    by (split; [apply Z.pow_pos_nonneg; lia|apply Z.pow_lt_mono_r; lia]).
  assert (2 ^ (mw + ew + 1) = 2 * (2 ^ ew * 2 ^ mw)) as -> by (rewrite !Z.pow_add_r by lia; lia).
  assert (2 ^ (mw + ew) = 2 ^ ew * 2 ^ mw) as Hp by (rewrite Z.pow_add_r by lia; lia).
  assert (2 ^ mw <= 2 ^ ew * 2 ^ mw) by nia.
  destruct x as [s|s| |s m e]; intros Hv; cbn [bits_of]; rewrite ?Hp; [destruct s; lia|destruct s; nia|nia|].
  apply bounded_inv in Hv as (He & Hb & _); [|lia]. rewrite emin_f_emin in He. unfold f_emin in *.
  assert (2 ^ prec = 2 * 2 ^ mw) as Hpr by (apply Z.pow_succ_r; lia). pose proof pow_ew as Hpe.
  destruct (Z.leb_spec (2 ^ mw) (Zpos m)); [|destruct s; lia].
  assert (0 <= e - (3 - emax - prec) + 1 <= 2 ^ ew - 2) as Hx by lia.
  assert ((e - (3 - emax - prec) + 1) * 2 ^ mw <= (2 ^ ew - 2) * 2 ^ mw) by (apply Z.mul_le_mono_nonneg_r; lia).
  destruct s; nia.
Qed.
End Bits.

Lemma d_bits_range x : d_valid x -> 0 <= d_bits x < 2 ^ 64.
Proof. intros H. apply (bits_range 52 11); [lia|lia|exact H]. Qed.

Lemma f_bits_range x : f_valid x -> 0 <= f_bits x < 2 ^ 32.
Proof. intros H. apply (bits_range 23 8); [lia|lia|exact H]. Qed.

Lemma d_bits_roundtrip x : d_valid x -> d_of_bits (d_bits x) = x.
Proof. intros H. apply bits_roundtrip; [lia|lia|exact H]. Qed.

Lemma f_bits_roundtrip x : f_valid x -> f_of_bits (f_bits x) = x.
Proof. intros H. apply bits_roundtrip; [lia|lia|exact H]. Qed.

Lemma strtod_empty : strtod [] = dzero.
Proof. reflexivity. Qed.

Lemma dopp_involutive x : dopp (dopp x) = x.
Proof. destruct x; cbn; rewrite ?negb_involutive; reflexivity. Qed.

Lemma d_to_int_range x : is_i32 (d_to_int x).
Proof. unfold is_i32, d_to_int. destruct x as [| [] | |]; lia. Qed.

Example strtod_4807 : strtod (str "4807.038") = S754_finite false 5285394176161087 (-40).
Proof. vm_compute. reflexivity. Qed.

Example strtod_forms :
  map strtod [str "1"; str "-2.5"; str " 1e3"; str "0x10"; str "abc"; str "1e999"]
  = [d_of_Z 1; ddiv (d_of_Z (-5)) (d_of_Z 2); d_of_Z 1000; d_of_Z 16; dzero; S754_infinity false].
Proof. vm_compute. reflexivity. Qed.

Example print_lf_ex :
  print_lf (strtod (str "48.1173")) = str "48.117300" /\
  print_lf (strtod (str "-11.5166666")) = str "-11.516667".
Proof. vm_compute. auto. Qed.
