(* ===== verification/GpsTypes.v ===== *)
(** The data of the GPS HAL (src/hal/gps/hal/gps_mtk_aosp.c): the command
    enumerations of the protocols it speaks, the structures it exchanges, its
    global variables, and the world a HAL function runs in. The world holds the
    globals, the parts of the operating system the HAL observes (files,
    properties, clocks, the outcomes of the system calls that can fail) and the
    trace of the effects it has had so far. *)

From stdpp Require Import base list gmap strings numbers.
From Stdlib Require Import ZArith Lia SpecFloat.
From S2P Require Import Prelude CFloat.

Local Open Scope Z_scope.

(** * Enumerations *)

(** gps_mtk_aosp.c:286-315 [MNL_CMD_INIT ..] commands from the HAL to the daemon. *)
Inductive MnlCmd :=
  | MNL_CMD_UNKNOWN
  | MNL_CMD_INIT
  | MNL_CMD_CLEANUP
  | MNL_CMD_STOP
  | MNL_CMD_START
  | MNL_CMD_RESTART
  | MNL_CMD_RESTART_HOT
  | MNL_CMD_RESTART_WARM
  | MNL_CMD_RESTART_COLD
  | MNL_CMD_RESTART_FULL
  | MNL_CMD_RESTART_AGPS
  | MNL_CMD_GPSMEASUREMENT_INIT
  | MNL_CMD_GPSMEASUREMENT_CLOSE
  | MNL_CMD_GPSNAVIGATION_INIT
  | MNL_CMD_GPSNAVIGATION_CLOSE
  | MNL_CMD_READ_EPO_TIME
  | MNL_CMD_UPDATE_EPO_FILE
  | MNL_CMD_GPS_LOG_WRITE
  | MNL_CMD_ENABLE_AGPS_DEBUG
  | MNL_CMD_DISABLE_AGPS_DEBUG.

(** gps_mtk_aosp.c:286-315 [MNL_CMD_INIT ..] their values. *)
Definition mnl_cmd (c : MnlCmd) : Z :=
  match c with
  | MNL_CMD_UNKNOWN => -1
  | MNL_CMD_INIT => 0x00
  | MNL_CMD_CLEANUP => 0x01
  | MNL_CMD_STOP => 0x02
  | MNL_CMD_START => 0x03
  | MNL_CMD_RESTART => 0x04
  | MNL_CMD_RESTART_HOT => 0x05
  | MNL_CMD_RESTART_WARM => 0x06
  | MNL_CMD_RESTART_COLD => 0x07
  | MNL_CMD_RESTART_FULL => 0x08
  | MNL_CMD_RESTART_AGPS => 0x09
  | MNL_CMD_GPSMEASUREMENT_INIT => 0x15
  | MNL_CMD_GPSMEASUREMENT_CLOSE => 0x16
  | MNL_CMD_GPSNAVIGATION_INIT => 0x17
  | MNL_CMD_GPSNAVIGATION_CLOSE => 0x18
  | MNL_CMD_READ_EPO_TIME => 0x33
  | MNL_CMD_UPDATE_EPO_FILE => 0x34
  | MNL_CMD_GPS_LOG_WRITE => 0x40
  | MNL_CMD_ENABLE_AGPS_DEBUG => 0x42
  | MNL_CMD_DISABLE_AGPS_DEBUG => 0x43
  end.

(** gps_mtk_aosp.c:317-339 [HAL_CMD_MNL_DIE ..] messages between the daemon and the HAL. *)
Inductive HalCmd :=
  | HAL_CMD_STOP_UNKNOWN
  | HAL_CMD_READ_EPO_TIME_DONE
  | HAL_CMD_UPDATE_EPO_FILE_DONE
  | HAL_CMD_READ_EPO_TIME_FAIL
  | HAL_CMD_UPDATE_EPO_FILE_FAIL
  | HAL_CMD_MNL_DIE
  | HAL_CMD_GPS_ICON
  | MNL_CMD_GPS_INJECT_TIME
  | MNL_CMD_GPS_INJECT_LOCATION
  | MNL_CMD_GPS_INJECT_TIME_REQ
  | MNL_CMD_GPS_INJECT_LOCATION_REQ
  | MNL_CMD_GPS_NLP_LOCATION_REQ
  | HAL_CMD_MEASUREMENT
  | HAL_CMD_NAVIGATION
  | HAL_CMD_SWITCH_AGPS_DEBUG_DONE
  | HAL_CMD_SWITCH_AGPS_DEBUG_FAIL.

(** gps_mtk_aosp.c:317-339 [HAL_CMD_MNL_DIE ..] their values. *)
Definition hal_cmd (c : HalCmd) : Z :=
  match c with
  | HAL_CMD_STOP_UNKNOWN => -1
  | HAL_CMD_READ_EPO_TIME_DONE => 0x35
  | HAL_CMD_UPDATE_EPO_FILE_DONE => 0x36
  | HAL_CMD_READ_EPO_TIME_FAIL => 0x37
  | HAL_CMD_UPDATE_EPO_FILE_FAIL => 0x38
  | HAL_CMD_MNL_DIE => 0x41
  | HAL_CMD_GPS_ICON => 0x42
  | MNL_CMD_GPS_INJECT_TIME => 0x46
  | MNL_CMD_GPS_INJECT_LOCATION => 0x47
  | MNL_CMD_GPS_INJECT_TIME_REQ => 0x48
  | MNL_CMD_GPS_INJECT_LOCATION_REQ => 0x49
  | MNL_CMD_GPS_NLP_LOCATION_REQ => 0x4a
  | HAL_CMD_MEASUREMENT => 0x76
  | HAL_CMD_NAVIGATION => 0x77
  | HAL_CMD_SWITCH_AGPS_DEBUG_DONE => 0x44
  | HAL_CMD_SWITCH_AGPS_DEBUG_FAIL => 0x45
  end.

(** gps_mtk_aosp.c:342-357 [AGPS_FRAMEWORK_INFO_DATA_CONN_OPEN ..] AGPS messages the HAL sends
    (HAL to MNLD to AGPSD). *)
Inductive AgpsInfo :=
  | AGPS_FRAMEWORK_INFO_DATA_CONN_OPEN
  | AGPS_FRAMEWORK_INFO_DATA_CONN_FAILED
  | AGPS_FRAMEWORK_INFO_DATA_CONN_CLOSED
  | AGPS_FRAMEWORK_INFO_NI_MESSAGE
  | AGPS_FRAMEWORK_INFO_NI_RESPOND
  | AGPS_FRAMEWORK_INFO_SET_REF_LOC
  | AGPS_FRAMEWORK_INFO_SET_SET_ID
  | AGPS_FRAMEWORK_INFO_SET_SERVER
  | AGPS_FRAMEWORK_INFO_UPDATE_NETWORK_STATE
  | AGPS_FRAMEWORK_INFO_UPDATE_NETWORK_AVAILABILITY
  | AGPS_FRAMEWORK_INFO_DATA_CONN_OPEN_IP_TYPE
  | AGPS_FRAMEWORK_INFO_INSTALL_CERTIFICATES
  | AGPS_FRAMEWORK_INFO_REVOKE_CERTIFICATES
  | AGPS_FRAMEWORK_INFO_COUNT.

(** gps_mtk_aosp.c:342-357 [AGPS_FRAMEWORK_INFO_DATA_CONN_OPEN ..] consecutive values from 125. *)
Definition agps_info (c : AgpsInfo) : Z :=
  match c with
  | AGPS_FRAMEWORK_INFO_DATA_CONN_OPEN => 125
  | AGPS_FRAMEWORK_INFO_DATA_CONN_FAILED => 126
  | AGPS_FRAMEWORK_INFO_DATA_CONN_CLOSED => 127
  | AGPS_FRAMEWORK_INFO_NI_MESSAGE => 128
  | AGPS_FRAMEWORK_INFO_NI_RESPOND => 129
  | AGPS_FRAMEWORK_INFO_SET_REF_LOC => 130
  | AGPS_FRAMEWORK_INFO_SET_SET_ID => 131
  | AGPS_FRAMEWORK_INFO_SET_SERVER => 132
  | AGPS_FRAMEWORK_INFO_UPDATE_NETWORK_STATE => 133
  | AGPS_FRAMEWORK_INFO_UPDATE_NETWORK_AVAILABILITY => 134
  | AGPS_FRAMEWORK_INFO_DATA_CONN_OPEN_IP_TYPE => 135
  | AGPS_FRAMEWORK_INFO_INSTALL_CERTIFICATES => 136
  | AGPS_FRAMEWORK_INFO_REVOKE_CERTIFICATES => 137
  | AGPS_FRAMEWORK_INFO_COUNT => 138
  end.

(** gps_mtk_aosp.c:360-369 [MNL_AGPS_CMD_NOTIFICATION ..] AGPS messages the HAL receives
    (AGPSD to MNLD to HAL). *)
Inductive MnlAgps :=
  | MNL_AGPS_CMD_NOTIFICATION
  | MNL_AGPS_CMD_DATA_CONN_REQ
  | MNL_AGPS_CMD_DATA_CONN_RELEASE
  | MNL_AGPS_CMD_REQUEST_SET_ID
  | MNL_AGPS_CMD_REQUEST_REFLOC
  | MNL_AGPS_CMD_AGPS_LOC
  | MNL_AGPS_CMD_NOTIFICATION_2
  | MNL_AGPS_CMD_DATA_CONN_REQ2.

(** gps_mtk_aosp.c:360-369 [MNL_AGPS_CMD_NOTIFICATION ..] consecutive values from 230. *)
Definition mnl_agps (c : MnlAgps) : Z :=
  match c with
  | MNL_AGPS_CMD_NOTIFICATION => 230
  | MNL_AGPS_CMD_DATA_CONN_REQ => 231
  | MNL_AGPS_CMD_DATA_CONN_RELEASE => 232
  | MNL_AGPS_CMD_REQUEST_SET_ID => 233
  | MNL_AGPS_CMD_REQUEST_REFLOC => 234
  | MNL_AGPS_CMD_AGPS_LOC => 235
  | MNL_AGPS_CMD_NOTIFICATION_2 => 236
  | MNL_AGPS_CMD_DATA_CONN_REQ2 => 237
  end.

(** gps_mtk_aosp.c:372-379 [agps_supl_notify_enum] kinds of network notification. *)
Inductive SuplNotify :=
  | AGPS_SUPL_NOTIFY_ONLY
  | AGPS_SUPL_NOTIFY_ALLOW_NO_ANSWER
  | AGPS_SUPL_NOTIFY_DENY_NO_ANSWER
  | AGPS_SUPL_NOTIFY_PRIVACY
  | AGPS_SUPL_NOTIFY_END.

(** gps_mtk_aosp.c:372-379 [agps_supl_notify_enum] consecutive values from 1. *)
Definition supl_notify (c : SuplNotify) : Z :=
  match c with
  | AGPS_SUPL_NOTIFY_ONLY => 1
  | AGPS_SUPL_NOTIFY_ALLOW_NO_ANSWER => 2
  | AGPS_SUPL_NOTIFY_DENY_NO_ANSWER => 3
  | AGPS_SUPL_NOTIFY_PRIVACY => 4
  | AGPS_SUPL_NOTIFY_END => 5
  end.

(** gps_mtk_aosp.c:483-493 [CMD_QUIT ..] one-byte commands to the GPS thread. *)
Inductive CtlCmd :=
  | CMD_QUIT
  | CMD_START
  | CMD_STOP
  | CMD_RESTART
  | CMD_DOWNLOAD
  | CMD_TEST_START
  | CMD_TEST_STOP
  | CMD_TEST_SMS_NO_RESULT.

(** gps_mtk_aosp.c:483-493 [CMD_QUIT ..] their values. *)
Definition ctl_cmd (c : CtlCmd) : Z :=
  match c with
  | CMD_QUIT => 0
  | CMD_START => 1
  | CMD_STOP => 2
  | CMD_RESTART => 3
  | CMD_DOWNLOAD => 4
  | CMD_TEST_START => 10
  | CMD_TEST_STOP => 11
  | CMD_TEST_SMS_NO_RESULT => 12
  end.

(** gps_mtk_aosp.c:398-403 [M_START .. M_MNLDIE] indices of [lock_for_sync]. *)
Inductive SyncId := M_START | M_STOP | M_CLEANUP | M_INIT | M_THREAD_EXIT | M_MNLDIE.
#[export] Instance SyncId_eq_dec : EqDecision SyncId.
Proof. solve_decision. Defined.

(** gps_mtk_aosp.c:398-403 [M_START .. M_MNLDIE] their values. *)
Definition sync_id (i : SyncId) : nat :=
  match i with
  | M_START => 0 | M_STOP => 1 | M_CLEANUP => 2 | M_INIT => 3 | M_THREAD_EXIT => 4 | M_MNLDIE => 5
  end%nat.

(** Values of the platform header hardware/gps.h that the HAL uses. *)
Definition GPS_STATUS_NONE := 0.
Definition GPS_STATUS_SESSION_BEGIN := 1.
Definition GPS_STATUS_SESSION_END := 2.
Definition GPS_STATUS_ENGINE_ON := 3.
Definition GPS_STATUS_ENGINE_OFF := 4.
Definition GPS_LOCATION_HAS_LAT_LONG := 0x0001.
Definition GPS_LOCATION_HAS_ALTITUDE := 0x0002.
Definition GPS_LOCATION_HAS_SPEED := 0x0004.
Definition GPS_LOCATION_HAS_BEARING := 0x0008.
Definition GPS_LOCATION_HAS_ACCURACY := 0x0010.
Definition GPS_CAPABILITY_SCHEDULING := 0x0001.
Definition GPS_MAX_SVS := 32.
Definition GNSS_MAX_SVS := 64.

(** gps_mtk_aosp.c:423-428 [SV_TYPE] constellation prefix of a sentence. *)
Inductive SV_TYPE := GPS_SV | GLONASS_SV | BDS_SV | GALILEO_SV.

(** * Structures *)

(** The location reported to the framework (GpsLocation of hardware/gps.h). *)
Record GpsLocation := mkLoc {
  loc_flags : Z;
  latitude : double;
  longitude : double;
  altitude : double;
  speed : float;
  bearing : float;
  accuracy : float;
  timestamp : Z;
}.
#[export] Instance eta_GpsLocation : Eta GpsLocation := fun r =>
  mkLoc (loc_flags r) (latitude r) (longitude r) (altitude r) (speed r) (bearing r) (accuracy r) (timestamp r).

(** gps_mtk_aosp.c:240-244 [ntp_context] time injected into the daemon. *)
Record ntp_context := mkNtp {
  ntp_time : Z;
  ntp_timeReference : Z;
  ntp_uncertainty : Z;
}.

(** gps_mtk_aosp.c:246-253 [nlp_context] location injected into the daemon. *)
Record nlp_context := mkNlp {
  nlp_latitude : double;
  nlp_longitude : double;
  nlp_accuracy : float;
  nlp_tv_sec : Z;
  nlp_tv_nsec : Z;
  nlp_type : Z;
  nlp_started : Z;
}.
#[export] Instance eta_nlp_context : Eta nlp_context := fun r =>
  mkNlp (nlp_latitude r) (nlp_longitude r) (nlp_accuracy r) (nlp_tv_sec r) (nlp_tv_nsec r) (nlp_type r) (nlp_started r).

(** One satellite of a GpsSvStatus. *)
Record GpsSvInfo := mkSv {
  sv_prn : Z;
  sv_snr : float;
  sv_elevation : float;
  sv_azimuth : float;
}.

(** One satellite of a GnssSvStatus. *)
Record GnssSvInfo := mkGnssSv {
  gs_svid : Z;
  gs_constellation : Z;
  gs_c_n0_dbhz : float;
  gs_elevation : float;
  gs_azimuth : float;
  gs_flags : Z;
}.

(** The callback table of the framework: which entries are set. A call through
    an entry that is null is undefined. *)
Record GpsCallbacks := mkCbs {
  cb_size : Z;
  cb_location : bool;
  cb_status : bool;
  cb_sv_status : bool;
  cb_nmea : bool;
  cb_set_capabilities : bool;
  cb_acquire_wakelock : bool;
  cb_release_wakelock : bool;
  cb_create_thread : bool;
  cb_request_utc_time : bool;
  cb_gnss_sv_status : bool;
}.

(** The text of a network-initiated notification. *)
Record GpsNiNotification := mkNi {
  ni_notification_id : Z;
  ni_ni_type : Z;
  ni_notify_flags : Z;
  ni_requestor_id : list Z;
  ni_text : list Z;
  ni_requestor_id_encoding : Z;
  ni_text_encoding : Z;
  ni_timeout : Z;
  ni_default_response : Z;
}.

(** The structures an AGPS status is reported in: two of the HAL's own, and the
    platform's. *)
Inductive AgpsStatusKind := AGpsStatus_v1 | AGpsStatus_v2 | AGpsStatus.

(** gps_mtk_aosp.c:142-147 [agps_context] the AGPS callbacks that are registered. *)
Record agps_context := mkAgps {
  send_fd : Z;
  agps_callbacks : bool;
  gps_ni_callbacks : bool;
  agps_ril_callbacks : bool;
}.
#[export] Instance eta_agps_context : Eta agps_context := fun r =>
  mkAgps (send_fd r) (agps_callbacks r) (gps_ni_callbacks r) (agps_ril_callbacks r).

(** gps_mtk_aosp.c:1677-1699 [GpsState] the connection to the daemon. *)
Record GpsState := mkState {
  st_init : Z;
  st_fd : Z;
  st_control0 : Z;
  st_control1 : Z;
  st_sockfd : Z;
  st_test_time : Z;
  st_epoll_hd : Z;
  st_start_flag : Z;
  st_sock_codec : Z;
  st_epo_data_updated : Z;
  st_thread_epo_exit_flag : Z;
}.
#[export] Instance eta_GpsState : Eta GpsState := fun r =>
  mkState (st_init r) (st_fd r) (st_control0 r) (st_control1 r) (st_sockfd r) (st_test_time r)
    (st_epoll_hd r) (st_start_flag r) (st_sock_codec r) (st_epo_data_updated r) (st_thread_epo_exit_flag r).

(** gps_mtk_aosp.c:261-270 [gps_epo_period ..] the EPO (extended prediction orbit)
    download configuration and progress. *)
Record EpoState := mkEpo {
  gps_epo_period : Z;
  wifi_epo_period : Z;
  gps_epo_download_days : Z;
  gps_epo_enable : Z;
  gps_epo_wifi_trigger : Z;
  gps_epo_file_count : Z;
  gps_epo_file_name : string;
  gps_epo_md_file_name : string;
  gps_epo_type : Z;
  gnss_mode : Z;
  epo_download_failed : Z;
  epo_download_retry : Z;
  epo_counter : Z;
  epo_file_retrying : Z;
  epo_retry_time : Z;
  mGpsXtraCallbacks : bool;
  retry_timer_fd : Z;
}.
#[export] Instance eta_EpoState : Eta EpoState := fun r =>
  mkEpo (gps_epo_period r) (wifi_epo_period r) (gps_epo_download_days r) (gps_epo_enable r)
    (gps_epo_wifi_trigger r) (gps_epo_file_count r) (gps_epo_file_name r) (gps_epo_md_file_name r)
    (gps_epo_type r) (gnss_mode r) (epo_download_failed r) (epo_download_retry r) (epo_counter r)
    (epo_file_retrying r) (epo_retry_time r) (mGpsXtraCallbacks r) (retry_timer_fd r).

(** gps_mtk_aosp.c:261-270 [gps_epo_period ..] the initial values of those variables. *)
Definition epo_init : EpoState :=
  mkEpo 3 1 30 1 0 0 "" "" 0 2 0 1 1 50 0 false 0.

(** * Effects *)

(** What a routine asks of the operating system while it sets up or closes
    descriptors. *)
Inductive sysop :=
  | OpUnlink (path : string)
  | OpBind (fd : Z) (path : string)
  | OpChmod (path : string) (mode : Z)
  | OpChown (path : string) (group : string)
  | OpListen (fd backlog : Z)
  | OpEpollAdd (epoll fd : Z)
  | OpEpollDel (epoll fd : Z)
  | OpClose (fd : Z).

Inductive event :=
  | EvSend (dest : string) (buf : list Z)
  | EvControl (cmd : CtlCmd)
  | EvLocation (l : GpsLocation)
  | EvStatus (status : Z)
  | EvSvStatus (num_svs : Z) (svs : list GpsSvInfo) (used_in_fix_mask : Z)
  | EvGnssSvStatus (num_svs : Z) (svs : list GnssSvInfo)
  | EvNmea (ts : Z) (sentence : list Z)
  | EvCapabilities (caps : Z)
  | EvAcquireWakelock
  | EvReleaseWakelock
  | EvCreateThread
  | EvCreateEpoThread
  | EvSys (op : sysop)
  | EvRequestUtcTime
  | EvNiNotify (n : GpsNiNotification)
  | EvAgpsStatus (kind : AgpsStatusKind) (type status ipaddr : Z) (addr : list Z)
  | EvRequestSetId (flags : Z)
  | EvRequestRefLoc (flags : Z)
  | EvMeasurement (count : Z) (measurement clock : list (string * Z))
  | EvNavigation (msg : list (string * Z)) (data : list Z)
  | EvDownloadRequest
  | EvCodecReply (data : list Z)
  | EvDownload (url : list Z) (file : string)
  | EvRetryTimer (seconds : Z).

(** * The operating system as the HAL sees it *)

(** A download: no handle could be made, or a result code (0 for success) with the
    bytes received. *)
Inductive curl_result := CurlNull | CurlDone (code : Z) (bytes : list Z).

Record File := mkFile { f_data : list Z; f_mtime : Z }.

(** The results of the calls that set up descriptors and threads: [open] of the
    GPS device, [epoll_create], [socketpair] ([None] when it fails), the handle of
    the thread the framework creates (0 when it fails), the result of
    [pthread_create], and [socket] and [bind] for the daemon's and the codec's
    sockets with the codec's [listen]; the results of the timer calls, where
    [timer_create] gives the timer or fails. *)
Record OsResults := mkOs {
  os_gps_fd : Z;
  os_epoll_fd : Z;
  os_control : option (Z * Z);
  os_thread : Z;
  os_pthread : Z;
  os_mnld_sock : Z;
  os_mnld_bind : Z;
  os_codec_sock : Z;
  os_codec_bind : Z;
  os_codec_listen : Z;
  os_timer_delete : Z;
  os_timer_create : option Z;
  os_timer_settime : Z;
}.

(** [e_sendto], [e_ctl_write] and [e_epoll_ctl] list the error numbers of the
    coming calls, 0 for success; past the end of the list calls succeed. [e_curl] lists the
    outcomes of the coming downloads; past its end there is no connection. Files
    in [e_unreadable] cannot be opened for reading or locked. [e_malloc] tells which of the
    coming allocations succeed; past its end all do. *)
Record Env := mkEnv {
  e_sendto : list Z;
  e_ctl_write : list Z;
  e_files : gmap string File;
  e_readonly : gset string;
  e_props : gmap string (list Z);
  e_now : Z;
  e_gmtoff : Z;
  e_monotonic : option (Z * Z);
  e_unreadable : gset string;
  e_curl : list curl_result;
  e_os : OsResults;
  e_epoll_ctl : list Z;
  e_malloc : list bool;
}.
#[export] Instance eta_Env : Eta Env := fun r =>
  mkEnv (e_sendto r) (e_ctl_write r) (e_files r) (e_readonly r) (e_props r) (e_now r) (e_gmtoff r) (e_monotonic r)
    (e_unreadable r) (e_curl r) (e_os r) (e_epoll_ctl r) (e_malloc r).

(** * The world *)

Record World := mkWorld {
  w_state : GpsState;
  w_agps : agps_context;
  w_sock : Z;
  w_cbs : GpsCallbacks;
  w_epo : EpoState;
  w_sta : Z;
  w_flag_unlock : Z;
  w_started : Z;
  w_nw_connected : Z;
  w_nw_type : Z;
  w_interval : float;
  w_gps_mode : Z;
  w_end_tag : Z;
  w_used_in_fix : list Z;
  w_meas_init : Z;
  w_nav_init : Z;
  w_cond : list Z;
  w_env : Env;
  w_trace : list event;
}.
#[export] Instance eta_World : Eta World := fun r =>
  mkWorld (w_state r) (w_agps r) (w_sock r) (w_cbs r) (w_epo r) (w_sta r) (w_flag_unlock r) (w_started r)
    (w_nw_connected r) (w_nw_type r) (w_interval r) (w_gps_mode r) (w_end_tag r) (w_used_in_fix r)
    (w_meas_init r) (w_nav_init r) (w_cond r) (w_env r) (w_trace r).

(** gps_mtk_aosp.c:5672-5681 [gps__get_gps_interface] the initial values
    of the globals, with [sock] the socket the interface was opened with. *)
Definition world0 (sock : Z) (cbs : GpsCallbacks) (env : Env) : World :=
  mkWorld (mkState 0 0 0 0 0 0 0 0 0 0 0) (mkAgps sock false false false) sock cbs epo_init
    GPS_STATUS_NONE 0 0 0 0 dzero (-1) 0 (zeros 256) 0 0 (zeros 6) env [].

Definition HAL (A : Type) : Type := ST World A.

Local Open Scope st_scope.
Local Open Scope rec_scope.

(** Record an effect. *)
Definition emit (e : event) : HAL unit := modM (fun w => w <| w_trace := w_trace w ++ [e] |>).

(** A call of a framework callback. *)
Definition call_cb (entry : GpsCallbacks -> bool) (e : event) : HAL unit :=
  let* w := getM in if entry (w_cbs w) then emit e else undefM.

Definition gets {A} (f : World -> A) : HAL A := let* w := getM in retM (f w).

Lemma emit_run e w : emit e w = Ok (tt, w <| w_trace := w_trace w ++ [e] |>).
Proof. reflexivity. Qed.

Lemma call_cb_set entry e w :
  entry (w_cbs w) = true -> call_cb entry e w = Ok (tt, w <| w_trace := w_trace w ++ [e] |>).
Proof. intros H. unfold call_cb. run. by rewrite H. Qed.

Lemma call_cb_null entry e w : entry (w_cbs w) = false -> call_cb entry e w = Undef.
Proof. intros H. unfold call_cb. run. by rewrite H. Qed.

(** A callback table with every entry set, and a quiet environment. *)
Definition all_cbs : GpsCallbacks := mkCbs 48 true true true true true true true true true true.
Definition quiet_os : OsResults := mkOs 3 4 (Some (5, 6)) 1 0 7 0 8 0 0 0 (Some 9) 0.
Definition quiet_env : Env := mkEnv [] [] ∅ ∅ ∅ 0 0 None ∅ [] quiet_os [] [].
