(* ===== verification/Buff.v ===== *)
(** The marshalling routines of the HAL/daemon protocol
    (src/hal/gps/hal/gps_mtk_aosp.c, [buff_put_*] and [buff_get_*]) and the two
    text conversions used for network-initiated notifications. A buffer is its
    bytes with the running offset; a copy that leaves the buffer is [None]. *)

From stdpp Require Import base list gmap strings numbers.
From Stdlib Require Import ZArith Lia.
From S2P Require Import Prelude.

Local Open Scope Z_scope.

(** A buffer under construction or being read: its bytes and [*offset]. *)
Definition cursor : Type := list Z * Z.

(** Feeding a buffer to the next routine. *)
Declare Scope buff_scope.
Notation "b |>> f" := (@mbind option option_bind _ _ f b)
  (at level 61, left associativity) : buff_scope.

(** * Writers *)

(** gps_mtk_aosp.c:730-733 [buff_put_int]. *)
Definition buff_put_int (input : Z) (b : cursor) : option cursor :=
  buff ← mem_write b.1 b.2 (le_bytes 4 input);
  Some (buff, b.2 + 4).

(** gps_mtk_aosp.c:735-743 [buff_put_string] the length word counts the NUL. *)
Definition buff_put_string (s : list Z) (b : cursor) : option cursor :=
  let len := zlen s + 1 in
  buff ← mem_write b.1 b.2 (le_bytes 4 len);
  let offset := b.2 + 4 in
  buff ← mem_write buff offset (s ++ [0]);
  Some (buff, offset + len).

(** gps_mtk_aosp.c:744-750 [buff_put_binary]. *)
Definition buff_put_binary (input : list Z) (b : cursor) : option cursor :=
  let len := zlen input in
  buff ← mem_write b.1 b.2 (le_bytes 4 len);
  let offset := b.2 + 4 in
  buff ← mem_write buff offset input;
  Some (buff, offset + len).

(** gps_mtk_aosp.c:752-755 [buff_put_struct]. *)
Definition buff_put_struct (input : list Z) (b : cursor) : option cursor :=
  buff ← mem_write b.1 b.2 input;
  Some (buff, b.2 + zlen input).

(** * Readers *)

(** gps_mtk_aosp.c:758-762 [buff_get_int]. *)
Definition buff_get_int (b : cursor) : option (Z * cursor) :=
  bs ← mem_read b.1 b.2 4;
  Some (i32 (le_value bs), (b.1, b.2 + 4)).

(** gps_mtk_aosp.c:764-771 [buff_get_string] copies into the array [dst]. *)
Definition buff_get_string (dst : list Z) (b : cursor) : option (Z * list Z * cursor) :=
  '(len, b) ← buff_get_int b;
  bs ← mem_read b.1 b.2 len;
  dst ← mem_write dst 0 bs;
  Some (len, dst, (b.1, b.2 + len)).

(** gps_mtk_aosp.c:772-775 [buff_get_struct]. *)
Definition buff_get_struct (size : Z) (b : cursor) : option (list Z * cursor) :=
  bs ← mem_read b.1 b.2 size;
  Some (bs, (b.1, b.2 + size)).

(** gps_mtk_aosp.c:777-784 [buff_get_binary]. *)
Definition buff_get_binary (dst : list Z) (b : cursor) : option (Z * list Z * cursor) :=
  '(len, b) ← buff_get_int b;
  bs ← mem_read b.1 b.2 len;
  dst ← mem_write dst 0 bs;
  Some (len, dst, (b.1, b.2 + len)).

(** * Text conversions *)

(** gps_mtk_aosp.c:821-825 [asc_str_to_usc2_str, loop] one big-endian unit per character. *)
Fixpoint usc2_units (input : list Z) (output : list Z) (len : Z) : option (list Z * Z) :=
  match input with
  | [] => Some (output, len)
  | c :: input' =>
      output ← mem_write output len [0];
      output ← mem_write output (len + 1) [c];
      usc2_units input' output (len + 2)
  end.

(** gps_mtk_aosp.c:814-829 [asc_str_to_usc2_str] byte order mark, units, terminator. *)
Definition asc_str_to_usc2_str (output : list Z) (input : list Z) : option (list Z * Z) :=
  output ← mem_write output 0 [0xfe];
  output ← mem_write output 1 [0xff];
  '(output, len) ← usc2_units input output 2;
  output ← mem_write output (len + 1) [0];
  output ← mem_write output (len + 2) [0];
  Some (output, len).

(** gps_mtk_aosp.c:836-840 [raw_data_to_hex_string, nibble]. *)
Definition hex_nibble (tmp : Z) : Z :=
  if (0 <=? tmp) && (tmp <=? 9) then tmp + chr "0" else (tmp - 10) + chr "A".

(** gps_mtk_aosp.c:831-849 [raw_data_to_hex_string] [i] is the loop counter. *)
Fixpoint raw_data_to_hex_string_from (i : Z) (output : list Z) (input : list Z) : option (list Z) :=
  match input with
  | [] => Some output
  | c :: input' =>
      output ← mem_write output (i * 2) [hex_nibble (Z.land (Z.shiftr c 4) 0xf)];
      output ← mem_write output (i * 2 + 1) [hex_nibble (Z.land c 0xf)];
      raw_data_to_hex_string_from (i + 1) output input'
  end.

(** gps_mtk_aosp.c:831-849 [raw_data_to_hex_string] the first [input_len] bytes of
    [input], which the caller guarantees to exist. *)
Definition raw_data_to_hex_string (output input : list Z) (input_len : Z) : option (list Z) :=
  raw_data_to_hex_string_from 0 output (take (Z.to_nat input_len) input).

(** * Abstract messages

    What a sequence of writers leaves in a buffer: the concatenation of the
    encodings of the items. *)

Inductive item :=
  | IInt (z : Z)
  | IStr (s : list Z)
  | IBin (b : list Z)
  | IStruct (b : list Z).

Definition item_bytes (i : item) : list Z :=
  match i with
  | IInt z => le_bytes 4 z
  | IStr s => le_bytes 4 (zlen s + 1) ++ s ++ [0]
  | IBin b => le_bytes 4 (zlen b) ++ b
  | IStruct b => b
  end.

Definition put_item (i : item) (b : cursor) : option cursor :=
  match i with
  | IInt z => buff_put_int z b
  | IStr s => buff_put_string s b
  | IBin x => buff_put_binary x b
  | IStruct x => buff_put_struct x b
  end.

Fixpoint put_items (l : list item) (b : cursor) : option cursor :=
  match l with
  | [] => Some b
  | i :: l' => b' ← put_item i b; put_items l' b'
  end.

Definition encode (l : list item) : list Z := concat (map item_bytes l).

(** A message in a zero-initialised buffer of [size] bytes. *)
Definition message (size : nat) (l : list item) : list Z :=
  encode l ++ zeros (size - length (encode l)).

(** * Writers refine the abstract message *)

Section Writers.
Variables (pre old : list Z).

(** Every writer, started right after [pre], replaces the bytes that follow. *)
Definition writes (put : cursor -> option cursor) (bs : list Z) : Prop :=
  put (pre ++ old, zlen pre) =
    if zlen bs <=? zlen old
    then Some ((pre ++ bs) ++ drop (length bs) old, zlen (pre ++ bs))
    else None.

Lemma split_old (n : nat) : (n <= length old)%nat ->
  exists o1 o2, old = o1 ++ o2 /\ length o1 = n /\ drop n old = o2.
Proof.
  intros Hn. exists (take n old), (drop n old). rewrite take_drop, length_take.
  split_and!; [done|lia|done].
Qed.

Lemma writes_mem_write bs off :
  zlen pre = off ->
  mem_write (pre ++ old) off bs =
    if zlen bs <=? zlen old then Some ((pre ++ bs) ++ drop (length bs) old) else None.
Proof.
  intros <-. destruct (Z.leb_spec (zlen bs) (zlen old)) as [H|H].
  - destruct (split_old (length bs)) as (o1 & o2 & -> & Hl & ->); [unfold zlen in H; lia|].
    rewrite mem_write_at by done. by rewrite (app_assoc pre bs o2).
  - apply mem_write_None; [apply zlen_nonneg|]. rewrite zlen_app. lia.
Qed.

Lemma writes_int z : writes (buff_put_int z) (item_bytes (IInt z)).
Proof.
  unfold writes, buff_put_int. cbn [fst snd item_bytes].
  rewrite writes_mem_write by done. rewrite zlen_app, zlen_le_bytes. by destruct (_ <=? _).
Qed.

Lemma writes_struct b : writes (buff_put_struct b) (item_bytes (IStruct b)).
Proof.
  unfold writes, buff_put_struct. cbn [fst snd item_bytes].
  rewrite writes_mem_write, zlen_app by done. by destruct (_ <=? _).
Qed.
End Writers.

(** Writing one byte at the end of a prefix. *)
Lemma write1 pre o out b off :
  off = zlen pre -> mem_write (pre ++ o :: out) off [b] = Some ((pre ++ [b]) ++ out).
Proof.
  intros ->. pose proof (mem_write_at pre [o] out [b] eq_refl) as H. cbn [app] in H.
  by rewrite H, <- app_assoc.
Qed.

(** Two writes in a row: a length word, then the payload. *)
Lemma writes_two pre old n body :
  (buff ← mem_write (pre ++ old) (zlen pre) (le_bytes 4 n);
   buff ← mem_write buff (zlen pre + 4) body;
   Some (buff, zlen pre + 4 + zlen body)) =
    if zlen (le_bytes 4 n ++ body) <=? zlen old
    then Some ((pre ++ le_bytes 4 n ++ body) ++ drop (length (le_bytes 4 n ++ body)) old,
               zlen (pre ++ le_bytes 4 n ++ body))
    else None.
Proof.
  rewrite writes_mem_write by done. rewrite !zlen_app, zlen_le_bytes.
  pose proof (zlen_nonneg body).
  destruct (Z.leb_spec (Z.of_nat 4) (zlen old)) as [H4|H4]; cbn [mbind option_bind].
  2: { by rewrite (proj2 (Z.leb_gt _ _)) by lia. }
  rewrite writes_mem_write by (rewrite zlen_app, zlen_le_bytes; lia).
  assert (zlen (drop (length (le_bytes 4 n)) old) = zlen old - 4) as Hd.
  { unfold zlen in *. rewrite length_drop, length_le_bytes. lia. }
  rewrite Hd. destruct (Z.leb_spec (zlen body) (zlen old - 4));
    [rewrite (proj2 (Z.leb_le _ _)) by lia|by rewrite (proj2 (Z.leb_gt _ _)) by lia].
  cbn [mbind option_bind]. rewrite drop_drop, length_app. do 2 f_equal; [by rewrite <- !app_assoc|lia].
Qed.

Lemma writes_binary pre old b : writes pre old (buff_put_binary b) (item_bytes (IBin b)).
Proof. apply writes_two. Qed.

Lemma writes_string pre old s : writes pre old (buff_put_string s) (item_bytes (IStr s)).
Proof.
  unfold writes, buff_put_string. cbn [fst snd item_bytes].
  rewrite <- writes_two. by rewrite zlen_app.
Qed.

Lemma writes_item pre old i : writes pre old (put_item i) (item_bytes i).
Proof.
  destruct i; [apply writes_int|apply writes_string|apply writes_binary|apply writes_struct].
Qed.

Lemma encode_cons i l : encode (i :: l) = item_bytes i ++ encode l.
Proof. reflexivity. Qed.

Lemma put_items_writes l pre old : writes pre old (put_items l) (encode l).
Proof.
  revert pre old. induction l as [|i l IH]; intros pre old; unfold writes; cbn [put_items].
  - change (encode []) with (@nil Z). rewrite zlen_nil.
    rewrite (proj2 (Z.leb_le 0 (zlen old))) by apply zlen_nonneg. by rewrite !app_nil_r, drop_0.
  - rewrite (writes_item pre old i), encode_cons, (zlen_app (item_bytes i)).
    pose proof (zlen_nonneg (encode l)).
    destruct (Z.leb_spec (zlen (item_bytes i)) (zlen old)); cbn [mbind option_bind].
    2: { by rewrite (proj2 (Z.leb_gt _ _)) by lia. }
    rewrite IH, length_app, drop_drop, <- !app_assoc.
    assert (zlen (drop (length (item_bytes i)) old) = zlen old - zlen (item_bytes i)) as ->
      by (unfold zlen in *; rewrite length_drop; lia).
    zb; done || lia.
Qed.

(** The whole buffer after writing [l] at offset 0. *)
Lemma put_items_message size l :
  put_items l (zeros size, 0) =
    if zlen (encode l) <=? Z.of_nat size then Some (message size l, zlen (encode l)) else None.
Proof.
  pose proof (put_items_writes l [] (zeros size)) as H.
  unfold writes in H. cbn [app] in H. rewrite zlen_nil, zlen_zeros in H. rewrite H.
  unfold message, zeros. by rewrite drop_replicate.
Qed.

Lemma message_length size l :
  zlen (encode l) <= Z.of_nat size -> zlen (message size l) = Z.of_nat size.
Proof. unfold message. intros H. rewrite zlen_app, zlen_zeros. unfold zlen in *. lia. Qed.

(** * Readers invert the writers *)

(** [reads get bs v]: reading at the position where [bs] starts yields [v] and
    moves past it. *)
Definition reads {A} (get : cursor -> option (A * cursor)) (bs : list Z) (v : A) : Prop :=
  forall pre post, get (pre ++ bs ++ post, zlen pre) = Some (v, (pre ++ bs ++ post, zlen (pre ++ bs))).

Lemma le4_i32 z : i32 (le_value (le_bytes 4 z)) = i32 z.
Proof. rewrite le_value_bytes. apply i32_u32. Qed.

Lemma reads_int z : is_i32 z -> reads buff_get_int (item_bytes (IInt z)) z.
Proof.
  intros Hz pre post. unfold buff_get_int. cbn [fst snd item_bytes].
  assert (H4 : 4 = zlen (le_bytes 4 z)) by (by rewrite zlen_le_bytes).
  rewrite H4, mem_read_at. cbn [mbind option_bind].
  by rewrite le4_i32, (i32_id z Hz), zlen_app.
Qed.

Lemma reads_struct b : reads (buff_get_struct (zlen b)) (item_bytes (IStruct b)) b.
Proof.
  intros pre post. unfold buff_get_struct. cbn [fst snd item_bytes].
  rewrite mem_read_at. cbn [mbind option_bind]. by rewrite zlen_app.
Qed.

(** A length-prefixed payload lands at the start of the destination array. *)
Lemma reads_prefixed dst body :
  zlen body <= zlen dst -> is_i32 (zlen body) ->
  reads (fun b => '(len, d, b) ← buff_get_binary dst b; Some ((len, d), b))
    (le_bytes 4 (zlen body) ++ body)
    (zlen body, body ++ drop (length body) dst).
Proof.
  intros Hd Hi pre post. unfold buff_get_binary.
  rewrite <- app_assoc.
  pose proof (reads_int (zlen body) Hi pre (body ++ post)) as E. cbn [item_bytes] in E. rewrite E.
  cbn [mbind option_bind fst snd]. rewrite (app_assoc pre (le_bytes 4 (zlen body)) (body ++ post)).
  rewrite mem_read_at. cbn [mbind option_bind].
  rewrite mem_write_Some by lia. change (Z.to_nat 0) with 0%nat. cbn [take app Nat.add].
  rewrite !zlen_app, Z.add_assoc. reflexivity.
Qed.

Lemma reads_binary dst body :
  zlen body <= zlen dst -> is_i32 (zlen body) ->
  reads (fun b => '(len, d, b) ← buff_get_binary dst b; Some ((len, d), b))
    (item_bytes (IBin body)) (zlen body, body ++ drop (length body) dst).
Proof. apply reads_prefixed. Qed.

Lemma reads_string dst s :
  zlen s + 1 <= zlen dst -> is_i32 (zlen s + 1) ->
  reads (fun b => '(len, d, b) ← buff_get_string dst b; Some ((len, d), b))
    (item_bytes (IStr s)) (zlen s + 1, s ++ 0 :: drop (length s + 1) dst).
Proof.
  intros Hd Hi pre post.
  pose proof (reads_prefixed dst (s ++ [0])) as H.
  rewrite zlen_app in H. specialize (H Hd Hi pre post). cbn beta in H.
  rewrite length_app, <- (app_assoc s [0]) in H. exact H.
Qed.

(** * Hexadecimal text *)

(** Reference: the hexadecimal text of a byte string. *)
Definition hex_of (bs : list Z) : list Z :=
  concat (map (fun c => [hex_nibble (c / 16); hex_nibble (c mod 16)]) bs).

Definition nibble_of (h : Z) : Z := if h <=? 57 then h - 48 else h - 55.

Fixpoint unhex (l : list Z) : list Z :=
  match l with
  | a :: b :: l' => nibble_of a * 16 + nibble_of b :: unhex l'
  | _ => []
  end.

Lemma hex_nibble_of n : 0 <= n < 16 -> nibble_of (hex_nibble n) = n.
Proof.
  intros H. unfold hex_nibble. change (chr "0") with 48. change (chr "A") with 65.
  rewrite (proj2 (Z.leb_le 0 n)) by lia. cbn [andb].
  destruct (Z.leb_spec n 9); unfold nibble_of; zb; lia.
Qed.

Lemma unhex_hex_of bs : Forall is_byte bs -> unhex (hex_of bs) = bs.
Proof.
  induction 1 as [|b bs Hb Hbs IH]; cbn [hex_of map concat app unhex]; [done|].
  unfold is_byte in Hb. fold (hex_of bs). rewrite IH.
  rewrite !hex_nibble_of by (Z.div_mod_to_equations; lia). f_equal. Z.div_mod_to_equations. lia.
Qed.

Lemma length_hex_of bs : length (hex_of bs) = (2 * length bs)%nat.
Proof. induction bs as [|b bs IH]; cbn; [done|]. fold (hex_of bs). rewrite IH. lia. Qed.

Lemma nibbles c : is_byte c -> Z.land (Z.shiftr c 4) 0xf = c / 16 /\ Z.land c 0xf = c mod 16.
Proof.
  intros [H1 H2]. split.
  - rewrite Z.shiftr_div_pow2 by lia. change 0xf with (Z.ones 4).
    rewrite Z.land_ones by lia. apply Z.mod_small. change (2 ^ 4) with 16. split.
    + apply Z.div_pos; lia.
    + apply Z.div_lt_upper_bound; lia.
  - change 0xf with (Z.ones 4). by rewrite Z.land_ones by lia.
Qed.

Lemma hex_string_from input done_ i output :
  Forall is_byte input -> zlen done_ = i * 2 -> zlen (hex_of input) <= zlen output ->
  raw_data_to_hex_string_from i (done_ ++ output) input
    = Some ((done_ ++ hex_of input) ++ drop (length (hex_of input)) output).
Proof.
  intros Hin. revert done_ i output.
  induction Hin as [|c input Hc Hin IH]; intros done_ i output Hi Ho; cbn [raw_data_to_hex_string_from].
  - by rewrite app_nil_r.
  - destruct (nibbles c Hc) as [-> ->].
    assert (hex_of (c :: input) = hex_nibble (c / 16) :: hex_nibble (c mod 16) :: hex_of input)
      as Ex by reflexivity.
    rewrite Ex in Ho |- *. rewrite !zlen_cons in Ho. pose proof (zlen_nonneg (hex_of input)).
    destruct output as [|o1 [|o2 output]]; rewrite ?zlen_cons, ?zlen_nil in Ho;
      [lia|lia|].
    rewrite write1 by done. cbn [mbind option_bind].
    rewrite write1 by (rewrite zlen_app; change (zlen [_]) with 1; lia). cbn [mbind option_bind].
    rewrite IH.
    + cbn [length]. rewrite <- !app_assoc. reflexivity.
    + rewrite !zlen_app. change (zlen [_]) with 1. lia.
    + lia.
Qed.

(** * UCS-2 text *)

(** Reference: the UCS-2 encoding of an ASCII string, with its byte order mark. *)
Definition usc2_of (s : list Z) : list Z := 0xfe :: 0xff :: concat (map (fun c => [0; c]) s).

Fixpoint usc2_text (l : list Z) : list Z :=
  match l with
  | _ :: c :: l' => c :: usc2_text l'
  | _ => []
  end.

Lemma usc2_of_inv s : usc2_text (drop 2 (usc2_of s)) = s.
Proof.
  cbn [usc2_of drop]. rewrite drop_0. induction s as [|c s IH]; cbn; [done|]. by rewrite IH.
Qed.

Lemma length_usc2_of s : length (usc2_of s) = (2 * length s + 2)%nat.
Proof. cbn. induction s as [|c s IH]; cbn in *; lia. Qed.

Lemma usc2_of_range s : Forall is_byte s -> Forall is_byte (usc2_of s).
Proof.
  intros H. unfold usc2_of. do 2 (constructor; [unfold is_byte; lia|]).
  induction H as [|c s Hc Hs IH]; cbn; [done|]. do 2 (constructor; [done || (unfold is_byte; lia)|]). done.
Qed.

Lemma usc2_units_spec s done_ output :
  2 * zlen s <= zlen output ->
  usc2_units s (done_ ++ output) (zlen done_) =
    Some ((done_ ++ concat (map (fun c => [0; c]) s)) ++ drop (2 * length s) output,
          zlen done_ + 2 * zlen s).
Proof.
  revert done_ output. induction s as [|c s IH]; intros done_ output H; cbn [usc2_units].
  - cbn [map concat length Nat.mul Nat.add]. rewrite app_nil_r, drop_0. change (zlen []) with 0.
    do 2 f_equal. lia.
  - rewrite zlen_cons in H. pose proof (zlen_nonneg s).
    destruct output as [|o1 [|o2 output]]; rewrite ?zlen_cons, ?zlen_nil in H; [lia|lia|].
    rewrite write1 by done. cbn [mbind option_bind].
    rewrite write1 by (by rewrite zlen_app). cbn [mbind option_bind].
    replace (zlen done_ + 2) with (zlen ((done_ ++ [0]) ++ [c])) by (rewrite !zlen_app, !zlen_cons, zlen_nil; lia).
    rewrite IH by lia. rewrite !zlen_app. cbn [map concat]. change (zlen [0]) with 1.
    change (zlen [c]) with 1.
    replace (2 * length (c :: s))%nat with (S (S (2 * length s))) by (cbn; lia).
    cbn [drop]. rewrite <- !app_assoc, zlen_cons. cbn [app]. do 2 f_equal. lia.
Qed.

Lemma usc2_units_overflow s done_ output :
  zlen output < 2 * zlen s -> usc2_units s (done_ ++ output) (zlen done_) = None.
Proof.
  revert done_ output. induction s as [|c s IH]; intros done_ output H; cbn [usc2_units].
  - change (zlen []) with 0 in H. pose proof (zlen_nonneg output). lia.
  - rewrite zlen_cons in H. pose proof (zlen_nonneg done_).
    destruct output as [|o1 [|o2 output]].
    + by rewrite mem_write_None by (rewrite ?app_nil_r; change (zlen [_]) with 1; lia).
    + rewrite write1 by done. cbn [mbind option_bind].
      by rewrite mem_write_None by (rewrite ?app_nil_r, ?zlen_app; change (zlen [_]) with 1; lia).
    + rewrite !zlen_cons in H. rewrite write1 by done. cbn [mbind option_bind].
      rewrite write1 by (by rewrite zlen_app). cbn [mbind option_bind].
      replace (zlen done_ + 2) with (zlen ((done_ ++ [0]) ++ [c]))
        by (rewrite !zlen_app; change (zlen [_]) with 1; lia).
      apply IH. lia.
Qed.

(** Writing a byte into the zeros that follow a prefix, at a distance [d]. *)
Lemma write_zero_in_zeros pre n d :
  mem_write (pre ++ zeros n) (zlen pre + Z.of_nat d) [0] =
    if (d <? n)%nat then Some (pre ++ zeros n) else None.
Proof.
  destruct (Nat.ltb_spec d n) as [H|H].
  - assert (zeros n = zeros d ++ [0] ++ zeros (n - d - 1)) as Hz.
    { unfold zeros. change [0] with (replicate 1 0). rewrite <- !replicate_add. f_equal. lia. }
    rewrite Hz, app_assoc.
    replace (zlen pre + Z.of_nat d) with (zlen (pre ++ zeros d)) by (by rewrite zlen_app, zlen_zeros).
    by apply mem_write_at.
  - apply mem_write_None; [pose proof (zlen_nonneg pre); lia|].
    rewrite zlen_app, zlen_zeros, zlen_cons, zlen_nil. lia.
Qed.

(** The UCS-2 conversion into a zeroed array of [size] bytes needs three bytes
    more than the text it produces: the terminator is written one byte late. *)
Lemma asc_str_to_usc2_str_spec size s : (2 <= size)%nat ->
  asc_str_to_usc2_str (zeros size) s =
    if 2 * zlen s + 5 <=? Z.of_nat size
    then Some (usc2_of s ++ zeros (size - length (usc2_of s)), 2 * zlen s + 2)
    else None.
Proof.
  intros H2. unfold asc_str_to_usc2_str.
  destruct size as [|[|n]]; [lia|lia|].
  cbn [zeros replicate]. fold (zeros n).
  pose proof (write1 [] 0 (0 :: zeros n) 0xfe 0 eq_refl) as W. cbn [app] in W. rewrite W.
  pose proof (write1 [0xfe] 0 (zeros n) 0xff 1 eq_refl) as W'. cbn [app] in W'.
  cbn [mbind option_bind]. rewrite W'. cbn [mbind option_bind].
  change (0xfe :: 0xff :: zeros n) with ([0xfe; 0xff] ++ zeros n).
  pose proof (zlen_nonneg s).
  destruct (Z.leb_spec (2 * zlen s) (Z.of_nat n)) as [Hn|Hn].
  2: { pose proof (usc2_units_overflow s [0xfe; 0xff] (zeros n)) as U.
       rewrite zlen_zeros in U. change (zlen [254; 255]) with 2 in U. rewrite U by lia.
       by rewrite (proj2 (Z.leb_gt _ _)) by lia. }
  pose proof (usc2_units_spec s [0xfe; 0xff] (zeros n)) as U.
  rewrite zlen_zeros in U. change (zlen [254; 255]) with 2 in U. rewrite U by lia. clear U.
  cbn [mbind option_bind]. change ([254; 255] ++ ?x) with (254 :: 255 :: x). fold (usc2_of s).
  unfold zeros at 1 2. rewrite drop_replicate. fold (zeros (n - 2 * length s)).
  assert (zlen (usc2_of s) = 2 + 2 * zlen s) as Hl by (unfold zlen; rewrite length_usc2_of; lia).
  replace (2 + 2 * zlen s + 1) with (zlen (usc2_of s) + Z.of_nat 1) by lia.
  replace (2 + 2 * zlen s + 2) with (zlen (usc2_of s) + Z.of_nat 2) by lia.
  rewrite write_zero_in_zeros, length_usc2_of.
  destruct (Nat.ltb_spec 1 (n - 2 * length s)) as [H1|H1]; cbn [mbind option_bind].
  2: { rewrite (proj2 (Z.leb_gt _ _)); [done|]. unfold zlen. lia. }
  rewrite write_zero_in_zeros.
  destruct (Nat.ltb_spec 2 (n - 2 * length s)) as [H3|H3]; cbn [mbind option_bind].
  2: { rewrite (proj2 (Z.leb_gt _ _)); [done|]. unfold zlen. lia. }
  rewrite (proj2 (Z.leb_le _ _)) by (unfold zlen; lia). unfold zeros.
  replace (S (S n) - (2 * length s + 2))%nat with (n - 2 * length s)%nat by lia.
  by rewrite (Z.add_comm 2).
Qed.

Lemma hex_string_spec size bs n : Forall is_byte bs -> Z.of_nat (length bs) = n ->
  2 * n <= Z.of_nat size ->
  forall rest, raw_data_to_hex_string (zeros size) (bs ++ rest) n
    = Some (hex_of bs ++ zeros (size - 2 * length bs)).
Proof.
  intros Hb <- Hs rest. unfold raw_data_to_hex_string. rewrite Nat2Z.id, take_app_length.
  pose proof (hex_string_from bs [] 0 (zeros size)) as H. cbn [app] in H. rewrite H; [|done|done|].
  - unfold zeros. by rewrite drop_replicate, length_hex_of.
  - rewrite zlen_zeros. unfold zlen. rewrite length_hex_of. lia.
Qed.

(** * Reading a message back

    The readers applied in the order of the writers, each string or binary into
    a fresh array of [cap] bytes, as the receiving side does. *)

Definition get_item (cap : nat) (like : item) (b : cursor) : option (item * cursor) :=
  match like with
  | IInt _ => '(z, b) ← buff_get_int b; Some (IInt z, b)
  | IStr _ => '(len, d, b) ← buff_get_string (zeros cap) b; Some (IStr (cstr d), b)
  | IBin _ => '(len, d, b) ← buff_get_binary (zeros cap) b; Some (IBin (take (Z.to_nat len) d), b)
  | IStruct t => '(t, b) ← buff_get_struct (zlen t) b; Some (IStruct t, b)
  end.

Fixpoint get_items (cap : nat) (like : list item) (b : cursor) : option (list item * cursor) :=
  match like with
  | [] => Some ([], b)
  | i :: l => '(x, b) ← get_item cap i b; '(xs, b) ← get_items cap l b; Some (x :: xs, b)
  end.

(** Items the protocol can carry: [int]s in range, strings without an inner NUL,
    strings and binaries that fit the receiving arrays. *)
Definition item_ok (cap : nat) (i : item) : Prop :=
  match i with
  | IInt z => is_i32 z
  | IStr s => Forall (fun b => b <> 0) s /\ zlen s < Z.of_nat cap
  | IBin b => zlen b <= Z.of_nat cap
  | IStruct _ => True
  end.

Lemma get_item_reads cap i : Z.of_nat cap < 2 ^ 31 -> item_ok cap i ->
  reads (get_item cap i) (item_bytes i) i.
Proof.
  intros Hc Hi pre post. destruct i as [z|s|b|t]; cbn [get_item item_ok] in *.
  - by rewrite (reads_int z Hi).
  - destruct Hi as [Hn Hl]. pose proof (zlen_nonneg s).
    assert (R := reads_string (zeros cap) s). rewrite zlen_zeros in R.
    specialize (R ltac:(lia) ltac:(unfold is_i32; lia) pre post). cbn beta in R.
    destruct (buff_get_string _ _) as [[[len d] b']|]; [|done]. cbn in R |- *.
    injection R as -> -> ->. by rewrite cstr_app_nul.
  - pose proof (zlen_nonneg b).
    assert (R := reads_binary (zeros cap) b). rewrite zlen_zeros in R.
    specialize (R ltac:(lia) ltac:(unfold is_i32; lia) pre post). cbn beta in R.
    destruct (buff_get_binary _ _) as [[[len d] b']|]; [|done]. cbn in R |- *.
    injection R as -> -> ->. unfold zlen. by rewrite Nat2Z.id, take_app_length.
  - by rewrite (reads_struct t).
Qed.

Lemma get_items_reads cap l : Z.of_nat cap < 2 ^ 31 -> Forall (item_ok cap) l ->
  reads (get_items cap l) (encode l) l.
Proof.
  intros Hc. induction 1 as [|i l Hi Hl IH]; intros pre post; cbn [get_items].
  - change (encode []) with (@nil Z). by rewrite app_nil_r.
  - rewrite encode_cons, <- app_assoc, (get_item_reads cap i Hc Hi). cbn [mbind option_bind].
    rewrite (app_assoc pre (item_bytes i)), IH. cbn [mbind option_bind].
    by rewrite <- !app_assoc.
Qed.

(** * Properties *)

(** writing any sequence of items with [buff_put_int], [buff_put_string],
    [buff_put_binary] and [buff_put_struct] into a zeroed buffer leaves exactly the
    concatenated encodings followed by zeros and advances the offset by their
    length; it stays inside of the buffer exactly when the encodings fit, and
    otherwise the copy leaves the buffer (undefined behaviour, [None]). *)
Theorem buff_put_refines (size : nat) (l : list item) :
  put_items l (zeros size, 0) =
    if zlen (encode l) <=? Z.of_nat size
    then Some (encode l ++ zeros (size - length (encode l)), zlen (encode l))
    else None.
Proof. apply put_items_message. Qed.

(** C38: reading with the [buff_get_*] routines in the order in which the
    [buff_put_*] routines wrote gives back every integer, string, binary and
    structure, and ends at the offset where writing ended. *)
Theorem buff_roundtrip (size cap : nat) (l : list item)
  (Hcap : Z.of_nat cap < 2 ^ 31) (Hok : Forall (item_ok cap) l)
  (Hfit : zlen (encode l) <= Z.of_nat size) :
  exists buff, put_items l (zeros size, 0) = Some (buff, zlen (encode l)) /\
    get_items cap l (buff, 0) = Some (l, (buff, zlen (encode l))).
Proof.
  exists (message size l). rewrite put_items_message, (proj2 (Z.leb_le _ _) Hfit). split; [done|].
  exact (get_items_reads cap l Hcap Hok [] (zeros (size - length (encode l)))).
Qed.

Lemma buff_roundtrip_witness :
  exists buff, put_items [IInt 125; IStr (str "internet"); IBin [1; 2; 3]; IStruct [9; 9]] (zeros 1024, 0)
      = Some (buff, 26) /\
    get_items 64 [IInt 125; IStr (str "internet"); IBin [1; 2; 3]; IStruct [9; 9]] (buff, 0)
      = Some ([IInt 125; IStr (str "internet"); IBin [1; 2; 3]; IStruct [9; 9]], (buff, 26)).
Proof.
  apply (buff_roundtrip 1024 64 [IInt 125; IStr (str "internet"); IBin [1; 2; 3]; IStruct [9; 9]]).
  - lia.
  - repeat constructor; vm_compute; done || lia.
  - vm_compute. discriminate.
Defined.

(** the text of a notification survives the conversion the HAL applies to
    it: for an ASCII string that fits, [asc_str_to_usc2_str] followed by
    [raw_data_to_hex_string] on the returned length produces hexadecimal text whose
    bytes are the UCS-2 encoding, with its byte order mark, of the string. *)
Theorem ni_text_roundtrip (usc2_size hex_size : nat) (s : list Z)
  (Hs : Forall is_byte s) (Hu : 2 * zlen s + 5 <= Z.of_nat usc2_size)
  (Hh : 4 * zlen s + 4 <= Z.of_nat hex_size) :
  exists usc2 len hex,
    asc_str_to_usc2_str (zeros usc2_size) s = Some (usc2, len) /\
    raw_data_to_hex_string (zeros hex_size) usc2 len = Some hex /\
    usc2_text (drop 2 (unhex (take (Z.to_nat (2 * len)) hex))) = s /\
    take 4 hex = str "FEFF".
Proof.
  rewrite asc_str_to_usc2_str_spec by (pose proof (zlen_nonneg s); lia).
  rewrite (proj2 (Z.leb_le _ _) Hu).
  assert (Z.of_nat (length (usc2_of s)) = 2 * zlen s + 2) as Hl
    by (unfold zlen; rewrite length_usc2_of; lia).
  eexists _, _, _. split; [done|]. rewrite (hex_string_spec hex_size (usc2_of s)); [|by apply usc2_of_range|done|lia].
  split; [done|]. split.
  - replace (Z.to_nat (2 * (2 * zlen s + 2))) with (length (hex_of (usc2_of s)))
      by (rewrite length_hex_of; lia).
    rewrite take_app_length, unhex_hex_of by (by apply usc2_of_range). apply usc2_of_inv.
  - reflexivity.
Qed.

Lemma ni_text_roundtrip_witness :
  exists usc2 len hex,
    asc_str_to_usc2_str (zeros 1024) (str "E911") = Some (usc2, len) /\
    raw_data_to_hex_string (zeros 256) usc2 len = Some hex /\
    usc2_text (drop 2 (unhex (take (Z.to_nat (2 * len)) hex))) = str "E911" /\
    take 4 hex = str "FEFF".
Proof.
  apply (ni_text_roundtrip 1024 256 (str "E911")).
  - repeat constructor; vm_compute; done || lia.
  - vm_compute. discriminate.
  - vm_compute. discriminate.
Defined.
