(* ===== verification/Daemon.v ===== *)
(** The transport between the HAL and the MNL daemon
    (src/hal/gps/hal/gps_mtk_aosp.c): sockets, the retrying send and read
    loops, the one-byte commands, the location file, and the two routines on
    which the threads synchronise. *)

From stdpp Require Import base list gmap strings numbers.
From Stdlib Require Import ZArith Lia SpecFloat.
From S2P Require Import Prelude CFloat GpsTypes Buff.

Local Open Scope Z_scope.
Local Open Scope st_scope.
Local Open Scope rec_scope.

Definition EINTR := 4.
Definition EAGAIN := 11.
Definition EPIPE := 32.

Definition MTK_HAL2MNLD : string := "/data/gps_mnl/hal2mnld".
Definition LOCATION_NLP_FIX : string := "/data/misc/gps/LOCATION.DAT".
Definition MNL_CONFIG_STATUS : string := "persist.radio.mnl.prop".

(** * Synchronisation *)

(** gps_mtk_aosp.c:580-597 [get_condition] waits until the flag is set and clears
    it; a thread that finds it clear blocks. *)
Definition get_condition (i : SyncId) : HAL unit :=
  let* w := getM in
  if truth (at_ (w_cond w) (Z.of_nat (sync_id i))) then
    modM (fun w => w <| w_cond := <[sync_id i := 0]> (w_cond w) |>)
  else blockM.

(** gps_mtk_aosp.c:599-615 [release_condition]. *)
Definition release_condition (i : SyncId) : HAL unit :=
  modM (fun w => w <| w_cond := <[sync_id i := 1]> (w_cond w) |>).

(** * Sockets *)

(** gps_mtk_aosp.c:618-645 [bind_udp_socket] [sock] and [bound] are the results of
    [socket] and [bind]; the mode is octal 660. *)
Definition bind_udp_socket (path : string) (sock bound : Z) : Z * list sysop :=
  if sock <? 0 then (-1, [])
  else if bound <? 0 then (-1, [OpUnlink path; OpBind sock path; OpClose sock])
  else (sock, [OpUnlink path; OpBind sock path; OpChmod path 0x1b0; OpChown path "AID_INET"]).

(** One result of [read]: bytes, end of file, or an error number. *)
Inductive rd := RdBytes (bs : list Z) | RdEof | RdErr (errno : Z).

(** gps_mtk_aosp.c:664-676 [safe_read, loop] [script] lists the coming results of
    [read]; past its end the descriptor, being non-blocking, reports EAGAIN until
    the retries are used up. A result 0 leaves [errno] as it was. *)
Fixpoint safe_read_loop (script : list rd) (errno : Z) (retry : nat) (len : Z) : option (list Z) * list rd :=
  match script with
  | [] => (None, [])
  | r :: script' =>
      match r with
      | RdBytes (b :: bs) => (Some (take (Z.to_nat len) (b :: bs)), script')
      | RdBytes [] | RdEof | RdErr _ =>
          let errno := match r with RdErr e => e | _ => errno end in
          if errno =? EINTR then safe_read_loop script' errno retry len
          else if errno =? EAGAIN then
            match retry with
            | S retry' => safe_read_loop script' errno retry' len
            | O => (None, script')
            end
          else (None, script')
      end
  end.

(** gps_mtk_aosp.c:648-680 [safe_read] [None] is the result -1. *)
Definition safe_read (fd len errno : Z) (script : list rd) : option (list Z) * list rd :=
  if (fd <? 0) || (len <? 0) then (None, script)
  else if len =? 0 then (Some [], script)
  else safe_read_loop script errno 10 len.

(** gps_mtk_aosp.c:695-707 [mtk_daemon_send, loop] result, last error, remaining
    outcomes of [sendto], whether the datagram was delivered. *)
Fixpoint send_loop (script : list Z) (retry : nat) : Z * Z * list Z * bool :=
  match script with
  | [] => (0, 0, [], true)
  | e :: script' =>
      if e =? 0 then (0, 0, script', true)
      else if e =? EINTR then send_loop script' retry
      else if e =? EAGAIN then
        match retry with
        | S retry' => send_loop script' retry'
        | O => (-1, e, script', false)
        end
      else (-1, e, script', false)
  end.

(** gps_mtk_aosp.c:683-711 [mtk_daemon_send] with the error number it leaves. *)
Definition mtk_daemon_send_errno (sockfd : Z) (dest : string) (buf : list Z) : HAL (Z * Z) :=
  let* w := getM in
  let '(ret, errno, rest, delivered) := send_loop (e_sendto (w_env w)) 10 in
  modM (fun w => w <| w_env := (w_env w) <| e_sendto := rest |> |>) ;;
  (if delivered : bool then emit (EvSend dest buf) else retM tt) ;;
  retM (ret, errno).

(** gps_mtk_aosp.c:683-711 [mtk_daemon_send]. *)
Definition mtk_daemon_send (sockfd : Z) (dest : string) (buf : list Z) : HAL Z :=
  let* r := mtk_daemon_send_errno sockfd dest buf in retM (fst r).

(** * One-byte commands *)

Definition send_cmd (c : MnlCmd) : HAL Z :=
  let* w := getM in mtk_daemon_send (w_sock w) MTK_HAL2MNLD [mnl_cmd c].

(** gps_mtk_aosp.c:1130-1133 [mtk_start_daemon, GPS_AOSP_MODE] GPS_AOSP_MODE is defined: init starts the
    daemon. *)
Definition mtk_start_daemon : HAL Z := retM 0.

(** gps_mtk_aosp.c:1163-1166 [mtk_stop_daemon, GPS_AOSP_MODE] likewise. *)
Definition mtk_stop_daemon : HAL Z := retM 0.

(** gps_mtk_aosp.c:1205-1207 [mtk_daemon_init, GPS_AOSP_MODE] the rest of the body is compiled out. *)
Definition mtk_daemon_init : HAL Z := retM 0.

(** gps_mtk_aosp.c:1209-1217 [mtk_daemon_cleanup]. *)
Definition mtk_daemon_cleanup : HAL Z := mtk_stop_daemon.

(** gps_mtk_aosp.c:1219-1225 [mtk_init]. *)
Definition mtk_init : HAL Z := send_cmd MNL_CMD_INIT.

(** gps_mtk_aosp.c:1227-1239 [mtk_cleanup]. *)
Definition mtk_cleanup : HAL Z :=
  send_cmd MNL_CMD_CLEANUP ;;
  mtk_daemon_cleanup ;;
  retM 0.

(** gps_mtk_aosp.c:1248-1252 [mtk_start, loop] [left] is [max - idx]. *)
Fixpoint mtk_start_retry (left : nat) (r : Z * Z) : HAL Z :=
  match left with
  | O => retM (fst r)
  | S left' =>
      if truth (fst r) && (snd r =? EPIPE) then
        let* w := getM in
        let* r := mtk_daemon_send_errno (w_sock w) MTK_HAL2MNLD [mnl_cmd MNL_CMD_START] in
        mtk_start_retry left' r
      else retM (fst r)
  end.

(** gps_mtk_aosp.c:1241-1254 [mtk_start]. *)
Definition mtk_start : HAL Z :=
  let* w := getM in
  let* r := mtk_daemon_send_errno (w_sock w) MTK_HAL2MNLD [mnl_cmd MNL_CMD_START] in
  mtk_start_retry 5 r.

(** gps_mtk_aosp.c:1256-1261 [mtk_stop]. *)
Definition mtk_stop : HAL Z := send_cmd MNL_CMD_STOP.

(** gps_mtk_aosp.c:1263-1268 [mtk_restart]. *)
Definition mtk_restart (cmd : MnlCmd) : HAL Z := send_cmd cmd.

(** gps_mtk_aosp.c:1270-1276 [mtk_measurement_init]. *)
Definition mtk_measurement_init : HAL Z := send_cmd MNL_CMD_GPSMEASUREMENT_INIT.

(** gps_mtk_aosp.c:1278-1284 [mtk_measurement_close]. *)
Definition mtk_measurement_close : HAL Z := send_cmd MNL_CMD_GPSMEASUREMENT_CLOSE.

(** gps_mtk_aosp.c:1286-1292 [mtk_navigation_init]. *)
Definition mtk_navigation_init : HAL Z := send_cmd MNL_CMD_GPSNAVIGATION_INIT.

(** gps_mtk_aosp.c:1294-1300 [mtk_navigation_close]. *)
Definition mtk_navigation_close : HAL Z := send_cmd MNL_CMD_GPSNAVIGATION_CLOSE.

(** * Files and properties *)

(** [fopen (path, "w")], the write of [data], and [fclose]. *)
Definition write_file (path : string) (data : list Z) : HAL bool :=
  let* w := getM in
  if bool_decide (path ∈ e_readonly (w_env w)) then retM false
  else
    modM (fun w => w <| w_env := (w_env w)
      <| e_files := <[path := mkFile data (e_now (w_env w))]> (e_files (w_env w)) |> |>) ;;
    retM true.

Definition read_file (path : string) : HAL (option (list Z)) :=
  gets (fun w => f_data <$> e_files (w_env w) !! path).

Definition unlink (path : string) : HAL unit :=
  modM (fun w => w <| w_env := (w_env w) <| e_files := delete path (e_files (w_env w)) |> |>).

Definition property_get (key : string) : HAL (list Z) :=
  gets (fun w => default [] (e_props (w_env w) !! key)).

(** gps_mtk_aosp.c:564-578 [get_prop] the seventh character of the property as a
    digit; the array it is read into is zeroed. *)
Definition get_prop : HAL Z :=
  let* result := property_get MNL_CONFIG_STATUS in
  match result with
  | [] => retM 0
  | _ => retM (at_ result 6 - chr "0")
  end.

(** Bytes of an [nlp_context] in memory; its two padding bytes are 0 here. *)
Definition nlp_bytes (l : nlp_context) : list Z :=
  le_bytes 8 (d_bits (nlp_latitude l)) ++ le_bytes 8 (d_bits (nlp_longitude l)) ++
  le_bytes 4 (f_bits (nlp_accuracy l)) ++ le_bytes 4 (nlp_tv_sec l) ++ le_bytes 4 (nlp_tv_nsec l) ++
  [u8 (nlp_type l); u8 (nlp_started l)] ++ zeros 2.

Definition nlp_size : Z := 32.

(** The structure read back from memory. *)
Definition nlp_of_bytes (bs : list Z) : nlp_context :=
  let field (off n : Z) := le_value (take (Z.to_nat n) (drop (Z.to_nat off) bs)) in
  mkNlp (d_of_bits (field 0 8)) (d_of_bits (field 8 8)) (f_of_bits (field 16 4))
    (i32 (field 20 4)) (i32 (field 24 4)) (field 28 1) (field 29 1).

(** gps_mtk_aosp.c:713-728 [mtk_gps_update_location]. *)
Definition mtk_gps_update_location (location : nlp_context) : HAL unit :=
  write_file LOCATION_NLP_FIX (nlp_bytes location) ;; retM tt.

(** gps_mtk_aosp.c:786-811 [mtk_gps_send_location_to_mnl] a short file leaves the
    zeroed structure partly filled. *)
Definition mtk_gps_send_location_to_mnl : HAL unit :=
  let* f := read_file LOCATION_NLP_FIX in
  match f with
  | None => retM tt
  | Some data =>
      let* w := getM in
      let raw := take (Z.to_nat nlp_size) (data ++ zeros (Z.to_nat nlp_size)) in
      let nlp_location := (nlp_of_bytes raw) <| nlp_started := w_started w |> in
      let* b := of_option (buff_put_int (hal_cmd MNL_CMD_GPS_INJECT_LOCATION) (zeros 1024, 0)
                           ≫= buff_put_struct (nlp_bytes nlp_location)) in
      if 0 <=? send_fd (w_agps w) then
        mtk_daemon_send (send_fd (w_agps w)) MTK_HAL2MNLD b.1 ;; retM tt
      else retM tt
  end.

(** * Lemmas *)

(** [sends script buf dest w w']: the state after a send that succeeds. *)
Lemma daemon_send_run fd dest buf w :
  mtk_daemon_send_errno fd dest buf w =
    let '(ret, errno, rest, delivered) := send_loop (e_sendto (w_env w)) 10 in
    let w1 := w <| w_env := (w_env w) <| e_sendto := rest |> |> in
    Ok ((ret, errno), if delivered then w1 <| w_trace := w_trace w ++ [EvSend dest buf] |> else w1).
Proof.
  unfold mtk_daemon_send_errno. run.
  destruct (send_loop _ _) as [[[ret errno] rest] delivered]. by destruct delivered.
Qed.

Lemma send_loop_result script retry ret errno rest delivered :
  send_loop script retry = (ret, errno, rest, delivered) ->
  (delivered = true /\ ret = 0) \/ (delivered = false /\ ret = -1 /\ errno <> 0 /\ errno <> EINTR).
Proof.
  revert retry. induction script as [|e script IH]; intros retry; cbn; [naive_solver|].
  destruct (Z.eqb_spec e 0); [naive_solver|]. destruct (Z.eqb_spec e EINTR); [apply IH|].
  destruct (Z.eqb_spec e EAGAIN) as [->|].
  - destruct retry; [|apply IH]. intros [= <- <- <- <-]. by right.
  - intros [= <- <- <- <-]. by right.
Qed.

(** The number of EAGAIN results among the outcomes consumed. *)
Lemma send_loop_interrupts n script retry :
  send_loop (replicate n EINTR ++ script) retry = send_loop script retry.
Proof. induction n as [|n IH]; cbn; [done|]. exact IH. Qed.

Lemma send_loop_eagain n script retry :
  send_loop (replicate n EAGAIN ++ script) (n + retry) = send_loop script retry.
Proof. induction n as [|n IH]; cbn; [done|]. exact IH. Qed.

Lemma send_loop_give_up n script retry : (retry < n)%nat ->
  send_loop (replicate n EAGAIN ++ script) retry
    = (-1, EAGAIN, replicate (n - retry - 1) EAGAIN ++ script, false).
Proof.
  revert retry. induction n as [|n IH]; intros retry H; [lia|]. cbn.
  destruct retry as [|retry]; [by replace (S n - 0 - 1)%nat with n by lia|].
  rewrite IH by lia. done.
Qed.

(** Every field but the remaining outcomes and the trace is untouched by a send. *)
Definition same_but_io (w w' : World) : Prop :=
  w' = w <| w_env := (w_env w) <| e_sendto := e_sendto (w_env w') |> |> <| w_trace := w_trace w' |>.

Lemma same_but_io_refl w : same_but_io w w.
Proof. destruct w as [? ? ? ? ? ? ? ? ? ? ? ? ? ? ? ? ? [] ?]. reflexivity. Qed.

Lemma same_but_io_trans w1 w2 w3 : same_but_io w1 w2 -> same_but_io w2 w3 -> same_but_io w1 w3.
Proof. unfold same_but_io. intros H1 H2. rewrite H2. rewrite H1. reflexivity. Qed.

Lemma daemon_send_same fd dest buf w r w' :
  mtk_daemon_send_errno fd dest buf w = Ok (r, w') -> same_but_io w w'.
Proof.
  rewrite daemon_send_run. destruct (send_loop _ _) as [[[ret errno] rest] delivered].
  destruct delivered; intros [= <- <-]; reflexivity.
Qed.

(** Outcomes that make the send loop try again. *)
Definition retryable (e : Z) : Prop := e = EINTR \/ e = EAGAIN.
Definition eagains (l : list Z) : nat := length (filter (fun e => e = EAGAIN) l).

Lemma send_loop_prefix pre rest retry : Forall retryable pre -> (eagains pre <= retry)%nat ->
  send_loop (pre ++ 0 :: rest) retry = (0, 0, rest, true).
Proof.
  intros H. revert retry. unfold eagains. induction H as [|e pre He Hpre IH]; intros retry Hr; [done|].
  destruct He as [-> | ->]; cbn [app send_loop].
  - rewrite filter_cons_False in Hr by done. cbn. by apply IH.
  - rewrite filter_cons_True in Hr by done. cbn [length Z.eqb EAGAIN EINTR Pos.eqb] in *.
    destruct retry as [|retry]; [lia|]. apply IH. lia.
Qed.

Lemma send_loop_too_many pre rest retry : Forall retryable pre -> (retry < eagains pre)%nat ->
  exists rest', send_loop (pre ++ rest) retry = (-1, EAGAIN, rest', false).
Proof.
  intros H. revert retry. unfold eagains. induction H as [|e pre He Hpre IH]; intros retry Hr.
  - cbn in Hr. lia.
  - destruct He as [-> | ->]; cbn [app send_loop].
    + rewrite filter_cons_False in Hr by done. cbn. by apply IH.
    + rewrite filter_cons_True in Hr by done. cbn [length Z.eqb EAGAIN EINTR Pos.eqb] in *.
      destruct retry as [|retry]; [by eexists|]. apply IH. lia.
Qed.

(** The state after attempts that failed with the pipe closed. *)
Lemma daemon_send_epipe fd dest buf w rest :
  e_sendto (w_env w) = EPIPE :: rest ->
  mtk_daemon_send_errno fd dest buf w =
    Ok ((-1, EPIPE), w <| w_env := (w_env w) <| e_sendto := rest |> |>).
Proof. intros H. rewrite daemon_send_run, H. reflexivity. Qed.

Lemma daemon_send_ok fd dest buf w rest :
  e_sendto (w_env w) = 0 :: rest ->
  mtk_daemon_send_errno fd dest buf w =
    Ok ((0, 0), w <| w_env := (w_env w) <| e_sendto := rest |> |>
                  <| w_trace := w_trace w ++ [EvSend dest buf] |>).
Proof. intros H. rewrite daemon_send_run, H. reflexivity. Qed.

Lemma mtk_start_retry_ok left n w rest :
  (n < left)%nat -> e_sendto (w_env w) = replicate n EPIPE ++ 0 :: rest ->
  mtk_start_retry left (-1, EPIPE) w =
    Ok (0, w <| w_env := (w_env w) <| e_sendto := rest |> |>
             <| w_trace := w_trace w ++ [EvSend MTK_HAL2MNLD [3]] |>).
Proof.
  revert n w. induction left as [|left IH]; intros n w Hn Hs; [lia|]. cbn [mtk_start_retry].
  cbn [fst snd truth negb Z.eqb EPIPE Pos.eqb andb]. unfold bindM at 1, getM.
  destruct n as [|n]; cbn [replicate app] in Hs.
  - erewrite bindM_ok by (by apply daemon_send_ok). by destruct left.
  - erewrite bindM_ok by (by apply daemon_send_epipe).
    erewrite (IH n); [reflexivity|lia|done].
Qed.

Lemma mtk_start_retry_fail left n w rest :
  (left <= n)%nat -> e_sendto (w_env w) = replicate n EPIPE ++ rest ->
  mtk_start_retry left (-1, EPIPE) w =
    Ok (-1, w <| w_env := (w_env w) <| e_sendto := replicate (n - left) EPIPE ++ rest |> |>).
Proof.
  revert n w. induction left as [|left IH]; intros n w Hn Hs; cbn [mtk_start_retry].
  - rewrite Nat.sub_0_r, <- Hs. cbn. unfold retM. do 2 f_equal.
    by destruct w as [? ? ? ? ? ? ? ? ? ? ? ? ? ? ? ? ? [] ?].
  - cbn [fst snd truth negb Z.eqb EPIPE Pos.eqb andb]. unfold bindM at 1, getM.
    destruct n as [|n]; [lia|]. cbn [replicate app] in Hs.
    erewrite bindM_ok by (by apply daemon_send_epipe).
    erewrite (IH n); [reflexivity|lia|done].
Qed.

Lemma nlp_fields l :
  is_i32 (nlp_tv_sec l) -> is_i32 (nlp_tv_nsec l) -> is_byte (nlp_type l) -> is_byte (nlp_started l) ->
  d_valid (nlp_latitude l) -> d_valid (nlp_longitude l) -> f_valid (nlp_accuracy l) ->
  nlp_of_bytes (nlp_bytes l) = l.
Proof.
  intros Hs Hn Ht Hst Vla Vlo Va.
  pose proof (d_bits_range _ Vla) as Bla. pose proof (d_bits_range _ Vlo) as Blo. pose proof (f_bits_range _ Va) as Ba.
  unfold nlp_of_bytes, nlp_bytes.
  assert (field : forall n z pre post, length pre = n -> forall k, take k (drop n (pre ++ le_bytes k z ++ post)) = le_bytes k z).
  { intros n z pre post <- k. rewrite drop_app_length. rewrite <- (length_le_bytes k z) at 1. apply take_app_length. }
  destruct l as [la lo ac s n t st]; cbn [nlp_latitude nlp_longitude nlp_accuracy nlp_tv_sec nlp_tv_nsec nlp_type nlp_started] in *.
  set (B := le_bytes 8 (d_bits la) ++ _). f_equal.
  - change (drop (Z.to_nat 0) B) with B. unfold B.
    rewrite <- (length_le_bytes 8 (d_bits la)) at 1. rewrite take_app_length' by done.
    rewrite le_value_bytes, Z.mod_small by exact Bla. by apply d_bits_roundtrip.
  - change (Z.to_nat 8) with 8%nat. unfold B. rewrite field by done.
    rewrite le_value_bytes, Z.mod_small by exact Blo. by apply d_bits_roundtrip.
  - change (Z.to_nat 16) with 16%nat. change (Z.to_nat 4) with 4%nat. unfold B. rewrite app_assoc, field by done.
    rewrite le_value_bytes, Z.mod_small by exact Ba. by apply f_bits_roundtrip.
  - change (Z.to_nat 20) with 20%nat. change (Z.to_nat 4) with 4%nat. unfold B. rewrite 2!app_assoc, field by done.
    by rewrite le4_i32, i32_id.
  - change (Z.to_nat 24) with 24%nat. change (Z.to_nat 4) with 4%nat. unfold B. rewrite 3!app_assoc, field by done.
    by rewrite le4_i32, i32_id.
  - change (Z.to_nat 28) with 28%nat. change (Z.to_nat 1) with 1%nat. unfold B. rewrite 4!app_assoc.
    rewrite drop_app_length' by done. cbn [take app le_value]. unfold u8. rewrite Z.mod_small by exact Ht. lia.
  - change (Z.to_nat 29) with 29%nat. change (Z.to_nat 1) with 1%nat. unfold B. rewrite 4!app_assoc.
    cbn [app]. rewrite (cons_middle (u8 t)), app_assoc, drop_app_length' by done.
    change (take 1 (u8 st :: zeros 2)) with [u8 st]. cbn [le_value]. unfold u8.
    rewrite Z.mod_small by exact Hst. lia.
Qed.

(** * File access *)

Lemma write_file_run path data w : path ∉ e_readonly (w_env w) ->
  write_file path data w = Ok (true, w <| w_env := (w_env w)
    <| e_files := <[path := mkFile data (e_now (w_env w))]> (e_files (w_env w)) |> |>).
Proof. intros H. unfold write_file. run. by rewrite bool_decide_eq_false_2. Qed.

Lemma read_file_run path w : read_file path w = Ok (f_data <$> e_files (w_env w) !! path, w).
Proof. reflexivity. Qed.

(** A message of items sent as one datagram of 1024 bytes. *)
Lemma put_two i j b : (put_item i b ≫= put_item j) = put_items [i; j] b.
Proof.
  cbn [put_items]. destruct (put_item i b) as [c|]; [|done]. cbn [mbind option_bind].
  by destruct (put_item j c).
Qed.

Lemma send_quiet fd dest buf w : e_sendto (w_env w) = [] ->
  mtk_daemon_send fd dest buf w = Ok (0, w <| w_trace := w_trace w ++ [EvSend dest buf] |>).
Proof.
  intros H. unfold mtk_daemon_send, bindM. rewrite daemon_send_run, H. cbn. unfold retM. do 2 f_equal.
  destruct w as [? ? ? ? ? ? ? ? ? ? ? ? ? ? ? ? ? [] ?]. cbn in *. by subst.
Qed.

Lemma send_location_run l w f :
  e_files (w_env w) !! LOCATION_NLP_FIX = Some f -> f_data f = nlp_bytes l ->
  nlp_of_bytes (nlp_bytes l) = l -> 0 <= send_fd (w_agps w) -> e_sendto (w_env w) = [] ->
  mtk_gps_send_location_to_mnl w = Ok (tt, w <| w_trace := w_trace w ++
      [EvSend MTK_HAL2MNLD (message 1024
         [IInt (hal_cmd MNL_CMD_GPS_INJECT_LOCATION);
          IStruct (nlp_bytes (l <| nlp_started := w_started w |>))])] |>).
Proof.
  intros Hf Hd Hl Hfd Hs. unfold mtk_gps_send_location_to_mnl.
  rewrite (bindM_ok _ _ _ _ _ (read_file_run _ _)), Hf. cbn [fmap option_fmap option_map].
  rewrite Hd, (bindM_ok getM _ w w w) by done.
  assert (take (Z.to_nat nlp_size) (nlp_bytes l ++ zeros (Z.to_nat nlp_size)) = nlp_bytes l) as ->
    by (apply take_app_length'; reflexivity).
  rewrite Hl. change (buff_put_int ?z) with (put_item (IInt z)).
  change (buff_put_struct ?z) with (put_item (IStruct z)). rewrite put_two, put_items_message.
  rewrite (proj2 (Z.leb_le _ _)) by (vm_compute; discriminate).
  rewrite (proj2 (Z.leb_le _ _) Hfd). unfold of_option. unfold bindM at 1, retM at 1.
  by rewrite (bindM_ok _ _ _ _ _ (send_quiet _ _ _ _ Hs)).
Qed.

(** * Properties *)

(** sending a datagram to the daemon always returns. Either the result is 0
    and exactly that datagram has been delivered, or it is -1 and nothing has;
    no other part of the HAL changes, and the loop never gives up because of a
    signal (EINTR). *)
Theorem mtk_daemon_send_spec (fd : Z) (dest : string) (buf : list Z) (w : World) :
  exists ret errno w', mtk_daemon_send_errno fd dest buf w = Ok ((ret, errno), w') /\
    same_but_io w w' /\
    ((ret = 0 /\ w_trace w' = w_trace w ++ [EvSend dest buf]) \/
     (ret = -1 /\ errno <> EINTR /\ w_trace w' = w_trace w)).
Proof.
  destruct (send_loop (e_sendto (w_env w)) 10) as [[[ret errno] rest] delivered] eqn:E.
  pose proof (send_loop_result _ _ _ _ _ _ E) as Hr.
  exists ret, errno. rewrite daemon_send_run, E. eexists. split; [done|].
  destruct delivered; (split; [reflexivity|]); destruct Hr as [[? ->]|(? & -> & ? & ?)];
    done || (left; done) || (right; done).
Qed.

(** the send loop rides out any number of interruptions and up to ten
    EAGAIN results: if the outcomes before the first success are only EINTR and
    EAGAIN, the send succeeds exactly when at most ten of them are EAGAIN. *)
Theorem mtk_daemon_send_retries (fd : Z) (dest : string) (buf pre rest : list Z) (w : World)
  (Hpre : Forall retryable pre) (Hw : e_sendto (w_env w) = pre ++ 0 :: rest) :
  exists errno w', mtk_daemon_send_errno fd dest buf w
    = Ok ((if (eagains pre <=? 10)%nat then 0 else -1, errno), w').
Proof.
  rewrite daemon_send_run, Hw. destruct (Nat.leb_spec (eagains pre) 10).
  - rewrite send_loop_prefix by done. by eexists _, _.
  - destruct (send_loop_too_many pre (0 :: rest) 10) as [r ->]; [done|lia|]. by eexists _, _.
Qed.

Lemma mtk_daemon_send_retries_witness :
  exists errno w', mtk_daemon_send_errno 7 MTK_HAL2MNLD [3]
    (world0 7 all_cbs (quiet_env <| e_sendto := [4; 11; 11; 0] |>)) = Ok ((0, errno), w').
Proof.
  apply (mtk_daemon_send_retries 7 MTK_HAL2MNLD [3] [4; 11; 11] []
    (world0 7 all_cbs (quiet_env <| e_sendto := [4; 11; 11; 0] |>))).
  - repeat (apply Forall_cons_2; [unfold retryable, EINTR, EAGAIN; lia|]). apply Forall_nil_2.
  - reflexivity.
Defined.

(** [mtk_start] survives the daemon being restarted: the start command is
    delivered if the pipe is broken for at most five sends in a row, and
    otherwise the call returns -1 after exactly six attempts. *)
Theorem mtk_start_reconnects (n : nat) (w : World) (rest : list Z)
  (Hw : e_sendto (w_env w) = replicate n EPIPE ++ 0 :: rest) :
  mtk_start w =
    if (n <=? 5)%nat then
      Ok (0, w <| w_env := (w_env w) <| e_sendto := rest |> |>
               <| w_trace := w_trace w ++ [EvSend MTK_HAL2MNLD [mnl_cmd MNL_CMD_START]] |>)
    else Ok (-1, w <| w_env := (w_env w) <| e_sendto := replicate (n - 6) EPIPE ++ 0 :: rest |> |>).
Proof.
  unfold mtk_start. unfold bindM at 1, getM. destruct n as [|n]; cbn [replicate app] in Hw.
  - erewrite bindM_ok by (by apply daemon_send_ok). reflexivity.
  - erewrite bindM_ok by (by apply daemon_send_epipe).
    change (S n <=? 5)%nat with (n <=? 4)%nat. destruct (Nat.leb_spec n 4).
    + erewrite (mtk_start_retry_ok 5 n); [reflexivity|lia|done].
    + erewrite (mtk_start_retry_fail 5 n); [reflexivity|lia|done].
Qed.

Lemma mtk_start_reconnects_witness :
  mtk_start (world0 7 all_cbs (quiet_env <| e_sendto := [32; 32; 0] |>)) =
    Ok (0, (world0 7 all_cbs quiet_env) <| w_trace := [EvSend MTK_HAL2MNLD [3]] |>).
Proof.
  rewrite (mtk_start_reconnects 2 (world0 7 all_cbs (quiet_env <| e_sendto := [32; 32; 0] |>)) []);
    reflexivity.
Defined.

(** a location stored with [mtk_gps_update_location] is the location that
    [mtk_gps_send_location_to_mnl] later sends to the daemon: latitude, longitude,
    accuracy, time and type are read back from the file bit for bit, and the
    [started] field is replaced by the current state of the session. *)
Theorem location_file_roundtrip (l : nlp_context) (w : World)
  (Hs : is_i32 (nlp_tv_sec l)) (Hn : is_i32 (nlp_tv_nsec l))
  (Ht : is_byte (nlp_type l)) (Hst : is_byte (nlp_started l))
  (Vla : d_valid (nlp_latitude l)) (Vlo : d_valid (nlp_longitude l)) (Va : f_valid (nlp_accuracy l))
  (Hro : LOCATION_NLP_FIX ∉ e_readonly (w_env w))
  (Hfd : 0 <= send_fd (w_agps w)) (Hsend : e_sendto (w_env w) = []) :
  exists w', (mtk_gps_update_location l ;; mtk_gps_send_location_to_mnl) w = Ok (tt, w') /\
    w_trace w' = w_trace w ++
      [EvSend MTK_HAL2MNLD (message 1024
         [IInt (hal_cmd MNL_CMD_GPS_INJECT_LOCATION);
          IStruct (nlp_bytes (l <| nlp_started := w_started w |>))])].
Proof.
  unfold mtk_gps_update_location. rewrite bindM_assoc, (bindM_ok _ _ _ _ _ (write_file_run _ _ _ Hro)).
  cbn [bindM retM]. unfold bindM, retM. eexists. split.
  - apply (send_location_run l _ (mkFile (nlp_bytes l) (e_now (w_env w)))); try done.
    + cbn. by rewrite lookup_insert_eq.
    + by apply nlp_fields.
  - reflexivity.
Qed.

Lemma location_file_roundtrip_witness :
  exists w', (mtk_gps_update_location (mkNlp (d_of_Z 48) (d_of_Z 11) (f_of_Z 5) 1000 0 1 0) ;;
              mtk_gps_send_location_to_mnl) (world0 7 all_cbs quiet_env) = Ok (tt, w') /\
    w_trace w' = [EvSend MTK_HAL2MNLD (message 1024
         [IInt (hal_cmd MNL_CMD_GPS_INJECT_LOCATION);
          IStruct (nlp_bytes (mkNlp (d_of_Z 48) (d_of_Z 11) (f_of_Z 5) 1000 0 1 0))])].
Proof.
  apply (location_file_roundtrip (mkNlp (d_of_Z 48) (d_of_Z 11) (f_of_Z 5) 1000 0 1 0)
           (world0 7 all_cbs quiet_env)).
  all: try (unfold is_i32, is_byte, d_valid, f_valid; cbn [nlp_tv_sec nlp_tv_nsec nlp_type nlp_started]; lia).
  all: try reflexivity.
  - apply not_elem_of_empty.
  - discriminate.
Defined.
