(* ===== verification/CStruct.v ===== *)
(** Layout of C structures in memory: the members of a structure in order, each at
    the next offset that is a multiple of its alignment, where [#pragma pack (n)]
    bounds the alignment by [n]. The structures the GPS HAL exchanges with the
    daemon (src/hal/gps/hal/gps_mtk_aosp.c) are given as such member lists; the
    round trip shows that a structure the daemon stores is read back member by
    member. A floating-point member is given by its bits. *)

From stdpp Require Import base list gmap strings numbers.
From Stdlib Require Import ZArith Lia.
From S2P Require Import Prelude.

Local Open Scope Z_scope.

Inductive cty := TU8 | TI8 | TU16 | TI16 | TU32 | TI32 | TI64 | TF32 | TF64 | TBytes (n : nat).

Definition ty_size (t : cty) : nat :=
  match t with
  | TU8 | TI8 => 1
  | TU16 | TI16 => 2
  | TU32 | TI32 | TF32 => 4
  | TI64 | TF64 => 8
  | TBytes n => n
  end.

Definition ty_align (pack : nat) (t : cty) : nat :=
  Nat.min pack (match t with TBytes _ => 1%nat | _ => ty_size t end).

Definition signed (t : cty) : bool :=
  match t with TI8 | TI16 | TI32 | TI64 => true | _ => false end.

(** A member of [n] bytes as an unsigned or signed number. *)
Definition ty_read (t : cty) (bs : list Z) : Z :=
  let v := le_value bs in
  let m := 256 ^ Z.of_nat (ty_size t) in
  if signed t && (m / 2 <=? v) then v - m else v.

Definition ty_ok (t : cty) (v : Z) : Prop :=
  let m := 256 ^ Z.of_nat (ty_size t) in
  if signed t then - (m / 2) <= v < m / 2 else 0 <= v < m.

(** Bytes of padding before a member at offset [off]. *)
Definition padding (pack off : nat) (t : cty) : nat :=
  let a := ty_align pack t in ((a - off mod a) mod a)%nat.

Definition fields : Type := list (string * cty).

Fixpoint decode_from (pack off : nat) (fs : fields) (bs : list Z) : list (string * Z) :=
  match fs with
  | [] => []
  | (name, t) :: fs' =>
      let p := padding pack off t in
      (name, ty_read t (take (ty_size t) (drop p bs)))
        :: decode_from pack (off + p + ty_size t) fs' (drop (p + ty_size t) bs)
  end.

Fixpoint encode_from (pack off : nat) (fs : fields) (vs : list Z) : list Z :=
  match fs, vs with
  | (name, t) :: fs', v :: vs' =>
      let p := padding pack off t in
      zeros p ++ le_bytes (ty_size t) v ++ encode_from pack (off + p + ty_size t) fs' vs'
  | _, _ => []
  end.

(** Offset behind the last member, and [sizeof]: rounded up to the alignment. *)
Fixpoint end_from (pack off : nat) (fs : fields) : nat :=
  match fs with
  | [] => off
  | (_, t) :: fs' => end_from pack (off + padding pack off t + ty_size t) fs'
  end.

Definition struct_align (pack : nat) (fs : fields) : nat :=
  foldr (fun f a => Nat.max (ty_align pack (snd f)) a) 1%nat fs.

Definition struct_size (pack : nat) (fs : fields) : nat :=
  let e := end_from pack 0 fs in
  let a := struct_align pack fs in
  (e + (a - e mod a) mod a)%nat.

Definition struct_decode (pack : nat) (fs : fields) (bs : list Z) : list (string * Z) := decode_from pack 0 fs bs.

Definition struct_encode (pack : nat) (fs : fields) (vs : list Z) : list Z :=
  let bs := encode_from pack 0 fs vs in bs ++ zeros (struct_size pack fs - length bs).

(** The member [name] of a decoded structure. *)
Fixpoint member (name : string) (s : list (string * Z)) : Z :=
  match s with
  | [] => 0
  | (n, v) :: s' => if String.eqb n name then v else member name s'
  end.

(** * Lemmas *)

Lemma ty_read_write t v : ty_ok t v -> ty_read t (le_bytes (ty_size t) v) = v.
Proof.
  unfold ty_ok, ty_read. rewrite le_value_bytes. set (m := 256 ^ Z.of_nat (ty_size t)).
  intros H. destruct (signed t) eqn:Es; cbn [andb].
  - assert (exists k, m = 2 * k /\ 0 < k) as (k & Hm & Hk).
    { exists (m / 2). unfold m. destruct t; try discriminate Es; split; vm_compute; reflexivity. }
    rewrite Hm in *. replace (2 * k / 2) with k in * by (rewrite Z.mul_comm, Z.div_mul; lia).
    destruct (Z.leb_spec k (v mod (2 * k))) as [Hl|Hl].
    + destruct (decide (0 <= v)); [rewrite Z.mod_small in Hl by lia; lia|].
      rewrite <- (Z.mod_unique_pos v (2 * k) (-1) (v + 2 * k)); lia.
    + destruct (decide (0 <= v)); [apply Z.mod_small; lia|].
      rewrite <- (Z.mod_unique_pos v (2 * k) (-1) (v + 2 * k)) in Hl; lia.
  - apply Z.mod_small. exact H.
Qed.

Lemma decode_encode pack off fs vs post : Forall2 (fun f v => ty_ok (snd f) v) fs vs ->
  decode_from pack off fs (encode_from pack off fs vs ++ post) = zip (map fst fs) vs.
Proof.
  intros H. revert off. induction H as [|[name t] v fs vs Hv _ IH]; intros off; cbn; [done|].
  cbn in Hv. set (p := padding pack off t).
  rewrite <- drop_drop, <- !app_assoc. unfold zeros at 1 2.
  rewrite !drop_app_length' by (by rewrite length_replicate).
  rewrite take_app_length', drop_app_length' by (by rewrite length_le_bytes). by rewrite ty_read_write, IH.
Qed.

Lemma encode_length pack off fs vs : length fs = length vs ->
  (off + length (encode_from pack off fs vs) = end_from pack off fs)%nat.
Proof.
  revert off vs. induction fs as [|[name t] fs IH]; intros off [|v vs] H; try discriminate; cbn; [lia|].
  injection H as H. rewrite <- (IH _ vs H). rewrite !length_app, length_le_bytes. unfold zeros. rewrite length_replicate. lia.
Qed.

Lemma struct_roundtrip pack fs vs post : Forall2 (fun f v => ty_ok (snd f) v) fs vs ->
  struct_decode pack fs (struct_encode pack fs vs ++ post) = zip (map fst fs) vs.
Proof. intros H. unfold struct_decode, struct_encode. rewrite <- app_assoc. by apply decode_encode. Qed.

Lemma struct_encode_size pack fs vs : length fs = length vs -> length (struct_encode pack fs vs) = struct_size pack fs.
Proof.
  intros H. unfold struct_encode, struct_size. pose proof (encode_length pack 0 fs vs H) as E. cbn in E.
  rewrite length_app, E. unfold zeros. rewrite length_replicate. lia.
Qed.
