(* ===== verification/Agps.v ===== *)
(** The AGPS, network-initiated, RIL and SUPL-certificate interfaces of the HAL
    (src/hal/gps/hal/gps_mtk_aosp.c): each call packs its arguments into a
    1024-byte buffer and sends the buffer to the MNL daemon. C strings are given
    by their bytes, pointers to structures by the bytes they point to. *)

From stdpp Require Import base list gmap strings numbers.
From Stdlib Require Import ZArith Lia SpecFloat.
From S2P Require Import Prelude CFloat GpsTypes Buff Daemon.

Local Open Scope Z_scope.
Local Open Scope st_scope.
Local Open Scope rec_scope.
Local Open Scope buff_scope.

(** gps_mtk_aosp.c:433-434 [nw_wifi, nw_data]. *)
Definition nw_wifi : Z := 1.
Definition nw_data : Z := 0.

(** The local [char buff[1024] = {0}; int offset = 0;] of every sender. *)
Definition fresh : cursor := (zeros 1024, 0).

(** The common tail of the senders: the whole array goes to the daemon. *)
Definition post (b : option cursor) : HAL Z :=
  let* b := of_option b in
  let* w := getM in
  mtk_daemon_send (send_fd (w_agps w)) MTK_HAL2MNLD b.1.

(** * AGpsInterface *)

(** gps_mtk_aosp.c:851-854 [agps_init]. *)
Definition agps_init : HAL unit := modM (fun w => w <| w_agps := (w_agps w) <| agps_callbacks := true |> |>).

(** gps_mtk_aosp.c:855-865 [agps_data_conn_open]. *)
Definition agps_data_conn_open (apn : list Z) : HAL Z :=
  post (buff_put_int (agps_info AGPS_FRAMEWORK_INFO_DATA_CONN_OPEN) fresh
        |>> buff_put_string apn) ;;
  retM 0.

(** gps_mtk_aosp.c:866-875 [agps_data_conn_open_with_apn_ip_type]. *)
Definition agps_data_conn_open_with_apn_ip_type (apn : list Z) (apnIpType : Z) : HAL Z :=
  post (buff_put_int (agps_info AGPS_FRAMEWORK_INFO_DATA_CONN_OPEN_IP_TYPE) fresh
        |>> buff_put_string apn
        |>> buff_put_int apnIpType) ;;
  retM 0.

(** gps_mtk_aosp.c:876-885 [agps_data_conn_closed]. *)
Definition agps_data_conn_closed : HAL Z :=
  post (buff_put_int (agps_info AGPS_FRAMEWORK_INFO_DATA_CONN_CLOSED) fresh) ;;
  retM 0.

(** gps_mtk_aosp.c:886-895 [agps_data_conn_failed]. *)
Definition agps_data_conn_failed : HAL Z :=
  post (buff_put_int (agps_info AGPS_FRAMEWORK_INFO_DATA_CONN_FAILED) fresh) ;;
  retM 0.

(** gps_mtk_aosp.c:896-908 [agps_set_server]. *)
Definition agps_set_server (type : Z) (hostname : list Z) (port : Z) : HAL Z :=
  post (buff_put_int (agps_info AGPS_FRAMEWORK_INFO_SET_SERVER) fresh
        |>> buff_put_int type
        |>> buff_put_string hostname
        |>> buff_put_int port).

(** * SuplCertificateInterface *)

(** gps_mtk_aosp.c:919-930 [agps_install_certificates] [length] is the number of
    certificates, and the number of bytes copied from the array. *)
Definition agps_install_certificates (certificates : list Z) (length : Z) : HAL Z :=
  let* bs := of_option (mem_read certificates 0 length) in
  post (buff_put_int (agps_info AGPS_FRAMEWORK_INFO_INSTALL_CERTIFICATES) fresh
        |>> buff_put_int length
        |>> buff_put_struct bs).

(** gps_mtk_aosp.c:931-941 [agps_revoke_certificates] likewise. *)
Definition agps_revoke_certificates (fingerprints : list Z) (length : Z) : HAL Z :=
  let* bs := of_option (mem_read fingerprints 0 length) in
  post (buff_put_int (agps_info AGPS_FRAMEWORK_INFO_REVOKE_CERTIFICATES) fresh
        |>> buff_put_int length
        |>> buff_put_struct bs).

(** * GpsNiInterface *)

(** gps_mtk_aosp.c:949-952 [gps_ni_init]. *)
Definition gps_ni_init : HAL unit := modM (fun w => w <| w_agps := (w_agps w) <| gps_ni_callbacks := true |> |>).

(** gps_mtk_aosp.c:953-963 [gps_ni_respond]. *)
Definition gps_ni_respond (notif_id user_response : Z) : HAL unit :=
  post (buff_put_int (agps_info AGPS_FRAMEWORK_INFO_NI_RESPOND) fresh
        |>> buff_put_int notif_id
        |>> buff_put_int user_response) ;;
  retM tt.

(** * AGpsRilInterface *)

(** gps_mtk_aosp.c:971-974 [agps_ril_init]. *)
Definition agps_ril_init : HAL unit := modM (fun w => w <| w_agps := (w_agps w) <| agps_ril_callbacks := true |> |>).

(** gps_mtk_aosp.c:975-986 [agps_ril_set_ref_location] [agps_reflocation] are the
    bytes of an AGpsRefLocation. *)
Definition agps_ril_set_ref_location (agps_reflocation : list Z) (sz_struct : Z) : HAL unit :=
  post (buff_put_int (agps_info AGPS_FRAMEWORK_INFO_SET_REF_LOC) fresh
        |>> buff_put_struct agps_reflocation
        |>> buff_put_int sz_struct) ;;
  retM tt.

(** gps_mtk_aosp.c:987-997 [agps_ril_set_set_id]. *)
Definition agps_ril_set_set_id (type : Z) (setid : list Z) : HAL unit :=
  post (buff_put_int (agps_info AGPS_FRAMEWORK_INFO_SET_SET_ID) fresh
        |>> buff_put_int type
        |>> buff_put_string setid) ;;
  retM tt.

(** gps_mtk_aosp.c:998-1007 [agps_ril_ni_message]. *)
Definition agps_ril_ni_message (msg : list Z) : HAL unit :=
  post (buff_put_int (agps_info AGPS_FRAMEWORK_INFO_NI_MESSAGE) fresh
        |>> buff_put_binary msg) ;;
  retM tt.

(** gps_mtk_aosp.c:1008-1017 [agps_network_connected_wifi_tragger_nlp]. *)
Definition agps_network_connected_wifi_tragger_nlp : HAL unit :=
  post (buff_put_int (hal_cmd MNL_CMD_GPS_NLP_LOCATION_REQ) fresh) ;;
  retM tt.

(** gps_mtk_aosp.c:1018-1042 [agps_ril_update_network_state] a null [extra_info] is
    [None]. *)
Definition agps_ril_update_network_state (connected type roaming : Z) (extra_info : option (list Z)) : HAL unit :=
  let* w := getM in
  (if (w_nw_connected w =? 0) && (connected =? 1) && (type =? nw_wifi)
   then agps_network_connected_wifi_tragger_nlp else retM tt) ;;
  modM (fun w => w <| w_nw_connected := connected |> <| w_nw_type := type |>) ;;
  post (buff_put_int (agps_info AGPS_FRAMEWORK_INFO_UPDATE_NETWORK_STATE) fresh
        |>> buff_put_int connected
        |>> buff_put_int type
        |>> buff_put_int roaming
        |>> buff_put_string (default [] extra_info)) ;;
  retM tt.

(** gps_mtk_aosp.c:1043-1064 [agps_ril_update_network_availability]. *)
Definition agps_ril_update_network_availability (avaiable : Z) (apn : option (list Z)) : HAL unit :=
  post (buff_put_int (agps_info AGPS_FRAMEWORK_INFO_UPDATE_NETWORK_AVAILABILITY) fresh
        |>> buff_put_int avaiable
        |>> buff_put_string (default [] apn)) ;;
  retM tt.

(** * What each call promises

    The abstract view of the interface: a call, and the message it stands for. *)

Inductive agps_call :=
  | DataConnOpen (apn : list Z)
  | DataConnOpenIp (apn : list Z) (ip_type : Z)
  | DataConnClosed
  | DataConnFailed
  | SetServer (type : Z) (hostname : list Z) (port : Z)
  | NiRespond (notif_id response : Z)
  | SetRefLocation (loc : list Z) (size : Z)
  | SetSetId (type : Z) (setid : list Z)
  | NiMessage (msg : list Z)
  | NetworkAvailability (avail : Z) (apn : option (list Z)).

Definition call_items (c : agps_call) : list item :=
  match c with
  | DataConnOpen apn => [IInt 125; IStr apn]
  | DataConnOpenIp apn t => [IInt 135; IStr apn; IInt t]
  | DataConnClosed => [IInt 127]
  | DataConnFailed => [IInt 126]
  | SetServer t h p => [IInt 132; IInt t; IStr h; IInt p]
  | NiRespond i r => [IInt 129; IInt i; IInt r]
  | SetRefLocation l s => [IInt 130; IStruct l; IInt s]
  | SetSetId t s => [IInt 131; IInt t; IStr s]
  | NiMessage m => [IInt 128; IBin m]
  | NetworkAvailability a apn => [IInt 134; IInt a; IStr (default [] apn)]
  end.

Definition agps_exec (c : agps_call) : HAL Z :=
  match c with
  | DataConnOpen apn => agps_data_conn_open apn
  | DataConnOpenIp apn t => agps_data_conn_open_with_apn_ip_type apn t
  | DataConnClosed => agps_data_conn_closed
  | DataConnFailed => agps_data_conn_failed
  | SetServer t h p => agps_set_server t h p
  | NiRespond i r => gps_ni_respond i r ;; retM 0
  | SetRefLocation l s => agps_ril_set_ref_location l s ;; retM 0
  | SetSetId t s => agps_ril_set_set_id t s ;; retM 0
  | NiMessage m => agps_ril_ni_message m ;; retM 0
  | NetworkAvailability a apn => agps_ril_update_network_availability a apn ;; retM 0
  end.

(** Only [agps_set_server] passes the result of the send to its caller. *)
Definition call_result (c : agps_call) (sent : Z) : Z :=
  match c with SetServer _ _ _ => sent | _ => 0 end.

(** One datagram of 1024 bytes that carries a message, if it fits. *)
Definition send_message (l : list item) : HAL Z :=
  if zlen (encode l) <=? 1024 then
    let* w := getM in mtk_daemon_send (send_fd (w_agps w)) MTK_HAL2MNLD (message 1024 l)
  else undefM.

(** The specification of a call that sends one message. *)
Definition agps_spec (c : agps_call) : HAL Z :=
  let* sent := send_message (call_items c) in retM (call_result c sent).

(** The calls of the four interfaces: those above, a change of the network's state, the certificates
    of the SUPL server, and the tables of callbacks that the framework registers. *)
Inductive agps_table := AgpsTable | NiTable | RilTable.
Inductive agps_op :=
  | Single (c : agps_call)
  | NetworkState (connected type roaming : Z) (extra_info : option (list Z))
  | InstallCertificates (certificates : list Z) (length : Z)
  | RevokeCertificates (fingerprints : list Z) (length : Z)
  | Register (t : agps_table).

Definition agps_run (o : agps_op) : HAL Z :=
  match o with
  | Single c => agps_exec c
  | NetworkState c t r e => agps_ril_update_network_state c t r e ;; retM 0
  | InstallCertificates cs n => agps_install_certificates cs n
  | RevokeCertificates fs n => agps_revoke_certificates fs n
  | Register AgpsTable => agps_init ;; retM 0
  | Register NiTable => gps_ni_init ;; retM 0
  | Register RilTable => agps_ril_init ;; retM 0
  end.

(** The table [t] is registered; the other two are as they were. *)
Definition with_table (t : agps_table) (c : agps_context) : agps_context :=
  let same t' := match t, t' with AgpsTable, AgpsTable | NiTable, NiTable | RilTable, RilTable => true | _, _ => false end in
  mkAgps (send_fd c) (same AgpsTable || agps_callbacks c) (same NiTable || gps_ni_callbacks c) (same RilTable || agps_ril_callbacks c).

(** As many bytes of the caller's array as it has certificates; reading more is undefined. *)
Definition send_certificates (command : Z) (l : list Z) (n : Z) : HAL Z :=
  if (0 <=? n) && (n <=? zlen l) then send_message [IInt command; IInt n; IStruct (take (Z.to_nat n) l)] else undefM.

(** What each call of the interfaces promises. *)
Definition agps_promise (o : agps_op) : HAL Z :=
  match o with
  | Single c => agps_spec c
  | NetworkState connected type roaming extra_info =>
      let* w := getM in
      (if (w_nw_connected w =? 0) && (connected =? 1) && (type =? nw_wifi) then send_message [IInt 74] ;; retM tt else retM tt) ;;
      modM (fun w => w <| w_nw_connected := connected |> <| w_nw_type := type |>) ;;
      send_message [IInt 133; IInt connected; IInt type; IInt roaming; IStr (default [] extra_info)] ;;
      retM 0
  | InstallCertificates cs n => send_certificates 136 cs n
  | RevokeCertificates fs n => send_certificates 137 fs n
  | Register t => modM (fun w => w <| w_agps := with_table t (w_agps w) |>) ;; retM 0
  end.

(** * Lemmas *)

Lemma put_items_snoc l i b : put_items (l ++ [i]) b = put_items l b |>> put_item i.
Proof.
  revert b. induction l as [|j l IH]; intros b; cbn [put_items app].
  - cbn. by destruct (put_item i b).
  - destruct (put_item j b) as [c|]; cbn [mbind option_bind]; [apply IH|done].
Qed.

Lemma post_items l w :
  post (put_items l fresh) w = send_message l w.
Proof.
  unfold post, fresh, send_message. rewrite put_items_message. change (Z.of_nat 1024) with 1024.
  by destruct (_ <=? _).
Qed.

(** The chains of writers of the senders are [put_items]. *)
Lemma chain1 i b : put_item i b = put_items [i] b.
Proof. cbn. by destruct (put_item i b). Qed.

Lemma chain2 i j b : (put_item i b |>> put_item j) = put_items [i; j] b.
Proof. by rewrite chain1, <- put_items_snoc. Qed.

Lemma chain3 i j k b : (put_item i b |>> put_item j |>> put_item k) = put_items [i; j; k] b.
Proof. by rewrite chain2, <- put_items_snoc. Qed.

Lemma chain4 i j k l b :
  (put_item i b |>> put_item j |>> put_item k |>> put_item l) = put_items [i; j; k; l] b.
Proof. by rewrite chain3, <- put_items_snoc. Qed.

Lemma chain5 i j k l m b :
  (put_item i b |>> put_item j |>> put_item k |>> put_item l |>> put_item m) = put_items [i; j; k; l; m] b.
Proof. by rewrite chain4, <- put_items_snoc. Qed.

(** Present a sender's chain of writers as [put_items]. *)
Ltac chain :=
  change buff_put_int with (fun z => put_item (IInt z));
  change buff_put_string with (fun z => put_item (IStr z));
  change buff_put_binary with (fun z => put_item (IBin z));
  change buff_put_struct with (fun z => put_item (IStruct z));
  cbn beta; rewrite ?chain5; rewrite ?chain4; rewrite ?chain3; rewrite ?chain2; rewrite ?chain1.

Lemma agps_exec_refines c w : agps_exec c w = agps_spec c w.
Proof.
  assert (H : forall l (f : Z -> Z), bindM (post (put_items l fresh)) (fun r => retM (f r)) w =
    (let* sent := send_message l in retM (f sent)) w).
  { intros l f. unfold bindM at 1 2. by rewrite post_items. }
  assert (Hret : forall (m : HAL Z), m w = bindM m (fun r => retM r) w).
  { intros m. unfold bindM. by destruct (m w) as [[]| |]. }
  unfold agps_spec. destruct c; cbn [agps_exec call_items call_result];
    unfold agps_data_conn_open, agps_data_conn_open_with_apn_ip_type, agps_data_conn_closed,
      agps_data_conn_failed, agps_set_server, gps_ni_respond, agps_ril_set_ref_location,
      agps_ril_set_set_id, agps_ril_ni_message, agps_ril_update_network_availability;
    chain; cbn [agps_info]; rewrite ?bindM_assoc;
    first [exact (H _ (fun _ => 0)) | rewrite Hret; exact (H _ (fun r => r))].
Qed.

Lemma network_state_refines connected type roaming extra w :
  (agps_ril_update_network_state connected type roaming extra ;; retM 0) w = agps_promise (NetworkState connected type roaming extra) w.
Proof.
  cbn [agps_promise]. unfold agps_ril_update_network_state, agps_network_connected_wifi_tragger_nlp. chain. cbn [agps_info hal_cmd].
  unfold bindM, retM, modM, getM. destruct (_ && _ && _).
  - rewrite post_items. destruct (send_message [IInt 74] w) as [[z w1]| |]; try done. rewrite post_items. by destruct (send_message _ _) as [[]| |].
  - rewrite post_items. by destruct (send_message _ _) as [[]| |].
Qed.

Lemma certificates_refine (command : Z) (l : list Z) (n : Z) w :
  (let* bs := of_option (mem_read l 0 n) in
   post (buff_put_int command fresh |>> buff_put_int n |>> buff_put_struct bs)) w = send_certificates command l n w.
Proof.
  unfold send_certificates, mem_read. cbn [Z.leb Z.compare andb Z.add Z.to_nat]. rewrite drop_0, Z.add_0_l.
  destruct ((0 <=? n) && (n <=? zlen l)); [|done]. cbn [of_option]. unfold bindM at 1, retM at 1. chain. apply post_items.
Qed.

Lemma post_quiet l w : e_sendto (w_env w) = [] -> zlen (encode l) <= 1024 ->
  post (put_items l fresh) w = Ok (0, w <| w_trace := w_trace w ++ [EvSend MTK_HAL2MNLD (message 1024 l)] |>).
Proof.
  intros Hs Hl. rewrite post_items. unfold send_message. rewrite (proj2 (Z.leb_le _ _) Hl). by apply send_quiet.
Qed.

Lemma zlen_item_str s : zlen (item_bytes (IStr s)) = zlen s + 5.
Proof. cbn [item_bytes]. rewrite !zlen_app, zlen_le_bytes, zlen_cons, zlen_nil. lia. Qed.

Lemma zlen_item_int z : zlen (item_bytes (IInt z)) = 4.
Proof. apply zlen_le_bytes. Qed.

Lemma zlen_encode_cons i l : zlen (encode (i :: l)) = zlen (item_bytes i) + zlen (encode l).
Proof. rewrite encode_cons. apply zlen_app. Qed.

#[export] Hint Rewrite zlen_encode_cons zlen_item_str zlen_item_int : clen.

(** * Properties *)

(** C20: every call of the AGPS, NI, RIL and SUPL-certificate interfaces refines its specification
    in every environment. A call that registers a table of callbacks only remembers it. Every
    other call sends exactly one 1024-byte datagram that holds the call's command code and
    arguments followed by zeros; an update of the network's state sends a request for a network
    location before it when the network goes from disconnected to connected over Wi-Fi, and
    remembers the new state. The certificates are as many bytes as there are certificates. The
    result is 0, except that setting the server and the certificate calls return the result of
    the send. A call whose arguments do not fit the buffer overruns it. *)
Theorem agps_calls_refine (o : agps_op) (w : World) : agps_run o w = agps_promise o w.
Proof.
  destruct o as [c|connected type roaming extra|cs n|fs n|[]]; cbn [agps_run agps_promise]; try done.
  - apply agps_exec_refines.
  - by apply network_state_refines.
  - by apply certificates_refine.
  - by apply certificates_refine.
Qed.

(** the daemon side of the protocol recovers the arguments of every call:
    reading the datagram back with the [buff_get_*] routines yields the command
    code and the arguments in order. *)
Theorem agps_message_decodes (c : agps_call) (w : World)
  (Hok : Forall (item_ok 1024) (call_items c)) (Hfit : zlen (encode (call_items c)) <= 1024)
  (Hs : e_sendto (w_env w) = []) :
  exists buf w', agps_exec c w = Ok (0, w') /\
    w_trace w' = w_trace w ++ [EvSend MTK_HAL2MNLD buf] /\
    exists cur, get_items 1024 (call_items c) (buf, 0) = Some (call_items c, cur).
Proof.
  exists (message 1024 (call_items c)). rewrite agps_exec_refines. unfold agps_spec.
  unfold send_message. rewrite (proj2 (Z.leb_le _ _) Hfit). unfold bindM, getM. rewrite send_quiet by done.
  eexists. split; [by destruct c|]. split; [done|]. eexists.
  exact (get_items_reads 1024 (call_items c) eq_refl Hok [] (zeros (1024 - length (encode (call_items c))))).
Qed.

Lemma agps_message_decodes_witness :
  exists buf w', agps_exec (SetServer 1 (str "supl.google.com") 7276) (world0 7 all_cbs quiet_env) = Ok (0, w') /\
    w_trace w' = [EvSend MTK_HAL2MNLD buf] /\
    exists cur, get_items 1024 [IInt 132; IInt 1; IStr (str "supl.google.com"); IInt 7276] (buf, 0)
      = Some ([IInt 132; IInt 1; IStr (str "supl.google.com"); IInt 7276], cur).
Proof.
  apply (agps_message_decodes (SetServer 1 (str "supl.google.com") 7276) (world0 7 all_cbs quiet_env)).
  - repeat constructor; vm_compute; done || lia.
  - vm_compute. discriminate.
  - reflexivity.
Defined.

(** [agps_data_conn_open] has no bounds check on the access point name: it
    completes exactly when the name has at most 1015 bytes, and a longer name is
    copied past the end of the 1024-byte stack buffer. *)
Theorem agps_data_conn_open_overflow (apn : list Z) (w : World) :
  agps_data_conn_open apn w = Undef <-> 1015 < zlen apn.
Proof.
  change (agps_data_conn_open apn w) with (agps_exec (DataConnOpen apn) w).
  rewrite agps_exec_refines. unfold agps_spec, send_message. cbn [call_items call_result].
  autorewrite with clen. change (zlen (encode [])) with 0.
  destruct (Z.leb_spec (4 + (zlen apn + 5 + 0)) 1024); split; intros Hx; try done; try lia.
  exfalso. unfold bindM, getM, mtk_daemon_send in Hx. unfold bindM in Hx. rewrite daemon_send_run in Hx.
  destruct (send_loop _ _) as [[[? ?] ?] []]; discriminate Hx.
Qed.

(** a network-state update records the new state and sends the state message
    with all four arguments (an absent [extra_info] as the empty string); when the
    network goes from disconnected to connected over Wi-Fi, and only then, a
    network-location request precedes it. *)
Theorem network_state_update (connected type roaming : Z) (extra : option (list Z)) (w : World)
  (Hs : e_sendto (w_env w) = []) (Hl : zlen (default [] extra) <= 1003) :
  let nlp := (w_nw_connected w =? 0) && (connected =? 1) && (type =? nw_wifi) in
  exists w', agps_ril_update_network_state connected type roaming extra w = Ok (tt, w') /\
    w_nw_connected w' = connected /\ w_nw_type w' = type /\
    w_trace w' = w_trace w ++
      (if nlp then [EvSend MTK_HAL2MNLD (message 1024 [IInt 74])] else []) ++
      [EvSend MTK_HAL2MNLD (message 1024
         [IInt 133; IInt connected; IInt type; IInt roaming; IStr (default [] extra)])].
Proof.
  cbn zeta. unfold agps_ril_update_network_state, agps_network_connected_wifi_tragger_nlp.
  chain. rewrite (bindM_ok getM _ w w w) by done.
  assert (Hfit : zlen (encode [IInt 133; IInt connected; IInt type; IInt roaming; IStr (default [] extra)]) <= 1024).
  { autorewrite with clen. change (zlen (encode [])) with 0. lia. }
  destruct (_ && _ && _).
  - rewrite bindM_assoc, (bindM_ok _ _ _ _ _ (post_quiet [IInt 74] w Hs ltac:(done))).
    erewrite (bindM_ok (retM tt)) by done. erewrite (bindM_ok (modM _)) by done.
    erewrite bindM_ok by (by apply post_quiet). eexists. split; [done|]. cbn. by rewrite <- app_assoc.
  - erewrite (bindM_ok (retM tt)) by done. erewrite (bindM_ok (modM _)) by done.
    erewrite bindM_ok by (by apply post_quiet). eexists. split; [done|]. done.
Qed.

Lemma network_state_update_witness :
  exists w', agps_ril_update_network_state 1 nw_wifi 0 None (world0 7 all_cbs quiet_env) = Ok (tt, w') /\
    w_nw_connected w' = 1 /\ w_nw_type w' = 1 /\
    w_trace w' = [EvSend MTK_HAL2MNLD (message 1024 [IInt 74]);
      EvSend MTK_HAL2MNLD (message 1024 [IInt 133; IInt 1; IInt 1; IInt 0; IStr []])].
Proof.
  apply (network_state_update 1 nw_wifi 0 None (world0 7 all_cbs quiet_env)).
  - reflexivity.
  - vm_compute. discriminate.
Defined.
