(* ===== verification/CTime.v ===== *)
(** The calendar functions of the C library that the HAL calls: [gmtime_r],
    [mktime] and the UTC offset of [localtime_r], for a time zone with a fixed
    offset and the 32-bit [time_t] of the device. *)

From stdpp Require Import base list gmap strings numbers.
From Stdlib Require Import ZArith Lia.
From S2P Require Import Prelude.

Local Open Scope Z_scope.

(** * The proleptic Gregorian calendar *)

Definition is_leap (y : Z) : bool :=
  ((y mod 4 =? 0) && negb (y mod 100 =? 0)) || (y mod 400 =? 0).

Definition year_len (y : Z) : Z := if is_leap y then 366 else 365.

(** Days before 1 January of year [y], from a fixed origin. *)
Definition days_before_year (y : Z) : Z :=
  365 * y + (y - 1) / 4 - (y - 1) / 100 + (y - 1) / 400.

(** Days before the month [m] (0 is January) in a year. *)
Definition days_before_month (leap : bool) (m : Z) : Z :=
  at_ [0; 31; 59; 90; 120; 151; 181; 212; 243; 273; 304; 334] m
  + (if leap && (2 <=? m) then 1 else 0).

(** Days since 1 January 1970. *)
Definition days_of_civil (y m d : Z) : Z :=
  days_before_year y - days_before_year 1970 + days_before_month (is_leap y) m + (d - 1).

Record tm := mkTm {
  tm_year : Z;
  tm_mon : Z;
  tm_mday : Z;
  tm_hour : Z;
  tm_min : Z;
  tm_sec : Z;
}.

(** Seconds since the epoch of a broken-down UTC time; fields out of their range
    carry over. *)
Definition timegm (t : tm) : Z :=
  let y := 1900 + tm_year t + tm_mon t / 12 in
  let m := tm_mon t mod 12 in
  ((days_of_civil y m (tm_mday t) * 24 + tm_hour t) * 60 + tm_min t) * 60 + tm_sec t.

(** [mktime] in a zone [gmtoff] seconds east of Greenwich; -1 when the result does
    not fit [time_t]. *)
Definition mktime (gmtoff : Z) (t : tm) : Z :=
  let s := timegm t - gmtoff in
  if (- 2 ^ 31 <=? s) && (s <? 2 ^ 31) then s else -1.

(** The year that contains day [d] (counted as in [days_before_year]). *)
Definition year_of_day (d : Z) : Z :=
  let c := d * 400 / 146097 in
  if d <? days_before_year c then c - 1
  else if days_before_year (c + 1) <=? d then c + 1
  else c.

(** The month that contains day [r] of a year. *)
Fixpoint month_of_day (leap : bool) (n : nat) (r : Z) : Z :=
  match n with
  | O => 0
  | S n' => if days_before_month leap (Z.of_nat n) <=? r then Z.of_nat n else month_of_day leap n' r
  end.

Definition gmtime (t : Z) : tm :=
  let d := t / 86400 + days_before_year 1970 in
  let s := t mod 86400 in
  let y := year_of_day d in
  let r := d - days_before_year y in
  let m := month_of_day (is_leap y) 11 r in
  mkTm (y - 1900) m (r - days_before_month (is_leap y) m + 1) (s / 3600) (s mod 3600 / 60) (s mod 60).

(** * Facts *)

Lemma div_step (y k : Z) : 0 < k -> y / k = (y - 1) / k + (if y mod k =? 0 then 1 else 0).
Proof.
  intros Hk. destruct (Z.eqb_spec (y mod k) 0) as [E|E].
  - assert (y = k * (y / k)) as Hy by (pose proof (Z.div_mod y k); lia).
    rewrite <- (Z.div_unique (y - 1) k (y / k - 1) (k - 1)); lia.
  - pose proof (Z.mod_pos_bound y k Hk). pose proof (Z.div_mod y k).
    rewrite <- (Z.div_unique (y - 1) k (y / k) (y mod k - 1)); lia.
Qed.

Lemma days_before_year_succ y : days_before_year (y + 1) = days_before_year y + year_len y.
Proof.
  unfold days_before_year, year_len, is_leap. replace (y + 1 - 1) with y by lia.
  rewrite (div_step y 4), (div_step y 100), (div_step y 400) by lia.
  destruct (Z.eqb_spec (y mod 400) 0), (Z.eqb_spec (y mod 100) 0), (Z.eqb_spec (y mod 4) 0);
    cbn [andb orb negb]; try lia; exfalso; Z.div_mod_to_equations; lia.
Qed.

Lemma year_len_bounds y : 365 <= year_len y <= 366.
Proof. unfold year_len. destruct (is_leap y); lia. Qed.

Lemma days_before_year_mono y1 y2 : y1 <= y2 -> 365 * (y2 - y1) <= days_before_year y2 - days_before_year y1.
Proof.
  intros H. unfold days_before_year.
  assert ((y1 - 1) / 4 - (y1 - 1) / 100 + (y1 - 1) / 400 <= (y2 - 1) / 4 - (y2 - 1) / 100 + (y2 - 1) / 400); [|lia].
  Z.div_mod_to_equations. lia.
Qed.

(** [year_of_day] finds the year. *)
Lemma year_of_day_spec d :
  days_before_year (year_of_day d) <= d < days_before_year (year_of_day d + 1).
Proof.
  unfold year_of_day. set (c := d * 400 / 146097).
  assert (400 * d - 146097 < 146097 * c <= 400 * d) as Hc by (unfold c; Z.div_mod_to_equations; lia).
  clearbody c.
  assert (days_before_year (c - 1) <= d) as L1 by (unfold days_before_year; Z.div_mod_to_equations; lia).
  assert (d < days_before_year (c + 2)) as L2 by (unfold days_before_year; Z.div_mod_to_equations; lia).
  destruct (Z.ltb_spec d (days_before_year c)); [replace (c - 1 + 1) with c by lia; lia|].
  destruct (Z.leb_spec (days_before_year (c + 1)) d); [replace (c + 1 + 1) with (c + 2) by lia; lia|lia].
Qed.

Lemma month_of_day_spec (leap : bool) (r : Z) : 0 <= r < (if leap then 366 else 365) ->
  0 <= month_of_day leap 11 r <= 11 /\
  days_before_month leap (month_of_day leap 11 r) <= r.
Proof.
  intros H.
  assert (forall k, (k <= 11)%nat -> 0 <= month_of_day leap k r <= Z.of_nat k /\
            days_before_month leap (month_of_day leap k r) <= r) as G; [|by apply (G 11%nat)].
  induction k as [|k IH]; intros Hk; cbn [month_of_day].
  - split; [lia|]. replace (days_before_month leap 0) with 0 by (by destruct leap). lia.
  - destruct (Z.leb_spec (days_before_month leap (Z.of_nat (S k))) r); [lia|].
    destruct IH; lia.
Qed.

(** [timegm] inverts [gmtime]. *)
Lemma timegm_gmtime t : timegm (gmtime t) = t.
Proof.
  unfold timegm, gmtime. cbn [tm_year tm_mon tm_mday tm_hour tm_min tm_sec].
  set (d := t / 86400 + days_before_year 1970).
  pose proof (year_of_day_spec d) as Hy. set (y := year_of_day d) in *.
  rewrite days_before_year_succ in Hy. unfold year_len in Hy.
  destruct (month_of_day_spec (is_leap y) (d - days_before_year y)) as [Hm _]; [lia|].
  set (m := month_of_day (is_leap y) 11 (d - days_before_year y)) in *.
  rewrite Z.div_small, Z.mod_small by lia. replace (1900 + (y - 1900) + 0) with y by lia.
  unfold days_of_civil. unfold d. Z.div_mod_to_equations. lia.
Qed.

Lemma timegm_time y m d h mi s h' mi' s' :
  timegm (mkTm y m d h mi s) - timegm (mkTm y m d h' mi' s')
    = (h - h') * 3600 + (mi - mi') * 60 + (s - s').
Proof. unfold timegm. cbn [tm_year tm_mon tm_mday tm_hour tm_min tm_sec]. lia. Qed.

Example gmtime_epoch : gmtime 0 = mkTm 70 0 1 0 0 0.
Proof. reflexivity. Qed.

Example gmtime_leap : gmtime 951782400 = mkTm 100 1 29 0 0 0.
Proof. reflexivity. Qed.

Example mktime_2038 : mktime 0 (mkTm 138 0 19 3 14 7) = 2147483647 /\ mktime 0 (mkTm 138 0 19 3 14 8) = -1.
Proof. split; reflexivity. Qed.
