(* ===== verification/NmeaTok.v ===== *)
(** The NMEA tokenizer and the number readers of the GPS HAL
    (src/hal/gps/hal/gps_mtk_aosp.c). Pointers into the input array are offsets;
    every read is checked against the array, [None] is a read outside of it. *)

From stdpp Require Import base list gmap strings numbers.
From Stdlib Require Import ZArith Lia SpecFloat.
From S2P Require Import Prelude CFloat.

Local Open Scope Z_scope.

(** A load of one byte. *)
Definition ldb (mem : list Z) (i : Z) : option Z :=
  if (0 <=? i) && (i <? zlen mem) then Some (at_ mem i) else None.

(** [memchr (mem + p, c, n)]: the offset of the first [c], if there is one. *)
Fixpoint index_of (c : Z) (l : list Z) : option Z :=
  match l with
  | [] => None
  | b :: l' => if b =? c then Some 0 else Z.succ <$> index_of c l'
  end.

Definition memchr (mem : list Z) (p c n : Z) : option (option Z) :=
  s ← mem_read mem p n; Some (Z.add p <$> index_of c s).

(** gps_mtk_aosp.c:1310-1313 [Token] with the array its pointers point into. *)
Record Token := mkTok { tk_mem : list Z; tk_p : Z; tk_end : Z }.

(** gps_mtk_aosp.c:1315-1320 [NmeaTokenizer] the tokens in use; [count] is the length. *)
Definition MAX_NMEA_TOKENS : nat := 24.
Definition NmeaTokenizer : Type := list Token.

(** gps_mtk_aosp.c:1328-1330 [nmea_tokenizer_init, dollar sign]. *)
Definition skip_dollar (mem : list Z) (p e : Z) : option Z :=
  if p <? e then c ← ldb mem p; Some (if c =? chr "$" then p + 1 else p) else Some p.

(** gps_mtk_aosp.c:1332-1337 [nmea_tokenizer_init, line end]. *)
Definition trim_newline (mem : list Z) (p e : Z) : option Z :=
  if p <? e then
    c ← ldb mem (e - 1);
    if c =? 10 then
      let e := e - 1 in
      if p <? e then c ← ldb mem (e - 1); Some (if c =? 13 then e - 1 else e)
      else Some e
    else Some e
  else Some e.

(** gps_mtk_aosp.c:1339-1342 [nmea_tokenizer_init, checksum]. *)
Definition trim_checksum (mem : list Z) (p e : Z) : option Z :=
  if p + 3 <=? e then c ← ldb mem (e - 3); Some (if c =? chr "*" then e - 3 else e) else Some e.

(** gps_mtk_aosp.c:1328-1342 [nmea_tokenizer_init, prologue] the bounds without
    the dollar sign, the line end and the checksum. *)
Definition tokenizer_trim (mem : list Z) (p e : Z) : option (Z * Z) :=
  p ← skip_dollar mem p e;
  e ← trim_newline mem p e;
  e ← trim_checksum mem p e;
  Some (p, e).

(** gps_mtk_aosp.c:1344-1362 [nmea_tokenizer_init, loop] each round advances, so
    [e - p] rounds are enough. *)
Fixpoint tokenizer_loop (fuel : nat) (mem : list Z) (p e : Z) (t : NmeaTokenizer) : option NmeaTokenizer :=
  if p <? e then
    match fuel with
    | O => None
    | S fuel' =>
        r ← memchr mem p (chr ",") (e - p);
        let q := default e r in
        let t := if (p <=? q) && (length t <? MAX_NMEA_TOKENS)%nat then t ++ [mkTok mem p q] else t in
        let q := if q <? e then q + 1 else q in
        tokenizer_loop fuel' mem q e t
    end
  else Some t.

(** gps_mtk_aosp.c:1322-1366 [nmea_tokenizer_init]. *)
Definition nmea_tokenizer_init (mem : list Z) (p e : Z) : option NmeaTokenizer :=
  pe ← tokenizer_trim mem p e;
  tokenizer_loop (Z.to_nat (pe.2 - pe.1)) mem pe.1 pe.2 [].

(** gps_mtk_aosp.c:1368-1380 [nmea_tokenizer_get] the dummy token points to an
    empty C string. *)
Definition nmea_tokenizer_get (t : NmeaTokenizer) (index : Z) : Token :=
  if (index <? 0) || (zlen t <=? index) then mkTok [0] 0 0
  else nth (Z.to_nat index) t (mkTok [0] 0 0).

(** gps_mtk_aosp.c:1397-1409 [str2int, loop] the outer [None] is a read outside of
    the array, the inner one the jump to Fail. *)
Fixpoint str2int_loop (mem : list Z) (p e : Z) (len : nat) (result : Z) : option (option Z) :=
  match len with
  | O => Some (Some result)
  | S len' =>
      if e <=? p then Some None
      else
        b ← ldb mem p;
        let c := b - chr "0" in
        if 10 <=? u32 c then Some None
        else str2int_loop mem (p + 1) e len' (i32 (result * 10 + c))
  end.

(** gps_mtk_aosp.c:1383-1414 [str2int]. *)
Definition str2int (mem : list Z) (p e : Z) : option Z :=
  b ← ldb mem p;
  let '(sign, p) := if b =? chr "-" then (-1, p + 1) else (1, p) in
  r ← str2int_loop mem p e (Z.to_nat (e - p)) 0;
  Some (match r with Some result => i32 (sign * result) | None => -1 end).

(** gps_mtk_aosp.c:1416-1429 [str2float]. *)
Definition str2float (mem : list Z) (p e : Z) : option double :=
  let len := e - p in
  if 16 <=? len then Some dzero
  else s ← mem_read mem p len; Some (strtod (cstr s)).

(** The two readers on a whole token. *)
Definition tok2int (t : Token) : option Z := str2int (tk_mem t) (tk_p t) (tk_end t).
Definition tok2float (t : Token) : option double := str2float (tk_mem t) (tk_p t) (tk_end t).

(** * Specification *)

(** The text of a token. *)
Definition tok_text (t : Token) : list Z :=
  take (Z.to_nat (tk_end t - tk_p t)) (drop (Z.to_nat (tk_p t)) (tk_mem t)).

(** A token whose pointers lie in its array, with one more byte after its end. *)
Definition tok_ok (t : Token) : Prop := 0 <= tk_p t <= tk_end t /\ tk_end t < zlen (tk_mem t).

(** The fields of a sentence: split at the commas, no empty field at the end. *)
Fixpoint fields (cur l : list Z) : list (list Z) :=
  match l with
  | [] => match cur with [] => [] | _ => [cur] end
  | c :: l' => if c =? chr "," then cur :: fields [] l' else fields (cur ++ [c]) l'
  end.

Definition drop_last (l : list Z) : list Z := take (length l - 1) l.
Definition last_is (c : Z) (l : list Z) : bool :=
  match list.last l with Some b => b =? c | None => false end.

(** The body of a sentence: without dollar sign, line end and checksum. *)
Definition strip_dollar (s : list Z) : list Z :=
  match s with c :: s' => if c =? chr "$" then s' else s | [] => [] end.
Definition strip_newline (s : list Z) : list Z :=
  if last_is 10 s then
    let s := drop_last s in if last_is 13 s then drop_last s else s
  else s.
Definition strip_checksum (s : list Z) : list Z :=
  if (3 <=? zlen s) && (at_ s (zlen s - 3) =? chr "*") then take (length s - 3) s else s.
Definition strip (s : list Z) : list Z := strip_checksum (strip_newline (strip_dollar s)).

Definition is_digits (ds : list Z) : Prop := Forall (fun c => is_digit c = true) ds.

(** The value of a string of digits. *)
Definition dec_value (ds : list Z) : Z := fold_left (fun v c => v * 10 + (c - 48)) ds 0.

Definition gga : list Z := str "$GPGGA,123519,4807.038,N,01131.000,E,1,08,0.9,545.4,M,,*47" ++ [13; 10].

Example tok_gga : map tok_text <$> nmea_tokenizer_init gga 0 (zlen gga) =
  Some (map str ["GPGGA"; "123519"; "4807.038"; "N"; "01131.000"; "E"; "1"; "08"; "0.9"; "545.4"; "M"; ""])%string.
Proof. vm_compute. reflexivity. Qed.

Example fields_gga : fields [] (strip gga) =
  map str ["GPGGA"; "123519"; "4807.038"; "N"; "01131.000"; "E"; "1"; "08"; "0.9"; "545.4"; "M"; ""]%string.
Proof. vm_compute. reflexivity. Qed.

Example str2int_ex : map (fun s => str2int (str s ++ [0]) 0 (zlen (str s))) ["042"; "-7"; "1x"; ""]%string
  = [Some 42; Some (-7); Some (-1); Some 0].
Proof. vm_compute. reflexivity. Qed.

(** * Sub-arrays *)

(** The bytes of [mem] from [p] up to [e]. *)
Definition sub (mem : list Z) (p e : Z) : list Z := take (Z.to_nat (e - p)) (drop (Z.to_nat p) mem).

Section Sub.
Context (mem : list Z).

Lemma ldb_Some i : 0 <= i < zlen mem -> ldb mem i = Some (at_ mem i).
Proof. intros H. unfold ldb. zb; cbn; done || lia. Qed.

Lemma sub_length p e : 0 <= p <= e -> e <= zlen mem -> zlen (sub mem p e) = e - p.
Proof. intros H1 H2. unfold zlen, sub in *. rewrite length_take, length_drop. lia. Qed.

Lemma at_lookup (l : list Z) i : 0 <= i < zlen l -> l !! Z.to_nat i = Some (at_ l i).
Proof.
  intros H. unfold at_, zlen in *. destruct (Z.ltb_spec i 0); [lia|].
  destruct (nth_lookup_or_length l (Z.to_nat i) 0); [done|lia].
Qed.

Lemma sub_cons p e : 0 <= p < e -> e <= zlen mem -> sub mem p e = at_ mem p :: sub mem (p + 1) e.
Proof.
  intros H1 H2. unfold sub. rewrite (drop_S mem (at_ mem p) (Z.to_nat p)) by (apply at_lookup; lia).
  replace (Z.to_nat (e - p)) with (S (Z.to_nat (e - (p + 1)))) by lia. cbn [take].
  by replace (Z.to_nat (p + 1)) with (S (Z.to_nat p)) by lia.
Qed.

Lemma sub_nil p e : e <= p -> sub mem p e = [].
Proof. intros H. unfold sub. by replace (Z.to_nat (e - p)) with 0%nat by lia. Qed.

Lemma sub_split p q e : 0 <= p <= q -> q <= e -> e <= zlen mem ->
  sub mem p e = sub mem p q ++ sub mem q e.
Proof.
  intros H1 H2 H3. unfold sub. replace (Z.to_nat (e - p)) with (Z.to_nat (q - p) + Z.to_nat (e - q))%nat by lia.
  rewrite <- take_take_drop, drop_drop. do 3 f_equal. lia.
Qed.

Lemma sub_snoc p e : 0 <= p < e -> e <= zlen mem -> sub mem p e = sub mem p (e - 1) ++ [at_ mem (e - 1)].
Proof.
  intros H1 H2. rewrite (sub_split p (e - 1) e) by lia. f_equal.
  rewrite (sub_cons (e - 1) e), sub_nil by lia. done.
Qed.

Lemma mem_read_sub p e : 0 <= p <= e -> e <= zlen mem -> mem_read mem p (e - p) = Some (sub mem p e).
Proof. intros H1 H2. unfold mem_read. zb; cbn; done || lia. Qed.

Lemma at_sub p e i : 0 <= p -> e <= zlen mem -> 0 <= i < e - p -> at_ (sub mem p e) i = at_ mem (p + i).
Proof.
  intros H1 H2 H3. apply (inj Some). rewrite <- !at_lookup by (rewrite ?sub_length; lia).
  unfold sub. rewrite lookup_take_lt, lookup_drop by lia. f_equal. lia.
Qed.

Lemma take_sub p e n : 0 <= p <= e -> e <= zlen mem -> 0 <= n <= e - p ->
  take (Z.to_nat n) (sub mem p e) = sub mem p (p + n).
Proof. intros. unfold sub. rewrite take_take. f_equal. lia. Qed.

(** * The tokenizer *)

Lemma skip_dollar_spec p e : 0 <= p <= e -> e <= zlen mem ->
  exists p', skip_dollar mem p e = Some p' /\ p <= p' <= e /\ sub mem p' e = strip_dollar (sub mem p e).
Proof.
  intros H1 H2. unfold skip_dollar, strip_dollar. destruct (Z.ltb_spec p e) as [L|L].
  - rewrite ldb_Some by lia. rewrite (sub_cons p e) by lia. cbn [mbind option_bind].
    destruct (_ =? _); eexists; (split; [done|]); (split; [lia|]); [done|].
    by rewrite <- (sub_cons p e) by lia.
  - exists p. split; [done|]. split; [lia|]. by rewrite sub_nil by lia.
Qed.

Lemma trim_checksum_spec p e : 0 <= p <= e -> e <= zlen mem ->
  exists e', trim_checksum mem p e = Some e' /\ p <= e' <= e /\
    sub mem p e' = strip_checksum (sub mem p e).
Proof.
  intros H1 H2. unfold trim_checksum, strip_checksum. rewrite sub_length by lia.
  destruct (Z.leb_spec (p + 3) e) as [L|L]; destruct (Z.leb_spec 3 (e - p)); try lia; cbn [andb].
  - rewrite ldb_Some by lia. cbn [mbind option_bind].
    rewrite at_sub by lia. replace (p + (e - p - 3)) with (e - 3) by lia.
    destruct (Z.eqb_spec (at_ mem (e - 3)) (chr "*")); eexists; (split; [done|]); (split; [lia|]); [|done].
    pose proof (sub_length p e H1 H2) as Hl. unfold zlen in Hl.
    replace (length (sub mem p e) - 3)%nat with (Z.to_nat (e - p - 3)) by lia.
    rewrite take_sub by lia. f_equal. lia.
  - exists e. split; [done|]. split; [lia|done].
Qed.

Lemma last_is_snoc c l b : last_is c (l ++ [b]) = (b =? c).
Proof. unfold last_is. by rewrite last_snoc. Qed.

Lemma drop_last_snoc l b : drop_last (l ++ [b]) = l.
Proof. unfold drop_last. rewrite length_app. cbn. replace (length l + 1 - 1)%nat with (length l) by lia. apply take_app_length. Qed.

Lemma last_is_sub c p e : 0 <= p <= e -> e <= zlen mem ->
  last_is c (sub mem p e) = (p <? e) && (at_ mem (e - 1) =? c).
Proof.
  intros H1 H2. destruct (Z.ltb_spec p e) as [L|L]; cbn [andb].
  - by rewrite sub_snoc, last_is_snoc by lia.
  - by rewrite sub_nil by lia.
Qed.

Lemma drop_last_sub p e : 0 <= p < e -> e <= zlen mem -> drop_last (sub mem p e) = sub mem p (e - 1).
Proof. intros. by rewrite (sub_snoc p e), drop_last_snoc by lia. Qed.

Lemma trim_newline_spec p e : 0 <= p <= e -> e <= zlen mem ->
  exists e', trim_newline mem p e = Some e' /\ p <= e' <= e /\
    sub mem p e' = strip_newline (sub mem p e).
Proof.
  intros H1 H2. unfold trim_newline, strip_newline. rewrite (last_is_sub 10 p e) by lia.
  destruct (Z.ltb_spec p e) as [L|L]; cbn [andb]; [|exists e; split_and!; done || lia].
  rewrite (ldb_Some (e - 1)) by lia. cbn [mbind option_bind].
  destruct (at_ mem (e - 1) =? 10); [|exists e; split_and!; done || lia].
  rewrite drop_last_sub by lia. cbv zeta. rewrite (last_is_sub 13 p (e - 1)) by lia.
  destruct (Z.ltb_spec p (e - 1)) as [L'|L']; cbn [andb].
  - rewrite (ldb_Some (e - 1 - 1)) by lia. cbn [mbind option_bind].
    destruct (_ =? 13); eexists; (split; [done|]); (split; [lia|]); [|done].
    by rewrite drop_last_sub by lia.
  - exists (e - 1). split; [done|]. split; [lia|done].
Qed.

Lemma tokenizer_trim_spec p e : 0 <= p <= e -> e <= zlen mem ->
  exists p' e', tokenizer_trim mem p e = Some (p', e') /\ p <= p' <= e' /\ e' <= e /\
    sub mem p' e' = strip (sub mem p e).
Proof.
  intros H1 H2. unfold tokenizer_trim, strip.
  destruct (skip_dollar_spec p e) as (p1 & -> & Hp & <-); [lia..|]. cbn [mbind option_bind].
  destruct (trim_newline_spec p1 e) as (e1 & -> & He & <-); [lia..|]. cbn [mbind option_bind].
  destruct (trim_checksum_spec p1 e1) as (e2 & -> & He2 & <-); [lia..|]. cbn [mbind option_bind].
  exists p1, e2. split_and!; done || lia.
Qed.
End Sub.

Lemma index_of_bounds c l k : index_of c l = Some k -> 0 <= k < zlen l.
Proof.
  revert k. induction l as [|b l IH]; intros k; cbn; [done|]. rewrite zlen_cons. pose proof (zlen_nonneg l).
  destruct (_ =? _); [intros [= <-]; lia|]. destruct (index_of c l) as [j|]; cbn; [|done].
  intros [= <-]. specialize (IH j eq_refl). lia.
Qed.

Lemma index_of_fields cur l :
  fields cur l = match index_of (chr ",") l with
                 | Some k => (cur ++ take (Z.to_nat k) l) :: fields [] (drop (Z.to_nat k + 1) l)
                 | None => match cur ++ l with [] => [] | _ => [cur ++ l] end
                 end.
Proof.
  revert cur. induction l as [|b l IH]; intros cur; cbn [fields index_of].
  - by rewrite app_nil_r.
  - destruct (Z.eqb_spec b (chr ",")) as [->|]; [cbn; by rewrite app_nil_r|].
    rewrite IH, <- app_assoc. cbn [app].
    destruct (index_of _ l) as [k|] eqn:E; cbn [fmap option_fmap option_map].
    + apply index_of_bounds in E.
      rewrite <- app_assoc. replace (Z.to_nat (Z.succ k)) with (S (Z.to_nat k)) by lia. done.
    + by destruct (cur ++ b :: l).
Qed.

Section Loop.
Context (mem : list Z).

(** A token of the loop: between [p] and [e] of [mem]. *)
Definition tok_in (p e : Z) (t : Token) : Prop := tk_mem t = mem /\ p <= tk_p t <= tk_end t /\ tk_end t <= e.

Lemma toks_in_mono p e p' e' ts : p <= p' -> e' <= e -> Forall (tok_in p' e') ts -> Forall (tok_in p e) ts.
Proof. intros Hp He. apply Forall_impl. unfold tok_in. intros t (-> & H1 & H2). split; [done|lia]. Qed.

(** The next field, its token, and where the loop goes on. *)
Lemma next_field p e : 0 <= p < e -> e <= zlen mem ->
  exists q, default e <$> memchr mem p (chr ",") (e - p) = Some q /\ p <= q <= e /\
    let q' := if q <? e then q + 1 else q in
    p < q' <= e /\ fields [] (sub mem p e) = sub mem p q :: fields [] (sub mem q' e).
Proof.
  intros H1 H2. unfold memchr. rewrite mem_read_sub by lia. cbn [mbind option_bind fmap option_fmap option_map].
  rewrite index_of_fields. destruct (index_of _ _) as [k|] eqn:E; cbn [fmap option_fmap option_map from_option default].
  - apply index_of_bounds in E. rewrite sub_length in E by lia. exists (p + k). split; [done|]. split; [lia|].
    destruct (Z.ltb_spec (p + k) e); [|lia]. split; [lia|]. cbn [app]. f_equal; [by apply take_sub; lia|].
    f_equal. rewrite (sub_split mem p (p + k + 1) e) by lia. apply drop_app_length'.
    pose proof (sub_length mem p (p + k + 1)) as Hl. unfold zlen in Hl, H2. lia.
  - exists e. split; [done|]. split; [lia|]. rewrite Z.ltb_irrefl. split; [lia|].
    rewrite (sub_nil mem e e) by lia. rewrite (sub_cons mem p e) by lia. done.
Qed.

Lemma tokenizer_loop_spec fuel p e t : 0 <= p <= e -> e <= zlen mem -> e - p <= Z.of_nat fuel ->
  (length t <= MAX_NMEA_TOKENS)%nat ->
  exists ts, tokenizer_loop fuel mem p e t = Some (t ++ ts) /\
    map tok_text ts = take (MAX_NMEA_TOKENS - length t) (fields [] (sub mem p e)) /\ Forall (tok_in p e) ts.
Proof.
  intros H1 H2. revert p t H1. induction fuel as [|fuel IH]; intros p t H1 Hf Ht; cbn [tokenizer_loop];
    (destruct (Z.ltb_spec p e) as [L|L]; [try lia|exists []; rewrite sub_nil, app_nil_r by lia; cbn [fields map]; by rewrite take_nil]).
  destruct (next_field p e) as (q & Hq & Hpq & Hq' & ->); [lia..|].
  destruct (memchr _ _ _ _) as [r|]; [|done]. cbn in Hq. injection Hq as Hq. cbn [mbind option_bind].
  rewrite Hq. rewrite (proj2 (Z.leb_le p q)) by lia. cbn [andb].
  set (q' := if q <? e then q + 1 else q) in *. destruct (Nat.ltb_spec (length t) MAX_NMEA_TOKENS) as [Lt|Lt].
  - destruct (IH q' (t ++ [mkTok mem p q])) as (ts & -> & Htx & Hin); [lia|lia|rewrite length_app; cbn; lia|].
    exists (mkTok mem p q :: ts). rewrite <- app_assoc. split; [done|]. split.
    + cbn [map]. rewrite Htx, length_app. cbn [length].
      replace (MAX_NMEA_TOKENS - length t)%nat with (S (MAX_NMEA_TOKENS - (length t + 1)))%nat by lia. done.
    + constructor; [by repeat split; cbn; lia|].
      by eapply toks_in_mono; [| |exact Hin]; lia.
  - destruct (IH q' t) as (ts & -> & Htx & Hin); [lia..|]. exists ts. split; [done|].
    replace (MAX_NMEA_TOKENS - length t)%nat with 0%nat in * by lia. cbn in *. split; [done|].
    by eapply toks_in_mono; [| |exact Hin]; lia.
Qed.

Lemma tokenizer_init_spec p e : 0 <= p <= e -> e <= zlen mem ->
  exists ts, nmea_tokenizer_init mem p e = Some ts /\
    map tok_text ts = take MAX_NMEA_TOKENS (fields [] (strip (sub mem p e))) /\ Forall (tok_in p e) ts.
Proof.
  intros H1 H2. unfold nmea_tokenizer_init.
  destruct (tokenizer_trim_spec mem p e) as (p' & e' & -> & Hp & He & <-); [lia..|]. cbn [mbind option_bind fst snd].
  destruct (tokenizer_loop_spec (Z.to_nat (e' - p')) p' e' []) as (ts & -> & Htx & Hin); [lia..|cbn; lia|].
  exists ts. split; [done|]. split; [exact Htx|].
  by eapply toks_in_mono; [| |exact Hin]; lia.
Qed.

Lemma tokenizer_loop_extends fuel p e t r : tokenizer_loop fuel mem p e t = Some r -> exists ts, r = t ++ ts.
Proof.
  revert p t. induction fuel as [|fuel IH]; intros p t; cbn [tokenizer_loop]; destruct (p <? e); try done;
    try (intros [= <-]; exists []; by rewrite app_nil_r).
  destruct (memchr _ _ _ _) as [q|]; [|done]. cbn [mbind option_bind]. intros H.
  destruct (_ && _); apply IH in H as [ts ->]; [rewrite <- app_assoc|]; by eexists.
Qed.

(** The first token starts where the sentence does, after the dollar sign. *)
Lemma tokenizer_first p e ts : 0 <= p <= e -> e <= zlen mem -> nmea_tokenizer_init mem p e = Some ts ->
  ts = [] \/ exists q rest p', ts = mkTok mem p' q :: rest /\ p <= p' <= p + 1.
Proof.
  intros H1 H2. unfold nmea_tokenizer_init, tokenizer_trim.
  destruct (skip_dollar_spec mem p e) as (p1 & Hs & Hp & _); [lia..|].
  assert (p1 <= p + 1) as Hp1.
  { revert Hs. unfold skip_dollar. destruct (p <? e); [|intros [= <-]; lia].
    destruct (ldb mem p); [|done]. cbn. destruct (_ =? _); intros [= <-]; lia. }
  rewrite Hs. cbn [mbind option_bind].
  destruct (trim_newline_spec mem p1 e) as (e1 & -> & He & _); [lia..|]. cbn [mbind option_bind].
  destruct (trim_checksum_spec mem p1 e1) as (e2 & -> & He2 & _); [lia..|]. cbn [mbind option_bind fst snd].
  destruct (Z.eq_dec p1 e2) as [->|Hne].
  { rewrite Z.sub_diag. change (Z.to_nat 0) with 0%nat. cbn [tokenizer_loop]. rewrite Z.ltb_irrefl. intros [= <-]. by left. }
  replace (Z.to_nat (e2 - p1)) with (S (Z.to_nat (e2 - p1 - 1))) by lia. cbn [tokenizer_loop].
  rewrite (proj2 (Z.ltb_lt p1 e2)) by lia.
  destruct (next_field p1 e2) as (q & Hq & Hpq & _); [lia..|].
  destruct (memchr _ _ _ _) as [r|]; [|done]. cbn in Hq. injection Hq as Hq. cbn [mbind option_bind]. rewrite Hq.
  rewrite (proj2 (Z.leb_le p1 q)) by lia. cbn [andb length Nat.ltb Nat.leb MAX_NMEA_TOKENS].
  intros [ts' ->]%tokenizer_loop_extends. right. exists q, ts', p1. split; [done|lia].
Qed.
End Loop.

Definition tok_okb (t : Token) : bool :=
  (0 <=? tk_p t) && (tk_p t <=? tk_end t) && (tk_end t <? zlen (tk_mem t)).

Lemma toks_okb ts : forallb tok_okb ts = true -> Forall tok_ok ts.
Proof.
  rewrite forallb_Forall. apply Forall_impl. unfold tok_okb, tok_ok. intros t H.
  repeat (apply andb_true_iff in H as [H ?]). rewrite ?Z.leb_le, ?Z.ltb_lt in *. lia.
Qed.

(** Tokens of an array with a byte after the sentence are readable. *)
Lemma tok_in_ok mem p e t : 0 <= p -> e < zlen mem -> tok_in mem p e t -> tok_ok t.
Proof. intros H1 H2 (Hm & H3 & H4). unfold tok_ok. rewrite Hm. lia. Qed.

Lemma tokenizer_get_head t ts : nmea_tokenizer_get (t :: ts) 0 = t.
Proof.
  unfold nmea_tokenizer_get. rewrite zlen_cons. pose proof (zlen_nonneg ts).
  by destruct (Z.leb_spec (1 + zlen ts) 0); [lia|].
Qed.

Lemma tokenizer_get_ok ts i : Forall tok_ok ts -> tok_ok (nmea_tokenizer_get ts i).
Proof.
  intros H. unfold nmea_tokenizer_get. destruct (_ || _) eqn:E; [by repeat split|].
  apply orb_false_iff in E as [E1%Z.ltb_ge E2%Z.leb_gt]. unfold zlen in E2.
  destruct (nth_lookup_or_length ts (Z.to_nat i) (mkTok [0] 0 0)) as [Hn|]; [|lia].
  by eapply Forall_lookup_1; [exact H|exact Hn].
Qed.

(** * The number readers *)

Lemma str2int_loop_total mem p e len result : 0 <= p -> e <= zlen mem ->
  is_Some (str2int_loop mem p e len result).
Proof.
  revert p result. induction len as [|len IH]; intros p result H1 H2; cbn [str2int_loop]; [done|].
  destruct (Z.leb_spec e p); [done|]. rewrite ldb_Some by lia. cbn [mbind option_bind].
  destruct (_ <=? _); [done|]. apply IH; lia.
Qed.

Lemma str2int_total mem p e : 0 <= p -> p < zlen mem -> e <= zlen mem -> is_Some (str2int mem p e).
Proof.
  intros H1 H2 H3. unfold str2int. rewrite ldb_Some by lia. cbn [mbind option_bind].
  set (sp := if _ : bool then (-1, p + 1) else (1, p)).
  assert (0 <= sp.2) as Hp by (unfold sp; destruct (_ =? _); cbn; lia). destruct sp as [sign q]. cbn in Hp.
  destruct (str2int_loop_total mem q e (Z.to_nat (e - q)) 0) as [r ->]; [lia|lia|]. by destruct r.
Qed.

Lemma str2float_total mem p e : 0 <= p <= e -> e <= zlen mem -> is_Some (str2float mem p e).
Proof.
  intros H1 H2. unfold str2float. destruct (_ <=? _); [done|]. by rewrite mem_read_sub by lia.
Qed.

Lemma tok2int_total t : tok_ok t -> is_Some (tok2int t).
Proof. intros [H1 H2]. apply str2int_total; lia. Qed.

Lemma tok2float_total t : tok_ok t -> is_Some (tok2float t).
Proof. intros [H1 H2]. apply str2float_total; lia. Qed.

Lemma ldb_mid pre c post : ldb (pre ++ c :: post) (zlen pre) = Some c.
Proof.
  pose proof (zlen_nonneg pre). pose proof (zlen_nonneg post).
  rewrite ldb_Some by (autorewrite with clen; lia). unfold at_. destruct (Z.ltb_spec (zlen pre) 0); [lia|].
  unfold zlen. by rewrite Nat2Z.id, app_nth2, Nat.sub_diag by lia.
Qed.

Definition digit_step (v c : Z) : Z := i32 (v * 10 + (c - 48)).

Lemma str2int_loop_prefix pre ds rest e k result : is_digits ds -> zlen pre + zlen ds <= e ->
  str2int_loop (pre ++ ds ++ rest) (zlen pre) e (length ds + k) result =
  str2int_loop (pre ++ ds ++ rest) (zlen pre + zlen ds) e k (fold_left digit_step ds result).
Proof.
  intros H. revert pre result. induction H as [|c ds Hc Hds IH]; intros pre result He.
  - by rewrite zlen_nil, Z.add_0_r.
  - rewrite zlen_cons in *. pose proof (zlen_nonneg ds). cbn [length Nat.add str2int_loop fold_left app].
    destruct (Z.leb_spec e (zlen pre)); [lia|]. rewrite ldb_mid. cbn [mbind option_bind].
    apply andb_true_iff in Hc as [Hc1%Z.leb_le Hc2%Z.leb_le]. change (chr "0") with 48.
    rewrite (u32_id (c - 48)) by (unfold is_u32; lia). destruct (Z.leb_spec 10 (c - 48)); [lia|].
    replace (pre ++ c :: ds ++ rest) with ((pre ++ [c]) ++ ds ++ rest) by (by rewrite <- app_assoc).
    replace (zlen pre + 1) with (zlen (pre ++ [c])) by (autorewrite with clen; lia).
    rewrite IH by (autorewrite with clen; lia). f_equal. autorewrite with clen. lia.
Qed.

Lemma str2int_loop_digits pre ds post : is_digits ds ->
  str2int_loop (pre ++ ds ++ post) (zlen pre) (zlen pre + zlen ds) (Z.to_nat (zlen pre + zlen ds - zlen pre)) 0 =
    Some (Some (fold_left digit_step ds 0)).
Proof.
  intros H. replace (Z.to_nat (zlen pre + zlen ds - zlen pre)) with (length ds + 0)%nat by (unfold zlen; lia).
  by rewrite str2int_loop_prefix by (done || lia).
Qed.

Lemma str2int_loop_bad pre ds c bad post : is_digits ds -> is_byte c -> is_digit c = false ->
  str2int_loop (pre ++ (ds ++ c :: bad) ++ post) (zlen pre) (zlen pre + zlen (ds ++ c :: bad))
    (Z.to_nat (zlen pre + zlen (ds ++ c :: bad) - zlen pre)) 0 = Some None.
Proof.
  intros Hd Hb Hc. pose proof (zlen_nonneg bad).
  replace (Z.to_nat (zlen pre + zlen (ds ++ c :: bad) - zlen pre)) with (length ds + S (length bad))%nat
    by (unfold zlen; rewrite length_app; cbn [length]; lia).
  rewrite <- app_assoc. cbn [app]. rewrite str2int_loop_prefix by (done || (autorewrite with clen; lia)).
  cbn [str2int_loop]. autorewrite with clen. destruct (Z.leb_spec (zlen pre + (zlen ds + (1 + zlen bad))) (zlen pre + zlen ds)); [lia|].
  rewrite app_assoc, <- zlen_app, ldb_mid. cbn [mbind option_bind]. change (chr "0") with 48.
  unfold is_byte in Hb. unfold is_digit in Hc. unfold u32.
  assert (10 <= (c - 48) mod 2 ^ 32) as L; [|by rewrite (proj2 (Z.leb_le _ _) L)].
  destruct (Z.leb_spec 48 c); cbn in Hc; [apply Z.leb_gt in Hc|]; Z.div_mod_to_equations; lia.
Qed.

Lemma dec_value_acc ds acc : is_digits ds -> 0 <= acc ->
  acc <= fold_left (fun v c => v * 10 + (c - 48)) ds acc.
Proof.
  intros H. revert acc. induction H as [|c ds Hc Hds IH]; intros acc Ha; cbn [fold_left]; [lia|].
  apply andb_true_iff in Hc as [Hc1%Z.leb_le Hc2%Z.leb_le]. specialize (IH (acc * 10 + (c - 48))). lia.
Qed.

(** No digit overflows when the value fits. *)
Lemma dec_value_i32 ds acc : is_digits ds -> 0 <= acc ->
  fold_left (fun v c => v * 10 + (c - 48)) ds acc < 2 ^ 31 ->
  fold_left digit_step ds acc = fold_left (fun v c => v * 10 + (c - 48)) ds acc.
Proof.
  intros H. revert acc. induction H as [|c ds Hc Hds IH]; intros acc Ha Hv; cbn [fold_left] in *; [done|].
  apply andb_true_iff in Hc as [Hc1%Z.leb_le Hc2%Z.leb_le].
  pose proof (dec_value_acc ds (acc * 10 + (c - 48)) Hds ltac:(lia)).
  unfold digit_step at 2. rewrite i32_id by (unfold is_i32; lia). apply IH; lia.
Qed.

Lemma dec_value_step ds : is_digits ds -> dec_value ds < 2 ^ 31 ->
  fold_left digit_step ds 0 = dec_value ds /\ 0 <= dec_value ds.
Proof. intros Hd Hv. split; [by apply dec_value_i32|by apply (dec_value_acc ds 0)]. Qed.

(** A token that reads [s] in the middle of an array. *)
Definition tok_of (pre s post : list Z) : Token := mkTok (pre ++ s ++ post) (zlen pre) (zlen pre + zlen s).

(** [str2int] by its sign. *)
Lemma str2int_minus pre s post :
  tok2int (tok_of pre (chr "-" :: s) post) =
    (r ← str2int_loop ((pre ++ [chr "-"]) ++ s ++ post) (zlen (pre ++ [chr "-"]))
           (zlen (pre ++ [chr "-"]) + zlen s)
           (Z.to_nat (zlen (pre ++ [chr "-"]) + zlen s - zlen (pre ++ [chr "-"]))) 0;
     Some (match r with Some result => i32 (- result) | None => -1 end)).
Proof.
  unfold tok2int, tok_of, str2int. cbn [tk_mem tk_p tk_end app]. rewrite ldb_mid.
  cbn [mbind option_bind]. rewrite Z.eqb_refl. autorewrite with clen.
  replace ((pre ++ [chr "-"]) ++ s ++ post) with (pre ++ chr "-" :: s ++ post) by (by rewrite <- app_assoc).
  replace (zlen pre + (1 + 0)) with (zlen pre + 1) by lia.
  replace (zlen pre + (1 + zlen s)) with (zlen pre + 1 + zlen s) by lia.
  destruct (str2int_loop _ _ _ _ _) as [[r|]|]; [|done..]. cbn [mbind option_bind]. by do 2 f_equal.
Qed.

Lemma str2int_plus pre s b post : (forall x y, s ++ b :: post = x :: y -> x <> chr "-") ->
  tok2int (tok_of pre s (b :: post)) =
    (r ← str2int_loop (pre ++ s ++ b :: post) (zlen pre) (zlen pre + zlen s)
           (Z.to_nat (zlen pre + zlen s - zlen pre)) 0;
     Some (match r with Some result => i32 result | None => -1 end)).
Proof.
  intros H. unfold tok2int, tok_of, str2int. cbn [tk_mem tk_p tk_end].
  destruct (s ++ b :: post) as [|x y] eqn:E; [by destruct s|].
  rewrite ldb_mid. cbn [mbind option_bind]. rewrite (proj2 (Z.eqb_neq _ _) (H x y eq_refl)).
  destruct (str2int_loop _ _ _ _ _) as [[r|]|]; [|done..]. cbn [mbind option_bind]. do 2 f_equal. lia.
Qed.

Lemma head_not_minus ds c post x y : is_digits ds -> c <> chr "-" -> ds ++ c :: post = x :: y -> x <> chr "-".
Proof.
  intros Hd Hc. destruct ds as [|d ds]; cbn [app]; intros [= <- <-]; [done|]. apply Forall_inv in Hd. by intros ->.
Qed.

(** Joining fields with commas, as a receiver prints a sentence. *)
Fixpoint join (fs : list (list Z)) : list Z :=
  match fs with
  | [] => []
  | [f] => f
  | f :: fs' => f ++ chr "," :: join fs'
  end.

Definition no_comma (f : list Z) : Prop := Forall (fun c => c <> chr ",") f.

Lemma fields_prefix cur f l : no_comma f -> fields cur (f ++ l) = fields (cur ++ f) l.
Proof.
  intros H. revert cur. induction H as [|c f Hc Hf IH]; intros cur; cbn [app]; [by rewrite app_nil_r|].
  cbn [fields]. rewrite (proj2 (Z.eqb_neq _ _) Hc), IH, <- app_assoc. done.
Qed.

Lemma fields_join fs : fs <> [] -> Forall no_comma fs -> list.last fs <> Some [] -> fields [] (join fs) = fs.
Proof.
  intros _ H. induction H as [|f fs Hf Hfs IH]; intros Hl; [done|]. destruct fs as [|g fs].
  - cbn [join]. rewrite <- (app_nil_r f) at 1. rewrite fields_prefix by done. cbn. by destruct f.
  - change (join (f :: g :: fs)) with (f ++ chr "," :: join (g :: fs)). rewrite fields_prefix by done.
    cbn [fields app]. rewrite Z.eqb_refl. f_equal. apply IH. exact Hl.
Qed.

(** A sentence as it is transmitted. *)
Definition sentence (body : list Z) (h1 h2 : Z) : list Z :=
  chr "$" :: body ++ [chr "*"; h1; h2] ++ [13; 10].

Lemma strip_sentence body h1 h2 : strip (sentence body h1 h2) = body.
Proof.
  unfold strip, sentence, strip_dollar. rewrite Z.eqb_refl. unfold strip_newline.
  replace (body ++ [chr "*"; h1; h2] ++ [13; 10]) with (((body ++ [chr "*"; h1; h2]) ++ [13]) ++ [10])
    by (by rewrite <- !app_assoc).
  rewrite last_is_snoc, drop_last_snoc, last_is_snoc, drop_last_snoc. cbn [Z.eqb Pos.eqb].
  unfold strip_checksum. autorewrite with clen. pose proof (zlen_nonneg body).
  destruct (Z.leb_spec 3 (zlen body + (1 + (1 + (1 + 0))))); [|lia]. cbn [andb].
  replace (zlen body + (1 + (1 + (1 + 0))) - 3) with (zlen body) by lia.
  assert (at_ (body ++ [chr "*"; h1; h2]) (zlen body) = chr "*") as ->.
  { apply (inj Some). rewrite <- ldb_Some by (autorewrite with clen; lia). apply ldb_mid. }
  rewrite Z.eqb_refl, length_app. cbn [length].
  replace (length body + 3 - 3)%nat with (length body) by lia. apply take_app_length.
Qed.

(** * Properties *)

(** C25: on any array and any bounds inside of it the tokenizer returns (it makes
    no read outside of the bounds and its loop ends), it never holds more than 24
    tokens, each token lies between the bounds, and the texts of the tokens are
    the first 24 comma-separated fields of the sentence, once the dollar sign,
    the line end and the checksum are removed. *)
Theorem nmea_tokenizer_fields (mem : list Z) (p e : Z) (Hp : 0 <= p <= e) (He : e <= zlen mem) :
  exists ts, nmea_tokenizer_init mem p e = Some ts /\
    map tok_text ts = take 24 (fields [] (strip (sub mem p e))) /\
    (length ts <= 24)%nat /\
    Forall (fun t => tk_mem t = mem /\ p <= tk_p t <= tk_end t /\ tk_end t <= e) ts.
Proof.
  destruct (tokenizer_init_spec mem p e Hp He) as (ts & H1 & H2 & H3).
  exists ts. split; [done|]. split; [exact H2|]. split; [|exact H3].
  rewrite <- (length_map tok_text), H2, length_take. unfold MAX_NMEA_TOKENS. lia.
Qed.

Lemma nmea_tokenizer_fields_witness :
  exists ts, nmea_tokenizer_init gga 0 60 = Some ts /\
    map tok_text ts = take 24 (fields [] (strip (sub gga 0 60))) /\
    (length ts <= 24)%nat /\
    Forall (fun t => tk_mem t = gga /\ 0 <= tk_p t <= tk_end t /\ tk_end t <= 60) ts.
Proof. apply (nmea_tokenizer_fields gga 0 60); [lia|vm_compute; discriminate]. Defined.

(** printing fields as a sentence and tokenizing it gives the fields back:
    for up to 24 fields without commas, the last one not empty, whatever the
    checksum digits are and whatever stale bytes follow in the array. *)
Theorem sentence_tokenize_roundtrip (fs : list (list Z)) (h1 h2 : Z) (stale : list Z)
  (Hne : fs <> []) (Hc : Forall no_comma fs) (Hl : list.last fs <> Some []) (Hn : (length fs <= 24)%nat) :
  map tok_text <$> nmea_tokenizer_init (sentence (join fs) h1 h2 ++ stale) 0 (zlen (sentence (join fs) h1 h2))
    = Some fs.
Proof.
  set (s := sentence (join fs) h1 h2).
  destruct (tokenizer_init_spec (s ++ stale) 0 (zlen s)) as (ts & -> & Ht & _).
  - pose proof (zlen_nonneg s). lia.
  - rewrite zlen_app. pose proof (zlen_nonneg stale). lia.
  - cbn [fmap option_fmap option_map]. rewrite Ht. unfold sub. rewrite Z.sub_0_r. unfold zlen. rewrite Nat2Z.id.
    change (drop (Z.to_nat 0) (s ++ stale)) with (s ++ stale). rewrite take_app_length.
    unfold s. rewrite strip_sentence, fields_join by done. rewrite take_ge by exact Hn. done.
Qed.

Lemma sentence_tokenize_roundtrip_witness :
  map tok_text <$> nmea_tokenizer_init (sentence (join [str "GPGSV"; []; str "2"]) 55 49 ++ [65; 66]) 0
    (zlen (sentence (join [str "GPGSV"; []; str "2"]) 55 49)) = Some [str "GPGSV"; []; str "2"].
Proof.
  apply (sentence_tokenize_roundtrip [str "GPGSV"; []; str "2"] 55 49 [65; 66]).
  - discriminate.
  - repeat (apply Forall_cons_2 || apply Forall_nil_2); discriminate.
  - discriminate.
  - cbn. lia.
Defined.

(** [str2int] reads decimal numbers: a token of digits whose value fits an
    [int] gives that value, with a minus sign its opposite, and a token in which
    another character follows the digits gives -1, sign or not. The byte after
    the token is read when the token is empty: it must not be a minus sign. *)
Theorem str2int_decimal (pre ds bad post : list Z) (c b : Z) (Hd : is_digits ds)
  (Hv : dec_value ds < 2 ^ 31) (Hb : b <> chr "-")
  (Hc : is_byte c /\ is_digit c = false /\ c <> chr "-") :
  tok2int (tok_of pre ds (b :: post)) = Some (dec_value ds) /\
  tok2int (tok_of pre (chr "-" :: ds) (b :: post)) = Some (- dec_value ds) /\
  tok2int (tok_of pre (ds ++ c :: bad) (b :: post)) = Some (-1) /\
  tok2int (tok_of pre (chr "-" :: ds ++ c :: bad) (b :: post)) = Some (-1).
Proof.
  destruct Hc as (Hc1 & Hc2 & Hc3). destruct (dec_value_step ds Hd Hv) as [Hs H0].
  rewrite !str2int_minus, !str2int_plus.
  - rewrite !str2int_loop_digits, !str2int_loop_bad by done. cbn [mbind option_bind].
    rewrite Hs, !i32_id by (unfold is_i32; lia). done.
  - intros x y. rewrite <- app_assoc. by apply head_not_minus.
  - intros x y. by apply head_not_minus.
Qed.

Lemma str2int_decimal_witness :
  tok2int (tok_of [] (str "042") (44 :: [])) = Some 42 /\
  tok2int (tok_of [] (chr "-" :: str "042") (44 :: [])) = Some (-42) /\
  tok2int (tok_of [] (str "042" ++ 120 :: []) (44 :: [])) = Some (-1) /\
  tok2int (tok_of [] (chr "-" :: str "042" ++ 120 :: []) (44 :: [])) = Some (-1).
Proof.
  apply (str2int_decimal [] (str "042") [] [] 120 44).
  - repeat (apply Forall_cons_2 || apply Forall_nil_2); reflexivity.
  - reflexivity.
  - discriminate.
  - split; [unfold is_byte; lia|]. split; [reflexivity|discriminate].
Defined.
