(* ===== verification/NmeaReader.v ===== *)
(** The NMEA reader of the GPS HAL (src/hal/gps/hal/gps_mtk_aosp.c): its state and
    the routines that update one part of the fix or of the satellite list. They
    run on the reader, a local of the GPS thread, and on the globals. *)

From stdpp Require Import base list gmap strings numbers.
From Stdlib Require Import ZArith Lia SpecFloat.
From S2P Require Import Prelude CFloat CTime GpsTypes NmeaTok.

Local Open Scope Z_scope.
Local Open Scope st_scope.
Local Open Scope rec_scope.

(** gps_mtk_aosp.c:1440-1442 [NMEA_MAX_SIZE, NMEA_MAX_SV_INFO]. *)
Definition NMEA_MAX_SIZE : Z := 128.
Definition NMEA_MAX_SV_INFO : Z := 4.

(** gps_mtk_aosp.c:1444-1475 [NmeaReader] with the members of its GpsSvStatus and
    GnssSvStatus. *)
Record NmeaReader := mkReader {
  pos : Z;
  overflow : Z;
  utc_year : Z;
  utc_mon : Z;
  utc_day : Z;
  utc_diff : Z;
  fix_ : GpsLocation;
  fix_mode : Z;
  cb_status_changed : Z;
  sv_count : Z;
  gps_num_svs : Z;
  gps_sv_list : list GpsSvInfo;
  gps_ephemeris_mask : Z;
  gps_almanac_mask : Z;
  gps_used_in_fix_mask : Z;
  gnss_size : Z;
  gnss_num_svs : Z;
  gnss_sv_list : list GnssSvInfo;
  in_ : list Z;
}.
#[export] Instance eta_NmeaReader : Eta NmeaReader := fun r =>
  mkReader (pos r) (overflow r) (utc_year r) (utc_mon r) (utc_day r) (utc_diff r) (fix_ r) (fix_mode r)
    (cb_status_changed r) (sv_count r) (gps_num_svs r) (gps_sv_list r) (gps_ephemeris_mask r)
    (gps_almanac_mask r) (gps_used_in_fix_mask r) (gnss_size r) (gnss_num_svs r) (gnss_sv_list r) (in_ r).

(** gps_mtk_aosp.c:1443-1443 [LOC_FIXED]. *)
Definition LOC_FIXED (r : NmeaReader) : bool := (fix_mode r =? 2) || (fix_mode r =? 3).

(** The state of the parser: the reader and the globals. *)
Record PState := mkP { ps_r : NmeaReader; ps_w : World }.
#[export] Instance eta_PState : Eta PState := fun s => mkP (ps_r s) (ps_w s).

Definition Parser (A : Type) : Type := ST PState A.

Definition rget : Parser NmeaReader := let* s := getM in retM (ps_r s).
Definition wget : Parser World := let* s := getM in retM (ps_w s).
Definition rmod (f : NmeaReader -> NmeaReader) : Parser unit := modM (fun s => s <| ps_r := f (ps_r s) |>).
Definition wmod (f : World -> World) : Parser unit := modM (fun s => s <| ps_w := f (ps_w s) |>).

(** A routine of the rest of the HAL. *)
Definition hal {A} (m : HAL A) : Parser A := fun s =>
  match m (ps_w s) with
  | Ok (a, w) => Ok (a, s <| ps_w := w |>)
  | Undef => Undef
  | Blocked => Blocked
  end.

(** A store into an array of structures. *)
Definition arr_set {A} (l : list A) (i : Z) (v : A) : option (list A) :=
  if (0 <=? i) && (i <? zlen l) then Some (<[Z.to_nat i := v]> l) else None.

Definition arr_get {A} (l : list A) (i : Z) : option A :=
  if (0 <=? i) && (i <? zlen l) then l !! Z.to_nat i else None.

(** gps_mtk_aosp.c:1478-1496 [nmea_reader_update_utc_diff] the difference of two
    [unsigned long]s stored in an [int]. *)
Definition nmea_reader_update_utc_diff (now gmtoff : Z) (r : NmeaReader) : NmeaReader :=
  let tm_utc := gmtime now in
  let tm_local := gmtime (now + gmtoff) in
  let time_local := mktime gmtoff tm_local in
  let time_utc := mktime gmtoff tm_utc in
  r <| utc_diff := i32 (u32 (u32 time_utc - u32 time_local)) |>.

Definition fix0 : GpsLocation := mkLoc 0 dzero dzero dzero dzero dzero dzero 0.
Definition sv0 : GpsSvInfo := mkSv 0 dzero dzero dzero.
Definition gnss0 : GnssSvInfo := mkGnssSv 0 0 dzero dzero dzero 0.

(** gps_mtk_aosp.c:1498-1520 [nmea_reader_init]. *)
Definition nmea_reader_init (now gmtoff : Z) : NmeaReader :=
  nmea_reader_update_utc_diff now gmtoff
    (mkReader 0 0 (-1) (-1) (-1) 0 fix0 0 0 0 0 (replicate 32 sv0) 0 0 0 0 0 (replicate 64 gnss0) (zeros 129)).

(** gps_mtk_aosp.c:1523-1558 [nmea_reader_set_callback] [cbs] tells whether the
    pointer is non-null; the AT test flag is always 0. *)
Definition nmea_reader_set_callback (cbs : bool) (r : NmeaReader) : NmeaReader :=
  if cbs then
    r <| fix_ := (fix_ r) <| loc_flags := 0 |> |> <| sv_count := 0 |> <| gps_num_svs := 0 |> <| gnss_num_svs := 0 |>
  else r.

(** gps_mtk_aosp.c:1560-1604 [nmea_reader_update_time]. *)
Definition nmea_reader_update_time (tok : Token) : Parser Z :=
  if tk_end tok <? tk_p tok + 6 then retM (-1)
  else
    let* w := wget in
    let now := e_now (w_env w) in
    let gmtoff := e_gmtoff (w_env w) in
    let* r := rget in
    (if utc_year r <? 0 then
       let tm := gmtime now in
       rmod (fun r => r <| utc_year := tm_year tm + 1900 |> <| utc_mon := tm_mon tm + 1 |> <| utc_day := tm_mday tm |>)
     else retM tt) ;;
    let* hour := of_option (str2int (tk_mem tok) (tk_p tok) (tk_p tok + 2)) in
    let* minute := of_option (str2int (tk_mem tok) (tk_p tok + 2) (tk_p tok + 4)) in
    let* seconds := of_option (str2float (tk_mem tok) (tk_p tok + 4) (tk_end tok)) in
    let* r := rget in
    let tm := mkTm (utc_year r - 1900) (utc_mon r - 1) (utc_day r) hour minute (d_to_int seconds) in
    let fix_time := mktime gmtoff tm in
    let fix_time := i32 (fix_time + gmtoff) in
    rmod (fun r => r <| fix_ := (fix_ r) <| timestamp := fix_time * 1000 |> |>) ;;
    retM 0.

(** gps_mtk_aosp.c:1606-1630 [nmea_reader_update_date]. *)
Definition nmea_reader_update_date (date time : Token) : Parser Z :=
  let tok := date in
  if negb (tk_p tok + 6 =? tk_end tok) then retM (-1)
  else
    let* day := of_option (str2int (tk_mem tok) (tk_p tok) (tk_p tok + 2)) in
    let* mon := of_option (str2int (tk_mem tok) (tk_p tok + 2) (tk_p tok + 4)) in
    let* y := of_option (str2int (tk_mem tok) (tk_p tok + 4) (tk_p tok + 6)) in
    let year := y + 2000 in
    if Z.lor (Z.lor day mon) year <? 0 then retM (-1)
    else
      rmod (fun r => r <| utc_year := year |> <| utc_mon := mon |> <| utc_day := day |>) ;;
      nmea_reader_update_time time.

(** gps_mtk_aosp.c:1632-1640 [convert_from_hhmm]. *)
Definition convert_from_hhmm (tok : Token) : option double :=
  val ← tok2float tok;
  let degrees := d_to_int (ddiv (dfloor val) (d_of_Z 100)) in
  let minutes := dsub val (dmul (d_of_Z degrees) (d_of_Z 100)) in
  let dcoord := dadd (d_of_Z degrees) (ddiv minutes (d_of_Z 60)) in
  Some dcoord.

(** gps_mtk_aosp.c:1643-1675 [nmea_reader_update_latlong]. *)
Definition nmea_reader_update_latlong (lat_tok : Token) (latitudeHemi : Z) (lon_tok : Token) (longitudeHemi : Z) : Parser Z :=
  if tk_end lat_tok <? tk_p lat_tok + 6 then retM (-1)
  else
    let* lat := of_option (convert_from_hhmm lat_tok) in
    let lat := if latitudeHemi =? chr "S" then dopp lat else lat in
    if tk_end lon_tok <? tk_p lon_tok + 6 then retM (-1)
    else
      let* lon := of_option (convert_from_hhmm lon_tok) in
      let lon := if longitudeHemi =? chr "W" then dopp lon else lon in
      rmod (fun r => r <| fix_ := (fix_ r)
        <| loc_flags := Z.lor (loc_flags (fix_ r)) GPS_LOCATION_HAS_LAT_LONG |>
        <| latitude := lat |> <| longitude := lon |> |>) ;;
      retM 0.

(** gps_mtk_aosp.c:1734-1748 [nmea_reader_update_altitude]. *)
Definition nmea_reader_update_altitude (tok units : Token) : Parser Z :=
  if tk_end tok <=? tk_p tok then retM (-1)
  else
    let* alt := of_option (tok2float tok) in
    rmod (fun r => r <| fix_ := (fix_ r)
      <| loc_flags := Z.lor (loc_flags (fix_ r)) GPS_LOCATION_HAS_ALTITUDE |> <| altitude := alt |> |>) ;;
    retM 0.

(** gps_mtk_aosp.c:1751-1764 [nmea_reader_update_bearing]. *)
Definition nmea_reader_update_bearing (tok : Token) : Parser Z :=
  if tk_end tok <=? tk_p tok then retM (-1)
  else
    let* v := of_option (tok2float tok) in
    rmod (fun r => r <| fix_ := (fix_ r)
      <| loc_flags := Z.lor (loc_flags (fix_ r)) GPS_LOCATION_HAS_BEARING |> <| bearing := f_of_d v |> |>) ;;
    retM 0.

(** The double 1.942795467 by which speeds in knots are divided. *)
Definition knots_per_mps : double := strtod (str "1.942795467").

(** gps_mtk_aosp.c:1766-1782 [nmea_reader_update_speed]. *)
Definition nmea_reader_update_speed (tok : Token) : Parser Z :=
  if tk_end tok <=? tk_p tok then retM (-1)
  else
    let* v := of_option (tok2float tok) in
    rmod (fun r => r <| fix_ := (fix_ r)
      <| loc_flags := Z.lor (loc_flags (fix_ r)) GPS_LOCATION_HAS_SPEED |>
      <| speed := f_of_d (ddiv v knots_per_mps) |> |>) ;;
    retM 0.

(** gps_mtk_aosp.c:1785-1798 [nmea_reader_update_accuracy]. *)
Definition nmea_reader_update_accuracy (tok : Token) : Parser Z :=
  if tk_end tok <=? tk_p tok then retM (-1)
  else
    let* v := of_option (tok2float tok) in
    rmod (fun r => r <| fix_ := (fix_ r)
      <| loc_flags := Z.lor (loc_flags (fix_ r)) GPS_LOCATION_HAS_ACCURACY |> <| accuracy := f_of_d v |> |>) ;;
    retM 0.

(** gps_mtk_aosp.c:1927-1952 [nmea_reader_update_sv_status_gps]. *)
Definition nmea_reader_update_sv_status_gps (id : Z) (elevation azimuth snr : Token) : Parser Z :=
  let prn := id in
  let* r := rget in
  if (prn <=? 0) || ((prn <? 65) && (GPS_MAX_SVS <? prn)) || (96 <? prn) || (GPS_MAX_SVS <=? sv_count r) then retM 0
  else
    let sv_index := i32 (sv_count r + gps_num_svs r) in
    if GPS_MAX_SVS <=? sv_index then retM 0
    else
      let* s := of_option (tok2float snr) in
      let* e := of_option (tok2int elevation) in
      let* a := of_option (tok2int azimuth) in
      let* l := of_option (arr_set (gps_sv_list r) sv_index (mkSv prn (f_of_d s) (f_of_Z e) (f_of_Z a))) in
      rmod (fun r => r <| gps_sv_list := l |> <| sv_count := sv_count r + 1 |>) ;;
      retM 0.

(** The constellations and flags of hardware/gps.h. *)
Definition GNSS_CONSTELLATION_GPS := 1.
Definition GNSS_CONSTELLATION_GLONASS := 3.
Definition GNSS_CONSTELLATION_BEIDOU := 5.
Definition GNSS_SV_FLAGS_NONE := 0.
Definition GNSS_SV_FLAGS_USED_IN_FIX := 4.

(** gps_mtk_aosp.c:1974-1978 [nmea_reader_update_sv_status_gnss, constellation]. *)
Definition constellation_of (id : Z) : Z :=
  if id <? 33 then GNSS_CONSTELLATION_GPS
  else if 200 <? id then GNSS_CONSTELLATION_BEIDOU
  else GNSS_CONSTELLATION_GLONASS.

(** gps_mtk_aosp.c:1954-1999 [nmea_reader_update_sv_status_gnss]. *)
Definition nmea_reader_update_sv_status_gnss (id : Z) (elevation azimuth snr : Token) : Parser Z :=
  let prn := id in
  let* r := rget in
  if (prn <=? 0) || ((prn <? 65) && (GPS_MAX_SVS <? prn)) || ((96 <? prn) && (prn <? 200))
     || (232 <? prn) || (GNSS_MAX_SVS <=? sv_count r) then retM 0
  else
    let sv_index := i32 (sv_count r + gnss_num_svs r) in
    if GNSS_MAX_SVS <=? sv_index then retM 0
    else
      let ct := constellation_of id in
      let* s := of_option (tok2float snr) in
      let* e := of_option (tok2int elevation) in
      let* a := of_option (tok2int azimuth) in
      let* w := wget in
      let* used := of_option (arr_get (w_used_in_fix w) prn) in
      let flags := if used =? 1 then Z.lor GNSS_SV_FLAGS_NONE GNSS_SV_FLAGS_USED_IN_FIX else GNSS_SV_FLAGS_NONE in
      let* l := of_option (arr_set (gnss_sv_list r) sv_index (mkGnssSv prn ct (f_of_d s) (f_of_Z e) (f_of_Z a) flags)) in
      rmod (fun r => r <| gnss_sv_list := l |> <| sv_count := sv_count r + 1 |>) ;;
      retM 0.
