(* ===== verification/NmeaParse.v ===== *)
(** The NMEA sentence parser of the GPS HAL (src/hal/gps/hal/gps_mtk_aosp.c): one
    definition per kind of sentence, the reports to the framework, and the
    character-level reader that collects a line and parses it. GPS_AT_COMMAND and
    NEMA_DEBUG are not defined. *)

From stdpp Require Import base list gmap strings numbers.
From Stdlib Require Import ZArith Lia SpecFloat.
From S2P Require Import Prelude CFloat CTime GpsTypes Buff Daemon NmeaTok NmeaReader.

Local Open Scope Z_scope.
Local Open Scope st_scope.
Local Open Scope rec_scope.

(** [memcmp (mem + p, s, strlen (s)) == 0]. *)
Definition memcmp_eq (mem : list Z) (p : Z) (s : string) : Parser bool :=
  let* b := of_option (mem_read mem p (zlen (str s))) in retM (bytes_eqb b (str s)).

(** [tok.p[0]]. *)
Definition first_char (t : Token) : Parser Z := of_option (ldb (tk_mem t) (tk_p t)).

(** gps_mtk_aosp.c:2120-2135 [nmea_reader_parse, GGA]. *)
Definition parse_gga (tzer : NmeaTokenizer) : Parser unit :=
  let tok_time := nmea_tokenizer_get tzer 1 in
  let tok_latitude := nmea_tokenizer_get tzer 2 in
  let tok_latitudeHemi := nmea_tokenizer_get tzer 3 in
  let tok_longitude := nmea_tokenizer_get tzer 4 in
  let tok_longitudeHemi := nmea_tokenizer_get tzer 5 in
  let tok_altitude := nmea_tokenizer_get tzer 9 in
  let tok_altitudeUnits := nmea_tokenizer_get tzer 10 in
  nmea_reader_update_time tok_time ;;
  let* lat_h := first_char tok_latitudeHemi in
  let* lon_h := first_char tok_longitudeHemi in
  nmea_reader_update_latlong tok_latitude lat_h tok_longitude lon_h ;;
  nmea_reader_update_altitude tok_altitude tok_altitudeUnits ;;
  retM tt.

(** [sv_used_in_fix[i] = v]. *)
Definition set_used (i v : Z) : Parser unit :=
  let* w := wget in
  let* l := of_option (arr_set (w_used_in_fix w) i v) in
  wmod (fun w => w <| w_used_in_fix := l |>).

Definition between (a x b : Z) : bool := (a <=? x) && (x <=? b).

(** gps_mtk_aosp.c:2145-2172 [nmea_reader_parse, GSA satellites (GNSS)] [n] is
    [max - idx]; [bds] tells whether [sv_type == BDS_SV]. *)
Fixpoint gsa_gnss_loop (n : nat) (idx : Z) (bds : bool) (tzer : NmeaTokenizer) : Parser unit :=
  match n with
  | O => retM tt
  | S n' =>
      let tok_satellite := nmea_tokenizer_get tzer (idx + 3) in
      if tk_p tok_satellite =? tk_end tok_satellite then retM tt
      else
        let* id := of_option (tok2int tok_satellite) in
        let sate_id := if bds then i32 (id + 200) else id in
        if between 1 sate_id 32 then
          set_used sate_id 1 ;; gsa_gnss_loop n' (idx + 1) bds tzer
        else if between 193 sate_id 197 then
          set_used sate_id 0 ;; gsa_gnss_loop n' (idx + 1) bds tzer
        else if between 65 sate_id 96 then
          set_used sate_id 1 ;; gsa_gnss_loop n' (idx + 1) bds tzer
        else if between 201 sate_id 232 then
          set_used sate_id 1 ;; gsa_gnss_loop n' (idx + 1) bds tzer
        else retM tt
  end.

(** gps_mtk_aosp.c:2137-2173 [nmea_reader_parse, GSA (GNSS)]. *)
Definition parse_gsa_gnss (bds : bool) (tzer : NmeaTokenizer) : Parser unit :=
  let tok_fix := nmea_tokenizer_get tzer 2 in
  let* m := of_option (tok2int tok_fix) in
  rmod (fun r => r <| fix_mode := m |>) ;;
  let* r := rget in
  if LOC_FIXED r then gsa_gnss_loop 12 0 bds tzer else retM tt.

(** gps_mtk_aosp.c:2182-2203 [nmea_reader_parse, GSA satellites (GPS)]. *)
Fixpoint gsa_gps_loop (n : nat) (idx : Z) (tzer : NmeaTokenizer) : Parser unit :=
  match n with
  | O => retM tt
  | S n' =>
      let tok_satellite := nmea_tokenizer_get tzer (idx + 3) in
      if tk_p tok_satellite =? tk_end tok_satellite then retM tt
      else
        let* sate_id := of_option (tok2int tok_satellite) in
        if between 1 sate_id 32 then
          rmod (fun r => r <| gps_used_in_fix_mask :=
                            Z.lor (gps_used_in_fix_mask r) (u32 (Z.shiftl 1 (sate_id - 1))) |>) ;;
          gsa_gps_loop n' (idx + 1) tzer
        else if between 193 sate_id 197 then gsa_gps_loop n' (idx + 1) tzer
        else rmod (fun r => r <| gps_used_in_fix_mask := 0 |>)
  end.

(** gps_mtk_aosp.c:2174-2205 [nmea_reader_parse, GSA (GPS)]. *)
Definition parse_gsa_gps (tzer : NmeaTokenizer) : Parser unit :=
  let tok_fix := nmea_tokenizer_get tzer 2 in
  let* m := of_option (tok2int tok_fix) in
  rmod (fun r => r <| fix_mode := m |> <| gps_used_in_fix_mask := 0 |>) ;;
  let* r := rget in
  if LOC_FIXED r then gsa_gps_loop 12 0 tzer else retM tt.

(** gps_mtk_aosp.c:2207-2230 [nmea_reader_parse, RMC]. *)
Definition parse_rmc (tzer : NmeaTokenizer) : Parser unit :=
  let tok_time := nmea_tokenizer_get tzer 1 in
  let tok_fixStatus := nmea_tokenizer_get tzer 2 in
  let tok_latitude := nmea_tokenizer_get tzer 3 in
  let tok_latitudeHemi := nmea_tokenizer_get tzer 4 in
  let tok_longitude := nmea_tokenizer_get tzer 5 in
  let tok_longitudeHemi := nmea_tokenizer_get tzer 6 in
  let tok_speed := nmea_tokenizer_get tzer 7 in
  let tok_bearing := nmea_tokenizer_get tzer 8 in
  let tok_date := nmea_tokenizer_get tzer 9 in
  let* st := first_char tok_fixStatus in
  if st =? chr "A" then
    nmea_reader_update_date tok_date tok_time ;;
    let* lat_h := first_char tok_latitudeHemi in
    let* lon_h := first_char tok_longitudeHemi in
    nmea_reader_update_latlong tok_latitude lat_h tok_longitude lon_h ;;
    nmea_reader_update_bearing tok_bearing ;;
    nmea_reader_update_speed tok_speed ;;
    retM tt
  else retM tt.

(** gps_mtk_aosp.c:2246-2262 [nmea_reader_parse, GSV satellites] [n] is
    [sv_num - idx]; the GPS branch (2295-2311) has the same loop around
    [nmea_reader_update_sv_status_gps]. *)
Fixpoint gsv_loop (update : Z -> Token -> Token -> Token -> Parser Z) (n : nat) (idx : Z) (bds : bool)
  (tzer : NmeaTokenizer) : Parser unit :=
  match n with
  | O => retM tt
  | S n' =>
      let base_idx := 4 * (idx + 1) in
      let* id := of_option (tok2int (nmea_tokenizer_get tzer (base_idx + 0))) in
      let sv_id := if bds then i32 (id + 200) else id in
      let tok_ele := nmea_tokenizer_get tzer (base_idx + 1) in
      let tok_azi := nmea_tokenizer_get tzer (base_idx + 2) in
      let tok_snr := nmea_tokenizer_get tzer (base_idx + 3) in
      update sv_id tok_ele tok_azi tok_snr ;;
      gsv_loop update n' (idx + 1) bds tzer
  end.

(** gps_mtk_aosp.c:2239-2245 [nmea_reader_parse, GSV header] the number of
    satellites this message describes, at most four. *)
Definition gsv_sv_num (seq cnt : Z) : Z :=
  let sv_base := i32 ((seq - 1) * NMEA_MAX_SV_INFO) in
  let sv_num := i32 (cnt - sv_base) in
  if NMEA_MAX_SV_INFO <? sv_num then NMEA_MAX_SV_INFO else sv_num.

(** gps_mtk_aosp.c:2231-2279 [nmea_reader_parse, GSV (GNSS)]. *)
Definition parse_gsv_gnss (bds : bool) (tzer : NmeaTokenizer) : Parser unit :=
  let* num := of_option (tok2int (nmea_tokenizer_get tzer 1)) in
  let* seq := of_option (tok2int (nmea_tokenizer_get tzer 2)) in
  let* cnt := of_option (tok2int (nmea_tokenizer_get tzer 3)) in
  (if seq =? 1 then rmod (fun r => r <| sv_count := 0 |>) else retM tt) ;;
  gsv_loop nmea_reader_update_sv_status_gnss (Z.to_nat (gsv_sv_num seq cnt)) 0 bds tzer ;;
  if seq =? num then
    let* r := rget in
    if sv_count r <=? cnt then rmod (fun r => r <| gnss_num_svs := i32 (gnss_num_svs r + sv_count r) |>)
    else rmod (fun r => r <| gnss_num_svs := 0 |> <| sv_count := 0 |>)
  else retM tt.

(** gps_mtk_aosp.c:2280-2328 [nmea_reader_parse, GSV (GPS)]. *)
Definition parse_gsv_gps (bds : bool) (tzer : NmeaTokenizer) : Parser unit :=
  let* num := of_option (tok2int (nmea_tokenizer_get tzer 1)) in
  let* seq := of_option (tok2int (nmea_tokenizer_get tzer 2)) in
  let* cnt := of_option (tok2int (nmea_tokenizer_get tzer 3)) in
  (if seq =? 1 then rmod (fun r => r <| sv_count := 0 |>) else retM tt) ;;
  gsv_loop nmea_reader_update_sv_status_gps (Z.to_nat (gsv_sv_num seq cnt)) 0 bds tzer ;;
  if seq =? num then
    let* r := rget in
    if sv_count r <=? cnt then
      rmod (fun r => r <| gps_num_svs := i32 (gps_num_svs r + sv_count r) |>
                       <| gps_almanac_mask := 0 |> <| gps_ephemeris_mask := 0 |>)
    else rmod (fun r => r <| gps_num_svs := 0 |> <| sv_count := 0 |>)
  else retM tt.

(** gps_mtk_aosp.c:2330-2339 [nmea_reader_parse, ACCURACY]. *)
Definition parse_accuracy (tzer : NmeaTokenizer) : Parser unit :=
  let* r := rget in
  if (fix_mode r =? 3) || (fix_mode r =? 2) then
    nmea_reader_update_accuracy (nmea_tokenizer_get tzer 1) ;; retM tt
  else retM tt.

(** gps_mtk_aosp.c:2374-2384 [nmea_reader_parse, log] [sprintf] writes the text and
    a NUL into an array of 64. *)
Definition log_position : Parser unit :=
  let* p := hal get_prop in
  if truth p then
    let* r := rget in
    let text := print_lf (latitude (fix_ r)) ++ str ", " ++ print_lf (longitude (fix_ r)) in
    let* arr := of_option (mem_write (zeros 64) 0 (text ++ [0])) in
    let* b := of_option (buff_put_int (mnl_cmd MNL_CMD_GPS_LOG_WRITE) (zeros 1024, 0)
                         ≫= buff_put_string (cstr arr)) in
    let* w := wget in
    hal (mtk_daemon_send (w_sock w) MTK_HAL2MNLD b.1) ;;
    retM tt
  else retM tt.

(** gps_mtk_aosp.c:2344-2397 [nmea_reader_parse, location report]. *)
Definition report_location : Parser unit :=
  let* r := rget in
  let* w := wget in
  if negb (LOC_FIXED r) then retM tt
  else if negb (loc_flags (fix_ r) =? 0) && truth (w_end_tag w) then
    log_position ;;
    let* r := rget in
    hal (call_cb cb_location (EvLocation (fix_ r))) ;;
    let* w := wget in
    let fix_location := mkNlp (latitude (fix_ r)) (longitude (fix_ r)) (accuracy (fix_ r))
      (i32 (Z.quot (timestamp (fix_ r)) 1000)) (Z.rem (timestamp (fix_ r)) 1000 * 1000 * 1000)
      1 (w_started w) in
    hal (mtk_gps_update_location fix_location) ;;
    rmod (fun r => r <| fix_ := (fix_ r) <| loc_flags := 0 |> |>)
  else retM tt.

(** gps_mtk_aosp.c:2415-2428 [nmea_reader_parse, GPS satellite report loop]. *)
Fixpoint gps_sv_report_loop (fuel : nat) (idx : Z) : Parser unit :=
  let* r := rget in
  if idx <? gps_num_svs r then
    match fuel with
    | O => undefM
    | S fuel' =>
        let* _ := of_option (arr_get (gps_sv_list r) idx) in
        hal (call_cb cb_sv_status (EvSvStatus (gps_num_svs r) (gps_sv_list r) (gps_used_in_fix_mask r))) ;;
        rmod (fun r => r <| sv_count := 0 |> <| gps_num_svs := 0 |> <| gps_used_in_fix_mask := 0 |>) ;;
        gps_sv_report_loop fuel' (idx + 1)
    end
  else retM tt.

(** The size of the platform's GnssSvStatus. *)
Definition sizeof_GnssSvStatus : Z := 1544.

(** gps_mtk_aosp.c:2399-2430 [nmea_reader_parse, satellite report]. *)
Definition report_svs : Parser unit :=
  let* r := rget in
  let* w := wget in
  if w_gps_mode w =? 0 then
    if negb (gnss_num_svs r =? 0) && truth (w_end_tag w) then
      rmod (fun r => r <| gnss_size := sizeof_GnssSvStatus |>) ;;
      hal (call_cb cb_gnss_sv_status (EvGnssSvStatus (gnss_num_svs r) (gnss_sv_list r))) ;;
      rmod (fun r => r <| gnss_num_svs := 0 |> <| sv_count := 0 |>) ;;
      wmod (fun w => w <| w_used_in_fix := zeros 256 |>)
    else retM tt
  else if negb (gps_num_svs r =? 0) && truth (w_end_tag w) then
    gps_sv_report_loop (Z.to_nat (gps_num_svs r)) 0
  else retM tt.

(** gps_mtk_aosp.c:2107-2343 [nmea_reader_parse, dispatch] on the sentence type,
    the branches in the order of the source; [false] is the early return. *)
Definition parse_dispatch (tzer : NmeaTokenizer) : Parser bool :=
  let tok := nmea_tokenizer_get tzer 0 in
  if tk_end tok <? tk_p tok + 5 then retM false
  else
    let mem := tk_mem tok in
    let mp := tk_p tok in
    let tp := tk_p tok + 2 in
    let* w := wget in
    let gnss := w_gps_mode w =? 0 in
    let gps := w_gps_mode w =? 1 in
    let* bds := memcmp_eq mem mp "BD" in
    let* is_gga := memcmp_eq mem tp "GGA" in
    if is_gga : bool then parse_gga tzer ;; retM true else
    let* gpgsa := memcmp_eq mem mp "GPGSA" in
    let* bdgsa := memcmp_eq mem mp "BDGSA" in
    let* glgsa := memcmp_eq mem mp "GLGSA" in
    if gnss && (gpgsa || bdgsa || glgsa) then parse_gsa_gnss bds tzer ;; retM true else
    if gps && gpgsa then parse_gsa_gps tzer ;; retM true else
    let* is_rmc := memcmp_eq mem tp "RMC" in
    if is_rmc : bool then parse_rmc tzer ;; retM true else
    let* is_gsv := memcmp_eq mem tp "GSV" in
    if gnss && is_gsv then parse_gsv_gnss bds tzer ;; retM true else
    let* gpgsv := memcmp_eq mem mp "GPGSV" in
    let* glgsv := memcmp_eq mem mp "GLGSV" in
    if gps && (gpgsv || glgsv) then parse_gsv_gps bds tzer ;; retM true else
    let* is_accuracy := memcmp_eq mem tp "ACCURACY" in
    if is_accuracy : bool then parse_accuracy tzer ;; retM true else
    retM true.

(** gps_mtk_aosp.c:2001-2430 [nmea_reader_parse]. *)
Definition nmea_reader_parse : Parser unit :=
  let* r := rget in
  if pos r <? 9 then retM tt
  else
    let* tzer := (if pos r <? NMEA_MAX_SIZE + 1 then of_option (nmea_tokenizer_init (in_ r) 0 (pos r)) else undefM) in
    let* go_on := parse_dispatch tzer in
    if go_on : bool then report_location ;; report_svs else retM tt.

(** gps_mtk_aosp.c:2433-2458 [nmea_reader_addc]. *)
Definition nmea_reader_addc (c : Z) : Parser unit :=
  let* r := rget in
  if truth (overflow r) then rmod (fun r => r <| overflow := c_bool (negb (c =? 10)) |>)
  else if (NMEA_MAX_SIZE + 1 - 1 <=? pos r) || (pos r <? 0) then
    rmod (fun r => r <| overflow := 1 |> <| pos := 0 |>)
  else
    let* l := of_option (arr_set (in_ r) (pos r) (u8 c)) in
    rmod (fun r => r <| in_ := l |> <| pos := pos r + 1 |>) ;;
    if c =? 10 then
      nmea_reader_parse ;;
      let* r := rget in
      hal (call_cb cb_nmea (EvNmea (timestamp (fix_ r)) (take (Z.to_nat (pos r)) (in_ r)))) ;;
      rmod (fun r => r <| pos := 0 |>)
    else retM tt.

(** gps_mtk_aosp.c:3902-3908 [gps_state_thread, chunk loop] the end tag is set for
    the last byte of a chunk. *)
Fixpoint feed (bs : list Z) : Parser unit :=
  match bs with
  | [] => retM tt
  | b :: bs' =>
      (match bs' with [] => wmod (fun w => w <| w_end_tag := 1 |>) | _ => retM tt end) ;;
      nmea_reader_addc b ;;
      feed bs'
  end.

(** gps_mtk_aosp.c:3901-3908 [gps_state_thread, chunk] the bytes of one [read]. *)
Definition read_chunk (bs : list Z) : Parser unit :=
  wmod (fun w => w <| w_end_tag := 0 |>) ;;
  feed bs.

(** The chunks of a session, in order. *)
Fixpoint read_chunks (cs : list (list Z)) : Parser unit :=
  match cs with
  | [] => retM tt
  | c :: cs' => read_chunk c ;; read_chunks cs'
  end.
