(* ===== verification/NmeaSafe.v ===== *)
(** Memory safety of the NMEA parser of the GPS HAL: whatever bytes arrive, no
    access of the parser leaves its arrays. *)

From stdpp Require Import base list gmap strings numbers.
From Stdlib Require Import ZArith Lia SpecFloat.
From S2P Require Import Prelude CFloat CTime GpsTypes Buff Daemon NmeaTok NmeaReader NmeaParse.

Local Open Scope Z_scope.
Local Open Scope st_scope.
Local Open Scope rec_scope.

(** The position log is off: the property is unset or its seventh character is 0. *)
Definition log_off (w : World) : Prop :=
  match default [] (e_props (w_env w) !! MNL_CONFIG_STATUS) with
  | [] => True
  | v => at_ v 6 = 48
  end.

(** The callbacks through which the parser reports. *)
Definition parser_cbs (w : World) : Prop :=
  cb_location (w_cbs w) = true /\ cb_nmea (w_cbs w) = true /\
  cb_sv_status (w_cbs w) = true /\ cb_gnss_sv_status (w_cbs w) = true.

Definition reader_ok (n : Z) (r : NmeaReader) : Prop :=
  zlen (in_ r) = 129 /\ 0 <= pos r <= 128 /\ zlen (gps_sv_list r) = 32 /\ zlen (gnss_sv_list r) = 64 /\
  0 <= sv_count r <= 64 /\ 0 <= gps_num_svs r <= 64 * n /\ 0 <= gnss_num_svs r <= 64 * n.

Definition globals_ok (w : World) : Prop :=
  zlen (w_used_in_fix w) = 256 /\ parser_cbs w /\ log_off w.

(** The invariant after at most [n] sentences without a report. *)
Definition safe (n : Z) (s : PState) : Prop := reader_ok n (ps_r s) /\ globals_ok (ps_w s).

(** [runs n m s]: from [s] the run returns, in a safe state. *)
Definition runs {A} (n : Z) (m : Parser A) (s : PState) : Prop :=
  exists a s', m s = Ok (a, s') /\ safe n s'.

Section Rules.
Context (n : Z).

Lemma runs_ret {A} (a : A) s : safe n s -> runs n (retM a) s.
Proof. intros H. by exists a, s. Qed.

Lemma runs_bind {A B} (m : Parser A) (k : A -> Parser B) s :
  runs n m s -> (forall a s', safe n s' -> runs n (k a) s') -> runs n (bindM m k) s.
Proof.
  intros (a & s1 & E & H1) Hk. destruct (Hk a s1 H1) as (b & s2 & E2 & H2).
  exists b, s2. split; [|done]. by rewrite (bindM_ok _ _ _ _ _ E).
Qed.

Lemma runs_rget {A} (k : NmeaReader -> Parser A) s : runs n (k (ps_r s)) s -> runs n (bindM rget k) s.
Proof. intros H. exact H. Qed.

Lemma runs_wget {A} (k : World -> Parser A) s : runs n (k (ps_w s)) s -> runs n (bindM wget k) s.
Proof. intros H. exact H. Qed.

Lemma runs_opt {A B} (o : option A) (k : A -> Parser B) s :
  is_Some o -> (forall a, o = Some a -> runs n (k a) s) -> runs n (bindM (of_option o) k) s.
Proof. intros [a ->] H. by apply H. Qed.

Lemma runs_rmod f s : safe n s -> (reader_ok n (ps_r s) -> reader_ok n (f (ps_r s))) -> runs n (rmod f) s.
Proof. intros [H1 H2] Hf. eexists _, _. split; [reflexivity|]. split; [by apply Hf|done]. Qed.

Lemma runs_wmod f s : safe n s -> (globals_ok (ps_w s) -> globals_ok (f (ps_w s))) -> runs n (wmod f) s.
Proof. intros [H1 H2] Hf. eexists _, _. split; [reflexivity|]. split; [done|by apply Hf]. Qed.

Lemma runs_hal {A} (m : HAL A) s w' a : safe n s -> m (ps_w s) = Ok (a, w') -> globals_ok w' -> runs n (hal m) s.
Proof.
  intros [H1 H2] E Hw. exists a, (s <| ps_w := w' |>). split; [|by split]. unfold hal. by rewrite E.
Qed.

Lemma runs_cb entry e s : safe n s -> entry (w_cbs (ps_w s)) = true -> runs n (hal (call_cb entry e)) s.
Proof. intros H E. eapply runs_hal; [done|by apply call_cb_set|]. apply H. Qed.
End Rules.

(** One step of a parser run. *)
Ltac step :=
  lazymatch goal with
  | |- runs _ (retM _) _ => apply runs_ret; assumption
  | |- runs _ (bindM rget _) _ => apply runs_rget; cbv beta
  | |- runs _ (bindM wget _) _ => apply runs_wget; cbv beta
  | |- runs _ (bindM (of_option _) _) _ => apply runs_opt; [|intros ? ?]
  | |- runs _ (bindM (retM ?a) _) _ => change (bindM (retM a)) with (fun (k : _ -> Parser _) => k a); cbv beta
  | |- runs _ (bindM _ _) _ => apply runs_bind; [|intros ? ? ?]
  | |- runs _ (if ?b then _ else _) _ => let E := fresh "E" in destruct b eqn:E
  | |- runs _ (rmod _) _ => apply runs_rmod; [assumption|intros ?]
  | |- runs _ (let _ := _ in _) _ => cbv zeta
  end.

(** Reads of tokens in their array. *)
Lemma str2int_tok t a b : tok_ok t -> 0 <= a -> tk_p t + a <= tk_end t -> tk_p t + b <= tk_end t + 1 ->
  is_Some (str2int (tk_mem t) (tk_p t + a) (tk_p t + b)).
Proof. intros [H1 H2] ? ? ?. apply str2int_total; lia. Qed.

Ltac tok := first [ by apply tok2int_total | by apply tok2float_total ].

Section Updates.
Context (n : Z).

Lemma runs_first_char t s : tok_ok t -> safe n s -> runs n (first_char t) s.
Proof. intros [H1 H2] H. unfold first_char. rewrite ldb_Some by lia. by apply runs_ret. Qed.

Lemma runs_update_time t s : tok_ok t -> safe n s -> runs n (nmea_reader_update_time t) s.
Proof.
  intros Ht H. unfold nmea_reader_update_time. step; [by step|]. apply Z.ltb_ge in E.
  destruct Ht as [H1 H2]. repeat step; try done.
  - apply str2int_total; lia.
  - apply str2int_total; lia.
  - apply str2float_total; lia.
Qed.

Lemma runs_update_date d t s : tok_ok d -> tok_ok t -> safe n s -> runs n (nmea_reader_update_date d t) s.
Proof.
  intros [H1 H2] Ht H. unfold nmea_reader_update_date. cbv zeta. step; [by step|].
  apply negb_false_iff, Z.eqb_eq in E. do 3 (step; [apply str2int_total; lia|]). repeat step; try done.
  by apply runs_update_time.
Qed.

Lemma convert_total t : tok_ok t -> is_Some (convert_from_hhmm t).
Proof. intros Ht. unfold convert_from_hhmm. destruct (tok2float_total t Ht) as [v ->]. done. Qed.

Lemma runs_update_latlong a ha o ho s : tok_ok a -> tok_ok o -> safe n s ->
  runs n (nmea_reader_update_latlong a ha o ho) s.
Proof.
  intros Ha Ho H. unfold nmea_reader_update_latlong. repeat step; try done; by apply convert_total.
Qed.

Lemma runs_update_altitude t u s : tok_ok t -> safe n s -> runs n (nmea_reader_update_altitude t u) s.
Proof. intros Ht H. unfold nmea_reader_update_altitude. repeat step; try done; tok. Qed.

Lemma runs_update_bearing t s : tok_ok t -> safe n s -> runs n (nmea_reader_update_bearing t) s.
Proof. intros Ht H. unfold nmea_reader_update_bearing. repeat step; try done; tok. Qed.

Lemma runs_update_speed t s : tok_ok t -> safe n s -> runs n (nmea_reader_update_speed t) s.
Proof. intros Ht H. unfold nmea_reader_update_speed. repeat step; try done; tok. Qed.

Lemma runs_update_accuracy t s : tok_ok t -> safe n s -> runs n (nmea_reader_update_accuracy t) s.
Proof. intros Ht H. unfold nmea_reader_update_accuracy. repeat step; try done; tok. Qed.
End Updates.

Lemma arr_set_Some {A} (l : list A) i v : 0 <= i < zlen l -> is_Some (arr_set l i v).
Proof. intros H. unfold arr_set. zb; cbn; done || lia. Qed.

Lemma arr_set_len {A} (l k : list A) i v : arr_set l i v = Some k -> zlen k = zlen l.
Proof.
  unfold arr_set. destruct (_ && _); [|done]. intros [= <-]. unfold zlen. by rewrite length_insert.
Qed.

Lemma arr_get_Some {A} (l : list A) i : 0 <= i < zlen l -> is_Some (arr_get l i).
Proof.
  intros H. unfold arr_get. destruct (Z.leb_spec 0 i), (Z.ltb_spec i (zlen l)); try lia. cbn.
  apply lookup_lt_is_Some. unfold zlen in *. lia.
Qed.

(** Satellite identifiers that pass a range check index [sv_used_in_fix]. *)
Lemma between_true a x b : between a x b = true -> a <= x <= b.
Proof. unfold between. intros [H1%Z.leb_le H2%Z.leb_le]%andb_true_iff. lia. Qed.

Section Sentences.
Context (n : Z) (Hn : 0 <= n < 2 ^ 24).
Context (tzer : NmeaTokenizer) (Htz : Forall tok_ok tzer).

#[local] Hint Resolve tokenizer_get_ok : csem.

Lemma get_ok i : tok_ok (nmea_tokenizer_get tzer i).
Proof. by apply tokenizer_get_ok. Qed.

Lemma get_int i : is_Some (tok2int (nmea_tokenizer_get tzer i)).
Proof. apply tok2int_total, get_ok. Qed.

Lemma runs_sv_gps id i j k s : safe n s ->
  runs n (nmea_reader_update_sv_status_gps id (nmea_tokenizer_get tzer i) (nmea_tokenizer_get tzer j) (nmea_tokenizer_get tzer k)) s.
Proof.
  intros H. unfold nmea_reader_update_sv_status_gps. cbv zeta. step. step; [by step|].
  step; [by step|]. pose proof H as [(H1 & H2 & H3 & H4 & H5 & H6 & H7) Hw].
  apply orb_false_iff in E as [_ E%Z.leb_gt]. apply Z.leb_gt in E0. unfold GPS_MAX_SVS in *.
  rewrite i32_id in * by (unfold is_i32; lia).
  step; [apply tok2float_total, get_ok|]. do 2 (step; [apply get_int|]).
  step; [apply arr_set_Some; lia|]. step; [|by step]. apply runs_rmod; [done|]. intros _.
  match goal with E : arr_set _ _ _ = Some _ |- _ => apply arr_set_len in E end. unfold reader_ok. cbn. repeat split; lia.
Qed.

Lemma runs_sv_gnss id i j k s : safe n s ->
  runs n (nmea_reader_update_sv_status_gnss id (nmea_tokenizer_get tzer i) (nmea_tokenizer_get tzer j) (nmea_tokenizer_get tzer k)) s.
Proof.
  intros H. unfold nmea_reader_update_sv_status_gnss. cbv zeta. step. step; [by step|].
  step; [by step|]. pose proof H as [(H1 & H2 & H3 & H4 & H5 & H6 & H7) Hw].
  apply orb_false_iff in E as [E1 E%Z.leb_gt]. apply orb_false_iff in E1 as [E1 Eb%Z.ltb_ge].
  apply orb_false_iff in E1 as [E1 _]. apply orb_false_iff in E1 as [Ea%Z.leb_gt _].
  apply Z.leb_gt in E0. unfold GNSS_MAX_SVS in *.
  rewrite i32_id in * by (unfold is_i32; lia).
  step; [apply tok2float_total, get_ok|]. do 2 (step; [apply get_int|]). step.
  step; [apply arr_get_Some; destruct Hw as [-> _]; lia|].
  step; [apply arr_set_Some; lia|]. step; [|by step]. apply runs_rmod; [done|]. intros _.
  match goal with E : arr_set _ _ _ = Some _ |- _ => apply arr_set_len in E end.
  unfold reader_ok. cbn. repeat split; lia.
Qed.

Lemma runs_set_used i v s : 0 <= i < 256 -> safe n s -> runs n (set_used i v) s.
Proof.
  intros Hi H. unfold set_used. step. pose proof H as [_ [Hu Hw]].
  step; [apply arr_set_Some; lia|]. apply runs_wmod; [done|]. intros _.
  match goal with E : arr_set _ _ _ = Some _ |- _ => apply arr_set_len in E end. split; [cbn; lia|exact Hw].
Qed.

Lemma runs_mark a b v i (k e : Parser unit) s : 0 <= a -> b < 256 -> safe n s ->
  (forall s', safe n s' -> runs n k s') -> runs n e s ->
  runs n (if between a i b then set_used i v ;; k else e) s.
Proof.
  intros Ha Hb H Hk He. step; [|done]. apply between_true in E.
  step; [apply runs_set_used; [lia|done]|by apply Hk].
Qed.

Lemma runs_gsa_gnss m idx bds s : safe n s -> runs n (gsa_gnss_loop m idx bds tzer) s.
Proof.
  revert idx s. induction m as [|m IH]; intros idx s H; cbn [gsa_gnss_loop]; [by step|].
  step; [by step|]. step; [apply get_int|].
  do 4 (apply runs_mark; [lia|lia|done|intros; by apply IH|]). by step.
Qed.

Lemma runs_gsa_gps m idx s : safe n s -> runs n (gsa_gps_loop m idx tzer) s.
Proof.
  revert idx s. induction m as [|m IH]; intros idx s H; cbn [gsa_gps_loop]; [by step|].
  step; [by step|]. step; [apply get_int|]. repeat (step; try done; try (by apply IH)).
Qed.

Lemma runs_gga s : safe n s -> runs n (parse_gga tzer) s.
Proof.
  intros H. unfold parse_gga. cbv zeta. step; [by apply runs_update_time; [apply get_ok|]|].
  do 2 (step; [by apply runs_first_char; [apply get_ok|]|]).
  step; [by apply runs_update_latlong; try apply get_ok|].
  step; [by apply runs_update_altitude; [apply get_ok|]|]. by step.
Qed.

Lemma runs_rmc s : safe n s -> runs n (parse_rmc tzer) s.
Proof.
  intros H. unfold parse_rmc. cbv zeta. step; [by apply runs_first_char; [apply get_ok|]|].
  step; [|by step]. step; [by apply runs_update_date; try apply get_ok|].
  do 2 (step; [by apply runs_first_char; [apply get_ok|]|]).
  step; [by apply runs_update_latlong; try apply get_ok|].
  step; [by apply runs_update_bearing; [apply get_ok|]|].
  step; [by apply runs_update_speed; [apply get_ok|]|]. by step.
Qed.

Lemma runs_parse_gsa_gnss bds s : safe n s -> runs n (parse_gsa_gnss bds tzer) s.
Proof.
  intros H. unfold parse_gsa_gnss. cbv zeta. step; [apply get_int|]. step; [by step|]. step.
  step; [by apply runs_gsa_gnss|by step].
Qed.

Lemma runs_parse_gsa_gps s : safe n s -> runs n (parse_gsa_gps tzer) s.
Proof.
  intros H. unfold parse_gsa_gps. cbv zeta. step; [apply get_int|]. step; [by step|]. step.
  step; [by apply runs_gsa_gps|by step].
Qed.

Lemma runs_parse_accuracy s : safe n s -> runs n (parse_accuracy tzer) s.
Proof.
  intros H. unfold parse_accuracy. step. step; [|by step].
  step; [by apply runs_update_accuracy; [apply get_ok|]|by step].
Qed.

Lemma runs_gsv_loop update m idx bds s :
  (forall id i j k s', safe n s' -> runs n (update id (nmea_tokenizer_get tzer i) (nmea_tokenizer_get tzer j) (nmea_tokenizer_get tzer k)) s') ->
  safe n s -> runs n (gsv_loop update m idx bds tzer) s.
Proof.
  intros Hu. revert idx s. induction m as [|m IH]; intros idx s H; cbn [gsv_loop]; [by step|].
  step; [apply get_int|]. step; [by apply Hu|by apply IH].
Qed.
End Sentences.

(** A safe state stays safe for a larger bound. *)
Lemma safe_mono n n' s : n <= n' -> safe n s -> safe n' s.
Proof. intros Hn [(H1 & H2 & H3 & H4 & H5 & H6 & H7) Hw]. split; [|done]. repeat split; lia. Qed.

Lemma runs_mono {A} n n' (m : Parser A) s : n <= n' -> runs n m s -> runs n' m s.
Proof. intros Hn (a & s' & E & H). exists a, s'. split; [done|]. by eapply safe_mono. Qed.

Lemma runs_bind_mono {A B} n n' (m : Parser A) (k : A -> Parser B) s :
  runs n m s -> (forall a s', safe n s' -> runs n' (k a) s') -> runs n' (bindM m k) s.
Proof.
  intros (a & s1 & E & H1) Hk. destruct (Hk a s1 H1) as (b & s2 & E2 & H2).
  exists b, s2. split; [|done]. by rewrite (bindM_ok _ _ _ _ _ E).
Qed.

Section Parse.
Context (n : Z) (Hn : 0 <= n < 2 ^ 24).

(** The end of a group of GSV messages adds at most 64 satellites. *)
Lemma runs_gsv_end f s : safe n s ->
  (reader_ok n (ps_r s) -> reader_ok (n + 1) (f (ps_r s))) ->
  runs (n + 1) (rmod f) s.
Proof.
  intros [Hr Hw] Hf. eexists _, _. split; [reflexivity|]. split; [by apply Hf|done].
Qed.

Lemma runs_parse_gsv_gnss bds tzer s : Forall tok_ok tzer -> safe n s -> runs (n + 1) (parse_gsv_gnss bds tzer) s.
Proof.
  intros Htz H. unfold parse_gsv_gnss. do 3 (step; [by apply get_int|]).
  apply (runs_bind_mono n); [step; [step; unfold reader_ok in *; cbn; lia|by step]|]. intros _ s1 Hs1.
  apply (runs_bind_mono n); [by apply runs_gsv_loop; [|intros; by apply runs_sv_gnss|]|]. intros _ s2 Hs2.
  step; [|apply runs_ret; eapply safe_mono; [|done]; lia]. step.
  step; (apply runs_gsv_end; [done|]); unfold reader_ok; cbn; intros (? & ? & ? & ? & ? & ? & ?);
    rewrite ?i32_id by (unfold is_i32; lia); repeat split; lia.
Qed.

Lemma runs_parse_gsv_gps bds tzer s : Forall tok_ok tzer -> safe n s -> runs (n + 1) (parse_gsv_gps bds tzer) s.
Proof.
  intros Htz H. unfold parse_gsv_gps. do 3 (step; [by apply get_int|]).
  apply (runs_bind_mono n); [step; [step; unfold reader_ok in *; cbn; lia|by step]|]. intros _ s1 Hs1.
  apply (runs_bind_mono n); [by apply runs_gsv_loop; [|intros; by apply runs_sv_gps|]|]. intros _ s2 Hs2.
  step; [|apply runs_ret; eapply safe_mono; [|done]; lia]. step.
  step; (apply runs_gsv_end; [done|]); unfold reader_ok; cbn; intros (? & ? & ? & ? & ? & ? & ?);
    rewrite ?i32_id by (unfold is_i32; lia); repeat split; lia.
Qed.

Lemma runs_memcmp m mem p str s : 0 <= p -> p + zlen (Prelude.str str) <= zlen mem -> safe m s ->
  runs m (memcmp_eq mem p str) s.
Proof.
  intros H1 H2 H. unfold memcmp_eq. step; [|by step]. unfold mem_read.
  pose proof (zlen_nonneg (Prelude.str str)). zb; cbn; done || lia.
Qed.

Lemma runs_dispatch tzer s : Forall tok_ok tzer ->
  (tk_p (nmea_tokenizer_get tzer 0) + 10 <= zlen (tk_mem (nmea_tokenizer_get tzer 0)) \/
   tk_end (nmea_tokenizer_get tzer 0) < tk_p (nmea_tokenizer_get tzer 0) + 5) ->
  safe n s -> runs (n + 1) (parse_dispatch tzer) s.
Proof.
  intros Htz Hf H. unfold parse_dispatch. cbv zeta.
  assert (forall {A} (m : Parser A), runs n m s -> runs (n + 1) m s) as Hup by (intros; eapply runs_mono; [|done]; lia).
  step; [by apply Hup, runs_ret|]. apply Z.ltb_ge in E.
  pose proof (get_ok tzer Htz 0) as [Hp He]. set (t := nmea_tokenizer_get tzer 0) in *.
  destruct Hf as [Hf|Hf]; [|lia]. step.
  assert (forall (p : Z) (w : string) s', safe n s' -> 0 <= p -> p + zlen (str w) <= tk_p t + 10 ->
    runs n (memcmp_eq (tk_mem t) p w) s') as Hm by (intros; apply runs_memcmp; [lia|lia|done]).
  assert (forall (m : Parser unit) s', runs (n + 1) m s' -> runs (n + 1) (m ;; retM true) s') as Hb
    by (intros; apply runs_bind; [done|intros; by apply runs_ret]).
  assert (forall (m : Parser unit) s', runs n m s' -> runs (n + 1) (m ;; retM true) s') as Hb'
    by (intros; apply Hb; eapply runs_mono; [|done]; lia).
  assert (forall s', safe n s' -> runs (n + 1) (retM true) s') as Hr
    by (intros s' Hs'; apply runs_ret; eapply safe_mono; [|exact Hs']; lia).
  repeat (
    match goal with
    | |- runs _ (bindM (memcmp_eq _ _ _) _) _ => apply (runs_bind_mono n); [apply Hm; [done|lia|vm_compute zlen; lia]|intros ? ? ?]
    | |- runs _ (if _ then _ else _) _ => step
    end).
  - by apply Hb', runs_gga.
  - by apply Hb', runs_parse_gsa_gnss.
  - by apply Hb', runs_parse_gsa_gps.
  - by apply Hb', runs_rmc.
  - by apply Hb, runs_parse_gsv_gnss.
  - by apply Hb, runs_parse_gsv_gps.
  - by apply Hb', runs_parse_accuracy.
  - by apply Hr.
Qed.
End Parse.

(** * The reports *)

Lemma get_prop_off w : log_off w -> get_prop w = Ok (0, w).
Proof.
  unfold log_off, get_prop. rewrite (bindM_ok _ _ w (default [] (e_props (w_env w) !! MNL_CONFIG_STATUS)) w) by done.
  destruct (default [] _) as [|b v]; [done|]. intros H. by rewrite H.
Qed.

Lemma log_position_off s : log_off (ps_w s) -> log_position s = Ok (tt, s).
Proof.
  intros H. unfold log_position. rewrite (bindM_ok _ _ s 0 s); [done|].
  unfold hal. rewrite get_prop_off by done. by destruct s.
Qed.

Lemma update_location_run l w : exists w', mtk_gps_update_location l w = Ok (tt, w') /\
  w' = w <| w_env := (w_env w) <| e_files := e_files (w_env w') |> |>.
Proof.
  unfold mtk_gps_update_location, write_file. run. destruct (bool_decide _); eexists; (split; [reflexivity|]).
  - by destruct w as [? ? ? ? ? ? ? ? ? ? ? ? ? ? ? ? ? [] ?].
  - reflexivity.
Qed.

Section Reports.
Context (n : Z) (Hn : 0 <= n).

Lemma runs_update_location l s : safe n s -> runs n (hal (mtk_gps_update_location l)) s.
Proof.
  intros H. destruct (update_location_run l (ps_w s)) as (w' & E & Hw).
  eapply runs_hal; [done|exact E|]. rewrite Hw. apply H.
Qed.

Lemma runs_report_location s : safe n s -> runs n report_location s.
Proof.
  intros H. unfold report_location. do 2 step. step; [by step|]. step; [|by step].
  step.
  { exists tt, s. split; [apply log_position_off, H|done]. }
  step. step; [apply runs_cb; [done|]; apply H0|]. do 2 step; [by apply runs_update_location|]. by step.
Qed.

Lemma gps_sv_report_once s : safe n s -> 0 < gps_num_svs (ps_r s) ->
  gps_sv_report_loop (Z.to_nat (gps_num_svs (ps_r s))) 0 s =
    Ok (tt, mkP ((ps_r s) <| sv_count := 0 |> <| gps_num_svs := 0 |> <| gps_used_in_fix_mask := 0 |>)
              ((ps_w s) <| w_trace := w_trace (ps_w s) ++
                 [EvSvStatus (gps_num_svs (ps_r s)) (gps_sv_list (ps_r s)) (gps_used_in_fix_mask (ps_r s))] |>)).
Proof.
  intros [Hr Hw] H0. replace (Z.to_nat (gps_num_svs (ps_r s))) with (S (Z.to_nat (gps_num_svs (ps_r s) - 1))) by lia.
  cbn [gps_sv_report_loop]. unfold bindM at 1, rget at 1. cbn [bindM getM retM]. unfold bindM at 1, getM, retM at 1.
  rewrite (proj2 (Z.ltb_lt _ _) H0).
  destruct (arr_get_Some (gps_sv_list (ps_r s)) 0) as [v ->]; [destruct Hr as (_ & _ & -> & _); lia|].
  unfold of_option. unfold bindM at 1, retM at 1. unfold bindM at 1, hal.
  rewrite call_cb_set by apply Hw. destruct (Z.to_nat _); reflexivity.
Qed.

Lemma runs_report_svs s : safe n s -> runs n report_svs s.
Proof.
  intros H. unfold report_svs. do 3 step.
  - step; [|by step]. step; [by step|]. step; [apply runs_cb; [done|]; apply H0|].
    step; [step; unfold reader_ok in *; cbn; lia|]. apply runs_wmod; [done|].
    intros (_ & H4 & H5). split; [reflexivity|by split].
  - step; [|by step]. apply andb_true_iff in E0 as [E0%negb_true_iff%Z.eqb_neq _].
    destruct H as [Hr Hw]. assert (0 < gps_num_svs (ps_r s)) by (unfold reader_ok in Hr; lia).
    eexists _, _. split; [by apply gps_sv_report_once|]. split; [|exact Hw].
    unfold reader_ok in *; cbn; lia.
Qed.
End Reports.

(** * The reader *)

Section Reader.
Context (n : Z) (Hn : 0 <= n < 2 ^ 24).

Lemma runs_parse s : safe n s -> runs (n + 1) nmea_reader_parse s.
Proof.
  intros H. assert (safe (n + 1) s) as H' by (eapply safe_mono; [|exact H]; lia).
  unfold nmea_reader_parse. step. step; [by step|]. pose proof H as [(Hin & Hpos & _) _].
  rewrite (proj2 (Z.ltb_lt (pos (ps_r s)) (NMEA_MAX_SIZE + 1))) by (unfold NMEA_MAX_SIZE; lia).
  destruct (tokenizer_init_spec (in_ (ps_r s)) 0 (pos (ps_r s))) as (ts & Hts & _ & Hok); [lia|lia|].
  assert (Forall tok_ok ts) as Htok
    by (eapply Forall_impl; [|exact Hok]; intros t Ht; eapply tok_in_ok; [| |exact Ht]; lia).
  rewrite Hts. step; [done|]. match goal with E : Some _ = Some _ |- _ => injection E as <- end.
  step.
  - apply runs_dispatch; [done|done| |done].
    destruct (tokenizer_first (in_ (ps_r s)) 0 (pos (ps_r s)) ts) as [->|(q & rest & p' & -> & Hp)]; [lia|lia|done| |].
    + by right.
    + left. rewrite tokenizer_get_head. cbn [tk_p tk_mem]. lia.
  - step; [|by step]. step; [apply runs_report_location|apply runs_report_svs]; done || lia.
Qed.

Lemma runs_addc c s : safe n s -> runs (n + 1) (nmea_reader_addc c) s.
Proof.
  intros H. assert (safe (n + 1) s) as H' by (eapply safe_mono; [|exact H]; lia).
  unfold nmea_reader_addc. step. step; [by step|]. step.
  { step. unfold reader_ok in *. cbn. lia. }
  pose proof H as [(Hin & Hpos & _) _]. apply orb_false_iff in E0 as [E1%Z.leb_gt E2%Z.ltb_ge].
  unfold NMEA_MAX_SIZE in E1. step; [apply arr_set_Some; lia|].
  apply (runs_bind_mono n).
  { step. match goal with E : arr_set _ _ _ = Some _ |- _ => apply arr_set_len in E end.
    unfold reader_ok in *. cbn. lia. }
  intros _ s1 H1. step.
  - step; [by apply runs_parse|]. step. step; [apply runs_cb; [done|]; apply H2|].
    step. unfold reader_ok in *. cbn. lia.
  - apply runs_ret. eapply safe_mono; [|exact H1]. lia.
Qed.
End Reader.

(** * Streams *)

Lemma runs_set_tag n v s : safe n s -> runs n (wmod (fun w => w <| w_end_tag := v |>)) s.
Proof. intros H. by apply runs_wmod. Qed.

Lemma runs_feed n bs s : 0 <= n -> n + zlen bs <= 2 ^ 24 -> safe n s -> runs (n + zlen bs) (feed bs) s.
Proof.
  intros Hn. revert n s Hn. induction bs as [|b bs IH]; intros n s Hn Hb H; cbn [feed].
  - rewrite zlen_nil, Z.add_0_r. by apply runs_ret.
  - rewrite zlen_cons in *. pose proof (zlen_nonneg bs). apply (runs_bind_mono n).
    + destruct bs; [by apply runs_set_tag|by apply runs_ret].
    + intros _ s1 Hs1. apply (runs_bind_mono (n + 1)); [apply runs_addc; [lia|done]|]. intros _ s2 Hs2.
      replace (n + (1 + zlen bs)) with (n + 1 + zlen bs) by lia. apply IH; [lia|lia|done].
Qed.

Definition total (cs : list (list Z)) : Z := zlen (concat cs).

Lemma runs_chunks n cs s : 0 <= n -> n + total cs <= 2 ^ 24 -> safe n s -> runs (n + total cs) (read_chunks cs) s.
Proof.
  unfold total. intros Hn. revert n s Hn. induction cs as [|c cs IH]; intros n s Hn Hb H; cbn [read_chunks concat] in *.
  - rewrite zlen_nil, Z.add_0_r. by apply runs_ret.
  - rewrite zlen_app in *. pose proof (zlen_nonneg (concat cs)). pose proof (zlen_nonneg c).
    apply (runs_bind_mono (n + zlen c)).
    + unfold read_chunk. apply (runs_bind_mono n); [by apply runs_set_tag|]. intros _ s1 Hs1. apply runs_feed; [lia|lia|done].
    + intros _ s1 Hs1. replace (n + (zlen c + zlen (concat cs))) with (n + zlen c + zlen (concat cs)) by lia.
      apply IH; [lia|lia|done].
Qed.

Lemma reader_init_ok now off : reader_ok 0 (nmea_reader_init now off).
Proof. unfold reader_ok. cbn -[Z.mul]. repeat split; done || lia. Qed.

(** * Properties *)

(** C1: the NMEA reader is memory safe and always returns: whatever bytes the
    receiver delivers, in whatever chunks (up to 16 MB), the run of the reader
    makes no access outside of its line buffer, its tokens, its satellite lists
    and the table of used satellites, provided the framework has registered its
    callbacks and the position log is off. *)
Theorem nmea_reader_memory_safe (cs : list (list Z)) (now gmtoff : Z) (w : World)
  (Hcs : total cs <= 2 ^ 24) (Hu : zlen (w_used_in_fix w) = 256)
  (Hcb : parser_cbs w) (Hlog : log_off w) :
  exists s', read_chunks cs (mkP (nmea_reader_init now gmtoff) w) = Ok (tt, s') /\
    zlen (in_ (ps_r s')) = 129 /\ 0 <= pos (ps_r s') <= 128 /\
    zlen (gps_sv_list (ps_r s')) = 32 /\ zlen (gnss_sv_list (ps_r s')) = 64 /\
    zlen (w_used_in_fix (ps_w s')) = 256.
Proof.
  destruct (runs_chunks 0 cs (mkP (nmea_reader_init now gmtoff) w)) as ([] & s' & E & (H1 & H2 & H3 & H4 & _) & H5 & _);
    [lia|exact Hcs|split; [apply reader_init_ok|by split]|].
  by exists s'.
Qed.

Lemma nmea_reader_memory_safe_witness :
  exists s', read_chunks [str "$GPGGA,,,,"; [10; 0; 255]] (mkP (nmea_reader_init 0 0) (world0 7 all_cbs quiet_env)) = Ok (tt, s') /\
    zlen (in_ (ps_r s')) = 129 /\ 0 <= pos (ps_r s') <= 128 /\
    zlen (gps_sv_list (ps_r s')) = 32 /\ zlen (gnss_sv_list (ps_r s')) = 64 /\
    zlen (w_used_in_fix (ps_w s')) = 256.
Proof.
  apply (nmea_reader_memory_safe [str "$GPGGA,,,,"; [10; 0; 255]] 0 0 (world0 7 all_cbs quiet_env)).
  - vm_compute. discriminate.
  - reflexivity.
  - repeat split.
  - vm_compute. exact I.
Defined.

(** The property that turns the position log on. *)
Definition log_env : Env := quiet_env <| e_props := {[ MNL_CONFIG_STATUS := str "0000001" ]} |>.

Definition evil_chunk : list Z :=
  str "$GPGSA,A,3,04*00" ++ [10] ++ str "$GPGGA,010203,1e+300,N,1e+300,E,,,,,*00" ++ [10].

(** with the position log on, a single sentence with a huge coordinate makes
    the parser write outside of its 64-byte text array: the safety of the reader
    needs the log to be off. *)
Theorem position_log_overflow :
  read_chunk evil_chunk (mkP (nmea_reader_init 0 0) ((world0 7 all_cbs log_env) <| w_gps_mode := 0 |>)) = Undef /\
  exists s', read_chunk evil_chunk (mkP (nmea_reader_init 0 0) ((world0 7 all_cbs quiet_env) <| w_gps_mode := 0 |>)) = Ok (tt, s').
Proof. split; [vm_compute; reflexivity|]. eexists. vm_compute. reflexivity. Qed.
