(* ===== verification/NmeaProps.v ===== *)
(** Functional properties of the NMEA parser of the GPS HAL: how the stream is cut
    into lines, the time stamp of a fix, the hemispheres, the sets of satellites
    used and seen, and the reports to the framework. *)

From stdpp Require Import base list gmap strings numbers.
From Stdlib Require Import ZArith Lia SpecFloat.
From S2P Require Import Prelude CFloat CTime GpsTypes Buff Daemon NmeaTok NmeaReader NmeaParse NmeaSafe.

Local Open Scope Z_scope.
Local Open Scope st_scope.
Local Open Scope rec_scope.

(** * What a parse leaves alone *)

(** The line buffer is as in [r0] and the trace extends [t0]. *)
Definition frame (r0 : NmeaReader) (t0 : list event) (s : PState) : Prop :=
  pos (ps_r s) = pos r0 /\ overflow (ps_r s) = overflow r0 /\ in_ (ps_r s) = in_ r0 /\
  exists tr, w_trace (ps_w s) = t0 ++ tr.

Section Frame.
Context (r0 : NmeaReader) (t0 : list event).
#[local] Abbreviation F := (frame r0 t0).

Lemma frame_rget : preserves F rget.
Proof. intros s a s' H [= <- <-]. done. Qed.
Lemma frame_wget : preserves F wget.
Proof. intros s a s' H [= <- <-]. done. Qed.
Lemma frame_opt {A} (o : option A) : preserves F (of_option o).
Proof. destruct o; [apply preserves_ret|apply preserves_undef]. Qed.
Lemma frame_rmod f : (forall r, pos (f r) = pos r) -> (forall r, overflow (f r) = overflow r) ->
  (forall r, in_ (f r) = in_ r) -> preserves F (rmod f).
Proof. intros H1 H2 H3 s a s' H [= <- <-]. unfold frame. cbn. by rewrite H1, H2, H3. Qed.
Lemma frame_wmod f : (forall w, w_trace (f w) = w_trace w) -> preserves F (wmod f).
Proof. intros H1 s a s' H [= <- <-]. unfold frame. cbn. by rewrite H1. Qed.
Lemma frame_hal {A} (m : HAL A) :
  (forall w a w', m w = Ok (a, w') -> exists tr, w_trace w' = w_trace w ++ tr) -> preserves F (hal m).
Proof.
  intros Hm s a s' (H1 & H2 & H3 & tr & H4). unfold hal. destruct (m (ps_w s)) as [[b w]| |] eqn:E; try done.
  intros [= <- <-]. destruct (Hm _ _ _ E) as [tr' Ht]. split_and!; [done..|]. exists (tr ++ tr'). cbn.
  by rewrite Ht, H4, app_assoc.
Qed.

Lemma frame_cb entry e : preserves F (hal (call_cb entry e)).
Proof.
  apply frame_hal. intros w a w'. unfold call_cb. run. destruct (entry _); [|done]. intros [= <- <-]. by eexists.
Qed.
Lemma frame_prop : preserves F (hal get_prop).
Proof.
  apply frame_hal. intros w a w'. unfold get_prop.
  rewrite (bindM_ok _ _ w (default [] (e_props (w_env w) !! MNL_CONFIG_STATUS)) w) by done.
  destruct (default [] _); intros [= <- <-]; exists []; by rewrite app_nil_r.
Qed.
Lemma frame_send fd dest buf : preserves F (hal (mtk_daemon_send fd dest buf)).
Proof.
  apply frame_hal. intros w a w'. unfold mtk_daemon_send. unfold bindM. rewrite daemon_send_run.
  destruct (send_loop _ _) as [[[ret errno] rest] []]; intros [= <- <-]; cbn.
  - by eexists.
  - exists []. by rewrite app_nil_r.
Qed.
Lemma frame_update_location l : preserves F (hal (mtk_gps_update_location l)).
Proof.
  apply frame_hal. intros w a w' E. destruct (update_location_run l w) as (w2 & E2 & Hw).
  rewrite E2 in E. injection E as <- <-. exists []. rewrite app_nil_r. by rewrite Hw.
Qed.
End Frame.

(** Structural proofs that a routine keeps the frame. *)
Ltac framed :=
  cbv zeta;
  repeat lazymatch goal with
    | |- preserves _ (bindM _ _) => apply preserves_bind; [|intros ?]
    | |- preserves _ rget => apply frame_rget
    | |- preserves _ wget => apply frame_wget
    | |- preserves _ (of_option _) => apply frame_opt
    | |- preserves _ (retM _) => apply preserves_ret
    | |- preserves _ undefM => apply preserves_undef
    | |- preserves _ (hal (call_cb _ _)) => apply frame_cb
    | |- preserves _ (hal get_prop) => apply frame_prop
    | |- preserves _ (hal (mtk_daemon_send _ _ _)) => apply frame_send
    | |- preserves _ (hal (mtk_gps_update_location _)) => apply frame_update_location
    | |- preserves _ (rmod _) => apply frame_rmod; intros ?; reflexivity
    | |- preserves _ (wmod _) => apply frame_wmod; intros ?; reflexivity
    | |- preserves _ (if _ then _ else _) => apply preserves_if
    end.

Section FrameParse.
Context (r0 : NmeaReader) (t0 : list event).
#[local] Abbreviation F := (frame r0 t0).

Lemma frame_time t : preserves F (nmea_reader_update_time t).
Proof. unfold nmea_reader_update_time. framed. Qed.
Lemma frame_latlong a b c d : preserves F (nmea_reader_update_latlong a b c d).
Proof. unfold nmea_reader_update_latlong. framed. Qed.
Lemma frame_first t : preserves F (first_char t).
Proof. apply frame_opt. Qed.
Lemma frame_gga z : preserves F (parse_gga z).
Proof.
  unfold parse_gga. cbv zeta. apply preserves_bind; [apply frame_time|intros _].
  do 2 (apply preserves_bind; [apply frame_first|intros ?]).
  apply preserves_bind; [apply frame_latlong|intros _]. unfold nmea_reader_update_altitude. framed.
Qed.
Lemma frame_rmc z : preserves F (parse_rmc z).
Proof.
  unfold parse_rmc. cbv zeta. apply preserves_bind; [apply frame_first|intros ?]. apply preserves_if; [|framed].
  apply preserves_bind; [unfold nmea_reader_update_date; framed; apply frame_time|intros _].
  do 2 (apply preserves_bind; [apply frame_first|intros ?]).
  apply preserves_bind; [apply frame_latlong|intros _].
  unfold nmea_reader_update_bearing, nmea_reader_update_speed. framed.
Qed.
Lemma frame_set_used i v : preserves F (set_used i v).
Proof. unfold set_used. framed. Qed.
Lemma frame_gsa_gnss n i b z : preserves F (gsa_gnss_loop n i b z).
Proof.
  revert i. induction n as [|n IH]; intros i; cbn [gsa_gnss_loop]; framed; apply frame_set_used || apply IH.
Qed.
Lemma frame_gsa_gps n i z : preserves F (gsa_gps_loop n i z).
Proof. revert i. induction n as [|n IH]; intros i; cbn [gsa_gps_loop]; framed; apply IH. Qed.
Lemma frame_gsv u n i b z : (forall a b c d, preserves F (u a b c d)) -> preserves F (gsv_loop u n i b z).
Proof. intros Hu. revert i. induction n as [|n IH]; intros i; cbn [gsv_loop]; framed; apply Hu || apply IH. Qed.
Lemma frame_sv_gps a b c d : preserves F (nmea_reader_update_sv_status_gps a b c d).
Proof. unfold nmea_reader_update_sv_status_gps. framed. Qed.
Lemma frame_sv_gnss a b c d : preserves F (nmea_reader_update_sv_status_gnss a b c d).
Proof. unfold nmea_reader_update_sv_status_gnss. framed. Qed.
Lemma frame_report_loop n i : preserves F (gps_sv_report_loop n i).
Proof. revert i. induction n as [|n IH]; intros i; cbn [gps_sv_report_loop]; framed. apply IH. Qed.

Lemma frame_dispatch z : preserves F (parse_dispatch z).
Proof.
  unfold parse_dispatch, memcmp_eq. framed.
  - apply frame_gga.
  - unfold parse_gsa_gnss. framed. apply frame_gsa_gnss.
  - unfold parse_gsa_gps. framed. apply frame_gsa_gps.
  - apply frame_rmc.
  - unfold parse_gsv_gnss. framed. apply frame_gsv, frame_sv_gnss.
  - unfold parse_gsv_gps. framed. apply frame_gsv, frame_sv_gps.
  - unfold parse_accuracy, nmea_reader_update_accuracy. framed.
Qed.

Lemma frame_parse : preserves F nmea_reader_parse.
Proof.
  unfold nmea_reader_parse, report_location, report_svs, log_position. framed.
  - apply frame_dispatch.
  - apply frame_report_loop.
Qed.
End FrameParse.

(** * Lines *)

Definition no_newline (l : list Z) : Prop := Forall (fun c => c <> 10) l.

Lemma addc_plain c s : c <> 10 -> overflow (ps_r s) = 0 -> 0 <= pos (ps_r s) < 128 -> zlen (in_ (ps_r s)) = 129 ->
  nmea_reader_addc c s = Ok (tt, mkP ((ps_r s) <| in_ := <[Z.to_nat (pos (ps_r s)) := u8 c]> (in_ (ps_r s)) |>
                                        <| pos := pos (ps_r s) + 1 |>) (ps_w s)).
Proof.
  intros Hc Ho Hp Hi. unfold nmea_reader_addc. unfold bindM at 1, rget, bindM at 1, getM, retM at 1. rewrite Ho.
  cbn [truth negb Z.eqb]. unfold NMEA_MAX_SIZE, arr_set.
  rewrite (proj2 (Z.leb_gt (128 + 1 - 1) _)), (proj2 (Z.ltb_ge _ 0)) by lia. cbn [orb].
  rewrite (proj2 (Z.leb_le 0 _)), (proj2 (Z.ltb_lt (pos _) _)) by lia. cbn [andb of_option].
  rewrite (proj2 (Z.eqb_neq c 10)) by done. reflexivity.
Qed.

Lemma addc_skip c s : overflow (ps_r s) = 1 ->
  nmea_reader_addc c s = Ok (tt, mkP ((ps_r s) <| overflow := c_bool (negb (c =? 10)) |>) (ps_w s)).
Proof. intros Ho. unfold nmea_reader_addc. unfold bindM at 1, rget, bindM at 1, getM, retM at 1. by rewrite Ho. Qed.

Lemma addc_full c s : overflow (ps_r s) = 0 -> pos (ps_r s) = 128 ->
  nmea_reader_addc c s = Ok (tt, mkP ((ps_r s) <| overflow := 1 |> <| pos := 0 |>) (ps_w s)).
Proof.
  intros Ho Hp. unfold nmea_reader_addc. unfold bindM at 1, rget, bindM at 1, getM, retM at 1. by rewrite Ho, Hp.
Qed.

Lemma feed_cons b bs s s' : bs <> [] -> nmea_reader_addc b s = Ok (tt, s') -> feed (b :: bs) s = feed bs s'.
Proof.
  intros Hne E. cbn [feed]. destruct bs as [|c bs]; [done|]. unfold bindM at 1, retM.
  by rewrite (bindM_ok _ _ _ _ _ E).
Qed.

Lemma take_insert_snoc (l : list Z) p v : (p < length l)%nat -> take (S p) (<[p := v]> l) = take p l ++ [v].
Proof.
  intros H. rewrite (take_S_r _ _ v) by (by apply list_lookup_insert_eq). f_equal. by apply take_insert_ge.
Qed.

(** Plain characters are stored. *)
Lemma feed_plain l rest s : no_newline l -> rest <> [] -> overflow (ps_r s) = 0 -> 0 <= pos (ps_r s) ->
  pos (ps_r s) + zlen l <= 128 -> zlen (in_ (ps_r s)) = 129 ->
  exists buf, feed (l ++ rest) s = feed rest (mkP ((ps_r s) <| in_ := buf |> <| pos := pos (ps_r s) + zlen l |>) (ps_w s)) /\
    zlen buf = 129 /\
    take (Z.to_nat (pos (ps_r s) + zlen l)) buf = take (Z.to_nat (pos (ps_r s))) (in_ (ps_r s)) ++ map u8 l.
Proof.
  intros Hl Hr. revert s. induction Hl as [|c l Hc Hl IH]; intros s Ho Hp Hle Hi; cbn [app map].
  - exists (in_ (ps_r s)). rewrite zlen_nil, Z.add_0_r, app_nil_r. split; [|done].
    do 2 f_equal. by destruct s as [[] ?].
  - rewrite zlen_cons in *. pose proof (zlen_nonneg l).
    assert (l ++ rest <> []) as Hne by (by destruct l).
    rewrite (feed_cons c (l ++ rest) s _ Hne (addc_plain c s Hc Ho ltac:(lia) Hi)).
    edestruct IH as (buf & E & H1 & H2); cycle -1.
    + exists buf. rewrite E. cbn in H2 |- *. replace (pos (ps_r s) + 1 + zlen l) with (pos (ps_r s) + (1 + zlen l)) in * by lia.
      split; [done|]. split; [done|]. rewrite H2.
      replace (Z.to_nat (pos (ps_r s) + 1)) with (S (Z.to_nat (pos (ps_r s)))) by lia.
      unfold zlen in Hi. rewrite take_insert_snoc by lia. by rewrite <- app_assoc.
    + done.
    + cbn. lia.
    + cbn. lia.
    + cbn. unfold zlen in *. by rewrite length_insert.
Qed.

(** In overflow everything up to the line end is dropped. *)
Lemma feed_skip l s : no_newline l -> overflow (ps_r s) = 1 ->
  exists w, feed (l ++ [10]) s = Ok (tt, mkP ((ps_r s) <| overflow := 0 |>) w) /\ w_trace w = w_trace (ps_w s).
Proof.
  intros Hl. revert s. induction Hl as [|c l Hc Hl IH]; intros s Ho; cbn [app].
  - cbn [feed]. eexists. unfold bindM, wmod, modM. rewrite addc_skip by done. split; [reflexivity|done].
  - assert (l ++ [10] <> []) as Hne by (by destruct l).
    rewrite (feed_cons c (l ++ [10]) s _ Hne (addc_skip c s Ho)).
    rewrite (proj2 (Z.eqb_neq c 10) Hc). cbn [negb c_bool].
    destruct (IH (mkP ((ps_r s) <| overflow := 1 |>) (ps_w s))) as (w & E & Ht); [done|].
    exists w. rewrite E. split; [|done]. done.
Qed.

(** The line end parses and reports the line. *)
Lemma addc_newline n s : 0 <= n < 2 ^ 24 -> safe n s -> overflow (ps_r s) = 0 -> pos (ps_r s) < 128 ->
  exists s' tr ts, nmea_reader_addc 10 s = Ok (tt, s') /\ pos (ps_r s') = 0 /\ overflow (ps_r s') = 0 /\
    w_trace (ps_w s') = w_trace (ps_w s) ++ tr ++ [EvNmea ts (take (Z.to_nat (pos (ps_r s))) (in_ (ps_r s)) ++ [10])].
Proof.
  intros Hn Hs Ho Hp. pose proof Hs as [(Hi & Hp0 & _) Hg].
  destruct (runs_addc n Hn 10 s Hs) as ([] & s' & E & _). exists s'.
  set (r1 := (ps_r s) <| in_ := <[Z.to_nat (pos (ps_r s)) := u8 10]> (in_ (ps_r s)) |> <| pos := pos (ps_r s) + 1 |>).
  assert (exists sp ts, nmea_reader_parse (mkP r1 (ps_w s)) = Ok (tt, sp) /\
    s' = mkP ((ps_r sp) <| pos := 0 |>) ((ps_w sp) <| w_trace := w_trace (ps_w sp) ++ [EvNmea ts (take (Z.to_nat (pos (ps_r sp))) (in_ (ps_r sp)))] |>))
    as (sp & ts & Ep & ->).
  { revert E. unfold nmea_reader_addc. unfold bindM at 1, rget at 1, bindM at 1, getM, retM at 1. rewrite Ho.
    cbn [truth negb Z.eqb]. unfold NMEA_MAX_SIZE, arr_set.
    rewrite (proj2 (Z.leb_gt (128 + 1 - 1) _)), (proj2 (Z.ltb_ge _ 0)) by lia. cbn [orb].
    rewrite (proj2 (Z.leb_le 0 _)), (proj2 (Z.ltb_lt (pos _) _)) by lia. cbn [andb of_option Z.eqb Pos.eqb].
    intros H. apply bindM_inv in H as (buf & s0 & [= <- <-] & H). apply bindM_inv in H as ([] & s1 & [= <-] & H).
    apply bindM_inv in H as ([] & sp & Ep & H). apply bindM_inv in H as (r2 & s2 & [= <- <-] & H).
    apply bindM_inv in H as ([] & s3 & H1 & [= <-]).
    exists sp, (timestamp (fix_ (ps_r sp))). split; [exact Ep|]. revert H1. unfold hal, call_cb. run.
    destruct (cb_nmea _); [|done]. intros [= <-]. reflexivity. }
  assert (frame r1 (w_trace (ps_w s)) (mkP r1 (ps_w s))) as Hf
    by (split_and!; [done..|]; exists []; by rewrite app_nil_r).
  destruct (frame_parse r1 (w_trace (ps_w s)) _ _ _ Hf Ep) as (H1 & H2 & H3 & tr & H4).
  exists tr, ts. split; [done|]. split; [done|]. split; [exact (eq_trans H2 Ho)|].
  cbn. rewrite H4, H1, H3, <- app_assoc. do 4 f_equal. unfold r1. cbn.
  replace (Z.to_nat (pos (ps_r s) + 1)) with (S (Z.to_nat (pos (ps_r s)))) by lia.
  unfold zlen in Hi. by rewrite take_insert_snoc by lia.
Qed.

(** One line from an idle reader. *)
Lemma line_stored n l s : 0 <= n < 2 ^ 24 -> safe n s -> pos (ps_r s) = 0 -> overflow (ps_r s) = 0 ->
  no_newline l -> zlen l <= 127 ->
  exists s' tr ts, feed (l ++ [10]) s = Ok (tt, s') /\ pos (ps_r s') = 0 /\ overflow (ps_r s') = 0 /\
    w_trace (ps_w s') = w_trace (ps_w s) ++ tr ++ [EvNmea ts (map u8 l ++ [10])].
Proof.
  intros Hn Hs Hp Ho Hl Hlen. pose proof Hs as [Hr Hg]. pose proof Hr as (Hi & _). pose proof (zlen_nonneg l).
  destruct (feed_plain l [10] s) as (buf & E & Hb & Ht); [done|done|done|lia|lia|done|].
  rewrite Hp in E, Ht. change (take (Z.to_nat 0) (in_ (ps_r s))) with (@nil Z) in Ht. cbn [app] in Ht.
  set (s1 := mkP _ _) in E.
  assert (safe n (s1 <| ps_w := (ps_w s) <| w_end_tag := 1 |> |>)) as Hs1.
  { split; [|exact Hg]. unfold reader_ok in *. cbn. lia. }
  destruct (addc_newline n _ Hn Hs1) as (s' & tr & ts & E' & H1 & H2 & H3); [exact Ho|cbn; lia|].
  exists s', tr, ts. rewrite E. cbn [feed]. unfold bindM at 1, wmod, modM. rewrite (bindM_ok _ _ _ _ _ E').
  split; [done|]. split; [done|]. split; [done|]. rewrite H3. unfold s1. cbn. by rewrite Ht.
Qed.

Lemma line_dropped l s : pos (ps_r s) = 0 -> overflow (ps_r s) = 0 -> zlen (in_ (ps_r s)) = 129 ->
  no_newline l -> 128 <= zlen l ->
  exists s', feed (l ++ [10]) s = Ok (tt, s') /\ pos (ps_r s') = 0 /\
    overflow (ps_r s') = (if zlen l =? 128 then 1 else 0) /\ w_trace (ps_w s') = w_trace (ps_w s).
Proof.
  intros Hp Ho Hi Hl Hlen. rewrite <- (take_drop 128 l) in Hl |- *. apply Forall_app in Hl as [Hl1 Hl2].
  assert (zlen (take 128 l) = 128) as H128 by (unfold zlen in *; rewrite length_take; lia).
  rewrite <- app_assoc.
  destruct (feed_plain (take 128 l) (drop 128 l ++ [10]) s) as (buf & E & _ & _); [done|by destruct (drop 128 l)|done|lia|lia|done|].
  rewrite E, Hp, H128, zlen_app, H128. set (s1 := mkP _ _). clear E.
  destruct (drop 128 l) as [|c k].
  - cbn [app feed]. unfold bindM, wmod, modM. rewrite addc_full by done. eexists. split; [reflexivity|]. done.
  - rewrite zlen_cons. pose proof (zlen_nonneg k). rewrite (proj2 (Z.eqb_neq _ _)) by lia. cbn [app].
    assert (k ++ [10] <> []) as Hne by (by destruct k).
    rewrite (feed_cons c (k ++ [10]) s1 _ Hne (addc_full c s1 Ho eq_refl)).
    inversion Hl2; subst.
    destruct (feed_skip k (mkP ((ps_r s1) <| overflow := 1 |> <| pos := 0 |>) (ps_w s1))) as (w & -> & Ht); [done|done|].
    eexists. split; [reflexivity|]. done.
Qed.

(** * Properties *)

(** C24: how the byte stream is cut into sentences. A line of at most 127 bytes
    that starts on an idle reader is parsed and then reported, byte for byte, as
    the last event; a longer one is dropped without any effect, and the reader is
    idle again after its newline. The exception is a line of exactly 128 bytes:
    its newline is consumed by the overflow check itself, so the line that
    follows is dropped too. *)
Theorem nmea_line_framing (n : Z) (l : list Z) (s : PState)
  (Hn : 0 <= n < 2 ^ 24) (Hs : safe n s) (Hp : pos (ps_r s) = 0)
  (Ho : overflow (ps_r s) = 0 \/ overflow (ps_r s) = 1) (Hl : no_newline l) :
  exists s', feed (l ++ [10]) s = Ok (tt, s') /\ pos (ps_r s') = 0 /\
    overflow (ps_r s') = (if (overflow (ps_r s) =? 0) && (zlen l =? 128) then 1 else 0) /\
    if (overflow (ps_r s) =? 0) && (zlen l <=? 127)
    then exists tr ts, w_trace (ps_w s') = w_trace (ps_w s) ++ tr ++ [EvNmea ts (map u8 l ++ [10])]
    else w_trace (ps_w s') = w_trace (ps_w s).
Proof.
  destruct Ho as [Ho|Ho]; rewrite Ho; cbn [Z.eqb andb].
  - destruct (Z.leb_spec (zlen l) 127).
    + destruct (line_stored n l s) as (s' & tr & ts & H1 & H2 & H3 & H4); [done..|].
      exists s'. rewrite (proj2 (Z.eqb_neq _ _)) by lia. eauto 8.
    + destruct (line_dropped l s) as (s' & H1 & H2 & H3 & H4); [done|done|apply Hs|done|lia|].
      exists s'. eauto.
  - destruct (feed_skip l s Hl Ho) as (w & -> & Hw). eexists. split; [reflexivity|]. done.
Qed.

Lemma nmea_line_framing_witness :
  exists s', feed (replicate 128 65 ++ [10]) (mkP (nmea_reader_init 0 0) (world0 7 all_cbs quiet_env)) = Ok (tt, s') /\
    pos (ps_r s') = 0 /\ overflow (ps_r s') = 1 /\ w_trace (ps_w s') = [].
Proof.
  apply (nmea_line_framing 0 (replicate 128 65) (mkP (nmea_reader_init 0 0) (world0 7 all_cbs quiet_env))).
  - lia.
  - split; [apply reader_init_ok|]. split; [reflexivity|]. split; [repeat split|vm_compute; exact I].
  - reflexivity.
  - left. reflexivity.
  - apply Forall_replicate. discriminate.
Defined.

(** * Time stamps *)

Definition digit_val (a : Z) : Z := a - 48.
Definition two (a b : Z) : Z := digit_val a * 10 + digit_val b.

Lemma str2int_two pre a b post : is_digit a = true -> is_digit b = true ->
  str2int (pre ++ a :: b :: post) (zlen pre) (zlen pre + 2) = Some (two a b).
Proof.
  intros Ha Hb. assert (is_digits [a; b]) as Hd by (repeat constructor; done).
  unfold str2int. rewrite ldb_mid. cbn [mbind option_bind].
  destruct (Z.eqb_spec a (chr "-")) as [->|_]; [done|].
  replace (pre ++ a :: b :: post) with (pre ++ [a; b] ++ post) by done.
  replace (zlen pre + 2) with (zlen pre + zlen [a; b]) by done.
  rewrite str2int_loop_digits by done. cbn [mbind option_bind fold_left]. unfold digit_step, two, digit_val.
  unfold is_digit in *. apply andb_true_iff in Ha as [Ha1%Z.leb_le Ha2%Z.leb_le].
  apply andb_true_iff in Hb as [Hb1%Z.leb_le Hb2%Z.leb_le].
  rewrite Z.mul_1_l, (i32_id (0 * 10 + (a - 48))) by (unfold is_i32; lia).
  rewrite i32_id by apply i32_range. by rewrite i32_id by (unfold is_i32; lia).
Qed.

(** The same after [k] bytes of the token. *)
Lemma str2int_two_at pre m a b post k : k = zlen m -> is_digit a = true -> is_digit b = true ->
  str2int (pre ++ m ++ a :: b :: post) (zlen pre + k) (zlen pre + k + 2) = Some (two a b).
Proof.
  intros -> Ha Hb. rewrite app_assoc, <- zlen_app. by apply str2int_two.
Qed.

Lemma str2float_text pre m sec post : zlen sec < 16 -> Forall (fun b => b <> 0) sec ->
  str2float (pre ++ (m ++ sec) ++ post) (zlen pre + zlen m) (zlen pre + zlen (m ++ sec)) = Some (strtod sec).
Proof.
  intros Hl Hz. unfold str2float. rewrite zlen_app.
  replace (zlen pre + (zlen m + zlen sec) - (zlen pre + zlen m)) with (zlen sec) by lia.
  rewrite (proj2 (Z.leb_gt 16 _)) by lia.
  replace (pre ++ (m ++ sec) ++ post) with ((pre ++ m) ++ sec ++ post) by (by rewrite <- !app_assoc).
  rewrite <- zlen_app, mem_read_at. cbn [mbind option_bind]. do 2 f_equal.
  clear Hl. induction Hz as [|b sec Hb Hz IH]; cbn; [done|]. by rewrite (proj2 (Z.eqb_neq _ _) Hb), IH.
Qed.

(** A broken-down time that [mktime] can represent, in UTC and in local time. *)
Definition time_fits (gmtoff : Z) (t : tm) : Prop := is_i32 (timegm t) /\ is_i32 (timegm t - gmtoff).

Lemma mktime_local gmtoff t : time_fits gmtoff t -> i32 (mktime gmtoff t + gmtoff) = timegm t.
Proof.
  intros [H1 H2]. unfold mktime. unfold is_i32 in H2.
  rewrite (proj2 (Z.leb_le _ _)), (proj2 (Z.ltb_lt _ _)) by lia. cbn [andb].
  replace (timegm t - gmtoff + gmtoff) with (timegm t) by lia. by apply i32_id.
Qed.

Lemma update_time_run pre h1 h2 m1 m2 sec post s :
  is_digit h1 = true -> is_digit h2 = true -> is_digit m1 = true -> is_digit m2 = true ->
  2 <= zlen sec < 16 -> Forall (fun b => b <> 0) sec -> 0 <= utc_year (ps_r s) ->
  let t := mkTm (utc_year (ps_r s) - 1900) (utc_mon (ps_r s) - 1) (utc_day (ps_r s)) (two h1 h2) (two m1 m2) (d_to_int (strtod sec)) in
  time_fits (e_gmtoff (w_env (ps_w s))) t ->
  nmea_reader_update_time (tok_of pre ([h1; h2; m1; m2] ++ sec) post) s =
    Ok (0, s <| ps_r := (ps_r s) <| fix_ := (fix_ (ps_r s)) <| timestamp := timegm t * 1000 |> |> |>).
Proof.
  intros Hh1 Hh2 Hm1 Hm2 Hs Hz Hy t Hfit. unfold nmea_reader_update_time, tok_of. cbn [tk_mem tk_p tk_end].
  rewrite (proj2 (Z.ltb_ge _ _)) by (autorewrite with clen; lia).
  cbn [bindM wget rget getM retM]. unfold bindM at 1, wget, bindM at 1, getM, retM at 1.
  unfold bindM at 1, rget at 1, bindM at 1, getM, retM at 1. rewrite (proj2 (Z.ltb_ge _ _) Hy).
  unfold bindM at 1, retM at 1.
  pose proof (str2int_two pre h1 h2 (m1 :: m2 :: sec ++ post) Hh1 Hh2) as E1.
  pose proof (str2int_two_at pre [h1; h2] m1 m2 (sec ++ post) 2 eq_refl Hm1 Hm2) as E2.
  pose proof (str2float_text pre [h1; h2; m1; m2] sec post ltac:(lia) Hz) as E3.
  replace (zlen pre + 2 + 2) with (zlen pre + 4) in E2 by lia.
  change (zlen [h1; h2; m1; m2]) with 4 in E3. cbn [app] in E1, E2, E3 |- *. rewrite E1, E2, E3.
  cbn [of_option]. unfold bindM, retM, rget, getM. cbn beta iota. unfold bindM, retM, getM.
  unfold t in *. rewrite mktime_local by done. reflexivity.
Qed.



(** * Satellites used in the fix *)

(** The satellite identifiers of a GSA sentence: up to the first empty field. *)
Fixpoint gsa_ids (n : nat) (idx : Z) (tzer : NmeaTokenizer) : list Z :=
  match n with
  | O => []
  | S n' =>
      let t := nmea_tokenizer_get tzer (idx + 3) in
      if tk_p t =? tk_end t then [] else default (-1) (tok2int t) :: gsa_ids n' (idx + 1) tzer
  end.

Definition is_gps_id (id : Z) : bool := between 1 id 32.
Definition is_qzss_id (id : Z) : bool := between 193 id 197.

Fixpoint gsa_mask (m : Z) (ids : list Z) : Z :=
  match ids with
  | [] => m
  | id :: ids' =>
      if is_gps_id id then gsa_mask (Z.lor m (Z.shiftl 1 (id - 1))) ids'
      else if is_qzss_id id then gsa_mask m ids'
      else 0
  end.

Lemma gsa_gps_loop_run n idx tzer s : Forall tok_ok tzer ->
  gsa_gps_loop n idx tzer s =
    Ok (tt, s <| ps_r := (ps_r s) <| gps_used_in_fix_mask := gsa_mask (gps_used_in_fix_mask (ps_r s)) (gsa_ids n idx tzer) |> |>).
Proof.
  intros Ht. revert idx s. induction n as [|n IH]; intros idx s; cbn [gsa_gps_loop gsa_ids].
  { by destruct s as [[] ?]. }
  cbv zeta. destruct (_ =? _); [by destruct s as [[] ?]|].
  destruct (get_int tzer Ht (idx + 3)) as [id ->]. cbn [of_option]. unfold bindM at 1, retM at 1.
  cbn [default from_option gsa_mask]. unfold is_gps_id, is_qzss_id, Datatypes.id.
  destruct (between 1 id 32) eqn:E.
  - apply between_true in E. assert (u32 (Z.shiftl 1 (id - 1)) = Z.shiftl 1 (id - 1)) as ->.
    { apply u32_id. unfold is_u32. rewrite Z.shiftl_1_l. split; [apply Z.pow_nonneg; lia|].
      apply Z.pow_lt_mono_r; lia. }
    unfold bindM, rmod, modM. by rewrite IH.
  - destruct (between 193 id 197); [by rewrite IH|done].
Qed.

Lemma gsa_mask_bits m ids i : 0 <= i ->
  Forall (fun id => is_gps_id id || is_qzss_id id = true) ids -> i < 32 ->
  Z.testbit (gsa_mask m ids) i = Z.testbit m i || bool_decide (i + 1 ∈ ids).
Proof.
  intros Hi H Hi32. revert m. induction H as [|id ids Hid Hids IH]; intros m; cbn [gsa_mask].
  - rewrite bool_decide_eq_false_2 by apply not_elem_of_nil. by rewrite orb_false_r.
  - destruct (is_gps_id id) eqn:E.
    + apply between_true in E. rewrite IH, Z.lor_spec, Z.shiftl_1_l.
      destruct (decide (i + 1 = id)) as [<-|Hne].
      * replace (i + 1 - 1) with i by lia. rewrite Z.pow2_bits_true by lia.
        rewrite (bool_decide_eq_true_2 (i + 1 ∈ i + 1 :: ids)) by left. by rewrite orb_true_r.
      * rewrite Z.pow2_bits_false by lia. rewrite orb_false_r. f_equal. apply bool_decide_ext.
        rewrite elem_of_cons. split; [by right|by intros [?|?]].
    + cbn in Hid. rewrite Hid, IH. f_equal. apply bool_decide_ext. rewrite elem_of_cons.
      unfold is_qzss_id in Hid. apply between_true in Hid. split; [by right|intros [?|?]; [lia|done]].
Qed.

Lemma gsa_mask_invalid m ids :
  ~ Forall (fun id => is_gps_id id || is_qzss_id id = true) ids -> gsa_mask m ids = 0.
Proof.
  revert m. induction ids as [|id ids IH]; intros m H; cbn [gsa_mask]; [by destruct H|].
  destruct (is_gps_id id) eqn:E1.
  { apply IH. contradict H. apply Forall_cons_2; [by rewrite E1|done]. }
  destruct (is_qzss_id id) eqn:E2; [|done]. apply IH. contradict H. apply Forall_cons_2; [by rewrite E1, E2|done].
Qed.

(** a GPGSA sentence in GPS mode sets the fix mode and the mask of satellites
    used in the fix: with a 2D or 3D fix and only GPS and QZSS identifiers before
    the first empty field, bit [i] of the mask is set exactly when satellite
    [i + 1] is listed; with any other identifier, or without a fix, the mask is
    empty. *)
Theorem gsa_used_in_fix (tzer : NmeaTokenizer) (s : PState) (mode : Z) (Htz : Forall tok_ok tzer)
  (Hm : tok2int (nmea_tokenizer_get tzer 2) = Some mode) :
  exists s', parse_gsa_gps tzer s = Ok (tt, s') /\ fix_mode (ps_r s') = mode /\
    let ids := gsa_ids 12 0 tzer in
    let mask := gps_used_in_fix_mask (ps_r s') in
    if ((mode =? 2) || (mode =? 3)) && forallb (fun id => is_gps_id id || is_qzss_id id) ids
    then forall i, 0 <= i < 32 -> Z.testbit mask i = bool_decide (i + 1 ∈ ids)
    else mask = 0.
Proof.
  unfold parse_gsa_gps. cbv zeta. rewrite Hm. cbn [of_option]. unfold bindM at 1, retM at 1.
  unfold bindM at 1, rmod, modM. unfold bindM at 1, rget, bindM at 1, getM, retM at 1. unfold LOC_FIXED. cbn -[gsa_gps_loop gsa_ids].
  destruct ((mode =? 2) || (mode =? 3)) eqn:E; cbn [andb].
  - rewrite gsa_gps_loop_run by done. eexists. split; [reflexivity|]. split; [done|]. cbn -[gsa_ids].
    destruct (forallb _ _) eqn:Ef.
    + intros i Hi. rewrite gsa_mask_bits; [by rewrite Z.bits_0|lia| |lia].
      by apply forallb_Forall.
    + apply gsa_mask_invalid. rewrite <- forallb_Forall. by rewrite Ef.
  - eexists. split; [reflexivity|]. done.
Qed.

Definition gsa_line : list Z := str "$GPGSA,A,3,04,193,32,,12*39" ++ [13; 10].
Definition gsa_toks : NmeaTokenizer := default [] (nmea_tokenizer_init (gsa_line ++ zeros 100) 0 (zlen gsa_line)).

Lemma gsa_used_in_fix_witness :
  exists s', parse_gsa_gps gsa_toks (mkP (nmea_reader_init 0 0) (world0 7 all_cbs quiet_env)) = Ok (tt, s') /\
    fix_mode (ps_r s') = 3 /\
    forall i, 0 <= i < 32 -> Z.testbit (gps_used_in_fix_mask (ps_r s')) i = bool_decide (i + 1 ∈ [4; 193; 32]).
Proof.
  apply (gsa_used_in_fix gsa_toks (mkP (nmea_reader_init 0 0) (world0 7 all_cbs quiet_env)) 3).
  - apply toks_okb. vm_compute. reflexivity.
  - vm_compute. reflexivity.
Defined.

(** * Satellites in view *)

(** [k] satellites are complete and the current group fits behind them. *)
Definition in_group (k : Z) (s : PState) : Prop :=
  gnss_num_svs (ps_r s) = k /\ 0 <= k /\ 0 <= sv_count (ps_r s) /\ k + sv_count (ps_r s) <= 64.

Lemma in_group_update k id e a n : preserves (in_group k) (nmea_reader_update_sv_status_gnss id e a n).
Proof.
  intros s v s' (H1 & H2 & H3 & H4). unfold nmea_reader_update_sv_status_gnss. cbv zeta.
  unfold bindM at 1, rget, bindM at 1, getM, retM at 1. destruct (_ || _); [intros [= <- <-]; done|].
  rewrite i32_id by (unfold is_i32; lia). destruct (Z.leb_spec GNSS_MAX_SVS (sv_count (ps_r s) + gnss_num_svs (ps_r s))) as [L|L];
    [intros [= <- <-]; done|]. unfold GNSS_MAX_SVS in L.
  intros H. apply bindM_inv in H as (x1 & s1 & E1 & H). destruct (tok2float n); [injection E1 as <- <-|discriminate].
  apply bindM_inv in H as (x2 & s2 & E2 & H). destruct (tok2int e); [injection E2 as <- <-|discriminate].
  apply bindM_inv in H as (x3 & s3 & E3 & H). destruct (tok2int a); [injection E3 as <- <-|discriminate].
  apply bindM_inv in H as (x4 & s4 & [= <- <-] & H).
  apply bindM_inv in H as (x5 & s5 & E5 & H). destruct (arr_get _ _); [injection E5 as <- <-|discriminate].
  apply bindM_inv in H as (x6 & s6 & E6 & H). destruct (arr_set _ _ _); [injection E6 as <- <-|discriminate].
  injection H as <- <-. unfold in_group. cbn. lia.
Qed.

Lemma in_group_loop k n idx bds tzer : preserves (in_group k) (gsv_loop nmea_reader_update_sv_status_gnss n idx bds tzer).
Proof.
  revert idx. induction n as [|n IH]; intros idx; cbn [gsv_loop]; [apply preserves_ret|].
  apply preserves_bind; [destruct (tok2int _); [apply preserves_ret|apply preserves_undef]|intros id].
  apply preserves_bind; [apply in_group_update|intros _; apply IH].
Qed.

(** in GNSS mode the number of satellites reported never exceeds the 64
    entries of the list as long as the GSV messages arrive in groups that start
    with message 1: such a message, or one that continues a group that fits,
    leaves either a completed list of at most 64 satellites or a group that still
    fits. *)
Theorem gsv_groups_fit (n : Z) (bds : bool) (tzer : NmeaTokenizer) (s : PState) (num seq : Z)
  (Hn : 0 <= n < 2 ^ 24) (Htz : Forall tok_ok tzer) (Hs : safe n s)
  (Hnum : tok2int (nmea_tokenizer_get tzer 1) = Some num)
  (Hseq : tok2int (nmea_tokenizer_get tzer 2) = Some seq)
  (Hfit : (seq = 1 /\ gnss_num_svs (ps_r s) <= 64) \/ gnss_num_svs (ps_r s) + sv_count (ps_r s) <= 64) :
  exists s', parse_gsv_gnss bds tzer s = Ok (tt, s') /\
    if seq =? num then gnss_num_svs (ps_r s') <= 64
    else gnss_num_svs (ps_r s') + sv_count (ps_r s') <= 64.
Proof.
  destruct (runs_parse_gsv_gnss n Hn bds tzer s Htz Hs) as ([] & s' & E & _). exists s'. split; [done|].
  destruct Hs as [(_ & _ & _ & _ & Hc & _ & Hg) _]. set (k := gnss_num_svs (ps_r s)) in *.
  revert E. unfold parse_gsv_gnss. rewrite Hnum, Hseq. cbn [of_option]. unfold bindM at 1, retM at 1. unfold bindM at 1, retM at 1.
  destruct (tok2int (nmea_tokenizer_get tzer 3)) as [cnt|]; [|done]. unfold bindM at 1, of_option, retM at 1.
  intros H. apply bindM_inv in H as ([] & s1 & E1 & H). apply bindM_inv in H as ([] & s2 & E2 & H).
  assert (in_group k s1) as G1.
  { revert E1. destruct (Z.eqb_spec seq 1); intros [= <-]; unfold in_group; cbn; fold k; lia. }
  destruct (in_group_loop k _ _ _ _ _ _ _ G1 E2) as (G2 & G3 & G4 & G5).
  revert H. destruct (seq =? num).
  - unfold bindM, rget, bindM, getM, retM. destruct (_ <=? cnt); intros [= <-]; cbn; [|lia].
    rewrite i32_id; [lia|unfold is_i32; lia].
  - intros [= <-]. lia.
Qed.

Definition gsv_line : list Z := str "$GPGSV,1,1,02,01,40,083,46,02,17,308,41*75" ++ [13; 10].
Definition gsv_toks : NmeaTokenizer := default [] (nmea_tokenizer_init (gsv_line ++ zeros 100) 0 (zlen gsv_line)).

Lemma gsv_groups_fit_witness :
  exists s', parse_gsv_gnss false gsv_toks (mkP (nmea_reader_init 0 0) (world0 7 all_cbs quiet_env)) = Ok (tt, s') /\
    gnss_num_svs (ps_r s') <= 64.
Proof.
  apply (gsv_groups_fit 0 false gsv_toks (mkP (nmea_reader_init 0 0) (world0 7 all_cbs quiet_env)) 1 1).
  - lia.
  - apply toks_okb. vm_compute. reflexivity.
  - split; [apply reader_init_ok|]. split; [reflexivity|]. split; [repeat split|vm_compute; exact I].
  - vm_compute. reflexivity.
  - vm_compute. reflexivity.
  - left. split; [reflexivity|vm_compute; congruence].
Defined.

(** The last message of a group, without the ones before it. *)
Definition orphan : list Z := str "$GPGSV,2,2,99,01,40,083,46,02,17,308,41,12,07,344,39,14,22,228,45*75" ++ [13; 10].

(** without that discipline the bound fails: six copies of the last message of
    a group, received without its first message, make the HAL report 80
    satellites in a list of 64. *)
Theorem gsv_orphans_overflow :
  exists s' svs ts, read_chunk (concat (replicate 6 orphan))
      (mkP (nmea_reader_init 0 0) ((world0 7 all_cbs quiet_env) <| w_gps_mode := 0 |>)) = Ok (tt, s') /\
    length svs = 64%nat /\
    list.last (w_trace (ps_w s')) = Some (EvNmea ts orphan) /\
    EvGnssSvStatus 80 svs ∈ w_trace (ps_w s').
Proof.
  eexists _, _, _. split; [vm_compute; reflexivity|]. split; cycle 1; [split|].
  - cbn [ps_w w_trace list.last]. vm_compute. reflexivity.
  - cbn [ps_w w_trace]. do 5 right. left.
  - reflexivity.
Qed.

(** a satellite report in GPS mode is made exactly once: although the callback
    stands in a loop over the satellites, the loop body resets the count, so
    one chunk that ends with satellites to report gives one call, with the whole
    list and the mask, and the count and the mask start again from 0. *)
Theorem gps_sv_report_exactly_once (n : Z) (s : PState) (Hs : safe n s)
  (Hmode : w_gps_mode (ps_w s) = 1) :
  exists s', report_svs s = Ok (tt, s') /\
    w_trace (ps_w s') = w_trace (ps_w s) ++
      (if (gps_num_svs (ps_r s) =? 0) || negb (truth (w_end_tag (ps_w s))) then []
       else [EvSvStatus (gps_num_svs (ps_r s)) (gps_sv_list (ps_r s)) (gps_used_in_fix_mask (ps_r s))]) /\
    (truth (w_end_tag (ps_w s)) = true -> gps_num_svs (ps_r s') = 0).
Proof.
  unfold report_svs. unfold bindM at 1, rget, bindM at 1, getM, retM at 1.
  unfold bindM at 1, wget, bindM at 1, getM, retM at 1. rewrite Hmode. cbn [Z.eqb].
  destruct (Z.eqb_spec (gps_num_svs (ps_r s)) 0) as [E|E]; cbn [negb andb orb].
  { eexists. split; [reflexivity|]. by rewrite app_nil_r. }
  destruct (truth _); cbn [negb].
  - rewrite (gps_sv_report_once n) by (done || (pose proof Hs as [(?&?&?&?&?&?&?) _]; lia)).
    eexists. split; [reflexivity|]. done.
  - eexists. split; [reflexivity|]. by rewrite app_nil_r.
Qed.

Lemma gps_sv_report_exactly_once_witness :
  exists s', report_svs (mkP ((nmea_reader_init 0 0) <| gps_num_svs := 5 |>)
      ((world0 7 all_cbs quiet_env) <| w_gps_mode := 1 |> <| w_end_tag := 1 |>)) = Ok (tt, s') /\
    w_trace (ps_w s') = [EvSvStatus 5 (replicate 32 sv0) 0] /\
    (truth 1 = true -> gps_num_svs (ps_r s') = 0).
Proof.
  set (s := mkP _ _). assert (safe 1 s) as Hs.
  { split; [unfold reader_ok; cbn; repeat split; done || lia|].
    split; [reflexivity|]. split; [repeat split|vm_compute; exact I]. }
  exact (gps_sv_report_exactly_once 1 s Hs eq_refl).
Defined.
