(* ===== verification/EpoConf.v ===== *)
(** The configuration of the EPO (extended prediction orbit) download of the GPS
    HAL (src/hal/gps/hal/gps_mtk_aosp.c): the key-value reader, the settings, the
    names of the pieces, and the GNSS mode property file. *)

From stdpp Require Import base list gmap strings numbers.
From Stdlib Require Import ZArith Lia SpecFloat.
From S2P Require Import Prelude CFloat GpsTypes Daemon NmeaTok.

Local Open Scope Z_scope.
Local Open Scope st_scope.
Local Open Scope rec_scope.

(** gps_mtk_aosp.c:77-78 [EPO_FILE, EPO_FILE_HAL]. *)
Definition EPO_FILE : string := "/data/misc/gps/EPO.DAT".
Definition EPO_FILE_HAL : string := "/data/misc/gps/EPOHAL.DAT".

(** gps_mtk_aosp.c:86-87 [GPS_CONF_FILE_SIZE, EPO_CONTROL_FILE_PATH]. *)
Definition GPS_CONF_FILE_SIZE : Z := 100.
Definition EPO_CONTROL_FILE_PATH : string := "/data/misc/gps.conf".

(** gps_mtk_aosp.c:88-88 [IS_SPACE]. *)
Definition IS_SPACE (ch : Z) : bool := (ch =? 32) || (ch =? 9) || (ch =? 10).

(** The text of an array up to its first NUL, if it has one. *)
Definition strlen (buf : list Z) : Z := zlen (cstr buf).

(** One line of [fgets]: up to and with the newline, at most [n] bytes. *)
Fixpoint take_line (n : nat) (l : list Z) : list Z * list Z :=
  match n, l with
  | S n', c :: l' =>
      if c =? 10 then ([c], l')
      else let '(a, b) := take_line n' l' in (c :: a, b)
  | _, _ => ([], l)
  end.

(** [fgets (buf, sizeof (buf), fp)]: [None] at the end of the file. *)
Definition fgets (buf content : list Z) : option (list Z * list Z) :=
  match content with
  | [] => None
  | _ =>
      let '(line, rest) := take_line (length buf - 1) content in
      Some (line ++ 0 :: drop (length line + 1) buf, rest)
  end.

(** gps_mtk_aosp.c:2578-2578 [get_val, search] the loop that looks for the equals
    sign below the end. *)
Fixpoint find_eq (n : nat) (buf : list Z) (p : Z) : Z :=
  match n with
  | O => p
  | S n' => if at_ buf p =? chr "=" then p else find_eq n' buf (p + 1)
  end.

(** gps_mtk_aosp.c:2585-2587 [get_val, spaces] the two loops that skip the spaces
    ([want = true]) and the text. *)
Fixpoint skip_while (n : nat) (want : bool) (buf : list Z) (p : Z) : Z :=
  match n with
  | O => p
  | S n' => if Bool.eqb (IS_SPACE (at_ buf p)) want then skip_while n' want buf (p + 1) else p
  end.

(** gps_mtk_aosp.c:2552-2595 [get_val] on the array [pStr]; the result is the
    return value, the array after the writes and the offsets of key and value
    ([None] for the null pointers of a comment). Every offset is at most [len],
    which is below the size of the array. *)
Definition get_val (pStr : list Z) : Z * list Z * option (Z * Z) :=
  let len := strlen pStr in
  if len =? 0 then (-1, pStr, None)
  else if at_ pStr 0 =? chr "#" then (0, pStr, None)
  else if negb (at_ pStr (len - 1) =? 10) && (GPS_CONF_FILE_SIZE - 1 <=? len) then (-1, pStr, None)
  else
    let pStr := if at_ pStr (len - 1) =? 10 then pStr else <[Z.to_nat len := 10]> pStr in
    let p := find_eq (Z.to_nat len) pStr 0 in
    if len <=? p then (-1, pStr, None)
    else
      let pStr := <[Z.to_nat p := 0]> pStr in
      let p := p + 1 in
      let p := skip_while (Z.to_nat (len - p)) true pStr p in
      let val := p in
      let p := skip_while (Z.to_nat (len - p)) false pStr p in
      let pStr := <[Z.to_nat p := 0]> pStr in
      (0, pStr, Some (0, val)).

(** gps_mtk_aosp.c:2617-2626 [gps_download_epo_enable, EPO_ENABLE]. *)
Definition set_epo_enable (v : Z) (e : EpoState) : EpoState :=
  e <| gps_epo_enable := if negb (v =? 1) && negb (v =? 0) then 1 else v |>.

(** gps_mtk_aosp.c:2627-2633 [gps_download_epo_enable, DW_DAYS]. *)
Definition set_dw_days (v : Z) (e : EpoState) : EpoState :=
  e <| gps_epo_download_days := if (30 <? v) || (v <? 0) then 30 else v |>.

(** gps_mtk_aosp.c:2634-2640 [gps_download_epo_enable, GPS_EPO_PERIOD]. *)
Definition set_gps_epo_period (v : Z) (e : EpoState) : EpoState :=
  e <| gps_epo_period := if negb (v =? 30) && negb (v =? 3) && negb (v =? 15) then 3 else v |>.

(** gps_mtk_aosp.c:2641-2647 [gps_download_epo_enable, WIFI_EPO_PERIOD]. *)
Definition set_wifi_epo_period (v : Z) (e : EpoState) : EpoState :=
  e <| wifi_epo_period := if negb (v =? 30) && negb (v =? 3) && negb (v =? 15) then 1 else v |>.

(** gps_mtk_aosp.c:2648-2656 [gps_download_epo_enable, EPO_WIFI_TRIGGER]. *)
Definition set_epo_wifi_trigger (v : Z) (e : EpoState) : EpoState :=
  e <| gps_epo_wifi_trigger := if negb (v =? 1) && negb (v =? 0) then 1 else v |>.

(** gps_mtk_aosp.c:2617-2656 [gps_download_epo_enable, settings] the value is read
    without its last character. *)
Definition epo_setting (buf : list Z) (key val : Z) (e : EpoState) : option EpoState :=
  let k := cstr (drop (Z.to_nat key) buf) in
  let len := strlen (drop (Z.to_nat val) buf) - 1 in
  v ← str2int buf val (val + len);
  Some (if bytes_eqb k (str "EPO_ENABLE") then set_epo_enable v e
        else if bytes_eqb k (str "DW_DAYS") then set_dw_days v e
        else if bytes_eqb k (str "GPS_EPO_PERIOD") then set_gps_epo_period v e
        else if bytes_eqb k (str "WIFI_EPO_PERIOD") then set_wifi_epo_period v e
        else if bytes_eqb k (str "EPO_WIFI_TRIGGER") then set_epo_wifi_trigger v e
        else e).

(** gps_mtk_aosp.c:2609-2662 [gps_download_epo_enable, loop] each round consumes at
    least a byte of the file; the result is the returned value. *)
Fixpoint epo_conf_loop (fuel : nat) (buf content : list Z) (e : EpoState) : option (Z * EpoState) :=
  match fgets buf content with
  | None => Some (gps_epo_enable e, e)
  | Some (buf, rest) =>
      match fuel with
      | O => None
      | S fuel' =>
          let '(ret, buf, kv) := get_val buf in
          if negb (ret =? 0) then Some (1, e)
          else
            match kv with
            | None => epo_conf_loop fuel' buf rest e
            | Some (key, val) => e ← epo_setting buf key val e; epo_conf_loop fuel' buf rest e
            end
      end
  end.

(** gps_mtk_aosp.c:2597-2663 [gps_download_epo_enable]. *)
Definition gps_download_epo_enable : HAL Z :=
  let* f := read_file EPO_CONTROL_FILE_PATH in
  match f with
  | None => retM 1
  | Some content =>
      let* w := getM in
      let* r := of_option (epo_conf_loop (length content) (zeros 100) content (w_epo w)) in
      modM (fun w => w <| w_epo := snd r |>) ;;
      retM (fst r)
  end.

(** The ten pieces of an EPO file. *)
Definition piece_numbers : list string := ["1"; "2"; "3"; "4"; "5"; "6"; "7"; "8"; "9"; "10"].

(** gps_mtk_aosp.c:2665-2738 [gps_download_epo_file_name] nothing changes for
    another type or count. *)
Definition gps_download_epo_file_name (count : Z) (e : EpoState) : EpoState :=
  let piece := if count <? 0 then None else piece_numbers !! Z.to_nat count in
  match piece with
  | None => e
  | Some n =>
      if gps_epo_type e =? 1 then
        e <| gps_epo_file_name := ("EPO_GPS_3_" ++ n ++ ".DAT")%string |>
          <| gps_epo_md_file_name := ("EPO_GPS_3_" ++ n ++ ".MD5")%string |>
      else if gps_epo_type e =? 0 then
        e <| gps_epo_file_name := ("EPO_GR_3_" ++ n ++ ".DAT")%string |>
          <| gps_epo_md_file_name := ("EPO_GR_3_" ++ n ++ ".MD5")%string |>
      else e
  end.

(** gps_mtk_aosp.c:2740-2757 [gps_download_epo]. *)
Definition gps_download_epo : HAL unit :=
  modM (fun w => w <| w_state := (w_state w) <| st_epo_data_updated := 1 |> |>
                   <| w_epo := (w_epo w) <| gps_epo_file_count := 0 |> |>).

(** The C library's [atoi]. *)
Definition atoi (s : list Z) : Z :=
  let l := skip_space s in
  let '(neg, l) := match l with
                   | 45 :: r => (true, r)
                   | 43 :: r => (false, r)
                   | _ => (false, l)
                   end in
  let '(v, _, _) := digits dec_digit 10 0 0 l in
  i32 (if neg : bool then - v else v).

(** gps_mtk_aosp.c:4086-4098 [read_prop, loop]. *)
Fixpoint read_prop_loop (fuel : nat) (buf content : list Z) (e : EpoState) : option (Z * EpoState) :=
  match fgets buf content with
  | None => Some (0, e)
  | Some (buf, rest) =>
      match fuel with
      | O => None
      | S fuel' =>
          let '(ret, buf, kv) := get_val buf in
          if negb (ret =? 0) then Some (-1, e)
          else
            match kv with
            | None => read_prop_loop fuel' buf rest e
            | Some (key, val) =>
                let e := if bytes_eqb (cstr (drop (Z.to_nat key) buf)) (str "GNSS_MODE")
                         then e <| gnss_mode := atoi (cstr (drop (Z.to_nat val) buf)) |> else e in
                read_prop_loop fuel' buf rest e
            end
      end
  end.

(** gps_mtk_aosp.c:4074-4102 [read_prop]. *)
Definition read_prop (name : string) : HAL Z :=
  let* f := read_file name in
  match f with
  | None => retM (-1)
  | Some content =>
      let* w := getM in
      let* r := of_option (read_prop_loop (length content) (zeros 100) content (w_epo w)) in
      modM (fun w => w <| w_epo := snd r |>) ;;
      retM (fst r)
  end.

Definition conf_run (content : list Z) : option (Z * EpoState) :=
  epo_conf_loop (length content) (zeros 100) content epo_init.

Example conf_crlf : (fun r => gps_epo_download_days (snd r)) <$>
  conf_run (str "# days" ++ [10] ++ str "DW_DAYS= 12" ++ [13; 10]) = Some 12.
Proof. vm_compute. reflexivity. Qed.

Example conf_lf : (fun r => (gps_epo_download_days (snd r), gps_epo_enable (snd r))) <$>
  conf_run (str "EPO_ENABLE=1" ++ [10] ++ str "DW_DAYS=12" ++ [10]) = Some (1, 0).
Proof. vm_compute. reflexivity. Qed.

(** * The settings are always in range *)

Definition conf_ok (e : EpoState) : Prop :=
  0 <= gps_epo_enable e <= 1 /\ 0 <= gps_epo_download_days e <= 30 /\
  (gps_epo_period e = 3 \/ gps_epo_period e = 15 \/ gps_epo_period e = 30) /\
  (wifi_epo_period e = 1 \/ wifi_epo_period e = 3 \/ wifi_epo_period e = 15 \/ wifi_epo_period e = 30) /\
  0 <= gps_epo_wifi_trigger e <= 1.

Lemma cstr_le_nul buf i : buf !! i = Some 0 -> (length (cstr buf) <= i)%nat.
Proof.
  revert i. induction buf as [|b buf IH]; intros i; [done|]. cbn. destruct i as [|i]; cbn.
  - by intros [= ->].
  - intros H. destruct (b =? 0); cbn; [lia|]. apply IH in H. lia.
Qed.

Lemma cstr_le buf : (length (cstr buf) <= length buf)%nat.
Proof. induction buf as [|b buf IH]; cbn; [done|]. destruct (b =? 0); cbn; lia. Qed.

Lemma take_line_len n l a b : take_line n l = (a, b) -> (length a <= n)%nat /\ (length a + length b = length l)%nat /\
  (n <> 0%nat -> l <> [] -> a <> []).
Proof.
  revert l a b. induction n as [|n IH]; intros l a b; cbn; [by intros [= <- <-]|].
  destruct l as [|c l]; [by intros [= <- <-]; split_and!; [cbn; lia..|]|]. destruct (c =? 10).
  - intros [= <- <-]. split_and!; [cbn; lia..|done].
  - destruct (take_line n l) as [a' b'] eqn:E. intros [= <- <-]. apply IH in E. cbn. split_and!; [lia..|done].
Qed.

Lemma fgets_spec buf content buf' rest : length buf = 100%nat -> fgets buf content = Some (buf', rest) ->
  length buf' = 100%nat /\ (length rest < length content)%nat /\ (length (cstr buf') <= 99)%nat.
Proof.
  intros Hb. unfold fgets. destruct content as [|c content]; [done|].
  destruct (take_line _ _) as [line r] eqn:E. intros [= <- <-]. rewrite Hb in E.
  destruct (take_line_len _ _ _ _ E) as (H1 & H2 & H3). specialize (H3 ltac:(lia) ltac:(done)).
  assert (0 < length line)%nat by (destruct line; [done|cbn; lia]).
  split_and!.
  - rewrite length_app. cbn. rewrite length_drop. lia.
  - lia.
  - etrans; [apply (cstr_le_nul _ (length line))|lia]. rewrite lookup_app_r, Nat.sub_diag by lia. done.
Qed.

Lemma find_eq_bounds n buf p : p <= find_eq n buf p <= p + Z.of_nat n.
Proof. revert p. induction n as [|n IH]; intros p; cbn; [lia|]. destruct (_ =? _); [lia|]. specialize (IH (p + 1)). lia. Qed.

Lemma skip_while_bounds n want buf p : p <= skip_while n want buf p <= p + Z.of_nat n.
Proof. revert p. induction n as [|n IH]; intros p; cbn; [lia|]. destruct (Bool.eqb _ _); [|lia]. specialize (IH (p + 1)). lia. Qed.

Lemma get_val_bounds buf ret buf' kv : length buf = 100%nat -> (length (cstr buf) <= 99)%nat ->
  get_val buf = (ret, buf', kv) -> length buf' = 100%nat /\ (forall k v, kv = Some (k, v) -> k = 0 /\ 0 <= v <= 99).
Proof.
  intros Hb Hc. unfold get_val, strlen. assert (zlen (cstr buf) <= 99) as Hl by (unfold zlen; lia).
  set (len := zlen (cstr buf)) in *. pose proof (zlen_nonneg (cstr buf)) as H0. fold len in H0.
  destruct (len =? 0); [by intros [= <- <- <-]|]. destruct (_ =? chr "#"); [by intros [= <- <- <-]|].
  destruct (_ && _); [by intros [= <- <- <-]|].
  set (b1 := if _ =? 10 then buf else _).
  assert (length b1 = 100%nat) as Hb1 by (unfold b1; destruct (_ =? 10); rewrite ?length_insert; done). clearbody b1.
  pose proof (find_eq_bounds (Z.to_nat len) b1 0) as He. set (p := find_eq _ _ _) in *.
  destruct (Z.leb_spec len p); [by intros [= <- <- <-]|].
  set (b2 := <[Z.to_nat p := 0]> b1). pose proof (skip_while_bounds (Z.to_nat (len - (p + 1))) true b2 (p + 1)).
  set (v := skip_while _ true _ _) in *. intros [= <- <- <-]. split; [by unfold b2; rewrite !length_insert|].
  intros k v' [= <- <-]. lia.
Qed.

Lemma epo_setting_ok buf key val e : length buf = 100%nat -> 0 <= val <= 99 -> conf_ok e ->
  exists e', epo_setting buf key val e = Some e' /\ conf_ok e'.
Proof.
  intros Hb Hv He. unfold epo_setting.
  assert (strlen (drop (Z.to_nat val) buf) <= 100 - val) as Hs.
  { unfold strlen, zlen. pose proof (cstr_le (drop (Z.to_nat val) buf)) as H. rewrite length_drop in H. lia. }
  destruct (str2int_total buf val (val + (strlen (drop (Z.to_nat val) buf) - 1))) as [v ->];
    [lia|unfold zlen; lia|unfold zlen; lia|]. cbn [mbind option_bind].
  eexists. split; [done|]. unfold conf_ok in *.
  unfold set_epo_enable, set_dw_days, set_gps_epo_period, set_wifi_epo_period, set_epo_wifi_trigger.
  repeat (destruct (bytes_eqb _ _); [cbn; zb; cbn; lia|]). lia.
Qed.

Lemma epo_conf_loop_ok fuel buf content e : length buf = 100%nat -> (length content <= fuel)%nat -> conf_ok e ->
  exists r e', epo_conf_loop fuel buf content e = Some (r, e') /\ conf_ok e' /\ 0 <= r <= 1.
Proof.
  revert buf content e. induction fuel as [|fuel IH]; intros buf content e Hb Hf He; cbn [epo_conf_loop].
  - destruct content; [|cbn in Hf; lia]. cbn. eexists _, _. split; [done|]. split; [done|apply He].
  - destruct (fgets buf content) as [[buf1 rest]|] eqn:E; [|eexists _, _; split; [done|split; [done|apply He]]].
    destruct (fgets_spec _ _ _ _ Hb E) as (Hb1 & Hr & Hc). destruct (get_val buf1) as [[ret buf2] kv] eqn:Eg.
    destruct (get_val_bounds _ _ _ _ Hb1 Hc Eg) as [Hb2 Hkv]. destruct (negb _).
    { eexists _, _. split; [done|]. split; [done|lia]. }
    destruct kv as [[k v]|]; [|apply IH; [done|lia|done]].
    destruct (Hkv k v eq_refl) as [-> Hv]. destruct (epo_setting_ok buf2 0 v e Hb2 Hv He) as (e1 & -> & He1).
    cbn [mbind option_bind]. apply IH; [done|lia|done].
Qed.

Lemma epo_init_ok : conf_ok epo_init.
Proof. unfold conf_ok, epo_init. cbn. lia. Qed.

(** * One line of the file *)

(** The setting a key selects. *)
Definition apply_setting (k : list Z) (v : Z) (e : EpoState) : EpoState :=
  if bytes_eqb k (str "EPO_ENABLE") then set_epo_enable v e
  else if bytes_eqb k (str "DW_DAYS") then set_dw_days v e
  else if bytes_eqb k (str "GPS_EPO_PERIOD") then set_gps_epo_period v e
  else if bytes_eqb k (str "WIFI_EPO_PERIOD") then set_wifi_epo_period v e
  else if bytes_eqb k (str "EPO_WIFI_TRIGGER") then set_epo_wifi_trigger v e
  else e.

(** A key that can be looked up: not empty, not a comment, without NUL, newline
    or equals sign. *)
Definition key_ok (k : list Z) : Prop :=
  k <> [] /\ Forall (fun b => b <> 0 /\ b <> 10 /\ b <> chr "=" /\ b <> chr "#") k.

Lemma at_app_mid pre c post i : i = zlen pre -> at_ (pre ++ c :: post) i = c.
Proof.
  intros ->. unfold at_. pose proof (zlen_nonneg pre). destruct (Z.ltb_spec (zlen pre) 0); [lia|].
  unfold zlen. by rewrite Nat2Z.id, app_nth2, Nat.sub_diag by lia.
Qed.

Lemma find_eq_at pre k post : Forall (fun b => b <> chr "=") k ->
  forall n, (length k < n)%nat -> find_eq n (pre ++ k ++ chr "=" :: post) (zlen pre) = zlen pre + zlen k.
Proof.
  intros H. revert pre. induction H as [|b k Hb Hk IH]; intros pre n Hn; (destruct n as [|n]; [cbn in Hn; lia|]); cbn [find_eq app].
  - rewrite at_app_mid by done. rewrite Z.eqb_refl, zlen_nil. lia.
  - rewrite at_app_mid by done. rewrite (proj2 (Z.eqb_neq _ _) Hb).
    replace (pre ++ b :: k ++ chr "=" :: post) with ((pre ++ [b]) ++ k ++ chr "=" :: post) by (by rewrite <- app_assoc).
    replace (zlen pre + 1) with (zlen (pre ++ [b])) by (autorewrite with clen; lia).
    cbn [length] in Hn. rewrite IH by lia. autorewrite with clen. lia.
Qed.

Lemma skip_while_text pre v c post : Forall (fun b => IS_SPACE b = false) v -> IS_SPACE c = true ->
  skip_while (length v + 1) false (pre ++ v ++ c :: post) (zlen pre) = zlen pre + zlen v.
Proof.
  intros H Hc. revert pre. induction H as [|b v Hb Hv IH]; intros pre; cbn [skip_while app length Nat.add].
  - rewrite at_app_mid by done. rewrite Hc, zlen_nil. cbn. lia.
  - rewrite at_app_mid by done. rewrite Hb. cbn [Bool.eqb].
    replace (pre ++ b :: v ++ c :: post) with ((pre ++ [b]) ++ v ++ c :: post) by (by rewrite <- app_assoc).
    replace (zlen pre + 1) with (zlen (pre ++ [b])) by (autorewrite with clen; lia).
    rewrite IH. autorewrite with clen. lia.
Qed.

Lemma skip_while_none n want pre c post : IS_SPACE c = negb want -> skip_while n want (pre ++ c :: post) (zlen pre) = zlen pre.
Proof. intros H. destruct n; [done|]. cbn. rewrite at_app_mid, H by done. by destruct want. Qed.

Lemma insert_mid (pre post : list Z) (c v : Z) : <[length pre := v]> (pre ++ c :: post) = pre ++ v :: post.
Proof. by rewrite insert_app_r_alt, Nat.sub_diag by lia. Qed.

(** [get_val] on a line [key=text] that ends with a newline. *)
Lemma get_val_line k v stale : key_ok k -> v <> [] -> Forall (fun b => IS_SPACE b = false /\ b <> 0) v ->
  get_val (k ++ chr "=" :: v ++ 10 :: 0 :: stale) =
    (0, k ++ 0 :: v ++ 0 :: 0 :: stale, Some (0, zlen k + 1)).
Proof.
  intros [Hk0 Hk] Hv0 Hv. set (line := k ++ chr "=" :: v ++ [10]).
  assert (strlen (k ++ chr "=" :: v ++ 10 :: 0 :: stale) = zlen line) as Hlen.
  { unfold strlen. replace (k ++ chr "=" :: v ++ 10 :: 0 :: stale) with (line ++ 0 :: stale)
      by (unfold line; by rewrite <- !app_assoc; cbn; rewrite <- app_assoc).
    rewrite cstr_app_nul; [done|]. unfold line. apply Forall_app_2; [eapply Forall_impl; [|exact Hk]; cbn; tauto|].
    apply Forall_cons_2; [done|]. apply Forall_app_2; [eapply Forall_impl; [|exact Hv]; cbn; tauto|].
    by apply Forall_cons_2. }
  assert (zlen line = zlen k + zlen v + 2) as Hl by (unfold line; autorewrite with clen; lia).
  pose proof (zlen_nonneg v). pose proof (zlen_nonneg k).
  assert (at_ (k ++ chr "=" :: v ++ 10 :: 0 :: stale) 0 <> chr "#") as Hh.
  { destruct k as [|k0 k]; [done|]. apply (Forall_inv Hk). }
  assert (at_ (k ++ chr "=" :: v ++ 10 :: 0 :: stale) (zlen k + zlen v + 2 - 1) = 10) as Hn.
  { replace (k ++ chr "=" :: v ++ 10 :: 0 :: stale) with ((k ++ chr "=" :: v) ++ 10 :: 0 :: stale) by (by rewrite <- app_assoc).
    apply at_app_mid. autorewrite with clen. lia. }
  unfold get_val. rewrite Hlen, Hl, (proj2 (Z.eqb_neq _ 0)), (proj2 (Z.eqb_neq _ _) Hh), Hn by lia.
  cbn [Z.eqb Pos.eqb negb andb].
  pose proof (find_eq_at [] k (v ++ 10 :: 0 :: stale)) as He. cbn [app] in He. change (zlen []) with 0 in He.
  rewrite Z.add_0_l in He. rewrite He; [|eapply Forall_impl; [|exact Hk]; cbn; tauto|unfold zlen in *; lia].
  rewrite (proj2 (Z.leb_gt _ _)) by lia. replace (Z.to_nat (zlen k)) with (length k) by (unfold zlen; lia).
  rewrite insert_mid.
  replace (k ++ 0 :: v ++ 10 :: 0 :: stale) with ((k ++ [0]) ++ v ++ 10 :: 0 :: stale) by (by rewrite <- app_assoc).
  replace (zlen k + 1) with (zlen (k ++ [0])) by (autorewrite with clen; lia).
  assert (forall n, skip_while n true ((k ++ [0]) ++ v ++ 10 :: 0 :: stale) (zlen (k ++ [0])) = zlen (k ++ [0])) as Hs.
  { intros n. destruct v as [|v0 v]; [done|]. apply skip_while_none. apply (Forall_inv Hv). }
  rewrite Hs. replace (Z.to_nat (zlen k + zlen v + 2 - zlen (k ++ [0]))) with (length v + 1)%nat
    by (autorewrite with clen; unfold zlen; lia).
  rewrite skip_while_text; [|eapply Forall_impl; [|exact Hv]; cbn; tauto|done].
  rewrite app_assoc, <- zlen_app. replace (Z.to_nat (zlen ((k ++ [0]) ++ v))) with (length ((k ++ [0]) ++ v)) by (unfold zlen; lia).
  rewrite insert_mid, <- !app_assoc. done.
Qed.

Lemma take_line_whole l rest n : Forall (fun b => b <> 10) l -> (length l < n)%nat ->
  take_line n (l ++ 10 :: rest) = (l ++ [10], rest).
Proof.
  intros H. revert n. induction H as [|b l Hb Hl IH]; intros n Hn; (destruct n as [|n]; [cbn in Hn; lia|]); cbn; [done|].
  rewrite (proj2 (Z.eqb_neq _ _) Hb), IH by (cbn in Hn; lia). done.
Qed.

Lemma strlen_app_nul s post : Forall (fun b => b <> 0) s -> strlen (s ++ 0 :: post) = zlen s.
Proof. intros H. unfold strlen. by rewrite cstr_app_nul. Qed.

(** A line [key=digits] followed by one more character. *)
Definition conf_line (k ds : list Z) (c : Z) : list Z := k ++ chr "=" :: ds ++ [c].

Lemma epo_setting_line k ds c post e : key_ok k -> is_digits ds -> ds <> [] -> dec_value ds < 2 ^ 31 -> c <> 0 ->
  epo_setting (k ++ 0 :: (ds ++ [c]) ++ 0 :: post) 0 (zlen k + 1) e = Some (apply_setting k (dec_value ds) e).
Proof.
  intros Hk Hd Hd0 Hv Hc. unfold epo_setting. change (drop (Z.to_nat 0) ?x) with x.
  rewrite cstr_app_nul by (eapply Forall_impl; [|apply Hk]; cbn; tauto).
  replace (k ++ 0 :: (ds ++ [c]) ++ 0 :: post) with ((k ++ [0]) ++ (ds ++ [c]) ++ 0 :: post) by (by rewrite <- app_assoc).
  replace (zlen k + 1) with (zlen (k ++ [0])) by (autorewrite with clen; lia).
  rewrite drop_app_length' by (unfold zlen; lia).
  rewrite strlen_app_nul; [|apply Forall_app_2; [eapply Forall_impl; [|exact Hd]|by apply Forall_cons_2]].
  2: { intros b Hb ->. done. }
  replace (zlen (ds ++ [c]) - 1) with (zlen ds) by (autorewrite with clen; lia).
  pose proof (str2int_plus (k ++ [0]) ds c (0 :: post)) as Ht. unfold tok2int, tok_of in Ht. cbn [tk_mem tk_p tk_end] in Ht.
  replace ((k ++ [0]) ++ (ds ++ [c]) ++ 0 :: post) with ((k ++ [0]) ++ ds ++ c :: 0 :: post) by (by rewrite <- !app_assoc).
  rewrite Ht; [|destruct ds as [|d ds]; [done|]; intros x y [= <- <-] ->; by apply Forall_inv in Hd].
  rewrite str2int_loop_digits by done. cbn [mbind option_bind].
  destruct (dec_value_step ds Hd Hv) as [-> H0]. rewrite i32_id by (unfold is_i32; lia). done.
Qed.

(** * Properties *)

(** whatever the configuration file holds, reading it ends without an access
    outside of the line buffer and leaves every setting in its range: the
    download is on or off, at most 30 days (10 pieces) are fetched, and the
    periods are among the allowed ones. *)
Theorem epo_config_in_range (w : World) (Hw : conf_ok (w_epo w)) :
  exists r w', gps_download_epo_enable w = Ok (r, w') /\ 0 <= r <= 1 /\ conf_ok (w_epo w') /\
    w' = w <| w_epo := w_epo w' |>.
Proof.
  unfold gps_download_epo_enable. rewrite (bindM_ok _ _ _ _ _ (read_file_run _ _)).
  destruct (e_files (w_env w) !! EPO_CONTROL_FILE_PATH) as [f|]; cbn [fmap option_fmap option_map].
  - destruct (epo_conf_loop_ok (length (f_data f)) (zeros 100) (f_data f) (w_epo w)) as (r & e' & E & He & Hr); [done|lia|done|].
    unfold bindM at 1, getM. rewrite E. exists r, (w <| w_epo := e' |>). split; [reflexivity|]. done.
  - exists 1, w. split; [reflexivity|]. split; [lia|]. split; [done|]. by destruct w.
Qed.

Lemma epo_config_in_range_witness :
  exists r w', gps_download_epo_enable (world0 7 all_cbs (quiet_env
      <| e_files := {[ EPO_CONTROL_FILE_PATH := mkFile (str "DW_DAYS=99x") 0 ]} |>)) = Ok (r, w') /\
    0 <= r <= 1 /\ conf_ok (w_epo w') /\
    w' = (world0 7 all_cbs (quiet_env <| e_files := {[ EPO_CONTROL_FILE_PATH := mkFile (str "DW_DAYS=99x") 0 ]} |>))
           <| w_epo := w_epo w' |>.
Proof.
  apply (epo_config_in_range (world0 7 all_cbs (quiet_env
      <| e_files := {[ EPO_CONTROL_FILE_PATH := mkFile (str "DW_DAYS=99x") 0 ]} |>))).
  apply epo_init_ok.
Defined.

(** a line [key=digits] takes effect with the value of its digits less the
    last character of the value: the reader drops that character whatever it
    is. With CR LF line ends the carriage return is dropped and the value is the
    number written; with LF alone the last digit is lost. *)
Theorem epo_config_drops_last_char (k ds : list Z) (c : Z) (e : EpoState)
  (Hk : key_ok k) (Hd : is_digits ds) (Hd0 : ds <> []) (Hv : dec_value ds < 2 ^ 31)
  (Hc : IS_SPACE c = false /\ c <> 0) (Hlen : zlen (conf_line k ds c) <= 98) :
  let content := conf_line k ds c ++ [10] in
  let e' := apply_setting k (dec_value ds) e in
  epo_conf_loop (length content) (zeros 100) content e = Some (gps_epo_enable e', e').
Proof.
  cbv zeta. destruct Hc as [Hc Hc0]. set (l := conf_line k ds c) in *.
  rewrite length_app, Nat.add_1_r. cbn [epo_conf_loop].
  assert (fgets (zeros 100) (l ++ [10]) = Some (k ++ chr "=" :: (ds ++ [c]) ++ 10 :: 0 :: drop (length (l ++ [10]) + 1) (zeros 100), [])) as ->.
  { unfold fgets. destruct (l ++ [10]) as [|x y] eqn:E; [by destruct l|]. rewrite <- E. clear x y E.
    rewrite take_line_whole; [|unfold l, conf_line|unfold zlen in Hlen; cbn; lia].
    - unfold l, conf_line. do 2 f_equal. rewrite <- !app_assoc. cbn. by rewrite <- !app_assoc.
    - apply Forall_app_2; [eapply Forall_impl; [|apply Hk]; cbn; tauto|]. apply Forall_cons_2; [done|].
      apply Forall_app_2; [eapply Forall_impl; [|exact Hd]; intros b Hb ->; done|].
      apply Forall_cons_2; [intros ->; done|apply Forall_nil_2]. }
  rewrite get_val_line; [|done|by destruct ds|].
  - cbn [Z.eqb negb]. rewrite epo_setting_line by done. cbn [mbind option_bind].
    by destruct (length l).
  - apply Forall_app_2; [|by apply Forall_cons_2]. eapply Forall_impl; [|exact Hd]. intros b Hb.
    unfold is_digit, IS_SPACE in *. apply andb_true_iff in Hb as [Hb1%Z.leb_le Hb2%Z.leb_le]. zb; cbn; lia.
Qed.

Lemma epo_config_drops_last_char_witness :
  epo_conf_loop 12 (zeros 100) (str "DW_DAYS=12" ++ [13; 10]) epo_init =
    Some (1, epo_init <| gps_epo_download_days := 12 |>).
Proof.
  apply (epo_config_drops_last_char (str "DW_DAYS") (str "12") 13 epo_init).
  - split; [discriminate|]. repeat (apply Forall_cons_2 || apply Forall_nil_2); split_and!; discriminate.
  - repeat (apply Forall_cons_2 || apply Forall_nil_2); reflexivity.
  - discriminate.
  - reflexivity.
  - split; [reflexivity|discriminate].
  - vm_compute. discriminate.
Defined.
