(* ===== verification/EpoTime.v ===== *)
(** The validity period of the EPO file of the GPS HAL
    (src/hal/gps/hal/gps_mtk_aosp.c): conversion of GPS time to UTC, the first and
    last record of the file, and the decision whether the file is expired. *)

From stdpp Require Import base list gmap strings numbers.
From Stdlib Require Import ZArith Lia SpecFloat.
From S2P Require Import Prelude CFloat CTime GpsTypes Daemon EpoConf.

Local Open Scope Z_scope.
Local Open Scope st_scope.
Local Open Scope rec_scope.

(** gps_mtk_aosp.c:79-85 [MTK_EPO_ONE_SV_SIZE]. *)
Definition MTK_EPO_ONE_SV_SIZE : Z := 72.

(** gps_mtk_aosp.c:5024-5032 [GpsToUtcTime, leap] and the same test in the year
    loop: a leap year, counted from 1980. *)
Definition leap80 (y : Z) : bool :=
  if y mod 100 =? 20 then y mod 400 =? 20 else y mod 4 =? 0.

(** gps_mtk_aosp.c:4996-5019 [GpsToUtcTime, year loop] the years since 1980 and the
    days left; every round takes a year off, so [days / 365] rounds are enough. *)
Fixpoint year_loop (fuel : nat) (years days : Z) : option (Z * Z) :=
  if 365 <=? days then
    match fuel with
    | O => None
    | S fuel' =>
        if years mod 100 =? 20 then
          if years mod 400 =? 20 then
            if 366 <=? days then year_loop fuel' (years + 1) (days - 366) else Some (years, days)
          else year_loop fuel' (years + 1) (days - 365)
        else if years mod 4 =? 0 then
          if 366 <=? days then year_loop fuel' (years + 1) (days - 366) else Some (years, days)
        else year_loop fuel' (years + 1) (days - 365)
    end
  else Some (years, days).

(** gps_mtk_aosp.c:4986-4988 [GpsToUtcTime, doy] with the day added in a leap year
    (5034-5038). *)
Definition doy (leap : bool) : list Z :=
  [0; 31] ++ map (fun d => if leap then d + 1 else d) [59; 90; 120; 151; 181; 212; 243; 273; 304; 334].

(** gps_mtk_aosp.c:5039-5044 [GpsToUtcTime, month loop] the first entry above the
    day, or 12. *)
Fixpoint month_loop (l : list Z) (i days : Z) : Z :=
  match l with
  | [] => i
  | d :: l' => if days <? d then i else month_loop l' (i + 1) days
  end.

(** gps_mtk_aosp.c:4970-5069 [GpsToUtcTime, broken-down time]. *)
Definition gps_to_tm (i2Wn : Z) (dfTow : double) : option tm :=
  let iTow := d_to_int dfTow in
  let iDaysElapsed := u32 (i2Wn * 7 + Z.quot iTow 86400 + 5) in
  let dfSecElapsed := dsub dfTow (d_of_Z (Z.quot iTow 86400 * 86400)) in
  yd ← year_loop (Z.to_nat (iDaysElapsed / 365)) 0 iDaysElapsed;
  let '(iYearsElapsed, iDaysElapsed) := yd in
  let pi2Yr := 1980 + iYearsElapsed in
  let doy := doy (leap80 iYearsElapsed) in
  let i := month_loop doy 0 iDaysElapsed in
  let pi2Mo := i in
  let pi2Day := if 0 <? i then iDaysElapsed - at_ doy (i - 1) + 1 else 0 in
  let iSec := d_to_int dfSecElapsed in
  let pi2Hr := d_to_int (ddiv dfSecElapsed (d_of_Z 3600)) in
  let pi2Min := Z.quot (Z.rem iSec 3600) 60 in
  let pdfSec := dsub dfSecElapsed (d_of_Z (Z.quot iSec 60 * 60)) in
  Some (mkTm (pi2Yr - 1900) (pi2Mo - 1) pi2Day pi2Hr pi2Min (d_to_int pdfSec)).

(** gps_mtk_aosp.c:4970-5069 [GpsToUtcTime]. *)
Definition GpsToUtcTime (gmtoff : Z) (i2Wn : Z) (dfTow : double) : option Z :=
  t ← gps_to_tm i2Wn dfTow; Some (mktime gmtoff t).

(** The GPS time in the header of a record: a 24-bit count of hours. *)
Definition record_secs (rec : list Z) : Z := u32 (Z.land (le_value (take 4 rec)) 0x00FFFFFF * 3600).

(** gps_mtk_aosp.c:4937-4969 [mtk_gps_sys_get_file_size]. *)
Definition mtk_gps_sys_get_file_size : HAL Z :=
  let* epo := read_file EPO_FILE in
  let* epo_hal := read_file EPO_FILE_HAL in
  match epo_hal, epo with
  | Some f, _ => retM (u32 (zlen f))
  | None, Some f => retM (u32 (zlen f))
  | None, None => retM (u32 (-1))
  end.

(** gps_mtk_aosp.c:5072-5091 [mtk_gps_sys_epo_period_start] [data] is the open file;
    the result is the return value and the time. *)
Definition mtk_gps_sys_epo_period_start (data : list Z) : HAL (Z * Z) :=
  match mem_read data 0 MTK_EPO_ONE_SV_SIZE with
  | None => retM (-1, 0)
  | Some szBuf =>
      let u4GpsSecs := record_secs szBuf in
      let pi2WeekNo := u4GpsSecs / 604800 in
      let pu4Tow := u4GpsSecs mod 604800 in
      let* w := getM in
      let* t := of_option (GpsToUtcTime (e_gmtoff (w_env w)) pi2WeekNo (d_of_Z pu4Tow)) in
      retM (0, t)
  end.

(** gps_mtk_aosp.c:5094-5123 [mtk_gps_sys_epo_period_end]. *)
Definition mtk_gps_sys_epo_period_end (data : list Z) : HAL (Z * Z) :=
  let* size := mtk_gps_sys_get_file_size in
  let fileSize := i32 size in
  if fileSize <? MTK_EPO_ONE_SV_SIZE then retM (-1, 0)
  else
    match mem_read data (fileSize - MTK_EPO_ONE_SV_SIZE) MTK_EPO_ONE_SV_SIZE with
    | None => retM (-1, 0)
    | Some szBuf =>
        let u4GpsSecs := u32 (record_secs szBuf + 21600) in
        let pi2WeekNo := u4GpsSecs / 604800 in
        let pu4Tow := u4GpsSecs mod 604800 in
        let* w := getM in
        let* t := of_option (GpsToUtcTime (e_gmtoff (w_env w)) pi2WeekNo (d_of_Z pu4Tow)) in
        retM (0, t)
    end.

(** gps_mtk_aosp.c:5125-5209 [mtk_gps_epo_file_time_hal] the return value and the
    array [uTime] (start, download, expiry), of which a failure leaves the later
    entries at [0]; every caller passes a zeroed array. *)
Definition mtk_gps_epo_file_time_hal : HAL (Z * (Z * Z * Z)) :=
  let* w := getM in
  let files := e_files (w_env w) in
  let epofile := match files !! EPO_FILE_HAL, files !! EPO_FILE with
                 | Some f, _ => Some (EPO_FILE_HAL, f)
                 | None, Some f => Some (EPO_FILE, f)
                 | None, None => None
                 end in
  match epofile with
  | None => retM (-1, (0, 0, 0))
  | Some (path, f) =>
      if bool_decide (path ∈ e_unreadable (w_env w)) then retM (-1, (0, 0, 0))
      else
        let* s := mtk_gps_sys_epo_period_start (f_data f) in
        if negb (fst s =? 0) then retM (-1, (0, 0, 0))
        else
          let uTime0 := snd s in
          let uTime1 := f_mtime f in
          let* e := mtk_gps_sys_epo_period_end (f_data f) in
          if negb (fst e =? 0) then retM (-1, (uTime0, uTime1, 0))
          else retM (0, (uTime0, uTime1, snd e))
  end.

(** gps_mtk_aosp.c:4231-4253 [mtk_epo_is_expired, threshold] seconds after the start
    of the file from which it counts as expired; [span] is its length. *)
Definition expired_set (wifi_tragger : bool) (gps_period wifi_period span : Z) : Z :=
  let etime := i32 (gps_period * 24 * 60 * 60) in
  if wifi_tragger then wifi_period * 24 * 60 * 60
  else if span <? etime then
    let download_day := i32 (Z.quot span (24 * 60 * 60)) in
    if download_day <? 3 then 0
    else if download_day <? 6 then 2 * 24 * 60 * 60
    else if (6 <=? download_day) && (download_day <? 9) then 5 * 24 * 60 * 60
    else if (9 <=? download_day) && (download_day <? 12) then 7 * 24 * 60 * 60
    else if (12 <=? download_day) && (download_day <? 15) then 7 * 24 * 60 * 60
    else if (15 <=? download_day) && (download_day <? 18) then 7 * 24 * 60 * 60
    else if 18 <=? download_day then 7 * 24 * 60 * 60
    else 0
  else etime.

(** gps_mtk_aosp.c:4214-4266 [mtk_epo_is_expired] [time_utc] is an [unsigned long]. *)
Definition mtk_epo_is_expired (wifi_tragger : bool) : HAL Z :=
  let* w := getM in
  let time_utc := u32 (mktime (e_gmtoff (w_env w)) (gmtime (e_now (w_env w)))) in
  let* r := mtk_gps_epo_file_time_hal in
  let '(_, (uTime0, _, uTime2)) := r in
  let* w := getM in
  let e := w_epo w in
  let set := expired_set wifi_tragger (gps_epo_period e) (wifi_epo_period e) (uTime2 - uTime0) in
  if set + uTime0 <=? time_utc then
    modM (fun w => w <| w_epo := (w_epo w) <| gps_epo_file_count := 0 |> |>) ;; retM 1
  else retM 0.

Example gps_epoch : GpsToUtcTime 0 0 (d_of_Z 0) = Some 315964800.
Proof. vm_compute. reflexivity. Qed.


(** * GPS time is UTC time from 6 January 1980 *)

Lemma leap80_spec y : 0 <= y -> leap80 y = is_leap (1980 + y).
Proof.
  intros H. unfold leap80, is_leap.
  assert ((1980 + y) mod 4 = y mod 4) as -> by (rewrite Z.add_mod by lia; change (1980 mod 4) with 0; rewrite Z.add_0_l, Z.mod_mod; lia).
  destruct (Z.eqb_spec (y mod 100) 20), (Z.eqb_spec (y mod 400) 20), (Z.eqb_spec (y mod 4) 0),
    (Z.eqb_spec ((1980 + y) mod 100) 0), (Z.eqb_spec ((1980 + y) mod 400) 0); cbn; try done;
    exfalso; Z.div_mod_to_equations; lia.
Qed.

Lemma year_loop_leap fuel years days : 365 <= days ->
  year_loop (S fuel) years days =
    if leap80 years then (if 366 <=? days then year_loop fuel (years + 1) (days - 366) else Some (years, days))
    else year_loop fuel (years + 1) (days - 365).
Proof.
  intros H. cbn [year_loop]. rewrite (proj2 (Z.leb_le _ _) H). unfold leap80.
  by destruct (years mod 100 =? 20), (years mod 400 =? 20), (years mod 4 =? 0).
Qed.

Lemma year_loop_spec fuel years days : 0 <= years -> 0 <= days -> days / 365 <= Z.of_nat fuel ->
  exists y d, year_loop fuel years days = Some (y, d) /\ years <= y /\
    days_before_year (1980 + years) + days = days_before_year (1980 + y) + d /\
    0 <= d < year_len (1980 + y).
Proof.
  revert years days. induction fuel as [|fuel IH]; intros years days Hy Hd Hf.
  - assert (days < 365) by (Z.div_mod_to_equations; lia). cbn. rewrite (proj2 (Z.leb_gt _ _)) by lia.
    exists years, days. pose proof (year_len_bounds (1980 + years)). split_and!; done || lia.
  - destruct (Z.le_gt_cases 365 days) as [L|L].
    + rewrite year_loop_leap, leap80_spec by lia.
      pose proof (days_before_year_succ (1980 + years)) as Hs. unfold year_len in Hs.
      destruct (is_leap (1980 + years)) eqn:E; [destruct (Z.leb_spec 366 days)|].
      * destruct (IH (years + 1) (days - 366)) as (y & d & -> & H1 & H2 & H3); [lia|lia|Z.div_mod_to_equations; lia|].
        replace (1980 + (years + 1)) with (1980 + years + 1) in H2 by lia. exists y, d. split_and!; done || lia.
      * exists years, days. unfold year_len. rewrite E. split_and!; done || lia.
      * destruct (IH (years + 1) (days - 365)) as (y & d & -> & H1 & H2 & H3); [lia|lia|Z.div_mod_to_equations; lia|].
        replace (1980 + (years + 1)) with (1980 + years + 1) in H2 by lia. exists y, d. split_and!; done || lia.
    + cbn. rewrite (proj2 (Z.leb_gt _ _)) by lia.
      exists years, days. pose proof (year_len_bounds (1980 + years)). split_and!; done || lia.
Qed.

(** The month of a day of the year. *)
Definition month_day_ok (leap : bool) (d : Z) : bool :=
  let i := month_loop (doy leap) 0 d in
  (1 <=? i) && (i <=? 12) && (at_ (doy leap) (i - 1) =? days_before_month leap (i - 1)).

Lemma month_loop_range l i d : i <= month_loop l i d <= i + zlen l.
Proof.
  revert i. induction l as [|a l IH]; intros i; cbn [month_loop]; [rewrite zlen_nil; lia|].
  rewrite zlen_cons. pose proof (zlen_nonneg l). destruct (d <? a); [lia|]. specialize (IH (i + 1)). lia.
Qed.

Lemma doy_month leap i : 0 <= i < 12 -> at_ (doy leap) i = days_before_month leap i.
Proof.
  intros H. assert (forall k, (k < 12)%nat -> at_ (doy leap) (Z.of_nat k) = days_before_month leap (Z.of_nat k)) as G.
  { intros k Hk. do 12 (destruct k as [|k]; [by destruct leap|]). lia. }
  specialize (G (Z.to_nat i) ltac:(lia)). by rewrite Z2Nat.id in G by lia.
Qed.

Lemma month_loop_doy leap d : 0 <= d -> 1 <= month_loop (doy leap) 0 d <= 12.
Proof.
  intros H. pose proof (month_loop_range (doy leap) 0 d) as Hr.
  replace (zlen (doy leap)) with 12 in Hr by (by destruct leap).
  assert (month_loop (doy leap) 0 d = month_loop (31 :: drop 2 (doy leap)) 1 d) as E.
  { change (doy leap) with (0 :: 31 :: drop 2 (doy leap)) at 1. cbn [month_loop]. by rewrite (proj2 (Z.ltb_ge d 0)) by lia. }
  pose proof (month_loop_range (31 :: drop 2 (doy leap)) 1 d). lia.
Qed.

(** The seconds of the day in doubles, for the times of the week at full hours. *)
Definition tow_parts (h : Z) : bool :=
  let t := d_of_Z (3600 * h) in
  let days := h / 24 in
  let s := dsub t (d_of_Z (Z.quot (d_to_int t) 86400 * 86400)) in
  (d_to_int t =? 3600 * h) && (Z.quot (d_to_int t) 86400 =? days) &&
  (d_to_int (ddiv s (d_of_Z 3600)) =? h mod 24) &&
  (Z.quot (Z.rem (d_to_int s) 3600) 60 =? 0) &&
  (d_to_int (dsub s (d_of_Z (Z.quot (d_to_int s) 60 * 60))) =? 0).

Lemma tow_parts_all : forallb (fun n => tow_parts (Z.of_nat n)) (seq 0 168) = true.
Proof. vm_compute. reflexivity. Qed.

Lemma tow_parts_true h : 0 <= h < 168 -> tow_parts h = true.
Proof.
  intros H. pose proof tow_parts_all as G. rewrite forallb_forall in G.
  specialize (G (Z.to_nat h)). rewrite Z2Nat.id in G by lia. apply G, in_seq. lia.
Qed.

Lemma gps_to_tm_spec wn h : 0 <= wn < 2 ^ 28 -> 0 <= h < 168 ->
  exists t, gps_to_tm wn (d_of_Z (3600 * h)) = Some t /\ timegm t = 315964800 + wn * 604800 + 3600 * h.
Proof.
  intros Hwn Hh. pose proof (tow_parts_true h Hh) as Hp. unfold tow_parts in Hp.
  repeat (apply andb_true_iff in Hp as [Hp ?%Z.eqb_eq]). apply Z.eqb_eq in Hp.
  unfold gps_to_tm. set (T := d_of_Z (3600 * h)) in *. set (D := dsub T _) in *. cbv zeta.
  rewrite H2. rewrite (u32_id (wn * 7 + h / 24 + 5)) by (unfold is_u32; Z.div_mod_to_equations; lia).
  set (n := wn * 7 + h / 24 + 5). assert (0 <= n) by (unfold n; Z.div_mod_to_equations; lia).
  destruct (year_loop_spec (Z.to_nat (n / 365)) 0 n) as (y & d & -> & Hy & Hdays & Hd); [lia|lia|Z.div_mod_to_equations; lia|].
  cbn [mbind option_bind]. pose proof (month_loop_doy (leap80 y) d ltac:(lia)) as Hm.
  set (i := month_loop _ 0 d) in *. eexists. split; [reflexivity|].
  rewrite (proj2 (Z.ltb_lt 0 i)) by lia. rewrite doy_month by lia. rewrite leap80_spec in * by lia.
  unfold timegm. cbn [tm_year tm_mon tm_mday tm_hour tm_min tm_sec].
  rewrite H, H0, H1, (Z.div_small (i - 1) 12), (Z.mod_small (i - 1) 12) by lia.
  replace (1900 + (1980 + y - 1900) + 0) with (1980 + y) by lia. unfold days_of_civil.
  change (days_before_year 1970) with (days_before_year 1980 - 3652).
  change (1980 + 0) with 1980 in Hdays. unfold n in Hdays. Z.div_mod_to_equations. lia.
Qed.

(** UTC seconds of a count of GPS hours. *)
Definition utc_of_hours (h : Z) : Z := 315964800 + 3600 * h.

(** A time the 32-bit clock holds, in UTC and in local time. *)
Definition clock_fits (gmtoff t : Z) : Prop := is_i32 (t - gmtoff).

Lemma mktime_fits gmtoff t : clock_fits gmtoff (timegm t) -> mktime gmtoff t = timegm t - gmtoff.
Proof.
  unfold clock_fits, is_i32, mktime. intros H.
  rewrite (proj2 (Z.leb_le _ _)), (proj2 (Z.ltb_lt _ _)) by lia. done.
Qed.

Lemma gps_hours_utc gmtoff h : 0 <= h -> 3600 * h < 2 ^ 32 -> clock_fits gmtoff (utc_of_hours h) ->
  GpsToUtcTime gmtoff (3600 * h / 604800) (d_of_Z ((3600 * h) mod 604800)) = Some (utc_of_hours h - gmtoff).
Proof.
  intros H1 H2 Hf. replace ((3600 * h) mod 604800) with (3600 * (h mod 168)) by (Z.div_mod_to_equations; lia).
  unfold GpsToUtcTime.
  destruct (gps_to_tm_spec (3600 * h / 604800) (h mod 168)) as (t & -> & Ht);
    [Z.div_mod_to_equations; lia|apply Z.mod_pos_bound; lia|].
  assert (timegm t = utc_of_hours h) as Ht' by (rewrite Ht; unfold utc_of_hours; Z.div_mod_to_equations; lia).
  cbn [mbind option_bind]. by rewrite mktime_fits, Ht' by (by rewrite Ht').
Qed.

(** The hours in a record's header. *)
Definition record_hours (rec : list Z) : Z := Z.land (le_value (take 4 rec)) 0x00FFFFFF.

Lemma record_hours_range rec : 0 <= record_hours rec < 2 ^ 24.
Proof.
  unfold record_hours. change 0x00FFFFFF with (Z.ones 24). rewrite Z.land_ones by lia.
  apply Z.mod_pos_bound. lia.
Qed.

Lemma record_secs_hours rec : 3600 * record_hours rec < 2 ^ 32 -> record_secs rec = 3600 * record_hours rec.
Proof.
  intros H. unfold record_secs. fold (record_hours rec). pose proof (record_hours_range rec).
  rewrite u32_id by (unfold is_u32; lia). lia.
Qed.

(** The first and the last record of a file. *)
Definition first_record (data : list Z) : list Z := take 72 data.
Definition last_record (data : list Z) : list Z := drop (length data - 72) data.

Definition epo_start (data : list Z) : Z := utc_of_hours (record_hours (first_record data)).
Definition epo_end (data : list Z) : Z := utc_of_hours (record_hours (last_record data) + 6).

(** A file whose times can be represented. *)
Definition epo_file_ok (gmtoff : Z) (data : list Z) : Prop :=
  72 <= zlen data < 2 ^ 31 /\
  3600 * record_hours (first_record data) < 2 ^ 32 /\ 3600 * (record_hours (last_record data) + 6) < 2 ^ 32 /\
  clock_fits gmtoff (epo_start data) /\ clock_fits gmtoff (epo_end data).

Lemma period_start_run data w : epo_file_ok (e_gmtoff (w_env w)) data ->
  mtk_gps_sys_epo_period_start data w = Ok ((0, epo_start data - e_gmtoff (w_env w)), w).
Proof.
  intros (Hl & H1 & H2 & H3 & H4). unfold mtk_gps_sys_epo_period_start, mem_read, MTK_EPO_ONE_SV_SIZE.
  rewrite (proj2 (Z.leb_le (0 + 72) _)) by lia. cbn [Z.leb Z.compare andb].
  change (take (Z.to_nat 72) (drop (Z.to_nat 0) data)) with (first_record data).
  rewrite record_secs_hours by done. unfold bindM at 1, getM. pose proof (record_hours_range (first_record data)).
  by rewrite gps_hours_utc by (done || lia).
Qed.

Lemma read_last_record data : 72 <= zlen data -> mem_read data (zlen data - 72) 72 = Some (last_record data).
Proof.
  intros Hl. unfold mem_read.
  rewrite (proj2 (Z.leb_le 0 (zlen data - 72))), (proj2 (Z.leb_le (zlen data - 72 + 72) _)) by lia.
  cbn [Z.leb Z.compare andb]. f_equal. unfold last_record, zlen in *.
  replace (Z.to_nat (Z.of_nat (length data) - 72)) with (length data - 72)%nat by lia.
  apply take_ge. rewrite length_drop. lia.
Qed.

Lemma period_end_run data w : epo_file_ok (e_gmtoff (w_env w)) data ->
  mtk_gps_sys_get_file_size w = Ok (u32 (zlen data), w) ->
  mtk_gps_sys_epo_period_end data w = Ok ((0, epo_end data - e_gmtoff (w_env w)), w).
Proof.
  intros (Hl & H1 & H2 & H3 & H4) Hs. unfold mtk_gps_sys_epo_period_end. rewrite (bindM_ok _ _ _ _ _ Hs).
  rewrite i32_u32, i32_id by (unfold is_i32; lia). unfold MTK_EPO_ONE_SV_SIZE.
  rewrite (proj2 (Z.ltb_ge (zlen data) 72)) by lia. rewrite read_last_record by lia.
  pose proof (record_hours_range (last_record data)).
  rewrite record_secs_hours by lia. rewrite (u32_id (_ + 21600)) by (unfold is_u32; lia).
  replace (3600 * record_hours (last_record data) + 21600) with (3600 * (record_hours (last_record data) + 6)) by lia.
  unfold bindM at 1, getM. by rewrite gps_hours_utc by (done || lia).
Qed.

(** The file the HAL consults: EPOHAL.DAT before EPO.DAT. *)
Definition current_epo (env : Env) : option (string * File) :=
  match e_files env !! EPO_FILE_HAL, e_files env !! EPO_FILE with
  | Some f, _ => Some (EPO_FILE_HAL, f)
  | None, Some f => Some (EPO_FILE, f)
  | None, None => None
  end.

Lemma file_time_run w path f : current_epo (w_env w) = Some (path, f) -> path ∉ e_unreadable (w_env w) ->
  epo_file_ok (e_gmtoff (w_env w)) (f_data f) ->
  mtk_gps_epo_file_time_hal w =
    Ok ((0, (epo_start (f_data f) - e_gmtoff (w_env w), f_mtime f, epo_end (f_data f) - e_gmtoff (w_env w))), w).
Proof.
  intros Hf Hu Hok. unfold mtk_gps_epo_file_time_hal. unfold bindM at 1, getM. cbv zeta.
  fold (current_epo (w_env w)). rewrite Hf. rewrite bool_decide_eq_false_2 by done.
  rewrite (bindM_ok _ _ _ _ _ (period_start_run _ _ Hok)). cbn [fst snd Z.eqb negb].
  rewrite (bindM_ok _ _ _ (0, epo_end (f_data f) - e_gmtoff (w_env w)) w); [done|].
  assert (mtk_gps_sys_get_file_size w = Ok (u32 (zlen (f_data f)), w)) as Hs.
  { unfold mtk_gps_sys_get_file_size. rewrite (bindM_ok _ _ _ _ _ (read_file_run _ _)), (bindM_ok _ _ _ _ _ (read_file_run _ _)).
    unfold current_epo in Hf. destruct (e_files _ !! EPO_FILE_HAL), (e_files _ !! EPO_FILE); simplify_eq; done. }
  by apply period_end_run.
Qed.

(** * Properties *)

(** the conversion of GPS time to calendar time agrees with the Gregorian
    calendar: for every week number and every full hour of the week the year,
    month and day that the routine finds by subtracting years and comparing month
    starts are those of the instant [wn * 604800 + 3600 * h] seconds after
    6 January 1980, and the loop over the years ends. *)
Theorem gps_to_utc_calendar (wn h : Z) (Hwn : 0 <= wn < 2 ^ 28) (Hh : 0 <= h < 168) :
  exists t, gps_to_tm wn (d_of_Z (3600 * h)) = Some t /\
    timegm t = timegm (mkTm 80 0 6 0 0 0) + wn * 604800 + 3600 * h.
Proof. exact (gps_to_tm_spec wn h Hwn Hh). Qed.

Lemma gps_to_utc_calendar_witness :
  exists t, gps_to_tm 1046 (d_of_Z (3600 * 48)) = Some t /\
    timegm t = timegm (mkTm 80 0 6 0 0 0) + 1046 * 604800 + 3600 * 48.
Proof. apply (gps_to_utc_calendar 1046 48); lia. Defined.

(** the expiry decision is right and does not depend on the time zone: with a
    readable EPO file whose first record starts at [S] and whose last one ends at
    [E] (UTC), the file counts as expired exactly when the current UTC time has
    reached [S] plus the threshold for its length, although every time the
    routine compares is shifted by the local UTC offset. *)
Theorem epo_expiry_decision (wifi : bool) (w : World) (path : string) (f : File)
  (Hf : current_epo (w_env w) = Some (path, f)) (Hu : path ∉ e_unreadable (w_env w))
  (Hok : epo_file_ok (e_gmtoff (w_env w)) (f_data f))
  (Hnow : 0 <= e_now (w_env w) - e_gmtoff (w_env w) < 2 ^ 31) :
  let e := w_epo w in
  let S := epo_start (f_data f) in
  let threshold := expired_set wifi (gps_epo_period e) (wifi_epo_period e) (epo_end (f_data f) - S) in
  exists w', mtk_epo_is_expired wifi w = Ok (c_bool (S + threshold <=? e_now (w_env w)), w').
Proof.
  cbv zeta. unfold mtk_epo_is_expired. unfold bindM at 1, getM at 1. cbv zeta.
  rewrite (bindM_ok _ _ _ _ _ (file_time_run _ _ _ Hf Hu Hok)). unfold bindM at 1, getM at 1.
  assert (u32 (mktime (e_gmtoff (w_env w)) (gmtime (e_now (w_env w)))) = e_now (w_env w) - e_gmtoff (w_env w)) as ->.
  { rewrite mktime_fits; rewrite timegm_gmtime; [apply u32_id; unfold is_u32; lia|]. unfold clock_fits, is_i32. lia. }
  replace (epo_end (f_data f) - e_gmtoff (w_env w) - (epo_start (f_data f) - e_gmtoff (w_env w)))
    with (epo_end (f_data f) - epo_start (f_data f)) by lia.
  set (th := expired_set _ _ _ _).
  destruct (Z.leb_spec (th + (epo_start (f_data f) - e_gmtoff (w_env w))) (e_now (w_env w) - e_gmtoff (w_env w)));
    destruct (Z.leb_spec (epo_start (f_data f) + th) (e_now (w_env w))); try lia; eexists; reflexivity.
Qed.

(** Two records: hour 316000 (2016) and 18 hours later. *)
Definition demo_epo : list Z := le_bytes 4 316000 ++ zeros 68 ++ le_bytes 4 316012 ++ zeros 68.
Definition demo_env : Env := quiet_env
  <| e_files := {[ EPO_FILE_HAL := mkFile demo_epo 0 ]} |> <| e_now := 1453700000 |> <| e_gmtoff := 3600 |>.

Lemma epo_expiry_decision_witness :
  exists w', mtk_epo_is_expired true (world0 7 all_cbs demo_env) = Ok (1, w').
Proof.
  apply (epo_expiry_decision true (world0 7 all_cbs demo_env) EPO_FILE_HAL (mkFile demo_epo 0)).
  - vm_compute. reflexivity.
  - apply not_elem_of_empty.
  - unfold epo_file_ok, clock_fits, is_i32. split_and!; vm_compute; congruence.
  - split; [vm_compute; discriminate|vm_compute; reflexivity].
Defined.
