(* ===== verification/EpoFile.v ===== *)
(** The EPO download of the GPS HAL (src/hal/gps/hal/gps_mtk_aosp.c): fetching a
    piece with its checksum key, appending it to the merged file, detecting that
    the server has new data, the progress over the pieces, and one round of the
    download thread. The download library and the URL builder of libepos are not
    part of the sources: the outcomes of downloads come from the environment and
    the URL builder is a parameter. *)

From stdpp Require Import base list gmap strings numbers.
From Stdlib Require Import ZArith Lia SpecFloat.
From S2P Require Import Prelude CFloat CTime GpsTypes Buff Daemon Agps EpoConf EpoTime.

Local Open Scope Z_scope.
Local Open Scope st_scope.
Local Open Scope rec_scope.

Definition CURLE_OK := 0.
Definition CURLE_FAILED_INIT := 2.
Definition CURLE_COULDNT_CONNECT := 7.

Definition gps_dir : string := "/data/misc/gps/".
Definition path_of (name : string) : string := (gps_dir ++ name)%string.

Definition readable (path : string) : HAL (option (list Z)) :=
  gets (fun w => if bool_decide (path ∈ e_unreadable (w_env w)) then None else f_data <$> e_files (w_env w) !! path).

Definition epo_mod (f : EpoState -> EpoState) : HAL unit := modM (fun w => w <| w_epo := f (w_epo w) |>).

(** gps_mtk_aosp.c:5211-5247 [curl_easy_download] with its write callback
    [write_data]. *)
Definition curl_easy_download (url : list Z) (filename : string) : HAL Z :=
  let* w := getM in
  let r := match e_curl (w_env w) with [] => CurlDone CURLE_COULDNT_CONNECT [] | r :: _ => r end in
  modM (fun w => w <| w_env := (w_env w) <| e_curl := tail (e_curl (w_env w)) |> |>) ;;
  match r with
  | CurlNull => retM CURLE_FAILED_INIT
  | CurlDone code bytes =>
      let* ok := write_file filename bytes in
      if ok : bool then emit (EvDownload url filename) ;; retM code
      else retM CURLE_FAILED_INIT
  end.

(** gps_mtk_aosp.c:5340-5347 [curl_easy_download_epo, copy loop] 256 bytes at a
    time. *)
Fixpoint copy_chunks (fuel : nat) (src dst : list Z) : list Z :=
  match fuel with
  | O => dst
  | S fuel' =>
      match take 256 src with
      | [] => dst
      | data => copy_chunks fuel' (drop 256 src) (dst ++ data)
      end
  end.

(** [sprintf (count_str, "%d", counter)] into an array of 5. *)
Definition count_str (counter : Z) : option (list Z) :=
  arr ← mem_write (zeros 5) 0 (print_int counter ++ [0]); Some (cstr arr).

Definition zero_key : list Z := str "0000000000000000".

Section Download.
(** The URL of a file for a key, [None] for a null pointer (libepos). *)
Context (getEpoUrl : string -> list Z -> option (list Z)).

(** gps_mtk_aosp.c:5281-5303 [curl_easy_download_epo, key] the key of the data file:
    bytes 32 to 47 of the checksum file, which is removed. *)
Definition epo_md_key (res : Z) (md_file : string) : HAL (list Z) :=
  if res =? 0 then
    let* fp := readable md_file in
    let* key := (match fp with
                 | Some data =>
                     unlink md_file ;;
                     retM (cstr (take 16 (drop 32 (take 48 data ++ zeros 70))))
                 | None => retM zero_key
                 end) in
    epo_mod (fun e => e <| epo_counter := 1 |>) ;;
    retM key
  else
    epo_mod (fun e => e <| epo_counter := epo_counter e + 1 |>) ;;
    retM zero_key.

(** gps_mtk_aosp.c:5321-5358 [curl_easy_download_epo, merge]. *)
Definition epo_merge (data_file : string) : HAL unit :=
  epo_mod (fun e => e <| epo_counter := 1 |>) ;;
  let* w := getM in
  (if gps_epo_file_count (w_epo w) =? 0 then unlink EPO_FILE_HAL else retM tt) ;;
  let* old := read_file EPO_FILE_HAL in
  let* piece := readable data_file in
  let old := default [] old in
  let* _ := write_file EPO_FILE_HAL
              (match piece with Some data => copy_chunks (S (length data)) data old | None => old end) in
  retM tt.

(** gps_mtk_aosp.c:5250-5364 [curl_easy_download_epo]. *)
Definition curl_easy_download_epo : HAL Z :=
  let* w := getM in
  let e := w_epo w in
  let md_file := path_of (gps_epo_md_file_name e) in
  let* cs := of_option (count_str (epo_counter e)) in
  match getEpoUrl (gps_epo_md_file_name e) (zero_key ++ str "&counter=" ++ cs) with
  | None => retM CURLE_FAILED_INIT
  | Some md_url =>
      let* res := curl_easy_download md_url md_file in
      let* key := epo_md_key res md_file in
      let* w := getM in
      let* cs := of_option (count_str (epo_counter (w_epo w))) in
      match getEpoUrl (gps_epo_file_name e) (key ++ str "&counter=" ++ cs) with
      | None => retM CURLE_FAILED_INIT
      | Some url =>
          let data_file := path_of (gps_epo_file_name e) in
          let* res := curl_easy_download url data_file in
          (if res =? CURLE_OK then epo_merge data_file
           else unlink data_file ;; epo_mod (fun e => e <| epo_counter := epo_counter e + 1 |>)) ;;
          retM res
      end
  end.

(** gps_mtk_aosp.c:5366-5431 [mtk_gps_epo_file_update_hal]. *)
Definition mtk_gps_epo_file_update_hal : HAL Z :=
  let* res := curl_easy_download_epo in
  if negb (res =? CURLE_OK) then epo_mod (fun e => e <| epo_download_failed := 1 |>) ;; retM (-1)
  else retM 0.

(** gps_mtk_aosp.c:5432-5448 [mtk_gps_epo_get_piece_file_size]. *)
Definition mtk_gps_epo_get_piece_file_size : HAL Z :=
  let* w := getM in
  match e_files (w_env w) !! path_of (gps_epo_file_name (w_epo w)) with
  | Some f => retM (u32 (zlen (f_data f)))
  | None => retM 0
  end.

(** gps_mtk_aosp.c:5449-5468 [mtk_gps_epo_piece_data_start]. *)
Definition mtk_gps_epo_piece_data_start (data : list Z) : HAL (Z * Z) := mtk_gps_sys_epo_period_start data.

(** gps_mtk_aosp.c:5470-5504 [mtk_gps_epo_piece_data_end]. *)
Definition mtk_gps_epo_piece_data_end (data : list Z) : HAL (Z * Z) :=
  let* size := mtk_gps_epo_get_piece_file_size in
  let fileSize := i32 size in
  if fileSize <? MTK_EPO_ONE_SV_SIZE then retM (-1, 0)
  else
    match mem_read data (fileSize - MTK_EPO_ONE_SV_SIZE) MTK_EPO_ONE_SV_SIZE with
    | None => retM (-1, 0)
    | Some szBuf =>
        let u4GpsSecs := u32 (record_secs szBuf + 21600) in
        let* w := getM in
        let* t := of_option (GpsToUtcTime (e_gmtoff (w_env w)) (u4GpsSecs / 604800) (d_of_Z (u4GpsSecs mod 604800))) in
        retM (0, t)
    end.

(** gps_mtk_aosp.c:5568-5575 [mtk_gps_epo_server_data_is_changed, removal loop] [n] is
    [i + 1]. *)
Fixpoint unlink_pieces_down (n : nat) : HAL unit :=
  match n with
  | O => retM tt
  | S i =>
      epo_mod (gps_download_epo_file_name (Z.of_nat i)) ;;
      let* w := getM in
      unlink (path_of (gps_epo_file_name (w_epo w))) ;;
      unlink_pieces_down i
  end.

(** gps_mtk_aosp.c:5519-5537 [mtk_gps_epo_server_data_is_changed, start] the value of
    [ret] and the start time of the new piece. *)
Definition piece_start_time : HAL (Z * Z) :=
  let* w := getM in
  let* f := readable (path_of (gps_epo_file_name (w_epo w))) in
  match f with
  | Some data =>
      let* r := mtk_gps_epo_piece_data_start data in
      if fst r =? 0 then retM (0, snd r)
      else epo_mod (fun e => e <| epo_download_failed := 1 |>) ;; retM (1, 0)
  | None => retM (0, 0)
  end.

(** gps_mtk_aosp.c:5538-5557 [mtk_gps_epo_server_data_is_changed, end] of the piece
    before. *)
Definition piece_end_time (ret : Z) : HAL (Z * Z) :=
  let* w := getM in
  epo_mod (gps_download_epo_file_name (gps_epo_file_count (w_epo w) - 1)) ;;
  let* w := getM in
  let* f := readable (path_of (gps_epo_file_name (w_epo w))) in
  match f with
  | Some data =>
      let* r := mtk_gps_epo_piece_data_end data in
      if fst r =? 0 then retM (ret, snd r)
      else epo_mod (fun e => e <| epo_download_failed := 1 |>) ;; retM (1, 0)
  | None => retM (ret, 0)
  end.

(** gps_mtk_aosp.c:5505-5581 [mtk_gps_epo_server_data_is_changed]. *)
Definition mtk_gps_epo_server_data_is_changed : HAL Z :=
  let* s := piece_start_time in
  let '(ret, uTime_start) := s in
  let* w := getM in
  let count := gps_epo_file_count (w_epo w) in
  let* t := (if 0 <? count then piece_end_time ret
             else retM (ret, if count =? 0 then uTime_start else 0)) in
  let '(ret, uTime_end) := t in
  if 24 * 60 * 60 <=? uTime_start - uTime_end then
    unlink_pieces_down (Z.to_nat (count + 1)) ;;
    unlink EPO_FILE_HAL ;;
    epo_mod (fun e => e <| gps_epo_file_count := 0 |>) ;;
    retM 1
  else retM ret.

(** gps_mtk_aosp.c:5619-5626 [mtk_gps_epo_file_update, removal loop] from piece [i],
    [n] pieces. *)
Fixpoint unlink_pieces_up (n : nat) (i : Z) : HAL unit :=
  match n with
  | O => retM tt
  | S n' =>
      epo_mod (gps_download_epo_file_name i) ;;
      let* w := getM in
      unlink (path_of (gps_epo_file_name (w_epo w))) ;;
      unlink_pieces_up n' (i + 1)
  end.

(** gps_mtk_aosp.c:5603-5607 [mtk_gps_epo_file_update, count] the number of pieces
    for a number of days, three days each. *)
Definition piece_count (days : Z) : Z := Z.quot days 3 + (if 0 <? Z.rem days 3 then 1 else 0).

(** gps_mtk_aosp.c:5603-5656 [mtk_gps_epo_file_update, progress] go on with the next
    piece, or remove the pieces and tell the daemon. *)
Definition epo_update_progress (ret : Z) : HAL Z :=
  let* w := getM in
  let count_temp := piece_count (gps_epo_download_days (w_epo w)) in
  let count := gps_epo_file_count (w_epo w) in
  if (count <? 10) && (count <? count_temp) then retM 0
  else
    unlink_pieces_up (Z.to_nat count_temp) 0 ;;
    modM (fun w => w <| w_state := (w_state w) <| st_epo_data_updated := 0 |> |>
                     <| w_epo := (w_epo w) <| gps_epo_file_count := 0 |> <| epo_download_failed :=
                          if epo_download_failed (w_epo w) =? 1 then 0 else epo_download_failed (w_epo w) |> |>) ;;
    let* w := getM in
    if truth (w_started w) then
      unlink EPO_FILE ;;
      let* b := of_option (buff_put_int (mnl_cmd MNL_CMD_UPDATE_EPO_FILE) (zeros 1024, 0)) in
      mtk_daemon_send (w_sock w) MTK_HAL2MNLD b.1
    else retM ret.

(** gps_mtk_aosp.c:5583-5652 [mtk_gps_epo_file_update]. *)
Definition mtk_gps_epo_file_update : HAL Z :=
  let* ret := mtk_gps_epo_file_update_hal in
  if ret <? 0 then retM (-1)
  else
    let* is_changed := mtk_gps_epo_server_data_is_changed in
    if is_changed =? 1 then retM (-1)
    else
      epo_mod (fun e => e <| gps_epo_file_count := gps_epo_file_count e + 1 |>) ;;
      epo_update_progress ret.

(** gps_mtk_aosp.c:260-260 [C_INVALID_TIMER]. *)
Definition C_INVALID_TIMER : Z := -1.

(** gps_mtk_aosp.c:4620-4652 [set_retry_alarm_handler]. *)
Definition set_retry_alarm_handler (timeout : Z) : HAL Z :=
  let* w := getM in
  let os := e_os (w_env w) in
  let* deleted :=
    (if retry_timer_fd (w_epo w) =? C_INVALID_TIMER then retM true
     else if truth (os_timer_delete os) then retM false
     else epo_mod (fun e => e <| retry_timer_fd := C_INVALID_TIMER |>) ;; retM true) in
  if negb deleted then retM (-1)
  else
    let* w := getM in
    let* created :=
      (if retry_timer_fd (w_epo w) =? C_INVALID_TIMER then
         match os_timer_create os with
         | None => retM false
         | Some fd => epo_mod (fun e => e <| retry_timer_fd := fd |>) ;; retM true
         end
       else retM true) in
    if negb created then retM (-1)
    else if truth (os_timer_settime os) then retM (-1)
    else emit (EvRetryTimer timeout) ;; retM 0.

(** gps_mtk_aosp.c:4611-4618 [retry_alarm_handler]. *)
Definition retry_alarm_handler : HAL unit := epo_mod (fun e => e <| epo_download_retry := 1 |>).

(** gps_mtk_aosp.c:4711-4729 [thread_epo_file_update, retry count] when the round made
    no progress. *)
Definition epo_retry_count : HAL unit :=
  let* w := getM in
  let e := w_epo w in
  let count := gps_epo_file_count e in
  (if epo_file_retrying e =? count then epo_mod (fun e => e <| epo_retry_time := epo_retry_time e + 1 |>)
   else epo_mod (fun e => e <| epo_file_retrying := count |> <| epo_retry_time := 0 |>)) ;;
  let* w := getM in
  if epo_retry_time (w_epo w) <? 10 then
    epo_mod (fun e => e <| epo_download_retry := 0 |>) ;;
    set_retry_alarm_handler 15 ;; retM tt
  else
    epo_mod (fun e => e <| epo_download_failed := 0 |> <| epo_retry_time := 0 |> <| epo_file_retrying := 50 |>).

(** gps_mtk_aosp.c:4680-4730 [thread_epo_file_update, resume] a download that failed. *)
Definition epo_resume : HAL unit :=
  epo_mod (fun e => if epo_file_retrying e =? 50 then e <| epo_file_retrying := gps_epo_file_count e |> else e) ;;
  let* w := getM in
  let file_count_temp := gps_epo_file_count (w_epo w) in
  let time_utc := u32 (mktime (e_gmtoff (w_env w)) (gmtime (e_now (w_env w)))) in
  let* r := mtk_gps_epo_file_time_hal in
  let '(_, (uTime0, _, _)) := r in
  (if uTime0 + 24 * 60 * 60 <=? time_utc then
     modM (fun w => w <| w_epo := (w_epo w) <| epo_download_failed := 0 |> <| gps_epo_file_count := 0 |> |>
                      <| w_state := (w_state w) <| st_epo_data_updated := 1 |> |>) ;;
     unlink EPO_FILE_HAL
   else
     epo_mod (fun e => gps_download_epo_file_name (gps_epo_file_count e) e) ;;
     mtk_gps_epo_file_update ;; retM tt) ;;
  let* w := getM in
  if file_count_temp =? gps_epo_file_count (w_epo w) then epo_retry_count else retM tt.

(** gps_mtk_aosp.c:4659-4753 [thread_epo_file_update, round] one round of the thread:
    [None] when it leaves, otherwise the delay before the next round. *)
Definition epo_round : HAL (option Z) :=
  let* w := getM in
  if st_thread_epo_exit_flag (w_state w) =? 1 then
    release_condition M_THREAD_EXIT ;; retM None
  else
    gps_download_epo_enable ;;
    let* w := getM in
    (if st_epo_data_updated (w_state w) =? 1 then
       epo_mod (fun e => e <| epo_download_failed := 0 |>) ;;
       epo_mod (fun e => gps_download_epo_file_name (gps_epo_file_count e) e) ;;
       mtk_gps_epo_file_update ;;
       modM (fun w => if epo_download_failed (w_epo w) =? 1
                      then w <| w_state := (w_state w) <| st_epo_data_updated := 0 |> |> else w)
     else retM tt) ;;
    let* w := getM in
    (if truth (w_started w) || (w_nw_type w =? nw_wifi) then
       if truth (w_nw_connected w) && truth (epo_download_failed (w_epo w)) && truth (epo_download_retry (w_epo w))
       then epo_resume else retM tt
     else retM tt) ;;
    let* w := getM in
    (if (st_epo_data_updated (w_state w) =? 0) && truth (gps_epo_wifi_trigger (w_epo w)) && truth (gps_epo_enable (w_epo w)) then
       if (epo_download_failed (w_epo w) =? 0) && truth (w_nw_connected w) && (w_nw_type w =? nw_wifi) then
         let* expired := mtk_epo_is_expired true in
         if truth expired then gps_download_epo ;; unlink EPO_FILE_HAL else retM tt
       else retM tt
     else retM tt) ;;
    let* w := getM in
    retM (Some (if (st_epo_data_updated (w_state w) =? 0) && (epo_download_failed (w_epo w) =? 0) then 2000 else 100)).
End Download.

(** * Lemmas *)

Lemma copy_chunks_all fuel src dst : (length src <= 256 * fuel)%nat -> copy_chunks fuel src dst = dst ++ src.
Proof.
  revert src dst. induction fuel as [|fuel IH]; intros src dst H.
  { destruct src; [by rewrite app_nil_r|cbn in H; lia]. }
  cbn [copy_chunks].
  destruct (take 256 src) as [|b l] eqn:E.
  - destruct src; [by rewrite app_nil_r|done].
  - rewrite IH by (rewrite length_drop; lia). rewrite <- app_assoc. f_equal.
    rewrite <- (take_drop 256 src) at 2. by rewrite E.
Qed.

(** The names of the pieces. *)
Definition dat_name (t : Z) (i : nat) : string :=
  ((if Z.eqb t 1 then "EPO_GPS_3_" else "EPO_GR_3_") ++ nth i piece_numbers "" ++ ".DAT")%string.
Definition md_name (t : Z) (i : nat) : string :=
  ((if Z.eqb t 1 then "EPO_GPS_3_" else "EPO_GR_3_") ++ nth i piece_numbers "" ++ ".MD5")%string.

Definition epo_type_ok (t : Z) : Prop := t = 0 \/ t = 1.

Lemma file_name_piece i e : (i < 10)%nat -> epo_type_ok (gps_epo_type e) ->
  gps_download_epo_file_name (Z.of_nat i) e =
    e <| gps_epo_file_name := dat_name (gps_epo_type e) i |> <| gps_epo_md_file_name := md_name (gps_epo_type e) i |>.
Proof.
  intros Hi Ht. unfold gps_download_epo_file_name, dat_name, md_name.
  rewrite (proj2 (Z.ltb_ge _ _)), Nat2Z.id by lia.
  destruct (nth_lookup_or_length piece_numbers i "") as [->|Hl]; [|cbn in Hl; lia].
  destruct Ht as [-> | ->]; reflexivity.
Qed.

(** All files of a download are different. *)
Definition all_paths (t : Z) : list string :=
  [EPO_FILE; EPO_FILE_HAL] ++ map (fun i => path_of (dat_name t i)) (seq 0 10) ++ map (fun i => path_of (md_name t i)) (seq 0 10).

Lemma all_paths_NoDup t : epo_type_ok t -> NoDup (all_paths t).
Proof. intros [-> | ->]; apply (bool_decide_unpack _); vm_compute; exact I. Qed.

Lemma all_paths_dat t i : (i < 10)%nat -> all_paths t !! (2 + i)%nat = Some (path_of (dat_name t i)).
Proof.
  intros Hi. unfold all_paths. rewrite lookup_app_r by (cbn; lia). replace (2 + i - length [EPO_FILE; EPO_FILE_HAL])%nat with i by (cbn; lia).
  rewrite lookup_app_l by (rewrite length_map, length_seq; lia).
  change (map ?f ?l) with (f <$> l). rewrite list_lookup_fmap, lookup_seq_lt by lia. done.
Qed.

Lemma all_paths_md t i : (i < 10)%nat -> all_paths t !! (12 + i)%nat = Some (path_of (md_name t i)).
Proof.
  intros Hi. unfold all_paths. rewrite lookup_app_r by (cbn; lia). replace (12 + i - length [EPO_FILE; EPO_FILE_HAL])%nat with (10 + i)%nat by (cbn; lia).
  rewrite lookup_app_r by (rewrite length_map, length_seq; lia). rewrite length_map, length_seq.
  replace (10 + i - 10)%nat with i by lia.
  change (map ?f ?l) with (f <$> l). rewrite list_lookup_fmap, lookup_seq_lt by lia. done.
Qed.

Section Paths.
Context (t : Z) (Ht : epo_type_ok t).

Lemma dat_ne_dat i j : (i < 10)%nat -> (j < 10)%nat -> i <> j -> path_of (dat_name t i) <> path_of (dat_name t j).
Proof.
  intros Hi Hj Hne E. pose proof (all_paths_dat t i Hi) as H1. pose proof (all_paths_dat t j Hj) as H2.
  rewrite E in H1. pose proof (NoDup_lookup _ _ _ _ (all_paths_NoDup t Ht) H1 H2). lia.
Qed.
Lemma dat_ne_md i j : (i < 10)%nat -> (j < 10)%nat -> path_of (dat_name t i) <> path_of (md_name t j).
Proof.
  intros Hi Hj E. pose proof (all_paths_dat t i Hi) as H1. pose proof (all_paths_md t j Hj) as H2.
  rewrite E in H1. pose proof (NoDup_lookup _ _ _ _ (all_paths_NoDup t Ht) H1 H2). lia.
Qed.
Lemma dat_ne_hal i : (i < 10)%nat -> path_of (dat_name t i) <> EPO_FILE_HAL.
Proof.
  intros Hi E. pose proof (all_paths_dat t i Hi) as H1. assert (all_paths t !! 1%nat = Some EPO_FILE_HAL) as H2 by done.
  rewrite E in H1. pose proof (NoDup_lookup _ _ _ _ (all_paths_NoDup t Ht) H1 H2). lia.
Qed.
Lemma md_ne_hal i : (i < 10)%nat -> path_of (md_name t i) <> EPO_FILE_HAL.
Proof.
  intros Hi E. pose proof (all_paths_md t i Hi) as H1. assert (all_paths t !! 1%nat = Some EPO_FILE_HAL) as H2 by done.
  rewrite E in H1. pose proof (NoDup_lookup _ _ _ _ (all_paths_NoDup t Ht) H1 H2). lia.
Qed.
End Paths.

(** Replacing the files. *)
Definition with_files (files : gmap string File) (w : World) : World :=
  w <| w_env := (w_env w) <| e_files := files |> |>.

Definition with_epo (f : EpoState -> EpoState) (w : World) : World := w <| w_epo := f (w_epo w) |>.

Definition writable (w : World) : Prop := e_readonly (w_env w) = ∅ /\ e_unreadable (w_env w) = ∅.

Lemma download_run url path w code bytes rest : writable w -> e_curl (w_env w) = CurlDone code bytes :: rest ->
  curl_easy_download url path w =
    Ok (code, (with_files (<[path := mkFile bytes (e_now (w_env w))]> (e_files (w_env w))) w)
                <| w_env := (w_env w) <| e_curl := rest |>
                    <| e_files := <[path := mkFile bytes (e_now (w_env w))]> (e_files (w_env w)) |> |>
                <| w_trace := w_trace w ++ [EvDownload url path] |>).
Proof.
  intros [Hro Hur] Hc. unfold curl_easy_download. unfold bindM at 1, getM. rewrite Hc. unfold bindM at 1, modM.
  rewrite (bindM_ok _ _ _ true (w <| w_env := (w_env w) <| e_curl := rest |>
                    <| e_files := <[path := mkFile bytes (e_now (w_env w))]> (e_files (w_env w)) |> |>)).
  - reflexivity.
  - rewrite write_file_run by (cbn; rewrite Hro; apply not_elem_of_empty). by rewrite Hc.
Qed.

Lemma readable_run path w : e_unreadable (w_env w) = ∅ ->
  readable path w = Ok (f_data <$> e_files (w_env w) !! path, w).
Proof. intros H. unfold readable, gets, bindM, getM, retM. rewrite bool_decide_eq_false_2; [done|]. rewrite H. apply not_elem_of_empty. Qed.

Section Session.
Context (getEpoUrl : string -> list Z -> option (list Z)) (Hurl : forall n k, is_Some (getEpoUrl n k)).

Lemma md_key_run md_file w f : e_unreadable (w_env w) = ∅ -> e_files (w_env w) !! md_file = Some f ->
  exists key, epo_md_key 0 md_file w =
    Ok (key, with_epo (fun e => e <| epo_counter := 1 |>) (with_files (delete md_file (e_files (w_env w))) w)).
Proof.
  intros Hu Hf. eexists. unfold epo_md_key. cbn [Z.eqb].
  rewrite (bindM_ok _ _ _ _ _ (readable_run _ _ Hu)), Hf. reflexivity.
Qed.

Lemma merge_run data_file w p old : writable w ->
  f_data <$> e_files (w_env w) !! data_file = Some p -> data_file <> EPO_FILE_HAL ->
  (gps_epo_file_count (w_epo w) = 0 -> old = []) ->
  (gps_epo_file_count (w_epo w) <> 0 -> f_data <$> e_files (w_env w) !! EPO_FILE_HAL = Some old) ->
  exists files, epo_merge data_file w = Ok (tt, with_epo (fun e => e <| epo_counter := 1 |>) (with_files files w)) /\
    files !! EPO_FILE_HAL = Some (mkFile (old ++ p) (e_now (w_env w))) /\
    (forall path, path <> EPO_FILE_HAL -> files !! path = e_files (w_env w) !! path).
Proof.
  intros [Hro Hur] Hp Hne Hz Hnz. unfold epo_merge. unfold bindM at 1, epo_mod, modM. unfold bindM at 1, getM.
  cbn [w_epo gps_epo_file_count]. set (w1 := w <| w_epo := _ |>).
  change (gps_epo_file_count (w_epo w1)) with (gps_epo_file_count (w_epo w)).
  set (w2 := if gps_epo_file_count (w_epo w) =? 0 then with_files (delete EPO_FILE_HAL (e_files (w_env w))) w1 else w1).
  rewrite (bindM_ok _ _ w1 tt w2) by (unfold w2; destruct (_ =? 0); reflexivity).
  rewrite (bindM_ok _ _ _ _ _ (read_file_run _ _)).
  assert (e_unreadable (w_env w2) = ∅) as Hu2 by (unfold w2; destruct (_ =? 0); done).
  rewrite (bindM_ok _ _ _ _ _ (readable_run _ _ Hu2)).
  assert (f_data <$> e_files (w_env w2) !! data_file = Some p) as ->.
  { unfold w2. destruct (_ =? 0); [|done]. cbn. by rewrite lookup_delete_ne. }
  assert (default [] (f_data <$> e_files (w_env w2) !! EPO_FILE_HAL) = old) as ->.
  { unfold w2. destruct (Z.eqb_spec (gps_epo_file_count (w_epo w)) 0) as [E|E]; cbn.
    - rewrite lookup_delete_eq. by rewrite Hz.
    - by rewrite Hnz. }
  rewrite copy_chunks_all by lia.
  assert (EPO_FILE_HAL ∉ e_readonly (w_env w2)) as Hro2
    by (unfold w2; destruct (_ =? 0); cbn; rewrite Hro; apply not_elem_of_empty).
  rewrite (bindM_ok _ _ _ _ _ (write_file_run _ _ _ Hro2)).
  exists (<[EPO_FILE_HAL := mkFile (old ++ p) (e_now (w_env w2))]> (e_files (w_env w2))). split_and!.
  - unfold w2, w1, with_epo, with_files. destruct (_ =? 0); reflexivity.
  - rewrite lookup_insert_eq. unfold w2. by destruct (_ =? 0).
  - intros path Hpath. rewrite lookup_insert_ne by done. unfold w2. destruct (_ =? 0); [|done]. cbn. by rewrite lookup_delete_ne.
Qed.

(** A world after a step of the download: other files, fewer outcomes, more trace. *)
Definition after (w : World) (e : EpoState) (files : gmap string File) (rest : list curl_result) (tr : list event) : World :=
  w <| w_epo := e |> <| w_env := (w_env w) <| e_curl := rest |> <| e_files := files |> |> <| w_trace := w_trace w ++ tr |>.

Lemma download_piece w md p rest old :
  let D := path_of (gps_epo_file_name (w_epo w)) in
  let M := path_of (gps_epo_md_file_name (w_epo w)) in
  writable w -> epo_counter (w_epo w) = 1 -> e_curl (w_env w) = CurlDone 0 md :: CurlDone 0 p :: rest ->
  D <> EPO_FILE_HAL -> M <> EPO_FILE_HAL -> D <> M ->
  (gps_epo_file_count (w_epo w) = 0 -> old = []) ->
  (gps_epo_file_count (w_epo w) <> 0 -> f_data <$> e_files (w_env w) !! EPO_FILE_HAL = Some old) ->
  exists files tr, curl_easy_download_epo getEpoUrl w = Ok (0, after w (w_epo w) files rest tr) /\
    files !! EPO_FILE_HAL = Some (mkFile (old ++ p) (e_now (w_env w))) /\
    files !! D = Some (mkFile p (e_now (w_env w))) /\
    (forall path, path <> EPO_FILE_HAL -> path <> D -> path <> M -> files !! path = e_files (w_env w) !! path).
Proof.
  intros D M [Hro Hur] Hcnt Hcurl HD HM HDM Hz Hnz. unfold curl_easy_download_epo. unfold bindM at 1, getM. cbv zeta.
  rewrite Hcnt. change (count_str 1) with (Some [49]). cbn [of_option]. unfold bindM at 1, retM at 1.
  destruct (Hurl (gps_epo_md_file_name (w_epo w)) (zero_key ++ str "&counter=" ++ [49])) as [u1 ->].
  fold M. rewrite (bindM_ok _ _ _ _ _ (download_run u1 M w 0 md _ (conj Hro Hur) Hcurl)). set (w1 := set w_trace _ _).
  destruct (md_key_run M w1 (mkFile md (e_now (w_env w)))) as [key Ek]; [exact Hur|cbn; by rewrite lookup_insert_eq|].
  rewrite (bindM_ok _ _ _ _ _ Ek). set (w2 := with_epo _ _). unfold bindM at 1, getM.
  change (count_str (epo_counter (w_epo w2))) with (Some [49]). cbn [of_option]. unfold bindM at 1, retM at 1.
  destruct (Hurl (gps_epo_file_name (w_epo w)) (key ++ str "&counter=" ++ [49])) as [u2 ->].
  fold D. rewrite (bindM_ok _ _ _ _ _ (download_run u2 D w2 0 p rest (conj Hro Hur) eq_refl)). set (w3 := set w_trace _ _).
  cbn [Z.eqb CURLE_OK].
  destruct (merge_run D w3 p old) as (files & Em & Hhal & Hoth).
  - split; [exact Hro|exact Hur].
  - cbn. by rewrite lookup_insert_eq.
  - done.
  - exact Hz.
  - intros H. cbn. rewrite lookup_insert_ne, lookup_delete_ne, lookup_insert_ne by done. by apply Hnz.
  - rewrite (bindM_ok _ _ _ _ _ Em). exists files, [EvDownload u1 M; EvDownload u2 D]. split_and!.
    + unfold retM. do 2 f_equal. unfold with_epo, with_files, after, w3, w2, w1. cbn.
      rewrite <- app_assoc. destruct w as [? ? ? ? [] ? ? ? ? ? ? ? ? ? ? ? ? [] ?]; cbn in *. by rewrite Hcnt.
    + exact Hhal.
    + rewrite Hoth by done. cbn. by rewrite lookup_insert_eq.
    + intros path H1 H2 H3. rewrite Hoth by done. cbn. by rewrite lookup_insert_ne, lookup_delete_ne, lookup_insert_ne by done.
Qed.
End Session.

(** * Continuity of the pieces *)

Lemma piece_end_run data w f : epo_file_ok (e_gmtoff (w_env w)) data ->
  e_files (w_env w) !! path_of (gps_epo_file_name (w_epo w)) = Some f -> f_data f = data ->
  mtk_gps_epo_piece_data_end data w = Ok ((0, epo_end data - e_gmtoff (w_env w)), w).
Proof.
  intros (Hl & H1 & H2 & H3 & H4) Hf Hd. unfold mtk_gps_epo_piece_data_end.
  rewrite (bindM_ok _ _ w (u32 (zlen data)) w) by (unfold mtk_gps_epo_get_piece_file_size, bindM, getM; by rewrite Hf, Hd).
  rewrite i32_u32, i32_id by (unfold is_i32; lia). unfold MTK_EPO_ONE_SV_SIZE.
  rewrite (proj2 (Z.ltb_ge (zlen data) 72)) by lia. rewrite read_last_record by lia.
  pose proof (record_hours_range (last_record data)).
  rewrite record_secs_hours by lia. rewrite (u32_id (_ + 21600)) by (unfold is_u32; lia).
  replace (3600 * record_hours (last_record data) + 21600) with (3600 * (record_hours (last_record data) + 6)) by lia.
  unfold bindM at 1, getM. by rewrite gps_hours_utc by (done || lia).
Qed.

(** [prev] and [p] are consecutive pieces: less than a day between them. *)
Definition continuous (prev p : list Z) : Prop := epo_start p - epo_end prev < 86400.

Lemma server_unchanged_first w p : e_unreadable (w_env w) = ∅ -> epo_file_ok (e_gmtoff (w_env w)) p ->
  gps_epo_file_count (w_epo w) = 0 ->
  f_data <$> e_files (w_env w) !! path_of (gps_epo_file_name (w_epo w)) = Some p ->
  mtk_gps_epo_server_data_is_changed w = Ok (0, w).
Proof.
  intros Hu Hok Hc Hf. unfold mtk_gps_epo_server_data_is_changed.
  rewrite (bindM_ok _ _ w (0, epo_start p - e_gmtoff (w_env w)) w).
  - unfold bindM at 1, getM. rewrite Hc. cbn [Z.ltb Z.compare Z.eqb]. unfold bindM at 1, retM at 1. by rewrite Z.sub_diag.
  - unfold piece_start_time. unfold bindM at 1, getM. rewrite (bindM_ok _ _ _ _ _ (readable_run _ _ Hu)), Hf.
    unfold mtk_gps_epo_piece_data_start. by rewrite (bindM_ok _ _ _ _ _ (period_start_run _ _ Hok)).
Qed.

Lemma server_unchanged_next w i p prev f : e_unreadable (w_env w) = ∅ ->
  epo_file_ok (e_gmtoff (w_env w)) p -> epo_file_ok (e_gmtoff (w_env w)) prev -> continuous prev p ->
  epo_type_ok (gps_epo_type (w_epo w)) -> (i < 9)%nat ->
  gps_epo_file_count (w_epo w) = Z.of_nat (S i) ->
  f_data <$> e_files (w_env w) !! path_of (gps_epo_file_name (w_epo w)) = Some p ->
  e_files (w_env w) !! path_of (dat_name (gps_epo_type (w_epo w)) i) = Some f -> f_data f = prev ->
  mtk_gps_epo_server_data_is_changed w = Ok (0, with_epo (gps_download_epo_file_name (Z.of_nat i)) w).
Proof.
  intros Hu Hok Hokp Hcont Ht Hi Hc Hf Hfp Hd. unfold mtk_gps_epo_server_data_is_changed.
  rewrite (bindM_ok _ _ w (0, epo_start p - e_gmtoff (w_env w)) w).
  2: { unfold piece_start_time. unfold bindM at 1, getM. rewrite (bindM_ok _ _ _ _ _ (readable_run _ _ Hu)), Hf.
       unfold mtk_gps_epo_piece_data_start. by rewrite (bindM_ok _ _ _ _ _ (period_start_run _ _ Hok)). }
  unfold bindM at 1, getM. rewrite Hc. rewrite (proj2 (Z.ltb_lt 0 _)) by lia.
  set (w1 := with_epo (gps_download_epo_file_name (Z.of_nat i)) w).
  assert (gps_epo_file_name (w_epo w1) = dat_name (gps_epo_type (w_epo w)) i) as Hn
    by (unfold w1, with_epo; cbn; by rewrite file_name_piece by (done || lia)).
  rewrite (bindM_ok _ _ w (0, epo_end prev - e_gmtoff (w_env w)) w1).
  - unfold continuous in Hcont. rewrite (proj2 (Z.leb_gt (24 * 60 * 60) _)) by lia. done.
  - unfold piece_end_time. unfold bindM at 1, getM. rewrite Hc. unfold bindM at 1, epo_mod, modM.
    replace (Z.of_nat (S i) - 1) with (Z.of_nat i) by lia. fold (with_epo (gps_download_epo_file_name (Z.of_nat i)) w). fold w1.
    unfold bindM at 1, getM. rewrite Hn. rewrite (bindM_ok _ _ w1 (Some prev) w1).
    + rewrite (bindM_ok _ _ _ _ _ (piece_end_run prev w1 f Hokp ltac:(by rewrite Hn) Hd)). done.
    + rewrite readable_run by done. change (e_files (w_env w1)) with (e_files (w_env w)). by rewrite Hfp, <- Hd.
Qed.

(** Removing the pieces. *)
Lemma unlink_up_run n i w : (i + n <= 10)%nat -> epo_type_ok (gps_epo_type (w_epo w)) ->
  exists e files, unlink_pieces_up n (Z.of_nat i) w = Ok (tt, with_epo (fun _ => e) (with_files files w)) /\
    e = (w_epo w) <| gps_epo_file_name := gps_epo_file_name e |> <| gps_epo_md_file_name := gps_epo_md_file_name e |> /\
    (forall j, (i <= j < i + n)%nat -> files !! path_of (dat_name (gps_epo_type (w_epo w)) j) = None) /\
    (forall path, (forall j, (i <= j < i + n)%nat -> path <> path_of (dat_name (gps_epo_type (w_epo w)) j)) ->
       files !! path = e_files (w_env w) !! path).
Proof.
  revert i w. induction n as [|n IH]; intros i w Hn Ht; cbn [unlink_pieces_up].
  - exists (w_epo w), (e_files (w_env w)). split_and!; [|by destruct (w_epo w)|intros; lia|done].
    unfold with_epo, with_files. by destruct w as [? ? ? ? ? ? ? ? ? ? ? ? ? ? ? ? ? [] ?].
  - unfold bindM at 1, epo_mod, modM. unfold bindM at 1, getM. unfold bindM at 1, unlink, modM.
    rewrite file_name_piece by (done || lia). cbn [w_epo gps_epo_file_name].
    set (w1 := set w_env _ _). replace (Z.of_nat i + 1) with (Z.of_nat (S i)) by lia.
    destruct (IH (S i) w1) as (e & files & E & He & H1 & H2); [lia|exact Ht|].
    exists e, files. rewrite E. split_and!.
    + reflexivity.
    + rewrite He at 1. reflexivity.
    + intros j Hj. destruct (decide (j = i)) as [->|Hne]; [|apply H1; lia].
      rewrite H2; [cbn; by rewrite lookup_delete_eq|]. intros k Hk. apply dat_ne_dat; [exact Ht|lia..].
    + intros path Hp. rewrite H2 by (intros k Hk; apply Hp; lia). cbn. rewrite lookup_delete_ne; [done|].
      intros <-. by apply (Hp i); [lia|].
Qed.

(** * A whole download *)

Section Complete.
Context (getEpoUrl : string -> list Z -> option (list Z)) (Hurl : forall n k, is_Some (getEpoUrl n k)).
Context (t days gmtoff : Z) (pcs : list (list Z * list Z)).
Context (Ht : epo_type_ok t) (Hn10 : (0 < length pcs <= 10)%nat) (Hdays : piece_count days = zlen pcs).
Context (Hok : Forall (fun mp => epo_file_ok gmtoff (snd mp)) pcs).
Context (Hcont : forall i a b, pcs !! i = Some a -> pcs !! S i = Some b -> continuous (snd a) (snd b)).

(** What the server delivers: for each piece the checksum file and the piece. *)
Definition outcomes (l : list (list Z * list Z)) : list curl_result :=
  concat (map (fun mp => [CurlDone 0 (fst mp); CurlDone 0 (snd mp)]) l).

(** What the download thread does for one piece. *)
Definition fetch : HAL Z :=
  epo_mod (fun e => gps_download_epo_file_name (gps_epo_file_count e) e) ;;
  mtk_gps_epo_file_update getEpoUrl.

(** The state after [i] pieces. *)
Definition sess (i : nat) (w0 w : World) : Prop :=
  writable w /\ e_gmtoff (w_env w) = gmtoff /\ gps_epo_type (w_epo w) = t /\
  gps_epo_download_days (w_epo w) = days /\ gps_epo_file_count (w_epo w) = Z.of_nat i /\ epo_counter (w_epo w) = 1 /\
  e_curl (w_env w) = outcomes (drop i pcs) /\ w_started w = w_started w0 /\ e_sendto (w_env w) = [] /\
  ((0 < i)%nat -> f_data <$> e_files (w_env w) !! EPO_FILE_HAL = Some (concat (map snd (take i pcs)))) /\
  (forall j mp, (j < i)%nat -> pcs !! j = Some mp ->
     exists f, e_files (w_env w) !! path_of (dat_name t j) = Some f /\ f_data f = snd mp).

(** Storing piece [i]. *)
Lemma store_piece i w0 w md p : (i < 10)%nat -> pcs !! i = Some (md, p) -> sess i w0 w ->
  gps_epo_file_name (w_epo w) = dat_name t i -> gps_epo_md_file_name (w_epo w) = md_name t i ->
  exists w1 files, mtk_gps_epo_file_update_hal getEpoUrl w = Ok (0, w1) /\ w_epo w1 = w_epo w /\
    w_env w1 = (w_env w) <| e_curl := outcomes (drop (S i) pcs) |> <| e_files := files |> /\
    w_started w1 = w_started w /\ w_sock w1 = w_sock w /\
    f_data <$> files !! EPO_FILE_HAL = Some (concat (map snd (take (S i) pcs))) /\
    (forall j mp, (j < S i)%nat -> pcs !! j = Some mp ->
       exists f, files !! path_of (dat_name t j) = Some f /\ f_data f = snd mp).
Proof.
  intros Hi Hp (Hw & Hg & Hty & Hd & Hc & Hcnt & Hcurl & Hst & Hsend & Hhal & Hprev) HnD HnM.
  assert (outcomes (drop i pcs) = CurlDone 0 md :: CurlDone 0 p :: outcomes (drop (S i) pcs)) as Ho
    by (by rewrite (drop_S _ _ _ Hp)).
  destruct (download_piece getEpoUrl Hurl w md p (outcomes (drop (S i) pcs)) (concat (map snd (take i pcs))))
    as (files & tr & E & F1 & F2 & F3); rewrite ?HnD, ?HnM.
  - exact Hw.
  - exact Hcnt.
  - by rewrite Hcurl, Ho.
  - by apply dat_ne_hal.
  - by apply md_ne_hal.
  - by apply dat_ne_md.
  - rewrite Hc. destruct i; [done|lia].
  - rewrite Hc. intros Hne. apply Hhal. lia.
  - rewrite HnD in F2, F3. rewrite HnM in F3.
    exists (after w (w_epo w) files (outcomes (drop (S i) pcs)) tr), files. split_and!; try done.
    + unfold mtk_gps_epo_file_update_hal. by rewrite (bindM_ok _ _ _ _ _ E).
    + rewrite F1. cbn. rewrite (take_S_r _ _ _ Hp), map_app, concat_app. cbn. by rewrite app_nil_r.
    + intros j mp Hj Hmp. destruct (decide (j = i)) as [->|Hne].
      * rewrite F2. eexists. split; [done|]. rewrite Hp in Hmp. by injection Hmp as <-.
      * destruct (Hprev j mp) as (f & Hf & Hfd); [lia|done|]. exists f. split; [|done]. rewrite F3; [done|..].
        -- apply dat_ne_hal; [done|lia].
        -- apply dat_ne_dat; [done|lia..].
        -- apply dat_ne_md; [done|lia..].
Qed.

(** Consecutive pieces pass the continuity check. *)
Lemma check_piece i w md p : (i < 10)%nat -> pcs !! i = Some (md, p) ->
  writable w -> e_gmtoff (w_env w) = gmtoff -> gps_epo_type (w_epo w) = t ->
  gps_epo_file_count (w_epo w) = Z.of_nat i -> gps_epo_file_name (w_epo w) = dat_name t i ->
  (forall j mp, (j < S i)%nat -> pcs !! j = Some mp ->
     exists f, e_files (w_env w) !! path_of (dat_name t j) = Some f /\ f_data f = snd mp) ->
  exists n m, mtk_gps_epo_server_data_is_changed w =
    Ok (0, with_epo (fun e => e <| gps_epo_file_name := n |> <| gps_epo_md_file_name := m |>) w).
Proof.
  intros Hi Hp [Hro Hur] Hg Hty Hc HnD Hfiles. pose proof (Forall_lookup_1 _ _ _ _ Hok Hp) as Hokp. cbn in Hokp.
  destruct (Hfiles i (md, p)) as (f & Hf & Hfd); [lia|done|]. cbn in Hfd.
  assert (f_data <$> e_files (w_env w) !! path_of (gps_epo_file_name (w_epo w)) = Some p) as HD by (rewrite HnD, Hf; cbn; by rewrite Hfd).
  destruct i as [|i].
  - exists (gps_epo_file_name (w_epo w)), (gps_epo_md_file_name (w_epo w)).
    rewrite (server_unchanged_first w p); [|done|by rewrite Hg|by rewrite Hc|done].
    unfold with_epo. by destruct w as [? ? ? ? [] ? ? ? ? ? ? ? ? ? ? ? ? ? ?].
  - destruct (lookup_lt_is_Some_2 pcs i) as [mp Hmp]; [apply lookup_lt_Some in Hp; lia|].
    destruct (Hfiles i mp) as (f' & Hf' & Hfd'); [lia|done|].
    pose proof (Forall_lookup_1 _ _ _ _ Hok Hmp) as Hokm. cbn in Hokm.
    eexists _, _. rewrite (server_unchanged_next w i p (snd mp) f'); rewrite ?Hg, ?Hty; try done; [|exact (Hcont i mp (md, p) Hmp Hp)|lia].
    unfold with_epo. rewrite file_name_piece by (rewrite ?Hty; done || lia). reflexivity.
Qed.

Lemma fetch_piece i w0 w md p : (i < 10)%nat -> pcs !! i = Some (md, p) -> sess i w0 w ->
  exists w1, sess (S i) w0 w1 /\ w_sock w1 = w_sock w /\
    f_data <$> e_files (w_env w1) !! EPO_FILE_HAL = Some (concat (map snd (take (S i) pcs))) /\
    fetch w = epo_update_progress 0 w1.
Proof.
  intros Hi Hp Hs. pose proof Hs as (Hw & Hg & Hty & Hd & Hc & Hcnt & Hcurl & Hst & Hsend & Hhal & Hprev).
  set (wn := with_epo (gps_download_epo_file_name (Z.of_nat i)) w).
  assert (w_epo wn = (w_epo w) <| gps_epo_file_name := dat_name t i |> <| gps_epo_md_file_name := md_name t i |>) as Hwn
    by (unfold wn, with_epo; cbn; rewrite file_name_piece, Hty by (rewrite ?Hty; done || lia); done).
  assert (fetch w = mtk_gps_epo_file_update getEpoUrl wn) as Hfe.
  { unfold fetch. unfold bindM at 1, epo_mod at 1, modM at 1. by rewrite Hc. }
  assert (sess i w0 wn) as Hsn by (unfold sess; rewrite Hwn; exact Hs).
  assert (w_sock wn = w_sock w) as Hsk by done.
  rewrite Hfe. clear Hfe. clearbody wn.
  destruct (store_piece i w0 wn md p) as (wa & files & Ea & He & Hen & Hsta & Hsoa & Hha & Hfa); [done|done|done|by rewrite Hwn|by rewrite Hwn|].
  destruct Hsn as (Hwn' & Hgn & Htyn & Hdn & Hcn & Hcntn & _ & Hstn & Hsendn & _).
  destruct (check_piece i wa md p) as (nm & mm & Ec); [done|done|..].
  - unfold writable. rewrite Hen. exact Hwn'.
  - rewrite Hen. exact Hgn.
  - by rewrite He.
  - by rewrite He.
  - by rewrite He, Hwn.
  - rewrite Hen. exact Hfa.
  - set (w1 := with_epo (fun e => e <| gps_epo_file_name := nm |> <| gps_epo_md_file_name := mm |>
                                     <| gps_epo_file_count := Z.of_nat (S i) |>) wa).
    exists w1. split_and!.
    + unfold sess, w1, with_epo. cbn. rewrite He. split_and!; rewrite ?Hen; try done.
      * unfold writable. cbn. rewrite Hen. exact Hwn'.
      * by rewrite Hsta.
    + cbn. by rewrite Hsoa.
    + unfold w1, with_epo. cbn. rewrite Hen. exact Hha.
    + unfold mtk_gps_epo_file_update. rewrite (bindM_ok _ _ _ _ _ Ea). cbn [Z.ltb Z.compare].
      rewrite (bindM_ok _ _ _ _ _ Ec). cbn [Z.eqb]. unfold bindM at 1, epo_mod, modM. f_equal.
      unfold w1, with_epo. cbn. rewrite He, Hcn. by replace (Z.of_nat i + 1) with (Z.of_nat (S i)) by lia.
Qed.

(** All but the last piece. *)
Lemma fetch_more i w0 w : (S i < length pcs)%nat -> sess i w0 w ->
  exists w1, fetch w = Ok (0, w1) /\ sess (S i) w0 w1 /\ w_sock w1 = w_sock w.
Proof.
  intros Hi Hs. destruct (lookup_lt_is_Some_2 pcs i) as [[md p] Hp]; [lia|].
  destruct (fetch_piece i w0 w md p) as (w1 & H1 & H2 & _ & E); [lia|done|done|]. exists w1. rewrite E.
  pose proof H1 as (_ & _ & _ & Hd & Hc & _).
  unfold epo_update_progress. unfold bindM at 1, getM. rewrite Hd, Hc, Hdays. unfold zlen.
  rewrite (proj2 (Z.ltb_lt _ 10)), (proj2 (Z.ltb_lt _ (Z.of_nat (length pcs)))) by lia. done.
Qed.

(** What is left when the download is complete. *)
Definition completed (w0 w : World) : Prop :=
  f_data <$> e_files (w_env w) !! EPO_FILE_HAL = Some (concat (map snd pcs)) /\
  (forall j, (j < length pcs)%nat -> e_files (w_env w) !! path_of (dat_name t j) = None) /\
  gps_epo_file_count (w_epo w) = 0 /\ st_epo_data_updated (w_state w) = 0.

Lemma fetch_last i w0 w : S i = length pcs -> sess i w0 w ->
  exists w1, fetch w = Ok (0, w1) /\ completed w0 w1 /\
    (truth (w_started w0) = true -> e_files (w_env w1) !! EPO_FILE = None /\
       list.last (w_trace w1) = Some (EvSend MTK_HAL2MNLD (message 1024 [IInt (mnl_cmd MNL_CMD_UPDATE_EPO_FILE)]))).
Proof.
  intros Hi Hs. destruct (lookup_lt_is_Some_2 pcs i) as [[md p] Hp]; [lia|].
  destruct (fetch_piece i w0 w md p) as (w1 & H1 & H2 & Hhal & E); [lia|done|done|]. rewrite E. clear E.
  rewrite Hi, take_ge in Hhal by lia.
  destruct H1 as (_ & _ & Hty & Hd & Hc & _ & _ & Hst & Hsend & _ & _).
  unfold epo_update_progress. unfold bindM at 1, getM. rewrite Hd, Hc, Hdays. unfold zlen. rewrite Hi.
  rewrite Z.ltb_irrefl, andb_false_r, Nat2Z.id.
  destruct (unlink_up_run (length pcs) 0 w1) as (e & files & Eu & He & Hd1 & Hd2); [lia|by rewrite Hty|].
  rewrite Hty in Hd1, Hd2. change 0 with (Z.of_nat 0) at 1. rewrite (bindM_ok _ _ _ _ _ Eu). unfold bindM at 1, modM.
  set (w2 := set w_epo _ _). unfold bindM at 1, getM.
  assert (e_files (w_env w2) = files) as Hf2 by done.
  assert (f_data <$> files !! EPO_FILE_HAL = Some (concat (map snd pcs))) as Hh.
  { rewrite Hd2; [exact Hhal|]. intros j Hj E. symmetry in E. revert E. apply dat_ne_hal; [done|lia]. }
  change (w_started w2) with (w_started w1). rewrite Hst. destruct (truth (w_started w0)).
  - unfold bindM at 1, unlink, modM. set (w3 := set w_env _ _).
    assert (buff_put_int (mnl_cmd MNL_CMD_UPDATE_EPO_FILE) (zeros 1024, 0) =
            Some (message 1024 [IInt (mnl_cmd MNL_CMD_UPDATE_EPO_FILE)], 4)) as -> by reflexivity.
    cbn [of_option]. unfold bindM at 1, retM at 1. cbn [fst]. rewrite send_quiet by exact Hsend.
    eexists. split; [reflexivity|]. split.
    + split_and!; try done.
      * cbn. rewrite lookup_delete_ne by done. exact Hh.
      * intros j Hj. cbn. destruct (decide (EPO_FILE = path_of (dat_name t j))) as [->|Hne]; [by rewrite lookup_delete_eq|].
        rewrite lookup_delete_ne by done. apply Hd1. lia.
    + intros _. split; [cbn; by rewrite lookup_delete_eq|]. cbn. by rewrite last_snoc.
  - eexists. split; [reflexivity|]. split; [|done]. split_and!; try done. intros j Hj. apply Hd1. lia.
Qed.

(** [n] pieces in a row. *)
Fixpoint fetch_all (n : nat) : HAL Z :=
  match n with
  | O => retM 0
  | S n' => fetch ;; fetch_all n'
  end.

Lemma fetch_all_run k i w0 w : (i + k = length pcs)%nat -> (0 < k)%nat -> sess i w0 w ->
  exists w1, fetch_all k w = Ok (0, w1) /\ completed w0 w1 /\
    (truth (w_started w0) = true -> e_files (w_env w1) !! EPO_FILE = None /\
       list.last (w_trace w1) = Some (EvSend MTK_HAL2MNLD (message 1024 [IInt (mnl_cmd MNL_CMD_UPDATE_EPO_FILE)]))).
Proof.
  revert i w. induction k as [|k IH]; intros i w Hik Hk Hs; [lia|]. cbn [fetch_all]. destruct k as [|k].
  - destruct (fetch_last i w0 w) as (w1 & E & Hc); [lia|done|]. exists w1. by rewrite (bindM_ok _ _ _ _ _ E).
  - destruct (fetch_more i w0 w) as (w1 & E & Hs1 & _); [lia|done|]. rewrite (bindM_ok _ _ _ _ _ E).
    apply (IH (S i)); [lia|lia|done].
Qed.
End Complete.

(** * A piece that fails *)

Lemma count_str_ok c : 0 <= c < 10000 -> is_Some (count_str c).
Proof.
  intros H. set (N := Z.to_nat 10000).
  assert (forallb (fun n => match count_str (Z.of_nat n) with Some _ => true | None => false end) (seq 0 N) = true)
    as G by (vm_compute; reflexivity).
  rewrite forallb_forall in G. specialize (G (Z.to_nat c)). rewrite Z2Nat.id in G by lia.
  assert (In (Z.to_nat c) (seq 0 N)) as Hin.
  { apply in_seq. split; [apply Nat.le_0_l|]. rewrite Nat.add_0_l. apply Z2Nat.inj_lt; lia. }
  clear H. clearbody N. specialize (G Hin). destruct (count_str c); [by eexists|done].
Qed.

(** The counter of failed requests outgrows its text array. *)
Example count_str_overflow : is_Some (count_str 9999) /\ count_str 10000 = None.
Proof. split; [by eexists|reflexivity]. Qed.

Lemma md_key_any res md_file w : e_unreadable (w_env w) = ∅ -> 0 <= epo_counter (w_epo w) < 9999 ->
  exists key files c, epo_md_key res md_file w = Ok (key, with_epo (fun e => e <| epo_counter := c |>) (with_files files w)) /\
    0 <= c < 10000 /\ (forall path, path <> md_file -> files !! path = e_files (w_env w) !! path).
Proof.
  intros Hu Hc. unfold epo_md_key. destruct (res =? 0).
  - rewrite (bindM_ok _ _ _ _ _ (readable_run _ _ Hu)).
    destruct (f_data <$> e_files (w_env w) !! md_file) as [d|].
    + eexists _, (delete md_file (e_files (w_env w))), 1. split; [reflexivity|]. split; [lia|].
      intros path Hp. by rewrite lookup_delete_ne.
    + eexists _, (e_files (w_env w)), 1. split; [|split; [lia|done]].
      unfold with_files. by destruct w as [? ? ? ? ? ? ? ? ? ? ? ? ? ? ? ? ? [] ?].
  - eexists _, (e_files (w_env w)), (epo_counter (w_epo w) + 1). split; [|split; [lia|done]].
    unfold with_files. by destruct w as [? ? ? ? [] ? ? ? ? ? ? ? ? ? ? ? ? [] ?].
Qed.

(** * Properties *)

(** C40: a download of all pieces is correct: when the server delivers the pieces
    for the configured number of days, one after the other and less than a day
    apart, then after as many rounds as there are pieces the merged EPO file is
    exactly their concatenation, the piece files are gone, the download is marked
    as done, and, in a running session, the old EPO file is removed and the
    daemon is told to load the new one. *)
Theorem epo_download_complete (getEpoUrl : string -> list Z -> option (list Z)) (days : Z)
  (pcs : list (list Z * list Z)) (w : World)
  (Hurl : forall n k, is_Some (getEpoUrl n k)) (Ht : epo_type_ok (gps_epo_type (w_epo w)))
  (Hn : (0 < length pcs <= 10)%nat) (Hdays : gps_epo_download_days (w_epo w) = days)
  (Hcount : piece_count days = zlen pcs)
  (Hok : Forall (fun mp => epo_file_ok (e_gmtoff (w_env w)) (snd mp)) pcs)
  (Hcont : forall i a b, pcs !! i = Some a -> pcs !! S i = Some b -> continuous (snd a) (snd b))
  (Hw : writable w /\ gps_epo_file_count (w_epo w) = 0 /\ epo_counter (w_epo w) = 1)
  (Hserver : e_curl (w_env w) = outcomes pcs) (Hsend : e_sendto (w_env w) = []) :
  exists w', fetch_all getEpoUrl (length pcs) w = Ok (0, w') /\
    f_data <$> e_files (w_env w') !! EPO_FILE_HAL = Some (concat (map snd pcs)) /\
    (forall j, (j < length pcs)%nat -> e_files (w_env w') !! path_of (dat_name (gps_epo_type (w_epo w)) j) = None) /\
    gps_epo_file_count (w_epo w') = 0 /\ st_epo_data_updated (w_state w') = 0 /\
    (truth (w_started w) = true -> e_files (w_env w') !! EPO_FILE = None /\
       list.last (w_trace w') = Some (EvSend MTK_HAL2MNLD (message 1024 [IInt (mnl_cmd MNL_CMD_UPDATE_EPO_FILE)]))).
Proof.
  destruct Hw as (Hw & Hc & Hcnt).
  destruct (fetch_all_run getEpoUrl Hurl (gps_epo_type (w_epo w)) days (e_gmtoff (w_env w)) pcs Ht Hn Hcount Hok Hcont
              (length pcs) 0 w w) as (w' & E & (H1 & H2 & H3 & H4) & H5); [done|lia| |].
  - unfold sess. rewrite drop_0. split_and!; try done; intros; lia.
  - exists w'. eauto 8.
Qed.

Definition demo_url (n : string) (k : list Z) : option (list Z) := Some (str n ++ k).
Definition demo_world : World :=
  with_epo (fun e => e <| gps_epo_download_days := 3 |>)
    (world0 7 all_cbs (quiet_env <| e_curl := [CurlDone 0 []; CurlDone 0 demo_epo] |>)) <| w_started := 1 |>.

Lemma epo_download_complete_witness :
  exists w', fetch_all demo_url 1 demo_world = Ok (0, w') /\
    f_data <$> e_files (w_env w') !! EPO_FILE_HAL = Some demo_epo /\
    (forall j, (j < 1)%nat -> e_files (w_env w') !! path_of (dat_name 0 j) = None) /\
    gps_epo_file_count (w_epo w') = 0 /\ st_epo_data_updated (w_state w') = 0 /\
    (truth 1 = true -> e_files (w_env w') !! EPO_FILE = None /\
       list.last (w_trace w') = Some (EvSend MTK_HAL2MNLD (message 1024 [IInt (mnl_cmd MNL_CMD_UPDATE_EPO_FILE)]))).
Proof.
  refine (epo_download_complete demo_url 3 [([], demo_epo)] demo_world _ _ _ _ _ _ _ _ _ _).
  - intros n k. eexists. reflexivity.
  - left. reflexivity.
  - cbn. lia.
  - reflexivity.
  - reflexivity.
  - apply Forall_cons_2; [|apply Forall_nil_2]. unfold epo_file_ok, clock_fits, is_i32. split_and!; vm_compute; congruence.
  - intros i a b Ha Hb. destruct i; discriminate.
  - split_and!; [split; reflexivity|reflexivity|reflexivity].
  - reflexivity.
  - reflexivity.
Defined.

(** a piece whose download fails costs no progress: the call returns -1 and
    marks the failure, the counter stays at the piece, the merged file keeps the
    pieces that were stored before, and the partial piece is removed, whether or
    not its checksum file could be fetched. *)
Theorem epo_failed_piece (getEpoUrl : string -> list Z -> option (list Z)) (w : World) (res0 code : Z)
  (md bytes : list Z) (rest : list curl_result) (Hurl : forall n k, is_Some (getEpoUrl n k))
  (Hw : writable w) (Hc : 0 <= epo_counter (w_epo w) < 9999) (Hcode : code <> 0)
  (Hcurl : e_curl (w_env w) = CurlDone res0 md :: CurlDone code bytes :: rest)
  (Hne : path_of (gps_epo_file_name (w_epo w)) <> EPO_FILE_HAL /\ path_of (gps_epo_md_file_name (w_epo w)) <> EPO_FILE_HAL) :
  exists w', mtk_gps_epo_file_update getEpoUrl w = Ok (-1, w') /\
    epo_download_failed (w_epo w') = 1 /\ gps_epo_file_count (w_epo w') = gps_epo_file_count (w_epo w) /\
    e_files (w_env w') !! EPO_FILE_HAL = e_files (w_env w) !! EPO_FILE_HAL /\
    e_files (w_env w') !! path_of (gps_epo_file_name (w_epo w)) = None.
Proof.
  destruct Hne as [HD HM]. pose proof Hw as [Hro Hur].
  unfold mtk_gps_epo_file_update, mtk_gps_epo_file_update_hal.
  assert (exists w1, curl_easy_download_epo getEpoUrl w = Ok (code, w1) /\
    gps_epo_file_count (w_epo w1) = gps_epo_file_count (w_epo w) /\
    e_files (w_env w1) !! EPO_FILE_HAL = e_files (w_env w) !! EPO_FILE_HAL /\
    e_files (w_env w1) !! path_of (gps_epo_file_name (w_epo w)) = None) as (w1 & E & H1 & H2 & H3).
  { unfold curl_easy_download_epo. unfold bindM at 1, getM. cbv zeta.
    destruct (count_str_ok (epo_counter (w_epo w))) as [c1 ->]; [lia|]. cbn [of_option]. unfold bindM at 1, retM at 1.
    destruct (Hurl (gps_epo_md_file_name (w_epo w)) (zero_key ++ str "&counter=" ++ c1)) as [u1 ->].
    rewrite (bindM_ok _ _ _ _ _ (download_run u1 _ w res0 md _ Hw Hcurl)). set (wa := set w_trace _ _).
    destruct (md_key_any res0 (path_of (gps_epo_md_file_name (w_epo w))) wa) as (key & files & c & Ek & Hc' & Hoth); [exact Hur|exact Hc|].
    rewrite (bindM_ok _ _ _ _ _ Ek). set (wb := with_epo _ _). unfold bindM at 1, getM.
    change (epo_counter (w_epo wb)) with c. destruct (count_str_ok c Hc') as [c2 ->]. cbn [of_option]. unfold bindM at 1, retM at 1.
    destruct (Hurl (gps_epo_file_name (w_epo w)) (key ++ str "&counter=" ++ c2)) as [u2 ->].
    assert (writable wb) as Hwb by (split; [exact Hro|exact Hur]).
    rewrite (bindM_ok _ _ _ _ _ (download_run u2 _ wb code bytes rest Hwb eq_refl)). set (wc := set w_trace _ _).
    unfold CURLE_OK. rewrite (proj2 (Z.eqb_neq _ _) Hcode). eexists. split; [reflexivity|]. split; [reflexivity|]. cbn. split.
    - rewrite lookup_delete_ne, lookup_insert_ne by done. rewrite Hoth by done. cbn. by rewrite lookup_insert_ne by done.
    - by rewrite lookup_delete_eq. }
  rewrite bindM_assoc, (bindM_ok _ _ _ _ _ E). unfold CURLE_OK. rewrite (proj2 (Z.eqb_neq _ _) Hcode).
  eexists. split; [reflexivity|]. done.
Qed.

Lemma epo_failed_piece_witness :
  exists w', mtk_gps_epo_file_update demo_url
      (world0 7 all_cbs (quiet_env <| e_curl := [CurlDone 0 []; CurlDone 28 [1]] |>)) = Ok (-1, w') /\
    epo_download_failed (w_epo w') = 1 /\ gps_epo_file_count (w_epo w') = 0 /\
    e_files (w_env w') !! EPO_FILE_HAL = None /\ e_files (w_env w') !! gps_dir = None.
Proof.
  refine (epo_failed_piece demo_url (world0 7 all_cbs (quiet_env <| e_curl := [CurlDone 0 []; CurlDone 28 [1]] |>))
    0 28 [] [1] [] _ _ _ _ _ _).
  - intros n k. eexists. reflexivity.
  - split; reflexivity.
  - cbn. lia.
  - discriminate.
  - reflexivity.
  - split; discriminate.
Defined.

(** Rounds of the thread that make no progress. *)
Fixpoint retries (n : nat) : HAL unit :=
  match n with
  | O => retM tt
  | S n' => epo_retry_count ;; retries n'
  end.

(** The timer calls succeed and give the timer [t]. *)
Definition timers_work (t : Z) (w : World) : Prop :=
  let os := e_os (w_env w) in
  os_timer_delete os = 0 /\ os_timer_create os = Some t /\ os_timer_settime os = 0.

Lemma set_retry_run t timeout w : timers_work t w ->
  set_retry_alarm_handler timeout w =
    Ok (0, (with_epo (fun e => e <| retry_timer_fd := t |>) w) <| w_trace := w_trace w ++ [EvRetryTimer timeout] |>).
Proof.
  intros (Hd & Hc & Hs). unfold set_retry_alarm_handler. run. rewrite Hd, Hc, Hs. cbn.
  destruct (retry_timer_fd (w_epo w) =? C_INVALID_TIMER) eqn:E; cbn; [rewrite E|]; reflexivity.
Qed.

Lemma retries_run n k t w : timers_work t w -> epo_file_retrying (w_epo w) = gps_epo_file_count (w_epo w) ->
  epo_retry_time (w_epo w) = Z.of_nat k -> (n + k < 10)%nat ->
  retries n w = Ok (tt, (with_epo (fun e => e <| epo_retry_time := Z.of_nat (n + k) |>
                             <| epo_download_retry := if (n =? 0)%nat then epo_download_retry e else 0 |>
                             <| retry_timer_fd := if (n =? 0)%nat then retry_timer_fd e else t |>) w)
                          <| w_trace := w_trace w ++ replicate n (EvRetryTimer 15) |>).
Proof.
  revert k w. induction n as [|n IH]; intros k w Ht Hr Hk Hn; cbn [retries].
  - unfold retM. do 2 f_equal. rewrite app_nil_r. cbn [Nat.add Nat.eqb]. rewrite <- Hk.
    unfold with_epo. by destruct w as [? ? ? ? [] ? ? ? ? ? ? ? ? ? ? ? ? ? ?].
  - unfold epo_retry_count. rewrite bindM_assoc. unfold bindM at 1, getM. cbv zeta. rewrite Hr, Z.eqb_refl.
    rewrite bindM_assoc. unfold bindM at 1, epo_mod at 1, modM at 1. rewrite bindM_assoc. unfold bindM at 1, getM.
    cbn [w_epo epo_retry_time]. set (w1 := set w_epo _ _). change (epo_retry_time (w_epo w1)) with (epo_retry_time (w_epo w) + 1).
    rewrite Hk, (proj2 (Z.ltb_lt _ 10)) by lia.
    set (w2 := (with_epo (fun e => e <| epo_retry_time := Z.of_nat (S k) |> <| epo_download_retry := 0 |>
                               <| retry_timer_fd := t |>) w)
                 <| w_trace := w_trace w ++ [EvRetryTimer 15] |>).
    rewrite (bindM_ok _ _ w1 tt w2).
    + rewrite (IH (S k) w2); [|exact Ht|exact Hr|done|lia]. do 2 f_equal. unfold w2, with_epo. cbn.
      rewrite <- app_assoc. replace (n + S k)%nat with (S (n + k)) by lia. by destruct n.
    + unfold bindM at 1, epo_mod at 1, modM at 1. erewrite bindM_ok by (apply set_retry_run; exact Ht).
      unfold w1, w2, with_epo. run. rewrite Hk. by replace (Z.of_nat k + 1) with (Z.of_nat (S k)) by lia.
Qed.

Lemma retries_snoc n w : retries (S n) w = (retries n ;; epo_retry_count) w.
Proof.
  revert w. induction n as [|n IH]; intros w.
  - cbn [retries]. unfold bindM, retM. by destruct (epo_retry_count w) as [[[] ?]| |].
  - change (retries (S (S n)) w) with ((epo_retry_count ;; retries (S n)) w).
    change (retries (S n)) with (epo_retry_count ;; retries n) at 2. rewrite bindM_assoc.
    unfold bindM at 1. unfold bindM at 1. destruct (epo_retry_count w) as [[[] w']| |]; [apply IH|done..].
Qed.

(** retrying is bounded: when a piece keeps failing, nine retries are scheduled
    with the 15 second timer (the timer calls succeed), and the tenth round without progress gives up: it
    clears the failure and the retry state instead of arming the timer again. *)
Theorem epo_retry_gives_up (t : Z) (w : World) (Ht : timers_work t w)
  (Hr : epo_file_retrying (w_epo w) = gps_epo_file_count (w_epo w)) (H0 : epo_retry_time (w_epo w) = 0) :
  exists w', retries 10 w = Ok (tt, w') /\ w_trace w' = w_trace w ++ replicate 9 (EvRetryTimer 15) /\
    epo_download_failed (w_epo w') = 0 /\ epo_retry_time (w_epo w') = 0 /\ epo_file_retrying (w_epo w') = 50.
Proof.
  rewrite retries_snoc.
  rewrite (bindM_ok _ _ _ _ _ (retries_run 9 0 t w Ht Hr H0 ltac:(lia))). unfold epo_retry_count.
  eexists. split; [run; rewrite Hr, Z.eqb_refl; reflexivity|]. done.
Qed.

Lemma epo_retry_gives_up_witness :
  exists w', retries 10 (with_epo (fun e => e <| epo_file_retrying := 0 |>) (world0 7 all_cbs quiet_env)) = Ok (tt, w') /\
    w_trace w' = replicate 9 (EvRetryTimer 15) /\
    epo_download_failed (w_epo w') = 0 /\ epo_retry_time (w_epo w') = 0 /\ epo_file_retrying (w_epo w') = 50.
Proof.
  apply (epo_retry_gives_up 9 (with_epo (fun e => e <| epo_file_retrying := 0 |>) (world0 7 all_cbs quiet_env)));
    [split_and!|..]; reflexivity.
Defined.
