(* ===== verification/Threads.v ===== *)
(** Programs of the HAL's threads. A HAL function that only computes and calls the
    operating system is a [HAL] computation; a function during which another
    thread of the HAL may run is a [prog]: a sequence of atomic actions, of waits
    for one of the flags of [lock_for_sync] ([get_condition] of
    src/hal/gps/hal/gps_mtk_aosp.c), and of polling loops. [pstep] is the next
    atomic step, [run] the execution without interference. *)

From stdpp Require Import base list gmap strings numbers.
From Stdlib Require Import ZArith Lia.
From S2P Require Import Prelude CFloat GpsTypes Daemon.

Local Open Scope Z_scope.
Local Open Scope st_scope.
Local Open Scope rec_scope.

Inductive prog (A : Type) : Type :=
  | Ret (a : A)
  | Act (X : Type) (m : HAL X) (k : X -> prog A)
  | Wait (i : SyncId) (k : prog A)
  | Until (c : World -> bool) (k : prog A).
Arguments Ret {A} a.
Arguments Act {A X} m k.
Arguments Wait {A} i k.
Arguments Until {A} c k.

Fixpoint pbind {A B} (p : prog A) (f : A -> prog B) : prog B :=
  match p with
  | Ret a => f a
  | Act m k => Act m (fun x => pbind (k x) f)
  | Wait i k => Wait i (pbind k f)
  | Until c k => Until c (pbind k f)
  end.

Definition act {A} (m : HAL A) : prog A := Act m Ret.
Definition wait (i : SyncId) : prog unit := Wait i (Ret tt).
Definition until (c : World -> bool) : prog unit := Until c (Ret tt).

Declare Scope prog_scope.
Delimit Scope prog_scope with prog.
Notation "'let!' x := p 'in' k" := (pbind p (fun x => k))
  (at level 10, x pattern, p at level 99, k at level 200) : prog_scope.
Notation "p ;! k" := (pbind p (fun _ => k))
  (at level 100, k at level 200, right associativity) : prog_scope.

(** The next atomic step; a finished program has none. *)
Definition pstep {A} (p : prog A) : HAL (prog A) :=
  match p with
  | Ret _ => blockM
  | Act m k => let* x := m in retM (k x)
  | Wait i k => get_condition i ;; retM k
  | Until c k => let* w := getM in if c w then retM k else blockM
  end.

(** Execution without interference: a wait whose flag is clear, and a polling
    loop whose condition does not hold, block for ever. *)
Fixpoint run {A} (p : prog A) : HAL A :=
  match p with
  | Ret a => retM a
  | Act m k => let* x := m in run (k x)
  | Wait i k => get_condition i ;; run k
  | Until c k => let* w := getM in if c w then run k else blockM
  end.

Lemma run_bind {A B} (p : prog A) (f : A -> prog B) w :
  run (pbind p f) w = (let* a := run p in run (f a)) w.
Proof.
  revert w. induction p as [a|X m k IH|i k IH|c k IH]; intros w; cbn.
  - reflexivity.
  - rewrite bindM_assoc. unfold bindM at 1 2. destruct (m w) as [[x w']| |]; [apply IH|done..].
  - rewrite bindM_assoc. unfold bindM at 1 2. destruct (get_condition i w) as [[x w']| |]; [apply IH|done..].
  - rewrite bindM_assoc. unfold bindM at 1 2, getM. destruct (c w); [apply IH|done].
Qed.

Lemma run_act {A} (m : HAL A) w : run (act m) w = m w.
Proof. cbn. unfold bindM. by destruct (m w) as [[x w']| |]. Qed.

(** A run is a sequence of steps. *)
Inductive psteps {A} : prog A -> World -> prog A -> World -> Prop :=
  | psteps_refl p w : psteps p w p w
  | psteps_step p w p1 w1 p2 w2 : pstep p w = Ok (p1, w1) -> psteps p1 w1 p2 w2 -> psteps p w p2 w2.

Lemma run_psteps {A} (p : prog A) w a w' : run p w = Ok (a, w') -> psteps p w (Ret a) w'.
Proof.
  revert w. induction p as [b|X m k IH|i k IH|c k IH]; intros w H; cbn in H.
  - injection H as <- <-. constructor.
  - apply bindM_inv in H as (x & w1 & E & H). eapply psteps_step; [|by apply IH]. cbn. by rewrite (bindM_ok _ _ _ _ _ E).
  - apply bindM_inv in H as (x & w1 & E & H). eapply psteps_step; [|by apply IH]. cbn. by rewrite (bindM_ok _ _ _ _ _ E).
  - unfold bindM, getM in H. destruct (c w) eqn:Ec; [|done]. eapply psteps_step; [|by apply IH].
    cbn. unfold bindM, getM. by rewrite Ec.
Qed.
