(* ===== verification/Mnld.v ===== *)
(** Messages from the MNL daemon to the HAL ([mnld_to_gps_handler] of
    src/hal/gps/hal/gps_mtk_aosp.c): one datagram is read into a zeroed array of
    9000 bytes, its first word selects the case, and the case decodes the rest and
    calls the framework. *)

From stdpp Require Import base list gmap strings numbers.
From Stdlib Require Import ZArith Lia SpecFloat.
From S2P Require Import Prelude CFloat GpsTypes Buff Daemon CStruct EpoConf Threads.

Local Open Scope Z_scope.
Local Open Scope st_scope.
Local Open Scope rec_scope.
Local Open Scope prog_scope.

(** * Structures of the protocol *)

(** gps_mtk_aosp.c:163-199 [MTK_GPS_MEASUREMENT]. *)
Definition MTK_GPS_MEASUREMENT : fields :=
  [("size", TU32); ("flag", TU32); ("PRN", TI8); ("TimeOffsetInNs", TF64);
   ("state", TU16); ("ReGpsTowInNs", TI64); ("ReGpsTowUnInNs", TI64); ("Cn0InDbHz", TF64);
   ("PRRateInMeterPreSec", TF64); ("PRRateUnInMeterPreSec", TF64); ("AcDRState10", TU16); ("AcDRInMeters", TF64);
   ("AcDRUnInMeters", TF64); ("PRInMeters", TF64); ("PRUnInMeters", TF64); ("CPInChips", TF64);
   ("CPUnInChips", TF64); ("CFInhZ", TF32); ("CarrierCycle", TI64); ("CarrierPhase", TF64);
   ("CarrierPhaseUn", TF64); ("LossOfLock", TU8); ("BitNumber", TI32); ("TimeFromLastBitInMs", TI16);
   ("DopperShiftInHz", TF64); ("DopperShiftUnInHz", TF64); ("MultipathIndicater", TU8); ("SnrInDb", TF64);
   ("ElInDeg", TF64); ("ElUnInDeg", TF64); ("AzInDeg", TF64); ("AzUnInDeg", TF64);
   ("UsedInFix", TU8)].

(** gps_mtk_aosp.c:201-214 [MTK_GPS_CLOCK]. *)
Definition MTK_GPS_CLOCK : fields :=
  [("size", TU32); ("flag", TU16); ("leapsecond", TI16); ("type", TU8);
   ("TimeInNs", TI64); ("TimeUncertaintyInNs", TF64); ("FullBiasInNs", TI64); ("BiasInNs", TF64);
   ("BiasUncertaintyInNs", TF64); ("DriftInNsPerSec", TF64); ("DriftUncertaintyInNsPerSec", TF64)].

(** gps_mtk_aosp.c:215-224 [MTK_GPS_NAVIGATION_EVENT]. *)
Definition MTK_GPS_NAVIGATION_EVENT : fields :=
  [("size", TU32); ("type", TI8); ("prn", TU8); ("messageID", TI16);
   ("submessageID", TI16); ("length", TU32); ("data", TBytes 40)].

(** gps_mtk_aosp.c:382-395 [mnl_agps_agps_location] not packed; [char] is unsigned. *)
Definition mnl_agps_agps_location : fields :=
  [("latitude", TF64); ("longitude", TF64); ("altitude_used", TU8); ("altitude", TF64);
   ("speed_used", TU8); ("speed", TF32); ("bearing_used", TU8); ("bearing", TF32);
   ("accuracy_used", TU8); ("accuracy", TF32); ("timestamp_used", TU8); ("timestamp", TI64)].

Definition measurement_size : nat := struct_size 4 MTK_GPS_MEASUREMENT.
Definition clock_size : nat := struct_size 4 MTK_GPS_CLOCK.
Definition navigation_size : nat := struct_size 4 MTK_GPS_NAVIGATION_EVENT.
Definition location_size : nat := struct_size 8 mnl_agps_agps_location.

(** Values of hardware/gps.h. *)
Definition GPS_NI_TYPE_UMTS_SUPL := 2.
Definition GPS_NI_NEED_NOTIFY := 0x0001.
Definition GPS_NI_NEED_VERIFY := 0x0002.
Definition GPS_NI_PRIVACY_OVERRIDE := 0x0004.
Definition GPS_NI_RESPONSE_NORESP := 3.
Definition GPS_ENC_SUPL_UCS2 := 3.
Definition AGPS_TYPE_SUPL := 1.
Definition GPS_REQUEST_AGPS_DATA_CONN := 1.
Definition GPS_RELEASE_AGPS_DATA_CONN := 2.
Definition GPS_NI_SHORT_STRING_MAXLEN : nat := 256.
Definition GPS_NI_LONG_STRING_MAXLEN : nat := 2048.
Definition sockaddr_storage_size : Z := 128.

(** A call through a table that may not be registered. *)
Definition agps_cb (table : agps_context -> bool) (e : event) : HAL unit :=
  let* w := getM in if table (w_agps w) then emit e else undefM.

(** * Notifications *)

(** gps_mtk_aosp.c:3262-3278 [mnld_to_gps_handler, notify flags]. *)
Definition notify_flags (type : Z) : Z :=
  if type =? supl_notify AGPS_SUPL_NOTIFY_ONLY then GPS_NI_NEED_NOTIFY
  else if type =? supl_notify AGPS_SUPL_NOTIFY_ALLOW_NO_ANSWER then Z.lor GPS_NI_NEED_NOTIFY GPS_NI_NEED_VERIFY
  else if type =? supl_notify AGPS_SUPL_NOTIFY_DENY_NO_ANSWER then Z.lor GPS_NI_NEED_NOTIFY GPS_NI_NEED_VERIFY
  else if type =? supl_notify AGPS_SUPL_NOTIFY_PRIVACY then GPS_NI_PRIVACY_OVERRIDE
  else 0.

(** The string in an array that was not initialised, of which the first [len]
    bytes were written: it must end there. *)
Definition local_string (arr : list Z) (len : Z) : option (list Z) :=
  let w := take (Z.to_nat len) arr in
  if existsb (fun c => c =? 0) w then Some (cstr w) else None.

(** gps_mtk_aosp.c:3284-3293 [mnld_to_gps_handler, text] a C string as the UCS-2
    text in hexadecimal digits of a notification member of [size] bytes. *)
Definition ucs2_hex (size : nat) (s : list Z) : option (list Z) :=
  '(ucs2_buff, usc2_len) ← asc_str_to_usc2_str (zeros 1024) s;
  raw_data_to_hex_string (zeros size) ucs2_buff usc2_len.

(** gps_mtk_aosp.c:3249-3297 [mnld_to_gps_handler, MNL_AGPS_CMD_NOTIFICATION]. *)
Definition decode_notification (b : cursor) : option GpsNiNotification :=
  '(notification_id, b) ← buff_get_int b;
  '(type, b) ← buff_get_int b;
  '(len1, requestor_id, b) ← buff_get_string (zeros 1024) b;
  '(len2, client_name, b) ← buff_get_string (zeros 1024) b;
  requestor_id ← local_string requestor_id len1;
  client_name ← local_string client_name len2;
  requestor_hex ← ucs2_hex GPS_NI_SHORT_STRING_MAXLEN requestor_id;
  text_hex ← ucs2_hex GPS_NI_LONG_STRING_MAXLEN client_name;
  Some (mkNi notification_id GPS_NI_TYPE_UMTS_SUPL (notify_flags type) requestor_hex text_hex
          GPS_ENC_SUPL_UCS2 GPS_ENC_SUPL_UCS2 8 GPS_NI_RESPONSE_NORESP).

(** gps_mtk_aosp.c:3299-3335 [mnld_to_gps_handler, MNL_AGPS_CMD_NOTIFICATION_2]. *)
Definition decode_notification_2 (b : cursor) : option GpsNiNotification :=
  '(notification_id, b) ← buff_get_int b;
  '(type, b) ← buff_get_int b;
  '(_, requestor_id, b) ← buff_get_string (zeros GPS_NI_SHORT_STRING_MAXLEN) b;
  '(_, text, b) ← buff_get_string (zeros GPS_NI_LONG_STRING_MAXLEN) b;
  '(requestor_id_encoding, b) ← buff_get_int b;
  '(text_encoding, b) ← buff_get_int b;
  Some (mkNi notification_id GPS_NI_TYPE_UMTS_SUPL (notify_flags type) requestor_id text
          requestor_id_encoding text_encoding 8 GPS_NI_RESPONSE_NORESP).

(** * AGPS status *)

(** gps_mtk_aosp.c:3336-3346 [mnld_to_gps_handler, MNL_AGPS_CMD_DATA_CONN_REQ] the
    address is an unsigned member. *)
Definition decode_data_conn_req (b : cursor) : option event :=
  '(ipaddr, b) ← buff_get_int b;
  '(is_emergency, b) ← buff_get_int b;
  Some (EvAgpsStatus AGpsStatus_v2 AGPS_TYPE_SUPL GPS_REQUEST_AGPS_DATA_CONN (u32 ipaddr) []).

(** gps_mtk_aosp.c:3347-3358 [mnld_to_gps_handler, MNL_AGPS_CMD_DATA_CONN_REQ2]. *)
Definition decode_data_conn_req2 (b : cursor) : option event :=
  '(addr, b) ← buff_get_struct sockaddr_storage_size b;
  '(is_emergency, b) ← buff_get_int b;
  Some (EvAgpsStatus AGpsStatus AGPS_TYPE_SUPL GPS_REQUEST_AGPS_DATA_CONN 0 addr).

(** gps_mtk_aosp.c:3359-3368 [mnld_to_gps_handler, MNL_AGPS_CMD_DATA_CONN_RELEASE]. *)
Definition data_conn_release : event :=
  EvAgpsStatus AGpsStatus_v1 AGPS_TYPE_SUPL GPS_RELEASE_AGPS_DATA_CONN 0 [].

(** * Location *)

(** gps_mtk_aosp.c:3387-3417 [mnld_to_gps_handler, location] each optional member is
    copied with its flag. *)
Definition agps_location (s : list (string * Z)) : GpsLocation :=
  let used n := truth (member (n ++ "_used") s) in
  let loc := mkLoc GPS_LOCATION_HAS_LAT_LONG (d_of_bits (member "latitude" s)) (d_of_bits (member "longitude" s))
               dzero dzero dzero dzero 0 in
  let loc := if used "altitude" then loc <| loc_flags := Z.lor (loc_flags loc) GPS_LOCATION_HAS_ALTITUDE |>
                                          <| altitude := d_of_bits (member "altitude" s) |> else loc in
  let loc := if used "speed" then loc <| loc_flags := Z.lor (loc_flags loc) GPS_LOCATION_HAS_SPEED |>
                                       <| speed := f_of_bits (member "speed" s) |> else loc in
  let loc := if used "bearing" then loc <| loc_flags := Z.lor (loc_flags loc) GPS_LOCATION_HAS_BEARING |>
                                         <| bearing := f_of_bits (member "bearing" s) |> else loc in
  let loc := if used "accuracy" then loc <| loc_flags := Z.lor (loc_flags loc) GPS_LOCATION_HAS_ACCURACY |>
                                          <| accuracy := f_of_bits (member "accuracy" s) |> else loc in
  if used "timestamp" then loc <| timestamp := member "timestamp" s |> else loc.

(** gps_mtk_aosp.c:3379-3426 [mnld_to_gps_handler, MNL_AGPS_CMD_AGPS_LOC]. *)
Definition mnld_agps_loc (b : cursor) : HAL unit :=
  let* r := of_option (buff_get_struct (Z.of_nat location_size) b) in
  let mlocation := agps_location (struct_decode 8 mnl_agps_agps_location (fst r)) in
  let* w := getM in
  if cb_location (w_cbs w) then emit (EvLocation mlocation) else retM tt.

(** * Raw measurements and navigation messages *)

(** gps_mtk_aosp.c:3503-3515 [mnld_to_gps_handler, GpsClock]. *)
Definition clock_assign : list (string * string) :=
  [("bias_ns", "BiasInNs"); ("bias_uncertainty_ns", "BiasUncertaintyInNs");
   ("drift_nsps", "DriftInNsPerSec"); ("flags", "flag");
   ("leap_second", "leapsecond"); ("time_ns", "TimeInNs");
   ("time_uncertainty_ns", "TimeUncertaintyInNs"); ("type", "type");
   ("full_bias_ns", "FullBiasInNs"); ("drift_uncertainty_nsps", "DriftUncertaintyInNsPerSec")].

(** gps_mtk_aosp.c:3521-3556 [mnld_to_gps_handler, GpsMeasurement]. *)
Definition measurement_assign : list (string * string) :=
  [("accumulated_delta_range_m", "AcDRInMeters"); ("accumulated_delta_range_state", "AcDRState10");
   ("accumulated_delta_range_uncertainty_m", "AcDRUnInMeters"); ("azimuth_deg", "AzInDeg");
   ("azimuth_uncertainty_deg", "AzUnInDeg"); ("bit_number", "BitNumber");
   ("carrier_cycles", "CarrierCycle"); ("carrier_phase", "CarrierPhase");
   ("carrier_phase_uncertainty", "CarrierPhaseUn"); ("carrier_frequency_hz", "CFInhZ");
   ("c_n0_dbhz", "Cn0InDbHz"); ("code_phase_chips", "CPInChips");
   ("code_phase_uncertainty_chips", "CPUnInChips"); ("doppler_shift_hz", "DopperShiftInHz");
   ("doppler_shift_uncertainty_hz", "DopperShiftUnInHz"); ("elevation_deg", "ElInDeg");
   ("elevation_uncertainty_deg", "ElUnInDeg"); ("flags", "flag");
   ("loss_of_lock", "LossOfLock"); ("multipath_indicator", "MultipathIndicater");
   ("pseudorange_m", "PRInMeters"); ("prn", "PRN");
   ("pseudorange_rate_mps", "PRRateInMeterPreSec"); ("pseudorange_rate_uncertainty_mps", "PRRateUnInMeterPreSec");
   ("pseudorange_uncertainty_m", "PRUnInMeters"); ("received_gps_tow_ns", "ReGpsTowInNs");
   ("received_gps_tow_uncertainty_ns", "ReGpsTowUnInNs"); ("snr_db", "SnrInDb");
   ("state", "state"); ("time_from_last_bit_ms", "TimeFromLastBitInMs");
   ("time_offset_ns", "TimeOffsetInNs"); ("used_in_fix", "UsedInFix")].

(** A member-by-member copy; [used_in_fix] is a [bool]. *)
Definition assign (tbl : list (string * string)) (s : list (string * Z)) : list (string * Z) :=
  map (fun ds => let v := member (snd ds) s in
                 (fst ds, if String.eqb (fst ds) "used_in_fix" then c_bool (truth v) else v)) tbl.

(** gps_mtk_aosp.c:3494-3588 [mnld_to_gps_handler, HAL_CMD_MEASUREMENT] all 32
    measurements are read, the loop reports the first. *)
Definition mnld_measurement (b : cursor) : HAL unit :=
  let* w := getM in
  if w_meas_init w =? 1 then
    let* r := of_option (buff_get_struct (32 * Z.of_nat measurement_size) b) in
    let* c := of_option (buff_get_struct (Z.of_nat clock_size) (snd r)) in
    let clock := assign clock_assign (struct_decode 4 MTK_GPS_CLOCK (fst c)) in
    let m := assign measurement_assign (struct_decode 4 MTK_GPS_MEASUREMENT (fst r)) in
    let measurement_count := if member "prn" m =? 0 then 0 else 1 in
    if 0 <? measurement_count then emit (EvMeasurement measurement_count m clock) else retM tt
  else retM tt.

Definition i8 (z : Z) : Z := (z + 2 ^ 7) mod 2 ^ 8 - 2 ^ 7.

(** [malloc]: whether there is memory. *)
Definition malloc : HAL bool :=
  let* w := getM in
  modM (fun w => w <| w_env := (w_env w) <| e_malloc := tail (e_malloc (w_env w)) |> |>) ;;
  retM (hd true (e_malloc (w_env w))).

(** gps_mtk_aosp.c:3593-3634 [mnld_to_gps_handler, HAL_CMD_NAVIGATION] [length] bytes
    are copied from the array of 40 into memory that may not be there: only the first
    allocation is checked. *)
Definition mnld_navigation (b : cursor) : HAL unit :=
  let* w := getM in
  if w_nav_init w =? 1 then
    let* gps_navigation_event := malloc in
    if negb gps_navigation_event then retM tt else
    let* r := of_option (buff_get_struct (Z.of_nat navigation_size) b) in
    let ev := struct_decode 4 MTK_GPS_NAVIGATION_EVENT (fst r) in
    let* copy := malloc in
    let* data := of_option (mem_read (le_bytes 40 (member "data" ev)) 0 (member "length" ev)) in
    if negb copy && (0 <? member "length" ev) then undefM else
    emit (EvNavigation [("prn", i8 (member "prn" ev)); ("type", u8 (member "type" ev));
                        ("message_id", member "messageID" ev); ("submessage_id", member "submessageID" ev);
                        ("data_length", member "length" ev)] data)
  else retM tt.

(** * Session *)

(** gps_mtk_aosp.c:3453-3470 [mnld_to_gps_handler, HAL_CMD_MNL_DIE]. *)
Definition mnld_die : prog unit :=
  act (modM (fun w => w <| w_flag_unlock := 0 |>)) ;!
  act (modM (fun w => w <| w_sta := GPS_STATUS_SESSION_END |>)) ;!
  act (let* w := getM in call_cb cb_status (EvStatus (w_sta w))) ;!
  act (modM (fun w => w <| w_sta := GPS_STATUS_ENGINE_OFF |>)) ;!
  act (let* w := getM in call_cb cb_status (EvStatus (w_sta w))) ;!
  act (release_condition M_STOP) ;!
  act (call_cb cb_release_wakelock EvReleaseWakelock) ;!
  act (modM (fun w => w <| w_state := (w_state w) <| st_start_flag := 0 |> |>)).

(** gps_mtk_aosp.c:3474-3489 [mnld_to_gps_handler, icon] two status reports. *)
Definition icon_status (first second : Z) : prog unit :=
  let! started := act (gets w_started) in
  if started =? 0 then
    act (modM (fun w => w <| w_sta := first |>)) ;!
    act (let* w := getM in call_cb cb_status (EvStatus (w_sta w))) ;!
    act (modM (fun w => w <| w_sta := second |>)) ;!
    act (let* w := getM in call_cb cb_status (EvStatus (w_sta w)))
  else Ret tt.

(** gps_mtk_aosp.c:3471-3493 [mnld_to_gps_handler, HAL_CMD_GPS_ICON]. *)
Definition mnld_icon (b : cursor) : prog unit :=
  let! r := act (of_option (buff_get_int b)) in
  let status := fst r in
  if status =? 1 then icon_status GPS_STATUS_ENGINE_ON GPS_STATUS_SESSION_BEGIN
  else if status =? 0 then icon_status GPS_STATUS_ENGINE_OFF GPS_STATUS_SESSION_END
  else Ret tt.

(** gps_mtk_aosp.c:3428-3435 [mnld_to_gps_handler, HAL_CMD_UPDATE_EPO_FILE_DONE]. *)
Definition mnld_epo_done : HAL unit :=
  let* w := getM in
  if (epo_download_failed (w_epo w) =? 0) && (gps_epo_file_count (w_epo w) =? 0) then unlink EPO_FILE_HAL else retM tt.

(** gps_mtk_aosp.c:3441-3447 [mnld_to_gps_handler, MNL_CMD_GPS_INJECT_TIME_REQ]. *)
Definition mnld_time_req : HAL unit :=
  let* w := getM in
  if cb_request_utc_time (w_cbs w) then emit EvRequestUtcTime else retM tt.

(** gps_mtk_aosp.c:3248-3641 [mnld_to_gps_handler, dispatch]. *)
Definition mnld_dispatch (type : Z) (b : cursor) : prog unit :=
  if type =? mnl_agps MNL_AGPS_CMD_NOTIFICATION then
    act (let* n := of_option (decode_notification b) in agps_cb gps_ni_callbacks (EvNiNotify n))
  else if type =? mnl_agps MNL_AGPS_CMD_NOTIFICATION_2 then
    act (let* n := of_option (decode_notification_2 b) in agps_cb gps_ni_callbacks (EvNiNotify n))
  else if type =? mnl_agps MNL_AGPS_CMD_DATA_CONN_REQ then
    act (let* e := of_option (decode_data_conn_req b) in agps_cb agps_callbacks e)
  else if type =? mnl_agps MNL_AGPS_CMD_DATA_CONN_REQ2 then
    act (let* e := of_option (decode_data_conn_req2 b) in agps_cb agps_callbacks e)
  else if type =? mnl_agps MNL_AGPS_CMD_DATA_CONN_RELEASE then
    act (agps_cb agps_callbacks data_conn_release)
  else if type =? mnl_agps MNL_AGPS_CMD_REQUEST_SET_ID then
    act (let* r := of_option (buff_get_int b) in agps_cb agps_ril_callbacks (EvRequestSetId (u32 (fst r))))
  else if type =? mnl_agps MNL_AGPS_CMD_REQUEST_REFLOC then
    act (let* r := of_option (buff_get_int b) in agps_cb agps_ril_callbacks (EvRequestRefLoc (u32 (fst r))))
  else if type =? mnl_agps MNL_AGPS_CMD_AGPS_LOC then act (mnld_agps_loc b)
  else if type =? hal_cmd HAL_CMD_UPDATE_EPO_FILE_DONE then act mnld_epo_done
  else if type =? hal_cmd HAL_CMD_UPDATE_EPO_FILE_FAIL then Ret tt
  else if type =? hal_cmd MNL_CMD_GPS_INJECT_TIME_REQ then act mnld_time_req
  else if type =? hal_cmd MNL_CMD_GPS_INJECT_LOCATION_REQ then act mtk_gps_send_location_to_mnl
  else if type =? hal_cmd HAL_CMD_MNL_DIE then mnld_die
  else if type =? hal_cmd HAL_CMD_GPS_ICON then mnld_icon b
  else if type =? hal_cmd HAL_CMD_MEASUREMENT then act (mnld_measurement b)
  else if type =? hal_cmd HAL_CMD_NAVIGATION then act (mnld_navigation b)
  else Ret tt.

Definition MNLD_BUFF : nat := Z.to_nat 9000.

(** The array after [safe_read] into it. *)
Definition received (data : option (list Z)) : list Z :=
  let bs := take MNLD_BUFF (default [] data) in bs ++ zeros (MNLD_BUFF - length bs).

(** gps_mtk_aosp.c:3239-3642 [mnld_to_gps_handler] [data] is the datagram, [None] when
    the read fails. *)
Definition mnld_to_gps_handler (data : option (list Z)) : prog unit :=
  let! r := act (of_option (buff_get_int (received data, 0))) in
  mnld_dispatch (fst r) (snd r).
