(* ===== verification/MnldProps.v ===== *)
(** What the HAL does with a message of the daemon: the messages of the protocol as
    abstract values, the effect each stands for, and the proof that
    [mnld_to_gps_handler] (src/hal/gps/hal/gps_mtk_aosp.c) has exactly that
    effect on the bytes of the message. *)

From stdpp Require Import base list gmap strings numbers.
From Stdlib Require Import ZArith Lia SpecFloat.
From S2P Require Import Prelude CFloat GpsTypes Buff Daemon CStruct EpoConf Threads Mnld.

Local Open Scope Z_scope.
Local Open Scope st_scope.
Local Open Scope rec_scope.

(** A location of the AGPS daemon: every member but the coordinates is optional. *)
Record AgpsLoc := mkAgpsLoc {
  al_latitude : double;
  al_longitude : double;
  al_altitude : option double;
  al_speed : option float;
  al_bearing : option float;
  al_accuracy : option float;
  al_timestamp : option Z;
}.

Inductive mnld_msg :=
  | MsgNotification (id type : Z) (requestor client : list Z)
  | MsgNotification2 (id type : Z) (requestor text : list Z) (enc_requestor enc_text : Z)
  | MsgDataConnReq (ipaddr emergency : Z)
  | MsgDataConnReq2 (addr : list Z) (emergency : Z)
  | MsgDataConnRelease
  | MsgRequestSetId (flags : Z)
  | MsgRequestRefLoc (flags : Z)
  | MsgAgpsLoc (l : AgpsLoc)
  | MsgEpoDone
  | MsgEpoFail
  | MsgTimeReq
  | MsgLocationReq
  | MsgDie
  | MsgIcon (status : Z)
  | MsgMeasurement (first : list Z) (others : list Z) (clock : list Z)
  | MsgNavigation (type prn message_id submessage_id length : Z) (data : list Z).

Definition used {A} (o : option A) : Z := c_bool (bool_decide (is_Some o)).

Definition loc_values (l : AgpsLoc) : list Z :=
  [d_bits (al_latitude l); d_bits (al_longitude l);
   used (al_altitude l); d_bits (default dzero (al_altitude l));
   used (al_speed l); f_bits (default dzero (al_speed l));
   used (al_bearing l); f_bits (default dzero (al_bearing l));
   used (al_accuracy l); f_bits (default dzero (al_accuracy l));
   used (al_timestamp l); default 0 (al_timestamp l)].

Definition msg_items (m : mnld_msg) : list item :=
  match m with
  | MsgNotification id type requestor client => [IInt 230; IInt id; IInt type; IStr requestor; IStr client]
  | MsgNotification2 id type requestor text e1 e2 =>
      [IInt 236; IInt id; IInt type; IStr requestor; IStr text; IInt e1; IInt e2]
  | MsgDataConnReq ip em => [IInt 231; IInt ip; IInt em]
  | MsgDataConnReq2 addr em => [IInt 237; IStruct addr; IInt em]
  | MsgDataConnRelease => [IInt 232]
  | MsgRequestSetId flags => [IInt 233; IInt flags]
  | MsgRequestRefLoc flags => [IInt 234; IInt flags]
  | MsgAgpsLoc l => [IInt 235; IStruct (struct_encode 8 mnl_agps_agps_location (loc_values l))]
  | MsgEpoDone => [IInt 0x36]
  | MsgEpoFail => [IInt 0x38]
  | MsgTimeReq => [IInt 0x48]
  | MsgLocationReq => [IInt 0x49]
  | MsgDie => [IInt 0x41]
  | MsgIcon status => [IInt 0x42; IInt status]
  | MsgMeasurement first others clock =>
      [IInt 0x76; IStruct (struct_encode 4 MTK_GPS_MEASUREMENT first ++ others);
       IStruct (struct_encode 4 MTK_GPS_CLOCK clock)]
  | MsgNavigation type prn mid sid len data =>
      [IInt 0x77; IStruct (struct_encode 4 MTK_GPS_NAVIGATION_EVENT [56; type; prn; mid; sid; len; le_value data])]
  end.

Definition text_ok (cap : Z) (s : list Z) : Prop := Forall (fun b => is_byte b /\ b <> 0) s /\ zlen s <= cap.

Definition opt_ok {A} (P : A -> Prop) (o : option A) : Prop := match o with Some a => P a | None => True end.

(** Messages the protocol carries: words in range, texts that fit the members
    they are stored in, structures with every member in range. *)
Definition msg_ok (m : mnld_msg) : Prop :=
  match m with
  | MsgNotification id type requestor client =>
      is_i32 id /\ is_i32 type /\ text_ok 63 requestor /\ text_ok 509 client
  | MsgNotification2 id type requestor text e1 e2 =>
      is_i32 id /\ is_i32 type /\ text_ok 255 requestor /\ text_ok 2047 text /\ is_i32 e1 /\ is_i32 e2
  | MsgDataConnReq ip em => is_i32 ip /\ is_i32 em
  | MsgDataConnReq2 addr em => zlen addr = 128 /\ is_i32 em
  | MsgRequestSetId flags | MsgRequestRefLoc flags => is_i32 flags
  | MsgAgpsLoc l => d_valid (al_latitude l) /\ d_valid (al_longitude l) /\ opt_ok d_valid (al_altitude l) /\
      opt_ok f_valid (al_speed l) /\ opt_ok f_valid (al_bearing l) /\ opt_ok f_valid (al_accuracy l) /\
      opt_ok (ty_ok TI64) (al_timestamp l)
  | MsgIcon status => is_i32 status
  | MsgMeasurement first others clock =>
      Forall2 (fun f v => ty_ok (snd f) v) MTK_GPS_MEASUREMENT first /\ zlen others = 31 * 220 /\
      Forall2 (fun f v => ty_ok (snd f) v) MTK_GPS_CLOCK clock
  | MsgNavigation type prn mid sid len data =>
      ty_ok TI8 type /\ ty_ok TU8 prn /\ ty_ok TI16 mid /\ ty_ok TI16 sid /\ 0 <= len <= 40 /\
      zlen data = 40 /\ Forall is_byte data
  | _ => True
  end.

Definition hex_text (size : nat) (s : list Z) : list Z := hex_of (usc2_of s) ++ zeros (size - 2 * length (usc2_of s)).

Definition spec_location (l : AgpsLoc) : GpsLocation :=
  mkLoc (1 + 2 * used (al_altitude l) + 4 * used (al_speed l) + 8 * used (al_bearing l) + 16 * used (al_accuracy l))
    (al_latitude l) (al_longitude l) (default dzero (al_altitude l)) (default dzero (al_speed l))
    (default dzero (al_bearing l)) (default dzero (al_accuracy l)) (default 0 (al_timestamp l)).

Definition status_cbs (l : list Z) : HAL unit :=
  let* w := getM in
  if cb_status (w_cbs w) then
    modM (fun w => w <| w_sta := List.last l 0 |> <| w_trace := w_trace w ++ map EvStatus l |>)
  else undefM.

(** The effect each message stands for. *)
Definition mnld_spec (m : mnld_msg) : HAL unit :=
  match m with
  | MsgNotification id type requestor client =>
      agps_cb gps_ni_callbacks (EvNiNotify (mkNi id GPS_NI_TYPE_UMTS_SUPL (notify_flags type)
        (hex_text 256 requestor) (hex_text 2048 client) GPS_ENC_SUPL_UCS2 GPS_ENC_SUPL_UCS2 8 GPS_NI_RESPONSE_NORESP))
  | MsgNotification2 id type requestor text e1 e2 =>
      agps_cb gps_ni_callbacks (EvNiNotify (mkNi id GPS_NI_TYPE_UMTS_SUPL (notify_flags type)
        (requestor ++ zeros (256 - length requestor)) (text ++ zeros (2048 - length text)) e1 e2 8 GPS_NI_RESPONSE_NORESP))
  | MsgDataConnReq ip _ => agps_cb agps_callbacks (EvAgpsStatus AGpsStatus_v2 1 1 (u32 ip) [])
  | MsgDataConnReq2 addr _ => agps_cb agps_callbacks (EvAgpsStatus AGpsStatus 1 1 0 addr)
  | MsgDataConnRelease => agps_cb agps_callbacks (EvAgpsStatus AGpsStatus_v1 1 2 0 [])
  | MsgRequestSetId flags => agps_cb agps_ril_callbacks (EvRequestSetId (u32 flags))
  | MsgRequestRefLoc flags => agps_cb agps_ril_callbacks (EvRequestRefLoc (u32 flags))
  | MsgAgpsLoc l => let* w := getM in if cb_location (w_cbs w) then emit (EvLocation (spec_location l)) else retM tt
  | MsgEpoDone => mnld_epo_done
  | MsgEpoFail => retM tt
  | MsgTimeReq => mnld_time_req
  | MsgLocationReq => mtk_gps_send_location_to_mnl
  | MsgDie =>
      let* w := getM in
      if cb_status (w_cbs w) && cb_release_wakelock (w_cbs w) then
        modM (fun w => w <| w_flag_unlock := 0 |> <| w_sta := GPS_STATUS_ENGINE_OFF |>
                         <| w_cond := <[sync_id M_STOP := 1]> (w_cond w) |>
                         <| w_state := (w_state w) <| st_start_flag := 0 |> |>
                         <| w_trace := w_trace w ++ [EvStatus GPS_STATUS_SESSION_END; EvStatus GPS_STATUS_ENGINE_OFF;
                                                     EvReleaseWakelock] |>)
      else undefM
  | MsgIcon status =>
      let* w := getM in
      if w_started w =? 0 then
        if status =? 1 then status_cbs [GPS_STATUS_ENGINE_ON; GPS_STATUS_SESSION_BEGIN]
        else if status =? 0 then status_cbs [GPS_STATUS_ENGINE_OFF; GPS_STATUS_SESSION_END]
        else retM tt
      else retM tt
  | MsgMeasurement first _ clock =>
      let m := assign measurement_assign (zip (map fst MTK_GPS_MEASUREMENT) first) in
      let* w := getM in
      if (w_meas_init w =? 1) && negb (member "prn" m =? 0)
      then emit (EvMeasurement 1 m (assign clock_assign (zip (map fst MTK_GPS_CLOCK) clock))) else retM tt
  | MsgNavigation type prn mid sid len data =>
      let* w := getM in
      if w_nav_init w =? 1 then
        let* event := malloc in
        if event then
          let* copy := malloc in
          if copy || (len =? 0) then
            emit (EvNavigation [("prn", i8 prn); ("type", u8 type); ("message_id", mid); ("submessage_id", sid);
                                ("data_length", len)] (take (Z.to_nat len) data))
          else undefM
        else retM tt
      else retM tt
  end.

(** * Reading at a position *)

Definition at_cur (P rest : list Z) : cursor := (P ++ rest, zlen P).

Lemma get_int_at P z rest : is_i32 z ->
  buff_get_int (at_cur P (item_bytes (IInt z) ++ rest)) = Some (z, at_cur (P ++ item_bytes (IInt z)) rest).
Proof. intros H. unfold at_cur. rewrite (reads_int z H). by rewrite <- app_assoc. Qed.

Lemma get_struct_at P b n rest : zlen b = n ->
  buff_get_struct n (at_cur P (item_bytes (IStruct b) ++ rest)) = Some (b, at_cur (P ++ item_bytes (IStruct b)) rest).
Proof. intros <-. unfold at_cur. rewrite (reads_struct b). by rewrite <- app_assoc. Qed.

Lemma get_string_at P s cap rest : zlen s < Z.of_nat cap -> Z.of_nat cap < 2 ^ 31 ->
  buff_get_string (zeros cap) (at_cur P (item_bytes (IStr s) ++ rest)) =
    Some (zlen s + 1, s ++ zeros (cap - length s), at_cur (P ++ item_bytes (IStr s)) rest).
Proof.
  intros H Hc. pose proof (zlen_nonneg s). assert (R := reads_string (zeros cap) s). rewrite zlen_zeros in R.
  specialize (R ltac:(lia) ltac:(unfold is_i32; lia) P rest). cbn beta in R. unfold at_cur. set (ib := item_bytes (IStr s)) in *. clearbody ib.
  destruct (buff_get_string _ _) as [[[len d] b]|]; [|done]. cbn [mbind option_bind] in R. injection R as -> -> ->.
  assert (0 :: drop (length s + 1) (zeros cap) = zeros (cap - length s)) as ->.
  { unfold zeros. rewrite drop_replicate. unfold zlen in H. by replace (cap - length s)%nat with (S (cap - (length s + 1))) by lia. }
  by rewrite <- app_assoc.
Qed.

Lemma local_string_ok s cap : Forall (fun b => is_byte b /\ b <> 0) s -> zlen s < Z.of_nat cap ->
  local_string (s ++ zeros (cap - length s)) (zlen s + 1) = Some s.
Proof.
  intros H Hc. unfold local_string, zlen in *. replace (Z.to_nat (Z.of_nat (length s) + 1)) with (length s + 1)%nat by lia.
  assert (take (length s + 1) (s ++ zeros (cap - length s)) = s ++ [0]) as ->.
  { rewrite take_app_add. destruct (cap - length s)%nat eqn:E; [lia|]. done. }
  rewrite existsb_app. cbn. rewrite orb_true_r, cstr_app_nul; [done|].
  eapply Forall_impl; [|exact H]. by intros b [_ ?].
Qed.

Lemma ucs2_hex_ok size s : Forall (fun b => is_byte b /\ b <> 0) s -> 2 * zlen s + 5 <= 1024 ->
  4 * zlen s + 4 <= Z.of_nat size -> ucs2_hex size s = Some (hex_text size s).
Proof.
  intros H Hu Hs. unfold ucs2_hex. rewrite asc_str_to_usc2_str_spec by lia. rewrite (proj2 (Z.leb_le _ _)) by lia.
  cbn [mbind option_bind]. rewrite (hex_string_spec size (usc2_of s)); [done|..].
  - apply usc2_of_range. eapply Forall_impl; [|exact H]. by intros b [? _].
  - unfold zlen. rewrite length_usc2_of. lia.
  - lia.
Qed.

(** The array holds the message followed by zeros. *)
Lemma received_message l : zlen (encode l) <= 9000 ->
  received (Some (encode l)) = encode l ++ zeros (MNLD_BUFF - length (encode l)).
Proof.
  intros H. unfold received. cbn [default from_option id]. rewrite take_ge; [done|]. unfold MNLD_BUFF, zlen in *. lia.
Qed.

(** The handler on a message whose first word is [t]. *)
Lemma handler_run t l w : is_i32 t -> zlen (encode (IInt t :: l)) <= 9000 ->
  exists post, run (mnld_to_gps_handler (Some (encode (IInt t :: l)))) w =
    run (mnld_dispatch t (at_cur (item_bytes (IInt t)) (encode l ++ post))) w.
Proof.
  intros Ht Hl. eexists. unfold mnld_to_gps_handler. rewrite run_bind.
  rewrite received_message by exact Hl. rewrite encode_cons, <- app_assoc.
  pose proof (get_int_at [] t (encode l ++ zeros (MNLD_BUFF - length (item_bytes (IInt t) ++ encode l))) Ht) as E.
  unfold at_cur in E at 1. cbn [app] in E. change (zlen []) with 0 in E.
  unfold bindM at 1. rewrite run_act, E. reflexivity.
Qed.

(** * Sizes *)

Lemma zlen_items_int z : zlen (item_bytes (IInt z)) = 4.
Proof. reflexivity. Qed.

Lemma zlen_items_str s : zlen (item_bytes (IStr s)) = zlen s + 5.
Proof. cbn [item_bytes]. rewrite !zlen_app, zlen_le_bytes. change (zlen [0]) with 1. lia. Qed.

Lemma zlen_struct pack fs vs : Forall2 (fun f v => ty_ok (snd f) v) fs vs ->
  zlen (struct_encode pack fs vs) = Z.of_nat (struct_size pack fs).
Proof. intros H. unfold zlen. rewrite struct_encode_size; [done|]. by apply Forall2_length in H. Qed.

Lemma loc_values_length l : zlen (struct_encode 8 mnl_agps_agps_location (loc_values l)) = 72.
Proof. unfold zlen. by rewrite struct_encode_size. Qed.

Lemma nav_length a b c d e f : zlen (struct_encode 4 MTK_GPS_NAVIGATION_EVENT [56; a; b; c; d; e; f]) = 56.
Proof. unfold zlen. by rewrite struct_encode_size. Qed.

Lemma msg_fits m : msg_ok m -> zlen (encode (msg_items m)) <= 9000.
Proof.
  intros H. destruct m; cbn [msg_items msg_ok] in *; unfold encode; cbn [map concat]; rewrite ?zlen_app, ?zlen_nil;
    rewrite ?zlen_items_int, ?zlen_items_str; unfold text_ok in *; try lia; cbn [item_bytes] in *.
  - destruct H. lia.
  - rewrite loc_values_length. lia.
  - destruct H as (Hm & Ho & Hc). rewrite zlen_app, (zlen_struct _ _ _ Hm), (zlen_struct _ _ _ Hc), Ho. vm_compute. discriminate.
  - rewrite nav_length. lia.
Qed.

(** * Structures *)

Lemma d_bits_ok x : d_valid x -> ty_ok TF64 (d_bits x).
Proof. intros H. exact (d_bits_range x H). Qed.

Lemma f_bits_ok x : f_valid x -> ty_ok TF32 (f_bits x).
Proof. intros H. exact (f_bits_range x H). Qed.

Lemma used_ok {A} (o : option A) : ty_ok TU8 (used o).
Proof. unfold used. destruct (bool_decide _); vm_compute; split; congruence. Qed.

Lemma used_truth {A} (o : option A) : truth (used o) = bool_decide (is_Some o).
Proof. unfold used. by destruct (bool_decide _). Qed.

Lemma loc_values_ok l : msg_ok (MsgAgpsLoc l) ->
  Forall2 (fun f v => ty_ok (snd f) v) mnl_agps_agps_location (loc_values l).
Proof.
  cbn [msg_ok]. intros (H1 & H2 & H3 & H4 & H5 & H6 & H7). unfold mnl_agps_agps_location, loc_values.
  repeat apply Forall2_cons_2; cbn [snd]; try apply used_ok; try (by apply d_bits_ok); try (by constructor).
  - destruct (al_altitude l); by apply d_bits_ok.
  - destruct (al_speed l); by apply f_bits_ok.
  - destruct (al_bearing l); by apply f_bits_ok.
  - destruct (al_accuracy l); by apply f_bits_ok.
  - destruct (al_timestamp l); [done|vm_compute; split; congruence].
Qed.

Lemma agps_location_spec l : msg_ok (MsgAgpsLoc l) ->
  agps_location (zip (map fst mnl_agps_agps_location) (loc_values l)) = spec_location l.
Proof.
  cbn [msg_ok]. intros (H1 & H2 & H3 & H4 & H5 & H6 & H7). destruct l as [lat lon alt sp be ac ts].
  cbn [al_latitude al_longitude al_altitude al_speed al_bearing al_accuracy al_timestamp] in *.
  unfold agps_location. set (s := zip_with _ _ _).
  change (member "latitude" s) with (d_bits lat). change (member "longitude" s) with (d_bits lon).
  change (member ("altitude" ++ "_used") s) with (used alt). change (member "altitude" s) with (d_bits (default dzero alt)).
  change (member ("speed" ++ "_used") s) with (used sp). change (member "speed" s) with (f_bits (default dzero sp)).
  change (member ("bearing" ++ "_used") s) with (used be). change (member "bearing" s) with (f_bits (default dzero be)).
  change (member ("accuracy" ++ "_used") s) with (used ac). change (member "accuracy" s) with (f_bits (default dzero ac)).
  change (member ("timestamp" ++ "_used") s) with (used ts). change (member "timestamp" s) with (default 0 ts).
  rewrite !used_truth, (d_bits_roundtrip lat), (d_bits_roundtrip lon) by done.
  destruct alt, sp, be, ac, ts; cbn [default from_option id opt_ok] in *; rewrite ?d_bits_roundtrip, ?f_bits_roundtrip by done; reflexivity.
Qed.

Lemma data_bytes data : zlen data = 40 -> Forall is_byte data -> le_bytes 40 (le_value data) = data.
Proof. intros H Hb. rewrite <- (le_bytes_value data Hb) at 2. f_equal. unfold zlen in H. lia. Qed.

Lemma nav_values_ok type prn mid sid len data : msg_ok (MsgNavigation type prn mid sid len data) ->
  Forall2 (fun f v => ty_ok (snd f) v) MTK_GPS_NAVIGATION_EVENT [56; type; prn; mid; sid; len; le_value data].
Proof.
  cbn [msg_ok]. intros (H1 & H2 & H3 & H4 & H5 & H6 & H7). unfold MTK_GPS_NAVIGATION_EVENT.
  repeat apply Forall2_cons_2; cbn [snd]; try done; try (by constructor).
  - unfold ty_ok. cbn [signed ty_size]. lia.
  - unfold ty_ok. cbn [signed ty_size]. pose proof (le_value_range data H7) as R. rewrite H6 in R. exact R.
Qed.

(** * One message at a time *)

Lemma notification_decodes P id type requestor client post : msg_ok (MsgNotification id type requestor client) ->
  decode_notification (at_cur P (encode [IInt id; IInt type; IStr requestor; IStr client] ++ post)) =
    Some (mkNi id GPS_NI_TYPE_UMTS_SUPL (notify_flags type) (hex_text 256 requestor) (hex_text 2048 client)
            GPS_ENC_SUPL_UCS2 GPS_ENC_SUPL_UCS2 8 GPS_NI_RESPONSE_NORESP).
Proof.
  cbn [msg_ok]. intros (H1 & H2 & [H3 H3'] & [H4 H4']). unfold decode_notification.
  rewrite !encode_cons, <- !app_assoc. rewrite get_int_at by done. cbn [mbind option_bind].
  rewrite get_int_at by done. cbn [mbind option_bind].
  rewrite get_string_at by lia. cbn [mbind option_bind].
  rewrite get_string_at by lia. cbn [mbind option_bind].
  rewrite !local_string_ok by (done || lia). cbn [mbind option_bind].
  rewrite (ucs2_hex_ok GPS_NI_SHORT_STRING_MAXLEN requestor); [|done|lia|unfold GPS_NI_SHORT_STRING_MAXLEN; lia].
  cbn [mbind option_bind].
  rewrite (ucs2_hex_ok GPS_NI_LONG_STRING_MAXLEN client); [done|done|lia|unfold GPS_NI_LONG_STRING_MAXLEN; lia].
Qed.

Lemma notification_2_decodes P id type requestor text e1 e2 post : msg_ok (MsgNotification2 id type requestor text e1 e2) ->
  decode_notification_2 (at_cur P (encode [IInt id; IInt type; IStr requestor; IStr text; IInt e1; IInt e2] ++ post)) =
    Some (mkNi id GPS_NI_TYPE_UMTS_SUPL (notify_flags type) (requestor ++ zeros (256 - length requestor))
            (text ++ zeros (2048 - length text)) e1 e2 8 GPS_NI_RESPONSE_NORESP).
Proof.
  cbn [msg_ok]. intros (H1 & H2 & [H3 H3'] & [H4 H4'] & H5 & H6). unfold decode_notification_2.
  rewrite !encode_cons, <- !app_assoc. rewrite get_int_at by done. cbn [mbind option_bind].
  rewrite get_int_at by done. cbn [mbind option_bind].
  rewrite get_string_at by (unfold GPS_NI_SHORT_STRING_MAXLEN; lia). cbn [mbind option_bind].
  rewrite get_string_at by (unfold GPS_NI_LONG_STRING_MAXLEN; lia). cbn [mbind option_bind].
  rewrite get_int_at by done. cbn [mbind option_bind].
  rewrite get_int_at by done. reflexivity.
Qed.

Lemma agps_loc_run P l post w : msg_ok (MsgAgpsLoc l) ->
  mnld_agps_loc (at_cur P (encode [IStruct (struct_encode 8 mnl_agps_agps_location (loc_values l))] ++ post)) w =
    mnld_spec (MsgAgpsLoc l) w.
Proof.
  intros H. unfold mnld_agps_loc. rewrite !encode_cons, <- !app_assoc.
  rewrite get_struct_at by apply loc_values_length. cbn [of_option]. unfold bindM at 1, retM at 1. cbn [fst].
  rewrite <- (app_nil_r (struct_encode _ _ _)), struct_roundtrip, agps_location_spec by (done || by apply loc_values_ok). done.
Qed.

Lemma measurement_run P first others clock post w : msg_ok (MsgMeasurement first others clock) ->
  mnld_measurement (at_cur P (encode [IStruct (struct_encode 4 MTK_GPS_MEASUREMENT first ++ others);
                                      IStruct (struct_encode 4 MTK_GPS_CLOCK clock)] ++ post)) w =
    mnld_spec (MsgMeasurement first others clock) w.
Proof.
  cbn [msg_ok]. intros (H1 & H2 & H3). unfold mnld_measurement, mnld_spec. unfold bindM at 1 4, getM.
  destruct (w_meas_init w =? 1); [|done]. cbn [andb]. rewrite !encode_cons, <- !app_assoc.
  rewrite get_struct_at by (rewrite zlen_app, (zlen_struct _ _ _ H1), H2; reflexivity).
  cbn [of_option]. unfold bindM at 1, retM at 1. cbn [fst snd].
  rewrite get_struct_at by (rewrite (zlen_struct _ _ _ H3); reflexivity).
  cbn [of_option]. unfold bindM at 1, retM at 1. cbn [fst snd]. cbv zeta.
  rewrite struct_roundtrip by done. rewrite <- (app_nil_r (struct_encode 4 MTK_GPS_CLOCK clock)), struct_roundtrip by done.
  by destruct (_ =? 0).
Qed.

Lemma gets_run {S A} (f : S -> ST S A) w : (let* w := getM in f w) w = f w w.
Proof. done. Qed.

(** The world after an allocation. *)
Definition after_malloc (w : World) : World := w <| w_env := (w_env w) <| e_malloc := tail (e_malloc (w_env w)) |> |>.

Lemma malloc_run {A} (f : bool -> HAL A) w : (let* m := malloc in f m) w = f (hd true (e_malloc (w_env w))) (after_malloc w).
Proof. done. Qed.

Lemma navigation_run P type prn mid sid len data post w : msg_ok (MsgNavigation type prn mid sid len data) ->
  mnld_navigation (at_cur P (encode [IStruct (struct_encode 4 MTK_GPS_NAVIGATION_EVENT
                                       [56; type; prn; mid; sid; len; le_value data])] ++ post)) w =
    mnld_spec (MsgNavigation type prn mid sid len data) w.
Proof.
  intros H. pose proof (nav_values_ok _ _ _ _ _ _ H) as Hv. cbn [msg_ok] in H. destruct H as (_ & _ & _ & _ & H5 & H6 & H7).
  unfold mnld_navigation, mnld_spec. rewrite !gets_run. destruct (w_nav_init w =? 1); [|done].
  rewrite !malloc_run. destruct (hd true _); cbn [negb]; [|done].
  rewrite !encode_cons, <- !app_assoc. rewrite get_struct_at by apply nav_length.
  cbn [of_option]. unfold bindM at 1, retM at 1. cbn [fst snd]. cbv zeta.
  rewrite <- (app_nil_r (struct_encode _ _ _)), struct_roundtrip by exact Hv.
  set (ev := zip_with _ _ _). change (member "data" ev) with (le_value data). change (member "length" ev) with len.
  rewrite data_bytes by done. unfold mem_read. rewrite H6. cbn [Z.leb Z.compare andb].
  rewrite !malloc_run, (proj2 (Z.leb_le 0 len)), (proj2 (Z.leb_le (0 + len) 40)) by lia. cbn [andb of_option]. unfold bindM at 1, retM at 1.
  destruct (hd true _); [done|]. cbn [negb andb orb]. destruct (Z.eqb_spec len 0) as [->|]; [done|]. by rewrite (proj2 (Z.ltb_lt 0 len)) by lia.
Qed.

Lemma die_run w : run mnld_die w = mnld_spec MsgDie w.
Proof.
  unfold mnld_die, mnld_spec, act, call_cb, release_condition. cbn [pbind run]. run.
  destruct (cb_status (w_cbs w)) eqn:E; [|done]. run. rewrite ?E. run.
  destruct (cb_release_wakelock (w_cbs w)); [|done]. run. by rewrite <- !app_assoc.
Qed.

Lemma icon_status_run first second w : run (icon_status first second) w =
  (if w_started w =? 0 then status_cbs [first; second] w else Ok (tt, w)).
Proof.
  unfold icon_status, status_cbs, act, call_cb, gets. cbn [pbind run]. run. destruct (w_started w =? 0); [|done].
  cbn [run]. run. destruct (cb_status (w_cbs w)) eqn:E; [|done]. run. rewrite ?E. run. by rewrite <- app_assoc.
Qed.

Lemma icon_run P status post w : is_i32 status ->
  run (mnld_icon (at_cur P (encode [IInt status] ++ post))) w = mnld_spec (MsgIcon status) w.
Proof.
  intros H. unfold mnld_icon. rewrite run_bind. unfold bindM at 1. rewrite run_act, encode_cons, <- app_assoc, get_int_at by done.
  cbn [of_option retM fst mnld_spec]. unfold bindM, getM.
  destruct (Z.eqb_spec status 1) as [->|]; [rewrite icon_status_run; by destruct (w_started w =? 0)|].
  destruct (Z.eqb_spec status 0) as [->|]; [rewrite icon_status_run; by destruct (w_started w =? 0)|].
  by destruct (w_started w =? 0).
Qed.

(** * Datagrams that are not well-formed *)

Lemma received_length data : zlen (received data) = 9000.
Proof.
  unfold received, zlen. set (N := MNLD_BUFF). assert (Z.of_nat N = 9000) as <- by reflexivity. clearbody N.
  unfold zeros. rewrite length_app, length_replicate, length_take. lia.
Qed.

Lemma read_inside buf off n : 0 <= off -> 0 <= n -> off + n <= zlen buf -> is_Some (mem_read buf off n).
Proof.
  intros H1 H2 H3. unfold mem_read. rewrite (proj2 (Z.leb_le 0 off)), (proj2 (Z.leb_le 0 n)), (proj2 (Z.leb_le (off + n) _)) by lia.
  by eexists.
Qed.

Lemma int_inside buf off : 0 <= off -> off + 4 <= zlen buf -> exists z, buff_get_int (buf, off) = Some (z, (buf, off + 4)).
Proof.
  intros H1 H2. unfold buff_get_int. cbn [fst snd]. destruct (read_inside buf off 4) as [bs ->]; [lia..|]. by eexists.
Qed.

Lemma struct_inside buf off n : 0 <= off -> 0 <= n -> off + n <= zlen buf ->
  exists bs, buff_get_struct n (buf, off) = Some (bs, (buf, off + n)).
Proof.
  intros H1 H2 H3. unfold buff_get_struct. cbn [fst snd]. destruct (read_inside buf off n) as [bs ->]; [lia..|]. by eexists.
Qed.

(** Every table of callbacks is registered. *)
Definition registered (w : World) : Prop :=
  agps_callbacks (w_agps w) = true /\ gps_ni_callbacks (w_agps w) = true /\ agps_ril_callbacks (w_agps w) = true /\
  cb_status (w_cbs w) = true /\ cb_release_wakelock (w_cbs w) = true.

Lemma agps_cb_succeeds table e w : table (w_agps w) = true -> succeeds (agps_cb table e) w.
Proof. intros H. unfold agps_cb. eexists _, _. run. rewrite H. reflexivity. Qed.

Lemma send_location_succeeds w : succeeds mtk_gps_send_location_to_mnl w.
Proof.
  unfold mtk_gps_send_location_to_mnl, succeeds. rewrite (bindM_ok _ _ _ _ _ (read_file_run _ _)).
  destruct (f_data <$> _) as [data|]; [|by eexists _, _]. rewrite (bindM_ok getM _ w w w) by done. cbv zeta.
  change (buff_put_int ?z) with (put_item (IInt z)). change (buff_put_struct ?z) with (put_item (IStruct z)).
  rewrite put_two, put_items_message. rewrite (proj2 (Z.leb_le _ _)) by (vm_compute; discriminate).
  cbn [of_option]. unfold bindM at 1, retM at 1. destruct (_ <=? _); [|by eexists _, _].
  unfold mtk_daemon_send. rewrite bindM_assoc. unfold bindM at 1. rewrite daemon_send_run.
  destruct (send_loop _ _) as [[[ret errno] rest] delivered]. by eexists _, _.
Qed.

Lemma measurement_succeeds data w : succeeds (mnld_measurement (received data, 4)) w.
Proof.
  pose proof (received_length data) as L. unfold mnld_measurement, succeeds. unfold bindM at 1, getM.
  destruct (w_meas_init w =? 1); [|by eexists _, _].
  destruct (struct_inside (received data) 4 (32 * Z.of_nat measurement_size)) as [ms ->];
    [lia|lia|rewrite L; vm_compute; discriminate|].
  cbn [of_option]. unfold bindM at 1, retM at 1. cbn [snd].
  destruct (struct_inside (received data) (4 + 32 * Z.of_nat measurement_size) (Z.of_nat clock_size)) as [cl ->];
    [lia|lia|rewrite L; vm_compute; discriminate|].
  cbn [of_option]. unfold bindM at 1, retM at 1. cbv zeta. destruct (0 <? _); by eexists _, _.
Qed.

Lemma agps_loc_succeeds data w : succeeds (mnld_agps_loc (received data, 4)) w.
Proof.
  pose proof (received_length data) as L. unfold mnld_agps_loc, succeeds.
  destruct (struct_inside (received data) 4 (Z.of_nat location_size)) as [ms ->]; [lia|lia|rewrite L; vm_compute; discriminate|].
  cbn [of_option]. unfold bindM at 1, retM at 1. cbv zeta. unfold bindM, getM. destruct (cb_location _); by eexists _, _.
Qed.

Lemma die_succeeds w : registered w -> succeeds (run mnld_die) w.
Proof.
  intros (_ & _ & _ & H1 & H2). unfold succeeds. rewrite die_run. unfold mnld_spec. run. rewrite H1, H2. by eexists _, _.
Qed.

Lemma icon_succeeds data w : registered w -> succeeds (run (mnld_icon (received data, 4))) w.
Proof.
  intros (_ & _ & _ & H1 & _). pose proof (received_length data) as L. unfold mnld_icon, succeeds.
  destruct (int_inside (received data) 4) as [st ->]; [lia..|].
  rewrite run_bind. unfold bindM at 1. rewrite run_act. cbn [of_option retM fst].
  assert (forall a b, exists (x : unit) w', run (icon_status a b) w = Ok (x, w')) as Hi.
  { intros a b. rewrite icon_status_run. destruct (w_started w =? 0); [|by eexists _, _].
    unfold status_cbs. run. rewrite H1. by eexists _, _. }
  destruct (st =? 1); [apply Hi|]. destruct (st =? 0); [apply Hi|]. by eexists _, _.
Qed.

(** * Properties *)

(** C13: the handler implements the protocol: for every well-formed message of the
    daemon, reading its datagram has exactly the effect the message stands for (the
    notification, connection request, location, measurement, navigation or status
    callback with the decoded arguments, the state changes of a daemon that
    died, the answer to a location request), whatever state the HAL is in and whatever memory there is; a
    callback that is not registered makes it undefined, and so does a navigation message with
    data for which the second of its two allocations fails, since its answer is not looked at,
    and nothing else does; when the first one fails the message is dropped. The tables of the
    measurements and of the navigation messages, which are copied when these are switched on, are
    taken to hold their callbacks. *)
Theorem mnld_handler_refines (m : mnld_msg) (w : World) (Hm : msg_ok m) :
  run (mnld_to_gps_handler (Some (encode (msg_items m)))) w = mnld_spec m w.
Proof.
  pose proof (msg_fits m Hm) as Hf.
  assert (forall t l, msg_items m = IInt t :: l -> is_i32 t ->
    (forall post, run (mnld_dispatch t (at_cur (item_bytes (IInt t)) (encode l ++ post))) w = mnld_spec m w) ->
    run (mnld_to_gps_handler (Some (encode (msg_items m)))) w = mnld_spec m w) as Hgo.
  { intros t l E Ht Hrun. rewrite E in *. destruct (handler_run t l w Ht Hf) as [post ->]. apply Hrun. }
  destruct m; (eapply Hgo; [reflexivity|unfold is_i32; lia|]); intros post; unfold mnld_dispatch; cbn [mnl_agps hal_cmd Z.eqb Pos.eqb];
    rewrite ?run_act; cbn [msg_ok] in Hm.
  - by rewrite notification_decodes.
  - by rewrite notification_2_decodes.
  - unfold decode_data_conn_req. rewrite !encode_cons, <- !app_assoc. destruct Hm. rewrite get_int_at by done.
    cbn [mbind option_bind]. by rewrite get_int_at.
  - unfold decode_data_conn_req2. rewrite !encode_cons, <- !app_assoc. destruct Hm. rewrite get_struct_at by done.
    cbn [mbind option_bind]. by rewrite get_int_at.
  - done.
  - by rewrite encode_cons, <- app_assoc, get_int_at.
  - by rewrite encode_cons, <- app_assoc, get_int_at.
  - by apply agps_loc_run.
  - done.
  - done.
  - done.
  - done.
  - apply die_run.
  - by apply icon_run.
  - by apply measurement_run.
  - by apply navigation_run.
Qed.

Lemma mnld_handler_refines_witness :
  run (mnld_to_gps_handler (Some (encode (msg_items
    (MsgAgpsLoc (mkAgpsLoc (d_of_Z 48) (d_of_Z 11) None (Some (f_of_Z 2)) None None (Some 1000)))))))
    (world0 7 all_cbs quiet_env) =
  Ok (tt, (world0 7 all_cbs quiet_env) <| w_trace :=
    [EvLocation (mkLoc 5 (d_of_Z 48) (d_of_Z 11) dzero (f_of_Z 2) dzero dzero 1000)] |>).
Proof.
  refine (mnld_handler_refines (MsgAgpsLoc (mkAgpsLoc (d_of_Z 48) (d_of_Z 11) None (Some (f_of_Z 2)) None None (Some 1000)))
    (world0 7 all_cbs quiet_env) _).
  cbn [msg_ok opt_ok al_latitude al_longitude al_altitude al_speed al_bearing al_accuracy al_timestamp].
  split_and!; try reflexivity; vm_compute; split; congruence.
Defined.

(** the handler withstands any datagram of a kind that carries no lengths:
    whatever bytes arrive (too short, too long, garbage, or a failed read), unless
    the first word announces one of the two notifications or a navigation message,
    whose length words are trusted, the handler stays inside of its buffers and
    returns, provided the framework has registered its callbacks. *)
Theorem mnld_malformed_safe (data : option (list Z)) (w : World) (type : Z) (b : cursor) (Hw : registered w)
  (Ht : buff_get_int (received data, 0) = Some (type, b))
  (Hn : type <> mnl_agps MNL_AGPS_CMD_NOTIFICATION /\ type <> mnl_agps MNL_AGPS_CMD_NOTIFICATION_2 /\
        type <> hal_cmd HAL_CMD_NAVIGATION) :
  succeeds (run (mnld_to_gps_handler data)) w.
Proof.
  pose proof (received_length data) as L. pose proof Hw as (R1 & R2 & R3 & R4 & R5). destruct Hn as (N1 & N2 & N3).
  destruct (int_inside (received data) 0) as [z E]; [lia..|]. rewrite Ht in E. injection E as -> ->.
  unfold mnld_to_gps_handler, succeeds. rewrite run_bind. unfold bindM at 1. rewrite run_act, Ht. cbn [of_option retM fst snd].
  change (0 + 4) with 4. clear Ht. unfold mnld_dispatch.
  rewrite (proj2 (Z.eqb_neq _ _) N1), (proj2 (Z.eqb_neq _ _) N2), (proj2 (Z.eqb_neq _ _) N3).
  destruct (int_inside (received data) 4) as [f1 E1]; [lia..|].
  repeat case_goal; rewrite ?run_act; try (by eexists _, _); try (by apply die_succeeds); try (by apply icon_succeeds);
    try apply measurement_succeeds; try apply agps_loc_succeeds; try apply send_location_succeeds.
  - unfold decode_data_conn_req. rewrite E1. cbn [mbind option_bind].
    destruct (int_inside (received data) (4 + 4)) as [f2 ->]; [lia..|]. by apply agps_cb_succeeds.
  - unfold decode_data_conn_req2. destruct (struct_inside (received data) 4 sockaddr_storage_size) as [ad ->];
      [unfold sockaddr_storage_size; lia..|]. cbn [mbind option_bind].
    destruct (int_inside (received data) (4 + sockaddr_storage_size)) as [f2 ->]; [unfold sockaddr_storage_size; lia..|].
    by apply agps_cb_succeeds.
  - by apply agps_cb_succeeds.
  - rewrite E1. by apply agps_cb_succeeds.
  - rewrite E1. by apply agps_cb_succeeds.
  - unfold mnld_epo_done. run. by destruct (_ && _); eexists _, _.
  - unfold mnld_time_req. run. by destruct (cb_request_utc_time _); eexists _, _.
Qed.

Lemma mnld_malformed_safe_witness :
  succeeds (run (mnld_to_gps_handler (Some [0x41; 0; 0; 0; 0xff])))
    ((world0 7 all_cbs quiet_env) <| w_agps := mkAgps 7 true true true |>).
Proof.
  refine (mnld_malformed_safe (Some [0x41; 0; 0; 0; 0xff]) ((world0 7 all_cbs quiet_env) <| w_agps := mkAgps 7 true true true |>)
    0x41 (received (Some [0x41; 0; 0; 0; 0xff]), 4) _ _ _).
  - unfold registered. cbn. auto.
  - vm_compute. reflexivity.
  - cbn. lia.
Defined.

(** the length of a navigation message is trusted: a message that announces
    more than the 40 bytes its structure holds makes the handler read past the
    structure. *)
Theorem mnld_navigation_overread (type prn mid sid len : Z) (data : list Z) (w : World)
  (Hm : msg_ok (MsgNavigation type prn mid sid 0 data)) (Hlen : 40 < len < 2 ^ 32) (Hinit : w_nav_init w = 1)
  (Hmem : hd true (e_malloc (w_env w)) = true) :
  run (mnld_to_gps_handler (Some (encode (msg_items (MsgNavigation type prn mid sid len data))))) w = Undef.
Proof.
  cbn [msg_ok] in Hm. destruct Hm as (H1 & H2 & H3 & H4 & _ & H6 & H7).
  assert (Forall2 (fun f v => ty_ok (snd f) v) MTK_GPS_NAVIGATION_EVENT [56; type; prn; mid; sid; len; le_value data]) as Hv.
  { pose proof (le_value_range data H7) as R. rewrite H6 in R.
    repeat apply Forall2_cons_2; try (by constructor); cbn [snd]; try done. unfold ty_ok. cbn [signed ty_size]. lia. }
  cbn [msg_items]. destruct (handler_run 0x77 [IStruct (struct_encode 4 MTK_GPS_NAVIGATION_EVENT
    [56; type; prn; mid; sid; len; le_value data])] w) as [post ->]; [unfold is_i32; lia| |].
  { unfold encode. cbn [map concat]. rewrite !zlen_app, zlen_items_int. cbn [item_bytes]. rewrite nav_length, zlen_nil. lia. }
  unfold mnld_dispatch. cbn [mnl_agps hal_cmd Z.eqb Pos.eqb]. rewrite run_act. unfold mnld_navigation.
  rewrite gets_run, Hinit. cbn [Z.eqb Pos.eqb]. rewrite malloc_run, Hmem. cbn [negb]. rewrite encode_cons, <- app_assoc, get_struct_at by apply nav_length.
  cbn [of_option]. unfold bindM at 1, retM at 1. cbn [fst]. cbv zeta.
  rewrite <- (app_nil_r (struct_encode _ _ _)), struct_roundtrip by exact Hv.
  set (ev := zip_with _ _ _). change (member "data" ev) with (le_value data). change (member "length" ev) with len.
  rewrite malloc_run, data_bytes by done. unfold mem_read. rewrite H6, (proj2 (Z.leb_gt (0 + len) 40)) by lia. by rewrite andb_false_r.
Qed.

Lemma mnld_navigation_overread_witness :
  run (mnld_to_gps_handler (Some (encode (msg_items (MsgNavigation 1 5 0 0 41 (zeros 40))))))
    ((world0 7 all_cbs quiet_env) <| w_nav_init := 1 |>) = Undef.
Proof.
  refine (mnld_navigation_overread 1 5 0 0 41 (zeros 40) ((world0 7 all_cbs quiet_env) <| w_nav_init := 1 |>) _ _ _ _).
  - cbn [msg_ok]. unfold ty_ok. cbn [signed ty_size]. split_and!; try (vm_compute; congruence).
    unfold zeros. apply Forall_replicate. unfold is_byte. lia.
  - lia.
  - reflexivity.
  - reflexivity.
Defined.
