(* ===== verification/GpsThread.v ===== *)
(** The GPS thread of the HAL ([gps_state_thread] of
    src/hal/gps/hal/gps_mtk_aosp.c): its set-up, and what it does with one event:
    a command byte from the framework's thread, data of the GPS device, a message
    of the daemon, a request on the codec's socket. Shared variables are accessed
    in separate atomic actions. Parsing one chunk of NMEA data is one action: the
    reader is a local variable and the globals it writes belong to this thread. *)

From stdpp Require Import base list gmap strings numbers.
From Stdlib Require Import ZArith Lia SpecFloat.
From S2P Require Import Prelude CFloat GpsTypes Daemon NmeaTok NmeaReader NmeaParse Threads Mnld.

Local Open Scope Z_scope.
Local Open Scope st_scope.
Local Open Scope rec_scope.
Local Open Scope prog_scope.

Definition C_INVALID_FD := -1.
Definition MTK_MNLD2HAL : string := "/data/gps_mnl/mnld2hal".
Definition EVDO_CODEC_SOC : string := "/data/misc/codec_sock".

Definition mod_state (f : GpsState -> GpsState) : HAL unit := modM (fun w => w <| w_state := f (w_state w) |>).
Definition sys (op : sysop) : HAL unit := emit (EvSys op).

Fixpoint sys_all (ops : list sysop) : HAL unit :=
  match ops with
  | [] => retM tt
  | op :: ops' => sys op ;; sys_all ops'
  end.

(** A call that is repeated while it is interrupted: what is left of its
    outcomes, and whether it succeeded. *)
Fixpoint eintr_loop (script : list Z) : list Z * bool :=
  match script with
  | [] => ([], true)
  | e :: script' => if e =? 0 then (script', true) else if e =? EINTR then eintr_loop script' else (script', false)
  end.

(** * Command bytes from the framework's thread *)

(** gps_mtk_aosp.c:2488-2493 [gps_state_start, write] the loop of the senders; a write
    to a descriptor that is not open fails. *)
Definition control_send (cmd : CtlCmd) : HAL unit :=
  let* w := getM in
  if st_control0 (w_state w) <? 0 then retM tt
  else
    let '(rest, ok) := eintr_loop (e_ctl_write (w_env w)) in
    modM (fun w => w <| w_env := (w_env w) <| e_ctl_write := rest |> |>) ;;
    if ok : bool then emit (EvControl cmd) else retM tt.

(** gps_mtk_aosp.c:2482-2494 [gps_state_start]. *)
Definition gps_state_start : HAL unit := control_send CMD_START.

(** gps_mtk_aosp.c:2524-2536 [gps_state_stop]. *)
Definition gps_state_stop : HAL unit := control_send CMD_STOP.

(** gps_mtk_aosp.c:2538-2550 [gps_state_restart]. *)
Definition gps_state_restart : HAL unit := control_send CMD_RESTART.

(** gps_mtk_aosp.c:2464-2466 [gps_state_done, write] one attempt. *)
Definition control_quit : HAL unit :=
  let* w := getM in
  if st_control0 (w_state w) <? 0 then retM tt
  else
    match e_ctl_write (w_env w) with
    | [] => emit (EvControl CMD_QUIT)
    | e :: rest =>
        modM (fun w => w <| w_env := (w_env w) <| e_ctl_write := rest |> |>) ;;
        if e =? 0 then emit (EvControl CMD_QUIT) else retM tt
    end.

(** * Set-up *)

(** gps_mtk_aosp.c:3644-3663 [epoll_register]. *)
Definition epoll_register (epoll_fd fd : Z) : HAL Z :=
  let* w := getM in
  let '(rest, ok) := eintr_loop (e_epoll_ctl (w_env w)) in
  modM (fun w => w <| w_env := (w_env w) <| e_epoll_ctl := rest |> |>) ;;
  if ok : bool then sys (OpEpollAdd epoll_fd fd) ;; retM 0 else retM (-1).

(** gps_mtk_aosp.c:3665-3673 [epoll_deregister]. *)
Definition epoll_deregister (epoll_fd fd : Z) : HAL Z :=
  let* w := getM in
  let '(rest, ok) := eintr_loop (e_epoll_ctl (w_env w)) in
  modM (fun w => w <| w_env := (w_env w) <| e_epoll_ctl := rest |> |>) ;;
  if ok : bool then sys (OpEpollDel epoll_fd fd) ;; retM 0 else retM (-1).

(** The variables of the thread: its reader, the static counter of data events,
    the descriptor of the daemon's socket, the static receive buffer and the copy
    kept for the codec. *)
Record Thread := mkThread {
  th_reader : NmeaReader;
  th_count : float;
  th_mnld_fd : Z;
  th_buff : list Z;
  th_codec : list Z;
}.
#[export] Instance eta_Thread : Eta Thread := fun t =>
  mkThread (th_reader t) (th_count t) (th_mnld_fd t) (th_buff t) (th_codec t).

Definition close_mnld (mnld_fd : Z) : HAL unit :=
  if mnld_fd =? C_INVALID_FD then retM tt else sys (OpClose mnld_fd).

(** gps_mtk_aosp.c:3714-3752 [gps_state_thread, codec socket] [false] when the thread
    returns. *)
Definition codec_socket (epoll_fd mnld_fd : Z) : HAL bool :=
  let* w := getM in
  let os := e_os (w_env w) in
  mod_state (fun s => s <| st_sock_codec := os_codec_sock os |>) ;;
  if os_codec_sock os <? 0 then close_mnld mnld_fd ;; retM false
  else
    sys (OpUnlink EVDO_CODEC_SOC) ;;
    sys (OpBind (os_codec_sock os) EVDO_CODEC_SOC) ;;
    if os_codec_bind os <? 0 then close_mnld mnld_fd ;; retM false
    else
      sys (OpListen (os_codec_sock os) 5) ;;
      if os_codec_listen os =? -1 then close_mnld mnld_fd ;; retM false
      else
        sys (OpChmod EVDO_CODEC_SOC 0x1f8) ;;
        sys (OpChown EVDO_CODEC_SOC "AID_INET") ;;
        epoll_register epoll_fd (os_codec_sock os) ;;
        retM true.

(** gps_mtk_aosp.c:3681-3762 [gps_state_thread, set-up] [count] and [buff] are the
    static variables; the local array for the codec is written before it is read. *)
Definition gps_state_thread_setup (count : float) (buff : list Z) : prog (option Thread) :=
  act (mod_state (fun s => s <| st_test_time := st_test_time s + 1 |>)) ;!
  let! w := act getM in
  let gps_fd := st_fd (w_state w) in
  let control_fd := st_control1 (w_state w) in
  let atc_fd := st_sockfd (w_state w) in
  let epoll_fd := st_epoll_hd (w_state w) in
  let reader := nmea_reader_init (e_now (w_env w)) (e_gmtoff (w_env w)) in
  let '(mnld_fd, ops) := bind_udp_socket MTK_MNLD2HAL (os_mnld_sock (e_os (w_env w))) (os_mnld_bind (e_os (w_env w))) in
  act (sys_all ops) ;!
  (if 0 <=? mnld_fd then act (epoll_register epoll_fd mnld_fd ;; retM tt) else Ret tt) ;!
  let! go_on := act (codec_socket epoll_fd mnld_fd) in
  if go_on : bool then
    act (epoll_register epoll_fd control_fd ;; epoll_register epoll_fd gps_fd ;; epoll_register epoll_fd atc_fd ;; retM tt) ;!
    act (release_condition M_INIT) ;!
    Ret (Some (mkThread reader count mnld_fd buff (zeros 2048)))
  else Ret None.

(** * Events *)

(** gps_mtk_aosp.c:3799-3855 [gps_state_thread, control event] [None] leaves the
    loop; a byte that could not be read stays 255. *)
Definition thread_control (cmd : Z) (t : Thread) : prog (option Thread) :=
  if cmd =? ctl_cmd CMD_QUIT then Ret None
  else if cmd =? ctl_cmd CMD_START then
    let! started := act (gets w_started) in
    if truth started then Ret (Some t)
    else
      act (modM (fun w => w <| w_started := 1 |>)) ;!
      Ret (Some (t <| th_reader := nmea_reader_set_callback true (th_reader t) |>))
  else if cmd =? ctl_cmd CMD_DOWNLOAD then
    act (let* w := getM in if mGpsXtraCallbacks (w_epo w) then emit EvDownloadRequest else undefM) ;!
    Ret (Some t)
  else if cmd =? ctl_cmd CMD_STOP then
    let! started := act (gets w_started) in
    if truth started then
      act (modM (fun w => w <| w_started := 0 |>)) ;!
      Ret (Some (t <| th_reader := nmea_reader_set_callback false (th_reader t) |>))
    else Ret (Some t)
  else if cmd =? ctl_cmd CMD_RESTART then
    Ret (Some (t <| th_reader := (th_reader t) <| fix_mode := 0 |> |>))
  else Ret (Some t).

(** A run of the parser on the thread's reader. *)
Definition parse (m : Parser unit) (r : NmeaReader) : HAL NmeaReader := fun w =>
  match m (mkP r w) with
  | Ok (_, s) => Ok (ps_r s, ps_w s)
  | Undef => Undef
  | Blocked => Blocked
  end.

(** [read] into the static buffer. *)
Definition into_buff (bs buff : list Z) : list Z := bs ++ drop (length bs) buff.

(** gps_mtk_aosp.c:3870-3909 [gps_state_thread, read loop] [chunks] are the results of
    [read] until it would block. *)
Fixpoint thread_read (chunks : list (list Z)) (t : Thread) : prog Thread :=
  match chunks with
  | [] => Ret (t <| th_codec := th_buff t |>)
  | c :: chunks' =>
      let bs := take 2048 c in
      let t := t <| th_buff := into_buff bs (th_buff t) |> in
      let t := t <| th_codec := th_buff t |> in
      let! r := act (parse (read_chunk bs) (th_reader t)) in
      thread_read chunks' (t <| th_reader := r |>)
  end.

Definition f_add : float -> float -> float := SFadd 24 128.
Definition f_div : float -> float -> float := SFdiv 24 128.
Definition f_gt (x y : float) : bool := SFltb y x.

(** gps_mtk_aosp.c:3857-3911 [gps_state_thread, gps event] between two reports the
    data of one read is dropped. *)
Definition thread_gps (chunks : list (list Z)) (t : Thread) : prog Thread :=
  let! w := act getM in
  (if truth (w_flag_unlock w) then Ret tt
   else
     act (release_condition M_START) ;!
     act (modM (fun w => w <| w_flag_unlock := 1 |>))) ;!
  let! interval := act (gets w_interval) in
  let count := f_add (th_count t) (f_of_Z 1) in
  if f_gt interval count then
    Ret (t <| th_count := count |>
           <| th_buff := match chunks with c :: _ => into_buff (take 2048 c) (th_buff t) | [] => th_buff t end |>)
  else thread_read chunks (t <| th_count := dzero |>).

(** What arrives on the codec's socket: no connection, no command, or a command
    with the location that follows it. *)
Inductive codec_in := CodecNoAccept | CodecNoRecv | CodecCmd (cmd : Z) (location : option GpsLocation).

(** gps_mtk_aosp.c:3942-3985 [gps_state_thread, codec event]. *)
Definition thread_codec (c : codec_in) (t : Thread) : prog Thread :=
  match c with
  | CodecNoAccept | CodecNoRecv => Ret t
  | CodecCmd cmd tLocation =>
      if cmd =? 1 then
        let t := t <| th_codec := zeros 2048 |> in
        act (emit (EvCodecReply (th_codec t))) ;! Ret t
      else if cmd =? 2 then
        act (emit (EvCodecReply (str "cmd2_ack" ++ zeros 2))) ;!
        match tLocation with
        | None => Ret t
        | Some l =>
            act (let* w := getM in if cb_location (w_cbs w) then emit (EvLocation l) else retM tt) ;! Ret t
        end
      else Ret t
  end.

Inductive thread_event :=
  | TeHangup
  | TeControl (cmd : Z)
  | TeGps (chunks : list (list Z))
  | TeMnld (data : option (list Z))
  | TeCodec (c : codec_in)
  | TeUnknown.

(** gps_mtk_aosp.c:3995-4000 [gps_state_thread, Exit]. *)
Definition thread_exit (t : Thread) : prog (option Thread) :=
  act (close_mnld (th_mnld_fd t)) ;!
  act (release_condition M_CLEANUP) ;!
  Ret None.

(** gps_mtk_aosp.c:3772-3994 [gps_state_thread, loop] one event. *)
Definition gps_state_thread_event (e : thread_event) (t : Thread) : prog (option Thread) :=
  match e with
  | TeHangup => thread_exit t
  | TeControl cmd =>
      let! r := thread_control cmd t in
      match r with
      | Some t' => Ret (Some t')
      | None => thread_exit t
      end
  | TeGps chunks => let! t' := thread_gps chunks t in Ret (Some t')
  | TeMnld data => mnld_to_gps_handler data ;! Ret (Some t)
  | TeCodec c => let! t' := thread_codec c t in Ret (Some t')
  | TeUnknown => Ret (Some t)
  end.
