(* ===== verification/Lifecycle.v ===== *)
(** The framework's side of the GPS HAL: the entries of the GpsInterface table and
    of its extensions (src/hal/gps/hal/gps_mtk_aosp.c), called one at a time by the
    framework, while the GPS thread and the EPO thread run. *)

From stdpp Require Import base list gmap strings numbers.
From Stdlib Require Import ZArith Lia SpecFloat.
From S2P Require Import Prelude CFloat GpsTypes Buff Daemon Agps CStruct EpoConf EpoTime EpoFile Threads GpsThread.

Local Open Scope Z_scope.
Local Open Scope st_scope.
Local Open Scope rec_scope.
Local Open Scope prog_scope.

(** * Connection state *)

(** gps_mtk_aosp.c:2461-2479 [gps_state_done]. *)
Definition gps_state_done : prog unit :=
  act control_quit ;!
  wait M_CLEANUP ;!
  act (let* w := getM in sys (OpClose (st_control0 (w_state w))) ;; mod_state (fun s => s <| st_control0 := -1 |>)) ;!
  act (let* w := getM in sys (OpClose (st_control1 (w_state w))) ;; mod_state (fun s => s <| st_control1 := -1 |>)) ;!
  act (let* w := getM in sys (OpClose (st_fd (w_state w))) ;; mod_state (fun s => s <| st_fd := -1 |>)) ;!
  act (let* w := getM in sys (OpClose (st_sockfd (w_state w))) ;; mod_state (fun s => s <| st_sockfd := -1 |>)) ;!
  act (let* w := getM in sys (OpClose (st_epoll_hd (w_state w))) ;; mod_state (fun s => s <| st_epoll_hd := -1 |>)) ;!
  act (let* w := getM in sys (OpClose (st_sock_codec (w_state w))) ;; mod_state (fun s => s <| st_sock_codec := -1 |>)) ;!
  act (mod_state (fun s => s <| st_init := 0 |> <| st_test_time := st_test_time s - 1 |>)).

(** gps_mtk_aosp.c:4048-4052 [gps_state_init, thread] whether the framework created
    the thread. *)
Definition create_thread : HAL bool :=
  let* w := getM in
  if cb_create_thread (w_cbs w) then
    if truth (os_thread (e_os (w_env w))) then emit EvCreateThread ;; retM true else retM false
  else undefM.

(** gps_mtk_aosp.c:4004-4063 [gps_state_init]. *)
Definition gps_state_init : prog unit :=
  act (mod_state (fun s => s <| st_control0 := -1 |> <| st_control1 := -1 |> <| st_fd := -1 |>)) ;!
  act (modM (fun w => w <| w_state := (w_state w) <| st_fd := os_gps_fd (e_os (w_env w)) |>
                                                  <| st_epoll_hd := os_epoll_fd (e_os (w_env w)) |> |>)) ;!
  let! fd := act (gets (fun w => st_fd (w_state w))) in
  if fd <? 0 then Ret tt
  else
    let! err := act mtk_init in
    if truth err then gps_state_done
    else
      let! sv := act (gets (fun w => os_control (e_os (w_env w)))) in
      match sv with
      | None => gps_state_done
      | Some (c0, c1) =>
          act (mod_state (fun s => s <| st_control0 := c0 |> <| st_control1 := c1 |>)) ;!
          let! created := act create_thread in
          if created : bool then Ret tt else gps_state_done
      end.

(** * Initialisation *)

(** The table of hardware/gps.h, twelve words; gps_mtk.h wraps it without adding
    a member. *)
Definition sizeof_GpsCallbacks : Z := 48.
Definition sizeof_GpsCallbacks_mtk : Z := sizeof_GpsCallbacks.

(** gps_mtk_aosp.c:4105-4120 [copy_GpsCallbacks_mtk]. *)
Definition copy_GpsCallbacks_mtk (src : GpsCallbacks) : HAL Z :=
  if cb_size src =? sizeof_GpsCallbacks_mtk then modM (fun w => w <| w_cbs := src |>) ;; retM 0
  else if cb_size src =? sizeof_GpsCallbacks then modM (fun w => w <| w_cbs := src |>) ;; retM 0
  else retM (-1).

(** gps_mtk_aosp.c:4146-4158 [mtk_gps_init, gps_mode]. *)
Definition set_gps_mode : HAL unit :=
  let* chip_id := property_get "persist.force.gps.mode" in
  (if bytes_eqb chip_id (str "gnss") then modM (fun w => w <| w_gps_mode := 0 |>)
   else if bytes_eqb chip_id (str "gps") then modM (fun w => w <| w_gps_mode := 1 |>)
   else retM tt) ;;
  let* w := getM in
  if w_gps_mode w <? 0 then
    if cb_size (w_cbs w) =? sizeof_GpsCallbacks_mtk then modM (fun w => w <| w_gps_mode := 0 |>)
    else if cb_size (w_cbs w) =? sizeof_GpsCallbacks then modM (fun w => w <| w_gps_mode := 1 |>)
    else retM tt
  else retM tt.

(** gps_mtk_aosp.c:4161-4164 [mtk_gps_init, chip id] at most [n] reads, until one gives
    six characters. *)
Fixpoint read_chip_id (n : nat) (chip_id : list Z) : prog (list Z) :=
  match n with
  | O => Ret chip_id
  | S n' =>
      let! v := act (property_get "persist.mtk.wcn.combo.chipid") in
      if zlen v <? 6 then read_chip_id n' v else Ret v
  end.

(** gps_mtk_aosp.c:4166-4174 [mtk_gps_init, EPO type]. *)
Definition chip_epo_type (chip_id : list Z) : Z :=
  if existsb (fun c => bytes_eqb chip_id (str c))
       ["0x6572"; "0x6582"; "0x6580"; "0x6592"; "0x6571"; "0x8127"; "0x0335"; "0x8163"]
  then 1 else 0.

(** gps_mtk_aosp.c:271-274 [mnl_prop_path]. *)
Definition mnl_prop_path : list string := ["/data/misc/gps/mnl.prop"; "/sbin/mnl.prop"].

(** gps_mtk_aosp.c:4176-4179 [mtk_gps_init, properties] the first file that can be
    read. *)
Fixpoint read_props (paths : list string) : HAL unit :=
  match paths with
  | [] => retM tt
  | p :: paths' => let* r := read_prop p in if r =? 0 then retM tt else read_props paths'
  end.

(** gps_mtk_aosp.c:4165-4183 [mtk_gps_init, EPO type]. *)
Definition set_epo_type (chip_id : list Z) : HAL unit :=
  modM (fun w => w <| w_epo := (w_epo w) <| gps_epo_type := chip_epo_type chip_id |> |>) ;;
  let* w := getM in
  if gps_epo_type (w_epo w) =? 0 then
    read_props mnl_prop_path ;;
    modM (fun w => if negb (gnss_mode (w_epo w) =? 0) && negb (gnss_mode (w_epo w) =? 2)
                   then w <| w_epo := (w_epo w) <| gps_epo_type := 1 |> |> else w)
  else retM tt.

(** gps_mtk_aosp.c:4122-4186 [mtk_gps_init]. *)
Definition mtk_gps_init (callbacks : GpsCallbacks) : prog Z :=
  let! init := act (gets (fun w => st_init (w_state w))) in
  if truth init then Ret 0
  else
    let! r := act (copy_GpsCallbacks_mtk callbacks) in
    if truth r then Ret (-1)
    else
      gps_state_init ;!
      wait M_INIT ;!
      act (mod_state (fun s => s <| st_init := 1 |>)) ;!
      act (call_cb cb_set_capabilities (EvCapabilities GPS_CAPABILITY_SCHEDULING)) ;!
      act set_gps_mode ;!
      let! chip_id := read_chip_id 20 [] in
      act (set_epo_type chip_id) ;!
      Ret 0.

(** gps_mtk_aosp.c:4188-4211 [mtk_gps_cleanup]. *)
Definition mtk_gps_cleanup : prog Z :=
  act (mtk_cleanup ;; retM tt) ;!
  let! start_flag := act (gets (fun w => st_start_flag (w_state w))) in
  (if truth start_flag then wait M_STOP else Ret tt) ;!
  act (modM (fun w => if at_ (w_cond w) (Z.of_nat (sync_id M_STOP)) =? 1
                      then w <| w_cond := <[sync_id M_STOP := 0]> (w_cond w) |> else w)) ;!
  let! init := act (gets (fun w => st_init (w_state w))) in
  (if truth init then gps_state_done else Ret tt) ;!
  act (mod_state (fun s => s <| st_thread_epo_exit_flag := 1 |>)) ;!
  wait M_THREAD_EXIT ;!
  Ret 0.

(** * Sessions *)

(** gps_mtk_aosp.c:4295-4337 [mtk_gps_start, EPO] decides whether orbit data is
    requested or handed to the daemon. *)
Definition start_epo : HAL unit :=
  gps_download_epo_enable ;;
  let* w := getM in
  if truth (gps_epo_enable (w_epo w)) then
    match e_files (w_env w) !! EPO_FILE_HAL with
    | None =>
        match e_files (w_env w) !! EPO_FILE with
        | None => gps_download_epo
        | Some _ =>
            let* expired := mtk_epo_is_expired false in
            if truth expired then gps_download_epo else retM tt
        end
    | Some _ =>
        if ((w_nw_type w =? nw_data) && (w_nw_connected w =? 1) && truth (epo_download_failed (w_epo w)))
           || ((w_nw_connected w =? 0) && truth (epo_download_failed (w_epo w)))
           || (epo_download_failed (w_epo w) =? 0)
        then
          let* expired := mtk_epo_is_expired false in
          if truth expired then unlink EPO_FILE_HAL ;; gps_download_epo
          else
            unlink EPO_FILE ;;
            let* b := of_option (buff_put_int (mnl_cmd MNL_CMD_UPDATE_EPO_FILE) (zeros 1024, 0)) in
            mtk_daemon_send (w_sock w) MTK_HAL2MNLD (fst b) ;;
            retM tt
        else retM tt
    end
  else retM tt.

(** gps_mtk_aosp.c:4268-4357 [mtk_gps_start]. *)
Definition mtk_gps_start : prog Z :=
  let! init := act (gets (fun w => st_init (w_state w))) in
  if truth init then
    until (fun w => negb (st_start_flag (w_state w) =? 1)) ;!
    let! err := act mtk_start in
    if truth err then Ret (-1)
    else
      act start_epo ;!
      wait M_START ;!
      act gps_state_start ;!
      act (modM (fun w => w <| w_sta := GPS_STATUS_ENGINE_ON |>)) ;!
      act (let* w := getM in call_cb cb_status (EvStatus (w_sta w))) ;!
      act (modM (fun w => w <| w_sta := GPS_STATUS_SESSION_BEGIN |>)) ;!
      act (let* w := getM in call_cb cb_status (EvStatus (w_sta w))) ;!
      act (call_cb cb_acquire_wakelock EvAcquireWakelock) ;!
      act (modM (fun w => if at_ (w_cond w) (Z.of_nat (sync_id M_STOP)) =? 1
                          then w <| w_cond := <[sync_id M_STOP := 0]> (w_cond w) |> else w)) ;!
      act (mod_state (fun s => s <| st_start_flag := 1 |>)) ;!
      Ret 0
  else Ret (-1).

(** gps_mtk_aosp.c:4476-4503 [mtk_gps_stop]. *)
Definition mtk_gps_stop : prog Z :=
  let! init := act (gets (fun w => st_init (w_state w))) in
  if truth init then
    until (fun w => negb (st_start_flag (w_state w) =? 0)) ;!
    let! err := act mtk_stop in
    if truth err then Ret (-1)
    else act gps_state_stop ;! Ret 0
  else Ret (-1).

(** * Injection and restart *)

(** The members of [ntp_context] in memory, with its padding. *)
Definition ntp_bytes (n : ntp_context) : list Z :=
  le_bytes 8 (ntp_time n) ++ le_bytes 8 (ntp_timeReference n) ++ le_bytes 4 (ntp_uncertainty n) ++ zeros 4.

Definition send_if_open (b : cursor) : HAL Z :=
  let* w := getM in
  (if 0 <=? send_fd (w_agps w) then mtk_daemon_send (send_fd (w_agps w)) MTK_HAL2MNLD (fst b) ;; retM tt else retM tt) ;;
  retM 0.

(** gps_mtk_aosp.c:4505-4529 [mtk_gps_inject_time]. *)
Definition mtk_gps_inject_time (time timeReference uncertainty : Z) : HAL Z :=
  let inject_ntp := mkNtp time timeReference uncertainty in
  let* b := of_option (buff_put_int (hal_cmd MNL_CMD_GPS_INJECT_TIME) (zeros 1024, 0)
                       ≫= buff_put_struct (ntp_bytes inject_ntp)) in
  send_if_open b.

(** gps_mtk_aosp.c:4531-4560 [mtk_gps_inject_location]. *)
Definition mtk_gps_inject_location (latitude longitude : double) (accuracy : float) : HAL Z :=
  let* w := getM in
  match e_monotonic (w_env w) with
  | None => retM (-1)
  | Some (sec, nsec) =>
      let nlp_location := mkNlp latitude longitude accuracy sec nsec 0 (w_started w) in
      mtk_gps_update_location nlp_location ;;
      let* b := of_option (buff_put_int (hal_cmd MNL_CMD_GPS_INJECT_LOCATION) (zeros 1024, 0)
                           ≫= buff_put_struct (nlp_bytes nlp_location)) in
      send_if_open b
  end.

(** Values of hardware/gps.h. *)
Definition GPS_DELETE_EPHEMERIS := 0x0001.
Definition GPS_DELETE_ALMANAC := 0x0002.
Definition GPS_DELETE_POSITION := 0x0004.
Definition GPS_DELETE_TIME := 0x0008.
Definition GPS_DELETE_IONO := 0x0010.
Definition GPS_DELETE_UTC := 0x0020.
Definition GPS_DELETE_HEALTH := 0x0040.
Definition GPS_DELETE_RTI := 0x0400.
Definition GPS_DELETE_ALL := 0xFFFF.

Definition lor_all (l : list Z) : Z := foldr Z.lor 0 l.

(** gps_mtk_aosp.c:4566-4570 [FLAG_HOT_START ..]. *)
Definition FLAG_HOT_START := GPS_DELETE_RTI.
Definition FLAG_WARM_START := GPS_DELETE_EPHEMERIS.
Definition FLAG_COLD_START := lor_all [GPS_DELETE_EPHEMERIS; GPS_DELETE_POSITION; GPS_DELETE_TIME; GPS_DELETE_IONO;
  GPS_DELETE_UTC; GPS_DELETE_HEALTH].
Definition FLAG_FULL_START := GPS_DELETE_ALL.
Definition FLAG_AGPS_START := lor_all [GPS_DELETE_EPHEMERIS; GPS_DELETE_ALMANAC; GPS_DELETE_POSITION; GPS_DELETE_TIME;
  GPS_DELETE_IONO; GPS_DELETE_UTC].

(** gps_mtk_aosp.c:4562-4593 [mtk_gps_delete_aiding_data]. *)
Definition mtk_gps_delete_aiding_data (flags : Z) : HAL Z :=
  gps_state_restart ;;
  (if flags =? FLAG_HOT_START then mtk_restart MNL_CMD_RESTART_HOT ;; retM tt
   else if flags =? FLAG_WARM_START then mtk_restart MNL_CMD_RESTART_WARM ;; retM tt
   else if flags =? FLAG_COLD_START then mtk_restart MNL_CMD_RESTART_COLD ;; retM tt
   else if flags =? FLAG_FULL_START then mtk_restart MNL_CMD_RESTART_FULL ;; retM tt
   else if flags =? FLAG_AGPS_START then mtk_restart MNL_CMD_RESTART_AGPS ;; retM tt
   else retM tt) ;;
  retM 0.

(** gps_mtk_aosp.c:4595-4608 [mtk_gps_set_position_mode]. *)
Definition mtk_gps_set_position_mode (min_interval : Z) : HAL Z :=
  modM (fun w => w <| w_interval := if min_interval <=? 1000 then f_of_Z 1 else f_div (f_of_Z min_interval) (f_of_Z 1000) |>) ;;
  retM 0.

(** * Extensions *)

(** gps_mtk_aosp.c:4759-4778 [mtk_gps_epo_interface_init] the EPO thread is created. *)
Definition mtk_gps_epo_interface_init : prog Z :=
  let! init := act (gets (fun w => st_init (w_state w))) in
  (if truth init then act (modM (fun w => w <| w_epo := (w_epo w) <| mGpsXtraCallbacks := true |> |>)) else Ret tt) ;!
  act (modM (fun w => w <| w_epo := (w_epo w) <| retry_timer_fd := C_INVALID_TIMER |> |>)) ;!
  let! ret := act (let* w := getM in
                   let r := os_pthread (e_os (w_env w)) in
                   (if r =? 0 then emit EvCreateEpoThread else retM tt) ;; retM r) in
  if negb (ret =? 0) then Ret ret
  else
    act (mod_state (fun s => s <| st_thread_epo_exit_flag := 0 |>)) ;!
    Ret ret.

(** gps_mtk_aosp.c:4781-4798 [mtk_gps_inject_epo_data] the data is not used. *)
Definition mtk_gps_inject_epo_data (data : list Z) (length : Z) : HAL Z := retM 0.

(** gps_mtk_aosp.c:4808-4820 [mtk_gps_measurement_init]. *)
Definition mtk_gps_measurement_init : HAL Z :=
  let* err := mtk_measurement_init in
  if truth err then retM (-1) else modM (fun w => w <| w_meas_init := 1 |>) ;; retM 0.

(** gps_mtk_aosp.c:4821-4834 [mtk_gps_measurement_close]. *)
Definition mtk_gps_measurement_close : HAL Z :=
  mtk_measurement_close ;; modM (fun w => w <| w_meas_init := 0 |>) ;; retM 0.

(** gps_mtk_aosp.c:4842-4854 [mtk_gps_navigation_init]. *)
Definition mtk_gps_navigation_init : HAL Z :=
  let* err := mtk_navigation_init in
  if truth err then retM (-1) else modM (fun w => w <| w_nav_init := 1 |>) ;; retM 0.

(** gps_mtk_aosp.c:4856-4867 [mtk_gps_navigation_close]. *)
Definition mtk_gps_navigation_close : HAL Z :=
  mtk_navigation_close ;; modM (fun w => w <| w_nav_init := 0 |>) ;; retM 0.

Inductive extension :=
  | mtkGpsXtraInterface | mtkAGpsInterface | mtkGpsNiInterface | mtkAGpsRilInterface
  | mtkSuplCertificateInterface | mtkGpsMeasurementInterface | mtkGpsNavigationMessageInterface.

(** gps_mtk_aosp.c:4875-4903 [mtk_gps_get_extension] a comparison of [strlen (name)]
    characters accepts every prefix of the table's name. *)
Definition mtk_gps_get_extension (name : list Z) : option extension :=
  let same n := has_prefix name (str n) in
  if bytes_eqb name (str "gps-xtra") then Some mtkGpsXtraInterface
  else if same "agps" then Some mtkAGpsInterface
  else if same "gps-ni" then Some mtkGpsNiInterface
  else if same "agps_ril" then Some mtkAGpsRilInterface
  else if same "supl-certificate" then Some mtkSuplCertificateInterface
  else if same "gps_measurement" then Some mtkGpsMeasurementInterface
  else if same "gps_navigation_message" then Some mtkGpsNavigationMessageInterface
  else None.

(** * The interface table *)

(** gps_mtk_aosp.c:5654-5670 [mtkGpsInterface] the calls the framework can make, with
    those of the extensions that concern the threads. *)
Inductive api_call :=
  | CallInit (callbacks : GpsCallbacks)
  | CallStart
  | CallStop
  | CallCleanup
  | CallInjectTime (time timeReference uncertainty : Z)
  | CallInjectLocation (latitude longitude : double) (accuracy : float)
  | CallDeleteAidingData (flags : Z)
  | CallSetPositionMode (min_interval : Z)
  | CallEpoInit
  | CallMeasurementInit
  | CallMeasurementClose
  | CallNavigationInit
  | CallNavigationClose
  | CallAgps (c : agps_call)
  | CallNetworkState (connected type roaming : Z) (extra_info : option (list Z)).

(** gps_mtk_aosp.c:5654-5670 [mtkGpsInterface]. *)
Definition api_prog (c : api_call) : prog Z :=
  match c with
  | CallInit cbs => mtk_gps_init cbs
  | CallStart => mtk_gps_start
  | CallStop => mtk_gps_stop
  | CallCleanup => mtk_gps_cleanup
  | CallInjectTime t r u => act (mtk_gps_inject_time t r u)
  | CallInjectLocation la lo ac => act (mtk_gps_inject_location la lo ac)
  | CallDeleteAidingData flags => act (mtk_gps_delete_aiding_data flags)
  | CallSetPositionMode i => act (mtk_gps_set_position_mode i)
  | CallEpoInit => mtk_gps_epo_interface_init
  | CallMeasurementInit => act mtk_gps_measurement_init
  | CallMeasurementClose => act mtk_gps_measurement_close
  | CallNavigationInit => act mtk_gps_navigation_init
  | CallNavigationClose => act mtk_gps_navigation_close
  | CallAgps c => act (agps_exec c)
  | CallNetworkState c t r x => act (agps_ril_update_network_state c t r x ;; retM 0)
  end.
