(* ===== verification/LifecycleProps.v ===== *)
(** The calls of the framework on their own: how the HAL chooses its satellite mode
    and orbit data type, what a restart asks of the daemon, how a session starts,
    and where initialisation waits for ever (src/hal/gps/hal/gps_mtk_aosp.c). *)

From stdpp Require Import base list gmap strings numbers.
From Stdlib Require Import ZArith Lia SpecFloat.
From S2P Require Import Prelude CFloat GpsTypes Buff Daemon Agps EpoConf EpoTime EpoFile Threads GpsThread Lifecycle.

Local Open Scope Z_scope.
Local Open Scope st_scope.
Local Open Scope rec_scope.
Local Open Scope prog_scope.

(** * Lemmas *)

Lemma control_send_quiet c w : 0 <= st_control0 (w_state w) -> e_ctl_write (w_env w) = [] ->
  control_send c w = Ok (tt, w <| w_trace := w_trace w ++ [EvControl c] |>).
Proof.
  intros H1 H2. unfold control_send. rewrite (bindM_ok getM _ w w w) by done. rewrite (proj2 (Z.ltb_ge _ _)) by lia.
  rewrite H2. cbn. unfold bindM, modM, emit. do 2 f_equal.
  destruct w as [? ? ? ? ? ? ? ? ? ? ? ? ? ? ? ? ? [] ?]. cbn in *. by subst.
Qed.

Lemma send_cmd_quiet c w : e_sendto (w_env w) = [] ->
  send_cmd c w = Ok (0, w <| w_trace := w_trace w ++ [EvSend MTK_HAL2MNLD [mnl_cmd c]] |>).
Proof. intros H. unfold send_cmd. rewrite (bindM_ok getM _ w w w) by done. by rewrite send_quiet. Qed.

(** The command a set of aiding data to delete stands for. *)
Definition restart_kind (flags : Z) : option MnlCmd :=
  if flags =? 0x400 then Some MNL_CMD_RESTART_HOT
  else if flags =? 0x001 then Some MNL_CMD_RESTART_WARM
  else if flags =? 0x07d then Some MNL_CMD_RESTART_COLD
  else if flags =? 0xffff then Some MNL_CMD_RESTART_FULL
  else if flags =? 0x03f then Some MNL_CMD_RESTART_AGPS
  else None.

(** * Properties *)

(** a restart reaches both sides: deleting aiding data first makes the GPS thread
    forget the fix mode, then sends the daemon the restart that corresponds to the
    set of flags (hot, warm, cold, full or AGPS); any other set of flags restarts
    nothing. *)
Theorem delete_aiding_data_restarts (flags : Z) (w : World)
  (Hctl : 0 <= st_control0 (w_state w)) (Hw : e_ctl_write (w_env w) = []) (Hs : e_sendto (w_env w) = []) :
  mtk_gps_delete_aiding_data flags w =
    Ok (0, w <| w_trace := w_trace w ++ EvControl CMD_RESTART ::
               match restart_kind flags with Some c => [EvSend MTK_HAL2MNLD [mnl_cmd c]] | None => [] end |>).
Proof.
  unfold mtk_gps_delete_aiding_data, gps_state_restart. rewrite (bindM_ok _ _ _ _ _ (control_send_quiet _ _ Hctl Hw)).
  set (w1 := set w_trace _ _). assert (e_sendto (w_env w1) = []) as Hs1 by done.
  assert (forall c, mtk_restart c w1 = Ok (0, w1 <| w_trace := w_trace w1 ++ [EvSend MTK_HAL2MNLD [mnl_cmd c]] |>)) as Hr
    by (intros c; by apply send_cmd_quiet).
  unfold restart_kind. change FLAG_HOT_START with 0x400. change FLAG_WARM_START with 0x001. change FLAG_COLD_START with 0x07d.
  change FLAG_FULL_START with 0xffff. change FLAG_AGPS_START with 0x03f.
  repeat match goal with |- context [if ?b then _ else _] => destruct b end;
    rewrite ?bindM_assoc, ?(bindM_ok _ _ _ _ _ (Hr _)); unfold bindM, retM; cbn; by rewrite <- ?app_assoc.
Qed.

Lemma delete_aiding_data_restarts_witness :
  let w := (world0 7 all_cbs quiet_env) in
  mtk_gps_delete_aiding_data 0x7d w =
    Ok (0, w <| w_trace := [EvControl CMD_RESTART; EvSend MTK_HAL2MNLD [7]] |>).
Proof. apply (delete_aiding_data_restarts 0x7d (world0 7 all_cbs quiet_env)); [discriminate|reflexivity|reflexivity]. Defined.

(** the satellite mode: the property persist.force.gps.mode forces GNSS (0) or
    GPS only (1), any other value leaves a mode that was set before, and an unset
    mode becomes GNSS for every callback table the HAL accepts, since the table of
    the platform and the extended one have the same size. *)
Theorem gps_mode_choice (cbs : GpsCallbacks) (w w1 w2 : World)
  (Hcopy : copy_GpsCallbacks_mtk cbs w = Ok (0, w1)) (Hset : set_gps_mode w1 = Ok (tt, w2)) :
  w_gps_mode w2 =
    match e_props (w_env w) !! "persist.force.gps.mode" with
    | Some p => if bytes_eqb p (str "gnss") then 0 else if bytes_eqb p (str "gps") then 1
                else if w_gps_mode w <? 0 then 0 else w_gps_mode w
    | None => if w_gps_mode w <? 0 then 0 else w_gps_mode w
    end.
Proof.
  assert (w1 = w <| w_cbs := cbs |> /\ cb_size cbs = 48) as [-> Hsz].
  { unfold copy_GpsCallbacks_mtk, sizeof_GpsCallbacks_mtk, sizeof_GpsCallbacks in Hcopy.
    destruct (Z.eqb_spec (cb_size cbs) 48) as [E|E]; [by injection Hcopy as <-|done]. }
  clear Hcopy. revert Hset. unfold set_gps_mode, property_get, gets.
  rewrite bindM_assoc, (bindM_ok getM _ _ _ _ eq_refl). unfold bindM at 1, retM at 1. cbn [w_env w_cbs].
  set (p := e_props (w_env w) !! "persist.force.gps.mode").
  change (e_props (w_env (w <| w_cbs := cbs |>)) !! "persist.force.gps.mode") with p.
  assert (forall m, (let* w := getM in
    if w_gps_mode w <? 0 then
      if cb_size (w_cbs w) =? sizeof_GpsCallbacks_mtk then modM (fun w => w <| w_gps_mode := 0 |>)
      else if cb_size (w_cbs w) =? sizeof_GpsCallbacks then modM (fun w => w <| w_gps_mode := 1 |>)
      else retM tt
    else retM tt) (w <| w_cbs := cbs |> <| w_gps_mode := m |>) = Ok (tt, w2) -> w_gps_mode w2 = if m <? 0 then 0 else m) as Hdef.
  { intros m. rewrite (bindM_ok getM _ _ _ _ eq_refl). cbn. rewrite Hsz. destruct (m <? 0); intros [= <-]; done. }
  assert (w <| w_cbs := cbs |> = w <| w_cbs := cbs |> <| w_gps_mode := w_gps_mode w |>) as Hid by reflexivity.
  destruct p as [p|]; cbn [default from_option id].
  - destruct (bytes_eqb p (str "gnss")); [intros H; by apply Hdef in H|].
    destruct (bytes_eqb p (str "gps")); [intros H; by apply Hdef in H|].
    unfold bindM at 1, retM at 1. rewrite Hid. apply Hdef.
  - unfold bindM at 1. change (bytes_eqb [] (str "gnss")) with false. change (bytes_eqb [] (str "gps")) with false.
    unfold retM at 1. rewrite Hid. apply Hdef.
Qed.

Lemma gps_mode_choice_witness :
  exists w1 w2, copy_GpsCallbacks_mtk all_cbs (world0 7 all_cbs quiet_env) = Ok (0, w1) /\ set_gps_mode w1 = Ok (tt, w2) /\
    w_gps_mode w2 = 0.
Proof.
  eexists (world0 7 all_cbs quiet_env), ((world0 7 all_cbs quiet_env) <| w_gps_mode := 0 |>).
  split; [reflexivity|]. split; [vm_compute; reflexivity|].
  refine (gps_mode_choice all_cbs (world0 7 all_cbs quiet_env) (world0 7 all_cbs quiet_env) _ eq_refl _). vm_compute. reflexivity.
Defined.

(** initialisation without a device never returns: when /dev/gps cannot be
    opened no thread is created, yet the call goes on to wait for the thread to
    report that it is ready. *)
Theorem init_without_device_blocks (cbs : GpsCallbacks) (w : World)
  (Hinit : st_init (w_state w) = 0) (Hsize : cb_size cbs = sizeof_GpsCallbacks)
  (Hdev : os_gps_fd (e_os (w_env w)) < 0) (Hflag : at_ (w_cond w) (Z.of_nat (sync_id M_INIT)) = 0) :
  run (mtk_gps_init cbs) w = Blocked.
Proof.
  unfold mtk_gps_init, copy_GpsCallbacks_mtk. cbn [pbind act run]. unfold gets. run.
  rewrite Hinit. cbn [truth Z.eqb negb]. unfold sizeof_GpsCallbacks_mtk. rewrite Hsize, Z.eqb_refl. cbn. unfold gets. run.
  rewrite (proj2 (Z.ltb_lt _ _) Hdev). cbn. unfold get_condition. run.
  change (sync_id M_INIT) with 3%nat in Hflag. rewrite Hflag. reflexivity.
Qed.

Lemma init_without_device_blocks_witness :
  run (mtk_gps_init all_cbs)
    (world0 7 all_cbs (quiet_env <| e_os := mkOs (-1) 4 (Some (5, 6)) 1 0 7 0 8 0 0 0 None 0 |>)) = Blocked.
Proof.
  apply (init_without_device_blocks all_cbs
    (world0 7 all_cbs (quiet_env <| e_os := mkOs (-1) 4 (Some (5, 6)) 1 0 7 0 8 0 0 0 None 0 |>))); reflexivity.
Defined.

Example extension_names :
  map (fun n => mtk_gps_get_extension (str n))
    ["gps-xtra"; "agps"; "gps-ni"; "agps_ril"; "supl-certificate"; "gps_measurement"; "gps_navigation_message"; "gps_geofencing"]
  = [Some mtkGpsXtraInterface; Some mtkAGpsInterface; Some mtkGpsNiInterface; Some mtkAGpsRilInterface;
     Some mtkSuplCertificateInterface; Some mtkGpsMeasurementInterface; Some mtkGpsNavigationMessageInterface; None].
Proof. reflexivity. Qed.

(** A prefix of a name is taken for the name. *)
Example extension_prefix : mtk_gps_get_extension (str "gps") = Some mtkGpsNiInterface.
Proof. reflexivity. Qed.
