(* ===== verification/System.v ===== *)
(** The running HAL: the framework's thread, which makes one call of the interface
    at a time, the GPS thread and the EPO thread, interleaved at their atomic
    actions over the shared variables of src/hal/gps/hal/gps_mtk_aosp.c. The
    environment (the results of system calls, the files, the clock) may change at
    any time. *)

From stdpp Require Import base list gmap strings numbers.
From Stdlib Require Import ZArith Lia SpecFloat.
From S2P Require Import Prelude CFloat GpsTypes Daemon EpoConf EpoTime EpoFile Threads Mnld GpsThread Lifecycle.

Local Open Scope Z_scope.
Local Open Scope st_scope.
Local Open Scope rec_scope.

(** The GPS thread: absent, executing (its set-up or an event), waiting for an
    event, or ended. *)
Inductive gps_thread := GNone | GRun (p : prog (option Thread)) | GIdle (t : Thread) | GDone.

(** [s_created], [s_epo] and [s_read] count the GPS threads started, the EPO
    threads ended and the command bytes read so far; [s_count] and [s_buff] are the static variables of the thread while no
    thread runs. *)
Record Sys := mkSys {
  s_w : World;
  s_fw : prog Z;
  s_gps : gps_thread;
  s_epo : nat;
  s_created : nat;
  s_read : nat;
  s_count : float;
  s_buff : list Z;
}.
#[export] Instance eta_Sys : Eta Sys := fun s =>
  mkSys (s_w s) (s_fw s) (s_gps s) (s_epo s) (s_created s) (s_read s) (s_count s) (s_buff s).

(** Occurrences of an effect in a trace. *)
Fixpoint count_ev (f : event -> bool) (tr : list event) : nat :=
  match tr with
  | [] => 0
  | e :: tr' => (if f e then 1 else 0) + count_ev f tr'
  end.

Definition is_create (e : event) : bool := match e with EvCreateThread => true | _ => false end.
Definition is_acquire (e : event) : bool := match e with EvAcquireWakelock => true | _ => false end.
Definition is_release (e : event) : bool := match e with EvReleaseWakelock => true | _ => false end.

Definition is_create_epo (e : event) : bool := match e with EvCreateEpoThread => true | _ => false end.

Definition epo_creations (w : World) : nat := count_ev is_create_epo (w_trace w).
Definition creations (w : World) : nat := count_ev is_create (w_trace w).
Definition acquires (w : World) : nat := count_ev is_acquire (w_trace w).
Definition releases (w : World) : nat := count_ev is_release (w_trace w).

(** The command bytes written so far. *)
Fixpoint controls (tr : list event) : list Z :=
  match tr with
  | [] => []
  | EvControl c :: tr' => ctl_cmd c :: controls tr'
  | _ :: tr' => controls tr'
  end.

(** One round of the EPO thread is one step: the variables the properties speak
    of are not among those it shares with the other threads. A data event, a message, a codec request or a hang-up can arrive at any time; a
    command byte is the next one that was written. *)
Definition arrives (s : Sys) (e : thread_event) : Prop :=
  match e with
  | TeControl cmd => controls (w_trace (s_w s)) !! s_read s = Some cmd
  | _ => True
  end.

Definition after_event (e : thread_event) (n : nat) : nat := match e with TeControl _ => S n | _ => n end.

Inductive step (url : string -> list Z -> option (list Z)) : Sys -> Sys -> Prop :=
  | step_env s env : step url s (s <| s_w := (s_w s) <| w_env := env |> |>)
  | step_call s r c : s_fw s = Ret r -> step url s (s <| s_fw := api_prog c |>)
  | step_fw s p w : pstep (s_fw s) (s_w s) = Ok (p, w) -> step url s (s <| s_fw := p |> <| s_w := w |>)
  | step_spawn s : (s_gps s = GNone \/ s_gps s = GDone) -> (s_created s < creations (s_w s))%nat ->
      step url s (s <| s_gps := GRun (gps_state_thread_setup (s_count s) (s_buff s)) |> <| s_created := S (s_created s) |>
                    <| s_read := length (controls (w_trace (s_w s))) |>)
  | step_gps s p p' w : s_gps s = GRun p -> pstep p (s_w s) = Ok (p', w) ->
      step url s (s <| s_gps := GRun p' |> <| s_w := w |>)
  | step_idle s t : s_gps s = GRun (Ret (Some t)) -> step url s (s <| s_gps := GIdle t |>)
  | step_exit s : s_gps s = GRun (Ret None) -> step url s (s <| s_gps := GDone |>)
  | step_event s t e : s_gps s = GIdle t -> arrives s e ->
      step url s (s <| s_gps := GRun (gps_state_thread_event e t) |> <| s_read := after_event e (s_read s) |>
                    <| s_count := th_count t |> <| s_buff := th_buff t |>)
  | step_epo s r w : (s_epo s < epo_creations (s_w s))%nat -> epo_round url (s_w s) = Ok (r, w) ->
      step url s (s <| s_w := w |> <| s_epo := (match r with None => 1 | Some _ => 0 end + s_epo s)%nat |>)
  | step_timer s w : retry_alarm_handler (s_w s) = Ok (tt, w) -> step url s (s <| s_w := w |>).

Definition init_sys (sock : Z) (cbs : GpsCallbacks) (env : Env) : Sys :=
  mkSys (world0 sock cbs env) (Ret 0) GNone 0 0 0 dzero (zeros 2048).

Inductive reachable (url : string -> list Z -> option (list Z)) (s0 : Sys) : Sys -> Prop :=
  | reach_init : reachable url s0 s0
  | reach_step s s' : reachable url s0 s -> step url s s' -> reachable url s0 s'.
