(* ===== verification/Frame.v ===== *)
(** What a routine of the HAL leaves alone. [core] is the part of the shared state
    on which the threads of the HAL synchronise (src/hal/gps/hal/gps_mtk_aosp.c):
    the descriptors, the initialisation flag, the flags of [lock_for_sync],
    [flag_unlock], and the numbers of threads created and of wake locks acquired
    and released. Every routine but the few that are meant to change it keeps it. *)

From stdpp Require Import base list gmap strings numbers.
From Stdlib Require Import ZArith Lia SpecFloat.
From S2P Require Import Prelude CFloat CTime GpsTypes Buff Daemon Agps NmeaTok NmeaReader NmeaParse CStruct EpoConf EpoTime EpoFile.
From S2P Require Import Threads Mnld GpsThread Lifecycle System.

Local Open Scope Z_scope.
Local Open Scope st_scope.
Local Open Scope rec_scope.

Definition fds (w : World) : Z * Z * Z * Z :=
  (st_fd (w_state w), st_control0 (w_state w), st_control1 (w_state w), st_epoll_hd (w_state w)).

Record Core := mkCore {
  c_fds : Z * Z * Z * Z;
  c_init : Z;
  c_cond : list Z;
  c_flag_unlock : Z;
  c_creations : nat;
  c_acquires : nat;
  c_releases : nat;
}.
#[export] Instance eta_Core : Eta Core := fun c =>
  mkCore (c_fds c) (c_init c) (c_cond c) (c_flag_unlock c) (c_creations c) (c_acquires c) (c_releases c).

Definition core (w : World) : Core :=
  mkCore (fds w) (st_init (w_state w)) (w_cond w) (w_flag_unlock w) (creations w) (acquires w) (releases w).

(** Effects that [core] does not count. *)
Definition quiet_ev (e : event) : bool := negb (is_create e || is_acquire e || is_release e).

Lemma keeps_gets {A} (g : World -> A) : keeps core (gets g).
Proof. apply keeps_bind; [apply keeps_get|intros; apply keeps_ret]. Qed.

Lemma count_ev_app g l k : count_ev g (l ++ k) = (count_ev g l + count_ev g k)%nat.
Proof. induction l as [|e l IH]; cbn; [done|]. rewrite IH. lia. Qed.

Lemma core_emit e w : core (w <| w_trace := w_trace w ++ [e] |>) =
  (core w) <| c_creations := (c_creations (core w) + if is_create e then 1 else 0)%nat |>
           <| c_acquires := (c_acquires (core w) + if is_acquire e then 1 else 0)%nat |>
           <| c_releases := (c_releases (core w) + if is_release e then 1 else 0)%nat |>.
Proof.
  unfold core, creations, acquires, releases, fds. cbn. rewrite !count_ev_app. cbn. by rewrite !Nat.add_0_r.
Qed.

Lemma keeps_emit e : quiet_ev e = true -> keeps core (emit e).
Proof.
  intros H s x s' [= <- <-]. rewrite core_emit. unfold quiet_ev in H.
  destruct (is_create e), (is_acquire e), (is_release e); try done.
  unfold core. cbn. by rewrite !Nat.add_0_r.
Qed.

#[export] Hint Resolve keeps_gets : keep.

(** Walks through a computation, resolving calls by the hints. *)
Ltac keep1 :=
  match goal with
  | |- keeps _ (bindM _ _) => apply keeps_bind; [|intros ?]
  | |- keeps _ (emit _) => apply keeps_emit; reflexivity
  | |- keeps _ (modM _) => apply keeps_mod; intros ?; reflexivity
  | |- keeps _ (if ?b then _ else _) => destruct b
  | |- keeps _ (match ?x with _ => _ end) => destruct x
  | |- keeps _ (let _ := _ in _) => cbv zeta
  | |- keeps _ _ => solve [eauto with keep]
  end.
Ltac keep := repeat keep1.

Lemma keeps_call_cb entry e : quiet_ev e = true -> keeps core (call_cb entry e).
Proof. intros H. unfold call_cb. keep. by apply keeps_emit. Qed.

Lemma keeps_agps_cb table e : quiet_ev e = true -> keeps core (agps_cb table e).
Proof. intros H. unfold agps_cb. keep. by apply keeps_emit. Qed.

(** * The daemon interface *)

Lemma keeps_send_errno fd dest buf : keeps core (mtk_daemon_send_errno fd dest buf).
Proof.
  unfold mtk_daemon_send_errno. keep1; [keep|]. destruct (send_loop _ _) as [[[ret errno] rest] delivered]. keep.
Qed.
#[export] Hint Resolve keeps_send_errno : keep.

Lemma keeps_send fd dest buf : keeps core (mtk_daemon_send fd dest buf).
Proof. unfold mtk_daemon_send. keep. Qed.
#[export] Hint Resolve keeps_send : keep.

Lemma keeps_send_cmd c : keeps core (send_cmd c).
Proof. unfold send_cmd. keep. Qed.
#[export] Hint Resolve keeps_send_cmd : keep.

Lemma keeps_mtk_start_retry n r : keeps core (mtk_start_retry n r).
Proof. revert r. induction n as [|n IH]; intros r; cbn [mtk_start_retry]; keep. Qed.
#[export] Hint Resolve keeps_mtk_start_retry : keep.

Lemma keeps_mtk_start : keeps core mtk_start.
Proof. unfold mtk_start, mtk_start_daemon. keep. Qed.
Lemma keeps_mtk_init : keeps core mtk_init.
Proof. unfold mtk_init. keep. Qed.
Lemma keeps_mtk_stop : keeps core mtk_stop.
Proof. unfold mtk_stop. keep. Qed.
Lemma keeps_mtk_restart c : keeps core (mtk_restart c).
Proof. unfold mtk_restart. keep. Qed.
Lemma keeps_mtk_cleanup : keeps core mtk_cleanup.
Proof. unfold mtk_cleanup, mtk_daemon_cleanup, mtk_stop_daemon. keep. Qed.
Lemma keeps_property_get k : keeps core (property_get k).
Proof. unfold property_get. keep. Qed.
Lemma keeps_read_file p : keeps core (read_file p).
Proof. unfold read_file. keep. Qed.
Lemma keeps_unlink p : keeps core (unlink p).
Proof. unfold unlink. keep. Qed.
Lemma keeps_write_file p d : keeps core (write_file p d).
Proof. unfold write_file. keep. Qed.
#[export] Hint Resolve keeps_mtk_start keeps_mtk_init keeps_mtk_stop keeps_mtk_restart keeps_mtk_cleanup keeps_property_get
  keeps_read_file keeps_unlink keeps_write_file : keep.

Lemma keeps_update_location l : keeps core (mtk_gps_update_location l).
Proof. unfold mtk_gps_update_location. keep. Qed.
Lemma keeps_send_location : keeps core mtk_gps_send_location_to_mnl.
Proof. unfold mtk_gps_send_location_to_mnl. keep. Qed.
Lemma keeps_get_prop : keeps core get_prop.
Proof. unfold get_prop. keep. Qed.
#[export] Hint Resolve keeps_update_location keeps_send_location keeps_get_prop : keep.

(** * AGPS calls *)

Lemma keeps_post b : keeps core (post b).
Proof. unfold post. keep. Qed.
#[export] Hint Resolve keeps_post : keep.

Lemma keeps_agps_exec c : keeps core (agps_exec c).
Proof.
  destruct c; cbn [agps_exec]; unfold agps_data_conn_open, agps_data_conn_open_with_apn_ip_type, agps_data_conn_closed,
    agps_data_conn_failed, agps_set_server, gps_ni_respond, agps_ril_set_ref_location, agps_ril_set_set_id,
    agps_ril_ni_message, agps_ril_update_network_availability; keep.
Qed.

Lemma keeps_network_state a b c d : keeps core (agps_ril_update_network_state a b c d).
Proof. unfold agps_ril_update_network_state, agps_network_connected_wifi_tragger_nlp. keep. Qed.
#[export] Hint Resolve keeps_agps_exec keeps_network_state : keep.

(** * The NMEA parser *)

Definition pcore (s : PState) : Core := core (ps_w s).

Lemma keeps_rget : keeps pcore rget.
Proof. unfold rget. keep. Qed.
Lemma keeps_wget : keeps pcore wget.
Proof. unfold wget. keep. Qed.
Lemma keeps_rmod g : keeps pcore (rmod g).
Proof. apply keeps_mod. done. Qed.
Lemma keeps_wmod g : (forall w, core (g w) = core w) -> keeps pcore (wmod g).
Proof. intros H. apply keeps_mod. intros s. apply H. Qed.
Lemma keeps_hal {A} (m : HAL A) : keeps core m -> keeps pcore (hal m).
Proof.
  intros H s a s' E. unfold hal in E. destruct (m (ps_w s)) as [[b w]| |] eqn:Em; [|done..].
  injection E as <- <-. by apply (H _ _ _ Em).
Qed.
#[export] Hint Resolve keeps_rget keeps_wget keeps_rmod keeps_hal : keep.
#[export] Hint Extern 1 (keeps pcore (wmod _)) => apply keeps_wmod; intros ?; reflexivity : keep.
#[export] Hint Extern 1 (keeps core (call_cb _ _)) => apply keeps_call_cb; reflexivity : keep.
#[export] Hint Extern 1 (keeps core (agps_cb _ _)) => apply keeps_agps_cb; reflexivity : keep.

Lemma keeps_update_time t : keeps pcore (nmea_reader_update_time t).
Proof. unfold nmea_reader_update_time. keep. Qed.
#[export] Hint Resolve keeps_update_time : keep.
Lemma keeps_update_date d t : keeps pcore (nmea_reader_update_date d t).
Proof. unfold nmea_reader_update_date. keep. Qed.
Lemma keeps_update_latlong a b c d : keeps pcore (nmea_reader_update_latlong a b c d).
Proof. unfold nmea_reader_update_latlong. keep. Qed.
Lemma keeps_update_altitude a b : keeps pcore (nmea_reader_update_altitude a b).
Proof. unfold nmea_reader_update_altitude. keep. Qed.
Lemma keeps_update_bearing a : keeps pcore (nmea_reader_update_bearing a).
Proof. unfold nmea_reader_update_bearing. keep. Qed.
Lemma keeps_update_speed a : keeps pcore (nmea_reader_update_speed a).
Proof. unfold nmea_reader_update_speed. keep. Qed.
Lemma keeps_update_accuracy a : keeps pcore (nmea_reader_update_accuracy a).
Proof. unfold nmea_reader_update_accuracy. keep. Qed.
Lemma keeps_sv_status_gps i a b c : keeps pcore (nmea_reader_update_sv_status_gps i a b c).
Proof. unfold nmea_reader_update_sv_status_gps. keep. Qed.
Lemma keeps_sv_status_gnss i a b c : keeps pcore (nmea_reader_update_sv_status_gnss i a b c).
Proof. unfold nmea_reader_update_sv_status_gnss. keep. Qed.
Lemma keeps_first_char t : keeps pcore (first_char t).
Proof. unfold first_char. keep. Qed.
Lemma keeps_memcmp m p s : keeps pcore (memcmp_eq m p s).
Proof. unfold memcmp_eq. keep. Qed.
Lemma keeps_set_used i v : keeps pcore (set_used i v).
Proof. unfold set_used. keep. Qed.
#[export] Hint Resolve keeps_update_date keeps_update_latlong keeps_update_altitude keeps_update_bearing keeps_update_speed
  keeps_update_accuracy keeps_sv_status_gps keeps_sv_status_gnss keeps_first_char keeps_memcmp keeps_set_used : keep.

Lemma keeps_gsa_gnss_loop n i b t : keeps pcore (gsa_gnss_loop n i b t).
Proof. revert i. induction n as [|n IH]; intros i; cbn [gsa_gnss_loop]; keep. Qed.
Lemma keeps_gsa_gps_loop n i t : keeps pcore (gsa_gps_loop n i t).
Proof. revert i. induction n as [|n IH]; intros i; cbn [gsa_gps_loop]; keep. Qed.
Lemma keeps_gsv_loop u n i b t : (forall i a b c, keeps pcore (u i a b c)) -> keeps pcore (gsv_loop u n i b t).
Proof. intros H. revert i. induction n as [|n IH]; intros i; cbn [gsv_loop]; keep. Qed.
Lemma keeps_sv_report_loop n i : keeps pcore (gps_sv_report_loop n i).
Proof. revert i. induction n as [|n IH]; intros i; cbn [gps_sv_report_loop]; keep. Qed.
#[export] Hint Resolve keeps_gsa_gnss_loop keeps_gsa_gps_loop keeps_gsv_loop keeps_sv_report_loop : keep.

Lemma keeps_dispatch t : keeps pcore (parse_dispatch t).
Proof.
  unfold parse_dispatch, parse_gga, parse_gsa_gnss, parse_gsa_gps, parse_rmc, parse_gsv_gnss, parse_gsv_gps, parse_accuracy. keep.
Qed.
Lemma keeps_report_location : keeps pcore report_location.
Proof. unfold report_location, log_position. keep. Qed.
Lemma keeps_report_svs : keeps pcore report_svs.
Proof. unfold report_svs. keep. Qed.
#[export] Hint Resolve keeps_dispatch keeps_report_location keeps_report_svs : keep.

Lemma keeps_addc c : keeps pcore (nmea_reader_addc c).
Proof. unfold nmea_reader_addc, nmea_reader_parse. keep. Qed.
#[export] Hint Resolve keeps_addc : keep.

Lemma keeps_feed bs : keeps pcore (feed bs).
Proof. induction bs as [|b bs IH]; cbn [feed]; keep. Qed.
#[export] Hint Resolve keeps_feed : keep.

Lemma keeps_read_chunk bs : keeps pcore (read_chunk bs).
Proof. unfold read_chunk. keep. Qed.

Lemma keeps_parse m r : keeps pcore m -> keeps core (parse m r).
Proof.
  intros H w a w' E. unfold parse in E. destruct (m (mkP r w)) as [[b s]| |] eqn:Em; [|done..].
  injection E as <- <-. by apply (H _ _ _ Em).
Qed.
#[export] Hint Resolve keeps_read_chunk keeps_parse : keep.

(** * Orbit data *)

Lemma keeps_epo_enable : keeps core gps_download_epo_enable.
Proof. unfold gps_download_epo_enable. keep. Qed.
Lemma keeps_gps_download_epo : keeps core gps_download_epo.
Proof. unfold gps_download_epo. keep. Qed.
Lemma keeps_read_prop p : keeps core (read_prop p).
Proof. unfold read_prop. keep. Qed.
Lemma keeps_epo_mod g : keeps core (epo_mod g).
Proof. unfold epo_mod. keep. Qed.
Lemma keeps_readable p : keeps core (readable p).
Proof. unfold readable. keep. Qed.
#[export] Hint Resolve keeps_epo_enable keeps_gps_download_epo keeps_read_prop keeps_epo_mod keeps_readable : keep.

Lemma keeps_file_time : keeps core mtk_gps_epo_file_time_hal.
Proof.
  unfold mtk_gps_epo_file_time_hal, mtk_gps_sys_epo_period_end, mtk_gps_sys_epo_period_start, mtk_gps_sys_get_file_size. keep.
Qed.
#[export] Hint Resolve keeps_file_time : keep.

Lemma keeps_epo_is_expired b : keeps core (mtk_epo_is_expired b).
Proof. unfold mtk_epo_is_expired. keep. Qed.
#[export] Hint Resolve keeps_epo_is_expired : keep.

Section Url.
Context (url : string -> list Z -> option (list Z)).

Lemma keeps_curl_download u f : keeps core (curl_easy_download u f).
Proof. unfold curl_easy_download. keep. Qed.
Hint Resolve keeps_curl_download : keep.

Lemma keeps_md_key r f : keeps core (epo_md_key r f).
Proof. unfold epo_md_key. keep. Qed.
Lemma keeps_merge f : keeps core (epo_merge f).
Proof. unfold epo_merge. keep. Qed.
Hint Resolve keeps_md_key keeps_merge : keep.

Lemma keeps_download_epo : keeps core (curl_easy_download_epo url).
Proof. unfold curl_easy_download_epo. keep. Qed.
Lemma keeps_unlink_down n : keeps core (unlink_pieces_down n).
Proof. induction n as [|n IH]; cbn [unlink_pieces_down]; keep. Qed.
Lemma keeps_unlink_up n i : keeps core (unlink_pieces_up n i).
Proof. revert i. induction n as [|n IH]; intros i; cbn [unlink_pieces_up]; keep. Qed.
Hint Resolve keeps_download_epo keeps_unlink_down keeps_unlink_up : keep.

Lemma keeps_is_changed : keeps core mtk_gps_epo_server_data_is_changed.
Proof.
  unfold mtk_gps_epo_server_data_is_changed, piece_start_time, piece_end_time, mtk_gps_epo_piece_data_start,
    mtk_gps_sys_epo_period_start, mtk_gps_epo_piece_data_end, mtk_gps_epo_get_piece_file_size. keep.
Qed.
Lemma keeps_progress r : keeps core (epo_update_progress r).
Proof. unfold epo_update_progress. keep. Qed.
Hint Resolve keeps_is_changed keeps_progress : keep.

Lemma keeps_file_update : keeps core (mtk_gps_epo_file_update url).
Proof. unfold mtk_gps_epo_file_update, mtk_gps_epo_file_update_hal. keep. Qed.
Hint Resolve keeps_file_update : keep.

Lemma keeps_resume : keeps core (epo_resume url).
Proof. unfold epo_resume, epo_retry_count, set_retry_alarm_handler. keep. Qed.
Hint Resolve keeps_resume : keep.

(** A round of the EPO thread keeps all but the flag with which it announces its
    end. *)
Lemma epo_round_core w r w' : epo_round url w = Ok (r, w') ->
  core w' = core w \/ core w' = (core w) <| c_cond := <[sync_id M_THREAD_EXIT := 1]> (w_cond w) |>.
Proof.
  unfold epo_round. rewrite (bindM_ok getM _ w w w) by done. destruct (_ =? 1).
  - intros [= <- <-]. right. reflexivity.
  - intros H. left. revert H. apply keeps_bind; [apply keeps_epo_enable|intros ?]. keep.
    apply keeps_mod. intros s. by destruct (_ =? 1).
Qed.
End Url.
