(* ===== verification/SystemProps.v ===== *)
(** Synchronisation of the threads of the HAL (src/hal/gps/hal/gps_mtk_aosp.c): for
    every interleaving of framework calls, device data, daemon messages and rounds
    of the EPO thread, the descriptors of the GPS thread are not touched while it
    is alive, and at most one wake lock is held. Each thread's program is checked
    on its own against a discipline; the disciplines are then shown to keep the
    invariant of the system. *)

From stdpp Require Import base list gmap strings numbers.
From Stdlib Require Import ZArith Lia SpecFloat.
From S2P Require Import Prelude CFloat GpsTypes Buff Daemon Agps EpoConf EpoTime EpoFile Threads Mnld GpsThread Lifecycle System Frame.

Local Open Scope Z_scope.
Local Open Scope st_scope.
Local Open Scope rec_scope.

(** * Programs that keep the core *)

Fixpoint quiet {A} (p : prog A) : Prop :=
  match p with
  | Ret _ => True
  | Act m k => keeps core m /\ forall x, quiet (k x)
  | Wait _ _ => False
  | Until _ k => quiet k
  end.

Lemma quiet_bind {A B} (p : prog A) (f : A -> prog B) : quiet p -> (forall a, quiet (f a)) -> quiet (pbind p f).
Proof.
  intros Hp Hf. induction p as [a|X m k IH|i k IH|c k IH]; cbn in *; [done| |done|auto].
  destruct Hp as [Hm Hk]. split; [done|]. intros x. apply IH, Hk.
Qed.

Lemma quiet_act {A} (m : HAL A) : keeps core m -> quiet (act m).
Proof. intros H. split; [done|]. done. Qed.

Ltac quiets := repeat (cbn [pbind act quiet] in *;
  match goal with
  | |- True => exact I
  | |- _ /\ _ => split; [keep|intros ?]
  | |- quiet (pbind _ _) => apply quiet_bind; [|intros ?]
  | |- quiet (act _) => apply quiet_act; keep
  | |- quiet (if ?b then _ else _) => destruct b
  | |- quiet (match ?x with _ => _ end) => destruct x
  | |- quiet (let _ := _ in _) => cbv zeta
  end).

(** * The flags *)

Definition flag (i : SyncId) (w : World) : Z := at_ (w_cond w) (Z.of_nat (sync_id i)).

Lemma at_insert_ne l i j v : i <> j -> at_ (<[i := v]> l) (Z.of_nat j) = at_ l (Z.of_nat j).
Proof.
  intros H. unfold at_. destruct (_ <? 0); [done|]. rewrite Nat2Z.id, !nth_lookup. by rewrite list_lookup_insert_ne.
Qed.

Lemma at_insert_le l i v : at_ (<[i := v]> l) (Z.of_nat i) = v \/ at_ (<[i := v]> l) (Z.of_nat i) = 0.
Proof.
  unfold at_. destruct (_ <? 0); [by right|]. rewrite Nat2Z.id, nth_lookup.
  destruct (decide (i < length l)%nat) as [H|H]; [left; by rewrite list_lookup_insert_eq|right].
  by rewrite lookup_ge_None_2 by (rewrite length_insert; lia).
Qed.

Lemma sync_id_inj i j : sync_id i = sync_id j -> i = j.
Proof. by destruct i, j. Qed.

Lemma flag_other i j v w : i <> j -> flag j (w <| w_cond := <[sync_id i := v]> (w_cond w) |>) = flag j w.
Proof. intros H. apply at_insert_ne. intros E. by apply H, sync_id_inj. Qed.

Lemma flag_reset i w : flag i (w <| w_cond := <[sync_id i := 0]> (w_cond w) |>) = 0.
Proof. unfold flag. cbn. by destruct (at_insert_le (w_cond w) (sync_id i) 0). Qed.

Lemma get_condition_inv i w w' : get_condition i w = Ok (tt, w') ->
  flag i w <> 0 /\ w' = w <| w_cond := <[sync_id i := 0]> (w_cond w) |>.
Proof.
  unfold get_condition. rewrite (bindM_ok getM _ w w w) by done. unfold flag, truth.
  destruct (Z.eqb_spec (at_ (w_cond w) (Z.of_nat (sync_id i))) 0) as [E|E]; cbn; [done|].
  intros [= <-]. done.
Qed.

Lemma core_inv w w' : core w' = core w ->
  fds w' = fds w /\ st_init (w_state w') = st_init (w_state w) /\ w_cond w' = w_cond w /\ w_flag_unlock w' = w_flag_unlock w /\
  creations w' = creations w /\ acquires w' = acquires w /\ releases w' = releases w.
Proof.
  intros H. pose proof (f_equal c_fds H). pose proof (f_equal c_init H). pose proof (f_equal c_cond H).
  pose proof (f_equal c_flag_unlock H). pose proof (f_equal c_creations H). pose proof (f_equal c_acquires H).
  pose proof (f_equal c_releases H). done.
Qed.

Lemma core_eq_flag i w w' : core w' = core w -> flag i w' = flag i w.
Proof. intros (_ & _ & H & _)%core_inv. unfold flag. by rewrite H. Qed.

(** * Who may touch the descriptors

    The framework's thread is in one of three phases: it may run beside the GPS
    thread and the HAL is initialised if that thread is alive ([PIdle]); it knows
    that no GPS thread is alive and none has announced its end ([PDead]); or it is
    creating one ([PBusy]). *)

Inductive phase := PIdle | PDead | PBusy.

Definition ph_inv (ph : phase) (w : World) (alive : bool) : Prop :=
  match ph with
  | PIdle => alive = true \/ flag M_CLEANUP w <> 0 -> st_init (w_state w) <> 0
  | PDead => alive = false /\ flag M_CLEANUP w = 0
  | PBusy => True
  end.

(** What an action of the framework's thread may do in a phase. *)
Definition ph_act (w w' : World) (ph ph' : phase) : Prop :=
  flag M_CLEANUP w' = flag M_CLEANUP w /\
  match ph with
  | PDead => creations w' = creations w \/ creations w' = S (creations w) /\ ph' = PBusy
  | PIdle => fds w' = fds w /\ creations w' = creations w /\
      match ph' with
      | PIdle => st_init (w_state w') = st_init (w_state w) \/ st_init (w_state w') <> 0
      | PDead => st_init (w_state w) = 0
      | PBusy => True
      end
  | PBusy => fds w' = fds w /\ creations w' = creations w /\
      match ph' with
      | PIdle => st_init (w_state w') <> 0
      | PDead => False
      | PBusy => True
      end
  end.

Fixpoint fsafe {A} (ph : phase) (p : prog A) (Q : phase -> A -> Prop) : Prop :=
  match p with
  | Ret a => Q ph a
  | Act m k => forall w x w', m w = Ok (x, w') -> exists ph', ph_act w w' ph ph' /\ fsafe ph' (k x) Q
  | Wait i k => fsafe (match i with M_CLEANUP => PDead | _ => ph end) k Q
  | Until _ k => fsafe ph k Q
  end.

Lemma fsafe_bind {A B} (p : prog A) (f : A -> prog B) ph Q :
  fsafe ph p (fun ph' a => fsafe ph' (f a) Q) -> fsafe ph (pbind p f) Q.
Proof.
  revert ph. induction p as [a|X m k IH|i k IH|c k IH]; intros ph H; cbn in *; auto.
  intros w x w' E. destruct (H w x w' E) as (ph' & Ha & Hk). exists ph'. auto.
Qed.

Lemma fsafe_mono {A} (p : prog A) ph (Q Q' : phase -> A -> Prop) :
  (forall ph a, Q ph a -> Q' ph a) -> fsafe ph p Q -> fsafe ph p Q'.
Proof.
  intros HQ. revert ph. induction p as [a|X m k IH|i k IH|c k IH]; intros ph H; cbn in *; auto.
  intros w x w' E. destruct (H w x w' E) as (ph' & Ha & Hk). exists ph'. auto.
Qed.

Lemma ph_act_core w w' ph : core w' = core w -> ph_act w w' ph ph.
Proof.
  intros H. split; [by apply core_eq_flag|]. apply core_inv in H as (H1 & H2 & _ & _ & H5 & _). destruct ph; auto.
Qed.

Lemma fsafe_quiet {A} (p : prog A) ph (Q : phase -> A -> Prop) : quiet p -> (forall a, Q ph a) -> fsafe ph p Q.
Proof.
  intros Hp HQ. induction p as [a|X m k IH|i k IH|c k IH]; cbn in *; auto; [|done].
  destruct Hp as [Hm Hk]. intros w x w' E. exists ph. split; [|apply IH, Hk]. by apply ph_act_core, (Hm _ _ _ E).
Qed.

(** An action that keeps the core, in front of the rest of a program. *)
Lemma fsafe_keep {A X} (m : HAL X) (k : X -> prog A) ph Q : keeps core m -> (forall x, fsafe ph (k x) Q) -> fsafe ph (Act m k) Q.
Proof. intros Hm Hk w x w' E. exists ph. split; [by apply ph_act_core, (Hm _ _ _ E)|apply Hk]. Qed.

(** Reading the initialisation flag. *)
Lemma fsafe_read_init {A} (k : Z -> prog A) Q :
  (forall x, x <> 0 -> fsafe PIdle (k x) Q) -> fsafe PDead (k 0) Q -> fsafe PIdle (Act (gets (fun w => st_init (w_state w))) k) Q.
Proof.
  intros H1 H0 w x w' [= <- <-]. destruct (decide (st_init (w_state w) = 0)) as [E|E].
  - rewrite E. exists PDead. split; [|done]. split; [done|]. done.
  - exists PIdle. split; [|by apply H1]. split; [done|]. cbn. auto.
Qed.

(** In [PDead] an action that creates no thread may do anything to the descriptors. *)
Lemma fsafe_dead {A X} (m : HAL X) (k : X -> prog A) Q :
  (forall w x w', m w = Ok (x, w') -> creations w' = creations w /\ w_cond w' = w_cond w) ->
  (forall x, fsafe PDead (k x) Q) -> fsafe PDead (Act m k) Q.
Proof.
  intros Hm Hk w x w' E. destruct (Hm _ _ _ E) as [H1 H2]. exists PDead. split; [|apply Hk]. unfold ph_act, flag. rewrite H2. auto.
Qed.

Lemma fsafe_wait {A} i (k : prog A) ph Q :
  fsafe (match i with M_CLEANUP => PDead | _ => ph end) k Q -> fsafe ph (Wait i k) Q.
Proof. done. Qed.

Lemma fsafe_ret {A} (a : A) ph (Q : phase -> A -> Prop) : Q ph a -> fsafe ph (Ret a) Q.
Proof. done. Qed.

Lemma fsafe_until {A} c (k : prog A) ph Q : fsafe ph k Q -> fsafe ph (Until c k) Q.
Proof. done. Qed.

Ltac dead := apply fsafe_dead; [intros ? ? ? [= <- <-]; unfold creations; cbn; rewrite ?count_ev_app; cbn; split; lia || done|intros ?].

(** The end of a connection. *)
Lemma done_safe ph (Q : phase -> unit -> Prop) : Q PDead tt -> fsafe ph gps_state_done Q.
Proof.
  intros HQ. unfold gps_state_done. cbn [pbind act wait].
  apply fsafe_keep; [unfold control_quit; keep|intros _]. apply fsafe_wait. repeat (cbn [pbind]; dead). cbn [fsafe].
  by repeat match goal with x : unit |- _ => destruct x end.
Qed.

Lemma create_safe (k : bool -> prog unit) Q :
  fsafe PBusy (k true) Q -> fsafe PDead (k false) Q -> fsafe PDead (Act create_thread k) Q.
Proof.
  intros Ht Hf w x w' E. unfold create_thread in E. rewrite (bindM_ok getM _ w w w) in E by done.
  destruct (cb_create_thread (w_cbs w)); [|done]. destruct (truth _).
  - injection E as <- <-. exists PBusy. split; [|done]. split; [done|]. right. split; [|done].
    unfold creations. cbn. rewrite count_ev_app. cbn. lia.
  - injection E as <- <-. exists PDead. split; [|done]. split; [done|]. by left.
Qed.

(** [gps_state_init] leaves a thread that was just created, or none. *)
Lemma state_init_safe : fsafe PDead gps_state_init (fun ph _ => ph = PDead \/ ph = PBusy).
Proof.
  unfold gps_state_init. cbn [pbind act]. do 2 (cbn [pbind]; dead). cbn [pbind]. apply fsafe_keep; [keep|intros fd].
  destruct (fd <? 0); [by left|]. cbn [pbind]. apply fsafe_keep; [keep|intros err].
  destruct (truth err); [apply done_safe; by left|]. cbn [pbind]. apply fsafe_keep; [keep|intros [[c0 c1]|]]; [|apply done_safe; by left].
  cbn [pbind]. dead. cbn [pbind]. apply create_safe; [by right|]. apply done_safe. by left.
Qed.

Lemma read_chip_id_quiet n id : quiet (read_chip_id n id).
Proof. revert id. induction n as [|n IH]; intros id; cbn [read_chip_id]; quiets. apply IH. Qed.

Lemma keeps_set_gps_mode : keeps core set_gps_mode.
Proof. unfold set_gps_mode. keep. Qed.

Lemma keeps_read_props l : keeps core (read_props l).
Proof. induction l as [|p l IH]; cbn [read_props]; keep. Qed.
#[export] Hint Resolve keeps_set_gps_mode keeps_read_props : keep.

Lemma keeps_set_epo_type c : keeps core (set_epo_type c).
Proof. unfold set_epo_type. keep. apply keeps_mod. intros s. by destruct (_ && _). Qed.

Lemma keeps_copy_cbs c : keeps core (copy_GpsCallbacks_mtk c).
Proof. unfold copy_GpsCallbacks_mtk. keep. Qed.

Lemma keeps_start_epo : keeps core start_epo.
Proof. unfold start_epo. keep. Qed.

Lemma keeps_control_send c : keeps core (control_send c).
Proof. unfold control_send. keep1; [keep|]. destruct (_ <? 0); [keep|]. destruct (eintr_loop _). keep. Qed.
#[export] Hint Resolve keeps_set_epo_type keeps_copy_cbs keeps_start_epo keeps_control_send : keep.

Definition settled {A} (ph : phase) (_ : A) : Prop := ph <> PBusy.

Lemma init_safe cbs : fsafe PIdle (mtk_gps_init cbs) settled.
Proof.
  unfold mtk_gps_init. cbn [pbind act]. apply fsafe_read_init; [intros x Hx|]; unfold truth.
  - by rewrite (proj2 (Z.eqb_neq x 0) Hx).
  - cbn [Z.eqb negb]. cbn [pbind]. apply fsafe_keep; [keep|intros r]. destruct (negb _); [done|].
    apply fsafe_bind. eapply fsafe_mono; [|apply state_init_safe]. intros ph [] Hph. cbn [pbind wait]. apply fsafe_wait. cbn [pbind].
    intros w x w' [= <- <-]. exists PIdle. split; [split; [done|]; destruct Hph as [->| ->]; [by left|done]|].
    cbn [pbind]. apply fsafe_keep; [keep|intros _]. cbn [pbind]. apply fsafe_keep; [keep|intros _].
    apply fsafe_bind, fsafe_quiet; [apply read_chip_id_quiet|intros id]. cbn [pbind]. by apply fsafe_keep; [keep|].
Qed.

(** An action on one of the flags the discipline does not speak of. *)
Lemma fsafe_stop_flag {A} (k : unit -> prog A) ph Q : fsafe ph (k tt) Q ->
  fsafe ph (Act (modM (fun w => if at_ (w_cond w) (Z.of_nat (sync_id M_STOP)) =? 1
                                then w <| w_cond := <[sync_id M_STOP := 0]> (w_cond w) |> else w)) k) Q.
Proof.
  intros Hk w x w' [= <- <-]. exists ph. split; [|done]. destruct (_ =? 1); [|by apply ph_act_core].
  split; [by apply (flag_other M_STOP M_CLEANUP 0)|]. destruct ph; cbn; auto.
Qed.

(** An action on a variable that is not part of the core. *)
Lemma fsafe_state {A} g (k : unit -> prog A) ph Q : (forall w, core (w <| w_state := g (w_state w) |>) = core w) ->
  fsafe ph (k tt) Q -> fsafe ph (Act (mod_state g) k) Q.
Proof. intros Hg Hk w x w' [= <- <-]. exists ph. split; [by apply ph_act_core|done]. Qed.

(** The wake lock is not part of this discipline. *)
Lemma fsafe_wakelock {A} entry (k : unit -> prog A) ph Q :
  fsafe ph (k tt) Q -> fsafe ph (Act (call_cb entry EvAcquireWakelock) k) Q.
Proof.
  intros Hk w x w' E. unfold call_cb in E. rewrite (bindM_ok getM _ w w w) in E by done. destruct (entry (w_cbs w)); [|done].
  injection E as <- <-. exists ph. split; [|done]. split; [done|].
  assert (creations (w <| w_trace := w_trace w ++ [EvAcquireWakelock] |>) = creations w) as Hc
    by (unfold creations; cbn; rewrite count_ev_app; cbn; lia).
  rewrite Hc. destruct ph; cbn; auto.
Qed.

Lemma keeps_epo_start_cb : keeps core (let* w := getM in call_cb cb_status (EvStatus (w_sta w))).
Proof. keep. Qed.

Ltac fkeep := cbn [pbind act wait until]; apply fsafe_keep; [keep|intros ?].

Lemma start_safe : fsafe PIdle mtk_gps_start settled.
Proof.
  unfold mtk_gps_start. fkeep. destruct (truth _); [|done]. cbn [pbind]. apply fsafe_until. fkeep.
  destruct (truth _); [done|]. fkeep. cbn [pbind]. apply fsafe_wait. unfold gps_state_start. do 5 fkeep.
  cbn [pbind]. apply fsafe_wakelock. cbn [pbind]. apply fsafe_stop_flag. cbn [pbind].
  by apply fsafe_state.
Qed.

Lemma stop_safe : fsafe PIdle mtk_gps_stop settled.
Proof.
  unfold mtk_gps_stop. fkeep. destruct (truth _); [|done]. cbn [pbind]. apply fsafe_until. fkeep.
  destruct (truth _); [done|]. unfold gps_state_stop. by fkeep.
Qed.

Lemma cleanup_safe : fsafe PIdle mtk_gps_cleanup settled.
Proof.
  unfold mtk_gps_cleanup. do 2 fkeep. apply fsafe_bind.
  assert (fsafe PIdle (act (modM (fun w => if at_ (w_cond w) (Z.of_nat (sync_id M_STOP)) =? 1
      then w <| w_cond := <[sync_id M_STOP := 0]> (w_cond w) |> else w)) ;!
    let! init := act (gets (fun w => st_init (w_state w))) in
    (if truth init then gps_state_done else Ret tt) ;!
    act (mod_state (fun s => s <| st_thread_epo_exit_flag := 1 |>)) ;!
    wait M_THREAD_EXIT ;! Ret 0)%prog settled) as H.
  { cbn [pbind act]. apply fsafe_stop_flag. cbn [pbind]. fkeep. apply fsafe_bind. destruct (truth _).
    - apply done_safe. cbn [pbind act]. by apply fsafe_state.
    - apply fsafe_ret. cbn [pbind act]. by apply fsafe_state. }
  destruct (truth _); [apply fsafe_wait|]; exact H.
Qed.

Lemma epo_init_safe : fsafe PIdle mtk_gps_epo_interface_init settled.
Proof.
  unfold mtk_gps_epo_interface_init. fkeep. apply fsafe_bind.
  assert (forall u : unit, fsafe PIdle (
    act (modM (fun w => w <| w_epo := (w_epo w) <| retry_timer_fd := C_INVALID_TIMER |> |>)) ;!
    let! ret := act (let* w := getM in
                   let r := os_pthread (e_os (w_env w)) in
                   (if r =? 0 then emit EvCreateEpoThread else retM tt) ;; retM r) in
    if negb (ret =? 0) then Ret ret else act (mod_state (fun s => s <| st_thread_epo_exit_flag := 0 |>)) ;! Ret ret)%prog settled) as H.
  { intros []. fkeep. fkeep. destruct (negb _); [done|]. cbn [pbind act]. by apply fsafe_state. }
  destruct (truth _); [fkeep|]; apply (H tt).
Qed.

Lemma keeps_send_if_open b : keeps core (send_if_open b).
Proof. unfold send_if_open. keep. Qed.
#[export] Hint Resolve keeps_send_if_open : keep.

Lemma call_safe c : fsafe PIdle (api_prog c) settled.
Proof.
  destruct c; cbn [api_prog]; first [apply init_safe|apply start_safe|apply stop_safe|apply cleanup_safe|apply epo_init_safe|idtac];
    apply fsafe_quiet; try done; apply quiet_act.
  - unfold mtk_gps_inject_time. keep.
  - unfold mtk_gps_inject_location. keep.
  - unfold mtk_gps_delete_aiding_data, gps_state_restart. keep.
  - unfold mtk_gps_set_position_mode. keep.
  - unfold mtk_gps_measurement_init, mtk_measurement_init. keep.
  - unfold mtk_gps_measurement_close, mtk_measurement_close. keep.
  - unfold mtk_gps_navigation_init, mtk_navigation_init. keep.
  - unfold mtk_gps_navigation_close, mtk_navigation_close. keep.
  - keep.
  - keep.
Qed.

(** * The GPS thread

    It never touches the descriptors or creates threads, and sets the flag that
    announces its end in its last action. *)

Definition base (w : World) : (Z * Z * Z * Z) * Z * nat * Z :=
  (fds w, st_init (w_state w), creations w, flag M_CLEANUP w).

Fixpoint calm {A B} (f : World -> B) (p : prog A) : Prop :=
  match p with
  | Ret _ => True
  | Act m k => keeps f m /\ forall x, calm f (k x)
  | Wait _ _ => False
  | Until _ k => calm f k
  end.

Lemma keeps_base {A} (m : HAL A) : keeps core m -> keeps base m.
Proof.
  intros H w x w' E. specialize (H _ _ _ E). unfold base. rewrite (core_eq_flag _ _ _ H).
  apply core_inv in H as (-> & -> & _ & _ & -> & _). done.
Qed.

Lemma calm_bind {A B C} (g : World -> C) (p : prog A) (f : A -> prog B) :
  calm g p -> (forall a, calm g (f a)) -> calm g (pbind p f).
Proof.
  intros Hp Hf. induction p as [a|X m k IH|i k IH|c k IH]; cbn in *; [done| |done|auto].
  destruct Hp as [Hm Hk]. split; [done|]. intros x. apply IH, Hk.
Qed.

Lemma calm_act {A B C} (g : World -> C) (m : HAL A) (k : A -> prog B) :
  keeps g m -> (forall x, calm g (k x)) -> calm g (Act m k).
Proof. done. Qed.

Create HintDb calm.
#[export] Hint Extern 2 (keeps base _) => apply keeps_base; solve [keep] : calm.
#[export] Hint Extern 3 (keeps base (modM _)) => apply keeps_mod; done : calm.

Lemma base_release i : i <> M_CLEANUP -> keeps base (release_condition i).
Proof. intros Hi w x w' [= <- <-]. unfold base. by rewrite (flag_other i M_CLEANUP 1). Qed.

Lemma base_wakelock entry : keeps base (call_cb entry EvReleaseWakelock).
Proof.
  intros w x w' E. unfold call_cb in E. rewrite (bindM_ok getM _ w w w) in E by done. destruct (entry (w_cbs w)); [|done].
  injection E as <- <-. unfold base, creations. cbn. rewrite count_ev_app. cbn. by rewrite Nat.add_0_r.
Qed.

#[export] Hint Extern 1 (keeps base (release_condition _)) => apply base_release; discriminate : calm.
#[export] Hint Resolve base_wakelock : calm.

Ltac calms := repeat (cbn [pbind act];
  match goal with
  | |- calm _ (Ret _) => exact I
  | |- calm _ (act _) => unfold act
  | |- calm _ (pbind _ _) => apply calm_bind; [|intros ?]
  | |- calm _ (Act _ _) => apply calm_act; [solve [auto with calm]|intros ?]
  | |- calm _ (if ?b then _ else _) => destruct b
  | |- calm _ (match ?x with _ => _ end) => destruct x
  | |- calm _ (let _ := _ in _) => cbv zeta
  end).

Lemma keeps_mnld_measurement b : keeps core (mnld_measurement b).
Proof. unfold mnld_measurement. keep. Qed.
Lemma keeps_nav_malloc : keeps core malloc.
Proof. unfold malloc. keep. Qed.
#[export] Hint Resolve keeps_nav_malloc : keep.

Lemma keeps_mnld_navigation b : keeps core (mnld_navigation b).
Proof. unfold mnld_navigation. keep. Qed.
Lemma keeps_mnld_agps_loc b : keeps core (mnld_agps_loc b).
Proof. unfold mnld_agps_loc. keep. Qed.
Lemma keeps_mnld_epo_done : keeps core mnld_epo_done.
Proof. unfold mnld_epo_done. keep. Qed.
Lemma keeps_mnld_time_req : keeps core mnld_time_req.
Proof. unfold mnld_time_req. keep. Qed.
#[export] Hint Resolve keeps_mnld_measurement keeps_mnld_navigation keeps_mnld_agps_loc keeps_mnld_epo_done keeps_mnld_time_req : keep.

Lemma keeps_option_bind {A B} (o : option A) (k : A -> HAL B) :
  (forall a, o = Some a -> keeps core (k a)) -> keeps core (let* a := of_option o in k a).
Proof. intros H w x w' E. destruct o as [a|]; [|done]. by apply (H a eq_refl w x w'). Qed.

Lemma data_conn_req_quiet b e : decode_data_conn_req b = Some e -> quiet_ev e = true.
Proof.
  unfold decode_data_conn_req. destruct (buff_get_int b) as [[ip b1]|]; [|done]. cbn.
  destruct (buff_get_int b1) as [[em b2]|]; [|done]. by intros [= <-].
Qed.

Lemma data_conn_req2_quiet b e : decode_data_conn_req2 b = Some e -> quiet_ev e = true.
Proof.
  unfold decode_data_conn_req2. destruct (buff_get_struct _ b) as [[ip b1]|]; [|done]. cbn.
  destruct (buff_get_int b1) as [[em b2]|]; [|done]. by intros [= <-].
Qed.

Lemma keeps_data_conn_req b : keeps core (let* e := of_option (decode_data_conn_req b) in agps_cb agps_callbacks e).
Proof. apply keeps_option_bind. intros e He. by eapply keeps_agps_cb, data_conn_req_quiet. Qed.
Lemma keeps_data_conn_req2 b : keeps core (let* e := of_option (decode_data_conn_req2 b) in agps_cb agps_callbacks e).
Proof. apply keeps_option_bind. intros e He. by eapply keeps_agps_cb, data_conn_req2_quiet. Qed.

(** Every case of the handler but the end of the daemon keeps the core. *)
Lemma dispatch_quiet type b : type <> hal_cmd HAL_CMD_MNL_DIE -> quiet (mnld_dispatch type b).
Proof.
  intros H. unfold mnld_dispatch. rewrite (proj2 (Z.eqb_neq _ _) H).
  repeat match goal with |- quiet (if ?b then _ else _) => destruct b end; try exact I;
    try (apply quiet_act; first [apply keeps_data_conn_req|apply keeps_data_conn_req2|solve [unfold data_conn_release; keep]]).
  unfold mnld_icon, icon_status. quiets.
Qed.

Lemma quiet_calm {A B} (g : World -> B) (p : prog A) : (forall X (m : HAL X), keeps core m -> keeps g m) -> quiet p -> calm g p.
Proof. intros Hg. induction p as [a|X m k IH|i k IH|c k IH]; cbn; auto. intros [Hm Hk]. auto. Qed.

Lemma die_calm : calm base mnld_die.
Proof. unfold mnld_die. calms. Qed.

Lemma handler_calm data : calm base (mnld_to_gps_handler data).
Proof.
  unfold mnld_to_gps_handler. calms. destruct (decide (fst x = hal_cmd HAL_CMD_MNL_DIE)) as [E|E].
  - rewrite E. exact die_calm.
  - by apply quiet_calm, dispatch_quiet; [apply @keeps_base|].
Qed.

Definition ended (p : prog (option Thread)) : bool := match p with Ret None => true | _ => false end.

Fixpoint gsafe (p : prog (option Thread)) : Prop :=
  match p with
  | Ret _ => True
  | Act m k => forall w x w', m w = Ok (x, w') ->
      fds w' = fds w /\ st_init (w_state w') = st_init (w_state w) /\ creations w' = creations w /\
      (flag M_CLEANUP w' = flag M_CLEANUP w \/ ended (k x) = true) /\ gsafe (k x)
  | Wait _ _ => False
  | Until _ k => gsafe k
  end.

Lemma base_inv w w' : base w' = base w -> fds w' = fds w /\ st_init (w_state w') = st_init (w_state w) /\
  creations w' = creations w /\ flag M_CLEANUP w' = flag M_CLEANUP w.
Proof.
  intros H. pose proof (f_equal (fun b => fst (fst (fst b))) H). pose proof (f_equal (fun b => snd (fst (fst b))) H).
  pose proof (f_equal (fun b => snd (fst b)) H). pose proof (f_equal snd H). done.
Qed.

Lemma gsafe_bind {A} (p : prog A) (f : A -> prog (option Thread)) : calm base p -> (forall a, gsafe (f a)) -> gsafe (pbind p f).
Proof.
  intros Hp Hf. induction p as [a|X m k IH|i k IH|c k IH]; cbn in *; [done| |done|auto].
  destruct Hp as [Hm Hk]. intros w x w' E. apply Hm, base_inv in E as (-> & -> & -> & ->). auto 6.
Qed.

Lemma gsafe_calm p : calm base p -> gsafe p.
Proof.
  induction p as [a|X m k IH|i k IH|c k IH]; cbn in *; auto.
  intros [Hm Hk] w x w' E. apply Hm, base_inv in E as (-> & -> & -> & ->). auto 6.
Qed.

Lemma exit_gsafe t : gsafe (thread_exit t).
Proof.
  unfold thread_exit. apply gsafe_bind.
  - apply quiet_calm; [apply @keeps_base|]. apply quiet_act. unfold close_mnld, sys. keep.
  - intros _. cbn [pbind act]. intros w x w' [= <- <-]. cbn. auto 6.
Qed.

Lemma keeps_sys op : keeps core (sys op).
Proof. unfold sys. keep. Qed.
#[export] Hint Resolve keeps_sys : keep.
Lemma keeps_sys_all ops : keeps core (sys_all ops).
Proof. induction ops as [|op ops IH]; cbn [sys_all]; keep. Qed.
Lemma keeps_epoll_register e f : keeps core (epoll_register e f).
Proof. unfold epoll_register. keep1; [keep|]. destruct (eintr_loop _). keep. Qed.
#[export] Hint Resolve keeps_sys_all keeps_epoll_register : keep.
Lemma keeps_mod_state g : (forall w, core (w <| w_state := g (w_state w) |>) = core w) -> keeps core (mod_state g).
Proof. intros H. by apply keeps_mod. Qed.
#[export] Hint Extern 1 (keeps core (mod_state _)) => apply keeps_mod_state; intros ?; reflexivity : keep.
Lemma keeps_codec_socket e f : keeps core (codec_socket e f).
Proof. unfold codec_socket, close_mnld. keep. Qed.
#[export] Hint Resolve keeps_codec_socket : keep.

Lemma setup_calm count buff : calm base (gps_state_thread_setup count buff).
Proof.
  unfold gps_state_thread_setup. cbn [pbind act]. apply calm_act; [auto with calm|intros _].
  cbn [pbind]. apply calm_act; [auto with calm|intros w]. cbv zeta. destruct (bind_udp_socket _ _ _) as [mnld_fd ops]. calms.
Qed.

Lemma read_calm chunks t : calm base (thread_read chunks t).
Proof. revert t. induction chunks as [|c chunks IH]; intros t; cbn [thread_read]; calms. apply IH. Qed.

Lemma thread_gps_calm chunks t : calm base (thread_gps chunks t).
Proof. unfold thread_gps. calms. apply read_calm. Qed.

Lemma thread_codec_calm c t : calm base (thread_codec c t).
Proof. unfold thread_codec. calms. Qed.

Lemma thread_control_calm cmd t : calm base (thread_control cmd t).
Proof. unfold thread_control. calms. Qed.

Lemma event_gsafe e t : gsafe (gps_state_thread_event e t).
Proof.
  destruct e; cbn [gps_state_thread_event].
  - apply exit_gsafe.
  - apply gsafe_bind; [apply thread_control_calm|intros [t'|]; [exact I|apply exit_gsafe]].
  - apply gsafe_bind; [apply thread_gps_calm|done].
  - apply gsafe_bind; [apply handler_calm|done].
  - apply gsafe_bind; [apply thread_codec_calm|done].
  - exact I.
Qed.

(** * The system *)

Definition running (g : gps_thread) : bool :=
  match g with GIdle _ => true | GRun p => negb (ended p) | GNone | GDone => false end.

(** A GPS thread that was created and has not yet announced its end. *)
Definition alive (s : Sys) : bool := (s_created s <? creations (s_w s))%nat || running (s_gps s).

Definition gps_ok (g : gps_thread) : Prop := match g with GRun p => gsafe p | _ => True end.

(** What holds of the shared variables and the GPS thread. *)
Definition shared_ok (s : Sys) : Prop :=
  (flag M_CLEANUP (s_w s) <> 0 -> alive s = false) /\
  (s_created s <= creations (s_w s) <= s_created s + if running (s_gps s) then 0 else 1)%nat /\
  gps_ok (s_gps s).

Definition inv (s : Sys) : Prop :=
  shared_ok s /\ exists ph, fsafe ph (s_fw s) settled /\ ph_inv ph (s_w s) (alive s).

(** A step that keeps the base keeps the invariant. *)
Lemma alive_base s w : base w = base (s_w s) -> alive (s <| s_w := w |>) = alive s.
Proof. intros (_ & _ & H & _)%base_inv. unfold alive. cbn. by rewrite H. Qed.

Lemma inv_base s w : base w = base (s_w s) -> inv s -> inv (s <| s_w := w |>).
Proof.
  intros Hb ((I1 & I2 & I3) & ph & Hf & Hp). pose proof (alive_base s w Hb) as Ha.
  apply base_inv in Hb as (H1 & H2 & H3 & H4). unfold inv, shared_ok. rewrite Ha. cbn. rewrite H3, H4.
  split; [done|]. exists ph. split; [done|]. destruct ph; cbn in *; rewrite ?H2, ?H4; done.
Qed.

Lemma ph_inv_less ph s s' : (alive s' = true -> alive s = true) -> s_w s' = s_w s ->
  ph_inv ph (s_w s) (alive s) -> ph_inv ph (s_w s') (alive s').
Proof.
  intros Ha Hw. rewrite Hw. destruct ph; cbn; [|intros [H1 H2]; split; [|done]|done].
  - intros H [E|E]; apply H; auto.
  - destruct (alive s'); [|done]. by rewrite Ha in H1.
Qed.

(** An action of the framework's thread. *)
Lemma inv_fw_act s p w ph ph' : shared_ok s -> ph_inv ph (s_w s) (alive s) -> ph_act (s_w s) w ph ph' ->
  fsafe ph' p settled -> inv (s <| s_fw := p |> <| s_w := w |>).
Proof.
  intros (I1 & I2 & I3) Hp [Hc Ha] Hf. set (s' := set s_w _ _).
  assert (creations w = creations (s_w s) -> alive s' = alive s) as Hal by (intros E; unfold alive, s'; cbn; by rewrite E).
  assert (creations w = creations (s_w s) -> ph_inv ph' w (alive s) -> inv s') as Hgo.
  { intros E Hp'. unfold inv, shared_ok. rewrite (Hal E). cbn. rewrite Hc, E. split; [done|]. exists ph'. done. }
  destruct ph; cbn [ph_act ph_inv] in *.
  - destruct Ha as (_ & E & Ha). apply Hgo; [done|]. destruct ph'; cbn; [|split|done].
    + rewrite Hc. intros H. destruct Ha as [-> | ?]; auto.
    + destruct (alive s); [|done]. exfalso. by apply Hp; [left|].
    + rewrite Hc. destruct (decide (flag M_CLEANUP (s_w s) = 0)); [done|]. exfalso. by apply Hp; [right|].
  - destruct Hp as [Hp1 Hp2]. destruct Ha as [E|[E ->]].
    + apply Hgo; [done|]. rewrite Hp1. destruct ph'; cbn; rewrite ?Hc, ?Hp2; [by intros [?|?]|done|done].
    + unfold inv, shared_ok. cbn. rewrite Hc. unfold alive in Hp1. apply orb_false_elim in Hp1 as [E1%Nat.ltb_ge E2].
      rewrite E2 in I2 |- *. split; [|by exists PBusy]. split; [done|]. split; [lia|done].
  - destruct Ha as (_ & E & Ha). apply Hgo; [done|]. destruct ph'; cbn; [by intros _|done|done].
Qed.

Lemma inv_fw s p w : inv s -> pstep (s_fw s) (s_w s) = Ok (p, w) -> inv (s <| s_fw := p |> <| s_w := w |>).
Proof.
  intros (Hs & ph & Hf & Hp) E. destruct (s_fw s) as [a|X m k|i k|c k] eqn:Efw; cbn in E.
  - done.
  - apply bindM_inv in E as (x & w1 & E1 & [= <- <-]). destruct (Hf _ _ _ E1) as (ph' & Ha & Hk). by eapply inv_fw_act.
  - apply bindM_inv in E as ([] & w1 & E1 & [= <- <-]). apply get_condition_inv in E1 as [Hset ->].
    destruct Hs as (I1 & I2 & I3). set (w1 := (s_w s) <| w_cond := <[sync_id i := 0]> (w_cond (s_w s)) |>).
    assert (forall j, j <> i -> flag j w1 = flag j (s_w s)) as Ho by (intros j Hj; by apply flag_other).
    assert (flag i w1 = 0) as H0 by apply flag_reset.
    assert (st_init (w_state w1) = st_init (w_state (s_w s)) /\ creations w1 = creations (s_w s)) as [Hi Hcr] by done.
    clearbody w1. unfold inv, shared_ok, alive. cbn. rewrite Hcr. fold (alive s).
    destruct (decide (i = M_CLEANUP)) as [->|Hne].
    + split; [done|]. exists PDead. split; [exact Hf|]. split; [by apply I1|done].
    + rewrite Ho by done. split; [done|]. exists ph. split; [by destruct i|].
      destruct ph; cbn in *; rewrite ?Hi, ?Ho by done; done.
  - unfold bindM, getM in E. destruct (c (s_w s)); [|done]. injection E as <- <-. split; [done|]. exists ph. done.
Qed.

Lemma inv_gps s p p' w : inv s -> s_gps s = GRun p -> pstep p (s_w s) = Ok (p', w) ->
  inv (s <| s_gps := GRun p' |> <| s_w := w |>) /\ fds w = fds (s_w s) /\ creations w = creations (s_w s).
Proof.
  intros (Hs & ph & Hf & Hp) Eg E. destruct Hs as (I1 & I2 & I3). rewrite Eg in I2, I3. cbn in I3.
  destruct p as [a|X m k|i k|c k]; cbn in E.
  - done.
  - apply bindM_inv in E as (x & w1 & E1 & [= <- <-]). destruct (I3 _ _ _ E1) as (H1 & H2 & H3 & H4 & H5). split; [|done].
    cbn in I2. assert (alive s = true) as Ha by (unfold alive; rewrite Eg; apply orb_true_r).
    assert (flag M_CLEANUP (s_w s) = 0) as Hc0.
    { destruct (decide (flag M_CLEANUP (s_w s) = 0)); [done|]. rewrite I1 in Ha; done. }
    unfold inv, shared_ok, alive. cbn -[Nat.ltb]. rewrite H3. rewrite (proj2 (Nat.ltb_ge _ _)) by lia. cbn.
    split.
    + split_and!; [|lia|destruct (negb _); lia|done]. intros Hn. destruct H4 as [H4|H4]; [congruence|]. by rewrite H4.
    + exists ph. split; [done|]. rewrite Ha in Hp. destruct ph; cbn in *; [|by destruct Hp|done]. rewrite H2. auto.
  - done.
  - unfold bindM, getM in E. destruct (c (s_w s)); [|done]. injection E as <- <-. split; [|done].
    cbn in I2. assert (alive s = true) as Ha by (unfold alive; rewrite Eg; apply orb_true_r).
    unfold inv, shared_ok, alive. cbn -[Nat.ltb]. rewrite (proj2 (Nat.ltb_ge _ _)) by lia. cbn. rewrite Ha in *. split.
    + split_and!; [|lia|destruct (negb _); lia|done]. intros Hn. by specialize (I1 Hn).
    + exists ph. split; [done|]. destruct ph; cbn in *; [|by destruct Hp|done]. auto.
Qed.

(** A step of the GPS thread's bookkeeping that does not make it alive. *)
Lemma inv_less s s' : s_w s' = s_w s -> s_fw s' = s_fw s -> s_created s' = s_created s ->
  (running (s_gps s') = true -> running (s_gps s) = true) -> gps_ok (s_gps s') -> inv s -> inv s'.
Proof.
  intros Hw Hf Hc Hr Hg ((I1 & I2 & I3) & ph & Hs & Hp).
  assert (alive s' = true -> alive s = true) as Ha.
  { unfold alive. rewrite Hw, Hc. intros [->|H]%orb_true_iff; [done|]. apply orb_true_iff. auto. }
  unfold inv, shared_ok. rewrite Hw, Hf, Hc. split.
  - split_and!; [|lia|destruct (running (s_gps s')), (running (s_gps s)); try lia; by specialize (Hr eq_refl)|done].
    intros H. specialize (I1 H). destruct (alive s'); [|done]. by rewrite Ha in I1.
  - exists ph. split; [done|]. rewrite <- Hw. by apply (ph_inv_less ph s s').
Qed.

Lemma inv_spawn s p : (s_gps s = GNone \/ s_gps s = GDone) -> (s_created s < creations (s_w s))%nat -> gsafe p ->
  forall n, inv s -> inv (s <| s_gps := GRun p |> <| s_created := S (s_created s) |> <| s_read := n |>).
Proof.
  intros Hg Hc Hp n ((I1 & I2 & I3) & ph & Hs & Hph).
  assert (running (s_gps s) = false) as Hr by (by destruct Hg as [-> | ->]). rewrite Hr in I2.
  assert (alive s = true) as Ha by (unfold alive; apply orb_true_iff; left; by apply Nat.ltb_lt).
  set (s' := set s_read _ _). assert (s_w s' = s_w s) as Hw by done.
  unfold inv, shared_ok. rewrite Hw. assert (s_created s' = S (s_created s) /\ s_gps s' = GRun p) as [-> ->] by done. split.
  - split_and!; [intros H; by rewrite I1 in Ha|lia|destruct (running _); lia|done].
  - exists ph. split; [done|]. rewrite <- Hw. apply (ph_inv_less ph s s'); auto.
Qed.

Lemma epo_round_base url w r w' : epo_round url w = Ok (r, w') -> base w' = base w.
Proof.
  intros [H|H]%epo_round_core.
  - unfold base. rewrite (core_eq_flag _ _ _ H). by apply core_inv in H as (-> & -> & _ & _ & -> & _).
  - pose proof (f_equal c_fds H) as H1. pose proof (f_equal c_init H) as H2. pose proof (f_equal c_creations H) as H3.
    pose proof (f_equal c_cond H) as H4. cbn in H1, H2, H3, H4. unfold base, flag. rewrite H1, H2, H3, H4.
    by rewrite (at_insert_ne _ 4 2 1).
Qed.

Lemma inv_step url s s' : step url s s' -> inv s ->
  inv s' /\ (alive s = true -> fds (s_w s') = fds (s_w s) /\ creations (s_w s') = creations (s_w s)).
Proof.
  intros Hst Hi. destruct Hst as [s env|s r c Hr|s p w E|s Hg Hc|s p p' w Hg E|s t Hg|s Hg|s t e Hg He|s r w Hn E|s w E].
  - split; [by apply inv_base|done].
  - split; [|done]. destruct Hi as (Hs & ph & Hf & Hp). split; [done|]. exists PIdle. split; [apply call_safe|].
    rewrite Hr in Hf. cbn in Hf. change (alive (s <| s_fw := api_prog c |>)) with (alive s).
    destruct ph; [done| |done]. destruct Hp as [Hp1 Hp2]. cbn. rewrite Hp1, Hp2. by intros [?|?].
  - split; [by apply inv_fw|]. intros Ha. destruct Hi as (Hs & ph & Hf & Hp).
    destruct (s_fw s) as [a|X m k|i k|c k]; cbn in E.
    + done.
    + apply bindM_inv in E as (x & w1 & E1 & [= <- <-]). destruct (Hf _ _ _ E1) as (ph' & [_ Hact] & _).
      destruct ph; [|destruct Hp as [Hp _]; by rewrite Ha in Hp|]; by destruct Hact as (? & ? & _).
    + apply bindM_inv in E as ([] & w1 & E1 & [= <- <-]). by apply get_condition_inv in E1 as [_ ->].
    + unfold bindM, getM in E. destruct (c (s_w s)); [|done]. by injection E as <- <-.
  - split; [|done]. apply inv_spawn; [done|done|apply gsafe_calm, setup_calm|done].
  - destruct (inv_gps s p p' w Hi Hg E) as (H1 & H2 & H3). done.
  - split; [|done]. apply (inv_less s); try done. by rewrite Hg.
  - split; [|done]. by apply (inv_less s).
  - split; [|done]. apply (inv_less s); try done; [by rewrite Hg|apply event_gsafe].
  - pose proof (epo_round_base _ _ _ _ E) as Hb. split; [exact (inv_base s w Hb Hi)|]. intros _.
    by apply base_inv in Hb as (? & _ & ? & _).
  - assert (base w = base (s_w s)) as Hb by (by injection E as <-). split; [by apply inv_base|].
    intros _. by apply base_inv in Hb as (? & _ & ? & _).
Qed.

Lemma inv_init sock cbs env : inv (init_sys sock cbs env).
Proof.
  split; [split_and!; [by intros []|cbn; lia|cbn; lia|exact I]|]. exists PIdle. split; [done|]. by intros [?|[]].
Qed.

Lemma inv_reachable url sock cbs env s : reachable url (init_sys sock cbs env) s -> inv s.
Proof. induction 1 as [|s s' _ IH Hs]; [apply inv_init|by apply (inv_step url s)]. Qed.

(** * Schedules

    Executable schedules of the system, for concrete runs. *)

Fixpoint fw_steps (n : nat) (s : Sys) : Sys :=
  match n with
  | O => s
  | S n' =>
      match pstep (s_fw s) (s_w s) with
      | Ok (p, w) => fw_steps n' (s <| s_fw := p |> <| s_w := w |>)
      | _ => s
      end
  end.

Fixpoint gps_steps (n : nat) (s : Sys) : Sys :=
  match n with
  | O => s
  | S n' =>
      match s_gps s with
      | GRun (Ret (Some t)) => s <| s_gps := GIdle t |>
      | GRun (Ret None) => s <| s_gps := GDone |>
      | GRun p =>
          match pstep p (s_w s) with
          | Ok (p', w) => gps_steps n' (s <| s_gps := GRun p' |> <| s_w := w |>)
          | _ => s
          end
      | _ => s
      end
  end.

Inductive sched := SFw (n : nat) | SGps (n : nat) | SCall (c : api_call) | SSpawn | SEvent (e : thread_event).

Definition exec1 (o : sched) (s : Sys) : Sys :=
  match o with
  | SFw n => fw_steps n s
  | SGps n => gps_steps n s
  | SCall c => match s_fw s with Ret _ => s <| s_fw := api_prog c |> | _ => s end
  | SSpawn =>
      match s_gps s with
      | GNone | GDone =>
          if (s_created s <? creations (s_w s))%nat then
            s <| s_gps := GRun (gps_state_thread_setup (s_count s) (s_buff s)) |> <| s_created := S (s_created s) |>
              <| s_read := length (controls (w_trace (s_w s))) |>
          else s
      | _ => s
      end
  | SEvent e =>
      match s_gps s with
      | GIdle t =>
          if match e with TeControl cmd => bool_decide (controls (w_trace (s_w s)) !! s_read s = Some cmd) | _ => true end then
            s <| s_gps := GRun (gps_state_thread_event e t) |> <| s_read := after_event e (s_read s) |>
              <| s_count := th_count t |> <| s_buff := th_buff t |>
          else s
      | _ => s
      end
  end.

Definition exec (l : list sched) (s : Sys) : Sys := foldl (fun s o => exec1 o s) s l.

Section Exec.
Context (url : string -> list Z -> option (list Z)) (s0 : Sys).

Lemma reach_fw_steps n s : reachable url s0 s -> reachable url s0 (fw_steps n s).
Proof.
  revert s. induction n as [|n IH]; intros s H; cbn; [done|].
  destruct (pstep _ _) as [[p w]| |] eqn:E; [|done..]. apply IH. eapply reach_step; [done|]. by apply step_fw.
Qed.

Lemma reach_gps_steps n s : reachable url s0 s -> reachable url s0 (gps_steps n s).
Proof.
  revert s. induction n as [|n IH]; intros s H; cbn [gps_steps]; [done|]. destruct (s_gps s) as [|p|t|] eqn:Eg; try done.
  destruct p as [[t|]|X m k|i k|c k].
  - eapply reach_step; [done|]. by apply step_idle.
  - eapply reach_step; [done|]. by apply step_exit.
  - destruct (pstep _ _) as [[p w]| |] eqn:E; [|done..]. apply IH. eapply reach_step; [done|]. by eapply step_gps.
  - destruct (pstep _ _) as [[p w]| |] eqn:E; [|done..]. apply IH. eapply reach_step; [done|]. by eapply step_gps.
  - destruct (pstep _ _) as [[p w]| |] eqn:E; [|done..]. apply IH. eapply reach_step; [done|]. by eapply step_gps.
Qed.

Lemma reach_exec1 o s : reachable url s0 s -> reachable url s0 (exec1 o s).
Proof.
  intros H. destruct o as [n|n|c| |e]; cbn [exec1].
  - by apply reach_fw_steps.
  - by apply reach_gps_steps.
  - destruct (s_fw s) eqn:E; [|done..]. eapply reach_step; [done|]. by eapply step_call.
  - destruct (s_gps s) eqn:E; [|done|done|]; (destruct (Nat.ltb_spec (s_created s) (creations (s_w s))); [|done]);
      (eapply reach_step; [done|]); apply step_spawn; auto.
  - destruct (s_gps s) as [| |t|] eqn:E; [done|done| |done].
    match goal with |- context [if ?b then _ else _] => destruct b eqn:Eb end; [|done].
    eapply reach_step; [done|]. apply step_event; [done|]. destruct e; try exact I. by apply bool_decide_eq_true in Eb.
Qed.

Lemma reach_exec l s : reachable url s0 s -> reachable url s0 (exec l s).
Proof. revert s. induction l as [|o l IH]; intros s H; cbn; [done|]. apply IH. by apply reach_exec1. Qed.
End Exec.

(** * The wake lock

    A session acquires it after it has waited for the flag of the first data; the
    flag is set when [flag_unlock] is clear, and that is cleared only when the
    daemon ends, which releases the lock. [credit] counts the waits for that flag
    that have not led to an acquisition yet. *)

Definition wbase (w : World) : Z * Z * nat * nat := (flag M_START w, w_flag_unlock w, acquires w, releases w).

Lemma wbase_inv w w' : wbase w' = wbase w -> flag M_START w' = flag M_START w /\ w_flag_unlock w' = w_flag_unlock w /\
  acquires w' = acquires w /\ releases w' = releases w.
Proof.
  intros H. pose proof (f_equal (fun b => fst (fst (fst b))) H). pose proof (f_equal (fun b => snd (fst (fst b))) H).
  pose proof (f_equal (fun b => snd (fst b)) H). pose proof (f_equal snd H). done.
Qed.

Lemma wbase_core w w' : core w' = core w -> wbase w' = wbase w.
Proof. intros H. unfold wbase. rewrite (core_eq_flag _ _ _ H). by apply core_inv in H as (_ & _ & _ & -> & _ & -> & ->). Qed.

Lemma keeps_wbase {A} (m : HAL A) : keeps core m -> keeps wbase m.
Proof. intros H w x w' E. by apply wbase_core, (H _ _ _ E). Qed.

Lemma wbase_release i : i <> M_START -> keeps wbase (release_condition i).
Proof. intros Hi w x w' [= <- <-]. unfold wbase. by rewrite (flag_other i M_START 1). Qed.

#[export] Hint Extern 2 (keeps wbase _) => apply keeps_wbase; solve [keep] : calm.
#[export] Hint Extern 3 (keeps wbase (modM _)) => apply keeps_mod; done : calm.
#[export] Hint Extern 1 (keeps wbase (release_condition _)) => apply wbase_release; discriminate : calm.

(** ** The framework's thread *)

Fixpoint fcredit {A} (c : nat) (p : prog A) (Q : nat -> A -> Prop) : Prop :=
  match p with
  | Ret a => Q c a
  | Act m k => forall w x w', m w = Ok (x, w') ->
      exists c', flag M_START w' = flag M_START w /\ w_flag_unlock w' = w_flag_unlock w /\ releases w' = releases w /\
        (acquires w' + c' <= acquires w + c)%nat /\ fcredit c' (k x) Q
  | Wait i k => fcredit (match i with M_START => S c | _ => c end) k Q
  | Until _ k => fcredit c k Q
  end.

Definition anyQ {A} (c : nat) (a : A) : Prop := True.

Lemma fcredit_bind {A B} (p : prog A) (f : A -> prog B) c Q : fcredit c p (fun c' a => fcredit c' (f a) Q) -> fcredit c (pbind p f) Q.
Proof.
  revert c. induction p as [a|X m k IH|i k IH|q k IH]; intros c H; cbn in *; auto.
  intros w x w' E. destruct (H w x w' E) as (c' & H1 & H2 & H3 & H4 & H5). exists c'. auto 6.
Qed.

Lemma fcredit_keep {A X} (m : HAL X) (k : X -> prog A) c Q : keeps wbase m -> (forall x, fcredit c (k x) Q) -> fcredit c (Act m k) Q.
Proof. intros Hm Hk w x w' E. apply Hm, wbase_inv in E as (-> & -> & -> & ->). exists c. auto 6. Qed.

Lemma fcredit_ret {A} (a : A) c (Q : nat -> A -> Prop) : Q c a -> fcredit c (Ret a) Q.
Proof. done. Qed.

Lemma fcredit_wait {A} i (k : prog A) c Q : fcredit (match i with M_START => S c | _ => c end) k Q -> fcredit c (Wait i k) Q.
Proof. done. Qed.

Lemma fcredit_until {A} q (k : prog A) c Q : fcredit c k Q -> fcredit c (Until q k) Q.
Proof. done. Qed.

Lemma fcredit_acquire {A} (k : unit -> prog A) c Q :
  fcredit c (k tt) Q -> fcredit (S c) (Act (call_cb cb_acquire_wakelock EvAcquireWakelock) k) Q.
Proof.
  intros Hk w x w' E. unfold call_cb in E. rewrite (bindM_ok getM _ w w w) in E by done.
  destruct (cb_acquire_wakelock _); [|done]. injection E as <- <-. exists c. unfold releases, acquires. cbn. rewrite !count_ev_app. cbn.
  split_and!; try done; lia.
Qed.

Lemma stop_flag_wbase : keeps wbase (modM (fun w => if at_ (w_cond w) (Z.of_nat (sync_id M_STOP)) =? 1
  then w <| w_cond := <[sync_id M_STOP := 0]> (w_cond w) |> else w)).
Proof.
  apply keeps_mod. intros w. destruct (_ =? 1); [|done]. unfold wbase. by rewrite (flag_other M_STOP M_START 0).
Qed.
#[export] Hint Resolve stop_flag_wbase : calm.

Lemma create_wbase : keeps wbase create_thread.
Proof.
  intros w x w' E. unfold create_thread in E. rewrite (bindM_ok getM _ w w w) in E by done.
  destruct (cb_create_thread (w_cbs w)); [|done]. destruct (truth _); injection E as <- <-; [|done].
  unfold wbase, acquires, releases. cbn. rewrite !count_ev_app. cbn. by rewrite !Nat.add_0_r.
Qed.
#[export] Hint Resolve create_wbase : calm.

(** Closing a descriptor is not counted. *)
Lemma close_wbase (f : GpsState -> Z) g :
  keeps wbase (let* w := getM in sys (OpClose (f (w_state w))) ;; mod_state g).
Proof.
  intros w x w' [= <- <-]. unfold wbase, acquires, releases. cbn. rewrite !count_ev_app. cbn. by rewrite !Nat.add_0_r.
Qed.
#[export] Hint Resolve close_wbase : calm.
#[export] Hint Extern 3 (keeps wbase (mod_state _)) => apply keeps_mod; done : calm.

(** Walks through a program, spending no credit. *)
Ltac credits := repeat (cbn [pbind act wait until];
  match goal with
  | |- fcredit _ (Ret _) _ => apply fcredit_ret; cbv beta
  | |- fcredit _ (act _) _ => unfold act
  | |- fcredit _ (wait _) _ => unfold wait
  | |- fcredit _ (pbind _ _) _ => apply fcredit_bind
  | |- fcredit _ (Wait _ _) _ => apply fcredit_wait; cbv iota
  | |- fcredit _ (Until _ _) _ => apply fcredit_until
  | |- fcredit _ (Act (call_cb _ EvAcquireWakelock) _) _ => apply fcredit_acquire
  | |- fcredit _ (Act _ _) _ => apply fcredit_keep; [solve [auto with calm]|intros ?]
  | |- fcredit _ (if ?b then _ else _) _ => destruct b
  | |- fcredit _ (match ?x with _ => _ end) _ => destruct x
  | |- anyQ _ _ => exact I
  | |- True => exact I
  end).

Lemma done_credit c (Q : nat -> unit -> Prop) : (forall u, Q c u) -> fcredit c gps_state_done Q.
Proof.
  intros HQ. unfold gps_state_done. cbn [pbind act]. apply fcredit_keep; [apply keeps_wbase; unfold control_quit; keep|intros _].
  credits. apply HQ.
Qed.

Lemma state_init_credit c (Q : nat -> unit -> Prop) : (forall u, Q c u) -> fcredit c gps_state_init Q.
Proof. intros HQ. unfold gps_state_init. credits; try apply HQ; by apply done_credit. Qed.

Lemma quiet_credit {A} (p : prog A) c (Q : nat -> A -> Prop) : quiet p -> (forall a, Q c a) -> fcredit c p Q.
Proof.
  intros Hp HQ. induction p as [a|X m k IH|i k IH|q k IH]; cbn in Hp; [apply HQ| |done|by apply IH].
  destruct Hp as [Hm Hk]. apply fcredit_keep; [by apply keeps_wbase|]. intros x. apply IH, Hk.
Qed.

Lemma call_credit call : fcredit 0 (api_prog call) anyQ.
Proof.
  destruct call; cbn [api_prog].
  - unfold mtk_gps_init. credits. apply state_init_credit. intros u. credits.
    apply quiet_credit; [apply read_chip_id_quiet|intros id]. credits.
  - unfold mtk_gps_start, gps_state_start. credits.
  - unfold mtk_gps_stop, gps_state_stop. credits.
  - unfold mtk_gps_cleanup. credits; apply done_credit; intros u; credits.
  - apply quiet_credit; [|done]. apply quiet_act. unfold mtk_gps_inject_time. keep.
  - apply quiet_credit; [|done]. apply quiet_act. unfold mtk_gps_inject_location. keep.
  - apply quiet_credit; [|done]. apply quiet_act. unfold mtk_gps_delete_aiding_data, gps_state_restart. keep.
  - apply quiet_credit; [|done]. apply quiet_act. unfold mtk_gps_set_position_mode. keep.
  - unfold mtk_gps_epo_interface_init. credits.
  - apply quiet_credit; [|done]. apply quiet_act. unfold mtk_gps_measurement_init, mtk_measurement_init. keep.
  - apply quiet_credit; [|done]. apply quiet_act. unfold mtk_gps_measurement_close, mtk_measurement_close. keep.
  - apply quiet_credit; [|done]. apply quiet_act. unfold mtk_gps_navigation_init, mtk_navigation_init. keep.
  - apply quiet_credit; [|done]. apply quiet_act. unfold mtk_gps_navigation_close, mtk_navigation_close. keep.
  - apply quiet_credit; [|done]. apply quiet_act. keep.
  - apply quiet_credit; [|done]. apply quiet_act. keep.
Qed.

(** ** The GPS thread *)

(** What the GPS thread knows of the balance: between events ([BIdle]), when it may
    grant one more acquisition ([BSpare]), when it may not ([BFull]). *)
Inductive budget := BIdle | BSpare | BFull.

Definition granted (w : World) (c : nat) : nat := (acquires w + (if (flag M_START w =? 0)%Z then 0 else 1) + c)%nat.

Definition b_inv (b : budget) (w : World) (c : nat) : Prop :=
  match b with
  | BIdle => (granted w c <= S (releases w))%nat /\ (w_flag_unlock w = 0 -> (granted w c <= releases w)%nat)
  | BSpare => (granted w c <= releases w)%nat
  | BFull => (granted w c <= S (releases w))%nat
  end.

Fixpoint wsafe {A} (b : budget) (p : prog A) (Q : budget -> A -> Prop) : Prop :=
  match p with
  | Ret a => Q b a
  | Act m k => forall w x w', m w = Ok (x, w') -> exists b', (forall c, b_inv b w c -> b_inv b' w' c) /\ wsafe b' (k x) Q
  | Wait _ _ => False
  | Until _ k => wsafe b k Q
  end.

Lemma wsafe_bind {A B} (p : prog A) (f : A -> prog B) b Q : wsafe b p (fun b' a => wsafe b' (f a) Q) -> wsafe b (pbind p f) Q.
Proof.
  revert b. induction p as [a|X m k IH|i k IH|c k IH]; intros b H; cbn in *; auto.
  intros w x w' E. destruct (H w x w' E) as (b' & Ha & Hk). exists b'. auto.
Qed.

Lemma b_inv_wbase b w w' c : wbase w' = wbase w -> b_inv b w c -> b_inv b w' c.
Proof. intros (H1 & H2 & H3 & H4)%wbase_inv. unfold b_inv, granted. by rewrite H1, H2, H3, H4. Qed.

Lemma wsafe_calm {A} (p : prog A) b (Q : budget -> A -> Prop) : calm wbase p -> (forall a, Q b a) -> wsafe b p Q.
Proof.
  intros Hp HQ. induction p as [a|X m k IH|i k IH|c k IH]; cbn in *; auto.
  destruct Hp as [Hm Hk]. intros w x w' E. exists b. split; [|auto]. intros c. by apply b_inv_wbase, (Hm _ _ _ E).
Qed.

Lemma wsafe_keep {A X} (m : HAL X) (k : X -> prog A) b Q : keeps wbase m -> (forall x, wsafe b (k x) Q) -> wsafe b (Act m k) Q.
Proof. intros Hm Hk w x w' E. exists b. split; [|auto]. intros c. by apply b_inv_wbase, (Hm _ _ _ E). Qed.

Lemma wsafe_mono {A} (p : prog A) b (Q Q' : budget -> A -> Prop) : (forall b a, Q b a -> Q' b a) -> wsafe b p Q -> wsafe b p Q'.
Proof.
  intros HQ. revert b. induction p as [a|X m k IH|i k IH|c k IH]; intros b H; cbn in *; auto.
  intros w x w' E. destruct (H w x w' E) as (b' & Ha & Hk). exists b'. auto.
Qed.

Definition restored {A} (b : budget) (_ : A) : Prop := b <> BFull.

(** The end of the daemon. *)
Lemma die_wsafe : wsafe BIdle mnld_die restored.
Proof.
  unfold mnld_die. cbn [pbind act]. intros w x w' [= <- <-]. exists BFull. split; [by intros c [? _]|].
  cbn [pbind]. do 5 (apply wsafe_keep; [solve [auto with calm]|intros _]; cbn [pbind]).
  intros w1 x1 w1' E. unfold call_cb in E. rewrite (bindM_ok getM _ w1 w1 w1) in E by done.
  destruct (cb_release_wakelock _); [|done]. injection E as <- <-. exists BSpare. split.
  - intros c. unfold b_inv, granted, acquires, releases, flag. cbn. rewrite !count_ev_app. cbn. lia.
  - cbn [pbind]. unfold act. by apply wsafe_keep; [solve [auto with calm]|].
Qed.

Lemma handler_wsafe data : wsafe BIdle (mnld_to_gps_handler data) restored.
Proof.
  unfold mnld_to_gps_handler. cbn [pbind act]. apply wsafe_keep; [solve [auto with calm]|intros r].
  destruct (decide (fst r = hal_cmd HAL_CMD_MNL_DIE)) as [E|E].
  - rewrite E. exact die_wsafe.
  - apply wsafe_calm; [|done]. by apply quiet_calm, dispatch_quiet; [apply @keeps_wbase|].
Qed.

Lemma read_wcalm chunks t : calm wbase (thread_read chunks t).
Proof. revert t. induction chunks as [|c chunks IH]; intros t; cbn [thread_read]; calms. apply IH. Qed.

(** Data of the device. *)
Lemma thread_gps_wsafe chunks t : wsafe BIdle (thread_gps chunks t) restored.
Proof.
  assert (forall b, b <> BFull -> wsafe b (let! interval := act (gets w_interval) in
    let count := f_add (th_count t) (f_of_Z 1) in
    if f_gt interval count then
      Ret (t <| th_count := count |>
             <| th_buff := match chunks with c :: _ => into_buff (take 2048 c) (th_buff t) | [] => th_buff t end |>)
    else thread_read chunks (t <| th_count := dzero |>))%prog restored) as Hrest.
  { intros b Hb. apply wsafe_calm; [|done]. calms; apply read_wcalm. }
  unfold thread_gps. cbn [pbind act]. intros w x w' [= <- <-]. unfold truth.
  destruct (Z.eqb_spec (w_flag_unlock w) 0) as [E|E]; cbn [negb].
  - exists BSpare. split; [intros c [_ H]; by apply H|]. apply wsafe_bind. cbn [pbind act].
    intros w1 x1 w1' [= <- <-]. exists BFull. split.
    + intros c. unfold b_inv, granted, acquires, releases, flag. cbn. repeat destruct (_ =? 0); lia.
    + cbn [pbind]. unfold act. intros w2 x2 w2' [= <- <-]. exists BIdle. split; [|by apply Hrest].
      intros c H. split; [exact H|]. done.
  - exists BIdle. split; [done|]. by apply Hrest.
Qed.

Lemma event_wsafe e t : wsafe BIdle (gps_state_thread_event e t) restored.
Proof.
  assert (forall b, b <> BFull -> wsafe b (thread_exit t) restored) as Hexit.
  { intros b Hb. apply wsafe_calm; [|done]. unfold thread_exit, close_mnld. calms. }
  destruct e; cbn [gps_state_thread_event].
  - by apply Hexit.
  - apply wsafe_bind, wsafe_calm; [unfold thread_control; calms|intros [t'|]; [done|by apply Hexit]].
  - apply wsafe_bind. eapply wsafe_mono; [|apply thread_gps_wsafe]. done.
  - apply wsafe_bind. eapply wsafe_mono; [|apply handler_wsafe]. done.
  - apply wsafe_bind, wsafe_calm; [unfold thread_codec; calms|done].
  - done.
Qed.

Lemma setup_wsafe count buff : wsafe BIdle (gps_state_thread_setup count buff) restored.
Proof.
  apply wsafe_calm; [|done]. unfold gps_state_thread_setup. cbn [pbind act]. apply calm_act; [auto with calm|intros _].
  cbn [pbind]. apply calm_act; [auto with calm|intros w]. cbv zeta. destruct (bind_udp_socket _ _ _) as [mnld_fd ops]. calms.
Qed.

(** ** The system *)

Definition balance (s : Sys) : Prop :=
  exists c b, fcredit c (s_fw s) anyQ /\ b_inv b (s_w s) c /\
    match s_gps s with GRun p => wsafe b p restored | _ => b <> BFull end.

Lemma b_inv_le b w w' c c' : w_flag_unlock w' = w_flag_unlock w -> releases w' = releases w ->
  (granted w' c' <= granted w c)%nat -> b_inv b w c -> b_inv b w' c'.
Proof. intros H1 H2 H3. destruct b; cbn; rewrite ?H1, ?H2; lia. Qed.

Lemma balance_same s w : wbase w = wbase (s_w s) -> balance s -> balance (s <| s_w := w |>).
Proof.
  intros H (c & b & Hf & Hb & Hg). exists c, b. split; [done|]. split; [|done]. by apply (b_inv_wbase _ (s_w s)).
Qed.

Lemma balance_fw s p w : balance s -> pstep (s_fw s) (s_w s) = Ok (p, w) -> balance (s <| s_fw := p |> <| s_w := w |>).
Proof.
  intros (c & b & Hf & Hb & Hg) E. destruct (s_fw s) as [a|X m k|i k|q k]; cbn in E.
  - done.
  - apply bindM_inv in E as (x & w1 & E1 & [= <- <-]). destruct (Hf _ _ _ E1) as (c' & H1 & H2 & H3 & H4 & H5).
    exists c', b. split; [done|]. split; [|done]. apply (b_inv_le b (s_w s) w1 c); [done|done|unfold granted; rewrite H1; lia|done].
  - apply bindM_inv in E as ([] & w1 & E1 & [= <- <-]). apply get_condition_inv in E1 as [Hset ->].
    set (w1 := (s_w s) <| w_cond := _ |>).
    assert (flag i w1 = 0 /\ (forall j, j <> i -> flag j w1 = flag j (s_w s))) as [H0 Ho]
      by (split; [apply flag_reset|intros j Hj; by apply flag_other]).
    assert (w_flag_unlock w1 = w_flag_unlock (s_w s) /\ releases w1 = releases (s_w s) /\ acquires w1 = acquires (s_w s))
      as (H1 & H2 & H3) by done. clearbody w1.
    destruct (decide (i = M_START)) as [->|Hi].
    + exists (S c), b. split; [exact Hf|]. split; [|done]. apply (b_inv_le b (s_w s) w1 c); [done|done| |done].
      unfold granted. rewrite H0, H3, (proj2 (Z.eqb_neq _ _) Hset). cbn. lia.
    + exists c, b. split; [by destruct i|]. split; [|done]. apply (b_inv_le b (s_w s) w1 c); [done|done| |done].
      unfold granted. rewrite (Ho M_START) by congruence. rewrite H3. done.
  - unfold bindM, getM in E. destruct (q (s_w s)); [|done]. injection E as <- <-. exists c, b. done.
Qed.

Lemma balance_gps s p p' w : balance s -> s_gps s = GRun p -> pstep p (s_w s) = Ok (p', w) ->
  balance (s <| s_gps := GRun p' |> <| s_w := w |>).
Proof.
  intros (c & b & Hf & Hb & Hg) Eg E. rewrite Eg in Hg. destruct p as [a|X m k|i k|q k]; cbn in E.
  - done.
  - apply bindM_inv in E as (x & w1 & E1 & [= <- <-]). destruct (Hg _ _ _ E1) as (b' & H1 & H2). exists c, b'. auto.
  - done.
  - unfold bindM, getM in E. destruct (q (s_w s)); [|done]. injection E as <- <-. exists c, b. done.
Qed.

(** Between events the thread is at [BIdle]. *)
Lemma b_inv_idle b w c : b <> BFull -> b_inv b w c -> b_inv BIdle w c.
Proof. destruct b; cbn; try done. lia. Qed.

Lemma balance_start s s' p : s_w s' = s_w s -> s_fw s' = s_fw s -> s_gps s' = GRun p ->
  match s_gps s with GRun _ => False | _ => True end -> wsafe BIdle p restored -> balance s -> balance s'.
Proof.
  intros Hw Hf Hg Hn Hp (c & b & H1 & H2 & H3). exists c, BIdle. rewrite Hw, Hf, Hg. split; [done|]. split; [|done].
  apply (b_inv_idle b); [|done]. by destruct (s_gps s).
Qed.

Lemma epo_round_wbase url w r w' : epo_round url w = Ok (r, w') -> wbase w' = wbase w.
Proof.
  intros [H|H]%epo_round_core; [by apply wbase_core|].
  pose proof (f_equal c_cond H) as H1. pose proof (f_equal c_flag_unlock H) as H2. pose proof (f_equal c_acquires H) as H3.
  pose proof (f_equal c_releases H) as H4. cbn in H1, H2, H3, H4. unfold wbase, flag. rewrite H1, H2, H3, H4.
  by rewrite (at_insert_ne _ 4 0 1).
Qed.

Lemma balance_step url s s' : step url s s' -> balance s -> balance s'.
Proof.
  intros Hst Hi. destruct Hst as [s env|s r c Hr|s p w E|s Hg Hc|s p p' w Hg E|s t Hg|s Hg|s t e Hg He|s r w Hn E|s w E].
  - by apply balance_same.
  - destruct Hi as (c0 & b & Hf & Hb & Hg). exists 0%nat, b. split; [apply call_credit|]. split; [|done].
    apply (b_inv_le b (s_w s) (s_w s) c0); [done|done|unfold granted; lia|done].
  - by apply balance_fw.
  - eapply (balance_start s); [done|done|done|by destruct Hg as [-> | ->]|apply setup_wsafe|done].
  - by apply (balance_gps s p).
  - destruct Hi as (c0 & b & Hf & Hb & Hw). rewrite Hg in Hw. by exists c0, b.
  - destruct Hi as (c0 & b & Hf & Hb & Hw). rewrite Hg in Hw. by exists c0, b.
  - eapply (balance_start s); [done|done|done|by rewrite Hg|apply event_wsafe|done].
  - exact (balance_same s w (epo_round_wbase _ _ _ _ E) Hi).
  - apply balance_same; [by injection E as <-|done].
Qed.

Lemma balance_reachable url sock cbs env s : reachable url (init_sys sock cbs env) s -> balance s.
Proof.
  induction 1 as [|s s' _ IH Hs]; [|by apply (balance_step url s)].
  exists 0%nat, BIdle. split; [done|]. split; [|done]. split; [|intros _]; vm_compute; lia.
Qed.

(** * Properties *)

(** C21: the descriptors of the GPS thread are safe: in every reachable state of the
    HAL, however the calls of the framework, the threads, the daemon's messages and
    the device's data interleave, while a GPS thread exists that has not announced
    its end no step closes or replaces the device, the control pair or the epoll
    descriptor, and none creates a second GPS thread. *)
Theorem gps_descriptors_stable (url : string -> list Z -> option (list Z)) (sock : Z) (cbs : GpsCallbacks) (env : Env) (s s' : Sys)
  (Hr : reachable url (init_sys sock cbs env) s) (Hs : step url s s') (Ha : alive s = true) :
  fds (s_w s') = fds (s_w s) /\ creations (s_w s') = creations (s_w s).
Proof. by apply (inv_step url s s' Hs (inv_reachable _ _ _ _ _ Hr)). Qed.

(** A HAL whose framework is waiting for the thread it has just created. *)
Definition demo_sys : Sys := exec [SCall (CallInit all_cbs); SFw 20] (init_sys 7 all_cbs quiet_env).

Lemma gps_descriptors_stable_witness :
  alive demo_sys = true /\ fds (s_w demo_sys) = (3, 5, 6, 4) /\
  fds (s_w (demo_sys <| s_gps := GRun (gps_state_thread_setup dzero (zeros 2048)) |> <| s_created := 1%nat |> <| s_read := 0%nat |>))
    = fds (s_w demo_sys).
Proof.
  split; [vm_compute; reflexivity|]. split; [vm_compute; reflexivity|].
  refine (proj1 (gps_descriptors_stable (fun _ _ => None) 7 all_cbs quiet_env demo_sys _ _ _ _)).
  - apply reach_exec, reach_init.
  - refine (step_spawn (fun _ _ => None) demo_sys _ _); [left; vm_compute; reflexivity|].
    apply Nat.ltb_lt. vm_compute. reflexivity.
  - vm_compute. reflexivity.
Defined.

(** C29: the wake lock cannot pile up: in every reachable state, whatever the
    interleaving, the HAL has called the framework's acquire callback at most once
    more often than its release callback. *)
Theorem wakelock_balance (url : string -> list Z -> option (list Z)) (sock : Z) (cbs : GpsCallbacks) (env : Env) (s : Sys)
  (Hr : reachable url (init_sys sock cbs env) s) :
  (acquires (s_w s) <= S (releases (s_w s)))%nat.
Proof.
  destruct (balance_reachable url sock cbs env s Hr) as (c & b & _ & Hb & _). unfold b_inv, granted in Hb.
  destruct b; lia.
Qed.

(** A HAL in a session: initialised, started, and with data of the device. *)
Definition demo_session : Sys :=
  exec [SCall (CallInit all_cbs); SFw 20; SSpawn; SGps 40; SFw 60; SCall CallStart; SFw 60;
        SEvent (TeGps []); SGps 40; SFw 60; SEvent (TeControl 1); SGps 40] (init_sys 7 all_cbs quiet_env).

Lemma wakelock_balance_witness :
  acquires (s_w demo_session) = 1%nat /\ w_started (s_w demo_session) = 1 /\
  (acquires (s_w demo_session) <= S (releases (s_w demo_session)))%nat.
Proof.
  split; [vm_compute; reflexivity|]. split; [vm_compute; reflexivity|].
  apply (wakelock_balance (fun _ _ => None) 7 all_cbs quiet_env demo_session). apply reach_exec, reach_init.
Defined.
