(* ===== verification/Lights.v ===== *)
(** The lights HAL (src/hal/light/lights.c): backlight brightness, and one red
    notification LED with a blink timer driven through sysfs. HAS_GREEN and
    HAS_BLUE are not defined, so RED is the only colour. The world holds the static
    variables, the outcomes of the system calls that can fail, and the writes that
    reached sysfs; [open] and [write] outcomes are error numbers, 0 for success and
    for all calls past the end of the list. A request holds [g_lock] from its start
    to its end and is one computation. *)

From stdpp Require Import base list strings numbers.
From Stdlib Require Import ZArith Lia.
From S2P Require Import Prelude.

Local Open Scope Z_scope.
Local Open Scope st_scope.
Local Open Scope rec_scope.

Module Lights.

(** A light_state_t of hardware/lights.h; [color] is unsigned. *)
Record light_state_t := mkLight {
  color : Z;
  flashMode : Z;
  flashOnMS : Z;
  flashOffMS : Z;
}.

Definition LIGHT_FLASH_NONE := 0.
Definition LIGHT_FLASH_TIMED := 1.

(** lights.c:43-69 [RED_LED_PATH ..] constants. *)
Definition RED_LED_PATH : string := "/sys/class/leds/red".
Definition LCD_BRIGHTNESS : string := "/sys/class/leds/lcd-backlight/brightness".
Definition RED := 1.
Definition COLOR_MASK := 0x00ffffff.

(** What is written to a sysfs node: a number or a word, each with a newline. *)
Inductive text := TInt (z : Z) | TWord (s : string).

Inductive effect := Write (path : string) (t : text) | Chown (path : string) | Sleep (sec nsec : Z).

(** The world: [l_access] holds the results of [access], [l_sleep] the error number
    and the remaining time of each [nanosleep] that fails. *)
Record LW := mkLW {
  redStatus : Z;
  battery : light_state_t;
  notification : light_state_t;
  l_open : list Z;
  l_write : list Z;
  l_access : list bool;
  l_sleep : list (Z * (Z * Z));
  l_trace : list effect;
}.
#[export] Instance eta_LW : Eta LW := fun w =>
  mkLW (redStatus w) (battery w) (notification w) (l_open w) (l_write w) (l_access w) (l_sleep w) (l_trace w).

Definition no_light : light_state_t := mkLight 0 0 0 0.

(** lights.c:65-69 [battery, notification] and the static [redStatus]. *)
Definition lights0 (opens writes : list Z) (access : list bool) (sleeps : list (Z * (Z * Z))) : LW :=
  mkLW 0 no_light no_light opens writes access sleeps [].

Definition L (A : Type) : Type := ST LW A.

Definition emitL (e : effect) : L unit := modM (fun w => w <| l_trace := l_trace w ++ [e] |>).

(** lights.c:103-116 [write_int] and lights.c:118-131 [write_str] differ in the text
    only; [sprintf] of an [int] needs at most 13 of the 20 bytes. *)
Definition write_node (path : string) (t : text) : L Z :=
  let* w := getM in
  let e := hd 0 (l_open w) in
  modM (fun w => w <| l_open := tl (l_open w) |>) ;;
  if negb (e =? 0) then retM (- e)
  else
    let e := hd 0 (l_write w) in
    modM (fun w => w <| l_write := tl (l_write w) |>) ;;
    if negb (e =? 0) then retM (- e)
    else emitL (Write path t) ;; retM 0.

(** lights.c:103-116 [write_int]. *)
Definition write_int (path : string) (value : Z) : L Z := write_node path (TInt value).

(** lights.c:118-131 [write_str]. *)
Definition write_str (path value : string) : L Z := write_node path (TWord value).

Definition EINTR := 4.

(** lights.c:71-92 [led_wait_delay, loop] an interrupted sleep goes on with the
    remaining time, another error ends it. *)
Fixpoint sleep_loop (script : list (Z * (Z * Z))) (sec nsec : Z) : L Z :=
  emitL (Sleep sec nsec) ;;
  match script with
  | [] => retM 0
  | (e, rem) :: script' =>
      modM (fun w => w <| l_sleep := script' |>) ;;
      if e =? 0 then retM 0
      else if e =? EINTR then sleep_loop script' rem.1 rem.2
      else retM e
  end.

(** lights.c:71-92 [led_wait_delay]. *)
Definition led_wait_delay (ms : Z) : L Z :=
  let* w := getM in sleep_loop (l_sleep w) 0 (i32 (ms * 1000000)).

(** lights.c:133-139 [rgb_to_brightness]. *)
Definition rgb_to_brightness (state : light_state_t) : Z :=
  let c := Z.land (color state) COLOR_MASK in
  Z.shiftr (77 * Z.land (Z.shiftr c 16) 0x00ff + 150 * Z.land (Z.shiftr c 8) 0x00ff + 29 * Z.land c 0x00ff) 8.

Definition node (name : string) : string := (RED_LED_PATH ++ "/" ++ name)%string.

(** [access (path, F_OK)]: whether the file exists; past the end of the list every
    file does. *)
Definition exists_ (path : string) : L bool :=
  let* w := getM in
  modM (fun w => w <| l_access := tl (l_access w) |>) ;;
  retM (match l_access w with [] => true | ok :: _ => ok end).

(** One evaluation of the loop's condition; the second file is looked for only when
    the first one exists. *)
Definition missing : L bool :=
  let* off := exists_ (node "delay_off") in
  if negb off then retM true else let* on := exists_ (node "delay_on") in retM (negb on).

Definition RETRIES : nat := 10.

(** lights.c:208-219 [blink_led, wait for the files] the number of rounds. *)
Fixpoint wait_nodes (left : nat) (i : Z) : L Z :=
  let* m := missing in
  if m : bool then
    match left with
    | O => retM i
    | S left' =>
        emitL (Chown (node "delay_on")) ;;
        emitL (Chown (node "delay_off")) ;;
        led_wait_delay 5 ;;
        wait_nodes left' (i + 1)
    end
  else retM i.

(** lights.c:189-195 [blink_led, status] 0: off, 1: blink, 2: no blink. *)
Definition led_status (level onMS offMS : Z) : Z :=
  if level =? 0 then 0 else if (0 <? onMS) && (0 <? offMS) then 1 else 2.

(** lights.c:141-235 [blink_led]. *)
Definition blink_led (color_id level onMS offMS : Z) : L Z :=
  if negb (color_id =? RED) then retM (-3)
  else
    let curStatus := led_status level onMS offMS in
    let* w := getM in
    if redStatus w =? curStatus then retM (-1)
    else
      let* ok := (if curStatus =? 0 then write_int (node "brightness") 0 ;; retM true
                  else if curStatus =? 1 then
                    write_str (node "trigger") "timer" ;;
                    led_wait_delay 10 ;;
                    let* i := wait_nodes RETRIES 0 in
                    if i <? Z.of_nat RETRIES then
                      write_int (node "delay_off") offMS ;;
                      write_int (node "delay_on") onMS ;;
                      retM true
                    else retM false
                  else
                    write_str (node "trigger") "none" ;;
                    write_int (node "brightness") level ;;
                    retM true) in
      if ok : bool then modM (fun w => w <| redStatus := curStatus |>) ;; retM 0 else retM (-2).

(** lights.c:237-251 [set_light_backlight] [dev] tells whether the device pointer is
    not null. *)
Definition set_light_backlight (dev : bool) (state : light_state_t) : L Z :=
  let brightness := rgb_to_brightness state in
  if negb dev then retM (-1) else write_int LCD_BRIGHTNESS brightness.

(** lights.c:253-313 [set_speaker_light_locked]. *)
Definition set_speaker_light_locked (state : light_state_t) : L unit :=
  let onMS := if flashMode state =? LIGHT_FLASH_TIMED then flashOnMS state else 0 in
  let offMS := if flashMode state =? LIGHT_FLASH_TIMED then flashOffMS state else 0 in
  let colorRGB := color state in
  let red := Z.land (Z.shiftr colorRGB 16) 0xFF in
  (if negb (red =? 0) then blink_led RED red onMS offMS else blink_led RED 0 0 0) ;;
  retM tt.

(** lights.c:315-325 [handle_charger_battery_locked]. *)
Definition handle_charger_battery_locked : L unit :=
  let* w := getM in
  if negb (Z.land (color (battery w)) COLOR_MASK =? 0) then set_speaker_light_locked (battery w)
  else set_speaker_light_locked (battery w) ;; set_speaker_light_locked (notification w).

(** lights.c:327-336 [handle_notification_battery_locked]. *)
Definition handle_notification_battery_locked : L unit :=
  let* w := getM in
  if negb (Z.land (color (notification w)) COLOR_MASK =? 0) then set_speaker_light_locked (notification w)
  else set_speaker_light_locked (notification w) ;; set_speaker_light_locked (battery w).

(** lights.c:338-347 [set_light_battery]. *)
Definition set_light_battery (state : light_state_t) : L Z :=
  modM (fun w => w <| battery := state |>) ;; handle_notification_battery_locked ;; retM 0.

(** lights.c:349-358 [set_light_notifications]. *)
Definition set_light_notifications (state : light_state_t) : L Z :=
  modM (fun w => w <| notification := state |>) ;; handle_notification_battery_locked ;; retM 0.

Definition EINVAL := 22.

Inductive light_fn := FnBacklight | FnNotifications.

(** lights.c:369-402 [open_lights] the routine the device gets. *)
Definition open_lights (name : string) : Z + light_fn :=
  if String.eqb name "backlight" then inr FnBacklight
  else if String.eqb name "notifications" then inr FnNotifications
  else inl (- EINVAL).

(** * The LED a request stands for *)

Definition red_of (s : light_state_t) : Z := Z.land (Z.shiftr (color s) 16) 0xFF.

Definition on_of (s : light_state_t) : Z := if flashMode s =? LIGHT_FLASH_TIMED then flashOnMS s else 0.
Definition off_of (s : light_state_t) : Z := if flashMode s =? LIGHT_FLASH_TIMED then flashOffMS s else 0.

(** The status a request asks for. *)
Definition wanted (s : light_state_t) : Z := led_status (red_of s) (on_of s) (off_of s).

(** The writes that take the LED from any other status to that of the request. *)
Definition led_writes (s : light_state_t) : list effect :=
  if wanted s =? 0 then [Write (node "brightness") (TInt 0)]
  else if wanted s =? 1 then
    [Write (node "trigger") (TWord "timer"); Sleep 0 10000000; Write (node "delay_off") (TInt (off_of s));
     Write (node "delay_on") (TInt (on_of s))]
  else [Write (node "trigger") (TWord "none"); Write (node "brightness") (TInt (red_of s))].

(** No call fails, no sleep is interrupted and the delay files exist. *)
Definition healthy (w : LW) : Prop := l_open w = [] /\ l_write w = [] /\ l_access w = [] /\ l_sleep w = [].

(** * Lemmas *)

Lemma write_node_run path t w : l_open w = [] -> l_write w = [] ->
  write_node path t w = Ok (0, w <| l_trace := l_trace w ++ [Write path t] |>).
Proof. intros H1 H2. unfold write_node. run. rewrite H1. cbn. rewrite H2. cbn. destruct w; cbn in *. by subst. Qed.

Lemma missing_no w : l_access w = [] -> missing w = Ok (false, w).
Proof. intros H. unfold missing, exists_. run. rewrite H. cbn. destruct w; cbn in *. by subst. Qed.

Lemma delay_run ms w : l_sleep w = [] ->
  led_wait_delay ms w = Ok (0, w <| l_trace := l_trace w ++ [Sleep 0 (i32 (ms * 1000000))] |>).
Proof. intros H. unfold led_wait_delay. run. by rewrite H. Qed.

Lemma wanted_zero s : red_of s = 0 -> wanted s = 0.
Proof. intros H. unfold wanted, led_status. by rewrite H. Qed.

(** One LED request on a healthy device. *)
Lemma set_speaker_run s w : healthy w ->
  set_speaker_light_locked s w =
    Ok (tt, if redStatus w =? wanted s then w
            else w <| redStatus := wanted s |> <| l_trace := l_trace w ++ led_writes s |>).
Proof.
  intros (H1 & H2 & H3 & H4). unfold set_speaker_light_locked. fold (on_of s) (off_of s) (red_of s). cbv zeta.
  assert (forall l n f, led_status l n f = wanted s -> (l = 0 -> wanted s = 0) -> (l <> 0 -> l = red_of s /\ n = on_of s /\ f = off_of s) ->
    blink_led RED l n f w = Ok (if redStatus w =? wanted s then -1 else 0, if redStatus w =? wanted s then w
            else w <| redStatus := wanted s |> <| l_trace := l_trace w ++ led_writes s |>)) as Hb.
  { intros l n f Hs Hl0 Hl. unfold blink_led. cbn [negb Z.eqb Pos.eqb RED]. rewrite Hs. cbv zeta.
    rewrite (bindM_ok getM _ w w w) by done. destruct (redStatus w =? wanted s); [done|]. unfold led_writes.
    destruct (Z.eqb_spec (wanted s) 0) as [E0|E0].
    { unfold write_int. rewrite bindM_assoc, (bindM_ok _ _ _ _ _ (write_node_run _ _ _ H1 H2)). by rewrite E0. }
    assert (l <> 0) as Hn by (intros ->; by apply E0, Hl0). destruct (Hl Hn) as (-> & -> & ->).
    destruct (Z.eqb_spec (wanted s) 1) as [E1|E1].
    - rewrite bindM_assoc. unfold write_str, write_int. rewrite (bindM_ok _ _ _ _ _ (write_node_run _ _ _ H1 H2)).
      set (w0 := set l_trace _ _). rewrite bindM_assoc, (bindM_ok _ _ _ _ _ (delay_run 10 w0 H4)).
      set (w1 := set l_trace _ w0). unfold wait_nodes. cbn [RETRIES]. rewrite bindM_assoc.
      rewrite (bindM_ok (bindM missing _) _ w1 0 w1) by (rewrite (bindM_ok _ _ _ _ _ (missing_no w1 H3)); done).
      change (0 <? Z.of_nat RETRIES) with true. cbv iota. rewrite !bindM_assoc, (bindM_ok _ _ _ _ _ (write_node_run _ _ w1 H1 H2)).
      set (w2 := set l_trace _ w1). rewrite !bindM_assoc, (bindM_ok _ _ _ _ _ (write_node_run _ _ w2 H1 H2)).
      unfold bindM, retM, modM, w2, w1, w0. cbn. rewrite E1. by rewrite <- !app_assoc.
    - rewrite bindM_assoc. unfold write_str, write_int. rewrite (bindM_ok _ _ _ _ _ (write_node_run _ _ _ H1 H2)).
      set (w1 := set l_trace _ _). rewrite bindM_assoc, (bindM_ok _ _ _ _ _ (write_node_run _ _ w1 H1 H2)).
      unfold bindM, retM, modM, w1. cbn. by rewrite <- !app_assoc. }
  destruct (Z.eqb_spec (red_of s) 0) as [E|E]; cbn [negb].
  - rewrite (bindM_ok _ _ _ _ _ (Hb 0 0 0 (eq_sym (wanted_zero s E)) (fun _ => wanted_zero s E) ltac:(done))). done.
  - rewrite (bindM_ok _ _ _ _ _ (Hb (red_of s) (on_of s) (off_of s) eq_refl ltac:(done) ltac:(done))). done.
Qed.

(** The brightness is the weighted sum of the channels. *)
Lemma rgb_weighted s : rgb_to_brightness s =
  (77 * red_of s + 150 * Z.land (Z.shiftr (color s) 8) 0xFF + 29 * Z.land (color s) 0xFF) / 256.
Proof.
  unfold rgb_to_brightness, red_of, COLOR_MASK. rewrite Z.shiftr_div_pow2 by lia. change (2 ^ 8) with 256.
  assert (forall n, 0 <= n <= 16 -> Z.land (Z.shiftr (Z.land (color s) 0xffffff) n) 0xff = Z.land (Z.shiftr (color s) n) 0xff) as H.
  { intros n Hn. apply Z.bits_inj'. intros i Hi. rewrite !Z.land_spec, !Z.shiftr_spec, Z.land_spec by lia.
    change 0xff with (Z.ones 8). change 0xffffff with (Z.ones 24). destruct (decide (i < 8)).
    - rewrite (Z.ones_spec_low 24) by lia. by rewrite andb_true_r.
    - rewrite (Z.ones_spec_high 8) by lia. by rewrite !andb_false_r. }
  rewrite !H by lia. rewrite <- (Z.shiftr_0_r (Z.land (color s) 0xffffff)), H by lia. by rewrite Z.shiftr_0_r.
Qed.

Lemma byte_range z : 0 <= Z.land z 0xff < 256.
Proof. change 0xff with (Z.ones 8). rewrite Z.land_ones by lia. apply Z.mod_pos_bound. lia. Qed.

(** * Properties *)

(** the notification LED follows the requests: on a device whose sysfs nodes
    work, after a notification request the LED has the status (off, blinking,
    steady) the notification asks for, or, when the notification has no colour, the
    status the battery asks for; the request itself always succeeds. *)
Theorem notification_led_status (s : light_state_t) (w : LW) (Hw : healthy w) :
  exists w', set_light_notifications s w = Ok (0, w') /\ healthy w' /\ notification w' = s /\ battery w' = battery w /\
    redStatus w' = if Z.land (color s) COLOR_MASK =? 0 then wanted (battery w) else wanted s.
Proof.
  unfold set_light_notifications, handle_notification_battery_locked. unfold bindM at 1, modM.
  set (w1 := set notification _ w). assert (healthy w1) as H1 by exact Hw. rewrite bindM_assoc, (bindM_ok getM _ w1 w1 w1) by done.
  change (notification w1) with s. change (battery w1) with (battery w).
  destruct (Z.land (color s) COLOR_MASK =? 0); cbn [negb].
  - rewrite bindM_assoc, (bindM_ok _ _ _ _ _ (set_speaker_run s w1 H1)).
    set (w2 := if redStatus w1 =? wanted s then w1 else _).
    assert (healthy w2 /\ notification w2 = s /\ battery w2 = battery w) as (H2 & H3 & H4)
      by (unfold w2; by destruct (redStatus w1 =? wanted s)).
    clearbody w2. rewrite (bindM_ok _ _ _ _ _ (set_speaker_run (battery w) w2 H2)). eexists. split; [reflexivity|].
    destruct (Z.eqb_spec (redStatus w2) (wanted (battery w))) as [E|E]; [done|]. split_and!; try done.
  - rewrite (bindM_ok _ _ _ _ _ (set_speaker_run s w1 H1)). eexists. split; [reflexivity|].
    destruct (Z.eqb_spec (redStatus w1) (wanted s)) as [E|E]; done.
Qed.

Lemma notification_led_status_witness :
  exists w', set_light_notifications (mkLight 0xffff0000 LIGHT_FLASH_TIMED 500 2000) (lights0 [] [] [] []) = Ok (0, w') /\
    healthy w' /\ notification w' = mkLight 0xffff0000 LIGHT_FLASH_TIMED 500 2000 /\ battery w' = no_light /\ redStatus w' = 1.
Proof.
  apply (notification_led_status (mkLight 0xffff0000 LIGHT_FLASH_TIMED 500 2000) (lights0 [] [] [] [])).
  split_and!; reflexivity.
Defined.

(** a request is dropped when it only changes the level or the timing: if the
    LED already has the status a notification asks for, nothing is written, so
    neither the new brightness nor the new blink times reach the device. *)
Theorem same_status_not_written (s : light_state_t) (w : LW) (Hw : healthy w)
  (Hc : Z.land (color s) COLOR_MASK <> 0) (Hs : redStatus w = wanted s) :
  set_light_notifications s w = Ok (0, w <| notification := s |>).
Proof.
  unfold set_light_notifications, handle_notification_battery_locked. unfold bindM at 1, modM.
  set (w1 := set notification _ w). rewrite bindM_assoc, (bindM_ok getM _ w1 w1 w1) by done. change (notification w1) with s.
  rewrite (proj2 (Z.eqb_neq _ _) Hc). cbn [negb]. rewrite (bindM_ok _ _ _ _ _ (set_speaker_run s w1 Hw)).
  change (redStatus w1) with (redStatus w). by rewrite Hs, Z.eqb_refl.
Qed.

Lemma same_status_not_written_witness :
  set_light_notifications (mkLight 0xffff0000 LIGHT_FLASH_NONE 0 0) ((lights0 [] [] [] []) <| redStatus := 2 |>) =
    Ok (0, (lights0 [] [] [] []) <| redStatus := 2 |> <| notification := mkLight 0xffff0000 LIGHT_FLASH_NONE 0 0 |>).
Proof.
  apply (same_status_not_written (mkLight 0xffff0000 LIGHT_FLASH_NONE 0 0) ((lights0 [] [] [] []) <| redStatus := 2 |>)).
  - split_and!; reflexivity.
  - vm_compute. discriminate.
  - reflexivity.
Defined.

(** the backlight level is a luminance: the weighted mean of the colour
    channels, between 0 and 255, 255 for white, and it does not decrease when
    channels grow. *)
Theorem backlight_luminance (s : light_state_t) :
  0 <= rgb_to_brightness s <= 255 /\
  (forall t, red_of s <= red_of t -> Z.land (Z.shiftr (color s) 8) 0xFF <= Z.land (Z.shiftr (color t) 8) 0xFF ->
     Z.land (color s) 0xFF <= Z.land (color t) 0xFF -> rgb_to_brightness s <= rgb_to_brightness t) /\
  rgb_to_brightness (mkLight 0xffffff 0 0 0) = 255.
Proof.
  split_and!.
  - rewrite rgb_weighted. pose proof (byte_range (Z.shiftr (color s) 16)). pose proof (byte_range (Z.shiftr (color s) 8)).
    pose proof (byte_range (color s)). unfold red_of. apply Z.div_pos; lia.
  - rewrite rgb_weighted. pose proof (byte_range (Z.shiftr (color s) 16)). pose proof (byte_range (Z.shiftr (color s) 8)).
    pose proof (byte_range (color s)). unfold red_of. apply Z.lt_succ_r, Z.div_lt_upper_bound; lia.
  - intros t H1 H2 H3. rewrite !rgb_weighted. apply Z.div_le_mono; lia.
  - reflexivity.
Qed.

Lemma backlight_luminance_witness : 0 <= rgb_to_brightness (mkLight 0x00804020 0 0 0) <= 255.
Proof. exact (proj1 (backlight_luminance (mkLight 0x00804020 0 0 0))). Defined.
End Lights.
