(* ===== verification/SensorQueue.v ===== *)
(** The event queue between a sub-HAL's polling thread and the sensors HAL
    (src/hal/sensors/SensorEventQueue.cpp): a circular array whose free part is
    handed out, as one contiguous region, to be written without the lock. The
    operations of the class, and its promise: a first-in first-out queue of bounded
    size whose regions never overlap what can be read. *)

From stdpp Require Import base list numbers.
From Stdlib Require Import ZArith Lia.
From S2P Require Import Prelude.

Local Open Scope Z_scope.
Local Open Scope rec_scope.

(** SensorEventQueue.h:33-38 [SensorEventQueue]. *)
Record SensorEventQueue (E : Type) := mkQueue {
  mCapacity : Z;
  mStart : Z;
  mSize : Z;
  mData : list E;
}.
Arguments mkQueue {E} _ _ _ _.
Arguments mCapacity {E} _.
Arguments mStart {E} _.
Arguments mSize {E} _.
Arguments mData {E} _.
#[export] Instance eta_SensorEventQueue E : Eta (SensorEventQueue E) := fun q =>
  mkQueue (mCapacity q) (mStart q) (mSize q) (mData q).

Section Operations.
Context {E : Type}.
Implicit Types (q : SensorEventQueue E).

(** SensorEventQueue.cpp:24-31 [SensorEventQueue::SensorEventQueue] [memory] is what
    the new array holds. *)
Definition new_queue (capacity : Z) (memory : list E) : SensorEventQueue E := mkQueue capacity 0 0 memory.

(** SensorEventQueue.cpp:39-59 [SensorEventQueue::getWritableRegion] the length, and
    the index where the region starts. *)
Definition getWritableRegion (requestedLength : Z) q : Z * option Z :=
  if (mSize q =? mCapacity q) || (requestedLength <=? 0) then (0, None)
  else
    let firstWritable := Z.rem (mStart q + mSize q) (mCapacity q) in
    let lastWritable := i32 (firstWritable + requestedLength - 1) in
    let lastWritable := if mCapacity q - 1 <? lastWritable then mCapacity q - 1 else lastWritable in
    let lastWritable :=
      if (firstWritable <? mStart q) && (mStart q <=? lastWritable) then mStart q - 1 else lastWritable in
    (lastWritable - firstWritable + 1, Some firstWritable).

(** SensorEventQueue.cpp:61-63 [SensorEventQueue::markAsWritten]. *)
Definition markAsWritten (count : Z) q : SensorEventQueue E := q <| mSize := i32 (mSize q + count) |>.

(** SensorEventQueue.cpp:65-67 [SensorEventQueue::getSize]. *)
Definition getSize q : Z := mSize q.

(** SensorEventQueue.cpp:69-72 [SensorEventQueue::peek] the event pointed to: no
    pointer, or the slot, which may lie outside of the array. *)
Definition peek q : option (option E) :=
  if mSize q =? 0 then None
  else Some (if mStart q <? 0 then None else mData q !! Z.to_nat (mStart q)).

(** SensorEventQueue.cpp:74-81 [SensorEventQueue::dequeue] with whether the condition
    is broadcast. *)
Definition dequeue q : bool * SensorEventQueue E :=
  if mSize q =? 0 then (false, q)
  else
    (mSize q =? mCapacity q,
     q <| mSize := mSize q - 1 |> <| mStart := Z.rem (mStart q + 1) (mCapacity q) |>).

(** SensorEventQueue.cpp:84-91 [SensorEventQueue::waitForSpace] the condition of the
    loop: the caller sleeps while it holds. *)
Definition must_wait q : bool := mSize q =? mCapacity q.

(** The sub-HAL stores [evs] from the start of a region. *)
Definition write_region (first : Z) (evs : list E) q : SensorEventQueue E :=
  q <| mData := list_inserts (Z.to_nat first) evs (mData q) |>.

(** * The queue an object stands for *)

(** The readable events, oldest first. *)
Definition contents q : list E :=
  take (Z.to_nat (mSize q)) (drop (Z.to_nat (mStart q)) (mData q) ++ take (Z.to_nat (mStart q)) (mData q)).

Record queue_wf q : Prop := {
  wf_cap : 0 < mCapacity q < 2 ^ 30;
  wf_start : 0 <= mStart q < mCapacity q;
  wf_size : 0 <= mSize q <= mCapacity q;
  wf_data : zlen (mData q) = mCapacity q;
}.

(** [len] slots from [first] are free: in the array, after the readable events. *)
Definition free_region first len q : Prop :=
  0 <= len /\ first = (mStart q + mSize q) mod mCapacity q /\
  first + len <= mCapacity q /\ len <= mCapacity q - mSize q.

(** * Lemmas *)

Lemma length_contents q : queue_wf q -> length (contents q) = Z.to_nat (mSize q).
Proof.
  intros [? ? ? Hd]. unfold contents, zlen in *. rewrite length_take, length_app, length_drop, length_take. lia.
Qed.

Lemma contents_lookup q i : queue_wf q -> (i < Z.to_nat (mSize q))%nat ->
  contents q !! i = mData q !! Z.to_nat ((mStart q + Z.of_nat i) mod mCapacity q).
Proof.
  intros [? ? ? Hd] Hi. unfold contents. rewrite lookup_take_lt by lia. unfold zlen in Hd.
  destruct (decide (mStart q + Z.of_nat i < mCapacity q)).
  - rewrite Z.mod_small by lia. rewrite lookup_app_l by (rewrite length_drop; lia). rewrite lookup_drop. f_equal. lia.
  - rewrite lookup_app_r by (rewrite length_drop; lia). rewrite length_drop.
    replace ((mStart q + Z.of_nat i) mod mCapacity q) with (mStart q + Z.of_nat i - mCapacity q)
      by (apply Zmod_unique with 1; lia).
    rewrite lookup_take_lt by lia. f_equal. lia.
Qed.

Lemma new_queue_wf capacity memory : 0 < capacity < 2 ^ 30 -> zlen memory = capacity ->
  queue_wf (new_queue capacity memory) /\ contents (new_queue capacity memory) = [].
Proof. intros H1 H2. split; [split; cbn; lia|reflexivity]. Qed.

Lemma rem_mod a b : 0 <= a -> 0 < b -> Z.rem a b = a mod b.
Proof. intros. apply Z.rem_mod_nonneg; lia. Qed.

(** What [getWritableRegion] hands out. *)
Lemma getWritableRegion_free n q : queue_wf q -> 0 < n < 2 ^ 30 -> mSize q < mCapacity q ->
  exists first len, getWritableRegion n q = (len, Some first) /\ free_region first len q /\ 1 <= len <= n.
Proof.
  intros [Hc Hs Hz Hd] Hn Hf. unfold getWritableRegion.
  rewrite (proj2 (Z.eqb_neq _ _)), (proj2 (Z.leb_gt _ _)) by lia. cbn [orb].
  rewrite rem_mod by lia. set (f := (mStart q + mSize q) mod mCapacity q).
  assert (0 <= f < mCapacity q) as Hfr by (apply Z.mod_pos_bound; lia).
  assert (f = mStart q + mSize q \/ f = mStart q + mSize q - mCapacity q) as Hcase.
  { destruct (decide (mStart q + mSize q < mCapacity q)).
    - left. apply Z.mod_small. lia.
    - right. symmetry. apply Zmod_unique with 1; lia. }
  rewrite i32_id by (unfold is_i32; lia). cbv zeta.
  do 2 eexists. split; [reflexivity|]. unfold free_region.
  zb; cbn [andb]; repeat split; lia || reflexivity.
Qed.

Lemma getWritableRegion_full n q : queue_wf q -> mSize q = mCapacity q -> getWritableRegion n q = (0, None).
Proof. intros _ H. unfold getWritableRegion. by rewrite H, Z.eqb_refl. Qed.

(** A slot of a free region is none of the readable ones. *)
Lemma free_region_disjoint first len q i j : queue_wf q -> free_region first len q ->
  0 <= i < mSize q -> 0 <= j < len -> first + j <> (mStart q + i) mod mCapacity q.
Proof.
  intros [Hc Hs Hz Hd] (H1 & H2 & H3 & H4) Hi Hj Heq. subst first.
  assert ((mStart q + i) mod mCapacity q = (mStart q + mSize q + j) mod mCapacity q) as E2.
  { rewrite <- Heq, <- (Z.add_mod_idemp_l (mStart q + mSize q)) by lia.
    symmetry. apply Z.mod_small. pose proof (Z.mod_pos_bound (mStart q + mSize q) (mCapacity q)). lia. }
  assert ((mSize q + j - i) mod mCapacity q = 0) as E3.
  { replace (mSize q + j - i) with (mStart q + mSize q + j - (mStart q + i)) by lia.
    rewrite Zminus_mod, E2, Z.sub_diag. apply Z.mod_0_l. lia. }
  rewrite Z.mod_small in E3; lia.
Qed.

(** Writing into a free region does not change what can be read. *)
Lemma write_region_contents first len evs q : queue_wf q -> free_region first len q -> zlen evs <= len ->
  queue_wf (write_region first evs q) /\ contents (write_region first evs q) = contents q.
Proof.
  intros Hq Hf Hl. assert (queue_wf (write_region first evs q)) as Hw.
  { destruct Hq as [? ? ? Hd]. split; cbn; try lia. unfold zlen in *. by rewrite length_inserts. }
  split; [done|]. apply list_eq. intros i.
  destruct (decide (i < Z.to_nat (mSize q))%nat) as [Hi|Hi].
  - rewrite !contents_lookup by done. cbn.
    destruct (decide (Z.to_nat first <= Z.to_nat ((mStart q + Z.of_nat i) mod mCapacity q) < Z.to_nat first + length evs)%nat) as [Hin|Hin].
    + exfalso. destruct Hq as [? ? ? ?]. pose proof (Z.mod_pos_bound (mStart q + Z.of_nat i) (mCapacity q)).
      apply (free_region_disjoint first len q (Z.of_nat i) ((mStart q + Z.of_nat i) mod mCapacity q - first)); try done; unfold zlen in *;
        destruct Hf as (? & ? & ? & ?); pose proof (Z.mod_pos_bound (mStart q + mSize q) (mCapacity q)); lia.
    + generalize dependent (Z.to_nat ((mStart q + Z.of_nat i) mod mCapacity q)). intros k Hin.
      destruct (decide (k < Z.to_nat first)%nat); [by apply list_lookup_inserts_lt|apply list_lookup_inserts_ge; lia].
  - rewrite !lookup_ge_None_2; [done|rewrite length_contents by done; cbn; lia..].
Qed.

(** Marking the events at the start of a free region as written appends them. *)
Lemma mark_contents first len evs q : queue_wf q -> free_region first len q -> zlen evs <= len ->
  (forall i, (i < length evs)%nat -> mData q !! (Z.to_nat first + i)%nat = evs !! i) ->
  queue_wf (markAsWritten (zlen evs) q) /\ contents (markAsWritten (zlen evs) q) = contents q ++ evs.
Proof.
  intros Hq (H1 & H2 & H3 & H4) Hl Hev. pose proof Hq as [Hc Hs Hz Hd]. pose proof (zlen_nonneg evs) as Hn.
  assert (mSize (markAsWritten (zlen evs) q) = mSize q + zlen evs) as Hm by (cbn; rewrite i32_id; unfold is_i32; lia).
  assert (queue_wf (markAsWritten (zlen evs) q)) as Hw by (split; rewrite ?Hm; cbn; lia).
  split; [done|]. apply list_eq. intros i.
  destruct (decide (i < Z.to_nat (mSize q + zlen evs))%nat) as [Hi|Hi].
  - rewrite contents_lookup by (rewrite ?Hm; done). cbn [mStart mCapacity mData markAsWritten set].
    destruct (decide (i < Z.to_nat (mSize q))%nat).
    + rewrite lookup_app_l by (rewrite length_contents by done; lia). by rewrite contents_lookup.
    + rewrite lookup_app_r by (rewrite length_contents by done; lia). rewrite length_contents by done.
      rewrite <- Hev by (unfold zlen in *; lia). f_equal.
      replace (mStart q + Z.of_nat i) with (mStart q + mSize q + (Z.of_nat i - mSize q)) by lia.
      rewrite <- Z.add_mod_idemp_l by lia. rewrite <- H2.
      pose proof (Z.mod_pos_bound (mStart q + mSize q) (mCapacity q)). rewrite Z.mod_small by lia. lia.
  - rewrite !lookup_ge_None_2; [done|rewrite ?length_app, length_contents by done; rewrite ?Hm; unfold zlen in *; lia..].
Qed.

Lemma inserts_lookup first evs q i : queue_wf q -> 0 <= first -> first + zlen evs <= mCapacity q ->
  (i < length evs)%nat -> mData (write_region first evs q) !! (Z.to_nat first + i)%nat = evs !! i.
Proof.
  intros [? ? ? Hd] H1 H2 Hi. cbn. unfold zlen in *. rewrite list_lookup_inserts by lia. f_equal. lia.
Qed.

Lemma peek_contents q : queue_wf q ->
  peek q = match contents q with [] => None | e :: _ => Some (Some e) end.
Proof.
  intros Hq. pose proof (length_contents q Hq) as Hl. pose proof Hq as [? ? ? ?]. unfold peek.
  destruct (Z.eqb_spec (mSize q) 0) as [He|He].
  - destruct (contents q); [done|cbn in Hl; lia].
  - rewrite (proj2 (Z.ltb_ge _ _)) by lia. pose proof (contents_lookup q 0 Hq ltac:(lia)) as H0.
    rewrite Z.add_0_r, Z.mod_small in H0 by lia. rewrite <- H0.
    destruct (contents q); [cbn in Hl; lia|done].
Qed.

Lemma dequeue_contents q : queue_wf q ->
  let '(broadcast, q') := dequeue q in
  queue_wf q' /\ contents q' = tail (contents q) /\ broadcast = negb (mSize q =? 0) && (mSize q =? mCapacity q) /\
  mCapacity q' = mCapacity q /\ mData q' = mData q.
Proof.
  intros Hq. pose proof (length_contents q Hq) as Hl. pose proof Hq as [? ? ? Hd]. unfold dequeue.
  destruct (Z.eqb_spec (mSize q) 0) as [He|He].
  { destruct (contents q) eqn:E2; [|cbn in Hl; lia]. split_and!; cbn; done. }
  rewrite rem_mod by lia. set (q' := set mStart _ _).
  assert (queue_wf q') as Hw.
  { unfold q'. split; cbn; try lia. apply Z.mod_pos_bound. lia. }
  split_and!; try done. apply list_eq. intros i. rewrite lookup_tail.
  destruct (decide (S i < Z.to_nat (mSize q))%nat) as [Hi|Hi].
  - rewrite !contents_lookup by (done || unfold q'; cbn; lia). unfold q'. cbn. f_equal. f_equal.
    rewrite Z.add_mod_idemp_l by lia. f_equal. lia.
  - rewrite !lookup_ge_None_2; [done|rewrite length_contents by done; unfold q'; cbn; lia..].
Qed.

(** The reader may take events out while the region is being written. *)
Lemma dequeue_free first len q : queue_wf q -> free_region first len q -> free_region first len (dequeue q).2.
Proof.
  intros [? ? ? ?] (H1 & H2 & H3 & H4). unfold dequeue. destruct (Z.eqb_spec (mSize q) 0); [done|].
  rewrite rem_mod by lia. unfold free_region. cbn. split_and!; try lia.
  rewrite Z.add_mod_idemp_l by lia. rewrite H2. f_equal. lia.
Qed.

Lemma must_wait_full q : must_wait q = true <-> mSize q = mCapacity q.
Proof. apply Z.eqb_eq. Qed.

(** C22: the circular array is a bounded first-in first-out queue. While there is room,
    [getWritableRegion] hands out at least one and at most the requested number of slots,
    none of which can be read; storing events there is invisible to readers; marking [k]
    of them as written appends exactly those to the queue, also when the reader takes
    events out in between; [peek] sees the oldest event and [dequeue] removes it, waking
    the writer exactly when the queue was full. *)
Theorem sensor_queue_fifo q (n : Z) (ws : list E) (k : nat)
  (Hq : queue_wf q) (Hn : 0 < n < 2 ^ 30) (Hroom : mSize q < mCapacity q)
  (Hws : zlen ws <= (getWritableRegion n q).1) (Hk : (k <= length ws)%nat) :
  exists first len, getWritableRegion n q = (len, Some first) /\ 1 <= len <= n /\
    contents (write_region first ws q) = contents q /\
    contents (markAsWritten (Z.of_nat k) (write_region first ws q)) = contents q ++ take k ws /\
    contents (markAsWritten (Z.of_nat k) (dequeue (write_region first ws q)).2) = tail (contents q) ++ take k ws /\
    peek q = match contents q with [] => None | e :: _ => Some (Some e) end /\
    contents (dequeue q).2 = tail (contents q) /\
    ((dequeue q).1 = true <-> length (contents q) = Z.to_nat (mCapacity q)).
Proof.
  destruct (getWritableRegion_free n q Hq Hn Hroom) as (first & len & E1 & Hf & Hl). rewrite E1 in Hws. cbn in Hws.
  destruct (write_region_contents first len ws q Hq Hf Hws) as [Hw Hc].
  assert (free_region first len (write_region first ws q)) as Hf' by exact Hf.
  assert (zlen (take k ws) = Z.of_nat k) as Hz by (unfold zlen; rewrite length_take; lia).
  assert (zlen (take k ws) <= len) as Hkl by (unfold zlen in *; rewrite length_take; lia).
  assert (0 <= first) as Hp by (destruct Hf as (_ & -> & _), Hq; apply Z.mod_pos_bound; lia).
  assert (forall i, (i < length (take k ws))%nat -> mData (write_region first ws q) !! (Z.to_nat first + i)%nat = take k ws !! i) as Hi.
  { intros i Hi. rewrite length_take in Hi. rewrite lookup_take_lt by lia. apply inserts_lookup; [done..| |lia].
    destruct Hf as (_ & _ & ? & _). lia. }
  exists first, len.
  pose proof (dequeue_contents (write_region first ws q) Hw) as Hd. pose proof (dequeue_free first len _ Hw Hf') as Hdf.
  destruct (dequeue (write_region first ws q)) as [b q2] eqn:E2. destruct Hd as (Hd1 & Hd2 & _ & Hd4 & Hd5). cbn [snd] in *.
  split_and!; try done; try lia.
  - rewrite <- Hz. destruct (mark_contents first len (take k ws) _ Hw Hf' Hkl Hi) as [_ ->]. by rewrite Hc.
  - rewrite <- Hz. destruct (mark_contents first len (take k ws) q2 Hd1 Hdf Hkl) as [_ ->]; [by rewrite Hd5|]. by rewrite Hd2, Hc.
  - by apply peek_contents.
  - pose proof (dequeue_contents q Hq) as H. destruct (dequeue q). by destruct H as (_ & ? & _).
  - pose proof (dequeue_contents q Hq) as H. destruct (dequeue q). destruct H as (_ & _ & -> & _). rewrite length_contents by done.
    destruct Hq. cbn. rewrite andb_true_iff, negb_true_iff, Z.eqb_eq, Z.eqb_neq. lia.
Qed.
End Operations.

Lemma sensor_queue_fifo_witness :
  exists first len, getWritableRegion 36 (mkQueue 4 3 2 [10; 11; 12; 13]) = (len, Some first) /\
    contents (markAsWritten 2 (write_region first [7; 8] (mkQueue 4 3 2 [10; 11; 12; 13]))) = [13; 10; 7; 8].
Proof.
  destruct (sensor_queue_fifo (mkQueue 4 3 2 [10; 11; 12; 13]) 36 [7; 8] 2) as (first & len & H1 & _ & _ & H2 & _).
  - split; done.
  - done.
  - done.
  - vm_compute. discriminate.
  - cbn. lia.
  - by exists first, len.
Defined.
