(* ===== verification/Sensors.v ===== *)
(** The sensors HAL (src/hal/sensors/multihal.cpp), which makes one device out of the
    sub-HALs named in a configuration file: loading them, numbering their sensors
    globally, passing requests on to the sub-HAL a sensor belongs to, and merging
    their event queues. The sub-HALs are shared libraries that are not part of the
    sources: what [dlopen] finds is given by the state, and the results of calls to
    their devices are a parameter. *)

From stdpp Require Import base list gmap strings numbers.
From Stdlib Require Import ZArith Lia.
From S2P Require Import Prelude SensorQueue.

Local Open Scope Z_scope.
Local Open Scope st_scope.
Local Open Scope rec_scope.

(** * Data *)

(** A sensor_t of hardware/sensors.h; delays are in the members' units. *)
Record sensor_t := mkSensor {
  handle : Z;
  type : Z;
  flags : Z;
  minDelay : Z;
  maxDelay : Z;
}.
#[export] Instance eta_sensor_t : Eta sensor_t := fun s =>
  mkSensor (handle s) (type s) (flags s) (minDelay s) (maxDelay s).

(** A sensors_event_t: [ev_data] are the words of its union; in a meta-data event the
    second one is the sensor. *)
Record sensors_event_t := mkEvent {
  ev_sensor : Z;
  ev_type : Z;
  ev_data : list Z;
}.
#[export] Instance eta_sensors_event_t : Eta sensors_event_t := fun e => mkEvent (ev_sensor e) (ev_type e) (ev_data e).

(** A device a sub-HAL opened, and a sub-HAL: its address, its sensors, and the device
    its [open] gives ([None] when it fails). *)
Record hw_device := mkDevice { dev_id : Z; dev_version : Z }.
Record hw_module := mkModule { md_ptr : Z; md_sensors : list sensor_t; md_open : option hw_device }.

Definition SENSOR_TYPE_META_DATA := 0.
Definition SENSOR_TYPE_LIGHT := 5.
Definition SENSOR_TYPE_PROXIMITY := 8.
Definition SENSOR_TYPE_TILT_DETECTOR := 22.
Definition SENSOR_FLAG_WAKE_UP := 1.
Definition SENSOR_FLAG_ON_CHANGE_MODE := 2.
Definition API_VERSION (major minor : Z) : Z := Z.lor (Z.shiftl major 24) (Z.lor (Z.shiftl minor 16) 1).
Definition SENSORS_DEVICE_API_VERSION_1_0 := API_VERSION 1 0.
Definition SENSORS_DEVICE_API_VERSION_1_1 := API_VERSION 1 1.
Definition SENSORS_DEVICE_API_VERSION_1_4 := API_VERSION 1 4.
Definition EINVAL := 22.

(** A request passed on to a device of a sub-HAL. *)
Inductive sub_call :=
  | SubActivate (local enabled : Z)
  | SubSetDelay (local ns : Z)
  | SubBatch (local fl period_ns timeout : Z)
  | SubFlush (local : Z)
  | SubInject (ev : sensors_event_t)
  | SubClose.

Inductive effect := Call (d : hw_device) (c : sub_call) | StartWriter (d : hw_device).

(** multihal.cpp:69-86 [FullHandle] module index and local handle. *)
Definition FullHandle : Type := Z * Z.

(** multihal.cpp:55-62 [sub_hw_modules ..] the global variables, with the files, what
    [dlopen] and [dlsym] find at a path, and the calls made so far. *)
Record MultiHal := mkMH {
  sub_hw_modules : option (list hw_module);
  sub_hw_versions : option (gmap Z Z);
  global_to_full : gmap Z FullHandle;
  full_to_global : gmap FullHandle Z;
  next_global_handle : Z;
  global_sensors_list : option (list sensor_t);
  global_sensors_count : Z;
  mh_files : gmap string (list Z);
  mh_libs : gmap (list Z) hw_module;
  mh_trace : list effect;
}.
#[export] Instance eta_MultiHal : Eta MultiHal := fun m =>
  mkMH (sub_hw_modules m) (sub_hw_versions m) (global_to_full m) (full_to_global m) (next_global_handle m)
    (global_sensors_list m) (global_sensors_count m) (mh_files m) (mh_libs m) (mh_trace m).

(** multihal.cpp:88-90 [global_to_full ..] the initial values. *)
Definition multihal0 (files : gmap string (list Z)) (libs : gmap (list Z) hw_module) : MultiHal :=
  mkMH None None ∅ ∅ 1 None (-1) files libs [].

(** multihal.cpp:192-219 [sensors_poll_context_t] the device the framework uses. *)
Record Context_ := mkCtx {
  sub_hw_devices : list hw_device;
  queues : list (SensorEventQueue sensors_event_t);
  nextReadIndex : Z;
}.
#[export] Instance eta_Context : Eta Context_ := fun c => mkCtx (sub_hw_devices c) (queues c) (nextReadIndex c).

Definition MH (A : Type) : Type := ST MultiHal A.

Definition mh_emit (e : effect) : MH unit := modM (fun m => m <| mh_trace := mh_trace m ++ [e] |>).

(** * Handles *)

(** multihal.cpp:92-100 [assign_global_handle]. *)
Definition assign_global_handle (module_index local_handle : Z) : MH Z :=
  let* m := getM in
  let global_handle := next_global_handle m in
  let full_handle := (module_index, local_handle) in
  modM (fun m => m <| next_global_handle := i32 (next_global_handle m + 1) |>
                   <| full_to_global := <[full_handle := global_handle]> (full_to_global m) |>
                   <| global_to_full := <[global_handle := full_handle]> (global_to_full m) |>) ;;
  retM global_handle.

(** multihal.cpp:103-109 [get_local_handle]. *)
Definition get_local_handle (m : MultiHal) (global_handle : Z) : Z :=
  match global_to_full m !! global_handle with None => -1 | Some f => f.2 end.

(** multihal.cpp:113-122 [get_module_index]. *)
Definition get_module_index (m : MultiHal) (global_handle : Z) : Z :=
  match global_to_full m !! global_handle with None => -1 | Some f => f.1 end.

(** multihal.cpp:125-134 [get_global_handle]. *)
Definition get_global_handle (m : MultiHal) (full_handle : FullHandle) : Z :=
  default (-1) (full_to_global m !! full_handle).

(** multihal.cpp:136-136 [SENSOR_EVENT_QUEUE_CAPACITY]. *)
Definition SENSOR_EVENT_QUEUE_CAPACITY := 36.

(** * Routing *)

Section Devices.
(** The result of a call to a device of a sub-HAL. *)
Variable sub : hw_device -> sub_call -> Z.

Definition call (d : hw_device) (c : sub_call) : MH Z := mh_emit (Call d c) ;; retM (sub d c).

(** multihal.cpp:238-244 [sensors_poll_context_t::get_v0_device_by_handle]; lines
    247-253, get_v1_device_by_handle, differ in the type of the pointer only. *)
Definition get_device_by_handle (m : MultiHal) (ctx : Context_) (global_handle : Z) : option hw_device :=
  let sub_index := get_module_index m global_handle in
  if (sub_index <? 0) || (zlen (sub_hw_devices ctx) <=? sub_index) then None
  else sub_hw_devices ctx !! Z.to_nat sub_index.

(** multihal.cpp:256-263 [sensors_poll_context_t::get_device_version_by_handle]. *)
Definition get_device_version_by_handle (m : MultiHal) (ctx : Context_) (h : Z) : Z :=
  match get_device_by_handle m ctx h with Some d => dev_version d | None => -1 end.

(** multihal.cpp:265-268 [halIsAPILevelCompliant]. *)
Definition halIsAPILevelCompliant (m : MultiHal) (ctx : Context_) (h level : Z) : bool :=
  let version := get_device_version_by_handle m ctx h in
  negb (version =? -1) && (level <=? version).

(** The device and the local handle of a sensor, when both are valid. *)
Definition resolve (m : MultiHal) (ctx : Context_) (h : Z) : option (hw_device * Z) :=
  let local_handle := get_local_handle m h in
  match get_device_by_handle m ctx h with
  | Some d => if 0 <=? local_handle then Some (d, local_handle) else None
  | None => None
  end.

(** multihal.cpp:287-300 [sensors_poll_context_t::activate]. *)
Definition activate (ctx : Context_) (h enabled : Z) : MH Z :=
  let* m := getM in
  match resolve m ctx h with
  | Some (v0, local_handle) => call v0 (SubActivate local_handle enabled)
  | None => retM (- EINVAL)
  end.

(** multihal.cpp:302-314 [sensors_poll_context_t::setDelay]. *)
Definition setDelay (ctx : Context_) (h ns : Z) : MH Z :=
  let* m := getM in
  match resolve m ctx h with
  | Some (v0, local_handle) => call v0 (SubSetDelay local_handle ns)
  | None => retM (- EINVAL)
  end.

(** multihal.cpp:380-421 [sensors_poll_context_t::batch] on a device older than 1.1 the
    period is clamped with the entry of the sensor list at the module's index. *)
Definition batch (ctx : Context_) (h fl period_ns timeout : Z) : MH Z :=
  let* m := getM in
  match resolve m ctx h with
  | Some (v1, local_handle) =>
      if halIsAPILevelCompliant m ctx h SENSORS_DEVICE_API_VERSION_1_1 then
        call v1 (SubBatch local_handle fl period_ns timeout)
      else if (period_ns <? 0) || (timeout <? 0) then retM (- EINVAL)
      else
        let* l := of_option (global_sensors_list m) in
        let* s := of_option (l !! Z.to_nat (get_module_index m h)) in
        let period_ns := if period_ns <? minDelay s then minDelay s
                         else if maxDelay s <? period_ns then maxDelay s else period_ns in
        call v1 (SubSetDelay h period_ns)
  | None => retM (- EINVAL)
  end.

(** multihal.cpp:423-442 [sensors_poll_context_t::flush]. *)
Definition flush (ctx : Context_) (h : Z) : MH Z :=
  let* m := getM in
  match resolve m ctx h with
  | Some (v1, local_handle) =>
      if halIsAPILevelCompliant m ctx h SENSORS_DEVICE_API_VERSION_1_1 then call v1 (SubFlush local_handle)
      else retM (- EINVAL)
  | None => retM (- EINVAL)
  end.

(** multihal.cpp:444-461 [sensors_poll_context_t::inject_sensor_data] the event goes on
    with the global handle. *)
Definition inject_sensor_data (ctx : Context_) (data : sensors_event_t) : MH Z :=
  let* m := getM in
  if halIsAPILevelCompliant m ctx (ev_sensor data) SENSORS_DEVICE_API_VERSION_1_4 then
    match resolve m ctx (ev_sensor data) with
    | Some (v1, _) => call v1 (SubInject data)
    | None => retM (- EINVAL)
    end
  else retM (- EINVAL).

Fixpoint close_all (ds : list hw_device) : MH unit :=
  match ds with
  | [] => retM tt
  | d :: ds' => call d SubClose ;; close_all ds'
  end.

(** multihal.cpp:463-472 [sensors_poll_context_t::close]. *)
Definition close (ctx : Context_) : MH Z := close_all (sub_hw_devices ctx) ;; retM 0.

(** multihal.cpp:502-509 [device__batch] only sets the period, and succeeds. *)
Definition device__batch (ctx : Context_) (h fl period_ns timeout : Z) : MH Z :=
  setDelay ctx h period_ns ;; retM 0.
End Devices.

(** * Events *)

(** multihal.cpp:316-336 [sensors_poll_context_t::copy_event_remap_handle]. *)
Definition copy_event_remap_handle (m : MultiHal) (src : sensors_event_t) (sub_index : Z) : sensors_event_t :=
  if ev_type src =? SENSOR_TYPE_META_DATA then
    src <| ev_data := <[1%nat := get_global_handle m (sub_index, at_ (ev_data src) 1)]> (ev_data src) |>
  else src <| ev_sensor := get_global_handle m (sub_index, ev_sensor src) |>.

(** What a scan of the queues leaves: the queues, the next queue to read, the number of
    events read and the caller's array; [sc_wake] are the queues whose condition was
    broadcast. *)
Record Scan := mkScan {
  sc_ctx : Context_;
  sc_empties : Z;
  sc_read : Z;
  sc_data : list sensors_event_t;
  sc_wake : list nat;
}.

(** multihal.cpp:347-364 [sensors_poll_context_t::poll, inner loop] one round. *)
Definition scan_round (m : MultiHal) (queueCount : Z) (s : Scan) : option Scan :=
  let ctx := sc_ctx s in
  if nextReadIndex ctx <? 0 then None
  else
    let n := Z.to_nat (nextReadIndex ctx) in
    queue ← queues ctx !! n;
    let next := Z.rem (nextReadIndex ctx + 1) queueCount in
    match peek queue with
    | None => Some (mkScan (ctx <| nextReadIndex := next |>) (sc_empties s + 1) (sc_read s) (sc_data s) (sc_wake s))
    | Some event =>
        event ← event;
        let copy := copy_event_remap_handle m event (nextReadIndex ctx) in
        _ ← sc_data s !! Z.to_nat (sc_read s);
        let data := <[Z.to_nat (sc_read s) := copy]> (sc_data s) in
        let read := if ev_sensor copy =? -1 then sc_read s else sc_read s + 1 in
        let '(broadcast, queue') := dequeue queue in
        Some (mkScan (mkCtx (sub_hw_devices ctx) (<[n := queue']> (queues ctx)) next) 0 read data
                (if broadcast then sc_wake s ++ [n] else sc_wake s))
    end.

(** multihal.cpp:347-364 [sensors_poll_context_t::poll, inner loop]. *)
Fixpoint scan (fuel : nat) (m : MultiHal) (queueCount maxReads : Z) (s : Scan) : option Scan :=
  if (sc_empties s <? queueCount) && (sc_read s <? maxReads) then
    match fuel with
    | O => None
    | S fuel' => s' ← scan_round m queueCount s; scan fuel' m queueCount maxReads s'
    end
  else Some s.

(** The events in the queues; a round takes one out, or finds one queue more empty. *)
Definition pending (ctx : Context_) : nat := sum_list_with (fun q => Z.to_nat (mSize q)) (queues ctx).
Definition scan_fuel (ctx : Context_) : nat := S (pending ctx) * S (length (queues ctx)).

(** multihal.cpp:338-378 [sensors_poll_context_t::poll] from taking the lock to
    returning, or to waiting for data with nothing read. *)
Definition poll_scan (m : MultiHal) (maxReads : Z) (data : list sensors_event_t) (ctx : Context_) : option Scan :=
  scan (scan_fuel ctx) m (zlen (queues ctx)) maxReads (mkScan ctx 0 0 data []).

(** * Loading *)

(** multihal.h:22-25 [MULTI_HAL_CONFIG_FILE_PATH ..]. *)
Definition config_path_list : list string := ["/vendor/etc/sensors/_hals.conf"; "/system/etc/sensors/_hals.conf"].

(** [std::getline] until it fails: the lines, the last one without a newline too
    unless it is empty. *)
Fixpoint getlines (line : list Z) (bytes : list Z) : list (list Z) :=
  match bytes with
  | [] => match line with [] => [] | _ => [line] end
  | b :: bytes' => if b =? 10 then line :: getlines [] bytes' else getlines (line ++ [b]) bytes'
  end.

Fixpoint first_file (files : gmap string (list Z)) (paths : list string) : option (list Z) :=
  match paths with
  | [] => None
  | p :: paths' => match files !! p with Some f => Some f | None => first_file files paths' end
  end.

(** multihal.cpp:538-568 [get_so_paths]. *)
Definition get_so_paths (files : gmap string (list Z)) : list (list Z) :=
  match first_file files config_path_list with
  | None => []
  | Some f => getlines [] f
  end.

(** multihal.cpp:574-612 [lazy_init_modules] libraries that cannot be loaded, or have no
    module, are left out. *)
Definition lazy_init_modules : MH unit :=
  let* m := getM in
  match sub_hw_modules m with
  | Some _ => retM tt
  | None => modM (fun m => m <| sub_hw_modules := Some (omap (fun p => mh_libs m !! cstr p) (get_so_paths (mh_files m))) |>)
  end.

(** multihal.cpp:618-635 [fix_sensor_flags]. *)
Definition fix_sensor_flags (version : Z) (s : sensor_t) : sensor_t :=
  if version <=? SENSORS_DEVICE_API_VERSION_1_0 then
    let s := if (type s =? SENSOR_TYPE_PROXIMITY) || (type s =? SENSOR_TYPE_TILT_DETECTOR)
             then s <| flags := Z.lor SENSOR_FLAG_WAKE_UP SENSOR_FLAG_ON_CHANGE_MODE |> else s in
    if type s =? SENSOR_TYPE_LIGHT then s <| flags := SENSOR_FLAG_ON_CHANGE_MODE |> else s
  else s.

(** multihal.cpp:677-698 [lazy_init_sensors_list, sensors of a module] the version of a
    module that was not opened makes [at] throw, which nothing catches. *)
Fixpoint add_sensors (module_index : Z) (ptr : Z) (ss : list sensor_t) (acc : list sensor_t) : MH (list sensor_t) :=
  match ss with
  | [] => retM acc
  | s :: ss' =>
      let* global_handle := assign_global_handle module_index (handle s) in
      let* m := getM in
      let* versions := of_option (sub_hw_versions m) in
      let* version := of_option (versions !! ptr) in
      add_sensors module_index ptr ss' (acc ++ [fix_sensor_flags version (s <| handle := global_handle |>)])
  end.

(** multihal.cpp:667-700 [lazy_init_sensors_list, modules]. *)
Fixpoint add_modules (module_index : Z) (mods : list hw_module) (acc : list sensor_t) : MH (list sensor_t) :=
  match mods with
  | [] => retM acc
  | md :: mods' =>
      let* acc := add_sensors module_index (md_ptr md) (md_sensors md) acc in
      add_modules (module_index + 1) mods' acc
  end.

(** multihal.cpp:640-711 [lazy_init_sensors_list]. *)
Definition lazy_init_sensors_list : MH unit :=
  let* m := getM in
  match global_sensors_list m with
  | Some _ => retM tt
  | None =>
      lazy_init_modules ;;
      let* m := getM in
      let* mods := of_option (sub_hw_modules m) in
      modM (fun m => m <| global_sensors_count := Z.of_nat (sum_list_with (fun md => length (md_sensors md)) mods) |>) ;;
      let* l := add_modules 0 mods [] in
      modM (fun m => m <| global_sensors_list := Some l |> <| sub_hw_versions := None |>)
  end.

(** multihal.cpp:713-723 [module__get_sensors_list]. *)
Definition module__get_sensors_list : MH (Z * list sensor_t) :=
  lazy_init_sensors_list ;;
  let* m := getM in
  let* l := of_option (global_sensors_list m) in
  retM (global_sensors_count m, l).

(** multihal.cpp:221-235 [sensors_poll_context_t::addSubHwDevice] [memory] is what the
    arrays of the queues hold when they are allocated. *)
Definition addSubHwDevice (memory : nat -> list sensors_event_t) (d : hw_device) (ctx : Context_) : MH Context_ :=
  mh_emit (StartWriter d) ;;
  retM (ctx <| sub_hw_devices := sub_hw_devices ctx ++ [d] |>
            <| queues := queues ctx ++ [new_queue SENSOR_EVENT_QUEUE_CAPACITY (memory (length (queues ctx)))] |>).

(** multihal.cpp:769-784 [open_sensors, sub-HALs] a module that fails to open is
    skipped. *)
Fixpoint open_modules (memory : nat -> list sensors_event_t) (mods : list hw_module) (ctx : Context_) : MH Context_ :=
  match mods with
  | [] => retM ctx
  | md :: mods' =>
      match md_open md with
      | None => open_modules memory mods' ctx
      | Some d =>
          let* ctx := addSubHwDevice memory d ctx in
          modM (fun m => m <| sub_hw_versions :=
            match sub_hw_versions m with
            | Some v => Some (match v !! md_ptr md with Some _ => v | None => <[md_ptr md := dev_version d]> v end)
            | None => None
            end |>) ;;
          open_modules memory mods' ctx
      end
  end.

(** multihal.cpp:748-789 [open_sensors]. *)
Definition open_sensors (memory : nat -> list sensors_event_t) : MH Context_ :=
  lazy_init_modules ;;
  let* m := getM in
  let* mods := of_option (sub_hw_modules m) in
  modM (fun m => m <| sub_hw_versions := Some ∅ |>) ;;
  open_modules memory mods (mkCtx [] [] 0).
