(* ===== verification/SensorsProps.v ===== *)
(** The sensors HAL (src/hal/sensors/multihal.cpp) function by function: what a scan of
    the event queues takes out and hands to the framework, the numbering of the
    sensors, and the routing of requests to the sub-HALs. *)

From stdpp Require Import base list gmap strings numbers.
From Stdlib Require Import ZArith Lia.
From S2P Require Import Prelude SensorQueue Sensors.

Local Open Scope Z_scope.
Local Open Scope st_scope.
Local Open Scope rec_scope.

(** * Scanning the queues *)

(** An event taken out of a queue, with the queue's number. *)
Definition taken : Type := nat * sensors_event_t.

(** The events taken out of one queue, in order. *)
Definition taken_from (i : nat) (h : list taken) : list sensors_event_t := snd <$> filter (fun t => t.1 = i) h.

(** What the framework gets for events taken out: the remapped events, without those that name
    sensor -1. Those are the events of unknown sensors, except for meta-data events: these name the
    unknown sensor in their data, and are delivered with -1 there. *)
Definition delivered (m : MultiHal) (h : list taken) : list sensors_event_t :=
  filter (fun e => ev_sensor e <> -1) ((fun t : taken => copy_event_remap_handle m t.2 (Z.of_nat t.1)) <$> h).

Lemma taken_from_app i h k : taken_from i (h ++ k) = taken_from i h ++ taken_from i k.
Proof. unfold taken_from. by rewrite list.filter_app, fmap_app. Qed.

Lemma delivered_app m h k : delivered m (h ++ k) = delivered m h ++ delivered m k.
Proof. unfold delivered. by rewrite fmap_app, list.filter_app. Qed.

(** A context whose queues are sound. *)
Record ctx_ok (ctx : Context_) : Prop := {
  co_queues : Forall queue_wf (queues ctx);
  co_next : queues ctx = [] \/ 0 <= nextReadIndex ctx < zlen (queues ctx);
}.

(** How often a queue has been visited when every queue was visited [k] times, and those
    from the first one up to [next] once more. *)
Definition visits (k first next n i : Z) : Z := k + (if (i - first) mod n <? (next - first) mod n then 1 else 0).

(** The state of a scan that has taken out [h]. *)
Record scan_inv (m : MultiHal) (ctx : Context_) (maxReads : Z) (data : list sensors_event_t) (h : list taken) (s : Scan) : Prop := {
  si_ok : ctx_ok (sc_ctx s);
  si_len : length (queues (sc_ctx s)) = length (queues ctx);
  si_devs : sub_hw_devices (sc_ctx s) = sub_hw_devices ctx;
  si_cont : forall i q q', queues ctx !! i = Some q -> queues (sc_ctx s) !! i = Some q' ->
    contents q = taken_from i h ++ contents q' /\ mCapacity q' = mCapacity q /\ mData q' = mData q /\
    (forall f l, free_region f l q -> free_region f l q');
  si_data : length (sc_data s) = length data /\ sc_read s = zlen (delivered m h) /\
    take (Z.to_nat (sc_read s)) (sc_data s) = delivered m h;
  si_read : 0 <= sc_read s <= Z.max 0 maxReads;
  si_empties : 0 <= sc_empties s <= zlen (queues ctx) /\ forall k, (Z.of_nat k < sc_empties s) ->
    forall q, queues (sc_ctx s) !! Z.to_nat ((nextReadIndex (sc_ctx s) - 1 - Z.of_nat k) mod zlen (queues ctx)) = Some q ->
    contents q = [];
  si_wake : forall i q q', queues ctx !! i = Some q -> queues (sc_ctx s) !! i = Some q' ->
    i ∈ sc_wake s \/ mSize q <> mCapacity q \/ contents q' = contents q;
  si_fair : exists k, forall i q', queues (sc_ctx s) !! i = Some q' ->
    let v := visits k (nextReadIndex ctx) (nextReadIndex (sc_ctx s)) (zlen (queues ctx)) (Z.of_nat i) in
    zlen (taken_from i h) <= v /\ (contents q' <> [] -> zlen (taken_from i h) = v);
}.

(** Rounds left: an event to take out, or a queue to find empty. *)
Definition scan_measure (s : Scan) : Z :=
  Z.of_nat (pending (sc_ctx s)) * (zlen (queues (sc_ctx s)) + 1) + (zlen (queues (sc_ctx s)) - sc_empties s).

Lemma pending_insert ctx i q q' : queues ctx !! i = Some q ->
  (sum_list_with (fun q => Z.to_nat (mSize q)) (<[i := q']> (queues ctx)) + Z.to_nat (mSize q) =
   pending ctx + Z.to_nat (mSize q'))%nat.
Proof.
  unfold pending. generalize (queues ctx). intros l. revert i.
  induction l as [|x l IH]; intros [|i] H; csimpl in *; try done.
  - injection H as ->. lia.
  - specialize (IH i H). lia.
Qed.

Lemma next_index a n : 0 <= a < n -> Z.rem (a + 1) n = (a + 1) mod n /\ 0 <= (a + 1) mod n < n.
Proof. intros H. split; [apply rem_mod; lia|apply Z.mod_pos_bound; lia]. Qed.

Lemma prev_index a n : 0 <= a < n -> ((a + 1) mod n - 1) mod n = a.
Proof. intros H. rewrite Zminus_mod_idemp_l. replace (a + 1 - 1) with a by lia. apply Z.mod_small. lia. Qed.

Lemma visits_next k first next n i : 0 <= next < n -> 0 <= i < n ->
  exists k', (forall i, 0 <= i < n -> visits k' first ((next + 1) mod n) n i = visits k first next n i + (if i =? next then 1 else 0)).
Proof.
  intros Hn Hi. set (e := (next - first) mod n). assert (0 <= e < n) as He by (apply Z.mod_pos_bound; lia).
  assert (((next + 1) mod n - first) mod n = (e + 1) mod n) as Hnext.
  { unfold e. rewrite Zminus_mod_idemp_l, Z.add_mod_idemp_l by lia. f_equal. lia. }
  assert (forall j, 0 <= j < n -> (j - first) mod n = e -> j = next) as Hinj.
  { intros j Hj E. assert ((j - next) mod n = 0) as E2.
    { replace (j - next) with (j - first - (next - first)) by lia. rewrite Zminus_mod, E. unfold e. rewrite Z.sub_diag. apply Z.mod_0_l. lia. }
    apply Z.mod_divide in E2 as [c Hc]; [|lia]. assert (c = 0) by nia. lia. }
  exists (if e + 1 <? n then k else k + 1). intros j Hj. unfold visits. rewrite Hnext. fold e.
  pose proof (Z.mod_pos_bound (j - first) n ltac:(lia)) as Hjr. specialize (Hinj j Hj).
  assert (j = next -> (j - first) mod n = e) as Hj2 by (by intros ->).
  generalize dependent ((j - first) mod n). intros d Hd ? ?.
  destruct (Z.ltb_spec (e + 1) n).
  - rewrite (Z.mod_small (e + 1)) by lia. zb; lia.
  - assert (e + 1 = n) as -> by lia. rewrite Z.mod_same by lia. zb; lia.
Qed.

Section Round.
Context (m : MultiHal) (ctx : Context_) (maxReads : Z) (data : list sensors_event_t).
Local Abbreviation n := (zlen (queues ctx)).
Hypothesis Hroom : maxReads <= zlen data.
Hypothesis Hctx : ctx_ok ctx.

Lemma round_index s h : scan_inv m ctx maxReads data h s -> sc_empties s < n ->
  0 <= nextReadIndex (sc_ctx s) < n /\ zlen (queues (sc_ctx s)) = n /\
  exists q, queues (sc_ctx s) !! Z.to_nat (nextReadIndex (sc_ctx s)) = Some q /\ queue_wf q.
Proof.
  intros [[Hq Hn] Hl _ _ _ _ [He _] _ _] Hlt. unfold zlen in *. destruct Hn as [Hn|Hn]; [rewrite Hn in Hl; cbn in Hl; lia|].
  rewrite Hl in *. split_and!; [lia..|].
  destruct (lookup_lt_is_Some_2 (queues (sc_ctx s)) (Z.to_nat (nextReadIndex (sc_ctx s)))) as [q E]; [lia|].
  exists q. split; [done|]. by eapply Forall_lookup_1.
Qed.

(** A round that finds the queue empty. *)
Lemma round_empty s h q : scan_inv m ctx maxReads data h s -> sc_empties s < n ->
  queues (sc_ctx s) !! Z.to_nat (nextReadIndex (sc_ctx s)) = Some q -> contents q = [] ->
  exists s', scan_round m n s = Some s' /\ scan_inv m ctx maxReads data h s' /\ scan_measure s' < scan_measure s.
Proof.
  intros Hs Hlt Eq Hc. destruct (round_index s h Hs Hlt) as (Hi & Hz & q2 & Eq2 & Hwf). simplify_eq.
  destruct Hs as [[Ho1 Ho2] Hl Hdv Hco Hda Hre [He1 He2] Hwa [k Hfa]].
  unfold scan_round. rewrite (proj2 (Z.ltb_ge _ _)) by lia. rewrite Eq. cbn [mbind option_bind].
  rewrite peek_contents, Hc by done. destruct (next_index _ _ Hi) as [-> Hnx].
  eexists. split; [reflexivity|]. split; [|unfold scan_measure, pending; cbn; lia].
  split; cbn; try done.
  - split; [done|]. right. cbn. lia.
  - split; [lia|]. intros [|j] Hj q' E.
    + replace (((nextReadIndex (sc_ctx s) + 1) mod n - 1 - Z.of_nat 0)) with ((nextReadIndex (sc_ctx s) + 1) mod n - 1) in E by lia.
      rewrite prev_index in E by done. by simplify_eq.
    + apply (He2 j); [lia|]. rewrite <- E. f_equal. f_equal.
      rewrite <- (Zminus_mod_idemp_l _ (Z.of_nat (S j))), prev_index by done. f_equal. lia.
  - destruct (visits_next k (nextReadIndex ctx) _ n 0 Hi ltac:(lia)) as [k' Hk']. exists k'. intros i q' E.
    assert (0 <= Z.of_nat i < n) as Hin.
    { apply lookup_lt_Some in E. unfold zlen in *. lia. }
    rewrite Hk' by done. destruct (Hfa i q' E) as [Hf1 Hf2].
    destruct (Z.eqb_spec (Z.of_nat i) (nextReadIndex (sc_ctx s))) as [Ei|Ei].
    + rewrite <- Ei, Nat2Z.id in Eq. simplify_eq. split; [lia|done].
    + rewrite Z.add_0_r. done.
Qed.

Lemma taken_from_snoc i j e (h : list taken) :
  taken_from i (h ++ [(j, e)]) = if decide (j = i) then taken_from i h ++ [e] else taken_from i h.
Proof.
  rewrite taken_from_app. unfold taken_from at 2. rewrite list.filter_cons. cbn.
  by destruct (decide (j = i)); rewrite ?app_nil_r.
Qed.

Lemma delivered_snoc j e h : delivered m (h ++ [(j, e)]) =
  let copy := copy_event_remap_handle m e (Z.of_nat j) in
  if ev_sensor copy =? -1 then delivered m h else delivered m h ++ [copy].
Proof.
  rewrite delivered_app. unfold delivered at 2. cbn [fmap list_fmap fst snd]. rewrite list.filter_cons. cbv zeta.
  destruct (Z.eqb_spec (ev_sensor (copy_event_remap_handle m e (Z.of_nat j))) (-1)) as [E|E].
  - rewrite decide_False by (intros H; by apply H). by rewrite app_nil_r.
  - by rewrite decide_True.
Qed.

(** A round that takes an event out. *)
Lemma round_event s h q e rest : scan_inv m ctx maxReads data h s -> sc_empties s < n -> sc_read s < maxReads ->
  queues (sc_ctx s) !! Z.to_nat (nextReadIndex (sc_ctx s)) = Some q -> contents q = e :: rest ->
  exists s', scan_round m n s = Some s' /\ scan_measure s' < scan_measure s /\
    scan_inv m ctx maxReads data (h ++ [(Z.to_nat (nextReadIndex (sc_ctx s)), e)]) s'.
Proof.
  intros Hs Hlt Hrd Eq Hc. destruct (round_index s h Hs Hlt) as (Hi & Hz & q2 & Eq2 & Hwf). simplify_eq.
  destruct Hs as [[Ho1 Ho2] Hl Hdv Hco [Hda1 [Hda2 Hda3]] Hre [He1 He2] Hwa [k Hfa]].
  set (j := Z.to_nat (nextReadIndex (sc_ctx s))) in *. assert (Z.of_nat j = nextReadIndex (sc_ctx s)) as Hj by lia.
  pose proof (length_contents q Hwf) as Hlc. rewrite Hc in Hlc. cbn in Hlc.
  pose proof (dequeue_contents q Hwf) as Hdq.
  unfold scan_round. rewrite (proj2 (Z.ltb_ge _ _)) by lia. fold j. rewrite Eq. cbn [mbind option_bind].
  rewrite peek_contents, Hc by done. destruct (next_index _ _ Hi) as [-> Hnx]. cbn [mbind option_bind].
  destruct (lookup_lt_is_Some_2 (sc_data s) (Z.to_nat (sc_read s))) as [old Eold]; [unfold zlen in *; lia|].
  rewrite Eold. cbn [mbind option_bind].
  destruct (dequeue q) as [b q'] eqn:Edq. destruct Hdq as (Hq1 & Hq2 & Hq3 & Hq4 & Hq5).
  assert (forall f l, free_region f l q -> free_region f l q') as Hdf.
  { intros f l H. apply dequeue_free in H; [|done]. by rewrite Edq in H. }
  assert (mSize q' = mSize q - 1) as Hsz.
  { unfold dequeue in Edq. rewrite (proj2 (Z.eqb_neq _ _)) in Edq by lia. by injection Edq as <- <-. }
  eexists. split; [reflexivity|]. split.
  { unfold scan_measure, pending. cbn. pose proof (pending_insert (sc_ctx s) j q q' Eq) as Hp. unfold pending in Hp.
    unfold zlen at 1 2. rewrite length_insert. fold (zlen (queues (sc_ctx s))). rewrite Hz. nia. }
  assert (forall i x, <[j:=q']> (queues (sc_ctx s)) !! i = Some x ->
    (i = j /\ x = q') \/ (i <> j /\ queues (sc_ctx s) !! i = Some x)) as Hlk.
  { intros i x H. apply list_lookup_insert_Some in H as [(-> & <- & _)|[? ?]]; [by left|by right]. }
  split; cbn.
  - split; cbn; [by apply Forall_insert|right; unfold zlen in *; rewrite length_insert; lia].
  - by rewrite length_insert.
  - done.
  - intros i q0 x E0 [[-> ->]|[Hne E]]%Hlk; rewrite taken_from_snoc.
    + rewrite decide_True by done. destruct (Hco j q0 q E0 Eq) as (H1 & H2 & H3 & H4).
      rewrite H1, Hq2, Hc, Hq4, Hq5. cbn. rewrite <- app_assoc. split_and!; auto.
    + rewrite decide_False by done. by apply Hco.
  - rewrite length_insert, delivered_snoc, Hj. cbv zeta. split; [done|].
    destruct (Z.eqb_spec (ev_sensor (copy_event_remap_handle m e (nextReadIndex (sc_ctx s)))) (-1)).
    + split; [done|]. by rewrite take_insert_ge.
    + rewrite zlen_app. split; [unfold zlen in *; cbn; lia|].
      replace (Z.to_nat (sc_read s + 1)) with (S (Z.to_nat (sc_read s))) by lia.
      rewrite (take_S_r _ _ (copy_event_remap_handle m e (nextReadIndex (sc_ctx s)))).
      * by rewrite take_insert_ge, Hda3.
      * apply list_lookup_insert_eq. by apply lookup_lt_Some in Eold.
  - zb; lia.
  - split; [lia|]. intros; lia.
  - intros i q0 x E0 [[-> ->]|[Hne E]]%Hlk.
    + destruct (Hwa j q0 q E0 Eq) as [Hw|[Hw|Hw]]; [|by auto|].
      * left. destruct b; [apply elem_of_app; by left|done].
      * destruct (decide (mSize q0 = mCapacity q0)) as [Hf|Hf]; [|by auto]. left.
        assert (mSize q = mCapacity q) as Hfull.
        { destruct (Hco j q0 q E0 Eq) as (_ & -> & _). rewrite <- Hf.
          pose proof (length_contents q Hwf) as L1. rewrite Hw in L1.
          assert (queue_wf q0) as Hq0 by (by eapply Forall_lookup_1; [apply (co_queues _ Hctx)|]).
          rewrite (length_contents q0 Hq0) in L1. destruct Hq0, Hwf. lia. }
        rewrite Hq3, (proj2 (Z.eqb_neq _ _)), (proj2 (Z.eqb_eq _ _) Hfull) by lia. cbn. apply elem_of_app. right. by constructor.
    + destruct (Hwa i q0 x E0 E) as [Hw|Hw]; [left|by auto]. destruct b; [apply elem_of_app; by left|done].
  - destruct (visits_next k (nextReadIndex ctx) _ n 0 Hi ltac:(lia)) as [k' Hk']. exists k'. intros i x H.
    assert (0 <= Z.of_nat i < n) as Hin.
    { apply lookup_lt_Some in H. rewrite length_insert in H. unfold zlen in *. lia. }
    rewrite Hk', taken_from_snoc by done. apply Hlk in H as [[-> ->]|[Hne E]].
    + rewrite Hj, Z.eqb_refl, decide_True, zlen_app by done. destruct (Hfa j q Eq) as [_ Hf]. rewrite Hj in Hf.
      rewrite Hf by (by rewrite Hc). done.
    + rewrite decide_False, (proj2 (Z.eqb_neq _ _)), Z.add_0_r by (done || lia). by apply Hfa.
Qed.

Lemma scan_start : scan_inv m ctx maxReads data [] (mkScan ctx 0 0 data []).
Proof.
  split; cbn; try done.
  - intros i q q' E1 E2. simplify_eq. done.
  - lia.
  - split; [unfold zlen; lia|]. intros; lia.
  - intros i q q' E1 E2. simplify_eq. by right; right.
  - exists 0. intros i q' E. unfold visits. rewrite Z.sub_diag, Z.mod_0_l by (apply lookup_lt_Some in E; unfold zlen; lia).
    assert (0 <= (Z.of_nat i - nextReadIndex ctx) mod n) by (apply Z.mod_pos_bound; apply lookup_lt_Some in E; unfold zlen; lia).
    zb; [lia|]. done.
Qed.

(** The scan returns: it has read as much as it may, or found every queue empty. *)
Lemma scan_returns fuel s h : scan_inv m ctx maxReads data h s -> scan_measure s <= Z.of_nat fuel ->
  exists s' k, scan fuel m n maxReads s = Some s' /\ scan_inv m ctx maxReads data (h ++ k) s' /\
    (n <= sc_empties s' \/ maxReads <= sc_read s').
Proof.
  revert s h. induction fuel as [|fuel IH]; intros s h Hs Hf; cbn [scan];
    destruct (Z.ltb_spec (sc_empties s) n) as [H1|H1]; cbn [andb];
    try (destruct (Z.ltb_spec (sc_read s) maxReads) as [H2|H2]);
    try (exists s, []; rewrite app_nil_r; split_and!; [done..|lia]).
  { exfalso. destruct (round_index s h Hs H1) as (_ & Hz & _). unfold scan_measure in Hf. rewrite Hz in Hf.
    pose proof (Z.mul_nonneg_nonneg (Z.of_nat (pending (sc_ctx s))) (n + 1)). pose proof (zlen_nonneg (queues ctx)). lia. }
  destruct (round_index s h Hs H1) as (_ & Hz & q & Eq & Hwf).
  assert (exists s' t, scan_round m n s = Some s' /\ scan_inv m ctx maxReads data (h ++ t) s' /\ scan_measure s' < scan_measure s)
    as (s' & t & E & Hs' & Hm).
  { destruct (contents q) as [|e rest] eqn:Hc.
    - destruct (round_empty s h q Hs H1 Eq Hc) as (s' & ? & ? & ?). exists s', []. by rewrite app_nil_r.
    - destruct (round_event s h q e rest Hs H1 H2 Eq Hc) as (s' & ? & ? & ?). by eexists s', _. }
  rewrite E. cbn [mbind option_bind]. destruct (IH s' (h ++ t) Hs') as (s2 & k & E2 & Hs2 & Hx); [lia|].
  exists s2, (t ++ k). by rewrite app_assoc.
Qed.
End Round.

(** A complete scan of the queues. *)
Lemma poll_scan_inv m ctx maxReads data : maxReads <= zlen data -> ctx_ok ctx ->
  exists s h, poll_scan m maxReads data ctx = Some s /\ scan_inv m ctx maxReads data h s /\
    (zlen (queues ctx) <= sc_empties s \/ maxReads <= sc_read s).
Proof.
  intros Hroom Hctx.
  destruct (scan_returns m ctx maxReads data Hroom Hctx (scan_fuel ctx) _ [] (scan_start m ctx maxReads data Hctx))
    as (s & h & E & Hs & Hx).
  - unfold scan_measure, scan_fuel, zlen. cbn. lia.
  - by exists s, h.
Qed.

(** When as many queues as there are have been found empty in a row, all of them are. *)
Lemma scan_all_empty m ctx maxReads data h s q i : scan_inv m ctx maxReads data h s ->
  zlen (queues ctx) <= sc_empties s -> queues (sc_ctx s) !! i = Some q -> contents q = [].
Proof.
  intros [_ Hl _ _ _ _ [_ He] _ _] Hn E. pose proof (lookup_lt_Some _ _ _ E) as Hi.
  assert (0 <= Z.of_nat i < zlen (queues ctx)) as Hr by (unfold zlen; lia).
  set (k := (nextReadIndex (sc_ctx s) - 1 - Z.of_nat i) mod zlen (queues ctx)).
  assert (0 <= k < zlen (queues ctx)) as Hk by (apply Z.mod_pos_bound; lia).
  apply (He (Z.to_nat k)); [lia|]. rewrite <- E. f_equal. rewrite Z2Nat.id by lia. unfold k.
  rewrite Zminus_mod_idemp_r. replace (_ - (_ - _)) with (Z.of_nat i) by lia. rewrite Z.mod_small by done. lia.
Qed.

(** a scan of the event queues takes events out fairly and loses none: it always
    returns; the events it takes out of each queue are the oldest ones of that queue, in
    order; the caller's array holds exactly the remapped events taken out, less those of
    unknown sensors, in the order in which they were taken; it stops only when the array
    has [maxReads] events or every queue is empty; and a queue that still holds events
    has been served as often as any other, up to one. *)
Theorem sensor_poll_scan (m : MultiHal) (ctx : Context_) (maxReads : Z) (data : list sensors_event_t)
  (Hroom : maxReads <= zlen data) (Hctx : ctx_ok ctx) :
  exists s h, poll_scan m maxReads data ctx = Some s /\ ctx_ok (sc_ctx s) /\
    (forall i q q', queues ctx !! i = Some q -> queues (sc_ctx s) !! i = Some q' ->
       contents q = taken_from i h ++ contents q') /\
    take (Z.to_nat (sc_read s)) (sc_data s) = delivered m h /\ sc_read s = zlen (delivered m h) /\
    (maxReads <= sc_read s \/ forall i q', queues (sc_ctx s) !! i = Some q' -> contents q' = []) /\
    (forall i j q' r', queues (sc_ctx s) !! i = Some q' -> queues (sc_ctx s) !! j = Some r' -> contents q' <> [] ->
       zlen (taken_from j h) <= zlen (taken_from i h) + 1).
Proof.
  destruct (poll_scan_inv m ctx maxReads data Hroom Hctx) as (s & h & E & Hs & Hx). exists s, h.
  pose proof Hs as [Ho _ _ Hco [_ [Hd1 Hd2]] _ _ _ [k Hf]]. split_and!; try done.
  - intros i q q' E1 E2. by apply Hco.
  - destruct Hx as [Hx|Hx]; [right|by left]. intros i q' Eq. by eapply scan_all_empty.
  - intros i j q' r' E1 E2 Hne. destruct (Hf i q' E1) as [_ H1]. destruct (Hf j r' E2) as [H2 _].
    rewrite (H1 Hne). unfold visits in *. zb; lia.
Qed.

Definition full_queue (evs : list sensors_event_t) : SensorEventQueue sensors_event_t :=
  mkQueue 36 0 (zlen evs) (evs ++ replicate (36 - length evs) (mkEvent 0 0 [])).

Definition two_queues : Context_ :=
  mkCtx [] [full_queue [mkEvent 7 1 []; mkEvent 7 1 []]; full_queue [mkEvent 9 5 []]] 1.

Definition two_handles : MultiHal :=
  (multihal0 ∅ ∅) <| full_to_global := {[ (0, 7) := 1; (1, 9) := 2 ]} |>.

Lemma sensor_poll_scan_witness :
  exists s h, poll_scan two_handles 2 [mkEvent 0 0 []; mkEvent 0 0 []] two_queues = Some s /\ ctx_ok (sc_ctx s) /\
    take (Z.to_nat (sc_read s)) (sc_data s) = delivered two_handles h /\ sc_read s = zlen (delivered two_handles h).
Proof.
  destruct (sensor_poll_scan two_handles two_queues 2 [mkEvent 0 0 []; mkEvent 0 0 []]) as (s & h & H1 & H2 & _ & H3 & H4 & _).
  - done.
  - split; [|right; done]. repeat constructor; done.
  - by exists s, h.
Defined.

Example two_queues_read :
  option_map sc_data (poll_scan two_handles 2 [mkEvent 0 0 []; mkEvent 0 0 []] two_queues) =
    Some [mkEvent 2 5 []; mkEvent 1 1 []].
Proof. vm_compute. reflexivity. Qed.

(** * Numbering of the sensors *)

Definition assign1 (f : FullHandle) (m : MultiHal) : MultiHal :=
  m <| next_global_handle := i32 (next_global_handle m + 1) |>
    <| full_to_global := <[f := next_global_handle m]> (full_to_global m) |>
    <| global_to_full := <[next_global_handle m := f]> (global_to_full m) |>.

(** Handles assigned to [fs] in order. *)
Fixpoint assign_all (fs : list FullHandle) (m : MultiHal) : MultiHal :=
  match fs with [] => m | f :: fs' => assign_all fs' (assign1 f m) end.

Lemma assign_all_app fs gs m : assign_all (fs ++ gs) m = assign_all gs (assign_all fs m).
Proof. revert m. induction fs as [|f fs IH]; intros m; cbn; auto. Qed.

(** Nothing else of the state changes. *)
Definition same_modules (m m' : MultiHal) : Prop :=
  sub_hw_modules m' = sub_hw_modules m /\ sub_hw_versions m' = sub_hw_versions m /\
  global_sensors_list m' = global_sensors_list m /\ global_sensors_count m' = global_sensors_count m.

Lemma assign_all_same fs m : same_modules m (assign_all fs m).
Proof. revert m. induction fs as [|f fs IH]; intros m; cbn; [done|]. apply (IH (assign1 f m)). Qed.

Lemma assign_all_next fs m : 0 < next_global_handle m -> next_global_handle m + zlen fs < 2 ^ 31 ->
  next_global_handle (assign_all fs m) = next_global_handle m + zlen fs.
Proof.
  revert m. induction fs as [|f fs IH]; intros m H1 H2; cbn; [rewrite zlen_nil; lia|]. rewrite zlen_cons in *.
  pose proof (zlen_nonneg fs). assert (next_global_handle (assign1 f m) = next_global_handle m + 1) as E
    by (cbn; apply i32_id; unfold is_i32; lia).
  rewrite IH, E; lia.
Qed.

Lemma assign_all_old fs m : 0 < next_global_handle m -> next_global_handle m + zlen fs < 2 ^ 31 ->
  (forall g, g < next_global_handle m -> global_to_full (assign_all fs m) !! g = global_to_full m !! g) /\
  (forall f, f ∉ fs -> full_to_global (assign_all fs m) !! f = full_to_global m !! f).
Proof.
  revert m. induction fs as [|f fs IH]; intros m H1 H2; cbn [assign_all]; [done|]. rewrite zlen_cons in *.
  pose proof (zlen_nonneg fs). assert (next_global_handle (assign1 f m) = next_global_handle m + 1) as E
    by (cbn; apply i32_id; unfold is_i32; lia).
  destruct (IH (assign1 f m)) as [IH1 IH2]; [rewrite E; lia..|]. split.
  - intros g Hg. rewrite IH1 by lia. cbn. apply lookup_insert_ne. lia.
  - intros g [Hg1 Hg2]%not_elem_of_cons. rewrite IH2 by done. cbn. by apply lookup_insert_ne.
Qed.

Lemma assign_all_lookup fs m k f : 0 < next_global_handle m -> next_global_handle m + zlen fs < 2 ^ 31 ->
  fs !! k = Some f ->
  global_to_full (assign_all fs m) !! (next_global_handle m + Z.of_nat k) = Some f /\
  (NoDup fs -> full_to_global (assign_all fs m) !! f = Some (next_global_handle m + Z.of_nat k)).
Proof.
  revert m k. induction fs as [|f0 fs IH]; intros m k H1 H2 E; [done|]. rewrite zlen_cons in *. cbn [assign_all].
  pose proof (zlen_nonneg fs). assert (next_global_handle (assign1 f0 m) = next_global_handle m + 1) as En
    by (cbn; apply i32_id; unfold is_i32; lia).
  destruct k as [|k]; cbn in E.
  - injection E as ->. rewrite Z.add_0_r. destruct (assign_all_old fs (assign1 f m)) as [Ho1 Ho2]; [rewrite En; lia..|].
    split; [rewrite Ho1 by lia; cbn; apply lookup_insert_eq|].
    intros [Hn _]%list.NoDup_cons. rewrite Ho2 by done. cbn. apply lookup_insert_eq.
  - destruct (IH (assign1 f0 m) k) as [I1 I2]; [rewrite En; lia..|done|].
    rewrite En in *. replace (next_global_handle m + Z.of_nat (S k)) with (next_global_handle m + 1 + Z.of_nat k) by lia.
    split; [done|]. intros [_ Hn]%list.NoDup_cons. auto.
Qed.

Lemma assign_all_dom fs m g : 0 < next_global_handle m -> next_global_handle m + zlen fs < 2 ^ 31 ->
  global_to_full (assign_all fs m) !! g <> None ->
  global_to_full m !! g <> None \/ next_global_handle m <= g < next_global_handle m + zlen fs.
Proof.
  revert m. induction fs as [|f fs IH]; intros m H1 H2 H; [by left|]. rewrite zlen_cons in *. cbn [assign_all] in H.
  pose proof (zlen_nonneg fs). assert (next_global_handle (assign1 f m) = next_global_handle m + 1) as E
    by (cbn; apply i32_id; unfold is_i32; lia).
  destruct (IH (assign1 f m)) as [H3|H3]; [rewrite E; lia..|done| |right; lia].
  destruct (decide (g = next_global_handle m)) as [->|Hg]; [right; lia|left].
  cbn in H3. by rewrite lookup_insert_ne in H3.
Qed.

(** The list entry for a sensor that gets the handle [g]. *)
Definition listed (version g : Z) (s : sensor_t) : sensor_t := fix_sensor_flags version (s <| handle := g |>).

Lemma handle_listed version g s : handle (listed version g s) = g /\ type (listed version g s) = type s.
Proof.
  unfold listed, fix_sensor_flags. destruct (version <=? _); [|done].
  destruct (_ || _); cbn; destruct (_ =? SENSOR_TYPE_LIGHT); done.
Qed.

Fixpoint list_from (version g : Z) (ss : list sensor_t) : list sensor_t :=
  match ss with [] => [] | s :: ss' => listed version g s :: list_from version (g + 1) ss' end.

Lemma add_sensors_cons i ptr vs v s ss acc m : sub_hw_versions m = Some vs -> vs !! ptr = Some v ->
  add_sensors i ptr (s :: ss) acc m =
    add_sensors i ptr ss (acc ++ [listed v (next_global_handle m) s]) (assign1 (i, handle s) m).
Proof. intros Hv Hp. cbn [add_sensors]. unfold assign_global_handle. run. rewrite Hv. cbn. rewrite Hp. reflexivity. Qed.

Lemma add_sensors_run i ptr vs v ss acc m : sub_hw_versions m = Some vs -> vs !! ptr = Some v ->
  0 < next_global_handle m -> next_global_handle m + zlen ss < 2 ^ 31 ->
  add_sensors i ptr ss acc m =
    Ok (acc ++ list_from v (next_global_handle m) ss, assign_all ((fun s => (i, handle s)) <$> ss) m).
Proof.
  intros Hv Hp. revert acc m Hv. induction ss as [|s ss IH]; intros acc m Hv H1 H2.
  { cbn. by rewrite app_nil_r. }
  rewrite zlen_cons in H2. pose proof (zlen_nonneg ss). rewrite (add_sensors_cons _ _ _ _ _ _ _ _ Hv Hp).
  assert (next_global_handle (assign1 (i, handle s) m) = next_global_handle m + 1) as En
    by (cbn; apply i32_id; unfold is_i32; lia).
  rewrite IH; [|done|rewrite En; lia..]. rewrite En, <- app_assoc. done.
Qed.

(** The sensors of the sub-HALs, as module index and local handle, in the order of the
    list. *)
Fixpoint origins (i : Z) (mods : list hw_module) : list FullHandle :=
  match mods with
  | [] => []
  | md :: mods' => ((fun s => (i, handle s)) <$> md_sensors md) ++ origins (i + 1) mods'
  end.

Lemma handle_list_from v g ss :
  handle <$> list_from v g ss = seqZ g (zlen ss) /\ type <$> list_from v g ss = type <$> ss.
Proof.
  revert g. induction ss as [|s ss IH]; intros g; [done|]. rewrite zlen_cons, seqZ_cons by (pose proof (zlen_nonneg ss); lia).
  cbn [list_from fmap list_fmap]. destruct (handle_listed v g s) as [-> ->]. destruct (IH (g + 1)) as [I1 I2].
  unfold fmap in *. rewrite I1, I2. split; [|done]. f_equal. f_equal; lia.
Qed.

Lemma zlen_fmap {A B} (f : A -> B) (l : list A) : zlen (f <$> l) = zlen l.
Proof. unfold zlen. by rewrite length_fmap. Qed.

Lemma zlen_origins i mods : zlen (origins i mods) = Z.of_nat (sum_list_with (fun md => length (md_sensors md)) mods).
Proof.
  revert i. induction mods as [|md mods IH]; intros i; cbn [origins sum_list_with]; [done|].
  rewrite zlen_app, zlen_fmap, IH. unfold zlen. lia.
Qed.

Lemma add_modules_run vs mods i acc m : sub_hw_versions m = Some vs ->
  Forall (fun md => is_Some (vs !! md_ptr md)) mods ->
  0 < next_global_handle m -> next_global_handle m + zlen (origins i mods) < 2 ^ 31 ->
  exists l, add_modules i mods acc m = Ok (acc ++ l, assign_all (origins i mods) m) /\
    handle <$> l = seqZ (next_global_handle m) (zlen (origins i mods)) /\ type <$> l = type <$> (mods ≫= md_sensors).
Proof.
  intros Hv Hp. revert i acc m Hv. induction Hp as [|md mods [v Hmd] Hp IH]; intros i acc m Hv H1 H2; cbn [origins add_modules mbind list_bind].
  { exists []. rewrite app_nil_r. done. }
  cbn [origins] in H2. rewrite zlen_app, zlen_fmap in H2.
  pose proof (zlen_nonneg (origins (i + 1) mods)). pose proof (zlen_nonneg (md_sensors md)).
  rewrite (bindM_ok _ _ _ _ _ (add_sensors_run i _ vs v (md_sensors md) acc m Hv Hmd H1 ltac:(lia))).
  set (m1 := assign_all _ m). pose proof (assign_all_same ((fun s => (i, handle s)) <$> md_sensors md) m) as (_ & Hv1 & _).
  assert (next_global_handle m1 = next_global_handle m + zlen (md_sensors md)) as En
    by (unfold m1; rewrite assign_all_next; rewrite ?zlen_fmap; lia).
  destruct (IH (i + 1) (acc ++ list_from v (next_global_handle m) (md_sensors md)) m1) as (l & E & Hh & Ht);
    [by rewrite <- Hv|rewrite En; lia..|].
  exists (list_from v (next_global_handle m) (md_sensors md) ++ l).
  destruct (handle_list_from v (next_global_handle m) (md_sensors md)) as [F1 F2].
  rewrite E, app_assoc, assign_all_app, !fmap_app, F1, F2, Hh, Ht, En. split_and!; [done| |done].
  rewrite zlen_app, zlen_fmap, seqZ_app by lia. done.
Qed.

Lemma origins_fst i mods f : f ∈ origins i mods -> i <= f.1.
Proof.
  revert i. induction mods as [|md mods IH]; intros i; cbn; [by intros ?%not_elem_of_nil|].
  rewrite elem_of_app, list_elem_of_fmap. intros [(s & -> & _)|H]; [done|]. apply IH in H. lia.
Qed.

Lemma NoDup_origins i mods : Forall (fun md => NoDup (handle <$> md_sensors md)) mods -> NoDup (origins i mods).
Proof.
  revert i. induction mods as [|md mods IH]; intros i H; cbn; [constructor|]. inversion_clear H as [|? ? H1 H2].
  apply list.NoDup_app. split_and!; [| |auto].
  - apply (list.NoDup_fmap_1 snd). rewrite <- list_fmap_compose. done.
  - intros f (s & -> & _)%list_elem_of_fmap Hf%origins_fst. cbn in Hf. lia.
Qed.

Lemma lookup_origins i mods k f : origins i mods !! k = Some f ->
  exists j md s, mods !! j = Some md /\ s ∈ md_sensors md /\ f = (i + Z.of_nat j, handle s) /\
    (mods ≫= md_sensors) !! k = Some s.
Proof.
  revert i k. induction mods as [|md mods IH]; intros i k; cbn; [done|].
  intros [H|[Hlen H]]%lookup_app_Some.
  - apply list_lookup_fmap_Some in H as (s & -> & Hs). exists 0%nat, md, s.
    split_and!; [done|by eapply list_elem_of_lookup_2|f_equal; lia|by apply lookup_app_l_Some].
  - rewrite length_fmap in *. destruct (IH _ _ H) as (j & md' & s & E & Hs & -> & Hk). exists (S j), md', s.
    split_and!; [done..|f_equal; lia|]. by rewrite lookup_app_r.
Qed.

(** * Opening *)

Section Open.
Variable memory : nat -> list sensors_event_t.

Fixpoint new_queues (from k : nat) : list (SensorEventQueue sensors_event_t) :=
  match k with
  | O => []
  | S k' => new_queue SENSOR_EVENT_QUEUE_CAPACITY (memory from) :: new_queues (S from) k'
  end.

Lemma open_modules_run mods ctx vs m : sub_hw_versions m = Some vs ->
  exists vs',
    open_modules memory mods ctx m =
      Ok (mkCtx (sub_hw_devices ctx ++ omap md_open mods)
                (queues ctx ++ new_queues (length (queues ctx)) (length (omap md_open mods))) (nextReadIndex ctx),
          m <| sub_hw_versions := Some vs' |> <| mh_trace := mh_trace m ++ (StartWriter <$> omap md_open mods) |>) /\
    (forall p, is_Some (vs !! p) -> is_Some (vs' !! p)) /\
    Forall (fun md => is_Some (md_open md) -> is_Some (vs' !! md_ptr md)) mods.
Proof.
  revert ctx vs m. induction mods as [|md mods IH]; intros ctx vs m Hv; cbn [open_modules omap list_omap].
  { exists vs. rewrite !app_nil_r. split_and!; [|done|constructor]. destruct ctx, m; cbn in *. by subst. }
  destruct (md_open md) as [d|] eqn:Ed.
  - set (vs1 := match vs !! md_ptr md with Some _ => vs | None => <[md_ptr md := dev_version d]> vs end).
    set (m1 := m <| sub_hw_versions := Some vs1 |> <| mh_trace := mh_trace m ++ [StartWriter d] |>).
    set (ctx1 := mkCtx (sub_hw_devices ctx ++ [d])
      (queues ctx ++ [new_queue SENSOR_EVENT_QUEUE_CAPACITY (memory (length (queues ctx)))]) (nextReadIndex ctx)).
    destruct (IH ctx1 vs1 m1 eq_refl) as (vs' & E & Hsub & Hall). exists vs'.
    assert (forall p, is_Some (vs !! p) -> is_Some (vs1 !! p)) as H1.
    { intros p Hp. unfold vs1. destruct (vs !! md_ptr md) eqn:E0; [done|]. rewrite lookup_insert_is_Some. destruct (decide (md_ptr md = p)); auto. }
    assert (is_Some (vs1 !! md_ptr md)) as H2.
    { unfold vs1. destruct (vs !! md_ptr md) eqn:E0; [by rewrite E0|]. rewrite lookup_insert_eq. by eexists. }
    split_and!; [|auto|constructor; auto; by rewrite Ed in *].
    transitivity (open_modules memory mods ctx1 m1).
    { unfold addSubHwDevice, mh_emit. run. rewrite Hv. done. }
    rewrite E. unfold ctx1, m1. cbn. rewrite <- !app_assoc, length_app. cbn. by rewrite Nat.add_1_r.
  - destruct (IH ctx vs m Hv) as (vs' & E & Hsub & Hall). exists vs'. split_and!; [done|done|].
    constructor; [rewrite Ed; by intros [? ?]|done].
Qed.
End Open.

(** The state after the configuration has been read. *)
Definition loaded (m : MultiHal) : list hw_module :=
  match sub_hw_modules m with
  | Some mods => mods
  | None => omap (fun p => mh_libs m !! cstr p) (get_so_paths (mh_files m))
  end.

Lemma open_sensors_run memory m :
  exists vs trace,
    open_sensors memory m =
      Ok (mkCtx (omap md_open (loaded m)) (new_queues memory 0 (length (omap md_open (loaded m)))) 0,
          m <| sub_hw_modules := Some (loaded m) |> <| sub_hw_versions := Some vs |> <| mh_trace := trace |>) /\
    Forall (fun md => is_Some (md_open md) -> is_Some (vs !! md_ptr md)) (loaded m).
Proof.
  unfold open_sensors, loaded. set (mods := match sub_hw_modules m with Some _ => _ | None => _ end).
  assert (lazy_init_modules m = Ok (tt, m <| sub_hw_modules := Some mods |>)) as E0.
  { unfold lazy_init_modules, mods. run. destruct m as [[ms|] ? ? ? ? ? ? ? ? ?]; done. }
  rewrite (bindM_ok _ _ _ _ _ E0).
  set (m1 := m <| sub_hw_modules := Some mods |> <| sub_hw_versions := Some ∅ |>).
  destruct (open_modules_run memory mods (mkCtx [] [] 0) ∅ m1 eq_refl)
    as (vs & E & _ & Hall).
  exists vs. eexists. split; [|exact Hall]. exact E.
Qed.

(** * The numbering as a whole *)

Lemma get_sensors_list_run m1 mods l m2 : global_sensors_list m1 = None -> sub_hw_modules m1 = Some mods ->
  add_modules 0 mods [] (m1 <| global_sensors_count := Z.of_nat (sum_list_with (fun md => length (md_sensors md)) mods) |>)
    = Ok (l, m2) ->
  module__get_sensors_list m1 =
    Ok ((global_sensors_count m2, l), m2 <| global_sensors_list := Some l |> <| sub_hw_versions := None |>).
Proof.
  intros H1 H2 E. unfold module__get_sensors_list, lazy_init_sensors_list, lazy_init_modules.
  run. rewrite H1. cbn. rewrite H2. cbn. rewrite H2. cbn. by rewrite E.
Qed.

Section Numbering.
Context (memory : nat -> list sensors_event_t) (files : gmap string (list Z)) (libs : gmap (list Z) hw_module).
Local Abbreviation m0 := (multihal0 files libs).
Local Abbreviation mods := (loaded m0).
Hypothesis Hopen : Forall (fun md => is_Some (md_open md)) mods.
Hypothesis Hcount : zlen (origins 0 mods) < 2 ^ 31 - 1.

(** The state once the device is open and the list has been asked for. *)
Lemma numbering_run :
  exists ctx m1 l m2, open_sensors memory m0 = Ok (ctx, m1) /\ module__get_sensors_list m1 = Ok ((zlen l, l), m2) /\
    sub_hw_devices ctx = omap md_open mods /\
    handle <$> l = seqZ 1 (zlen l) /\ type <$> l = type <$> (mods ≫= md_sensors) /\ zlen l = zlen (origins 0 mods) /\
    (forall k f, origins 0 mods !! k = Some f -> global_to_full m2 !! (1 + Z.of_nat k) = Some f) /\
    (NoDup (origins 0 mods) -> forall k f, origins 0 mods !! k = Some f -> full_to_global m2 !! f = Some (1 + Z.of_nat k)) /\
    (forall h, global_to_full m2 !! h <> None -> 1 <= h <= zlen l) /\ (forall f, full_to_global m2 !! f <> None -> f ∈ origins 0 mods).
Proof.
  destruct (open_sensors_run memory m0) as (vs & tr & E & Hvs). do 2 eexists.
  set (m1 := set mh_trace _ _) in E. assert (sub_hw_versions m1 = Some vs) as Hv by done.
  set (m1' := m1 <| global_sensors_count := Z.of_nat (sum_list_with (fun md => length (md_sensors md)) mods) |>).
  assert (next_global_handle m1' = 1) as Hnx by done.
  assert (Forall (fun md => is_Some (vs !! md_ptr md)) mods) as Hall.
  { rewrite Forall_forall in *. auto. }
  destruct (add_modules_run vs mods 0 [] m1' Hv Hall) as (l & El & Hh & Ht); [done|rewrite Hnx; lia|].
  cbn [app] in El. set (m2 := assign_all (origins 0 mods) m1') in *.
  exists l, (m2 <| global_sensors_list := Some l |> <| sub_hw_versions := None |>). split; [exact E|].
  assert (zlen l = zlen (origins 0 mods)) as Hl.
  { rewrite <- (zlen_fmap handle), Hh. unfold zlen at 1. rewrite length_seqZ. pose proof (zlen_nonneg (origins 0 mods)). lia. }
  assert (global_sensors_count m2 = zlen l) as Hc.
  { destruct (assign_all_same (origins 0 mods) m1') as (_ & _ & _ & H). fold m2 in H. rewrite H, Hl, zlen_origins. done. }
  split.
  { etransitivity; [exact (get_sensors_list_run m1 mods l m2 eq_refl eq_refl El)|]. by rewrite Hc. }
  split; [done|]. rewrite Hl. split_and!; try done.
  - intros k f Ef. destruct (assign_all_lookup (origins 0 mods) m1' k f) as [H _]; [done|rewrite Hnx; lia|done|exact H].
  - intros Hn k f Ef. destruct (assign_all_lookup (origins 0 mods) m1' k f) as [_ H]; [done|rewrite Hnx; lia|done|exact (H Hn)].
  - intros h Hx. pose proof (assign_all_dom (origins 0 mods) m1' h ltac:(done) ltac:(rewrite Hnx; lia) Hx) as [H|H]; [|lia].
    exfalso. by apply H.
  - intros f. destruct (decide (f ∈ origins 0 mods)) as [Hf|Hf]; [done|].
    destruct (assign_all_old (origins 0 mods) m1') as [_ H]; [done|rewrite Hnx; lia|]. intros Hx. exfalso. apply Hx.
    etransitivity; [apply (H f Hf)|]. done.
Qed.
End Numbering.

Lemma omap_all_lookup {A B} (f : A -> option B) (l : list A) i x : Forall (fun x => is_Some (f x)) l -> l !! i = Some x ->
  omap f l !! i = f x.
Proof.
  intros H. revert i. induction H as [|y l [b Hb] H IH]; intros [|i] E; cbn in *; try done; rewrite Hb.
  - injection E as ->. by rewrite Hb.
  - by apply IH.
Qed.

(** Where the [k]-th entry of the list comes from. *)
Lemma numbering_entry mods ctx m2 (l : list sensor_t) k s : Forall (fun md => is_Some (md_open md)) mods ->
  sub_hw_devices ctx = omap md_open mods -> handle <$> l = seqZ 1 (zlen l) -> zlen l = zlen (origins 0 mods) ->
  (forall k f, origins 0 mods !! k = Some f -> global_to_full m2 !! (1 + Z.of_nat k) = Some f) ->
  l !! k = Some s ->
  exists i md s0, mods !! i = Some md /\ s0 ∈ md_sensors md /\ (mods ≫= md_sensors) !! k = Some s0 /\
    handle s = 1 + Z.of_nat k /\ origins 0 mods !! k = Some (Z.of_nat i, handle s0) /\
    get_module_index m2 (handle s) = Z.of_nat i /\ get_local_handle m2 (handle s) = handle s0 /\
    get_device_by_handle m2 ctx (handle s) = md_open md.
Proof.
  intros Hopen Hdev Hh Hl Hg Ek. pose proof (lookup_lt_Some _ _ _ Ek) as Hk.
  assert (handle s = 1 + Z.of_nat k) as Hs.
  { assert ((handle <$> l) !! k = Some (handle s)) as Hx by (by rewrite list_lookup_fmap, Ek).
    rewrite Hh in Hx. apply lookup_seqZ in Hx as [-> _]. lia. }
  destruct (lookup_lt_is_Some_2 (origins 0 mods) k) as [f Ef]; [unfold zlen in *; lia|].
  pose proof Ef as Ef2. specialize (Hg k _ Ef).
  destruct (lookup_origins _ _ _ _ Ef) as (i & md & s0 & Emd & Hs0 & -> & Hcat). exists i, md, s0.
  rewrite Z.add_0_l in Hg, Ef2. unfold get_device_by_handle, get_module_index, get_local_handle.
  rewrite Hs. unfold FullHandle in *. rewrite Hg. cbn [fst snd]. split_and!; try done.
  rewrite (proj2 (Z.ltb_ge _ _)) by lia. rewrite Hdev. destruct (Forall_lookup_1 _ _ _ _ Hopen Emd) as [d Hd].
  assert (omap md_open mods !! i = Some d) as Eo by (rewrite <- Hd; by apply omap_all_lookup).
  pose proof (lookup_lt_Some _ _ _ Eo). rewrite (proj2 (Z.leb_gt _ _)) by (unfold zlen; lia). cbn [orb]. by rewrite Nat2Z.id, Eo.
Qed.

Lemma unknown_handle (m : MultiHal) (n h : Z) : (forall h, global_to_full m !! h <> None -> 1 <= h <= n) -> ~ 1 <= h <= n ->
  get_local_handle m h = -1 /\ get_module_index m h = -1.
Proof.
  intros Hu Hx. unfold get_local_handle, get_module_index. destruct (global_to_full m !! h) eqn:E; [|done].
  exfalso. apply Hx, Hu. unfold FullHandle in *. by rewrite E.
Qed.

(** the global handles number the sensors of all sub-HALs and translate back and
    forth. When every sub-HAL opens and gives its sensors distinct handles, the list the
    framework gets has the sensors of all modules in order, numbered from 1; each entry's
    handle leads back to its module and local handle and to that module's device; the
    local handle of an event leads to that entry; and any other handle is unknown. *)
Theorem sensor_handles_roundtrip (memory : nat -> list sensors_event_t) (files : gmap string (list Z))
  (libs : gmap (list Z) hw_module)
  (Hopen : Forall (fun md => is_Some (md_open md)) (loaded (multihal0 files libs)))
  (Hcount : zlen (origins 0 (loaded (multihal0 files libs))) < 2 ^ 31 - 1)
  (Hdup : Forall (fun md => NoDup (handle <$> md_sensors md)) (loaded (multihal0 files libs))) :
  exists ctx m1 l m2, open_sensors memory (multihal0 files libs) = Ok (ctx, m1) /\
    module__get_sensors_list m1 = Ok ((zlen l, l), m2) /\
    handle <$> l = seqZ 1 (zlen l) /\ type <$> l = type <$> (loaded (multihal0 files libs) ≫= md_sensors) /\
    (forall s, s ∈ l -> exists i md s0, loaded (multihal0 files libs) !! i = Some md /\ s0 ∈ md_sensors md /\
       get_module_index m2 (handle s) = Z.of_nat i /\ get_local_handle m2 (handle s) = handle s0 /\
       get_global_handle m2 (Z.of_nat i, handle s0) = handle s /\ get_device_by_handle m2 ctx (handle s) = md_open md) /\
    (forall h, ~ 1 <= h <= zlen l -> get_local_handle m2 h = -1 /\ get_module_index m2 h = -1).
Proof.
  destruct (numbering_run memory files libs Hopen Hcount)
    as (ctx & m1 & l & m2 & E1 & E2 & Hdev & Hh & Ht & Hl & Hg & Hf & Hu & _).
  specialize (Hf (NoDup_origins 0 _ Hdup)). exists ctx, m1, l, m2. split_and!; try done.
  - intros s (k & Ek)%list_elem_of_lookup_1.
    destruct (numbering_entry _ ctx m2 l k s Hopen Hdev Hh Hl Hg Ek) as (i & md & s0 & H1 & H2 & _ & H4 & H5 & H6 & H7 & H8).
    exists i, md, s0. split_and!; try done. unfold get_global_handle. specialize (Hf k _ H5). unfold FullHandle in *. by rewrite Hf, H4.
  - intros h Hx. by apply (unknown_handle m2 (zlen l)).
Qed.

Definition accel : hw_module := mkModule 100 [mkSensor 0 1 0 10000 200000; mkSensor 3 8 0 0 0] (Some (mkDevice 1 (API_VERSION 1 0))).
Definition gyro : hw_module := mkModule 200 [mkSensor 0 4 0 5000 100000] (Some (mkDevice 2 (API_VERSION 1 3))).
Definition two_hals : gmap string (list Z) := {[ "/vendor/etc/sensors/_hals.conf" := str "a.so" ++ [10] ++ str "b.so" ]}.
Definition two_libs : gmap (list Z) hw_module := {[ str "a.so" := accel; str "b.so" := gyro ]}.

Example two_loaded : loaded (multihal0 two_hals two_libs) = [accel; gyro].
Proof. vm_compute. reflexivity. Qed.

Lemma sensor_handles_roundtrip_witness :
  exists ctx m1 l m2, open_sensors (fun _ => []) (multihal0 two_hals two_libs) = Ok (ctx, m1) /\
    module__get_sensors_list m1 = Ok ((zlen l, l), m2) /\ handle <$> l = seqZ 1 (zlen l).
Proof.
  destruct (sensor_handles_roundtrip (fun _ => []) two_hals two_libs) as (ctx & m1 & l & m2 & H1 & H2 & H3 & _);
    rewrite ?two_loaded.
  - repeat constructor; done.
  - vm_compute. reflexivity.
  - apply (bool_decide_unpack _). vm_compute. exact I.
  - by exists ctx, m1, l, m2.
Defined.

(** * Routing of requests *)

(** The effect of a request that is passed on. *)
Definition passed_on (sub : hw_device -> sub_call -> Z) (d : hw_device) (c : sub_call) (m : MultiHal) : outcome (Z * MultiHal) :=
  Ok (sub d c, m <| mh_trace := mh_trace m ++ [Call d c] |>).

(** What the framework may ask of a sensor, and how its sub-HAL is asked. *)
Inductive request := RqActivate (enabled : Z) | RqSetDelay (ns : Z) | RqFlush.

Definition run_request (sub : hw_device -> sub_call -> Z) (ctx : Context_) (h : Z) (r : request) : MH Z :=
  match r with
  | RqActivate enabled => activate sub ctx h enabled
  | RqSetDelay ns => setDelay sub ctx h ns
  | RqFlush => flush sub ctx h
  end.

Definition request_call (local : Z) (r : request) : sub_call :=
  match r with RqActivate e => SubActivate local e | RqSetDelay ns => SubSetDelay local ns | RqFlush => SubFlush local end.

(** Devices from 1.1 on know [flush]. *)
Definition supported (d : hw_device) (r : request) : bool :=
  match r with RqFlush => SENSORS_DEVICE_API_VERSION_1_1 <=? dev_version d | _ => true end.

Lemma request_resolved sub m ctx h d local r : get_device_by_handle m ctx h = Some d -> get_local_handle m h = local ->
  0 <= local -> run_request sub ctx h r m =
    if supported d r then passed_on sub d (request_call local r) m else Ok (- EINVAL, m).
Proof.
  intros Hd Hl Hp. assert (resolve m ctx h = Some (d, local)) as Hr.
  { unfold resolve. rewrite Hd, Hl, (proj2 (Z.leb_le _ _)) by done. done. }
  destruct r; cbn; unfold activate, setDelay, flush, bindM, getM; rewrite Hr; [done..|].
  unfold halIsAPILevelCompliant, get_device_version_by_handle. rewrite Hd.
  destruct (Z.leb_spec SENSORS_DEVICE_API_VERSION_1_1 (dev_version d)) as [Hv|Hv]; [|by rewrite andb_false_r].
  rewrite (proj2 (Z.eqb_neq _ _)); [done|]. intros E. rewrite E in Hv. vm_compute in Hv. by apply Hv.
Qed.

Lemma request_unknown sub m ctx h r : get_module_index m h = -1 -> run_request sub ctx h r m = Ok (- EINVAL, m).
Proof.
  intros H. assert (resolve m ctx h = None) as Hr by (unfold resolve, get_device_by_handle; by rewrite H).
  destruct r; cbn; unfold activate, setDelay, flush, bindM, getM; by rewrite Hr.
Qed.

(** C35: a request for a listed sensor reaches its owner, when every sub-HAL that could be loaded also
    opens its device, the handles the sub-HALs give their sensors are not negative, and there are
    fewer than 2^31 - 1 sensors: activating a sensor, setting its
    period or flushing it makes exactly one call, to the device of the sub-HAL the sensor
    comes from and with the handle that sub-HAL gave it, and returns that call's result
    (flush fails on devices older than 1.1); a handle that is not in the list fails with
    -EINVAL and calls nobody. *)
Theorem sensor_requests_reach_owner (sub : hw_device -> sub_call -> Z) (memory : nat -> list sensors_event_t)
  (files : gmap string (list Z)) (libs : gmap (list Z) hw_module)
  (Hopen : Forall (fun md => is_Some (md_open md)) (loaded (multihal0 files libs)))
  (Hcount : zlen (origins 0 (loaded (multihal0 files libs))) < 2 ^ 31 - 1)
  (Hpos : Forall (fun md => Forall (fun s => 0 <= handle s) (md_sensors md)) (loaded (multihal0 files libs))) :
  exists ctx m1 l m2, open_sensors memory (multihal0 files libs) = Ok (ctx, m1) /\
    module__get_sensors_list m1 = Ok ((zlen l, l), m2) /\
    (forall k s, l !! k = Some s -> exists md s0 d, md ∈ loaded (multihal0 files libs) /\ md_open md = Some d /\
       (loaded (multihal0 files libs) ≫= md_sensors) !! k = Some s0 /\ s0 ∈ md_sensors md /\
       forall r, run_request sub ctx (handle s) r m2 =
         if supported d r then passed_on sub d (request_call (handle s0) r) m2 else Ok (- EINVAL, m2)) /\
    (forall h r, ~ 1 <= h <= zlen l -> run_request sub ctx h r m2 = Ok (- EINVAL, m2)).
Proof.
  destruct (numbering_run memory files libs Hopen Hcount)
    as (ctx & m1 & l & m2 & E1 & E2 & Hdev & Hh & _ & Hl & Hg & _ & Hu & _). exists ctx, m1, l, m2. split_and!; try done.
  - intros k s Ek.
    destruct (numbering_entry _ ctx m2 l k s Hopen Hdev Hh Hl Hg Ek) as (i & md & s0 & H1 & H2 & H3 & _ & _ & _ & H7 & H8).
    destruct (Forall_lookup_1 _ _ _ _ Hopen H1) as [d Hd]. exists md, s0, d.
    split_and!; [by eapply list_elem_of_lookup_2|done..|]. intros r. rewrite Hd in H8. apply request_resolved; [done..|].
    pose proof (Forall_lookup_1 _ _ _ _ Hpos H1) as Hp. rewrite list.Forall_forall in Hp. by apply Hp.
  - intros h r Hx. apply request_unknown. by apply (unknown_handle m2 (zlen l)).
Qed.

(** A device answers with its number. *)
Definition answers_id (d : hw_device) (c : sub_call) : Z := dev_id d.

Lemma sensor_requests_reach_owner_witness :
  exists ctx m1 l m2, open_sensors (fun _ => []) (multihal0 two_hals two_libs) = Ok (ctx, m1) /\
    module__get_sensors_list m1 = Ok ((zlen l, l), m2) /\
    (exists s, l !! 2%nat = Some s /\
       run_request answers_id ctx (handle s) (RqActivate 1) m2 = passed_on answers_id (mkDevice 2 (API_VERSION 1 3)) (SubActivate 0 1) m2) /\
    forall h r, ~ 1 <= h <= zlen l -> run_request answers_id ctx h r m2 = Ok (- EINVAL, m2).
Proof.
  destruct (sensor_requests_reach_owner answers_id (fun _ => []) two_hals two_libs) as (ctx & m1 & l & m2 & H1 & H2 & H3 & H4);
    rewrite ?two_loaded.
  - repeat constructor; done.
  - vm_compute. reflexivity.
  - repeat constructor; done.
  - exists ctx, m1, l, m2. split; [exact H1|]. split; [exact H2|]. split; [|exact H4].
    assert (match open_sensors (fun _ => []) (multihal0 two_hals two_libs) with
            | Ok (_, m) => match module__get_sensors_list m with Ok (r, _) => fst r | _ => 0 end | _ => 0 end = 3) as Hn by (vm_compute; reflexivity).
    rewrite H1, H2 in Hn. cbn in Hn. destruct (lookup_lt_is_Some_2 l 2) as [s Hs]; [unfold zlen in Hn; lia|]. exists s. split; [exact Hs|].
    destruct (H3 _ _ Hs) as (md & s0 & d & Hmd & Hd & Hs0 & Hin & Hr). rewrite two_loaded in Hmd, Hs0.
    injection Hs0 as <-. apply elem_of_cons in Hmd as [->|Hmd].
    { exfalso. apply elem_of_cons in Hin as [Hx|Hx]; [done|]. by apply list_elem_of_singleton in Hx. }
    apply list_elem_of_singleton in Hmd as ->. injection Hd as <-. exact (Hr (RqActivate 1)).
Defined.

(** * Sub-HALs that fail to open *)

Definition broken (ss : list sensor_t) : hw_module := mkModule 300 ss None.
Definition three_hals : gmap string (list Z) :=
  {[ "/vendor/etc/sensors/_hals.conf" := str "x.so" ++ [10] ++ str "a.so" ++ [10] ++ str "b.so" ++ [10] ]}.
Definition three_libs (ss : list sensor_t) : gmap (list Z) hw_module :=
  {[ str "x.so" := broken ss; str "a.so" := accel; str "b.so" := gyro ]}.

(** a sub-HAL that fails to open upsets the others: the devices that did open are
    stored without a gap, while the sensors are numbered with one. With three sub-HALs
    the first of which fails and has no sensors, activating the first sensor of the
    second one calls the device of the third; if the failing sub-HAL has a sensor, the
    sensor list is never given, because nothing handles the exception of the missing
    version. *)
Theorem failed_sub_hal_misroutes (sub : hw_device -> sub_call -> Z) :
  (exists ctx m1 m2 n l, open_sensors (fun _ => []) (multihal0 three_hals (three_libs [])) = Ok (ctx, m1) /\
     module__get_sensors_list m1 = Ok ((n, l), m2) /\ handle <$> l = [1; 2; 3] /\
     activate sub ctx 1 1 m2 = passed_on sub (mkDevice 2 (API_VERSION 1 3)) (SubActivate 0 1) m2) /\
  (exists ctx m1, open_sensors (fun _ => []) (multihal0 three_hals (three_libs [mkSensor 0 1 0 0 0])) = Ok (ctx, m1) /\
     module__get_sensors_list m1 = Undef).
Proof.
  split.
  - do 5 eexists. split; [vm_compute; reflexivity|]. split; [vm_compute; reflexivity|]. split; vm_compute; reflexivity.
  - do 2 eexists. split; [vm_compute; reflexivity|]. vm_compute. reflexivity.
Qed.

(** an event of an unknown sensor is dropped, but not when it is a meta-data event:
    for a flush-complete event of a sensor the HAL does not know the framework gets an
    event that names sensor -1. *)
Theorem unknown_sensor_events (m : MultiHal) (e : sensors_event_t) (i : nat) (local : Z)
  (Hu : full_to_global m !! (Z.of_nat i, local) = None) :
  (ev_type e <> SENSOR_TYPE_META_DATA -> ev_sensor e = local -> delivered m [(i, e)] = []) /\
  (ev_type e = SENSOR_TYPE_META_DATA -> ev_sensor e = 0 -> (1 < length (ev_data e))%nat -> at_ (ev_data e) 1 = local ->
   exists e', delivered m [(i, e)] = [e'] /\ at_ (ev_data e') 1 = -1 /\ ev_type e' = SENSOR_TYPE_META_DATA).
Proof.
  assert (get_global_handle m (Z.of_nat i, local) = -1) as Hg by (unfold get_global_handle; unfold FullHandle in *; by rewrite Hu).
  change [(i, e)] with ([] ++ [(i, e)]). rewrite delivered_snoc. cbv zeta. unfold copy_event_remap_handle. split.
  - intros H1 <-. rewrite (proj2 (Z.eqb_neq _ _) H1). cbn. rewrite Hg. done.
  - intros H1 H2 H3 <-. rewrite (proj2 (Z.eqb_eq _ _) H1), Hg. cbn. rewrite H2. cbn. eexists. split_and!; [done| |done].
    destruct (ev_data e) as [|a [|b l]]; cbn in *; try lia. done.
Qed.

Lemma unknown_sensor_events_witness :
  exists e', delivered two_handles [(0%nat, mkEvent 0 0 [1; 99])] = [e'] /\ at_ (ev_data e') 1 = -1 /\ ev_type e' = 0.
Proof.
  apply (proj2 (unknown_sensor_events two_handles (mkEvent 0 0 [1; 99]) 0 99 ltac:(vm_compute; reflexivity))); [done..|cbn; lia|done].
Defined.
