(* ===== verification/SensorsSys.v ===== *)
(** The threads of the sensors HAL (src/hal/sensors/multihal.cpp): one writer per sub-HAL,
    which polls the sub-HAL into the free part of its queue without the lock, and the
    framework's thread in [poll]. Everything done under [queue_mutex] is one step; a
    thread that sleeps on a condition may wake up at any time. The sensors have been
    numbered before the framework polls, so the handle maps do not change. *)

From stdpp Require Import base list gmap numbers.
From Stdlib Require Import ZArith Lia.
From S2P Require Import Prelude SensorQueue Sensors SensorsProps.

Local Open Scope Z_scope.
Local Open Scope st_scope.
Local Open Scope rec_scope.

(** multihal.cpp:143-180 [writerTask] where a writer is: before taking the lock, asleep
    for space (and whether the condition was broadcast since), in the sub-HAL's poll with
    a region, or back from it with the events it returned. *)
Inductive writer :=
  | WIdle
  | WAsleep (signalled : bool)
  | WPolling (first len : Z)
  | WPolled (first : Z) (evs : list sensors_event_t).

(** multihal.cpp:338-378 [sensors_poll_context_t::poll] where the framework's thread is:
    outside, or asleep for data with its array. *)
Inductive reader := RIdle | RAsleep (maxReads : Z) (data : list sensors_event_t) (signalled : bool).

(** [ss_produced] are the events the sub-HALs have returned, [ss_out] those the framework
    has got, since the start. *)
Record SSys := mkSSys {
  ss_ctx : Context_;
  ss_writers : list writer;
  ss_reader : reader;
  waiting_for_data : bool;
  ss_produced : list (list sensors_event_t);
  ss_out : list sensors_event_t;
}.
#[export] Instance eta_SSys : Eta SSys := fun s =>
  mkSSys (ss_ctx s) (ss_writers s) (ss_reader s) (waiting_for_data s) (ss_produced s) (ss_out s).

(** A broadcast of the condition of the queues in [wake]. *)
Definition wake_writers (wake : list nat) (ws : list writer) : list writer :=
  imap (fun i w => match w with WAsleep b => WAsleep (b || bool_decide (i ∈ wake)) | _ => w end) ws.

Definition set_queue (i : nat) (q : SensorEventQueue sensors_event_t) (ctx : Context_) : Context_ :=
  ctx <| queues := <[i := q]> (queues ctx) |>.

Section Threads.
Variable m : MultiHal.

(** multihal.cpp:151-157 [writerTask, region] under the lock: sleep while the queue is
    full, or get a region. *)
Definition writer_reserve (i : nat) (s : SSys) : option SSys :=
  w ← ss_writers s !! i;
  q ← queues (ss_ctx s) !! i;
  match w with
  | WIdle | WAsleep _ =>
      if must_wait q then Some (s <| ss_writers := <[i := WAsleep false]> (ss_writers s) |>)
      else
        match getWritableRegion SENSOR_EVENT_QUEUE_CAPACITY q with
        | (len, Some first) => Some (s <| ss_writers := <[i := WPolling first len]> (ss_writers s) |>)
        | (_, None) => None
        end
  | _ => None
  end.

(** The sub-HAL stores into its region, outside of the lock. *)
Definition sub_write (i : nat) (ws : list sensors_event_t) (s : SSys) : option SSys :=
  w ← ss_writers s !! i;
  q ← queues (ss_ctx s) !! i;
  match w with
  | WPolling first len =>
      if zlen ws <=? len then Some (s <| ss_ctx := set_queue i (write_region first ws q) (ss_ctx s) |>) else None
  | _ => None
  end.

(** multihal.cpp:160-168 [writerTask, poll] the sub-HAL returns, with at most as many
    events as there are slots; without events the writer starts again. *)
Definition sub_return (i : nat) (eventsPolled : Z) (s : SSys) : option SSys :=
  w ← ss_writers s !! i;
  q ← queues (ss_ctx s) !! i;
  p ← ss_produced s !! i;
  match w with
  | WPolling first len =>
      if len <? eventsPolled then None
      else if eventsPolled <=? 0 then Some (s <| ss_writers := <[i := WIdle]> (ss_writers s) |>)
      else
        let evs := take (Z.to_nat eventsPolled) (drop (Z.to_nat first) (mData q)) in
        Some (s <| ss_writers := <[i := WPolled first evs]> (ss_writers s) |>
                <| ss_produced := <[i := p ++ evs]> (ss_produced s) |>)
  | _ => None
  end.

(** multihal.cpp:169-176 [writerTask, mark] under the lock. *)
Definition writer_mark (i : nat) (s : SSys) : option SSys :=
  w ← ss_writers s !! i;
  q ← queues (ss_ctx s) !! i;
  match w with
  | WPolled first evs =>
      Some (s <| ss_ctx := set_queue i (markAsWritten (zlen evs) q) (ss_ctx s) |>
              <| ss_writers := <[i := WIdle]> (ss_writers s) |>
              <| ss_reader := match ss_reader s with
                              | RAsleep mr d b => RAsleep mr d (b || waiting_for_data s)
                              | r => r
                              end |>)
  | _ => None
  end.

(** multihal.cpp:365-377 [sensors_poll_context_t::poll, end of the outer loop] sleep when
    nothing was read, otherwise return. *)
Definition after_scan (maxReads : Z) (sc : Scan) (s : SSys) : SSys :=
  let s := s <| ss_ctx := sc_ctx sc |> <| ss_writers := wake_writers (sc_wake sc) (ss_writers s) |> in
  if sc_read sc =? 0 then s <| ss_reader := RAsleep maxReads (sc_data sc) false |> <| waiting_for_data := true |>
  else s <| ss_reader := RIdle |> <| waiting_for_data := false |>
         <| ss_out := ss_out s ++ take (Z.to_nat (sc_read sc)) (sc_data sc) |>.

(** multihal.cpp:338-378 [sensors_poll_context_t::poll] a call of the framework, with an
    array that has room for [maxReads] events. *)
Definition reader_poll (maxReads : Z) (data : list sensors_event_t) (s : SSys) : option SSys :=
  match ss_reader s with
  | RIdle => if maxReads <=? zlen data then sc ← poll_scan m maxReads data (ss_ctx s); Some (after_scan maxReads sc s) else None
  | RAsleep _ _ _ => None
  end.

(** multihal.cpp:369-373 [sensors_poll_context_t::poll, wake-up] the next round of the
    outer loop. *)
Definition reader_wake (s : SSys) : option SSys :=
  match ss_reader s with
  | RAsleep maxReads data _ => sc ← poll_scan m maxReads data (ss_ctx s); Some (after_scan maxReads sc s)
  | RIdle => None
  end.

Inductive saction :=
  | AReserve (i : nat)
  | AWrite (i : nat) (ws : list sensors_event_t)
  | AReturn (i : nat) (eventsPolled : Z)
  | AMark (i : nat)
  | APoll (maxReads : Z) (data : list sensors_event_t)
  | AWake.

Definition sstep (a : saction) (s : SSys) : option SSys :=
  match a with
  | AReserve i => writer_reserve i s
  | AWrite i ws => sub_write i ws s
  | AReturn i n => sub_return i n s
  | AMark i => writer_mark i s
  | APoll mr d => reader_poll mr d s
  | AWake => reader_wake s
  end.

Definition start (ctx : Context_) : SSys :=
  mkSSys ctx (replicate (length (queues ctx)) WIdle) RIdle false (replicate (length (queues ctx)) []) [].

Inductive sreachable (s0 : SSys) : SSys -> Prop :=
  | sreach_start : sreachable s0 s0
  | sreach_step s a s' : sreachable s0 s -> sstep a s = Some s' -> sreachable s0 s'.

Fixpoint srun (acts : list saction) (s : SSys) : option SSys :=
  match acts with
  | [] => Some s
  | a :: acts' => s' ← sstep a s; srun acts' s'
  end.

Lemma srun_reachable acts s0 s s' : sreachable s0 s -> srun acts s = Some s' -> sreachable s0 s'.
Proof.
  revert s. induction acts as [|a acts IH]; intros s H E; cbn in E; [by injection E as <-|].
  apply bind_Some in E as (s1 & E1 & E). apply (IH s1); [|done]. by eapply sreach_step.
Qed.

(** * The invariant *)

(** Events a writer has got and not yet marked. *)
Definition inflight (w : writer) : list sensors_event_t := match w with WPolled _ evs => evs | _ => [] end.

Definition writer_ok (q : SensorEventQueue sensors_event_t) (w : writer) : Prop :=
  match w with
  | WIdle => True
  | WAsleep b => b = false -> mSize q = mCapacity q
  | WPolling first len => free_region first len q
  | WPolled first evs => free_region first (zlen evs) q /\
      forall i, (i < length evs)%nat -> mData q !! (Z.to_nat first + i)%nat = evs !! i
  end.

Definition all_empty (ctx : Context_) : Prop := forall i q, queues ctx !! i = Some q -> contents q = [].

Definition reader_ok (s : SSys) : Prop :=
  match ss_reader s with
  | RIdle => waiting_for_data s = false
  | RAsleep mr d b => waiting_for_data s = true /\ mr <= zlen d /\ (b = false -> 0 < mr -> all_empty (ss_ctx s))
  end.

(** What holds of the [i]-th queue, its writer and its sub-HAL, when [h] has been taken
    out so far. *)
Definition column (h : list taken) (i : nat) (q : SensorEventQueue sensors_event_t) (w : writer) (p : list sensors_event_t) : Prop :=
  mCapacity q = SENSOR_EVENT_QUEUE_CAPACITY /\ writer_ok q w /\ p = taken_from i h ++ contents q ++ inflight w.

Record sys_inv (h : list taken) (s : SSys) : Prop := {
  sv_ctx : ctx_ok (ss_ctx s);
  sv_writers : length (ss_writers s) = length (queues (ss_ctx s));
  sv_produced : length (ss_produced s) = length (queues (ss_ctx s));
  sv_columns : forall i q w p, queues (ss_ctx s) !! i = Some q -> ss_writers s !! i = Some w -> ss_produced s !! i = Some p ->
    column h i q w p;
  sv_reader : reader_ok s;
  sv_out : ss_out s = delivered m h;
}.

(** A step of one writer that leaves the other columns alone. *)
Lemma column_step h s i q' w' p' r' : sys_inv h s -> queue_wf q' ->
  (i < length (queues (ss_ctx s)))%nat -> column h i q' w' p' ->
  reader_ok (mkSSys (set_queue i q' (ss_ctx s)) (<[i := w']> (ss_writers s)) r' (waiting_for_data s)
               (<[i := p']> (ss_produced s)) (ss_out s)) ->
  sys_inv h (mkSSys (set_queue i q' (ss_ctx s)) (<[i := w']> (ss_writers s)) r' (waiting_for_data s)
               (<[i := p']> (ss_produced s)) (ss_out s)).
Proof.
  intros [[Hc1 Hc2] Hw Hp Hcol Hr Ho] Hq Hi Hnew Hr'. split; cbn; rewrite ?length_insert; try done.
  - split; cbn; [by apply Forall_insert|]. unfold zlen in *. rewrite length_insert. destruct Hc2 as [E|?]; [|by right].
    rewrite E in Hi. cbn in Hi. lia.
  - intros j q w p E1 E2 E3. destruct (decide (i = j)) as [<-|Hne].
    + rewrite list_lookup_insert_eq in E1 by lia. rewrite list_lookup_insert_eq in E2 by lia.
      rewrite list_lookup_insert_eq in E3 by lia. by simplify_eq.
    + rewrite list_lookup_insert_ne in E1 by done. rewrite list_lookup_insert_ne in E2 by done.
      rewrite list_lookup_insert_ne in E3 by done. by apply Hcol.
Qed.

(** Queues that keep their contents keep the reader's part. *)
Lemma reader_ok_queue s i q q' r ws ps : queues (ss_ctx s) !! i = Some q -> contents q' = contents q -> reader_ok s ->
  ss_reader s = r -> reader_ok (mkSSys (set_queue i q' (ss_ctx s)) ws r (waiting_for_data s) ps (ss_out s)).
Proof.
  intros Eq Hc Hr <-. unfold reader_ok in *. cbn. destruct (ss_reader s) as [|mr d b]; [done|].
  destruct Hr as (H1 & H2 & H3). split_and!; try done. intros Hb Hm j x E. specialize (H3 Hb Hm). cbn in E.
  apply list_lookup_insert_Some in E as [(<- & <- & _)|[_ E]]; [rewrite Hc|]; by eapply H3.
Qed.

Lemma set_queue_id i q ctx : queues ctx !! i = Some q -> set_queue i q ctx = ctx.
Proof. intros E. unfold set_queue. destruct ctx. cbn in *. by rewrite list_insert_id. Qed.

Lemma writer_only h s i q w p w' : sys_inv h s -> queues (ss_ctx s) !! i = Some q -> ss_writers s !! i = Some w ->
  ss_produced s !! i = Some p -> inflight w' = inflight w -> writer_ok q w' ->
  sys_inv h (s <| ss_writers := <[i := w']> (ss_writers s) |>).
Proof.
  intros Hs Eq Ew Ep Hi Hok. pose proof (lookup_lt_Some _ _ _ Eq).
  assert (queue_wf q) as Hq by (by eapply Forall_lookup_1; [apply (co_queues _ (sv_ctx _ _ Hs))|]).
  destruct (sv_columns _ _ Hs i q w p Eq Ew Ep) as (C1 & C2 & C3).
  pose proof (column_step h s i q w' p (ss_reader s) Hs Hq ltac:(done)) as Hx.
  rewrite set_queue_id, (list_insert_id _ _ p) in Hx by done. apply Hx.
  - by rewrite C3, <- Hi.
  - pose proof (sv_reader _ _ Hs). done.
Qed.

Lemma free_region_shorter {E} first l l' (q : SensorEventQueue E) : 0 <= l' <= l -> free_region first l q -> free_region first l' q.
Proof. unfold free_region. lia. Qed.

(** The queue, the writer and the events of one sub-HAL. *)
Lemma sys_column h s i q w : sys_inv h s -> queues (ss_ctx s) !! i = Some q -> ss_writers s !! i = Some w ->
  exists p, ss_produced s !! i = Some p /\ queue_wf q /\ column h i q w p /\ (i < length (queues (ss_ctx s)))%nat.
Proof.
  intros Hs Eq Ew. pose proof (lookup_lt_Some _ _ _ Eq).
  destruct (lookup_lt_is_Some_2 (ss_produced s) i) as [p Ep]; [rewrite (sv_produced _ _ Hs); lia|].
  exists p. split_and!; try done; [by eapply Forall_lookup_1; [apply (co_queues _ (sv_ctx _ _ Hs))|]|]. by eapply sv_columns.
Qed.

Lemma inv_reserve h s i s' : sys_inv h s -> writer_reserve i s = Some s' -> sys_inv h s'.
Proof.
  intros Hs E. unfold writer_reserve in E. apply bind_Some in E as (w & Ew & E). apply bind_Some in E as (q & Eq & E).
  destruct (sys_column h s i q w Hs Eq Ew) as (p & Ep & Hq & (C1 & C2 & C3) & _).
  assert (inflight w = [] -> (if must_wait q then Some (s <| ss_writers := <[i := WAsleep false]> (ss_writers s) |>)
      else
        match getWritableRegion SENSOR_EVENT_QUEUE_CAPACITY q with
        | (len, Some first) => Some (s <| ss_writers := <[i := WPolling first len]> (ss_writers s) |>)
        | (_, None) => None
        end) = Some s' -> sys_inv h s') as H.
  { intros Hi Ex. destruct (must_wait q) eqn:Em.
    - injection Ex as <-. eapply writer_only; [done..|by rewrite Hi|]. intros _. by apply must_wait_full.
    - destruct (getWritableRegion_free SENSOR_EVENT_QUEUE_CAPACITY q Hq) as (f & l & E2 & Hf & _); [unfold SENSOR_EVENT_QUEUE_CAPACITY; lia| |].
      { unfold must_wait in Em. apply Z.eqb_neq in Em. destruct Hq. lia. }
      rewrite E2 in Ex. injection Ex as <-. eapply writer_only; [done..|by rewrite Hi|done]. }
  destruct w; try done; by apply H.
Qed.

Lemma inv_write h s i ws s' : sys_inv h s -> sub_write i ws s = Some s' -> sys_inv h s'.
Proof.
  intros Hs E. unfold sub_write in E. apply bind_Some in E as (w & Ew & E). apply bind_Some in E as (q & Eq & E).
  destruct (sys_column h s i q w Hs Eq Ew) as (p & Ep & Hq & (C1 & C2 & C3) & Hi).
  destruct w as [| |f l|]; try done. destruct (Z.leb_spec (zlen ws) l) as [Hl|]; [|done]. injection E as <-.
  destruct (write_region_contents f l ws q Hq C2 Hl) as [Hw Hc].
  pose proof (column_step h s i (write_region f ws q) (WPolling f l) p (ss_reader s) Hs Hw Hi) as Hx.
  rewrite (list_insert_id (ss_writers s) i (WPolling f l)), (list_insert_id (ss_produced s) i p) in Hx by done.
  apply Hx; [split_and!; [done..|by rewrite Hc]|]. eapply reader_ok_queue; [done..|exact (sv_reader _ _ Hs)|done].
Qed.

Lemma inv_return h s i n s' : sys_inv h s -> sub_return i n s = Some s' -> sys_inv h s'.
Proof.
  intros Hs E. unfold sub_return in E. apply bind_Some in E as (w & Ew & E). apply bind_Some in E as (q & Eq & E).
  apply bind_Some in E as (p & Ep & E).
  destruct (sys_column h s i q w Hs Eq Ew) as (p2 & Ep2 & Hq & (C1 & C2 & C3) & Hi). simplify_eq.
  destruct w as [| |f l|]; try done. destruct (Z.ltb_spec l n) as [|Hn]; [done|]. destruct (Z.leb_spec n 0) as [Hz|Hz].
  { injection E as <-. by eapply writer_only. }
  injection E as <-. set (evs := take (Z.to_nat n) (drop (Z.to_nat f) (mData q))).
  assert (0 <= f) as Hf by (destruct C2 as (_ & -> & _), Hq; apply Z.mod_pos_bound; lia).
  assert (zlen evs = n) as Hlen.
  { unfold evs, zlen. rewrite length_take, length_drop. destruct C2 as (_ & _ & ? & _), Hq. unfold zlen in *. lia. }
  pose proof (column_step h s i q (WPolled f evs) ((taken_from i h ++ contents q ++ []) ++ evs) (ss_reader s) Hs Hq Hi) as Hx.
  rewrite set_queue_id in Hx by done. apply Hx; [|exact (sv_reader _ _ Hs)].
  split_and!; [done| |by rewrite app_nil_r, app_assoc]. split; [by apply (free_region_shorter _ l); [lia|]|].
  intros j Hj. unfold evs. rewrite lookup_take_lt, lookup_drop; [done|]. unfold zlen in Hlen. lia.
Qed.

Lemma inv_mark h s i s' : sys_inv h s -> writer_mark i s = Some s' -> sys_inv h s'.
Proof.
  intros Hs E. unfold writer_mark in E. apply bind_Some in E as (w & Ew & E). apply bind_Some in E as (q & Eq & E).
  destruct (sys_column h s i q w Hs Eq Ew) as (p & Ep & Hq & (C1 & C2 & C3) & Hi).
  destruct w as [| | |f evs]; try done. injection E as <-. destruct C2 as [C2 C4].
  destruct (mark_contents f (zlen evs) evs q Hq C2 ltac:(lia) C4) as [Hm Hc].
  pose proof (column_step h s i (markAsWritten (zlen evs) q) WIdle p
    (match ss_reader s with RAsleep mr d b => RAsleep mr d (b || waiting_for_data s) | r => r end) Hs Hm Hi) as Hx.
  rewrite (list_insert_id (ss_produced s) i p) in Hx by done. apply Hx.
  - split_and!; [done..|]. rewrite Hc. cbn. by rewrite app_nil_r, C3.
  - pose proof (sv_reader _ _ Hs) as Hr. unfold reader_ok in *. cbn. destruct (ss_reader s) as [|mr d b]; [done|].
    destruct Hr as (H1 & H2 & _). split_and!; try done. by rewrite H1, orb_true_r.
Qed.

Lemma wake_lookup wake ws i w : wake_writers wake ws !! i = Some w ->
  exists w0, ws !! i = Some w0 /\ w = match w0 with WAsleep b => WAsleep (b || bool_decide (i ∈ wake)) | _ => w0 end.
Proof.
  unfold wake_writers. rewrite list_lookup_imap. destruct (ws !! i) as [w0|]; [|done]. intros [= <-]. by exists w0.
Qed.

Lemma length_wake wake ws : length (wake_writers wake ws) = length ws.
Proof. apply length_imap. Qed.

(** A scan leaves each column sound, with its events moved to the history. *)
Lemma scan_column h k mr data s sc i q0 q w p : sys_inv h s -> scan_inv m (ss_ctx s) mr data k sc ->
  queues (ss_ctx s) !! i = Some q0 -> queues (sc_ctx sc) !! i = Some q ->
  wake_writers (sc_wake sc) (ss_writers s) !! i = Some w -> ss_produced s !! i = Some p -> column (h ++ k) i q w p.
Proof.
  intros Hs Hk Eq0 Eq Ew Ep. apply wake_lookup in Ew as (w0 & Ew & ->).
  destruct (sys_column h s i q0 w0 Hs Eq0 Ew) as (p2 & Ep2 & Hq0 & (C1 & C2 & C3) & _). simplify_eq.
  destruct (si_cont _ _ _ _ _ _ Hk i q0 q Eq0 Eq) as (H1 & H2 & H3 & H4).
  assert (queue_wf q) as Hq by (by eapply Forall_lookup_1; [apply (co_queues _ (si_ok _ _ _ _ _ _ Hk))|]).
  split_and!.
  - by rewrite H2.
  - destruct w0 as [|b|f l|f evs]; cbn in *; [done| |by apply H4|destruct C2; split; [by apply H4|by rewrite H3]].
    intros [-> Hb]%orb_false_iff. apply bool_decide_eq_false in Hb. specialize (C2 eq_refl).
    destruct (si_wake _ _ _ _ _ _ Hk i q0 q Eq0 Eq) as [?|[?|Hc]]; [done..|].
    pose proof (length_contents q Hq) as L1. rewrite Hc, length_contents in L1 by done. destruct Hq, Hq0. lia.
  - rewrite taken_from_app, H1. destruct w0; cbn; by rewrite <- !app_assoc.
Qed.

Lemma inv_scan h s mr data sc : sys_inv h s -> mr <= zlen data -> poll_scan m mr data (ss_ctx s) = Some sc ->
  exists k, sys_inv (h ++ k) (after_scan mr sc s).
Proof.
  intros Hs Hm E. destruct (poll_scan_inv m (ss_ctx s) mr data Hm (sv_ctx _ _ Hs)) as (sc' & k & E2 & Hk & Hx). simplify_eq.
  exists k. pose proof (si_data _ _ _ _ _ _ Hk) as (Hd1 & Hd2 & Hd3). pose proof (si_len _ _ _ _ _ _ Hk) as Hl.
  assert (forall i q w p, queues (sc_ctx sc) !! i = Some q -> wake_writers (sc_wake sc) (ss_writers s) !! i = Some w ->
    ss_produced s !! i = Some p -> column (h ++ k) i q w p) as Hcol.
  { intros i q w p E1 E3 E4. destruct (lookup_lt_is_Some_2 (queues (ss_ctx s)) i) as [q0 Eq0].
    { rewrite <- Hl. by eapply lookup_lt_Some. }
    by eapply scan_column. }
  unfold after_scan. destruct (Z.eqb_spec (sc_read sc) 0) as [H0|H0].
  - split; cbn; rewrite ?length_wake, ?Hl; try apply Hs; try done; [apply Hk| |].
    + unfold reader_ok. cbn. split_and!; [done|unfold zlen in *; lia|]. intros _ Hmr i q Eq.
      destruct Hx as [Hx|Hx]; [by eapply scan_all_empty|lia].
    + rewrite (sv_out _ _ Hs), delivered_app. assert (delivered m k = []) as ->; [|by rewrite app_nil_r].
      apply nil_length_inv. unfold zlen in Hd2. lia.
  - split; cbn; rewrite ?length_wake, ?Hl; try apply Hs; try done; [apply Hk|].
    by rewrite (sv_out _ _ Hs), Hd3, delivered_app.
Qed.

Lemma inv_sstep h s a s' : sys_inv h s -> sstep a s = Some s' -> exists k, sys_inv (h ++ k) s'.
Proof.
  intros Hs E. destruct a as [i|i ws|i n|i|mr d|]; cbn in E;
    try (exists []; rewrite app_nil_r; by eauto using inv_reserve, inv_write, inv_return, inv_mark).
  - unfold reader_poll in E. destruct (ss_reader s); [|done]. destruct (Z.leb_spec mr (zlen d)); [|done].
    apply bind_Some in E as (sc & E & [= <-]). by eapply inv_scan.
  - unfold reader_wake in E. pose proof (sv_reader _ _ Hs) as Hr. unfold reader_ok in Hr.
    destruct (ss_reader s) as [|mr d b]; [done|]. apply bind_Some in E as (sc & E & [= <-]). eapply inv_scan; [done|apply Hr|done].
Qed.

Definition fresh_queue (q : SensorEventQueue sensors_event_t) : Prop :=
  exists memory, zlen memory = SENSOR_EVENT_QUEUE_CAPACITY /\ q = new_queue SENSOR_EVENT_QUEUE_CAPACITY memory.

Lemma inv_start ctx : Forall fresh_queue (queues ctx) -> nextReadIndex ctx = 0 -> sys_inv [] (start ctx).
Proof.
  intros Hf Hn. split; cbn; rewrite ?length_replicate; try done.
  - split.
    + eapply list.Forall_impl; [done|]. intros q (mem & Hm & ->). by apply new_queue_wf.
    + rewrite Hn. destruct (queues ctx) as [|q qs]; [by left|right]. unfold zlen. cbn. lia.
  - intros i q w p E1 [-> _]%lookup_replicate [-> _]%lookup_replicate.
    destruct (Forall_lookup_1 _ _ _ _ Hf E1) as (mem & Hm & ->). done.
Qed.
End Threads.

(** * The opened device *)

Lemma new_queues_fresh memory from k : (forall i, zlen (memory i) = SENSOR_EVENT_QUEUE_CAPACITY) ->
  Forall fresh_queue (new_queues memory from k).
Proof. intros H. revert from. induction k as [|k IH]; intros from; cbn; constructor; auto. by exists (memory from). Qed.

Lemma sensors_reachable_inv m memory m0 ctx m1 s : (forall i, zlen (memory i) = SENSOR_EVENT_QUEUE_CAPACITY) ->
  open_sensors memory m0 = Ok (ctx, m1) -> sreachable m (start ctx) s -> exists h, sys_inv m h s.
Proof.
  intros Hm Ho H. induction H as [|s a s' _ [h IH] E].
  - destruct (open_sensors_run memory m0) as (vs & tr & E & _). rewrite E in Ho. injection Ho as <- <-. exists [].
    apply inv_start; [by apply new_queues_fresh|done].
  - destruct (inv_sstep m h s a s' IH E) as [k Hk]. by exists (h ++ k).
Qed.

(** C8: no event is lost, duplicated or reordered on its way to the framework. In every
    reachable state, however the sub-HALs' threads and the framework's calls interleave,
    the events a sub-HAL has returned are exactly those taken out of its queue so far,
    those still in the queue and those about to be marked, in this order; what the
    framework has got are the events taken out, remapped, less those of unknown sensors;
    and a sub-HAL that is storing events only has slots that cannot be read. *)
Theorem sensor_events_in_order (m : MultiHal) (memory : nat -> list sensors_event_t) (m0 m1 : MultiHal) (ctx : Context_) (s : SSys)
  (Hmem : forall i, zlen (memory i) = SENSOR_EVENT_QUEUE_CAPACITY)
  (Hopen : open_sensors memory m0 = Ok (ctx, m1)) (Hr : sreachable m (start ctx) s) :
  exists h, ss_out s = delivered m h /\
    forall i q w p, queues (ss_ctx s) !! i = Some q -> ss_writers s !! i = Some w -> ss_produced s !! i = Some p ->
      p = taken_from i h ++ contents q ++ inflight w /\
      forall first len, w = WPolling first len -> forall a b, 0 <= a < mSize q -> 0 <= b < len ->
        first + b < mCapacity q /\ first + b <> (mStart q + a) mod mCapacity q.
Proof.
  destruct (sensors_reachable_inv m memory m0 ctx m1 s Hmem Hopen Hr) as [h Hs]. exists h. split; [apply Hs|].
  intros i q w p Eq Ew Ep. destruct (sys_column m h s i q w Hs Eq Ew) as (p' & Ep' & Hq & (C1 & C2 & C3) & _). simplify_eq.
  split; [done|]. intros first len -> a b Ha Hb. cbn in C2. split; [|by eapply free_region_disjoint].
  destruct C2 as (_ & _ & ? & _). lia.
Qed.

(** C26: no wake-up is lost: in every reachable state, a framework thread that sleeps for
    data and has not been signalled finds every queue empty, and a writer that sleeps for
    space and has not been signalled finds its queue full; so they never sleep on each
    other. *)
Theorem sensor_no_lost_wakeup (m : MultiHal) (memory : nat -> list sensors_event_t) (m0 m1 : MultiHal) (ctx : Context_) (s : SSys)
  (Hmem : forall i, zlen (memory i) = SENSOR_EVENT_QUEUE_CAPACITY)
  (Hopen : open_sensors memory m0 = Ok (ctx, m1)) (Hr : sreachable m (start ctx) s) :
  (forall mr d, ss_reader s = RAsleep mr d false -> 0 < mr ->
     (forall i q, queues (ss_ctx s) !! i = Some q -> contents q = []) /\
     (forall i, ss_writers s !! i <> Some (WAsleep false))) /\
  (forall i q, ss_writers s !! i = Some (WAsleep false) -> queues (ss_ctx s) !! i = Some q ->
     length (contents q) = Z.to_nat SENSOR_EVENT_QUEUE_CAPACITY).
Proof.
  destruct (sensors_reachable_inv m memory m0 ctx m1 s Hmem Hopen Hr) as [h Hs].
  assert (forall i q, ss_writers s !! i = Some (WAsleep false) -> queues (ss_ctx s) !! i = Some q ->
    length (contents q) = Z.to_nat SENSOR_EVENT_QUEUE_CAPACITY) as Hw.
  { intros i q Ew Eq. destruct (sys_column m h s i q _ Hs Eq Ew) as (p & _ & Hq & (C1 & C2 & _) & _).
    rewrite length_contents, C2 by done. by rewrite C1. }
  split; [|done]. intros mr d Er Hm. pose proof (sv_reader _ _ _ Hs) as Hrd. unfold reader_ok in Hrd. rewrite Er in Hrd.
  destruct Hrd as (_ & _ & Hrd). specialize (Hrd eq_refl Hm). split; [done|]. intros i Ew.
  destruct (lookup_lt_is_Some_2 (queues (ss_ctx s)) i) as [q Eq].
  { rewrite <- (sv_writers _ _ _ Hs). by eapply lookup_lt_Some. }
  specialize (Hw i q Ew Eq). rewrite (Hrd i q Eq) in Hw. vm_compute in Hw. discriminate.
Qed.

Definition blank : list sensors_event_t := replicate 36 (mkEvent 0 0 []).

(** Two sub-HALs; the framework sleeps, the second one delivers two events, the framework
    wakes up with room for one. *)
Definition schedule : list saction :=
  [APoll 1 [mkEvent 0 0 []]; AReserve 1; AWrite 1 [mkEvent 9 5 [1]; mkEvent 9 5 [2]]; AReserve 0; AReturn 1 2; AMark 1; AWake].

Definition opened : Context_ :=
  match open_sensors (fun _ => blank) (multihal0 two_hals two_libs) with Ok (ctx, _) => ctx | _ => mkCtx [] [] 0 end.

Lemma opened_ok : exists m1, open_sensors (fun _ => blank) (multihal0 two_hals two_libs) = Ok (opened, m1).
Proof.
  destruct (open_sensors_run (fun _ => blank) (multihal0 two_hals two_libs)) as (vs & tr & E & _). unfold opened. rewrite E. by eexists.
Qed.

Definition after_schedule : SSys := default (start opened) (srun two_handles schedule (start opened)).

Lemma sensor_events_in_order_witness :
  ss_out after_schedule = [mkEvent 2 5 [1]] /\ exists h, ss_out after_schedule = delivered two_handles h.
Proof.
  split; [vm_compute; reflexivity|]. destruct opened_ok as [m1 E].
  destruct (sensor_events_in_order two_handles (fun _ => blank) (multihal0 two_hals two_libs) m1 opened after_schedule) as (h & H & _).
  - intros i. reflexivity.
  - exact E.
  - apply (srun_reachable two_handles schedule (start opened) (start opened)); [constructor|]. vm_compute. reflexivity.
  - by exists h.
Defined.

Lemma sensor_no_lost_wakeup_witness :
  let s := default (start opened) (srun two_handles [APoll 1 [mkEvent 0 0 []]] (start opened)) in
  ss_reader s = RAsleep 1 [mkEvent 0 0 []] false /\ forall i q, queues (ss_ctx s) !! i = Some q -> contents q = [].
Proof.
  cbv zeta. split; [vm_compute; reflexivity|].
  destruct opened_ok as [m1 E].
  refine (proj1 (proj1 (sensor_no_lost_wakeup two_handles (fun _ => blank) (multihal0 two_hals two_libs) m1 opened _ _ _ _)
    1 [mkEvent 0 0 []] _ _)).
  - intros i. reflexivity.
  - exact E.
  - apply (srun_reachable two_handles [APoll 1 [mkEvent 0 0 []]] (start opened) (start opened)); [constructor|]. vm_compute. reflexivity.
  - vm_compute. reflexivity.
  - done.
Defined.
