(* ===== verification/RilEvent.v ===== *)
(** The event loop of the radio interface layer (src/hal/libril/ril_event.cpp): events
    that watch a descriptor, timers kept on a sorted doubly linked list, and the list of
    pending events that a round of the loop fires. The lists are intrusive, so the model
    keeps the memory the events live in: an operation that follows a pointer to no event
    is undefined. *)

From stdpp Require Import base list gmap sorting numbers.
From Stdlib Require Import ZArith Lia.
From S2P Require Import Prelude.

Local Open Scope Z_scope.
Local Open Scope st_scope.
Local Open Scope rec_scope.

(** ril_event.h:20-20 [MAX_FD_EVENTS]. *)
Definition MAX_FD_EVENTS : nat := 8.

(** The descriptors an [fd_set] has a bit for. *)
Definition FD_SETSIZE : Z := 1024.

Definition NULL : Z := 0.

(** Seconds and microseconds. *)
Abbreviation timeval := (Z * Z)%type.

(** ril_event.h:24-34 [ril_event]. A pointer to an event is its address. *)
Record ril_event := mkEv {
  next : Z;
  prev : Z;
  fd : Z;
  index : Z;
  persist : bool;
  timeout : timeval;
  func : Z;
  param : Z;
}.
#[export] Instance eta_ril_event : Eta ril_event := fun e =>
  mkEv (next e) (prev e) (fd e) (index e) (persist e) (timeout e) (func e) (param e).

(** ril_event.cpp:72-77 [timer_list] the address of the list's own event. *)
Definition timer_list : Z := 1.

(** ril_event.cpp:72-77 [pending_list] likewise. *)
Definition pending_list : Z := 2.

(** ril_event.cpp:72-77 [readFds, nfds, watch_table] the variables, with the memory of the
    events. *)
Record EvState := mkEvState {
  heap : gmap Z ril_event;
  readFds : gset Z;
  nfds : Z;
  watch_table : list Z;
}.
#[export] Instance eta_EvState : Eta EvState := fun s =>
  mkEvState (heap s) (readFds s) (nfds s) (watch_table s).

(** * Time *)

(** ril_event.cpp:42-51 [timeradd]. *)
Definition timeradd (t u : timeval) : timeval :=
  let sec := i32 (t.1 + u.1) in
  let usec := i32 (t.2 + u.2) in
  if 1000000 <=? usec then (i32 (sec + 1), usec - 1000000) else (sec, usec).

(** ril_event.cpp:54-59 [timercmp] with [<]; the code's other use, [>], is its converse. *)
Definition timer_lt (a b : timeval) : bool := if a.1 =? b.1 then a.2 <? b.2 else a.1 <? b.1.

(** ril_event.cpp:61-70 [timersub]. *)
Definition timersub (a b : timeval) : timeval :=
  let sec := i32 (a.1 - b.1) in
  let usec := i32 (a.2 - b.2) in
  if usec <? 0 then (i32 (sec - 1), usec + 1000000) else (sec, usec).

(** ril_event.cpp:101-107 [getNow] of what [clock_gettime] reads, in nanoseconds. *)
Definition getNow (ts : timeval) : timeval := (ts.1, Z.quot ts.2 1000).

(** * Lists *)

(** An access through a pointer. *)
Definition deref (a : Z) : ST EvState ril_event := let* s := getM in of_option (heap s !! a).

Definition store (a : Z) (f : ril_event -> ril_event) : ST EvState unit :=
  deref a;; modM (fun s => s <| heap := alter f a (heap s) |>).

(** An event whose memory has been cleared. *)
Definition zero_event : ril_event := mkEv NULL NULL 0 0 false (0, 0) NULL 0.

(** ril_event.cpp:109-115 [init_list]. *)
Definition init_list (list : Z) : ST EvState unit :=
  modM (fun s => s <| heap := <[list := zero_event]> (heap s) |>);;
  store list (fun e => e <| next := list |>);;
  store list (fun e => e <| prev := list |>);;
  store list (fun e => e <| fd := -1 |>).

(** ril_event.cpp:117-124 [addToList]. *)
Definition addToList (ev list : Z) : ST EvState unit :=
  store ev (fun e => e <| next := list |>);;
  let* l := deref list in
  store ev (fun e => e <| prev := prev l |>);;
  let* e := deref ev in
  store (prev e) (fun p => p <| next := ev |>);;
  store list (fun e => e <| prev := ev |>).

(** ril_event.cpp:126-136 [removeFromList]. *)
Definition removeFromList (ev : Z) : ST EvState unit :=
  let* e := deref ev in
  store (next e) (fun n => n <| prev := prev e |>);;
  let* e := deref ev in
  store (prev e) (fun p => p <| next := next e |>);;
  store ev (fun e => e <| next := NULL |>);;
  store ev (fun e => e <| prev := NULL |>).

(** * The watch table *)

(** A descriptor outside of the set is an access outside of the array of bits. *)
Definition in_fd_set (n : Z) : bool := (0 <=? n) && (n <? FD_SETSIZE).
Definition FD_SET (n : Z) : ST EvState unit :=
  if in_fd_set n then modM (fun s => s <| readFds := readFds s ∪ {[n]} |>) else undefM.
Definition FD_CLR (n : Z) : ST EvState unit :=
  if in_fd_set n then modM (fun s => s <| readFds := readFds s ∖ {[n]} |>) else undefM.
Definition FD_ISSET (n : Z) (rfds : gset Z) : ST EvState bool :=
  if in_fd_set n then retM (bool_decide (n ∈ rfds)) else undefM.

(** ril_event.cpp:148-154 [removeWatch, loop] the largest watched descriptor. *)
Fixpoint max_fd (table : list Z) (n : Z) : ST EvState Z :=
  match table with
  | [] => retM n
  | rev :: table' =>
      if rev =? NULL then max_fd table' n
      else let* e := deref rev in max_fd table' (if n <? fd e then fd e else n)
  end.

(** ril_event.cpp:139-161 [removeWatch]. *)
Definition removeWatch (ev : Z) (i : nat) : ST EvState unit :=
  modM (fun s => s <| watch_table := <[i := NULL]> (watch_table s) |>);;
  store ev (fun e => e <| index := -1 |>);;
  let* e := deref ev in
  FD_CLR (fd e);;
  let* s := getM in
  if fd e + 1 =? nfds s then
    let* n := max_fd (watch_table s) 0 in
    modM (fun s => s <| nfds := n + 1 |>)
  else retM tt.

(** * A round of the loop *)

(** ril_event.cpp:174-181 [processTimeouts, loop] at time [now]. *)
Fixpoint expire_loop (fuel : nat) (now : timeval) (tev : Z) : ST EvState unit :=
  match fuel with
  | O => blockM
  | S fuel' =>
      if tev =? timer_list then retM tt
      else
        let* e := deref tev in
        if timer_lt (timeout e) now then
          removeFromList tev;;
          addToList tev pending_list;;
          expire_loop fuel' now (next e)
        else retM tt
  end.

(** The events in memory bound the length of a list. *)
Definition list_fuel (s : EvState) : nat := S (size (heap s)).

(** ril_event.cpp:163-185 [processTimeouts] when the clock reads [ts]. *)
Definition processTimeouts (ts : timeval) : ST EvState unit :=
  let* l := deref timer_list in
  let* s := getM in
  expire_loop (list_fuel s) (getNow ts) (next l).

(** ril_event.cpp:192-201 [processReadReadies, loop] the slots from [i] on, [k] of them. *)
Fixpoint ready_loop (k i : nat) (rfds : gset Z) (n : Z) : ST EvState unit :=
  match k with
  | O => retM tt
  | S k' =>
      if n <=? 0 then retM tt
      else
        let* s := getM in
        let* rev := of_option (watch_table s !! i) in
        if rev =? NULL then ready_loop k' (S i) rfds n
        else
          let* e := deref rev in
          let* set := FD_ISSET (fd e) rfds in
          if set then
            addToList rev pending_list;;
            let* e := deref rev in
            (if persist e then retM tt else removeWatch rev i);;
            ready_loop k' (S i) rfds (n - 1)
          else ready_loop k' (S i) rfds n
  end.

(** ril_event.cpp:187-205 [processReadReadies]. *)
Definition processReadReadies (rfds : gset Z) (n : Z) : ST EvState unit := ready_loop MAX_FD_EVENTS 0 rfds n.

(** ril_event.cpp:220-243 [calcNextTimeout] [None] stands for -1. It takes no lock. *)
Definition calcNextTimeout (ts : timeval) : ST EvState (option timeval) :=
  let* l := deref timer_list in
  if next l =? timer_list then retM None
  else
    let* tev := deref (next l) in
    if timer_lt (getNow ts) (timeout tev) then retM (Some (timersub (timeout tev) (getNow ts)))
    else retM (Some (0, 0)).

(** ril_event.cpp:211-216 [firePending, loop] the body: what is called, and the event that
    comes next. *)
Definition fire_one (ev : Z) : ST EvState (Z * Z * Z * Z) :=
  let* e := deref ev in
  removeFromList ev;;
  let* e' := deref ev in
  retM (next e, func e', fd e', param e').

(** * The operations a client calls *)

(** ril_event.cpp:246-254 [ril_event_init]. *)
Definition ril_event_init : ST EvState unit :=
  modM (fun s => s <| readFds := ∅ |>);;
  init_list timer_list;;
  init_list pending_list;;
  modM (fun s => s <| watch_table := replicate MAX_FD_EVENTS NULL |>).

(** ril_event.cpp:257-267 [ril_event_set] less the [fcntl]. *)
Definition ril_event_set (ev fd_ : Z) (persist_ : bool) (func_ param_ : Z) : ST EvState unit :=
  if ev =? NULL then undefM
  else
    modM (fun s => s <| heap := <[ev := zero_event]> (heap s) |>);;
    store ev (fun e => e <| fd := fd_ |> <| index := -1 |> <| persist := persist_ |>
                         <| func := func_ |> <| param := param_ |>).

(** ril_event.cpp:274-285 [ril_event_add, loop] the slots from [i] on. *)
Fixpoint add_loop (k i : nat) (ev : Z) : ST EvState unit :=
  match k with
  | O => retM tt
  | S k' =>
      let* s := getM in
      let* rev := of_option (watch_table s !! i) in
      if rev =? NULL then
        modM (fun s => s <| watch_table := <[i := ev]> (watch_table s) |>);;
        store ev (fun e => e <| index := Z.of_nat i |>);;
        let* e := deref ev in
        FD_SET (fd e);;
        modM (fun s => if nfds s <=? fd e then s <| nfds := fd e + 1 |> else s)
      else add_loop k' (S i) ev
  end.

(** ril_event.cpp:270-288 [ril_event_add]. *)
Definition ril_event_add (ev : Z) : ST EvState unit := add_loop MAX_FD_EVENTS 0 ev.

(** ril_event.cpp:307-310 [ril_timer_add, loop] the event before which a timer that is due
    at [t] goes. The code compares first; the list's own event has a time as well. *)
Fixpoint timer_place (fuel : nat) (t : timeval) (list : Z) : ST EvState Z :=
  match fuel with
  | O => blockM
  | S fuel' =>
      let* e := deref list in
      if timer_lt (timeout e) t && negb (list =? timer_list) then timer_place fuel' t (next e) else retM list
  end.

(** ril_event.cpp:291-317 [ril_timer_add] [tv] is NULL when there is none. *)
Definition ril_timer_add (ev : Z) (tv : option timeval) (ts : timeval) : ST EvState unit :=
  match tv with
  | None => retM tt
  | Some tv =>
      let* l := deref timer_list in
      store ev (fun e => e <| fd := -1 |>);;
      store ev (fun e => e <| timeout := timeradd (getNow ts) tv |>);;
      let* e := deref ev in
      let* s := getM in
      let* list := timer_place (list_fuel s) (timeout e) (next l) in
      addToList ev list
  end.

(** ril_event.cpp:320-334 [ril_event_del]. *)
Definition ril_event_del (ev : Z) : ST EvState unit :=
  let* e := deref ev in
  if (index e <? 0) || (Z.of_nat MAX_FD_EVENTS <=? index e) then retM tt
  else removeWatch ev (Z.to_nat (index e)).
