(* ===== verification/RilLists.v ===== *)
(** The doubly linked lists of the event loop: when a piece of memory holds a list, and
    what adding and removing an event do to it. *)

From stdpp Require Import base list gmap sorting numbers.
From Stdlib Require Import ZArith Lia.
From S2P Require Import Prelude RilEvent.

Local Open Scope Z_scope.
Local Open Scope st_scope.
Local Open Scope rec_scope.

Implicit Types (h : gmap Z ril_event) (s : EvState) (l : list Z).

Definition nx h a : Z := default NULL (next <$> h !! a).
Definition pv h a : Z := default NULL (prev <$> h !! a).

(** Consecutive elements point to each other. *)
Fixpoint chain (n p : Z -> Z) (l : list Z) : Prop :=
  match l with
  | a :: (b :: _) as l' => n a = b /\ p b = a /\ chain n p l'
  | _ => True
  end.

(** The memory holds the list [l] of the events after the event [head] of the list itself. *)
Definition dlist h (head : Z) (l : list Z) : Prop :=
  NoDup (head :: l) /\ (forall a, a ∈ head :: l -> is_Some (h !! a)) /\ chain (nx h) (pv h) (head :: l ++ [head]).

(** The list after [head], by following the pointers. *)
Fixpoint walk (fuel : nat) h (head a : Z) : list Z :=
  match fuel with
  | O => []
  | S fuel' => if a =? head then [] else a :: walk fuel' h head (nx h a)
  end.

Definition events_of s (head : Z) : list Z := walk (list_fuel s) (heap s) head (nx (heap s) head).
Definition timers s : list Z := events_of s timer_list.
Definition pending s : list Z := events_of s pending_list.

(** * Chains *)

Lemma chain_app n p l a b k :
  chain n p (l ++ a :: b :: k) <-> chain n p (l ++ [a]) /\ (n a = b /\ p b = a) /\ chain n p (b :: k).
Proof.
  induction l as [|x l IH]; [cbn; tauto|].
  destruct l as [|y l]; [cbn; cbn in IH; tauto|].
  change ((x :: y :: l) ++ a :: b :: k) with (x :: y :: (l ++ a :: b :: k)).
  change ((x :: y :: l) ++ [a]) with (x :: y :: (l ++ [a])). cbn [chain] in *. rewrite <- !app_comm_cons in IH. tauto.
Qed.

(** A chain depends on what follows all but its last element, and what precedes all but
    its first. *)
Lemma chain_ext n p n' p' l : chain n p l ->
  (forall l1 a, l = l1 ++ [a] -> forall b, b ∈ l1 -> n' b = n b) -> (forall b, b ∈ tail l -> p' b = p b) ->
  chain n' p' l.
Proof.
  induction l as [|a [|b l] IH]; [done..|]. intros (H1 & H2 & H3) Hn Hp. cbn [tail] in Hp.
  destruct (exists_last (l := b :: l)) as (l1 & z & Hl); [done|].
  assert (forall c, c ∈ a :: l1 -> n' c = n c) as Hn' by (apply (Hn _ z); by rewrite Hl).
  cbn. repeat split.
  - rewrite Hn'; [done|left].
  - rewrite Hp; [done|left].
  - apply IH; [done| |intros; apply Hp; by right].
    intros l2 c Hc d Hd. apply Hn'. right.
    assert (l1 = l2) as -> by (rewrite Hl in Hc; apply app_inj_2 in Hc as [? _]; done). done.
Qed.

(** * Memory *)

Definition set_next v (e : ril_event) : ril_event := e <| next := v |>.
Definition set_prev v (e : ril_event) : ril_event := e <| prev := v |>.

Lemma lookup_alter_is_Some (f : ril_event -> ril_event) a b h : is_Some (alter f a h !! b) <-> is_Some (h !! b).
Proof.
  destruct (decide (a = b)) as [->|Hne].
  - rewrite lookup_alter_eq, fmap_is_Some. done.
  - by rewrite lookup_alter_ne.
Qed.

Lemma nx_set_next h a v b : is_Some (h !! a) ->
  nx (alter (set_next v) a h) b = if decide (a = b) then v else nx h b.
Proof.
  intros [e He]. unfold nx. case_decide; subst.
  - by rewrite lookup_alter_eq, He.
  - by rewrite lookup_alter_ne.
Qed.

Lemma pv_set_next h a v b : pv (alter (set_next v) a h) b = pv h b.
Proof.
  unfold pv. destruct (decide (a = b)) as [->|]; [|by rewrite lookup_alter_ne].
  rewrite lookup_alter_eq. by destruct (h !! b).
Qed.

Lemma pv_set_prev h a v b : is_Some (h !! a) ->
  pv (alter (set_prev v) a h) b = if decide (a = b) then v else pv h b.
Proof.
  intros [e He]. unfold pv. case_decide; subst.
  - by rewrite lookup_alter_eq, He.
  - by rewrite lookup_alter_ne.
Qed.

Lemma nx_set_prev h a v b : nx (alter (set_prev v) a h) b = nx h b.
Proof.
  unfold nx. destruct (decide (a = b)) as [->|]; [|by rewrite lookup_alter_ne].
  rewrite lookup_alter_eq. by destruct (h !! b).
Qed.

(** What an event holds but for its links, which is all the lists change. *)
Definition core (e : ril_event) : ril_event := set_prev NULL (set_next NULL e).
Definition same_core h h' : Prop := forall a, core <$> h' !! a = core <$> h !! a.

Lemma same_core_refl h : same_core h h. Proof. by intros a. Qed.
Lemma same_core_trans h1 h2 h3 : same_core h1 h2 -> same_core h2 h3 -> same_core h1 h3.
Proof. intros H1 H2 a. by rewrite H2. Qed.

Lemma same_core_alter f a h : (forall e, core (f e) = core e) -> same_core h (alter f a h).
Proof.
  intros Hf b. destruct (decide (a = b)) as [->|]; [|by rewrite lookup_alter_ne].
  rewrite lookup_alter_eq, <- option_fmap_compose. apply option_fmap_ext. apply Hf.
Qed.

Lemma same_core_next v a h : same_core h (alter (set_next v) a h).
Proof. by apply same_core_alter. Qed.
Lemma same_core_prev v a h : same_core h (alter (set_prev v) a h).
Proof. by apply same_core_alter. Qed.

Lemma same_core_Some h h' a e : same_core h h' -> h !! a = Some e -> exists e', h' !! a = Some e' /\ core e' = core e.
Proof.
  intros H He. specialize (H a). rewrite He in H. cbn in H. apply fmap_Some in H as (e' & H1 & H2). by exists e'.
Qed.

Lemma same_core_sym h h' : same_core h h' -> same_core h' h. Proof. intros H a. by rewrite H. Qed.

Lemma core_fields e e' : core e' = core e ->
  fd e' = fd e /\ index e' = index e /\ persist e' = persist e /\ timeout e' = timeout e /\
  func e' = func e /\ param e' = param e.
Proof. destruct e, e'; unfold core, set_next, set_prev; cbn. intros [= -> -> -> -> -> ->]. done. Qed.

Lemma deref_ok a s e : heap s !! a = Some e -> deref a s = Ok (e, s).
Proof. intros H. unfold deref. run. by rewrite H. Qed.

Lemma store_ok a f s : is_Some (heap s !! a) -> store a f s = Ok (tt, s <| heap := alter f a (heap s) |>).
Proof. intros [e He]. unfold store. by rewrite (bindM_ok _ _ _ _ _ (deref_ok _ _ _ He)). Qed.

Lemma nx_Some h a e : h !! a = Some e -> nx h a = next e. Proof. unfold nx. by intros ->. Qed.
Lemma pv_Some h a e : h !! a = Some e -> pv h a = prev e. Proof. unfold pv. by intros ->. Qed.

(** * Adding to a list and removing from it *)

Definition added h (ev p list : Z) : gmap Z ril_event :=
  alter (set_prev ev) list (alter (set_next ev) p (alter (set_prev p) ev (alter (set_next list) ev h))).

Lemma addToList_heap ev list s : ev <> list -> is_Some (heap s !! ev) -> is_Some (heap s !! list) ->
  is_Some (heap s !! pv (heap s) list) ->
  addToList ev list s = Ok (tt, s <| heap := added (heap s) ev (pv (heap s) list) list |>).
Proof.
  intros Hne Hev [el Hl] Hp. unfold addToList.
  rewrite (bindM_ok _ _ _ _ _ (store_ok _ _ _ Hev)).
  erewrite bindM_ok by (apply deref_ok; cbn; rewrite lookup_alter_ne by done; exact Hl).
  rewrite (pv_Some _ _ _ Hl) in *.
  erewrite bindM_ok by (apply store_ok; cbn; by apply lookup_alter_is_Some).
  destruct Hev as [e He].
  erewrite bindM_ok by (apply deref_ok; cbn; by rewrite !lookup_alter_eq, He).
  cbn [prev set eta]. erewrite bindM_ok by (apply store_ok; cbn; by rewrite !lookup_alter_is_Some).
  rewrite store_ok; [done|]. cbn. by rewrite !lookup_alter_is_Some, Hl.
Qed.

Lemma added_core h ev p list : same_core h (added h ev p list).
Proof.
  unfold added. intros a. by rewrite same_core_prev, same_core_next, same_core_prev, same_core_next.
Qed.

Lemma same_core_is_Some h h' a : same_core h h' -> is_Some (h' !! a) <-> is_Some (h !! a).
Proof. intros H. specialize (H a). by rewrite <- (fmap_is_Some core (h' !! a)), H, fmap_is_Some. Qed.

Lemma dlist_ring h head l1 l2 : dlist h head (l1 ++ l2) ->
  exists c p q d, (head :: l1) = c ++ [p] /\ l2 ++ [head] = (q :: d) /\ q = hd head l2 /\ p = pv h q /\
    (nx h p = q /\ pv h q = p) /\ chain (nx h) (pv h) (c ++ [p]) /\ chain (nx h) (pv h) (q :: d).
Proof.
  intros (Hnd & Hin & Hc).
  destruct (exists_last (l := head :: l1)) as (c & p & Hcp); [done|].
  exists c, p, (hd head l2), (tail (l2 ++ [head])).
  assert (l2 ++ [head] = hd head l2 :: tail (l2 ++ [head])) as Hq by (destruct l2; done).
  rewrite <- app_assoc, app_comm_cons, Hcp, Hq, <- app_assoc in Hc. apply chain_app in Hc as (H1 & H2 & H3).
  destruct H2. rewrite <- Hq. split_and!; try done. by rewrite Hq.
Qed.

(** The elements of the ring, once each; [head] closes it. *)
Lemma ring_distinct head l1 l2 c p q d : NoDup (head :: l1 ++ l2) -> (head :: l1) = c ++ [p] -> l2 ++ [head] = (q :: d) ->
  p ∉ c /\ q ∉ tail (c ++ [p]) /\ (forall d1 z, (q :: d) = d1 ++ [z] -> p ∉ d1) /\ q ∉ d.
Proof.
  intros Hnd Hcp Hq.
  assert (NoDup (c ++ [p])) as H1 by (rewrite <- Hcp; rewrite app_comm_cons in Hnd; by apply list.NoDup_app in Hnd as [? _]).
  apply list.NoDup_cons in Hnd as [Hh Hnd]. apply list.NoDup_app in Hnd as (Hn1 & Hd & Hn2).
  repeat split.
  - apply list.NoDup_app in H1 as (_ & H & _). intros Hp. apply (H _ Hp). left.
  - rewrite <- Hcp. cbn. intros H. destruct l2 as [|y l2]; injection Hq as -> _; [set_solver|]. apply (Hd _ H). left.
  - intros d1 z Hz. rewrite <- Hq in Hz. apply app_inj_2 in Hz as [<- _]; [|done].
    intros Hp. assert (p ∈ head :: l1) as Hpl by (rewrite Hcp; set_solver). set_solver.
  - destruct l2 as [|y l2]; injection Hq as -> <-; [set_solver|]. apply list.NoDup_cons in Hn2 as [? ?]. set_solver.
Qed.

Lemma dlist_add h head l1 l2 ev : dlist h head (l1 ++ l2) -> is_Some (h !! ev) -> ev ∉ head :: l1 ++ l2 ->
  dlist (added h ev (pv h (hd head l2)) (hd head l2)) head (l1 ++ ev :: l2).
Proof.
  intros Hd Hev Hni. pose proof Hd as (Hnd & Hin & _).
  apply dlist_ring in Hd as (c & p & q & d & Hcp & Hq & Hqe & Hpe & (Hl1 & Hl2) & Hc1 & Hc2).
  rewrite <- Hqe, Hl2. clear Hpe.
  destruct (ring_distinct head l1 l2 c p q d Hnd Hcp Hq) as (Hpc & Hqc & Hpd & Hqd).
  assert (forall a, a ∈ c ++ [p] -> a <> ev) as Hce by (rewrite <- Hcp; set_solver).
  assert (forall a, a ∈ q :: d -> a <> ev) as Hde by (rewrite <- Hq; set_solver).
  assert (is_Some (h !! p)) as Hps by (apply Hin; assert (p ∈ head :: l1) by (rewrite Hcp; set_solver); set_solver).
  assert (is_Some (h !! q)) as Hqs by (apply Hin; assert (q ∈ l2 ++ [head]) by (rewrite Hq; left); set_solver).
  assert (p <> ev /\ q <> ev) as [Hpev Hqev] by (split; [apply Hce|apply Hde]; set_solver).
  assert (forall a, nx (added h ev p q) a = if decide (p = a) then ev else if decide (ev = a) then q else nx h a) as Hnx.
  { intros a. unfold added. by rewrite nx_set_prev, nx_set_next, nx_set_prev, nx_set_next by (rewrite ?lookup_alter_is_Some; done). }
  assert (forall a, pv (added h ev p q) a = if decide (q = a) then ev else if decide (ev = a) then p else pv h a) as Hpv.
  { intros a. unfold added. by rewrite pv_set_prev, pv_set_next, pv_set_prev, pv_set_next by (rewrite ?lookup_alter_is_Some; done). }
  split; [|split].
  - apply list.NoDup_cons in Hnd as [? Hnd]. apply list.NoDup_app in Hnd as (? & ? & ?).
    apply list.NoDup_cons. split; [set_solver|]. apply list.NoDup_app. split; [done|]. split; [set_solver|].
    apply list.NoDup_cons. split; [set_solver|done].
  - intros a Ha. apply (same_core_is_Some _ _ a (added_core h ev p q)).
    destruct (decide (a = ev)) as [->|]; [done|]. apply Hin. set_solver.
  - rewrite <- app_assoc, app_comm_cons, Hcp, <- app_assoc. cbn [app]. rewrite Hq.
    apply chain_app. split; [|split].
    + eapply chain_ext; [exact Hc1| |].
      * intros l3 a Ha b Hb. apply app_inj_2 in Ha as [<- _]; [|done].
        rewrite Hnx, !decide_False; [done| |]; [intros <-; apply (Hce ev); set_solver|intros <-; done].
      * intros b Hb. assert (b ∈ c ++ [p]) by (destruct (c ++ [p]); [done|by right]).
        rewrite Hpv, !decide_False; [done| |]; [intros <-; by apply (Hce ev)|intros <-; done].
    + rewrite Hnx, Hpv, !decide_True, decide_False by done. rewrite decide_True by done. done.
    + change (ev :: q :: d) with ([] ++ ev :: q :: d). apply chain_app. split; [done|]. split.
      * rewrite Hnx, Hpv, decide_False, !decide_True by done. done.
      * eapply chain_ext; [exact Hc2| |].
        -- intros d1 z Hz b Hb. rewrite Hnx, !decide_False; [done| |].
           ++ intros <-. apply (Hde ev); [rewrite Hz; set_solver|done].
           ++ intros <-. by apply (Hpd _ _ Hz).
        -- intros b Hb. cbn in Hb. rewrite Hpv, !decide_False; [done| |]; [intros <-; apply (Hde ev); [by right|done]|intros <-; done].
Qed.




Lemma added_other h ev p list a : a <> ev -> a <> p -> a <> list -> added h ev p list !! a = h !! a.
Proof. intros. unfold added. by rewrite !lookup_alter_ne by done. Qed.

(** Removing [ev], which lies between [p] and [n]. *)
Definition removed h (ev p n : Z) : gmap Z ril_event :=
  alter (set_prev NULL) ev (alter (set_next NULL) ev (alter (set_next n) p (alter (set_prev p) n h))).

Lemma removed_core h ev p n : same_core h (removed h ev p n).
Proof.
  unfold removed. intros a. by rewrite same_core_prev, same_core_next, same_core_next, same_core_prev.
Qed.

Lemma removed_other h ev p n a : a <> ev -> a <> p -> a <> n -> removed h ev p n !! a = h !! a.
Proof. intros. unfold removed. by rewrite !lookup_alter_ne by done. Qed.

Lemma removeFromList_heap ev s e : heap s !! ev = Some e -> is_Some (heap s !! next e) -> is_Some (heap s !! prev e) ->
  next e <> ev -> prev e <> ev ->
  removeFromList ev s = Ok (tt, s <| heap := removed (heap s) ev (prev e) (next e) |>).
Proof.
  intros He Hn Hp Hne Hpe. unfold removeFromList.
  rewrite (bindM_ok _ _ _ _ _ (deref_ok _ _ _ He)), (bindM_ok _ _ _ _ _ (store_ok _ _ _ Hn)).
  erewrite bindM_ok by (apply deref_ok; cbn; rewrite lookup_alter_ne by done; exact He).
  erewrite bindM_ok by (apply store_ok; cbn; by apply lookup_alter_is_Some).
  erewrite bindM_ok by (apply store_ok; cbn; by rewrite !lookup_alter_is_Some, He).
  rewrite store_ok; [done|]. cbn. by rewrite !lookup_alter_is_Some, He.
Qed.

Lemma NoDup_middle (a : Z) l1 l2 : NoDup (l1 ++ a :: l2) <-> a ∉ l1 ++ l2 /\ NoDup (l1 ++ l2).
Proof. rewrite <- Permutation_middle. apply list.NoDup_cons. Qed.

Lemma dlist_remove h head l1 l2 ev : dlist h head (l1 ++ ev :: l2) ->
  exists e p, h !! ev = Some e /\ prev e = p /\ next e = hd head l2 /\ p ∈ head :: l1 /\
    dlist (removed h ev p (hd head l2)) head (l1 ++ l2).
Proof.
  intros Hd. pose proof Hd as (Hnd & Hin & _).
  assert (exists e, h !! ev = Some e) as [e He] by (apply Hin; set_solver).
  apply dlist_ring in Hd as (c & p & q & d & Hcp & Hq & Hqe & _ & (Hl1 & Hl2) & Hc1 & Hc2).
  cbn in Hqe. subst q. injection Hq as Hd.
  assert (exists d', l2 ++ [head] = (hd head l2 :: d')) as [d' Hd'] by (destruct l2; eauto).
  set (q := hd head l2) in *. clearbody q. rewrite <- Hd, Hd' in Hc2. clear d Hd. rename Hd' into Hd.
  change (ev :: q :: d') with ([] ++ ev :: q :: d') in Hc2. apply chain_app in Hc2 as (_ & (Hl3 & Hl4) & Hc2).
  rewrite app_comm_cons in Hnd. apply NoDup_middle in Hnd as [Hev Hnd]. rewrite <- app_comm_cons in Hev, Hnd.
  destruct (ring_distinct head l1 l2 c p q d' Hnd Hcp Hd) as (Hpc & Hqc & Hpd & Hqd).
  assert (p ∈ head :: l1) as Hpl by (rewrite Hcp; set_solver).
  assert (q ∈ l2 ++ [head]) as Hql by (rewrite Hd; left).
  assert (forall a, a ∈ c ++ [p] -> a <> ev) as Hce by (rewrite <- Hcp; set_solver).
  assert (forall a, a ∈ q :: d' -> a <> ev) as Hde by (rewrite <- Hd; set_solver).
  assert (is_Some (h !! p)) as Hps by (apply Hin; set_solver).
  assert (is_Some (h !! q)) as Hqs by (apply Hin; set_solver).
  exists e, p. rewrite <- (nx_Some _ _ _ He), <- (pv_Some _ _ _ He). split_and!; try done.
  assert (forall a, a <> ev -> nx (removed h ev p q) a = if decide (p = a) then q else nx h a) as Hnx.
  { intros a Ha. unfold removed. rewrite nx_set_prev, nx_set_next, decide_False, nx_set_next, nx_set_prev
      by (rewrite ?lookup_alter_is_Some, ?He; done). done. }
  assert (forall a, a <> ev -> pv (removed h ev p q) a = if decide (q = a) then p else pv h a) as Hpv.
  { intros a Ha. unfold removed. rewrite pv_set_prev, decide_False, pv_set_next, pv_set_next, pv_set_prev
      by (rewrite ?lookup_alter_is_Some, ?He; done). done. }
  split; [done|]. split.
  - intros a Ha. apply (same_core_is_Some _ _ a (removed_core h ev p q)). apply Hin. set_solver.
  - rewrite <- app_assoc, app_comm_cons, Hcp, Hd, <- app_assoc. cbn [app]. apply chain_app. split; [|split].
    + eapply chain_ext; [exact Hc1| |].
      * intros l3 a Ha b Hb. apply app_inj_2 in Ha as [<- _]; [|done].
        rewrite Hnx, decide_False; [done|intros ->; done|apply Hce; set_solver].
      * intros b Hb. assert (b ∈ c ++ [p]) by (destruct (c ++ [p]); [done|by right]).
        rewrite Hpv, decide_False; [done|intros ->; done|by apply Hce].
    + rewrite Hnx by (apply Hce; set_solver). rewrite Hpv by (apply Hde; left). by rewrite !decide_True.
    + eapply chain_ext; [exact Hc2| |].
      * intros d1 z Hz b Hb. rewrite Hnx, decide_False; [done|intros ->; by apply (Hpd _ _ Hz)|].
        apply Hde. rewrite Hz. set_solver.
      * intros b Hb. cbn in Hb. rewrite Hpv, decide_False; [done|intros ->; done|apply Hde; by right].
Qed.

(** A list is read from its own events. *)
Lemma dlist_frame h h' head l : (forall a, a ∈ head :: l -> h' !! a = h !! a) -> dlist h head l -> dlist h' head l.
Proof.
  intros Hf (H1 & H2 & H3). split; [done|]. split.
  - intros a Ha. rewrite Hf by done. by apply H2.
  - eapply chain_ext; [exact H3| |].
    + intros l1 a Ha b Hb. rewrite app_comm_cons in Ha. apply app_inj_2 in Ha as [<- _]; [|done].
      unfold nx. by rewrite Hf.
    + intros b Hb. cbn in Hb. unfold pv. rewrite Hf; [done|]. set_solver.
Qed.

Lemma dlist_walk h head l1 l2 fuel : dlist h head (l1 ++ l2) -> (length l2 < fuel)%nat ->
  walk fuel h head (hd head l2) = l2.
Proof.
  revert l1 fuel. induction l2 as [|a l2 IH]; intros l1 [|fuel] Hd Hf; cbn in *; try lia.
  - by rewrite Z.eqb_refl.
  - destruct (dlist_remove _ _ _ _ _ Hd) as (e & p & He & _ & Hn & _).
    rewrite (proj2 (Z.eqb_neq _ _)).
    + f_equal. rewrite (nx_Some _ _ _ He), Hn. apply (IH (l1 ++ [a])); [|lia]. by rewrite <- app_assoc.
    + intros ->. destruct Hd as [Hd _]. apply list.NoDup_cons in Hd as [Hd _]. apply Hd. set_solver.
Qed.

Lemma dlist_length h head l : dlist h head l -> (length l < size h)%nat.
Proof.
  intros (H1 & H2 & _). change (length (head :: l) <= size h)%nat.
  rewrite <- size_dom, <- (size_list_to_set (C := gset Z)) by done.
  apply subseteq_size. intros a Ha. apply elem_of_list_to_set in Ha. by apply elem_of_dom, H2.
Qed.

Lemma dlist_first h head l : dlist h head l -> nx h head = hd head l.
Proof. intros (_ & _ & H). destruct l; cbn in H; tauto. Qed.

Lemma dlist_events s head l : dlist (heap s) head l -> events_of s head = l.
Proof.
  intros Hd. unfold events_of. rewrite (dlist_first _ _ _ Hd). apply (dlist_walk _ _ []); [done|].
  unfold list_fuel. apply dlist_length in Hd. lia.
Qed.

(** * The operations on lists *)

Lemma addToList_spec s head l1 l2 ev : dlist (heap s) head (l1 ++ l2) -> is_Some (heap s !! ev) ->
  ev ∉ head :: l1 ++ l2 ->
  exists h', addToList ev (hd head l2) s = Ok (tt, s <| heap := h' |>) /\ dlist h' head (l1 ++ ev :: l2) /\
    same_core (heap s) h' /\ forall a, a ∉ head :: l1 ++ ev :: l2 -> h' !! a = heap s !! a.
Proof.
  intros Hd Hev Hni. pose proof (dlist_add _ _ _ _ _ Hd Hev Hni) as Hd'.
  assert (hd head l2 ∈ head :: l1 ++ l2) as Hq by (destruct l2; set_solver).
  assert (pv (heap s) (hd head l2) ∈ head :: l1 ++ l2) as Hp.
  { destruct (dlist_ring _ _ _ _ Hd) as (c & p & q & d & Hcp & _ & -> & -> & _).
    assert (pv (heap s) (hd head l2) ∈ head :: l1) by (rewrite Hcp; set_solver). set_solver. }
  pose proof Hd as (_ & Hin & _).
  eexists. split; [apply addToList_heap|split; [done|split; [apply added_core|]]].
  - intros ->. done.
  - done.
  - by apply Hin.
  - by apply Hin.
  - intros a Ha. apply added_other; intros ->; set_solver.
Qed.

Lemma removeFromList_spec s head l1 l2 ev : dlist (heap s) head (l1 ++ ev :: l2) ->
  exists h', removeFromList ev s = Ok (tt, s <| heap := h' |>) /\ dlist h' head (l1 ++ l2) /\
    same_core (heap s) h' /\ forall a, a ∉ head :: l1 ++ ev :: l2 -> h' !! a = heap s !! a.
Proof.
  intros Hd. destruct (dlist_remove _ _ _ _ _ Hd) as (e & p & He & Hp & Hn & Hpl & Hd').
  pose proof Hd as (Hnd & Hin & _). rewrite app_comm_cons in Hnd. apply NoDup_middle in Hnd as [Hev _].
  assert (hd head l2 ∈ (head :: l1) ++ l2) as Hq by (destruct l2; set_solver).
  eexists. split; [apply (removeFromList_heap _ _ _ He)|split; [rewrite Hp, Hn; done|split; [apply removed_core|]]].
  - rewrite Hn. apply Hin. set_solver.
  - rewrite Hp. apply Hin. set_solver.
  - rewrite Hn. intros <-. done.
  - rewrite Hp. intros ->. set_solver.
  - intros a Ha. rewrite Hp, Hn. apply removed_other; intros ->; set_solver.
Qed.
