(* ===== verification/RilEventProps.v ===== *)
(** What the operations of the event loop do: the invariant of its data (two disjoint
    lists, the timers sorted, the table, the descriptor set and its bound in agreement)
    and, for each operation, the lists and the table it leaves. *)

From stdpp Require Import base list gmap sorting numbers.
From Stdlib Require Import ZArith Lia.
From S2P Require Import Prelude RilEvent RilLists.

Local Open Scope Z_scope.
Local Open Scope st_scope.
Local Open Scope rec_scope.

Implicit Types (h : gmap Z ril_event) (s : EvState) (l tl pl : list Z).

(** * The invariant *)

Definition time_of h a : timeval := default (0, 0) (timeout <$> h !! a).
Definition fd_of h a : Z := default (-1) (fd <$> h !! a).

(** [a] is due no later than [b]. *)
Definition due_le h a b : Prop := timer_lt (time_of h b) (time_of h a) = false.

(** Slot [i] of the table holds the event [a]. *)
Definition watching s (i : nat) (a : Z) (e : ril_event) : Prop :=
  watch_table s !! i = Some a /\ a <> NULL /\ heap s !! a = Some e.

(** The table, the descriptor set and its bound. *)
Record watch_wf s : Prop := {
  ww_len : length (watch_table s) = MAX_FD_EVENTS;
  ww_event : forall i a, watch_table s !! i = Some a -> a <> NULL ->
    exists e, heap s !! a = Some e /\ index e = Z.of_nat i /\ in_fd_set (fd e) = true /\
      a <> timer_list /\ a <> pending_list;
  ww_index : forall a e, heap s !! a = Some e -> a <> timer_list -> a <> pending_list ->
    index e = -1 \/ (0 <= index e /\ watch_table s !! Z.to_nat (index e) = Some a);
  ww_fds : forall n, n ∈ readFds s <-> exists i a e, watching s i a e /\ fd e = n;
  ww_inj : forall i a e j b f, watching s i a e -> watching s j b f -> fd e = fd f -> i = j;
  ww_nfds : forall n, n ∈ readFds s -> n < nfds s;
  ww_tight : nfds s <= 1 \/ nfds s - 1 ∈ readFds s;
}.

(** The two lists hold [tl] and [pl]. *)
Record lists_wf h tl pl : Prop := {
  lw_timers : dlist h timer_list tl;
  lw_pending : dlist h pending_list pl;
  lw_disjoint : NoDup ((timer_list :: tl) ++ pending_list :: pl);
  lw_null : h !! NULL = None;
  lw_sorted : StronglySorted (due_le h) tl;
  lw_nofd : Forall (fun a => fd_of h a = -1) tl;
}.

Definition ev_inv s tl pl : Prop := lists_wf (heap s) tl pl /\ watch_wf s.

(** The invariant, of what can be read from the memory. *)
Definition ev_wf s : Prop := ev_inv s (timers s) (pending s).

Lemma ev_inv_views s tl pl : ev_inv s tl pl -> timers s = tl /\ pending s = pl.
Proof. intros [[H1 H2 _ _ _ _] _]. split; by apply dlist_events. Qed.

Lemma ev_inv_wf s tl pl : ev_inv s tl pl -> ev_wf s.
Proof. intros H. unfold ev_wf. by destruct (ev_inv_views _ _ _ H) as [-> ->]. Qed.

(** * Order of times *)

Definition time_wf (t : timeval) : Prop := 0 <= t.2 < 1000000.

Lemma timer_lt_irrefl t : timer_lt t t = false.
Proof. unfold timer_lt. rewrite Z.eqb_refl. apply Z.ltb_irrefl. Qed.

Lemma timer_lt_trans_le a b c : timer_lt b a = false -> timer_lt c b = false -> timer_lt c a = false.
Proof. unfold timer_lt. intros H1 H2. zb; lia || done. Qed.

Lemma timer_lt_le a b : timer_lt a b = true -> timer_lt b a = false.
Proof. unfold timer_lt. zb; lia || done. Qed.

Lemma timer_le_lt a b c : timer_lt b a = false -> timer_lt b c = true -> timer_lt a c = true.
Proof. unfold timer_lt. intros H1 H2. zb; lia || done. Qed.

(** * The lists of a changed memory *)

Lemma core_time h h' a : same_core h h' -> time_of h' a = time_of h a.
Proof.
  intros H. unfold time_of. destruct (h !! a) as [e|] eqn:He.
  - destruct (same_core_Some _ _ _ _ H He) as (e' & -> & Hc). cbn. by apply core_fields in Hc as (? & ? & ? & ? & _).
  - specialize (H a). rewrite He in H. cbn in H. apply fmap_None in H. by rewrite H.
Qed.

Lemma core_fd h h' a : same_core h h' -> fd_of h' a = fd_of h a.
Proof.
  intros H. unfold fd_of. destruct (h !! a) as [e|] eqn:He.
  - destruct (same_core_Some _ _ _ _ H He) as (e' & -> & Hc). cbn. by apply core_fields in Hc as (? & _).
  - specialize (H a). rewrite He in H. cbn in H. apply fmap_None in H. by rewrite H.
Qed.

Lemma due_le_ext h h' a b : time_of h' a = time_of h a -> time_of h' b = time_of h b -> due_le h a b -> due_le h' a b.
Proof. unfold due_le. by intros -> ->. Qed.

Lemma StronglySorted_ext {A} (R R' : A -> A -> Prop) (xs : list A) :
  (forall a b, a ∈ xs -> b ∈ xs -> R a b -> R' a b) -> StronglySorted R xs -> StronglySorted R' xs.
Proof.
  induction xs as [|a xs IH]; intros H Hs; [constructor|]. inversion Hs as [|? ? H1 H2]; subst. constructor.
  - apply IH; [|done]. intros; apply H; first [by right|done].
  - apply list.Forall_forall. intros b Hb. apply H; [left|by right|]. by eapply list.Forall_forall in H2.
Qed.

(** Only the links have changed: the times, the descriptors and the table stand. *)
Lemma core_sorted h h' tl : same_core h h' -> StronglySorted (due_le h) tl -> StronglySorted (due_le h') tl.
Proof. intros H. apply StronglySorted_ext. intros a b _ _. apply due_le_ext; by apply core_time. Qed.

Lemma core_nofd h h' tl : same_core h h' -> Forall (fun a => fd_of h a = -1) tl -> Forall (fun a => fd_of h' a = -1) tl.
Proof. intros H Hf. eapply list.Forall_impl; [exact Hf|]. intros a. cbn. by rewrite (core_fd _ _ _ H). Qed.

Lemma core_watch s h' : same_core (heap s) h' -> watch_wf s -> watch_wf (s <| heap := h' |>).
Proof.
  intros Hc [H1 H2 H3 H4 H5 H6 H7].
  assert (forall i a e, watching (s <| heap := h' |>) i a e -> exists e', watching s i a e' /\ fd e' = fd e) as Hw.
  { intros i a e (Hi & Hn & He). destruct (same_core_Some _ _ _ _ (same_core_sym _ _ Hc) He) as (e' & He' & Hf).
    apply core_fields in Hf as (Hf & _). by exists e'. }
  split; try done.
  - intros i a Hi Hn. destruct (H2 i a Hi Hn) as (e & He & Hx & Hf & Hna).
    destruct (same_core_Some _ _ _ _ Hc He) as (e' & He' & Hcc). apply core_fields in Hcc as (E1 & E2 & _).
    exists e'. by rewrite E1, E2.
  - intros a e He Ha Hb. destruct (same_core_Some _ _ _ _ (same_core_sym _ _ Hc) He) as (e' & He' & Hcc).
    apply core_fields in Hcc as (_ & <- & _). by apply H3.
  - intros n. cbn. rewrite H4. split.
    + intros (i & a & e & (Hi & Hn & He) & <-). destruct (same_core_Some _ _ _ _ Hc He) as (e' & He' & Hcc).
      apply core_fields in Hcc as (Hf & _). by exists i, a, e'.
    + intros (i & a & e & Hwi & <-). destruct (Hw _ _ _ Hwi) as (e' & Hwi' & Hf). by exists i, a, e'.
  - intros i a e j b f Ha Hb Hf. destruct (Hw _ _ _ Ha) as (e' & Ha' & E1), (Hw _ _ _ Hb) as (f' & Hb' & E2).
    eapply H5; [exact Ha'|exact Hb'|congruence].
Qed.

(** * Firing *)

Lemma fire_one_spec s tl pl ev : ev_inv s tl (ev :: pl) ->
  exists e h', heap s !! ev = Some e /\ same_core (heap s) h' /\
    fire_one ev s = Ok ((hd pending_list pl, func e, fd e, param e), s <| heap := h' |>) /\
    ev_inv (s <| heap := h' |>) tl pl.
Proof.
  intros [[H1 H2 H3 H4 H5 H6] Hw].
  destruct (dlist_remove _ _ [] pl ev H2) as (e & p & He & _ & Hn & _).
  destruct (removeFromList_spec s _ [] pl ev H2) as (h' & Hr & Hd & Hc & Hf).
  destruct (same_core_Some _ _ _ _ Hc He) as (e' & He' & Hcc). apply core_fields in Hcc as (Q1 & _ & _ & _ & Q2 & Q3).
  exists e, h'. split; [done|]. split; [done|]. split.
  - unfold fire_one. rewrite (bindM_ok _ _ _ _ _ (deref_ok _ _ _ He)), (bindM_ok _ _ _ _ _ Hr).
    erewrite bindM_ok by (apply deref_ok; exact He'). unfold retM. by rewrite Hn, Q1, Q2, Q3.
  - assert (ev ∉ timer_list :: tl /\ pending_list ∉ timer_list :: tl /\ (forall a, a ∈ pl -> a ∉ timer_list :: tl)) as (N1 & N2 & N3).
    { apply list.NoDup_app in H3 as (_ & H3 & _). split_and!; [| |intros a Ha]; intros Hx; apply (H3 _ Hx); set_solver. }
    split; [|by apply core_watch]. split; cbn.
    + eapply dlist_frame; [|exact H1]. intros a Ha. apply Hf. cbn [app]. set_solver.
    + done.
    + change (NoDup ((timer_list :: tl) ++ pending_list :: pl)). apply list.NoDup_app in H3 as (A1 & A2 & A3). apply list.NoDup_app. split; [done|].
      split; [intros a Ha; specialize (A2 a Ha); set_solver|].
      apply list.NoDup_cons in A3 as [A3 A4]. apply list.NoDup_cons in A4 as [A4 A5]. apply list.NoDup_cons. split; [set_solver|done].
    + specialize (Hc NULL). rewrite H4 in Hc. by apply fmap_None in Hc.
    + by eapply core_sorted.
    + by eapply core_nofd.
Qed.

(** * Queueing *)

Lemma core_null h h' : same_core h h' -> h !! NULL = None -> h' !! NULL = None.
Proof. intros H Hn. specialize (H NULL). rewrite Hn in H. by apply fmap_None in H. Qed.

Lemma append_pending s tl pl ev : lists_wf (heap s) tl pl -> is_Some (heap s !! ev) ->
  ev ∉ (timer_list :: tl) ++ pending_list :: pl ->
  exists h', addToList ev pending_list s = Ok (tt, s <| heap := h' |>) /\ lists_wf h' tl (pl ++ [ev]) /\
    same_core (heap s) h'.
Proof.
  intros [H1 H2 H3 H4 H5 H6] Hev Hni.
  destruct (addToList_spec s pending_list pl [] ev) as (h' & Ha & Hd & Hc & Hf);
    [by rewrite app_nil_r|done|rewrite app_nil_r; set_solver|].
  exists h'. split; [exact Ha|]. split; [|done]. pose proof H3 as (_ & N & _)%list.NoDup_app. split.
  - eapply dlist_frame; [|exact H1]. intros a Hx. apply Hf. specialize (N a Hx). set_solver.
  - done.
  - rewrite app_comm_cons, app_assoc. apply list.NoDup_app. split; [done|]. split; [|apply NoDup_singleton]. set_solver.
  - by eapply core_null.
  - by eapply core_sorted.
  - by eapply core_nofd.
Qed.

Lemma take_timer s tl pl ev : lists_wf (heap s) (ev :: tl) pl ->
  exists h', removeFromList ev s = Ok (tt, s <| heap := h' |>) /\ lists_wf h' tl pl /\
    same_core (heap s) h' /\ ev ∉ (timer_list :: tl) ++ pending_list :: pl.
Proof.
  intros [H1 H2 H3 H4 H5 H6]. destruct (removeFromList_spec s _ [] tl ev H1) as (h' & Hr & Hd & Hc & Hf).
  change ((timer_list :: ev :: tl) ++ pending_list :: pl) with ([timer_list] ++ ev :: (tl ++ pending_list :: pl)) in H3.
  apply NoDup_middle in H3 as [Hev H3]. exists h'. split; [done|]. split; [|split; [done|exact Hev]].
  inversion H5; subst. apply list.Forall_cons in H6 as [_ H6]. split; try done.
  - eapply dlist_frame; [|exact H2]. intros a Ha. apply Hf. intros Hx.
    apply (list.NoDup_app (timer_list :: tl) (pending_list :: pl)) in H3 as (_ & N & _).
    destruct (decide (a = ev)) as [->|]; [set_solver|]. apply (N a); set_solver.
  - by eapply core_null.
  - by eapply core_sorted.
  - by eapply core_nofd.
Qed.

(** Whether a timer is due at time [now]. *)
Definition is_due h (now : timeval) (a : Z) : Prop := timer_lt (time_of h a) now = true.
#[export] Instance is_due_dec h now a : Decision (is_due h now a).
Proof. unfold is_due. apply _. Defined.

Lemma is_due_core h h' now l : same_core h h' -> filter (is_due h' now) l = filter (is_due h now) l.
Proof. intros H. apply list_filter_iff. intros a. unfold is_due. by rewrite (core_time _ _ _ H). Qed.

Lemma not_due_core h h' now l : same_core h h' ->
  filter (fun a => ~ is_due h' now a) l = filter (fun a => ~ is_due h now a) l.
Proof. intros H. apply list_filter_iff. intros a. unfold is_due. by rewrite (core_time _ _ _ H). Qed.

Lemma filter_all {A} (P : A -> Prop) `{forall x, Decision (P x)} (xs : list A) : Forall P xs -> filter P xs = xs.
Proof. induction 1 as [|x xs' Hx _ IH]; [done|]. by rewrite list.filter_cons, decide_True, IH. Qed.

Lemma filter_no {A} (P : A -> Prop) `{forall x, Decision (P x)} (xs : list A) : Forall (fun x => ~ P x) xs -> filter P xs = [].
Proof. induction 1 as [|x xs' Hx _ IH]; [done|]. by rewrite list.filter_cons, decide_False, IH. Qed.

Lemma none_due h now a tl : StronglySorted (due_le h) (a :: tl) -> ~ is_due h now a ->
  filter (is_due h now) (a :: tl) = [] /\ filter (fun a => ~ is_due h now a) (a :: tl) = a :: tl.
Proof.
  intros Hs Ha. assert (forall b, b ∈ a :: tl -> ~ is_due h now b) as Hn.
  { intros b [->|Hb]%elem_of_cons; [done|]. inversion Hs as [|? ? _ Hf]; subst.
    apply list.Forall_forall with (x := b) in Hf; [|done]. intros Hd. apply Ha. unfold is_due, due_le in *.
    by eapply timer_le_lt. }
  apply list.Forall_forall in Hn. split; [by apply filter_no|by apply filter_all].
Qed.

Lemma expire_loop_spec fuel now tl : forall s pl, ev_inv s tl pl -> (length tl < fuel)%nat ->
  exists h', expire_loop fuel now (hd timer_list tl) s = Ok (tt, s <| heap := h' |>) /\ same_core (heap s) h' /\
    ev_inv (s <| heap := h' |>) (filter (fun a => ~ is_due (heap s) now a) tl) (pl ++ filter (is_due (heap s) now) tl).
Proof.
  revert fuel. induction tl as [|ev tl IH]; intros [|fuel] s pl [Hl Hw] Hf; cbn in Hf; try lia.
  - exists (heap s). split; [by destruct s|]. split; [apply same_core_refl|].
    cbn [filter list_filter]. rewrite app_nil_r. by destruct s.
  - cbn [hd]. pose proof Hl as [H1 _ _ _ H5 _]. destruct (dlist_remove _ _ [] tl ev H1) as (e & p & He & _ & Hn & _).
    cbn [expire_loop]. rewrite (proj2 (Z.eqb_neq ev timer_list)).
    2: { intros ->. destruct H1 as [H1 _]. apply list.NoDup_cons in H1 as [H1 _]. set_solver. }
    rewrite (bindM_ok _ _ _ _ _ (deref_ok _ _ _ He)).
    assert (time_of (heap s) ev = timeout e) as Ht by (unfold time_of; by rewrite He).
    destruct (timer_lt (timeout e) now) eqn:Hlt.
    + destruct (take_timer s tl pl ev Hl) as (h1 & R1 & L1 & C1 & Hni).
      destruct (append_pending (s <| heap := h1 |>) tl pl ev) as (h2 & R2 & L2 & C2); [done| |done|].
      { cbn. by rewrite (same_core_is_Some _ _ _ C1), He. }
      cbn in R2, C2. pose proof (same_core_trans _ _ _ C1 C2) as C.
      destruct (IH fuel (s <| heap := h2 |>) (pl ++ [ev])) as (h3 & R3 & C3 & I3); [|lia|].
      { split; [done|]. by apply core_watch. }
      exists h3. rewrite (bindM_ok _ _ _ _ _ R1), (bindM_ok _ _ _ _ _ R2), Hn. split; [done|].
      split; [by eapply same_core_trans|]. cbn in I3. rewrite (is_due_core _ _ _ _ C), (not_due_core _ _ _ _ C) in I3.
      rewrite !list.filter_cons, decide_False, decide_True by (unfold is_due; rewrite Ht; auto).
      by rewrite <- app_assoc in I3.
    + assert (~ is_due (heap s) now ev) as Hd by (unfold is_due; rewrite Ht, Hlt; done).
      destruct (none_due _ _ _ _ H5 Hd) as [-> ->]. exists (heap s). rewrite app_nil_r.
      split; [by destruct s|]. split; [apply same_core_refl|]. by destruct s.
Qed.

(** The due timers go to the end of the pending list, in order of time. *)
Lemma processTimeouts_spec ts s tl pl : ev_inv s tl pl ->
  exists h', processTimeouts ts s = Ok (tt, s <| heap := h' |>) /\ same_core (heap s) h' /\
    ev_inv (s <| heap := h' |>) (filter (fun a => ~ is_due (heap s) (getNow ts) a) tl)
      (pl ++ filter (is_due (heap s) (getNow ts)) tl).
Proof.
  intros H. pose proof H as [[H1 _ _ _ _ _] _]. pose proof (dlist_first _ _ _ H1) as Hn. pose proof (dlist_length _ _ _ H1).
  pose proof H1 as (_ & Hin & _). destruct (Hin timer_list) as [e He]; [left|].
  unfold processTimeouts. rewrite (bindM_ok _ _ _ _ _ (deref_ok _ _ _ He)).
  rewrite (nx_Some _ _ _ He) in Hn. rewrite Hn. unfold bindM at 1, getM. apply expire_loop_spec; [done|].
  unfold list_fuel. lia.
Qed.

(** * Watching *)

Lemma dlist_alter f a h head l : (forall e, next (f e) = next e) -> (forall e, prev (f e) = prev e) ->
  dlist h head l -> dlist (alter f a h) head l.
Proof.
  intros Hn Hp (H1 & H2 & H3). split; [done|]. split.
  - intros b Hb. apply lookup_alter_is_Some. by apply H2.
  - eapply chain_ext; [exact H3| |]; intros; unfold nx, pv.
    all: destruct (decide (a = b)) as [->|]; [|by rewrite lookup_alter_ne].
    all: rewrite lookup_alter_eq; destruct (h !! b); cbn; by rewrite ?Hn, ?Hp.
Qed.

Lemma lists_alter f a h tl pl : (forall e, next (f e) = next e) -> (forall e, prev (f e) = prev e) ->
  (forall e, timeout (f e) = timeout e) -> (forall e, fd (f e) = fd e) ->
  lists_wf h tl pl -> lists_wf (alter f a h) tl pl.
Proof.
  intros F1 F2 F3 F4 [H1 H2 H3 H4 H5 H6].
  assert (forall b, time_of (alter f a h) b = time_of h b) as Ht.
  { intros b. unfold time_of. destruct (decide (a = b)) as [->|]; [|by rewrite lookup_alter_ne].
    rewrite lookup_alter_eq. destruct (h !! b); cbn; by rewrite ?F3. }
  assert (forall b, fd_of (alter f a h) b = fd_of h b) as Hf.
  { intros b. unfold fd_of. destruct (decide (a = b)) as [->|]; [|by rewrite lookup_alter_ne].
    rewrite lookup_alter_eq. destruct (h !! b); cbn; by rewrite ?F4. }
  split; try done; try (by apply dlist_alter).
  - destruct (alter f a h !! NULL) as [x|] eqn:Hx; [|done]. exfalso.
    assert (is_Some (alter f a h !! NULL)) as Hs by eauto. apply lookup_alter_is_Some in Hs as [y Hy]. congruence.
  - eapply StronglySorted_ext; [|exact H5]. intros b c _ _. by apply due_le_ext.
  - eapply list.Forall_impl; [exact H6|]. intros b. cbn. by rewrite Hf.
Qed.

Definition set_index v (e : ril_event) : ril_event := e <| index := v |>.

Lemma max_fd_spec table : forall n s, (forall a, a ∈ table -> a <> NULL -> is_Some (heap s !! a)) ->
  exists m, max_fd table n s = Ok (m, s) /\ n <= m /\
    (forall a e, a ∈ table -> a <> NULL -> heap s !! a = Some e -> fd e <= m) /\
    (m = n \/ exists a e, a ∈ table /\ a <> NULL /\ heap s !! a = Some e /\ fd e = m).
Proof.
  induction table as [|a table IH]; intros n s Hs.
  - exists n. split_and!; [done|lia| |by left]. intros a e Ha. by apply not_elem_of_nil in Ha.
  - cbn [max_fd]. destruct (a =? NULL) eqn:Hz.
    + apply Z.eqb_eq in Hz. destruct (IH n s) as (m & R & Hm & Hle & Hor); [intros; apply Hs; [by right|done]|].
      exists m. split_and!; [done|done| |].
      * intros b e Hb. apply elem_of_cons in Hb as [->|Hb]; [done|eauto].
      * destruct Hor as [?|(b & e & ? & ?)]; [by left|right]. exists b, e. split; [by right|done].
    + apply Z.eqb_neq in Hz. destruct (Hs a) as [e He]; [left|done|].
      rewrite (bindM_ok _ _ _ _ _ (deref_ok _ _ _ He)).
      destruct (IH (if n <? fd e then fd e else n) s) as (m & R & Hm & Hle & Hor); [intros; apply Hs; [by right|done]|].
      exists m. rewrite R. revert Hm Hor. zb; intros Hm Hor.
      all: split_and!; [done|lia| |].
      all: try (intros b e' Hb Hb0 Hb1; apply elem_of_cons in Hb as [->|Hb]; [simplify_eq; lia|eauto]).
      all: destruct Hor as [?|(b & e' & ? & ?)]; [|right; exists b, e'; split; [by right|done]].
      * right. exists a, e. split; [left|done].
      * by left.
Qed.

(** An event sits in one slot. *)
Lemma watching_slot s i j a e f : watch_wf s -> watching s i a e -> watching s j a f -> i = j.
Proof.
  intros H (H1 & H2 & H3) (H4 & _ & H5). destruct (ww_event _ H _ _ H1 H2) as (e1 & Q1 & Q2 & _).
  destruct (ww_event _ H _ _ H4 H2) as (e2 & Q3 & Q4 & _). simplify_eq. lia.
Qed.

(** The table without the event of slot [i]. *)
Definition unwatched s (i : nat) (ev : Z) (e : ril_event) (n : Z) : EvState :=
  mkEvState (alter (set_index (-1)) ev (heap s)) (readFds s ∖ {[fd e]}) n (<[i := NULL]> (watch_table s)).

Lemma unwatched_watching s i ev e n j b f : watch_wf s -> watching s i ev e ->
  watching (unwatched s i ev e n) j b f <-> j <> i /\ watching s j b f.
Proof.
  intros Hw Hi. pose proof Hi as (Hi1 & Hi2 & Hi3). unfold watching, unwatched. cbn. split.
  - intros (H1 & H2 & H3). destruct (decide (j = i)) as [->|Hj].
    { rewrite list_lookup_insert_eq in H1 by (by eapply lookup_lt_Some). congruence. }
    rewrite list_lookup_insert_ne in H1 by done. split; [done|]. split_and!; [done|done|].
    rewrite lookup_alter_ne in H3; [done|]. intros ->.
    destruct (ww_event _ Hw _ _ H1 H2) as (e1 & Q1 & _). apply Hj. eapply watching_slot; [done| |exact Hi]. done.
  - intros (Hj & H1 & H2 & H3). rewrite list_lookup_insert_ne by done. split_and!; [done|done|].
    rewrite lookup_alter_ne; [done|]. intros ->. apply Hj. eapply watching_slot; [done| |exact Hi]. done.
Qed.

Lemma unwatched_wf s i ev e n : watch_wf s -> watching s i ev e ->
  (forall m, m ∈ readFds s ∖ {[fd e]} -> m < n) -> (n <= 1 \/ n - 1 ∈ readFds s ∖ {[fd e]}) ->
  watch_wf (unwatched s i ev e n).
Proof.
  intros Hw Hi Hn1 Hn2. pose proof (unwatched_watching s i ev e n) as Hwa. pose proof Hi as (Hi1 & Hi2 & Hi3).
  pose proof Hw as [H1 H2 H3 H4 H5 H6 H7]. split; cbn; try done.
  - by rewrite length_insert.
  - intros j b Hj Hb. destruct (decide (j = i)) as [->|Hji].
    { rewrite list_lookup_insert_eq in Hj by (by eapply lookup_lt_Some). congruence. }
    rewrite list_lookup_insert_ne in Hj by done. destruct (H2 j b Hj Hb) as (f & Hf & Hx).
    exists f. rewrite lookup_alter_ne; [done|]. intros ->. apply Hji. eapply watching_slot; [done| |exact Hi]. done.
  - intros a f Ha Ht Hp. destruct (decide (ev = a)) as [->|Hne].
    + rewrite lookup_alter_eq, Hi3 in Ha. cbn in Ha. simplify_eq. by left.
    + rewrite lookup_alter_ne in Ha by done. destruct (H3 a f Ha Ht Hp) as [?|[Hz Hl]]; [by left|right].
      split; [done|]. rewrite list_lookup_insert_ne; [done|]. intros ->. congruence.
  - intros m. rewrite elem_of_difference, elem_of_singleton, H4. split.
    + intros [(j & b & f & Hb & <-) Hne]. exists j, b, f. split; [|done]. apply Hwa; [done..|].
      split; [|done]. intros ->. destruct Hb as (? & ? & ?). simplify_eq.
    + intros (j & b & f & Hb & <-). apply Hwa in Hb as [Hj Hb]; [|done..]. split; [by exists j, b, f|].
      intros Hf. apply Hj. by eapply H5.
  - intros j b f k c g Hb Hc Hf. apply Hwa in Hb as [_ Hb], Hc as [_ Hc]; [|done..]. by eapply H5.
Qed.

Lemma removeWatch_spec s tl pl i ev e : ev_inv s tl pl -> watching s i ev e ->
  exists n, removeWatch ev i s = Ok (tt, unwatched s i ev e n) /\ ev_inv (unwatched s i ev e n) tl pl.
Proof.
  intros [Hl Hw] Hi. pose proof Hi as (Hi1 & Hi2 & Hi3).
  destruct (ww_event _ Hw _ _ Hi1 Hi2) as (e1 & Q1 & Q2 & Q3 & _). simplify_eq.
  assert (lists_wf (alter (set_index (-1)) ev (heap s)) tl pl) as Hl' by (by apply lists_alter).
  assert (fd e ∈ readFds s) as Hin by (apply (ww_fds _ Hw); eauto).
  unfold removeWatch. unfold bindM at 1, modM. erewrite bindM_ok by (apply store_ok; cbn; by rewrite Hi3).
  erewrite bindM_ok by (apply deref_ok; cbn; by rewrite lookup_alter_eq, Hi3). cbn [fd set eta].
  unfold FD_CLR. rewrite Q3. unfold bindM at 1, modM. unfold bindM at 1, getM. cbn [nfds set eta watch_table].
  destruct (fd e + 1 =? nfds s) eqn:Hn.
  - apply Z.eqb_eq in Hn.
    match goal with |- exists _, bindM _ _ ?st = _ /\ _ => set (s1 := st) end.
    assert (s1 = unwatched s i ev e (nfds s)) as Hs1 by done.
    destruct (max_fd_spec (watch_table s1) 0 s1) as (m & R & Hm & Hle & Hor).
    { intros a Ha Hz. apply list_elem_of_lookup_1 in Ha as [j Hj]. rewrite Hs1 in *. cbn in *.
      apply lookup_alter_is_Some. destruct (decide (i = j)) as [->|].
      - rewrite list_lookup_insert_eq in Hj by (by eapply lookup_lt_Some). congruence.
      - rewrite list_lookup_insert_ne in Hj by done. by destruct (ww_event _ Hw _ _ Hj Hz) as (x & -> & _). }
    exists (m + 1). rewrite (bindM_ok _ _ _ _ _ R). split; [done|]. split; [done|].
    apply unwatched_wf; [done..| |].
    + intros k [(j & b & f & Hb & <-)%(ww_fds _ Hw) Hk]%elem_of_difference.
      assert (watching s1 j b f) as (X1 & X2 & X3).
      { rewrite Hs1. apply unwatched_watching; [done..|]. split; [|done]. intros ->.
        destruct Hb as (? & ? & ?). simplify_eq. set_solver. }
      apply Z.lt_succ_r. eapply Hle; [by eapply list_elem_of_lookup_2|done|done].
    + destruct Hor as [->|(b & f & Hb & Hb0 & Hb1 & Hb2)]; [left; lia|right].
      apply list_elem_of_lookup_1 in Hb as [j Hj].
      assert (watching s1 j b f) as Hwb by done. rewrite Hs1 in Hwb. apply unwatched_watching in Hwb as [Hj' Hwb]; [|done..].
      replace (m + 1 - 1) with (fd f) by lia. apply elem_of_difference. split; [apply (ww_fds _ Hw); eauto|].
      apply not_elem_of_singleton. intros Hff. apply Hj'. by eapply (ww_inj _ Hw).
  - apply Z.eqb_neq in Hn. exists (nfds s). split; [done|]. split; [done|].
    apply unwatched_wf; [done..| |].
    + intros k [Hk _]%elem_of_difference. by apply (ww_nfds _ Hw).
    + destruct (ww_tight _ Hw) as [?|?]; [by left|right]. apply elem_of_difference. split; [done|].
      apply not_elem_of_singleton. lia.
Qed.

(** * Read-ready events *)

(** What the loop reads of an event to call it. *)
Definition call (e : ril_event) : Z * bool * timeval * Z * Z := (fd e, persist e, timeout e, func e, param e).
Definition same_call h h' : Prop := forall a, call <$> h' !! a = call <$> h !! a.

Lemma core_call h h' : same_core h h' -> same_call h h'.
Proof.
  intros H a. specialize (H a). destruct (h !! a), (h' !! a); cbn in *; try congruence.
  assert (core r0 = core r) as Hc by congruence. apply core_fields in Hc as (E1 & E2 & E3 & E4 & E5 & E6).
  unfold call. by rewrite E1, E3, E4, E5, E6.
Qed.

Lemma same_call_trans h1 h2 h3 : same_call h1 h2 -> same_call h2 h3 -> same_call h1 h3.
Proof. intros H1 H2 a. by rewrite H2. Qed.

Lemma call_alter f a h : (forall e, call (f e) = call e) -> same_call h (alter f a h).
Proof.
  intros Hf b. destruct (decide (a = b)) as [->|]; [|by rewrite lookup_alter_ne].
  rewrite lookup_alter_eq, <- option_fmap_compose. apply option_fmap_ext. apply Hf.
Qed.

Lemma call_fd h h' a : same_call h h' -> fd_of h' a = fd_of h a.
Proof.
  intros H. specialize (H a). unfold fd_of. destruct (h !! a), (h' !! a); cbn in *; try done.
  unfold call in H. by simplify_eq/=.
Qed.

Definition is_ready h (rfds : gset Z) (a : Z) : Prop := a <> NULL /\ fd_of h a ∈ rfds.
#[export] Instance is_ready_dec h rfds a : Decision (is_ready h rfds a).
Proof. unfold is_ready. apply _. Defined.

(** The watched events whose descriptor is in [rfds], in the order of the table. *)
Definition ready_events s (rfds : gset Z) : list Z := filter (is_ready (heap s) rfds) (watch_table s).

Definition one_shot h (a : Z) : bool := negb (default true (persist <$> h !! a)).

(** A slot once [fired] have been queued. *)
Definition slot_after h (fired : list Z) (a : Z) : Z := if bool_decide (a ∈ fired) && one_shot h a then NULL else a.

Lemma call_ready h h' rfds l : same_call h h' -> filter (is_ready h' rfds) l = filter (is_ready h rfds) l.
Proof. intros H. apply list_filter_iff. intros a. unfold is_ready. by rewrite (call_fd _ _ _ H). Qed.

Lemma call_slot h h' fired l : same_call h h' -> slot_after h' fired <$> l = slot_after h fired <$> l.
Proof.
  intros H. apply list_fmap_ext. intros i a _. unfold slot_after, one_shot. specialize (H a).
  destruct (h !! a), (h' !! a); cbn in *; try done. unfold call in H. injection H as H1 H2 H3 H4 H5. by rewrite H2.
Qed.

Lemma slot_after_nil h l : slot_after h [] <$> l = l.
Proof.
  induction l as [|a l IH]; [done|]. rewrite fmap_cons, IH. unfold slot_after.
  by rewrite bool_decide_eq_false_2 by apply not_elem_of_nil.
Qed.

Lemma NULL_not_fired h rfds n l : NULL ∉ take n (filter (is_ready h rfds) l).
Proof. intros (i & Hi & _)%elem_of_take. apply list_elem_of_lookup_2, list_elem_of_filter in Hi as [[Hx _] _]. done. Qed.

Lemma watching_not_timer s tl pl i a e : ev_inv s tl pl -> watching s i a e -> a ∉ timer_list :: tl /\ a <> pending_list.
Proof.
  intros [[_ _ _ _ _ H6] Hw] (H1 & H2 & H3). destruct (ww_event _ Hw _ _ H1 H2) as (e' & Q1 & _ & Q2 & Q3 & Q4).
  split; [|done]. intros [->|Ha]%elem_of_cons; [done|]. apply list.Forall_forall with (x := a) in H6; [|done].
  unfold fd_of in H6. rewrite Q1 in H6. cbn in H6. unfold in_fd_set in Q2. rewrite H6 in Q2. done.
Qed.

Lemma ready_step s tl pl i ev e : ev_inv s tl pl -> watching s i ev e -> ev ∉ pl ->
  exists h1 e1 s2, addToList ev pending_list s = Ok (tt, s <| heap := h1 |>) /\ h1 !! ev = Some e1 /\
    (if persist e1 then retM tt else removeWatch ev i) (s <| heap := h1 |>) = Ok (tt, s2) /\
    ev_inv s2 tl (pl ++ [ev]) /\ same_call (heap s) (heap s2) /\
    watch_table s2 = if one_shot (heap s) ev then <[i := NULL]> (watch_table s) else watch_table s.
Proof.
  intros Hinv Hi Hpl. pose proof Hinv as [Hl Hw]. pose proof Hi as (Hi1 & Hi2 & Hi3).
  destruct (watching_not_timer _ _ _ _ _ _ Hinv Hi) as [N1 N2].
  destruct (append_pending s tl pl ev) as (h1 & R1 & L1 & C1); [done|by rewrite Hi3| |].
  { intros [?|[?|?]%elem_of_cons]%elem_of_app; tauto. }
  destruct (same_core_Some _ _ _ _ C1 Hi3) as (e1 & He1 & Hcc). apply core_fields in Hcc as (_ & _ & Hp & _).
  assert (ev_inv (s <| heap := h1 |>) tl (pl ++ [ev])) as Hinv1 by (split; [done|by apply core_watch]).
  assert (one_shot (heap s) ev = negb (persist e1)) as -> by (unfold one_shot; by rewrite Hi3, Hp).
  exists h1, e1. destruct (persist e1).
  - exists (s <| heap := h1 |>). split_and!; try done. by apply core_call.
  - destruct (removeWatch_spec (s <| heap := h1 |>) tl (pl ++ [ev]) i ev e1) as (n & R2 & I2); [done..|].
    eexists. split_and!; [done|done|exact R2|exact I2| |done].
    eapply same_call_trans; [by apply core_call|]. cbn. by apply call_alter.
Qed.

(** The slots after [i] have not changed. *)
Lemma drop_after i (b : bool) l : drop (S i) (if b then <[i := NULL]> l else l) = drop (S i) l.
Proof. destruct b; [|done]. by rewrite drop_insert_lt by lia. Qed.

Lemma slot_after_step s i ev e fired : watch_wf s -> watching s i ev e -> NULL ∉ fired -> ev ∉ fired ->
  slot_after (heap s) fired <$> (if one_shot (heap s) ev then <[i := NULL]> (watch_table s) else watch_table s) =
  slot_after (heap s) (ev :: fired) <$> watch_table s.
Proof.
  intros Hw Hi HN Hev. pose proof Hi as (Hi1 & Hi2 & Hi3). apply list_eq. intros j. rewrite !list_lookup_fmap.
  destruct (decide (j = i)) as [->|Hj].
  - rewrite Hi1. unfold slot_after. cbn. rewrite (bool_decide_eq_true_2 (ev ∈ ev :: fired)) by left.
    destruct (one_shot (heap s) ev) eqn:Ho; cbn.
    + rewrite list_lookup_insert_eq by (by eapply lookup_lt_Some). cbn.
      by rewrite (bool_decide_eq_false_2 (NULL ∈ fired)).
    + rewrite Hi1. cbn. by rewrite (bool_decide_eq_false_2 (ev ∈ fired)).
  - replace ((if one_shot (heap s) ev then <[i:=NULL]> (watch_table s) else watch_table s) !! j) with (watch_table s !! j)
      by (destruct (one_shot _ _); [by rewrite list_lookup_insert_ne|done]).
    destruct (watch_table s !! j) as [b|] eqn:Hb; [|done]. cbn. f_equal. unfold slot_after.
    assert (b <> ev) as Hbe.
    { intros ->. apply Hj. destruct (ww_event _ Hw _ _ Hb Hi2) as (f & Hf & _). eapply watching_slot; [done| |exact Hi]. done. }
    assert (b ∈ ev :: fired <-> b ∈ fired) as Hiff by set_solver.
    by rewrite (bool_decide_ext _ _ Hiff).
Qed.

Lemma ready_loop_spec k : forall i rfds n s tl pl, ev_inv s tl pl -> (i + k = MAX_FD_EVENTS)%nat ->
  (forall j a, watch_table s !! j = Some a -> (i <= j)%nat -> a <> NULL -> a ∉ pl) ->
  exists s', ready_loop k i rfds n s = Ok (tt, s') /\ same_call (heap s) (heap s') /\
    let fired := take (Z.to_nat n) (filter (is_ready (heap s) rfds) (drop i (watch_table s))) in
    ev_inv s' tl (pl ++ fired) /\ watch_table s' = slot_after (heap s) fired <$> watch_table s.
Proof.
  induction k as [|k IH]; intros i rfds n s tl pl Hinv Hik Hpl; pose proof Hinv as [Hl Hw].
  - exists s. rewrite drop_ge by (rewrite (ww_len _ Hw); lia). cbn [filter list_filter]. rewrite take_nil, app_nil_r, slot_after_nil.
    split_and!; done.
  - cbn [ready_loop]. destruct (Z.leb_spec n 0) as [Hn|Hn].
    { exists s. replace (Z.to_nat n) with 0%nat by lia. rewrite take_0, app_nil_r, slot_after_nil. done. }
    destruct (lookup_lt_is_Some_2 (watch_table s) i) as [rev Hrev]; [rewrite (ww_len _ Hw); lia|].
    unfold bindM at 1, getM. rewrite Hrev. unfold bindM at 1, of_option, retM.
    rewrite (drop_S _ _ _ Hrev), list.filter_cons.
    destruct (Z.eqb_spec rev NULL) as [->|Hz].
    { rewrite decide_False by (intros [? _]; done). apply IH; [done|lia|]. intros j a Hj Hle. apply (Hpl j); [done|lia]. }
    destruct (ww_event _ Hw _ _ Hrev Hz) as (e & He & _ & Hfd & _).
    rewrite (bindM_ok _ _ _ _ _ (deref_ok _ _ _ He)). unfold FD_ISSET. rewrite Hfd. unfold bindM at 1, retM.
    assert (fd_of (heap s) rev = fd e) as Hfo by (unfold fd_of; by rewrite He).
    case_bool_decide as Hset.
    2: { rewrite decide_False by (intros [_ ?]; congruence). apply IH; [done|lia|]. intros j a Hj Hle. apply (Hpl j); [done|lia]. }
    rewrite decide_True by (split; [done|congruence]).
    assert (watching s i rev e) as Hwi by done.
    destruct (ready_step s tl pl i rev e Hinv Hwi) as (h1 & e1 & s2 & R1 & He1 & R2 & I2 & C2 & T2); [by apply (Hpl i)|].
    rewrite (bindM_ok _ _ _ _ _ R1). erewrite bindM_ok by (apply deref_ok; exact He1). rewrite (bindM_ok _ _ _ _ _ R2).
    assert (forall j a, watch_table s2 !! j = Some a -> (S i <= j)%nat -> a <> NULL -> watch_table s !! j = Some a) as Hlater.
    { intros j a Hj Hle Ha. rewrite T2 in Hj. destruct (one_shot _ _); [|done]. by rewrite list_lookup_insert_ne in Hj by lia. }
    destruct (IH (S i) rfds (n - 1) s2 tl (pl ++ [rev]) I2) as (s3 & R3 & C3 & I3 & T3); [lia| |].
    { intros j a Hj Hle Ha. pose proof (Hlater j a Hj Hle Ha) as Hj'. rewrite elem_of_app, list_elem_of_singleton.
      intros [Hx|Hx]; [by apply (Hpl j a Hj'); [lia|..]|subst a].
      assert (j = i) as -> by (eapply watching_slot; [done| |exact Hwi]; done). lia. }
    exists s3. split; [done|]. split; [by eapply same_call_trans|].
    rewrite T2, drop_after, (call_ready _ _ _ _ C2) in I3, T3. replace (Z.to_nat n) with (S (Z.to_nat (n - 1))) by lia.
    cbn [take]. rewrite <- app_assoc in I3. cbn [app] in I3. split; [exact I3|]. rewrite T3.
    rewrite (call_slot _ _ _ _ C2). eapply slot_after_step; [done|exact Hwi|apply NULL_not_fired|].
    intros (j & Hj & _)%elem_of_take. apply list_elem_of_lookup_2, list_elem_of_filter in Hj as [_ Hj].
    apply list_elem_of_lookup_1 in Hj as [j' Hj]. rewrite lookup_drop in Hj.
    assert (S i + j' = i)%nat by (eapply watching_slot; [done| |exact Hwi]; done). lia.
Qed.

Lemma NoDup_fmap_filter {A} (f : A -> Z) (P : A -> Prop) `{forall x, Decision (P x)} (xs : list A) :
  (forall i j a b, xs !! i = Some a -> xs !! j = Some b -> P a -> P b -> f a = f b -> i = j) ->
  NoDup (f <$> filter P xs).
Proof.
  induction xs as [|a xs IH]; intros Hf; [constructor|].
  assert (NoDup (f <$> filter P xs)) as Hn.
  { apply IH. intros i j b c Hi Hj Hb Hc Hfe. specialize (Hf (S i) (S j) b c Hi Hj Hb Hc Hfe). lia. }
  rewrite list.filter_cons. case_decide as Ha; [|done]. rewrite fmap_cons. apply list.NoDup_cons. split; [|done].
  intros (b & Hfb & [Hb (j & Hj)%list_elem_of_lookup_1]%list_elem_of_filter)%list_elem_of_fmap.
  specialize (Hf 0%nat (S j) a b eq_refl Hj Ha Hb Hfb). lia.
Qed.

(** [select] counts the descriptors, so no ready event is left for another round. *)
Lemma ready_count s rfds : watch_wf s -> (length (ready_events s rfds) <= size rfds)%nat.
Proof.
  intros Hw. unfold ready_events. rewrite <- (length_fmap (fd_of (heap s))).
  rewrite <- (size_list_to_set (C := gset Z)).
  - apply subseteq_size. intros n (a & -> & [[_ Ha] _]%list_elem_of_filter)%elem_of_list_to_set%list_elem_of_fmap. done.
  - apply NoDup_fmap_filter. intros i j a b Hi Hj [Ha _] [Hb _] Hf.
    destruct (ww_event _ Hw _ _ Hi Ha) as (e & He & _), (ww_event _ Hw _ _ Hj Hb) as (f & Hff & _).
    eapply (ww_inj _ Hw i a e j b f); [done..|]. unfold fd_of in Hf. by rewrite He, Hff in Hf.
Qed.

Lemma processReadReadies_spec rfds n s tl pl : ev_inv s tl pl -> Forall (fun a => fd_of (heap s) a = -1) pl ->
  exists s', processReadReadies rfds n s = Ok (tt, s') /\ same_call (heap s) (heap s') /\
    let fired := take (Z.to_nat n) (ready_events s rfds) in
    ev_inv s' tl (pl ++ fired) /\ watch_table s' = slot_after (heap s) fired <$> watch_table s.
Proof.
  intros Hinv Hpl. apply (ready_loop_spec MAX_FD_EVENTS 0); [done|done|].
  intros j a Hj _ Ha Hx. apply list.Forall_forall with (x := a) in Hpl; [|done]. destruct Hinv as [_ Hw].
  destruct (ww_event _ Hw _ _ Hj Ha) as (e & He & _ & Hf & _). unfold fd_of in Hpl. rewrite He in Hpl. cbn in Hpl.
  by rewrite Hpl in Hf.
Qed.
