(* ===== verification/RilClient.v ===== *)
(** The operations a client of the event loop calls: setting an event up, watching its
    descriptor, adding it as a timer and deleting it, when the client keeps to the rules
    of intrusive lists ([client_ok]), and with what they leave. *)

From stdpp Require Import base list gmap sorting numbers.
From Stdlib Require Import ZArith Lia.
From S2P Require Import Prelude RilEvent RilLists RilEventProps.

Local Open Scope Z_scope.
Local Open Scope st_scope.
Local Open Scope rec_scope.

Implicit Types (h : gmap Z ril_event) (s : EvState) (l tl pl : list Z).

(** An event that is on no list. *)
Definition unlinked ev tl pl : Prop := ev ∉ (timer_list :: tl) ++ pending_list :: pl.

Lemma watch_other_heap s h' : watch_wf s -> h' !! NULL = None ->
  (forall a, a ∈ watch_table s -> h' !! a = heap s !! a \/ a = NULL) ->
  (forall a e, h' !! a = Some e -> a ∉ watch_table s -> a <> timer_list -> a <> pending_list -> index e = -1) ->
  watch_wf (s <| heap := h' |>).
Proof.
  intros [H1 H2 H3 H4 H5 H6 H7] HN Hsame' Hidx.
  assert (forall i a, watch_table s !! i = Some a -> a <> NULL -> h' !! a = heap s !! a) as Hsame.
  { intros i a Hi Ha. destruct (Hsame' a); [by eapply list_elem_of_lookup_2|done..]. }
  assert (forall i a e, watching (s <| heap := h' |>) i a e <-> watching s i a e) as Hw.
  { intros i a e. unfold watching. cbn. split; intros (Hi & Hn & He); (split_and!; [done|done|]);
      specialize (Hsame i a Hi Hn); congruence. }
  split; try done.
  - intros i a Hi Hn. cbn. rewrite (Hsame i a) by done. by apply H2.
  - cbn. intros a e He Ht Hp. destruct (decide (a ∈ watch_table s)) as [Ha|Ha]; [|by left; eapply Hidx].
    destruct (Hsame' a Ha) as [Hx| ->]; [|congruence]. rewrite Hx in He. by apply H3.
  - intros n. cbn. rewrite H4. split; intros (i & a & e & Hi & Hn); exists i, a, e; (split; [by apply Hw|done]).
  - intros i a e j b f. rewrite !Hw. apply H5.
Qed.

Lemma lists_other_heap h h' tl pl : lists_wf h tl pl -> h' !! NULL = None ->
  (forall a, a ∈ (timer_list :: tl) ++ pending_list :: pl -> h' !! a = h !! a) -> lists_wf h' tl pl.
Proof.
  intros [H1 H2 H3 H4 H5 H6] HN Hs. split; try done.
  - eapply dlist_frame; [|exact H1]. intros a Ha. apply Hs. set_solver.
  - eapply dlist_frame; [|exact H2]. intros a Ha. apply Hs. set_solver.
  - eapply StronglySorted_ext; [|exact H5]. intros a b Ha Hb. apply due_le_ext; unfold time_of; rewrite Hs; set_solver.
  - apply list.Forall_forall. intros a Ha. apply list.Forall_forall with (x := a) in H6; [|done].
    unfold fd_of in *. rewrite Hs; [done|set_solver].
Qed.

(** An event of no slot has no index. *)
Lemma index_unwatched s a e : watch_wf s -> heap s !! a = Some e -> a ∉ watch_table s ->
  a <> timer_list -> a <> pending_list -> index e = -1.
Proof.
  intros Hw He Ha Ht Hp. destruct (ww_index _ Hw a e He Ht Hp) as [?|[_ Hi]]; [done|].
  exfalso. apply Ha. by eapply list_elem_of_lookup_2.
Qed.

(** * [ril_event_set] *)

Definition fresh_event (fd_ : Z) (persist_ : bool) (func_ param_ : Z) : ril_event :=
  mkEv NULL NULL fd_ (-1) persist_ (0, 0) func_ param_.

Lemma ril_event_set_spec s tl pl ev fd_ persist_ func_ param_ : ev_inv s tl pl -> ev <> NULL ->
  unlinked ev tl pl -> ev ∉ watch_table s ->
  ril_event_set ev fd_ persist_ func_ param_ s =
    Ok (tt, s <| heap := <[ev := fresh_event fd_ persist_ func_ param_]> (heap s) |>) /\
  ev_inv (s <| heap := <[ev := fresh_event fd_ persist_ func_ param_]> (heap s) |>) tl pl.
Proof.
  intros [Hl Hw] Hz Hu Hwt. split.
  - unfold ril_event_set. rewrite (proj2 (Z.eqb_neq _ _)) by done. unfold bindM at 1, modM.
    rewrite store_ok by (cbn; by rewrite lookup_insert_eq). cbn. unfold set; cbn. do 3 f_equal. by rewrite alter_insert_eq.
  - split.
    + eapply lists_other_heap; [exact Hl|cbn; rewrite lookup_insert_ne by done; apply Hl|].
      intros a Ha. cbn. apply lookup_insert_ne. intros ->. done.
    + apply watch_other_heap; [done|rewrite lookup_insert_ne by done; apply Hl| |].
      * intros a Ha. left. apply lookup_insert_ne. intros ->. done.
      * intros a e He Ha Ht Hp. destruct (decide (ev = a)) as [->|].
        -- rewrite lookup_insert_eq in He. by simplify_eq.
        -- rewrite lookup_insert_ne in He by done. by eapply index_unwatched.
Qed.

(** * [ril_event_del] *)

Lemma ril_event_del_spec s tl pl ev e : ev_inv s tl pl -> heap s !! ev = Some e -> ev <> timer_list -> ev <> pending_list ->
  (ev ∉ watch_table s -> ril_event_del ev s = Ok (tt, s)) /\
  (forall i, watch_table s !! i = Some ev ->
     exists n, ril_event_del ev s = Ok (tt, unwatched s i ev e n) /\ ev_inv (unwatched s i ev e n) tl pl).
Proof.
  intros Hinv He Ht Hp. pose proof Hinv as [Hl Hw]. unfold ril_event_del.
  rewrite (bindM_ok _ _ _ _ _ (deref_ok _ _ _ He)). split.
  - intros Ha. by rewrite (index_unwatched _ _ _ Hw He Ha Ht Hp).
  - intros i Hi. assert (ev <> NULL) as Hz by (intros ->; destruct Hl; congruence).
    destruct (ww_event _ Hw _ _ Hi Hz) as (e' & He' & Hx & _). simplify_eq. rewrite Hx.
    pose proof (lookup_lt_Some _ _ _ Hi) as Hlt. rewrite (ww_len _ Hw) in Hlt.
    rewrite (proj2 (Z.ltb_ge _ _)), (proj2 (Z.leb_gt _ _)) by lia. cbn [orb]. rewrite Nat2Z.id.
    by apply removeWatch_spec.
Qed.

(** * [ril_event_add] *)

(** The state once [ev] is watched in slot [i]. *)
Definition watched s (i : nat) (ev : Z) (e : ril_event) : EvState :=
  mkEvState (alter (set_index (Z.of_nat i)) ev (heap s)) (readFds s ∪ {[fd e]}) (nfds s `max` (fd e + 1))
    (<[i := ev]> (watch_table s)).

Lemma add_loop_slot k i s ev e rev : watch_table s !! i = Some rev -> heap s !! ev = Some e -> in_fd_set (fd e) = true ->
  add_loop (S k) i ev s = if rev =? NULL then Ok (tt, watched s i ev e) else add_loop k (S i) ev s.
Proof.
  intros Hrev He Hf. cbn [add_loop]. unfold bindM at 1, getM. rewrite Hrev. unfold bindM at 1, of_option, retM.
  destruct (Z.eqb_spec rev NULL) as [->|Hz]; [|done]. unfold bindM at 1, modM.
  erewrite bindM_ok by (apply store_ok; cbn; by rewrite He).
  erewrite bindM_ok by (apply deref_ok; cbn; by rewrite lookup_alter_eq, He). cbn [fd set eta].
  unfold FD_SET. rewrite Hf. run. unfold watched. unfold set; cbn. do 3 f_equal.
  zb; unfold set; cbn; f_equal; lia.
Qed.

Lemma add_loop_spec k : forall i s ev e, heap s !! ev = Some e -> in_fd_set (fd e) = true ->
  (i + k = length (watch_table s))%nat -> Forall (fun a => a <> NULL) (take i (watch_table s)) ->
  (Forall (fun a => a <> NULL) (watch_table s) /\ add_loop k i ev s = Ok (tt, s)) \/
  (exists j, (j < length (watch_table s))%nat /\ watch_table s !! j = Some NULL /\
     Forall (fun a => a <> NULL) (take j (watch_table s)) /\ add_loop k i ev s = Ok (tt, watched s j ev e)).
Proof.
  induction k as [|k IH]; intros i s ev e He Hf Hik Hnn.
  - left. rewrite take_ge in Hnn by lia. done.
  - destruct (lookup_lt_is_Some_2 (watch_table s) i) as [rev Hrev]; [lia|]. rewrite (add_loop_slot _ _ _ _ _ _ Hrev He Hf).
    destruct (Z.eqb_spec rev NULL) as [->|Hz].
    + right. exists i. split_and!; [lia|done..].
    + apply IH; [done|done|lia|]. rewrite (take_S_r _ _ _ Hrev). apply Forall_app_2; [done|]. by constructor.
Qed.

Lemma watched_watching s i ev e j b f : watch_wf s -> watch_table s !! i = Some NULL -> heap s !! ev = Some e ->
  ev <> NULL -> ev ∉ watch_table s ->
  watching (watched s i ev e) j b f <-> (j = i /\ b = ev /\ f = set_index (Z.of_nat i) e) \/ (j <> i /\ watching s j b f).
Proof.
  intros Hw Hi He Hz Hni. unfold watching, watched. cbn. destruct (decide (j = i)) as [->|Hj].
  - rewrite list_lookup_insert_eq by (by eapply lookup_lt_Some). split.
    + intros ([= <-] & _ & H3). left. rewrite lookup_alter_eq, He in H3. by simplify_eq/=.
    + intros [(_ & -> & ->)|[? _]]; [|done]. by rewrite lookup_alter_eq, He.
  - rewrite list_lookup_insert_ne by done. split.
    + intros (H1 & H2 & H3). right. split; [done|]. rewrite lookup_alter_ne in H3; [done|].
      intros ->. apply Hni. by eapply list_elem_of_lookup_2.
    + intros [(? & _)|(_ & H1 & H2 & H3)]; [done|]. rewrite lookup_alter_ne; [done|].
      intros ->. apply Hni. by eapply list_elem_of_lookup_2.
Qed.

Lemma watched_inv s tl pl i ev e : ev_inv s tl pl -> watch_table s !! i = Some NULL -> heap s !! ev = Some e ->
  ev ∉ timer_list :: tl -> ev <> pending_list -> ev ∉ watch_table s -> in_fd_set (fd e) = true -> fd e ∉ readFds s ->
  ev_inv (watched s i ev e) tl pl.
Proof.
  intros [Hl Hw] Hi He Ht Hp Hni Hf Hnew.
  assert (ev <> NULL) as Hz by (intros ->; destruct Hl; congruence).
  pose proof (watched_watching s i ev e) as Hwa. split; [by apply lists_alter|].
  pose proof Hw as [H1 H2 H3 H4 H5 H6 H7]. split; cbn.
  - by rewrite length_insert.
  - intros j b Hj Hb. destruct (decide (j = i)) as [->|Hji].
    + rewrite list_lookup_insert_eq in Hj by (by eapply lookup_lt_Some). injection Hj as <-.
      rewrite lookup_alter_eq, He. eexists. split_and!; [done..| |done]. intros ->. apply Ht. left.
    + rewrite list_lookup_insert_ne in Hj by done. rewrite lookup_alter_ne; [by apply H2|].
      intros ->. apply Hni. by eapply list_elem_of_lookup_2.
  - intros a f Ha Hat Hap. destruct (decide (ev = a)) as [->|Hne].
    + rewrite lookup_alter_eq, He in Ha. simplify_eq/=. right. split; [lia|]. rewrite Nat2Z.id.
      apply list_lookup_insert_eq. by eapply lookup_lt_Some.
    + rewrite lookup_alter_ne in Ha by done. destruct (H3 a f Ha Hat Hap) as [?|[? Hx]]; [by left|right].
      split; [done|]. rewrite list_lookup_insert_ne; [done|]. intros ->. destruct Hl. congruence.
  - intros n. rewrite elem_of_union, elem_of_singleton, H4. split.
    + intros [(j & b & f & Hb & <-)| ->].
      * exists j, b, f. split; [|done]. apply Hwa; [done..|]. right. split; [|done]. intros ->. destruct Hb as (? & ? & _). congruence.
      * exists i, ev, (set_index (Z.of_nat i) e). split; [|done]. apply Hwa; [done..|]. by left.
    + intros (j & b & f & Hb & <-). apply Hwa in Hb as [(-> & -> & ->)|[_ Hb]]; [by right| |done..]. left. by exists j, b, f.
  - intros j b f k c g Hb Hc Hfe. apply Hwa in Hb, Hc; [|done..].
    destruct Hb as [(-> & -> & ->)|[Hji Hb]], Hc as [(-> & -> & ->)|[Hki Hc]]; [done|..|by eapply H5].
    + exfalso. apply Hnew. apply H4. cbn in Hfe. exists k, c, g. by rewrite Hfe.
    + exfalso. apply Hnew. apply H4. cbn in Hfe. exists j, b, f. by rewrite Hfe.
  - intros n [Hn|Hn]%elem_of_union; [specialize (H6 n Hn); lia|]. apply elem_of_singleton in Hn. lia.
  - destruct (Z.max_spec (nfds s) (fd e + 1)) as [[_ ->]|[Hge ->]].
    + right. apply elem_of_union. right. apply elem_of_singleton. lia.
    + destruct H7 as [H7|H7]; [by left|right]. set_solver.
Qed.

(** * [ril_timer_add] *)

Lemma timer_place_spec fuel t l2 : forall l1 s, dlist (heap s) timer_list (l1 ++ l2) -> StronglySorted (due_le (heap s)) l2 ->
  (length l2 < fuel)%nat ->
  timer_place fuel t (hd timer_list l2) s = Ok (hd timer_list (filter (fun a => ~ is_due (heap s) t a) l2), s) /\
  l2 = filter (is_due (heap s) t) l2 ++ filter (fun a => ~ is_due (heap s) t a) l2.
Proof.
  revert fuel. induction l2 as [|a l2 IH]; intros [|fuel] l1 s Hd Hs Hf; cbn in Hf; try lia; cbn [timer_place hd].
  - destruct Hd as (_ & Hin & _). destruct (Hin timer_list) as [e He]; [left|].
    rewrite (bindM_ok _ _ _ _ _ (deref_ok _ _ _ He)). cbn [filter list_filter hd]. rewrite Z.eqb_refl, andb_false_r. done.
  - destruct (dlist_remove _ _ _ _ _ Hd) as (e & p & He & _ & Hn & _).
    assert (a <> timer_list) as Hne.
    { intros ->. destruct Hd as [Hd _]. apply list.NoDup_cons in Hd as [Hd _]. apply Hd. set_solver. }
    rewrite (bindM_ok _ _ _ _ _ (deref_ok _ _ _ He)), (proj2 (Z.eqb_neq _ _) Hne), andb_true_r.
    assert (time_of (heap s) a = timeout e) as Ht by (unfold time_of; by rewrite He).
    destruct (timer_lt (timeout e) t) eqn:Hlt.
    + rewrite Hn, !list.filter_cons, decide_False, decide_True by (unfold is_due; rewrite Ht; auto). inversion Hs; subst.
      destruct (IH fuel (l1 ++ [a]) s) as [R E]; [by rewrite <- app_assoc|done|lia|]. rewrite R. split; [done|].
      cbn [app]. by rewrite <- E.
    + destruct (none_due (heap s) t a l2) as [-> ->]; [done|unfold is_due; rewrite Ht; congruence|]. done.
Qed.

Lemma sorted_insert {A} (R : A -> A -> Prop) x (xs ys : list A) : StronglySorted R (xs ++ ys) ->
  Forall (fun a => R a x) xs -> Forall (R x) ys -> StronglySorted R (xs ++ x :: ys).
Proof.
  induction xs as [|a xs IH]; intros Hs Hx Hy; cbn in *; [by constructor|].
  inversion Hs as [|? ? H1 H2]; subst. apply list.Forall_cons in Hx as [Ha Hx]. constructor; [by apply IH|].
  apply list.Forall_app in H2 as [H2 H3]. apply list.Forall_app. split; [done|]. by constructor.
Qed.

Definition set_timer t (e : ril_event) : ril_event := e <| fd := -1 |> <| timeout := t |>.

Definition earlier h t tl : list Z := filter (is_due h t) tl.
Definition later h t tl : list Z := filter (fun a => ~ is_due h t a) tl.

(** A timer between those due before it and the others. *)
Lemma insert_sorted h t tl pl ev e h' : lists_wf h tl pl -> unlinked ev tl pl -> h !! ev = Some e ->
  timeout e = t -> fd e = -1 -> tl = earlier h t tl ++ later h t tl ->
  same_core h h' -> dlist h' timer_list (earlier h t tl ++ ev :: later h t tl) ->
  (forall a, a ∉ timer_list :: ev :: tl -> h' !! a = h !! a) ->
  lists_wf h' (earlier h t tl ++ ev :: later h t tl) pl.
Proof.
  intros [H1 H2 H3 H4 H5 H6] Hu He Ht Hfd Hsplit Hc Hd Hf.
  assert (forall a, a ∈ earlier h t tl ++ ev :: later h t tl <-> a = ev \/ a ∈ tl) as Hin.
  { intros a. rewrite Hsplit at 3. rewrite !elem_of_app, elem_of_cons. tauto. }
  assert (time_of h ev = t) as Hte by (unfold time_of; by rewrite He).
  split; [done| | |by eapply core_null| |].
  - eapply dlist_frame; [|exact H2]. intros a Ha. apply Hf. intros Hx. unfold unlinked in Hu.
    apply list.NoDup_app in H3 as (_ & N & _). destruct (decide (a = ev)) as [->|]; [set_solver|]. apply (N a); set_solver.
  -
    apply list.NoDup_app in H3 as (N1 & N2 & N3). apply list.NoDup_app. split; [apply Hd|]. split; [|done].
    unfold unlinked in Hu. intros a [->|Ha]%elem_of_cons; [apply N2; left|].
    apply Hin in Ha as [->|Ha]; [set_solver|]. apply N2. by right.
  - eapply core_sorted; [done|]. apply sorted_insert; [by rewrite <- Hsplit| |]; apply list.Forall_forall; intros a Ha.
    + apply list_elem_of_filter in Ha as [Ha _]. unfold due_le. rewrite Hte. by apply timer_lt_le.
    + apply list_elem_of_filter in Ha as [Ha _]. unfold due_le. rewrite Hte. unfold is_due in Ha.
      by destruct (timer_lt _ _).
  - eapply core_nofd; [done|]. apply list.Forall_forall. intros a [->|Ha]%Hin.
    + unfold fd_of. by rewrite He.
    + by apply list.Forall_forall with (x := a) in H6.
Qed.

Lemma timer_heap_inv s tl pl ev e t : ev_inv s tl pl -> heap s !! ev = Some e -> unlinked ev tl pl -> ev ∉ watch_table s ->
  ev_inv (s <| heap := alter (set_timer t) ev (heap s) |>) tl pl.
Proof.
  intros [Hl Hw] He Hu Hni. pose proof Hl as [_ _ _ HN _ _].
  assert (ev <> NULL) as Hz by congruence.
  assert (forall a, a <> ev -> alter (set_timer t) ev (heap s) !! a = heap s !! a) as Ho.
  { intros a Ha. by rewrite lookup_alter_ne. }
  split; cbn.
  - eapply lists_other_heap; [exact Hl|by rewrite Ho by done|]. intros a Ha. apply Ho. intros ->. done.
  - apply watch_other_heap; [done|by rewrite Ho by done| |].
    + intros a Ha. left. apply Ho. intros ->. done.
    + intros a f Hf Ha Hat Hap. destruct (decide (a = ev)) as [->|].
      * rewrite lookup_alter_eq, He in Hf. simplify_eq/=. by eapply index_unwatched.
      * rewrite Ho in Hf by done. by eapply index_unwatched.
Qed.

Lemma due_agree h h' t l : (forall a, a ∈ l -> h' !! a = h !! a) ->
  earlier h' t l = earlier h t l /\ later h' t l = later h t l.
Proof.
  unfold earlier, later. induction l as [|a l IH]; intros H; [done|].
  destruct IH as [IH1 IH2]; [intros b Hb; apply H; by right|].
  assert (is_due h' t a <-> is_due h t a) as Hd by (unfold is_due, time_of; by rewrite H by left).
  rewrite !list.filter_cons, IH1, IH2. split.
  - destruct (decide (is_due h' t a)), (decide (is_due h t a)); tauto || done.
  - destruct (decide (~ is_due h' t a)), (decide (~ is_due h t a)); tauto || done.
Qed.

Lemma ril_timer_add_spec s tl pl ev e tv ts : ev_inv s tl pl -> heap s !! ev = Some e -> unlinked ev tl pl ->
  ev ∉ watch_table s ->
  let t := timeradd (getNow ts) tv in
  exists h', ril_timer_add ev (Some tv) ts s = Ok (tt, s <| heap := h' |>) /\
    same_core (alter (set_timer t) ev (heap s)) h' /\
    ev_inv (s <| heap := h' |>) (earlier (heap s) t tl ++ ev :: later (heap s) t tl) pl.
Proof.
  intros Hinv He Hu Hni t. set (s1 := s <| heap := alter (set_timer t) ev (heap s) |>).
  pose proof (timer_heap_inv s tl pl ev e t Hinv He Hu Hni) as Hinv1. fold s1 in Hinv1. pose proof Hinv1 as [Hl1 Hw1].
  pose proof Hl1 as [D1 _ _ _ S1 _].
  assert (ev ∉ timer_list :: tl) as Hnt by (unfold unlinked in Hu; set_solver).
  destruct (due_agree (heap s) (heap s1) t tl) as [E1 E2].
  { intros a Ha. cbn. apply lookup_alter_ne. intros ->. set_solver. }
  assert (heap s1 !! ev = Some (set_timer t e)) as He1 by (cbn; by rewrite lookup_alter_eq, He).
  destruct (timer_place_spec (list_fuel s1) t tl [] s1) as [R Hsplit]; [done|done| |].
  { pose proof (dlist_length _ _ _ D1). unfold list_fuel. lia. }
  fold (earlier (heap s1) t tl) (later (heap s1) t tl) in R, Hsplit.
  destruct (addToList_spec s1 timer_list (earlier (heap s1) t tl) (later (heap s1) t tl) ev) as (h2 & R2 & D2 & C2 & F2);
    [by rewrite <- Hsplit|by rewrite He1|by rewrite <- Hsplit|].
  exists h2. rewrite <- E1, <- E2. split_and!.
  - unfold ril_timer_add. destruct Hinv as [[(_ & Hin & _) _ _ _ _ _] _]. destruct (Hin timer_list) as [el Hel]; [left|].
    rewrite (bindM_ok _ _ _ _ _ (deref_ok _ _ _ Hel)).
    erewrite bindM_ok by (apply store_ok; by rewrite He).
    erewrite bindM_ok by (apply store_ok; cbn; by rewrite lookup_alter_eq, He).
    match goal with |- bindM _ _ ?st = _ => assert (st = s1) as -> end.
    { unfold s1, set; cbn. by rewrite alter_alter_eq. }
    rewrite (bindM_ok _ _ _ _ _ (deref_ok _ _ _ He1)). unfold bindM at 1, getM.
    pose proof (dlist_first _ _ _ D1) as Hfirst. unfold s1 in Hfirst. cbn in Hfirst.
    assert (nx (alter (set_timer t) ev (heap s)) timer_list = next el) as Hnx.
    { unfold nx. rewrite lookup_alter_ne by (intros ->; set_solver). by rewrite Hel. }
    rewrite <- Hnx, Hfirst. change (timeout (set_timer t e)) with t. rewrite (bindM_ok _ _ _ _ _ R). exact R2.
  - exact C2.
  - split; [|by apply core_watch in C2]. cbn. eapply insert_sorted; [exact Hl1|done|exact He1|done|done|done|done|done|].
    intros a Ha. apply F2. rewrite Hsplit in Ha. set_solver.
Qed.
