(* ===== verification/RilLoop.v ===== *)
(** The event loop as it runs: the thread in [ril_event_loop] and the clients, which call
    the operations from other threads or from the callbacks of the loop. What is done under
    [listMutex] is one step; so is a callback's event taken off the pending list, which
    only the loop touches. The loop looks at [readFds] and at the first timer without the lock; this
    is one step here, too, so that a client's change halfway through that look is not covered. *)

From stdpp Require Import base list gmap sorting numbers.
From Stdlib Require Import ZArith Lia.
From S2P Require Import Prelude RilEvent RilLists RilEventProps RilClient.

Local Open Scope Z_scope.
Local Open Scope st_scope.
Local Open Scope rec_scope.

Implicit Types (h : gmap Z ril_event) (m : EvState) (l tl pl : list Z).

(** ril_event.h:36-52 [ril_event_set, ril_event_add, ril_timer_add, ril_event_del] a call
    of a client; [ts] is the time it reads. *)
Inductive api :=
  | ASet (ev fd_ : Z) (persist_ : bool) (func_ param_ : Z)
  | AAdd (ev : Z)
  | ATimer (ev : Z) (tv : option timeval) (ts : timeval)
  | ADel (ev : Z).

Definition run_api (a : api) : ST EvState unit :=
  match a with
  | ASet ev fd_ persist_ func_ param_ => ril_event_set ev fd_ persist_ func_ param_
  | AAdd ev => ril_event_add ev
  | ATimer ev tv ts => ril_timer_add ev tv ts
  | ADel ev => ril_event_del ev
  end.

(** The rules for clients of an intrusive list: an event that is linked or watched is not
    set up anew nor added again, and watched descriptors are valid and distinct. *)
Definition client_ok m (a : api) : Prop :=
  match a with
  | ASet ev _ _ _ _ => ev <> NULL /\ unlinked ev (timers m) (pending m) /\ ev ∉ watch_table m
  | AAdd ev => exists e, heap m !! ev = Some e /\ in_fd_set (fd e) = true /\ fd e ∉ readFds m /\
      ev ∉ timer_list :: timers m /\ ev <> pending_list /\ ev ∉ watch_table m
  | ATimer ev tv _ => tv = None \/ (is_Some (heap m !! ev) /\ unlinked ev (timers m) (pending m) /\ ev ∉ watch_table m)
  | ADel ev => is_Some (heap m !! ev) /\ ev <> timer_list /\ ev <> pending_list
  end.

(** ril_event.cpp:350-389 [ril_event_loop] where the loop is: at its top, in [select] with
    the copy of the descriptors and the time to wait, after it with the ready descriptors
    and their number, or in [firePending] with the next event. *)
Inductive phase :=
  | AtTop
  | AtSelect (rfds : gset Z) (ptv : option timeval)
  | AtTimeouts (rfds : gset Z) (n : Z)
  | AtReadies (rfds : gset Z) (n : Z)
  | AtFire (ev : Z)
  | Stopped.

(** An event and the call made for it. *)
Definition firing : Type := Z * (Z * Z * Z).
Definition call_of h (a : Z) : firing := (a, default (NULL, -1, 0) ((fun e => (func e, fd e, param e)) <$> h !! a)).

(** [fired] are the callbacks run so far; [due] those that had to be: at each look at the
    clock the timers that are due, at each return of [select] the ready events. *)
Record Loop := mkLoop {
  mem : EvState;
  ph : phase;
  fired : list firing;
  due : list firing;
}.
#[export] Instance eta_Loop : Eta Loop := fun s => mkLoop (mem s) (ph s) (fired s) (due s).

(** ril_event.cpp:350-389 [ril_event_loop] and 207-218 [firePending]: the steps of the
    loop, and the clients' calls at any point. [select] returns some of the descriptors it
    was given and how many they are, or fails. *)
Inductive step : Loop -> Loop -> Prop :=
  | step_client s a m' :
      client_ok (mem s) a -> run_api a (mem s) = Ok (tt, m') -> step s (s <| mem := m' |>)
  | step_top s ts ptv m' :
      ph s = AtTop -> calcNextTimeout ts (mem s) = Ok (ptv, m') ->
      step s (s <| mem := m' |> <| ph := AtSelect (readFds (mem s)) ptv |>)
  | step_select s rfds ptv rfds' :
      ph s = AtSelect rfds ptv -> rfds' ⊆ rfds -> step s (s <| ph := AtTimeouts rfds' (Z.of_nat (size rfds')) |>)
  | step_interrupted s rfds ptv : ph s = AtSelect rfds ptv -> step s (s <| ph := AtTop |>)
  | step_error s rfds ptv : ph s = AtSelect rfds ptv -> step s (s <| ph := Stopped |>)
  | step_timeouts s rfds n ts m' :
      ph s = AtTimeouts rfds n -> processTimeouts ts (mem s) = Ok (tt, m') ->
      step s (mkLoop m' (AtReadies rfds n) (fired s)
                (due s ++ (call_of (heap (mem s)) <$> earlier (heap (mem s)) (getNow ts) (timers (mem s)))))
  | step_readies s rfds n m' :
      ph s = AtReadies rfds n -> processReadReadies rfds n (mem s) = Ok (tt, m') ->
      step s (mkLoop m' (AtFire (nx (heap m') pending_list)) (fired s)
                (due s ++ (call_of (heap (mem s)) <$> ready_events (mem s) rfds)))
  | step_fire s ev next_ f d p m' :
      ph s = AtFire ev -> ev <> pending_list -> fire_one ev (mem s) = Ok ((next_, f, d, p), m') ->
      step s (mkLoop m' (AtFire next_) (fired s ++ [(ev, (f, d, p))]) (due s))
  | step_fired s : ph s = AtFire pending_list -> step s (s <| ph := AtTop |>).

(** Before [ril_event_init], the variables hold zeros. *)
Definition boot : EvState := mkEvState ∅ ∅ 0 (replicate MAX_FD_EVENTS NULL).

Inductive reachable : Loop -> Prop :=
  | reach_init m : ril_event_init boot = Ok (tt, m) -> reachable (mkLoop m AtTop [] [])
  | reach_step s s' : reachable s -> step s s' -> reachable s'.

(** * The clients' calls *)

Lemma call_of_ext h h' a : call <$> h' !! a = call <$> h !! a -> call_of h' a = call_of h a.
Proof.
  intros H. unfold call_of. f_equal. destruct (h !! a), (h' !! a); cbn in *; try done.
  unfold call in H. injection H as H1 H2 H3 H4 H5. by rewrite H1, H4, H5.
Qed.

Lemma calls_ext h h' l : (forall a, a ∈ l -> call <$> h' !! a = call <$> h !! a) -> call_of h' <$> l = call_of h <$> l.
Proof.
  intros H. apply list_fmap_ext. intros i a Hi. apply call_of_ext, H. by eapply list_elem_of_lookup_2.
Qed.

Lemma add_spec m tl pl ev e : ev_inv m tl pl -> heap m !! ev = Some e -> in_fd_set (fd e) = true ->
  (Forall (fun a => a <> NULL) (watch_table m) /\ ril_event_add ev m = Ok (tt, m)) \/
  (exists j, (j < MAX_FD_EVENTS)%nat /\ watch_table m !! j = Some NULL /\
     Forall (fun a => a <> NULL) (take j (watch_table m)) /\ ril_event_add ev m = Ok (tt, watched m j ev e)).
Proof.
  intros [_ Hw] He Hf. rewrite <- (ww_len _ Hw). apply add_loop_spec; [done|done|by rewrite (ww_len _ Hw)|constructor].
Qed.

(** A client's call is defined, keeps the invariant and leaves the pending events alone. *)
Lemma api_inv m a : ev_wf m -> client_ok m a ->
  exists m' tl, run_api a m = Ok (tt, m') /\ ev_inv m' tl (pending m) /\
    forall b, b ∈ pending m -> call <$> heap m' !! b = call <$> heap m !! b.
Proof.
  intros Hinv Hok. destruct a as [ev fd_ persist_ func_ param_|ev|ev tv ts|ev]; cbn [run_api client_ok] in *.
  - destruct Hok as (Hz & Hu & Hni). do 2 eexists.
    destruct (ril_event_set_spec m _ _ ev fd_ persist_ func_ param_ Hinv Hz Hu Hni) as [R I].
    split_and!; [exact R|exact I|]. intros b Hb. cbn. rewrite lookup_insert_ne; [done|]. intros ->. apply Hu. set_solver.
  - destruct Hok as (e & He & Hf & Hnew & Ht & Hp & Hni).
    destruct (add_spec m _ _ ev e Hinv He Hf) as [[_ R]|(j & _ & Hj & _ & R)].
    + exists m, (timers m). done.
    + exists (watched m j ev e), (timers m). split_and!; [done|by apply watched_inv|]. intros b _. cbn. by apply call_alter.
  - destruct Hok as [->|([e He] & Hu & Hni)]; [by exists m, (timers m)|]. destruct tv as [tv|]; [|by exists m, (timers m)].
    destruct (ril_timer_add_spec m _ _ ev e tv ts Hinv He Hu Hni) as (h' & R & C & I).
    do 2 eexists. split_and!; [exact R|exact I|]. intros b Hb. cbn. rewrite (core_call _ _ C).
    rewrite lookup_alter_ne; [done|]. intros ->. apply Hu. set_solver.
  - destruct Hok as ([e He] & Ht & Hp). destruct (ril_event_del_spec m _ _ ev e Hinv He Ht Hp) as [D1 D2].
    destruct (decide (ev ∈ watch_table m)) as [(i & Hi)%list_elem_of_lookup_1|Hni].
    + destruct (D2 i Hi) as (n & R & I). do 2 eexists. split_and!; [exact R|exact I|]. intros b _. cbn. by apply call_alter.
    + exists m, (timers m). auto.
Qed.

(** * The loop *)

Definition phase_inv m (p : phase) : Prop :=
  match p with
  | AtTop | AtSelect _ _ | Stopped => pending m = []
  | AtTimeouts rfds n => pending m = [] /\ n = Z.of_nat (size rfds)
  | AtReadies rfds n => Forall (fun a => fd_of (heap m) a = -1) (pending m) /\ n = Z.of_nat (size rfds)
  | AtFire ev => ev = hd pending_list (pending m)
  end.

Definition loop_inv (s : Loop) : Prop :=
  ev_wf (mem s) /\ phase_inv (mem s) (ph s) /\ fired s ++ (call_of (heap (mem s)) <$> pending (mem s)) = due s.

Lemma phase_inv_ext m m' p : pending m' = pending m ->
  (forall a, a ∈ pending m -> call <$> heap m' !! a = call <$> heap m !! a) -> phase_inv m p -> phase_inv m' p.
Proof.
  intros Hp Hc. destruct p; cbn [phase_inv]; rewrite Hp; try done. intros [Hf ->]. split; [|done].
  apply list.Forall_forall. intros a Ha. apply list.Forall_forall with (x := a) in Hf; [|done].
  rewrite <- Hf. specialize (Hc a Ha). unfold fd_of. destruct (heap m !! a), (heap m' !! a); cbn in *; try done.
  unfold call in Hc. injection Hc as Hc _ _ _ _. done.
Qed.

Lemma calcNextTimeout_mem ts m ptv m' : calcNextTimeout ts m = Ok (ptv, m') -> m' = m.
Proof.
  unfold calcNextTimeout, deref. run. destruct (heap m !! timer_list) as [l|]; cbn; [|done].
  destruct (next l =? timer_list); [congruence|]. destruct (heap m !! next l) as [t|]; cbn; [|done].
  destruct (timer_lt _ _); congruence.
Qed.

(** A list's own event when the list is empty. *)
Definition empty_list (a : Z) : ril_event := mkEv a a (-1) 0 false (0, 0) NULL 0.
Definition initial : EvState :=
  mkEvState (<[pending_list := empty_list pending_list]> {[timer_list := empty_list timer_list]}) ∅ 0 (replicate MAX_FD_EVENTS NULL).

Lemma init_initial : ril_event_init boot = Ok (tt, initial).
Proof. reflexivity. Qed.

Lemma loop_inv_init m : ril_event_init boot = Ok (tt, m) -> loop_inv (mkLoop m AtTop [] []).
Proof.
  rewrite init_initial. intros [= <-].
  assert (ev_inv initial [] []) as Hinv.
  { split; split; try done.
    - split; [apply NoDup_singleton|]. split; [|done]. intros a ->%list_elem_of_singleton. vm_compute. eauto.
    - split; [apply NoDup_singleton|]. split; [|done]. intros a ->%list_elem_of_singleton. vm_compute. eauto.
    - cbn. apply list.NoDup_cons. split; [|apply NoDup_singleton]. by intros ?%list_elem_of_singleton.
    - constructor.
    - intros i a Hi Hz. exfalso. apply list_elem_of_lookup_2, elem_of_replicate in Hi as [-> _]. done.
    - intros a e He Ht Hp. exfalso. unfold initial in He. cbn [heap] in He.
      by rewrite lookup_insert_ne, lookup_singleton_ne in He.
    - cbn. intros n. split; [set_solver|]. intros (i & a & e & (Hi & Hz & _) & _). exfalso.
      apply list_elem_of_lookup_2, elem_of_replicate in Hi as [-> _]. done.
    - intros i a e j b f (Hi & Hz & _). exfalso. apply list_elem_of_lookup_2, elem_of_replicate in Hi as [-> _]. done.
    - left. cbn. lia. }
  destruct (ev_inv_views _ _ _ Hinv) as [_ Hp]. split; [by eapply ev_inv_wf|]. cbn [mem ph fired due phase_inv].
  by rewrite Hp.
Qed.

Lemma timeouts_inv m ts rfds n m' : ev_wf m -> pending m = [] -> n = Z.of_nat (size rfds) ->
  processTimeouts ts m = Ok (tt, m') ->
  ev_wf m' /\ phase_inv m' (AtReadies rfds n) /\ timers m' = later (heap m) (getNow ts) (timers m) /\
  call_of (heap m') <$> pending m' = call_of (heap m) <$> earlier (heap m) (getNow ts) (timers m).
Proof.
  intros Hinv Hp Hn R. destruct (processTimeouts_spec ts m _ _ Hinv) as (h' & R' & C & I). rewrite R in R'. simplify_eq.
  rewrite Hp in I. cbn [app] in I. fold (earlier (heap m) (getNow ts) (timers m)) (later (heap m) (getNow ts) (timers m)) in I.
  destruct (ev_inv_views _ _ _ I) as [Ht Hpe]. split; [by eapply ev_inv_wf|]. rewrite Hpe. cbn [phase_inv]. rewrite Hpe.
  split_and!; [|done|done|].
  - eapply core_nofd; [exact C|]. destruct Hinv as [[_ _ _ _ _ H6] _]. apply list.Forall_forall.
    intros a [_ Ha]%list_elem_of_filter. by apply list.Forall_forall with (x := a) in H6.
  - apply calls_ext. intros a _. by apply core_call.
Qed.

Lemma readies_inv m rfds n m' : ev_wf m -> phase_inv m (AtReadies rfds n) -> processReadReadies rfds n m = Ok (tt, m') ->
  ev_wf m' /\ phase_inv m' (AtFire (nx (heap m') pending_list)) /\
  call_of (heap m') <$> pending m' = (call_of (heap m) <$> pending m) ++ (call_of (heap m) <$> ready_events m rfds).
Proof.
  intros Hinv [Hf Hn] R. destruct (processReadReadies_spec rfds n m _ _ Hinv Hf) as (m2 & R' & C & I & _).
  rewrite R in R'. simplify_eq. rewrite take_ge in I by (rewrite Nat2Z.id; apply ready_count; apply Hinv).
  destruct (ev_inv_views _ _ _ I) as [_ Hpe]. split; [by eapply ev_inv_wf|]. cbn [phase_inv]. rewrite Hpe. split.
  - apply dlist_first. apply I.
  - rewrite <- fmap_app. apply calls_ext. intros a _. by apply C.
Qed.

Lemma fire_inv m ev next_ f d p m' : ev_wf m -> phase_inv m (AtFire ev) -> ev <> pending_list ->
  fire_one ev m = Ok ((next_, f, d, p), m') ->
  ev_wf m' /\ phase_inv m' (AtFire next_) /\
  call_of (heap m) <$> pending m = (ev, (f, d, p)) :: (call_of (heap m') <$> pending m').
Proof.
  intros Hinv Hph Hne R. cbn [phase_inv] in Hph. unfold ev_wf in Hinv. destruct (pending m) as [|ev' pl] eqn:Hpl; [done|]. cbn in Hph. subst ev'.
  destruct (fire_one_spec m _ pl ev Hinv) as (e & h' & He & C & R' & I). rewrite R in R'. simplify_eq.
  destruct (ev_inv_views _ _ _ I) as [_ Hpe]. split; [by eapply ev_inv_wf|]. cbn [phase_inv]. rewrite Hpe. split; [done|].
  rewrite fmap_cons. f_equal.
  - unfold call_of. by rewrite He.
  - symmetry. apply calls_ext. intros a _. by apply core_call.
Qed.

Lemma loop_inv_step s s' : loop_inv s -> step s s' -> loop_inv s'.
Proof.
  intros (Hwf & Hph & Hfd) Hs. destruct Hs as
    [s a m' Hok R|s ts ptv m' Hp R|s rfds ptv rfds' Hp Hsub|s rfds ptv Hp|s rfds ptv Hp
    |s rfds n ts m' Hp R|s rfds n m' Hp R|s ev next_ f d p m' Hp Hne R|s Hp]; unfold loop_inv; cbn [mem ph fired due set eta].
  - destruct (api_inv _ _ Hwf Hok) as (m2 & tl & R' & I & Hc). rewrite R in R'. simplify_eq.
    destruct (ev_inv_views _ _ _ I) as [_ Hpe]. split; [by eapply ev_inv_wf|]. split; [by eapply phase_inv_ext|].
    by rewrite Hpe, (calls_ext _ _ _ Hc).
  - apply calcNextTimeout_mem in R as ->. rewrite Hp in Hph. done.
  - rewrite Hp in Hph. done.
  - rewrite Hp in Hph. done.
  - rewrite Hp in Hph. done.
  - rewrite Hp in Hph. destruct Hph as [Hpe Hn]. rewrite Hpe in Hfd. cbn in Hfd. rewrite app_nil_r in Hfd.
    destruct (timeouts_inv _ _ _ _ _ Hwf Hpe Hn R) as (W & P & _ & E). by rewrite E, Hfd.
  - rewrite Hp in Hph. destruct (readies_inv _ _ _ _ Hwf Hph R) as (W & P & E).
    split; [done|]. split; [done|]. by rewrite E, app_assoc, Hfd.
  - rewrite Hp in Hph. destruct (fire_inv _ _ _ _ _ _ _ Hwf Hph Hne R) as (W & P & E).
    split; [done|]. split; [done|]. by rewrite <- app_assoc, <- Hfd, E.
  - rewrite Hp in Hph. cbn [phase_inv] in Hph. split; [done|]. split; [|done]. cbn [phase_inv].
    destruct (pending (mem s)) as [|x pl] eqn:Hx; [done|]. cbn in Hph. exfalso. subst x.
    destruct Hwf as [[_ (Hnd & _) _ _ _ _] _]. rewrite Hx in Hnd. apply list.NoDup_cons in Hnd as [Hnd _]. apply Hnd. left.
Qed.

Lemma reachable_inv s : reachable s -> loop_inv s.
Proof. induction 1; [by apply loop_inv_init|by eapply loop_inv_step]. Qed.

Lemma calc_succeeds ts m : ev_wf m -> succeeds (calcNextTimeout ts) m.
Proof.
  intros [[Hd _ _ _ _ _] _]. pose proof (dlist_first _ _ _ Hd) as Hfirst.
  pose proof Hd as (_ & Hin & _). destruct (Hin timer_list) as [l Hl]; [left|]. rewrite (nx_Some _ _ _ Hl) in Hfirst.
  unfold succeeds, calcNextTimeout. rewrite (bindM_ok _ _ _ _ _ (deref_ok _ _ _ Hl)).
  destruct (Z.eqb_spec (next l) timer_list) as [_|Hne]; [eexists _, _; reflexivity|].
  destruct (Hin (next l)) as [e He].
  { rewrite Hfirst. destruct (timers m); [left|right; left]. }
  rewrite (bindM_ok _ _ _ _ _ (deref_ok _ _ _ He)). destruct (timer_lt _ _); eexists _, _; reflexivity.
Qed.

(** * What the loop guarantees *)

(** C6: whatever the clients do within the rules and however their calls interleave with
    the loop, the two lists stay disjoint and well linked, the timers sorted, the watch
    table, the descriptor set and [nfds] in agreement; so no operation of the loop or of
    a client ever follows a bad pointer, runs outside of an array or fails to return. *)
Theorem ril_event_memory_safe s : reachable s ->
  ev_wf (mem s) /\
  (forall ts, succeeds (calcNextTimeout ts) (mem s)) /\
  (forall ts rfds n, ph s = AtTimeouts rfds n -> succeeds (processTimeouts ts) (mem s)) /\
  (forall rfds n, ph s = AtReadies rfds n -> succeeds (processReadReadies rfds n) (mem s)) /\
  (forall ev, ph s = AtFire ev -> ev <> pending_list -> succeeds (fire_one ev) (mem s)) /\
  (forall a, client_ok (mem s) a -> succeeds (run_api a) (mem s)).
Proof.
  intros (Hwf & Hph & _)%reachable_inv. split_and!; [done|..].
  - intros ts. by apply calc_succeeds.
  - intros ts rfds n _. destruct (processTimeouts_spec ts _ _ _ Hwf) as (h' & R & _). by eexists _, _.
  - intros rfds n Hp. rewrite Hp in Hph. destruct Hph as [Hf _].
    destruct (processReadReadies_spec rfds n _ _ _ Hwf Hf) as (m' & R & _). by eexists _, _.
  - intros ev Hp Hne. rewrite Hp in Hph. cbn [phase_inv] in Hph. unfold ev_wf in Hwf.
    destruct (pending (mem s)) as [|x pl]; [done|]. cbn in Hph. subst x.
    destruct (fire_one_spec _ _ pl ev Hwf) as (e & h' & _ & _ & R & _). by eexists _, _.
  - intros a Hok. destruct (api_inv _ _ Hwf Hok) as (m' & tl & R & _). by eexists _, _.
Qed.

(** C14: the callbacks run are those that had to be, each once and in order: the timers due
    at a look at the clock by time, then the ready events in the order of the table; when
    the loop waits in [select], none is left. *)
Theorem ril_callbacks_in_order s : reachable s ->
  due s = fired s ++ (call_of (heap (mem s)) <$> pending (mem s)) /\
  match ph s with AtTop | AtSelect _ _ | AtTimeouts _ _ => fired s = due s | _ => True end.
Proof.
  intros (_ & Hph & Hfd)%reachable_inv. split; [done|].
  assert (pending (mem s) = [] -> fired s = due s) as Hx by (intros Hp; rewrite Hp in Hfd; by rewrite app_nil_r in Hfd).
  destruct (ph s); cbn [phase_inv] in Hph; try done; apply Hx; tauto.
Qed.

Lemma fire_all s : loop_inv s -> forall ev, ph s = AtFire ev ->
  exists s', rtc step s s' /\ ph s' = AtTop /\ fired s' = due s /\ due s' = due s /\
    timers (mem s') = timers (mem s) /\ watch_table (mem s') = watch_table (mem s).
Proof.
  remember (length (pending (mem s))) as k eqn:Hk. revert s Hk. induction k as [|k IH]; intros s Hk Hinv ev Hp.
  - exists (s <| ph := AtTop |>). symmetry in Hk. apply length_zero_iff_nil in Hk.
    destruct Hinv as (Hwf & Hph & Hfd). rewrite Hp in Hph. cbn [phase_inv] in Hph. rewrite Hk in Hph, Hfd.
    cbn in Hfd. rewrite app_nil_r in Hfd. split_and!; try done. apply rtc_once. apply step_fired. by rewrite Hp, Hph.
  - pose proof Hinv as (Hwf & Hph & Hfd). rewrite Hp in Hph. cbn [phase_inv] in Hph. unfold ev_wf in Hwf.
    destruct (pending (mem s)) as [|x pl] eqn:Hpl; [done|]. cbn in Hph, Hk. subst x.
    destruct (fire_one_spec _ _ pl ev Hwf) as (e & h' & He & C & R & I).
    assert (ev <> pending_list) as Hne.
    { intros ->. destruct Hwf as [[_ (Hnd & _) _ _ _ _] _]. apply list.NoDup_cons in Hnd as [Hnd _]. apply Hnd. left. }
    pose proof (step_fire s ev _ _ _ _ _ Hp Hne R) as Hs. destruct (ev_inv_views _ _ _ I) as [Hti Hpe].
    match type of Hs with step _ ?x => destruct (IH x) with (ev := hd pending_list pl) as (s' & Hr & Q1 & Q2 & Q3 & Q4 & Q5) end.
    + cbn [mem]. rewrite Hpe. lia.
    + by eapply loop_inv_step.
    + done.
    + exists s'. split_and!; [by eapply rtc_l|done|done|done| |done]. rewrite Q4. cbn [mem]. done.
Qed.

Lemma core_ready m h' rfds : same_core (heap m) h' -> ready_events (m <| heap := h' |>) rfds = ready_events m rfds.
Proof. intros C. apply call_ready. by apply core_call. Qed.

(** From the top of the loop to [firePending]. *)
Lemma round_to_fire s ts rfds : loop_inv s -> ph s = AtTop -> rfds ⊆ readFds (mem s) ->
  let h := heap (mem s) in
  exists s' ev, rtc step s s' /\ loop_inv s' /\ ph s' = AtFire ev /\
    due s' = due s ++ (call_of h <$> earlier h (getNow ts) (timers (mem s)) ++ ready_events (mem s) rfds) /\
    timers (mem s') = later h (getNow ts) (timers (mem s)) /\
    watch_table (mem s') = slot_after h (ready_events (mem s) rfds) <$> watch_table (mem s).
Proof.
  intros Hinv Hp Hsub h. pose proof Hinv as (Hwf & Hph & _). rewrite Hp in Hph. cbn [phase_inv] in Hph.
  destruct (calc_succeeds ts _ Hwf) as (ptv & m1 & R0). pose proof (calcNextTimeout_mem _ _ _ _ R0) as ->.
  pose proof (step_top s _ _ _ Hp R0) as S0.
  pose proof (step_select _ _ _ rfds (eq_refl : ph (s <| mem := mem s |> <| ph := AtSelect (readFds (mem s)) ptv |>) = _) Hsub) as S1.
  destruct (processTimeouts_spec ts _ _ _ Hwf) as (h2 & R2 & C2 & I2).
  match type of S1 with step _ ?x => set (s2 := x) in S1 end.
  pose proof (step_timeouts s2 rfds _ ts _ eq_refl R2) as S2. match type of S2 with step _ ?x => set (s3 := x) in S2 end.
  pose proof (loop_inv_step _ _ (loop_inv_step _ _ (loop_inv_step _ _ Hinv S0) S1) S2) as (Hwf2 & Hph2 & _).
  destruct (processReadReadies_spec rfds (Z.of_nat (size rfds)) _ _ _ Hwf2 (proj1 Hph2)) as (m3 & R3 & C3 & I3 & T3).
  cbn [mem heap set eta] in R3, C3, I3, T3.
  pose proof (step_readies s3 rfds _ _ eq_refl R3) as S3.
  destruct (ev_inv_views _ _ _ I2) as [Ht2 _]. destruct (ev_inv_views _ _ _ I3) as [Ht3 _].
  rewrite take_ge in T3 by (rewrite Nat2Z.id; apply ready_count; apply Hwf2). rewrite (core_ready (mem s) h2 rfds C2 : ready_events (mem s3) rfds = _) in T3.
  match type of S3 with step _ ?x => exists x, (nx (heap m3) pending_list) end. split; [|split; [|split; [reflexivity|]]].
  - eapply rtc_l; [exact S0|]. eapply rtc_l; [exact S1|]. eapply rtc_l; [exact S2|]. eapply rtc_once. exact S3.
  - eapply loop_inv_step; [|exact S3]. eapply loop_inv_step; [|exact S2]. eapply loop_inv_step; [|exact S1].
    by eapply loop_inv_step.
  - cbn [due mem]. rewrite (core_ready (mem s) h2 rfds C2 : ready_events (mem s3) rfds = _). split_and!.
    + unfold s3. cbn [due]. rewrite <- app_assoc, fmap_app. do 2 f_equal. apply calls_ext. intros a _. by apply core_call.
    + rewrite Ht3. exact Ht2.
    + rewrite T3. apply call_slot. by apply core_call.
Qed.

(** C30: one round of the loop when no call of a client comes between: the timers that are
    due when the clock is read, by time, then the events whose descriptors [select]
    reported, in the order of the table, have their callbacks run; the due timers are gone
    and the others stay, ready events that are not persistent leave the table. *)
Theorem ril_round_fires s ts rfds : reachable s -> ph s = AtTop -> rfds ⊆ readFds (mem s) ->
  let h := heap (mem s) in
  let ready := ready_events (mem s) rfds in
  exists s', rtc step s s' /\ ph s' = AtTop /\
    fired s' = fired s ++ (call_of h <$> earlier h (getNow ts) (timers (mem s)) ++ ready) /\
    timers (mem s') = later h (getNow ts) (timers (mem s)) /\
    watch_table (mem s') = slot_after h ready <$> watch_table (mem s).
Proof.
  intros Hinv%reachable_inv Hp Hsub h ready.
  assert (due s = fired s) as Hd.
  { destruct Hinv as (_ & Hph & Hfd). rewrite Hp in Hph. cbn [phase_inv] in Hph. rewrite Hph in Hfd.
    by rewrite app_nil_r in Hfd. }
  destruct (round_to_fire s ts rfds Hinv Hp Hsub) as (s1 & ev & Hr & Hi1 & Hp1 & Hd1 & Ht1 & Hw1).
  destruct (fire_all s1 Hi1 ev Hp1) as (s2 & Hr2 & Q1 & Q2 & _ & Q3 & Q4).
  exists s2. split_and!; [etrans; [exact Hr|exact Hr2]|done| |by rewrite Q3|by rewrite Q4].
  by rewrite Q2, Hd1, Hd.
Qed.
