(* ===== verification/RilProps.v ===== *)
(** What each operation of the event loop does in a state a run reaches, and runs of it. *)

From stdpp Require Import base list gmap sorting numbers.
From Stdlib Require Import ZArith Lia.
From S2P Require Import Prelude RilEvent RilLists RilEventProps RilClient RilLoop.

Local Open Scope Z_scope.
Local Open Scope st_scope.
Local Open Scope rec_scope.

Implicit Types (h : gmap Z ril_event) (m : EvState) (l tl pl : list Z).

(** adding a timer that is due [tv] from now puts it after the timers due earlier and
    before the others, so before an older timer that is due at the same time; the others,
    the pending events and the watched descriptors do not change. *)
Theorem ril_timer_add_inserts s ev tv ts : reachable s -> client_ok (mem s) (ATimer ev (Some tv) ts) ->
  let h := heap (mem s) in
  let t := timeradd (getNow ts) tv in
  exists m', ril_timer_add ev (Some tv) ts (mem s) = Ok (tt, m') /\
    timers m' = earlier h t (timers (mem s)) ++ ev :: later h t (timers (mem s)) /\
    time_of (heap m') ev = t /\ (forall a, a <> ev -> time_of (heap m') a = time_of h a) /\
    pending m' = pending (mem s) /\ watch_table m' = watch_table (mem s) /\ readFds m' = readFds (mem s).
Proof.
  intros (Hwf & _)%reachable_inv [?|([e He] & Hu & Hni)] h t; [done|].
  destruct (ril_timer_add_spec _ _ _ _ _ tv ts Hwf He Hu Hni) as (h' & R & C & I).
  destruct (ev_inv_views _ _ _ I) as [Ht Hp]. eexists. split_and!; [exact R|exact Ht| | |exact Hp|done|done].
  - cbn. rewrite (core_time _ _ _ C). unfold time_of. by rewrite lookup_alter_eq, He.
  - intros a Ha. cbn. rewrite (core_time _ _ _ C). unfold time_of. by rewrite lookup_alter_ne.
Qed.

(** adding an event takes the first free slot of the watch table; when the eight slots
    are taken, the call returns as if it had succeeded and the event is not watched. *)
Theorem ril_event_add_slot s ev : reachable s -> client_ok (mem s) (AAdd ev) ->
  exists m', ril_event_add ev (mem s) = Ok (tt, m') /\
    if decide (NULL ∈ watch_table (mem s)) then
      exists i, watch_table (mem s) !! i = Some NULL /\ NULL ∉ take i (watch_table (mem s)) /\
        watch_table m' = <[i := ev]> (watch_table (mem s)) /\
        readFds m' = readFds (mem s) ∪ {[fd_of (heap (mem s)) ev]}
    else m' = mem s /\ ev ∉ watch_table m'.
Proof.
  intros (Hwf & _)%reachable_inv (e & He & Hf & Hnew & Ht & Hp & Hni).
  destruct (add_spec _ _ _ ev e Hwf He Hf) as [[Hfull R]|(j & _ & Hj & Hfirst & R)].
  - exists (mem s). rewrite decide_False; [done|]. intros Hx. by apply list.Forall_forall with (x := NULL) in Hfull.
  - exists (watched (mem s) j ev e). split; [done|]. rewrite decide_True by (by eapply list_elem_of_lookup_2).
    exists j. split_and!; [done| |done|cbn; unfold fd_of; by rewrite He].
    intros Hx. by apply list.Forall_forall with (x := NULL) in Hfirst.
Qed.

(** deleting an event that has just been added restores the table and the descriptor
    set, and [select] is told of no more descriptors than before. *)
Theorem ril_add_del_roundtrip s ev m' : reachable s -> client_ok (mem s) (AAdd ev) -> NULL ∈ watch_table (mem s) ->
  ril_event_add ev (mem s) = Ok (tt, m') ->
  exists m'', ril_event_del ev m' = Ok (tt, m'') /\ watch_table m'' = watch_table (mem s) /\
    readFds m'' = readFds (mem s) /\ timers m'' = timers (mem s) /\ pending m'' = pending (mem s) /\
    nfds m'' <= nfds (mem s) `max` 1.
Proof.
  intros (Hwf & _)%reachable_inv (e & He & Hf & Hnew & Ht & Hp & Hni) Hfree R.
  destruct (add_spec _ _ _ ev e Hwf He Hf) as [[Hfull _]|(j & _ & Hj & _ & R')].
  { by apply list.Forall_forall with (x := NULL) in Hfull. }
  rewrite R in R'. simplify_eq. pose proof (watched_inv _ _ _ _ _ _ Hwf Hj He Ht Hp Hni Hf Hnew) as I1.
  assert (watch_table (watched (mem s) j ev e) !! j = Some ev) as Hslot.
  { cbn. apply list_lookup_insert_eq. by eapply lookup_lt_Some. }
  assert (heap (watched (mem s) j ev e) !! ev = Some (set_index (Z.of_nat j) e)) as He1 by (cbn; by rewrite lookup_alter_eq, He).
  destruct (ril_event_del_spec _ _ _ ev _ I1 He1) as [_ Hdel]; [intros ->; apply Ht; left|done|].
  destruct (Hdel j Hslot) as (n & R2 & I2). destruct (ev_inv_views _ _ _ I2) as [Ht2 Hp2].
  assert (readFds (unwatched (watched (mem s) j ev e) j ev (set_index (Z.of_nat j) e) n) = readFds (mem s)) as Hfds.
  { cbn. apply set_eq. intros x. set_solver. }
  eexists. split_and!; [exact R2| |exact Hfds|exact Ht2|exact Hp2|].
  - cbn. rewrite list_insert_insert_eq. by apply list_insert_id.
  - destruct I2 as [_ Hw2]. destruct (ww_tight _ Hw2) as [?|Hin]; [lia|]. rewrite Hfds in Hin.
    destruct Hwf as [_ Hw]. apply (ww_nfds _ Hw) in Hin. lia.
Qed.

(** * Waiting *)

(** A time in range, with its microseconds in range. *)
Definition clock_ok (t : timeval) : Prop := 0 <= t.1 < 2 ^ 31 /\ 0 <= t.2 < 1000000.

Lemma sub_add now t : clock_ok now -> clock_ok t -> timer_lt now t = true -> timeradd now (timersub t now) = t.
Proof.
  destruct now as [a b], t as [c d]. unfold clock_ok, timer_lt, timeradd, timersub. cbn [fst snd]. intros [? ?] [? ?] Hlt.
  assert (a < c \/ (a = c /\ b < d)) as Hc by (revert Hlt; zb; intros; lia).
  rewrite (i32_id (c - a)), (i32_id (d - b)) by (unfold is_i32; lia).
  destruct (Z.ltb_spec (d - b) 0) as [Hn|Hn]; cbn [fst snd].
  - rewrite (i32_id (c - a - 1)) by (unfold is_i32; lia). rewrite (i32_id (a + _)), (i32_id (b + _)) by (unfold is_i32; lia).
    rewrite (proj2 (Z.leb_le _ _)) by lia. rewrite i32_id by (unfold is_i32; lia). f_equal; lia.
  - rewrite (i32_id (a + _)), (i32_id (b + _)) by (unfold is_i32; lia).
    rewrite (proj2 (Z.leb_gt _ _)) by lia. f_equal; lia.
Qed.

(** how long the loop waits: for ever when there is no timer, not at all when the first
    timer has expired, and else until the time of the first timer exactly. A timer is
    due only after its time, not at it, so a loop that wakes up on time waits for nothing
    again until the clock has moved on. *)
Theorem ril_wait_for_first_timer s ts : reachable s -> clock_ok (getNow ts) ->
  Forall (fun a => clock_ok (time_of (heap (mem s)) a)) (timers (mem s)) ->
  let now := getNow ts in
  match timers (mem s) with
  | [] => calcNextTimeout ts (mem s) = Ok (None, mem s)
  | a :: _ =>
      let t := time_of (heap (mem s)) a in
      exists w, calcNextTimeout ts (mem s) = Ok (Some w, mem s) /\
        (if timer_lt now t then timeradd now w = t else w = (0, 0)) /\
        (timer_lt now t = true -> earlier (heap (mem s)) (timeradd now w) (timers (mem s)) = []) /\
        (forall later_, timer_lt t later_ = true -> a ∈ earlier (heap (mem s)) later_ (timers (mem s)))
  end.
Proof.
  intros (Hwf & _)%reachable_inv Hnow Hok. destruct Hwf as [[Hd _ _ _ Hs _] _].
  pose proof (dlist_first _ _ _ Hd) as Hfirst. pose proof Hd as (Hnd & Hin & _).
  destruct (Hin timer_list) as [l Hl]; [left|]. rewrite (nx_Some _ _ _ Hl) in Hfirst. unfold calcNextTimeout.
  destruct (timers (mem s)) as [|a tl]; cbn in Hfirst; cbv zeta.
  - rewrite (bindM_ok _ _ _ _ _ (deref_ok _ _ _ Hl)), Hfirst. done.
  - destruct (Hin a) as [e He]; [right; left|]. apply list.Forall_cons in Hok as [Hok _].
    assert (time_of (heap (mem s)) a = timeout e) as Ht by (unfold time_of; by rewrite He). rewrite Ht in *.
    rewrite (bindM_ok _ _ _ _ _ (deref_ok _ _ _ Hl)), Hfirst, (proj2 (Z.eqb_neq a timer_list)).
    2: { intros ->. apply list.NoDup_cons in Hnd as [Hnd _]. apply Hnd. left. }
    rewrite (bindM_ok _ _ _ _ _ (deref_ok _ _ _ He)).
    assert (forall u, timer_lt (timeout e) u = true -> a ∈ earlier (heap (mem s)) u (a :: tl)) as Hlater.
    { intros u Hu. apply list_elem_of_filter. split; [unfold is_due; by rewrite Ht|left]. }
    destruct (timer_lt (getNow ts) (timeout e)) eqn:Hlt; eexists; (split_and!; [reflexivity| | |exact Hlater]).
    + by apply sub_add.
    + intros _. rewrite sub_add by done. apply none_due; [done|]. unfold is_due. by rewrite Ht, timer_lt_irrefl.
    + done.
    + done.
Qed.

(** * Runs *)

Definition exec (a : api) m : EvState := match run_api a m with Ok (_, m') => m' | _ => m end.

Lemma reach_api m p f d a : reachable (mkLoop m p f d) -> client_ok m a -> run_api a m = Ok (tt, exec a m) ->
  reachable (mkLoop (exec a m) p f d).
Proof. intros Hr Hok He. exact (reach_step _ _ Hr (step_client (mkLoop m p f d) a _ Hok He)). Qed.

(** A watched descriptor 5 (event 10, persistent), one on 6 (event 12, once), and timers of
    two seconds (event 13) and one second (event 11), set at second 5. *)
Definition demo_calls : list api :=
  [ASet 10 5 true 100 7; AAdd 10; ASet 12 6 false 102 9; AAdd 12;
   ASet 13 (-1) false 103 1; ATimer 13 (Some (2, 0)) (5, 0); ASet 11 (-1) false 101 8; ATimer 11 (Some (1, 0)) (5, 0);
   ASet 14 7 true 104 3; ASet 15 (-1) false 105 4].
Definition demo : EvState := foldl (fun m a => exec a m) initial demo_calls.

Ltac solve_decided := apply (bool_decide_unpack _); vm_compute; exact I.
Ltac solve_client :=
  lazymatch goal with
  | |- client_ok _ (ASet _ _ _ _ _) => split; [done|split; solve_decided]
  | |- client_ok _ (AAdd _) => eexists; split; [vm_compute; reflexivity|split_and!; solve_decided]
  | |- client_ok _ (ATimer _ _ _) => right; split; [vm_compute; eexists; reflexivity|split; solve_decided]
  | |- client_ok _ (ADel _) => split; [vm_compute; eexists; reflexivity|done]
  end.

Lemma demo_reachable : reachable (mkLoop demo AtTop [] []).
Proof.
  unfold demo, demo_calls. cbn [foldl].
  do 10 (apply reach_api; [|solve_client|vm_compute; reflexivity]). apply reach_init. reflexivity.
Qed.

(** The demonstration state at the top of the loop. *)
Definition demo_top : Loop := mkLoop demo AtTop [] [].

Lemma ril_event_memory_safe_witness : ev_wf (mem demo_top) /\ succeeds (run_api (ADel 10)) (mem demo_top).
Proof.
  destruct (ril_event_memory_safe demo_top demo_reachable) as (H & _ & _ & _ & _ & Ha). split; [exact H|].
  apply Ha. cbn [mem demo_top]. solve_client.
Defined.

Lemma ril_callbacks_in_order_witness : fired demo_top = due demo_top.
Proof. destruct (ril_callbacks_in_order demo_top demo_reachable) as [_ H]. exact H. Defined.

(** Descriptors 5 and 6 are ready 1.5 s later: the first timer fires, then both events, and
    the event that is not persistent has left the table. *)
Lemma ril_round_fires_witness : exists s', rtc step demo_top s' /\ ph s' = AtTop /\
  fired s' = [(11, (101, -1, 8)); (10, (100, 5, 7)); (12, (102, 6, 9))] /\ timers (mem s') = [13] /\
  watch_table (mem s') = 10 :: replicate 7 NULL.
Proof.
  destruct (ril_round_fires demo_top (6, 500000000) {[5; 6]} demo_reachable eq_refl) as (s' & H1 & H2 & H3 & H4 & H5).
  - solve_decided.
  - exists s'. split; [exact H1|]. split; [exact H2|]. rewrite H3, H4, H5. split_and!; vm_compute; reflexivity.
Defined.

Lemma ril_timer_add_inserts_witness : exists m', ril_timer_add 15 (Some (1, 500000)) (5, 0) (mem demo_top) = Ok (tt, m') /\
  timers m' = [11; 15; 13].
Proof.
  destruct (ril_timer_add_inserts demo_top 15 (1, 500000) (5, 0) demo_reachable) as (m' & R & T & _).
  - cbn [mem demo_top]. solve_client.
  - exists m'. split; [exact R|]. rewrite T. vm_compute. reflexivity.
Defined.

Lemma ril_event_add_slot_witness : exists m', ril_event_add 14 (mem demo_top) = Ok (tt, m').
Proof.
  destruct (ril_event_add_slot demo_top 14 demo_reachable) as (m' & R & _); [cbn [mem demo_top]; solve_client|].
  exists m'. exact R.
Defined.

Lemma ril_add_del_roundtrip_witness : exists m'', ril_event_del 14 (exec (AAdd 14) (mem demo_top)) = Ok (tt, m'') /\
  readFds m'' = readFds (mem demo_top).
Proof.
  destruct (ril_add_del_roundtrip demo_top 14 (exec (AAdd 14) (mem demo_top)) demo_reachable) as (m'' & R & _ & F & _).
  - cbn [mem demo_top]. solve_client.
  - solve_decided.
  - vm_compute. reflexivity.
  - exists m''. split; [exact R|exact F].
Defined.

Lemma ril_wait_for_first_timer_witness : exists w, calcNextTimeout (5, 400000000) (mem demo_top) = Ok (Some w, mem demo_top) /\ timeradd (5, 400000) w = (6, 0).
Proof.
  assert (timers (mem demo_top) = [11; 13] /\ time_of (heap (mem demo_top)) 11 = (6, 0)) as [Ht Hd] by (split; vm_compute; reflexivity).
  pose proof (ril_wait_for_first_timer demo_top (5, 400000000) demo_reachable) as H.
  rewrite Ht in H. cbv zeta in H. rewrite Hd in H. destruct H as (w & R & W & _).
  - change (getNow (5, 400000000)) with (5, 400000). unfold clock_ok. cbn. lia.
  - repeat constructor; vm_compute; congruence.
  - exists w. split; [exact R|exact W].
Defined.
