(* ===== verification/RilTables.v ===== *)
(** The tables of requests and of unsolicited responses of the radio interface layer
    (src/hal/libril/ril_commands.h, ril_unsol_commands.h, mtk_ril_unsol_commands.h): the
    number of an entry, whether it has a function, and its channel or wake type. *)

From stdpp Require Import base list numbers.
From Stdlib Require Import ZArith Lia.
From S2P Require Import Prelude.

Local Open Scope Z_scope.

(** ril.h:358-358 [RIL_URC]. *)
Definition RIL_URC : Z := 0.

(** ril.h:364-364 [RIL_CHANNEL_OFFSET] the number of channels of a slot. *)
Definition RIL_CHANNEL_OFFSET : Z := 6.

(** ril.h:395-395 [RIL_CMD_PROXY_1]. *)
Definition PROXY_1 : Z := 3.

(** ril.h:396-396 [RIL_CMD_PROXY_2]. *)
Definition PROXY_2 : Z := 2.

(** ril.h:397-397 [RIL_CMD_PROXY_3]. *)
Definition PROXY_3 : Z := 1.

(** ril.h:398-398 [RIL_CMD_PROXY_4]. *)
Definition PROXY_4 : Z := RIL_URC.

(** ril.h:394-394 [RIL_CMD_PROXY_5]. *)
Definition PROXY_5 : Z := 4.

(** ril.h:399-399 [RIL_CMD_PROXY_6]. *)
Definition PROXY_6 : Z := 5.

(** mtk_ril.h:400-400 [RIL_REQUEST_VENDOR_BASE]. *)
Definition RIL_REQUEST_VENDOR_BASE : Z := 2000.

(** ril.h:5749-5749 [RIL_UNSOL_RESPONSE_BASE]. *)
Definition RIL_UNSOL_RESPONSE_BASE : Z := 1000.

(** mtk_ril.h:1080-1080 [RIL_UNSOL_VENDOR_BASE]. *)
Definition RIL_UNSOL_VENDOR_BASE : Z := 3000.

(** ril_internal.h:88-93 [CommandInfo]. *)
Record CommandInfo := cmd { requestNumber : Z; has_response : bool; proxyId : Z }.

(** ril.cpp:123-128 [UnsolResponseInfo] [wake_partial] is the wake type. *)
Record UnsolResponseInfo := uns { unsolNumber : Z; has_indication : bool; wake_partial : bool }.

(** ril_commands.h:21-161 [s_commands]. *)
Definition s_commands : list CommandInfo := [
   cmd 0 false PROXY_3; cmd 1 true PROXY_1; cmd 2 true PROXY_1; cmd 3 true PROXY_1;
   cmd 4 true PROXY_1; cmd 5 true PROXY_1; cmd 6 true PROXY_1; cmd 7 true PROXY_1;
   cmd 8 true PROXY_1; cmd 9 true PROXY_2; cmd 10 true PROXY_2; cmd 11 true PROXY_1;
   cmd 12 true PROXY_4; cmd 13 true PROXY_4; cmd 14 true PROXY_4; cmd 15 true PROXY_4;
   cmd 16 true PROXY_4; cmd 17 true PROXY_2; cmd 18 true PROXY_2; cmd 19 true PROXY_3;
   cmd 20 true PROXY_3; cmd 21 true PROXY_3; cmd 22 true PROXY_3; cmd 23 true PROXY_1;
   cmd 24 true PROXY_2; cmd 25 true PROXY_1; cmd 26 true PROXY_1; cmd 27 true PROXY_5;
   cmd 28 true PROXY_1; cmd 29 true PROXY_2; cmd 30 true PROXY_2; cmd 31 true PROXY_2;
   cmd 32 true PROXY_2; cmd 33 true PROXY_1; cmd 34 true PROXY_2; cmd 35 true PROXY_1;
   cmd 36 true PROXY_2; cmd 37 true PROXY_2; cmd 38 false PROXY_3; cmd 39 false PROXY_3;
   cmd 40 true PROXY_2; cmd 41 true PROXY_5; cmd 42 true PROXY_1; cmd 43 true PROXY_1;
   cmd 44 true PROXY_2; cmd 45 true PROXY_3; cmd 46 true PROXY_3; cmd 47 true PROXY_3;
   cmd 48 true PROXY_3; cmd 49 true PROXY_2; cmd 50 true PROXY_2; cmd 51 true PROXY_3;
   cmd 52 true PROXY_4; cmd 53 true PROXY_2; cmd 54 true PROXY_2; cmd 55 true PROXY_2;
   cmd 56 false PROXY_5; cmd 57 true PROXY_5; cmd 58 false PROXY_1; cmd 59 true PROXY_6;
   cmd 60 true PROXY_3; cmd 61 true PROXY_3; cmd 62 true PROXY_2; cmd 63 true PROXY_1;
   cmd 64 true PROXY_1; cmd 65 true PROXY_3; cmd 66 true PROXY_3; cmd 67 false PROXY_1;
   cmd 68 false PROXY_1; cmd 69 true PROXY_1; cmd 70 true PROXY_1; cmd 71 true PROXY_1;
   cmd 72 true PROXY_2; cmd 73 true PROXY_1; cmd 74 true PROXY_1; cmd 75 true PROXY_4;
   cmd 76 true PROXY_3; cmd 77 true PROXY_3; cmd 78 true PROXY_3; cmd 79 true PROXY_3;
   cmd 80 true PROXY_3; cmd 81 true PROXY_3; cmd 82 true PROXY_2; cmd 83 true PROXY_2;
   cmd 84 true PROXY_2; cmd 85 true PROXY_2; cmd 86 false PROXY_2; cmd 87 true PROXY_1;
   cmd 88 true PROXY_1; cmd 89 true PROXY_2; cmd 90 true PROXY_1; cmd 91 true PROXY_1;
   cmd 92 true PROXY_1; cmd 93 true PROXY_1; cmd 94 true PROXY_1; cmd 95 true PROXY_1;
   cmd 96 true PROXY_1; cmd 97 true PROXY_1; cmd 98 true PROXY_3; cmd 99 true PROXY_2;
   cmd 100 true PROXY_2; cmd 101 true PROXY_2; cmd 102 true PROXY_1; cmd 103 true PROXY_1;
   cmd 104 true PROXY_1; cmd 105 true PROXY_1; cmd 106 true PROXY_1; cmd 107 true PROXY_2;
   cmd 108 true PROXY_3; cmd 109 true PROXY_2; cmd 110 true PROXY_3; cmd 111 true PROXY_1;
   cmd 112 true PROXY_3; cmd 113 true PROXY_1; cmd 114 true PROXY_1; cmd 115 true PROXY_1;
   cmd 116 true PROXY_1; cmd 117 true PROXY_1; cmd 118 true PROXY_4; cmd 119 true PROXY_4;
   cmd 120 true PROXY_4; cmd 121 true PROXY_4; cmd 122 true PROXY_1; cmd 123 true PROXY_5;
   cmd 124 true PROXY_1; cmd 125 true PROXY_3; cmd 126 false PROXY_1; cmd 127 false PROXY_1;
   cmd 128 true PROXY_1; cmd 129 true PROXY_1; cmd 130 true PROXY_1; cmd 131 true PROXY_1;
   cmd 132 true PROXY_5; cmd 133 true PROXY_5; cmd 134 true PROXY_5; cmd 135 true PROXY_1;
   cmd 136 true PROXY_4; cmd 137 true PROXY_4; cmd 138 true PROXY_3; cmd 139 true PROXY_3;
   cmd 140 true PROXY_1].

(** ril_unsol_commands.h:21-68 [s_unsolResponses] the first part. *)
Definition unsol_standard : list UnsolResponseInfo := [
   uns 1000 true true; uns 1001 true true; uns 1002 true true; uns 1003 true true;
   uns 1004 true true; uns 1005 true true; uns 1006 true true; uns 1007 true false;
   uns 1008 true true; uns 1009 true false; uns 1010 true true; uns 1011 true true;
   uns 1012 true true; uns 1013 true true; uns 1014 true true; uns 1015 true true;
   uns 1016 true true; uns 1017 true true; uns 1018 true true; uns 1019 true true;
   uns 1020 true true; uns 1021 true true; uns 1022 true true; uns 1023 true true;
   uns 1024 true true; uns 1025 true true; uns 1026 true true; uns 1027 true true;
   uns 1028 true true; uns 1029 true true; uns 1030 true true; uns 1031 true true;
   uns 1032 true true; uns 1033 true true; uns 1034 true true; uns 1035 true true;
   uns 1036 true true; uns 1037 true true; uns 1038 true true; uns 1039 true true;
   uns 1040 true true; uns 1041 false true; uns 1042 true true; uns 1043 true true;
   uns 1044 true true; uns 1045 true true; uns 1046 true true; uns 1047 true true].

(** mtk_ril_unsol_commands.h:37-117 [s_unsolResponses] the vendor part. *)
Definition unsol_vendor : list UnsolResponseInfo := [
   uns 3000 false true; uns 3001 false true; uns 3002 false true; uns 3003 false true;
   uns 3004 false true; uns 3005 false true; uns 3006 false true; uns 3007 false true;
   uns 3008 false true; uns 3009 false true; uns 3010 false true; uns 3011 false true;
   uns 3012 false true; uns 3013 false true; uns 3014 false true; uns 3015 true true;
   uns 3016 false true; uns 3017 false true; uns 3018 false true; uns 3019 false true;
   uns 3020 false true; uns 3021 false true; uns 3022 false true; uns 3023 false true;
   uns 3024 true true; uns 3025 false true; uns 3026 false true; uns 3027 false true;
   uns 3028 false true; uns 3029 false true; uns 3030 false true; uns 3031 false true;
   uns 3032 false true; uns 3033 false true; uns 3034 false true; uns 3035 false true;
   uns 3036 false true; uns 3037 false true; uns 3038 false true; uns 3039 false true;
   uns 3040 false true; uns 3041 false true; uns 3042 true true; uns 3043 false true;
   uns 3044 false true; uns 3045 false true; uns 3046 false true; uns 3047 false true;
   uns 3048 false true; uns 3049 true true; uns 3050 false true; uns 3051 false true;
   uns 3052 false true; uns 3053 false true; uns 3054 false true; uns 3055 false true;
   uns 3056 false true; uns 3057 false true; uns 3058 false true; uns 3059 false true;
   uns 3060 false true; uns 3061 false true; uns 3062 false true; uns 3063 false true;
   uns 3064 false true; uns 3065 false true; uns 3066 false true; uns 3067 false true;
   uns 3068 false true; uns 3069 false true; uns 3070 false true; uns 3071 false true;
   uns 3072 false true; uns 3073 true true; uns 3074 false true; uns 3075 false true;
   uns 3076 false true; uns 3077 false true; uns 3078 false true; uns 3079 false true;
   uns 3080 false true].

(** ril.cpp:335-338 [s_unsolResponses]. *)
Definition s_unsolResponses : list UnsolResponseInfo := unsol_standard ++ unsol_vendor.
