(* ===== verification/Ril.v ===== *)
(** The radio interface layer's library (src/hal/libril/ril.cpp): the requests that wait
    for the vendor's answer, the channels they queue on, unsolicited responses, and the
    wake lock with the timers that release it, on top of the event loop. What belongs to
    others is seen in the trace: requests handed to the vendor's library, responses and
    indications handed to the radio service, what is handed to the proxy threads. *)

From stdpp Require Import base list gmap numbers.
From Stdlib Require Import ZArith Lia.
From S2P Require Import Prelude RilEvent RilTables.

Local Open Scope Z_scope.
Local Open Scope st_scope.
Local Open Scope rec_scope.

(** ril.h:112-128 [RIL_SOCKET_ID] the second slot; the first is 0. *)
Definition RIL_SOCKET_2 : Z := 1.

(** ril.h:37-37 [SIM_COUNT]. *)
Definition SIM_COUNT : nat := 2.

(** ril.cpp:288-288 [MAX_RIL_CHANNELS]. *)
Definition MAX_RIL_CHANNELS : nat := 12.

(** ril.cpp:268-268 [MAX_PENDING_USR]. *)
Definition MAX_PENDING_USR : nat := 16.

Definition RIL_REQUEST_RADIO_POWER : Z := 23.
Definition RIL_REQUEST_GET_IMEI : Z := 38.
Definition RIL_REQUEST_GET_IMEISV : Z := 39.
Definition RIL_REQUEST_DEVICE_IDENTITY : Z := 98.
(** ril.h:167-167 [RIL_E_NO_MEMORY]. *)
Definition RIL_E_NO_MEMORY : Z := 37.

Definition RIL_REQUEST_STOP_NETWORK_SCAN : Z := 143.
Definition RIL_REQUEST_MODEM_POWEROFF : Z := 2010.
Definition RIL_REQUEST_MODEM_POWERON : Z := 2028.
Definition RIL_UNSOL_NITZ_TIME_RECEIVED : Z := 1008.
Definition RIL_UNSOL_RESPONSE_VOICE_NETWORK_STATE_CHANGED : Z := 1002.

(** ril_internal.h:31-35 [RESPONSE_SOLICITED and the other types]. *)
Definition RESPONSE_SOLICITED : Z := 0.
Definition RESPONSE_UNSOLICITED : Z := 1.
Definition RESPONSE_SOLICITED_ACK_EXP : Z := 3.
Definition RESPONSE_UNSOLICITED_ACK_EXP : Z := 4.

(** ril.h:96-96 [RIL_VERSION_MIN]. *)
Definition RIL_VERSION_MIN : Z := 6.

(** ril.cpp:232-232 [TIMEVAL_WAKE_TIMEOUT]. *)
Definition TIMEVAL_WAKE_TIMEOUT : timeval := (0, 200000).

(** ril_internal.h:76-86 [RequestInfo] less the link; [pCI] is the index of the entry. *)
Record RequestInfo := mkReq {
  token : Z;
  pCI : Z;
  cancelled : Z;
  local_ : Z;
  socket_id : Z;
  wasAckSent : Z;
  cid : Z;
}.
#[export] Instance eta_RequestInfo : Eta RequestInfo := fun r =>
  mkReq (token r) (pCI r) (cancelled r) (local_ r) (socket_id r) (wasAckSent r) (cid r).

(** ril.cpp:130-136 [UserCallbackInfo] its event is the one of the same address. *)
Record UserCallbackInfo := mkInfo { p_callback : Z; userParam : Z; u_cid : Z }.
#[export] Instance eta_UserCallbackInfo : Eta UserCallbackInfo := fun i => mkInfo (p_callback i) (userParam i) (u_cid i).

(** ril.cpp:138-143 [USRbuffer]. *)
Record USRbuffer := mkUSR { u_response : Z; u_data : list Z; u_socket : Z }.

(** A response: a pointer of the vendor's, or the slot's entry of [Device_ID]. *)
Inductive payload := Pointer (a : Z) | Identity (slot : nat).

(** What the library makes others do. [Respond] and [Indicate] are the functions of an entry
    of the tables. *)
Inductive ril_out :=
  | OnRequest (request : Z) (req : Z) (socket : Z)
  | Respond (entry slot type token_ err : Z) (response : payload)
  | AckRequest (slot token_ : Z)
  | Indicate (entry slot type : Z) (data : list Z)
  | RunCallback (callback param_ : Z)
  | ToProxy (info : Z)
  | WakeUpLoop.

(** The variables, the memory of requests and callbacks, the wake lock, and the trace. A list
    of pending requests is in the order of its links. [allocs] is what the next calls of
    [calloc] return, [now_] the time and [self] the running thread. *)
Record Ril := mkRil {
  version : Z;
  s_registerCalled : Z;
  mtk_command_start : Z;
  mtk_unsol_start : Z;
  requests : gmap Z RequestInfo;
  s_pendingRequests : list (list Z);
  proxyCmd1 : list (list Z);
  proxyCmd3 : list (list Z);
  cmdProxy1busy : list bool;
  cmdProxy3busy : list bool;
  evs : EvState;
  infos : gmap Z UserCallbackInfo;
  s_last_wake_timeout_info : Z;
  s_wakelock_count : Z;
  wake_lock : bool;
  s_lastNITZTimeData : option (list Z);
  pendingUSR : list USRbuffer;
  threadPid : list (Z * Z);
  imei : list Z;
  imeisv : list Z;
  s_tid_dispatch : Z;
  allocs : list Z;
  now_ : timeval;
  self : Z;
  out : list ril_out;
}.
#[export] Instance eta_Ril : Eta Ril := fun s =>
  mkRil (version s) (s_registerCalled s) (mtk_command_start s) (mtk_unsol_start s) (requests s)
    (s_pendingRequests s) (proxyCmd1 s) (proxyCmd3 s) (cmdProxy1busy s) (cmdProxy3busy s) (evs s)
    (infos s) (s_last_wake_timeout_info s) (s_wakelock_count s) (wake_lock s) (s_lastNITZTimeData s)
    (pendingUSR s) (threadPid s) (imei s) (imeisv s) (s_tid_dispatch s) (allocs s) (now_ s) (self s) (out s).

Definition emit (o : ril_out) : ST Ril unit := modM (fun s => s <| out := out s ++ [o] |>).

(** The next allocation: an address, or NULL. *)
Definition calloc : ST Ril Z :=
  let* s := getM in
  modM (fun s => s <| allocs := tail (allocs s) |>);; retM (hd NULL (allocs s)).

(** An operation of the event loop. *)
Definition on_loop {A} (m : ST EvState A) : ST Ril A :=
  fun s => match m (evs s) with
           | Ok (a, e) => Ok (a, s <| evs := e |>)
           | Undef => Undef
           | Blocked => Blocked
           end.

Definition get_request (p : Z) : ST Ril RequestInfo := let* s := getM in of_option (requests s !! p).

(** An element of an array; outside of it there is none. *)
Definition elem {A} (l : list A) (i : Z) : option A := if i <? 0 then None else l !! Z.to_nat i.
Definition get_command (i : Z) : ST Ril CommandInfo := of_option (elem s_commands i).

(** * Threads and the loop *)

(** ril.cpp:344-366 [addThreadPid] the place of the entry to replace. *)
Fixpoint thread_slot (table : list (Z * Z)) (tid : Z) : nat :=
  match table with
  | [] => O
  | (_, t) :: table' => if (t =? 0) || (t =? tid) then O else S (thread_slot table' tid)
  end.

(** ril.cpp:344-366 [addThreadPid]. *)
Definition addThreadPid (c tid : Z) : ST Ril unit :=
  modM (fun s =>
    let i := thread_slot (threadPid s) tid in
    let i := if (i =? MAX_RIL_CHANNELS)%nat then (MAX_RIL_CHANNELS - 1)%nat else i in
    s <| threadPid := (c, tid) :: take i (threadPid s) ++ drop (S i) (threadPid s) |>).

(** ril.cpp:407-420 [RIL_myProxyIdByThread] the search, whose condition reads the entry before
    it tests the index. What is found is not used: the answer is librilmtk's. *)
Fixpoint my_thread (fuel i : nat) (tid : Z) : ST Ril nat :=
  match fuel with
  | O => blockM
  | S fuel' =>
      let* s := getM in
      let* e := of_option (threadPid s !! i) in
      if negb (e.2 =? tid) && (i <? MAX_RIL_CHANNELS)%nat then my_thread fuel' (S i) tid else retM i
  end.
Definition RIL_myProxyIdByThread (library_answer : Z) : ST Ril Z :=
  let* s := getM in
  my_thread (S MAX_RIL_CHANNELS) 0 (self s);; retM library_answer.

(** ril.cpp:560-569 [triggerEvLoop]. *)
Definition triggerEvLoop : ST Ril unit :=
  let* s := getM in if self s =? s_tid_dispatch s then retM tt else emit WakeUpLoop.

(** The callback that only the library itself sets, and the loop's callback of a timer. *)
Definition WAKE_TIMEOUT_CALLBACK : Z := -1.
Definition USER_TIMER_CALLBACK : Z := -2.

(** ril.cpp:1774-1811 [internalRequestTimedCallback]. *)
Definition internalRequestTimedCallback (callback param_ : Z) (relativeTime : option timeval) (c : Z) : ST Ril Z :=
  let* p := calloc in
  if p =? NULL then retM NULL
  else
    modM (fun s => s <| infos := <[p := mkInfo callback param_ (u32 c)]> (infos s) |>);;
    let* s := getM in
    (if -1 <? c then addThreadPid c (self s) else retM tt);;
    on_loop (ril_event_set p (-1) false USER_TIMER_CALLBACK p);;
    on_loop (ril_timer_add p (Some (default (0, 0) relativeTime)) (now_ s));;
    triggerEvLoop;;
    retM p.

(** ril.cpp:1813-1817 [RIL_requestTimedCallback]. *)
Definition RIL_requestTimedCallback (callback param_ : Z) (relativeTime : option timeval) : ST Ril unit :=
  internalRequestTimedCallback callback param_ relativeTime (-1);; retM tt.

(** ril.cpp:373-388 [RIL_myProxyTimedCallback]. *)
Definition RIL_myProxyTimedCallback (callback param_ : Z) (relativeTime : option timeval) (c : Z) : ST Ril unit :=
  internalRequestTimedCallback callback param_ relativeTime c;;
  let* s := getM in
  if -1 <? c then addThreadPid c (self s) else retM tt.

(** * The wake lock *)

Definition get_info (p : Z) : ST Ril UserCallbackInfo := let* s := getM in of_option (infos s !! p).

(** The timer set last is to do nothing. *)
Definition cancel_last : ST Ril unit :=
  let* s := getM in
  if s_last_wake_timeout_info s =? NULL then retM tt
  else
    get_info (s_last_wake_timeout_info s);;
    modM (fun s => s <| infos := alter (fun i => i <| userParam := 1 |>) (s_last_wake_timeout_info s) (infos s) |>).

(** ril.cpp:1481-1505 [grabPartialWakeLock]. *)
Definition grabPartialWakeLock : ST Ril unit :=
  let* s := getM in
  if 13 <=? version s then
    modM (fun s => s <| wake_lock := true |>);;
    let* p_info := internalRequestTimedCallback WAKE_TIMEOUT_CALLBACK NULL (Some TIMEVAL_WAKE_TIMEOUT) (-1) in
    if p_info =? NULL then modM (fun s => s <| wake_lock := false |>)
    else
      modM (fun s => s <| s_wakelock_count := i32 (s_wakelock_count s + 1) |>);;
      cancel_last;;
      modM (fun s => s <| s_last_wake_timeout_info := p_info |>)
  else modM (fun s => s <| wake_lock := true |>).

(** ril.cpp:1507-1529 [releaseWakeLock]. *)
Definition releaseWakeLock : ST Ril unit :=
  let* s := getM in
  if 13 <=? version s then
    if 1 <? s_wakelock_count s then modM (fun s => s <| s_wakelock_count := s_wakelock_count s - 1 |>)
    else
      modM (fun s => s <| s_wakelock_count := 0 |> <| wake_lock := false |>);;
      cancel_last
  else modM (fun s => s <| wake_lock := false |>).

(** ril.cpp:1534-1552 [wakeTimeoutCallback]. *)
Definition wakeTimeoutCallback (param_ : Z) : ST Ril unit :=
  let* s := getM in
  if 13 <=? version s then
    if param_ =? NULL then modM (fun s => s <| s_wakelock_count := 0 |> <| wake_lock := false |>) else retM tt
  else if param_ =? NULL then releaseWakeLock else retM tt.

Definition run_callback (callback param_ : Z) : ST Ril unit :=
  if callback =? WAKE_TIMEOUT_CALLBACK then wakeTimeoutCallback param_ else emit (RunCallback callback param_).

(** ril.cpp:646-673 [userTimerCallback]. The channel is unsigned. *)
Definition userTimerCallback (p : Z) : ST Ril unit :=
  let* i := get_info p in
  if RIL_URC <=? u_cid i then emit (ToProxy p)
  else
    run_callback (p_callback i) (userParam i);;
    modM (fun s => if negb (s_last_wake_timeout_info s =? NULL) && (s_last_wake_timeout_info s =? p)
                   then s <| s_last_wake_timeout_info := NULL |> else s);;
    modM (fun s => s <| infos := delete p (infos s) |>).

(** * Requests *)

(** The list of a socket: its own for the second, the first list for any other. *)
Definition hook (socket : Z) : nat := if socket =? RIL_SOCKET_2 then 1%nat else 0%nat.

(** ril.cpp:537-539 [addRequestToList, entry] the entry of a request. *)
Definition command_index (s : Ril) (request : Z) : Z :=
  if request <? RIL_REQUEST_VENDOR_BASE then request
  else request - RIL_REQUEST_VENDOR_BASE + mtk_command_start s.

(** ril.cpp:498-558 [addRequestToList]. *)
Definition addRequestToList (serial slotId request : Z) : ST Ril Z :=
  let* p := calloc in
  if p =? NULL then retM NULL
  else
    let* s := getM in
    let i := command_index s request in
    let* ci := get_command i in
    let c := if 0 <? slotId then proxyId ci + RIL_CHANNEL_OFFSET else proxyId ci in
    let r := mkReq serial i 0 (if serial =? -1 then 1 else 0) slotId 0 c in
    modM (fun s => s <| requests := <[p := r]> (requests s) |>
                     <| s_pendingRequests := alter (cons p) (hook slotId) (s_pendingRequests s) |>);;
    retM p.

(** The list without the first occurrence of [p]. *)
Fixpoint unlink (p : Z) (l : list Z) : list Z :=
  match l with
  | [] => []
  | q :: l' => if q =? p then l' else q :: unlink p l'
  end.

(** ril.cpp:1150-1205 [checkAndDequeueRequestInfoIfAck]. *)
Definition checkAndDequeueRequestInfoIfAck (p : Z) (isAck : bool) : ST Ril bool :=
  if p =? NULL then retM false
  else
    let* r := get_request p in
    let* s := getM in
    let l := default [] (s_pendingRequests s !! hook (socket_id r)) in
    if bool_decide (p ∈ l) then
      (if isAck then
         if wasAckSent r =? 1 then retM tt
         else modM (fun s => s <| requests := alter (fun r => r <| wasAckSent := 1 |>) p (requests s) |>)
       else modM (fun s => s <| s_pendingRequests := alter (unlink p) (hook (socket_id r)) (s_pendingRequests s) |>));;
      retM true
    else retM false.

(** ril.cpp:1207-1241 [RIL_onRequestAck]. *)
Definition RIL_onRequestAck (p : Z) : ST Ril unit :=
  let* found := checkAndDequeueRequestInfoIfAck p true in
  if found then
    let* r := get_request p in
    if cancelled r =? 0 then emit (AckRequest (socket_id r) (token r)) else retM tt
  else retM tt.

Section Channels.
(** Whether the library is built with [RIL_CHANNEL_QUEUING]. *)
Variable queuing : bool.

Definition busy (c : Z) (s : Ril) : list bool := if c =? PROXY_1 then cmdProxy1busy s else cmdProxy3busy s.
Definition set_busy (c : Z) (slot : nat) (b : bool) : ST Ril unit :=
  modM (fun s => if c =? PROXY_1 then s <| cmdProxy1busy := <[slot := b]> (cmdProxy1busy s) |>
                 else s <| cmdProxy3busy := <[slot := b]> (cmdProxy3busy s) |>).
Definition queue_of (c : Z) (slot : nat) (s : Ril) : list Z :=
  default [] ((if c =? PROXY_1 then proxyCmd1 s else proxyCmd3 s) !! slot).
Definition set_queue (c : Z) (slot : nat) (q : list Z) : ST Ril unit :=
  modM (fun s => if c =? PROXY_1 then s <| proxyCmd1 := <[slot := q]> (proxyCmd1 s) |>
                 else s <| proxyCmd3 := <[slot := q]> (proxyCmd3 s) |>).
Definition queued_channel (c : Z) : bool := (c =? PROXY_1) || (c =? PROXY_3).

(** ril.cpp:823-862 [my_dequeue]. The request's buffer is opaque. *)
Definition my_dequeue (slot : nat) (c : Z) : ST Ril unit :=
  if queued_channel c then
    let* s := getM in
    match queue_of c slot s with
    | [] => set_busy c slot false
    | p :: q =>
        set_queue c slot q;;
        set_busy c slot true;;
        let* r := get_request p in
        let* ci := get_command (pCI r) in
        emit (OnRequest (requestNumber ci) p (socket_id r))
    end
  else retM tt.

(** ril.cpp:865-946 [my_enqueue] [ignore] says that the buffer's format is FMT_IGNORE. A
    queue's entry is allocated; the copy of the buffer is not modelled. *)
Definition my_enqueue (request : Z) (ignore : bool) (p : Z) : ST Ril unit :=
  let* r := get_request p in
  let* ci := get_command (pCI r) in
  let slot := if socket_id r =? RIL_SOCKET_2 then 1%nat else 0%nat in
  let flag := if (proxyId ci =? PROXY_1) && (request =? RIL_REQUEST_RADIO_POWER) then 0%nat else slot in
  if queuing && negb ignore && queued_channel (proxyId ci) then
    let* s := getM in
    let pending := default false (busy (proxyId ci) s !! flag) in
    set_busy (proxyId ci) flag true;;
    if pending then
      let* node := calloc in
      if node =? NULL then undefM
      else set_queue (proxyId ci) slot (queue_of (proxyId ci) slot s ++ [p])
    else emit (OnRequest request p (socket_id r))
  else emit (OnRequest request p (socket_id r)).

(** ril.cpp:1243-1479 [RIL_onRequestComplete] without the code that is compiled out and that
    of data never set. *)
Definition RIL_onRequestComplete (p s_e : Z) (s_response : Z) : ST Ril unit :=
  let* found := checkAndDequeueRequestInfoIfAck p false in
  if negb found then retM tt
  else
    let* r := get_request p in
    let* ci := get_command (pCI r) in
    let* s := getM in
    let i := Z.to_nat (socket_id r) in
    (if 0 <? local_ r then
       if requestNumber ci =? RIL_REQUEST_GET_IMEI then
         of_option (elem (imei s) (socket_id r));; modM (fun s => s <| imei := <[i := s_response]> (imei s) |>)
       else if requestNumber ci =? RIL_REQUEST_GET_IMEISV then
         of_option (elem (imeisv s) (socket_id r));; modM (fun s => s <| imeisv := <[i := s_response]> (imeisv s) |>)
       else retM tt
     else
       let identity := requestNumber ci =? RIL_REQUEST_DEVICE_IDENTITY in
       (if identity then of_option (elem (imei s) (socket_id r));; retM tt else retM tt);;
       if cancelled r =? 0 then
         let ack := (13 <=? version s) && (wasAckSent r =? 1) in
         (if ack then grabPartialWakeLock else retM tt);;
         if has_response ci then
           emit (Respond (pCI r) (socket_id r) (if ack then RESPONSE_SOLICITED_ACK_EXP else RESPONSE_SOLICITED)
                   (token r) (if identity then 0 else s_e) (if identity then Identity i else Pointer s_response))
         else retM tt
       else retM tt);;
    (if queuing && queued_channel (proxyId ci) then
       let slot := if socket_id r =? 0 then 0%nat else 1%nat in
       set_busy (proxyId ci) slot false;; my_dequeue slot (proxyId ci)
     else retM tt);;
    modM (fun s => s <| requests := delete p (requests s) |>).

(** ril_service.cpp:511-514 [sendErrorResponse]. *)
Definition sendErrorResponse (p err : Z) : ST Ril unit :=
  let* r := get_request p in
  let* ci := get_command (pCI r) in
  if has_response ci then emit (Respond (pCI r) (socket_id r) RESPONSE_SOLICITED (token r) err (Pointer NULL)) else undefM.

(** ril_service.cpp:551-558 [dispatchVoid]. *)
Definition dispatchVoid (serial slotId request : Z) : ST Ril bool :=
  let* p := addRequestToList serial slotId request in
  if p =? NULL then retM false else my_enqueue request false p;; retM true.

(** ril_service.cpp:683-718 [dispatchInts] less the filling of the buffer. *)
Definition dispatchInts (serial slotId request : Z) : ST Ril bool :=
  let* p := addRequestToList serial slotId request in
  if p =? NULL then retM false
  else
    let* buf := calloc in
    if buf =? NULL then sendErrorResponse p RIL_E_NO_MEMORY;; retM false
    else
      let* r := get_request p in
      let* ci := get_command (pCI r) in
      my_enqueue request (negb (queued_channel (proxyId ci))) p;; retM true.

(** ril_service.cpp:751-762 [dispatchRaw]. *)
Definition dispatchRaw (serial slotId request : Z) : ST Ril bool :=
  let* p := addRequestToList serial slotId request in
  if p =? NULL then retM false else my_enqueue request true p;; retM true.

(** ril_service.cpp:2870-2880 [RadioImpl::setSimCardPower]. *)
Definition setSimCardPower (slotId serial : Z) (powerUp : bool) : ST Ril unit :=
  dispatchVoid serial slotId (if powerUp then RIL_REQUEST_MODEM_POWERON else RIL_REQUEST_MODEM_POWEROFF);; retM tt.

(** ril_service.cpp:1459-1466 [RadioImpl::stopNetworkScan]. *)
Definition stopNetworkScan (slotId serial : Z) : ST Ril unit :=
  dispatchVoid serial slotId RIL_REQUEST_STOP_NETWORK_SCAN;; retM tt.
End Channels.

(** * Unsolicited responses *)

(** ril.cpp:1563-1565 [send_unsolResponse, index]. *)
Definition unsol_index (s : Ril) (unsolResponse : Z) : Z :=
  if unsolResponse <? RIL_UNSOL_VENDOR_BASE then unsolResponse - RIL_UNSOL_RESPONSE_BASE
  else unsolResponse - RIL_UNSOL_VENDOR_BASE + mtk_unsol_start s.

(** ril.cpp:1554-1669 [send_unsolResponse] [ret] is what the indication's function returns. *)
Definition send_unsolResponse (unsolResponse : Z) (data : list Z) (socket ret : Z) : ST Ril unit :=
  let* s := getM in
  let i := unsol_index s unsolResponse in
  if i <? 0 then retM tt
  else if RIL_UNSOL_VENDOR_BASE + 80 <? unsolResponse then retM tt
  else
    let* u := of_option (elem s_unsolResponses i) in
    (if wake_partial u then grabPartialWakeLock else retM tt);;
    let type := if (13 <=? version s) && wake_partial u then RESPONSE_UNSOLICITED_ACK_EXP else RESPONSE_UNSOLICITED in
    (if has_indication u then emit (Indicate i socket type data) else retM tt);;
    let ret := if has_indication u then ret else 0 in
    let* failed :=
      if (version s <? 13) && wake_partial u then
        let* p_info := internalRequestTimedCallback WAKE_TIMEOUT_CALLBACK NULL (Some TIMEVAL_WAKE_TIMEOUT) (-1) in
        if p_info =? NULL then retM true
        else cancel_last;; modM (fun s => s <| s_last_wake_timeout_info := p_info |>);; retM false
      else retM false in
    let* failed :=
      if negb failed && negb (ret =? 0) && (unsolResponse =? RIL_UNSOL_NITZ_TIME_RECEIVED) then
        modM (fun s => s <| s_lastNITZTimeData := None |>);;
        let* copy := calloc in
        if copy =? NULL then retM true
        else modM (fun s => s <| s_lastNITZTimeData := Some data |>);; retM false
      else retM failed in
    if failed && wake_partial u then releaseWakeLock else retM tt.

(** ril.cpp:1700-1710 [RIL_onUnsolicitedResponseSocket, ignored codes]. *)
Definition unsol_ignored : list Z := [3074; 3075; 3046; 3002; 3009; 3041; 3023; 3048; 3059; 3006; 3040].

Section Unsolicited.
(** Whether the library is built with [RIL_UNSOL_PENDING]. *)
Variable unsol_pending : bool.

(** ril.cpp:1731-1738 [RIL_onUnsolicitedResponseSocket, flush]. *)
Fixpoint flush_USR (l : list USRbuffer) (ret : Z) : ST Ril unit :=
  match l with
  | [] => retM tt
  | u :: l' => send_unsolResponse (u_response u) (u_data u) (u_socket u) ret;; flush_USR l' ret
  end.

(** ril.cpp:1687-1769 [RIL_onUnsolicitedResponseSocket] [connected] says whether the services
    of both slots are. *)
Definition RIL_onUnsolicitedResponseSocket (unsolResponse : Z) (data : list Z) (socket ret : Z) (connected : bool) : ST Ril unit :=
  let* s := getM in
  if s_registerCalled s =? 0 then retM tt
  else if bool_decide (unsolResponse ∈ unsol_ignored) then retM tt
  else if negb unsol_pending then send_unsolResponse unsolResponse data socket ret
  else if connected then
    flush_USR (pendingUSR s) ret;;
    modM (fun s => s <| pendingUSR := [] |>);;
    send_unsolResponse unsolResponse data socket ret
  else if (zlen data =? 0) || (unsolResponse =? RIL_UNSOL_RESPONSE_VOICE_NETWORK_STATE_CHANGED) then retM tt
  else if (length (pendingUSR s) <? MAX_PENDING_USR)%nat then
    let* copy := calloc in
    if copy =? NULL then retM tt
    else modM (fun s => s <| pendingUSR := pendingUSR s ++ [mkUSR unsolResponse data socket] |>)
  else retM tt.

(** ril.cpp:482-495 [RIL_MDStateChange] [bytes] are the state's. *)
Definition RIL_MDStateChange (bytes : list Z) (ret : Z) (connected : bool) : ST Ril unit :=
  RIL_onUnsolicitedResponseSocket 3053 bytes 0 ret connected;;
  RIL_onUnsolicitedResponseSocket 3053 bytes 1 ret connected.

(** ril.cpp:593-606 [resendLastNITZTimeData]. *)
Definition resendLastNITZTimeData (socket ret : Z) : ST Ril unit :=
  let* s := getM in
  match s_lastNITZTimeData s with
  | None => retM tt
  | Some data =>
      emit (Indicate 8 socket (if 13 <=? version s then RESPONSE_UNSOLICITED_ACK_EXP else RESPONSE_UNSOLICITED) data);;
      if ret =? 0 then modM (fun s => s <| s_lastNITZTimeData := None |>) else retM tt
  end.

(** ril.cpp:608-643 [onNewCommandConnect] less the property that is set. [rilVer] are the bytes
    of the version. *)
Definition onNewCommandConnect (rilVer : list Z) (socket ret : Z) (connected : bool) : ST Ril unit :=
  RIL_onUnsolicitedResponseSocket 1034 rilVer socket ret connected;;
  RIL_onUnsolicitedResponseSocket 1000 [] socket ret connected;;
  resendLastNITZTimeData socket ret.
End Unsolicited.

(** * Registration *)

(** ril.cpp:1029-1037 [RIL_register, requests] the check of the requests' table: the index of
    the first vendor entry, when every entry is in its place. *)
Fixpoint check_commands (l : list CommandInfo) (i start : Z) : option Z :=
  match l with
  | [] => Some start
  | c :: l' =>
      if requestNumber c <? RIL_REQUEST_VENDOR_BASE then
        if i =? requestNumber c then check_commands l' (i + 1) start else None
      else
        let start := if start =? 0 then i else start in
        if i + RIL_REQUEST_VENDOR_BASE - start =? requestNumber c then check_commands l' (i + 1) start else None
  end.

(** ril.cpp:1039-1047 [RIL_register, unsolicited responses] likewise. *)
Fixpoint check_unsol (l : list UnsolResponseInfo) (i start : Z) : option Z :=
  match l with
  | [] => Some start
  | u :: l' =>
      if unsolNumber u <? RIL_UNSOL_VENDOR_BASE then
        if i + RIL_UNSOL_RESPONSE_BASE =? unsolNumber u then check_unsol l' (i + 1) start else None
      else
        let start := if start =? 0 then i else start in
        if i + RIL_UNSOL_VENDOR_BASE - start =? unsolNumber u then check_unsol l' (i + 1) start else None
  end.

(** ril.cpp:990-1048 [RIL_register], and [RIL_registerSocket], which does the same.
    [callbacks] is the version of the vendor's functions, if there are any. *)
Definition RIL_register (callbacks : option Z) : ST Ril unit :=
  match callbacks with
  | None => retM tt
  | Some v =>
      let* s := getM in
      if v <? RIL_VERSION_MIN then retM tt
      else if 0 <? s_registerCalled s then retM tt
      else
        modM (fun s => s <| version := v |> <| s_registerCalled := 1 |> <| pendingUSR := [] |>
                         <| threadPid := replicate MAX_RIL_CHANNELS (0, 0) |>);;
        let* c := of_option (check_commands s_commands 0 (mtk_command_start s)) in
        let* u := of_option (check_unsol s_unsolResponses 0 (mtk_unsol_start s)) in
        modM (fun s => s <| mtk_command_start := c |> <| mtk_unsol_start := u |>)
  end.

(** The variables before any call, with the loop's memory [e] and the allocations to come. *)
Definition ril_start (e : EvState) (allocs_ : list Z) : Ril :=
  mkRil 0 0 0 0 ∅ [[]; []] [[]; []] [[]; []] [false; false] [false; false] e ∅ NULL 0 false None []
    (replicate MAX_RIL_CHANNELS (0, 0)) [0; 0] [0; 0] 0 allocs_ (0, 0) 1 [].
