(* ===== verification/RilCore.v ===== *)
(** The invariant of the radio interface layer's library: what waits for an answer is in
    memory and on the list of its slot, the wake lock's timers, the loop's data and the
    memory still to be allocated; and what the operations do to it. *)

From stdpp Require Import base list gmap numbers.
From Stdlib Require Import ZArith Lia.
From S2P Require Import Prelude RilEvent RilLists RilEventProps RilClient RilLoop RilTables Ril.

Local Open Scope Z_scope.
Local Open Scope st_scope.
Local Open Scope rec_scope.

Implicit Types (s : Ril) (p : Z).

(** * The invariant *)

(** A request that waits: on the list of its slot, with an entry of the table. *)
Definition waiting s p (r : RequestInfo) : Prop :=
  exists l c, s_pendingRequests s !! hook (socket_id r) = Some l /\ p ∈ l /\
    elem s_commands (pCI r) = Some c /\ cancelled r = 0 /\ 0 <= socket_id r < Z.of_nat SIM_COUNT.

Record req_wf s : Prop := {
  rw_slots : length (s_pendingRequests s) = SIM_COUNT;
  rw_live : forall p r, requests s !! p = Some r -> p <> NULL /\ waiting s p r;
  rw_list : forall i l p, s_pendingRequests s !! i = Some l -> p ∈ l ->
    exists r, requests s !! p = Some r /\ hook (socket_id r) = i;
  rw_nodup : forall i l, s_pendingRequests s !! i = Some l -> NoDup l;
  rw_identity : length (imei s) = SIM_COUNT /\ length (imeisv s) = SIM_COUNT;
}.

(** The wake lock's timers: only the one set last can still release the lock, and it can
    while the lock is held. *)
Record wake_wf s : Prop := {
  kw_last : s_last_wake_timeout_info s <> NULL -> is_Some (infos s !! s_last_wake_timeout_info s);
  kw_old : forall p i, infos s !! p = Some i -> p_callback i = WAKE_TIMEOUT_CALLBACK ->
    p <> s_last_wake_timeout_info s -> userParam i = 1;
  kw_held : 13 <= version s -> wake_lock s = true ->
    exists i, infos s !! s_last_wake_timeout_info s = Some i /\ p_callback i = WAKE_TIMEOUT_CALLBACK /\ userParam i = NULL;
  kw_null : infos s !! NULL = None;
}.

(** Memory to be allocated is not in use. *)
Record alloc_wf s : Prop := {
  aw_fresh : forall p, p ∈ allocs s -> p <> NULL ->
    requests s !! p = None /\ infos s !! p = None /\ heap (evs s) !! p = None;
  aw_nodup : NoDup (filter (fun p => p <> NULL) (allocs s));
}.

Definition lock_wf s : Prop := wake_wf s /\ ev_wf (evs s) /\ alloc_wf s.
Definition ril_wf s : Prop := req_wf s /\ lock_wf s.

(** * Allocation *)

Lemma alloc_hd s : alloc_wf s -> hd NULL (allocs s) <> NULL ->
  exists rest, allocs s = hd NULL (allocs s) :: rest /\ hd NULL (allocs s) ∉ filter (fun p => p <> NULL) rest.
Proof.
  intros [_ Hn] Hz. destruct (allocs s) as [|a rest]; [done|]. cbn [hd] in *. exists rest. split; [done|].
  rewrite list.filter_cons, decide_True in Hn by done. by apply list.NoDup_cons in Hn as [Hn _].
Qed.

(** The rest stays fresh when the memory in use has grown by what was allocated only. *)
Lemma alloc_wf_tail s s' : alloc_wf s -> allocs s' = tail (allocs s) ->
  (forall p, requests s !! p = None -> p <> hd NULL (allocs s) -> requests s' !! p = None) ->
  (forall p, infos s !! p = None -> p <> hd NULL (allocs s) -> infos s' !! p = None) ->
  (forall p, heap (evs s) !! p = None -> p <> hd NULL (allocs s) -> heap (evs s') !! p = None) ->
  alloc_wf s'.
Proof.
  intros [Hf Hn] Ha H1 H2 H3. destruct (allocs s) as [|a rest] eqn:Hal; cbn in Ha.
  - split; rewrite Ha; [|constructor]. intros p Hp. by apply not_elem_of_nil in Hp.
  - split; rewrite Ha.
    + intros p Hp Hz. destruct (Hf p) as (F1 & F2 & F3); [by right|done|]. cbn [hd] in *.
      assert (p <> a) as Hne.
      { intros ->. rewrite list.filter_cons, decide_True in Hn by done. apply list.NoDup_cons in Hn as [Hn _].
        apply Hn. by apply list_elem_of_filter. }
      auto.
    + rewrite list.filter_cons in Hn. case_decide; [|done]. by apply list.NoDup_cons in Hn as [_ Hn].
Qed.

Lemma alloc_wf_same s s' : alloc_wf s -> allocs s' = allocs s ->
  (forall p, requests s !! p = None -> requests s' !! p = None) ->
  (forall p, infos s !! p = None -> infos s' !! p = None) -> evs s' = evs s -> alloc_wf s'.
Proof.
  intros [Hf Hn] Ha H1 H2 H3. split; rewrite Ha; [|done]. intros p Hp Hz. destruct (Hf p Hp Hz) as (? & ? & ?).
  rewrite H3. auto.
Qed.

(** * The loop's operations *)

(** Fresh memory is on no list and in no slot. *)
Lemma fresh_unlinked m p : ev_wf m -> heap m !! p = None -> p <> NULL ->
  unlinked p (timers m) (pending m) /\ p ∉ watch_table m.
Proof.
  intros [[(_ & H1 & _) (_ & H2 & _) _ _ _ _] Hw] Hn Hz. split.
  - intros [Hx|Hx]%elem_of_app; [apply H1 in Hx|apply H2 in Hx]; destruct Hx; congruence.
  - intros [i Hi]%list_elem_of_lookup_1. destruct (ww_event _ Hw _ _ Hi Hz) as (e & He & _). congruence.
Qed.

(** The event of a timed callback, set up and added as a timer. *)
Definition timer_calls p tv ts (m : EvState) : EvState -> Prop := fun m' =>
  exists m1, ril_event_set p (-1) false USER_TIMER_CALLBACK p m = Ok (tt, m1) /\
    ril_timer_add p (Some tv) ts m1 = Ok (tt, m').

Lemma new_timer p tv ts m : ev_wf m -> heap m !! p = None -> p <> NULL ->
  exists m', timer_calls p tv ts m m' /\ ev_wf m' /\ pending m' = pending m /\
    timers m' = earlier (heap m) (timeradd (getNow ts) tv) (timers m) ++
                p :: later (heap m) (timeradd (getNow ts) tv) (timers m) /\
    time_of (heap m') p = timeradd (getNow ts) tv /\
    (forall q, heap m !! q = None -> q <> p -> heap m' !! q = None).
Proof.
  intros Hwf Hn Hz. destruct (fresh_unlinked m p Hwf Hn Hz) as [Hu Hni].
  destruct (ril_event_set_spec m _ _ p (-1) false USER_TIMER_CALLBACK p Hwf Hz Hu Hni) as [R1 I1].
  match type of I1 with ev_inv ?x _ _ => set (m1 := x) in * end. set (t := timeradd (getNow ts) tv).
  destruct (ril_timer_add_spec m1 _ _ p (fresh_event (-1) false USER_TIMER_CALLBACK p) tv ts I1) as (h' & R2 & C & I2);
    [cbn; by rewrite lookup_insert_eq|done|done|].
  destruct (ev_inv_views _ _ _ I2) as [Ht Hp]. fold t in C, Ht.
  exists (m1 <| heap := h' |>). split; [by exists m1|]. split; [by eapply ev_inv_wf|]. split; [done|]. split_and!.
  - rewrite Ht. destruct (due_agree (heap m) (heap m1) t (timers m)) as [-> ->]; [|done].
    intros a Ha. cbn. apply lookup_insert_ne. intros ->. unfold unlinked in Hu. set_solver.
  - cbn. rewrite (core_time _ _ _ C). unfold time_of. cbn. by rewrite lookup_alter_eq, lookup_insert_eq.
  - intros q Hq Hqp. cbn. specialize (C q). rewrite lookup_alter_ne in C by done.
    assert (heap m1 !! q = None) as Hq1 by (cbn; by rewrite lookup_insert_ne).
    rewrite Hq1 in C. by apply fmap_None in C.
Qed.

(** * Timed callbacks *)

Lemma calloc_ok s : calloc s = Ok (hd NULL (allocs s), s <| allocs := tail (allocs s) |>).
Proof. done. Qed.

Lemma on_loop_ok {A} (f : ST EvState A) s a m : f (evs s) = Ok (a, m) -> on_loop f s = Ok (a, s <| evs := m |>).
Proof. intros H. unfold on_loop. by rewrite H. Qed.

(** What a run leaves alone, beside what it says it changes. *)
Definition same_requests s s' : Prop :=
  requests s' = requests s /\ s_pendingRequests s' = s_pendingRequests s /\ imei s' = imei s /\ imeisv s' = imeisv s.

Lemma same_requests_wf s s' : same_requests s s' -> req_wf s -> req_wf s'.
Proof.
  intros (H1 & H2 & H3 & H4) [W1 W2 W3 W4 W5]. split; rewrite ?H1, ?H2, ?H3, ?H4; try done.
  - intros p r Hr. destruct (W2 p r Hr) as [? Hw]. split; [done|]. unfold waiting. by rewrite H2.
Qed.

(** The state after a timed callback [p] has been set; [o] is what was emitted. *)
Definition timed s p (i : UserCallbackInfo) (m : EvState) (o : list ril_out) : Ril :=
  s <| allocs := tail (allocs s) |> <| infos := <[p := i]> (infos s) |> <| evs := m |> <| out := out s ++ o |>.

Lemma internalRequestTimedCallback_spec callback param_ tv s : ev_wf (evs s) -> alloc_wf s ->
  let p := hd NULL (allocs s) in
  let t := timeradd (getNow (now_ s)) (default (0, 0) tv) in
  (p = NULL /\ internalRequestTimedCallback callback param_ tv (-1) s = Ok (NULL, s <| allocs := tail (allocs s) |>)) \/
  (p <> NULL /\ exists m o, let s' := timed s p (mkInfo callback param_ (u32 (-1))) m o in
     internalRequestTimedCallback callback param_ tv (-1) s = Ok (p, s') /\ ev_wf m /\ alloc_wf s' /\
     (o = [] \/ o = [WakeUpLoop]) /\ pending m = pending (evs s) /\
     timers m = earlier (heap (evs s)) t (timers (evs s)) ++ p :: later (heap (evs s)) t (timers (evs s)) /\
     time_of (heap m) p = t /\ (forall q, heap (evs s) !! q = None -> q <> p -> heap m !! q = None)).
Proof.
  intros Hev Hal p t. unfold internalRequestTimedCallback. rewrite !(bindM_ok _ _ _ _ _ (calloc_ok s)). fold p.
  destruct (Z.eqb_spec p NULL) as [Hz|Hz]; [by left|].
  - right. split; [done|].
    destruct (alloc_hd s Hal Hz) as (rest & Hrest & _).
    destruct (aw_fresh _ Hal p) as (F1 & F2 & F3); [subst p; rewrite Hrest; cbn; left|done|].
    destruct (new_timer p (default (0, 0) tv) (now_ s) (evs s) Hev F3 Hz) as (m & (m1 & R1 & R2) & W & P & T & D & F).
    exists m, (if self s =? s_tid_dispatch s then [] else [WakeUpLoop]). split_and!; try done.
    + rewrite (bindM_ok _ _ _ _ _ (eq_refl : modM _ _ = Ok (tt, _))), (bindM_ok _ _ _ _ _ (eq_refl : getM _ = Ok (_, _))).
      replace (-1 <? -1) with false by done. rewrite (bindM_ok _ _ _ _ _ (eq_refl : retM tt _ = Ok (tt, _))).
      erewrite bindM_ok by (apply on_loop_ok; exact R1). erewrite bindM_ok by (apply on_loop_ok; exact R2). unfold triggerEvLoop, emit. run.
      destruct (self s =? s_tid_dispatch s); unfold timed; cbn; [by rewrite app_nil_r|done].
    + eapply alloc_wf_tail; [exact Hal|done|done| |]; cbn; fold p.
      * intros q Hq Hqp. by rewrite lookup_insert_ne.
      * done.
    + destruct (self s =? _); auto.
Qed.

(** * The wake lock *)

(** The callbacks once the last timer is cancelled. *)
Definition cancelled_infos s : gmap Z UserCallbackInfo :=
  if s_last_wake_timeout_info s =? NULL then infos s
  else alter (fun i => i <| userParam := 1 |>) (s_last_wake_timeout_info s) (infos s).

Lemma cancel_last_ok s : (s_last_wake_timeout_info s <> NULL -> is_Some (infos s !! s_last_wake_timeout_info s)) ->
  cancel_last s = Ok (tt, s <| infos := cancelled_infos s |>).
Proof.
  intros H. unfold cancel_last, cancelled_infos, get_info. run. destruct (Z.eqb_spec (s_last_wake_timeout_info s) NULL) as [Hz|Hz].
  - by destruct s.
  - destruct (H Hz) as [i ->]. done.
Qed.

Lemma cancelled_lookup s q i : cancelled_infos s !! q = Some i ->
  exists j, infos s !! q = Some j /\ p_callback i = p_callback j /\
    (userParam i = userParam j \/ userParam i = 1) /\
    (q = s_last_wake_timeout_info s -> s_last_wake_timeout_info s <> NULL -> userParam i = 1).
Proof.
  unfold cancelled_infos. destruct (Z.eqb_spec (s_last_wake_timeout_info s) NULL) as [Hz|Hz].
  - intros Hq. exists i. split_and!; auto; done.
  - intros Hq. destruct (decide (s_last_wake_timeout_info s = q)) as [Hs|Hs].
    + rewrite Hs, lookup_alter_eq in Hq. destruct (infos s !! q) as [j|] eqn:Hj; [|done]. cbn in Hq. simplify_eq. by exists j; auto.
    + rewrite lookup_alter_ne in Hq by done. exists i. split_and!; auto; congruence.
Qed.

Lemma cancelled_None s q : cancelled_infos s !! q = None <-> infos s !! q = None.
Proof.
  unfold cancelled_infos. destruct (_ =? _); [done|].
  destruct (decide (s_last_wake_timeout_info s = q)) as [Hs|Hs]; [|by rewrite lookup_alter_ne].
  rewrite Hs, lookup_alter_eq. by destruct (infos s !! q).
Qed.

(** Once the last timer is cancelled, every timer is, and a new one can become the last. *)
Lemma all_cancelled s q i : wake_wf s -> cancelled_infos s !! q = Some i -> p_callback i = WAKE_TIMEOUT_CALLBACK -> userParam i = 1.
Proof.
  intros [W1 W2 _ W4] Hq Hc. destruct (cancelled_lookup _ _ _ Hq) as (j & Hj & Hcb & Hu & Hlast).
  destruct (decide (q = s_last_wake_timeout_info s)) as [Hs|Hs].
  - apply Hlast; [done|]. intros Hz. congruence.
  - destruct Hu as [Hu|Hu]; [|done]. rewrite Hu. eapply W2; [exact Hj|congruence|done].
Qed.

(** The state with the new timer [p] as the last. *)
Definition with_last s p (m : EvState) (o : list ril_out) (count : Z) (held : bool) : Ril :=
  s <| allocs := tail (allocs s) |> <| infos := <[p := mkInfo WAKE_TIMEOUT_CALLBACK NULL (u32 (-1))]> (cancelled_infos s) |>
    <| evs := m |> <| out := out s ++ o |> <| s_last_wake_timeout_info := p |> <| s_wakelock_count := count |> <| wake_lock := held |>.

Lemma with_last_wf s p m o count held : lock_wf s -> p = hd NULL (allocs s) -> p <> NULL -> ev_wf m ->
  (forall q, heap (evs s) !! q = None -> q <> p -> heap m !! q = None) -> lock_wf (with_last s p m o count held).
Proof.
  intros (Hw & He & Ha) -> Hz Hm Hh. split; [|split; [done|]].
  - split; cbn [infos s_last_wake_timeout_info version wake_lock with_last set eta].
    + intros _. by rewrite lookup_insert_eq.
    + intros q i Hq Hc Hne. rewrite lookup_insert_ne in Hq by congruence. by eapply all_cancelled.
    + intros _ _. rewrite lookup_insert_eq. by eexists.
    + rewrite lookup_insert_ne by done. apply cancelled_None. apply Hw.
  - eapply alloc_wf_tail; [exact Ha|done|done| |]; cbn.
    + intros q Hq Hqp. rewrite lookup_insert_ne by congruence. by apply cancelled_None.
    + done.
Qed.

(** The timer replaces the one set before it. *)
Lemma replace_last s p m o c held : wake_wf s -> infos s !! p = None ->
  (cancel_last;; modM (fun s => s <| s_last_wake_timeout_info := p |>))
    ((timed s p (mkInfo WAKE_TIMEOUT_CALLBACK NULL (u32 (-1))) m o) <| s_wakelock_count := c |> <| wake_lock := held |>) =
  Ok (tt, with_last s p m o c held).
Proof.
  intros Hw Hp. pose proof (kw_last _ Hw) as Hl.
  assert (s_last_wake_timeout_info s <> NULL -> s_last_wake_timeout_info s <> p) as Hne.
  { intros Hz Hx. destruct (Hl Hz). congruence. }
  match goal with |- bindM _ _ ?x = _ => set (s1 := x) end.
  assert (cancelled_infos s1 = <[p := mkInfo WAKE_TIMEOUT_CALLBACK NULL (u32 (-1))]> (cancelled_infos s)) as Hc.
  { unfold cancelled_infos. cbn. destruct (Z.eqb_spec (s_last_wake_timeout_info s) NULL) as [Hz|Hz]; [done|].
    by rewrite alter_insert_ne by (by apply Hne). }
  rewrite (bindM_ok _ _ s1 tt (s1 <| infos := cancelled_infos s1 |>)).
  - rewrite Hc. by destruct s.
  - apply cancel_last_ok. cbn. intros Hz. rewrite lookup_insert_ne by (by apply not_eq_sym, Hne). by apply Hl.
Qed.

(** The timer that is to release the lock: due in 200 ms. *)
Definition release_timer s s' : Prop :=
  let p := hd NULL (allocs s) in
  s_last_wake_timeout_info s' = p /\ p ∈ timers (evs s') /\
  time_of (heap (evs s')) p = timeradd (getNow (now_ s)) TIMEVAL_WAKE_TIMEOUT.

(** Callbacks stay in memory; a lock that is held was held, with the same timer, or it was
    taken with a new one. *)
Definition lock_mono s s' : Prop :=
  (forall q, infos s' !! q = None -> infos s !! q = None) /\
  (wake_lock s' = true -> 13 <= version s ->
   (wake_lock s = true /\ s_last_wake_timeout_info s' = s_last_wake_timeout_info s) \/
   infos s !! s_last_wake_timeout_info s' = None).

Lemma lock_mono_same s s' : infos s' = infos s -> s_last_wake_timeout_info s' = s_last_wake_timeout_info s ->
  wake_lock s' = wake_lock s -> lock_mono s s'.
Proof. intros E1 E2 E3. split; [by rewrite E1|]. rewrite E2, E3. auto. Qed.

Lemma lock_mono_off s s' : (forall q, infos s' !! q = None -> infos s !! q = None) -> wake_lock s' = false -> lock_mono s s'.
Proof. intros H1 H2. split; [done|]. by rewrite H2. Qed.

Lemma lock_mono_trans s1 s2 s3 : version s2 = version s1 -> lock_mono s1 s2 -> lock_mono s2 s3 -> lock_mono s1 s3.
Proof.
  intros Hv [A1 A2] [B1 B2]. split; [auto|]. intros Hl Hve. rewrite Hv in B2. destruct (B2 Hl Hve) as [[Hl2 E]|Hf]; [|right; auto].
  destruct (A2 Hl2 Hve) as [[Hl1 E1]|Hf]; [left; split; [done|congruence]|right; by rewrite E].
Qed.

(** What an operation on the lock leaves: the invariant, the requests, and at most a wake-up
    of the loop in the trace. *)
Definition lock_step s s' : Prop :=
  lock_wf s' /\ same_requests s s' /\ version s' = version s /\ mtk_command_start s' = mtk_command_start s /\
  mtk_unsol_start s' = mtk_unsol_start s /\ (exists o, out s' = out s ++ o /\ (o = [] \/ o = [WakeUpLoop])) /\
  lock_mono s s'.

Definition with_lock s (b : bool) : Ril := s <| wake_lock := b |>.

Lemma set_release_timer s b : lock_wf s ->
  let p := hd NULL (allocs s) in
  let set_timer := internalRequestTimedCallback WAKE_TIMEOUT_CALLBACK NULL (Some TIMEVAL_WAKE_TIMEOUT) (-1) in
  (p = NULL /\ set_timer (with_lock s b) = Ok (NULL, with_lock (s <| allocs := tail (allocs s) |>) b) /\
     lock_step s (s <| allocs := tail (allocs s) |>)) \/
  (p <> NULL /\ exists m o,
     set_timer (with_lock s b) =
       Ok (p, with_lock (timed s p (mkInfo WAKE_TIMEOUT_CALLBACK NULL (u32 (-1))) m o) b) /\
     infos s !! p = None /\
     forall c held, lock_step s (with_last s p m o c held) /\ release_timer s (with_last s p m o c held)).
Proof.
  intros Hwf p set_timer. pose proof Hwf as (Hw & He & Ha).
  destruct (internalRequestTimedCallback_spec WAKE_TIMEOUT_CALLBACK NULL (Some TIMEVAL_WAKE_TIMEOUT) (with_lock s b) He)
    as [[Hz R]|(Hz & m & o & R & Hm & Ha' & Ho & _ & Ht & Hd & Hh)]; [by eapply alloc_wf_same|left|right];
    change (hd NULL (allocs (with_lock s b))) with p in *.
  - split; [done|]. split; [unfold set_timer; rewrite R; by destruct s|]. split; [|split; [done|split; [done|split; [done|split; [done|]]]]].
    + split; [by destruct Hw|]. split; [done|]. by eapply alloc_wf_tail.
    + split; [|by apply lock_mono_same]. exists []. split; [by rewrite app_nil_r|by left].
  - split; [done|]. exists m, o. split; [unfold set_timer; rewrite R; by destruct s|].
    destruct (alloc_hd s Ha Hz) as (rest & Hrest & _).
    destruct (aw_fresh _ Ha p) as (_ & F2 & _); [unfold p; rewrite Hrest; cbn; left|done|]. split; [done|].
    intros c held. split.
    + split; [|split; [done|split; [done|split; [done|split; [done|split; [by exists o|]]]]]].
      * by apply with_last_wf.
      * split; cbn; [|intros; by right]. intros q Hq. apply lookup_insert_None in Hq as [Hq _]. by apply cancelled_None in Hq.
    + split; [done|]. split; [|exact Hd]. change (p ∈ timers m). rewrite Ht. set_solver.
Qed.

Lemma lock_step_quiet s s' : lock_wf s' -> same_requests s s' -> version s' = version s ->
  mtk_command_start s' = mtk_command_start s -> mtk_unsol_start s' = mtk_unsol_start s -> out s' = out s ->
  lock_mono s s' -> lock_step s s'.
Proof. intros. do 5 (split; [done|]). split; [|done]. exists []. split; [by rewrite app_nil_r|by left]. Qed.

Lemma lock_step_refl s : lock_wf s -> lock_step s s.
Proof. intros H. apply lock_step_quiet; try done. by apply lock_mono_same. Qed.

(** Changing the count and the lock keeps the invariant when the lock is not held after. *)
Lemma unheld_step s s' c : lock_step s s' -> lock_step s (s' <| s_wakelock_count := c |> <| wake_lock := false |>).
Proof.
  intros ((Hw & He & Ha) & H1 & H2 & H3 & H4 & H5 & [M _]). split; [|do 5 (split; [done|]); by apply lock_mono_off].
  split; [|split; [exact He|]].
  - destruct Hw as [W1 W2 W3 W4]. by split.
  - by eapply alloc_wf_same.
Qed.

Lemma grab_spec s : lock_wf s ->
  exists s', grabPartialWakeLock s = Ok (tt, s') /\ lock_step s s' /\
    (13 <= version s -> hd NULL (allocs s) <> NULL ->
       wake_lock s' = true /\ s_wakelock_count s' = i32 (s_wakelock_count s + 1) /\ release_timer s s') /\
    (13 <= version s -> hd NULL (allocs s) = NULL -> wake_lock s' = false /\ s_wakelock_count s' = s_wakelock_count s) /\
    (version s < 13 -> wake_lock s' = true).
Proof.
  intros Hwf. unfold grabPartialWakeLock. rewrite (bindM_ok _ _ _ _ _ (eq_refl : getM _ = Ok (_, _))).
  destruct (Z.leb_spec 13 (version s)) as [Hv|Hv].
  2: { exists (s <| wake_lock := true |>). split; [done|]. split.
    - pose proof Hwf as (Hw & He & Ha). apply lock_step_quiet; try done; [|split; [done|cbn; lia]].
      split; [|split; [exact He|by eapply alloc_wf_same]].
      destruct Hw as [W1 W2 W3 W4]. split; try done. cbn. lia.
    - split_and!; intros; try lia; done. }
  rewrite (bindM_ok _ _ _ _ _ (eq_refl : modM _ _ = Ok (tt, _))).
  destruct (set_release_timer s true Hwf) as [(Hz & R & L)|(Hz & m & o & R & Hf & HL)]; rewrite (bindM_ok _ _ _ _ _ R).
  - rewrite Z.eqb_refl. eexists. split; [reflexivity|].
    split; [exact (unheld_step _ _ (s_wakelock_count s) L)|split_and!; intros; try lia; done].
  - rewrite (proj2 (Z.eqb_neq _ _)) by done. rewrite (bindM_ok _ _ _ _ _ (eq_refl : modM _ _ = Ok (tt, _))).
    exists (with_last s (hd NULL (allocs s)) m o (i32 (s_wakelock_count s + 1)) true). split.
    + rewrite <- (replace_last _ _ _ _ _ _ (proj1 Hwf) Hf). destruct s; cbv -[i32 tail hd app timeradd]; reflexivity.
    + destruct (HL (i32 (s_wakelock_count s + 1)) true) as [L T]. split; [exact L|]. split_and!; intros; try lia; done.
Qed.

Lemma release_spec s : lock_wf s ->
  exists s', releaseWakeLock s = Ok (tt, s') /\ lock_step s s' /\
    (13 <= version s -> if 1 <? s_wakelock_count s then s_wakelock_count s' = s_wakelock_count s - 1 /\ wake_lock s' = wake_lock s
                        else s_wakelock_count s' = 0 /\ wake_lock s' = false) /\
    (version s < 13 -> wake_lock s' = false).
Proof.
  intros Hwf. pose proof Hwf as (Hw & He & Ha). unfold releaseWakeLock.
  rewrite (bindM_ok _ _ _ _ _ (eq_refl : getM _ = Ok (_, _))). destruct (Z.leb_spec 13 (version s)) as [Hv|Hv].
  - destruct (Z.ltb_spec 1 (s_wakelock_count s)) as [Hc|Hc].
    + eexists. split; [reflexivity|]. split; [|split; intros; [done|lia]].
      apply lock_step_quiet; try done; [|by apply lock_mono_same]. split; [by destruct Hw|]. split; [exact He|by eapply alloc_wf_same].
    + rewrite (bindM_ok _ _ _ _ _ (eq_refl : modM _ _ = Ok (tt, _))). rewrite cancel_last_ok by (apply (kw_last _ Hw)).
      eexists. split; [reflexivity|]. split; [|split; intros; [done|lia]].
      apply lock_step_quiet; try done; [|apply lock_mono_off; [intros q Hq; exact (proj1 (cancelled_None _ q) Hq)|done]].
      split; [|split; [exact He|]].
      * split; cbn [infos s_last_wake_timeout_info version wake_lock set eta].
        -- intros Hz. destruct (kw_last _ Hw Hz) as [i Hi]. apply not_eq_None_Some. rewrite cancelled_None. cbn. by rewrite Hi.
        -- intros q i Hq Hcb _. by apply (all_cancelled s q).
        -- done.
        -- apply cancelled_None. apply Hw.
      * eapply alloc_wf_same; [exact Ha|done|done| |done]. intros q Hq. by apply cancelled_None.
  - eexists. split; [reflexivity|]. split; [|split; intros; [lia|done]].
    destruct s; exact (unheld_step _ _ _ (lock_step_refl _ Hwf)).
Qed.
