(* ===== verification/RilRequests.v ===== *)
(** Requests of the radio interface layer's library: what adding, acknowledging and completing
    a request do, with the invariant of the library, and the runs of the library. *)

From stdpp Require Import base list gmap numbers.
From Stdlib Require Import ZArith Lia.
From S2P Require Import Prelude RilEvent RilLists RilEventProps RilClient RilLoop RilTables Ril RilCore.

Local Open Scope Z_scope.
Local Open Scope st_scope.
Local Open Scope rec_scope.

Implicit Types (s : Ril) (p : Z).

(** * Lists *)

Lemma elem_unlink p q l : NoDup l -> q ∈ unlink p l <-> q ∈ l /\ q <> p.
Proof.
  induction l as [|a l IH]; intros Hn; [cbn; rewrite !elem_of_nil; tauto|]. apply list.NoDup_cons in Hn as [Ha Hn]. cbn [unlink].
  destruct (Z.eqb_spec a p) as [->|Hap].
  - rewrite elem_of_cons. split; [|naive_solver]. intros Hq. split; [by right|]. intros ->. done.
  - rewrite !elem_of_cons, IH by done. naive_solver.
Qed.

Lemma NoDup_unlink p l : NoDup l -> NoDup (unlink p l).
Proof.
  induction l as [|a l IH]; intros Hn; [done|]. apply list.NoDup_cons in Hn as [Ha Hn]. cbn [unlink].
  destruct (Z.eqb_spec a p) as [->|Hap]; [done|]. apply list.NoDup_cons. split; [|by apply IH].
  rewrite elem_unlink by done. tauto.
Qed.

Lemma hook_range z : 0 <= z < Z.of_nat SIM_COUNT -> (hook z < SIM_COUNT)%nat.
Proof. unfold hook, SIM_COUNT. destruct (_ =? _); lia. Qed.

(** The lock's data are not those of requests. *)
Lemma lock_wf_same s s' : lock_wf s -> version s' = version s -> infos s' = infos s ->
  s_last_wake_timeout_info s' = s_last_wake_timeout_info s -> wake_lock s' = wake_lock s -> evs s' = evs s ->
  allocs s' = allocs s -> (forall p, requests s !! p = None -> requests s' !! p = None) -> lock_wf s'.
Proof.
  intros ([W1 W2 W3 W4] & He & Ha) E1 E2 E3 E4 E5 E6 Hr. split; [|split].
  - split; rewrite ?E1, ?E2, ?E3, ?E4; done.
  - by rewrite E5.
  - eapply alloc_wf_same; [exact Ha|done|done| |done]. by rewrite E2.
Qed.

(** * Adding *)

(** The request that [addRequestToList] builds. *)
Definition new_request s (serial slotId request : Z) (c : CommandInfo) : RequestInfo :=
  mkReq serial (command_index s request) 0 (if serial =? -1 then 1 else 0) slotId 0
    (if 0 <? slotId then proxyId c + RIL_CHANNEL_OFFSET else proxyId c).

Definition added s p (r : RequestInfo) : Ril :=
  s <| allocs := tail (allocs s) |> <| requests := <[p := r]> (requests s) |>
    <| s_pendingRequests := alter (cons p) (hook (socket_id r)) (s_pendingRequests s) |>.

Lemma added_wf s p r c : ril_wf s -> p = hd NULL (allocs s) -> p <> NULL -> elem s_commands (pCI r) = Some c ->
  cancelled r = 0 -> 0 <= socket_id r < Z.of_nat SIM_COUNT -> ril_wf (added s p r).
Proof.
  intros ([W1 W2 W3 W4 W5] & Hw & He & Ha) Hp Hz Hc Hcan Hs.
  destruct (alloc_hd s Ha) as (rest & Hrest & _); [by rewrite <- Hp|].
  destruct (aw_fresh _ Ha p) as (F1 & F2 & F3); [rewrite Hp, Hrest; cbn; left|done|].
  assert (forall i l, s_pendingRequests s !! i = Some l -> p ∉ l) as Hnl.
  { intros i l Hl Hx. destruct (W3 i l p Hl Hx) as (r' & Hr' & _). congruence. }
  split; [|split; [by destruct Hw|split; [done|]]].
  - split; cbn [s_pendingRequests requests imei imeisv added set eta].
    + by rewrite length_alter.
    + intros q r' Hq. destruct (decide (p = q)) as [<-|Hne].
      * rewrite lookup_insert_eq in Hq. injection Hq as <-. split; [done|].
        destruct (lookup_lt_is_Some_2 (s_pendingRequests s) (hook (socket_id r))) as [l Hl].
        { rewrite W1. by apply hook_range. }
        exists (p :: l), c. cbn. rewrite list_lookup_alter_eq, Hl. split; [done|split; [left|done]].
      * rewrite lookup_insert_ne in Hq by done. destruct (W2 q r' Hq) as [Hq0 (l & c' & Hl & Hin & Hrest')]. split; [done|].
        destruct (decide (hook (socket_id r) = hook (socket_id r'))) as [Hh|Hh].
        -- exists (p :: l), c'. cbn. rewrite Hh, list_lookup_alter_eq, Hl. split; [done|split; [by right|done]].
        -- exists l, c'. cbn. rewrite list_lookup_alter_ne by done. done.
    + intros i l q Hl Hq. destruct (decide (hook (socket_id r) = i)) as [<-|Hh].
      * rewrite list_lookup_alter_eq in Hl. destruct (s_pendingRequests s !! hook (socket_id r)) as [l0|] eqn:Hl0; [|done].
        cbn in Hl. injection Hl as <-. apply elem_of_cons in Hq as [->|Hq]; [exists r; by rewrite lookup_insert_eq|].
        destruct (W3 _ _ q Hl0 Hq) as (r' & Hr' & Hh'). exists r'. rewrite lookup_insert_ne; [done|]. intros ->. congruence.
      * rewrite list_lookup_alter_ne in Hl by done. destruct (W3 _ _ q Hl Hq) as (r' & Hr' & Hh'). exists r'.
        rewrite lookup_insert_ne; [done|]. intros ->. congruence.
    + intros i l Hl. destruct (decide (hook (socket_id r) = i)) as [<-|Hh].
      * rewrite list_lookup_alter_eq in Hl. destruct (s_pendingRequests s !! hook (socket_id r)) as [l0|] eqn:Hl0; [|done].
        cbn in Hl. injection Hl as <-. apply list.NoDup_cons. split; [by eapply Hnl|by eapply W4].
      * rewrite list_lookup_alter_ne in Hl by done. by eapply W4.
    + done.
  - eapply alloc_wf_tail; [exact Ha|done| |done|done]. intros q Hq Hqp. cbn. rewrite lookup_insert_ne; [done|congruence].
Qed.

(** An allocation, and an entry of the trace. *)
Lemma tail_wf s : ril_wf s -> ril_wf (s <| allocs := tail (allocs s) |>).
Proof.
  intros (Hr & Hw & He & Ha). split; [by apply (same_requests_wf s)|]. split; [by destruct Hw|]. split; [done|]. by eapply alloc_wf_tail.
Qed.

Lemma emitted_wf s o : ril_wf s -> ril_wf (s <| out := out s ++ [o] |>).
Proof. intros [Hr Hl]. split; [by apply (same_requests_wf s)|by apply (lock_wf_same s)]. Qed.

Lemma addRequest_spec s serial slotId request c : ril_wf s -> 0 <= slotId < Z.of_nat SIM_COUNT ->
  elem s_commands (command_index s request) = Some c ->
  let p := hd NULL (allocs s) in
  (p = NULL /\ addRequestToList serial slotId request s = Ok (NULL, s <| allocs := tail (allocs s) |>) /\
     ril_wf (s <| allocs := tail (allocs s) |>)) \/
  (p <> NULL /\ addRequestToList serial slotId request s = Ok (p, added s p (new_request s serial slotId request c)) /\
     ril_wf (added s p (new_request s serial slotId request c)) /\ requests s !! p = None).
Proof.
  intros Hwf Hs Hc p. unfold addRequestToList. rewrite !(bindM_ok _ _ _ _ _ (calloc_ok s)). fold p.
  destruct (Z.eqb_spec p NULL) as [Hz|Hz]; [left|right]; (split; [done|]).
  - split; [done|by apply tail_wf].
  - split; [|split; [by eapply added_wf|]].
    + rewrite (bindM_ok _ _ _ _ _ (eq_refl : getM _ = Ok (_, _))). unfold get_command, of_option.
      change (command_index (s <| allocs := tail (allocs s) |>) request) with (command_index s request). rewrite Hc. done.
    + destruct Hwf as (_ & _ & _ & Ha). destruct (alloc_hd s Ha Hz) as (rest & Hrest & _).
      destruct (aw_fresh _ Ha p) as (F1 & _); [unfold p; rewrite Hrest; cbn; left|done|done].
Qed.

(** * Completing *)

Definition dequeued s p (r : RequestInfo) : Ril :=
  s <| s_pendingRequests := alter (unlink p) (hook (socket_id r)) (s_pendingRequests s) |>.
Definition acked s p : Ril := s <| requests := alter (fun r => r <| wasAckSent := 1 |>) p (requests s) |>.

Lemma check_spec s p r isAck : req_wf s -> requests s !! p = Some r ->
  checkAndDequeueRequestInfoIfAck p isAck s =
    Ok (true, if isAck then (if wasAckSent r =? 1 then s else acked s p) else dequeued s p r).
Proof.
  intros Hw Hr. destruct (rw_live _ Hw p r Hr) as [Hz (l & c & Hl & Hin & _)].
  unfold checkAndDequeueRequestInfoIfAck, get_request. rewrite (proj2 (Z.eqb_neq _ _)) by done. run. rewrite Hr. cbn.
  rewrite Hl. cbn. rewrite bool_decide_eq_true_2 by done. destruct isAck; [destruct (wasAckSent r =? 1)|]; done.
Qed.

(** The requests without [p]. *)
Lemma completed_wf s s' p r : req_wf s -> requests s !! p = Some r -> requests s' = delete p (requests s) ->
  s_pendingRequests s' = alter (unlink p) (hook (socket_id r)) (s_pendingRequests s) ->
  length (imei s') = SIM_COUNT -> length (imeisv s') = SIM_COUNT -> req_wf s'.
Proof.
  intros [W1 W2 W3 W4 W5] Hr Hreq Hpend Hi1 Hi2.
  assert (forall i l, s_pendingRequests s' !! i = Some l ->
    exists l0, s_pendingRequests s !! i = Some l0 /\ NoDup l /\ forall q, q ∈ l <-> q ∈ l0 /\ q <> p) as Hlist.
  { intros i l Hl. rewrite Hpend in Hl. destruct (decide (hook (socket_id r) = i)) as [<-|Hne].
    - rewrite list_lookup_alter_eq in Hl. destruct (s_pendingRequests s !! hook (socket_id r)) as [l0|] eqn:Hl0; [|done].
      cbn in Hl. injection Hl as <-. exists l0. pose proof (W4 _ _ Hl0). split; [done|]. split; [by apply NoDup_unlink|].
      intros q. by apply elem_unlink.
    - rewrite list_lookup_alter_ne in Hl by done. exists l. pose proof (W4 _ _ Hl). split; [done|]. split; [done|].
      intros q. split; [|tauto]. intros Hq. split; [done|]. intros ->. destruct (W3 _ _ _ Hl Hq) as (r' & Hr' & Hh). congruence. }
  split; [by rewrite Hpend, length_alter| | |by intros i l (l0 & _ & ? & _)%Hlist|done].
  - intros q r' Hq. rewrite Hreq in Hq. apply lookup_delete_Some in Hq as [Hpq Hq].
    destruct (W2 q r' Hq) as [Hz (l & c & Hl & Hin & Hrest)]. split; [done|].
    destruct (decide (hook (socket_id r) = hook (socket_id r'))) as [Hh|Hh].
    + exists (unlink p l), c. rewrite Hpend, Hh, list_lookup_alter_eq, Hl. split; [done|]. split; [|done].
      apply elem_unlink; [by eapply W4|done].
    + exists l, c. rewrite Hpend, list_lookup_alter_ne by done. done.
  - intros i l q Hl Hq. destruct (Hlist i l Hl) as (l0 & Hl0 & _ & Hel). destruct (proj1 (Hel q) Hq) as [Hq' Hqp].
    destruct (W3 i l0 q Hl0 Hq') as (r' & Hr' & Hh). exists r'. rewrite Hreq, lookup_delete_ne by done. done.
Qed.

Lemma acked_wf s p : req_wf s -> req_wf (acked s p).
Proof.
  intros [W1 W2 W3 W4 W5]. split; cbn [s_pendingRequests requests imei imeisv acked set eta]; try done.
  - intros q r Hq. destruct (decide (p = q)) as [->|Hne].
    + rewrite lookup_alter_eq in Hq. destruct (requests s !! q) as [r0|] eqn:Hr0; [|done]. cbn in Hq. injection Hq as <-.
      destruct (W2 q r0 Hr0) as [Hz (l & c & H)]. split; [done|]. by exists l, c.
    + rewrite lookup_alter_ne in Hq by done. destruct (W2 q r Hq) as [Hz (l & c & H)]. split; [done|]. by exists l, c.
  - intros i l q Hl Hq. destruct (W3 i l q Hl Hq) as (r & Hr & Hh). destruct (decide (p = q)) as [->|Hne].
    + rewrite lookup_alter_eq, Hr. by eexists.
    + rewrite lookup_alter_ne by done. by exists r.
Qed.

Lemma ack_spec s p r : ril_wf s -> requests s !! p = Some r ->
  exists s', RIL_onRequestAck p s = Ok (tt, s') /\ ril_wf s' /\ out s' = out s ++ [AckRequest (socket_id r) (token r)] /\
    s_pendingRequests s' = s_pendingRequests s /\ requests s' = alter (fun r => r <| wasAckSent := 1 |>) p (requests s) /\
    version s' = version s /\ mtk_command_start s' = mtk_command_start s /\ mtk_unsol_start s' = mtk_unsol_start s /\
    lock_mono s s'.
Proof.
  intros [Hw Hl] Hr. destruct (rw_live _ Hw p r Hr) as [Hz (l & c & _ & _ & _ & Hcan & _)].
  unfold RIL_onRequestAck. rewrite (bindM_ok _ _ _ _ _ (check_spec s p r true Hw Hr)). cbv match.
  destruct (Z.eqb_spec (wasAckSent r) 1) as [Hack|Hack].
  - unfold get_request. rewrite (bindM_ok _ _ s r s) by (run; by rewrite Hr). rewrite Hcan. eexists. split; [reflexivity|].
    split; [|split; [done|split; [done|split; [|do 3 (split; [done|]); by apply lock_mono_same]]]].
    + split; [by apply (same_requests_wf s)|by apply (lock_wf_same s)].
    + cbn. rewrite alter_id; [done|]. intros r' Hr'. rewrite Hr in Hr'. injection Hr' as <-. destruct r; cbn in *. by rewrite Hack.
  - unfold get_request. rewrite (bindM_ok _ _ _ (r <| wasAckSent := 1 |>) (acked s p)) by (run; by rewrite lookup_alter_eq, Hr).
    change (cancelled (r <| wasAckSent := 1 |>)) with (cancelled r). rewrite Hcan. eexists. split; [reflexivity|].
    split; [|do 6 (split; [done|]); by apply lock_mono_same]. split; [by apply (same_requests_wf (acked s p)); [|apply acked_wf]|].
    apply (lock_wf_same s); try done. intros q Hq. cbn. destruct (decide (p = q)) as [->|]; [congruence|]. by rewrite lookup_alter_ne.
Qed.

(** The answer to a request: none to a local one nor for an entry without a function. *)
Definition answer s (r : RequestInfo) (c : CommandInfo) (e response : Z) : list ril_out :=
  if (0 <? local_ r) || negb (has_response c) then []
  else
    let identity := requestNumber c =? RIL_REQUEST_DEVICE_IDENTITY in
    [Respond (pCI r) (socket_id r)
       (if (13 <=? version s) && (wasAckSent r =? 1) then RESPONSE_SOLICITED_ACK_EXP else RESPONSE_SOLICITED)
       (token r) (if identity then 0 else e) (if identity then Identity (Z.to_nat (socket_id r)) else Pointer response)].

(** The request's memory is freed. *)
Definition freed s p : Ril := s <| requests := delete p (requests s) |>.

(** What the completion of [p] leaves, when it has got to state [s2] before the memory is freed. *)
Definition answered s p (r : RequestInfo) s2 : Prop :=
  lock_wf s2 /\ requests s2 = requests s /\
  s_pendingRequests s2 = alter (unlink p) (hook (socket_id r)) (s_pendingRequests s) /\
  length (imei s2) = SIM_COUNT /\ length (imeisv s2) = SIM_COUNT /\
  version s2 = version s /\ mtk_command_start s2 = mtk_command_start s /\ mtk_unsol_start s2 = mtk_unsol_start s /\
  lock_mono s s2.

Lemma freed_wf s p r s2 : req_wf s -> requests s !! p = Some r -> answered s p r s2 -> ril_wf (freed s2 p).
Proof.
  intros Hw Hr (Hl & Hreq & Hpend & Hi1 & Hi2 & _). split.
  - eapply completed_wf; [exact Hw|exact Hr| |exact Hpend|done|done]. cbn. by rewrite Hreq.
  - apply (lock_wf_same s2); try done. intros q Hq. cbn. apply lookup_delete_None. by right.
Qed.

Lemma elem_Some {A} (l : list A) z : 0 <= z < Z.of_nat (length l) -> is_Some (elem l z).
Proof.
  intros Hz. unfold elem. rewrite (proj2 (Z.ltb_ge _ _)) by lia. apply lookup_lt_is_Some_2. lia.
Qed.

Lemma dequeued_answered s p r : ril_wf s -> requests s !! p = Some r -> answered s p r (dequeued s p r).
Proof.
  intros [Hw Hl] Hr. destruct (rw_identity _ Hw). split; [by apply (lock_wf_same s)|]. do 7 (split; [done|]).
  by apply lock_mono_same.
Qed.

Lemma lock_step_answered s p r s1 s2 : answered s p r s1 -> lock_step s1 s2 -> answered s p r s2.
Proof.
  intros (Hl & Hreq & Hpend & Hi1 & Hi2 & Hv & Hm & Hu & M) (Hl2 & (E1 & E2 & E3 & E4) & E5 & E6 & E7 & _ & M2).
  split; [done|]. rewrite E1, E2, E3, E4, E5, E6, E7. do 7 (split; [done|]). by eapply lock_mono_trans.
Qed.

Lemma emit_answered s p r s1 o : answered s p r s1 -> answered s p r (s1 <| out := out s1 ++ o |>).
Proof.
  intros (Hl & Hreq & Hpend & Hi1 & Hi2 & Hv & Hm & Hu & M). split; [by apply (lock_wf_same s1)|].
  do 7 (split; [done|]). eapply lock_mono_trans; [exact Hv|exact M|by apply lock_mono_same].
Qed.

(** Taking the wake lock before an answer that wants an acknowledgement, or not. *)
Lemma ack_lock_spec s p r s1 (ack : bool) : answered s p r s1 -> out s1 = out s ->
  exists s2 o, (if ack then grabPartialWakeLock else retM tt) s1 = Ok (tt, s2) /\ answered s p r s2 /\
    out s2 = out s ++ o /\ (o = [] \/ o = [WakeUpLoop]).
Proof.
  intros Hans Hout. destruct ack.
  - destruct (grab_spec s1 (proj1 Hans)) as (s2 & R & L & _). pose proof L as (_ & _ & _ & _ & _ & (o & Ho & Hcase) & _).
    exists s2, o. split; [done|]. split; [by eapply lock_step_answered|]. by rewrite Ho, Hout.
  - exists s1, []. rewrite app_nil_r. split; [done|]. split; [done|]. split; [done|by left].
Qed.

Lemma complete_spec s p r c e response : ril_wf s -> requests s !! p = Some r -> elem s_commands (pCI r) = Some c ->
  exists s2 o, RIL_onRequestComplete false p e response s = Ok (tt, freed s2 p) /\ answered s p r s2 /\
    out s2 = out s ++ o ++ answer s r c e response /\ (o = [] \/ o = [WakeUpLoop]).
Proof.
  intros Hwf Hr Hc. pose proof Hwf as [Hw Hl]. destruct (rw_live _ Hw p r Hr) as [Hz (l & c0 & _ & _ & _ & Hcan & Hrange)].
  pose proof (dequeued_answered s p r Hwf Hr) as Hdq. destruct (rw_identity _ Hw) as [Hi1 Hi2].
  set (s1 := dequeued s p r) in *.
  assert (is_Some (elem (imei s1) (socket_id r))) as [x1 Hx1] by (apply elem_Some; unfold s1; cbn; rewrite Hi1; exact Hrange).
  assert (is_Some (elem (imeisv s1) (socket_id r))) as [x2 Hx2] by (apply elem_Some; unfold s1; cbn; rewrite Hi2; exact Hrange).
  unfold RIL_onRequestComplete. rewrite (bindM_ok _ _ _ _ _ (check_spec s p r false Hw Hr)). fold s1. cbn [negb].
  unfold get_request. rewrite (bindM_ok _ _ s1 r s1) by (run; by rewrite Hr).
  unfold get_command. rewrite (bindM_ok _ _ s1 c s1) by (rewrite Hc; done).
  rewrite (bindM_ok _ _ _ _ _ (eq_refl : getM _ = Ok (_, _))).
  assert (forall (body : ST Ril unit) s2, body s1 = Ok (tt, s2) ->
    (body;; (if false && queued_channel (proxyId c) then
       let slot := if socket_id r =? 0 then 0%nat else 1%nat in set_busy (proxyId c) slot false;; my_dequeue slot (proxyId c)
     else retM tt);; modM (fun s => freed s p)) s1 = Ok (tt, freed s2 p)) as Hfin.
  { intros body s2 Hb. by rewrite (bindM_ok _ _ _ _ _ Hb). }
  unfold answer. destruct (0 <? local_ r) eqn:Hloc; cbn [orb].
  - (* a local request *)
    exists (if requestNumber c =? RIL_REQUEST_GET_IMEI then s1 <| imei := <[Z.to_nat (socket_id r) := response]> (imei s1) |>
            else if requestNumber c =? RIL_REQUEST_GET_IMEISV then s1 <| imeisv := <[Z.to_nat (socket_id r) := response]> (imeisv s1) |>
            else s1), [].
    split; [apply Hfin|split; [|split; [|by left]]].
    + destruct (requestNumber c =? RIL_REQUEST_GET_IMEI); [|destruct (requestNumber c =? RIL_REQUEST_GET_IMEISV)]; [| |done]; by rewrite (bindM_ok _ _ s1 _ s1) by (rewrite ?Hx1, ?Hx2; reflexivity).
    + destruct Hdq as (Hl1 & Hq1 & Hq2 & Hq3 & Hq4 & Hq5). destruct (requestNumber c =? RIL_REQUEST_GET_IMEI); [|destruct (requestNumber c =? RIL_REQUEST_GET_IMEISV)]; [| |done].
      all: split; [by apply (lock_wf_same s1)|]; cbn; rewrite ?length_insert; done.
    + cbn [app]. rewrite app_nil_r. destruct (requestNumber c =? RIL_REQUEST_GET_IMEI); [|destruct (requestNumber c =? RIL_REQUEST_GET_IMEISV)]; done.
  - (* the framework's *)
    set (ack := (13 <=? version s) && (wasAckSent r =? 1)). set (identity := requestNumber c =? RIL_REQUEST_DEVICE_IDENTITY).
    destruct (ack_lock_spec s p r s1 ack Hdq eq_refl) as (s2 & o & R & Hans & Ho & Hcase).
    set (resp := Respond (pCI r) (socket_id r) (if ack then RESPONSE_SOLICITED_ACK_EXP else RESPONSE_SOLICITED)
                   (token r) (if identity then 0 else e) (if identity then Identity (Z.to_nat (socket_id r)) else Pointer response)).
    exists (if has_response c then s2 <| out := out s2 ++ [resp] |> else s2), o. split; [apply Hfin|split; [|split; [|done]]].
    + rewrite (bindM_ok _ _ s1 tt s1).
      2: { destruct identity; [|done]. rewrite (bindM_ok _ _ s1 x1 s1) by (rewrite Hx1; reflexivity). done. }
      rewrite Hcan. cbn [Z.eqb]. change ((13 <=? version s1) && (wasAckSent r =? 1)) with ack.
      rewrite (bindM_ok _ _ _ _ _ R). by destruct (has_response c).
    + destruct (has_response c); [by apply emit_answered|done].
    + destruct (has_response c); cbn [negb]; [|by rewrite app_nil_r]. change (out s2 ++ [resp] = out s ++ o ++ [resp]).
      by rewrite Ho, <- app_assoc.
Qed.

(** * Unsolicited responses *)

#[export] Instance payload_eq_dec : EqDecision payload.
Proof. solve_decision. Defined.
#[export] Instance ril_out_eq_dec : EqDecision ril_out.
Proof. solve_decision. Defined.

(** The trace without the wake-ups of the loop. *)
Definition visible (l : list ril_out) : list ril_out := filter (fun o => o <> WakeUpLoop) l.

Lemma visible_app l k : visible (l ++ k) = visible l ++ visible k.
Proof. apply list.filter_app. Qed.

Lemma visible_wakeups o : o = [] \/ o = [WakeUpLoop] -> visible o = [].
Proof. by intros [->| ->]. Qed.

(** An operation that does not touch the requests, and shows [v]. *)
Definition shows s s' (v : list ril_out) : Prop :=
  lock_wf s' /\ same_requests s s' /\ version s' = version s /\ mtk_command_start s' = mtk_command_start s /\
  mtk_unsol_start s' = mtk_unsol_start s /\ visible (out s') = visible (out s) ++ v /\ lock_mono s s'.

Lemma lock_step_shows s s' : lock_step s s' -> shows s s' [].
Proof.
  intros (H1 & H2 & H3 & H4 & H5 & (o & Ho & Hc) & M). do 5 (split; [done|]). split; [|done].
  by rewrite Ho, visible_app, (visible_wakeups o Hc).
Qed.

Lemma shows_trans s1 s2 s3 v w : shows s1 s2 v -> shows s2 s3 w -> shows s1 s3 (v ++ w).
Proof.
  intros (_ & (A1 & A2 & A3 & A4) & A5 & A6 & A7 & A8 & A9) (B0 & (B1 & B2 & B3 & B4) & B5 & B6 & B7 & B8 & B9).
  split; [done|]. split; [repeat split; congruence|]. split; [congruence|]. split; [congruence|]. split; [congruence|].
  split; [by rewrite B8, A8, app_assoc|by eapply lock_mono_trans].
Qed.

Lemma shows_refl s : lock_wf s -> shows s s [].
Proof. intros H. by apply lock_step_shows, lock_step_refl. Qed.

Lemma emit_shows s o : lock_wf s -> shows s (s <| out := out s ++ [o] |>) (visible [o]).
Proof.
  intros H. split; [by apply (lock_wf_same s)|]. do 4 (split; [done|]). split; [apply visible_app|by apply lock_mono_same].
Qed.

Lemma tail_shows s x : lock_wf s -> shows s (s <| s_lastNITZTimeData := x |> <| allocs := tail (allocs s) |>) [].
Proof.
  intros ([W1 W2 W3 W4] & He & Ha). apply lock_step_shows, lock_step_quiet; try done; [|by apply lock_mono_same].
  split; [done|]. split; [done|]. by eapply alloc_wf_tail.
Qed.

(** What an unsolicited response shows: its indication, if its entry has a function. *)
Definition indication s (code : Z) (u : UnsolResponseInfo) (socket : Z) (data : list Z) : list ril_out :=
  if has_indication u then
    [Indicate (unsol_index s code) socket
       (if (13 <=? version s) && wake_partial u then RESPONSE_UNSOLICITED_ACK_EXP else RESPONSE_UNSOLICITED) data]
  else [].

(** The timer of versions before 13. *)
Lemma old_timer s : lock_wf s ->
  exists b s', (let* p_info := internalRequestTimedCallback WAKE_TIMEOUT_CALLBACK NULL (Some TIMEVAL_WAKE_TIMEOUT) (-1) in
    if p_info =? NULL then retM true
    else cancel_last;; modM (fun s => s <| s_last_wake_timeout_info := p_info |>);; retM false) s = Ok (b, s') /\ shows s s' [].
Proof.
  intros Hl. assert (with_lock s (wake_lock s) = s) as Hs by (by destruct s).
  destruct (set_release_timer s (wake_lock s) Hl) as [(Hz & R & L)|(Hz & m & o & R & Hf & HL)]; rewrite Hs in R;
    rewrite (bindM_ok _ _ _ _ _ R).
  - rewrite Z.eqb_refl. exists true. eexists. split; [reflexivity|].
    assert (with_lock (s <| allocs := tail (allocs s) |>) (wake_lock s) = s <| allocs := tail (allocs s) |>) as -> by (by destruct s).
    by apply lock_step_shows.
  - rewrite (proj2 (Z.eqb_neq _ _)) by done. exists false, (with_last s (hd NULL (allocs s)) m o (s_wakelock_count s) (wake_lock s)).
    split; [|by apply lock_step_shows, HL].
    pose proof (replace_last s (hd NULL (allocs s)) m o (s_wakelock_count s) (wake_lock s) (proj1 Hl) Hf) as Hrep.
    apply bindM_inv in Hrep as (u & y & Hy1 & Hy2). replace (with_lock _ _) with
      ((timed s (hd NULL (allocs s)) (mkInfo WAKE_TIMEOUT_CALLBACK NULL (u32 (-1))) m o)
         <| s_wakelock_count := s_wakelock_count s |> <| wake_lock := wake_lock s |>).
    + by rewrite (bindM_ok _ _ _ _ _ Hy1), (bindM_ok _ _ _ _ _ Hy2).
    + destruct s; cbv -[i32 tail hd app timeradd]; reflexivity.
Qed.

Lemma unsol_rejected s code data socket ret :
  unsol_index s code < 0 \/ RIL_UNSOL_VENDOR_BASE + 80 < code -> send_unsolResponse code data socket ret s = Ok (tt, s).
Proof.
  intros H. unfold send_unsolResponse. rewrite (bindM_ok _ _ _ _ _ (eq_refl : getM _ = Ok (_, _))). cbv zeta.
  destruct (Z.ltb_spec (unsol_index s code) 0); [done|]. by rewrite (proj2 (Z.ltb_lt _ _)) by lia.
Qed.

Lemma unsol_spec s code data socket ret u : lock_wf s -> code <= RIL_UNSOL_VENDOR_BASE + 80 ->
  elem s_unsolResponses (unsol_index s code) = Some u ->
  exists s', send_unsolResponse code data socket ret s = Ok (tt, s') /\ shows s s' (indication s code u socket data).
Proof.
  intros Hl Hcode Hu. unfold send_unsolResponse. rewrite (bindM_ok _ _ _ _ _ (eq_refl : getM _ = Ok (_, _))). cbv zeta.
  assert (0 <= unsol_index s code) as Hpos.
  { unfold elem in Hu. destruct (Z.ltb_spec (unsol_index s code) 0); [done|lia]. }
  rewrite (proj2 (Z.ltb_ge (unsol_index s code) 0)), (proj2 (Z.ltb_ge _ code)) by lia.
  rewrite (bindM_ok _ _ s u s) by (rewrite Hu; reflexivity).
  (* the wake lock *)
  assert (exists s1, (if wake_partial u then grabPartialWakeLock else retM tt) s = Ok (tt, s1) /\ shows s s1 []) as (s1 & R1 & S1).
  { destruct (wake_partial u); [|exists s; split; [done|by apply shows_refl]].
    destruct (grab_spec s Hl) as (s1 & R & L & _). exists s1. split; [done|by apply lock_step_shows]. }
  rewrite (bindM_ok _ _ _ _ _ R1).
  (* the indication *)
  set (ind := Indicate _ _ _ _).
  assert (exists s2, (if has_indication u then emit ind else retM tt) s1 = Ok (tt, s2) /\
    shows s s2 (indication s code u socket data)) as (s2 & R2 & S2).
  { unfold indication. destruct (has_indication u).
    - eexists. split; [reflexivity|]. apply (shows_trans s s1 _ [] [ind]); [done|]. apply emit_shows. apply S1.
    - by exists s1. }
  rewrite (bindM_ok _ _ _ _ _ R2).
  (* the timer of old versions *)
  match goal with |- exists _, bindM ?m _ _ = _ /\ _ =>
    assert (exists b s3, m s2 = Ok (b, s3) /\ shows s s3 (indication s code u socket data)) as (b & s3 & R3 & S3) end.
  { destruct ((version s <? 13) && wake_partial u).
    - destruct (old_timer s2 (proj1 S2)) as (b & s3 & R3 & S3). exists b, s3. split; [done|].
      rewrite <- (app_nil_r (indication _ _ _ _ _)). by eapply shows_trans.
    - by exists false, s2. }
  rewrite (bindM_ok _ _ _ _ _ R3).
  (* the time kept for later *)
  match goal with |- exists _, bindM ?m _ _ = _ /\ _ =>
    assert (exists b4 s4, m s3 = Ok (b4, s4) /\ shows s s4 (indication s code u socket data)) as (b4 & s4 & R4 & S4) end.
  { match goal with |- context [if ?c then _ else retM b] => destruct c end; [|by exists b, s3]. unfold calloc. run.
    destruct (hd NULL (allocs s3) =? NULL); eexists _, _; (split; [reflexivity|]).
    all: rewrite <- (app_nil_r (indication _ _ _ _ _)); eapply shows_trans; [exact S3|].
    - by apply (tail_shows s3 None), S3.
    - destruct (tail_shows s3 (Some data) (proj1 S3)) as (T1 & T2). split; [|exact T2]. by eapply lock_wf_same. }
  rewrite (bindM_ok _ _ _ _ _ R4). destruct (b4 && wake_partial u); [|by exists s4].
  destruct (release_spec s4 (proj1 S4)) as (s5 & R5 & L5 & _). exists s5. split; [done|].
  rewrite <- (app_nil_r (indication _ _ _ _ _)). eapply shows_trans; [exact S4|by apply lock_step_shows].
Qed.
