(* ===== verification/RilRun.v ===== *)
(** Runs of the radio interface layer's library as the board builds it (no queues on the
    channels, no unsolicited responses kept for later): requests of the framework, the
    vendor's acknowledgements, answers and unsolicited responses, the framework's
    acknowledgements, and the callbacks that the proxy threads run. *)

From stdpp Require Import base list gmap numbers.
From Stdlib Require Import ZArith Lia.
From S2P Require Import Prelude RilEvent RilLists RilEventProps RilClient RilLoop RilTables Ril RilCore RilRequests.

Local Open Scope Z_scope.
Local Open Scope st_scope.
Local Open Scope rec_scope.

Implicit Types (s : Ril) (p : Z).

(** The functions by which the radio service hands over requests: without data, with numbers, with
    bytes that are not looked at. *)
Inductive dispatcher := DispatchVoid | DispatchInts | DispatchRaw.

Definition dispatch (d : dispatcher) : Z -> Z -> Z -> ST Ril bool :=
  match d with DispatchVoid => dispatchVoid false | DispatchInts => dispatchInts false | DispatchRaw => dispatchRaw false end.

(** What others make the library do. *)
Inductive ract :=
  | RRequest (d : dispatcher) (serial slotId request : Z)
  | RAck (p : Z)
  | RComplete (p e response : Z)
  | RUnsol (code : Z) (data : list Z) (socket ret : Z) (connected : bool)
  | RAcknowledged
  | RProxyRuns (p : Z)
  | RTick (t : timeval).

Definition run_ract (a : ract) : ST Ril unit :=
  match a with
  | RRequest d serial slotId request => dispatch d serial slotId request;; retM tt
  | RAck p => RIL_onRequestAck p
  | RComplete p e response => RIL_onRequestComplete false p e response
  | RUnsol code data socket ret connected => RIL_onUnsolicitedResponseSocket false code data socket ret connected
  | RAcknowledged => releaseWakeLock
  | RProxyRuns p => let* i := get_info p in run_callback (p_callback i) (userParam i)
  | RTick t => modM (fun s => s <| now_ := t |>)
  end.

(** Requests and unsolicited responses of the tables, tokens of requests that wait. The entry of a
    request with numbers has a function, since it is called when there is no memory for them. *)
Definition ract_ok s (a : ract) : Prop :=
  match a with
  | RRequest d _ slotId request => 0 <= slotId < Z.of_nat SIM_COUNT /\
      exists c, elem s_commands (command_index s request) = Some c /\ (d = DispatchInts -> has_response c = true)
  | RAck p | RComplete p _ _ => is_Some (requests s !! p)
  | RUnsol code _ _ _ _ => code ∉ unsol_ignored -> code <= RIL_UNSOL_VENDOR_BASE + 80 -> unsol_index s code < 0 \/ is_Some (elem s_unsolResponses (unsol_index s code))
  | RProxyRuns p => is_Some (infos s !! p)
  | _ => True
  end.

(** There is no memory for the numbers, when there is for the request. *)
Definition no_array (d : dispatcher) s : bool :=
  match d with DispatchInts => hd NULL (tail (allocs s)) =? NULL | _ => false end.

(** What each of them shows. *)
Definition expected s (a : ract) : list ril_out :=
  match a with
  | RRequest d serial slotId request =>
      if hd NULL (allocs s) =? NULL then []
      else if no_array d s then [Respond (command_index s request) slotId RESPONSE_SOLICITED serial RIL_E_NO_MEMORY (Pointer NULL)]
      else [OnRequest request (hd NULL (allocs s)) slotId]
  | RAck p => match requests s !! p with Some r => [AckRequest (socket_id r) (token r)] | None => [] end
  | RComplete p e response =>
      match requests s !! p with
      | Some r => match elem s_commands (pCI r) with Some c => answer s r c e response | None => [] end
      | None => []
      end
  | RUnsol code data socket _ _ =>
      if bool_decide (code ∈ unsol_ignored) || (RIL_UNSOL_VENDOR_BASE + 80 <? code) then []
      else match elem s_unsolResponses (unsol_index s code) with Some u => indication s code u socket data | None => [] end
  | RAcknowledged | RTick _ => []
  | RProxyRuns p =>
      match infos s !! p with
      | Some i => if p_callback i =? WAKE_TIMEOUT_CALLBACK then [] else [RunCallback (p_callback i) (userParam i)]
      | None => []
      end
  end.

(** The requests that wait after it. *)
Definition requests_after s (a : ract) : gmap Z RequestInfo :=
  match a with
  | RRequest _ serial slotId request =>
      match elem s_commands (command_index s request) with
      | Some c => if hd NULL (allocs s) =? NULL then requests s
                  else <[hd NULL (allocs s) := new_request s serial slotId request c]> (requests s)
      | None => requests s
      end
  | RAck p => alter (fun r => r <| wasAckSent := 1 |>) p (requests s)
  | RComplete p _ _ => delete p (requests s)
  | _ => requests s
  end.

(** One call: it returns, keeps the invariant, shows what it has to. *)
Definition does s (a : ract) s' : Prop :=
  run_ract a s = Ok (tt, s') /\ ril_wf s' /\ visible (out s') = visible (out s) ++ expected s a /\
  requests s' = requests_after s a /\ version s' = version s /\
  mtk_command_start s' = mtk_command_start s /\ mtk_unsol_start s' = mtk_unsol_start s /\ lock_mono s s'.

Lemma shows_does s s' a v : ril_wf s -> run_ract a s = Ok (tt, s') -> shows s s' v -> expected s a = v ->
  requests_after s a = requests s -> does s a s'.
Proof.
  intros [Hw _] R (H1 & H2 & H3 & H4 & H5 & H6 & H7) Hv Hr. pose proof H2 as (E1 & _).
  split; [done|]. split; [split; [by apply (same_requests_wf s)|done]|]. split; [by rewrite H6, Hv|]. split; [by rewrite E1, Hr|done].
Qed.

Lemma get_request_run p r s : requests s !! p = Some r -> get_request p s = Ok (r, s).
Proof. intros H. unfold get_request. run. by rewrite H. Qed.

Lemma get_command_run i c s : elem s_commands i = Some c -> get_command i s = Ok (c, s).
Proof. intros H. unfold get_command. by rewrite H. Qed.

(** A request on the list is handed over at once: the channels have no queues. *)
Lemma enqueue_now request ignore p r c s : requests s !! p = Some r -> elem s_commands (pCI r) = Some c ->
  my_enqueue false request ignore p s = Ok (tt, s <| out := out s ++ [OnRequest request p (socket_id r)] |>).
Proof.
  intros Hr Hc. unfold my_enqueue. by rewrite (bindM_ok _ _ _ _ _ (get_request_run p r s Hr)), (bindM_ok _ _ _ _ _ (get_command_run _ c s Hc)).
Qed.

(** The state in which the request is on the list and its numbers are allocated. *)
Definition listed (d : dispatcher) s p (r : RequestInfo) : Ril :=
  match d with DispatchInts => (added s p r) <| allocs := tail (tail (allocs s)) |> | _ => added s p r end.

(** What a dispatcher does with a request that is on the list. *)
Lemma dispatched d serial slotId request p r c s : p <> NULL -> addRequestToList serial slotId request s = Ok (p, added s p r) ->
  requests (added s p r) !! p = Some r -> elem s_commands (pCI r) = Some c -> (d = DispatchInts -> has_response c = true) ->
  let s1 := listed d s p r in
  dispatch d serial slotId request s = Ok (negb (no_array d s),
    s1 <| out := out s1 ++ [if no_array d s then Respond (pCI r) (socket_id r) RESPONSE_SOLICITED (token r) RIL_E_NO_MEMORY (Pointer NULL)
                            else OnRequest request p (socket_id r)] |>).
Proof.
  intros Hz R Hr Hc Hd. cbv zeta. destruct d; cbn [dispatch no_array listed]; unfold dispatchVoid, dispatchInts, dispatchRaw;
    rewrite (bindM_ok _ _ _ _ _ R), (proj2 (Z.eqb_neq p NULL)) by done.
  - by rewrite (bindM_ok _ _ _ _ _ (enqueue_now request false p r c _ Hr Hc)).
  - rewrite (bindM_ok _ _ _ _ _ (calloc_ok _)). change (allocs (added s p r)) with (tail (allocs s)). set (s1 := (added s p r) <| allocs := _ |>).
    assert (requests s1 !! p = Some r) as Hr1 by done. destruct (hd NULL (tail (allocs s)) =? NULL); cbn [negb].
    + unfold sendErrorResponse. unfold bindM at 1. rewrite (bindM_ok _ _ _ _ _ (get_request_run p r s1 Hr1)).
      rewrite (bindM_ok _ _ _ _ _ (get_command_run _ c s1 Hc)). by rewrite Hd.
    + rewrite (bindM_ok _ _ _ _ _ (get_request_run p r s1 Hr1)), (bindM_ok _ _ _ _ _ (get_command_run _ c s1 Hc)).
      by rewrite (bindM_ok _ _ _ _ _ (enqueue_now request _ p r c _ Hr1 Hc)).
  - by rewrite (bindM_ok _ _ _ _ _ (enqueue_now request true p r c _ Hr Hc)).
Qed.

Lemma does_request s d serial slotId request : ril_wf s -> ract_ok s (RRequest d serial slotId request) ->
  exists s', does s (RRequest d serial slotId request) s'.
Proof.
  intros Hwf (Hs & c & Hc & Hd). pose proof (addRequest_spec s serial slotId request c Hwf Hs Hc) as Hadd. cbv zeta in Hadd.
  set (r := new_request s serial slotId request c) in *. set (p := hd NULL (allocs s)) in *.
  unfold does, run_ract, expected, requests_after. rewrite Hc. fold p r. cbv zeta.
  destruct Hadd as [(Hz & R & W)|(Hz & R & W & Hf)].
  - rewrite Hz. cbn [Z.eqb]. rewrite app_nil_r. exists (s <| allocs := tail (allocs s) |>).
    split; [|do 6 (split; [done|]); by apply lock_mono_same].
    erewrite bindM_ok; [reflexivity|]. by destruct d; cbn [dispatch]; unfold dispatchVoid, dispatchInts, dispatchRaw; rewrite (bindM_ok _ _ _ _ _ R).
  - rewrite (proj2 (Z.eqb_neq p NULL)) by done. pose proof (dispatched d serial slotId request p r c s Hz R) as Hdis. cbv zeta in Hdis.
    set (s1 := listed d s p r) in *.
    assert (ril_wf s1 /\ out s1 = out s /\ requests s1 = <[p := r]> (requests s) /\ lock_mono s s1 /\
      (version s1, mtk_command_start s1, mtk_unsol_start s1) = (version s, mtk_command_start s, mtk_unsol_start s)) as (W1 & E1 & E2 & M & [= V1 V2 V3]).
    { unfold s1. destruct d; (split; [first [exact W|exact (tail_wf _ W)]|]); do 2 (split; [done|]); (split; [by apply lock_mono_same|done]). }
    eexists. split; [erewrite bindM_ok; [reflexivity|]; apply Hdis; [cbn; by rewrite lookup_insert_eq|exact Hc|done]|].
    split; [by apply emitted_wf|]. split; [|split; [exact E2|by split_and!]].
    cbn [out set]. rewrite visible_app. change (visible (out s1) ++ visible [_]) with (visible (out s1) ++ visible [if no_array d s
      then Respond (pCI r) (socket_id r) RESPONSE_SOLICITED (token r) RIL_E_NO_MEMORY (Pointer NULL) else OnRequest request p (socket_id r)]).
    rewrite E1. by destruct (no_array d s).
Qed.

(** The callback of a timer releases the lock only when it is the last one set. *)
Lemma callback_spec s p i : lock_wf s -> infos s !! p = Some i -> p_callback i = WAKE_TIMEOUT_CALLBACK ->
  exists s', run_callback (p_callback i) (userParam i) s = Ok (tt, s') /\ shows s s' [] /\
    infos s' = infos s /\ s_last_wake_timeout_info s' = s_last_wake_timeout_info s /\
    (13 <= version s -> if userParam i =? NULL then wake_lock s' = false /\ s_wakelock_count s' = 0 else s' = s).
Proof.
  intros Hl Hi Hc. unfold run_callback, wakeTimeoutCallback. rewrite Hc, Z.eqb_refl.
  rewrite (bindM_ok _ _ _ _ _ (eq_refl : getM _ = Ok (_, _))).
  destruct (userParam i =? NULL) eqn:Hu.
  2: { exists s. destruct (13 <=? version s); (split; [done|]); (split; [by apply shows_refl|done]). }
  destruct (Z.leb_spec 13 (version s)) as [Hv|Hv].
  - exists (s <| s_wakelock_count := 0 |> <| wake_lock := false |>). split; [done|]. split; [|done].
    exact (lock_step_shows _ _ (unheld_step _ _ 0 (lock_step_refl s Hl))).
  - unfold releaseWakeLock. rewrite (bindM_ok _ _ _ _ _ (eq_refl : getM _ = Ok (_, _))), (proj2 (Z.leb_gt 13 (version s))) by lia.
    exists (s <| s_wakelock_count := s_wakelock_count s |> <| wake_lock := false |>). split; [by destruct s|].
    split; [exact (lock_step_shows _ _ (unheld_step _ _ _ (lock_step_refl s Hl)))|]. split; [done|]. split; [done|lia].
Qed.

Lemma does_callback s p i : ril_wf s -> infos s !! p = Some i -> exists s', does s (RProxyRuns p) s'.
Proof.
  intros Hwf Hi. pose proof Hwf as [_ Hl].
  assert (forall s', run_callback (p_callback i) (userParam i) s = Ok (tt, s') -> run_ract (RProxyRuns p) s = Ok (tt, s')) as Hrun.
  { intros s' R. cbn [run_ract]. unfold get_info. by rewrite (bindM_ok _ _ s i s) by (run; by rewrite Hi). }
  destruct (Z.eqb_spec (p_callback i) WAKE_TIMEOUT_CALLBACK) as [Hc|Hc].
  - destruct (callback_spec s p i Hl Hi Hc) as (s' & R & S & _). exists s'.
    eapply shows_does; [done|by apply Hrun|exact S| |done]. cbn [expected]. by rewrite Hi, Hc, Z.eqb_refl.
  - exists (s <| out := out s ++ [RunCallback (p_callback i) (userParam i)] |>).
    eapply shows_does; [done| |by apply emit_shows| |done].
    + apply Hrun. unfold run_callback. by rewrite (proj2 (Z.eqb_neq _ _)).
    + cbn [expected]. by rewrite Hi, (proj2 (Z.eqb_neq _ _)).
Qed.

(** Once registered, the library passes on all codes but those it ignores. *)
Lemma unsol_call code data socket ret connected s : s_registerCalled s <> 0 ->
  RIL_onUnsolicitedResponseSocket false code data socket ret connected s =
    if bool_decide (code ∈ unsol_ignored) then Ok (tt, s) else send_unsolResponse code data socket ret s.
Proof.
  intros H. unfold RIL_onUnsolicitedResponseSocket. rewrite (bindM_ok _ _ _ _ _ (eq_refl : getM _ = Ok (_, _))), (proj2 (Z.eqb_neq _ _)) by done.
  by case_bool_decide.
Qed.

(** Every call that keeps to the tables and to the tokens that wait returns as expected. *)
Lemma does_any s a : ril_wf s -> s_registerCalled s <> 0 -> ract_ok s a -> exists s', does s a s'.
Proof.
  intros Hwf Hreg Hok. pose proof Hwf as [Hw Hl]. destruct a as [d serial slotId request|p|p e response|code data socket ret connected| |p|t].
  - by apply does_request.
  - destruct Hok as [r Hr]. destruct (ack_spec s p r Hwf Hr) as (s' & R & W & O & _ & Q & V1 & V2 & V3 & M). exists s'.
    unfold does, expected, requests_after. rewrite Hr. split; [done|]. split; [done|]. split; [by rewrite O, visible_app|]. do 4 (split; [done|]). done.
  - destruct Hok as [r Hr]. destruct (rw_live _ Hw p r Hr) as [_ (l & c & _ & _ & Hc & _)].
    destruct (complete_spec s p r c e response Hwf Hr Hc) as (s2 & o & R & A & O & Ho). exists (freed s2 p).
    unfold does, expected, requests_after. rewrite Hr, Hc. split; [done|]. split; [by eapply freed_wf|].
    destruct A as (_ & A1 & _ & _ & _ & A2). split; [|split; [cbn; by rewrite A1|exact A2]].
    change (visible (out s2) = visible (out s) ++ answer s r c e response).
    rewrite O, !visible_app, (visible_wakeups o Ho). cbn [app]. f_equal. unfold answer.
    destruct (_ || _); [done|]. cbn. done.
  - cbn [ract_ok] in Hok. assert (forall s' v, send_unsolResponse code data socket ret s = Ok (tt, s') -> code ∉ unsol_ignored -> shows s s' v ->
      expected s (RUnsol code data socket ret connected) = v -> exists s', does s (RUnsol code data socket ret connected) s') as Hdo.
    { intros s' v R Hig S Hv. exists s'. eapply shows_does; [done| |exact S|exact Hv|done]. cbn [run_ract].
      by rewrite unsol_call, bool_decide_false. }
    destruct (decide (code ∈ unsol_ignored)) as [Hig|Hig].
    { exists s. apply (shows_does s s _ []); [done| |by apply shows_refl| |done].
      - cbn [run_ract]. by rewrite unsol_call, bool_decide_true.
      - cbn [expected]. by rewrite bool_decide_true. }
    destruct (Z.lt_ge_cases (RIL_UNSOL_VENDOR_BASE + 80) code) as [Hc|Hc].
    { apply (Hdo s []); [by apply unsol_rejected; right|done|by apply shows_refl|]. cbn [expected].
      by rewrite bool_decide_false, (proj2 (Z.ltb_lt _ _)). }
    destruct (elem s_unsolResponses (unsol_index s code)) as [u|] eqn:Hu.
    + destruct (unsol_spec s code data socket ret u Hl Hc Hu) as (s' & R & S). apply (Hdo s' _ R Hig S).
      cbn [expected]. rewrite bool_decide_false, (proj2 (Z.ltb_ge _ _)) by (done || lia). by rewrite Hu.
    + destruct (Hok Hig Hc) as [Hneg|Hsome]; [|by destruct Hsome].
      apply (Hdo s []); [by apply unsol_rejected; left|done|by apply shows_refl|].
      cbn [expected]. rewrite bool_decide_false, (proj2 (Z.ltb_ge _ _)) by (done || lia). by rewrite Hu.
  - destruct (release_spec s Hl) as (s' & R & L & _). exists s'. by apply (shows_does s s' _ []); [|done|apply lock_step_shows|..].
  - destruct Hok as [i Hi]. by apply (does_callback s p i).
  - exists (s <| now_ := t |>). apply (shows_does s _ _ []); [done|done| |done|done].
    apply lock_step_shows, lock_step_quiet; try done; [by apply (lock_wf_same s)|by apply lock_mono_same].
Qed.

(** * Runs *)

(** No call changes that the library is registered. *)
Section Registered.


Local Ltac rkeep := repeat match goal with
  | |- keeps _ (bindM _ _) => apply keeps_bind; [|intro]
  | |- keeps _ (modM _) => apply keeps_mod; intro; repeat case_match; reflexivity
  | |- keeps _ (if ?b then _ else _) => destruct b
  | |- keeps _ (match ?x with _ => _ end) => destruct x
  | |- keeps _ (let _ := _ in _) => cbv zeta
  | |- keeps _ _ => solve [eauto with keep]
  end.

Lemma kept_mod (g : Ril -> Ril) : (forall s, s_registerCalled (g s) = s_registerCalled s) -> keeps s_registerCalled (modM g).
Proof. apply keeps_mod. Qed.

Lemma kept_emit o : keeps s_registerCalled (emit o).
Proof. by apply keeps_mod. Qed.

Lemma kept_on_loop {A} (m : ST EvState A) : keeps s_registerCalled (on_loop m).
Proof. intros s a s' H. unfold on_loop in H. by destruct (m (evs s)) as [[]| |]; simplify_eq. Qed.

Lemma kept_calloc : keeps s_registerCalled calloc.
Proof. unfold calloc. rkeep. Qed.
#[local] Hint Resolve kept_emit kept_on_loop kept_calloc : keep.

Lemma kept_timed callback p tv c : keeps s_registerCalled (internalRequestTimedCallback callback p tv c).
Proof. unfold internalRequestTimedCallback, addThreadPid, triggerEvLoop. rkeep. Qed.

Lemma kept_cancel : keeps s_registerCalled cancel_last.
Proof. unfold cancel_last, get_info. rkeep. Qed.
#[local] Hint Resolve kept_timed kept_cancel : keep.

Lemma kept_grab : keeps s_registerCalled grabPartialWakeLock.
Proof. unfold grabPartialWakeLock. rkeep. Qed.

Lemma kept_release : keeps s_registerCalled releaseWakeLock.
Proof. unfold releaseWakeLock. rkeep. Qed.

Lemma kept_request p : keeps s_registerCalled (get_request p).
Proof. unfold get_request. rkeep. Qed.

Lemma kept_command i : keeps s_registerCalled (get_command i).
Proof. unfold get_command. rkeep. Qed.
#[local] Hint Resolve kept_grab kept_release kept_request kept_command : keep.

Lemma kept_add serial slotId request : keeps s_registerCalled (addRequestToList serial slotId request).
Proof. unfold addRequestToList. rkeep. Qed.

Lemma kept_enqueue request ignore p : keeps s_registerCalled (my_enqueue false request ignore p).
Proof. unfold my_enqueue, set_busy, set_queue. rkeep. Qed.

Lemma kept_check p ack : keeps s_registerCalled (checkAndDequeueRequestInfoIfAck p ack).
Proof. unfold checkAndDequeueRequestInfoIfAck. rkeep. Qed.
#[local] Hint Resolve kept_add kept_enqueue kept_check : keep.

Lemma kept_ract a : keeps s_registerCalled (run_ract a).
Proof.
  destruct a; cbn [run_ract].
  - destruct d; cbn [dispatch]; unfold dispatchVoid, dispatchInts, dispatchRaw, sendErrorResponse; rkeep.
  - unfold RIL_onRequestAck. rkeep.
  - unfold RIL_onRequestComplete, my_dequeue, set_busy, set_queue. rkeep.
  - unfold RIL_onUnsolicitedResponseSocket, send_unsolResponse. cbn [negb]. rkeep.
  - rkeep.
  - unfold get_info, run_callback, wakeTimeoutCallback. rkeep.
  - rkeep.
Qed.
End Registered.

(** Memory that the allocator can still give: each address once, none of the loop's own. *)
Definition fresh_allocs (l : list Z) : Prop :=
  NoDup (filter (fun p => p <> NULL) l) /\ timer_list ∉ l /\ pending_list ∉ l.

Definition ran_after (a : ract) (ran : list Z) : list Z := match a with RProxyRuns p => p :: ran | _ => ran end.

(** The states of a run from registration on, with the callbacks that have been run. *)
Inductive reached : Ril -> list Z -> Prop :=
  | reached_init v l s :
      RIL_VERSION_MIN <= v -> fresh_allocs l -> RIL_register (Some v) (ril_start initial l) = Ok (tt, s) -> reached s []
  | reached_step s ran a s' :
      reached s ran -> ract_ok s a -> run_ract a s = Ok (tt, s') -> reached s' (ran_after a ran).

(** The state after registration. *)
Definition ready v l : Ril :=
  (ril_start initial l) <| version := v |> <| s_registerCalled := 1 |> <| mtk_unsol_start := 48 |>.

Lemma tables_checked : check_commands s_commands 0 0 = Some 0 /\ check_unsol s_unsolResponses 0 0 = Some 48.
Proof. split; vm_compute; reflexivity. Qed.

Lemma register_ready v l : RIL_VERSION_MIN <= v -> RIL_register (Some v) (ril_start initial l) = Ok (tt, ready v l).
Proof.
  intros Hv. unfold RIL_register. rewrite (bindM_ok _ _ _ _ _ (eq_refl : getM _ = Ok (_, _))), (proj2 (Z.ltb_ge _ _)) by lia.
  change (0 <? s_registerCalled (ril_start initial l)) with false. cbv match.
  rewrite (bindM_ok _ _ _ _ _ (eq_refl : modM _ _ = Ok (tt, _))).
  change (mtk_command_start (ril_start initial l)) with 0. change (mtk_unsol_start (ril_start initial l)) with 0.
  destruct tables_checked as [-> ->]. reflexivity.
Qed.

Lemma initial_wf : ev_wf initial.
Proof. exact (proj1 (loop_inv_init initial init_initial)). Qed.

Lemma ready_wf v l : fresh_allocs l -> ril_wf (ready v l).
Proof.
  intros (Hn & Ht & Hp). split; [|split; [|split; [exact initial_wf|]]].
  - split; try done.
    + intros i q p Hi Hq. destruct i as [|[|i]]; cbn in Hi; simplify_eq; by apply not_elem_of_nil in Hq.
    + intros i q Hi. destruct i as [|[|i]]; cbn in Hi; simplify_eq; constructor.
  - by split.
  - split; [|exact Hn]. intros p Hpl Hz. cbn in Hpl. split; [done|]. split; [done|].
    change (heap initial !! p = None). unfold initial. cbn [heap].
    rewrite lookup_insert_ne, lookup_singleton_ne; [done|..]; intros <-; done.
Qed.

(** The callbacks run so far were set; the timer that holds the lock is not among them. *)
Definition ran_wf s (ran : list Z) : Prop :=
  (forall p, p ∈ ran -> infos s !! p <> None) /\
  (wake_lock s = true -> 13 <= version s -> s_last_wake_timeout_info s ∉ ran).

Lemma ran_wf_step s ran a s' : ril_wf s -> ran_wf s ran -> ract_ok s a -> does s a s' -> ran_wf s' (ran_after a ran).
Proof.
  intros Hwf [R1 R2] Hok Hd. pose proof Hd as (R & _ & _ & _ & Hv & _ & _ & M1 & M2).
  assert (forall p, p ∈ ran -> infos s' !! p <> None) as Hin by (intros p Hp Hx; by apply (R1 p Hp), M1).
  assert (wake_lock s' = true -> 13 <= version s' -> s_last_wake_timeout_info s' ∉ ran) as Hlast.
  { intros Hl Hve. rewrite Hv in Hve. destruct (M2 Hl Hve) as [[Hl0 ->]|Hf]; [auto|]. intros Hx. by apply (R1 _ Hx). }
  destruct a as [| | | | |p|]; try (by split). cbn [ract_ok] in Hok. destruct Hok as [i Hi]. cbn [ran_after]. split.
  - intros q [->|Hq]%elem_of_cons; [|auto]. intros Hx. apply M1 in Hx. congruence.
  - intros Hl Hve. apply not_elem_of_cons. split; [|auto]. intros Heq. rewrite Hv in Hve.
    destruct (M2 Hl Hve) as [[Hl0 Hs]|Hf]; [|congruence]. destruct (kw_held _ (proj1 (proj2 Hwf)) Hve Hl0) as (j & Hj & Hc & Hu).
    rewrite <- Hs, Heq, Hi in Hj. injection Hj as <-. cbn [run_ract] in R. unfold get_info in R.
    rewrite (bindM_ok _ _ s i s) in R by (run; by rewrite Hi).
    destruct (callback_spec s p i (proj2 Hwf) Hi Hc) as (s2 & R' & _ & _ & _ & Hoff). rewrite R in R'. injection R' as <-.
    specialize (Hoff Hve). rewrite Hu in Hoff. destruct Hoff as [Hoff _]. congruence.
Qed.

Lemma reached_inv s ran : reached s ran ->
  ril_wf s /\ ran_wf s ran /\ mtk_command_start s = 0 /\ mtk_unsol_start s = 48 /\ s_registerCalled s = 1.
Proof.
  induction 1 as [v l s Hv Hf R|s ran a s' _ (Hwf & Hran & Hc & Hu & Hreg) Hok R].
  - rewrite register_ready in R by done. injection R as <-. split; [by apply ready_wf|]. split; [|done].
    split; [|done]. intros p Hp. by apply not_elem_of_nil in Hp.
  - assert (s_registerCalled s' = 1) as Hreg' by (by rewrite (kept_ract a _ _ _ R)). assert (s_registerCalled s <> 0) as Hreg0 by lia.
    destruct (does_any s a Hwf Hreg0 Hok) as (s2 & Hd). pose proof Hd as (R2 & W & _ & _ & _ & C & U & _).
    rewrite R in R2. injection R2 as <-. split; [done|]. split; [exact (ran_wf_step s ran a s' Hwf Hran Hok Hd)|]. by rewrite C, U.
Qed.


(** C23: as long as requests are made with numbers that have an entry of the table and for one of
    the two slots (stopping a network scan, for one, is not), and the vendor's library uses the tokens of
    requests that wait: a request is in memory exactly while it is on the list of its slot, and
    there once, whatever is completed, acknowledged or dropped in between; and what it has of an entry
    and of a slot stays within the table and the two slots. *)
Theorem ril_requests_on_lists s ran : reached s ran ->
  (forall p r, requests s !! p = Some r ->
     exists l c, s_pendingRequests s !! hook (socket_id r) = Some l /\ p ∈ l /\ NoDup l /\
       elem s_commands (pCI r) = Some c /\ 0 <= socket_id r < 2) /\
  (forall i l p, s_pendingRequests s !! i = Some l -> p ∈ l -> exists r, requests s !! p = Some r /\ hook (socket_id r) = i).
Proof.
  intros ([[W1 W2 W3 W4 W5] _] & _)%reached_inv. split; [|exact W3].
  intros p r Hr. destruct (W2 p r Hr) as [_ (l & c & Hl & Hin & Hc & _ & Hs)]. exists l, c.
  split; [done|]. split; [done|]. split; [by eapply W4|]. split; [done|]. unfold SIM_COUNT in Hs. lia.
Qed.

(** C31: the wake lock is not held for ever: while it is held (from version 13 on), the timer
    set when it was last taken has not been run and is not cancelled, and when its
    callback is run the lock is released; the callback of any other timer leaves the
    lock alone. *)
Theorem wake_lock_has_its_timer s ran : reached s ran -> 13 <= version s ->
  let last := s_last_wake_timeout_info s in
  (wake_lock s = true -> last ∉ ran /\
     exists i s', infos s !! last = Some i /\ p_callback i = WAKE_TIMEOUT_CALLBACK /\
       run_ract (RProxyRuns last) s = Ok (tt, s') /\ wake_lock s' = false /\ s_wakelock_count s' = 0) /\
  (forall p i, infos s !! p = Some i -> p_callback i = WAKE_TIMEOUT_CALLBACK -> p <> last ->
     run_ract (RProxyRuns p) s = Ok (tt, s)).
Proof.
  intros (Hwf & [_ Hran] & _)%reached_inv Hv last. pose proof Hwf as (_ & Hl). pose proof (proj1 Hl) as Hk.
  assert (forall p i s', infos s !! p = Some i -> run_callback (p_callback i) (userParam i) s = Ok (tt, s') ->
    run_ract (RProxyRuns p) s = Ok (tt, s')) as Hrun.
  { intros p i s' Hi R. cbn [run_ract]. unfold get_info. by rewrite (bindM_ok _ _ s i s) by (run; by rewrite Hi). }
  split.
  - intros Hlock. split; [auto|]. destruct (kw_held _ Hk Hv Hlock) as (i & Hi & Hc & Hu).
    destruct (callback_spec s _ i Hl Hi Hc) as (s' & R & _ & _ & _ & Hoff). specialize (Hoff Hv). rewrite Hu in Hoff.
    exists i, s'. split; [done|]. split; [done|]. split; [by eapply Hrun|done].
  - intros p i Hi Hc Hne. destruct (callback_spec s _ i Hl Hi Hc) as (s' & R & _ & _ & _ & Hoff). specialize (Hoff Hv).
    rewrite (kw_old _ Hk p i Hi Hc Hne) in Hoff. cbn in Hoff. subst s'. by eapply Hrun.
Qed.
