(* ===== verification/RilFaults.v ===== *)
(** The tables of the radio interface layer against the numbers that use them, and what the
    library does with numbers, tokens and threads it has no entry for. *)

From stdpp Require Import base list gmap numbers.
From Stdlib Require Import ZArith Lia.
From S2P Require Import Prelude RilEvent RilLists RilEventProps RilClient RilLoop RilTables Ril RilCore RilRequests RilRun.

Local Open Scope Z_scope.
Local Open Scope st_scope.
Local Open Scope rec_scope.

Implicit Types (s : Ril) (p : Z).

(** * Numbers and entries *)

Lemma lookup_check {A} (f : nat -> A -> bool) (l : list A) i a :
  forallb (fun b => b) (imap f l) = true -> l !! i = Some a -> f i a = true.
Proof.
  intros H Hi. rewrite forallb_Forall, Forall_lookup in H. apply (H i). by rewrite list_lookup_imap, Hi.
Qed.

(** The entries of the tables, with the vendor's parts from 0 and from 48. *)
Definition command_in_place (i : nat) (c : CommandInfo) : bool :=
  (if requestNumber c <? RIL_REQUEST_VENDOR_BASE then requestNumber c
   else requestNumber c - RIL_REQUEST_VENDOR_BASE + 0) =? Z.of_nat i.
Definition unsol_in_place (i : nat) (u : UnsolResponseInfo) : bool :=
  ((if unsolNumber u <? RIL_UNSOL_VENDOR_BASE then unsolNumber u - RIL_UNSOL_RESPONSE_BASE
    else unsolNumber u - RIL_UNSOL_VENDOR_BASE + 48) =? Z.of_nat i) && (unsolNumber u <=? RIL_UNSOL_VENDOR_BASE + 80).

Lemma tables_in_place : forallb (fun b => b) (imap command_in_place s_commands) = true /\
  forallb (fun b => b) (imap unsol_in_place s_unsolResponses) = true.
Proof. split; vm_compute; reflexivity. Qed.

Lemma elem_lookup {A} (l : list A) i : elem l (Z.of_nat i) = l !! i.
Proof. unfold elem. by rewrite (proj2 (Z.ltb_ge _ _)), Nat2Z.id by lia. Qed.

(** the numbers of the tables lead to their entries: a request and an unsolicited response
    of a table, given by their numbers, are looked up where they are, and the check of
    the codes lets them pass. *)
Theorem ril_numbers_find_entries s ran : reached s ran ->
  (forall i c, s_commands !! i = Some c -> get_command (command_index s (requestNumber c)) s = Ok (c, s)) /\
  (forall i u, s_unsolResponses !! i = Some u ->
     elem s_unsolResponses (unsol_index s (unsolNumber u)) = Some u /\ unsolNumber u <= RIL_UNSOL_VENDOR_BASE + 80).
Proof.
  intros (_ & _ & Hc & Hu & _)%reached_inv. destruct tables_in_place as [T1 T2]. split.
  - intros i c Hi. pose proof (lookup_check _ _ _ _ T1 Hi) as E%Z.eqb_eq. unfold command_index, get_command. rewrite Hc, E, elem_lookup, Hi. done.
  - intros i u Hi. pose proof (lookup_check _ _ _ _ T2 Hi) as [E%Z.eqb_eq L%Z.leb_le]%andb_prop.
    split; [|done]. unfold unsol_index. by rewrite Hu, E, elem_lookup.
Qed.

(** * Numbers without an entry *)

Lemma command_entry k : 0 <= k < 141 -> exists c, elem s_commands k = Some c /\ requestNumber c = k.
Proof.
  intros Hk. destruct (lookup_lt_is_Some_2 s_commands (Z.to_nat k)) as [c Hc]; [change (length s_commands) with 141%nat; lia|].
  exists c. replace k with (Z.of_nat (Z.to_nat k)) at 1 by lia. rewrite elem_lookup. split; [done|].
  destruct tables_in_place as [T1 _]. pose proof (lookup_check _ _ _ _ T1 Hc) as E%Z.eqb_eq.
  destruct (Z.ltb_spec (requestNumber c) RIL_REQUEST_VENDOR_BASE) as [?|Hge]; unfold RIL_REQUEST_VENDOR_BASE in *.
  - lia.
  - assert (forallb (fun b => b) (imap (fun _ c => requestNumber c <? 141) s_commands) = true) as T3 by (vm_compute; reflexivity).
    pose proof (lookup_check _ _ _ _ T3 Hc) as H%Z.ltb_lt. lia.
Qed.

(** the vendor's part of the requests' table is not built, so a vendor request is taken for
    the standard request at the same distance from the start: powering the SIM card up and
    down ([setSimCardPower], requests 2028 and 2010) waits as, and is answered through the
    function of, the request for SIM I/O (28) and the request to dial (10); stopping a
    network scan, request 143 of a table of 141, reads past its end. *)
Theorem vendor_requests_misread s ran slotId serial : reached s ran -> 0 <= slotId < 2 ->
  let p := hd NULL (allocs s) in p <> NULL ->
  (forall up, exists s' r, setSimCardPower false slotId serial up s = Ok (tt, s') /\ requests s' !! p = Some r /\
     pCI r = (if up then 28 else 10)) /\
  stopNetworkScan false slotId serial s = Undef.
Proof.
  intros (Hwf & _ & Hc & _ & Hreg)%reached_inv Hs p Hz. split.
  - intros up. set (k := if up then 28 else 10). set (request := if up then RIL_REQUEST_MODEM_POWERON else RIL_REQUEST_MODEM_POWEROFF).
    assert (command_index s request = k) as Hi by (unfold command_index; rewrite Hc; destruct up; reflexivity).
    destruct (command_entry k) as (c & Hce & _); [unfold k; destruct up; lia|].
    destruct (does_any s (RRequest DispatchVoid serial slotId request) Hwf) as (s' & R & _ & _ & Q & _); [lia|..].
    { split; [unfold SIM_COUNT; lia|]. exists c. by rewrite Hi, Hce. }
    exists s', (new_request s serial slotId request c). split; [exact R|]. split; [|exact Hi].
    rewrite Q. cbn [requests_after]. rewrite Hi, Hce. fold p. rewrite (proj2 (Z.eqb_neq p NULL)) by done. apply lookup_insert_eq.
  - unfold stopNetworkScan, dispatchVoid, addRequestToList. unfold bindM at 1 2 3. rewrite calloc_ok. fold p.
    rewrite (proj2 (Z.eqb_neq p NULL)) by done. reflexivity.
Qed.

(** codes of unsolicited responses between the standard ones and the vendor's pass the check
    of the codes although they have no entry: the first 81 of them (1048 to 1128) are taken
    for a vendor response, the rest read past the end of the table. *)
Theorem unsol_codes_without_entry s ran code data socket ret : reached s ran -> 1048 <= code < 3000 ->
  if code <? 1129 then
    exists u, elem s_unsolResponses (unsol_index s code) = Some u /\ unsolNumber u = code + 1952 /\
      exists s', send_unsolResponse code data socket ret s = Ok (tt, s') /\
        visible (out s') = visible (out s) ++ indication s code u socket data
  else send_unsolResponse code data socket ret s = Undef.
Proof.
  intros (Hwf & _ & _ & Hu & _)%reached_inv Hcode.
  assert (unsol_index s code = code - 1000) as Hi by (unfold unsol_index, RIL_UNSOL_VENDOR_BASE, RIL_UNSOL_RESPONSE_BASE; by rewrite (proj2 (Z.ltb_lt _ _)) by lia).
  destruct (Z.ltb_spec code 1129) as [Hlt|Hge].
  - destruct (lookup_lt_is_Some_2 s_unsolResponses (Z.to_nat (code - 1000))) as [u Hlu].
    { change (length s_unsolResponses) with 129%nat. lia. }
    assert (elem s_unsolResponses (unsol_index s code) = Some u) as He.
    { rewrite Hi. replace (code - 1000) with (Z.of_nat (Z.to_nat (code - 1000))) by lia. by rewrite elem_lookup. }
    exists u. split; [done|]. split.
    + assert (forallb (fun b => b) (imap (fun i u => (i <? 48)%nat || (unsolNumber u =? Z.of_nat i + 2952)) s_unsolResponses) = true) as T
        by (vm_compute; reflexivity).
      pose proof (lookup_check _ _ _ _ T Hlu) as [H%Nat.ltb_lt|H%Z.eqb_eq]%orb_prop; lia.
    + destruct (unsol_spec s code data socket ret u (proj2 Hwf)) as (s' & R & (_ & _ & _ & _ & _ & V & _));
        [unfold RIL_UNSOL_VENDOR_BASE; lia|done|]. by exists s'.
  - unfold send_unsolResponse. rewrite (bindM_ok _ _ _ _ _ (eq_refl : getM _ = Ok (_, _))). cbv zeta. rewrite Hi.
    rewrite (proj2 (Z.ltb_ge (code - 1000) 0)), (proj2 (Z.ltb_ge _ code)) by (unfold RIL_UNSOL_VENDOR_BASE; lia).
    assert (elem s_unsolResponses (code - 1000) = None) as ->; [|reflexivity].
    unfold elem. rewrite (proj2 (Z.ltb_ge _ _)) by lia. apply lookup_ge_None_2. change (length s_unsolResponses) with 129%nat. lia.
Qed.

(** completing a request a second time is not recognised as an invalid token: the check
    itself reads the memory of the request, which the first completion has freed. *)
Theorem complete_twice_undefined s ran p e response e' response' : reached s ran -> is_Some (requests s !! p) ->
  exists s', RIL_onRequestComplete false p e response s = Ok (tt, s') /\
    RIL_onRequestComplete false p e' response' s' = Undef.
Proof.
  intros (Hwf & _ & _ & _ & Hreg)%reached_inv Hr. destruct (does_any s (RComplete p e response) Hwf ltac:(lia) Hr) as (s' & R & _ & _ & Q & _).
  exists s'. split; [exact R|]. destruct Hr as [r Hr]. destruct (rw_live _ (proj1 Hwf) p r Hr) as [Hz _].
  unfold RIL_onRequestComplete, checkAndDequeueRequestInfoIfAck, get_request. rewrite (proj2 (Z.eqb_neq p NULL)) by done.
  run. rewrite Q. cbn [requests_after]. by rewrite lookup_delete_eq.
Qed.

(** * Timed callbacks *)

Lemma addThreadPid_infos c tid s s' : addThreadPid c tid s = Ok (tt, s') -> infos s' = infos s.
Proof. by intros [= <-]. Qed.

Lemma on_loop_infos {A} (f : ST EvState A) s a s' : on_loop f s = Ok (a, s') -> infos s' = infos s.
Proof. unfold on_loop. destruct (f (evs s)) as [[b m]| |]; [|done..]. by intros [= _ <-]. Qed.

Lemma timed_info callback param_ tv c s p s' : internalRequestTimedCallback callback param_ tv c s = Ok (p, s') -> p <> NULL ->
  infos s' !! p = Some (mkInfo callback param_ (u32 c)).
Proof.
  unfold internalRequestTimedCallback. intros H Hz.
  apply bindM_inv in H as (q & s1 & H1 & H). rewrite calloc_ok in H1. injection H1 as <- <-.
  destruct (Z.eqb_spec (hd NULL (allocs s)) NULL) as [Hq|Hq]; [unfold retM in H; congruence|].
  apply bindM_inv in H as (u1 & s2 & H2 & H). injection H2 as _ <-.
  apply bindM_inv in H as (s3 & s3' & H3 & H). injection H3 as <- <-.
  apply bindM_inv in H as (u4 & s4 & H4 & H).
  apply bindM_inv in H as (u5 & s5 & H5%on_loop_infos & H).
  apply bindM_inv in H as (u6 & s6 & H6%on_loop_infos & H).
  apply bindM_inv in H as (u7 & s7 & H7 & H). injection H as <- <-.
  assert (infos s7 = infos s6) as ->.
  { unfold triggerEvLoop, emit in H7. revert H7. run. destruct (self s6 =? s_tid_dispatch s6); by intros [= _ <-]. }
  rewrite H6, H5. replace (infos s4) with (<[hd NULL (allocs s) := mkInfo callback param_ (u32 c)]> (infos s)).
  - apply lookup_insert_eq.
  - destruct (-1 <? c); [destruct u4; by rewrite (addThreadPid_infos _ _ _ _ H4)|by injection H4 as _ <-].
Qed.

(** whatever channel a timed callback was asked for, none included, the loop does not run it
    but hands it to the proxy threads: the channel is kept unsigned, so that the test for a
    channel always holds; the code that would run it, forget the wake lock's timer and free
    its memory is never reached. *)
Theorem timed_callbacks_go_to_proxy callback param_ tv c s p s' :
  internalRequestTimedCallback callback param_ tv c s = Ok (p, s') -> p <> NULL ->
  userTimerCallback p s' = Ok (tt, s' <| out := out s' ++ [ToProxy p] |>).
Proof.
  intros H Hz. unfold userTimerCallback, get_info. erewrite bindM_ok by (run; by rewrite (timed_info _ _ _ _ _ _ _ H Hz)).
  cbn [u_cid]. pose proof (u32_range c) as [Hc _]. by rewrite (proj2 (Z.leb_le RIL_URC _)) by (unfold RIL_URC; lia).
Qed.

(** * Threads *)

(** A table of threads: full length, each thread once, the free entries at the end. *)
Definition table_wf (l : list (Z * Z)) : Prop :=
  exists used, l = used ++ replicate (MAX_RIL_CHANNELS - length used) (0, 0) /\ (length used <= MAX_RIL_CHANNELS)%nat /\
    NoDup (snd <$> used) /\ Forall (fun e => e.2 <> 0) used.

(** The reference: the thread comes to the front, the oldest goes when there is no room. *)
Definition move_to_front (c tid : Z) (used : list (Z * Z)) : list (Z * Z) :=
  take MAX_RIL_CHANNELS ((c, tid) :: filter (fun e => e.2 <> tid) used).

Lemma thread_slot_free used n tid : Forall (fun e => e.2 <> 0) used -> tid ∉ snd <$> used ->
  thread_slot (used ++ replicate n (0, 0)) tid = length used.
Proof.
  induction used as [|[c t] used IH]; intros Hf Hn; [by destruct n|]. apply list.Forall_cons in Hf as [Ht Hf].
  cbn in Hn. apply not_elem_of_cons in Hn as [Hne Hn]. cbn in *.
  rewrite (proj2 (Z.eqb_neq t 0)), (proj2 (Z.eqb_neq t tid)) by congruence. cbn. by rewrite IH.
Qed.

Lemma thread_slot_found u1 c tid u2 n : Forall (fun e => e.2 <> 0) u1 -> tid ∉ snd <$> u1 ->
  thread_slot ((u1 ++ (c, tid) :: u2) ++ replicate n (0, 0)) tid = length u1.
Proof.
  induction u1 as [|[d t] u1 IH]; intros Hf Hn; cbn.
  - by rewrite Z.eqb_refl, orb_true_r.
  - apply list.Forall_cons in Hf as [Ht Hf]. cbn in Hn, Ht. apply not_elem_of_cons in Hn as [Hne Hn].
    rewrite (proj2 (Z.eqb_neq t 0)), (proj2 (Z.eqb_neq t tid)) by congruence. cbn. by rewrite IH.
Qed.

Lemma filter_absent tid (used : list (Z * Z)) : tid ∉ snd <$> used -> filter (fun e => e.2 <> tid) used = used.
Proof.
  intros Hn. apply filter_all. apply list.Forall_forall. intros e He Heq. apply Hn. apply list_elem_of_fmap. by exists e.
Qed.

(** The table, and the reference, when the thread is in it and when it is not. *)
Lemma front_found c tid u1 d u2 : Forall (fun e => e.2 <> 0) (u1 ++ (d, tid) :: u2) -> NoDup (snd <$> u1 ++ (d, tid) :: u2) ->
  (length (u1 ++ (d, tid) :: u2) <= MAX_RIL_CHANNELS)%nat ->
  let used := u1 ++ (d, tid) :: u2 in
  let l := used ++ replicate (MAX_RIL_CHANNELS - length used) (0, 0) in
  thread_slot l tid = length u1 /\ move_to_front c tid used = (c, tid) :: u1 ++ u2 /\
  (c, tid) :: take (length u1) l ++ drop (S (length u1)) l =
    ((c, tid) :: u1 ++ u2) ++ replicate (MAX_RIL_CHANNELS - length ((c, tid) :: u1 ++ u2)) (0, 0).
Proof.
  intros Hnz Hnd Hlen used l. rewrite fmap_app, fmap_cons in Hnd. cbn in Hnd. apply list.NoDup_app in Hnd as (N1 & N2 & N3).
  apply list.NoDup_cons in N3 as [N3 N4]. apply list.Forall_app in Hnz as [Z1 _].
  assert (tid ∉ snd <$> u1) as Hn1 by (intros Hx; apply (N2 _ Hx); left). split; [by apply thread_slot_found|].
  subst l. subst used. rewrite length_app in *. cbn [length] in *. split.
  - unfold move_to_front. rewrite list.filter_app, list.filter_cons, decide_False by (cbn; auto).
    rewrite !filter_absent by done. apply take_ge. cbn. rewrite length_app. lia.
  - rewrite <- app_assoc, take_app_length, drop_app_ge by lia. cbn. rewrite length_app.
    replace (S (length u1) - length u1)%nat with 1%nat by lia. cbn. rewrite drop_0, <- app_assoc.
    by replace (12 - (length u1 + S (length u2)))%nat with (11 - (length u1 + length u2))%nat by lia.
Qed.

Lemma front_new c tid used : Forall (fun e => e.2 <> 0) used -> tid ∉ snd <$> used -> (length used <= MAX_RIL_CHANNELS)%nat ->
  let l := used ++ replicate (MAX_RIL_CHANNELS - length used) (0, 0) in
  let i := if (length used =? MAX_RIL_CHANNELS)%nat then (MAX_RIL_CHANNELS - 1)%nat else length used in
  thread_slot l tid = length used /\
  (c, tid) :: take i l ++ drop (S i) l =
    move_to_front c tid used ++ replicate (MAX_RIL_CHANNELS - length (move_to_front c tid used)) (0, 0).
Proof.
  intros Hnz Hn Hlen l i. split; [by apply thread_slot_free|]. unfold move_to_front. rewrite filter_absent by done.
  unfold i, l. destruct (Nat.eqb_spec (length used) MAX_RIL_CHANNELS) as [He|He].
  - rewrite He, Nat.sub_diag. cbn [replicate]. rewrite !app_nil_r, drop_ge by (rewrite He; unfold MAX_RIL_CHANNELS; lia).
    rewrite app_nil_r, length_take. cbn [length]. rewrite He. unfold MAX_RIL_CHANNELS.
    change (12 - 12 `min` 13)%nat with 0%nat. cbn [replicate]. by rewrite app_nil_r.
  - rewrite take_app_length, (take_ge ((c, tid) :: used)) by (cbn; lia). rewrite drop_app_ge by lia.
    replace (S (length used) - length used)%nat with 1%nat by lia. cbn [length]. rewrite drop_replicate. cbn [app].
    by replace (MAX_RIL_CHANNELS - length used - 1)%nat with (MAX_RIL_CHANNELS - S (length used))%nat by lia.
Qed.

(** remembering a thread's channel keeps the table's threads by their last use: the thread
    is at the front with the new channel, the others keep their order, and when there are
    more than twelve the one used longest ago is forgotten. *)
Theorem addThreadPid_moves_to_front c tid s used : 
  threadPid s = used ++ replicate (MAX_RIL_CHANNELS - length used) (0, 0) -> (length used <= MAX_RIL_CHANNELS)%nat ->
  NoDup (snd <$> used) -> Forall (fun e => e.2 <> 0) used ->
  exists s', addThreadPid c tid s = Ok (tt, s') /\
    threadPid s' = move_to_front c tid used ++ replicate (MAX_RIL_CHANNELS - length (move_to_front c tid used)) (0, 0).
Proof.
  intros Htab Hlen Hnd Hnz. eexists. split; [reflexivity|]. cbn [threadPid set eta]. rewrite Htab.
  destruct (decide (tid ∈ snd <$> used)) as [Hin|Hni].
  - apply list_elem_of_fmap in Hin as ([d t] & -> & Hin). apply list_elem_of_split in Hin as (u1 & u2 & ->).
    cbn [snd] in *. destruct (front_found c t u1 d u2 Hnz Hnd Hlen) as (-> & -> & E).
    rewrite (proj2 (Nat.eqb_neq _ _)); [exact E|]. rewrite length_app in Hlen. cbn in Hlen. lia.
  - destruct (front_new c tid used Hnz Hni Hlen) as [-> E]. exact E.
Qed.

(** a thread that is not in the table makes the search for its channel read past the end
    of the table, because the entry is read before the index is tested. *)
Theorem thread_search_past_end s answer_ : length (threadPid s) = MAX_RIL_CHANNELS -> self s ∉ snd <$> threadPid s ->
  RIL_myProxyIdByThread answer_ s = Undef.
Proof.
  intros Hlen Hn. unfold RIL_myProxyIdByThread. rewrite (bindM_ok _ _ _ _ _ (eq_refl : getM _ = Ok (_, _))).
  assert (forall fuel i, (i + fuel = S MAX_RIL_CHANNELS)%nat -> (0 < fuel)%nat -> my_thread fuel i (self s) s = Undef) as H.
  { induction fuel as [|fuel IH]; intros i Hi Hpos; [lia|]. cbn [my_thread].
    rewrite (bindM_ok _ _ _ _ _ (eq_refl : getM _ = Ok (_, _))). destruct (threadPid s !! i) as [e|] eqn:He; [|done].
    rewrite (bindM_ok _ _ s e s) by done.
    assert (e.2 <> self s) as Hne.
    { intros Heq. apply Hn. apply list_elem_of_fmap. exists e. split; [done|]. by eapply list_elem_of_lookup_2. }
    apply lookup_lt_Some in He. rewrite Hlen in He. rewrite (proj2 (Z.eqb_neq _ _)), (proj2 (Nat.ltb_lt _ _)) by done. cbn [andb negb].
    apply IH; lia. }
  unfold bindM. rewrite H; [done|reflexivity|lia].
Qed.

(** * Channels *)

(** with queues on the channels, radio power on the second slot marks the first slot's
    channel as busy, but its completion frees the second's: from then on the requests of the
    first slot's channel are queued although the vendor's library has none of them, and no
    completion will ever send them. *)
Theorem radio_power_blocks_channel :
  exists s, (dispatchInts true 7 1 RIL_REQUEST_RADIO_POWER;; RIL_onRequestComplete true 100 0 0;;
             dispatchVoid true 8 0 1;; dispatchVoid true 9 0 1) (ready 13 [100; 101; 102; 103; 104; 105]) = Ok (true, s) /\
    visible (out s) = [OnRequest RIL_REQUEST_RADIO_POWER 100 1; Respond 23 1 RESPONSE_SOLICITED 7 0 (Pointer 0)] /\
    cmdProxy1busy s = [true; false] /\ queue_of PROXY_1 0 s = [102; 104] /\ dom (requests s) = {[102; 104]}.
Proof. eexists. split; [vm_compute; reflexivity|]. split_and!; vm_compute; reflexivity. Qed.

(** * Runs *)

Definition ril_exec (a : ract) s : Ril := match run_ract a s with Ok (_, s') => s' | _ => s end.

Lemma reached_exec s ran a : ran_after a ran = ran -> reached s ran -> ract_ok s a ->
  run_ract a s = Ok (tt, ril_exec a s) -> reached (ril_exec a s) ran.
Proof. intros Hr. rewrite <- Hr at 2. apply reached_step. Qed.

(** A request of each slot, an acknowledgement, and an incoming message. *)
Definition demo_run : list ract := [RRequest DispatchVoid 7 0 19; RRequest DispatchRaw 8 1 10; RAck 100; RUnsol 1003 [1; 2] 0 0 true].
Definition ril_demo : Ril := foldl (fun s a => ril_exec a s) (ready 13 [100; 101; 102; 103]) demo_run.

Lemma ril_demo_reached : reached ril_demo [].
Proof.
  assert (reached (ready 13 [100; 101; 102; 103]) []) as H0.
  { eapply reached_init; [|split_and!|apply register_ready]; unfold RIL_VERSION_MIN; try lia;
      apply (bool_decide_unpack _); vm_compute; exact I. }
  unfold ril_demo, demo_run. cbn [foldl].
  apply reached_exec; [reflexivity| | |vm_compute; reflexivity].
  - apply reached_exec; [reflexivity| | |vm_compute; reflexivity].
    + apply reached_exec; [reflexivity| | |vm_compute; reflexivity].
      * apply reached_exec; [reflexivity|exact H0| |vm_compute; reflexivity]. split; [unfold SIM_COUNT; lia|vm_compute; eauto].
      * split; [unfold SIM_COUNT; lia|vm_compute; eauto].
    + vm_compute. eauto.
  - intros _. right. vm_compute. eauto.
Qed.


Lemma ril_requests_on_lists_witness : exists r, requests ril_demo !! 100 = Some r /\ hook (socket_id r) = 0%nat.
Proof.
  destruct (ril_requests_on_lists ril_demo [] ril_demo_reached) as [_ H].
  apply (H 0%nat [100] 100); [vm_compute; reflexivity|apply (bool_decide_unpack _); vm_compute; exact I].
Defined.

Lemma wake_lock_has_its_timer_witness : s_last_wake_timeout_info ril_demo ∉ [] /\ wake_lock ril_demo = true.
Proof.
  destruct (wake_lock_has_its_timer ril_demo [] ril_demo_reached) as [H _]; [vm_compute; congruence|].
  destruct H as [H _]; [vm_compute; reflexivity|]. split; [exact H|vm_compute; reflexivity].
Defined.

Lemma ril_numbers_find_entries_witness : elem s_unsolResponses (unsol_index ril_demo 3053) = Some (uns 3053 false true).
Proof.
  destruct (ril_numbers_find_entries ril_demo [] ril_demo_reached) as [_ H].
  apply (H 101%nat (uns 3053 false true)). vm_compute. reflexivity.
Defined.

Lemma vendor_requests_misread_witness : exists s' r, setSimCardPower false 0 9 false ril_demo = Ok (tt, s') /\
  requests s' !! 103 = Some r /\ pCI r = 10.
Proof.
  destruct (vendor_requests_misread ril_demo [] 0 9 ril_demo_reached) as [H _]; [lia|vm_compute; congruence|].
  exact (H false).
Defined.

Lemma unsol_codes_without_entry_witness : send_unsolResponse 2000 [] 0 0 ril_demo = Undef.
Proof. apply (unsol_codes_without_entry ril_demo [] 2000 [] 0 0 ril_demo_reached). lia. Defined.

Lemma complete_twice_undefined_witness : exists s', RIL_onRequestComplete false 101 0 0 ril_demo = Ok (tt, s') /\
  RIL_onRequestComplete false 101 0 0 s' = Undef.
Proof. apply (complete_twice_undefined ril_demo [] 101 0 0 0 0 ril_demo_reached). vm_compute. eauto. Defined.

Lemma timed_callbacks_go_to_proxy_witness : exists s', internalRequestTimedCallback 5 6 None (-1) ril_demo = Ok (103, s') /\
  userTimerCallback 103 s' = Ok (tt, s' <| out := out s' ++ [ToProxy 103] |>).
Proof.
  eexists. split; [vm_compute; reflexivity|].
  apply (timed_callbacks_go_to_proxy 5 6 None (-1) ril_demo); [vm_compute; reflexivity|done].
Defined.

Lemma addThreadPid_moves_to_front_witness : exists s', addThreadPid 4 77 ril_demo = Ok (tt, s') /\ hd (0, 0) (threadPid s') = (4, 77).
Proof.
  destruct (addThreadPid_moves_to_front 4 77 ril_demo []) as (s' & R & H); [vm_compute; reflexivity|cbn; lia|constructor|constructor|].
  exists s'. split; [exact R|]. rewrite H. reflexivity.
Defined.

Lemma thread_search_past_end_witness : RIL_myProxyIdByThread 3 ril_demo = Undef.
Proof. apply thread_search_past_end; [vm_compute; reflexivity|apply (bool_decide_unpack _); vm_compute; exact I]. Defined.
