(* ===== verification/Sap.v ===== *)
(** SIM access for Bluetooth: the queue of requests (src/hal/libril/rilSocketQueue.h), the
    sockets of the two slots (RilSapSocket.cpp) and the service on top of them
    (sap_service.cpp). Memory is managed by hand in all three, so objects live at addresses, a
    read of a freed object and a second [free] are undefined, and an allocation that fails
    returns NULL. The encoding of messages is the nanopb library's. *)

From stdpp Require Import base list gmap numbers.
From Stdlib Require Import ZArith Lia String.
From S2P Require Import Prelude RilEvent.

Local Open Scope Z_scope.
Local Open Scope st_scope.
Local Open Scope rec_scope.

(** * Messages *)

(** The message ids the service knows; an unsolicited response may carry any other. *)
Inductive MsgId :=
  | MsgId_RIL_SIM_SAP_CONNECT
  | MsgId_RIL_SIM_SAP_DISCONNECT
  | MsgId_RIL_SIM_SAP_APDU
  | MsgId_RIL_SIM_SAP_TRANSFER_ATR
  | MsgId_RIL_SIM_SAP_POWER
  | MsgId_RIL_SIM_SAP_RESET_SIM
  | MsgId_RIL_SIM_SAP_STATUS
  | MsgId_RIL_SIM_SAP_TRANSFER_CARD_READER_STATUS
  | MsgId_RIL_SIM_SAP_ERROR_RESP
  | MsgId_RIL_SIM_SAP_SET_TRANSFER_PROTOCOL
  | MsgId_other (n : Z).

#[export] Instance MsgId_eq_dec : EqDecision MsgId.
Proof. solve_decision. Defined.

Inductive MsgType := MsgType_REQUEST | MsgType_RESPONSE | MsgType_UNSOL_RESPONSE.

Record MsgHeader := mkHeader { h_token : Z; h_type : MsgType; h_id : MsgId; h_error : Z; h_payload : Z }.
#[export] Instance eta_MsgHeader : Eta MsgHeader := fun h =>
  mkHeader (h_token h) (h_type h) (h_id h) (h_error h) (h_payload h).

(** RilSapSocket.h:63-68 [SapSocketRequest]. *)
Record SapSocketRequest := mkSapReq { r_token : Z; curr : Z; p_next : Z; r_socketId : Z }.
#[export] Instance eta_SapSocketRequest : Eta SapSocketRequest := fun r =>
  mkSapReq (r_token r) (curr r) (p_next r) (r_socketId r).

(** The structures that are encoded; an APDU may come without a command. *)
Inductive pb_request :=
  | RIL_SIM_SAP_CONNECT_REQ (max_message_size : Z)
  | RIL_SIM_SAP_DISCONNECT_REQ
  | RIL_SIM_SAP_APDU_REQ (type : Z) (command : option (list Z))
  | RIL_SIM_SAP_TRANSFER_ATR_REQ
  | RIL_SIM_SAP_POWER_REQ (state : bool)
  | RIL_SIM_SAP_RESET_SIM_REQ
  | RIL_SIM_SAP_TRANSFER_CARD_READER_STATUS_REQ
  | RIL_SIM_SAP_SET_TRANSFER_PROTOCOL_REQ (protocol : Z).

(** The values of the [response] member, over all messages. *)
Inductive Response :=
  | Response_RIL_E_SUCCESS
  | Response_RIL_E_GENERIC_FAILURE
  | Response_RIL_E_SIM_NOT_READY
  | Response_RIL_E_SIM_ALREADY_POWERED_OFF
  | Response_RIL_E_SIM_ALREADY_POWERED_ON
  | Response_RIL_E_SIM_ABSENT
  | Response_RIL_E_SIM_DATA_NOT_AVAILABLE
  | Response_other (n : Z).

Inductive pb_fields :=
  | CONNECT_RSP_fields | DISCONNECT_RSP_fields | DISCONNECT_IND_fields | APDU_RSP_fields | TRANSFER_ATR_RSP_fields
  | POWER_RSP_fields | RESET_SIM_RSP_fields | STATUS_IND_fields | TRANSFER_CARD_READER_STATUS_RSP_fields
  | ERROR_RSP_fields | SET_TRANSFER_PROTOCOL_RSP_fields.

(** The structures that are decoded. *)
Inductive pb_response :=
  | CONNECT_RSP (response max_message_size : Z)
  | DISCONNECT_RSP
  | DISCONNECT_IND (disconnectType : Z)
  | APDU_RSP (response : Response) (apduResponse : option (list Z))
  | TRANSFER_ATR_RSP (response : Response) (atr : option (list Z))
  | POWER_RSP (response : Response)
  | RESET_SIM_RSP (response : Response)
  | STATUS_IND (statusChange : Z)
  | TRANSFER_CARD_READER_STATUS_RSP (response : Response) (CardReaderStatus : Z)
  | ERROR_RSP
  | SET_TRANSFER_PROTOCOL_RSP (response : Response).

Definition fields_of (m : pb_response) : pb_fields :=
  match m with
  | CONNECT_RSP _ _ => CONNECT_RSP_fields
  | DISCONNECT_RSP => DISCONNECT_RSP_fields
  | DISCONNECT_IND _ => DISCONNECT_IND_fields
  | APDU_RSP _ _ => APDU_RSP_fields
  | TRANSFER_ATR_RSP _ _ => TRANSFER_ATR_RSP_fields
  | POWER_RSP _ => POWER_RSP_fields
  | RESET_SIM_RSP _ => RESET_SIM_RSP_fields
  | STATUS_IND _ => STATUS_IND_fields
  | TRANSFER_CARD_READER_STATUS_RSP _ _ => TRANSFER_CARD_READER_STATUS_RSP_fields
  | ERROR_RSP => ERROR_RSP_fields
  | SET_TRANSFER_PROTOCOL_RSP _ => SET_TRANSFER_PROTOCOL_RSP_fields
  end.

Inductive SapResultCode :=
  | SUCCESS | GENERIC_FAILURE | CARD_NOT_ACCESSSIBLE | CARD_ALREADY_POWERED_OFF | CARD_REMOVED
  | CARD_ALREADY_POWERED_ON | DATA_NOT_AVAILABLE | NOT_SUPPORTED.

(** The calls of the client's [ISapCallback], each with the token. *)
Inductive sap_answer :=
  | connectResponse (rsp maxMsgSize : Z)
  | connectFailure
  | disconnectResponse
  | disconnectIndication (type : Z)
  | apduResponse (code : SapResultCode) (apduRsp : list Z)
  | transferAtrResponse (code : SapResultCode) (atr : list Z)
  | powerResponse (code : SapResultCode)
  | resetSimResponse (code : SapResultCode)
  | statusIndication (status : Z)
  | transferCardReaderStatusResponse (code : SapResultCode) (status : Z)
  | errorResponse
  | transferProtocolResponse (code : SapResultCode).

(** What is seen from outside: a request handed to the vendor's library, and a call of a
    client. *)
Inductive sap_out :=
  | ToUim (id : MsgId) (bytes : list Z) (t socket : Z)
  | Answer (callback token_ : Z) (a : sap_answer).

(** * State *)

Inductive obj :=
  | OHeader (h : MsgHeader)
  | ORequest (r : SapSocketRequest)
  | OBytes (bs : list Z)
  | OMessage (m : option pb_response)
  | OItem.

(** RilSocket.h:32-43 [RilSocket] with the members of [RilSapSocket]: the functions are
    uninitialised when the constructor was given none. The queue of requests that wait for
    dispatch is not used. *)
Record RilSapSocket := mkSock { name : string; id : Z; uimFuncs : option Z; pendingResponseQueue : Z }.
#[export] Instance eta_RilSapSocket : Eta RilSapSocket := fun k =>
  mkSock (name k) (id k) (uimFuncs k) (pendingResponseQueue k).

(** sap_service.cpp:45-48 [SapImpl]. *)
Record SapImpl := mkImpl { slotId : Z; sapCallback : Z; rilSocketId : Z }.
#[export] Instance eta_SapImpl : Eta SapImpl := fun i => mkImpl (slotId i) (sapCallback i) (rilSocketId i).

(** [mallocs] is what the next allocations return, [callback_ok] whether the next calls of the
    clients reach them (they do, past the end of the list). *)
Record Sap := mkSap {
  objs : gmap Z obj;
  mallocs : list Z;
  sockets : list RilSapSocket;
  sapService : list SapImpl;
  callback_ok : list bool;
  sap_trace : list sap_out;
}.
#[export] Instance eta_Sap : Eta Sap := fun s =>
  mkSap (objs s) (mallocs s) (sockets s) (sapService s) (callback_ok s) (sap_trace s).

Definition SAP (A : Type) : Type := ST Sap A.

(** * Memory *)

Definition malloc (o : obj) : SAP Z :=
  let* s := getM in
  let p := hd NULL (mallocs s) in
  modM (fun s => s <| mallocs := tail (mallocs s) |>);;
  (if p =? NULL then retM tt else modM (fun s => s <| objs := <[p := o]> (objs s) |>));;
  retM p.

Definition free (p : Z) : SAP unit :=
  if p =? NULL then retM tt
  else
    let* s := getM in
    match objs s !! p with
    | Some _ => modM (fun s => s <| objs := delete p (objs s) |>)
    | None => undefM
    end.

Definition get_header (p : Z) : SAP MsgHeader :=
  let* s := getM in of_option (match objs s !! p with Some (OHeader h) => Some h | _ => None end).
Definition get_req (p : Z) : SAP SapSocketRequest :=
  let* s := getM in of_option (match objs s !! p with Some (ORequest r) => Some r | _ => None end).
Definition get_bytes (p : Z) : SAP (list Z) :=
  let* s := getM in of_option (match objs s !! p with Some (OBytes bs) => Some bs | _ => None end).
Definition put (p : Z) (o : obj) : SAP unit := modM (fun s => s <| objs := <[p := o]> (objs s) |>).

Definition get_socket (k : nat) : SAP RilSapSocket := let* s := getM in of_option (sockets s !! k).
Definition get_impl (k : nat) : SAP SapImpl := let* s := getM in of_option (sapService s !! k).

(** * The queue *)

Definition set_front (k : nat) (p : Z) : SAP unit :=
  modM (fun s => s <| sockets := alter (fun x => x <| pendingResponseQueue := p |>) k (sockets s) |>).

(** rilSocketQueue.h:120-134 [Ril_queue::enqueue] on the queue of socket [k]. *)
Definition enqueue (k : nat) (request : Z) : SAP unit :=
  let* x := get_socket k in
  let* r := get_req request in
  if pendingResponseQueue x =? NULL then
    set_front k request;;
    put request (ORequest (r <| p_next := NULL |>))
  else
    put request (ORequest (r <| p_next := pendingResponseQueue x |>));;
    set_front k request.

(** rilSocketQueue.h:159-167 [Ril_queue::empty]. *)
Definition empty_queue (k : nat) : SAP bool := let* x := get_socket k in retM (pendingResponseQueue x =? NULL).

(** rilSocketQueue.h:101-118 [Ril_queue::dequeue] sleeps while the queue is empty. *)
Definition dequeue_request (k : nat) : SAP Z :=
  let* e := empty_queue k in
  if e then blockM
  else
    let* x := get_socket k in
    let temp := pendingResponseQueue x in
    let* r := get_req temp in
    (if p_next r =? NULL then set_front k NULL else set_front k (p_next r));;
    retM temp.

(** Store through [ppCur], the address of the front or of a link. *)
Definition store_link (k : nat) (ppCur : option Z) (p : Z) : SAP unit :=
  match ppCur with
  | None => set_front k p
  | Some q => let* r := get_req q in put q (ORequest (r <| p_next := p |>))
  end.

(** rilSocketQueue.h:143-151 [Ril_queue::checkAndDequeue, loop]. *)
Fixpoint dequeue_loop (fuel : nat) (k : nat) (ppCur : option Z) (cur : Z) (i : MsgId) (token_ : Z) : SAP bool :=
  match fuel with
  | O => blockM
  | S fuel' =>
      if cur =? NULL then retM false
      else
        let* r := get_req cur in
        let* found :=
          (if token_ =? r_token r then let* h := get_header (curr r) in retM (bool_decide (i = h_id h)) else retM false) in
        if found then store_link k ppCur (p_next r);; free cur;; retM true
        else dequeue_loop fuel' k (Some cur) (p_next r) i token_
  end.

(** rilSocketQueue.h:136-156 [Ril_queue::checkAndDequeue]. *)
Definition checkAndDequeue (k : nat) (i : MsgId) (token_ : Z) : SAP bool :=
  let* x := get_socket k in
  let* s := getM in
  dequeue_loop (S (size (objs s))) k None (pendingResponseQueue x) i token_.

(** * The client's callbacks *)

(** sap_service.cpp:77-86 [SapImpl::checkReturnStatus] after a call that failed. *)
Definition checkReturnStatus (k : nat) (ok : bool) : SAP unit :=
  if ok then retM tt else modM (fun s => s <| sapService := alter (fun i => i <| sapCallback := NULL |>) k (sapService s) |>).

(** A call of the client of slot [k]: undefined without a callback; whether it arrived. *)
Definition call_client (k : nat) (token_ : Z) (a : sap_answer) : SAP bool :=
  let* i := get_impl k in
  if sapCallback i =? NULL then undefM
  else
    modM (fun s => s <| sap_trace := sap_trace s ++ [Answer (sapCallback i) token_ a] |>);;
    let* s := getM in
    modM (fun s => s <| callback_ok := tail (callback_ok s) |>);;
    retM (hd true (callback_ok s)).

(** sap_service.cpp:88-92 [SapImpl::setCallback]. *)
Definition setCallback (k : nat) (callback : Z) : SAP unit :=
  get_impl k;;
  modM (fun s => s <| sapService := alter (fun i => i <| sapCallback := callback |>) k (sapService s) |>).

(** sap_service.cpp:141-181 [SapImpl::sendFailedResponse, switch] the answer that tells that a
    request failed. *)
Definition failed_answer (i : MsgId) : option sap_answer :=
  match i with
  | MsgId_RIL_SIM_SAP_CONNECT => Some connectFailure
  | MsgId_RIL_SIM_SAP_DISCONNECT => Some disconnectResponse
  | MsgId_RIL_SIM_SAP_APDU => Some (apduResponse GENERIC_FAILURE [])
  | MsgId_RIL_SIM_SAP_TRANSFER_ATR => Some (transferAtrResponse GENERIC_FAILURE [])
  | MsgId_RIL_SIM_SAP_POWER => Some (powerResponse GENERIC_FAILURE)
  | MsgId_RIL_SIM_SAP_RESET_SIM => Some (resetSimResponse GENERIC_FAILURE)
  | MsgId_RIL_SIM_SAP_TRANSFER_CARD_READER_STATUS => Some (transferCardReaderStatusResponse GENERIC_FAILURE 0)
  | MsgId_RIL_SIM_SAP_SET_TRANSFER_PROTOCOL => Some (transferProtocolResponse NOT_SUPPORTED)
  | _ => None
  end.

Fixpoint free_all (ps : list Z) : SAP unit :=
  match ps with [] => retM tt | p :: ps' => free p;; free_all ps' end.

(** sap_service.cpp:131-183 [SapImpl::sendFailedResponse]. *)
Definition sendFailedResponse (k : nat) (i : MsgId) (token_ : Z) (ptrs : list Z) : SAP unit :=
  free_all ptrs;;
  match failed_answer i with
  | Some a =>
      let* ok := call_client k token_ a in
      let* im := get_impl k in
      checkReturnStatus (Z.to_nat (slotId im)) ok
  | None => retM tt
  end.

(** * Responses *)

(** sap_service.cpp:684-699 [convertApduResponseProtoToHal]. *)
Definition convertApduResponseProtoToHal (r : Response) : SapResultCode :=
  match r with
  | Response_RIL_E_SUCCESS => SUCCESS
  | Response_RIL_E_GENERIC_FAILURE => GENERIC_FAILURE
  | Response_RIL_E_SIM_NOT_READY => CARD_NOT_ACCESSSIBLE
  | Response_RIL_E_SIM_ALREADY_POWERED_OFF => CARD_ALREADY_POWERED_OFF
  | Response_RIL_E_SIM_ABSENT => CARD_REMOVED
  | _ => GENERIC_FAILURE
  end.

(** sap_service.cpp:701-717 [convertTransferAtrResponseProtoToHal]. *)
Definition convertTransferAtrResponseProtoToHal (r : Response) : SapResultCode :=
  match r with
  | Response_RIL_E_SUCCESS => SUCCESS
  | Response_RIL_E_GENERIC_FAILURE => GENERIC_FAILURE
  | Response_RIL_E_SIM_ALREADY_POWERED_OFF => CARD_ALREADY_POWERED_OFF
  | Response_RIL_E_SIM_ABSENT => CARD_REMOVED
  | Response_RIL_E_SIM_DATA_NOT_AVAILABLE => DATA_NOT_AVAILABLE
  | _ => GENERIC_FAILURE
  end.

(** sap_service.cpp:719-734 [convertPowerResponseProtoToHal]. *)
Definition convertPowerResponseProtoToHal (r : Response) : SapResultCode :=
  match r with
  | Response_RIL_E_SUCCESS => SUCCESS
  | Response_RIL_E_GENERIC_FAILURE => GENERIC_FAILURE
  | Response_RIL_E_SIM_ABSENT => CARD_REMOVED
  | Response_RIL_E_SIM_ALREADY_POWERED_OFF => CARD_ALREADY_POWERED_OFF
  | Response_RIL_E_SIM_ALREADY_POWERED_ON => CARD_ALREADY_POWERED_ON
  | _ => GENERIC_FAILURE
  end.

(** sap_service.cpp:736-750 [convertResetSimResponseProtoToHal]. *)
Definition convertResetSimResponseProtoToHal (r : Response) : SapResultCode :=
  match r with
  | Response_RIL_E_SUCCESS => SUCCESS
  | Response_RIL_E_GENERIC_FAILURE => GENERIC_FAILURE
  | Response_RIL_E_SIM_ABSENT => CARD_REMOVED
  | Response_RIL_E_SIM_NOT_READY => CARD_NOT_ACCESSSIBLE
  | Response_RIL_E_SIM_ALREADY_POWERED_OFF => CARD_ALREADY_POWERED_OFF
  | _ => GENERIC_FAILURE
  end.

(** sap_service.cpp:752-763 [convertTransferCardReaderStatusResponseProtoToHal]. *)
Definition convertTransferCardReaderStatusResponseProtoToHal (r : Response) : SapResultCode :=
  match r with
  | Response_RIL_E_SUCCESS => SUCCESS
  | Response_RIL_E_GENERIC_FAILURE => GENERIC_FAILURE
  | Response_RIL_E_SIM_DATA_NOT_AVAILABLE => DATA_NOT_AVAILABLE
  | _ => GENERIC_FAILURE
  end.

(** sap_service.cpp:544-658 [sapDecodeMessage, switch] the description of the message to decode. *)
Definition decode_fields (i : MsgId) (ty : MsgType) : option pb_fields :=
  match i with
  | MsgId_RIL_SIM_SAP_CONNECT => Some CONNECT_RSP_fields
  | MsgId_RIL_SIM_SAP_DISCONNECT =>
      Some (match ty with MsgType_RESPONSE => DISCONNECT_RSP_fields | _ => DISCONNECT_IND_fields end)
  | MsgId_RIL_SIM_SAP_APDU => Some APDU_RSP_fields
  | MsgId_RIL_SIM_SAP_TRANSFER_ATR => Some TRANSFER_ATR_RSP_fields
  | MsgId_RIL_SIM_SAP_POWER => Some POWER_RSP_fields
  | MsgId_RIL_SIM_SAP_RESET_SIM => Some RESET_SIM_RSP_fields
  | MsgId_RIL_SIM_SAP_STATUS => Some STATUS_IND_fields
  | MsgId_RIL_SIM_SAP_TRANSFER_CARD_READER_STATUS => Some TRANSFER_CARD_READER_STATUS_RSP_fields
  | MsgId_RIL_SIM_SAP_ERROR_RESP => Some ERROR_RSP_fields
  | MsgId_RIL_SIM_SAP_SET_TRANSFER_PROTOCOL => Some SET_TRANSFER_PROTOCOL_RSP_fields
  | MsgId_other _ => None
  end.

(** sap_service.cpp:789-913 [processResponse, switch] the call for a decoded message. The
    members read are those of the structure the message was decoded as. *)
Definition answer_of (m : pb_response) : sap_answer :=
  match m with
  | CONNECT_RSP r size => connectResponse r size
  | DISCONNECT_RSP => disconnectResponse
  | DISCONNECT_IND t => disconnectIndication t
  | APDU_RSP r bs => apduResponse (convertApduResponseProtoToHal r) (default [] bs)
  | TRANSFER_ATR_RSP r bs => transferAtrResponse (convertTransferAtrResponseProtoToHal r) (default [] bs)
  | POWER_RSP r => powerResponse (convertPowerResponseProtoToHal r)
  | RESET_SIM_RSP r => resetSimResponse (convertResetSimResponseProtoToHal r)
  | STATUS_IND c => statusIndication c
  | TRANSFER_CARD_READER_STATUS_RSP r st =>
      transferCardReaderStatusResponse (convertTransferCardReaderStatusResponseProtoToHal r) st
  | ERROR_RSP => errorResponse
  | SET_TRANSFER_PROTOCOL_RSP r =>
      transferProtocolResponse (match r with Response_RIL_E_SUCCESS => SUCCESS | _ => NOT_SUPPORTED end)
  end.

(** sap_service.cpp:662-682 [getSapImpl] the index of the service. *)
Definition getSapImpl (socketId : Z) : option nat :=
  if socketId =? 0 then Some 0%nat else if socketId =? 1 then Some 1%nat else None.

Section Service.
(** The encoder and decoder of nanopb: the size of an encoded message, its bytes given the size
    of the stream, and a decoded structure. *)
Context (pb_get_encoded_size : pb_request -> option Z).
Context (pb_encode : Z -> pb_request -> option (list Z)).
Context (pb_decode : pb_fields -> list Z -> option pb_response).

(** sap_service.cpp:533-660 [sapDecodeMessage] the address of the decoded message. What was
    allocated is not freed when decoding fails. *)
Definition sapDecodeMessage (i : MsgId) (ty : MsgType) (payload_ : list Z) : SAP Z :=
  match decode_fields i ty with
  | None => retM NULL
  | Some f =>
      let* p := malloc (OMessage (pb_decode f payload_)) in
      if p =? NULL then retM NULL
      else match pb_decode f payload_ with Some _ => retM p | None => retM NULL end
  end.

Definition get_message (p : Z) : SAP pb_response :=
  let* s := getM in of_option (match objs s !! p with Some (OMessage (Some m)) => Some m | _ => None end).

(** sap_service.cpp:765-915 [processResponse] on a header with [token_], [i] and the payload. *)
Definition processResponse (token_ : Z) (i : MsgId) (payload_ : list Z) (socketId : Z) (ty : MsgType) : SAP unit :=
  let* messagePtr := sapDecodeMessage i ty payload_ in
  let* k := of_option (getSapImpl socketId) in
  let* im := get_impl k in
  if sapCallback im =? NULL then retM tt
  else if messagePtr =? NULL then sendFailedResponse k i token_ []
  else
    let* m := get_message messagePtr in
    let* ok := call_client k token_ (answer_of m) in
    checkReturnStatus k ok.

(** RilSapSocket.cpp:107-122 [RilSapSocket::getSocketById] the index of the socket. *)
Definition getSocketById (socketId : Z) : SAP (option nat) :=
  let* s := getM in retM (fst <$> list_find (fun x => socketId = id x) (sockets s)).

(** RilSapSocket.cpp:244-280 [RilSapSocket::onRequestComplete] of socket [k]. *)
Definition onRequestComplete (k : nat) (t e : Z) (response : list Z) : SAP unit :=
  let* request := get_req t in
  let hdr := curr request in
  let* h := get_header hdr in
  let* payload_ := malloc (OBytes response) in
  (if payload_ =? NULL then retM tt
   else
     let* x := get_socket k in
     let* bs := get_bytes payload_ in
     processResponse (h_token h) (h_id h) bs (id x) MsgType_RESPONSE;;
     free payload_);;
  let* h := get_header hdr in
  checkAndDequeue k (h_id h) (h_token h);;
  free hdr.

(** RilSapSocket.cpp:55-76 [RilSapSocket::sOnRequestComplete]. *)
Definition sOnRequestComplete (t e : Z) (response : list Z) : SAP unit :=
  let* request := get_req t in
  let* k := getSocketById (r_socketId request) in
  match k with
  | Some k => onRequestComplete k t e response
  | None =>
      let* h := get_header (curr request) in
      free (h_payload h);; free (curr request);; free t
  end.

(** RilSapSocket.cpp:282-300 [RilSapSocket::onUnsolicitedResponse] of socket [k]. The token of
    the message is not set: [stack] is what its memory holds. *)
Definition onUnsolicitedResponse (k : nat) (unsolResponse : MsgId) (data : list Z) (stack : Z) : SAP unit :=
  match data with
  | [] => retM tt
  | _ =>
      let* payload_ := malloc (OBytes data) in
      if payload_ =? NULL then retM tt
      else
        let* x := get_socket k in
        let* bs := get_bytes payload_ in
        processResponse stack unsolResponse bs (id x) MsgType_UNSOL_RESPONSE;;
        free payload_
  end.

(** RilSapSocket.cpp:79-87 [RilSapSocket::sOnUnsolicitedResponse]. *)
Definition sOnUnsolicitedResponse (unsolResponse : MsgId) (data : list Z) (socketId stack : Z) : SAP unit :=
  let* k := getSocketById socketId in
  match k with
  | Some k => onUnsolicitedResponse k unsolResponse data stack
  | None => retM tt
  end.

(** * Requests *)

(** RilSapSocket.cpp:211-242 [RilSapSocket::dispatchRequest] of socket [k]. [early] is the
    vendor's answer when it comes before [onRequest] returns. *)
Definition dispatchRequest (k : nat) (req : Z) (early : option (Z * list Z)) : SAP unit :=
  let* x := get_socket k in
  let* h := get_header req in
  let* currRequest := malloc (ORequest (mkSapReq (h_token h) req NULL (id x))) in
  if currRequest =? NULL then free req
  else
    enqueue k currRequest;;
    let* f := of_option (uimFuncs x) in
    if f =? NULL then retM tt
    else
      let* h := get_header req in
      let* bs := get_bytes (h_payload h) in
      modM (fun s => s <| sap_trace := sap_trace s ++ [ToUim (h_id h) bs currRequest (id x)] |>);;
      match early with
      | Some (e, response) => sOnRequestComplete currRequest e response
      | None => retM tt
      end.

(** sap_service.cpp:94-105 [SapImpl::createMsgHeader]. *)
Definition createMsgHeader (i : MsgId) (token_ : Z) : SAP Z :=
  malloc (OHeader (mkHeader token_ MsgType_REQUEST i 0 NULL)).

(** sap_service.cpp:107-129 [SapImpl::addPayloadAndDispatchRequest] of the service of slot [k]. *)
Definition addPayloadAndDispatchRequest (k : nat) (msg reqLen reqPtr : Z) (early : option (Z * list Z)) : SAP unit :=
  let reqLen := reqLen mod 2 ^ 16 in
  let* buffer := get_bytes reqPtr in
  let* h := get_header msg in
  let* payload_ := malloc (OBytes (zeros (Z.to_nat reqLen))) in
  put msg (OHeader (h <| h_payload := payload_ |>));;
  if payload_ =? NULL then sendFailedResponse k (h_id h) (h_token h) [reqPtr; msg]
  else
    let* bs := of_option (mem_read buffer 0 reqLen) in
    put payload_ (OBytes bs);;
    let* im := get_impl k in
    let* sapSocket := getSocketById (rilSocketId im) in
    match sapSocket with
    | Some j =>
        dispatchRequest j msg early;;
        let* h := get_header msg in
        free (h_payload h);;
        free reqPtr
    | None => sendFailedResponse k (h_id h) (h_token h) [payload_; reqPtr; msg]
    end.

(** The part the requests have in common once the structure [req] is filled: encode it and
    dispatch it; [command] is the memory of an APDU's command, or NULL. *)
Definition encode_and_dispatch (k : nat) (i : MsgId) (token_ msg command : Z) (req : pb_request) (early : option (Z * list Z)) : SAP unit :=
  match pb_get_encoded_size req with
  | None => sendFailedResponse k i token_ [command; msg]
  | Some encodedSize =>
      let* buffer := malloc (OBytes (zeros (Z.to_nat encodedSize))) in
      if buffer =? NULL then sendFailedResponse k i token_ [command; msg]
      else
        match pb_encode encodedSize req with
        | None => sendFailedResponse k i token_ [command; buffer; msg]
        | Some bs =>
            let* mem := of_option (mem_write (zeros (Z.to_nat encodedSize)) 0 bs) in
            put buffer (OBytes mem);;
            addPayloadAndDispatchRequest k msg (zlen bs) buffer early
        end
  end.

(** A request without memory of its own: the header, then the encoded structure. *)
Definition simple_request (k : nat) (i : MsgId) (token_ : Z) (req : pb_request) (early : option (Z * list Z)) : SAP unit :=
  let* msg := createMsgHeader i token_ in
  if msg =? NULL then sendFailedResponse k i token_ []
  else encode_and_dispatch k i token_ msg NULL req early.

(** sap_service.cpp:185-224 [SapImpl::connectReq]. *)
Definition connectReq (k : nat) (token_ maxMsgSize : Z) : option (Z * list Z) -> SAP unit :=
  simple_request k MsgId_RIL_SIM_SAP_CONNECT token_ (RIL_SIM_SAP_CONNECT_REQ maxMsgSize).

(** sap_service.cpp:226-265 [SapImpl::disconnectReq]. *)
Definition disconnectReq (k : nat) (token_ : Z) : option (Z * list Z) -> SAP unit :=
  simple_request k MsgId_RIL_SIM_SAP_DISCONNECT token_ RIL_SIM_SAP_DISCONNECT_REQ.

(** sap_service.cpp:267-318 [SapImpl::apduReq] the command stays allocated after a request that
    was encoded. *)
Definition apduReq (k : nat) (token_ type : Z) (command : list Z) (early : option (Z * list Z)) : SAP unit :=
  let* msg := createMsgHeader MsgId_RIL_SIM_SAP_APDU token_ in
  if msg =? NULL then sendFailedResponse k MsgId_RIL_SIM_SAP_APDU token_ []
  else match command with
       | [] => encode_and_dispatch k MsgId_RIL_SIM_SAP_APDU token_ msg NULL (RIL_SIM_SAP_APDU_REQ type None) early
       | _ =>
           let* p := malloc (OBytes command) in
           if p =? NULL then sendFailedResponse k MsgId_RIL_SIM_SAP_APDU token_ [msg]
           else encode_and_dispatch k MsgId_RIL_SIM_SAP_APDU token_ msg p (RIL_SIM_SAP_APDU_REQ type (Some command)) early
       end.

(** sap_service.cpp:320-360 [SapImpl::transferAtrReq]. *)
Definition transferAtrReq (k : nat) (token_ : Z) : option (Z * list Z) -> SAP unit :=
  simple_request k MsgId_RIL_SIM_SAP_TRANSFER_ATR token_ RIL_SIM_SAP_TRANSFER_ATR_REQ.

(** sap_service.cpp:362-402 [SapImpl::powerReq]. *)
Definition powerReq (k : nat) (token_ : Z) (state : bool) : option (Z * list Z) -> SAP unit :=
  simple_request k MsgId_RIL_SIM_SAP_POWER token_ (RIL_SIM_SAP_POWER_REQ state).

(** sap_service.cpp:404-443 [SapImpl::resetSimReq]. *)
Definition resetSimReq (k : nat) (token_ : Z) : option (Z * list Z) -> SAP unit :=
  simple_request k MsgId_RIL_SIM_SAP_RESET_SIM token_ RIL_SIM_SAP_RESET_SIM_REQ.

(** sap_service.cpp:445-487 [SapImpl::transferCardReaderStatusReq]. *)
Definition transferCardReaderStatusReq (k : nat) (token_ : Z) : option (Z * list Z) -> SAP unit :=
  simple_request k MsgId_RIL_SIM_SAP_TRANSFER_CARD_READER_STATUS token_ RIL_SIM_SAP_TRANSFER_CARD_READER_STATUS_REQ.

(** sap_service.cpp:489-531 [SapImpl::setTransferProtocolReq]. *)
Definition setTransferProtocolReq (k : nat) (token_ protocol : Z) : option (Z * list Z) -> SAP unit :=
  simple_request k MsgId_RIL_SIM_SAP_SET_TRANSFER_PROTOCOL token_ (RIL_SIM_SAP_SET_TRANSFER_PROTOCOL_REQ protocol).
End Service.

(** * Set-up *)

Definition RIL1_SERVICE_NAME : string := "slot1".
Definition RIL2_SERVICE_NAME : string := "slot2".

(** RilSapSocket.cpp:190-200 [RilSapSocket::SocketExists]. *)
Definition SocketExists (socketName : string) : SAP bool :=
  let* s := getM in retM (existsb (fun x => String.eqb (name x) socketName) (sockets s)).

(** RilSapSocket.cpp:158-188 [RilSapSocket::addSocketToList] with the constructor. *)
Definition addSocketToList (socketName : string) (socketid funcs : Z) : SAP unit :=
  let* e := SocketExists socketName in
  if e then retM tt
  else
    let* listItem := malloc OItem in
    if listItem =? NULL then retM tt
    else
      let x := mkSock socketName socketid (if funcs =? NULL then None else Some funcs) NULL in
      modM (fun s => s <| sockets := sockets s ++ [x] |>).

(** RilSapSocket.cpp:124-156 [RilSapSocket::initSapSocket]. *)
Definition initSapSocket (socketName : string) (funcs : Z) : SAP unit :=
  (if String.eqb socketName RIL1_SERVICE_NAME then
     let* e := SocketExists socketName in if e then retM tt else addSocketToList socketName 0 funcs
   else retM tt);;
  (if String.eqb socketName RIL2_SERVICE_NAME then
     let* e := SocketExists socketName in if e then retM tt else addSocketToList socketName 1 funcs
   else retM tt).

(** sap_service.cpp:925-965 [sap::registerService] less the registration of the names. *)
Definition sap_registerService : SAP unit :=
  modM (fun s => s <| sapService := [mkImpl 0 NULL 0; mkImpl 1 NULL 1] |>).

(** ril.cpp:1116-1147 [RIL_register_socket] with [init] what the vendor's function returns. *)
Definition RIL_register_socket (init : option Z) : SAP unit :=
  match init with
  | None => retM tt
  | Some funcs =>
      initSapSocket RIL1_SERVICE_NAME funcs;;
      initSapSocket RIL2_SERVICE_NAME funcs;;
      sap_registerService
  end.

Definition sap_start (l : list Z) : Sap := mkSap ∅ l [] [] [] [].
