(* ===== verification/SapProps.v ===== *)
(** The service for SIM access keeps an abstract queue of requests per slot: every call that
    follows the rules returns and does to the abstract queues what it should, and memory is
    what the queues need, plus what the service forgets to free. *)

From stdpp Require Import base list gmap numbers.
From Stdlib Require Import ZArith Lia.
From S2P Require Import Prelude RilEvent Sap.

Local Open Scope Z_scope.
Local Open Scope st_scope.
Local Open Scope rec_scope.

(** * Requests that wait *)

(** A request that waits: its memory, the header's, its id and token, and where its payload
    was. *)
Record pending := mkPend { pd_req : Z; pd_hdr : Z; pd_id : MsgId; pd_token : Z; pd_load : Z }.

Definition key (d : pending) : MsgId * Z := (pd_id d, pd_token d).
Definition addrs (q : list pending) : list Z := d ← q; [pd_req d; pd_hdr d].

Definition header_of (d : pending) : obj := OHeader (mkHeader (pd_token d) MsgType_REQUEST (pd_id d) 0 (pd_load d)).
Definition request_of (sock : Z) (d : pending) (next : Z) : obj := ORequest (mkSapReq (pd_token d) (pd_hdr d) next sock).

(** The linked list that starts at [front] is [q]. *)
Fixpoint queue_at (h : gmap Z obj) (sock front : Z) (q : list pending) : Prop :=
  match q with
  | [] => front = NULL
  | d :: q' =>
      front = pd_req d /\ front <> NULL /\ h !! pd_hdr d = Some (header_of d) /\
      exists next, h !! pd_req d = Some (request_of sock d next) /\ queue_at h sock next q'
  end.

Implicit Types (h : gmap Z obj) (q : list pending) (d : pending).

Lemma elem_addrs a q : a ∈ addrs q <-> exists d, d ∈ q /\ (a = pd_req d \/ a = pd_hdr d).
Proof. unfold addrs. rewrite list_elem_of_bind. set_solver. Qed.

Lemma addrs_app q1 q2 : addrs (q1 ++ q2) = addrs q1 ++ addrs q2.
Proof. apply bind_app. Qed.

Lemma queue_at_frame h h' sock front q : (forall a, a ∈ addrs q -> h' !! a = h !! a) ->
  queue_at h sock front q -> queue_at h' sock front q.
Proof.
  revert front. induction q as [|d q IH]; intros front Hf; [done|]. cbn. intros (-> & Hz & Hh & next & Hr & Hq).
  repeat split; [done| |].
  - by rewrite Hf by (cbn; set_solver).
  - exists next. rewrite Hf by (cbn; set_solver). split; [done|]. apply IH; [|done].
    intros a Ha. apply Hf. cbn. set_solver.
Qed.

Lemma queue_at_in h sock front q d : queue_at h sock front q -> d ∈ q ->
  h !! pd_hdr d = Some (header_of d) /\ exists next, h !! pd_req d = Some (request_of sock d next).
Proof.
  revert front. induction q as [|e q IH]; intros front; [set_solver|]. cbn. intros (-> & Hz & Hh & next & Hr & Hq).
  rewrite elem_of_cons. intros [->|Hd]; [by eauto|by eapply IH].
Qed.

Lemma queue_at_alloc h sock front q a : queue_at h sock front q -> a ∈ addrs q -> is_Some (h !! a).
Proof.
  intros Hq (d & Hd & Ha)%elem_addrs. destruct (queue_at_in _ _ _ _ _ Hq Hd) as [H1 [next H2]]. destruct Ha; subst; eauto.
Qed.

(** The front depends on the list only. *)
Definition front_of q : Z := match q with [] => NULL | d :: _ => pd_req d end.

Lemma queue_front h sock front q : queue_at h sock front q -> front = front_of q.
Proof. destruct q; cbn; naive_solver. Qed.

(** * Running on an explicit state *)

Section Steps.
Context (m : list Z) (so : list RilSapSocket) (sv : list SapImpl) (cb : list bool) (tr : list sap_out).
Implicit Types p a : Z.

Lemma malloc_ok h p o : p <> NULL -> malloc o (mkSap h (p :: m) so sv cb tr) = Ok (p, mkSap (<[p := o]> h) m so sv cb tr).
Proof. intros Hp. unfold malloc. run. rewrite (proj2 (Z.eqb_neq _ _) Hp). reflexivity. Qed.

Lemma malloc_fail h l o : hd NULL l = NULL -> malloc o (mkSap h l so sv cb tr) = Ok (NULL, mkSap h (tail l) so sv cb tr).
Proof. intros Hp. unfold malloc. run. rewrite Hp. reflexivity. Qed.

Lemma free_ok h p : is_Some (h !! p) -> p <> NULL -> free p (mkSap h m so sv cb tr) = Ok (tt, mkSap (delete p h) m so sv cb tr).
Proof. intros [o Ho] Hp. unfold free. rewrite (proj2 (Z.eqb_neq _ _) Hp). run. rewrite Ho. reflexivity. Qed.

Lemma put_ok h p o : put p o (mkSap h m so sv cb tr) = Ok (tt, mkSap (<[p := o]> h) m so sv cb tr).
Proof. reflexivity. Qed.

Lemma get_header_ok h p x : h !! p = Some (OHeader x) -> get_header p (mkSap h m so sv cb tr) = Ok (x, mkSap h m so sv cb tr).
Proof. intros H. unfold get_header. run. by rewrite H. Qed.

Lemma get_req_ok h p x : h !! p = Some (ORequest x) -> get_req p (mkSap h m so sv cb tr) = Ok (x, mkSap h m so sv cb tr).
Proof. intros H. unfold get_req. run. by rewrite H. Qed.

Lemma get_bytes_ok h p x : h !! p = Some (OBytes x) -> get_bytes p (mkSap h m so sv cb tr) = Ok (x, mkSap h m so sv cb tr).
Proof. intros H. unfold get_bytes. run. by rewrite H. Qed.

Lemma get_message_ok h p x : h !! p = Some (OMessage (Some x)) -> get_message p (mkSap h m so sv cb tr) = Ok (x, mkSap h m so sv cb tr).
Proof. intros H. unfold get_message. run. by rewrite H. Qed.

Lemma get_socket_ok h k x : so !! k = Some x -> get_socket k (mkSap h m so sv cb tr) = Ok (x, mkSap h m so sv cb tr).
Proof. intros H. unfold get_socket. run. by rewrite H. Qed.

Lemma get_impl_ok h k x : sv !! k = Some x -> get_impl k (mkSap h m so sv cb tr) = Ok (x, mkSap h m so sv cb tr).
Proof. intros H. unfold get_impl. run. by rewrite H. Qed.

(** Pushing a request on the front of its queue. *)
Lemma enqueue_ok h k x p tok hd_ nx sock : so !! k = Some x -> h !! p = Some (ORequest (mkSapReq tok hd_ nx sock)) ->
  enqueue k p (mkSap h m so sv cb tr) =
  Ok (tt, mkSap (<[p := ORequest (mkSapReq tok hd_ (pendingResponseQueue x) sock)]> h) m
                (alter (fun x => x <| pendingResponseQueue := p |>) k so) sv cb tr).
Proof.
  intros Hx Hp. unfold enqueue. rewrite (bindM_ok _ _ _ _ _ (get_socket_ok h k x Hx)), (bindM_ok _ _ _ _ _ (get_req_ok h p _ Hp)).
  destruct (Z.eqb_spec (pendingResponseQueue x) NULL) as [->|Hn]; reflexivity.
Qed.
End Steps.

(** A lookup in a memory with known changes, and a run's next operation by its lemma. *)
Ltac look := repeat first [rewrite lookup_insert_eq | rewrite lookup_insert_ne by congruence | rewrite lookup_delete_eq
                          | rewrite lookup_delete_ne by congruence]; eauto using mk_is_Some.
Tactic Notation "step" uconstr(L) := erewrite bindM_ok by (apply L; look).
Ltac step_ret := cbn [of_option]; rewrite (bindM_ok _ _ _ _ _ (eq_refl : retM _ _ = Ok (_, _))).

(** * Taking a request out of the queue *)

(** The memory after the request [d] between [q1] and [q2] is unlinked and freed. *)
Definition unlinked h sock q1 d q2 : gmap Z obj :=
  delete (pd_req d) (match list.last q1 with None => h | Some e => <[pd_req e := request_of sock e (front_of q2)]> h end).

Definition distinct q : Prop := NoDup (addrs q).

Lemma distinct_middle q1 d q2 : distinct (q1 ++ d :: q2) ->
  pd_req d <> pd_hdr d /\ (forall a, a ∈ addrs (q1 ++ q2) -> a <> pd_req d /\ a <> pd_hdr d) /\ distinct (q1 ++ q2).
Proof.
  unfold distinct. rewrite !addrs_app. cbn [addrs mbind list_bind app]. fold (addrs q2).
  rewrite <- (Permutation_middle (addrs q1) (pd_hdr d :: addrs q2)), <- (Permutation_middle (addrs q1) (addrs q2)).
  intros [H1 [H2 H3]%list.NoDup_cons]%list.NoDup_cons. split; [|split; [|done]].
  - set_solver.
  - intros a Ha. split; intros ->; set_solver.
Qed.

Lemma distinct_cons d q : distinct (d :: q) ->
  pd_req d <> pd_hdr d /\ (forall a, a ∈ addrs q -> a <> pd_req d /\ a <> pd_hdr d) /\ distinct q.
Proof. apply (distinct_middle []). Qed.

Section Dequeue.
Context (m : list Z) (so : list RilSapSocket) (sv : list SapImpl) (cb : list bool) (tr : list sap_out) (k : nat) (sock : Z).

(** The test of the request the loop stands at. *)
Lemma look_at h e d : h !! pd_hdr e = Some (header_of e) ->
  (if pd_token d =? pd_token e then let* x := get_header (pd_hdr e) in retM (bool_decide (pd_id d = h_id x)) else retM false)
    (mkSap h m so sv cb tr) = Ok (bool_decide (key d = key e), mkSap h m so sv cb tr).
Proof.
  intros Hh. unfold key. destruct (Z.eqb_spec (pd_token d) (pd_token e)) as [Ht|Ht].
  - rewrite (bindM_ok _ _ _ _ _ (get_header_ok _ _ _ _ _ h _ _ Hh)). unfold retM. cbn [h_id]. f_equal. f_equal.
    apply bool_decide_ext. rewrite Ht. split; [by intros ->|by intros [= ->]].
  - unfold retM. rewrite bool_decide_false; [done|]. by intros [= _ ?].
Qed.

Lemma loop_step h fuel pp e next d : pd_req e <> NULL -> h !! pd_req e = Some (request_of sock e next) ->
  h !! pd_hdr e = Some (header_of e) ->
  dequeue_loop (S fuel) k pp (pd_req e) (pd_id d) (pd_token d) (mkSap h m so sv cb tr) =
  (if bool_decide (key d = key e) then store_link k pp next;; free (pd_req e);; retM true
   else dequeue_loop fuel k (Some (pd_req e)) next (pd_id d) (pd_token d)) (mkSap h m so sv cb tr).
Proof.
  intros Hz Hr Hh. cbn [dequeue_loop]. rewrite (proj2 (Z.eqb_neq _ _) Hz).
  rewrite (bindM_ok _ _ _ _ _ (get_req_ok _ _ _ _ _ h _ _ Hr)). cbn [r_token curr p_next].
  by rewrite (bindM_ok _ _ _ _ _ (look_at h e d Hh)).
Qed.

(** The loop with a request [e] behind it. *)
Lemma loop_behind q1 : forall h fuel e cur d q2,
  h !! pd_req e = Some (request_of sock e cur) -> queue_at h sock cur (q1 ++ d :: q2) -> distinct (e :: q1 ++ d :: q2) ->
  Forall (fun x => key d <> key x) q1 -> (length q1 < fuel)%nat ->
  dequeue_loop fuel k (Some (pd_req e)) cur (pd_id d) (pd_token d) (mkSap h m so sv cb tr) =
  Ok (true, mkSap (unlinked h sock (e :: q1) d q2) m so sv cb tr).
Proof.
  induction q1 as [|x q1 IH]; intros h fuel e cur d q2 He Hq Hd Hk Hf; (destruct fuel as [|fuel]; [cbn in Hf; lia|]);
    cbn [queue_at app] in Hq; destruct Hq as (-> & Hz & Hh & next & Hr & Hq).
  - rewrite (loop_step h fuel _ d next d Hz Hr Hh), bool_decide_true by done.
    apply distinct_cons in Hd as (_ & Hne & _). destruct (Hne (pd_req d)) as [Hne1 _]; [cbn; set_solver|].
    unfold store_link. rewrite bindM_assoc, (bindM_ok _ _ _ _ _ (get_req_ok _ _ _ _ _ h _ _ He)).
    unfold put. rewrite (bindM_ok _ _ _ _ _ (eq_refl : modM _ _ = Ok (tt, _))).
    change ((mkSap h m so sv cb tr) <| objs := _ |>) with
      (mkSap (<[pd_req e := request_of sock e next]> h) m so sv cb tr).
    assert (Ha : is_Some (<[pd_req e := request_of sock e next]> h !! pd_req d)) by (rewrite lookup_insert_ne by done; eauto).
    rewrite (bindM_ok _ _ _ _ _ (free_ok _ _ _ _ _ _ _ Ha Hz)).
    apply queue_front in Hq as ->. reflexivity.
  - apply list.Forall_cons in Hk as [Hkx Hk]. rewrite (loop_step h fuel _ x next d Hz Hr Hh), bool_decide_false by done.
    rewrite (IH h fuel x next d q2 Hr Hq); [|exact (proj2 (proj2 (distinct_cons _ _ Hd)))|exact Hk|cbn in Hf; lia].
    unfold unlinked. rewrite !list.last_cons. by destruct (list.last q1).
Qed.

Definition relink q1 q2 : list RilSapSocket :=
  match q1 with [] => alter (fun x => x <| pendingResponseQueue := front_of q2 |>) k so | _ => so end.

Lemma reqs_sublist q : sublist (pd_req <$> q) (addrs q).
Proof. induction q as [|d q IH]; [constructor|]. cbn. apply sublist_skip, sublist_cons. exact IH. Qed.

Lemma queue_length h front q : queue_at h sock front q -> distinct q -> (length q <= size h)%nat.
Proof.
  intros Hq Hd. rewrite <- (length_fmap pd_req q), <- (size_list_to_set (C := gset Z)), <- (size_dom (D := gset Z) h).
  - apply subseteq_size. intros a Ha. apply elem_of_list_to_set in Ha. apply elem_of_dom.
    apply (queue_at_alloc _ _ _ _ _ Hq). eapply elem_of_submseteq; [exact Ha|]. apply sublist_submseteq, reqs_sublist.
  - eapply sublist_NoDup; [exact Hd|apply reqs_sublist].
Qed.

(** Taking out the first request with the id and token of [d]. *)
Lemma checkAndDequeue_ok h x q1 d q2 : so !! k = Some x -> queue_at h sock (pendingResponseQueue x) (q1 ++ d :: q2) ->
  distinct (q1 ++ d :: q2) -> Forall (fun e => key d <> key e) q1 ->
  checkAndDequeue k (pd_id d) (pd_token d) (mkSap h m so sv cb tr) =
  Ok (true, mkSap (unlinked h sock q1 d q2) m (relink q1 q2) sv cb tr).
Proof.
  intros Hx Hq Hd Hk. pose proof (queue_length _ _ _ Hq Hd) as Hlen. rewrite length_app in Hlen. cbn [length] in Hlen.
  unfold checkAndDequeue. rewrite (bindM_ok _ _ _ _ _ (get_socket_ok _ _ _ _ _ h k x Hx)).
  rewrite (bindM_ok _ _ _ _ _ (eq_refl : getM _ = Ok (_, _))). cbn [objs].
  destruct q1 as [|e q1]; cbn [queue_at app] in Hq; destruct Hq as (-> & Hz & Hh & next & Hr & Hq).
  - rewrite (loop_step h _ None d next d Hz Hr Hh), bool_decide_true by done. cbn [store_link]. unfold set_front.
    rewrite (bindM_ok _ _ _ _ _ (eq_refl : modM _ _ = Ok (tt, _))).
    change ((mkSap h m so sv cb tr) <| sockets := _ |>) with
      (mkSap h m (alter (fun x => x <| pendingResponseQueue := next |>) k so) sv cb tr).
    rewrite (bindM_ok _ _ _ _ _ (free_ok _ _ _ _ _ _ _ (mk_is_Some _ _ Hr) Hz)).
    apply queue_front in Hq as ->. reflexivity.
  - apply list.Forall_cons in Hk as [Hke Hk]. rewrite (loop_step h _ None e next d Hz Hr Hh), bool_decide_false by done.
    rewrite (loop_behind q1 h _ e next d q2 Hr Hq Hd Hk) by (cbn in Hlen; lia). reflexivity.
Qed.
End Dequeue.

Lemma elem_addrs_mid a q1 d q2 : a ∈ addrs (q1 ++ d :: q2) <-> a = pd_req d \/ a = pd_hdr d \/ a ∈ addrs (q1 ++ q2).
Proof. rewrite !addrs_app. cbn [addrs mbind list_bind app]. fold (addrs q2). rewrite !elem_of_app, !elem_of_cons. tauto. Qed.

(** What is left in memory is the queue without the request. *)
Lemma unlinked_lookup h sock q1 d q2 a : a ∉ addrs (q1 ++ q2) -> a <> pd_req d -> unlinked h sock q1 d q2 !! a = h !! a.
Proof.
  intros Ha Hd. unfold unlinked. rewrite lookup_delete_ne by done. destruct (list.last q1) as [e|] eqn:He; [|done].
  rewrite lookup_insert_ne; [done|]. intros <-. apply Ha, elem_addrs. exists e.
  split; [apply elem_of_app; left; by apply last_Some_elem_of|by left].
Qed.

Lemma queue_unlinked h sock front q1 d q2 : queue_at h sock front (q1 ++ d :: q2) -> distinct (q1 ++ d :: q2) ->
  queue_at (unlinked h sock q1 d q2) sock (front_of (q1 ++ q2)) (q1 ++ q2).
Proof.
  revert front. induction q1 as [|e q1 IH]; intros front Hq Hd.
  - destruct Hq as (_ & _ & _ & next & _ & Hq). pose proof (queue_front _ _ _ _ Hq) as ->.
    apply (queue_at_frame h); [|done]. intros a Ha. unfold unlinked. cbn.
    destruct (distinct_cons _ _ Hd) as (_ & Hne & _). destruct (Hne a Ha) as [H1 _]. by rewrite lookup_delete_ne.
  - cbn [app] in *. destruct Hq as (-> & Hz & Hh & next & Hr & Hq). destruct (distinct_cons _ _ Hd) as (Heh & Hne & Hd').
    assert (Hn1 : pd_req e <> pd_req d /\ pd_hdr e <> pd_req d).
    { destruct (Hne (pd_req d)) as [H1 H2]; [apply elem_addrs_mid; by left|]. split; congruence. }
    assert (Hout : forall a, a = pd_req e \/ a = pd_hdr e -> a ∉ addrs (q1 ++ q2)).
    { intros a Ha Hin. destruct (Hne a) as [H1 H2]; [apply elem_addrs_mid; auto|]. naive_solver. }
    cbn [front_of queue_at]. repeat split; [done| |].
    + unfold unlinked. rewrite lookup_delete_ne by naive_solver.
      assert (Hx : forall x v, x ∈ e :: q1 -> <[pd_req x := v]> h !! pd_hdr e = h !! pd_hdr e).
      { intros x v Hx. rewrite lookup_insert_ne; [done|]. apply elem_of_cons in Hx as [->|Hx]; [done|].
        intros E. apply (Hout (pd_req x)); [by right|]. apply elem_addrs. exists x. set_solver. }
      destruct (list.last (e :: q1)) as [x|] eqn:El; [|done]. rewrite Hx; [done|by apply last_Some_elem_of].
    + specialize (IH next Hq Hd'). destruct q1 as [|x q1]; cbn [app] in *.
      * exists (front_of q2). split; [|].
        -- unfold unlinked. cbn. rewrite lookup_delete_ne by naive_solver. by rewrite lookup_insert_eq.
        -- apply (queue_at_frame (unlinked h sock [] d q2)); [|done]. intros a Ha. unfold unlinked. cbn.
           rewrite !lookup_delete. case_decide; [done|]. rewrite lookup_insert_ne; [done|].
           intros <-. apply (Hout (pd_req e)); [by left|done].
      * exists (pd_req x). pose proof (queue_front _ _ _ _ Hq) as Hf. cbn in Hf. subst next. split.
        -- unfold unlinked. rewrite lookup_delete_ne by naive_solver. rewrite list.last_cons_cons.
           destruct (list.last (x :: q1)) as [y|] eqn:El; [|done]. rewrite lookup_insert_ne; [done|].
           intros E. apply (Hout (pd_req y)); [by left|]. apply elem_addrs. exists y.
           split; [|by left]. apply (elem_of_app (x :: q1) q2). left. by apply last_Some_elem_of.
        -- exact IH.
Qed.

(** * The service and its abstract state *)

Definition slot_name (k : nat) : String.string := match k with O => RIL1_SERVICE_NAME | _ => RIL2_SERVICE_NAME end.
Definition socket_at (f : Z) (k : nat) q : RilSapSocket := mkSock (slot_name k) (Z.of_nat k) (Some f) (front_of q).
Definition service_at (k : nat) (c : Z) : SapImpl := mkImpl (Z.of_nat k) c (Z.of_nat k).

(** The queues [qs] and the clients [cs] of the two slots, for the vendor's functions [f]. *)
Record sap_rep (f : Z) (qs : list (list pending)) (cs : list Z) (s : Sap) : Prop := {
  rep_slots : length qs = 2%nat;
  rep_clients : length cs = 2%nat;
  rep_funcs : f <> NULL;
  rep_sockets : sockets s = imap (socket_at f) qs;
  rep_service : sapService s = imap service_at cs;
  rep_queues k q : qs !! k = Some q -> queue_at (objs s) (Z.of_nat k) (front_of q) q;
  rep_distinct : distinct (mjoin qs);
  rep_keys k q : qs !! k = Some q -> NoDup (key <$> q);
  rep_null : objs s !! NULL = None;
  rep_once : NoDup (filter (fun p => p <> NULL) (mallocs s));
  rep_fresh p : p ∈ mallocs s -> objs s !! p = None;
}.

Section Requests.
Context (pb_get_encoded_size : pb_request -> option Z).
Context (pb_encode : Z -> pb_request -> option (list Z)).
Context (pb_decode : pb_fields -> list Z -> option pb_response).

(** What the vendor's library gets of the [bs] encoded bytes: their number is kept in 16 bits. *)
Definition sent (bs : list Z) : list Z := take (Z.to_nat (zlen bs mod 2 ^ 16)) bs.

Lemma sent_short bs : zlen bs < 2 ^ 16 -> sent bs = bs.
Proof. intros H. unfold sent. rewrite Z.mod_small by (unfold zlen in *; lia). apply take_ge. unfold zlen. lia. Qed.

Lemma buffer_read bs n : zlen bs <= n ->
  exists mem, mem_write (zeros (Z.to_nat n)) 0 bs = Some mem /\ mem_read mem 0 (zlen bs mod 2 ^ 16) = Some (sent bs).
Proof.
  intros Hn. unfold mem_write, mem_read, sent. assert (Hb : 0 <= zlen bs) by (unfold zlen; lia).
  assert (Hz : zlen (zeros (Z.to_nat n)) = n) by (unfold zlen, zeros in *; rewrite length_replicate; lia).
  rewrite Hz, (proj2 (Z.leb_le (0 + _) _)) by lia. cbn [andb Z.leb Z.compare]. eexists. split; [reflexivity|].
  pose proof (Z.mod_pos_bound (zlen bs) (2 ^ 16) ltac:(lia)). pose proof (Z.mod_le (zlen bs) (2 ^ 16) Hb ltac:(lia)).
  rewrite (proj2 (Z.leb_le 0 (_ mod _))) by lia. cbn [andb Z.leb Z.compare].
  rewrite (proj2 (Z.leb_le _ _)).
  - rewrite drop_0, take_0, app_nil_l, take_app_le; [done|]. unfold zlen in *. lia.
  - unfold zlen in *. rewrite !length_app. lia.
Qed.

Lemma find_socket f qs k : (k < length qs)%nat ->
  list_find (fun x => Z.of_nat k = id x) (imap (socket_at f) qs) =
  (fun q => (k, socket_at f k q)) <$> qs !! k.
Proof.
  intros Hk. destruct (lookup_lt_is_Some_2 _ _ Hk) as [q Hq]. rewrite Hq. apply list_find_Some. repeat split.
  - by rewrite list_lookup_imap, Hq.
  - intros j y Hj Hlt. rewrite list_lookup_imap in Hj. destruct (qs !! j); [|done]. injection Hj as <-. cbn. lia.
Qed.

Lemma set_front_at f qs k q p : front_of q = p ->
  alter (fun x => x <| pendingResponseQueue := p |>) k (imap (socket_at f) qs) = imap (socket_at f) (<[k := q]> qs).
Proof.
  intros <-. apply list_eq. intros j. rewrite list_lookup_imap. destruct (decide (j = k)) as [->|Hj].
  - rewrite list_lookup_alter_eq, list_lookup_imap. destruct (qs !! k) as [q0|] eqn:E.
    + rewrite list_lookup_insert_eq by (by eapply lookup_lt_Some). reflexivity.
    + rewrite list_insert_ge by (by apply lookup_ge_None). by rewrite E.
  - by rewrite list_lookup_alter_ne, list_lookup_imap, list_lookup_insert_ne by done.
Qed.

Section Run.
Context (f : Z) (qs : list (list pending)) (cs : list Z) (m : list Z) (cb : list bool) (tr : list sap_out).
Context (k : nat) (q : list pending) (Hk : qs !! k = Some q) (Hf : f <> NULL) (Hc : (k < length cs)%nat).

(** The state with the queues and clients above. *)
Abbreviation st h m qs tr := (mkSap h m (imap (socket_at f) qs) (imap service_at cs) cb tr).

Lemma socket_ok h l tr' : get_socket k (st h l qs tr') = Ok (socket_at f k q, st h l qs tr').
Proof. apply get_socket_ok. by rewrite list_lookup_imap, Hk. Qed.

Lemma getSocketById_ok h l tr' : getSocketById (Z.of_nat k) (st h l qs tr') = Ok (Some k, st h l qs tr').
Proof.
  unfold getSocketById. run. rewrite find_socket by (by eapply lookup_lt_Some). by rewrite Hk.
Qed.

Lemma impl_ok h l tr' : get_impl k (st h l qs tr') = Ok (service_at k (default NULL (cs !! k)), st h l qs tr').
Proof. apply get_impl_ok. rewrite list_lookup_imap. destruct (lookup_lt_is_Some_2 _ _ Hc) as [c ->]. reflexivity. Qed.

(** Dispatching a request whose payload is in memory, up to the vendor's answer. *)
Lemma dispatch_gen h msg p r i tok bs early :
  h !! msg = Some (OHeader (mkHeader tok MsgType_REQUEST i 0 p)) -> h !! p = Some (OBytes bs) ->
  r <> NULL -> h !! r = None ->
  let d := mkPend r msg i tok p in
  dispatchRequest pb_decode k msg early (st h (r :: m) qs tr) =
  (match early with Some (e, resp) => sOnRequestComplete pb_decode r e resp | None => retM tt end)
    (st (<[r := request_of (Z.of_nat k) d (front_of q)]> h) m (<[k := d :: q]> qs) (tr ++ [ToUim i bs r (Z.of_nat k)])).
Proof.
  intros Hm Hp Hr Hfr d. unfold dispatchRequest. rewrite (bindM_ok _ _ _ _ _ (socket_ok _ _ _)).
  rewrite (bindM_ok _ _ _ _ _ (get_header_ok _ _ _ _ _ _ _ _ Hm)). cbn [h_token id socket_at].
  rewrite (bindM_ok _ _ _ _ _ (malloc_ok _ _ _ _ _ _ _ _ Hr)), (proj2 (Z.eqb_neq _ _) Hr).
  assert (Hso : imap (socket_at f) qs !! k = Some (socket_at f k q)) by (by rewrite list_lookup_imap, Hk).
  rewrite (bindM_ok _ _ _ _ _ (enqueue_ok _ _ _ _ _ _ _ _ _ _ _ _ _ Hso (lookup_insert_eq _ _ _))).
  cbn [uimFuncs of_option socket_at]. rewrite (bindM_ok _ _ _ _ _ (eq_refl : retM f _ = Ok (f, _))), (proj2 (Z.eqb_neq _ _) Hf).
  rewrite insert_insert_eq. cbn [pendingResponseQueue].
  assert (Hn1 : r <> msg) by congruence. assert (Hn2 : r <> p) by congruence.
  erewrite bindM_ok by (apply get_header_ok; rewrite lookup_insert_ne by done; exact Hm).
  erewrite bindM_ok by (apply get_bytes_ok; cbn [h_payload]; rewrite lookup_insert_ne by done; exact Hp).
  rewrite (bindM_ok _ _ _ _ _ (eq_refl : modM _ _ = Ok (tt, _))). cbn [h_id].
  rewrite (set_front_at f qs k (d :: q) r) by done. reflexivity.
Qed.

Lemma dispatch_ok h msg p r i tok bs :
  h !! msg = Some (OHeader (mkHeader tok MsgType_REQUEST i 0 p)) -> h !! p = Some (OBytes bs) ->
  r <> NULL -> h !! r = None ->
  let d := mkPend r msg i tok p in
  dispatchRequest pb_decode k msg None (st h (r :: m) qs tr) =
  Ok (tt, st (<[r := request_of (Z.of_nat k) d (front_of q)]> h) m (<[k := d :: q]> qs) (tr ++ [ToUim i bs r (Z.of_nat k)])).
Proof. intros Hm Hp Hr Hfr d. by rewrite (dispatch_gen h msg p r i tok bs None). Qed.

(** Encoding a request and dispatching it when memory suffices: the header stays, with the
    request that refers to it; buffer and payload are freed. *)
Lemma encode_dispatch_ok h msg c b p r i tok req n bs :
  pb_get_encoded_size req = Some n -> pb_encode n req = Some bs -> zlen bs <= n ->
  h !! msg = Some (OHeader (mkHeader tok MsgType_REQUEST i 0 NULL)) ->
  Forall (fun x => x <> NULL /\ h !! x = None) [b; p; r] -> NoDup [b; p; r] ->
  let d := mkPend r msg i tok p in
  encode_and_dispatch pb_get_encoded_size pb_encode pb_decode k i tok msg c req None (st h (b :: p :: r :: m) qs tr) =
  Ok (tt, st (<[r := request_of (Z.of_nat k) d (front_of q)]> (<[msg := header_of d]> h)) m (<[k := d :: q]> qs)
        (tr ++ [ToUim i (sent bs) r (Z.of_nat k)])).
Proof.
  intros Hn Hbs Hle Hm Hfr Hnd d. rewrite !list.Forall_cons in Hfr. destruct Hfr as ((Hb & Fb) & (Hp & Fp) & (Hr & Fr) & _).
  rewrite !list.NoDup_cons in Hnd. destruct Hnd as (N1 & N2 & _ & _). rewrite !not_elem_of_cons in N1. rewrite !not_elem_of_cons in N2.
  destruct N1 as (Nbp & Nbr & _), N2 as (Npr & _).
  assert (Nmb : msg <> b) by congruence. assert (Nmp : msg <> p) by congruence. assert (Nmr : msg <> r) by congruence.
  destruct (buffer_read bs n Hle) as (mem & Hw & Hrd).
  unfold encode_and_dispatch. rewrite Hn. step malloc_ok. rewrite (proj2 (Z.eqb_neq _ _) Hb), Hbs, Hw. step_ret. step put_ok.
  unfold addPayloadAndDispatchRequest. step get_bytes_ok. step get_header_ok. step malloc_ok. step put_ok.
  rewrite (proj2 (Z.eqb_neq _ _) Hp), Hrd. step_ret. step put_ok. step impl_ok. cbn [rilSocketId service_at]. step getSocketById_ok.
  rewrite insert_insert_eq. change (OHeader (_ <| h_payload := p |>)) with (OHeader (mkHeader tok MsgType_REQUEST i 0 p)).
  step dispatch_ok. step get_header_ok. cbn [h_payload]. step free_ok. rewrite (free_ok _ _ _ _ _ _ b); [|look|done].
  do 3 f_equal. apply map_eq. intros a. destruct (decide (a = b)) as [->|]; [by look|]. destruct (decide (a = p)) as [->|]; [by look|].
  destruct (decide (a = r)) as [->|]; [by look|]. destruct (decide (a = msg)) as [->|]; by look.
Qed.
End Run.
End Requests.

(** * Keeping the representation *)

Lemma in_mjoin (qs : list (list pending)) k q x : qs !! k = Some q -> x ∈ q -> x ∈ mjoin qs.
Proof. intros Hk Hx. apply list_elem_of_join. exists q. split; [done|]. by eapply list_elem_of_lookup_2. Qed.

Lemma distinct_slot qs k q : qs !! k = Some q -> distinct (mjoin qs) -> distinct q.
Proof.
  intros Hk. rewrite <- (take_drop_middle _ _ _ Hk), join_app. cbn [mjoin list_join]. unfold distinct. rewrite !addrs_app.
  intros (_ & _ & H)%list.NoDup_app. by apply list.NoDup_app in H as (H & _).
Qed.

Lemma keys_before q1 d q2 : NoDup (key <$> (q1 ++ d :: q2)) -> Forall (fun e => key d <> key e) q1.
Proof.
  rewrite fmap_app. cbn. intros (_ & H & _)%list.NoDup_app. apply list.Forall_forall. intros e He E.
  apply (H (key e)); [by apply list_elem_of_fmap_2|]. rewrite E. set_solver.
Qed.

Lemma relink_at f qs k q1 d q2 : qs !! k = Some (q1 ++ d :: q2) ->
  relink (imap (socket_at f) qs) k q1 q2 = imap (socket_at f) (<[k := q1 ++ q2]> qs).
Proof.
  intros Hk. destruct q1 as [|e q1]; cbn [relink app]; [by apply set_front_at|].
  rewrite <- (set_front_at f qs k _ _ eq_refl). apply list_eq. intros j. destruct (decide (j = k)) as [->|Hj].
  - by rewrite list_lookup_alter_eq, list_lookup_imap, Hk.
  - by rewrite list_lookup_alter_ne.
Qed.

(** Allocation gives addresses that are not in use. *)
Definition malloc_wf h (l : list Z) : Prop :=
  h !! NULL = None /\ NoDup (filter (fun p => p <> NULL) l) /\ (forall p, p ∈ l -> h !! p = None).

Lemma rep_malloc f qs cs s : sap_rep f qs cs s -> malloc_wf (objs s) (mallocs s).
Proof. intros []. by split. Qed.

Lemma malloc_wf_tail h l : malloc_wf h l -> malloc_wf h (tail l).
Proof.
  intros (H1 & H2 & H3). destruct l as [|p l]; [done|]. split; [done|]. split; [|intros a Ha; apply H3; set_solver].
  cbn [tail]. rewrite list.filter_cons in H2. case_decide; [by apply list.NoDup_cons in H2 as [_ H2]|done].
Qed.

Lemma malloc_wf_take h p l o : malloc_wf h (p :: l) -> p <> NULL -> malloc_wf (<[p := o]> h) l.
Proof.
  intros (H1 & H2 & H3) Hp. rewrite list.filter_cons, decide_True in H2 by done. apply list.NoDup_cons in H2 as [H2 H4].
  split; [by look|]. split; [done|]. intros a Ha. destruct (decide (a = p)) as [->|Hne].
  - exfalso. apply H2, list_elem_of_filter. done.
  - rewrite lookup_insert_ne by done. apply H3. set_solver.
Qed.

Lemma malloc_wf_sub h h' l : malloc_wf h l -> (forall a, h !! a = None -> h' !! a = None) -> malloc_wf h' l.
Proof. intros (H1 & H2 & H3) Hs. split; [auto|]. split; [done|]. intros p Hp. auto. Qed.

Lemma mjoin_middle (qs : list (list pending)) k q : qs !! k = Some q -> mjoin qs ≡ₚ q ++ mjoin (<[k := []]> qs).
Proof.
  intros Hk. rewrite insert_take_drop by (by eapply lookup_lt_Some). rewrite <- (take_drop_middle _ _ _ Hk) at 1.
  rewrite !join_app. cbn [mjoin list_join]. rewrite app_nil_l. solve_Permutation.
Qed.

(** The addresses of two slots are different. *)
Lemma slots_disjoint qs j k qj qk a : distinct (mjoin qs) -> qs !! j = Some qj -> qs !! k = Some qk -> j <> k ->
  a ∈ addrs qj -> a ∉ addrs qk.
Proof.
  intros Hd Hj Hk Hjk Ha Hb. unfold distinct, addrs in Hd. rewrite (mjoin_middle _ _ _ Hk), bind_app in Hd.
  apply list.NoDup_app in Hd as (_ & Hdis & _). apply (Hdis a Hb). apply elem_addrs in Ha as (d & Hin & Ha). apply elem_addrs.
  exists d. split; [|done]. apply (in_mjoin _ j qj); [by rewrite list_lookup_insert_ne|done].
Qed.

Lemma distinct_replace qs k q q' : qs !! k = Some q -> distinct (mjoin qs) -> NoDup (addrs q') ->
  (forall a, a ∈ addrs q' -> a ∈ addrs q \/ a ∉ addrs (mjoin qs)) -> distinct (mjoin (<[k := q']> qs)).
Proof.
  intros Hk Hd Hn Hsub. assert (Hk' : <[k := q']> qs !! k = Some q') by (apply list_lookup_insert_eq; by eapply lookup_lt_Some).
  unfold distinct, addrs in *. rewrite (mjoin_middle _ _ _ Hk) in Hd. rewrite (mjoin_middle _ _ _ Hk'), list_insert_insert_eq.
  rewrite !bind_app in *. apply list.NoDup_app in Hd as (H1 & H2 & H3). apply list.NoDup_app. split; [done|]. split; [|done].
  intros a Ha Hb. destruct (Hsub a Ha) as [Hin|Hin]; [by eapply H2|]. apply Hin. rewrite (mjoin_middle _ _ _ Hk), bind_app.
  apply elem_of_app. by right.
Qed.

(** A change of the queue of one slot, of the clients, and of memory that no queue uses. *)
Lemma rep_change f qs cs s k q q' cs' h' l' cb' tr' : sap_rep f qs cs s -> qs !! k = Some q -> length cs' = 2%nat ->
  queue_at h' (Z.of_nat k) (front_of q') q' -> NoDup (addrs q') ->
  (forall a, a ∈ addrs q' -> a ∈ addrs q \/ objs s !! a = None) -> NoDup (key <$> q') ->
  (forall a, is_Some (objs s !! a) -> a ∉ addrs q -> h' !! a = objs s !! a) -> malloc_wf h' l' ->
  sap_rep f (<[k := q']> qs) cs' (mkSap h' l' (imap (socket_at f) (<[k := q']> qs)) (imap service_at cs') cb' tr').
Proof.
  intros [R1 R2 R3 R4 R5 R6 R7 R8 R9 R10 R11] Hk Hcs Hq Hn Hsub Hkeys Hframe (M1 & M2 & M3).
  assert (Hother : forall j qj, <[k := q']> qs !! j = Some qj -> (j = k /\ qj = q') \/ (j <> k /\ qs !! j = Some qj)).
  { intros j qj Hj. destruct (decide (j = k)) as [->|Hne]; [left|right; by rewrite list_lookup_insert_ne in Hj].
    rewrite list_lookup_insert_eq in Hj by (by eapply lookup_lt_Some). by injection Hj as <-. }
  split; cbn [objs mallocs sockets sapService]; try done.
  - by rewrite length_insert.
  - intros j qj [[-> ->]|[Hne Hj]]%Hother; [done|]. apply (queue_at_frame (objs s)); [|by apply R6].
    intros a Ha. apply Hframe; [by eapply queue_at_alloc; [eapply R6|]|by eapply slots_disjoint].
  - apply (distinct_replace _ _ q); [done..|]. intros a Ha. destruct (Hsub a Ha) as [Hin|Hin]; [by left|right].
    intros (d & (qj & Hd & (j & Hj)%list_elem_of_lookup_1)%list_elem_of_join & Ha')%elem_addrs.
    destruct (queue_at_alloc _ _ _ _ a (R6 _ _ Hj)) as [o Ho]; [|congruence]. apply elem_addrs. by exists d.
  - intros j qj [[-> ->]|[Hne Hj]]%Hother; [done|by eapply R8].
Qed.

Lemma rep_quiet f qs cs s cs' h' l' cb' tr' : sap_rep f qs cs s -> length cs' = 2%nat ->
  (forall a, is_Some (objs s !! a) -> h' !! a = objs s !! a) -> malloc_wf h' l' ->
  sap_rep f qs cs' (mkSap h' l' (imap (socket_at f) qs) (imap service_at cs') cb' tr').
Proof.
  intros Hrep Hcs Hframe Hw. destruct (lookup_lt_is_Some_2 qs 0) as [q Hk]; [rewrite (rep_slots _ _ _ _ Hrep); lia|].
  pose proof (rep_queues _ _ _ _ Hrep _ _ Hk) as Hq. pose proof (distinct_slot _ _ _ Hk (rep_distinct _ _ _ _ Hrep)) as Hd.
  rewrite <- (list_insert_id qs 0 q Hk). apply (rep_change f qs cs s 0 q); try done.
  - apply (queue_at_frame (objs s)); [|done]. intros a Ha. apply Hframe. by eapply queue_at_alloc.
  - intros a Ha. by left.
  - by eapply rep_keys.
  - intros a Ha _. by apply Hframe.
Qed.

Lemma rep_push f qs cs s k q d cb' tr' h0 m :
  sap_rep f qs cs s -> qs !! k = Some q -> (forall a, is_Some (objs s !! a) -> h0 !! a = objs s !! a) ->
  objs s !! pd_hdr d = None -> is_Some (h0 !! pd_hdr d) -> malloc_wf h0 (pd_req d :: m) -> pd_req d <> NULL -> key d ∉ key <$> q ->
  sap_rep f (<[k := d :: q]> qs) cs
    (mkSap (<[pd_req d := request_of (Z.of_nat k) d (front_of q)]> (<[pd_hdr d := header_of d]> h0)) m
       (imap (socket_at f) (<[k := d :: q]> qs)) (imap service_at cs) cb' tr').
Proof.
  intros Hrep Hk Hsame Hnh Hh Hw Hz Hkey. pose proof (rep_queues _ _ _ _ Hrep _ _ Hk) as Hq.
  pose proof (distinct_slot _ _ _ Hk (rep_distinct _ _ _ _ Hrep)) as Hd. destruct Hw as (W1 & W2 & W3).
  assert (Fr : h0 !! pd_req d = None) by (apply W3; set_solver).
  assert (Frs : objs s !! pd_req d = None).
  { destruct (objs s !! pd_req d) eqn:E; [|done]. rewrite Hsame in Fr by eauto. congruence. }
  assert (Hne : pd_req d <> pd_hdr d) by (intros E; rewrite E in Fr; destruct Hh; congruence).
  assert (Hout : forall a, is_Some (objs s !! a) -> a <> pd_req d /\ a <> pd_hdr d).
  { intros a [o Ho]. split; intros ->; congruence. }
  apply (rep_change f qs cs s k q); try done.
  - by apply (rep_clients _ _ _ _ Hrep).
  - cbn [queue_at front_of]. repeat split; [done|by look|]. exists (front_of q). split; [by look|].
    apply (queue_at_frame (objs s)); [|done]. intros a Ha. pose proof (queue_at_alloc _ _ _ _ _ Hq Ha) as Hs.
    destruct (Hout a Hs). rewrite !lookup_insert_ne by done. by apply Hsame.
  - cbn. apply list.NoDup_cons. split; [|apply list.NoDup_cons; split; [|exact Hd]].
    + rewrite elem_of_cons. intros [E|Hin]; [done|]. by destruct (Hout (pd_req d)); [eapply queue_at_alloc|].
    + intros Hin. by destruct (Hout (pd_hdr d)); [eapply queue_at_alloc|].
  - cbn. intros a. rewrite !elem_of_cons. intros [->|[->|Ha]]; auto.
  - cbn. apply list.NoDup_cons. split; [done|]. by eapply rep_keys.
  - intros a Ha _. destruct (Hout a Ha). rewrite !lookup_insert_ne by done. by apply Hsame.
  - apply malloc_wf_take; [|done]. apply (malloc_wf_sub h0); [by split|]. intros a Ha. rewrite lookup_insert_ne; [done|].
    intros <-. destruct Hh. congruence.
Qed.

Lemma malloc_wf_hd3 h b p r m : malloc_wf h (b :: p :: r :: m) -> Forall (fun x => x <> NULL) [b; p; r] ->
  Forall (fun x => x <> NULL /\ h !! x = None) [b; p; r] /\ NoDup [b; p; r] /\ malloc_wf h (r :: m).
Proof.
  intros (W1 & W2 & W3) Hn. rewrite !list.Forall_cons in Hn. destruct Hn as (Hb & Hp & Hr & _). split; [|split].
  - rewrite !list.Forall_cons. repeat split; try done; apply W3; set_solver.
  - rewrite !list.filter_cons, !decide_True in W2 by done. apply (sublist_NoDup _ _ W2). do 3 apply sublist_skip. apply sublist_nil_l.
  - apply (malloc_wf_tail h (p :: r :: m)), (malloc_wf_tail h (b :: p :: r :: m)). by split.
Qed.

Section Answers.
Context (pb_decode : pb_fields -> list Z -> option pb_response).

(** * Answers *)

(** The clients after a call of the client of slot [k]: one that is gone is forgotten. *)
Definition told (k : nat) (cb : list bool) (cs : list Z) : list Z := if hd true cb then cs else <[k := NULL]> cs.

Lemma forget_client cs k : alter (fun i => i <| sapCallback := NULL |>) k (imap service_at cs) = imap service_at (<[k := NULL]> cs).
Proof.
  apply list_eq. intros j. rewrite list_lookup_imap. destruct (decide (j = k)) as [->|Hj].
  - rewrite list_lookup_alter_eq, list_lookup_imap. destruct (cs !! k) as [c|] eqn:E.
    + by rewrite list_lookup_insert_eq by (by eapply lookup_lt_Some).
    + rewrite list_insert_ge by (by apply lookup_ge_None). by rewrite E.
  - by rewrite list_lookup_alter_ne, list_lookup_imap, list_lookup_insert_ne by done.
Qed.

Lemma client_ok h l so cs cb tr k c tok a : cs !! k = Some c -> c <> NULL ->
  bindM (call_client k tok a) (checkReturnStatus k) (mkSap h l so (imap service_at cs) cb tr) =
  Ok (tt, mkSap h l so (imap service_at (told k cb cs)) (tail cb) (tr ++ [Answer c tok a])).
Proof.
  intros Hc Hz. unfold call_client. rewrite bindM_assoc.
  erewrite bindM_ok by (apply get_impl_ok; by rewrite list_lookup_imap, Hc). cbn [sapCallback service_at]. rewrite (proj2 (Z.eqb_neq _ _) Hz).
  unfold told, checkReturnStatus. run. destruct (hd true cb); [done|]. unfold set. cbn. by rewrite <- forget_client.
Qed.

(** The failure of a request, once what was allocated for it is freed. *)
Lemma fail_ok h l so cs cb tr k c tok i a h' ptrs : cs !! k = Some c -> c <> NULL -> failed_answer i = Some a ->
  free_all ptrs (mkSap h l so (imap service_at cs) cb tr) = Ok (tt, mkSap h' l so (imap service_at cs) cb tr) ->
  sendFailedResponse k i tok ptrs (mkSap h l so (imap service_at cs) cb tr) =
  Ok (tt, mkSap h' l so (imap service_at (told k cb cs)) (tail cb) (tr ++ [Answer c tok a])).
Proof.
  intros Hc Hz Hi Hfree. unfold sendFailedResponse. rewrite (bindM_ok _ _ _ _ _ Hfree), Hi.
  pose proof (client_ok h' l so cs cb tr k c tok a Hc Hz) as Hcl. apply bindM_inv in Hcl as (ok & s1 & H1 & H2).
  rewrite (bindM_ok _ _ _ _ _ H1). assert (Hs : sapService s1 = imap service_at cs).
  { revert H1. unfold call_client. erewrite bindM_ok by (apply get_impl_ok; by rewrite list_lookup_imap, Hc).
    cbn [sapCallback service_at]. rewrite (proj2 (Z.eqb_neq _ _) Hz). run. by intros [= _ <-]. }
  unfold bindM, get_impl, bindM, getM. rewrite Hs, list_lookup_imap, Hc. cbn. rewrite Nat2Z.id. exact H2.
Qed.

(** The message a response is decoded to, and the call it leads to; [got] tells whether memory
    for the message could be allocated. *)
Definition decoded (i : MsgId) (ty : MsgType) (bs : list Z) : option pb_response :=
  match decode_fields i ty with Some fl => pb_decode fl bs | None => None end.

Definition reply (i : MsgId) (ty : MsgType) (bs : list Z) (got : bool) : option sap_answer :=
  match (if got then decoded i ty bs else None) with Some x => Some (answer_of x) | None => failed_answer i end.

Definition allocated (l : list Z) : bool := negb (hd NULL l =? NULL).

(** The memory after a response: the message stays. *)
Definition kept (i : MsgId) (ty : MsgType) (bs : list Z) (l : list Z) h : gmap Z obj :=
  match decode_fields i ty with
  | Some fl => if allocated l then <[hd NULL l := OMessage (pb_decode fl bs)]> h else h
  | None => h
  end.
Definition rest (i : MsgId) (ty : MsgType) (l : list Z) : list Z :=
  match decode_fields i ty with Some _ => tail l | None => l end.

Definition calls (c tok : Z) (r : option sap_answer) : list sap_out :=
  if c =? NULL then [] else match r with Some a => [Answer c tok a] | None => [] end.
Definition after_calls {A} (c : Z) (r : option sap_answer) (x y : A) : A :=
  if c =? NULL then y else match r with Some _ => x | None => y end.

Lemma decode_ok h l so sv cb tr i ty bs :
  exists p, sapDecodeMessage pb_decode i ty bs (mkSap h l so sv cb tr) = Ok (p, mkSap (kept i ty bs l h) (rest i ty l) so sv cb tr) /\
    match (if allocated l then decoded i ty bs else None) with
    | Some x => p <> NULL /\ kept i ty bs l h !! p = Some (OMessage (Some x))
    | None => p = NULL
    end.
Proof.
  unfold sapDecodeMessage, kept, rest, decoded, allocated. destruct (decode_fields i ty) as [fl|].
  - destruct (Z.eqb_spec (hd NULL l) NULL) as [Hz|Hz]; cbn [negb].
    + exists NULL. erewrite bindM_ok by (by apply malloc_fail). done.
    + destruct l as [|p l]; [done|]. cbn [hd tail] in *. erewrite bindM_ok by (by apply malloc_ok).
      rewrite (proj2 (Z.eqb_neq _ _) Hz). destruct (pb_decode fl bs) as [x|] eqn:E.
      * exists p. split; [done|]. split; [done|]. by look.
      * by exists NULL.
  - exists NULL. by destruct (negb _).
Qed.

Lemma process_ok h l so cs cb tr k c tok i ty bs : cs !! k = Some c -> (k < 2)%nat ->
  let r := reply i ty bs (allocated l) in
  processResponse pb_decode tok i bs (Z.of_nat k) ty (mkSap h l so (imap service_at cs) cb tr) =
  Ok (tt, mkSap (kept i ty bs l h) (rest i ty l) so (imap service_at (after_calls c r (told k cb cs) cs))
       (after_calls c r (tail cb) cb) (tr ++ calls c tok r)).
Proof.
  intros Hc Hk r. unfold processResponse. destruct (decode_ok h l so (imap service_at cs) cb tr i ty bs) as (p & Hd & Hp).
  rewrite (bindM_ok _ _ _ _ _ Hd). replace (getSapImpl (Z.of_nat k)) with (Some k) by (destruct k as [|[|]]; [done|done|lia]).
  step_ret. erewrite bindM_ok by (apply get_impl_ok; by rewrite list_lookup_imap, Hc). cbn [sapCallback service_at].
  unfold calls, after_calls. destruct (Z.eqb_spec c NULL) as [Hz|Hz]; [by rewrite app_nil_r|].
  unfold r, reply. clear r. destruct (if allocated l then _ else _) as [x|].
  - destruct Hp as [Hp Hx]. rewrite (proj2 (Z.eqb_neq _ _) Hp). step get_message_ok. by apply client_ok.
  - rewrite Hp. change (NULL =? NULL) with true. cbv match.
    destruct (failed_answer i) as [a|] eqn:Ea; [by eapply fail_ok|].
    unfold sendFailedResponse. rewrite Ea. by rewrite app_nil_r.
Qed.

(** * Completing a request *)

Lemma kept_frame i ty bs l h a : a ∉ l \/ is_Some (h !! a) /\ (forall p, p ∈ l -> h !! p = None) -> kept i ty bs l h !! a = h !! a.
Proof.
  intros Ha. unfold kept, allocated. destruct (decode_fields i ty) as [fl|]; [|done].
  destruct l as [|p l]; cbn [hd]; [done|]. destruct (Z.eqb_spec p NULL); cbn [negb]; [done|].
  rewrite lookup_insert_ne; [done|]. intros ->. destruct Ha as [Ha|[[x Hx] Ha]]; [set_solver|].
  rewrite Ha in Hx by set_solver. done.
Qed.

Lemma kept_payload i ty bs l h p o : p ∉ l -> h !! p = None -> delete p (kept i ty bs l (<[p := o]> h)) = kept i ty bs l h.
Proof.
  intros Hp Hh. unfold kept, allocated. destruct (decode_fields i ty) as [fl|]; [|by apply delete_insert_id].
  destruct l as [|x l]; cbn [hd negb Z.eqb]; [by apply delete_insert_id|]. destruct (Z.eqb_spec x NULL); cbn [negb]; [by apply delete_insert_id|].
  rewrite delete_insert_ne by set_solver. by rewrite delete_insert_id.
Qed.

(** The memory, the allocations left, the clients and the calls after the answer to [d]. *)
Definition completed_heap k q1 d q2 resp l h : gmap Z obj :=
  delete (pd_hdr d) (unlinked (if allocated l then kept (pd_id d) MsgType_RESPONSE resp (tail l) h else h) (Z.of_nat k) q1 d q2).
Definition completed_rest d (l : list Z) : list Z := if allocated l then rest (pd_id d) MsgType_RESPONSE (tail l) else tail l.
Definition completed_reply d resp (l : list Z) : option sap_answer :=
  if allocated l then reply (pd_id d) MsgType_RESPONSE resp (allocated (tail l)) else None.

(** The end of a completion, in a memory that has grown from [h]. *)
Lemma complete_end f qs cs s k q1 d q2 h1 l1 sv1 cb1 tr1 : sap_rep f qs cs s -> qs !! k = Some (q1 ++ d :: q2) ->
  (forall a, is_Some (objs s !! a) -> h1 !! a = objs s !! a) ->
  (let* x := get_header (pd_hdr d) in checkAndDequeue k (h_id x) (h_token x);; free (pd_hdr d))
    (mkSap h1 l1 (imap (socket_at f) qs) sv1 cb1 tr1) =
  Ok (tt, mkSap (delete (pd_hdr d) (unlinked h1 (Z.of_nat k) q1 d q2)) l1 (imap (socket_at f) (<[k := q1 ++ q2]> qs)) sv1 cb1 tr1).
Proof.
  intros Hrep Hk Hsame. pose proof (rep_queues _ _ _ _ Hrep _ _ Hk) as Hq.
  pose proof (distinct_slot _ _ _ Hk (rep_distinct _ _ _ _ Hrep)) as Hd.
  destruct (queue_at_in _ _ _ _ d Hq ltac:(set_solver)) as [Hh [next Hr]]. destruct (distinct_middle _ _ _ Hd) as (Hrh & Hne & _).
  assert (Hh1 : h1 !! pd_hdr d = Some (header_of d)) by (rewrite Hsame by eauto; exact Hh).
  assert (Hq1 : queue_at h1 (Z.of_nat k) (front_of (q1 ++ d :: q2)) (q1 ++ d :: q2)).
  { apply (queue_at_frame (objs s)); [|done]. intros a Ha. apply Hsame. by eapply queue_at_alloc. }
  erewrite bindM_ok by (by apply get_header_ok).
  erewrite bindM_ok by (eapply checkAndDequeue_ok; [by rewrite list_lookup_imap, Hk|exact Hq1|exact Hd|]; 
    by eapply keys_before, rep_keys).
  rewrite (relink_at f qs k q1 d q2 Hk). apply free_ok.
  - rewrite unlinked_lookup; [by eauto| |congruence]. intros Hin. by destruct (Hne _ Hin).
  - intros E. rewrite E, (rep_null _ _ _ _ Hrep) in Hh. done.
Qed.

Lemma complete_ok f qs cs s k c q1 d q2 e resp : sap_rep f qs cs s -> qs !! k = Some (q1 ++ d :: q2) -> cs !! k = Some c ->
  let r := completed_reply d resp (mallocs s) in
  sOnRequestComplete pb_decode (pd_req d) e resp s =
  Ok (tt, mkSap (completed_heap k q1 d q2 resp (mallocs s) (objs s)) (completed_rest d (mallocs s))
       (imap (socket_at f) (<[k := q1 ++ q2]> qs)) (imap service_at (after_calls c r (told k (callback_ok s) cs) cs))
       (after_calls c r (tail (callback_ok s)) (callback_ok s)) (sap_trace s ++ calls c (pd_token d) r)).
Proof.
  intros Hrep Hk Hc r. pose proof Hrep as [R1 R2 R3 R4 R5 R6 R7 R8 R9 R10 R11].
  assert (Hk2 : (k < 2)%nat) by (rewrite <- R1; by eapply lookup_lt_Some).
  destruct (queue_at_in _ _ _ _ d (R6 _ _ Hk) ltac:(set_solver)) as [Hh [next Hr]].
  destruct s as [h l so sv cb tr]. cbn [objs mallocs sockets sapService callback_ok sap_trace] in *. subst so sv.
  unfold sOnRequestComplete. step get_req_ok. cbn [r_socketId]. erewrite bindM_ok by (by eapply getSocketById_ok).
  unfold onRequestComplete. step get_req_ok. cbn [curr]. step get_header_ok. cbn [h_token h_id].
  unfold completed_heap, completed_rest, r, completed_reply, allocated. clear r.
  destruct (Z.eqb_spec (hd NULL l) NULL) as [Hl|Hl]; cbn [negb].
  - erewrite bindM_ok by (by apply malloc_fail). change (NULL =? NULL) with true. cbv match.
    rewrite (bindM_ok _ _ _ _ _ (eq_refl : retM tt _ = Ok (tt, _))).
    rewrite (complete_end f qs cs _ k q1 d q2 h (tail l) _ cb tr Hrep Hk (fun _ _ => eq_refl)).
    unfold after_calls, calls. destruct (c =? NULL); by rewrite app_nil_r.
  - destruct l as [|p l]; [done|]. cbn [hd tail] in *. erewrite bindM_ok by (by apply malloc_ok).
    rewrite (proj2 (Z.eqb_neq _ _) Hl). change (negb (hd NULL l =? NULL)) with (allocated l).
    rewrite list.filter_cons, decide_True in R10 by done. apply list.NoDup_cons in R10 as [Hp R10].
    assert (Hpl : p ∉ l). { intros Hin. apply Hp, list_elem_of_filter. done. }
    assert (Fp : h !! p = None) by (apply R11; set_solver).
    set (h1 := kept (pd_id d) MsgType_RESPONSE resp l h).
    erewrite bindM_ok; [apply (complete_end f qs cs _ k q1 d q2 h1 _ _ _ _ Hrep Hk)|].
    + intros a Ha. apply kept_frame. right. split; [done|]. intros x Hx. apply R11. set_solver.
    + erewrite bindM_ok by (by eapply socket_ok). step get_bytes_ok. cbn [id socket_at].
      erewrite bindM_ok by (by apply process_ok).
      rewrite free_ok; [by rewrite kept_payload| |done]. rewrite kept_frame by (by left). by look.
Qed.

Lemma malloc_wf_kept i ty bs l h : malloc_wf h l -> malloc_wf (kept i ty bs l h) (rest i ty l).
Proof.
  intros Hw. unfold kept, rest, allocated. destruct (decode_fields i ty); [|done]. destruct (Z.eqb_spec (hd NULL l) NULL); cbn [negb].
  - by apply malloc_wf_tail.
  - destruct l; [done|]. by apply malloc_wf_take.
Qed.

Lemma rep_complete f qs cs s k q1 d q2 resp cs' cb' tr' : sap_rep f qs cs s -> qs !! k = Some (q1 ++ d :: q2) ->
  length cs' = 2%nat ->
  sap_rep f (<[k := q1 ++ q2]> qs) cs'
    (mkSap (completed_heap k q1 d q2 resp (mallocs s) (objs s)) (completed_rest d (mallocs s))
       (imap (socket_at f) (<[k := q1 ++ q2]> qs)) (imap service_at cs') cb' tr').
Proof.
  intros Hrep Hk Hcs. pose proof (rep_queues _ _ _ _ Hrep _ _ Hk) as Hq. pose proof (rep_malloc _ _ _ _ Hrep) as Hw.
  pose proof (distinct_slot _ _ _ Hk (rep_distinct _ _ _ _ Hrep)) as Hd. destruct (distinct_middle _ _ _ Hd) as (Hrh & Hne & Hd').
  unfold completed_heap, completed_rest. set (h1 := if allocated _ then _ else _).
  set (l1 := if allocated _ then rest _ _ _ else _).
  assert (H1 : (forall a, is_Some (objs s !! a) -> h1 !! a = objs s !! a) /\ malloc_wf h1 l1).
  { unfold h1, l1. apply malloc_wf_tail in Hw as Hw1. destruct (allocated (mallocs s)); [|done]. split; [|by apply malloc_wf_kept].
    intros a Ha. apply kept_frame. right. split; [done|]. by destruct Hw1 as (_ & _ & ?). }
  destruct H1 as [Hsame Hw1]. clearbody h1 l1.
  assert (Hq1 : queue_at h1 (Z.of_nat k) (front_of (q1 ++ d :: q2)) (q1 ++ d :: q2)).
  { apply (queue_at_frame (objs s)); [|done]. intros a Ha. apply Hsame. by eapply queue_at_alloc. }
  apply (rep_change f qs cs s k (q1 ++ d :: q2)); try done.
  - apply (queue_at_frame (unlinked h1 (Z.of_nat k) q1 d q2)); [|by eapply queue_unlinked].
    intros a Ha. rewrite lookup_delete_ne; [done|]. intros <-. by destruct (Hne _ Ha).
  - intros a Ha. left. apply elem_addrs_mid. auto.
  - pose proof (rep_keys _ _ _ _ Hrep _ _ Hk) as Hkeys. rewrite fmap_app in *. cbn in Hkeys.
    rewrite <- Permutation_middle in Hkeys. by apply list.NoDup_cons in Hkeys as [_ ?].
  - intros a Ha Hna. rewrite elem_addrs_mid in Hna. rewrite lookup_delete_ne, unlinked_lookup by naive_solver. by apply Hsame.
  - apply (malloc_wf_sub h1); [done|]. intros a Ha. rewrite lookup_delete. case_decide; [done|].
    unfold unlinked. rewrite lookup_delete. case_decide; [done|]. destruct (list.last q1) as [x|] eqn:Ex; [|done].
    rewrite lookup_insert_ne; [done|]. intros <-. destruct (queue_at_in _ _ _ _ x Hq1) as [_ [n Hn]]; [|congruence].
    apply elem_of_app. left. by apply last_Some_elem_of.
Qed.

(** * Sizes *)

(** Whether a response leaves a message in memory. *)
Definition leaves (i : MsgId) (ty : MsgType) (l : list Z) : nat :=
  match decode_fields i ty with Some _ => if allocated l then 1 else 0 | None => 0 end.

Lemma size_kept i ty bs l h : malloc_wf h l -> size (kept i ty bs l h) = (size h + leaves i ty l)%nat.
Proof.
  intros (_ & _ & Hw). unfold kept, leaves, allocated. destruct (decode_fields i ty) as [fl|]; [|lia].
  destruct (Z.eqb_spec (hd NULL l) NULL); cbn [negb]; [lia|]. destruct l as [|p l]; [done|]. cbn [hd] in *.
  rewrite map_size_insert_None by (apply Hw; set_solver). lia.
Qed.

Lemma size_unlinked h sock front q1 d q2 : queue_at h sock front (q1 ++ d :: q2) -> distinct (q1 ++ d :: q2) ->
  size (delete (pd_hdr d) (unlinked h sock q1 d q2)) = (size h - 2)%nat.
Proof.
  intros Hq Hd. destruct (queue_at_in _ _ _ _ d Hq ltac:(set_solver)) as [Hh [n Hn]]. destruct (distinct_middle _ _ _ Hd) as (Hrh & Hne & _).
  rewrite map_size_delete_Some.
  - unfold unlinked. destruct (list.last q1) as [x|] eqn:Ex.
    + apply last_Some_elem_of in Ex. destruct (queue_at_in _ _ _ _ x Hq ltac:(set_solver)) as [_ [n' Hn']].
      assert (Hx : pd_req x <> pd_req d). { destruct (Hne (pd_req x)); [|done]. apply elem_addrs. exists x. set_solver. }
      rewrite map_size_delete_Some by (rewrite lookup_insert_ne by done; eauto). rewrite map_size_insert_Some by eauto. lia.
    + rewrite map_size_delete_Some by eauto. lia.
  - rewrite unlinked_lookup; [by eauto| |congruence]. intros Hin. by destruct (Hne _ Hin).
Qed.

Definition completed_leaves d (l : list Z) : nat := if allocated l then leaves (pd_id d) MsgType_RESPONSE (tail l) else 0.

Lemma two_objects f qs cs s k q1 d q2 : sap_rep f qs cs s -> qs !! k = Some (q1 ++ d :: q2) -> (2 <= size (objs s))%nat.
Proof.
  intros Hrep Hk. pose proof (rep_queues _ _ _ _ Hrep _ _ Hk) as Hq. pose proof (distinct_slot _ _ _ Hk (rep_distinct _ _ _ _ Hrep)) as Hd.
  destruct (queue_at_in _ _ _ _ d Hq ltac:(set_solver)) as [Hh [n Hn]]. destruct (distinct_middle _ _ _ Hd) as (Hrh & _).
  rewrite <- (insert_id _ _ _ Hh), <- (insert_delete_eq (objs s)), map_size_insert_None by (by look).
  assert (Hr : delete (pd_hdr d) (objs s) !! pd_req d = Some (request_of (Z.of_nat k) d n)) by (by look).
  rewrite <- (insert_id _ _ _ Hr), <- insert_delete_eq, map_size_insert_None by (by look). lia.
Qed.

Lemma size_completed f qs cs s k q1 d q2 resp : sap_rep f qs cs s -> qs !! k = Some (q1 ++ d :: q2) ->
  size (completed_heap k q1 d q2 resp (mallocs s) (objs s)) = (size (objs s) - 2 + completed_leaves d (mallocs s))%nat.
Proof.
  intros Hrep Hk. pose proof (rep_queues _ _ _ _ Hrep _ _ Hk) as Hq. pose proof (distinct_slot _ _ _ Hk (rep_distinct _ _ _ _ Hrep)) as Hd.
  pose proof (malloc_wf_tail _ _ (rep_malloc _ _ _ _ Hrep)) as Hw. unfold completed_heap, completed_leaves.
  pose proof (two_objects f qs cs s k q1 d q2 Hrep Hk) as Hlen.
  destruct (allocated (mallocs s)).
  - rewrite (size_unlinked _ _ (front_of (q1 ++ d :: q2))); [rewrite size_kept by done; lia| |done].
    apply (queue_at_frame (objs s)); [|done]. intros a Ha. apply kept_frame. right. split; [by eapply queue_at_alloc|]. apply Hw.
  - rewrite (size_unlinked _ _ (front_of (q1 ++ d :: q2))) by done. lia.
Qed.
End Answers.

Section Making.
Context (pb_get_encoded_size : pb_request -> option Z).
Context (pb_encode : Z -> pb_request -> option (list Z)).
Context (pb_decode : pb_fields -> list Z -> option pb_response).

(** * Making a request *)

Inductive sap_req :=
  | Connect (maxMsgSize : Z)
  | Disconnect
  | Apdu (type : Z) (command : list Z)
  | TransferAtr
  | Power (state : bool)
  | ResetSim
  | CardReaderStatus
  | SetProtocol (protocol : Z).

Definition run_req (k : nat) (tok : Z) (r : sap_req) : option (Z * list Z) -> SAP unit :=
  match r with
  | Connect n => connectReq pb_get_encoded_size pb_encode pb_decode k tok n
  | Disconnect => disconnectReq pb_get_encoded_size pb_encode pb_decode k tok
  | Apdu t c => apduReq pb_get_encoded_size pb_encode pb_decode k tok t c
  | TransferAtr => transferAtrReq pb_get_encoded_size pb_encode pb_decode k tok
  | Power b => powerReq pb_get_encoded_size pb_encode pb_decode k tok b
  | ResetSim => resetSimReq pb_get_encoded_size pb_encode pb_decode k tok
  | CardReaderStatus => transferCardReaderStatusReq pb_get_encoded_size pb_encode pb_decode k tok
  | SetProtocol p => setTransferProtocolReq pb_get_encoded_size pb_encode pb_decode k tok p
  end.

Definition req_id (r : sap_req) : MsgId :=
  match r with
  | Connect _ => MsgId_RIL_SIM_SAP_CONNECT
  | Disconnect => MsgId_RIL_SIM_SAP_DISCONNECT
  | Apdu _ _ => MsgId_RIL_SIM_SAP_APDU
  | TransferAtr => MsgId_RIL_SIM_SAP_TRANSFER_ATR
  | Power _ => MsgId_RIL_SIM_SAP_POWER
  | ResetSim => MsgId_RIL_SIM_SAP_RESET_SIM
  | CardReaderStatus => MsgId_RIL_SIM_SAP_TRANSFER_CARD_READER_STATUS
  | SetProtocol _ => MsgId_RIL_SIM_SAP_SET_TRANSFER_PROTOCOL
  end.

Definition req_pb (r : sap_req) : pb_request :=
  match r with
  | Connect n => RIL_SIM_SAP_CONNECT_REQ n
  | Disconnect => RIL_SIM_SAP_DISCONNECT_REQ
  | Apdu t c => RIL_SIM_SAP_APDU_REQ t (match c with [] => None | _ => Some c end)
  | TransferAtr => RIL_SIM_SAP_TRANSFER_ATR_REQ
  | Power b => RIL_SIM_SAP_POWER_REQ b
  | ResetSim => RIL_SIM_SAP_RESET_SIM_REQ
  | CardReaderStatus => RIL_SIM_SAP_TRANSFER_CARD_READER_STATUS_REQ
  | SetProtocol p => RIL_SIM_SAP_SET_TRANSFER_PROTOCOL_REQ p
  end.

(** The command an APDU carries in memory of its own. *)
Definition req_command (r : sap_req) : option (list Z) := match r with Apdu _ (b :: c) => Some (b :: c) | _ => None end.

(** Allocations a request makes: the header, an APDU's command, the buffer, the payload, the
    request. *)
Definition needs (r : sap_req) : nat := match req_command r with Some _ => 5 | None => 4 end.

(** The header's request with the encoded structure, however the command is stored. *)
Lemma run_req_simple k tok r early : req_command r = None ->
  run_req k tok r early = simple_request pb_get_encoded_size pb_encode pb_decode k (req_id r) tok (req_pb r) early.
Proof. destruct r as [| |t [|b c]| | | | |]; try done. Qed.

Lemma run_req_command k tok r early c : req_command r = Some c ->
  run_req k tok r early =
  (let* msg := createMsgHeader (req_id r) tok in
   if msg =? NULL then sendFailedResponse k (req_id r) tok []
   else let* p := malloc (OBytes c) in
        if p =? NULL then sendFailedResponse k (req_id r) tok [msg]
        else encode_and_dispatch pb_get_encoded_size pb_encode pb_decode k (req_id r) tok msg p (req_pb r) early).
Proof. destruct r as [| |t [|b c']| | | | |]; try done. by intros [= <-]. Qed.

(** A request that can be encoded, with enough memory for it. *)
Definition can_send (r : sap_req) (bs : list Z) (l : list Z) : Prop :=
  (exists n, pb_get_encoded_size (req_pb r) = Some n /\ pb_encode n (req_pb r) = Some bs /\ zlen bs <= n) /\
  (needs r <= length l)%nat /\ Forall (fun p => p <> NULL) (take (needs r) l).

(** The request after its header (and its command) are in memory [h0]. *)
Lemma request_rest f qs cs s k q tok r bs h0 msg c b p rq m :
  sap_rep f qs cs s -> qs !! k = Some q -> can_send r bs (mallocs s) -> (req_id r, tok) ∉ key <$> q ->
  (forall a, is_Some (objs s !! a) -> h0 !! a = objs s !! a) -> objs s !! msg = None ->
  h0 !! msg = Some (OHeader (mkHeader tok MsgType_REQUEST (req_id r) 0 NULL)) ->
  malloc_wf h0 (b :: p :: rq :: m) -> Forall (fun x => x <> NULL) [b; p; rq] ->
  exists d s', encode_and_dispatch pb_get_encoded_size pb_encode pb_decode k (req_id r) tok msg c (req_pb r) None
      (mkSap h0 (b :: p :: rq :: m) (imap (socket_at f) qs) (imap service_at cs) (callback_ok s) (sap_trace s)) = Ok (tt, s') /\
    sap_rep f (<[k := d :: q]> qs) cs s' /\ key d = (req_id r, tok) /\
    sap_trace s' = sap_trace s ++ [ToUim (req_id r) (sent bs) (pd_req d) (Z.of_nat k)] /\ size (objs s') = S (size h0).
Proof.
  intros Hrep Hk ((n & Hn & Hbs & Hle) & _) Hkey Hsame Fm Hm Hw Hnn. destruct (malloc_wf_hd3 _ _ _ _ _ Hw Hnn) as (F3 & N3 & Hw3).
  assert (Hkc : (k < length cs)%nat).
  { rewrite (rep_clients _ _ _ _ Hrep), <- (rep_slots _ _ _ _ Hrep). by eapply lookup_lt_Some. }
  rewrite !list.Forall_cons in Hnn. destruct Hnn as (_ & _ & Hrq & _).
  erewrite encode_dispatch_ok; try done; [|by apply (rep_funcs _ _ _ _ Hrep)].
  exists (mkPend rq msg (req_id r) tok p). eexists. split; [reflexivity|]. split; [|split; [done|split; [done|]]].
  - eapply rep_push; try done; by eauto.
  - assert (Fr : h0 !! rq = None) by (apply Hw3; set_solver). cbn [objs].
    rewrite map_size_insert_None by (rewrite lookup_insert_ne by congruence; done). by rewrite map_size_insert_Some by eauto.
Qed.

Lemma request_ok f qs cs s k q tok r bs : sap_rep f qs cs s -> qs !! k = Some q -> can_send r bs (mallocs s) ->
  (req_id r, tok) ∉ key <$> q ->
  exists d s', run_req k tok r None s = Ok (tt, s') /\ sap_rep f (<[k := d :: q]> qs) cs s' /\ key d = (req_id r, tok) /\
    sap_trace s' = sap_trace s ++ [ToUim (req_id r) (sent bs) (pd_req d) (Z.of_nat k)] /\
    size (objs s') = (size (objs s) + 2 + match req_command r with Some _ => 1 | None => 0 end)%nat.
Proof.
  intros Hrep Hk Hcan Hkey. pose proof (rep_malloc _ _ _ _ Hrep) as Hw. pose proof Hcan as (_ & Hlen & Hl).
  set (hdr := OHeader (mkHeader tok MsgType_REQUEST (req_id r) 0 NULL)).
  assert (Hs : s = mkSap (objs s) (mallocs s) (imap (socket_at f) qs) (imap service_at cs) (callback_ok s) (sap_trace s)).
  { destruct Hrep. destruct s. cbn in *. by subst. }
  pose proof (request_rest f qs cs s k q tok r bs) as Hrest.
  rewrite Hs. revert Hlen Hl Hw. generalize (mallocs s) at 1 2 3 4. clear Hs. intros l. unfold needs.
  destruct (req_command r) as [c|] eqn:Ec; intros Hlen Hl Hw.
  - destruct l as [|msg [|p0 [|b [|p [|rq m]]]]]; cbn [length] in Hlen; try lia. cbn [take] in Hl.
    rewrite !list.Forall_cons in Hl. destruct Hl as (Hmsg & Hp0 & Hl).
    pose proof (malloc_wf_take _ _ _ hdr Hw Hmsg) as Hw1. pose proof (malloc_wf_take _ _ _ (OBytes c) Hw1 Hp0) as Hw2.
    assert (Fm : objs s !! msg = None) by (apply Hw; set_solver).
    assert (Fp : <[msg := hdr]> (objs s) !! p0 = None) by (apply Hw1; set_solver).
    assert (Hne : p0 <> msg) by (intros ->; rewrite lookup_insert_eq in Fp; done).
    destruct (Hrest (<[p0 := OBytes c]> (<[msg := hdr]> (objs s))) msg p0 b p rq m) as (d & s' & Hrun & Hr' & Hkd & Htr & Hsz); try done.
    + intros a [o Ho]. rewrite lookup_insert_ne in Fp by done. by rewrite !lookup_insert_ne by congruence.
    + by look.
    + by rewrite !list.Forall_cons.
    + exists d, s'. split; [|split; [done|split; [done|split; [done|]]]].
      * rewrite (run_req_command _ _ _ _ c Ec). unfold createMsgHeader. step malloc_ok. rewrite (proj2 (Z.eqb_neq _ _) Hmsg).
        step malloc_ok. by rewrite (proj2 (Z.eqb_neq _ _) Hp0).
      * rewrite Hsz, !map_size_insert_None by done. cbn [objs]. lia.
  - destruct l as [|msg [|b [|p [|rq m]]]]; cbn [length] in Hlen; try lia. cbn [take] in Hl.
    rewrite !list.Forall_cons in Hl. destruct Hl as (Hmsg & Hl). pose proof (malloc_wf_take _ _ _ hdr Hw Hmsg) as Hw1.
    assert (Fm : objs s !! msg = None) by (apply Hw; set_solver).
    destruct (Hrest (<[msg := hdr]> (objs s)) msg NULL b p rq m) as (d & s' & Hrun & Hr' & Hkd & Htr & Hsz); try done.
    + intros a [o Ho]. by rewrite lookup_insert_ne by congruence.
    + by look.
    + by rewrite !list.Forall_cons.
    + exists d, s'. split; [|split; [done|split; [done|split; [done|]]]].
      * rewrite (run_req_simple _ _ _ _ Ec). unfold simple_request, createMsgHeader. step malloc_ok.
        by rewrite (proj2 (Z.eqb_neq _ _) Hmsg).
      * rewrite Hsz, map_size_insert_None by done. cbn [objs]. lia.
Qed.
End Making.
