(* ===== verification/SapRun.v ===== *)
(** Calls of the service for SIM access: what each does to the queues of waiting requests, to
    the client and to memory; what happens when memory runs out; and how the memory that is
    managed by hand goes wrong. *)

From stdpp Require Import base list gmap numbers.
From Stdlib Require Import ZArith Lia.
From S2P Require Import Prelude RilEvent Sap SapProps.

Local Open Scope Z_scope.
Local Open Scope st_scope.
Local Open Scope rec_scope.

Implicit Types (h : gmap Z obj) (q : list pending) (d : pending).

(** * The calls and what they promise *)

(** A request of the client of slot [k]; the vendor's answer to [t]; an unsolicited response,
    with what the token's memory holds; a client that registers. *)
Inductive sap_act :=
  | SRequest (k : nat) (tok : Z) (r : sap_req)
  | SComplete (t e : Z) (resp : list Z)
  | SUnsol (code : MsgId) (data : list Z) (socket stack : Z)
  | SSetCallback (k : nat) (c : Z).

Section Calls.
Context (pb_get_encoded_size : pb_request -> option Z).
Context (pb_encode : Z -> pb_request -> option (list Z)).
Context (pb_decode : pb_fields -> list Z -> option pb_response).

Definition run_act (a : sap_act) : SAP unit :=
  match a with
  | SRequest k tok r => run_req pb_get_encoded_size pb_encode pb_decode k tok r None
  | SComplete t e resp => sOnRequestComplete pb_decode t e resp
  | SUnsol code data socket stack => sOnUnsolicitedResponse pb_decode code data socket stack
  | SSetCallback k c => setCallback k c
  end.

(** The rules: a request is one that can be sent, with an id and token that no other request of
    the slot waits with; an answer is to a request that waits. *)
Definition sap_ok (qs : list (list pending)) (s : Sap) (a : sap_act) : Prop :=
  match a with
  | SRequest k tok r =>
      exists q bs, qs !! k = Some q /\ can_send pb_get_encoded_size pb_encode r bs (mallocs s) /\ (req_id r, tok) ∉ key <$> q
  | SComplete t e resp => t ∈ pd_req <$> mjoin qs
  | SUnsol code data socket stack => True
  | SSetCallback k c => (k < 2)%nat
  end.

(** What a call does: the queues and clients after it, what is seen from outside, and how the
    number of objects in memory changes. *)
Definition sap_does (qs : list (list pending)) (cs : list Z) (s : Sap) (a : sap_act)
    (qs' : list (list pending)) (cs' : list Z) (out : list sap_out) (grows : Z) : Prop :=
  match a with
  | SRequest k tok r =>
      exists q bs d, qs !! k = Some q /\ can_send pb_get_encoded_size pb_encode r bs (mallocs s) /\
        key d = (req_id r, tok) /\ qs' = <[k := d :: q]> qs /\ cs' = cs /\
        out = [ToUim (req_id r) (sent bs) (pd_req d) (Z.of_nat k)] /\ grows = match req_command r with Some _ => 3 | None => 2 end
  | SComplete t e resp =>
      exists k q1 d q2 c, t = pd_req d /\ qs !! k = Some (q1 ++ d :: q2) /\ cs !! k = Some c /\ qs' = <[k := q1 ++ q2]> qs /\
        let r := completed_reply pb_decode d resp (mallocs s) in
        out = calls c (pd_token d) r /\ cs' = after_calls c r (told k (callback_ok s) cs) cs /\
        grows = Z.of_nat (completed_leaves d (mallocs s)) - 2
  | SUnsol code data socket stack =>
      qs' = qs /\
      if bool_decide (data = []) || negb (allocated (mallocs s)) || negb ((socket =? 0) || (socket =? 1)) then
        cs' = cs /\ out = [] /\ grows = 0
      else
        let k := Z.to_nat socket in
        let r := reply pb_decode code MsgType_UNSOL_RESPONSE data (allocated (tail (mallocs s))) in
        exists c, cs !! k = Some c /\ out = calls c stack r /\ cs' = after_calls c r (told k (callback_ok s) cs) cs /\
          grows = Z.of_nat (leaves code MsgType_UNSOL_RESPONSE (tail (mallocs s)))
  | SSetCallback k c => qs' = qs /\ cs' = <[k := c]> cs /\ out = [] /\ grows = 0
  end.

Lemma length_told k cb cs : length (told k cb cs) = length cs.
Proof. unfold told. destruct (hd true cb); [done|]. by rewrite length_insert. Qed.

Lemma length_after_calls c r k cb cs : length (after_calls c r (told k cb cs) cs) = length cs.
Proof. unfold after_calls. destruct (c =? NULL); [done|]. destruct r; [apply length_told|done]. Qed.

Lemma rep_eta f qs cs s : sap_rep f qs cs s ->
  s = mkSap (objs s) (mallocs s) (imap (socket_at f) qs) (imap service_at cs) (callback_ok s) (sap_trace s).
Proof. intros []. destruct s. cbn in *. by subst. Qed.

(** Unsolicited responses. *)
Lemma unsol_ok f qs cs s k c code data stack : sap_rep f qs cs s -> (k < 2)%nat -> cs !! k = Some c -> data <> [] ->
  allocated (mallocs s) = true ->
  let r := reply pb_decode code MsgType_UNSOL_RESPONSE data (allocated (tail (mallocs s))) in
  sOnUnsolicitedResponse pb_decode code data (Z.of_nat k) stack s =
  Ok (tt, mkSap (kept pb_decode code MsgType_UNSOL_RESPONSE data (tail (mallocs s)) (objs s))
       (rest code MsgType_UNSOL_RESPONSE (tail (mallocs s))) (imap (socket_at f) qs)
       (imap service_at (after_calls c r (told k (callback_ok s) cs) cs))
       (after_calls c r (tail (callback_ok s)) (callback_ok s)) (sap_trace s ++ calls c stack r)).
Proof.
  intros Hrep Hk Hc Hd Ha r. destruct (lookup_lt_is_Some_2 qs k) as [q Hq]; [by rewrite (rep_slots _ _ _ _ Hrep)|].
  pose proof (rep_malloc _ _ _ _ Hrep) as (_ & W2 & W3). rewrite (rep_eta f qs cs s Hrep) at 1.
  unfold sOnUnsolicitedResponse. erewrite bindM_ok by (by eapply getSocketById_ok). unfold onUnsolicitedResponse.
  destruct data as [|x data]; [done|]. unfold allocated in Ha. destruct (mallocs s) as [|p l] eqn:El; [done|]. cbn [hd tail] in *.
  destruct (Z.eqb_spec p NULL) as [|Hp]; [done|]. step malloc_ok. rewrite (proj2 (Z.eqb_neq _ _) Hp).
  rewrite list.filter_cons, decide_True in W2 by done. apply list.NoDup_cons in W2 as [Hpl _].
  assert (Hpl' : p ∉ l). { intros Hin. apply Hpl, list_elem_of_filter. done. }
  erewrite bindM_ok by (by eapply socket_ok). step get_bytes_ok. cbn [id socket_at].
  erewrite bindM_ok by (by apply process_ok). rewrite free_ok; [|rewrite kept_frame by (by left); by look|done].
  assert (Fp : objs s !! p = None) by (apply W3; set_solver). by rewrite kept_payload.
Qed.

Lemma unsol_nothing f qs cs s code data socket stack : sap_rep f qs cs s ->
  bool_decide (data = []) || negb (allocated (mallocs s)) || negb ((socket =? 0) || (socket =? 1)) = true ->
  exists l', sOnUnsolicitedResponse pb_decode code data socket stack s =
    Ok (tt, mkSap (objs s) l' (imap (socket_at f) qs) (imap service_at cs) (callback_ok s) (sap_trace s)) /\ malloc_wf (objs s) l'.
Proof.
  intros Hrep Hb. pose proof (rep_malloc _ _ _ _ Hrep) as Hw. pose proof (rep_eta f qs cs s Hrep) as Hs.
  destruct (decide (socket = 0 \/ socket = 1)) as [Hsock|Hsock].
  - assert (Hk : exists k, socket = Z.of_nat k /\ (k < 2)%nat) by (destruct Hsock; [exists 0%nat|exists 1%nat]; lia).
    destruct Hk as (k & -> & Hk). destruct (lookup_lt_is_Some_2 qs k) as [q Hq]; [by rewrite (rep_slots _ _ _ _ Hrep)|].
    replace (negb ((Z.of_nat k =? 0) || (Z.of_nat k =? 1))) with false in Hb by (destruct k as [|[|]]; [done|done|lia]).
    rewrite orb_false_r in Hb. exists (match data with [] => mallocs s | _ => tail (mallocs s) end).
    split; [|destruct data; [done|by apply malloc_wf_tail]].
    rewrite Hs at 1. unfold sOnUnsolicitedResponse. erewrite bindM_ok by (by eapply getSocketById_ok).
    destruct data as [|x data]; [done|]. rewrite bool_decide_false in Hb by done. unfold allocated in Hb. cbn [orb] in Hb.
    rewrite negb_involutive in Hb. unfold onUnsolicitedResponse. by erewrite bindM_ok by (apply malloc_fail; by apply Z.eqb_eq).
  - exists (mallocs s). split; [|done]. rewrite Hs at 1. unfold sOnUnsolicitedResponse, getSocketById. run.
    replace (list_find _ _) with (@None (nat * RilSapSocket)); [done|]. symmetry. apply list_find_None, list.Forall_forall.
    intros x (j & Hj)%list_elem_of_lookup_1. rewrite list_lookup_imap in Hj. destruct (qs !! j) as [q|] eqn:Eq; [|done].
    injection Hj as <-. cbn. apply lookup_lt_Some in Eq. rewrite (rep_slots _ _ _ _ Hrep) in Eq. lia.
Qed.

(** * Registration *)

Definition registered f (l : list Z) : Sap :=
  mkSap (<[hd NULL (tail l) := OItem]> (<[hd NULL l := OItem]> ∅)) (tail (tail l)) (imap (socket_at f) [[]; []])
    (imap service_at [NULL; NULL]) [] [].

Lemma add_socket_ok nm i f p l h so sv cb tr : f <> NULL -> p <> NULL ->
  existsb (fun x => String.eqb (name x) nm) so = false ->
  addSocketToList nm i f (mkSap h (p :: l) so sv cb tr) =
  Ok (tt, mkSap (<[p := OItem]> h) l (so ++ [mkSock nm i (Some f) NULL]) sv cb tr).
Proof.
  intros Hf Hp He. unfold addSocketToList. erewrite bindM_ok; [|reflexivity]. cbn [sockets]. rewrite He. step malloc_ok.
  rewrite (proj2 (Z.eqb_neq _ _) Hp), (proj2 (Z.eqb_neq _ _) Hf). reflexivity.
Qed.

Lemma init_socket_ok k f p l h so sv cb tr : (k < 2)%nat -> f <> NULL -> p <> NULL ->
  existsb (fun x => String.eqb (name x) (slot_name k)) so = false ->
  initSapSocket (slot_name k) f (mkSap h (p :: l) so sv cb tr) =
  Ok (tt, mkSap (<[p := OItem]> h) l (so ++ [mkSock (slot_name k) (Z.of_nat k) (Some f) NULL]) sv cb tr).
Proof.
  intros Hk Hf Hp He. unfold initSapSocket. destruct k as [|[|k]]; [| |lia].
  - change (String.eqb (slot_name 0) RIL1_SERVICE_NAME) with true. change (String.eqb (slot_name 0) RIL2_SERVICE_NAME) with false. cbv match.
    erewrite bindM_ok; [reflexivity|]. erewrite bindM_ok; [|reflexivity]. cbn [sockets]. rewrite He. by apply add_socket_ok.
  - change (String.eqb (slot_name 1) RIL1_SERVICE_NAME) with false. change (String.eqb (slot_name 1) RIL2_SERVICE_NAME) with true. cbv match.
    rewrite (bindM_ok _ _ _ _ _ (eq_refl : retM tt _ = Ok (tt, _))). erewrite bindM_ok; [|reflexivity]. cbn [sockets]. rewrite He. by apply add_socket_ok.
Qed.

Lemma register_ok f a b l : f <> NULL -> a <> NULL -> b <> NULL ->
  RIL_register_socket (Some f) (sap_start (a :: b :: l)) = Ok (tt, registered f (a :: b :: l)).
Proof.
  intros Hf Ha Hb. unfold RIL_register_socket, sap_start.
  erewrite bindM_ok by (apply (init_socket_ok 0); [lia|done|done|reflexivity]).
  erewrite bindM_ok by (apply (init_socket_ok 1); [lia|done|done|reflexivity]). reflexivity.
Qed.

Lemma registered_rep f a b l : f <> NULL -> malloc_wf ∅ (a :: b :: l) -> a <> NULL -> b <> NULL ->
  sap_rep f [[]; []] [NULL; NULL] (registered f (a :: b :: l)).
Proof.
  intros Hf Hw Ha Hb. apply (malloc_wf_take _ _ _ OItem) in Hw; [|done]. apply (malloc_wf_take _ _ _ OItem) in Hw; [|done].
  destruct Hw as (W1 & W2 & W3). split; try done.
  - intros k q Hk. destruct k as [|[|k]]; cbn in Hk; simplify_eq; done.
  - apply list.NoDup_nil. done.
  - intros k q Hk. destruct k as [|[|k]]; cbn in Hk; simplify_eq; by apply list.NoDup_nil.
Qed.

(** * Calls *)

Lemma setCallback_ok f qs cs s k c : sap_rep f qs cs s -> (k < 2)%nat ->
  setCallback k c s = Ok (tt, mkSap (objs s) (mallocs s) (imap (socket_at f) qs) (imap service_at (<[k := c]> cs))
                                (callback_ok s) (sap_trace s)).
Proof.
  intros Hrep Hk. rewrite (rep_eta f qs cs s Hrep) at 1. unfold setCallback.
  destruct (lookup_lt_is_Some_2 cs k) as [c0 Hc]; [by rewrite (rep_clients _ _ _ _ Hrep)|].
  erewrite bindM_ok by (apply get_impl_ok; by rewrite list_lookup_imap, Hc). unfold modM. do 2 f_equal.
  unfold set. cbn. f_equal. apply list_eq. intros j. rewrite list_lookup_imap. destruct (decide (j = k)) as [->|Hj].
  - rewrite list_lookup_alter_eq, list_lookup_imap, Hc, list_lookup_insert_eq by (by eapply lookup_lt_Some). done.
  - by rewrite list_lookup_alter_ne, list_lookup_imap, list_lookup_insert_ne by done.
Qed.

Lemma act_ok f qs cs s a : sap_rep f qs cs s -> sap_ok qs s a ->
  exists s' qs' cs' out grows, run_act a s = Ok (tt, s') /\ sap_rep f qs' cs' s' /\ sap_trace s' = sap_trace s ++ out /\
    Z.of_nat (size (objs s')) = Z.of_nat (size (objs s)) + grows /\ sap_does qs cs s a qs' cs' out grows.
Proof.
  intros Hrep Hok. pose proof (rep_malloc _ _ _ _ Hrep) as Hw. destruct a as [k tok r|t e resp|code data socket stack|k c]; cbn [run_act sap_ok] in *.
  - destruct Hok as (q & bs & Hk & Hcan & Hkey).
    destruct (request_ok pb_get_encoded_size pb_encode pb_decode f qs cs s k q tok r bs) as (d & s' & Hrun & Hr & Hd & Ht & Hs); try done.
    exists s', (<[k := d :: q]> qs), cs. do 2 eexists. split; [done|]. split; [done|]. split; [done|]. split; [|by exists q, bs, d].
    rewrite Hs. destruct (req_command r); lia.
  - apply list_elem_of_fmap in Hok as (d & -> & (q & Hd & (k & Hk)%list_elem_of_lookup_1)%list_elem_of_join).
    apply list_elem_of_split in Hd as (q1 & q2 & ->).
    destruct (lookup_lt_is_Some_2 cs k) as [c Hc].
    { rewrite (rep_clients _ _ _ _ Hrep), <- (rep_slots _ _ _ _ Hrep). by eapply lookup_lt_Some. }
    eexists _, _, _, _, _. split; [by eapply complete_ok|]. split; [|split; [done|split]].
    + apply (rep_complete pb_decode f qs cs); [done|done|]. rewrite length_after_calls. by apply (rep_clients _ _ _ _ Hrep).
    + cbn [objs]. rewrite (size_completed pb_decode f qs cs) by done. instantiate (1 := Z.of_nat (completed_leaves d (mallocs s)) - 2).
      pose proof (two_objects f qs cs s k q1 d q2 Hrep Hk). lia.
    + by exists k, q1, d, q2, c.
  - destruct (bool_decide (data = []) || negb (allocated (mallocs s)) || negb ((socket =? 0) || (socket =? 1))) eqn:Eb.
    + destruct (unsol_nothing f qs cs s code data socket stack Hrep Eb) as (l' & Hrun & Hw').
      eexists _, qs, cs, [], 0. split; [done|]. split; [by apply (rep_quiet f qs cs s); [|apply (rep_clients _ _ _ _ Hrep)| |]|].
      cbn [sap_trace objs]. rewrite app_nil_r. split; [done|]. split; [lia|]. cbn. by rewrite Eb.
    + pose proof Eb as Eb'. apply orb_false_iff in Eb' as [[E1 E2]%orb_false_iff E3]. apply negb_false_iff in E2, E3. apply bool_decide_eq_false in E1.
      assert (Hk : socket = Z.of_nat (Z.to_nat socket) /\ (Z.to_nat socket < 2)%nat) by (apply orb_true_iff in E3; lia).
      destruct Hk as [Hk Hlt]. destruct (lookup_lt_is_Some_2 cs (Z.to_nat socket)) as [c Hc]; [by rewrite (rep_clients _ _ _ _ Hrep)|].
      eexists _, qs, _, _, _. split; [rewrite Hk at 1; by eapply unsol_ok|]. split; [|split; [done|split]].
      * apply (rep_quiet f qs cs s); [done|rewrite length_after_calls; by apply (rep_clients _ _ _ _ Hrep)| |by apply malloc_wf_kept, malloc_wf_tail].
        intros x Hx. apply kept_frame. right. split; [done|]. by apply malloc_wf_tail.
      * cbn [objs]. rewrite size_kept by (by apply malloc_wf_tail). rewrite Nat2Z.inj_add. reflexivity.
      * cbn. rewrite Eb. split; [done|]. by exists c.
  - eexists _, qs, (<[k := c]> cs), [], 0. split; [by eapply setCallback_ok|]. split.
    + apply (rep_quiet f qs cs s); [done|rewrite length_insert; by apply (rep_clients _ _ _ _ Hrep)|done|done].
    + cbn [sap_trace objs]. rewrite app_nil_r. split; [done|]. split; [lia|done].
Qed.

(** C12: the service refines a pair of queues. After registration both are empty. Every call
    within the rules then returns, whatever came before: a request is handed to the vendor's
    library with its id, the encoded bytes (of which there may be 65535) and a new token, and waits
    on its slot; the answer to a waiting request leads to one call of the slot's client (none if
    there is no client or no memory), with the token the client chose and the converted result,
    or the failure if it cannot be decoded, and the request waits no more; a client that is gone
    is forgotten. Memory holds two objects per waiting request; besides, every answer leaves
    the decoded message in memory, and every APDU its command. *)
Theorem sap_calls_refine f (Hf : f <> NULL) :
  (forall a b l, malloc_wf ∅ (a :: b :: l) -> a <> NULL -> b <> NULL ->
     RIL_register_socket (Some f) (sap_start (a :: b :: l)) = Ok (tt, registered f (a :: b :: l)) /\
     sap_rep f [[]; []] [NULL; NULL] (registered f (a :: b :: l))) /\
  (forall qs cs s a, sap_rep f qs cs s -> sap_ok qs s a ->
     exists s' qs' cs' out grows, run_act a s = Ok (tt, s') /\ sap_rep f qs' cs' s' /\ sap_trace s' = sap_trace s ++ out /\
       Z.of_nat (size (objs s')) = Z.of_nat (size (objs s)) + grows /\ sap_does qs cs s a qs' cs' out grows).
Proof.
  split; [|by intros; apply act_ok]. intros a b l Hw Ha Hb. split; [by apply register_ok|by apply registered_rep].
Qed.

(** * When memory runs out *)

Lemma req_fails r : exists a, failed_answer (req_id r) = Some a.
Proof. destruct r; by eexists. Qed.

(** What an allocation gives is not in use and not given again. *)
Lemma malloc_fresh h p l : malloc_wf h (p :: l) -> h !! p = None.
Proof. intros Hw. apply Hw. set_solver. Qed.

(** Memory in which the header of a request is at [msg] and its command at [cp], if it has one. *)
Definition prepared h (tok : Z) (i : MsgId) (msg cp : Z) : Prop :=
  h !! msg = Some (OHeader (mkHeader tok MsgType_REQUEST i 0 NULL)) /\ msg <> NULL /\
  (cp = NULL \/ is_Some (h !! cp) /\ cp <> msg /\ cp <> NULL).

(** The allocation that fails is that of the buffer, or that of the payload: then the command is not
    freed. *)
Lemma oom_encode h so cs cb tr k c tok i pb n bs a msg cp l1 l2 :
  cs !! k = Some c -> c <> NULL -> failed_answer i = Some a ->
  pb_get_encoded_size pb = Some n -> pb_encode n pb = Some bs -> zlen bs <= n -> prepared h tok i msg cp ->
  malloc_wf h (l1 ++ NULL :: l2) -> Forall (fun p => p <> NULL) l1 -> (length l1 < 2)%nat ->
  encode_and_dispatch pb_get_encoded_size pb_encode pb_decode k i tok msg cp pb None (mkSap h (l1 ++ NULL :: l2) so (imap service_at cs) cb tr) =
  Ok (tt, mkSap (delete msg (if (length l1 =? 0)%nat then delete cp h else h)) l2 so (imap service_at (told k cb cs)) (tail cb) (tr ++ [Answer c tok a])).
Proof.
  intros Hc Hz Ha Hn Hbs Hle (Hmsg & Hm & Hcp) Hw Hl1 Hlen. destruct (buffer_read bs n Hle) as (mem & Hmw & _).
  unfold encode_and_dispatch. rewrite Hn. destruct l1 as [|b l1]; cbn [app length Nat.eqb] in *.
  - erewrite bindM_ok by (by apply malloc_fail). change (NULL =? NULL) with true. cbv match. eapply fail_ok; [done|done|done|]. cbn [free_all].
    destruct Hcp as [->|(Hcp & Hne & Hcz)].
    + erewrite bindM_ok by reflexivity. erewrite bindM_ok by (apply free_ok; [by eauto|done]). rewrite (delete_id h NULL) by exact (proj1 Hw). done.
    + erewrite bindM_ok by (by apply free_ok). erewrite bindM_ok by (apply free_ok; [by look|done]). done.
  - apply list.Forall_cons in Hl1 as [Hb _]. destruct l1 as [|]; [|cbn in Hlen; lia]. cbn [app] in *.
    pose proof (malloc_fresh _ _ _ Hw) as Fb. assert (Hne : b <> msg) by congruence.
    step malloc_ok. rewrite (proj2 (Z.eqb_neq _ _) Hb), Hbs, Hmw. step_ret. step put_ok. unfold addPayloadAndDispatchRequest.
    step get_bytes_ok. step get_header_ok. erewrite bindM_ok by (by apply malloc_fail). step put_ok.
    change (NULL =? NULL) with true. cbv match. eapply fail_ok; [done|done|done|]. cbn [free_all].
    erewrite bindM_ok by (apply free_ok; [by look|done]). erewrite bindM_ok by (apply free_ok; [by look|done]).
    unfold retM. do 3 f_equal. apply map_eq. intros x. destruct (decide (x = msg)) as [->|]; [by look|].
    destruct (decide (x = b)) as [->|]; by look.
Qed.

(** Allocations before that of the buffer. *)
Definition before_buffer (r : sap_req) : nat := match req_command r with Some _ => 2 | None => 1 end.

(** A request whose header (and command) could be allocated. *)
Lemma run_req_prepared h so sv cb tr k tok r early l1 l2 : malloc_wf h (l1 ++ l2) -> Forall (fun p => p <> NULL) l1 -> length l1 = before_buffer r ->
  let hdr := OHeader (mkHeader tok MsgType_REQUEST (req_id r) 0 NULL) in
  exists msg cp h1, l1 = msg :: match req_command r with Some _ => [cp] | None => [] end /\
    h1 = match req_command r with Some c => <[cp := OBytes c]> (<[msg := hdr]> h) | None => <[msg := hdr]> h end /\
    prepared h1 tok (req_id r) msg cp /\ malloc_wf h1 l2 /\ h !! msg = None /\ (req_command r <> None -> h !! cp = None /\ cp <> msg) /\
    (req_command r = None -> cp = NULL) /\
    run_req pb_get_encoded_size pb_encode pb_decode k tok r early (mkSap h (l1 ++ l2) so sv cb tr) =
    encode_and_dispatch pb_get_encoded_size pb_encode pb_decode k (req_id r) tok msg cp (req_pb r) early (mkSap h1 l2 so sv cb tr).
Proof.
  intros Hw Hl1 Hlen hdr. unfold before_buffer in Hlen. destruct (req_command r) as [c|] eqn:Ec.
  - destruct l1 as [|msg [|cp [|]]]; try done. cbn [app] in *. rewrite !list.Forall_cons in Hl1. destruct Hl1 as (Hm & Hp & _).
    pose proof (malloc_fresh _ _ _ Hw) as Fm. apply (malloc_wf_take _ _ _ hdr) in Hw; [|done]. pose proof (malloc_fresh _ _ _ Hw) as Fp.
    assert (Hne : cp <> msg) by (intros ->; rewrite lookup_insert_eq in Fp; done). apply (malloc_wf_take _ _ _ (OBytes c)) in Hw; [|done].
    rewrite lookup_insert_ne in Fp by done. exists msg, cp, (<[cp := OBytes c]> (<[msg := hdr]> h)). split; [done|]. split; [done|].
    split; [split; [by look|split; [done|right; split; [by look|done]]]|]. split; [done|]. split; [done|]. split; [done|]. split; [done|].
    rewrite (run_req_command _ _ _ _ _ _ _ c Ec). unfold createMsgHeader. step malloc_ok. rewrite (proj2 (Z.eqb_neq _ _) Hm).
    step malloc_ok. by rewrite (proj2 (Z.eqb_neq _ _) Hp).
  - destruct l1 as [|msg [|]]; try done. cbn [app] in *. rewrite !list.Forall_cons in Hl1. destruct Hl1 as (Hm & _).
    pose proof (malloc_fresh _ _ _ Hw) as Fm. apply (malloc_wf_take _ _ _ hdr) in Hw; [|done].
    exists msg, NULL, (<[msg := hdr]> h). split; [done|]. split; [done|]. split; [split; [by look|by split; [|left]]|].
    do 4 (split; [done|]). rewrite (run_req_simple _ _ _ _ _ _ _ Ec). unfold simple_request, createMsgHeader. step malloc_ok.
    by rewrite (proj2 (Z.eqb_neq _ _) Hm).
Qed.

(** The command that stays in memory when the payload cannot be allocated. *)
Definition leaked (r : sap_req) (l1 : list Z) h : gmap Z obj :=
  match req_command r, l1 with Some c, [_; cp; _] => <[cp := OBytes c]> h | _, _ => h end.

(** The allocation that fails is one before that of the queue's entry. *)
Lemma oom_answered h so cs cb tr k c tok r n bs a l1 l2 :
  cs !! k = Some c -> c <> NULL -> failed_answer (req_id r) = Some a ->
  pb_get_encoded_size (req_pb r) = Some n -> pb_encode n (req_pb r) = Some bs -> zlen bs <= n ->
  malloc_wf h (l1 ++ NULL :: l2) -> Forall (fun p => p <> NULL) l1 -> (length l1 < before_buffer r + 2)%nat ->
  run_req pb_get_encoded_size pb_encode pb_decode k tok r None (mkSap h (l1 ++ NULL :: l2) so (imap service_at cs) cb tr) =
  Ok (tt, mkSap (leaked r l1 h) l2 so (imap service_at (told k cb cs)) (tail cb) (tr ++ [Answer c tok a])).
Proof.
  intros Hc Hz Ha Hn Hbs Hle Hw Hl1 Hlen. destruct (Nat.lt_ge_cases (length l1) (before_buffer r)) as [Hlt|Hge].
  - unfold before_buffer, leaked in *. destruct (req_command r) as [cmd|] eqn:Ec; [rewrite (run_req_command _ _ _ _ _ _ _ cmd Ec)|
      rewrite (run_req_simple _ _ _ _ _ _ _ Ec); unfold simple_request]; unfold createMsgHeader; (destruct l1 as [|msg l1]; cbn [app] in *;
      [erewrite bindM_ok by (by apply malloc_fail); change (NULL =? NULL) with true; cbv match; by eapply fail_ok|]); [|cbn in Hlt; lia].
    destruct l1; [|cbn in Hlt; lia]. apply list.Forall_cons in Hl1 as [Hm _]. cbn [app] in *. pose proof (malloc_fresh _ _ _ Hw) as Fm.
    step malloc_ok. rewrite (proj2 (Z.eqb_neq _ _) Hm). erewrite bindM_ok by (by apply malloc_fail). change (NULL =? NULL) with true. cbv match.
    eapply fail_ok; [done|done|done|]. cbn [free_all]. erewrite bindM_ok by (apply free_ok; [by look|done]). by rewrite delete_insert_id.
  - rewrite <- (take_drop (before_buffer r) l1) in Hw, Hl1 |- *. rewrite <- app_assoc in Hw |- *. apply list.Forall_app in Hl1 as [Hl1 Hl1'].
    destruct (run_req_prepared h so (imap service_at cs) cb tr k tok r None _ _ Hw Hl1) as (msg & cp & h1 & El & Eh & Hp & Hw1 & Fm & Fc & Hnone & ->);
      [rewrite length_take; lia|]. rewrite (oom_encode h1 so cs cb tr k c tok (req_id r) (req_pb r) n bs a msg cp) by (done || rewrite length_drop; lia).
    rewrite take_drop. do 3 f_equal. unfold leaked, before_buffer in *. destruct (req_command r) as [cmd|].
    + destruct Fc as [Fc Hne]; [done|]. destruct l1 as [|x [|y l1]]; cbn in El, Hge; try lia. injection El as -> ->. cbn [drop length Nat.eqb].
      rewrite drop_0. destruct l1 as [|z [|]]; cbn in Hlen; try lia; cbn [length Nat.eqb]; subst h1; apply map_eq; intros x;
        (destruct (decide (x = cp)) as [->|]; [by look|destruct (decide (x = msg)) as [->|]; by look]).
    + rewrite (Hnone eq_refl) in *. destruct l1 as [|x l1]; cbn in El, Hge; [lia|]. injection El as ->. subst h1.
      destruct (length (drop 1 (msg :: l1)) =? 0)%nat; [rewrite (delete_id _ NULL) by exact (proj1 Hw1)|]; by rewrite delete_insert_id.
Qed.

Lemma leaked_frame r l1 l2 h a : malloc_wf h (l1 ++ l2) -> is_Some (h !! a) -> leaked r l1 h !! a = h !! a.
Proof.
  intros (_ & _ & Hw) [o Ha]. unfold leaked. destruct (req_command r); [|done]. destruct l1 as [|? [|cp [|? [|]]]]; try done.
  rewrite lookup_insert_ne; [done|]. intros ->. rewrite Hw in Ha; [done|]. set_solver.
Qed.

Lemma leaked_wf r l1 l2 h : malloc_wf h (l1 ++ NULL :: l2) -> Forall (fun p => p <> NULL) l1 -> malloc_wf (leaked r l1 h) l2.
Proof.
  intros (W1 & W2 & W3) Hl1. rewrite list.filter_app, list.filter_cons, decide_False in W2 by naive_solver.
  apply list.NoDup_app in W2 as (_ & Wd & W2).
  assert (malloc_wf h l2) as Hw by (split; [done|split; [done|]]; intros p Hp; apply W3; set_solver).
  unfold leaked. destruct (req_command r) as [c|]; [|done]. destruct l1 as [|x [|cp [|y [|]]]]; try done.
  rewrite !list.Forall_cons in Hl1. destruct Hl1 as (_ & Hcp & _). destruct Hw as (_ & _ & W4).
  split; [by look|]. split; [done|]. intros p Hp. rewrite lookup_insert_ne; [by apply W4|]. intros <-.
  apply (Wd cp); apply list_elem_of_filter; (split; [done|]); [set_solver|done].
Qed.

(** The allocation of the queue's entry fails: the header is freed, and read after that. *)
Lemma oom_dispatch f qs cs h cb tr k q msg p b rest_ tok i bs : qs !! k = Some q -> (k < length cs)%nat ->
  h !! msg = Some (OHeader (mkHeader tok MsgType_REQUEST i 0 p)) -> h !! p = Some (OBytes bs) -> msg <> NULL ->
  (dispatchRequest pb_decode k msg None;; (let* x := get_header msg in free (h_payload x);; free b))
    (mkSap h (NULL :: rest_) (imap (socket_at f) qs) (imap service_at cs) cb tr) = Undef.
Proof.
  intros Hk Hc Hm Hp Hz. unfold dispatchRequest. rewrite bindM_assoc. erewrite bindM_ok by (by eapply socket_ok). rewrite bindM_assoc. step get_header_ok.
  rewrite bindM_assoc. erewrite bindM_ok by (by apply malloc_fail). change (NULL =? NULL) with true. cbv match.
  erewrite bindM_ok by (apply free_ok; [by eauto|done]). unfold bindM, get_header. run. by rewrite lookup_delete_eq.
Qed.

(** What happens to a request from the buffer's allocation on. *)
Lemma until_dispatch f qs cs h cb tr k q tok i pb n bs msg cp b p rest_ early : qs !! k = Some q -> (k < length cs)%nat ->
  pb_get_encoded_size pb = Some n -> pb_encode n pb = Some bs -> zlen bs <= n ->
  prepared h tok i msg cp -> malloc_wf h (b :: p :: rest_) -> Forall (fun x => x <> NULL) [b; p] ->
  exists h1, encode_and_dispatch pb_get_encoded_size pb_encode pb_decode k i tok msg cp pb early
      (mkSap h (b :: p :: rest_) (imap (socket_at f) qs) (imap service_at cs) cb tr) =
    (dispatchRequest pb_decode k msg early;; (let* x := get_header msg in free (h_payload x);; free b))
      (mkSap h1 rest_ (imap (socket_at f) qs) (imap service_at cs) cb tr) /\
    h1 !! msg = Some (OHeader (mkHeader tok MsgType_REQUEST i 0 p)) /\ h1 !! p = Some (OBytes (sent bs)) /\
    malloc_wf h1 rest_ /\ (forall a, is_Some (h !! a) -> a <> msg -> h1 !! a = h !! a).
Proof.
  intros Hk Hc Hn Hbs Hle (Hmsg & Hm & _) Hw Hnn. destruct (buffer_read bs n Hle) as (mem & Hmw & Hrd).
  rewrite !list.Forall_cons in Hnn. destruct Hnn as (Hb & Hp & _).
  pose proof (malloc_fresh _ _ _ Hw) as Fb. apply (malloc_wf_take _ _ _ (OBytes mem)) in Hw; [|done].
  pose proof (malloc_fresh _ _ _ Hw) as Fp. apply (malloc_wf_take _ _ _ (OBytes (sent bs))) in Hw; [|done].
  assert (N1 : b <> msg) by congruence. assert (N2 : p <> b) by (intros ->; rewrite lookup_insert_eq in Fp; done).
  rewrite lookup_insert_ne in Fp by done. assert (N3 : p <> msg) by congruence.
  exists (<[p := OBytes (sent bs)]> (<[b := OBytes mem]> (<[msg := OHeader (mkHeader tok MsgType_REQUEST i 0 p)]> h))).
  split; [|split; [|split; [|split]]].
  - unfold encode_and_dispatch. rewrite Hn. step malloc_ok. rewrite (proj2 (Z.eqb_neq _ _) Hb), Hbs, Hmw. step_ret. step put_ok.
    unfold addPayloadAndDispatchRequest. step get_bytes_ok. step get_header_ok. step malloc_ok. step put_ok.
    rewrite (proj2 (Z.eqb_neq _ _) Hp), Hrd. step_ret. step put_ok. erewrite bindM_ok by (by eapply impl_ok). cbn [rilSocketId service_at].
    erewrite bindM_ok by (by eapply getSocketById_ok). f_equal. f_equal. apply map_eq. intros x.
    destruct (decide (x = p)) as [->|]; [by look|]. destruct (decide (x = b)) as [->|]; [by look|]. destruct (decide (x = msg)) as [->|]; by look.
  - by look.
  - by look.
  - apply (malloc_wf_sub _ _ _ Hw). intros x Hx. revert Hx. destruct (decide (x = p)) as [->|]; [by look|].
    destruct (decide (x = b)) as [->|]; [by look|]. destruct (decide (x = msg)) as [->|]; [by rewrite !lookup_insert_ne, Hmsg by congruence|]. by look.
  - intros x [o Hx] Hne. by rewrite !lookup_insert_ne by congruence.
Qed.

(** C33: when memory runs out for a request that can be encoded, on a slot that has a client. If the
    header, the command of an APDU, the buffer or the payload cannot be allocated, the client is told
    that the request failed, once and with its token, and nothing waits. Memory is then as it was
    before, but for an APDU whose payload could not be allocated: its command is never freed. If it
    is the entry of the queue that cannot be allocated, the service frees the header and then reads
    its payload through it, which is undefined. *)
Theorem sap_out_of_memory f qs cs s k q c tok r n bs l1 l2
  (Hrep : sap_rep f qs cs s) (Hk : qs !! k = Some q) (Hc : cs !! k = Some c) (Hz : c <> NULL)
  (Hn : pb_get_encoded_size (req_pb r) = Some n)
  (Hbs : pb_encode n (req_pb r) = Some bs) (Hle : zlen bs <= n)
  (Hl : mallocs s = l1 ++ NULL :: l2) (Hl1 : Forall (fun p => p <> NULL) l1) (Hlen : (length l1 < needs r)%nat) :
  if (S (length l1) <? needs r)%nat then
    exists a s', failed_answer (req_id r) = Some a /\
      run_act (SRequest k tok r) s = Ok (tt, s') /\ objs s' = leaked r l1 (objs s) /\ sap_trace s' = sap_trace s ++ [Answer c tok a] /\
      sap_rep f qs (told k (callback_ok s) cs) s'
  else run_act (SRequest k tok r) s = Undef.
Proof.
  destruct (req_fails r) as [a Ha]. pose proof (rep_malloc _ _ _ _ Hrep) as Hw.
  assert (Hneeds : needs r = (before_buffer r + 3)%nat) by (unfold needs, before_buffer; by destruct (req_command r)). rewrite Hneeds in *.
  assert (Hkc : (k < length cs)%nat) by (by eapply lookup_lt_Some). rewrite (rep_eta f qs cs s Hrep), Hl. rewrite Hl in Hw. cbn [run_act].
  destruct (Nat.ltb_spec (S (length l1)) (before_buffer r + 3)) as [H3|H3].
  - exists a. eexists. split; [done|]. split; [eapply oom_answered; try done; lia|]. cbn [objs sap_trace]. split; [done|]. split; [done|].
    apply (rep_quiet f qs cs s); [done|rewrite length_told; apply (rep_clients _ _ _ _ Hrep)|intros x Hx; by eapply leaked_frame|by apply leaked_wf].
  - rewrite <- (take_drop (before_buffer r) l1) in Hw, Hl1 |- *. rewrite <- app_assoc in Hw |- *. apply list.Forall_app in Hl1 as [Hl1 Hl1'].
    destruct (run_req_prepared (objs s) (imap (socket_at f) qs) (imap service_at cs) (callback_ok s) (sap_trace s) k tok r None _ _ Hw Hl1)
      as (msg & cp & h1 & _ & _ & Hp & Hw1 & _ & _ & _ & ->); [rewrite length_take; lia|].
    pose proof (length_drop l1 (before_buffer r)) as Hd. destruct (drop (before_buffer r) l1) as [|b [|p [|]]]; cbn in Hd; try lia. cbn [app] in *.
    destruct (until_dispatch f qs cs h1 (callback_ok s) (sap_trace s) k q tok (req_id r) (req_pb r) n bs msg cp b p (NULL :: l2) None)
      as (h2 & -> & H1 & H2 & _); try done. destruct Hp as (_ & Hm & _). by eapply oom_dispatch.
Qed.

(** an answer that comes before [onRequest] has returned is undefined: completing the request
    frees its header, and [addPayloadAndDispatchRequest] then reads the payload's address
    through the header. So it is for an answer given on another thread before the call is
    back. *)
Theorem sap_early_answer f qs cs s k q tok r n bs msg b p rq m e resp
  (Hrep : sap_rep f qs cs s) (Hk : qs !! k = Some q) (Hcmd : req_command r = None)
  (Hn : pb_get_encoded_size (req_pb r) = Some n) (Hbs : pb_encode n (req_pb r) = Some bs) (Hle : zlen bs <= n)
  (Hl : mallocs s = msg :: b :: p :: rq :: m) (Hnn : Forall (fun x => x <> NULL) [msg; b; p; rq])
  (Hkey : (req_id r, tok) ∉ key <$> q) :
  run_req pb_get_encoded_size pb_encode pb_decode k tok r (Some (e, resp)) s = Undef.
Proof.
  pose proof (rep_malloc _ _ _ _ Hrep) as Hw. rewrite Hl in Hw. rewrite (rep_eta f qs cs s Hrep), Hl.
  assert (Hkc : (k < length cs)%nat). { rewrite (rep_clients _ _ _ _ Hrep), <- (rep_slots _ _ _ _ Hrep). by eapply lookup_lt_Some. }
  rewrite !list.Forall_cons in Hnn. destruct Hnn as (N1 & N2 & N3 & N4 & _).
  destruct (run_req_prepared (objs s) (imap (socket_at f) qs) (imap service_at cs) (callback_ok s) (sap_trace s) k tok r (Some (e, resp))
    [msg] (b :: p :: rq :: m)) as (msg' & cp & h0 & El & Eh & Hp & Hw0 & Fm & _ & _ & E); [done|by constructor|by unfold before_buffer; rewrite Hcmd|].
  rewrite Hcmd in El, Eh. injection El as <-. change ([msg] ++ b :: p :: rq :: m) with (msg :: b :: p :: rq :: m) in E. rewrite E. clear E.
  destruct (until_dispatch f qs cs h0 (callback_ok s) (sap_trace s) k q tok (req_id r) (req_pb r) n bs msg cp b p (rq :: m) (Some (e, resp)))
    as (h1 & -> & H1 & H2 & Hw1 & Hkeep); try done; [by rewrite !list.Forall_cons|].
  assert (Hsame : forall a, is_Some (objs s !! a) -> h1 !! a = objs s !! a).
  { intros a [o Ho]. subst h0. rewrite Hkeep; [|by rewrite lookup_insert_ne by congruence; eauto|congruence]. by rewrite lookup_insert_ne by congruence. }
  assert (Fr : h1 !! rq = None) by (apply Hw1; set_solver).
  unfold bindM at 1. rewrite (dispatch_gen pb_decode f qs cs m _ _ k q Hk (rep_funcs _ _ _ _ Hrep) h1 msg p rq (req_id r) tok (sent bs)) by done.
  cbv zeta. set (d := mkPend rq msg (req_id r) tok p). set (s2 := mkSap _ _ _ _ _ _).
  assert (Hrep2 : sap_rep f (<[k := d :: q]> qs) cs s2).
  { unfold s2. rewrite <- (insert_id h1 msg _ H1). eapply rep_push; try done; by eauto. }
  destruct (lookup_lt_is_Some_2 cs k Hkc) as [c Hc].
  assert (Hk2 : <[k := d :: q]> qs !! k = Some ([] ++ d :: q)) by (apply list_lookup_insert_eq; by eapply lookup_lt_Some).
  change rq with (pd_req d). rewrite (complete_ok pb_decode f _ cs s2 k c [] d q e resp Hrep2 Hk2 Hc).
  unfold bindM, get_header. run. unfold completed_heap. change (pd_hdr d) with msg. by rewrite lookup_delete_eq.
Qed.
End Calls.

(** * Examples *)

(** An encoder of two bytes, and a decoder that takes every response for a success. *)
Definition ex_size (r : pb_request) : option Z := Some 2.
Definition ex_encode (n : Z) (r : pb_request) : option (list Z) := Some [8; 1].
Definition ex_decode (fl : pb_fields) (bs : list Z) : option pb_response :=
  match fl with
  | POWER_RSP_fields => Some (POWER_RSP Response_RIL_E_SUCCESS)
  | STATUS_IND_fields => Some (STATUS_IND 0)
  | _ => None
  end.

Definition ex_mallocs : list Z := [1; 2; 11; 12; 13; 14; 21; 22; 23; 24; 31; 32; 33; 34].

Lemma ex_malloc_wf : malloc_wf ∅ ex_mallocs.
Proof. split; [done|]. split; [by apply (bool_decide_unpack _); vm_compute|done]. Qed.

Definition ex_state : Sap := registered 5 ex_mallocs.

Lemma ex_rep : sap_rep 5 [[]; []] [NULL; NULL] ex_state.
Proof. apply registered_rep; [done|exact ex_malloc_wf|done|done]. Qed.

Fixpoint run_acts (l : list sap_act) : SAP unit :=
  match l with [] => retM tt | a :: l' => run_act ex_size ex_encode ex_decode a;; run_acts l' end.

(** two requests of one kind that wait with the same token bring memory down. The answer to
    the older is given to the client, but the queue frees the newer, which comes first with
    that token; the answer to the newer then reads a request that was freed. *)
Theorem sap_same_token_twice :
  let calls_ := [SSetCallback 0 9; SRequest 0 7 (Power true); SRequest 0 7 (Power false); SComplete 14 0 []] in
  exists s, run_acts calls_ ex_state = Ok (tt, s) /\
    sap_trace s = [ToUim MsgId_RIL_SIM_SAP_POWER [8; 1] 14 0; ToUim MsgId_RIL_SIM_SAP_POWER [8; 1] 24 0; Answer 9 7 (powerResponse SUCCESS)] /\
    objs s !! 24 = None /\ run_acts [SComplete 24 0 []] s = Undef.
Proof. eexists. split; [vm_compute; reflexivity|]. split; [reflexivity|]. split; vm_compute; reflexivity. Qed.

Lemma sap_calls_refine_witness :
  let s := ex_state in
  RIL_register_socket (Some 5) (sap_start ex_mallocs) = Ok (tt, s) /\
  exists s' qs' cs' out grows,
    run_act ex_size ex_encode ex_decode (SRequest 1 3 (Power true)) s = Ok (tt, s') /\ sap_rep 5 qs' cs' s' /\
    sap_trace s' = sap_trace s ++ out /\ Z.of_nat (size (objs s')) = Z.of_nat (size (objs s)) + grows /\
    sap_does ex_size ex_encode ex_decode [[]; []] [NULL; NULL] s (SRequest 1 3 (Power true)) qs' cs' out grows.
Proof.
  destruct (sap_calls_refine ex_size ex_encode ex_decode 5 ltac:(done)) as [H1 H2]. split.
  - apply H1; [exact ex_malloc_wf|done|done].
  - apply H2; [exact ex_rep|]. exists [], [8; 1]. split; [done|]. split; [|apply not_elem_of_nil].
    split; [exists 2; done|]. split; [cbn; lia|]. by repeat constructor.
Defined.


Lemma ex_client_rep l : malloc_wf (objs ex_state) l -> sap_rep 5 [[]; []] [9; NULL] (mkSap (objs ex_state) l (sockets ex_state) (imap service_at [9; NULL]) [] []).
Proof. intros Hw. apply (rep_quiet 5 [[]; []] [NULL; NULL] ex_state); [exact ex_rep|done|done|done]. Qed.

(** The payload of an APDU cannot be allocated, and the queue's entry of another request. *)
Lemma sap_out_of_memory_witness :
  (exists a s', failed_answer MsgId_RIL_SIM_SAP_APDU = Some a /\
    run_act ex_size ex_encode ex_decode (SRequest 0 7 (Apdu 0 [160; 164]))
      (mkSap (objs ex_state) [11; 12; 13; NULL] (sockets ex_state) (imap service_at [9; NULL]) [] []) = Ok (tt, s') /\
    objs s' = <[12 := OBytes [160; 164]]> (objs ex_state) /\ sap_trace s' = [Answer 9 7 a] /\ sap_rep 5 [[]; []] [9; NULL] s') /\
  run_act ex_size ex_encode ex_decode (SRequest 0 7 (Power true))
    (mkSap (objs ex_state) [11; 12; 13; NULL] (sockets ex_state) (imap service_at [9; NULL]) [] []) = Undef.
Proof.
  assert (Hw : malloc_wf (objs ex_state) [11; 12; 13; NULL]).
  { split; [done|]. split; [by apply (bool_decide_unpack _); vm_compute|]. apply list.Forall_forall. by repeat constructor. }
  split.
  - apply (sap_out_of_memory ex_size ex_encode ex_decode 5 [[]; []] [9; NULL]
      (mkSap (objs ex_state) [11; 12; 13; NULL] (sockets ex_state) (imap service_at [9; NULL]) [] [])
      0 [] 9 7 (Apdu 0 [160; 164]) 2 [8; 1] [11; 12; 13] []); try done.
    + by apply ex_client_rep.
    + by repeat constructor.
    + cbn. lia.
  - apply (sap_out_of_memory ex_size ex_encode ex_decode 5 [[]; []] [9; NULL]
      (mkSap (objs ex_state) [11; 12; 13; NULL] (sockets ex_state) (imap service_at [9; NULL]) [] [])
      0 [] 9 7 (Power true) 2 [8; 1] [11; 12; 13] []); try done.
    + by apply ex_client_rep.
    + by repeat constructor.
    + cbn. lia.
Defined.

Lemma sap_early_answer_witness : run_req ex_size ex_encode ex_decode 0 7 (Power true) (Some (0, [])) ex_state = Undef.
Proof.
  apply (sap_early_answer ex_size ex_encode ex_decode 5 [[]; []] [NULL; NULL] ex_state 0 [] 7 (Power true) 2 [8; 1] 11 12 13 14 [21; 22; 23; 24; 31; 32; 33; 34] 0 []); try done.
  - exact ex_rep.
  - by repeat constructor.
  - apply not_elem_of_nil.
Defined.
