(* ===== verification/Rild.v ===== *)
(** The RIL daemon's start (src/hal/rild/rild.c): the command line, the name of the service, the
    change of user, loading the vendor's library, and the arguments it is given. *)

From stdpp Require Import base list gmap strings numbers.
From Stdlib Require Import ZArith Lia.
From S2P Require Import Prelude CFloat EpoConf.

Local Open Scope Z_scope.
Local Open Scope st_scope.
Local Open Scope rec_scope.

Definition LIB_PATH_PROPERTY : string := "rild.libpath".
Definition LIB_ARGS_PROPERTY : string := "rild.libargs".

(** rild.c:44-44 [MAX_LIB_ARGS]. *)
Definition MAX_LIB_ARGS : nat := 16.
Definition PROPERTY_VALUE_MAX : nat := 92.

(** ril.h:101-103 [MAX_RILDS, MAX_SERVICE_NAME_LENGTH, MAX_CLIENT_ID_LENGTH]. *)
Definition MAX_RILDS : Z := 3.
Definition MAX_SERVICE_NAME_LENGTH : nat := 6.
Definition MAX_CLIENT_ID_LENGTH : nat := 2.

Definition SPACE : Z := 32.
Definition EXIT_FAILURE : Z := 1.
Definition AID_RADIO : Z := 1001.
Definition CAP_NET_ADMIN : Z := 12.
Definition CAP_NET_RAW : Z := 13.
Definition CAP_BLOCK_SUSPEND : Z := 36.

(** * State *)

(** A vendor's library: which of the functions it exports. *)
Record vendor_lib := mkLib { lib_InitSocket : bool; lib_Init : bool; lib_SAP_Init : bool }.

(** The system the daemon starts on: what the proprietary set-up returns, the properties,
    whether the change of user and the capabilities are granted, and the libraries. *)
Record RildEnv := mkRildEnv {
  env_mtkInit : Z;
  env_props : gmap string (list Z);
  env_setresuid : Z;
  env_capset : Z;
  env_libs : gmap (list Z) vendor_lib;
}.

(** What the daemon does, in order. *)
Inductive rild_out :=
  | Umask
  | KeepCaps
  | SetUid (uid : Z)
  | CapSet (data : list (Z * Z))
  | Dumpable
  | DlOpen (path : list Z)
  | StartEventLoop
  | VendorInit (with_socket : bool) (argv : list (list Z))
  | Register (with_socket : bool)
  | RegisterSap (argv : list (list Z))
  | ThreadPool.

(** Running, or at its end: the process exits, or the main thread sleeps for ever. *)
Inductive ending := Exits (code : Z) | Sleeps.

Record Rild := mkRild {
  rd_env : RildEnv;
  rd_service_name : list Z;
  rd_end : option ending;
  rd_out : list rild_out;
}.
#[export] Instance eta_Rild : Eta Rild := fun s => mkRild (rd_env s) (rd_service_name s) (rd_end s) (rd_out s).

Definition does_ (o : rild_out) : ST Rild unit := modM (fun s => s <| rd_out := rd_out s ++ [o] |>).
Definition ends (e : ending) : ST Rild unit := modM (fun s => s <| rd_end := Some e |>).

(** [property_get]: the value, or the default when there is none or an empty one. *)
Definition property_get_default (env : RildEnv) (key : string) (dflt : list Z) : list Z :=
  match env_props env !! key with
  | Some (b :: v) => b :: v
  | _ => dflt
  end.

(** * The library's arguments *)

Fixpoint spaces (l : list Z) : nat :=
  match l with c :: l' => if c =? SPACE then S (spaces l') else O | [] => O end.
Fixpoint word_length (l : list Z) : nat :=
  match l with c :: l' => if (c =? SPACE) || (c =? 0) then O else S (word_length l') | [] => O end.

(** The C library's [strtok] with a blank as the only delimiter, from offset [off] of an array:
    the offset of the token, the array, and where the next call goes on. No token is a null
    pointer; an array without a NUL is undefined. *)
Definition strtok (mem : list Z) (off : nat) : option (option (nat * list Z * nat)) :=
  let o := (off + spaces (drop off mem))%nat in
  match mem !! o with
  | None => None
  | Some c =>
      if c =? 0 then Some None
      else
        let e := (o + word_length (drop o mem))%nat in
        match mem !! e with
        | None => None
        | Some c => if c =? 0 then Some (Some (o, mem, e)) else Some (Some (o, <[e := 0]> mem, S e))
        end
  end.

(** rild.c:120-124 [make_argv, loop] on the array [argv] of the arguments' offsets. *)
Fixpoint make_argv_loop (fuel : nat) (mem : list Z) (off : nat) (argv : list (option nat)) (count : nat)
    : option (nat * list (option nat) * list Z) :=
  match fuel with
  | O => None
  | S fuel' =>
      match strtok mem off with
      | None => None
      | Some None => Some (count, argv, mem)
      | Some (Some (tok, mem', off')) =>
          if (count <? length argv)%nat then make_argv_loop fuel' mem' off' (<[count := Some tok]> argv) (S count) else None
      end
  end.

(** rild.c:114-126 [make_argv] with the array of [MAX_LIB_ARGS] pointers of its caller. *)
Definition make_argv (args : list Z) : option (nat * list (option nat) * list Z) :=
  make_argv_loop (S (length args)) args 0 (replicate MAX_LIB_ARGS None) 1.

(** The strings that the first [count] entries of the array point to, but for the first, which is
    set to the program's name. *)
Definition arg_strings (argv0 : list Z) (r : nat * list (option nat) * list Z) : list (list Z) :=
  let '(count, argv, mem) := r in
  argv0 :: map (fun o => match o with Some off => cstr (drop off mem) | None => [] end) (take (count - 1) (drop 1 argv)).

(** * Capabilities *)

Definition CAP_TO_INDEX (x : Z) : nat := Z.to_nat (Z.shiftr x 5).
Definition CAP_TO_MASK (x : Z) : Z := Z.shiftl 1 (Z.land x 31).
Definition MAX_CAP_NUM : nat := 2.

(** Set a capability in both words of its entry. *)
Definition add_cap (x : Z) (data : list (Z * Z)) : list (Z * Z) :=
  alter (fun d => (Z.lor d.1 (CAP_TO_MASK x), Z.lor d.2 (CAP_TO_MASK x))) (CAP_TO_INDEX x) data.

(** rild.c:132-171 [switchUser]. *)
Definition switchUser : ST Rild bool :=
  let* s := getM in
  let env := rd_env s in
  does_ KeepCaps;;
  if env_setresuid env =? -1 then ends (Exits EXIT_FAILURE);; retM false
  else
    does_ (SetUid AID_RADIO);;
    let data := add_cap CAP_BLOCK_SUSPEND (add_cap CAP_NET_RAW (add_cap CAP_NET_ADMIN (replicate MAX_CAP_NUM (0, 0)))) in
    if env_capset env =? -1 then ends (Exits EXIT_FAILURE);; retM false
    else
      does_ (CapSet data);;
      (if bytes_eqb (property_get_default env "ro.debuggable" (str "0")) (str "1") then does_ Dumpable else retM tt);;
      retM true.

(** * The command line *)

(** What the options select: the library, the client's id, the arguments after ["--"]. *)
Record options := mkOptions { rilLibPath : option (list Z); clientId : option (list Z); libArgs : option (list (list Z)) }.
#[export] Instance eta_options : Eta options := fun o => mkOptions (rilLibPath o) (clientId o) (libArgs o).

(** rild.c:209-223 [main, loop over the arguments] no options: the usage is printed. *)
Fixpoint parse_args (args : list (list Z)) (o : options) : option options :=
  match args with
  | [] => Some o
  | a :: args' =>
      match args' with
      | v :: args'' =>
          if bytes_eqb a (str "-l") then parse_args args'' (o <| rilLibPath := Some v |>)
          else if bytes_eqb a (str "--") then Some (o <| libArgs := Some args' |>)
          else if bytes_eqb a (str "-c") then parse_args args'' (o <| clientId := Some v |>)
          else None
      | [] => if bytes_eqb a (str "--") then Some (o <| libArgs := Some args' |>) else None
      end
  end.

(** rild.c:225-235 [main, service name] whether the daemon goes on. [RIL_setServiceName] copies
    the name onto itself. *)
Definition service_name (client : option (list Z)) : ST Rild bool :=
  let id_ := default (str "0") client in
  if (match client with Some c => MAX_RILDS <=? atoi c | None => false end) then ends (Exits 0);; retM false
  else if bytes_eqb (take MAX_CLIENT_ID_LENGTH id_) (take MAX_CLIENT_ID_LENGTH (str "0")) then retM true
  else
    let base := str "slot" ++ zeros 2 in
    let* name := of_option (mem_write base (zlen (cstr base)) (take MAX_SERVICE_NAME_LENGTH id_ ++ [0])) in
    modM (fun s => s <| rd_service_name := name |>);;
    retM true.

(** rild.c:323-331 [main, done]. *)
Definition done_ : ST Rild unit := does_ ThreadPool;; ends Sleeps.

(** rild.c:287-303 [main, arguments of the library]. *)
Definition library_args (env : RildEnv) (argv0 : list Z) (o : options) : option (list (list Z)) :=
  match libArgs o with
  | Some rest => Some (argv0 :: rest)
  | None =>
      let v := property_get_default env LIB_ARGS_PROPERTY (str "-d /dev/ttyC0") in
      arg_strings argv0 <$> make_argv (take PROPERTY_VALUE_MAX (v ++ zeros PROPERTY_VALUE_MAX))
  end.

(** rild.c:247-322 [main, library] from the change of user on. *)
Definition start_library (argv0 : list Z) (o : options) (path : list Z) : ST Rild unit :=
  let* go := switchUser in
  if go : bool then
    let* s := getM in
    let env := rd_env s in
    does_ (DlOpen path);;
    match env_libs env !! path with
    | None => ends (Exits EXIT_FAILURE)
    | Some lib =>
        does_ StartEventLoop;;
        if negb (lib_InitSocket lib) && negb (lib_Init lib) then ends (Exits EXIT_FAILURE)
        else
          let* argv := of_option (library_args env argv0 o) in
          does_ (VendorInit (lib_InitSocket lib) argv);;
          does_ (Register (lib_InitSocket lib));;
          (if lib_SAP_Init lib then does_ (RegisterSap argv) else retM tt);;
          done_
    end
  else retM tt.

(** rild.c:173-331 [main]. *)
Definition rild_main (argv0 : list Z) (args : list (list Z)) : ST Rild unit :=
  let* s := getM in
  let env := rd_env s in
  if env_mtkInit env =? -1 then done_
  else
    does_ Umask;;
    match parse_args args (mkOptions None None None) with
    | None => ends (Exits EXIT_FAILURE)
    | Some o =>
        let* go := service_name (clientId o) in
        if go : bool then
          match rilLibPath o with
          | Some path => start_library argv0 o path
          | None =>
              let path := property_get_default env LIB_PATH_PROPERTY (str "mtk-ril.so") in
              if zlen path =? 0 then done_ else start_library argv0 o path
          end
        else retM tt
    end.

Definition rild_init (env : RildEnv) : Rild := mkRild env (str "slot1" ++ [0]) None [].

(** * The words of a string *)

(** The words between blanks; [cur] is the word under way. *)
Fixpoint words_from (cur s : list Z) : list (list Z) :=
  match s with
  | [] => match cur with [] => [] | _ => [cur] end
  | c :: s' => if c =? SPACE then match cur with [] => words_from [] s' | _ => cur :: words_from [] s' end
               else words_from (cur ++ [c]) s'
  end.
Definition words (s : list Z) : list (list Z) := words_from [] s.

Definition no_space (w : list Z) : Prop := Forall (fun c => c <> SPACE) w.
Definition no_nul (s : list Z) : Prop := Forall (fun c => c <> 0) s.

Lemma words_blanks a s : words (replicate a SPACE ++ s) = words s.
Proof. induction a as [|a IH]; [done|]. exact IH. Qed.

Lemma words_from_word w : forall cur t, no_space w -> words_from cur (w ++ t) = words_from (cur ++ w) t.
Proof.
  induction w as [|c w IH]; intros cur t Hw; [by rewrite app_nil_r|]. apply list.Forall_cons in Hw as [Hc Hw]. cbn [app words_from].
  rewrite (proj2 (Z.eqb_neq _ _) Hc), IH by done. by rewrite <- app_assoc.
Qed.

Lemma words_word w t : w <> [] -> no_space w -> words (w ++ SPACE :: t) = w :: words t.
Proof. intros Hn Hw. unfold words. rewrite words_from_word by done. cbn. by destruct w. Qed.

Lemma words_last w : w <> [] -> no_space w -> words w = [w].
Proof. intros Hn Hw. unfold words. rewrite <- (app_nil_r w) at 1. rewrite words_from_word by done. cbn. by destruct w. Qed.

(** A string is blank, or starts with a word after blanks. *)
Lemma first_word s : (exists a, s = replicate a SPACE) \/
  exists a w t, s = replicate a SPACE ++ w ++ t /\ w <> [] /\ no_space w /\ (t = [] \/ exists t', t = SPACE :: t').
Proof.
  induction s as [|c s IH]; [left; by exists 0%nat|]. destruct (decide (c = SPACE)) as [->|Hc].
  - destruct IH as [[a ->]|(a & w & t & -> & H)]; [left; by exists (S a)|right]. by exists (S a), w, t.
  - right. destruct IH as [[a ->]|(a & w & t & -> & Hw & Hn & Ht)].
    + exists 0%nat, [c], (replicate a SPACE). split; [done|]. split; [done|]. split; [by constructor|]. destruct a; eauto.
    + destruct a as [|a].
      * exists 0%nat, (c :: w), t. split; [done|]. split; [done|]. split; [by constructor|done].
      * exists 0%nat, [c], (replicate (S a) SPACE ++ w ++ t). split; [done|]. split; [done|]. split; [by constructor|]. right. by eexists.
Qed.

Lemma spaces_blanks a c l : c <> SPACE -> spaces (replicate a SPACE ++ c :: l) = a.
Proof. intros Hc. induction a as [|a IH]; cbn; [by rewrite (proj2 (Z.eqb_neq _ _) Hc)|]. by rewrite IH. Qed.

Lemma word_length_word w c l : no_space w -> no_nul w -> c = SPACE \/ c = 0 -> word_length (w ++ c :: l) = length w.
Proof.
  intros Hw Hn Hc. induction w as [|x w IH]; cbn.
  - destruct Hc as [-> | ->]; done.
  - apply list.Forall_cons in Hw as [Hx Hw], Hn as [Hx0 Hn]. rewrite (proj2 (Z.eqb_neq _ _) Hx), (proj2 (Z.eqb_neq _ _) Hx0). cbn. by rewrite IH.
Qed.

Lemma drop_pre {A} (pre l : list A) : drop (length pre) (pre ++ l) = l.
Proof. apply drop_app_length. Qed.

Lemma lookup_pre {A} (pre l : list A) n : (pre ++ l) !! (length pre + n)%nat = l !! n.
Proof. rewrite lookup_app_r by lia. f_equal. lia. Qed.

(** [strtok] on an array whose string goes on with [s] after [pre]. *)
Lemma strtok_blank pre a junk : strtok (pre ++ replicate a SPACE ++ 0 :: junk) (length pre) = Some None.
Proof.
  unfold strtok. rewrite drop_pre, spaces_blanks by done. rewrite lookup_pre.
  rewrite lookup_app_r by (rewrite length_replicate; lia). by rewrite length_replicate, Nat.sub_diag.
Qed.

Lemma strtok_word pre a w c l : w <> [] -> no_space w -> no_nul w -> c = SPACE \/ c = 0 ->
  let pre1 := pre ++ replicate a SPACE in
  strtok (pre ++ replicate a SPACE ++ w ++ c :: l) (length pre) =
  Some (Some (if c =? 0 then (length pre1, pre1 ++ w ++ c :: l, length (pre1 ++ w))
              else (length pre1, pre1 ++ w ++ 0 :: l, length (pre1 ++ w ++ [0])))).
Proof.
  intros Hne Hw Hn Hc pre1. unfold strtok. destruct w as [|x w]; [done|]. cbn [app]. rewrite drop_pre, spaces_blanks by (by apply list.Forall_cons in Hw as [? _]).
  replace (pre ++ replicate a SPACE ++ x :: w ++ c :: l) with (pre1 ++ (x :: w) ++ c :: l) by (unfold pre1; by rewrite <- app_assoc).
  replace (length pre + a)%nat with (length pre1 + 0)%nat by (unfold pre1; rewrite length_app, length_replicate; lia).
  rewrite lookup_pre. cbn [app lookup list_lookup]. rewrite (proj2 (Z.eqb_neq x 0)) by (by apply list.Forall_cons in Hn as [? _]).
  rewrite Nat.add_0_r, (drop_pre pre1 (x :: w ++ c :: l)). change (x :: w ++ c :: l) with ((x :: w) ++ c :: l).
  rewrite (word_length_word (x :: w)) by done.
  rewrite lookup_pre, (lookup_app_r (x :: w)), Nat.sub_diag by done. cbn [lookup list_lookup].
  destruct (Z.eqb_spec c 0) as [->|Hc0]; cbn [length]; rewrite !length_app; cbn [length].
  - done.
  - do 3 f_equal; [f_equal|rewrite length_app; cbn; lia]. rewrite insert_app_r.
    replace (S (length w)) with (length (x :: w) + 0)%nat by (cbn; lia). by rewrite insert_app_r.
Qed.

Lemma cstr_word w l : no_nul w -> cstr (w ++ 0 :: l) = w.
Proof. induction w as [|x w IH]; intros Hn; [done|]. apply list.Forall_cons in Hn as [Hx Hn]. cbn. by rewrite (proj2 (Z.eqb_neq _ _) Hx), IH. Qed.

(** Entries of the array point to the words from [count] on. *)
Definition points_to (argv : list (option nat)) (mem : list Z) (count : nat) (ws : list (list Z)) : Prop :=
  forall i w, ws !! i = Some w -> exists off, argv !! (count + i)%nat = Some (Some off) /\ cstr (drop off mem) = w.

(** A word before an array's part that does not change stays a string. *)
Lemma word_kept pre w mem : no_nul w -> take (length (pre ++ w ++ [0])) mem = pre ++ w ++ [0] -> cstr (drop (length pre) mem) = w.
Proof.
  intros Hw Ht. rewrite <- (take_drop (length (pre ++ w ++ [0])) mem), Ht, <- app_assoc, drop_pre, <- app_assoc. by apply cstr_word.
Qed.

Lemma take_longer {A} (mem pre : list A) x : take (length pre) mem = pre -> mem !! length pre = Some x ->
  take (length (pre ++ [x])) mem = pre ++ [x].
Proof. intros Ht Hx. rewrite length_app, Nat.add_comm. cbn [length Nat.add]. by rewrite (take_S_r _ _ _ Hx), Ht. Qed.

Lemma take_shorter {A} (mem pre post : list A) : take (length (pre ++ post)) mem = pre ++ post -> take (length pre) mem = pre.
Proof. intros Ht. rewrite <- (take_drop (length (pre ++ post)) mem), Ht, <- app_assoc. apply take_app_length. Qed.

(** A call of [strtok] at the string [s]: no word is left, or the first word, at an offset
    [length pre1], and the string [s'] after it. *)
Lemma strtok_step pre s junk : no_nul s ->
  let mem := pre ++ s ++ 0 :: junk in
  words s = [] /\ strtok mem (length pre) = Some None \/
  exists w sp s' pre' junk', words s = w :: words s' /\ no_nul w /\ no_nul s' /\ (length s' < length s)%nat /\
    strtok mem (length pre) = Some (Some (length (pre ++ sp), pre' ++ s' ++ 0 :: junk', length pre')) /\
    (length pre' + length s' = length pre + length s)%nat /\
    (forall mem', take (length pre') mem' = pre' -> mem' !! (length pre' + length s')%nat = Some 0 ->
       take (length ((pre ++ sp) ++ w ++ [0])) mem' = (pre ++ sp) ++ w ++ [0]).
Proof.
  intros Hs mem. unfold mem. destruct (first_word s) as [[a ->]|(a & w & t & -> & Hw & Hn & Ht)].
  - left. split; [|apply strtok_blank]. rewrite <- (app_nil_r (replicate a SPACE)). by rewrite words_blanks.
  - right. unfold no_nul in Hs. rewrite !Forall_app in Hs. destruct Hs as (_ & Hnw & Hnt). rewrite words_blanks.
    assert (Hpos : (0 < length w)%nat) by (destruct w; [done|cbn; lia]). destruct Ht as [->|[t' ->]].
    + exists w, (replicate a SPACE), [], ((pre ++ replicate a SPACE) ++ w), junk. rewrite app_nil_r. split; [by apply words_last|].
      split; [done|]. split; [constructor|]. split; [rewrite length_app; cbn [length]; lia|]. split; [|split].
      * rewrite <- app_assoc, strtok_word by auto. change (0 =? 0) with true. cbv match. by rewrite <- !app_assoc.
      * rewrite !length_app. cbn [length]. lia.
      * intros mem' Hm H0. rewrite Nat.add_0_r in H0. rewrite (app_assoc (pre ++ _)). by apply take_longer.
    + apply list.Forall_cons in Hnt as [_ Hnt].
      exists w, (replicate a SPACE), t', ((pre ++ replicate a SPACE) ++ w ++ [0]), junk. split; [by apply words_word|].
      split; [done|]. split; [done|]. split; [rewrite !length_app; cbn [length]; lia|]. split; [|split; [|done]].
      * rewrite <- !app_assoc. change ((SPACE :: t') ++ 0 :: junk) with (SPACE :: (t' ++ 0 :: junk)).
        rewrite strtok_word by auto. change (SPACE =? 0) with false. cbv match. by rewrite <- !app_assoc.
      * rewrite !length_app. cbn [length]. lia.
Qed.

Lemma make_argv_ok fuel : forall pre s junk argv count, no_nul s -> (length s < fuel)%nat ->
  let ws := words s in
  if (count + length ws <=? length argv)%nat then
    exists argv' mem', make_argv_loop fuel (pre ++ s ++ 0 :: junk) (length pre) argv count = Some ((count + length ws)%nat, argv', mem') /\
      length argv' = length argv /\ (forall i, (i < count)%nat -> argv' !! i = argv !! i) /\ points_to argv' mem' count ws /\
      take (length pre) mem' = pre /\ mem' !! (length pre + length s)%nat = Some 0
  else (count <= length argv)%nat -> make_argv_loop fuel (pre ++ s ++ 0 :: junk) (length pre) argv count = None.
Proof.
  induction fuel as [|fuel IH]; intros pre s junk argv count Hs Hf ws; [lia|]. cbn [make_argv_loop]. unfold ws.
  destruct (strtok_step pre s junk Hs) as [[-> ->]|(w & sp & s' & pre' & junk' & -> & Hnw & Hs' & Hlen & -> & Epos & Hkeep)].
  - cbn [length]. rewrite Nat.add_0_r. destruct (Nat.leb_spec count (length argv)); [|lia].
    exists argv, (pre ++ s ++ 0 :: junk). split; [done|]. split; [done|]. split; [done|]. split; [|split].
    + intros i x Hi. by rewrite lookup_nil in Hi.
    + apply take_app_length.
    + rewrite lookup_pre, lookup_app_r by lia. by rewrite Nat.sub_diag.
  - cbn [length]. specialize (IH pre' s' junk' (<[count := Some (length (pre ++ sp))]> argv) (S count) Hs' ltac:(lia)). cbv zeta in IH.
    rewrite length_insert in IH. replace (count + S (length (words s')))%nat with (S count + length (words s'))%nat by lia.
    destruct (Nat.leb_spec (S count + length (words s')) (length argv)) as [Hle|Hgt].
    + rewrite (proj2 (Nat.ltb_lt _ _)) by lia. destruct IH as (argv' & mem' & -> & L1 & L2 & L3 & L4 & L5).
      exists argv', mem'. split; [done|]. split; [by rewrite L1|]. pose proof (Hkeep mem' L4 L5) as Hk. split; [|split; [|split]].
      * intros i Hi. rewrite L2 by lia. by rewrite list_lookup_insert_ne by lia.
      * intros i v Hv. destruct i as [|i]; cbn in Hv.
        -- injection Hv as <-. exists (length (pre ++ sp)). split; [|by apply word_kept].
           rewrite Nat.add_0_r, L2 by lia. by rewrite list_lookup_insert_eq by lia.
        -- destruct (L3 i v Hv) as (off & Ho & Hcs). exists off. split; [|done]. rewrite <- Ho. f_equal. lia.
      * apply (take_shorter _ _ sp). by apply (take_shorter _ _ (w ++ [0])).
      * by rewrite <- Epos.
    + intros Hcl. destruct (Nat.ltb_spec count (length argv)); [|done]. apply IH. lia.
Qed.

(** * What the daemon does *)

Lemma property_buffer v : (length v < PROPERTY_VALUE_MAX)%nat ->
  take PROPERTY_VALUE_MAX (v ++ zeros PROPERTY_VALUE_MAX) = v ++ 0 :: zeros (PROPERTY_VALUE_MAX - 1 - length v).
Proof.
  intros Hv. rewrite take_app_ge by lia. f_equal. unfold zeros. rewrite take_replicate, Nat.min_l by lia.
  by replace (PROPERTY_VALUE_MAX - length v)%nat with (S (PROPERTY_VALUE_MAX - 1 - length v)) by lia.
Qed.

Lemma points_strings argv mem ws n : points_to argv mem 1 ws -> (n = 1 + length ws)%nat -> (n <= length argv)%nat ->
  map (fun o => match o with Some off => cstr (drop off mem) | None => [] end) (take (n - 1) (drop 1 argv)) = ws.
Proof.
  intros Hp -> Hn. apply list_eq. intros i. rewrite list_lookup_fmap. destruct (ws !! i) as [w|] eqn:Ew.
  - destruct (Hp i w Ew) as (off & Ho & Hc). apply lookup_lt_Some in Ew as Hi.
    rewrite lookup_take_lt, lookup_drop by lia. rewrite Ho. cbn. by rewrite Hc.
  - apply lookup_ge_None in Ew. rewrite lookup_take_ge by lia. done.
Qed.

Lemma make_argv_words v junk argv0 : no_nul v ->
  arg_strings argv0 <$> make_argv (v ++ 0 :: junk) =
  (if (length (words v) <? MAX_LIB_ARGS)%nat then Some (argv0 :: words v) else None).
Proof.
  intros Hv. pose proof (make_argv_ok (S (length (v ++ 0 :: junk))) [] v junk (replicate MAX_LIB_ARGS None) 1 Hv) as H.
  rewrite length_app in H at 1. specialize (H ltac:(lia)). cbv zeta in H. rewrite length_replicate in H. unfold make_argv. cbn [app length] in H.
  destruct (Nat.ltb_spec (length (words v)) MAX_LIB_ARGS) as [Hlt|Hge].
  - rewrite (proj2 (Nat.leb_le _ _)) in H by lia. destruct H as (argv' & mem' & -> & L1 & _ & L3 & _). cbn [fmap option_fmap option_map].
    unfold arg_strings. do 2 f_equal. apply points_strings; [done|done|]. rewrite L1. lia.
  - rewrite (proj2 (Nat.leb_gt _ _)) in H by lia. rewrite H; [done|]. unfold MAX_LIB_ARGS. lia.
Qed.

(** C37: the vendor's library gets the words of its property. Without ["--"] on the command line
    the arguments are the program's name and the words between blanks of rild.libargs (the
    default if it is not set), as long as there are at most 15; a property of 16 words, which
    32 characters can hold, is written past the end of the array of pointers. *)
Theorem rild_library_args env argv0 o v
  (Ho : libArgs o = None) (Hv : v = property_get_default env LIB_ARGS_PROPERTY (str "-d /dev/ttyC0"))
  (Hlen : (length v < PROPERTY_VALUE_MAX)%nat) (Hnul : no_nul v) :
  library_args env argv0 o = (if (length (words v) <? MAX_LIB_ARGS)%nat then Some (argv0 :: words v) else None).
Proof. unfold library_args. rewrite Ho, <- Hv, property_buffer by done. by apply make_argv_words. Qed.

Lemma rild_library_args_witness :
  let many := concat (replicate 16 [97; 32]) in
  library_args (mkRildEnv 0 ∅ 0 0 ∅) (str "rild") (mkOptions None None None) = Some [str "rild"; str "-d"; str "/dev/ttyC0"] /\
  library_args (mkRildEnv 0 {[LIB_ARGS_PROPERTY := many]} 0 0 ∅) (str "rild") (mkOptions None None None) = None.
Proof.
  intros many. split.
  - apply (rild_library_args (mkRildEnv 0 ∅ 0 0 ∅) (str "rild") (mkOptions None None None) (str "-d /dev/ttyC0")); [done|done|by apply Nat.ltb_lt; vm_compute|by repeat constructor].
  - apply (rild_library_args (mkRildEnv 0 {[LIB_ARGS_PROPERTY := many]} 0 0 ∅) (str "rild") (mkOptions None None None) many); [done|done|by apply Nat.ltb_lt; vm_compute|by repeat constructor].
Defined.

(** * The command line *)

Inductive option_ := OptLib (path : list Z) | OptClient (c : list Z).
Definition render (l : list option_) : list (list Z) :=
  flat_map (fun x => match x with OptLib p => [str "-l"; p] | OptClient c => [str "-c"; c] end) l.

(** The last option of a kind wins. *)
Definition apply_option (o : options) (x : option_) : options :=
  match x with OptLib p => o <| rilLibPath := Some p |> | OptClient c => o <| clientId := Some c |> end.
Definition with_rest (rest : option (list (list Z))) (o : options) : options :=
  match rest with Some r => o <| libArgs := Some r |> | None => o end.
Definition render_rest (rest : option (list (list Z))) : list (list Z) :=
  match rest with Some r => str "--" :: r | None => [] end.

Lemma parse_render l : forall rest o,
  parse_args (render l ++ render_rest rest) o = Some (with_rest rest (fold_left apply_option l o)).
Proof.
  induction l as [|x l IH]; intros rest o.
  - destruct rest as [[|r rs]|]; reflexivity.
  - cbn [render flat_map]. rewrite <- app_assoc. fold (render l). destruct x as [p|c]; cbn [app parse_args fold_left]; apply IH.
Qed.

Lemma parse_inv n : forall args o o', (length args <= n)%nat -> parse_args args o = Some o' ->
  exists l rest, args = render l ++ render_rest rest /\ o' = with_rest rest (fold_left apply_option l o).
Proof.
  induction n as [|n IH]; intros args o o' Hn Hp.
  { destruct args; [|cbn in Hn; lia]. injection Hp as <-. by exists [], None. }
  destruct args as [|a [|v args]]; cbn [parse_args] in Hp.
  - injection Hp as <-. by exists [], None.
  - destruct (bytes_eqb a (str "--")) eqn:E; [|done]. apply bool_decide_eq_true in E as ->. injection Hp as <-. by exists [], (Some []).
  - destruct (bytes_eqb a (str "-l")) eqn:E1; [|destruct (bytes_eqb a (str "--")) eqn:E2; [|destruct (bytes_eqb a (str "-c")) eqn:E3; [|done]]].
    + apply bool_decide_eq_true in E1 as ->. apply IH in Hp as (l & rest & -> & ->); [|cbn in Hn; lia]. by exists (OptLib v :: l), rest.
    + apply bool_decide_eq_true in E2 as ->. injection Hp as <-. by exists [], (Some (v :: args)).
    + apply bool_decide_eq_true in E3 as ->. apply IH in Hp as (l & rest & -> & ->); [|cbn in Hn; lia]. by exists (OptClient v :: l), rest.
Qed.

(** the command line is a list of options [-l path] and [-c id], the last of a kind counting,
    and possibly ["--"] with the library's arguments: every such line is read as what it says,
    and every line that is accepted is such a line; for any other the usage is printed and
    the daemon exits. *)
Theorem rild_command_line args :
  (forall l rest, args = render l ++ render_rest rest ->
     parse_args args (mkOptions None None None) = Some (with_rest rest (fold_left apply_option l (mkOptions None None None)))) /\
  (forall o, parse_args args (mkOptions None None None) = Some o ->
     exists l rest, args = render l ++ render_rest rest /\ o = with_rest rest (fold_left apply_option l (mkOptions None None None))) /\
  (parse_args args (mkOptions None None None) = None ->
     forall env argv0, env_mtkInit env <> -1 ->
       rild_main argv0 args (rild_init env) = Ok (tt, mkRild env (str "slot1" ++ [0]) (Some (Exits EXIT_FAILURE)) [Umask])).
Proof.
  split; [|split].
  - intros l rest ->. apply parse_render.
  - intros o Ho. by eapply parse_inv.
  - intros Hp env argv0 Hm. unfold rild_main. rewrite Hp. run. by rewrite (proj2 (Z.eqb_neq _ _) Hm).
Qed.

Lemma rild_command_line_witness :
  let args := [str "-l"; str "a.so"; str "-c"; str "2"; str "-l"; str "b.so"; str "--"; str "-d"; str "/dev/x"] in
  parse_args args (mkOptions None None None) = Some (mkOptions (Some (str "b.so")) (Some (str "2")) (Some [str "-d"; str "/dev/x"])) /\
  rild_main (str "rild") [str "-l"] (rild_init (mkRildEnv 0 ∅ 0 0 ∅)) =
    Ok (tt, mkRild (mkRildEnv 0 ∅ 0 0 ∅) (str "slot1" ++ [0]) (Some (Exits EXIT_FAILURE)) [Umask]).
Proof.
  split.
  - apply (proj1 (rild_command_line _) [OptLib (str "a.so"); OptClient (str "2"); OptLib (str "b.so")] (Some [str "-d"; str "/dev/x"])). reflexivity.
  - apply (proj2 (proj2 (rild_command_line [str "-l"]))); [reflexivity|done].
Defined.

(** * The service's name *)

(** the name the radio service is registered under. Without an id, or with ["0"], it stays
    slot1; an id that stands for a number of 3 or more ends the daemon; any other id of at most
    one character is appended to slot, which is all the six bytes of the name have room
    for: a longer id below 3, such as 01 or -1, is written past the end of the name. *)
Theorem rild_service_name client s (Hn : match client with Some c => no_nul c | None => True end) :
  let c := default (str "0") client in
  service_name client s =
  (if match client with Some c => MAX_RILDS <=? atoi c | None => false end then
     Ok (false, s <| rd_end := Some (Exits 0) |>)
   else if bytes_eqb c (str "0") then Ok (true, s)
   else if (length c <=? 1)%nat then Ok (true, s <| rd_service_name := str "slot" ++ c ++ [0] ++ zeros (1 - length c) |>)
   else Undef).
Proof.
  intros c. unfold service_name. fold c. destruct (match client with Some c => MAX_RILDS <=? atoi c | None => false end); [done|].
  assert (E : bytes_eqb (take MAX_CLIENT_ID_LENGTH c) (take MAX_CLIENT_ID_LENGTH (str "0")) = bytes_eqb c (str "0")).
  { unfold bytes_eqb. apply bool_decide_ext. change (take MAX_CLIENT_ID_LENGTH (str "0")) with [48]. change (str "0") with [48].
    destruct c as [|x [|y c']]; cbn; try done. }
  rewrite E. destruct (bytes_eqb c (str "0")); [done|].
  destruct c as [|x [|y c']]; cbn [length Nat.leb]; [done|done|].
  replace (mem_write _ _ _) with (@None (list Z)); [done|]. unfold mem_write. symmetry.
  change (zlen (cstr (str "slot" ++ zeros 2))) with 4. change (zlen (str "slot" ++ zeros 2)) with 6.
  rewrite (proj2 (Z.leb_gt (4 + _) 6)); [done|]. unfold zlen. rewrite length_app. cbn. lia.
Qed.

Lemma rild_service_name_witness :
  service_name (Some (str "2")) (rild_init (mkRildEnv 0 ∅ 0 0 ∅)) =
    Ok (true, (rild_init (mkRildEnv 0 ∅ 0 0 ∅)) <| rd_service_name := str "slot2" ++ [0] |>) /\
  service_name (Some (str "-1")) (rild_init (mkRildEnv 0 ∅ 0 0 ∅)) = Undef.
Proof.
  split.
  - rewrite (rild_service_name (Some (str "2"))); [reflexivity|by repeat constructor].
  - rewrite (rild_service_name (Some (str "-1"))); [reflexivity|by repeat constructor].
Defined.

(** * Start-up *)

(** What is seen of a start with the library [lib], from the change of user on. *)
Definition start_trace (debuggable : bool) (path : list Z) (lib : vendor_lib) (argv : list (list Z)) : list rild_out :=
  [KeepCaps; SetUid AID_RADIO; CapSet [(12288, 12288); (16, 16)]] ++ (if debuggable then [Dumpable] else []) ++
  [DlOpen path; StartEventLoop; VendorInit (lib_InitSocket lib) argv; Register (lib_InitSocket lib)] ++
  (if lib_SAP_Init lib then [RegisterSap argv] else []) ++ [ThreadPool].

(** C32: a start on a system that grants everything: after the change to the radio user, with
    exactly the capabilities for network administration, raw sockets and blocking suspend, the
    library that was asked for (on the command line, else by property, else the default, so there is
    always one) is loaded, its set-up is called with its arguments after the event loop is
    started, its functions are registered, for SIM access too if it has them, and the main
    thread sleeps. *)
Theorem rild_starts_library env argv0 args o lib argv path s1
  (Hm : env_mtkInit env <> -1) (Hu : env_setresuid env <> -1) (Hc : env_capset env <> -1)
  (Hp : parse_args args (mkOptions None None None) = Some o)
  (Hs : service_name (clientId o) (mkRild env (str "slot1" ++ [0]) None [Umask]) = Ok (true, s1))
  (Hpath : path = default (property_get_default env LIB_PATH_PROPERTY (str "mtk-ril.so")) (rilLibPath o))
  (Hl : env_libs env !! path = Some lib) (Hi : lib_InitSocket lib || lib_Init lib = true)
  (Ha : library_args env argv0 o = Some argv) :
  rild_main argv0 args (rild_init env) =
  Ok (tt, s1 <| rd_end := Some Sleeps |>
             <| rd_out := Umask :: start_trace (bytes_eqb (property_get_default env "ro.debuggable" (str "0")) (str "1")) path lib argv |>).
Proof.
  assert (Hs1 : exists n, s1 = mkRild env n None [Umask]).
  { revert Hs. unfold service_name. destruct (match clientId o with Some _ => _ | None => _ end); [by intros [=]|].
    destruct (bytes_eqb _ _); [intros [= <-]; by eexists|]. destruct (mem_write _ _ _); [|done]. intros [= <-]. by eexists. }
  destruct Hs1 as [n ->].
  assert (Hstart : start_library argv0 o path (mkRild env n None [Umask]) =
    Ok (tt, mkRild env n (Some Sleeps) (Umask :: start_trace (bytes_eqb (property_get_default env "ro.debuggable" (str "0")) (str "1")) path lib argv))).
  { unfold start_library, switchUser. run. rewrite (proj2 (Z.eqb_neq _ _) Hu), (proj2 (Z.eqb_neq _ _) Hc). run.
    unfold start_trace. destruct (bytes_eqb _ _), lib as [[] [] []]; try done; cbn; rewrite Hl; cbn; rewrite Ha; reflexivity. }
  unfold rild_main. rewrite (bindM_ok _ _ _ _ _ (eq_refl : getM _ = Ok (_, _))). cbn [rd_env rild_init]. rewrite (proj2 (Z.eqb_neq _ _) Hm).
  assert (Hum : does_ Umask (rild_init env) = Ok (tt, mkRild env (str "slot1" ++ [0]) None [Umask])) by reflexivity.
  rewrite (bindM_ok _ _ _ _ _ Hum), Hp.
  rewrite (bindM_ok _ _ _ _ _ Hs). destruct (rilLibPath o) as [p|]; cbn [default] in Hpath; subst path; [exact Hstart|].
  destruct (Z.eqb_spec (zlen (property_get_default env LIB_PATH_PROPERTY (str "mtk-ril.so"))) 0) as [E|_]; [|exact Hstart].
  exfalso. revert E. unfold property_get_default. destruct (env_props env !! LIB_PATH_PROPERTY) as [[|b v]|]; unfold zlen; cbn; lia.
Qed.

Lemma rild_starts_library_witness :
  let lib := mkLib true false true in
  let env := mkRildEnv 0 ∅ 0 0 {[str "mtk-ril.so" := lib]} in
  rild_main (str "rild") [] (rild_init env) =
  Ok (tt, mkRild env (str "slot1" ++ [0]) (Some Sleeps)
        (Umask :: start_trace false (str "mtk-ril.so") lib [str "rild"; str "-d"; str "/dev/ttyC0"])).
Proof.
  intros lib env.
  rewrite (rild_starts_library env (str "rild") [] (mkOptions None None None) lib [str "rild"; str "-d"; str "/dev/ttyC0"]
    (str "mtk-ril.so") (mkRild env (str "slot1" ++ [0]) None [Umask])); done.
Defined.
