(* ===== verification/Power.v ===== *)
(** The power HAL (src/power/power.c): the switch of double tap to wake. The board defines the
    node it writes to; the two other entries of the module do nothing. *)

From stdpp Require Import base list strings numbers.
From Stdlib Require Import ZArith Lia.
From S2P Require Import Prelude CFloat EpoConf.

Local Open Scope Z_scope.
Local Open Scope st_scope.

Definition TAP_TO_WAKE_NODE : string := "/sys/devices/virtual/input/lge_touch/tap2wake".
Definition POWER_FEATURE_DOUBLE_TAP_TO_WAKE : Z := 1.

(** What the node's driver sees. *)
Inductive power_out := POpen (path : string) | PWrite (bytes : list Z) | PClose.

(** Whether the node can be opened, and the trace. *)
Definition Power : Type := bool * list power_out.
Definition p_emit (o : power_out) : ST Power unit := modM (fun s => (s.1, s.2 ++ [o])).

(** power.c:39-58 [power_fwrite] a failed write is logged only. *)
Definition power_fwrite (path : string) (s : list Z) : ST Power unit :=
  p_emit (POpen path);;
  let* st := getM in
  if st.1 : bool then p_emit (PWrite s);; p_emit PClose else retM tt.

(** power.c:62-73 [set_feature]. *)
Definition set_feature (feature state : Z) : ST Power unit :=
  if feature =? POWER_FEATURE_DOUBLE_TAP_TO_WAKE then power_fwrite TAP_TO_WAKE_NODE (take 63 (print_int state)) else retM tt.

(** * Decimal output reads back *)

Lemma digits_dec ds : Forall (fun c => is_digit c = true) ds -> forall acc n,
  digits dec_digit 10 acc n ds = (fold_left (fun v c => v * 10 + (c - 48)) ds acc, (n + length ds)%nat, []).
Proof.
  induction ds as [|c ds IH]; intros Hd acc n; cbn; [by rewrite Nat.add_0_r|]. apply list.Forall_cons in Hd as [Hc Hd].
  unfold dec_digit at 1. rewrite Hc, IH by done. do 2 f_equal. lia.
Qed.

(** The digits of [n] in front of [l]. *)
Lemma dec_digits_ok f : forall n l, 0 <= n < 10 ^ Z.of_nat f ->
  exists ds, dec_digits f n l = ds ++ l /\ Forall (fun c => is_digit c = true) ds /\ (length ds <= f)%nat /\
    (f <> O -> ds <> []) /\ fold_left (fun v c => v * 10 + (c - 48)) ds 0 = n.
Proof.
  induction f as [|f IH]; intros n l Hn.
  - exists []. cbn in *. split; [done|]. split; [constructor|]. split; [done|]. split; [done|lia].
  - cbn [dec_digits]. assert (Hm : 0 <= n mod 10 < 10) by (apply Z.mod_pos_bound; lia).
    assert (Hdig : is_digit (48 + n mod 10) = true) by (unfold is_digit; apply andb_true_intro; split; apply Z.leb_le; lia).
    destruct (Z.ltb_spec n 10) as [Hlt|Hge].
    + exists [48 + n mod 10]. rewrite Z.mod_small in * by lia. repeat split; [by repeat constructor|cbn; lia|done|cbn; lia].
    + destruct (IH (n / 10) ((48 + n mod 10) :: l)) as (ds & -> & Hd & Hl & _ & Hv).
      { rewrite Nat2Z.inj_succ, Z.pow_succ_r in Hn by lia. split; [apply Z.div_pos; lia|]. apply Z.div_lt_upper_bound; lia. }
      exists (ds ++ [48 + n mod 10]). rewrite <- app_assoc. repeat split.
      * apply Forall_app. by split; [|repeat constructor].
      * rewrite length_app. cbn. lia.
      * by destruct ds.
      * rewrite fold_left_app, Hv. cbn. pose proof (Z.div_mod n 10 ltac:(lia)). lia.
Qed.

Lemma log2_digits n : 0 <= n -> n < 10 ^ Z.of_nat (S (Z.to_nat (Z.log2 n))).
Proof.
  intros Hn. destruct (decide (n = 0)) as [->|Hz]; [done|]. pose proof (Z.log2_spec n ltac:(lia)) as [_ H]. pose proof (Z.log2_nonneg n).
  rewrite Nat2Z.inj_succ, Z2Nat.id by lia. eapply Z.lt_le_trans; [exact H|]. apply Z.pow_le_mono_l. lia.
Qed.

Definition value (ds : list Z) : Z := fold_left (fun v c => v * 10 + (c - 48)) ds 0.

Lemma atoi_digits ds : Forall (fun c => is_digit c = true) ds -> ds <> [] ->
  atoi ds = i32 (value ds) /\ atoi (45 :: ds) = i32 (- value ds).
Proof.
  intros Hd Hne. pose proof (digits_dec ds Hd 0 0) as Hdig. split; [|unfold atoi; cbn [skip_space is_cspace]; cbn; by rewrite Hdig].
  destruct ds as [|c ds]; [done|]. apply list.Forall_cons in Hd as [Hc _]. unfold is_digit in Hc.
  apply andb_true_iff in Hc as [H1%Z.leb_le H2%Z.leb_le].
  assert (Hcase : c = 48 \/ c = 49 \/ c = 50 \/ c = 51 \/ c = 52 \/ c = 53 \/ c = 54 \/ c = 55 \/ c = 56 \/ c = 57) by lia.
  unfold atoi. repeat destruct Hcase as [->|Hcase]; try subst c; cbn [skip_space is_cspace]; cbn -[digits]; by rewrite Hdig.
Qed.

Lemma atoi_print n : is_i32 n -> atoi (print_int n) = n /\ (length (print_int n) <= 33)%nat.
Proof.
  unfold is_i32. intros Hn. unfold print_int.
  destruct (dec_digits_ok (S (Z.to_nat (Z.log2 (Z.abs n)))) (Z.abs n) []) as (ds & E & Hd & Hl & Hne & Hv); [split; [lia|apply log2_digits; lia]|].
  rewrite app_nil_r in E. specialize (Hne ltac:(lia)). fold (value ds) in Hv. destruct (atoi_digits ds Hd Hne) as [A1 A2].
  assert (Hlog : Z.log2 (Z.abs n) <= 31). { apply (Z.log2_le_mono _ (2 ^ 31)). lia. }
  assert (Hp : print_nat (Z.abs n) = ds) by exact E.
  destruct (Z.ltb_spec n 0) as [Hneg|Hpos].
  - rewrite <- Z.abs_neq, Hp, A2, Hv by lia. split; [|cbn; lia]. rewrite i32_id by (unfold is_i32; lia). lia.
  - rewrite <- (Z.abs_eq n) at 1 3 by lia. rewrite Hp, A1, Hv. split; [|lia]. rewrite i32_id by (unfold is_i32; lia). lia.
Qed.

(** switching double tap to wake writes the state, in decimal and not cut off, to the
    board's node, from which it reads back as the state; a node that cannot be opened is
    left alone, and so is it by other features. *)
Theorem tap_to_wake_written feature state opens tr (Hs : is_i32 state) :
  exists text, atoi text = state /\
    set_feature feature state (opens, tr) =
    Ok (tt, (opens, tr ++ (if feature =? POWER_FEATURE_DOUBLE_TAP_TO_WAKE then
                             POpen TAP_TO_WAKE_NODE :: (if opens : bool then [PWrite text; PClose] else [])
                           else []))).
Proof.
  destruct (atoi_print state Hs) as [Ha Hl]. exists (print_int state). split; [done|]. unfold set_feature.
  destruct (feature =? POWER_FEATURE_DOUBLE_TAP_TO_WAKE); [|by rewrite app_nil_r]. rewrite take_ge by lia.
  unfold power_fwrite, p_emit. destruct opens; run; by rewrite <- ?app_assoc.
Qed.

Lemma tap_to_wake_written_witness :
  exists text, atoi text = -12 /\ set_feature 1 (-12) (true, []) = Ok (tt, (true, [POpen TAP_TO_WAKE_NODE; PWrite text; PClose])).
Proof. apply (tap_to_wake_written 1 (-12) true []). unfold is_i32. lia. Defined.
