(* ===== verification/Wpa.v ===== *)
(** The driver commands of wpa_supplicant (src/wpa_supplicant/mediatek_driver_cmd_nl80211.c),
    built without the vendor option that renames the interface. The state of the supplicant and
    of the driver, and the outcomes of the system calls, are given. *)

From stdpp Require Import base strings list numbers.
From Stdlib Require Import ZArith Lia.
From S2P Require Import Prelude CFloat.

Local Open Scope Z_scope.
Local Open Scope st_scope.
Local Open Scope rec_scope.

Definition IFNAMSIZ : nat := 16.

(** The driver and its supplicant: pointers that may be null, the interfaces, the address, and
    what the calls return. *)
Record WpaEnv := mkWpaEnv {
  drv_null : bool;
  ctx_null : bool;
  conf_null : bool;
  bss_ifname : list Z;
  first_ifname : list Z;
  own_addr : list Z;
  associated : bool;
  socket_ret : Z;
  ioctl_ret : Z;
  iface_up_ret : Z;
  iface_down_ret : Z;
}.

Inductive wpa_out :=
  | PrivIoctl (ifname data : list Z)
  | ChannelListChanged (alpha2 : list Z)
  | SetIface (ifname : list Z) (up : bool)
  | DriverState (started : bool)
  | Deauthenticate.

(** The caller's buffer, and the trace. *)
Record Wpa := mkWpa { w_buf : list Z; w_out : list wpa_out }.
#[export] Instance eta_Wpa : Eta Wpa := fun s => mkWpa (w_buf s) (w_out s).

Definition w_emit (o : wpa_out) : ST Wpa unit := modM (fun s => s <| w_out := w_out s ++ [o] |>).

(** [os_strncmp], [os_strncasecmp] and [os_strcasecmp] with a constant, on strings without NUL. *)
Definition starts (s : string) (cmd : list Z) : bool := has_prefix (str s) cmd.
Definition starts_ci (s : string) (cmd : list Z) : bool := has_prefix (map lower (str s)) (map lower cmd).
Definition equals_ci (s : string) (cmd : list Z) : bool := bytes_eqb (map lower (str s)) (map lower cmd).

(** [snprintf] of [text] into the caller's buffer. *)
Definition snprintf (text : list Z) : ST Wpa Z :=
  modM (fun s => s <| w_buf := match w_buf s with
                               | [] => []
                               | _ => let t := take (length (w_buf s) - 1) text ++ [0] in t ++ drop (length t) (w_buf s)
                               end |>);;
  retM (zlen text).

(** MACSTR, a byte in two hexadecimal digits. *)
Definition hex_char (d : Z) : Z := if d <? 10 then 48 + d else 87 + d.
Definition hex_byte (b : Z) : list Z := [hex_char (b / 16); hex_char (b mod 16)].
Fixpoint macstr (addr : list Z) : list Z :=
  match addr with
  | [] => []
  | [b] => hex_byte b
  | b :: addr' => hex_byte b ++ [58] ++ macstr addr'
  end.

(** mediatek_driver_cmd_nl80211.c:35-82 [wpa_driver_mediatek_set_country]. *)
Definition wpa_driver_mediatek_set_country (env : WpaEnv) (alpha2_arg : list Z) : ST Wpa Z :=
  if socket_ret env <? 0 then retM (-1)
  else
    let* buf := of_option (mem_write (zeros 11) 0 (str "COUNTRY " ++ alpha2_arg ++ [0])) in
    w_emit (PrivIoctl (take (IFNAMSIZ - 1) (first_ifname env)) (cstr buf));;
    retM (if ioctl_ret env <? 0 then ioctl_ret env else 0).

(** mediatek_driver_cmd_nl80211.c:88-105 [wpa_driver_notify_country_change]. *)
Definition wpa_driver_notify_country_change (cmd : list Z) : ST Wpa unit :=
  if starts_ci "COUNTRY" cmd then
    w_emit (ChannelListChanged (if 9 <? zlen cmd then [at_ cmd 8; at_ cmd 9] else [0; 0]))
  else retM tt.

(** mediatek_driver_cmd_nl80211.c:107-227 [wpa_driver_nl80211_driver_cmd]. On the access point's
    interface the supplicant's pointer is not initialised, and every use of it is
    undefined. The debug prints are left out; the one of the caller's buffer, after the address has
    been written to it, counts on a buffer of at least one byte. *)
Definition wpa_driver_nl80211_driver_cmd (env : WpaEnv) (cmd : list Z) : ST Wpa Z :=
  let ap := bytes_eqb (bss_ifname env) (str "ap0") in
  let wpa_s {A} (m : ST Wpa A) : ST Wpa A := if ap then undefM else m in
  if drv_null env then retM (-1)
  else if ctx_null env then retM (-1)
  else if negb ap && conf_null env then retM (-1)
  else if starts_ci "POWERMODE " cmd then retM (-1)
  else if starts "MACADDR" cmd then
    wpa_s (snprintf (str "Macaddr = " ++ macstr (own_addr env) ++ [10]))
  else if starts_ci "COUNTRY" cmd then
    if negb (zlen cmd =? zlen (str "COUNTRY") + 3) then retM 0
    else
      let* ret := wpa_driver_mediatek_set_country env (drop 8 cmd) in
      if ret =? 0 then wpa_s (wpa_driver_notify_country_change cmd);; retM ret else retM ret
  else if equals_ci "start" cmd then
    w_emit (SetIface (first_ifname env) true);;
    if iface_up_ret env =? 0 then w_emit (DriverState true);; retM 0 else retM (iface_up_ret env)
  else if equals_ci "stop" cmd then
    (if associated env then wpa_s (w_emit Deauthenticate) else retM tt);;
    w_emit (SetIface (first_ifname env) false);;
    if iface_down_ret env =? 0 then w_emit (DriverState false);; retM 0 else retM (iface_down_ret env)
  else if starts_ci "getpower" cmd then retM (-1)
  else if starts_ci "get-rts-threshold" cmd then retM (-1)
  else if starts_ci "set-rts-threshold" cmd then retM (-1)
  else if equals_ci "btcoexscan-start" cmd then retM 0
  else if equals_ci "btcoexscan-stop" cmd then retM 0
  else if starts_ci "btcoexmode" cmd then retM 0
  else retM (-1).

(** * Commands *)

Inductive command := CPowerMode | CMacAddr | CCountry | CStart | CStop | COther.
Definition command_of (cmd : list Z) : command :=
  if starts_ci "POWERMODE " cmd then CPowerMode
  else if starts "MACADDR" cmd then CMacAddr
  else if starts_ci "COUNTRY" cmd then CCountry
  else if equals_ci "start" cmd then CStart
  else if equals_ci "stop" cmd then CStop
  else COther.

(** The buffer for a country has exactly the size of a command that is let through. *)
Lemma country_fits cmd : zlen cmd = 10 ->
  exists buf, mem_write (zeros 11) 0 (str "COUNTRY " ++ drop 8 cmd ++ [0]) = Some buf.
Proof.
  intros Hl. unfold mem_write. rewrite (proj2 (Z.leb_le (0 + _) _)); [by eexists|]. unfold zlen, zeros in *.
  rewrite !length_app, length_drop, length_replicate. cbn. lia.
Qed.

Lemma snprintf_ok text s : exists s', snprintf text s = Ok (zlen text, s') /\ length (w_buf s') = length (w_buf s).
Proof.
  unfold snprintf. eexists. split; [reflexivity|]. destruct s as [[|b buf] out]; [done|]. cbn [w_buf].
  change (length ((take (length (b :: buf) - 1) text ++ [0]) ++ drop (length (take (length (b :: buf) - 1) text ++ [0])) (b :: buf)) = length (b :: buf)).
  rewrite !length_app, length_drop, ?length_app, !length_take. cbn [length]. lia.
Qed.

(** Commands that look at the supplicant. *)
Definition uses_supplicant (env : WpaEnv) (cmd : list Z) : bool :=
  match command_of cmd with
  | CMacAddr => true
  | CCountry => (zlen cmd =? 10) && (0 <=? socket_ret env) && (0 <=? ioctl_ret env)
  | CStop => associated env
  | _ => false
  end.

(** C36: no command overruns a buffer, debug prints aside: on every interface but the access point's, each byte
    string is handled, the country's buffer being just large enough for the commands let through
    and the caller's keeping its size. On the access point's interface a command is undefined
    exactly if it needs the supplicant, whose pointer was never set: the address, a change of
    country that succeeds, and stopping while associated. *)
Theorem wpa_commands_safe env cmd s (Hd : drv_null env = false) (Hc : ctx_null env = false) :
  let ap := bytes_eqb (bss_ifname env) (str "ap0") in
  (ap && uses_supplicant env cmd = true -> wpa_driver_nl80211_driver_cmd env cmd s = Undef) /\
  (ap && uses_supplicant env cmd = false ->
     exists ret s', wpa_driver_nl80211_driver_cmd env cmd s = Ok (ret, s') /\ length (w_buf s') = length (w_buf s)).
Proof.
  unfold wpa_driver_nl80211_driver_cmd, uses_supplicant, command_of. rewrite Hd, Hc. set (ap := bytes_eqb _ _).
  destruct (negb ap && conf_null env) eqn:Econf; [destruct ap; [done|]; split; [done|by eexists _, _]|].
  destruct (starts_ci "POWERMODE " cmd); [rewrite andb_false_r; split; [done|by eexists _, _]|].
  destruct (starts "MACADDR" cmd).
  { rewrite andb_true_r. destruct ap; (split; [done|]); intros ?; [done|]. destruct (snprintf_ok (str "Macaddr = " ++ macstr (own_addr env) ++ [10]) s) as (s' & ? & ?). by eexists _, _. }
  destruct (starts_ci "COUNTRY" cmd) eqn:Eco.
  { change (zlen (str "COUNTRY") + 3) with 10. destruct (Z.eqb_spec (zlen cmd) 10) as [Hl|_]; cbn [negb andb]; [|rewrite andb_false_r; split; [done|by eexists _, _]].
    destruct (country_fits cmd Hl) as [buf Hbuf]. unfold wpa_driver_mediatek_set_country, wpa_driver_notify_country_change. rewrite Hbuf, Eco, Z.leb_antisym.
    destruct (socket_ret env <? 0); cbn [negb andb]; [rewrite andb_false_r; split; [done|by eexists _, _]|]. rewrite Z.leb_antisym.
    destruct (Z.ltb_spec (ioctl_ret env) 0) as [Hio|Hio]; cbn [negb]; run.
    - rewrite (proj2 (Z.eqb_neq _ _)) by lia. rewrite andb_false_r. split; [done|by eexists _, _].
    - rewrite andb_true_r. destruct ap; (split; [done|]); intros ?; [done|by eexists _, _]. }
  destruct (equals_ci "start" cmd); [rewrite andb_false_r; split; [done|]; intros _; run; destruct (iface_up_ret env =? 0); by eexists _, _|].
  destruct (equals_ci "stop" cmd).
  { destruct ap, (associated env); (split; [done|]); intros ?; try done; run; destruct (iface_down_ret env =? 0); by eexists _, _. }
  rewrite andb_false_r. split; [done|]. intros _. repeat (case_goal; [by eexists _, _|]). by eexists _, _.
Qed.

Definition ex_wpa (ifname : string) : WpaEnv :=
  mkWpaEnv false false false (str ifname) (str "wlan0") [1; 2; 3; 4; 5; 171] true 3 0 0 0.

Lemma wpa_commands_safe_witness :
  wpa_driver_nl80211_driver_cmd (ex_wpa "ap0") (str "stop") (mkWpa (zeros 8) []) = Undef /\
  exists ret s', wpa_driver_nl80211_driver_cmd (ex_wpa "wlan0") (str "country de") (mkWpa (zeros 8) []) = Ok (ret, s') /\ length (w_buf s') = 8%nat.
Proof.
  split.
  - apply (wpa_commands_safe (ex_wpa "ap0") (str "stop") (mkWpa (zeros 8) [])); reflexivity.
  - apply (proj2 (wpa_commands_safe (ex_wpa "wlan0") (str "country de") (mkWpa (zeros 8) []) eq_refl eq_refl)). reflexivity.
Defined.

(** A change of country, in upper or lower case, sends the driver the command in upper case with
    the two letters as given, on the first interface; when the driver takes it, the supplicant is
    told of the new channels of that country, otherwise the error is returned. *)
Theorem wpa_country env p c a b s (Hd : drv_null env = false) (Hc : ctx_null env = false) (Hf : conf_null env = false)
  (Hap : bytes_eqb (bss_ifname env) (str "ap0") = false) (Hp : map lower p = str "country") (Hs : 0 <= socket_ret env)
  (Hn : Forall (fun x => x <> 0) [a; b]) :
  let sent := PrivIoctl (take 15 (first_ifname env)) (str "COUNTRY " ++ [a; b]) in
  wpa_driver_nl80211_driver_cmd env (p ++ [c; a; b]) s =
  (if ioctl_ret env <? 0 then Ok (ioctl_ret env, s <| w_out := w_out s ++ [sent] |>)
   else Ok (0, s <| w_out := w_out s ++ [sent; ChannelListChanged [a; b]] |>)).
Proof.
  assert (Hl : length p = 7%nat) by (by rewrite <- (length_map lower p), Hp).
  destruct p as [|p0 [|p1 [|p2 [|p3 [|p4 [|p5 [|p6 [|]]]]]]]]; cbn in Hl; try lia.
  assert (Eco : starts_ci "COUNTRY" ([p0; p1; p2; p3; p4; p5; p6] ++ [c; a; b]) = true).
  { unfold starts_ci. rewrite map_app, Hp. reflexivity. }
  assert (Epm : starts_ci "POWERMODE " ([p0; p1; p2; p3; p4; p5; p6] ++ [c; a; b]) = false).
  { unfold starts_ci. rewrite map_app, Hp. reflexivity. }
  assert (Ema : starts "MACADDR" ([p0; p1; p2; p3; p4; p5; p6] ++ [c; a; b]) = false).
  { unfold starts. change (str "MACADDR") with [77; 65; 67; 65; 68; 68; 82]. cbn [app has_prefix].
    destruct (Z.eqb_spec 77 p0) as [<-|]; [|done]. injection Hp; intros; discriminate. }
  intros sent. unfold wpa_driver_nl80211_driver_cmd. rewrite Hd, Hc, Hf, Hap, Epm, Ema, Eco. cbn [negb andb app].
  change (zlen [p0; p1; p2; p3; p4; p5; p6; c; a; b] =? zlen (str "COUNTRY") + 3) with true. cbv match. cbn [negb].
  unfold wpa_driver_mediatek_set_country. rewrite (proj2 (Z.ltb_ge _ _) Hs). cbn [drop].
  rewrite !list.Forall_cons in Hn. destruct Hn as (Ha & Hb & _).
  assert (Hcs : cstr (str "COUNTRY " ++ [a; b] ++ [0]) = str "COUNTRY " ++ [a; b]).
  { cbn. by rewrite (proj2 (Z.eqb_neq _ _) Ha), (proj2 (Z.eqb_neq _ _) Hb). }
  change (mem_write (zeros 11) 0 (str "COUNTRY " ++ [a; b] ++ [0])) with (Some (str "COUNTRY " ++ [a; b] ++ [0])). cbn [of_option].
  rewrite bindM_assoc, (bindM_ok _ _ _ _ _ (eq_refl : retM _ _ = Ok (_, _))), Hcs.
  unfold wpa_driver_notify_country_change. change [p0; p1; p2; p3; p4; p5; p6; c; a; b] with ([p0; p1; p2; p3; p4; p5; p6] ++ [c; a; b]).
  rewrite Eco. destruct (Z.ltb_spec (ioctl_ret env) 0) as [Hio|Hio]; run.
  - by rewrite (proj2 (Z.eqb_neq _ _)) by lia.
  - unfold set. cbn. by rewrite <- app_assoc.
Qed.
