(* ===== verification/RilMem.v ===== *)
(** The memory of the vendor's radio library as the radio service reads it (src/hal/libril/ril_service.cpp):
    the layout of C structures with natural alignment on 32-bit ARM, reading a field through a
    pointer, character strings; and the values of the HIDL interface that they are converted to. *)

From stdpp Require Import base list gmap strings numbers.
From Stdlib Require Import ZArith Lia.
From S2P Require Import Prelude CFloat EpoConf.

Local Open Scope Z_scope.

(** * Layout *)

(** A type: an integer of some bytes, an array, a structure and a union. An anonymous union is a
    field with an empty name. *)
Inductive cty :=
  | Num (signed : bool) (size : Z)
  | Arr (n : Z) (t : cty)
  | Struct (fs : list (string * cty))
  | Union (fs : list (string * cty)).

Definition INT : cty := Num true 4.
Definition UINT : cty := Num false 4.
Definition CHAR : cty := Num false 1.
Definition U64 : cty := Num false 8.
Definition PTR : cty := Num false 4.

Definition round_up (a n : Z) : Z := (n + a - 1) / a * a.

Fixpoint alignof (t : cty) : Z :=
  match t with
  | Num _ n => n
  | Arr _ t => alignof t
  | Struct fs | Union fs => foldr (fun '(_, t) a => Z.max (alignof t) a) 1 fs
  end.

Fixpoint sizeof (t : cty) : Z :=
  match t with
  | Num _ n => n
  | Arr n t => n * sizeof t
  | Struct fs => round_up (alignof (Struct fs)) (foldl (fun off '(_, t) => round_up (alignof t) off + sizeof t) 0 fs)
  | Union fs => round_up (alignof (Union fs)) (foldr (fun '(_, t) a => Z.max (sizeof t) a) 0 fs)
  end.

(** Where a field lies, behind [off] bytes of other fields. *)
Fixpoint member (f : string) (off : Z) (fs : list (string * cty)) : option (Z * cty) :=
  match fs with
  | [] => None
  | (g, t) :: fs' =>
      let o := round_up (alignof t) off in
      if String.eqb f g then Some (o, t) else member f (o + sizeof t) fs'
  end.

Fixpoint alternative (f : string) (fs : list (string * cty)) : option (Z * cty) :=
  match fs with
  | [] => None
  | (g, t) :: fs' => if String.eqb f g then Some (0, t) else alternative f fs'
  end.

(** [t.f1.f2...]. *)
Fixpoint at_path (t : cty) (path : list string) : option (Z * cty) :=
  match path with
  | [] => Some (0, t)
  | f :: path' =>
      '(o, t1) ← match t with
                | Struct fs => member f 0 fs
                | Union fs => alternative f fs
                | _ => None
                end;
      '(o', t2) ← at_path t1 path';
      Some (o + o', t2)
  end.

(** * Reading *)

Notation cmem := (gmap Z Z).

(** [n] bytes at [p]. *)
Fixpoint rd_bytes (m : cmem) (p : Z) (n : nat) : option (list Z) :=
  match n with
  | O => Some []
  | S n' => b ← m !! p; bs ← rd_bytes m (p + 1) n'; Some (b :: bs)
  end.

Definition to_signed (n v : Z) : Z := if v <? 2 ^ (8 * n - 1) then v else v - 2 ^ (8 * n).

Definition rd_num (signed : bool) (n : Z) (m : cmem) (p : Z) : option Z :=
  bs ← rd_bytes m p (Z.to_nat n);
  Some (if signed then to_signed n (le_value bs) else le_value bs).

(** [( *(T * )p).path], of a type of integers. *)
Definition get (T : cty) (path : list string) (m : cmem) (p : Z) : option Z :=
  '(o, t) ← at_path T path;
  match t with Num s n => rd_num s n m (p + o) | _ => None end.

(** [&(( *(T * )p).path)]. *)
Definition address (T : cty) (path : list string) (p : Z) : option Z :=
  '(o, _) ← at_path T path; Some (p + o).

(** [((int * )p)[i]] and [((char ** )p)[i]]. *)
Definition int_at (m : cmem) (p : Z) (i : nat) : option Z := rd_num true 4 m (p + 4 * Z.of_nat i).
Definition ptr_at (m : cmem) (p : Z) (i : nat) : option Z := rd_num false 4 m (p + 4 * Z.of_nat i).

(** The bytes of a string. Every byte is at an address of its own, so the number of bytes of the
    memory is enough fuel. *)
Fixpoint string_from (fuel : nat) (m : cmem) (p : Z) : option (list Z) :=
  match fuel with
  | O => None
  | S fuel' => b ← m !! p; if b =? 0 then Some [] else s ← string_from fuel' m (p + 1); Some (b :: s)
  end.
Definition cstring (m : cmem) (p : Z) : option (list Z) := string_from (S (size m)) m p.

(** [strndup (p, n)]. *)
Fixpoint string_upto (n : nat) (m : cmem) (p : Z) : option (list Z) :=
  match n with
  | O => Some []
  | S n' => b ← m !! p; if b =? 0 then Some [] else s ← string_upto n' m (p + 1); Some (b :: s)
  end.

(** * Writing *)

Definition wr_bytes (m : cmem) (p : Z) (bs : list Z) : cmem :=
  fst (foldl (fun '(m, p) b => (<[p := b]> m, p + 1)) (m, p) bs).

(** [( *(T * )p).path = v]. *)
Definition put (T : cty) (path : list string) (v : Z) (m : cmem) (p : Z) : option cmem :=
  _ ← get T path m p;
  '(o, t) ← at_path T path;
  match t with Num s n => Some (wr_bytes m (p + o) (le_bytes (Z.to_nat n) (v mod 2 ^ (8 * n)))) | _ => None end.

(** * Values of the HIDL interface *)

(** Integers and enumerations, truth values, strings, vectors and structures. A member that is
    not listed has its initial value, zero or empty. *)
Inductive hval :=
  | HInt (z : Z)
  | HBool (b : bool)
  | HStr (s : list Z)
  | HVec (l : list hval)
  | HRec (fs : list (string * hval)).

Definition hstr (s : option (list Z)) : option hval := HStr <$> s.

(** The conversion of one member of a structure: what is read at [p]. *)
Definition conversion : Type := cmem -> Z -> option hval.
Definition from_int (T : cty) (path : list string) : conversion := fun m p => HInt <$> get T path m p.
Definition from_bool (T : cty) (path : list string) : conversion := fun m p => (fun v => HBool (negb (v =? 0))) <$> get T path m p.

(** The members of a structure, one after the other. *)
Fixpoint record (fs : list (string * conversion)) (m : cmem) (p : Z) : option (list (string * hval)) :=
  match fs with
  | [] => Some []
  | (name, c) :: fs' => v ← c m p; l ← record fs' m p; Some ((name, v) :: l)
  end.

(** [n] elements, the element at [i] and those behind it. *)
Fixpoint vector {A} (elem : nat -> option A) (n i : nat) : option (list A) :=
  match n with
  | O => Some []
  | S n' => v ← elem i; l ← vector elem n' (S i); Some (v :: l)
  end.

(** * Numbers in text *)

Definition LONG_MAX : Z := 2 ^ 31 - 1.
Definition LONG_MIN : Z := - 2 ^ 31.

(** [strtol (s, NULL, 16)]. *)
Definition strtol16 (s : list Z) : Z :=
  let l := skip_space s in
  let '(neg, l) := match l with
                   | 45 :: r => (true, r)
                   | 43 :: r => (false, r)
                   | _ => (false, l)
                   end in
  let l := match l with
           | 48 :: c :: d :: r => if (lower c =? 120) && (if hex_digit d then true else false) then d :: r else l
           | _ => l
           end in
  let '(v, _, _) := digits hex_digit 16 0 0 l in
  Z.max LONG_MIN (Z.min LONG_MAX (if neg : bool then - v else v)).

Example strtol_ex : strtol16 (str " 0x1f") = 31 /\ strtol16 (str "-ZZ") = 0 /\ strtol16 (str "FFFFFFFF") = LONG_MAX /\ strtol16 (str "12ab,") = 4779.
Proof. vm_compute. done. Qed.

(** * Lemmas *)

Lemma string_from_ok s : forall fuel m p, Forall (fun b => b <> 0) s -> (length s < fuel)%nat ->
  (forall i b, (s ++ [0]) !! i = Some b -> m !! (p + Z.of_nat i) = Some b) -> string_from fuel m p = Some s.
Proof.
  induction s as [|b s IH]; intros fuel m p Hs Hf Hm; (destruct fuel as [|fuel]; [cbn in Hf; lia|]); cbn [string_from].
  - specialize (Hm 0%nat 0 eq_refl). rewrite Z.add_0_r in Hm. by rewrite Hm.
  - apply list.Forall_cons in Hs as [Hb Hs]. pose proof (Hm 0%nat b eq_refl) as H0. rewrite Z.add_0_r in H0. rewrite H0. cbn.
    rewrite (proj2 (Z.eqb_neq b 0)) by done. rewrite (IH fuel m (p + 1)); [done|done|cbn in Hf; lia|].
    intros i b' Hi. rewrite <- (Hm (S i) b' Hi). f_equal. lia.
Qed.

(** The fuel of [cstring] is enough for every string that lies in the memory. *)
Lemma mapped_size (m : cmem) (p : Z) (n : nat) : (forall i, (i < n)%nat -> is_Some (m !! (p + Z.of_nat i))) -> (n <= size m)%nat.
Proof.
  intros H. rewrite <- size_dom. assert (list_to_set (map (fun i => p + Z.of_nat i) (seq 0 n)) ⊆ dom m) as Hs.
  { intros x. rewrite elem_of_list_to_set, list_elem_of_fmap. intros (i & -> & [_ Hi]%elem_of_seq). apply elem_of_dom, H. lia. }
  apply subseteq_size in Hs. rewrite size_list_to_set in Hs; [by rewrite length_map, length_seq in Hs|].
  apply NoDup_fmap_2; [|apply NoDup_seq]. intros i j Hij. lia.
Qed.

Lemma cstring_ok s m p : Forall (fun b => b <> 0) s -> (forall i b, (s ++ [0]) !! i = Some b -> m !! (p + Z.of_nat i) = Some b) ->
  cstring m p = Some s.
Proof.
  intros Hs Hm. apply string_from_ok; [done| |done]. assert (length s < size m)%nat; [|lia].
  apply (mapped_size m p (S (length s))). intros i Hi. destruct (lookup_lt_is_Some_2 (s ++ [0]) i) as [b Hb]; [rewrite length_app; cbn; lia|].
  exists b. by apply Hm.
Qed.
