(* ===== verification/RilStructs.v ===== *)
(** The structures of the radio interface (src/include/telephony/ril.h) that the radio service exchanges
    with the vendor's library, field by field. An enumeration has the size of an [int]. *)

From stdpp Require Import base list strings numbers.
From Stdlib Require Import ZArith Lia.
From S2P Require Import Prelude RilMem.

Local Open Scope Z_scope.
Local Open Scope string_scope.

(** ril.h:1090-1090 [RIL_CARD_MAX_APPS]. *)
Definition RIL_CARD_MAX_APPS : Z := 8.

(** ril.h:1865-1865 [RIL_CDMA_MAX_NUMBER_OF_INFO_RECS]. *)
Definition RIL_CDMA_MAX_NUMBER_OF_INFO_RECS : Z := 10.

(** ril.h:1963-1963 [SS_INFO_MAX]. *)
Definition SS_INFO_MAX : nat := 4.

(** ril.h:1964-1964 [NUM_SERVICE_CLASSES]. *)
Definition NUM_SERVICE_CLASSES : Z := 7.

(** ril.h:2102-2102 [RIL_NUM_TX_POWER_LEVELS]. *)
Definition RIL_NUM_TX_POWER_LEVELS : nat := 5.

(** ril.h:1186-1198 [RIL_AppStatus]. *)
Definition RIL_AppStatus : cty := Struct [
  ("app_type", INT); ("app_state", INT); ("perso_substate", INT); ("aid_ptr", PTR); ("app_label_ptr", PTR);
   ("pin1_replaced", INT); ("pin1", INT); ("pin2", INT)].

(** ril.h:1211-1220 [RIL_CardStatus_v6]. *)
Definition RIL_CardStatus_v6 : cty := Struct [
  ("card_state", INT); ("universal_pin_state", INT); ("gsm_umts_subscription_app_index", INT);
   ("cdma_subscription_app_index", INT); ("ims_subscription_app_index", INT); ("num_applications", INT);
   ("applications", Arr 8 RIL_AppStatus)].

(** ril.h:485-490 [RIL_UUS_Info]. *)
Definition RIL_UUS_Info : cty := Struct [
  ("uusType", INT); ("uusDcs", INT); ("uusLength", INT); ("uusData", PTR)].

(** ril.h:500-515 [RIL_Call]. *)
Definition RIL_Call : cty := Struct [
  ("state", INT); ("index", INT); ("toa", INT); ("isMpty", CHAR); ("isMT", CHAR); ("als", CHAR); ("isVoice", CHAR);
   ("isVoicePrivacy", CHAR); ("number", PTR); ("numberPresentation", INT); ("name", PTR); ("namePresentation", INT);
   ("uusInfo", PTR)].

(** ril.h:959-962 [RIL_LastCallFailCauseInfo]. *)
Definition RIL_LastCallFailCauseInfo : cty := Struct [
  ("cause_code", INT); ("vendor_cause", PTR)].

(** ril.h:1372-1375 [RIL_GW_SignalStrength]. *)
Definition RIL_GW_SignalStrength : cty := Struct [
  ("signalStrength", INT); ("bitErrorRate", INT)].

(** ril.h:1389-1398 [RIL_CDMA_SignalStrength]. *)
Definition RIL_CDMA_SignalStrength : cty := Struct [
  ("dbm", INT); ("ecio", INT)].

(** ril.h:1401-1411 [RIL_EVDO_SignalStrength]. *)
Definition RIL_EVDO_SignalStrength : cty := Struct [
  ("dbm", INT); ("ecio", INT); ("signalNoiseRatio", INT)].

(** ril.h:1413-1431 [RIL_LTE_SignalStrength]. *)
Definition RIL_LTE_SignalStrength : cty := Struct [
  ("signalStrength", INT); ("rsrp", INT); ("rsrq", INT); ("rssnr", INT); ("cqi", INT)].

(** ril.h:1433-1457 [RIL_LTE_SignalStrength_v8]. *)
Definition RIL_LTE_SignalStrength_v8 : cty := Struct [
  ("signalStrength", INT); ("rsrp", INT); ("rsrq", INT); ("rssnr", INT); ("cqi", INT); ("timingAdvance", INT)].

(** ril.h:1466-1471 [RIL_WCDMA_SignalStrength]. *)
Definition RIL_WCDMA_SignalStrength : cty := Struct [
  ("isGsm", INT); ("rssiQdbm", INT); ("rscpQdbm", INT); ("Ecn0Qdbm", INT)].

(** ril.h:1480-1486 [RIL_SignalStrength_v6]. *)
Definition RIL_SignalStrength_v6 : cty := Struct [
  ("GW_SignalStrength", RIL_GW_SignalStrength); ("CDMA_SignalStrength", RIL_CDMA_SignalStrength);
   ("EVDO_SignalStrength", RIL_EVDO_SignalStrength); ("LTE_SignalStrength", RIL_LTE_SignalStrength);
   ("WCDMA_SignalStrength", RIL_WCDMA_SignalStrength)].

(** ril.h:1488-1493 [RIL_SignalStrength_v8]. *)
Definition RIL_SignalStrength_v8 : cty := Struct [
  ("GW_SignalStrength", RIL_GW_SignalStrength); ("CDMA_SignalStrength", RIL_CDMA_SignalStrength);
   ("EVDO_SignalStrength", RIL_EVDO_SignalStrength); ("LTE_SignalStrength", RIL_LTE_SignalStrength_v8)].

(** ril.h:1384-1387 [RIL_SignalStrengthWcdma]. *)
Definition RIL_SignalStrengthWcdma : cty := Struct [
  ("signalStrength", INT); ("bitErrorRate", INT)].

(** ril.h:1377-1382 [RIL_GSM_SignalStrength_v12]. *)
Definition RIL_GSM_SignalStrength_v12 : cty := Struct [
  ("signalStrength", INT); ("bitErrorRate", INT); ("timingAdvance", INT)].

(** ril.h:1459-1464 [RIL_TD_SCDMA_SignalStrength]. *)
Definition RIL_TD_SCDMA_SignalStrength : cty := Struct [
  ("rscp", INT)].

(** ril.h:1503-1508 [RIL_CellIdentityGsm]. *)
Definition RIL_CellIdentityGsm : cty := Struct [
  ("mcc", INT); ("mnc", INT); ("lac", INT); ("cid", INT)].

(** ril.h:1510-1517 [RIL_CellIdentityGsm_v12]. *)
Definition RIL_CellIdentityGsm_v12 : cty := Struct [
  ("mcc", INT); ("mnc", INT); ("lac", INT); ("cid", INT); ("arfcn", INT); ("bsic", CHAR)].

(** ril.h:1519-1525 [RIL_CellIdentityWcdma]. *)
Definition RIL_CellIdentityWcdma : cty := Struct [
  ("mcc", INT); ("mnc", INT); ("lac", INT); ("cid", INT); ("psc", INT)].

(** ril.h:1527-1534 [RIL_CellIdentityWcdma_v12]. *)
Definition RIL_CellIdentityWcdma_v12 : cty := Struct [
  ("mcc", INT); ("mnc", INT); ("lac", INT); ("cid", INT); ("psc", INT); ("uarfcn", INT)].

(** ril.h:1536-1549 [RIL_CellIdentityCdma]. *)
Definition RIL_CellIdentityCdma : cty := Struct [
  ("networkId", INT); ("systemId", INT); ("basestationId", INT); ("longitude", INT); ("latitude", INT)].

(** ril.h:1551-1557 [RIL_CellIdentityLte]. *)
Definition RIL_CellIdentityLte : cty := Struct [
  ("mcc", INT); ("mnc", INT); ("ci", INT); ("pci", INT); ("tac", INT)].

(** ril.h:1559-1566 [RIL_CellIdentityLte_v12]. *)
Definition RIL_CellIdentityLte_v12 : cty := Struct [
  ("mcc", INT); ("mnc", INT); ("ci", INT); ("pci", INT); ("tac", INT); ("earfcn", INT)].

(** ril.h:1568-1574 [RIL_CellIdentityTdscdma]. *)
Definition RIL_CellIdentityTdscdma : cty := Struct [
  ("mcc", INT); ("mnc", INT); ("lac", INT); ("cid", INT); ("cpid", INT)].

(** ril.h:1664-1673 [RIL_CellIdentity_v16]. *)
Definition RIL_CellIdentity_v16 : cty := Struct [
  ("cellInfoType", INT);
   ("", Union [("cellIdentityGsm", RIL_CellIdentityGsm_v12); ("cellIdentityWcdma", RIL_CellIdentityWcdma_v12); ("cellIdentityLte", RIL_CellIdentityLte_v12); ("cellIdentityTdscdma", RIL_CellIdentityTdscdma); ("cellIdentityCdma", RIL_CellIdentityCdma)])].

(** ril.h:1675-1733 [RIL_VoiceRegistrationStateResponse]. *)
Definition RIL_VoiceRegistrationStateResponse : cty := Struct [
  ("regState", INT); ("rat", INT); ("cssSupported", INT); ("roamingIndicator", INT); ("systemIsInPrl", INT);
   ("defaultRoamingIndicator", INT); ("reasonForDenial", INT); ("cellIdentity", RIL_CellIdentity_v16)].

(** ril.h:1736-1756 [RIL_DataRegistrationStateResponse]. *)
Definition RIL_DataRegistrationStateResponse : cty := Struct [
  ("regState", INT); ("rat", INT); ("reasonDataDenied", INT); ("maxDataCalls", INT);
   ("cellIdentity", RIL_CellIdentity_v16)].

(** ril.h:1576-1579 [RIL_CellInfoGsm]. *)
Definition RIL_CellInfoGsm : cty := Struct [
  ("cellIdentityGsm", RIL_CellIdentityGsm); ("signalStrengthGsm", RIL_GW_SignalStrength)].

(** ril.h:1581-1584 [RIL_CellInfoGsm_v12]. *)
Definition RIL_CellInfoGsm_v12 : cty := Struct [
  ("cellIdentityGsm", RIL_CellIdentityGsm_v12); ("signalStrengthGsm", RIL_GSM_SignalStrength_v12)].

(** ril.h:1586-1589 [RIL_CellInfoWcdma]. *)
Definition RIL_CellInfoWcdma : cty := Struct [
  ("cellIdentityWcdma", RIL_CellIdentityWcdma); ("signalStrengthWcdma", RIL_SignalStrengthWcdma)].

(** ril.h:1591-1594 [RIL_CellInfoWcdma_v12]. *)
Definition RIL_CellInfoWcdma_v12 : cty := Struct [
  ("cellIdentityWcdma", RIL_CellIdentityWcdma_v12); ("signalStrengthWcdma", RIL_SignalStrengthWcdma)].

(** ril.h:1596-1600 [RIL_CellInfoCdma]. *)
Definition RIL_CellInfoCdma : cty := Struct [
  ("cellIdentityCdma", RIL_CellIdentityCdma); ("signalStrengthCdma", RIL_CDMA_SignalStrength);
   ("signalStrengthEvdo", RIL_EVDO_SignalStrength)].

(** ril.h:1602-1605 [RIL_CellInfoLte]. *)
Definition RIL_CellInfoLte : cty := Struct [
  ("cellIdentityLte", RIL_CellIdentityLte); ("signalStrengthLte", RIL_LTE_SignalStrength_v8)].

(** ril.h:1607-1610 [RIL_CellInfoLte_v12]. *)
Definition RIL_CellInfoLte_v12 : cty := Struct [
  ("cellIdentityLte", RIL_CellIdentityLte_v12); ("signalStrengthLte", RIL_LTE_SignalStrength_v8)].

(** ril.h:1612-1615 [RIL_CellInfoTdscdma]. *)
Definition RIL_CellInfoTdscdma : cty := Struct [
  ("cellIdentityTdscdma", RIL_CellIdentityTdscdma); ("signalStrengthTdscdma", RIL_TD_SCDMA_SignalStrength)].

(** ril.h:1636-1648 [RIL_CellInfo]. *)
Definition RIL_CellInfo : cty := Struct [
  ("cellInfoType", INT); ("registered", INT); ("timeStampType", INT); ("timeStamp", U64);
   ("CellInfo", Union [("gsm", RIL_CellInfoGsm); ("cdma", RIL_CellInfoCdma); ("lte", RIL_CellInfoLte); ("wcdma", RIL_CellInfoWcdma); ("tdscdma", RIL_CellInfoTdscdma)])].

(** ril.h:1650-1662 [RIL_CellInfo_v12]. *)
Definition RIL_CellInfo_v12 : cty := Struct [
  ("cellInfoType", INT); ("registered", INT); ("timeStampType", INT); ("timeStamp", U64);
   ("CellInfo", Union [("gsm", RIL_CellInfoGsm_v12); ("cdma", RIL_CellInfoCdma); ("lte", RIL_CellInfoLte_v12); ("wcdma", RIL_CellInfoWcdma_v12); ("tdscdma", RIL_CellInfoTdscdma)])].

(** ril.h:665-673 [RIL_SMS_Response]. *)
Definition RIL_SMS_Response : cty := Struct [
  ("messageRef", INT); ("ackPDU", PTR); ("errorCode", INT)].

(** ril.h:531-561 [RIL_Data_Call_Response_v6]. *)
Definition RIL_Data_Call_Response_v6 : cty := Struct [
  ("status", INT); ("suggestedRetryTime", INT); ("cid", INT); ("active", INT); ("type", PTR); ("ifname", PTR);
   ("addresses", PTR); ("dnses", PTR); ("gateways", PTR)].

(** ril.h:745-750 [RIL_SIM_IO_Response]. *)
Definition RIL_SIM_IO_Response : cty := Struct [
  ("sw1", INT); ("sw2", INT); ("simResponse", PTR)].

(** ril.h:754-776 [RIL_CallForwardInfo]. *)
Definition RIL_CallForwardInfo : cty := Struct [
  ("status", INT); ("reason", INT); ("serviceClass", INT); ("toa", INT); ("number", PTR); ("timeSeconds", INT)].

(** ril.h:778-789 [RIL_NeighboringCell]. *)
Definition RIL_NeighboringCell : cty := Struct [
  ("cid", PTR); ("rssi", INT)].

(** ril.h:1337-1343 [RIL_GSM_BroadcastSmsConfigInfo]. *)
Definition RIL_GSM_BroadcastSmsConfigInfo : cty := Struct [
  ("fromServiceId", INT); ("toServiceId", INT); ("fromCodeScheme", INT); ("toCodeScheme", INT); ("selected", CHAR)].

(** ril.h:1902-1908 [RIL_HardwareConfig_Modem]. *)
Definition RIL_HardwareConfig_Modem : cty := Struct [
  ("rilModel", INT); ("rat", UINT); ("maxVoice", INT); ("maxData", INT); ("maxStandby", INT)].

(** ril.h:1910-1912 [RIL_HardwareConfig_Sim]. *)
Definition RIL_HardwareConfig_Sim : cty := Struct [
  ("modemUuid", Arr 64 CHAR)].

(** ril.h:1914-1922 [RIL_HardwareConfig]. *)
Definition RIL_HardwareConfig : cty := Struct [
  ("type", INT); ("uuid", Arr 64 CHAR); ("state", INT);
   ("cfg", Union [("modem", RIL_HardwareConfig_Modem); ("sim", RIL_HardwareConfig_Sim)])].

(** ril.h:426-433 [RIL_RadioCapability]. *)
Definition RIL_RadioCapability : cty := Struct [
  ("version", INT); ("session", INT); ("phase", INT); ("rat", INT); ("logicalModemUuid", Arr 64 CHAR); ("status", INT)].

(** ril.h:791-800 [RIL_LceStatusInfo]. *)
Definition RIL_LceStatusInfo : cty := Struct [
  ("lce_status", CHAR); ("actual_interval_ms", UINT)].

(** ril.h:802-810 [RIL_LceDataInfo]. *)
Definition RIL_LceDataInfo : cty := Struct [
  ("last_hop_capacity_kbps", UINT); ("confidence_level", CHAR); ("lce_suspended", CHAR)].

(** ril.h:2107-2128 [RIL_ActivityStatsInfo]. *)
Definition RIL_ActivityStatsInfo : cty := Struct [
  ("sleep_mode_time_ms", UINT); ("idle_mode_time_ms", UINT); ("tx_mode_time_ms", Arr 5 UINT);
   ("rx_mode_time_ms", UINT)].

(** ril.h:820-828 [RIL_Carrier]. *)
Definition RIL_Carrier : cty := Struct [
  ("mcc", PTR); ("mnc", PTR); ("match_type", INT); ("match_data", PTR)].

(** ril.h:830-840 [RIL_CarrierRestrictions]. *)
Definition RIL_CarrierRestrictions : cty := Struct [
  ("len_allowed_carriers", INT); ("len_excluded_carriers", INT); ("allowed_carriers", PTR); ("excluded_carriers", PTR)].

(** ril.h:1076-1088 [RIL_SuppSvcNotification]. *)
Definition RIL_SuppSvcNotification : cty := Struct [
  ("notificationType", INT); ("code", INT); ("index", INT); ("type", INT); ("number", PTR)].

(** ril.h:1285-1297 [RIL_SimRefreshResponse_v7]. *)
Definition RIL_SimRefreshResponse_v7 : cty := Struct [
  ("result", INT); ("ef_id", INT); ("aid", PTR)].

(** ril.h:493-498 [RIL_CDMA_SignalInfoRecord]. *)
Definition RIL_CDMA_SignalInfoRecord : cty := Struct [
  ("isPresent", CHAR); ("signalType", CHAR); ("alertPitch", CHAR); ("signal", CHAR)].

(** ril.h:1307-1316 [RIL_CDMA_CallWaiting_v6]. *)
Definition RIL_CDMA_CallWaiting_v6 : cty := Struct [
  ("number", PTR); ("numberPresentation", INT); ("name", PTR); ("signalInfoRecord", RIL_CDMA_SignalInfoRecord);
   ("number_type", INT); ("number_plan", INT)].

(** ril.h:1782-1785 [RIL_CDMA_DisplayInfoRecord]. *)
Definition RIL_CDMA_DisplayInfoRecord : cty := Struct [
  ("alpha_len", CHAR); ("alpha_buf", Arr 64 CHAR)].

(** ril.h:1792-1799 [RIL_CDMA_NumberInfoRecord]. *)
Definition RIL_CDMA_NumberInfoRecord : cty := Struct [
  ("len", CHAR); ("buf", Arr 81 CHAR); ("number_type", CHAR); ("number_plan", CHAR); ("pi", CHAR); ("si", CHAR)].

(** ril.h:1812-1816 [RIL_CDMA_RedirectingNumberInfoRecord]. *)
Definition RIL_CDMA_RedirectingNumberInfoRecord : cty := Struct [
  ("redirectingNumber", RIL_CDMA_NumberInfoRecord); ("redirectingReason", INT)].

(** ril.h:1819-1824 [RIL_CDMA_LineControlInfoRecord]. *)
Definition RIL_CDMA_LineControlInfoRecord : cty := Struct [
  ("lineCtrlPolarityIncluded", CHAR); ("lineCtrlToggle", CHAR); ("lineCtrlReverse", CHAR);
   ("lineCtrlPowerDenial", CHAR)].

(** ril.h:1827-1829 [RIL_CDMA_T53_CLIRInfoRecord]. *)
Definition RIL_CDMA_T53_CLIRInfoRecord : cty := Struct [
  ("cause", CHAR)].

(** ril.h:1832-1835 [RIL_CDMA_T53_AudioControlInfoRecord]. *)
Definition RIL_CDMA_T53_AudioControlInfoRecord : cty := Struct [
  ("upLink", CHAR); ("downLink", CHAR)].

(** ril.h:1837-1863 [RIL_CDMA_InformationRecord]. *)
Definition RIL_CDMA_InformationRecord : cty := Struct [
  ("name", INT);
   ("rec", Union [("display", RIL_CDMA_DisplayInfoRecord); ("number", RIL_CDMA_NumberInfoRecord); ("signal", RIL_CDMA_SignalInfoRecord); ("redir", RIL_CDMA_RedirectingNumberInfoRecord); ("lineCtrl", RIL_CDMA_LineControlInfoRecord); ("clir", RIL_CDMA_T53_CLIRInfoRecord); ("audioCtrl", RIL_CDMA_T53_AudioControlInfoRecord)])].

(** ril.h:1867-1870 [RIL_CDMA_InformationRecords]. *)
Definition RIL_CDMA_InformationRecords : cty := Struct [
  ("numberOfInfoRecs", CHAR); ("infoRec", Arr 10 RIL_CDMA_InformationRecord)].

(** ril.h:1966-1978 [RIL_CfData]. *)
Definition RIL_CfData : cty := Struct [
  ("numValidIndexes", INT); ("cfInfo", Arr 7 RIL_CallForwardInfo)].

(** ril.h:1980-1996 [RIL_StkCcUnsolSsResponse]. *)
Definition RIL_StkCcUnsolSsResponse : cty := Struct [
  ("serviceType", INT); ("requestType", INT); ("teleserviceType", INT); ("serviceClass", INT); ("result", INT);
   ("", Union [("ssInfo", Arr 4 INT); ("cfData", RIL_CfData)])].

(** ril.h:6592-6603 [RIL_PCO_Data]. *)
Definition RIL_PCO_Data : cty := Struct [
  ("cid", INT); ("bearer_proto", PTR); ("pco_id", INT); ("contents_length", INT); ("contents", PTR)].

(** ril.h:6545-6556 [RIL_InitialAttachApn]. *)
Definition RIL_InitialAttachApn : cty := Struct [
  ("apn", PTR); ("protocol", PTR); ("authtype", INT); ("username", PTR); ("password", PTR); ("operatorNumeric", PTR);
   ("canHandleIms", INT); ("dualApnPlmnList", PTR)].

(** ril.h:6558-6581 [RIL_InitialAttachApn_v15]. *)
Definition RIL_InitialAttachApn_v15 : cty := Struct [
  ("apn", PTR); ("protocol", PTR); ("roamingProtocol", PTR); ("authtype", INT); ("username", PTR); ("password", PTR);
   ("supportedTypesBitmask", INT); ("bearerBitmask", INT); ("modemCognitive", INT); ("mtu", INT); ("mvnoType", PTR);
   ("mvnoMatchData", PTR)].

(** ril.h:689-698 [RIL_Dial]. *)
Definition RIL_Dial : cty := Struct [
  ("address", PTR); ("clir", INT); ("uusInfo", PTR)].

(** ril.h:714-727 [RIL_SIM_IO_v6]. *)
Definition RIL_SIM_IO_v6 : cty := Struct [
  ("command", INT); ("fileid", INT); ("path", PTR); ("p1", INT); ("p2", INT); ("p3", INT); ("data", PTR);
   ("pin2", PTR); ("aidPtr", PTR)].

(** ril.h:676-686 [RIL_SMS_WriteArgs]. *)
Definition RIL_SMS_WriteArgs : cty := Struct [
  ("status", INT); ("pdu", PTR); ("smsc", PTR)].

(** ril.h:731-743 [RIL_SIM_APDU]. *)
Definition RIL_SIM_APDU : cty := Struct [
  ("sessionid", INT); ("cla", INT); ("instruction", INT); ("p1", INT); ("p2", INT); ("p3", INT); ("data", PTR)].

(** ril.h:1878-1881 [RIL_NV_WriteItem]. *)
Definition RIL_NV_WriteItem : cty := Struct [
  ("itemID", INT); ("value", PTR)].

(** ril.h:6583-6590 [RIL_SimAuthentication]. *)
Definition RIL_SimAuthentication : cty := Struct [
  ("authContext", INT); ("authData", PTR); ("aid", PTR)].

(** ril.h:2019-2049 [RIL_DataProfileInfo]. *)
Definition RIL_DataProfileInfo : cty := Struct [
  ("profileId", INT); ("apn", PTR); ("protocol", PTR); ("authType", INT); ("user", PTR); ("password", PTR);
   ("type", INT); ("maxConnsTime", INT); ("maxConns", INT); ("waitTime", INT); ("enabled", INT)].

(** ril.h:2051-2099 [RIL_DataProfileInfo_v15]. *)
Definition RIL_DataProfileInfo_v15 : cty := Struct [
  ("profileId", INT); ("apn", PTR); ("protocol", PTR); ("roamingProtocol", PTR); ("authType", INT); ("user", PTR);
   ("password", PTR); ("type", INT); ("maxConnsTime", INT); ("maxConns", INT); ("waitTime", INT); ("enabled", INT);
   ("supportedTypesBitmask", INT); ("bearerBitmask", INT); ("mtu", INT); ("mvnoType", PTR); ("mvnoMatchData", PTR)].

(** ril_service.cpp:5569-5574 [RIL_IDENTITY]. *)
Definition RIL_IDENTITY : cty := Struct [
  ("imei", PTR); ("imeisv", PTR); ("esnHex", PTR); ("meidHex", PTR)].

(** The sizes the compiler computes on 32-bit ARM. *)
Example struct_sizes :
  map sizeof [RIL_CardStatus_v6; RIL_Call; RIL_SignalStrength_v6; RIL_SignalStrength_v8; RIL_Data_Call_Response_v6;
    RIL_CellInfo; RIL_CellInfo_v12; RIL_CellIdentity_v16; RIL_HardwareConfig; RIL_CDMA_InformationRecords; RIL_DataProfileInfo; RIL_IDENTITY]
  = [280; 40; 64; 52; 36; 72; 72; 28; 136; 964; 44; 16].
Proof. vm_compute. done. Qed.
