(* ===== verification/RilService.v ===== *)
(** The radio service (src/hal/libril/ril_service.cpp): the objects of the framework that responses and
    indications are delivered to, one pair for each slot, the lock that protects them, and what is
    done when a client has died. *)

From stdpp Require Import base list gmap strings numbers.
From Stdlib Require Import ZArith Lia.
From S2P Require Import Prelude RilEvent RilTables Ril RilMem RilStructs.

Local Open Scope Z_scope.
Local Open Scope st_scope.
Local Open Scope rec_scope.

(** Numbers of the HIDL interface and of the headers of CDMA messages, which are not part of the
    repository, and the layout of the structures of the latter. *)
Class RadioTypes := {
  INVALID_RESPONSE : Z;
  TYPE_SOLICITED : Z;
  TYPE_SOLICITED_ACK_EXP : Z;
  TYPE_UNSOLICITED : Z;
  TYPE_UNSOLICITED_ACK_EXP : Z;
  ERROR_UNSPECIFIED : Z;
  OPERATOR_UNKNOWN : Z;
  OPERATOR_AVAILABLE : Z;
  OPERATOR_CURRENT : Z;
  OPERATOR_FORBIDDEN : Z;
  MVNO_NONE : Z;
  MVNO_IMSI : Z;
  MVNO_GID : Z;
  MVNO_SPN : Z;
  RESET_RELOAD : Z;
  RESET_ERASE : Z;
  RESET_FACTORY_RESET : Z;
  LOW_DATA_EXPECTED : Z;
  RIL_CDMA_SMS_ADDRESS_MAX : Z;
  RIL_CDMA_SMS_SUBADDRESS_MAX : Z;
  RIL_CDMA_SMS_BEARER_DATA_MAX : Z;
  RIL_CDMA_SMS_Message : cty;
  RIL_CDMA_SMS_Ack : cty;
  RIL_CDMA_SMS_WriteArgs : cty;
  RIL_SelectUiccSub : cty;
  RIL_CDMA_BroadcastSmsConfigInfo : cty;
}.

(** ril.h:130-130 [RIL_E_SUCCESS]. *)
Definition RIL_E_SUCCESS : Z := 0.

(** * State *)

(** [RadioResponseInfo] of the interface. *)
Record RadioResponseInfo := mkRespInfo { ri_type : Z; ri_serial : Z; ri_error : Z }.
#[export] Instance eta_RadioResponseInfo : Eta RadioResponseInfo := fun r => mkRespInfo (ri_type r) (ri_serial r) (ri_error r).

(** What the framework's objects receive. An object is a pointer, and NULL is 0. *)
Inductive hidl_call :=
  | Response (client slot : Z) (method : string) (info : RadioResponseInfo) (args : list hval)
  | Indication (client slot : Z) (method : string) (type : Z) (args : list hval)
  | Acknowledge (client slot serial : Z).

(** ril_service.cpp:140-143 [RadioImpl, members], and of [OemHookImpl]. *)
Record Impl := mkImpl { mResponse : Z; mIndication : Z }.

(** A call of [setResponseFunctions] by another thread. *)
Record update := mkUpdate { up_radio : bool; up_slot : Z; up_impl : Impl }.

(** What the vendor's library reads in a request, pointers followed. *)
Inductive pval :=
  | VNull
  | VInt (z : Z)
  | VStr (s : list Z)
  | VVec (l : list pval)
  | VRec (fs : list (string * pval)).

(** A field of a structure of the service, or the argument of a request: a number, a pointer into
    the service's heap, a value that lies on the stack or is borrowed, a structure on the stack. *)
Inductive field :=
  | FInt (z : Z)
  | FPtr (p : Z)
  | FVal (v : pval)
  | FSub (fs : list (string * field)).

(** Memory of the service: a string, an array of integers, of pointers, of structures, and an array
    of pointers to the first elements of an array of structures. *)
Inductive block :=
  | Chars (s : list Z)
  | Ints (l : list Z)
  | Ptrs (l : list Z)
  | Structs (l : list (list (string * field)))
  | Elements (base : Z) (n : nat).

(** A call of [onRequest]: the request, its token, the data and their size. *)
Record vendor_request := mkVendorRequest { vr_request : Z; vr_token : Z; vr_data : pval; vr_size : Z }.

(** The library, the services, the lock as far as the running thread holds it for reading, the
    vendor's memory, the service's own memory, and the trace. [oks] says whether the next calls
    of the framework's objects succeed, [others] what other threads do each time the lock is
    released for them. [radio_states], [elapsed] and [operator_numeric] are what the vendor's
    library, the clock and a property answer. *)
Record Svc := mkSvc {
  lib : Ril;
  radioService : list (option Impl);
  oemHookService : list (option Impl);
  mCounterRadio : list Z;
  mCounterOemHook : list Z;
  held : list Z;
  vmem : cmem;
  heap : gmap Z block;
  dataCallCids : list Z;
  oks : list bool;
  others : list (list update);
  radio_states : list Z;
  elapsed : list Z;
  operator_numeric : list Z;
  hidl : list hidl_call;
  sent : list vendor_request;
}.
#[export] Instance eta_Svc : Eta Svc := fun s =>
  mkSvc (lib s) (radioService s) (oemHookService s) (mCounterRadio s) (mCounterOemHook s) (held s) (vmem s) (heap s)
    (dataCallCids s) (oks s) (others s) (radio_states s) (elapsed s) (operator_numeric s) (hidl s) (sent s).

Notation SVC := (ST Svc).

(** An operation of the library. *)
Definition on_lib {A} (m : ST Ril A) : SVC A :=
  fun s => match m (lib s) with
           | Ok (a, l) => Ok (a, s <| lib := l |>)
           | Undef => Undef
           | Blocked => Blocked
           end.

(** What is read in the vendor's memory. *)
Definition reading {A} (f : cmem -> option A) : SVC A := let* s := getM in of_option (f (vmem s)).

(** * The lock *)

(** ril_service.cpp:8483-8497 [getRadioServiceRwlock]. With two slots there are two locks, and the slots are 0
    and 1. *)
Definition getRadioServiceRwlock (slotId : Z) : nat := if slotId =? 2 then 1%nat else 0%nat.

Definition rdlock (slotId : Z) : SVC unit :=
  modM (fun s => s <| held := alter (Z.add 1) (getRadioServiceRwlock slotId) (held s) |>).

(** Giving back a lock that is not held is undefined. *)
Definition unlock (slotId : Z) : SVC unit :=
  let* s := getM in
  let* n := of_option (held s !! getRadioServiceRwlock slotId) in
  if n =? 0 then undefM else modM (fun s => s <| held := <[getRadioServiceRwlock slotId := n - 1]> (held s) |>).

(** What is done while the lock is held for writing. A thread that holds it for reading waits for
    itself. *)
Definition exclusive (slotId : Z) (m : SVC unit) : SVC unit :=
  let* s := getM in
  let* n := of_option (held s !! getRadioServiceRwlock slotId) in
  if n =? 0 then m else blockM.

(** * Clients *)

Definition services (radio : bool) (s : Svc) : list (option Impl) := if radio then radioService s else oemHookService s.
Definition counters (radio : bool) (s : Svc) : list Z := if radio then mCounterRadio s else mCounterOemHook s.

Definition get_impl (radio : bool) (slotId : Z) : SVC Impl :=
  let* s := getM in
  let* o := of_option (elem (services radio s) slotId) in
  of_option o.

Definition set_impl (radio : bool) (slotId : Z) (i : Impl) : SVC unit :=
  get_impl radio slotId;;
  modM (fun s => if radio then s <| radioService := <[Z.to_nat slotId := Some i]> (radioService s) |>
                 else s <| oemHookService := <[Z.to_nat slotId := Some i]> (oemHookService s) |>).

Definition get_counter (radio : bool) (slotId : Z) : SVC Z := let* s := getM in of_option (elem (counters radio s) slotId).
Definition count_up (radio : bool) (slotId : Z) : SVC unit :=
  let* n := get_counter radio slotId in
  modM (fun s => if radio then s <| mCounterRadio := <[Z.to_nat slotId := i32 (n + 1)]> (mCounterRadio s) |>
                 else s <| mCounterOemHook := <[Z.to_nat slotId := i32 (n + 1)]> (mCounterOemHook s) |>).

(** New objects, and the count of changes. *)
Definition update_impl (u : update) : SVC unit :=
  set_impl (up_radio u) (up_slot u) (up_impl u);; count_up (up_radio u) (up_slot u).

Fixpoint apply_updates (us : list update) : SVC unit :=
  match us with
  | [] => retM tt
  | u :: us' => update_impl u;; apply_updates us'
  end.

(** What other threads do while this one does not hold the lock. *)
Definition other_threads : SVC unit :=
  let* s := getM in
  modM (fun s => s <| others := tail (others s) |>);; apply_updates (default [] (head (others s))).

(** ril_service.cpp:790-832 [checkReturnStatus]. Other threads act between the unlock and the lock for
    writing; that they can act again before the lock is taken for reading is not covered. *)
Definition checkReturnStatus (slotId : Z) (isOk isRadioService : bool) : SVC unit :=
  if isOk then retM tt
  else
    let* counter := get_counter isRadioService slotId in
    unlock slotId;;
    other_threads;;
    exclusive slotId (
      let* now := get_counter isRadioService slotId in
      if counter =? now then set_impl isRadioService slotId (mkImpl 0 0);; count_up isRadioService slotId
      else retM tt);;
    rdlock slotId.

(** A call of an object of the framework, which may fail. *)
Definition hidl_do (c : hidl_call) : SVC bool :=
  let* s := getM in
  modM (fun s => s <| hidl := hidl s ++ [c] |> <| oks := tail (oks s) |>);; retM (hd true (oks s)).

Section Service.
Context `{HT : RadioTypes}.

(** ril_service.cpp:8617-8620 [isServiceConnected]. *)
Definition isServiceConnected (s : Svc) (slotId : Z) : bool :=
  match elem (radioService s) slotId with Some (Some i) => negb (mIndication i =? 0) | _ => false end.

(** ril_service.cpp:838-858 [RadioImpl::setResponseFunctions]. The indications that follow are the library's;
    the function for the time reports whether there is an object for it. *)
Definition setResponseFunctions (unsol_pending : bool) (slotId response indication : Z) : SVC unit :=
  exclusive slotId (update_impl (mkUpdate true slotId (mkImpl response indication)));;
  let* s := getM in
  on_lib (onNewCommandConnect unsol_pending (le_bytes 4 (version (lib s))) slotId (if isServiceConnected s slotId then 0 else -1)
    (isServiceConnected s 0 && isServiceConnected s 1)).

(** ril_service.cpp:2895-2915 [OemHookImpl::setResponseFunctions]. *)
Definition oem_setResponseFunctions (slotId response indication : Z) : SVC unit :=
  exclusive slotId (update_impl (mkUpdate false slotId (mkImpl response indication))).

(** ril_service.cpp:8459-8476 [registerService, slot]. *)
Definition register_slot (i : Z) : SVC unit :=
  exclusive i (
    let* s := getM in
    of_option (elem (radioService s) i);;
    of_option (elem (oemHookService s) i);;
    modM (fun s => s <| radioService := <[Z.to_nat i := Some (mkImpl 0 0)]> (radioService s) |>
                     <| oemHookService := <[Z.to_nat i := Some (mkImpl 0 0)]> (oemHookService s) |>)).

(** ril_service.cpp:8431-8477 [registerService]. The slots in their order. *)
Definition registerService : SVC unit := register_slot 0;; register_slot 1.

(** * Answers *)

(** ril_service.cpp:2957-2969 [populateResponseInfo]. *)
Definition populateResponseInfo (serial responseType e : Z) : RadioResponseInfo :=
  mkRespInfo
    (if responseType =? RESPONSE_SOLICITED then TYPE_SOLICITED
     else if responseType =? RESPONSE_SOLICITED_ACK_EXP then TYPE_SOLICITED_ACK_EXP else 0)
    serial e.

(** [if (e == RIL_E_SUCCESS) responseInfo.error = RadioError::INVALID_RESPONSE]. *)
Definition invalid_response (e : Z) (i : RadioResponseInfo) : RadioResponseInfo :=
  if e =? RIL_E_SUCCESS then i <| ri_error := INVALID_RESPONSE |> else i.

(** ril_service.cpp:2948-2955 [acknowledgeRequest]. *)
Definition acknowledgeRequest (slotId serial : Z) : SVC unit :=
  let* i := get_impl true slotId in
  if mResponse i =? 0 then retM tt
  else let* ok := hidl_do (Acknowledge (mResponse i) slotId serial) in checkReturnStatus slotId ok true.

(** A function that answers a request: slot, type, serial, error, response and its length. *)
Definition response_fn : Type := Z -> Z -> Z -> Z -> Z -> Z -> SVC Z.

(** The frame of such a function. [body] makes the information and the arguments for [method]. *)
Definition responds (radio : bool) (method : string) (body : Z -> Z -> Z -> Z -> Z -> SVC (RadioResponseInfo * list hval)) : response_fn :=
  fun slotId responseType serial e response responseLen =>
    let* i := get_impl radio slotId in
    if mResponse i =? 0 then retM 0
    else
      let* (info, args) := body responseType serial e response responseLen in
      let* ok := hidl_do (Response (mResponse i) slotId method info args) in
      checkReturnStatus slotId ok radio;;
      retM 0.

(** ril_service.cpp:6728-6731 [convertIntToRadioIndicationType]. *)
Definition convertIntToRadioIndicationType (indicationType : Z) : Z :=
  if indicationType =? RESPONSE_UNSOLICITED then TYPE_UNSOLICITED else TYPE_UNSOLICITED_ACK_EXP.

(** A function for an unsolicited response: slot, type, token, error, response and its length. *)
Definition indication_fn : Type := Z -> Z -> Z -> Z -> Z -> Z -> SVC Z.

(** The object for the indications of a slot, if there is a service with one. *)
Definition indication_client (radio : bool) (slotId : Z) : SVC Z :=
  let* s := getM in
  let* o := of_option (elem (services radio s) slotId) in
  retM (match o with Some i => mIndication i | None => 0 end).

(** The frame of such a function: [absent] is its result without an object. [body] gives the
    arguments for [method], or nothing when the data are refused. *)
Definition indicates (radio : bool) (absent : Z) (method : string) (body : Z -> Z -> Z -> SVC (option (list hval))) : indication_fn :=
  fun slotId indicationType token e response responseLen =>
    let* client := indication_client radio slotId in
    if client =? 0 then retM absent
    else
      let* args := body slotId response responseLen in
      match args with
      | None => retM 0
      | Some args =>
          let* ok := hidl_do (Indication client slotId method (convertIntToRadioIndicationType indicationType) args) in
          checkReturnStatus slotId ok radio;;
          retM 0
      end.

End Service.
