(* ===== verification/RilConvert.v ===== *)
(** From the vendor's structures to the values of the HIDL interface (src/hal/libril/ril_service.cpp): strings,
    signal strength, data calls, cells, hardware, radio capability. The widths of the members
    are those of android.hardware.radio@1.0. *)

From stdpp Require Import base list gmap strings numbers.
From Stdlib Require Import ZArith Lia.
From S2P Require Import Prelude CFloat EpoConf RilMem RilStructs.

Local Open Scope Z_scope.

(** ril_service.cpp:542-549 [convertCharPtrToHidlString]. *)
Definition convertCharPtrToHidlString (ptr : Z) (m : cmem) : option hval :=
  if ptr =? 0 then Some (HStr []) else hstr (cstring m ptr).

(** A member that is a string; an unsigned one of some bits; one that is true when the field is 1. *)
Definition from_str (T : cty) (path : list string) : conversion := fun m p => ptr ← get T path m p; convertCharPtrToHidlString ptr m.
Definition from_chars (T : cty) (path : list string) : conversion := fun m p => ptr ← address T path p; convertCharPtrToHidlString ptr m.
Definition from_u32 (T : cty) (path : list string) : conversion := fun m p => (fun v => HInt (u32 v)) <$> get T path m p.
Definition from_u8 (T : cty) (path : list string) : conversion := fun m p => (fun v => HInt (u8 v)) <$> get T path m p.
Definition from_one (T : cty) (path : list string) : conversion := fun m p => (fun v => HBool (v =? 1)) <$> get T path m p.

(** A vector of [n] elements; a negative size is refused by the vector. *)
Definition hvec (n : Z) (elem : nat -> option hval) : option hval :=
  if n <? 0 then None else HVec <$> vector elem (Z.to_nat n) 0.

(** An array of structures, and an array of pointers to structures. *)
Definition hrec (fs : list (string * conversion)) : conversion := fun m p => HRec <$> record fs m p.
Definition structs (n : Z) (T : cty) (c : conversion) (m : cmem) (p : Z) : option hval :=
  hvec n (fun i => c m (p + Z.of_nat i * sizeof T)).
Definition structs_at (n : Z) (c : conversion) (m : cmem) (p : Z) : option hval :=
  hvec n (fun i => q ← ptr_at m p i; c m q).

(** * Signal strength *)

Definition INT_MAX : Z := 2 ^ 31 - 1.

Definition lte (f : string) : list string := ["LTE_SignalStrength"; f].

(** [if (x == -1) x = d], for a field of the LTE part. *)
Definition instead_of_minus_one (f : string) (d : Z) (m : cmem) (p : Z) : option cmem :=
  v ← get RIL_SignalStrength_v6 (lte f) m p;
  if v =? -1 then put RIL_SignalStrength_v6 (lte f) d m p else Some m.

(** ril_service.cpp:6986-7030 [convertRilSignalStrengthToHal]. The vendor's structure is changed. The smallest
    number has no opposite. *)
Definition convertRilSignalStrengthToHal (m : cmem) (p : Z) : option (cmem * hval) :=
  let T := RIL_SignalStrength_v6 in
  m ← instead_of_minus_one "signalStrength" 99 m p;
  rsrp ← get T (lte "rsrp") m p;
  m ← (if rsrp =? -1 then put T (lte "rsrp") INT_MAX m p
       else if rsrp <? -1 then if rsrp =? - 2 ^ 31 then None else put T (lte "rsrp") (- rsrp) m p
       else Some m);
  m ← instead_of_minus_one "rsrq" INT_MAX m p;
  m ← instead_of_minus_one "cqi" INT_MAX m p;
  gw ← hrec [("signalStrength", from_u32 T ["GW_SignalStrength"; "signalStrength"]);
             ("bitErrorRate", from_u32 T ["GW_SignalStrength"; "bitErrorRate"])] m p;
  cdma ← hrec [("dbm", from_u32 T ["CDMA_SignalStrength"; "dbm"]); ("ecio", from_u32 T ["CDMA_SignalStrength"; "ecio"])] m p;
  evdo ← hrec [("dbm", from_u32 T ["EVDO_SignalStrength"; "dbm"]); ("ecio", from_u32 T ["EVDO_SignalStrength"; "ecio"]);
               ("signalNoiseRatio", from_u32 T ["EVDO_SignalStrength"; "signalNoiseRatio"])] m p;
  l ← hrec [("signalStrength", from_u32 T (lte "signalStrength")); ("rsrp", from_u32 T (lte "rsrp"));
            ("rsrq", from_u32 T (lte "rsrq")); ("rssnr", from_int T (lte "rssnr")); ("cqi", from_u32 T (lte "cqi"))] m p;
  Some (m, HRec [("gw", gw); ("cdma", cdma); ("evdo", evdo); ("lte", l)]).

(** * Data calls *)

(** ril_service.cpp:7058-7071 [convertRilDataCallToHal]. *)
Definition convertRilDataCallToHal : conversion :=
  let T := RIL_Data_Call_Response_v6 in
  hrec [("status", from_int T ["status"]); ("suggestedRetryTime", from_int T ["suggestedRetryTime"]); ("cid", from_int T ["cid"]);
        ("active", from_int T ["active"]); ("type", from_str T ["type"]); ("ifname", from_str T ["ifname"]);
        ("addresses", from_str T ["addresses"]); ("dnses", from_str T ["dnses"]); ("gateways", from_str T ["gateways"])].

(** ril_service.cpp:7073-7082 [convertRilDataCallListToHal]. *)
Definition convertRilDataCallListToHal (response responseLen : Z) (m : cmem) : option hval :=
  structs (responseLen / sizeof RIL_Data_Call_Response_v6) RIL_Data_Call_Response_v6 convertRilDataCallToHal m response.

(** * Cells *)

(** ril.h:1619-1619 [RIL_CELL_INFO_TYPE_NONE]. *)
Definition RIL_CELL_INFO_TYPE_NONE : Z := 0.
(** ril.h:1620-1620 [RIL_CELL_INFO_TYPE_GSM]. *)
Definition RIL_CELL_INFO_TYPE_GSM : Z := 1.
(** ril.h:1621-1621 [RIL_CELL_INFO_TYPE_CDMA]. *)
Definition RIL_CELL_INFO_TYPE_CDMA : Z := 2.
(** ril.h:1622-1622 [RIL_CELL_INFO_TYPE_LTE]. *)
Definition RIL_CELL_INFO_TYPE_LTE : Z := 3.
(** ril.h:1623-1623 [RIL_CELL_INFO_TYPE_WCDMA]. *)
Definition RIL_CELL_INFO_TYPE_WCDMA : Z := 4.
(** ril.h:1624-1624 [RIL_CELL_INFO_TYPE_TD_SCDMA]. *)
Definition RIL_CELL_INFO_TYPE_TD_SCDMA : Z := 5.

(** ril.h:266-286 [RIL_RadioTechnology] the values tested for. *)
Definition RADIO_TECH_GPRS : Z := 1.
Definition RADIO_TECH_EDGE : Z := 2.
Definition RADIO_TECH_UMTS : Z := 3.
Definition RADIO_TECH_IS95A : Z := 4.
Definition RADIO_TECH_IS95B : Z := 5.
Definition RADIO_TECH_1xRTT : Z := 6.
Definition RADIO_TECH_EVDO_0 : Z := 7.
Definition RADIO_TECH_EVDO_A : Z := 8.
Definition RADIO_TECH_HSDPA : Z := 9.
Definition RADIO_TECH_HSUPA : Z := 10.
Definition RADIO_TECH_HSPA : Z := 11.
Definition RADIO_TECH_EVDO_B : Z := 12.
Definition RADIO_TECH_EHRPD : Z := 13.
Definition RADIO_TECH_LTE : Z := 14.
Definition RADIO_TECH_HSPAP : Z := 15.
Definition RADIO_TECH_GSM : Z := 16.
Definition RADIO_TECH_TD_SCDMA : Z := 17.
Definition RADIO_TECH_LTE_CA : Z := 19.

Definition one_of (x : Z) (l : list Z) : bool := existsb (Z.eqb x) l.

(** ril_service.cpp:3490-3539 [getCellInfoTypeRadioTechnology]. *)
Definition getCellInfoTypeRadioTechnology (rat : Z) (m : cmem) : option Z :=
  if rat =? 0 then Some RIL_CELL_INFO_TYPE_NONE
  else
    s ← cstring m rat;
    let radioTech := atoi s in
    Some (
      if one_of radioTech [RADIO_TECH_GPRS; RADIO_TECH_EDGE; RADIO_TECH_GSM] then RIL_CELL_INFO_TYPE_GSM
      else if one_of radioTech [RADIO_TECH_UMTS; RADIO_TECH_HSDPA; RADIO_TECH_HSUPA; RADIO_TECH_HSPA; RADIO_TECH_HSPAP] then RIL_CELL_INFO_TYPE_WCDMA
      else if one_of radioTech [RADIO_TECH_IS95A; RADIO_TECH_IS95B; RADIO_TECH_1xRTT; RADIO_TECH_EVDO_0; RADIO_TECH_EVDO_A; RADIO_TECH_EVDO_B;
                                RADIO_TECH_EHRPD] then RIL_CELL_INFO_TYPE_CDMA
      else if one_of radioTech [RADIO_TECH_LTE; RADIO_TECH_LTE_CA] then RIL_CELL_INFO_TYPE_LTE
      else if radioTech =? RADIO_TECH_TD_SCDMA then RIL_CELL_INFO_TYPE_TD_SCDMA
      else RIL_CELL_INFO_TYPE_NONE).

(** The members of the identity of a cell, read by [rd] from a structure in memory or a local one:
    numbers as they are, and as text. *)
Fixpoint members (rd : string -> option Z) (fs : list (string * string)) : option (list (string * hval)) :=
  match fs with
  | [] => Some []
  | (name, f) :: fs' => v ← rd f; l ← members rd fs'; Some ((name, HInt v) :: l)
  end.
Definition same (fs : list string) : list (string * string) := map (fun f => (f, f)) fs.
Definition mcc_mnc (rd : string -> option Z) : option (list (string * hval)) :=
  mcc ← rd "mcc"; mnc ← rd "mnc"; Some [("mcc", HStr (print_int mcc)); ("mnc", HStr (print_int mnc))].
Definition identity (text : bool) (rd : string -> option Z) (fs : list (string * string)) : option hval :=
  t ← (if text then mcc_mnc rd else Some []);
  l ← members rd fs;
  Some (HRec (t ++ l)).

(** The members of each kind of identity. *)
Definition gsm_members : list (string * string) := same ["lac"; "cid"; "arfcn"; "bsic"].
Definition wcdma_members : list (string * string) := same ["lac"; "cid"; "psc"; "uarfcn"].
Definition cdma_members : list (string * string) :=
  [("networkId", "networkId"); ("systemId", "systemId"); ("baseStationId", "basestationId"); ("longitude", "longitude"); ("latitude", "latitude")].
Definition lte_members : list (string * string) := same ["ci"; "pci"; "tac"; "earfcn"].
Definition tdscdma_members : list (string * string) := same ["lac"; "cid"; "cpid"].

(** ril_service.cpp:3541-3617 [fillCellIdentityResponse]. *)
Definition fillCellIdentityResponse (cellInfoType : Z) (rd : string -> string -> option Z) : option hval :=
  let one (name : string) (v : option hval) :=
    v ← v; Some (HRec [("cellInfoType", HInt cellInfoType); (name, HVec [v])]) in
  if cellInfoType =? RIL_CELL_INFO_TYPE_GSM then one "cellIdentityGsm" (identity true (rd "cellIdentityGsm") gsm_members)
  else if cellInfoType =? RIL_CELL_INFO_TYPE_WCDMA then one "cellIdentityWcdma" (identity true (rd "cellIdentityWcdma") wcdma_members)
  else if cellInfoType =? RIL_CELL_INFO_TYPE_CDMA then one "cellIdentityCdma" (identity false (rd "cellIdentityCdma") cdma_members)
  else if cellInfoType =? RIL_CELL_INFO_TYPE_LTE then one "cellIdentityLte" (identity true (rd "cellIdentityLte") lte_members)
  else if cellInfoType =? RIL_CELL_INFO_TYPE_TD_SCDMA then one "cellIdentityTdscdma" (identity true (rd "cellIdentityTdscdma") tdscdma_members)
  else Some (HRec [("cellInfoType", HInt cellInfoType)]).

(** The same of a structure in memory. *)
Definition identity_at (m : cmem) (p : Z) : option hval :=
  t ← get RIL_CellIdentity_v16 ["cellInfoType"] m p;
  fillCellIdentityResponse t (fun part f => get RIL_CellIdentity_v16 [""; part; f] m p).

(** ril_service.cpp:3619-3626 [convertResponseStringEntryToInt]. *)
Definition convertResponseStringEntryToInt (response : Z) (index numStrings : Z) (m : cmem) : option Z :=
  if negb (response =? 0) && (index <? numStrings) then
    q ← ptr_at m response (Z.to_nat index);
    if q =? 0 then Some (-1) else s ← cstring m q; Some (strtol16 s)
  else Some (-1).

(** A local identity whose bytes are all 255 but for some fields of one part, which are numbers of
    the response. *)
Definition from_entries (numStrings response : Z) (m : cmem) (entries : list (string * Z)) : string -> string -> option Z := fun _ f =>
  match find (fun '(g, _) => String.eqb f g) entries with
  | Some (_, i) => convertResponseStringEntryToInt response i numStrings m
  | None => Some (if String.eqb f "bsic" then 255 else -1)
  end.

(** ril_service.cpp:3628-3691 [fillCellIdentityFromVoiceRegStateResponseString]. *)
Definition fillCellIdentityFromVoiceRegStateResponseString (numStrings response : Z) (m : cmem) : option hval :=
  rat ← ptr_at m response 3;
  t ← getCellInfoTypeRadioTechnology rat m;
  fillCellIdentityResponse t (from_entries numStrings response m (
    if t =? RIL_CELL_INFO_TYPE_GSM then [("lac", 1); ("cid", 2)]
    else if t =? RIL_CELL_INFO_TYPE_WCDMA then [("lac", 1); ("cid", 2); ("psc", 14)]
    else if t =? RIL_CELL_INFO_TYPE_TD_SCDMA then [("lac", 1); ("cid", 2)]
    else if t =? RIL_CELL_INFO_TYPE_CDMA then [("basestationId", 4); ("longitude", 5); ("latitude", 6); ("systemId", 8); ("networkId", 9)]
    else if t =? RIL_CELL_INFO_TYPE_LTE then [("tac", 1); ("ci", 2)]
    else [])).

(** ril_service.cpp:3693-3737 [fillCellIdentityFromDataRegStateResponseString]. *)
Definition fillCellIdentityFromDataRegStateResponseString (numStrings response : Z) (m : cmem) : option hval :=
  rat ← ptr_at m response 3;
  t ← getCellInfoTypeRadioTechnology rat m;
  fillCellIdentityResponse t (from_entries numStrings response m (
    if t =? RIL_CELL_INFO_TYPE_GSM then [("lac", 1); ("cid", 2)]
    else if t =? RIL_CELL_INFO_TYPE_WCDMA then [("lac", 1); ("cid", 2)]
    else if t =? RIL_CELL_INFO_TYPE_TD_SCDMA then [("lac", 1); ("cid", 2)]
    else if t =? RIL_CELL_INFO_TYPE_LTE then [("tac", 6); ("pci", 7); ("ci", 8)]
    else [])).

Section Cells.
(** Whether the library is built with [MTK_HARDWARE]: the vendor's library then hands over an
    array of pointers to the older structure. *)
Variable mtk : bool.

Definition CellInfo : cty := if mtk then RIL_CellInfo else RIL_CellInfo_v12.

(** A field of a part of the structure. *)
Definition in_cell (path : list string) : list string := "CellInfo" :: path.

(** A part of the structure: identity, and strengths with their members. *)
Definition part (name part_ id_name : string) (text : bool) (ids : list (string * string))
    (strengths : list (string * list (string * conversion))) : cmem -> Z -> option (list (string * hval)) := fun m p =>
  id ← identity text (fun f => get CellInfo (in_cell [part_; id_name; f]) m p) ids;
  l ← record (map (fun '(s, fs) => (s, hrec fs)) strengths) m p;
  Some [(name, HVec [HRec ((id_name, id) :: l)])].

Definition strength (conv : cty -> list string -> conversion) (part_ s : string) (fs : list string) : string * list (string * conversion) :=
  (s, map (fun f => (f, conv CellInfo (in_cell [part_; s; f]))) fs).
(** Members that only the newer structure has. *)
Definition newer {A} (l : list A) : list A := if mtk then [] else l.

(** ril_service.cpp:7835-7986 [convertRilCellInfoListToHal, one record]. *)
Definition convert_cell (m : cmem) (p : Z) : option hval :=
  t ← get CellInfo ["cellInfoType"] m p;
  head ← record [("cellInfoType", from_int CellInfo ["cellInfoType"]); ("registered", from_bool CellInfo ["registered"]);
                 ("timeStampType", from_int CellInfo ["timeStampType"]); ("timeStamp", from_int CellInfo ["timeStamp"])] m p;
  tail ← (
    if t =? RIL_CELL_INFO_TYPE_GSM then
      part "gsm" "gsm" "cellIdentityGsm" true (same (["lac"; "cid"] ++ newer ["arfcn"; "bsic"]))
        [let '(s, fs) := strength from_u32 "gsm" "signalStrengthGsm" ["signalStrength"; "bitErrorRate"] in
         (s, newer [("timingAdvance", from_int CellInfo (in_cell ["gsm"; "signalStrengthGsm"; "timingAdvance"]))] ++ fs)] m p
    else if t =? RIL_CELL_INFO_TYPE_WCDMA then
      part "wcdma" "wcdma" "cellIdentityWcdma" true (same (["lac"; "cid"; "psc"] ++ newer ["uarfcn"]))
        [strength from_int "wcdma" "signalStrengthWcdma" ["signalStrength"; "bitErrorRate"]] m p
    else if t =? RIL_CELL_INFO_TYPE_CDMA then
      part "cdma" "cdma" "cellIdentityCdma" false cdma_members
        [strength from_u32 "cdma" "signalStrengthCdma" ["dbm"; "ecio"];
         strength from_u32 "cdma" "signalStrengthEvdo" ["dbm"; "ecio"; "signalNoiseRatio"]] m p
    else if t =? RIL_CELL_INFO_TYPE_LTE then
      part "lte" "lte" "cellIdentityLte" true (same (["ci"; "pci"; "tac"] ++ newer ["earfcn"]))
        [let '(s, fs) := strength from_u32 "lte" "signalStrengthLte" (newer ["timingAdvance"] ++ ["signalStrength"; "rsrp"; "rsrq"; "cqi"]) in
         (s, fs ++ [("rssnr", from_int CellInfo (in_cell ["lte"; "signalStrengthLte"; "rssnr"]))])] m p
    else if t =? RIL_CELL_INFO_TYPE_TD_SCDMA then
      part "tdscdma" "tdscdma" "cellIdentityTdscdma" true tdscdma_members
        [strength from_u32 "tdscdma" "signalStrengthTdscdma" ["rscp"]] m p
    else Some []);
  Some (HRec (head ++ tail)).

(** ril_service.cpp:7822-7988 [convertRilCellInfoListToHal]. The count is of the newer structures in either
    build. *)
Definition convertRilCellInfoListToHal (response responseLen : Z) (m : cmem) : option hval :=
  let num := responseLen / sizeof RIL_CellInfo_v12 in
  if mtk then structs_at num convert_cell m response else structs num RIL_CellInfo_v12 convert_cell m response.

End Cells.

(** * Hardware, capability, link capacity *)

(** ril.h:1892-1892 [RIL_HARDWARE_CONFIG_MODEM]. *)
Definition RIL_HARDWARE_CONFIG_MODEM : Z := 0.
(** ril.h:1893-1893 [RIL_HARDWARE_CONFIG_SIM]. *)
Definition RIL_HARDWARE_CONFIG_SIM : Z := 1.

Definition hardware (m : cmem) (p : Z) : option hval :=
  let T := RIL_HardwareConfig in
  t ← get T ["type"] m p;
  l ← record [("type", from_int T ["type"]); ("uuid", from_chars T ["uuid"]); ("state", from_int T ["state"])] m p;
  if t =? RIL_HARDWARE_CONFIG_MODEM then
    v ← hrec [("rat", from_int T ["cfg"; "modem"; "rat"]); ("maxVoice", from_u8 T ["cfg"; "modem"; "maxVoice"]);
              ("maxData", from_u8 T ["cfg"; "modem"; "maxData"]); ("maxStandby", from_u8 T ["cfg"; "modem"; "maxStandby"])] m p;
    Some (HRec (l ++ [("modem", HVec [v])]))
  else if t =? RIL_HARDWARE_CONFIG_SIM then
    v ← hrec [("modemUuid", from_chars T ["cfg"; "sim"; "modemUuid"])] m p;
    Some (HRec (l ++ [("sim", HVec [v])]))
  else Some (HRec l).

(** ril_service.cpp:8078-8109 [convertRilHardwareConfigListToHal]. *)
Definition convertRilHardwareConfigListToHal (response responseLen : Z) (m : cmem) : option hval :=
  structs (responseLen / sizeof RIL_HardwareConfig) RIL_HardwareConfig hardware m response.

(** ril_service.cpp:8137-8144 [convertRilRadioCapabilityToHal]. *)
Definition convertRilRadioCapabilityToHal : conversion :=
  let T := RIL_RadioCapability in
  hrec [("session", from_int T ["session"]); ("phase", from_int T ["phase"]); ("raf", from_u32 T ["rat"]);
        ("logicalModemUuid", from_chars T ["logicalModemUuid"]); ("status", from_int T ["status"])].

(** ril_service.cpp:8288-8293 [convertRilLceDataInfoToHal]. *)
Definition convertRilLceDataInfoToHal : conversion :=
  let T := RIL_LceDataInfo in
  hrec [("lastHopCapacityKbps", from_int T ["last_hop_capacity_kbps"]); ("confidenceLevel", from_int T ["confidence_level"]);
        ("lceSuspended", from_bool T ["lce_suspended"])].

(** ril_service.cpp:7262-7268 [convertRilCdmaSignalInfoRecordToHal]. The members are signed bytes. *)
Definition convertRilCdmaSignalInfoRecordToHal (p : Z) (m : cmem) : option hval :=
  let T := RIL_CDMA_SignalInfoRecord in
  hrec [("isPresent", from_bool T ["isPresent"]);
        ("signalType", fun m p => (fun v => HInt (to_signed 1 v)) <$> get T ["signalType"] m p);
        ("alertPitch", fun m p => (fun v => HInt (to_signed 1 v)) <$> get T ["alertPitch"] m p);
        ("signal", fun m p => (fun v => HInt (to_signed 1 v)) <$> get T ["signal"] m p)] m p.
