(* ===== verification/RilResponses.v ===== *)
(** The answers of the radio service (src/hal/libril/ril_service.cpp): for each request the function that
    converts what the vendor's library answered and calls the framework's object. *)

From stdpp Require Import base list gmap strings numbers.
From Stdlib Require Import ZArith Lia.
From S2P Require Import Prelude EpoConf RilTables Ril RilMem RilStructs RilConvert RilService.

Local Open Scope Z_scope.
Local Open Scope st_scope.
Local Open Scope rec_scope.

Section Responses.
Context `{HT : RadioTypes}.

(** Whether the library is built with [MTK_HARDWARE]. *)
Variable mtk : bool.

(** A test of the data, what is passed when it fails, and the conversion when it does not. *)
Definition answer (bad : Z -> Z -> bool) (otherwise : list hval) (conv : Z -> Z -> SVC (list hval)) :
    Z -> Z -> Z -> Z -> Z -> SVC (RadioResponseInfo * list hval) := fun responseType serial e response responseLen =>
  let i := populateResponseInfo serial responseType e in
  if bad response responseLen then retM (invalid_response e i, otherwise)
  else let* args := conv response responseLen in retM (i, args).

(** The tests: no data; no data or another size; no data or not a multiple of a size; no data or
    fewer than [k] words. *)
Definition null (response responseLen : Z) : bool := response =? 0.
Definition not_size (n response responseLen : Z) : bool := (response =? 0) || negb (responseLen =? n).
Definition not_multiple (n response responseLen : Z) : bool := (response =? 0) || negb (responseLen mod n =? 0).
Definition fewer (k response responseLen : Z) : bool := (response =? 0) || (responseLen / 4 <? k).

(** A conversion that only reads. *)
Definition read1 (f : Z -> Z -> cmem -> option hval) : Z -> Z -> SVC (list hval) := fun response responseLen =>
  let* v := reading (f response responseLen) in retM [v].
Definition one_struct (c : conversion) : Z -> Z -> SVC (list hval) := read1 (fun response _ m => c m response).

(** ril_service.cpp:2971-2988 [responseIntOrEmpty]. *)
Definition responseIntOrEmpty : Z -> Z -> Z -> Z -> Z -> SVC (RadioResponseInfo * list hval) :=
  fun responseType serial e response responseLen =>
  let i := populateResponseInfo serial responseType e in
  if (response =? 0) && (responseLen =? 0) then retM (i, [HInt (-1)])
  else if not_multiple 4 response responseLen then retM (invalid_response e i, [HInt (-1)])
  else let* ret := reading (fun m => int_at m response 0) in retM (i, [HInt ret]).

(** ril_service.cpp:2990-3003 [responseInt]. *)
Definition responseInt : Z -> Z -> Z -> Z -> Z -> SVC (RadioResponseInfo * list hval) :=
  answer (not_multiple 4) [HInt (-1)] (read1 (fun response _ m => HInt <$> int_at m response 0)).

(** The functions that are alike: no data, a number, a number or nothing, a string. *)
Definition void_response (method : string) : response_fn := responds true method (answer (fun _ _ => false) [] (fun _ _ => retM [])).
Definition int_response (method : string) : response_fn := responds true method responseInt.
Definition int_or_empty (method : string) : response_fn := responds true method responseIntOrEmpty.
Definition string_response (method : string) : response_fn :=
  responds true method (answer (fun _ _ => false) [] (read1 (fun response _ m => convertCharPtrToHidlString response m))).

(** A truth value in the first word. *)
Definition first_is_one (response _ : Z) (m : cmem) : option hval := (fun v => HBool (v =? 1)) <$> int_at m response 0.

(** An argument that is a structure whose members all have their initial value. *)
Definition zeroed : hval := HRec [].

Definition app_status : conversion :=
  let T := RIL_AppStatus in
  hrec [("appType", from_int T ["app_type"]); ("appState", from_int T ["app_state"]); ("persoSubstate", from_int T ["perso_substate"]);
        ("aidPtr", from_str T ["aid_ptr"]); ("appLabelPtr", from_str T ["app_label_ptr"]); ("pin1Replaced", from_int T ["pin1_replaced"]);
        ("pin1", from_int T ["pin1"]); ("pin2", from_int T ["pin2"])].

Definition card_status : conversion := fun m p =>
  let T := RIL_CardStatus_v6 in
  n ← get T ["num_applications"] m p;
  apps ← address T ["applications"] p;
  hrec [("cardState", from_int T ["card_state"]); ("universalPinState", from_int T ["universal_pin_state"]);
        ("gsmUmtsSubscriptionAppIndex", from_int T ["gsm_umts_subscription_app_index"]);
        ("cdmaSubscriptionAppIndex", from_int T ["cdma_subscription_app_index"]);
        ("imsSubscriptionAppIndex", from_int T ["ims_subscription_app_index"]);
        ("applications", fun m _ => structs n RIL_AppStatus app_status m apps)] m p.

(** ril_service.cpp:3005-3050 [getIccCardStatusResponse]. *)
Definition getIccCardStatusResponse : response_fn :=
  responds true "getIccCardStatusResponse" (answer (not_size (sizeof RIL_CardStatus_v6)) [zeroed] (one_struct card_status)).

(** ril_service.cpp:3052-3071 [supplyIccPinForAppResponse]. *)
Definition supplyIccPinForAppResponse : response_fn := int_or_empty "supplyIccPinForAppResponse".

(** ril_service.cpp:3073-3092 [supplyIccPukForAppResponse]. *)
Definition supplyIccPukForAppResponse : response_fn := int_or_empty "supplyIccPukForAppResponse".

(** ril_service.cpp:3094-3113 [supplyIccPin2ForAppResponse]. *)
Definition supplyIccPin2ForAppResponse : response_fn := int_or_empty "supplyIccPin2ForAppResponse".

(** ril_service.cpp:3115-3134 [supplyIccPuk2ForAppResponse]. *)
Definition supplyIccPuk2ForAppResponse : response_fn := int_or_empty "supplyIccPuk2ForAppResponse".

(** ril_service.cpp:3136-3155 [changeIccPinForAppResponse]. *)
Definition changeIccPinForAppResponse : response_fn := int_or_empty "changeIccPinForAppResponse".

(** ril_service.cpp:3157-3176 [changeIccPin2ForAppResponse]. *)
Definition changeIccPin2ForAppResponse : response_fn := int_or_empty "changeIccPin2ForAppResponse".

(** ril_service.cpp:3178-3197 [supplyNetworkDepersonalizationResponse]. *)
Definition supplyNetworkDepersonalizationResponse : response_fn := int_or_empty "supplyNetworkDepersonalizationResponse".

(** A call. The vector for the user-to-user information is empty, so its first element is outside
    of it. *)
Definition call : conversion := fun m p =>
  let T := RIL_Call in
  uus ← get T ["uusInfo"] m p;
  data ← (if uus =? 0 then Some 0 else get RIL_UUS_Info ["uusData"] m uus);
  if negb (uus =? 0) && negb (data =? 0) then None
  else
    hrec [("state", from_int T ["state"]); ("index", from_int T ["index"]); ("toa", from_int T ["toa"]); ("isMpty", from_bool T ["isMpty"]);
          ("isMT", from_bool T ["isMT"]); ("als", from_int T ["als"]); ("isVoice", from_bool T ["isVoice"]);
          ("isVoicePrivacy", from_bool T ["isVoicePrivacy"]); ("number", from_str T ["number"]);
          ("numberPresentation", from_int T ["numberPresentation"]); ("name", from_str T ["name"]);
          ("namePresentation", from_int T ["namePresentation"])] m p.

(** ril_service.cpp:3199-3253 [getCurrentCallsResponse]. *)
Definition getCurrentCallsResponse : response_fn :=
  responds true "getCurrentCallsResponse"
    (answer (not_multiple 4) [HVec []] (read1 (fun response responseLen m => structs_at (responseLen / 4) call m response))).

(** ril_service.cpp:3255-3272 [dialResponse]. *)
Definition dialResponse : response_fn := void_response "dialResponse".

(** ril_service.cpp:3274-3293 [getIMSIForAppResponse]. *)
Definition getIMSIForAppResponse : response_fn := string_response "getIMSIForAppResponse".

(** ril_service.cpp:3295-3314 [hangupConnectionResponse]. *)
Definition hangupConnectionResponse : response_fn := void_response "hangupConnectionResponse".

(** ril_service.cpp:3316-3336 [hangupWaitingOrBackgroundResponse]. *)
Definition hangupWaitingOrBackgroundResponse : response_fn := void_response "hangupWaitingOrBackgroundResponse".

(** ril_service.cpp:3338-3358 [hangupForegroundResumeBackgroundResponse]. *)
Definition hangupForegroundResumeBackgroundResponse : response_fn := void_response "hangupWaitingOrBackgroundResponse".

(** ril_service.cpp:3360-3380 [switchWaitingOrHoldingAndActiveResponse]. *)
Definition switchWaitingOrHoldingAndActiveResponse : response_fn := void_response "switchWaitingOrHoldingAndActiveResponse".

(** ril_service.cpp:3382-3400 [conferenceResponse]. *)
Definition conferenceResponse : response_fn := void_response "conferenceResponse".

(** ril_service.cpp:3402-3420 [rejectCallResponse]. *)
Definition rejectCallResponse : response_fn := void_response "rejectCallResponse".

(** ril_service.cpp:3422-3459 [getLastCallFailCauseResponse]. The test for an array of numbers
    is the wrong way round. *)
Definition getLastCallFailCauseResponse : response_fn :=
  responds true "getLastCallFailCauseResponse" (fun responseType serial e response responseLen =>
    let i := populateResponseInfo serial responseType e in
    let T := RIL_LastCallFailCauseInfo in
    if response =? 0 then retM (invalid_response e i, [zeroed])
    else if responseLen =? sizeof T then
      let* v := reading (fun m => hrec [("causeCode", from_int T ["cause_code"]); ("vendorCause", from_str T ["vendor_cause"])] m response) in
      retM (i, [v])
    else if negb (responseLen mod 4 =? 0) then
      let* v := reading (fun m => int_at m response 0) in retM (i, [HRec [("causeCode", HInt v)]])
    else retM (invalid_response e i, [zeroed])).

(** The conversion of the signal strength changes the vendor's structure. *)
Definition signal_strength (response : Z) : SVC (list hval) :=
  let* (m, v) := reading (fun m => convertRilSignalStrengthToHal m response) in
  modM (fun s => s <| vmem := m |>);; retM [v].

(** ril_service.cpp:3461-3488 [getSignalStrengthResponse]. *)
Definition getSignalStrengthResponse : response_fn :=
  responds true "getSignalStrengthResponse"
    (answer (fun response responseLen => (response =? 0) || (responseLen <? sizeof RIL_SignalStrength_v8)) [zeroed]
       (fun response _ => signal_strength response)).

(** ril_service.cpp:81-82 [ATOI_NULL_HANDLED_DEF]. The other macro has -1 for the default. *)
Definition ATOI_NULL_HANDLED_DEF (x d : Z) (m : cmem) : option Z := if x =? 0 then Some d else atoi <$> cstring m x.
(** The number in the string at an index, if there are more than [least] strings. *)
Definition entry_or (numStrings least : Z) (i : nat) (d : Z) : conversion := fun m response =>
  if least <? numStrings then q ← ptr_at m response i; HInt <$> ATOI_NULL_HANDLED_DEF q d m else Some (HInt d).
Definition as_bool (c : conversion) : conversion := fun m p =>
  v ← c m p; match v with HInt z => Some (HBool (negb (z =? 0))) | _ => Some v end.

(** ril_service.cpp:3739-3811 [getVoiceRegistrationStateResponse]. What the strings are read as depends
    on the version of the vendor's library. *)
Definition getVoiceRegistrationStateResponse : response_fn :=
  responds true "getVoiceRegistrationStateResponse" (fun responseType serial e response responseLen =>
    let* s := getM in
    let numStrings := responseLen / 4 in
    let T := RIL_VoiceRegistrationStateResponse in
    if response =? 0 then retM (invalid_response e (populateResponseInfo serial responseType e), [zeroed])
    else if version (lib s) <=? 14 then
      answer (fewer 4) [zeroed] (one_struct (hrec [
        ("regState", entry_or numStrings 0 0 4); ("rat", entry_or numStrings 0 3 (-1)); ("cssSupported", as_bool (entry_or numStrings 4 7 0));
        ("roamingIndicator", entry_or numStrings 4 10 (-1)); ("systemIsInPrl", entry_or numStrings 4 11 0);
        ("defaultRoamingIndicator", entry_or numStrings 4 12 0); ("reasonForDenial", entry_or numStrings 4 13 0);
        ("cellIdentity", fun m p => fillCellIdentityFromVoiceRegStateResponseString numStrings p m)])) responseType serial e response responseLen
    else
      answer (not_size (sizeof T)) [zeroed] (one_struct (hrec [
        ("regState", from_int T ["regState"]); ("rat", from_int T ["rat"]); ("cssSupported", from_bool T ["cssSupported"]);
        ("roamingIndicator", from_int T ["roamingIndicator"]); ("systemIsInPrl", from_int T ["systemIsInPrl"]);
        ("defaultRoamingIndicator", from_int T ["defaultRoamingIndicator"]); ("reasonForDenial", from_int T ["reasonForDenial"]);
        ("cellIdentity", fun m p => q ← address T ["cellIdentity"] p; identity_at m q)])) responseType serial e response responseLen).

(** A technology of the vendor's own. *)
Definition mtk_rat (c : conversion) : conversion := fun m p =>
  v ← c m p; match v with HInt z => Some (HInt (if mtk && (128 <=? z) then RADIO_TECH_HSPAP else z)) | _ => Some v end.

(** ril_service.cpp:3813-3878 [getDataRegistrationStateResponse]. *)
Definition getDataRegistrationStateResponse : response_fn :=
  responds true "getDataRegistrationStateResponse" (fun responseType serial e response responseLen =>
    let* s := getM in
    let numStrings := responseLen / 4 in
    let T := RIL_DataRegistrationStateResponse in
    if response =? 0 then retM (invalid_response e (populateResponseInfo serial responseType e), [zeroed])
    else if version (lib s) <=? 14 then
      answer (fewer 4) [zeroed] (one_struct (hrec [
        ("regState", entry_or numStrings 0 0 4); ("rat", mtk_rat (entry_or numStrings 0 3 0));
        ("reasonDataDenied", entry_or numStrings 4 4 (-1)); ("maxDataCalls", entry_or numStrings 4 5 1);
        ("cellIdentity", fun m p => fillCellIdentityFromDataRegStateResponseString
           (if numStrings <? 11 then (if numStrings <? 6 then 4 else 6) else 11) p m)])) responseType serial e response responseLen
    else
      answer (not_size (sizeof T)) [zeroed] (one_struct (hrec [
        ("regState", from_int T ["regState"]); ("rat", from_int T ["rat"]); ("reasonDataDenied", from_int T ["reasonDataDenied"]);
        ("maxDataCalls", from_int T ["maxDataCalls"]);
        ("cellIdentity", fun m p => q ← address T ["cellIdentity"] p; identity_at m q)])) responseType serial e response responseLen).

(** The string at an index of an array of pointers. *)
Definition string_at (response : Z) (i : nat) (m : cmem) : option hval := q ← ptr_at m response i; convertCharPtrToHidlString q m.

(** ril_service.cpp:3889-3924 [getOperatorResponse]. *)
Definition getOperatorResponse : response_fn :=
  responds true "getOperatorResponse" (answer (fewer 1) [HStr []; HStr []; HStr []] (fun response responseLen =>
    let numStrings := responseLen / 4 in
    let* longName := reading (string_at response 0) in
    let* shortName := if 1 <? numStrings then reading (string_at response 1) else retM longName in
    let* numeric := if 2 <? numStrings then reading (string_at response 2) else retM shortName in
    retM [longName; shortName; numeric])).

(** ril_service.cpp:3926-3943 [setRadioPowerResponse]. *)
Definition setRadioPowerResponse : response_fn := void_response "setRadioPowerResponse".

(** ril_service.cpp:3945-3964 [sendDtmfResponse]. *)
Definition sendDtmfResponse : response_fn := void_response "sendDtmfResponse".

(** ril_service.cpp:3966-3982 [makeSendSmsResult]. *)
Definition makeSendSmsResult : Z -> Z -> Z -> Z -> Z -> SVC (RadioResponseInfo * list hval) :=
  let T := RIL_SMS_Response in
  answer (not_size (sizeof T)) [zeroed]
    (one_struct (hrec [("messageRef", from_int T ["messageRef"]); ("ackPDU", from_str T ["ackPDU"]); ("errorCode", from_int T ["errorCode"])])).
Definition sms_response (method : string) : response_fn := responds true method makeSendSmsResult.

(** ril_service.cpp:3984-4004 [sendSmsResponse]. *)
Definition sendSmsResponse : response_fn := sms_response "sendSmsResponse".

(** ril_service.cpp:4006-4026 [sendSMSExpectMoreResponse]. *)
Definition sendSMSExpectMoreResponse : response_fn := sms_response "sendSMSExpectMoreResponse".

(** The first place in the first [n] of the table of data calls that holds [c], or [n]. *)
Fixpoint cid_index (n : nat) (c : Z) (cids : list Z) : nat :=
  match n, cids with
  | S n', d :: cids' => if d =? c then O else S (cid_index n' c cids')
  | _, _ => n
  end.
(** A data call is entered in the first free place of the first four, or in the last one. *)
Definition remember_cid (c : Z) : SVC unit :=
  modM (fun s => s <| dataCallCids := <[cid_index 4 (-1) (dataCallCids s) := c]> (dataCallCids s) |>).

(** ril_service.cpp:4028-4068 [setupDataCallResponse]. *)
Definition setupDataCallResponse : response_fn :=
  let T := RIL_Data_Call_Response_v6 in
  responds true "setupDataCallResponse" (answer (not_size (sizeof T)) [HRec [("status", HInt ERROR_UNSPECIFIED)]] (fun response _ =>
    let* result := reading (fun m => convertRilDataCallToHal m response) in
    let* c := reading (fun m => get T ["cid"] m response) in
    (if mtk then remember_cid c else retM tt);;
    retM [result])).

(** ril_service.cpp:4070-4086 [responseIccIo]. *)
Definition responseIccIo : Z -> Z -> Z -> Z -> Z -> SVC (RadioResponseInfo * list hval) :=
  let T := RIL_SIM_IO_Response in
  answer (not_size (sizeof T)) [zeroed]
    (one_struct (hrec [("sw1", from_int T ["sw1"]); ("sw2", from_int T ["sw2"]); ("simResponse", from_str T ["simResponse"])])).
Definition icc_io_response (method : string) : response_fn := responds true method responseIccIo.

(** ril_service.cpp:4088-4108 [iccIOForAppResponse]. *)
Definition iccIOForAppResponse : response_fn := icc_io_response "iccIOForAppResponse".

(** ril_service.cpp:4110-4129 [sendUssdResponse]. *)
Definition sendUssdResponse : response_fn := void_response "sendUssdResponse".

(** ril_service.cpp:4131-4150 [cancelPendingUssdResponse]. *)
Definition cancelPendingUssdResponse : response_fn := void_response "cancelPendingUssdResponse".

(** ril_service.cpp:4152-4180 [getClirResponse]. *)
Definition getClirResponse : response_fn :=
  responds true "getClirResponse" (answer (fewer 2) [HInt (-1); HInt (-1)] (fun response _ =>
    let* n := reading (fun m => int_at m response 0) in
    let* k := reading (fun m => int_at m response 1) in
    retM [HInt n; HInt k])).

(** ril_service.cpp:4182-4200 [setClirResponse]. *)
Definition setClirResponse : response_fn := void_response "setClirResponse".

Definition call_forward_info : conversion :=
  let T := RIL_CallForwardInfo in
  hrec [("status", from_int T ["status"]); ("reason", from_int T ["reason"]); ("serviceClass", from_int T ["serviceClass"]);
        ("toa", from_int T ["toa"]); ("number", from_str T ["number"]); ("timeSeconds", from_int T ["timeSeconds"])].

(** ril_service.cpp:4202-4240 [getCallForwardStatusResponse]. *)
Definition getCallForwardStatusResponse : response_fn :=
  responds true "getCallForwardStatusResponse"
    (answer (not_multiple 4) [HVec []] (read1 (fun response responseLen m => structs_at (responseLen / 4) call_forward_info m response))).

(** ril_service.cpp:4242-4260 [setCallForwardResponse]. *)
Definition setCallForwardResponse : response_fn := void_response "setCallForwardResponse".

(** ril_service.cpp:4262-4291 [getCallWaitingResponse]. *)
Definition getCallWaitingResponse : response_fn :=
  responds true "getCallWaitingResponse" (answer (fewer 2) [HBool false; HInt (-1)] (fun response _ =>
    let* enable := reading (first_is_one response 0) in
    let* serviceClass := reading (fun m => int_at m response 1) in
    retM [enable; HInt serviceClass])).

(** ril_service.cpp:4293-4311 [setCallWaitingResponse]. *)
Definition setCallWaitingResponse : response_fn := void_response "setCallWaitingResponse".

(** ril_service.cpp:4313-4333 [acknowledgeLastIncomingGsmSmsResponse]. *)
Definition acknowledgeLastIncomingGsmSmsResponse : response_fn := void_response "acknowledgeLastIncomingGsmSmsResponse".

(** ril_service.cpp:4335-4354 [acceptCallResponse]. *)
Definition acceptCallResponse : response_fn := void_response "acceptCallResponse".

(** ril_service.cpp:4356-4375 [deactivateDataCallResponse]. *)
Definition deactivateDataCallResponse : response_fn := void_response "deactivateDataCallResponse".

(** ril_service.cpp:4377-4396 [getFacilityLockForAppResponse]. *)
Definition getFacilityLockForAppResponse : response_fn := int_response "getFacilityLockForAppResponse".

(** ril_service.cpp:4398-4418 [setFacilityLockForAppResponse]. *)
Definition setFacilityLockForAppResponse : response_fn := int_or_empty "setFacilityLockForAppResponse".

(** ril_service.cpp:4420-4439 [setBarringPasswordResponse]. *)
Definition setBarringPasswordResponse : response_fn := void_response "setBarringPasswordResponse".

(** ril_service.cpp:4441-4471 [getNetworkSelectionModeResponse]. *)
Definition getNetworkSelectionModeResponse : response_fn :=
  responds true "getNetworkSelectionModeResponse" (answer (not_multiple 4) [HBool false] (read1 first_is_one)).

(** ril_service.cpp:4473-4493 [setNetworkSelectionModeAutomaticResponse]. *)
Definition setNetworkSelectionModeAutomaticResponse : response_fn := void_response "setNetworkSelectionModeAutomaticResponse".

(** ril_service.cpp:4495-4515 [setNetworkSelectionModeManualResponse]. *)
Definition setNetworkSelectionModeManualResponse : response_fn := void_response "setNetworkSelectionModeManualResponse".

(** [strncmp (a, b, n) == 0] for two strings. *)
Definition same_prefix (n : nat) (a b : list Z) : bool := bool_decide (take n (a ++ [0]) = take n (b ++ [0])).

(** ril_service.cpp:4517-4529 [convertOperatorStatusToInt]. *)
Definition convertOperatorStatusToInt (s : list Z) : Z :=
  if same_prefix 9 (str "unknown") s then OPERATOR_UNKNOWN
  else if same_prefix 9 (str "available") s then OPERATOR_AVAILABLE
  else if same_prefix 9 (str "current") s then OPERATOR_CURRENT
  else if same_prefix 9 (str "forbidden") s then OPERATOR_FORBIDDEN
  else -1.

(** A network of four strings, and whether its status is known. A status that is NULL is compared
    all the same. *)
Definition network (response : Z) (j : nat) (m : cmem) : option (hval * bool) :=
  alphaLong ← string_at response (4 * j) m;
  alphaShort ← string_at response (4 * j + 1) m;
  operatorNumeric ← string_at response (4 * j + 2) m;
  q ← ptr_at m response (4 * j + 3);
  s ← cstring m q;
  let status := convertOperatorStatusToInt s in
  let l := [("alphaLong", alphaLong); ("alphaShort", alphaShort); ("operatorNumeric", operatorNumeric)] in
  Some (if status =? -1 then (HRec l, false) else (HRec (l ++ [("status", HInt status)]), true)).

(** ril_service.cpp:4531-4571 [getAvailableNetworksResponse]. *)
Definition getAvailableNetworksResponse : response_fn :=
  responds true "getAvailableNetworksResponse" (fun responseType serial e response responseLen =>
    let i := populateResponseInfo serial responseType e in
    if not_multiple 16 response responseLen then retM (invalid_response e i, [HVec []])
    else
      let* networks := reading (fun m => vector (fun j => network response j m) (Z.to_nat (responseLen / 16)) 0) in
      retM (if forallb snd networks then i else invalid_response e i, [HVec (map fst networks)])).

(** ril_service.cpp:4582-4589 [stopNetworkScanResponse]. *)
Definition stopNetworkScanResponse : response_fn := fun _ _ _ _ _ _ => retM 0.

(** ril_service.cpp:4591-4609 [startDtmfResponse]. *)
Definition startDtmfResponse : response_fn := void_response "startDtmfResponse".

(** ril_service.cpp:4611-4629 [stopDtmfResponse]. *)
Definition stopDtmfResponse : response_fn := void_response "stopDtmfResponse".

(** ril_service.cpp:4631-4650 [getBasebandVersionResponse]. *)
Definition getBasebandVersionResponse : response_fn := string_response "getBasebandVersionResponse".

(** ril_service.cpp:4652-4671 [separateConnectionResponse]. *)
Definition separateConnectionResponse : response_fn := void_response "separateConnectionResponse".

(** ril_service.cpp:4673-4691 [setMuteResponse]. *)
Definition setMuteResponse : response_fn := void_response "setMuteResponse".

(** ril_service.cpp:4693-4720 [getMuteResponse]. *)
Definition getMuteResponse : response_fn := responds true "getMuteResponse" (answer (not_multiple 4) [HBool false] (read1 first_is_one)).

(** ril_service.cpp:4722-4740 [getClipResponse]. *)
Definition getClipResponse : response_fn := int_response "getClipResponse".

(** ril_service.cpp:4742-4769 [getDataCallListResponse]. *)
Definition getDataCallListResponse : response_fn :=
  responds true "getDataCallListResponse"
    (answer (not_multiple (sizeof RIL_Data_Call_Response_v6)) [HVec []] (read1 convertRilDataCallListToHal)).

(** ril_service.cpp:4771-4791 [setSuppServiceNotificationsResponse]. *)
Definition setSuppServiceNotificationsResponse : response_fn := void_response "setSuppServiceNotificationsResponse".

(** ril_service.cpp:4793-4811 [deleteSmsOnSimResponse]. *)
Definition deleteSmsOnSimResponse : response_fn := void_response "deleteSmsOnSimResponse".

(** ril_service.cpp:4813-4831 [setBandModeResponse]. *)
Definition setBandModeResponse : response_fn := void_response "setBandModeResponse".

(** ril_service.cpp:4833-4851 [writeSmsToSimResponse]. *)
Definition writeSmsToSimResponse : response_fn := int_response "writeSmsToSimResponse".

(** ril_service.cpp:4853-4885 [getAvailableBandModesResponse]. *)
Definition getAvailableBandModesResponse : response_fn :=
  responds true "getAvailableBandModesResponse"
    (answer (not_multiple 4) [HVec []] (read1 (fun response responseLen m =>
       hvec (responseLen / 4) (fun i => HInt <$> int_at m response i)))).

(** ril_service.cpp:4887-4906 [sendEnvelopeResponse]. *)
Definition sendEnvelopeResponse : response_fn := string_response "sendEnvelopeResponse".

(** ril_service.cpp:4908-4928 [sendTerminalResponseToSimResponse]. *)
Definition sendTerminalResponseToSimResponse : response_fn := void_response "sendTerminalResponseToSimResponse".

(** ril_service.cpp:4930-4951 [handleStkCallSetupRequestFromSimResponse]. *)
Definition handleStkCallSetupRequestFromSimResponse : response_fn := void_response "handleStkCallSetupRequestFromSimResponse".

(** ril_service.cpp:4953-4972 [explicitCallTransferResponse]. *)
Definition explicitCallTransferResponse : response_fn := void_response "explicitCallTransferResponse".

(** ril_service.cpp:4974-4994 [setPreferredNetworkTypeResponse]. *)
Definition setPreferredNetworkTypeResponse : response_fn := void_response "setPreferredNetworkTypeResponse".

(** ril_service.cpp:4997-5017 [getPreferredNetworkTypeResponse]. *)
Definition getPreferredNetworkTypeResponse : response_fn := int_response "getPreferredNetworkTypeResponse".

(** ril_service.cpp:5019-5054 [getNeighboringCidsResponse]. *)
Definition getNeighboringCidsResponse : response_fn :=
  let T := RIL_NeighboringCell in
  responds true "getNeighboringCidsResponse"
    (answer (not_multiple 4) [HVec []] (read1 (fun response responseLen m =>
       structs_at (responseLen / 4) (hrec [("cid", from_str T ["cid"]); ("rssi", from_int T ["rssi"])]) m response))).

(** ril_service.cpp:5056-5075 [setLocationUpdatesResponse]. *)
Definition setLocationUpdatesResponse : response_fn := void_response "setLocationUpdatesResponse".

(** ril_service.cpp:5077-5097 [setCdmaSubscriptionSourceResponse]. *)
Definition setCdmaSubscriptionSourceResponse : response_fn := void_response "setCdmaSubscriptionSourceResponse".

(** ril_service.cpp:5099-5119 [setCdmaRoamingPreferenceResponse]. *)
Definition setCdmaRoamingPreferenceResponse : response_fn := void_response "setCdmaRoamingPreferenceResponse".

(** ril_service.cpp:5121-5141 [getCdmaRoamingPreferenceResponse]. *)
Definition getCdmaRoamingPreferenceResponse : response_fn := int_response "getCdmaRoamingPreferenceResponse".

(** ril_service.cpp:5143-5161 [setTTYModeResponse]. *)
Definition setTTYModeResponse : response_fn := void_response "setTTYModeResponse".

(** ril_service.cpp:5163-5182 [getTTYModeResponse]. *)
Definition getTTYModeResponse : response_fn := int_response "getTTYModeResponse".

(** ril_service.cpp:5184-5204 [setPreferredVoicePrivacyResponse]. *)
Definition setPreferredVoicePrivacyResponse : response_fn := void_response "setPreferredVoicePrivacyResponse".

(** ril_service.cpp:5206-5235 [getPreferredVoicePrivacyResponse]. *)
Definition getPreferredVoicePrivacyResponse : response_fn :=
  responds true "getPreferredVoicePrivacyResponse" (answer (fewer 1) [HBool false] (read1 first_is_one)).

(** ril_service.cpp:5237-5256 [sendCDMAFeatureCodeResponse]. *)
Definition sendCDMAFeatureCodeResponse : response_fn := void_response "sendCDMAFeatureCodeResponse".

(** ril_service.cpp:5258-5276 [sendBurstDtmfResponse]. *)
Definition sendBurstDtmfResponse : response_fn := void_response "sendBurstDtmfResponse".

(** ril_service.cpp:5278-5298 [sendCdmaSmsResponse]. *)
Definition sendCdmaSmsResponse : response_fn := sms_response "sendCdmaSmsResponse".

(** ril_service.cpp:5300-5320 [acknowledgeLastIncomingCdmaSmsResponse]. *)
Definition acknowledgeLastIncomingCdmaSmsResponse : response_fn := void_response "acknowledgeLastIncomingCdmaSmsResponse".

(** ril_service.cpp:5322-5361 [getGsmBroadcastConfigResponse]. *)
Definition getGsmBroadcastConfigResponse : response_fn :=
  let T := RIL_GSM_BroadcastSmsConfigInfo in
  responds true "getGsmBroadcastConfigResponse"
    (answer (not_multiple 4) [HVec []] (read1 (fun response responseLen m =>
       structs_at (responseLen / 4)
         (hrec [("fromServiceId", from_int T ["fromServiceId"]); ("toServiceId", from_int T ["toServiceId"]);
                ("fromCodeScheme", from_int T ["fromCodeScheme"]); ("toCodeScheme", from_int T ["toCodeScheme"]);
                ("selected", from_one T ["selected"])]) m response))).

(** ril_service.cpp:5363-5382 [setGsmBroadcastConfigResponse]. *)
Definition setGsmBroadcastConfigResponse : response_fn := void_response "setGsmBroadcastConfigResponse".

(** ril_service.cpp:5384-5404 [setGsmBroadcastActivationResponse]. *)
Definition setGsmBroadcastActivationResponse : response_fn := void_response "setGsmBroadcastActivationResponse".

(** ril_service.cpp:5406-5443 [getCdmaBroadcastConfigResponse]. *)
Definition getCdmaBroadcastConfigResponse : response_fn :=
  let T := RIL_CDMA_BroadcastSmsConfigInfo in
  responds true "getCdmaBroadcastConfigResponse"
    (answer (not_multiple 4) [HVec []] (read1 (fun response responseLen m =>
       structs_at (responseLen / 4)
         (hrec [("serviceCategory", from_int T ["service_category"]); ("language", from_int T ["language"]);
                ("selected", from_one T ["selected"])]) m response))).

(** ril_service.cpp:5445-5465 [setCdmaBroadcastConfigResponse]. *)
Definition setCdmaBroadcastConfigResponse : response_fn := void_response "setCdmaBroadcastConfigResponse".

(** ril_service.cpp:5467-5487 [setCdmaBroadcastActivationResponse]. *)
Definition setCdmaBroadcastActivationResponse : response_fn := void_response "setCdmaBroadcastActivationResponse".

(** The first [n] strings of an array. *)
Definition strings (n : nat) : Z -> Z -> SVC (list hval) := fun response _ =>
  reading (fun m => vector (fun i => string_at response i m) n 0).

(** ril_service.cpp:5489-5527 [getCDMASubscriptionResponse]. *)
Definition getCDMASubscriptionResponse : response_fn :=
  responds true "getCDMASubscriptionResponse" (answer (fewer 5) (repeat (HStr []) 5) (strings 5)).

(** ril_service.cpp:5529-5547 [writeSmsToRuimResponse]. *)
Definition writeSmsToRuimResponse : response_fn := int_response "writeSmsToRuimResponse".

(** ril_service.cpp:5549-5567 [deleteSmsOnRuimResponse]. *)
Definition deleteSmsOnRuimResponse : response_fn := void_response "deleteSmsOnRuimResponse".

(** ril_service.cpp:5576-5612 [getDeviceIdentityResponse]. The structure is four pointers. *)
Definition getDeviceIdentityResponse : response_fn :=
  let T := RIL_IDENTITY in
  responds true "getDeviceIdentityResponse" (answer (fewer 4) (repeat (HStr []) 4) (fun response _ =>
    reading (fun m => fmap (M := option) (map snd) (record [("imei", from_str T ["imei"]); ("imeisv", from_str T ["imeisv"]); ("esn", from_str T ["esnHex"]);
                                        ("meid", from_str T ["meidHex"])] m response)))).

(** ril_service.cpp:5614-5634 [exitEmergencyCallbackModeResponse]. *)
Definition exitEmergencyCallbackModeResponse : response_fn := void_response "exitEmergencyCallbackModeResponse".

(** ril_service.cpp:5636-5655 [getSmscAddressResponse]. *)
Definition getSmscAddressResponse : response_fn := string_response "getSmscAddressResponse".

(** ril_service.cpp:5657-5675 [setSmscAddressResponse]. *)
Definition setSmscAddressResponse : response_fn := void_response "setSmscAddressResponse".

(** ril_service.cpp:5677-5696 [reportSmsMemoryStatusResponse]. *)
Definition reportSmsMemoryStatusResponse : response_fn := void_response "reportSmsMemoryStatusResponse".

(** ril_service.cpp:5698-5717 [reportStkServiceIsRunningResponse]. *)
Definition reportStkServiceIsRunningResponse : response_fn := void_response "reportStkServiceIsRunningResponse".

(** ril_service.cpp:5719-5739 [getCdmaSubscriptionSourceResponse]. *)
Definition getCdmaSubscriptionSourceResponse : response_fn := int_response "getCdmaSubscriptionSourceResponse".

(** ril_service.cpp:5741-5762 [requestIsimAuthenticationResponse]. *)
Definition requestIsimAuthenticationResponse : response_fn := string_response "requestIsimAuthenticationResponse".

(** ril_service.cpp:5764-5785 [acknowledgeIncomingGsmSmsWithPduResponse]. *)
Definition acknowledgeIncomingGsmSmsWithPduResponse : response_fn := void_response "acknowledgeIncomingGsmSmsWithPduResponse".

(** ril_service.cpp:5787-5809 [sendEnvelopeWithStatusResponse]. *)
Definition sendEnvelopeWithStatusResponse : response_fn := icc_io_response "sendEnvelopeWithStatusResponse".

(** ril_service.cpp:5811-5831 [getVoiceRadioTechnologyResponse]. *)
Definition getVoiceRadioTechnologyResponse : response_fn := int_response "getVoiceRadioTechnologyResponse".

(** ril_service.cpp:5833-5862 [getCellInfoListResponse]. *)
Definition getCellInfoListResponse : response_fn :=
  responds true "getCellInfoListResponse"
    (answer (not_multiple (sizeof RIL_CellInfo_v12)) [HVec []] (read1 (convertRilCellInfoListToHal mtk))).

(** ril_service.cpp:5864-5884 [setCellInfoListRateResponse]. *)
Definition setCellInfoListRateResponse : response_fn := void_response "setCellInfoListRateResponse".

(** ril_service.cpp:5886-5905 [setInitialAttachApnResponse]. *)
Definition setInitialAttachApnResponse : response_fn := void_response "setInitialAttachApnResponse".

(** ril_service.cpp:5907-5938 [getImsRegistrationStateResponse]. *)
Definition getImsRegistrationStateResponse : response_fn :=
  responds true "getImsRegistrationStateResponse" (answer (fewer 2) [HBool false; HInt 0] (fun response _ =>
    let* isRegistered := reading (first_is_one response 0) in
    let* ratFamily := reading (fun m => int_at m response 1) in
    retM [isRegistered; HInt ratFamily])).

(** ril_service.cpp:5940-5960 [sendImsSmsResponse]. *)
Definition sendImsSmsResponse : response_fn := sms_response "sendImsSmsResponse".

(** ril_service.cpp:5962-5984 [iccTransmitApduBasicChannelResponse]. *)
Definition iccTransmitApduBasicChannelResponse : response_fn := icc_io_response "iccTransmitApduBasicChannelResponse".

(** ril_service.cpp:5986-6020 [iccOpenLogicalChannelResponse]. Without a number the vector would have
    -1 elements. *)
Definition iccOpenLogicalChannelResponse : response_fn :=
  responds true "iccOpenLogicalChannelResponse" (answer (not_multiple 4) [HInt (-1); HVec []] (fun response responseLen =>
    let numInts := responseLen / 4 in
    let* channelId := reading (fun m => int_at m response 0) in
    let* selectResponse := reading (fun m =>
      hvec (numInts - 1) (fun i => (fun v => HInt (to_signed 1 (u8 v))) <$> int_at m response (S i))) in
    retM [HInt channelId; selectResponse])).

(** ril_service.cpp:6022-6042 [iccCloseLogicalChannelResponse]. *)
Definition iccCloseLogicalChannelResponse : response_fn := void_response "iccCloseLogicalChannelResponse".

(** ril_service.cpp:6044-6066 [iccTransmitApduLogicalChannelResponse]. *)
Definition iccTransmitApduLogicalChannelResponse : response_fn := icc_io_response "iccTransmitApduLogicalChannelResponse".

(** ril_service.cpp:6068-6087 [nvReadItemResponse]. *)
Definition nvReadItemResponse : response_fn := string_response "nvReadItemResponse".

(** ril_service.cpp:6089-6107 [nvWriteItemResponse]. *)
Definition nvWriteItemResponse : response_fn := void_response "nvWriteItemResponse".

(** ril_service.cpp:6109-6127 [nvWriteCdmaPrlResponse]. *)
Definition nvWriteCdmaPrlResponse : response_fn := void_response "nvWriteCdmaPrlResponse".

(** ril_service.cpp:6129-6147 [nvResetConfigResponse]. *)
Definition nvResetConfigResponse : response_fn := void_response "nvResetConfigResponse".

(** ril_service.cpp:6149-6168 [setUiccSubscriptionResponse]. *)
Definition setUiccSubscriptionResponse : response_fn := void_response "setUiccSubscriptionResponse".

(** ril_service.cpp:6170-6188 [setDataAllowedResponse]. *)
Definition setDataAllowedResponse : response_fn := void_response "setDataAllowedResponse".

(** ril_service.cpp:6190-6217 [getHardwareConfigResponse]. *)
Definition getHardwareConfigResponse : response_fn :=
  responds true "getHardwareConfigResponse"
    (answer (not_multiple (sizeof RIL_HardwareConfig)) [HVec []] (read1 convertRilHardwareConfigListToHal)).

(** ril_service.cpp:6219-6241 [requestIccSimAuthenticationResponse]. *)
Definition requestIccSimAuthenticationResponse : response_fn := icc_io_response "requestIccSimAuthenticationResponse".

(** ril_service.cpp:6243-6261 [setDataProfileResponse]. *)
Definition setDataProfileResponse : response_fn := void_response "setDataProfileResponse".

(** ril_service.cpp:6263-6281 [requestShutdownResponse]. *)
Definition requestShutdownResponse : response_fn := void_response "requestShutdownResponse".

(** ril_service.cpp:6283-6294 [responseRadioCapability]. *)
Definition responseRadioCapability : Z -> Z -> Z -> Z -> Z -> SVC (RadioResponseInfo * list hval) :=
  answer (not_size (sizeof RIL_RadioCapability)) [zeroed] (one_struct convertRilRadioCapabilityToHal).
Definition capability_response (method : string) : response_fn := responds true method responseRadioCapability.

(** ril_service.cpp:6296-6316 [getRadioCapabilityResponse]. *)
Definition getRadioCapabilityResponse : response_fn := capability_response "getRadioCapabilityResponse".

(** ril_service.cpp:6318-6338 [setRadioCapabilityResponse]. *)
Definition setRadioCapabilityResponse : response_fn := capability_response "setRadioCapabilityResponse".

(** ril_service.cpp:6340-6354 [responseLceStatusInfo]. *)
Definition responseLceStatusInfo : Z -> Z -> Z -> Z -> Z -> SVC (RadioResponseInfo * list hval) :=
  let T := RIL_LceStatusInfo in
  answer (not_size (sizeof T)) [zeroed]
    (one_struct (hrec [("lceStatus", from_int T ["lce_status"]); ("actualIntervalMs", from_u8 T ["actual_interval_ms"])])).
Definition lce_status_response (method : string) : response_fn := responds true method responseLceStatusInfo.

(** ril_service.cpp:6356-6377 [startLceServiceResponse]. *)
Definition startLceServiceResponse : response_fn := lce_status_response "startLceServiceResponse".

(** ril_service.cpp:6379-6400 [stopLceServiceResponse]. *)
Definition stopLceServiceResponse : response_fn := lce_status_response "stopLceServiceResponse".

(** ril_service.cpp:6402-6429 [pullLceDataResponse]. *)
Definition pullLceDataResponse : response_fn :=
  responds true "pullLceDataResponse" (answer (not_size (sizeof RIL_LceDataInfo)) [zeroed] (one_struct convertRilLceDataInfoToHal)).

Definition activity_stats : conversion := fun m p =>
  let T := RIL_ActivityStatsInfo in
  tx ← address T ["tx_mode_time_ms"] p;
  hrec [("sleepModeTimeMs", from_int T ["sleep_mode_time_ms"]); ("idleModeTimeMs", from_int T ["idle_mode_time_ms"]);
        ("txmModetimeMs", fun m _ => hvec (Z.of_nat RIL_NUM_TX_POWER_LEVELS) (fun i => HInt <$> rd_num false 4 m (tx + 4 * Z.of_nat i)));
        ("rxModeTimeMs", from_int T ["rx_mode_time_ms"])] m p.

(** ril_service.cpp:6431-6478 [getModemActivityInfoResponse]. Built for the vendor's hardware, data that
    are missing are no error but zeros; else the structure that is passed on is not initialised. *)
Definition getModemActivityInfoResponse : response_fn :=
  responds true "getModemActivityInfoResponse" (fun responseType serial e response responseLen =>
    let i := populateResponseInfo serial responseType e in
    if not_size (sizeof RIL_ActivityStatsInfo) response responseLen then
      if mtk then retM (i, [HRec [("sleepModeTimeMs", HInt 0); ("idleModeTimeMs", HInt 0);
                                  ("txmModetimeMs", HVec (repeat (HInt 0) RIL_NUM_TX_POWER_LEVELS)); ("rxModeTimeMs", HInt 0)]])
      else undefM
    else let* v := reading (fun m => activity_stats m response) in retM (i, [v])).

(** ril_service.cpp:6480-6500 [setAllowedCarriersResponse]. *)
Definition setAllowedCarriersResponse : response_fn := int_response "setAllowedCarriersResponse".

Definition carrier : conversion :=
  let T := RIL_Carrier in
  hrec [("mcc", from_str T ["mcc"]); ("mnc", from_str T ["mnc"]); ("matchType", from_int T ["match_type"]); ("matchData", from_str T ["match_data"])].

(** ril_service.cpp:6502-6560 [getAllowedCarriersResponse]. *)
Definition getAllowedCarriersResponse : response_fn :=
  let T := RIL_CarrierRestrictions in
  responds true "getAllowedCarriersResponse" (fun responseType serial e response responseLen =>
    let i := populateResponseInfo serial responseType e in
    if response =? 0 then retM (i, [HBool true; zeroed])
    else if negb (responseLen =? sizeof T) then retM (invalid_response e i, [HBool true; zeroed])
    else
      let* allowed := reading (fun m => get T ["len_allowed_carriers"] m response) in
      let* excluded := reading (fun m => get T ["len_excluded_carriers"] m response) in
      let* a := reading (fun m => q ← get T ["allowed_carriers"] m response; structs allowed RIL_Carrier carrier m q) in
      let* x := reading (fun m => q ← get T ["excluded_carriers"] m response; structs excluded RIL_Carrier carrier m q) in
      retM (i, [HBool (negb ((0 <? allowed) || (0 <? excluded))); HRec [("allowedCarriers", a); ("excludedCarriers", x)]])).

(** ril_service.cpp:6562-6580 [sendDeviceStateResponse]. *)
Definition sendDeviceStateResponse : response_fn := void_response "sendDeviceStateResponse".

(** ril_service.cpp:6608-6627 [setIndicationFilterResponse]. *)
Definition setIndicationFilterResponse : response_fn := void_response "setIndicationFilterResponse".

(** ril_service.cpp:6629-6660 [setSimCardPowerResponse]. *)
Definition setSimCardPowerResponse : response_fn := void_response "setSimCardPowerResponse".

(** ril_service.cpp:6662-6689 [sendRequestRawResponse]. *)
Definition sendRequestRawResponse : response_fn :=
  responds false "sendRequestRawResponse" (answer null [HVec []] (read1 (fun response responseLen m =>
    HVec <$> (fmap (M := option) (map HInt) (rd_bytes m response (Z.to_nat responseLen)))))).

(** ril_service.cpp:6691-6724 [sendRequestStringsResponse]. *)
Definition sendRequestStringsResponse : response_fn :=
  responds false "sendRequestStringsResponse" (answer (not_multiple 4) [HVec []] (read1 (fun response responseLen m =>
    hvec (responseLen / 4) (fun i => string_at response i m)))).

(** ril_commands.h:21-161 [s_commands, the functions]. *)
Definition response_functions : list (option response_fn) := [
  None; Some getIccCardStatusResponse; Some supplyIccPinForAppResponse; Some supplyIccPukForAppResponse;
  Some supplyIccPin2ForAppResponse; Some supplyIccPuk2ForAppResponse; Some changeIccPinForAppResponse;
  Some changeIccPin2ForAppResponse; Some supplyNetworkDepersonalizationResponse; Some getCurrentCallsResponse;
  Some dialResponse; Some getIMSIForAppResponse; Some hangupConnectionResponse;
  Some hangupWaitingOrBackgroundResponse; Some hangupForegroundResumeBackgroundResponse;
  Some switchWaitingOrHoldingAndActiveResponse; Some conferenceResponse; Some rejectCallResponse;
  Some getLastCallFailCauseResponse; Some getSignalStrengthResponse; Some getVoiceRegistrationStateResponse;
  Some getDataRegistrationStateResponse; Some getOperatorResponse; Some setRadioPowerResponse; Some sendDtmfResponse;
  Some sendSmsResponse; Some sendSMSExpectMoreResponse; Some setupDataCallResponse; Some iccIOForAppResponse;
  Some sendUssdResponse; Some cancelPendingUssdResponse; Some getClirResponse; Some setClirResponse;
  Some getCallForwardStatusResponse; Some setCallForwardResponse; Some getCallWaitingResponse;
  Some setCallWaitingResponse; Some acknowledgeLastIncomingGsmSmsResponse; None; None; Some acceptCallResponse;
  Some deactivateDataCallResponse; Some getFacilityLockForAppResponse; Some setFacilityLockForAppResponse;
  Some setBarringPasswordResponse; Some getNetworkSelectionModeResponse;
  Some setNetworkSelectionModeAutomaticResponse; Some setNetworkSelectionModeManualResponse;
  Some getAvailableNetworksResponse; Some startDtmfResponse; Some stopDtmfResponse; Some getBasebandVersionResponse;
  Some separateConnectionResponse; Some setMuteResponse; Some getMuteResponse; Some getClipResponse; None;
  Some getDataCallListResponse; None; Some sendRequestRawResponse; Some sendRequestStringsResponse;
  Some sendDeviceStateResponse; Some setSuppServiceNotificationsResponse; Some writeSmsToSimResponse;
  Some deleteSmsOnSimResponse; Some setBandModeResponse; Some getAvailableBandModesResponse; None; None;
  Some sendEnvelopeResponse; Some sendTerminalResponseToSimResponse; Some handleStkCallSetupRequestFromSimResponse;
  Some explicitCallTransferResponse; Some setPreferredNetworkTypeResponse; Some getPreferredNetworkTypeResponse;
  Some getNeighboringCidsResponse; Some setLocationUpdatesResponse; Some setCdmaSubscriptionSourceResponse;
  Some setCdmaRoamingPreferenceResponse; Some getCdmaRoamingPreferenceResponse; Some setTTYModeResponse;
  Some getTTYModeResponse; Some setPreferredVoicePrivacyResponse; Some getPreferredVoicePrivacyResponse;
  Some sendCDMAFeatureCodeResponse; Some sendBurstDtmfResponse; None; Some sendCdmaSmsResponse;
  Some acknowledgeLastIncomingCdmaSmsResponse; Some getGsmBroadcastConfigResponse;
  Some setGsmBroadcastConfigResponse; Some setGsmBroadcastActivationResponse; Some getCdmaBroadcastConfigResponse;
  Some setCdmaBroadcastConfigResponse; Some setCdmaBroadcastActivationResponse; Some getCDMASubscriptionResponse;
  Some writeSmsToRuimResponse; Some deleteSmsOnRuimResponse; Some getDeviceIdentityResponse;
  Some exitEmergencyCallbackModeResponse; Some getSmscAddressResponse; Some setSmscAddressResponse;
  Some reportSmsMemoryStatusResponse; Some reportStkServiceIsRunningResponse; Some getCdmaSubscriptionSourceResponse;
  Some requestIsimAuthenticationResponse; Some acknowledgeIncomingGsmSmsWithPduResponse;
  Some sendEnvelopeWithStatusResponse; Some getVoiceRadioTechnologyResponse; Some getCellInfoListResponse;
  Some setCellInfoListRateResponse; Some setInitialAttachApnResponse; Some getImsRegistrationStateResponse;
  Some sendImsSmsResponse; Some iccTransmitApduBasicChannelResponse; Some iccOpenLogicalChannelResponse;
  Some iccCloseLogicalChannelResponse; Some iccTransmitApduLogicalChannelResponse; Some nvReadItemResponse;
  Some nvWriteItemResponse; Some nvWriteCdmaPrlResponse; Some nvResetConfigResponse;
  Some setUiccSubscriptionResponse; Some setDataAllowedResponse; Some getHardwareConfigResponse;
  Some requestIccSimAuthenticationResponse; None; None; Some setDataProfileResponse; Some requestShutdownResponse;
  Some getRadioCapabilityResponse; Some setRadioCapabilityResponse; Some startLceServiceResponse;
  Some stopLceServiceResponse; Some pullLceDataResponse; Some getModemActivityInfoResponse;
  Some setAllowedCarriersResponse; Some getAllowedCarriersResponse; Some sendDeviceStateResponse;
  Some setIndicationFilterResponse; Some setSimCardPowerResponse].

(** The function of an entry of the table. *)
Definition response_function (i : Z) : option response_fn := o ← elem response_functions i; o.

End Responses.

(** The table and the one of Ril.v have the same functions. *)
Lemma response_functions_rows `{RadioTypes} mtk :
  map (fun o => if o : option response_fn then true else false) (response_functions mtk) = map has_response s_commands.
Proof. reflexivity. Qed.
