(* ===== verification/RilCodes.v ===== *)
(** The numbers of requests and errors of the radio interface (src/include/telephony/ril.h) that the radio
    service uses, besides those of Ril.v. *)

From Stdlib Require Import ZArith.

Local Open Scope Z_scope.

(** ril.h:136-136 [RIL_E_REQUEST_NOT_SUPPORTED]. *)
Definition RIL_E_REQUEST_NOT_SUPPORTED : Z := 6.
(** ril.h:176-176 [RIL_E_INVALID_ARGUMENTS]. *)
Definition RIL_E_INVALID_ARGUMENTS : Z := 44.
(** ril.h:2340-2340 [RIL_REQUEST_GET_SIM_STATUS]. *)
Definition RIL_REQUEST_GET_SIM_STATUS : Z := 1.
(** ril.h:2361-2361 [RIL_REQUEST_ENTER_SIM_PIN]. *)
Definition RIL_REQUEST_ENTER_SIM_PIN : Z := 2.
(** ril.h:2384-2384 [RIL_REQUEST_ENTER_SIM_PUK]. *)
Definition RIL_REQUEST_ENTER_SIM_PUK : Z := 3.
(** ril.h:2406-2406 [RIL_REQUEST_ENTER_SIM_PIN2]. *)
Definition RIL_REQUEST_ENTER_SIM_PIN2 : Z := 4.
(** ril.h:2429-2429 [RIL_REQUEST_ENTER_SIM_PUK2]. *)
Definition RIL_REQUEST_ENTER_SIM_PUK2 : Z := 5.
(** ril.h:2453-2453 [RIL_REQUEST_CHANGE_SIM_PIN]. *)
Definition RIL_REQUEST_CHANGE_SIM_PIN : Z := 6.
(** ril.h:2478-2478 [RIL_REQUEST_CHANGE_SIM_PIN2]. *)
Definition RIL_REQUEST_CHANGE_SIM_PIN2 : Z := 7.
(** ril.h:2499-2499 [RIL_REQUEST_ENTER_NETWORK_DEPERSONALIZATION]. *)
Definition RIL_REQUEST_ENTER_NETWORK_DEPERSONALIZATION : Z := 8.
(** ril.h:2518-2518 [RIL_REQUEST_GET_CURRENT_CALLS]. *)
Definition RIL_REQUEST_GET_CURRENT_CALLS : Z := 9.
(** ril.h:2551-2551 [RIL_REQUEST_DIAL]. *)
Definition RIL_REQUEST_DIAL : Z := 10.
(** ril.h:2569-2569 [RIL_REQUEST_GET_IMSI]. *)
Definition RIL_REQUEST_GET_IMSI : Z := 11.
(** ril.h:2597-2597 [RIL_REQUEST_HANGUP]. *)
Definition RIL_REQUEST_HANGUP : Z := 12.
(** ril.h:2624-2624 [RIL_REQUEST_HANGUP_WAITING_OR_BACKGROUND]. *)
Definition RIL_REQUEST_HANGUP_WAITING_OR_BACKGROUND : Z := 13.
(** ril.h:2650-2650 [RIL_REQUEST_HANGUP_FOREGROUND_RESUME_BACKGROUND]. *)
Definition RIL_REQUEST_HANGUP_FOREGROUND_RESUME_BACKGROUND : Z := 14.
(** ril.h:2685-2685 [RIL_REQUEST_SWITCH_WAITING_OR_HOLDING_AND_ACTIVE]. *)
Definition RIL_REQUEST_SWITCH_WAITING_OR_HOLDING_AND_ACTIVE : Z := 15.
(** ril.h:2707-2707 [RIL_REQUEST_CONFERENCE]. *)
Definition RIL_REQUEST_CONFERENCE : Z := 16.
(** ril.h:2730-2730 [RIL_REQUEST_UDUB]. *)
Definition RIL_REQUEST_UDUB : Z := 17.
(** ril.h:2781-2781 [RIL_REQUEST_LAST_CALL_FAIL_CAUSE]. *)
Definition RIL_REQUEST_LAST_CALL_FAIL_CAUSE : Z := 18.
(** ril.h:2798-2798 [RIL_REQUEST_SIGNAL_STRENGTH]. *)
Definition RIL_REQUEST_SIGNAL_STRENGTH : Z := 19.
(** ril.h:2812-2812 [RIL_REQUEST_VOICE_REGISTRATION_STATE]. *)
Definition RIL_REQUEST_VOICE_REGISTRATION_STATE : Z := 20.
(** ril.h:2826-2826 [RIL_REQUEST_DATA_REGISTRATION_STATE]. *)
Definition RIL_REQUEST_DATA_REGISTRATION_STATE : Z := 21.
(** ril.h:2847-2847 [RIL_REQUEST_OPERATOR]. *)
Definition RIL_REQUEST_OPERATOR : Z := 22.
(** ril.h:2902-2902 [RIL_REQUEST_DTMF]. *)
Definition RIL_REQUEST_DTMF : Z := 24.
(** ril.h:2941-2941 [RIL_REQUEST_SEND_SMS]. *)
Definition RIL_REQUEST_SEND_SMS : Z := 25.
(** ril.h:2982-2982 [RIL_REQUEST_SEND_SMS_EXPECT_MORE]. *)
Definition RIL_REQUEST_SEND_SMS_EXPECT_MORE : Z := 26.
(** ril.h:3059-3059 [RIL_REQUEST_SETUP_DATA_CALL]. *)
Definition RIL_REQUEST_SETUP_DATA_CALL : Z := 27.
(** ril.h:3086-3086 [RIL_REQUEST_SIM_IO]. *)
Definition RIL_REQUEST_SIM_IO : Z := 28.
(** ril.h:3127-3127 [RIL_REQUEST_SEND_USSD]. *)
Definition RIL_REQUEST_SEND_USSD : Z := 29.
(** ril.h:3148-3148 [RIL_REQUEST_CANCEL_USSD]. *)
Definition RIL_REQUEST_CANCEL_USSD : Z := 30.
(** ril.h:3171-3171 [RIL_REQUEST_GET_CLIR]. *)
Definition RIL_REQUEST_GET_CLIR : Z := 31.
(** ril.h:3190-3190 [RIL_REQUEST_SET_CLIR]. *)
Definition RIL_REQUEST_SET_CLIR : Z := 32.
(** ril.h:3222-3222 [RIL_REQUEST_QUERY_CALL_FORWARD_STATUS]. *)
Definition RIL_REQUEST_QUERY_CALL_FORWARD_STATUS : Z := 33.
(** ril.h:3247-3247 [RIL_REQUEST_SET_CALL_FORWARD]. *)
Definition RIL_REQUEST_SET_CALL_FORWARD : Z := 34.
(** ril.h:3281-3281 [RIL_REQUEST_QUERY_CALL_WAITING]. *)
Definition RIL_REQUEST_QUERY_CALL_WAITING : Z := 35.
(** ril.h:3308-3308 [RIL_REQUEST_SET_CALL_WAITING]. *)
Definition RIL_REQUEST_SET_CALL_WAITING : Z := 36.
(** ril.h:3334-3334 [RIL_REQUEST_SMS_ACKNOWLEDGE]. *)
Definition RIL_REQUEST_SMS_ACKNOWLEDGE : Z := 37.
(** ril.h:3396-3396 [RIL_REQUEST_ANSWER]. *)
Definition RIL_REQUEST_ANSWER : Z := 40.
(** ril.h:3423-3423 [RIL_REQUEST_DEACTIVATE_DATA_CALL]. *)
Definition RIL_REQUEST_DEACTIVATE_DATA_CALL : Z := 41.
(** ril.h:3460-3460 [RIL_REQUEST_QUERY_FACILITY_LOCK]. *)
Definition RIL_REQUEST_QUERY_FACILITY_LOCK : Z := 42.
(** ril.h:3497-3497 [RIL_REQUEST_SET_FACILITY_LOCK]. *)
Definition RIL_REQUEST_SET_FACILITY_LOCK : Z := 43.
(** ril.h:3527-3527 [RIL_REQUEST_CHANGE_BARRING_PASSWORD]. *)
Definition RIL_REQUEST_CHANGE_BARRING_PASSWORD : Z := 44.
(** ril.h:3546-3546 [RIL_REQUEST_QUERY_NETWORK_SELECTION_MODE]. *)
Definition RIL_REQUEST_QUERY_NETWORK_SELECTION_MODE : Z := 45.
(** ril.h:3569-3569 [RIL_REQUEST_SET_NETWORK_SELECTION_AUTOMATIC]. *)
Definition RIL_REQUEST_SET_NETWORK_SELECTION_AUTOMATIC : Z := 46.
(** ril.h:3592-3592 [RIL_REQUEST_SET_NETWORK_SELECTION_MANUAL]. *)
Definition RIL_REQUEST_SET_NETWORK_SELECTION_MANUAL : Z := 47.
(** ril.h:3624-3624 [RIL_REQUEST_QUERY_AVAILABLE_NETWORKS]. *)
Definition RIL_REQUEST_QUERY_AVAILABLE_NETWORKS : Z := 48.
(** ril.h:3652-3652 [RIL_REQUEST_DTMF_START]. *)
Definition RIL_REQUEST_DTMF_START : Z := 49.
(** ril.h:3676-3676 [RIL_REQUEST_DTMF_STOP]. *)
Definition RIL_REQUEST_DTMF_STOP : Z := 50.
(** ril.h:3693-3693 [RIL_REQUEST_BASEBAND_VERSION]. *)
Definition RIL_REQUEST_BASEBAND_VERSION : Z := 51.
(** ril.h:3727-3727 [RIL_REQUEST_SEPARATE_CONNECTION]. *)
Definition RIL_REQUEST_SEPARATE_CONNECTION : Z := 52.
(** ril.h:3751-3751 [RIL_REQUEST_SET_MUTE]. *)
Definition RIL_REQUEST_SET_MUTE : Z := 53.
(** ril.h:3772-3772 [RIL_REQUEST_GET_MUTE]. *)
Definition RIL_REQUEST_GET_MUTE : Z := 54.
(** ril.h:3797-3797 [RIL_REQUEST_QUERY_CLIP]. *)
Definition RIL_REQUEST_QUERY_CLIP : Z := 55.
(** ril.h:3848-3848 [RIL_REQUEST_DATA_CALL_LIST]. *)
Definition RIL_REQUEST_DATA_CALL_LIST : Z := 57.
(** ril.h:3893-3893 [RIL_REQUEST_OEM_HOOK_RAW]. *)
Definition RIL_REQUEST_OEM_HOOK_RAW : Z := 59.
(** ril.h:3922-3922 [RIL_REQUEST_OEM_HOOK_STRINGS]. *)
Definition RIL_REQUEST_OEM_HOOK_STRINGS : Z := 60.
(** ril.h:3946-3946 [RIL_REQUEST_SCREEN_STATE]. *)
Definition RIL_REQUEST_SCREEN_STATE : Z := 61.
(** ril.h:3975-3975 [RIL_REQUEST_SET_SUPP_SVC_NOTIFICATION]. *)
Definition RIL_REQUEST_SET_SUPP_SVC_NOTIFICATION : Z := 62.
(** ril.h:4002-4002 [RIL_REQUEST_WRITE_SMS_TO_SIM]. *)
Definition RIL_REQUEST_WRITE_SMS_TO_SIM : Z := 63.
(** ril.h:4025-4025 [RIL_REQUEST_DELETE_SMS_ON_SIM]. *)
Definition RIL_REQUEST_DELETE_SMS_ON_SIM : Z := 64.
(** ril.h:4044-4044 [RIL_REQUEST_SET_BAND_MODE]. *)
Definition RIL_REQUEST_SET_BAND_MODE : Z := 65.
(** ril.h:4063-4063 [RIL_REQUEST_QUERY_AVAILABLE_BAND_MODE]. *)
Definition RIL_REQUEST_QUERY_AVAILABLE_BAND_MODE : Z := 66.
(** ril.h:4119-4119 [RIL_REQUEST_STK_SEND_ENVELOPE_COMMAND]. *)
Definition RIL_REQUEST_STK_SEND_ENVELOPE_COMMAND : Z := 69.
(** ril.h:4137-4137 [RIL_REQUEST_STK_SEND_TERMINAL_RESPONSE]. *)
Definition RIL_REQUEST_STK_SEND_TERMINAL_RESPONSE : Z := 70.
(** ril.h:4158-4158 [RIL_REQUEST_STK_HANDLE_CALL_SETUP_REQUESTED_FROM_SIM]. *)
Definition RIL_REQUEST_STK_HANDLE_CALL_SETUP_REQUESTED_FROM_SIM : Z := 71.
(** ril.h:4182-4182 [RIL_REQUEST_EXPLICIT_CALL_TRANSFER]. *)
Definition RIL_REQUEST_EXPLICIT_CALL_TRANSFER : Z := 72.
(** ril.h:4200-4200 [RIL_REQUEST_SET_PREFERRED_NETWORK_TYPE]. *)
Definition RIL_REQUEST_SET_PREFERRED_NETWORK_TYPE : Z := 73.
(** ril.h:4219-4219 [RIL_REQUEST_GET_PREFERRED_NETWORK_TYPE]. *)
Definition RIL_REQUEST_GET_PREFERRED_NETWORK_TYPE : Z := 74.
(** ril.h:4233-4233 [RIL_REQUEST_GET_NEIGHBORING_CELL_IDS]. *)
Definition RIL_REQUEST_GET_NEIGHBORING_CELL_IDS : Z := 75.
(** ril.h:4257-4257 [RIL_REQUEST_SET_LOCATION_UPDATES]. *)
Definition RIL_REQUEST_SET_LOCATION_UPDATES : Z := 76.
(** ril.h:4278-4278 [RIL_REQUEST_CDMA_SET_SUBSCRIPTION_SOURCE]. *)
Definition RIL_REQUEST_CDMA_SET_SUBSCRIPTION_SOURCE : Z := 77.
(** ril.h:4296-4296 [RIL_REQUEST_CDMA_SET_ROAMING_PREFERENCE]. *)
Definition RIL_REQUEST_CDMA_SET_ROAMING_PREFERENCE : Z := 78.
(** ril.h:4316-4316 [RIL_REQUEST_CDMA_QUERY_ROAMING_PREFERENCE]. *)
Definition RIL_REQUEST_CDMA_QUERY_ROAMING_PREFERENCE : Z := 79.
(** ril.h:4343-4343 [RIL_REQUEST_SET_TTY_MODE]. *)
Definition RIL_REQUEST_SET_TTY_MODE : Z := 80.
(** ril.h:4368-4368 [RIL_REQUEST_QUERY_TTY_MODE]. *)
Definition RIL_REQUEST_QUERY_TTY_MODE : Z := 81.
(** ril.h:4392-4392 [RIL_REQUEST_CDMA_SET_PREFERRED_VOICE_PRIVACY_MODE]. *)
Definition RIL_REQUEST_CDMA_SET_PREFERRED_VOICE_PRIVACY_MODE : Z := 82.
(** ril.h:4415-4415 [RIL_REQUEST_CDMA_QUERY_PREFERRED_VOICE_PRIVACY_MODE]. *)
Definition RIL_REQUEST_CDMA_QUERY_PREFERRED_VOICE_PRIVACY_MODE : Z := 83.
(** ril.h:4439-4439 [RIL_REQUEST_CDMA_FLASH]. *)
Definition RIL_REQUEST_CDMA_FLASH : Z := 84.
(** ril.h:4466-4466 [RIL_REQUEST_CDMA_BURST_DTMF]. *)
Definition RIL_REQUEST_CDMA_BURST_DTMF : Z := 85.
(** ril.h:4524-4524 [RIL_REQUEST_CDMA_SEND_SMS]. *)
Definition RIL_REQUEST_CDMA_SEND_SMS : Z := 87.
(** ril.h:4552-4552 [RIL_REQUEST_CDMA_SMS_ACKNOWLEDGE]. *)
Definition RIL_REQUEST_CDMA_SMS_ACKNOWLEDGE : Z := 88.
(** ril.h:4576-4576 [RIL_REQUEST_GSM_GET_BROADCAST_SMS_CONFIG]. *)
Definition RIL_REQUEST_GSM_GET_BROADCAST_SMS_CONFIG : Z := 89.
(** ril.h:4600-4600 [RIL_REQUEST_GSM_SET_BROADCAST_SMS_CONFIG]. *)
Definition RIL_REQUEST_GSM_SET_BROADCAST_SMS_CONFIG : Z := 90.
(** ril.h:4625-4625 [RIL_REQUEST_GSM_SMS_BROADCAST_ACTIVATION]. *)
Definition RIL_REQUEST_GSM_SMS_BROADCAST_ACTIVATION : Z := 91.
(** ril.h:4649-4649 [RIL_REQUEST_CDMA_GET_BROADCAST_SMS_CONFIG]. *)
Definition RIL_REQUEST_CDMA_GET_BROADCAST_SMS_CONFIG : Z := 92.
(** ril.h:4673-4673 [RIL_REQUEST_CDMA_SET_BROADCAST_SMS_CONFIG]. *)
Definition RIL_REQUEST_CDMA_SET_BROADCAST_SMS_CONFIG : Z := 93.
(** ril.h:4698-4698 [RIL_REQUEST_CDMA_SMS_BROADCAST_ACTIVATION]. *)
Definition RIL_REQUEST_CDMA_SMS_BROADCAST_ACTIVATION : Z := 94.
(** ril.h:4726-4726 [RIL_REQUEST_CDMA_SUBSCRIPTION]. *)
Definition RIL_REQUEST_CDMA_SUBSCRIPTION : Z := 95.
(** ril.h:4754-4754 [RIL_REQUEST_CDMA_WRITE_SMS_TO_RUIM]. *)
Definition RIL_REQUEST_CDMA_WRITE_SMS_TO_RUIM : Z := 96.
(** ril.h:4777-4777 [RIL_REQUEST_CDMA_DELETE_SMS_ON_RUIM]. *)
Definition RIL_REQUEST_CDMA_DELETE_SMS_ON_RUIM : Z := 97.
(** ril.h:4823-4823 [RIL_REQUEST_EXIT_EMERGENCY_CALLBACK_MODE]. *)
Definition RIL_REQUEST_EXIT_EMERGENCY_CALLBACK_MODE : Z := 99.
(** ril.h:4847-4847 [RIL_REQUEST_GET_SMSC_ADDRESS]. *)
Definition RIL_REQUEST_GET_SMSC_ADDRESS : Z := 100.
(** ril.h:4870-4870 [RIL_REQUEST_SET_SMSC_ADDRESS]. *)
Definition RIL_REQUEST_SET_SMSC_ADDRESS : Z := 101.
(** ril.h:4894-4894 [RIL_REQUEST_REPORT_SMS_MEMORY_STATUS]. *)
Definition RIL_REQUEST_REPORT_SMS_MEMORY_STATUS : Z := 102.
(** ril.h:4910-4910 [RIL_REQUEST_REPORT_STK_SERVICE_IS_RUNNING]. *)
Definition RIL_REQUEST_REPORT_STK_SERVICE_IS_RUNNING : Z := 103.
(** ril.h:4930-4930 [RIL_REQUEST_CDMA_GET_SUBSCRIPTION_SOURCE]. *)
Definition RIL_REQUEST_CDMA_GET_SUBSCRIPTION_SOURCE : Z := 104.
(** ril.h:4945-4945 [RIL_REQUEST_ISIM_AUTHENTICATION]. *)
Definition RIL_REQUEST_ISIM_AUTHENTICATION : Z := 105.
(** ril.h:4965-4965 [RIL_REQUEST_ACKNOWLEDGE_INCOMING_GSM_SMS_WITH_PDU]. *)
Definition RIL_REQUEST_ACKNOWLEDGE_INCOMING_GSM_SMS_WITH_PDU : Z := 106.
(** ril.h:4992-4992 [RIL_REQUEST_STK_SEND_ENVELOPE_WITH_STATUS]. *)
Definition RIL_REQUEST_STK_SEND_ENVELOPE_WITH_STATUS : Z := 107.
(** ril.h:5008-5008 [RIL_REQUEST_VOICE_RADIO_TECH]. *)
Definition RIL_REQUEST_VOICE_RADIO_TECH : Z := 108.
(** ril.h:5022-5022 [RIL_REQUEST_GET_CELL_INFO_LIST]. *)
Definition RIL_REQUEST_GET_CELL_INFO_LIST : Z := 109.
(** ril.h:5041-5041 [RIL_REQUEST_SET_UNSOL_CELL_INFO_LIST_RATE]. *)
Definition RIL_REQUEST_SET_UNSOL_CELL_INFO_LIST_RATE : Z := 110.
(** ril.h:5068-5068 [RIL_REQUEST_SET_INITIAL_ATTACH_APN]. *)
Definition RIL_REQUEST_SET_INITIAL_ATTACH_APN : Z := 111.
(** ril.h:5094-5094 [RIL_REQUEST_IMS_REGISTRATION_STATE]. *)
Definition RIL_REQUEST_IMS_REGISTRATION_STATE : Z := 112.
(** ril.h:5128-5128 [RIL_REQUEST_IMS_SEND_SMS]. *)
Definition RIL_REQUEST_IMS_SEND_SMS : Z := 113.
(** ril.h:5147-5147 [RIL_REQUEST_SIM_TRANSMIT_APDU_BASIC]. *)
Definition RIL_REQUEST_SIM_TRANSMIT_APDU_BASIC : Z := 114.
(** ril.h:5169-5169 [RIL_REQUEST_SIM_OPEN_CHANNEL]. *)
Definition RIL_REQUEST_SIM_OPEN_CHANNEL : Z := 115.
(** ril.h:5186-5186 [RIL_REQUEST_SIM_CLOSE_CHANNEL]. *)
Definition RIL_REQUEST_SIM_CLOSE_CHANNEL : Z := 116.
(** ril.h:5204-5204 [RIL_REQUEST_SIM_TRANSMIT_APDU_CHANNEL]. *)
Definition RIL_REQUEST_SIM_TRANSMIT_APDU_CHANNEL : Z := 117.
(** ril.h:5220-5220 [RIL_REQUEST_NV_READ_ITEM]. *)
Definition RIL_REQUEST_NV_READ_ITEM : Z := 118.
(** ril.h:5236-5236 [RIL_REQUEST_NV_WRITE_ITEM]. *)
Definition RIL_REQUEST_NV_WRITE_ITEM : Z := 119.
(** ril.h:5252-5252 [RIL_REQUEST_NV_WRITE_CDMA_PRL]. *)
Definition RIL_REQUEST_NV_WRITE_CDMA_PRL : Z := 120.
(** ril.h:5271-5271 [RIL_REQUEST_NV_RESET_CONFIG]. *)
Definition RIL_REQUEST_NV_RESET_CONFIG : Z := 121.
(** ril.h:5288-5288 [RIL_REQUEST_SET_UICC_SUBSCRIPTION]. *)
Definition RIL_REQUEST_SET_UICC_SUBSCRIPTION : Z := 122.
(** ril.h:5308-5308 [RIL_REQUEST_ALLOW_DATA]. *)
Definition RIL_REQUEST_ALLOW_DATA : Z := 123.
(** ril.h:5320-5320 [RIL_REQUEST_GET_HARDWARE_CONFIG]. *)
Definition RIL_REQUEST_GET_HARDWARE_CONFIG : Z := 124.
(** ril.h:5341-5341 [RIL_REQUEST_SIM_AUTHENTICATION]. *)
Definition RIL_REQUEST_SIM_AUTHENTICATION : Z := 125.
(** ril.h:5393-5393 [RIL_REQUEST_SET_DATA_PROFILE]. *)
Definition RIL_REQUEST_SET_DATA_PROFILE : Z := 128.
(** ril.h:5409-5409 [RIL_REQUEST_SHUTDOWN]. *)
Definition RIL_REQUEST_SHUTDOWN : Z := 129.
(** ril.h:5423-5423 [RIL_REQUEST_GET_RADIO_CAPABILITY]. *)
Definition RIL_REQUEST_GET_RADIO_CAPABILITY : Z := 130.
(** ril.h:5442-5442 [RIL_REQUEST_SET_RADIO_CAPABILITY]. *)
Definition RIL_REQUEST_SET_RADIO_CAPABILITY : Z := 131.
(** ril.h:5460-5460 [RIL_REQUEST_START_LCE]. *)
Definition RIL_REQUEST_START_LCE : Z := 132.
(** ril.h:5475-5475 [RIL_REQUEST_STOP_LCE]. *)
Definition RIL_REQUEST_STOP_LCE : Z := 133.
(** ril.h:5489-5489 [RIL_REQUEST_PULL_LCEDATA]. *)
Definition RIL_REQUEST_PULL_LCEDATA : Z := 134.
(** ril.h:5508-5508 [RIL_REQUEST_GET_ACTIVITY_INFO]. *)
Definition RIL_REQUEST_GET_ACTIVITY_INFO : Z := 135.
(** ril.h:5541-5541 [RIL_REQUEST_SET_CARRIER_RESTRICTIONS]. *)
Definition RIL_REQUEST_SET_CARRIER_RESTRICTIONS : Z := 136.
(** ril.h:5559-5559 [RIL_REQUEST_GET_CARRIER_RESTRICTIONS]. *)
Definition RIL_REQUEST_GET_CARRIER_RESTRICTIONS : Z := 137.
(** ril.h:5578-5578 [RIL_REQUEST_SEND_DEVICE_STATE]. *)
Definition RIL_REQUEST_SEND_DEVICE_STATE : Z := 138.
(** ril.h:5599-5599 [RIL_REQUEST_SET_UNSOLICITED_RESPONSE_FILTER]. *)
Definition RIL_REQUEST_SET_UNSOLICITED_RESPONSE_FILTER : Z := 139.
(** mtk_ril.h:826-826 [RIL_REQUEST_RESUME_REGISTRATION]. *)
Definition RIL_REQUEST_RESUME_REGISTRATION : Z := 2065.
(** mtk_ril.h:878-878 [RIL_REQUEST_SET_CALL_INDICATION]. *)
Definition RIL_REQUEST_SET_CALL_INDICATION : Z := 2086.
