(* ===== verification/RilDispatch.v ===== *)
(** How the radio service hands a request to the vendor's library (src/hal/libril/ril_service.cpp and
    [my_enqueue] of src/hal/libril/ril.cpp): strings and arrays are copied to the heap, the request is
    entered and sent, and the copies are released. The library is built without queues for the
    channels, so that a request is sent at once. *)

From stdpp Require Import base list gmap strings numbers.
From Stdlib Require Import ZArith Lia.
From S2P Require Import Prelude RilEvent RilTables Ril RilMem RilStructs RilService RilResponses RilCodes.

Local Open Scope Z_scope.
Local Open Scope st_scope.
Local Open Scope rec_scope.

(** * Memory *)

(** [calloc], with what is then written to the memory. *)
Definition alloc (b : block) : SVC Z :=
  let* p := on_lib Ril.calloc in
  if p =? NULL then retM NULL else modM (fun s => s <| heap := <[p := b]> (heap s) |>);; retM p.

(** [free]. *)
Definition free (p : Z) : SVC unit :=
  if p =? NULL then retM tt
  else
    let* s := getM in
    match heap s !! p with
    | None => undefM
    | Some _ => modM (fun s => s <| heap := delete p (heap s) |>)
    end.

(** ril_service.cpp:495-509 [memsetAndFreeStrings] without MEMSET_FREED. *)
Fixpoint memsetAndFreeStrings (ptrs : list Z) : SVC unit :=
  match ptrs with
  | [] => retM tt
  | p :: ptrs' => (if p =? NULL then retM tt else free p);; memsetAndFreeStrings ptrs'
  end.

(** The string of a character array; the part of a string in front of its first zero. *)
Fixpoint c_str (s : list Z) : list Z :=
  match s with
  | [] => []
  | c :: s' => if c =? 0 then [] else c :: c_str s'
  end.

(** What the vendor's library reads at a pointer and in a field. *)
Definition read_chars (h : gmap Z block) (p : Z) : option pval :=
  if p =? NULL then Some VNull else match h !! p with Some (Chars s) => Some (VStr s) | _ => None end.

Fixpoint each {A B} (f : A -> option B) (l : list A) : option (list B) :=
  match l with
  | [] => Some []
  | x :: l' => v ← f x; vs ← each f l'; Some (v :: vs)
  end.

(** A structure behind a pointer holds numbers, strings and values. *)
Definition read_simple (h : gmap Z block) (f : field) : option pval :=
  match f with
  | FInt z => Some (VInt z)
  | FPtr p => read_chars h p
  | FVal v => Some v
  | FSub _ => None
  end.
Definition read_struct (h : gmap Z block) (fs : list (string * field)) : option pval :=
  VRec <$> each (fun '(n, f) => v ← read_simple h f; Some (n, v)) fs.

Definition read_ptr (h : gmap Z block) (p : Z) : option pval :=
  if p =? NULL then Some VNull
  else
    match h !! p with
    | None => None
    | Some (Chars s) => Some (VStr s)
    | Some (Ints l) => Some (VVec (map VInt l))
    | Some (Ptrs l) => VVec <$> each (read_chars h) l
    | Some (Structs l) => VVec <$> each (read_struct h) l
    | Some (Elements base n) =>
        match h !! base with
        | Some (Structs l) => VVec <$> each (read_struct h) (take n l)
        | _ => None
        end
    end.

Fixpoint read_field (h : gmap Z block) (f : field) : option pval :=
  match f with
  | FInt z => Some (VInt z)
  | FPtr p => read_ptr h p
  | FVal v => Some v
  | FSub fs =>
      VRec <$> (fix go (fs : list (string * field)) : option (list (string * pval)) :=
        match fs with
        | [] => Some []
        | (n, f) :: fs' => v ← read_field h f; vs ← go fs'; Some ((n, v) :: vs)
        end) fs
  end.

(** * The buffers of a request *)

(** ril_internal.h:103-118 [BUF_FMTS]. *)
Inductive BUF_FMTS :=
  | FMT_IGNORE | FMT_VOID | FMT_INTS | FMT_STR | FMT_STRS | FMT_CallFWST | FMT_IccAPDU | FMT_SIMIO | FMT_WrSMSSIM | FMT_RAW
  | FMT_AttchAPN | FMT_ImsSms | FMT_SIMAUTH | FMT_DATAPROF.

(** The pointer that a field of a structure on the stack is. *)
Definition pointer (name : string) (fs : list (string * field)) : option Z :=
  match find (fun '(n, _) => String.eqb name n) fs with
  | Some (_, FPtr p) => Some p
  | _ => None
  end.

(** A field that is not a pointer to the heap is NULL. *)
Definition free_fields (names : list string) (buf : field) : SVC unit :=
  match buf with
  | FSub fs => memsetAndFreeStrings (map (fun n => default NULL (pointer n fs)) names)
  | _ => undefM
  end.

(** The pointers to strings of an element of the array of data profiles at [base]; the array itself
    is gone when the first element has been released. *)
Definition profile_strings (base : Z) (i : nat) (names : list string) : SVC (list Z) :=
  let* s := getM in
  match heap s !! base with
  | Some (Structs l) => let* fs := of_option (l !! i) in retM (map (fun n => default NULL (pointer n fs)) names)
  | _ => undefM
  end.

(** [clearPendingBuffer, FMT_DATAPROF]: every pointer of the array is given to [free], of which the first is the
    array of profiles and the others lie inside of it. *)
Fixpoint free_profiles (base : Z) (n i : nat) : SVC unit :=
  match n with
  | O => retM tt
  | S n' =>
      let* ptrs := profile_strings base i ["apn"; "protocol"; "user"; "password"] in
      memsetAndFreeStrings ptrs;;
      (if (i =? 0)%nat then free base else undefM);;
      free_profiles base n' (S i)
  end.

(** ril.cpp:744-820 [clearPendingBuffer]. Only strings are released: of an array, of numbers or of pointers,
    only the contents are. *)
Definition clearPendingBuffer (bf : BUF_FMTS) (buf : field) : SVC unit :=
  let* s := getM in
  match bf, buf with
  | FMT_INTS, FPtr p =>
      match heap s !! p with
      | Some (Ints l) => modM (fun s => s <| heap := <[p := Ints (map (fun _ => 0) l)]> (heap s) |>)
      | _ => undefM
      end
  | FMT_STR, FPtr p => memsetAndFreeStrings [p]
  | FMT_STRS, FPtr p =>
      match heap s !! p with
      | Some (Ptrs l) => memsetAndFreeStrings l
      | _ => undefM
      end
  | FMT_CallFWST, _ => free_fields ["number"] buf
  | FMT_IccAPDU, _ => free_fields ["data"] buf
  | FMT_SIMIO, _ => free_fields ["path"; "data"; "pin2"; "aidPtr"] buf
  | FMT_WrSMSSIM, _ => free_fields ["smsc"; "pdu"] buf
  | FMT_AttchAPN, _ => free_fields ["apn"; "protocol"; "username"; "password"; "operatorNumeric"] buf
  | FMT_ImsSms, FSub fs =>
      let* p := of_option (pointer "gsmMessage" fs) in
      match heap s !! p with
      | Some (Ptrs [a; b]) => memsetAndFreeStrings [a; b];; free p
      | _ => undefM
      end
  | FMT_SIMAUTH, _ => free_fields ["authData"; "aid"] buf
  | FMT_DATAPROF, FPtr p =>
      match heap s !! p with
      | Some (Elements base n) => free_profiles base n 0
      | _ => undefM
      end
  | _, _ => retM tt
  end.

(** ril.cpp:865-946 [my_enqueue] without RIL_CHANNEL_QUEUING. The vendor's library gets the request at
    once. *)
Definition my_enqueue (request : Z) (buf : field) (buflen : Z) (bf : BUF_FMTS) (p : Z) : SVC unit :=
  on_lib (Ril.my_enqueue false request true p);;
  let* s := getM in
  let* v := of_option (read_field (heap s) buf) in
  modM (fun s => s <| sent := sent s ++ [mkVendorRequest request p v buflen] |>);;
  match bf with
  | FMT_IGNORE => retM tt
  | _ => clearPendingBuffer bf buf
  end.

Section Dispatch.
Context `{HT : RadioTypes}.
Variable mtk : bool.

Definition addRequestToList (serial slotId request : Z) : SVC Z := on_lib (Ril.addRequestToList serial slotId request).

(** ril_service.cpp:511-514 [sendErrorResponse]. The function of the table is called without the lock. *)
Definition sendErrorResponse (p err : Z) : SVC unit :=
  let* r := on_lib (get_request p) in
  let* f := of_option (response_function mtk (pCI r)) in
  f (socket_id r) TYPE_SOLICITED (token r) err NULL 0;; retM tt.

(** ril_service.cpp:521-540 [copyHidlStringToRil]. Nothing is returned after the error was sent. *)
Definition copyHidlStringToRil (src : list Z) (p : Z) : SVC (option Z) :=
  match src with
  | [] => retM (Some NULL)
  | _ =>
      let* dest := alloc (Chars (c_str src)) in
      if dest =? NULL then sendErrorResponse p RIL_E_NO_MEMORY;; retM None else retM (Some dest)
  end.

(** ril_service.cpp:551-558 [dispatchVoid]. *)
Definition dispatchVoid (serial slotId request : Z) : SVC bool :=
  let* p := addRequestToList serial slotId request in
  if p =? NULL then retM false else my_enqueue request (FVal VNull) 0 FMT_VOID p;; retM true.

(** Whether the channel of a request has no queue: its buffers are then released by the caller. *)
Definition ignoreBF (p : Z) : SVC bool :=
  let* r := on_lib (get_request p) in
  let* ci := on_lib (get_command (pCI r)) in
  retM (negb (proxyId ci =? PROXY_1) && negb (proxyId ci =? PROXY_3)).

(** ril_service.cpp:569-590 [dispatchString]. *)
Definition dispatchString (serial slotId request : Z) (s : list Z) : SVC bool :=
  let* p := addRequestToList serial slotId request in
  if p =? NULL then retM false
  else
    let* o := copyHidlStringToRil (c_str s) p in
    match o with
    | None => retM false
    | Some pString =>
        let* ig := ignoreBF p in
        (if ig then my_enqueue request (FPtr pString) 4 FMT_IGNORE p;; memsetAndFreeStrings [pString]
         else my_enqueue request (FPtr pString) 4 FMT_STR p);;
        retM true
    end.

(** The copies of strings: nothing is returned after the error was sent, and the copies made before
    were released. *)
Fixpoint copy_strings (p : Z) (strs : list (list Z)) (done : list Z) : SVC (option (list Z)) :=
  match strs with
  | [] => retM (Some done)
  | s :: strs' =>
      let* o := copyHidlStringToRil s p in
      match o with
      | None => memsetAndFreeStrings done;; retM None
      | Some d => copy_strings p strs' (done ++ [d])
      end
  end.

(** ril_service.cpp:639-681 [dispatchStrings]. *)
Definition dispatchStrings (serial slotId request : Z) (data : list (list Z)) : SVC bool :=
  let* p := addRequestToList serial slotId request in
  if p =? NULL then retM false
  else
    let countStrings := zlen data in
    let* pStrings := alloc (Ptrs (repeat NULL (length data))) in
    if pStrings =? NULL then sendErrorResponse p RIL_E_NO_MEMORY;; retM false
    else
      let* o := copy_strings p data [] in
      match o with
      | None => free pStrings;; retM false
      | Some ptrs =>
          modM (fun s => s <| heap := <[pStrings := Ptrs ptrs]> (heap s) |>);;
          let* ig := ignoreBF p in
          (if ig then
             my_enqueue request (FPtr pStrings) (countStrings * 4) FMT_IGNORE p;;
             memsetAndFreeStrings ptrs;;
             free pStrings
           else my_enqueue request (FPtr pStrings) (countStrings * 4) FMT_STRS p);;
          retM true
      end.

(** ril_service.cpp:592-637 [dispatchStrings] the form with arguments, which are characters up to a zero. *)
Definition dispatchStrings_args (serial slotId request : Z) (args : list (list Z)) : SVC bool :=
  dispatchStrings serial slotId request (map c_str args).

(** ril_service.cpp:683-718 [dispatchInts]. *)
Definition dispatchInts (serial slotId request : Z) (args : list Z) : SVC bool :=
  let* p := addRequestToList serial slotId request in
  if p =? NULL then retM false
  else
    let* pInts := alloc (Ints args) in
    if pInts =? NULL then sendErrorResponse p RIL_E_NO_MEMORY;; retM false
    else
      let* ig := ignoreBF p in
      (if ig then my_enqueue request (FPtr pInts) (zlen args * 4) FMT_IGNORE p;; free pInts
       else my_enqueue request (FPtr pInts) (zlen args * 4) FMT_INTS p);;
      retM true.

(** [CallForwardInfo] of the interface. *)
Record CallForwardInfo := mkCallForwardInfo {
  cf_status : Z; cf_reason : Z; cf_serviceClass : Z; cf_toa : Z; cf_number : list Z; cf_timeSeconds : Z }.

(** ril_service.cpp:720-749 [dispatchCallForwardStatus]. *)
Definition dispatchCallForwardStatus (serial slotId request : Z) (callInfo : CallForwardInfo) : SVC bool :=
  let* p := addRequestToList serial slotId request in
  if p =? NULL then retM false
  else
    let* o := copyHidlStringToRil (cf_number callInfo) p in
    match o with
    | None => retM false
    | Some number =>
        let cf := FSub [("status", FInt (cf_status callInfo)); ("reason", FInt (cf_reason callInfo));
                        ("serviceClass", FInt (cf_serviceClass callInfo)); ("toa", FInt (cf_toa callInfo)); ("number", FPtr number);
                        ("timeSeconds", FInt (cf_timeSeconds callInfo))] in
        let* ig := ignoreBF p in
        (if ig then my_enqueue request cf (sizeof RIL_CallForwardInfo) FMT_IGNORE p;; memsetAndFreeStrings [number]
         else my_enqueue request cf (sizeof RIL_CallForwardInfo) FMT_CallFWST p);;
        retM true
    end.

(** ril_service.cpp:751-762 [dispatchRaw]. *)
Definition dispatchRaw (serial slotId request : Z) (rawBytes : list Z) : SVC bool :=
  let* p := addRequestToList serial slotId request in
  if p =? NULL then retM false
  else my_enqueue request (FVal (VVec (map VInt rawBytes))) (zlen rawBytes) FMT_IGNORE p;; retM true.

(** [SimApdu] of the interface. *)
Record SimApdu := mkSimApdu {
  ap_sessionId : Z; ap_cla : Z; ap_instruction : Z; ap_p1 : Z; ap_p2 : Z; ap_p3 : Z; ap_data : list Z }.

(** ril_service.cpp:764-788 [dispatchIccApdu]. *)
Definition dispatchIccApdu (serial slotId request : Z) (message : SimApdu) : SVC bool :=
  let* p := addRequestToList serial slotId request in
  if p =? NULL then retM false
  else
    let* o := copyHidlStringToRil (ap_data message) p in
    match o with
    | None => retM false
    | Some data =>
        my_enqueue request
          (FSub [("sessionid", FInt (ap_sessionId message)); ("cla", FInt (ap_cla message)); ("instruction", FInt (ap_instruction message));
                 ("p1", FInt (ap_p1 message)); ("p2", FInt (ap_p2 message)); ("p3", FInt (ap_p3 message)); ("data", FPtr data)])
          (sizeof RIL_SIM_APDU) FMT_IccAPDU p;;
        retM true
    end.

End Dispatch.
