(* ===== verification/RilRadio.v ===== *)
(** The requests of the framework (src/hal/libril/ril_service.cpp, the methods of [RadioImpl] and
    [OemHookImpl]). The structures of the interface are records with its members; the numbers of
    an enumeration are integers. *)

From stdpp Require Import base list gmap strings numbers.
From Stdlib Require Import ZArith Lia.
From S2P Require Import Prelude CFloat RilEvent RilTables Ril RilMem RilStructs RilConvert RilService RilResponses RilCodes RilDispatch.

Local Open Scope Z_scope.
Local Open Scope st_scope.
Local Open Scope rec_scope.

(** ril_service.cpp:80-80 [BOOL_TO_INT]. *)
Definition BOOL_TO_INT (x : bool) : Z := if x then 1 else 0.

(** [x ? "1" : "0"]. *)
Definition one_or_zero (x : bool) : list Z := if x then str "1" else str "0".

Definition void_ (m : SVC bool) : SVC unit := m;; retM tt.

(** What is stored in a field of a structure. *)
Definition stored (T : cty) (path : list string) (v : Z) : option Z :=
  '(_, t) ← at_path T path;
  match t with
  | Num true n => Some (to_signed n (v mod 2 ^ (8 * n)))
  | Num false n => Some (v mod 2 ^ (8 * n))
  | _ => None
  end.

(** [int] addition. *)
Definition add_int (a b : Z) : option Z := if (- 2 ^ 31 <=? a + b) && (a + b <? 2 ^ 31) then Some (a + b) else None.

(** * The structures of the interface *)

Record UusInfo := mkUusInfo { uu_uusType : Z; uu_uusDcs : Z; uu_uusData : list Z }.
Record Dial := mkDial { di_address : list Z; di_clir : Z; di_uusInfo : list UusInfo }.
Record DataProfileInfo := mkDataProfileInfo {
  dp_profileId : Z; dp_apn : list Z; dp_protocol : list Z; dp_roamingProtocol : list Z; dp_authType : Z; dp_user : list Z;
  dp_password : list Z; dp_type : Z; dp_maxConnsTime : Z; dp_maxConns : Z; dp_waitTime : Z; dp_enabled : bool;
  dp_supportedApnTypesBitmap : Z; dp_bearerBitmap : Z; dp_mtu : Z; dp_mvnoType : Z; dp_mvnoMatchData : list Z }.
Record IccIo := mkIccIo {
  io_command : Z; io_fileId : Z; io_path : list Z; io_p1 : Z; io_p2 : Z; io_p3 : Z; io_data : list Z; io_pin2 : list Z; io_aid : list Z }.
Record CdmaSmsAddress := mkCdmaSmsAddress {
  ca_digitMode : Z; ca_numberMode : Z; ca_numberType : Z; ca_numberPlan : Z; ca_digits : list Z }.
Record CdmaSmsSubaddress := mkCdmaSmsSubaddress { cs_subaddressType : Z; cs_odd : bool; cs_digits : list Z }.
Record CdmaSmsMessage := mkCdmaSmsMessage {
  cm_teleserviceId : Z; cm_isServicePresent : bool; cm_serviceCategory : Z; cm_address : CdmaSmsAddress;
  cm_subAddress : CdmaSmsSubaddress; cm_bearerData : list Z }.
Record GsmBroadcastSmsConfigInfo := mkGsmConfig {
  gc_fromServiceId : Z; gc_toServiceId : Z; gc_fromCodeScheme : Z; gc_toCodeScheme : Z; gc_selected : bool }.
Record CdmaBroadcastSmsConfigInfo := mkCdmaConfig { cc_serviceCategory : Z; cc_language : Z; cc_selected : bool }.
Record GsmSmsMessage := mkGsmSms { gm_smscPdu : list Z; gm_pdu : list Z }.
Record ImsSmsMessage := mkImsSms {
  im_tech : Z; im_retry : bool; im_messageRef : Z; im_cdmaMessage : list CdmaSmsMessage; im_gsmMessage : list GsmSmsMessage }.
Record Carrier := mkCarrier { cr_mcc : list Z; cr_mnc : list Z; cr_matchType : Z; cr_matchData : list Z }.

Section Radio.
Context `{HT : RadioTypes}.
Variable mtk : bool.

(** A request that is answered at once with an error. *)
Definition refuse (serial slotId request err : Z) : SVC unit :=
  let* p := addRequestToList serial slotId request in
  if p =? NULL then retM tt else sendErrorResponse mtk p err.

(** A request is entered, and what follows when that succeeded. *)
Definition with_request (serial slotId request : Z) (body : Z -> SVC unit) : SVC unit :=
  let* p := addRequestToList serial slotId request in
  if p =? NULL then retM tt else body p.

(** * Methods *)

(** ril_service.cpp:860-866 [RadioImpl::getIccCardStatus]. *)
Definition getIccCardStatus (mSlotId serial : Z) : SVC unit :=
  void_ (dispatchVoid serial mSlotId RIL_REQUEST_GET_SIM_STATUS).

(** ril_service.cpp:868-876 [RadioImpl::supplyIccPinForApp]. *)
Definition supplyIccPinForApp (mSlotId serial : Z) (pin : list Z) (aid : list Z) : SVC unit :=
  void_ (dispatchStrings_args mtk serial mSlotId RIL_REQUEST_ENTER_SIM_PIN [pin; aid]).

(** ril_service.cpp:878-886 [RadioImpl::supplyIccPukForApp]. *)
Definition supplyIccPukForApp (mSlotId serial : Z) (puk : list Z) (pin : list Z) (aid : list Z) : SVC unit :=
  void_ (dispatchStrings_args mtk serial mSlotId RIL_REQUEST_ENTER_SIM_PUK [puk; pin; aid]).

(** ril_service.cpp:888-896 [RadioImpl::supplyIccPin2ForApp]. *)
Definition supplyIccPin2ForApp (mSlotId serial : Z) (pin2 : list Z) (aid : list Z) : SVC unit :=
  void_ (dispatchStrings_args mtk serial mSlotId RIL_REQUEST_ENTER_SIM_PIN2 [pin2; aid]).

(** ril_service.cpp:898-906 [RadioImpl::supplyIccPuk2ForApp]. *)
Definition supplyIccPuk2ForApp (mSlotId serial : Z) (puk2 : list Z) (pin2 : list Z) (aid : list Z) : SVC unit :=
  void_ (dispatchStrings_args mtk serial mSlotId RIL_REQUEST_ENTER_SIM_PUK2 [puk2; pin2; aid]).

(** ril_service.cpp:908-916 [RadioImpl::changeIccPinForApp]. *)
Definition changeIccPinForApp (mSlotId serial : Z) (oldPin : list Z) (newPin : list Z) (aid : list Z) : SVC unit :=
  void_ (dispatchStrings_args mtk serial mSlotId RIL_REQUEST_CHANGE_SIM_PIN [oldPin; newPin; aid]).

(** ril_service.cpp:918-926 [RadioImpl::changeIccPin2ForApp]. *)
Definition changeIccPin2ForApp (mSlotId serial : Z) (oldPin2 : list Z) (newPin2 : list Z) (aid : list Z) : SVC unit :=
  void_ (dispatchStrings_args mtk serial mSlotId RIL_REQUEST_CHANGE_SIM_PIN2 [oldPin2; newPin2; aid]).

(** ril_service.cpp:928-936 [RadioImpl::supplyNetworkDepersonalization]. *)
Definition supplyNetworkDepersonalization (mSlotId serial : Z) (netPin : list Z) : SVC unit :=
  void_ (dispatchStrings_args mtk serial mSlotId RIL_REQUEST_ENTER_NETWORK_DEPERSONALIZATION [netPin]).

(** ril_service.cpp:938-944 [RadioImpl::getCurrentCalls]. *)
Definition getCurrentCalls (mSlotId serial : Z) : SVC unit :=
  void_ (dispatchVoid serial mSlotId RIL_REQUEST_GET_CURRENT_CALLS).

(** ril_service.cpp:946-986 [dial]. *)
Definition dial (mSlotId serial : Z) (dialInfo : Dial) : SVC unit :=
  with_request serial mSlotId RIL_REQUEST_DIAL (fun p =>
    let* o := copyHidlStringToRil mtk (di_address dialInfo) p in
    match o with
    | None => retM tt
    | Some address =>
        let send (uusInfo : field) (uusData : Z) :=
          my_enqueue RIL_REQUEST_DIAL
            (FSub [("address", FPtr address); ("clir", FInt (di_clir dialInfo)); ("uusInfo", uusInfo)]) (sizeof RIL_Dial) FMT_IGNORE p;;
          memsetAndFreeStrings [address; uusData] in
        match di_uusInfo dialInfo with
        | [] => send (FVal VNull) NULL
        | u :: _ =>
            let* o := copy_strings mtk p [uu_uusData u] [address] in
            match o with
            | Some [_; uusData] =>
                send (FSub [("uusType", FInt (uu_uusType u)); ("uusDcs", FInt (uu_uusDcs u)); ("uusLength", FInt (zlen (uu_uusData u)));
                            ("uusData", FPtr uusData)]) uusData
            | _ => retM tt
            end
        end
    end).

(** ril_service.cpp:988-995 [RadioImpl::getImsiForApp]. *)
Definition getImsiForApp (mSlotId serial : Z) (aid : list Z) : SVC unit :=
  void_ (dispatchStrings_args mtk serial mSlotId RIL_REQUEST_GET_IMSI [aid]).

(** ril_service.cpp:997-1003 [RadioImpl::hangup]. *)
Definition hangup (mSlotId serial : Z) (gsmIndex : Z) : SVC unit :=
  void_ (dispatchInts mtk serial mSlotId RIL_REQUEST_HANGUP [gsmIndex]).

(** ril_service.cpp:1005-1011 [RadioImpl::hangupWaitingOrBackground]. *)
Definition hangupWaitingOrBackground (mSlotId serial : Z) : SVC unit :=
  void_ (dispatchVoid serial mSlotId RIL_REQUEST_HANGUP_WAITING_OR_BACKGROUND).

(** ril_service.cpp:1013-1019 [RadioImpl::hangupForegroundResumeBackground]. *)
Definition hangupForegroundResumeBackground (mSlotId serial : Z) : SVC unit :=
  void_ (dispatchVoid serial mSlotId RIL_REQUEST_HANGUP_FOREGROUND_RESUME_BACKGROUND).

(** ril_service.cpp:1021-1027 [RadioImpl::switchWaitingOrHoldingAndActive]. *)
Definition switchWaitingOrHoldingAndActive (mSlotId serial : Z) : SVC unit :=
  void_ (dispatchVoid serial mSlotId RIL_REQUEST_SWITCH_WAITING_OR_HOLDING_AND_ACTIVE).

(** ril_service.cpp:1029-1035 [RadioImpl::conference]. *)
Definition conference (mSlotId serial : Z) : SVC unit :=
  void_ (dispatchVoid serial mSlotId RIL_REQUEST_CONFERENCE).

(** ril_service.cpp:1037-1043 [RadioImpl::rejectCall]. *)
Definition rejectCall (mSlotId serial : Z) : SVC unit :=
  void_ (dispatchVoid serial mSlotId RIL_REQUEST_UDUB).

(** ril_service.cpp:1045-1051 [RadioImpl::getLastCallFailCause]. *)
Definition getLastCallFailCause (mSlotId serial : Z) : SVC unit :=
  void_ (dispatchVoid serial mSlotId RIL_REQUEST_LAST_CALL_FAIL_CAUSE).

(** ril_service.cpp:1053-1068 [getSignalStrength]. *)
Definition getSignalStrength (mSlotId serial : Z) : SVC unit :=
  if mtk then refuse serial mSlotId RIL_REQUEST_SIGNAL_STRENGTH RIL_E_REQUEST_NOT_SUPPORTED
  else void_ (dispatchVoid serial mSlotId RIL_REQUEST_SIGNAL_STRENGTH).

(** ril_service.cpp:1070-1076 [RadioImpl::getVoiceRegistrationState]. *)
Definition getVoiceRegistrationState (mSlotId serial : Z) : SVC unit :=
  void_ (dispatchVoid serial mSlotId RIL_REQUEST_VOICE_REGISTRATION_STATE).

(** ril_service.cpp:1078-1084 [RadioImpl::getDataRegistrationState]. *)
Definition getDataRegistrationState (mSlotId serial : Z) : SVC unit :=
  void_ (dispatchVoid serial mSlotId RIL_REQUEST_DATA_REGISTRATION_STATE).

(** ril_service.cpp:1086-1092 [RadioImpl::getOperator]. *)
Definition getOperator (mSlotId serial : Z) : SVC unit :=
  void_ (dispatchVoid serial mSlotId RIL_REQUEST_OPERATOR).

(** ril_service.cpp:1094-1107 [RadioImpl::setRadioPower]. *)
Definition setRadioPower (mSlotId serial : Z) (on : bool) : SVC unit :=
  void_ (dispatchInts mtk serial mSlotId RIL_REQUEST_RADIO_POWER [BOOL_TO_INT on]).

(** ril_service.cpp:1109-1115 [RadioImpl::sendDtmf]. *)
Definition sendDtmf (mSlotId serial : Z) (s : list Z) : SVC unit :=
  void_ (dispatchString mtk serial mSlotId RIL_REQUEST_DTMF s).

(** ril_service.cpp:1117-1124 [RadioImpl::sendSms]. *)
Definition sendSms (mSlotId serial : Z) (smscPdu : list Z) (pdu : list Z) : SVC unit :=
  void_ (dispatchStrings_args mtk serial mSlotId RIL_REQUEST_SEND_SMS [smscPdu; pdu]).

(** ril_service.cpp:1126-1133 [RadioImpl::sendSMSExpectMore]. *)
Definition sendSMSExpectMore (mSlotId serial : Z) (smscPdu : list Z) (pdu : list Z) : SVC unit :=
  void_ (dispatchStrings_args mtk serial mSlotId RIL_REQUEST_SEND_SMS_EXPECT_MORE [smscPdu; pdu]).

(** ril_service.cpp:1135-1151 [convertMvnoTypeToString]. *)
Definition convertMvnoTypeToString (type : Z) : option (list Z) :=
  if type =? MVNO_IMSI then Some (str "imsi")
  else if type =? MVNO_GID then Some (str "gid")
  else if type =? MVNO_SPN then Some (str "spn")
  else if type =? MVNO_NONE then Some []
  else None.

(** ril_service.cpp:1153-1231 [setupDataCall]. The strings depend on the version of the vendor's library. *)
Definition setupDataCall (mSlotId serial radioTechnology : Z) (d : DataProfileInfo) (modemCognitive roamingAllowed isRoaming : bool) : SVC unit :=
  let* s := getM in
  let v := version (lib s) in
  let* tech := if 4 <=? v then of_option (add_int radioTechnology 2) else retM 0 in
  let common := [print_int tech; print_int (dp_profileId d); dp_apn d; dp_user d; dp_password d; print_int (dp_authType d)] in
  if (4 <=? v) && (v <=? 14) then
    let protocol := if isRoaming then dp_roamingProtocol d else dp_protocol d in
    let i := cid_index 4 (-1) (dataCallCids s) in
    let i := if (i <? 4)%nat then Z.of_nat i + 1 else 0 in
    void_ (dispatchStrings_args mtk serial mSlotId RIL_REQUEST_SETUP_DATA_CALL
             (common ++ [protocol] ++ (if mtk then [print_int i] else [])))
  else if 15 <=? v then
    match convertMvnoTypeToString (dp_mvnoType d) with
    | None => refuse serial mSlotId RIL_REQUEST_SETUP_DATA_CALL RIL_E_INVALID_ARGUMENTS
    | Some mvnoTypeStr =>
        void_ (dispatchStrings_args mtk serial mSlotId RIL_REQUEST_SETUP_DATA_CALL
                 (common ++ [dp_protocol d; dp_roamingProtocol d; print_int (dp_supportedApnTypesBitmap d); print_int (dp_bearerBitmap d);
                             one_or_zero modemCognitive; print_int (dp_mtu d); mvnoTypeStr; dp_mvnoMatchData d; one_or_zero roamingAllowed]))
    end
  else refuse serial mSlotId RIL_REQUEST_SETUP_DATA_CALL RIL_E_REQUEST_NOT_SUPPORTED.

(** ril_service.cpp:1233-1276 [iccIOForApp]. The vendor's library wants a length for a response of its own. *)
Definition iccIOForApp (mSlotId serial : Z) (iccIo : IccIo) : SVC unit :=
  with_request serial mSlotId RIL_REQUEST_SIM_IO (fun p =>
    let p3 := if mtk && (io_command iccIo =? 192) && (io_p3 iccIo =? 0) then 15 else io_p3 iccIo in
    let* o := copy_strings mtk p [io_path iccIo; io_data iccIo; io_pin2 iccIo; io_aid iccIo] [] in
    match o with
    | Some [path; data; pin2; aid] =>
        my_enqueue RIL_REQUEST_SIM_IO
          (FSub [("command", FInt (io_command iccIo)); ("fileid", FInt (io_fileId iccIo)); ("path", FPtr path); ("p1", FInt (io_p1 iccIo));
                 ("p2", FInt (io_p2 iccIo)); ("p3", FInt p3); ("data", FPtr data); ("pin2", FPtr pin2); ("aidPtr", FPtr aid)])
          (sizeof RIL_SIM_IO_v6) FMT_SIMIO p
    | _ => retM tt
    end).

(** ril_service.cpp:1278-1284 [RadioImpl::sendUssd]. *)
Definition sendUssd (mSlotId serial : Z) (ussd : list Z) : SVC unit :=
  void_ (dispatchString mtk serial mSlotId RIL_REQUEST_SEND_USSD ussd).

(** ril_service.cpp:1286-1292 [RadioImpl::cancelPendingUssd]. *)
Definition cancelPendingUssd (mSlotId serial : Z) : SVC unit :=
  void_ (dispatchVoid serial mSlotId RIL_REQUEST_CANCEL_USSD).

(** ril_service.cpp:1294-1300 [RadioImpl::getClir]. *)
Definition getClir (mSlotId serial : Z) : SVC unit :=
  void_ (dispatchVoid serial mSlotId RIL_REQUEST_GET_CLIR).

(** ril_service.cpp:1302-1308 [RadioImpl::setClir]. *)
Definition setClir (mSlotId serial : Z) (status : Z) : SVC unit :=
  void_ (dispatchInts mtk serial mSlotId RIL_REQUEST_SET_CLIR [status]).

(** ril_service.cpp:1310-1317 [RadioImpl::getCallForwardStatus]. *)
Definition getCallForwardStatus (mSlotId serial : Z) (callInfo : CallForwardInfo) : SVC unit :=
  void_ (dispatchCallForwardStatus mtk serial mSlotId RIL_REQUEST_QUERY_CALL_FORWARD_STATUS callInfo).

(** ril_service.cpp:1319-1326 [RadioImpl::setCallForward]. *)
Definition setCallForward (mSlotId serial : Z) (callInfo : CallForwardInfo) : SVC unit :=
  void_ (dispatchCallForwardStatus mtk serial mSlotId RIL_REQUEST_SET_CALL_FORWARD callInfo).

(** ril_service.cpp:1328-1334 [RadioImpl::getCallWaiting]. *)
Definition getCallWaiting (mSlotId serial : Z) (serviceClass : Z) : SVC unit :=
  void_ (dispatchInts mtk serial mSlotId RIL_REQUEST_QUERY_CALL_WAITING [serviceClass]).

(** ril_service.cpp:1336-1343 [RadioImpl::setCallWaiting]. *)
Definition setCallWaiting (mSlotId serial : Z) (enable : bool) (serviceClass : Z) : SVC unit :=
  void_ (dispatchInts mtk serial mSlotId RIL_REQUEST_SET_CALL_WAITING [BOOL_TO_INT enable; serviceClass]).

(** ril_service.cpp:1345-1353 [RadioImpl::acknowledgeLastIncomingGsmSms]. *)
Definition acknowledgeLastIncomingGsmSms (mSlotId serial : Z) (success : bool) (cause : Z) : SVC unit :=
  void_ (dispatchInts mtk serial mSlotId RIL_REQUEST_SMS_ACKNOWLEDGE [BOOL_TO_INT success; cause]).

(** ril_service.cpp:1355-1361 [RadioImpl::acceptCall]. *)
Definition acceptCall (mSlotId serial : Z) : SVC unit :=
  void_ (dispatchVoid serial mSlotId RIL_REQUEST_ANSWER).

(** Forget a data call. *)
Definition forget_cid (cid : Z) : SVC unit :=
  modM (fun s => let i := cid_index 4 cid (dataCallCids s) in
                 if (i <? 4)%nat then s <| dataCallCids := <[i := -1]> (dataCallCids s) |> else s).

(** ril_service.cpp:1363-1379 [deactivateDataCall]. *)
Definition deactivateDataCall (mSlotId serial cid : Z) (reasonRadioShutDown : bool) : SVC unit :=
  (if mtk then forget_cid cid else retM tt);;
  void_ (dispatchStrings_args mtk serial mSlotId RIL_REQUEST_DEACTIVATE_DATA_CALL [print_int cid; one_or_zero reasonRadioShutDown]).

(** ril_service.cpp:1381-1391 [RadioImpl::getFacilityLockForApp]. *)
Definition getFacilityLockForApp (mSlotId serial : Z) (facility : list Z) (password : list Z) (serviceClass : Z) (appId : list Z) : SVC unit :=
  void_ (dispatchStrings_args mtk serial mSlotId RIL_REQUEST_QUERY_FACILITY_LOCK [facility; password; print_int serviceClass; appId]).

(** ril_service.cpp:1393-1403 [RadioImpl::setFacilityLockForApp]. *)
Definition setFacilityLockForApp (mSlotId serial : Z) (facility : list Z) (lockState : bool) (password : list Z) (serviceClass : Z) (appId : list Z) : SVC unit :=
  void_ (dispatchStrings_args mtk serial mSlotId RIL_REQUEST_SET_FACILITY_LOCK [facility; one_or_zero lockState; password; print_int serviceClass; appId]).

(** ril_service.cpp:1405-1414 [RadioImpl::setBarringPassword]. *)
Definition setBarringPassword (mSlotId serial : Z) (facility : list Z) (oldPassword : list Z) (newPassword : list Z) : SVC unit :=
  void_ (dispatchStrings_args mtk serial mSlotId RIL_REQUEST_CHANGE_BARRING_PASSWORD [oldPassword; newPassword]).

(** ril_service.cpp:1416-1422 [RadioImpl::getNetworkSelectionMode]. *)
Definition getNetworkSelectionMode (mSlotId serial : Z) : SVC unit :=
  void_ (dispatchVoid serial mSlotId RIL_REQUEST_QUERY_NETWORK_SELECTION_MODE).

(** ril_service.cpp:1424-1430 [RadioImpl::setNetworkSelectionModeAutomatic]. *)
Definition setNetworkSelectionModeAutomatic (mSlotId serial : Z) : SVC unit :=
  void_ (dispatchVoid serial mSlotId RIL_REQUEST_SET_NETWORK_SELECTION_AUTOMATIC).

(** ril_service.cpp:1432-1440 [RadioImpl::setNetworkSelectionModeManual]. *)
Definition setNetworkSelectionModeManual (mSlotId serial : Z) (operatorNumeric : list Z) : SVC unit :=
  void_ (dispatchString mtk serial mSlotId RIL_REQUEST_SET_NETWORK_SELECTION_MANUAL operatorNumeric).

(** ril_service.cpp:1442-1448 [RadioImpl::getAvailableNetworks]. *)
Definition getAvailableNetworks (mSlotId serial : Z) : SVC unit :=
  void_ (dispatchVoid serial mSlotId RIL_REQUEST_QUERY_AVAILABLE_NETWORKS).

(** ril_service.cpp:1459-1466 [RadioImpl::stopNetworkScan]. *)
Definition stopNetworkScan (mSlotId serial : Z) : SVC unit :=
  void_ (dispatchVoid serial mSlotId RIL_REQUEST_STOP_NETWORK_SCAN).

(** ril_service.cpp:1468-1475 [RadioImpl::startDtmf]. *)
Definition startDtmf (mSlotId serial : Z) (s : list Z) : SVC unit :=
  void_ (dispatchString mtk serial mSlotId RIL_REQUEST_DTMF_START s).

(** ril_service.cpp:1477-1483 [RadioImpl::stopDtmf]. *)
Definition stopDtmf (mSlotId serial : Z) : SVC unit :=
  void_ (dispatchVoid serial mSlotId RIL_REQUEST_DTMF_STOP).

(** ril_service.cpp:1485-1491 [RadioImpl::getBasebandVersion]. *)
Definition getBasebandVersion (mSlotId serial : Z) : SVC unit :=
  void_ (dispatchVoid serial mSlotId RIL_REQUEST_BASEBAND_VERSION).

(** ril_service.cpp:1493-1499 [RadioImpl::separateConnection]. *)
Definition separateConnection (mSlotId serial : Z) (gsmIndex : Z) : SVC unit :=
  void_ (dispatchInts mtk serial mSlotId RIL_REQUEST_SEPARATE_CONNECTION [gsmIndex]).

(** ril_service.cpp:1501-1507 [RadioImpl::setMute]. *)
Definition setMute (mSlotId serial : Z) (enable : bool) : SVC unit :=
  void_ (dispatchInts mtk serial mSlotId RIL_REQUEST_SET_MUTE [BOOL_TO_INT enable]).

(** ril_service.cpp:1509-1515 [RadioImpl::getMute]. *)
Definition getMute (mSlotId serial : Z) : SVC unit :=
  void_ (dispatchVoid serial mSlotId RIL_REQUEST_GET_MUTE).

(** ril_service.cpp:1517-1523 [RadioImpl::getClip]. *)
Definition getClip (mSlotId serial : Z) : SVC unit :=
  void_ (dispatchVoid serial mSlotId RIL_REQUEST_QUERY_CLIP).

(** ril_service.cpp:1525-1531 [RadioImpl::getDataCallList]. *)
Definition getDataCallList (mSlotId serial : Z) : SVC unit :=
  void_ (dispatchVoid serial mSlotId RIL_REQUEST_DATA_CALL_LIST).

(** ril_service.cpp:1533-1540 [RadioImpl::setSuppServiceNotifications]. *)
Definition setSuppServiceNotifications (mSlotId serial : Z) (enable : bool) : SVC unit :=
  void_ (dispatchInts mtk serial mSlotId RIL_REQUEST_SET_SUPP_SVC_NOTIFICATION [BOOL_TO_INT enable]).

(** ril_service.cpp:1542-1570 [writeSmsToSim]. *)
Definition writeSmsToSim (mSlotId serial status : Z) (pdu smsc : list Z) : SVC unit :=
  with_request serial mSlotId RIL_REQUEST_WRITE_SMS_TO_SIM (fun p =>
    let* o := copy_strings mtk p [pdu; smsc] [] in
    match o with
    | Some [a; b] =>
        my_enqueue RIL_REQUEST_WRITE_SMS_TO_SIM (FSub [("status", FInt status); ("pdu", FPtr a); ("smsc", FPtr b)])
          (sizeof RIL_SMS_WriteArgs) FMT_WrSMSSIM p
    | _ => retM tt
    end).

(** ril_service.cpp:1572-1578 [RadioImpl::deleteSmsOnSim]. *)
Definition deleteSmsOnSim (mSlotId serial : Z) (index : Z) : SVC unit :=
  void_ (dispatchInts mtk serial mSlotId RIL_REQUEST_DELETE_SMS_ON_SIM [index]).

(** ril_service.cpp:1580-1586 [RadioImpl::setBandMode]. *)
Definition setBandMode (mSlotId serial : Z) (mode : Z) : SVC unit :=
  void_ (dispatchInts mtk serial mSlotId RIL_REQUEST_SET_BAND_MODE [mode]).

(** ril_service.cpp:1588-1594 [RadioImpl::getAvailableBandModes]. *)
Definition getAvailableBandModes (mSlotId serial : Z) : SVC unit :=
  void_ (dispatchVoid serial mSlotId RIL_REQUEST_QUERY_AVAILABLE_BAND_MODE).

(** ril_service.cpp:1596-1603 [RadioImpl::sendEnvelope]. *)
Definition sendEnvelope (mSlotId serial : Z) (command : list Z) : SVC unit :=
  void_ (dispatchString mtk serial mSlotId RIL_REQUEST_STK_SEND_ENVELOPE_COMMAND command).

(** ril_service.cpp:1605-1613 [RadioImpl::sendTerminalResponseToSim]. *)
Definition sendTerminalResponseToSim (mSlotId serial : Z) (commandResponse : list Z) : SVC unit :=
  void_ (dispatchString mtk serial mSlotId RIL_REQUEST_STK_SEND_TERMINAL_RESPONSE commandResponse).

(** ril_service.cpp:1615-1622 [RadioImpl::handleStkCallSetupRequestFromSim]. *)
Definition handleStkCallSetupRequestFromSim (mSlotId serial : Z) (accept : bool) : SVC unit :=
  void_ (dispatchInts mtk serial mSlotId RIL_REQUEST_STK_HANDLE_CALL_SETUP_REQUESTED_FROM_SIM [BOOL_TO_INT accept]).

(** ril_service.cpp:1624-1630 [RadioImpl::explicitCallTransfer]. *)
Definition explicitCallTransfer (mSlotId serial : Z) : SVC unit :=
  void_ (dispatchVoid serial mSlotId RIL_REQUEST_EXPLICIT_CALL_TRANSFER).

(** ril_service.cpp:1632-1638 [RadioImpl::setPreferredNetworkType]. *)
Definition setPreferredNetworkType (mSlotId serial : Z) (nwType : Z) : SVC unit :=
  void_ (dispatchInts mtk serial mSlotId RIL_REQUEST_SET_PREFERRED_NETWORK_TYPE [nwType]).

(** ril_service.cpp:1640-1646 [RadioImpl::getPreferredNetworkType]. *)
Definition getPreferredNetworkType (mSlotId serial : Z) : SVC unit :=
  void_ (dispatchVoid serial mSlotId RIL_REQUEST_GET_PREFERRED_NETWORK_TYPE).

(** ril_service.cpp:1648-1654 [RadioImpl::getNeighboringCids]. *)
Definition getNeighboringCids (mSlotId serial : Z) : SVC unit :=
  void_ (dispatchVoid serial mSlotId RIL_REQUEST_GET_NEIGHBORING_CELL_IDS).

(** ril_service.cpp:1656-1662 [RadioImpl::setLocationUpdates]. *)
Definition setLocationUpdates (mSlotId serial : Z) (enable : bool) : SVC unit :=
  void_ (dispatchInts mtk serial mSlotId RIL_REQUEST_SET_LOCATION_UPDATES [BOOL_TO_INT enable]).

(** ril_service.cpp:1664-1670 [RadioImpl::setCdmaSubscriptionSource]. *)
Definition setCdmaSubscriptionSource (mSlotId serial : Z) (cdmaSub : Z) : SVC unit :=
  void_ (dispatchInts mtk serial mSlotId RIL_REQUEST_CDMA_SET_SUBSCRIPTION_SOURCE [cdmaSub]).

(** ril_service.cpp:1672-1678 [RadioImpl::setCdmaRoamingPreference]. *)
Definition setCdmaRoamingPreference (mSlotId serial : Z) (type : Z) : SVC unit :=
  void_ (dispatchInts mtk serial mSlotId RIL_REQUEST_CDMA_SET_ROAMING_PREFERENCE [type]).

(** ril_service.cpp:1680-1686 [RadioImpl::getCdmaRoamingPreference]. *)
Definition getCdmaRoamingPreference (mSlotId serial : Z) : SVC unit :=
  void_ (dispatchVoid serial mSlotId RIL_REQUEST_CDMA_QUERY_ROAMING_PREFERENCE).

(** ril_service.cpp:1688-1694 [RadioImpl::setTTYMode]. *)
Definition setTTYMode (mSlotId serial : Z) (mode : Z) : SVC unit :=
  void_ (dispatchInts mtk serial mSlotId RIL_REQUEST_SET_TTY_MODE [mode]).

(** ril_service.cpp:1696-1710 [getTTYMode]. *)
Definition getTTYMode (mSlotId serial : Z) : SVC unit :=
  if mtk then refuse serial mSlotId RIL_REQUEST_QUERY_TTY_MODE RIL_E_REQUEST_NOT_SUPPORTED
  else void_ (dispatchVoid serial mSlotId RIL_REQUEST_QUERY_TTY_MODE).

(** ril_service.cpp:1712-1719 [RadioImpl::setPreferredVoicePrivacy]. *)
Definition setPreferredVoicePrivacy (mSlotId serial : Z) (enable : bool) : SVC unit :=
  void_ (dispatchInts mtk serial mSlotId RIL_REQUEST_CDMA_SET_PREFERRED_VOICE_PRIVACY_MODE [BOOL_TO_INT enable]).

(** ril_service.cpp:1721-1727 [RadioImpl::getPreferredVoicePrivacy]. *)
Definition getPreferredVoicePrivacy (mSlotId serial : Z) : SVC unit :=
  void_ (dispatchVoid serial mSlotId RIL_REQUEST_CDMA_QUERY_PREFERRED_VOICE_PRIVACY_MODE).

(** ril_service.cpp:1729-1736 [RadioImpl::sendCDMAFeatureCode]. *)
Definition sendCDMAFeatureCode (mSlotId serial : Z) (featureCode : list Z) : SVC unit :=
  void_ (dispatchString mtk serial mSlotId RIL_REQUEST_CDMA_FLASH featureCode).

(** ril_service.cpp:1738-1747 [RadioImpl::sendBurstDtmf]. *)
Definition sendBurstDtmf (mSlotId serial : Z) (dtmf : list Z) (on : Z) (off : Z) : SVC unit :=
  void_ (dispatchStrings_args mtk serial mSlotId RIL_REQUEST_CDMA_BURST_DTMF [dtmf; print_int on; print_int off]).

(** The first digits, as many as the count that is stored says and the array holds. *)
Definition some_digits (count max : Z) (digits : list Z) : pval := VVec (map VInt (take (Z.to_nat (Z.min count max)) digits)).

(** ril_service.cpp:1749-1778 [constructCdmaSms]. *)
Definition constructCdmaSms (sms : CdmaSmsMessage) : option pval :=
  let T := RIL_CDMA_SMS_Message in
  let a := cm_address sms in
  let b := cm_subAddress sms in
  n ← stored T ["sAddress"; "number_of_digits"] (zlen (ca_digits a));
  k ← stored T ["sSubAddress"; "number_of_digits"] (zlen (cs_digits b));
  len ← stored T ["uBearerDataLen"] (zlen (cm_bearerData sms));
  Some (VRec [
    ("uTeleserviceID", VInt (cm_teleserviceId sms)); ("bIsServicePresent", VInt (BOOL_TO_INT (cm_isServicePresent sms)));
    ("uServicecategory", VInt (cm_serviceCategory sms));
    ("sAddress", VRec [("digit_mode", VInt (ca_digitMode a)); ("number_mode", VInt (ca_numberMode a)); ("number_type", VInt (ca_numberType a));
                       ("number_plan", VInt (ca_numberPlan a)); ("number_of_digits", VInt n);
                       ("digits", some_digits n RIL_CDMA_SMS_ADDRESS_MAX (ca_digits a))]);
    ("sSubAddress", VRec [("subaddressType", VInt (cs_subaddressType b)); ("odd", VInt (BOOL_TO_INT (cs_odd b))); ("number_of_digits", VInt k);
                          ("digits", some_digits k RIL_CDMA_SMS_SUBADDRESS_MAX (cs_digits b))]);
    ("uBearerDataLen", VInt len); ("aBearerData", some_digits len RIL_CDMA_SMS_BEARER_DATA_MAX (cm_bearerData sms))]).

(** ril_service.cpp:1780-1794 [sendCdmaSms]. *)
Definition sendCdmaSms (mSlotId serial : Z) (sms : CdmaSmsMessage) : SVC unit :=
  with_request serial mSlotId RIL_REQUEST_CDMA_SEND_SMS (fun p =>
    let* rcsm := of_option (constructCdmaSms sms) in
    my_enqueue RIL_REQUEST_CDMA_SEND_SMS (FVal rcsm) (sizeof RIL_CDMA_SMS_Message) FMT_RAW p).

(** ril_service.cpp:1796-1813 [acknowledgeLastIncomingCdmaSms]. *)
Definition acknowledgeLastIncomingCdmaSms (mSlotId serial errorClass smsCauseCode : Z) : SVC unit :=
  with_request serial mSlotId RIL_REQUEST_CDMA_SMS_ACKNOWLEDGE (fun p =>
    my_enqueue RIL_REQUEST_CDMA_SMS_ACKNOWLEDGE
      (FVal (VRec [("uErrorClass", VInt errorClass); ("uSMSCauseCode", VInt smsCauseCode)])) (sizeof RIL_CDMA_SMS_Ack) FMT_RAW p).

(** ril_service.cpp:1815-1821 [RadioImpl::getGsmBroadcastConfig]. *)
Definition getGsmBroadcastConfig (mSlotId serial : Z) : SVC unit :=
  void_ (dispatchVoid serial mSlotId RIL_REQUEST_GSM_GET_BROADCAST_SMS_CONFIG).

(** ril_service.cpp:1823-1852 [setGsmBroadcastConfig]. *)
Definition setGsmBroadcastConfig (mSlotId serial : Z) (configInfo : list GsmBroadcastSmsConfigInfo) : SVC unit :=
  with_request serial mSlotId RIL_REQUEST_GSM_SET_BROADCAST_SMS_CONFIG (fun p =>
    my_enqueue RIL_REQUEST_GSM_SET_BROADCAST_SMS_CONFIG
      (FVal (VVec (map (fun c => VRec [
         ("fromServiceId", VInt (gc_fromServiceId c)); ("toServiceId", VInt (gc_toServiceId c)); ("fromCodeScheme", VInt (gc_fromCodeScheme c));
         ("toCodeScheme", VInt (gc_toCodeScheme c)); ("selected", VInt (BOOL_TO_INT (gc_selected c)))]) configInfo)))
      (zlen configInfo * 4) FMT_RAW p).

(** ril_service.cpp:1854-1861 [RadioImpl::setGsmBroadcastActivation]. *)
Definition setGsmBroadcastActivation (mSlotId serial : Z) (activate : bool) : SVC unit :=
  void_ (dispatchInts mtk serial mSlotId RIL_REQUEST_GSM_SMS_BROADCAST_ACTIVATION [BOOL_TO_INT (negb activate)]).

(** ril_service.cpp:1863-1869 [RadioImpl::getCdmaBroadcastConfig]. *)
Definition getCdmaBroadcastConfig (mSlotId serial : Z) : SVC unit :=
  void_ (dispatchVoid serial mSlotId RIL_REQUEST_CDMA_GET_BROADCAST_SMS_CONFIG).

(** ril_service.cpp:1871-1898 [setCdmaBroadcastConfig]. *)
Definition setCdmaBroadcastConfig (mSlotId serial : Z) (configInfo : list CdmaBroadcastSmsConfigInfo) : SVC unit :=
  with_request serial mSlotId RIL_REQUEST_CDMA_SET_BROADCAST_SMS_CONFIG (fun p =>
    my_enqueue RIL_REQUEST_CDMA_SET_BROADCAST_SMS_CONFIG
      (FVal (VVec (map (fun c => VRec [
         ("service_category", VInt (cc_serviceCategory c)); ("language", VInt (cc_language c));
         ("selected", VInt (BOOL_TO_INT (cc_selected c)))]) configInfo)))
      (zlen configInfo * 4) FMT_RAW p).

(** ril_service.cpp:1900-1907 [RadioImpl::setCdmaBroadcastActivation]. *)
Definition setCdmaBroadcastActivation (mSlotId serial : Z) (activate : bool) : SVC unit :=
  void_ (dispatchInts mtk serial mSlotId RIL_REQUEST_CDMA_SMS_BROADCAST_ACTIVATION [BOOL_TO_INT (negb activate)]).

(** ril_service.cpp:1909-1915 [RadioImpl::getCDMASubscription]. *)
Definition getCDMASubscription (mSlotId serial : Z) : SVC unit :=
  void_ (dispatchVoid serial mSlotId RIL_REQUEST_CDMA_SUBSCRIPTION).

(** ril_service.cpp:1917-1933 [writeSmsToRuim]. *)
Definition writeSmsToRuim (mSlotId serial status : Z) (message : CdmaSmsMessage) : SVC unit :=
  with_request serial mSlotId RIL_REQUEST_CDMA_WRITE_SMS_TO_RUIM (fun p =>
    let* rcsm := of_option (constructCdmaSms message) in
    my_enqueue RIL_REQUEST_CDMA_WRITE_SMS_TO_RUIM (FVal (VRec [("status", VInt status); ("message", rcsm)]))
      (sizeof RIL_CDMA_SMS_WriteArgs) FMT_RAW p).

(** ril_service.cpp:1935-1941 [RadioImpl::deleteSmsOnRuim]. *)
Definition deleteSmsOnRuim (mSlotId serial : Z) (index : Z) : SVC unit :=
  void_ (dispatchInts mtk serial mSlotId RIL_REQUEST_CDMA_DELETE_SMS_ON_RUIM [index]).

(** ril_service.cpp:1943-1953 [getDeviceIdentity]. *)
Definition getDeviceIdentity (mSlotId serial : Z) : SVC unit :=
  (if mtk then
     dispatchVoid (-1) mSlotId RIL_REQUEST_GET_IMEI;;
     void_ (dispatchVoid (-1) mSlotId RIL_REQUEST_GET_IMEISV)
   else retM tt);;
  void_ (dispatchVoid serial mSlotId RIL_REQUEST_DEVICE_IDENTITY).

(** ril_service.cpp:1955-1961 [RadioImpl::exitEmergencyCallbackMode]. *)
Definition exitEmergencyCallbackMode (mSlotId serial : Z) : SVC unit :=
  void_ (dispatchVoid serial mSlotId RIL_REQUEST_EXIT_EMERGENCY_CALLBACK_MODE).

(** ril_service.cpp:1963-1969 [RadioImpl::getSmscAddress]. *)
Definition getSmscAddress (mSlotId serial : Z) : SVC unit :=
  void_ (dispatchVoid serial mSlotId RIL_REQUEST_GET_SMSC_ADDRESS).

(** ril_service.cpp:1971-1978 [RadioImpl::setSmscAddress]. *)
Definition setSmscAddress (mSlotId serial : Z) (smsc : list Z) : SVC unit :=
  void_ (dispatchString mtk serial mSlotId RIL_REQUEST_SET_SMSC_ADDRESS smsc).

(** ril_service.cpp:1980-1987 [RadioImpl::reportSmsMemoryStatus]. *)
Definition reportSmsMemoryStatus (mSlotId serial : Z) (available : bool) : SVC unit :=
  void_ (dispatchInts mtk serial mSlotId RIL_REQUEST_REPORT_SMS_MEMORY_STATUS [BOOL_TO_INT available]).

(** ril_service.cpp:1989-1995 [RadioImpl::reportStkServiceIsRunning]. *)
Definition reportStkServiceIsRunning (mSlotId serial : Z) : SVC unit :=
  void_ (dispatchVoid serial mSlotId RIL_REQUEST_REPORT_STK_SERVICE_IS_RUNNING).

(** ril_service.cpp:1997-2008 [getCdmaSubscriptionSource]. *)
Definition getCdmaSubscriptionSource (mSlotId serial : Z) : SVC unit :=
  refuse serial mSlotId RIL_REQUEST_CDMA_GET_SUBSCRIPTION_SOURCE RIL_E_REQUEST_NOT_SUPPORTED.

(** ril_service.cpp:2010-2017 [RadioImpl::requestIsimAuthentication]. *)
Definition requestIsimAuthentication (mSlotId serial : Z) (challenge : list Z) : SVC unit :=
  void_ (dispatchString mtk serial mSlotId RIL_REQUEST_ISIM_AUTHENTICATION challenge).

(** ril_service.cpp:2019-2027 [RadioImpl::acknowledgeIncomingGsmSmsWithPdu]. *)
Definition acknowledgeIncomingGsmSmsWithPdu (mSlotId serial : Z) (success : bool) (ackPdu : list Z) : SVC unit :=
  void_ (dispatchStrings_args mtk serial mSlotId RIL_REQUEST_ACKNOWLEDGE_INCOMING_GSM_SMS_WITH_PDU [one_or_zero success; ackPdu]).

(** ril_service.cpp:2029-2036 [RadioImpl::sendEnvelopeWithStatus]. *)
Definition sendEnvelopeWithStatus (mSlotId serial : Z) (contents : list Z) : SVC unit :=
  void_ (dispatchString mtk serial mSlotId RIL_REQUEST_STK_SEND_ENVELOPE_WITH_STATUS contents).

(** ril_service.cpp:2038-2044 [RadioImpl::getVoiceRadioTechnology]. *)
Definition getVoiceRadioTechnology (mSlotId serial : Z) : SVC unit :=
  void_ (dispatchVoid serial mSlotId RIL_REQUEST_VOICE_RADIO_TECH).

(** ril_service.cpp:2046-2052 [RadioImpl::getCellInfoList]. *)
Definition getCellInfoList (mSlotId serial : Z) : SVC unit :=
  void_ (dispatchVoid serial mSlotId RIL_REQUEST_GET_CELL_INFO_LIST).

(** ril_service.cpp:2054-2060 [RadioImpl::setCellInfoListRate]. *)
Definition setCellInfoListRate (mSlotId serial : Z) (rate : Z) : SVC unit :=
  void_ (dispatchInts mtk serial mSlotId RIL_REQUEST_SET_UNSOL_CELL_INFO_LIST_RATE [rate]).

(** An empty string in place of none. *)
Definition or_empty (p : Z) : SVC Z := if p =? NULL then alloc (Chars []) else retM p.

(** The number of the network: of a property with one for each slot the part of this slot. The
    property is read into 32 characters, and the part is copied into 8, with the zero that ends it. *)
Definition operator_of_slot (mSlotId : Z) (prop : list Z) : option (list Z) :=
  if 32 <=? zlen prop then None
  else
    let fix after (l : list Z) : option (list Z) :=
      match l with
      | [] => None
      | c :: l' => if c =? 44 then Some l' else after l'
      end in
    let fix before (l : list Z) : list Z :=
      match l with
      | [] => []
      | c :: l' => if c =? 44 then [] else c :: before l'
      end in
    part ← (match prop with
           | [] => Some []
           | _ => if mSlotId =? 0 then Some (before prop) else after prop
           end);
    if 8 <=? zlen part then None else Some part.

(** ril_service.cpp:2073-2130 [setInitialAttachApn, up to version 14]. *)
Definition attach_apn_14 (mSlotId : Z) (d : DataProfileInfo) (isRoaming : bool) (p : Z) : SVC unit :=
  let protocol := if isRoaming then dp_roamingProtocol d else dp_protocol d in
  let* o := copy_strings mtk p [dp_apn d; protocol; dp_user d; dp_password d] [] in
  match o with
  | Some [apn; proto; username; password] =>
      let send apn proto username password operatorNumeric :=
        my_enqueue RIL_REQUEST_SET_INITIAL_ATTACH_APN
          (FSub [("apn", FPtr apn); ("protocol", FPtr proto); ("authtype", FInt (dp_authType d)); ("username", FPtr username);
                 ("password", FPtr password); ("operatorNumeric", FPtr operatorNumeric); ("canHandleIms", FInt 0); ("dualApnPlmnList", FVal VNull)])
          (sizeof RIL_InitialAttachApn - 4) FMT_AttchAPN p in
      if mtk then
        let* apn := or_empty apn in
        let* proto := or_empty proto in
        let* username := or_empty username in
        let* password := or_empty password in
        let* s := getM in
        let* numeric := of_option (operator_of_slot mSlotId (operator_numeric s)) in
        let* operatorNumeric := alloc (Chars numeric) in
        if operatorNumeric =? NULL then undefM else send apn proto username password operatorNumeric
      else send apn proto username password NULL
  | _ => retM tt
  end.

(** ril_service.cpp:2131-2177 [setInitialAttachApn, from version 15]. *)
Definition attach_apn_15 (d : DataProfileInfo) (modemCognitive : bool) (p : Z) : SVC unit :=
  let* o := copy_strings mtk p [dp_apn d; dp_protocol d; dp_roamingProtocol d; dp_user d; dp_password d] [] in
  match o with
  | Some copies =>
      match convertMvnoTypeToString (dp_mvnoType d) with
      | None => sendErrorResponse mtk p RIL_E_INVALID_ARGUMENTS;; memsetAndFreeStrings copies
      | Some mvnoType =>
          let* o := copy_strings mtk p [dp_mvnoMatchData d] copies in
          match o with
          | Some [apn; protocol; roamingProtocol; username; password; mvnoMatchData] =>
              my_enqueue RIL_REQUEST_SET_INITIAL_ATTACH_APN
                (FSub [("apn", FPtr apn); ("protocol", FPtr protocol); ("roamingProtocol", FPtr roamingProtocol);
                       ("authtype", FInt (dp_authType d)); ("username", FPtr username); ("password", FPtr password);
                       ("supportedTypesBitmask", FInt (dp_supportedApnTypesBitmap d)); ("bearerBitmask", FInt (dp_bearerBitmap d));
                       ("modemCognitive", FInt (BOOL_TO_INT modemCognitive)); ("mtu", FInt (dp_mtu d)); ("mvnoType", FVal (VStr mvnoType));
                       ("mvnoMatchData", FPtr mvnoMatchData)])
                (sizeof RIL_InitialAttachApn_v15) FMT_IGNORE p;;
              memsetAndFreeStrings [apn; protocol; roamingProtocol; username; password; mvnoMatchData]
          | _ => retM tt
          end
      end
  | None => retM tt
  end.

(** ril_service.cpp:2062-2180 [setInitialAttachApn]. *)
Definition setInitialAttachApn (mSlotId serial : Z) (d : DataProfileInfo) (modemCognitive isRoaming : bool) : SVC unit :=
  with_request serial mSlotId RIL_REQUEST_SET_INITIAL_ATTACH_APN (fun p =>
    let* s := getM in
    if version (lib s) <=? 14 then attach_apn_14 mSlotId d isRoaming p else attach_apn_15 d modemCognitive p).

(** ril_service.cpp:2182-2188 [RadioImpl::getImsRegistrationState]. *)
Definition getImsRegistrationState (mSlotId serial : Z) : SVC unit :=
  void_ (dispatchVoid serial mSlotId RIL_REQUEST_IMS_REGISTRATION_STATE).

(** ril.h:641-641 [RADIO_TECH_3GPP]. *)
Definition RADIO_TECH_3GPP : Z := 1.
(** ril.h:642-642 [RADIO_TECH_3GPP2]. *)
Definition RADIO_TECH_3GPP2 : Z := 2.

(** ril_service.cpp:2190-2236 [dispatchImsGsmSms]. *)
Definition dispatchImsGsmSms (message : ImsSmsMessage) (p : Z) : SVC bool :=
  match im_gsmMessage message with
  | [m] =>
      let* pStrings := alloc (Ptrs [NULL; NULL]) in
      if pStrings =? NULL then sendErrorResponse mtk p RIL_E_NO_MEMORY;; retM false
      else
        let* o := copy_strings mtk p [gm_smscPdu m; gm_pdu m] [] in
        match o with
        | None => free pStrings;; retM false
        | Some ptrs =>
            modM (fun s => s <| heap := <[pStrings := Ptrs ptrs]> (heap s) |>);;
            my_enqueue RIL_REQUEST_IMS_SEND_SMS
              (FSub [("tech", FInt RADIO_TECH_3GPP); ("retry", FInt (BOOL_TO_INT (im_retry message))); ("messageRef", FInt (im_messageRef message));
                     ("gsmMessage", FPtr pStrings)])
              (4 + 1 + 4 + 8) FMT_ImsSms p;;
            retM true
        end
  | _ => sendErrorResponse mtk p RIL_E_INVALID_ARGUMENTS;; retM false
  end.

(** ril_service.cpp:2238-2259 [dispatchImsCdmaSms]. *)
Definition dispatchImsCdmaSms (message : ImsSmsMessage) (p : Z) : SVC bool :=
  match im_cdmaMessage message with
  | [m] =>
      let* rcsm := of_option (constructCdmaSms m) in
      my_enqueue RIL_REQUEST_IMS_SEND_SMS
        (FSub [("tech", FInt RADIO_TECH_3GPP2); ("retry", FInt (BOOL_TO_INT (im_retry message))); ("messageRef", FInt (im_messageRef message));
               ("cdmaMessage", FVal rcsm)])
        (4 + 1 + 4 + sizeof RIL_CDMA_SMS_Message) FMT_RAW p;;
      retM true
  | _ => sendErrorResponse mtk p RIL_E_INVALID_ARGUMENTS;; retM false
  end.

(** ril_service.cpp:2261-2282 [sendImsSms]. *)
Definition sendImsSms (mSlotId serial : Z) (message : ImsSmsMessage) : SVC unit :=
  with_request serial mSlotId RIL_REQUEST_IMS_SEND_SMS (fun p =>
    if im_tech message =? RADIO_TECH_3GPP then void_ (dispatchImsGsmSms message p)
    else if im_tech message =? RADIO_TECH_3GPP2 then void_ (dispatchImsCdmaSms message p)
    else sendErrorResponse mtk p RIL_E_INVALID_ARGUMENTS).

(** ril_service.cpp:2284-2290 [RadioImpl::iccTransmitApduBasicChannel]. *)
Definition iccTransmitApduBasicChannel (mSlotId serial : Z) (message : SimApdu) : SVC unit :=
  void_ (dispatchIccApdu mtk serial mSlotId RIL_REQUEST_SIM_TRANSMIT_APDU_BASIC message).

(** ril_service.cpp:2292-2324 [iccOpenLogicalChannel]. *)
Definition iccOpenLogicalChannel (mSlotId serial : Z) (aid : list Z) (p2 : Z) : SVC unit :=
  refuse serial mSlotId RIL_REQUEST_SIM_OPEN_CHANNEL RIL_E_REQUEST_NOT_SUPPORTED.

(** ril_service.cpp:2326-2332 [RadioImpl::iccCloseLogicalChannel]. *)
Definition iccCloseLogicalChannel (mSlotId serial : Z) (channelId : Z) : SVC unit :=
  void_ (dispatchInts mtk serial mSlotId RIL_REQUEST_SIM_CLOSE_CHANNEL [channelId]).

(** ril_service.cpp:2334-2340 [RadioImpl::iccTransmitApduLogicalChannel]. *)
Definition iccTransmitApduLogicalChannel (mSlotId serial : Z) (message : SimApdu) : SVC unit :=
  void_ (dispatchIccApdu mtk serial mSlotId RIL_REQUEST_SIM_TRANSMIT_APDU_CHANNEL message).

(** ril_service.cpp:2342-2356 [nvReadItem]. *)
Definition nvReadItem (mSlotId serial itemId : Z) : SVC unit :=
  with_request serial mSlotId RIL_REQUEST_NV_READ_ITEM (fun p =>
    my_enqueue RIL_REQUEST_NV_READ_ITEM (FSub [("itemID", FInt itemId)]) 4 FMT_IGNORE p).

(** ril_service.cpp:2358-2379 [nvWriteItem]. *)
Definition nvWriteItem (mSlotId serial itemId : Z) (value : list Z) : SVC unit :=
  with_request serial mSlotId RIL_REQUEST_NV_WRITE_ITEM (fun p =>
    let* o := copyHidlStringToRil mtk value p in
    match o with
    | None => retM tt
    | Some v =>
        my_enqueue RIL_REQUEST_NV_WRITE_ITEM (FSub [("itemID", FInt itemId); ("value", FPtr v)]) (sizeof RIL_NV_WriteItem) FMT_IGNORE p;;
        memsetAndFreeStrings [v]
    end).

(** ril_service.cpp:2381-2387 [RadioImpl::nvWriteCdmaPrl]. *)
Definition nvWriteCdmaPrl (mSlotId serial : Z) (prl : list Z) : SVC unit :=
  void_ (dispatchRaw serial mSlotId RIL_REQUEST_NV_WRITE_CDMA_PRL prl).

(** ril_service.cpp:2389-2413 [nvResetConfig]. *)
Definition nvResetConfig (mSlotId serial resetType : Z) : SVC unit :=
  let rilResetType :=
    if resetType =? RESET_RELOAD then 1 else if resetType =? RESET_ERASE then 2 else if resetType =? RESET_FACTORY_RESET then 3 else -1 in
  void_ (dispatchInts mtk serial mSlotId RIL_REQUEST_NV_RESET_CONFIG [rilResetType]).

(** ril_service.cpp:2415-2436 [setUiccSubscription]. *)
Definition setUiccSubscription (mSlotId serial slot appIndex subType actStatus : Z) : SVC unit :=
  with_request serial mSlotId RIL_REQUEST_SET_UICC_SUBSCRIPTION (fun p =>
    my_enqueue RIL_REQUEST_SET_UICC_SUBSCRIPTION
      (FVal (VRec [("slot", VInt slot); ("app_index", VInt appIndex); ("sub_type", VInt subType); ("act_status", VInt actStatus)]))
      (sizeof RIL_SelectUiccSub) FMT_RAW p).

(** ril_service.cpp:2438-2444 [RadioImpl::setDataAllowed]. *)
Definition setDataAllowed (mSlotId serial : Z) (allow : bool) : SVC unit :=
  void_ (dispatchInts mtk serial mSlotId RIL_REQUEST_ALLOW_DATA [BOOL_TO_INT allow]).

(** ril_service.cpp:2446-2457 [getHardwareConfig]. *)
Definition getHardwareConfig (mSlotId serial : Z) : SVC unit :=
  refuse serial mSlotId RIL_REQUEST_GET_HARDWARE_CONFIG RIL_E_REQUEST_NOT_SUPPORTED.

(** ril_service.cpp:2459-2487 [requestIccSimAuthentication]. *)
Definition requestIccSimAuthentication (mSlotId serial authContext : Z) (authData aid : list Z) : SVC unit :=
  with_request serial mSlotId RIL_REQUEST_SIM_AUTHENTICATION (fun p =>
    let* o := copy_strings mtk p [authData; aid] [] in
    match o with
    | Some [a; b] =>
        my_enqueue RIL_REQUEST_SIM_AUTHENTICATION (FSub [("authContext", FInt authContext); ("authData", FPtr a); ("aid", FPtr b)])
          (sizeof RIL_SimAuthentication) FMT_SIMAUTH p
    | _ => retM tt
    end).

(** ril_service.cpp:2497-2521 [freeSetDataProfileData]. The strings field by field, then the arrays. *)
Definition freeSetDataProfileData (dataProfiles dataProfilePtrs : Z) (fields : list string) : SVC unit :=
  let* s := getM in
  match heap s !! dataProfiles with
  | Some (Structs l) =>
      memsetAndFreeStrings (concat (map (fun f => map (fun d => default NULL (pointer f d)) l) fields));;
      free dataProfiles;;
      free dataProfilePtrs
  | _ => undefM
  end.

(** Copies of strings into the fields of a structure; the fields behind one that failed stay NULL. *)
Fixpoint copy_fields (p : Z) (fs : list (string * list Z)) : SVC (list (string * field) * bool) :=
  match fs with
  | [] => retM ([], true)
  | (n, s) :: fs' =>
      let* o := copyHidlStringToRil mtk s p in
      match o with
      | None => retM ([], false)
      | Some d => let* (l, ok) := copy_fields p fs' in retM ((n, FPtr d) :: l, ok)
      end
  end.

Definition profile_texts_14 (isRoaming : bool) (d : DataProfileInfo) : list (string * list Z) :=
  [("apn", dp_apn d); ("protocol", if isRoaming then dp_roamingProtocol d else dp_protocol d); ("user", dp_user d); ("password", dp_password d)].
Definition profile_texts_15 (d : DataProfileInfo) : list (string * list Z) :=
  [("apn", dp_apn d); ("protocol", dp_protocol d); ("roamingProtocol", dp_roamingProtocol d); ("user", dp_user d); ("password", dp_password d);
   ("mvnoMatchData", dp_mvnoMatchData d)].
Definition profile_numbers (d : DataProfileInfo) : list (string * field) :=
  [("profileId", FInt (dp_profileId d)); ("authType", FInt (dp_authType d)); ("type", FInt (dp_type d));
   ("maxConnsTime", FInt (dp_maxConnsTime d)); ("maxConns", FInt (dp_maxConns d)); ("waitTime", FInt (dp_waitTime d));
   ("enabled", FInt (BOOL_TO_INT (dp_enabled d)))].
Definition profile_numbers_15 (d : DataProfileInfo) : list (string * field) :=
  profile_numbers d ++ [("supportedTypesBitmask", FInt (dp_supportedApnTypesBitmap d)); ("bearerBitmask", FInt (dp_bearerBitmap d));
                        ("mtu", FInt (dp_mtu d))].

(** One profile: its fields, and whether everything could be converted. *)
Definition fill_profile (new isRoaming : bool) (p : Z) (d : DataProfileInfo) : SVC (list (string * field) * bool) :=
  let* (l, ok) := copy_fields p (if new then profile_texts_15 d else profile_texts_14 isRoaming d) in
  if negb ok then retM (l, false)
  else if new then
    match convertMvnoTypeToString (dp_mvnoType d) with
    | None => sendErrorResponse mtk p RIL_E_INVALID_ARGUMENTS;; retM (l, false)
    | Some t => retM (l ++ [("mvnoType", FVal (VStr t))] ++ profile_numbers_15 d, true)
    end
  else retM (l ++ profile_numbers d, true).

(** The array of profiles, up to the first that fails. *)
Fixpoint fill_profiles (new isRoaming : bool) (base p : Z) (i : nat) (profiles : list DataProfileInfo) : SVC bool :=
  match profiles with
  | [] => retM true
  | d :: profiles' =>
      let* (l, ok) := fill_profile new isRoaming p d in
      modM (fun s => s <| heap := alter (fun b => match b with Structs a => Structs (<[i := l]> a) | b => b end) base (heap s) |>);;
      if ok then fill_profiles new isRoaming base p (S i) profiles' else retM false
  end.

(** ril_service.cpp:2523-2682 [setDataProfile]. The two versions differ in the strings of a profile and in who releases the memory. *)
Definition setDataProfile (mSlotId serial : Z) (profiles : list DataProfileInfo) (isRoaming : bool) : SVC unit :=
  with_request serial mSlotId RIL_REQUEST_SET_DATA_PROFILE (fun p =>
    let* s := getM in
    let new := negb (version (lib s) <=? 14) in
    let texts := if new then ["apn"; "protocol"; "roamingProtocol"; "user"; "password"; "mvnoMatchData"] else ["apn"; "protocol"; "user"; "password"] in
    let num := length profiles in
    let* dataProfiles := alloc (Structs (repeat [] num)) in
    if dataProfiles =? NULL then sendErrorResponse mtk p RIL_E_NO_MEMORY
    else
      let* dataProfilePtrs := alloc (Elements dataProfiles num) in
      if dataProfilePtrs =? NULL then free dataProfiles;; sendErrorResponse mtk p RIL_E_NO_MEMORY
      else
        let* ok := fill_profiles new isRoaming dataProfiles p 0 profiles in
        if negb ok then freeSetDataProfileData dataProfiles dataProfilePtrs texts
        else if new then
          my_enqueue RIL_REQUEST_SET_DATA_PROFILE (FPtr dataProfilePtrs) (Z.of_nat num * 4) FMT_IGNORE p;;
          freeSetDataProfileData dataProfiles dataProfilePtrs texts
        else my_enqueue RIL_REQUEST_SET_DATA_PROFILE (FPtr dataProfilePtrs) (Z.of_nat num * 4) FMT_DATAPROF p).

(** ril_service.cpp:2684-2690 [RadioImpl::requestShutdown]. *)
Definition requestShutdown (mSlotId serial : Z) : SVC unit :=
  void_ (dispatchVoid serial mSlotId RIL_REQUEST_SHUTDOWN).

(** ril_service.cpp:2692-2698 [RadioImpl::getRadioCapability]. *)
Definition getRadioCapability (mSlotId serial : Z) : SVC unit :=
  void_ (dispatchVoid serial mSlotId RIL_REQUEST_GET_RADIO_CAPABILITY).

(** ril_service.cpp:2700-2721 [setRadioCapability]. The name is cut to 63 characters. *)
Definition setRadioCapability (mSlotId serial session phase raf : Z) (logicalModemUuid : list Z) (status : Z) : SVC unit :=
  with_request serial mSlotId RIL_REQUEST_SET_RADIO_CAPABILITY (fun p =>
    my_enqueue RIL_REQUEST_SET_RADIO_CAPABILITY
      (FVal (VRec [("version", VInt 0); ("session", VInt session); ("phase", VInt phase); ("rat", VInt (i32 raf));
                   ("logicalModemUuid", VStr (take 63 (c_str logicalModemUuid))); ("status", VInt status)]))
      (sizeof RIL_RadioCapability) FMT_RAW p).

(** ril_service.cpp:2723-2735 [startLceService]. *)
Definition startLceService (mSlotId serial reportInterval : Z) (pullMode : bool) : SVC unit :=
  refuse serial mSlotId RIL_REQUEST_START_LCE RIL_E_REQUEST_NOT_SUPPORTED.

(** ril_service.cpp:2737-2743 [RadioImpl::stopLceService]. *)
Definition stopLceService (mSlotId serial : Z) : SVC unit :=
  void_ (dispatchVoid serial mSlotId RIL_REQUEST_STOP_LCE).

(** ril_service.cpp:2745-2751 [RadioImpl::pullLceData]. *)
Definition pullLceData (mSlotId serial : Z) : SVC unit :=
  void_ (dispatchVoid serial mSlotId RIL_REQUEST_PULL_LCEDATA).

(** ril_service.cpp:2753-2759 [RadioImpl::getModemActivityInfo]. *)
Definition getModemActivityInfo (mSlotId serial : Z) : SVC unit :=
  void_ (dispatchVoid serial mSlotId RIL_REQUEST_GET_ACTIVITY_INFO).

(** The array of carriers; the strings are the caller's. *)
Definition carrier_fields (c : Carrier) : list (string * field) :=
  [("mcc", FVal (VStr (c_str (cr_mcc c)))); ("mnc", FVal (VStr (c_str (cr_mnc c)))); ("match_type", FInt (cr_matchType c));
   ("match_data", FVal (VStr (c_str (cr_matchData c))))].

(** ril_service.cpp:2761-2825 [setAllowedCarriers]. *)
Definition setAllowedCarriers (mSlotId serial : Z) (allAllowed : bool) (allowed excluded : list Carrier) : SVC unit :=
  with_request serial mSlotId RIL_REQUEST_SET_CARRIER_RESTRICTIONS (fun p =>
    let* allowedCarriers := alloc (Structs (map carrier_fields allowed)) in
    if allowedCarriers =? NULL then sendErrorResponse mtk p RIL_E_NO_MEMORY
    else
      let* excludedCarriers := alloc (Structs (map carrier_fields excluded)) in
      if excludedCarriers =? NULL then sendErrorResponse mtk p RIL_E_NO_MEMORY;; free allowedCarriers
      else
        my_enqueue RIL_REQUEST_SET_CARRIER_RESTRICTIONS
          (FSub [("len_allowed_carriers", FInt (zlen allowed)); ("len_excluded_carriers", FInt (zlen excluded));
                 ("allowed_carriers", FPtr allowedCarriers); ("excluded_carriers", FPtr excludedCarriers)])
          (sizeof RIL_CarrierRestrictions) FMT_IGNORE p;;
        free allowedCarriers;;
        free excludedCarriers).

(** ril_service.cpp:2827-2833 [RadioImpl::getAllowedCarriers]. *)
Definition getAllowedCarriers (mSlotId serial : Z) : SVC unit :=
  void_ (dispatchVoid serial mSlotId RIL_REQUEST_GET_CARRIER_RESTRICTIONS).

(** ril_service.cpp:2835-2854 [sendDeviceState]. The request may not have been entered. *)
Definition sendDeviceState (mSlotId serial deviceStateType : Z) (state : bool) : SVC unit :=
  let* s := getM in
  if version (lib s) <? 15 then
    if deviceStateType =? LOW_DATA_EXPECTED then
      void_ (dispatchInts mtk serial mSlotId RIL_REQUEST_SCREEN_STATE [BOOL_TO_INT (negb state)])
    else
      let* p := addRequestToList serial mSlotId RIL_REQUEST_SEND_DEVICE_STATE in
      sendErrorResponse mtk p RIL_E_REQUEST_NOT_SUPPORTED
  else void_ (dispatchInts mtk serial mSlotId RIL_REQUEST_SEND_DEVICE_STATE [deviceStateType; BOOL_TO_INT state]).

(** ril_service.cpp:2856-2868 [setIndicationFilter]. *)
Definition setIndicationFilter (mSlotId serial indicationFilter : Z) : SVC unit :=
  let* s := getM in
  if version (lib s) <? 15 then
    let* p := addRequestToList serial mSlotId RIL_REQUEST_SET_UNSOLICITED_RESPONSE_FILTER in
    sendErrorResponse mtk p RIL_E_REQUEST_NOT_SUPPORTED
  else void_ (dispatchInts mtk serial mSlotId RIL_REQUEST_SET_UNSOLICITED_RESPONSE_FILTER [indicationFilter]).

(** ril_service.cpp:2870-2880 [setSimCardPower]. *)
Definition setSimCardPower (mSlotId serial : Z) (powerUp : bool) : SVC unit :=
  void_ (dispatchVoid serial mSlotId (if powerUp then RIL_REQUEST_MODEM_POWERON else RIL_REQUEST_MODEM_POWEROFF)).

(** ril_service.cpp:2891-2894 [responseAcknowledgement]. *)
Definition responseAcknowledgement : SVC unit := on_lib releaseWakeLock.



(** ril_service.cpp:2917-2923 [OemHookImpl::sendRequestRaw]. *)
Definition sendRequestRaw (mSlotId serial : Z) (data : list Z) : SVC unit :=
  void_ (dispatchRaw serial mSlotId RIL_REQUEST_OEM_HOOK_RAW data).

(** ril_service.cpp:2925-2932 [OemHookImpl::sendRequestStrings]. *)
Definition sendRequestStrings (mSlotId serial : Z) (data : list (list Z)) : SVC unit :=
  void_ (dispatchStrings mtk serial mSlotId RIL_REQUEST_OEM_HOOK_STRINGS data).

End Radio.
