(* ===== verification/RilIndications.v ===== *)
(** The indications of the radio service (src/hal/libril/ril_service.cpp): for each unsolicited response the
    function that converts its data and calls the framework's object, or sends a request of its own. *)

From stdpp Require Import base list gmap strings numbers.
From Stdlib Require Import ZArith Lia.
From S2P Require Import Prelude EpoConf RilEvent RilTables Ril RilMem RilStructs RilConvert RilService RilResponses RilCodes RilDispatch.

Local Open Scope Z_scope.
Local Open Scope st_scope.
Local Open Scope rec_scope.

Section Indications.
Context `{HT : RadioTypes}.

(** Whether the library is built with [MTK_HARDWARE]. *)
Variable mtk : bool.

(** The arguments, if the data are not refused. *)
Definition accept (bad : Z -> Z -> bool) (conv : Z -> Z -> SVC (list hval)) : Z -> Z -> Z -> SVC (option (list hval)) :=
  fun _ response responseLen =>
  if bad response responseLen then retM None else let* args := conv response responseLen in retM (Some args).

(** No data at all. *)
Definition no_data (response responseLen : Z) : bool := (response =? 0) || (responseLen =? 0).

(** The functions that are alike: no data, a number, a truth value, a string, bytes. *)
Definition event (method : string) : indication_fn := indicates true 0 method (accept (fun _ _ => false) (fun _ _ => retM [])).
Definition int_event (method : string) : indication_fn :=
  indicates true 0 method (accept (not_multiple 4) (read1 (fun response _ m => HInt <$> int_at m response 0))).
Definition bool_event (method : string) : indication_fn :=
  indicates true 0 method (accept (not_multiple 4) (read1 (fun response _ m => (fun v => HBool (negb (v =? 0))) <$> int_at m response 0))).
Definition string_event (method : string) : indication_fn :=
  indicates true 0 method (accept no_data (read1 (fun response _ m => convertCharPtrToHidlString response m))).
Definition bytes_event (radio : bool) (method : string) : indication_fn :=
  indicates radio 0 method (accept no_data (read1 (fun response responseLen m =>
    HVec <$> (fmap (M := option) (map HInt) (rd_bytes m response (Z.to_nat responseLen)))))).

(** What the vendor's library answers when it is asked for the state of the radio. *)
Definition onStateRequest : SVC Z :=
  let* s := getM in modM (fun s => s <| radio_states := tail (radio_states s) |>);; retM (hd 0 (radio_states s)).

(** ril_service.cpp:6733-6747 [radioStateChangedInd]. *)
Definition radioStateChangedInd : indication_fn :=
  indicates true 0 "radioStateChanged" (fun _ _ _ => let* state := onStateRequest in retM (Some [HInt state])).

(** ril_service.cpp:6749-6764 [callStateChangedInd]. *)
Definition callStateChangedInd : indication_fn := event "callStateChanged".

(** ril_service.cpp:6766-6782 [networkStateChangedInd]. *)
Definition networkStateChangedInd : indication_fn := event "networkStateChanged".

(** ril_service.cpp:63-63 [INVALID_HEX_CHAR]. *)
Definition INVALID_HEX_CHAR : Z := 16.

(** ril_service.cpp:6784-6790 [hexCharToInt]. *)
Definition hexCharToInt (c : Z) : Z :=
  if (48 <=? c) && (c <=? 57) then c - 48
  else if (65 <=? c) && (c <=? 70) then c - 65 + 10
  else if (97 <=? c) && (c <=? 102) then c - 97 + 10
  else INVALID_HEX_CHAR.

(** The bytes of pairs of digits. *)
Fixpoint hex_bytes (hexString : list Z) : option (list Z) :=
  match hexString with
  | [] => Some []
  | a :: b :: l =>
      if (hexCharToInt a =? INVALID_HEX_CHAR) || (hexCharToInt b =? INVALID_HEX_CHAR) then None
      else bs ← hex_bytes l; Some (Z.lor (Z.shiftl (hexCharToInt a) 4) (hexCharToInt b) :: bs)
  | _ => None
  end.

(** ril_service.cpp:6792-6820 [convertHexStringToBytes]. The memory has the bytes twice. *)
Definition convertHexStringToBytes (response responseLen : Z) : SVC Z :=
  if negb (responseLen mod 2 =? 0) then retM NULL
  else
    let* bytes := alloc (Chars (repeat 0 (Z.to_nat responseLen))) in
    if bytes =? NULL then retM NULL
    else
      let* hexString := reading (fun m => rd_bytes m response (Z.to_nat responseLen)) in
      match hex_bytes hexString with
      | None => free bytes;; retM NULL
      | Some bs => modM (fun s => s <| heap := <[bytes := Chars (bs ++ bs)]> (heap s) |>);; retM bytes
      end.

(** A message of text in hexadecimal digits: the bytes are passed on and released. *)
Definition hex_event (method : string) : indication_fn := fun slotId indicationType token e response responseLen =>
  let* client := indication_client true slotId in
  if client =? 0 then retM 0
  else if no_data response responseLen then retM 0
  else
    let* st := reading (fun m => cstring m response) in
    let pdu_len := zlen st in
    let* bytes := convertHexStringToBytes response pdu_len in
    if bytes =? NULL then retM 0
    else
      let* s := getM in
      let* pdu := match heap s !! bytes with Some (Chars l) => retM (take (Z.to_nat (pdu_len / 2)) l) | _ => undefM end in
      let* ok := hidl_do (Indication client slotId method (convertIntToRadioIndicationType indicationType) [HVec (map HInt pdu)]) in
      checkReturnStatus slotId ok true;;
      free bytes;;
      retM 0.

(** ril_service.cpp:6822-6855 [newSmsInd]. As it is built with [MTK_HARDWARE]: without it the
    length of the message is not declared. *)
Definition newSmsInd : indication_fn := hex_event "newSms".

(** ril_service.cpp:6857-6887 [newSmsStatusReportInd]. *)
Definition newSmsStatusReportInd : indication_fn := hex_event "newSmsStatusReport".

(** ril_service.cpp:6889-6908 [newSmsOnSimInd]. *)
Definition newSmsOnSimInd : indication_fn := int_event "newSmsOnSim".

(** ril_service.cpp:6932-6959 [onUssdInd]. The mode and the text are read even when they are NULL. *)
Definition onUssdInd : indication_fn :=
  indicates true 0 "onUssd" (accept (fun response responseLen => (response =? 0) || (responseLen <? 8)) (fun response _ =>
    let* msg := reading (string_at response 1) in
    let* mode := reading (fun m => q ← ptr_at m response 0; cstring m q) in
    let* modeType :=
      if (atoi mode =? 2) || (atoi mode =? 3) then
        let* text := reading (fun m => q ← ptr_at m response 1; cstring m q) in
        retM (if 0 <? zlen text then 0 else atoi mode)
      else retM (atoi mode) in
    retM [HInt modeType; msg])).

Definition elapsedRealtime : SVC Z :=
  let* s := getM in modM (fun s => s <| elapsed := tail (elapsed s) |>);; retM (hd 0 (elapsed s)).

(** ril_service.cpp:6961-6984 [nitzTimeReceivedInd]. Without an object the result says that nobody has got it. *)
Definition nitzTimeReceivedInd : indication_fn :=
  indicates true (-1) "nitzTimeReceived" (accept no_data (fun response _ =>
    let* nitzTime := reading (fun m => convertCharPtrToHidlString response m) in
    let* timeReceived := elapsedRealtime in
    retM [nitzTime; HInt timeReceived])).

(** ril_service.cpp:7032-7056 [currentSignalStrengthInd]. *)
Definition currentSignalStrengthInd : indication_fn :=
  indicates true 0 "currentSignalStrength"
    (accept (fun response responseLen => (response =? 0) || (responseLen <? sizeof RIL_SignalStrength_v8)) (fun response _ => signal_strength response)).

(** ril_service.cpp:7084-7105 [dataCallListChangedInd]. *)
Definition dataCallListChangedInd : indication_fn :=
  indicates true 0 "dataCallListChanged" (accept (not_multiple (sizeof RIL_Data_Call_Response_v6)) (read1 convertRilDataCallListToHal)).

(** ril_service.cpp:7107-7135 [suppSvcNotifyInd]. *)
Definition suppSvcNotifyInd : indication_fn :=
  let T := RIL_SuppSvcNotification in
  indicates true 0 "suppSvcNotify" (accept (not_size (sizeof T)) (one_struct (hrec [
    ("isMT", from_bool T ["notificationType"]); ("code", from_int T ["code"]); ("index", from_int T ["index"]); ("type", from_int T ["type"]);
    ("number", from_str T ["number"])]))).

(** ril_service.cpp:7137-7151 [stkSessionEndInd]. *)
Definition stkSessionEndInd : indication_fn := event "stkSessionEnd".

(** ril_service.cpp:7153-7173 [stkProactiveCommandInd]. *)
Definition stkProactiveCommandInd : indication_fn := string_event "stkProactiveCommand".

(** ril_service.cpp:7175-7194 [stkEventNotifyInd]. *)
Definition stkEventNotifyInd : indication_fn := string_event "stkEventNotify".

(** ril_service.cpp:7196-7215 [stkCallSetupInd]. *)
Definition stkCallSetupInd : indication_fn := int_event "stkCallSetup".

(** ril_service.cpp:7217-7232 [simSmsStorageFullInd]. *)
Definition simSmsStorageFullInd : indication_fn := event "simSmsStorageFull".

(** ril_service.cpp:7234-7260 [simRefreshInd]. *)
Definition simRefreshInd : indication_fn :=
  let T := RIL_SimRefreshResponse_v7 in
  indicates true 0 "simRefresh" (accept (not_size (sizeof T)) (one_struct (hrec [
    ("type", from_int T ["result"]); ("efId", from_int T ["ef_id"]); ("aid", from_str T ["aid"])]))).

(** ril_service.cpp:7270-7297 [callRingInd]. *)
Definition callRingInd : indication_fn :=
  indicates true 0 "callRing" (fun _ response responseLen =>
    if no_data response responseLen then retM (Some [HBool true; zeroed])
    else if negb (responseLen =? sizeof RIL_CDMA_SignalInfoRecord) then retM None
    else let* record := reading (convertRilCdmaSignalInfoRecordToHal response) in retM (Some [HBool false; record])).

(** ril_service.cpp:7299-7314 [simStatusChangedInd]. *)
Definition simStatusChangedInd : indication_fn := event "simStatusChanged".

(** Bytes of an array, at most as many as it has. *)
Definition limited (T : cty) (count array : list string) (max : Z) : conversion := fun m p =>
  n ← get T count m p;
  q ← address T array p;
  let digitLimit := Z.min n max in
  if digitLimit <? 0 then None else HVec <$> (fmap (M := option) (map HInt) (rd_bytes m q (Z.to_nat digitLimit))).

(** ril_service.cpp:7316-7362 [cdmaNewSmsInd]. *)
Definition cdmaNewSmsInd : indication_fn :=
  let T := RIL_CDMA_SMS_Message in
  indicates true 0 "cdmaNewSms" (accept (not_size (sizeof T)) (one_struct (hrec [
    ("teleserviceId", from_int T ["uTeleserviceID"]); ("isServicePresent", from_bool T ["bIsServicePresent"]);
    ("serviceCategory", from_int T ["uServicecategory"]);
    ("address", hrec [("digitMode", from_int T ["sAddress"; "digit_mode"]); ("numberMode", from_int T ["sAddress"; "number_mode"]);
                      ("numberType", from_int T ["sAddress"; "number_type"]); ("numberPlan", from_int T ["sAddress"; "number_plan"]);
                      ("digits", limited T ["sAddress"; "number_of_digits"] ["sAddress"; "digits"] RIL_CDMA_SMS_ADDRESS_MAX)]);
    ("subAddress", hrec [("subaddressType", from_int T ["sSubAddress"; "subaddressType"]); ("odd", from_bool T ["sSubAddress"; "odd"]);
                         ("digits", limited T ["sSubAddress"; "number_of_digits"] ["sSubAddress"; "digits"] RIL_CDMA_SMS_SUBADDRESS_MAX)]);
    ("bearerData", limited T ["uBearerDataLen"] ["aBearerData"] RIL_CDMA_SMS_BEARER_DATA_MAX)]))).

(** ril_service.cpp:7364-7386 [newBroadcastSmsInd]. *)
Definition newBroadcastSmsInd : indication_fn := bytes_event true "newBroadcastSms".

(** ril_service.cpp:7388-7404 [cdmaRuimSmsStorageFullInd]. *)
Definition cdmaRuimSmsStorageFullInd : indication_fn := event "cdmaRuimSmsStorageFull".

(** ril_service.cpp:7406-7427 [restrictedStateChangedInd]. *)
Definition restrictedStateChangedInd : indication_fn := int_event "restrictedStateChanged".

(** ril_service.cpp:7429-7445 [enterEmergencyCallbackModeInd]. *)
Definition enterEmergencyCallbackModeInd : indication_fn := event "enterEmergencyCallbackMode".

(** ril_service.cpp:7447-7478 [cdmaCallWaitingInd]. *)
Definition cdmaCallWaitingInd : indication_fn :=
  let T := RIL_CDMA_CallWaiting_v6 in
  indicates true 0 "cdmaCallWaiting" (accept (not_size (sizeof T)) (one_struct (hrec [
    ("number", from_str T ["number"]); ("numberPresentation", from_int T ["numberPresentation"]); ("name", from_str T ["name"]);
    ("signalInfoRecord", fun m p => q ← address T ["signalInfoRecord"] p; convertRilCdmaSignalInfoRecordToHal q m);
    ("numberType", from_int T ["number_type"]); ("numberPlan", from_int T ["number_plan"])]))).

(** ril_service.cpp:7480-7501 [cdmaOtaProvisionStatusInd]. *)
Definition cdmaOtaProvisionStatusInd : indication_fn := int_event "cdmaOtaProvisionStatus".

(** ril.h:1760-1770 [RIL_CDMA_InfoRecName]. *)
Definition RIL_CDMA_DISPLAY_INFO_REC : Z := 0.
Definition RIL_CDMA_CALLED_PARTY_NUMBER_INFO_REC : Z := 1.
Definition RIL_CDMA_CALLING_PARTY_NUMBER_INFO_REC : Z := 2.
Definition RIL_CDMA_CONNECTED_NUMBER_INFO_REC : Z := 3.
Definition RIL_CDMA_SIGNAL_INFO_REC : Z := 4.
Definition RIL_CDMA_REDIRECTING_NUMBER_INFO_REC : Z := 5.
Definition RIL_CDMA_LINE_CONTROL_INFO_REC : Z := 6.
Definition RIL_CDMA_EXTENDED_DISPLAY_INFO_REC : Z := 7.
Definition RIL_CDMA_T53_CLIR_INFO_REC : Z := 8.
Definition RIL_CDMA_T53_AUDIO_CONTROL_INFO_REC : Z := 10.

(** ril.h:98-98 [CDMA_ALPHA_INFO_BUFFER_LENGTH]. *)
Definition CDMA_ALPHA_INFO_BUFFER_LENGTH : Z := 64.
(** ril.h:99-99 [CDMA_NUMBER_INFO_BUFFER_LENGTH]. *)
Definition CDMA_NUMBER_INFO_BUFFER_LENGTH : Z := 81.

Definition infoT : cty := RIL_CDMA_InformationRecord.
Definition rec_ (path : list string) : list string := "rec" :: path.

(** A text with a length of its own: a copy with a zero behind it, up to its first zero. Nothing when
    the length is too large or there is no memory. *)
Definition text_of (p : Z) (len buf : list string) (max : Z) : SVC (option (list Z)) :=
  let* n := reading (fun m => get infoT len m p) in
  if max <? n then retM None
  else
    let* bytes := reading (fun m => q ← address infoT buf p; rd_bytes m q (Z.to_nat n)) in
    let* string8 := alloc (Chars (c_str bytes)) in
    if string8 =? NULL then retM None else free string8;; retM (Some (c_str bytes)).

(** The parts of a record that is read at once. *)
Definition plain_part (name : string) (c : conversion) (p : Z) : SVC (option (list (string * hval))) :=
  let* v := reading (fun m => c m p) in retM (Some [(name, HVec [v])]).

Definition number_rest (part : list string) : list (string * conversion) :=
  [("numberType", from_int infoT (rec_ (part ++ ["number_type"]))); ("numberPlan", from_int infoT (rec_ (part ++ ["number_plan"])));
   ("pi", from_int infoT (rec_ (part ++ ["pi"]))); ("si", from_int infoT (rec_ (part ++ ["si"])))].

(** A number: its text and what belongs to it. *)
Definition number_part (part : list string) (p : Z) : SVC (option (list (string * hval))) :=
  let* o := text_of p (rec_ (part ++ ["len"])) (rec_ (part ++ ["buf"])) CDMA_NUMBER_INFO_BUFFER_LENGTH in
  match o with
  | None => retM None
  | Some t => let* l := reading (fun m => record (number_rest part) m p) in retM (Some (("number", HStr t) :: l))
  end.

(** ril_service.cpp:7523-7667 [cdmaInfoRecInd, one record]. *)
Definition info_record (p : Z) : SVC (option hval) :=
  let* name := reading (fun m => get infoT ["name"] m p) in
  let* o :=
    if (name =? RIL_CDMA_DISPLAY_INFO_REC) || (name =? RIL_CDMA_EXTENDED_DISPLAY_INFO_REC) then
      let* o := text_of p (rec_ ["display"; "alpha_len"]) (rec_ ["display"; "alpha_buf"]) CDMA_ALPHA_INFO_BUFFER_LENGTH in
      retM (match o with Some t => Some [("display", HVec [HRec [("alphaBuf", HStr t)]])] | None => None end)
    else if (name =? RIL_CDMA_CALLED_PARTY_NUMBER_INFO_REC) || (name =? RIL_CDMA_CALLING_PARTY_NUMBER_INFO_REC)
            || (name =? RIL_CDMA_CONNECTED_NUMBER_INFO_REC) then
      let* o := number_part ["number"] p in
      retM (match o with Some l => Some [("number", HVec [HRec l])] | None => None end)
    else if name =? RIL_CDMA_SIGNAL_INFO_REC then
      plain_part "signal" (fun m p => q ← address infoT (rec_ ["signal"]) p; convertRilCdmaSignalInfoRecordToHal q m) p
    else if name =? RIL_CDMA_REDIRECTING_NUMBER_INFO_REC then
      let* o := number_part ["redir"; "redirectingNumber"] p in
      match o with
      | None => retM None
      | Some l =>
          let* r := reading (fun m => get infoT (rec_ ["redir"; "redirectingReason"]) m p) in
          retM (Some [("redir", HVec [HRec [("redirectingNumber", HRec l); ("redirectingReason", HInt r)]])])
      end
    else if name =? RIL_CDMA_LINE_CONTROL_INFO_REC then
      plain_part "lineCtrl" (hrec (map (fun f => (f, from_int infoT (rec_ ["lineCtrl"; f])))
        ["lineCtrlPolarityIncluded"; "lineCtrlToggle"; "lineCtrlReverse"; "lineCtrlPowerDenial"])) p
    else if name =? RIL_CDMA_T53_CLIR_INFO_REC then plain_part "clir" (hrec [("cause", from_int infoT (rec_ ["clir"; "cause"]))]) p
    else if name =? RIL_CDMA_T53_AUDIO_CONTROL_INFO_REC then
      plain_part "audioCtrl" (hrec (map (fun f => (f, from_int infoT (rec_ ["audioCtrl"; f]))) ["upLink"; "downLink"])) p
    else retM None in
  retM (match o with Some l => Some (HRec (("name", HInt name) :: l)) | None => None end).

(** All records, unless one is refused. *)
Fixpoint info_records (n : nat) (p : Z) : SVC (option (list hval)) :=
  match n with
  | O => retM (Some [])
  | S n' =>
      let* o := info_record p in
      match o with
      | None => retM None
      | Some v => let* l := info_records n' (p + sizeof infoT) in retM (match l with Some l => Some (v :: l) | None => None end)
      end
  end.

(** ril_service.cpp:7503-7679 [cdmaInfoRecInd]. *)
Definition cdmaInfoRecInd : indication_fn :=
  let T := RIL_CDMA_InformationRecords in
  indicates true 0 "cdmaInfoRec" (fun _ response responseLen =>
    if not_size (sizeof T) response responseLen then retM None
    else
      let* n := reading (fun m => get T ["numberOfInfoRecs"] m response) in
      let* p := of_option (address T ["infoRec"] response) in
      let* l := info_records (Z.to_nat (Z.min n RIL_CDMA_MAX_NUMBER_OF_INFO_RECS)) p in
      retM (match l with Some l => Some [HRec [("infoRec", HVec l)]] | None => None end)).

(** ril_service.cpp:7681-7701 [indicateRingbackToneInd]. *)
Definition indicateRingbackToneInd : indication_fn := bool_event "indicateRingbackTone".

(** ril_service.cpp:7703-7718 [resendIncallMuteInd]. *)
Definition resendIncallMuteInd : indication_fn := event "resendIncallMute".

(** ril_service.cpp:7720-7742 [cdmaSubscriptionSourceChangedInd]. *)
Definition cdmaSubscriptionSourceChangedInd : indication_fn := int_event "cdmaSubscriptionSourceChanged".

(** ril_service.cpp:7744-7764 [cdmaPrlChangedInd]. *)
Definition cdmaPrlChangedInd : indication_fn := int_event "cdmaPrlChanged".

(** ril_service.cpp:7766-7782 [exitEmergencyCallbackModeInd]. *)
Definition exitEmergencyCallbackModeInd : indication_fn := event "exitEmergencyCallbackMode".

(** ril_service.cpp:7784-7797 [rilConnectedInd]. *)
Definition rilConnectedInd : indication_fn := event "rilConnected".

(** ril_service.cpp:7799-7820 [voiceRadioTechChangedInd]. *)
Definition voiceRadioTechChangedInd : indication_fn := int_event "voiceRadioTechChanged".

(** ril_service.cpp:7990-8013 [cellInfoListInd]. *)
Definition cellInfoListInd : indication_fn :=
  indicates true 0 "cellInfoList" (accept (not_multiple (sizeof RIL_CellInfo_v12)) (read1 (convertRilCellInfoListToHal mtk))).

(** ril_service.cpp:8015-8031 [imsNetworkStateChangedInd]. *)
Definition imsNetworkStateChangedInd : indication_fn := event "imsNetworkStateChanged".

(** ril_service.cpp:8033-8054 [subscriptionStatusChangedInd]. *)
Definition subscriptionStatusChangedInd : indication_fn := bool_event "subscriptionStatusChanged".

(** ril_service.cpp:8056-8076 [srvccStateNotifyInd]. *)
Definition srvccStateNotifyInd : indication_fn := int_event "srvccStateNotify".

(** ril_service.cpp:8111-8135 [hardwareConfigChangedInd]. *)
Definition hardwareConfigChangedInd : indication_fn :=
  indicates true 0 "hardwareConfigChanged" (accept (not_multiple (sizeof RIL_HardwareConfig)) (read1 convertRilHardwareConfigListToHal)).

(** ril_service.cpp:8146-8170 [radioCapabilityIndicationInd]. *)
Definition radioCapabilityIndicationInd : indication_fn :=
  indicates true 0 "radioCapabilityIndication" (accept (not_size (sizeof RIL_RadioCapability)) (one_struct convertRilRadioCapabilityToHal)).

(** ril.h:1925-1930 [RIL_SsServiceType] the values tested for: [SS_CFU] to [SS_CF_ALL_CONDITIONAL]. *)
Definition SS_CF_TYPES : list Z := [0; 1; 2; 3; 4; 5].
(** ril.h:1947-1949 [SS_INTERROGATION]. *)
Definition SS_INTERROGATION : Z := 2.

(** ril_service.cpp:8172-8183 [isServiceTypeCfQuery]. *)
Definition isServiceTypeCfQuery (serType reqType : Z) : bool := (reqType =? SS_INTERROGATION) && one_of serType SS_CF_TYPES.

(** A count that is too large is cut in the vendor's structure. *)
Definition cut_indexes (response : Z) : SVC Z :=
  let T := RIL_StkCcUnsolSsResponse in
  let* n := reading (fun m => get T [""; "cfData"; "numValidIndexes"] m response) in
  if NUM_SERVICE_CLASSES <? n then
    let* m := reading (fun m => put T [""; "cfData"; "numValidIndexes"] NUM_SERVICE_CLASSES m response) in
    modM (fun s => s <| vmem := m |>);; retM NUM_SERVICE_CLASSES
  else retM n.

(** ril_service.cpp:8185-8263 [onSupplementaryServiceIndicationInd]. *)
Definition onSupplementaryServiceIndicationInd : indication_fn :=
  let T := RIL_StkCcUnsolSsResponse in
  indicates true 0 "onSupplementaryServiceIndication" (accept (not_size (sizeof T)) (fun response _ =>
    let* serType := reading (fun m => get T ["serviceType"] m response) in
    let* reqType := reading (fun m => get T ["requestType"] m response) in
    let* head := reading (fun m => record [("serviceType", from_int T ["serviceType"]); ("requestType", from_int T ["requestType"]);
      ("teleserviceType", from_int T ["teleserviceType"]); ("serviceClass", from_int T ["serviceClass"]); ("result", from_int T ["result"])] m response) in
    if isServiceTypeCfQuery serType reqType then
      let* n := cut_indexes response in
      let* v := reading (fun m => q ← address T [""; "cfData"; "cfInfo"] response; structs n RIL_CallForwardInfo call_forward_info m q) in
      retM [HRec (head ++ [("cfData", HVec [HRec [("cfInfo", v)]])])]
    else
      let* v := reading (fun m => q ← address T [""; "ssInfo"] response; hvec (Z.of_nat SS_INFO_MAX) (fun i => HInt <$> int_at m q i)) in
      retM [HRec (head ++ [("ssInfo", HVec [HRec [("ssInfo", v)]])])])).

(** ril_service.cpp:8265-8286 [stkCallControlAlphaNotifyInd]. *)
Definition stkCallControlAlphaNotifyInd : indication_fn := string_event "stkCallControlAlphaNotify".

(** ril_service.cpp:8295-8317 [lceDataInd]. *)
Definition lceDataInd : indication_fn :=
  indicates true 0 "lceData" (accept (not_size (sizeof RIL_LceDataInfo)) (one_struct convertRilLceDataInfoToHal)).

(** ril_service.cpp:8319-8346 [pcoDataInd]. *)
Definition pcoDataInd : indication_fn :=
  let T := RIL_PCO_Data in
  indicates true 0 "pcoData" (accept (not_size (sizeof T)) (one_struct (hrec [
    ("cid", from_int T ["cid"]); ("bearerProto", from_str T ["bearer_proto"]); ("pcoId", from_int T ["pco_id"]);
    ("contents", fun m p =>
       q ← get T ["contents"] m p;
       n ← get T ["contents_length"] m p;
       if n <? 0 then None else HVec <$> (fmap (M := option) (map HInt) (rd_bytes m q (Z.to_nat n))))]))).

(** ril_service.cpp:8348-8368 [modemResetInd]. *)
Definition modemResetInd : indication_fn := string_event "modemReset".

(** ril_service.cpp:8370-8378 [networkScanResultInd]. *)
Definition networkScanResultInd : indication_fn := fun _ _ _ _ _ _ => retM 0.

(** ril_service.cpp:8408-8430 [oemHookRawInd]. *)
Definition oemHookRawInd : indication_fn := bytes_event false "oemHookRaw".

(** A function of the vendor's own, which does something when there is a client. *)
Definition vendor_event (act : Z -> Z -> Z -> Z -> Z -> SVC unit) : indication_fn := fun slotId indicationType token e response responseLen =>
  let* client := indication_client true slotId in
  if client =? 0 then retM 0 else act client slotId indicationType response responseLen;; retM 0.

(** A call of an object of the framework without arguments. *)
Definition tell (client slotId indicationType : Z) (method : string) : SVC unit :=
  let* ok := hidl_do (Indication client slotId method (convertIntToRadioIndicationType indicationType) []) in
  checkReturnStatus slotId ok true.

(** ril_service.cpp:8501-8516 [registrationSuspendInd]. *)
Definition registrationSuspendInd : indication_fn := vendor_event (fun _ slotId _ response _ =>
  let* value := reading (fun m => int_at m response 0) in
  dispatchInts mtk (-1) slotId RIL_REQUEST_RESUME_REGISTRATION [value];; retM tt).

(** The number in the string at an index. *)
Definition atoi_at (response : Z) (i : nat) : SVC Z := reading (fun m => q ← ptr_at m response i; atoi <$> cstring m q).

(** ril_service.cpp:8519-8541 [incomingCallInd]. The object is looked up again after the request. *)
Definition incomingCallInd : indication_fn := vendor_event (fun _ slotId indicationType response _ =>
  let* p0 := atoi_at response 3 in
  let* p1 := atoi_at response 0 in
  let* p2 := atoi_at response 4 in
  dispatchInts mtk (-1) slotId RIL_REQUEST_SET_CALL_INDICATION [p0; p1; p2];;
  let* client := indication_client true slotId in
  if client =? 0 then undefM else tell client slotId indicationType "callStateChanged").

(** ril_service.cpp:8544-8562 [callInfoInd]. The length is compared with the number of strings. *)
Definition callInfoInd : indication_fn := vendor_event (fun client slotId indicationType response responseLen =>
  if 2 <=? responseLen then
    let* s := reading (fun m => q ← ptr_at m response 1; cstring m q) in
    if bool_decide (s = str "129") then tell client slotId indicationType "callStateChanged" else retM tt
  else retM tt).

(** ril_service.cpp:8565-8584 [psNetworkStateChangedInd]. *)
Definition psNetworkStateChangedInd : indication_fn := vendor_event (fun client slotId indicationType response _ =>
  let* v := reading (fun m => int_at m response 0) in
  if v =? 4 then tell client slotId indicationType "networkStateChanged" else retM tt).

(** ril_service.cpp:8587-8615 [setAttachApnInd]. *)
Definition setAttachApnInd : indication_fn := vendor_event (fun _ slotId _ _ _ =>
  let* p := addRequestToList (-1) slotId RIL_REQUEST_SET_INITIAL_ATTACH_APN in
  if p =? NULL then retM tt
  else
    let* apn := alloc (Chars []) in
    let* protocol := alloc (Chars []) in
    let* username := alloc (Chars []) in
    let* password := alloc (Chars []) in
    let* operatorNumeric := alloc (Chars []) in
    my_enqueue RIL_REQUEST_SET_INITIAL_ATTACH_APN
      (FSub [("apn", FPtr apn); ("protocol", FPtr protocol); ("authtype", FInt 0); ("username", FPtr username); ("password", FPtr password);
             ("operatorNumeric", FPtr operatorNumeric); ("canHandleIms", FInt 0); ("dualApnPlmnList", FVal VNull)])
      (sizeof RIL_InitialAttachApn - 4) FMT_IGNORE p;;
    memsetAndFreeStrings [apn; protocol; username; password; operatorNumeric]).

(** ril_unsol_commands.h:21-68 [s_unsolResponses, the functions]. *)
Definition indication_functions : list (option indication_fn) := [
  Some radioStateChangedInd; Some callStateChangedInd; Some networkStateChangedInd; Some newSmsInd;
  Some newSmsStatusReportInd; Some newSmsOnSimInd; Some onUssdInd; Some onUssdInd; Some nitzTimeReceivedInd;
  Some currentSignalStrengthInd; Some dataCallListChangedInd; Some suppSvcNotifyInd; Some stkSessionEndInd;
  Some stkProactiveCommandInd; Some stkEventNotifyInd; Some stkCallSetupInd; Some simSmsStorageFullInd;
  Some simRefreshInd; Some callRingInd; Some simStatusChangedInd; Some cdmaNewSmsInd; Some newBroadcastSmsInd;
  Some cdmaRuimSmsStorageFullInd; Some restrictedStateChangedInd; Some enterEmergencyCallbackModeInd;
  Some cdmaCallWaitingInd; Some cdmaOtaProvisionStatusInd; Some cdmaInfoRecInd; Some oemHookRawInd;
  Some indicateRingbackToneInd; Some resendIncallMuteInd; Some cdmaSubscriptionSourceChangedInd;
  Some cdmaPrlChangedInd; Some exitEmergencyCallbackModeInd; Some rilConnectedInd; Some voiceRadioTechChangedInd;
  Some cellInfoListInd; Some imsNetworkStateChangedInd; Some subscriptionStatusChangedInd; Some srvccStateNotifyInd;
  Some hardwareConfigChangedInd; None; Some radioCapabilityIndicationInd; Some onSupplementaryServiceIndicationInd;
  Some stkCallControlAlphaNotifyInd; Some lceDataInd; Some pcoDataInd; Some modemResetInd].

(** mtk_ril_unsol_commands.h:37-117 [s_unsolResponses, the functions]. *)
Definition vendor_indication_functions : list (option indication_fn) := [
  None; None; None; None; None; None; None; None; None; None; None; None; None; None; None;
  Some psNetworkStateChangedInd; None; None; None; None; None; None; None; None; Some registrationSuspendInd; None;
  None; None; None; None; None; None; None; None; None; None; None; None; None; None; None; None;
  Some incomingCallInd; None; None; None; None; None; None; Some callInfoInd; None; None; None; None; None; None;
  None; None; None; None; None; None; None; None; None; None; None; None; None; None; None; None; None;
  Some setAttachApnInd; None; None; None; None; None; None; None].

(** The function of an entry of the table. *)
Definition indication_function (i : Z) : option indication_fn := o ← elem (indication_functions ++ vendor_indication_functions) i; o.

End Indications.

(** The table and the one of Ril.v have the same functions. *)
Lemma indication_functions_rows `{RadioTypes} mtk :
  map (fun o => if o : option indication_fn then true else false) (indication_functions mtk ++ vendor_indication_functions mtk)
  = map has_indication s_unsolResponses.
Proof. reflexivity. Qed.
