(* ===== verification/RilAnswers.v ===== *)
(** What the answers and indications of the radio service do: each calls the framework once, with its
    own method and the serial number of the request, and changes nothing else; what happens when
    the client has died. *)

From stdpp Require Import base list gmap strings numbers.
From Stdlib Require Import ZArith Lia.
From S2P Require Import Prelude RilEvent RilTables Ril RilMem RilStructs RilConvert RilService RilResponses RilIndications.

Local Open Scope Z_scope.
Local Open Scope st_scope.
Local Open Scope rec_scope.

(** * Runs and what they change *)

(** Whenever [m] returns, its result satisfies [Q] and the states are related by [R]. *)
Definition confined {S A} (R : S -> S -> Prop) (m : ST S A) (Q : A -> Prop) : Prop :=
  forall s a s', m s = Ok (a, s') -> Q a /\ R s s'.

Section Runs.
Context {S : Type} (R : S -> S -> Prop) `{!PreOrder R}.

Lemma confined_ret {A} (a : A) (Q : A -> Prop) : Q a -> confined R (retM a) Q.
Proof. intros H s b s' [= <- <-]. by split. Qed.

Lemma confined_bind {A B} (m : ST S A) (k : A -> ST S B) P Q :
  confined R m P -> (forall a, P a -> confined R (k a) Q) -> confined R (bindM m k) Q.
Proof.
  intros Hm Hk s b s' (a & s1 & H1 & H2)%bindM_inv. apply Hm in H1 as [HP HR1]. apply (Hk a HP) in H2 as [HQ HR2].
  split; [done|]. by etrans.
Qed.

Lemma confined_get (Q : S -> Prop) : (forall s, Q s) -> confined R getM Q.
Proof. intros H s b s' [= <- <-]. by split. Qed.

Lemma confined_mod f (Q : unit -> Prop) : (forall s, R s (f s)) -> Q tt -> confined R (modM f) Q.
Proof. intros H HQ s b s' [= <- <-]. by split. Qed.

Lemma confined_undef {A} (Q : A -> Prop) : confined R undefM Q.
Proof. intros s b s' [=]. Qed.

Lemma confined_block {A} (Q : A -> Prop) : confined R blockM Q.
Proof. intros s b s' [=]. Qed.

Lemma confined_of_option {A} (o : option A) (Q : A -> Prop) : (forall a, o = Some a -> Q a) -> confined R (of_option o) Q.
Proof. intros H. destruct o; [by apply confined_ret, H|apply confined_undef]. Qed.

Lemma confined_if {A} (b : bool) (m1 m2 : ST S A) Q : confined R m1 Q -> confined R m2 Q -> confined R (if b then m1 else m2) Q.
Proof. by destruct b. Qed.

Lemma confined_weaken {A} (m : ST S A) (P Q : A -> Prop) : confined R m P -> (forall a, P a -> Q a) -> confined R m Q.
Proof. intros H HPQ s a s' Hm. apply H in Hm as [? ?]. auto. Qed.
End Runs.

(** Only the vendor's structures, which conversions change, and the table of data calls differ. *)
Definition converted (s s' : Svc) : Prop := s' = s <| vmem := vmem s' |> <| dataCallCids := dataCallCids s' |>.

#[export] Instance converted_pre : PreOrder converted.
Proof.
  split; [intros []; reflexivity|]. unfold converted. intros s1 s2 s3 -> H. rewrite H. reflexivity.
Qed.

(** Nothing differs but who the clients are, how often they changed, and what other threads have
    still to do. *)
Definition same_run (s s' : Svc) : Prop :=
  s' = s <| radioService := radioService s' |> <| oemHookService := oemHookService s' |> <| mCounterRadio := mCounterRadio s' |>
         <| mCounterOemHook := mCounterOemHook s' |> <| held := held s' |> <| others := others s' |>.

#[export] Instance same_run_pre : PreOrder same_run.
Proof. split; [intros []; reflexivity|]. unfold same_run. intros s1 s2 s3 -> H. rewrite H. reflexivity. Qed.

(** What neither changes. *)
Definition traces (s : Svc) : list hidl_call * Ril * gmap Z block * list vendor_request * list bool := (hidl s, lib s, heap s, sent s, oks s).
Lemma converted_traces s s' : converted s s' -> traces s' = traces s.
Proof. intros ->. done. Qed.
Lemma same_run_traces s s' : same_run s s' -> traces s' = traces s.
Proof. intros ->. done. Qed.

Definition anything {A} (_ : A) : Prop := True.

Create HintDb confined discriminated.
#[export] Hint Resolve confined_undef confined_block : confined.
#[export] Hint Extern 1 (confined _ (retM _) anything) => (apply confined_ret; [typeclasses eauto|exact I]) : confined.
#[export] Hint Extern 1 (confined _ (of_option _) anything) => (apply confined_of_option; [typeclasses eauto|intros; exact I]) : confined.
#[export] Hint Extern 1 (confined _ getM anything) => (apply confined_get; [typeclasses eauto|intros; exact I]) : confined.
#[export] Hint Extern 1 (confined same_run (modM _) anything) => (apply confined_mod; [intros []; reflexivity|exact I]) : confined.
#[export] Hint Extern 1 (confined converted (modM _) anything) => (apply confined_mod; [intros []; reflexivity|exact I]) : confined.

(** One step of a run after the other, with a case analysis where the code branches. *)
Ltac confine :=
  repeat (intros; first
    [ solve [auto with confined nocore]
    | lazymatch goal with |- confined _ (bindM _ _) anything => eapply confined_bind with (P := anything); [typeclasses eauto| |intros ? _] end
    | case_goal ]).

Lemma converts_reading {A} (f : cmem -> option A) : confined converted (reading f) anything.
Proof. unfold reading. confine. Qed.
#[export] Hint Resolve converts_reading : confined.

Lemma converts_read1 f response responseLen : confined converted (read1 f response responseLen) anything.
Proof. unfold read1. confine. Qed.
Lemma converts_one_struct c response responseLen : confined converted (one_struct c response responseLen) anything.
Proof. apply converts_read1. Qed.
Lemma converts_strings n response responseLen : confined converted (strings n response responseLen) anything.
Proof. apply converts_reading. Qed.
Lemma converts_signal_strength response : confined converted (signal_strength response) anything.
Proof. unfold signal_strength. confine. Qed.
Lemma converts_remember_cid c : confined converted (remember_cid c) anything.
Proof. unfold remember_cid. confine. Qed.
#[export] Hint Resolve converts_read1 converts_one_struct converts_strings converts_signal_strength converts_remember_cid : confined.

(** * A dead client *)

Lemma update_impl_same u : confined same_run (update_impl u) anything.
Proof. unfold update_impl, set_impl, count_up, get_impl, get_counter. confine. Qed.
#[export] Hint Resolve update_impl_same : confined.

Lemma apply_updates_same us : confined same_run (apply_updates us) anything.
Proof. induction us; cbn; confine. Qed.
#[export] Hint Resolve apply_updates_same : confined.

Lemma checkReturnStatus_same slotId ok radio : confined same_run (checkReturnStatus slotId ok radio) anything.
Proof.
  unfold checkReturnStatus, other_threads, exclusive, unlock, rdlock, set_impl, count_up, get_impl, get_counter. confine.
Qed.

(** * Answers *)

(** The information of an answer: the type asked for, the serial number of the request and the error
    that the vendor's library gave; an error of its own in place of success, when the data are wrong. *)
Definition proper_info `{RadioTypes} (responseType serial e : Z) (info : RadioResponseInfo) : Prop :=
  ri_serial info = serial /\ (ri_error info = e \/ e = RIL_E_SUCCESS /\ ri_error info = INVALID_RESPONSE) /\
  (responseType = RESPONSE_SOLICITED -> ri_type info = TYPE_SOLICITED) /\
  (responseType = RESPONSE_SOLICITED_ACK_EXP -> ri_type info = TYPE_SOLICITED_ACK_EXP).

Lemma proper_own `{RadioTypes} ty serial e : proper_info ty serial e (populateResponseInfo serial ty e).
Proof. split; [done|]. split; [by left|]. by split; intros ->. Qed.

Lemma proper_invalid `{RadioTypes} ty serial e : proper_info ty serial e (invalid_response e (populateResponseInfo serial ty e)).
Proof.
  unfold invalid_response. destruct (Z.eqb_spec e RIL_E_SUCCESS) as [->|He]; [|apply proper_own]. split; [done|]. split; [by right|].
  by split; intros ->.
Qed.

(** A function that answers with [method]: when there is a client it gets one call, and when there
    is none nothing happens. *)
Definition answers_with `{RadioTypes} (radio : bool) (method : string) (f : response_fn) : Prop :=
  forall slotId responseType serial e response responseLen s v s',
    f slotId responseType serial e response responseLen s = Ok (v, s') ->
    v = 0 /\ exists i, elem (services radio s) slotId = Some (Some i) /\
    (mResponse i = 0 /\ s' = s \/
     mResponse i <> 0 /\ exists info args,
       hidl s' = hidl s ++ [Response (mResponse i) slotId method info args] /\ proper_info responseType serial e info /\
       lib s' = lib s /\ heap s' = heap s /\ sent s' = sent s /\ oks s' = tail (oks s) /\
       (hd true (oks s) = true -> held s' = held s /\ services true s' = services true s /\ services false s' = services false s)).

Section Answers.
Context `{HT : RadioTypes}.

Definition good_body (body : Z -> Z -> Z -> Z -> Z -> SVC (RadioResponseInfo * list hval)) : Prop :=
  forall responseType serial e response responseLen,
    confined converted (body responseType serial e response responseLen) (fun x => proper_info responseType serial e x.1).

Lemma answer_good bad d conv : (forall response responseLen, confined converted (conv response responseLen) anything) -> good_body (answer bad d conv).
Proof.
  intros Hc ty serial e r n. unfold answer. case_goal.
  - apply confined_ret; [typeclasses eauto|]. apply proper_invalid.
  - eapply confined_bind with (P := anything); [typeclasses eauto|apply Hc|]. intros a _. apply confined_ret; [typeclasses eauto|]. apply proper_own.
Qed.

Lemma get_impl_inv radio slotId s i s' : get_impl radio slotId s = Ok (i, s') -> s' = s /\ elem (services radio s) slotId = Some (Some i).
Proof.
  unfold get_impl. run. destruct (elem _ _) as [[j|]|] eqn:E; run; try discriminate. by intros [= <- <-].
Qed.

Lemma responds_answers radio method body : good_body body -> answers_with radio method (responds radio method body).
Proof.
  intros Hb slotId ty serial e r n s v s' H. unfold responds in H.
  apply bindM_inv in H as (i & s1 & [-> Hi]%get_impl_inv & H). destruct (Z.eqb_spec (mResponse i) 0) as [E|E].
  - injection H as <- <-. split; [done|]. exists i. split; [done|by left].
  - apply bindM_inv in H as ([info args] & s2 & H2 & H). apply Hb in H2 as [Hinfo Hc].
    apply bindM_inv in H as (ok & s3 & H3 & H). injection H3 as <- <-.
    apply bindM_inv in H as (u & s4 & H4 & H). injection H as <- <-. pose proof H4 as H4'. apply checkReturnStatus_same in H4 as [_ Hs%same_run_traces].
    assert (hd true (oks s) = true -> held s4 = held s /\ services true s4 = services true s /\ services false s4 = services false s) as Hlive.
    { rewrite Hc in H4'. cbn in H4'. intros Hok. rewrite Hok in H4'. injection H4' as _ <-. by split_and!. }
    apply converted_traces in Hc. injection Hc as E1 E2 E3 E4 E5. injection Hs as F1 F2 F3 F4 F5.
    split; [done|]. exists i. split; [done|right]. split; [done|]. exists info, args. cbn in *. rewrite F1, F2, F3, F4, F5, E1, E2, E3, E4, E5. by split_and!.
Qed.
End Answers.

Create HintDb says discriminated.
#[export] Hint Extern 1 (answers_with _ _ (responds _ _ _)) => (apply responds_answers) : says.

(** The functions of the table by their names, in its order; of these the two for the vendor's own
    requests are of the other service. *)
Definition response_methods : list string := [
  ""; "getIccCardStatusResponse"; "supplyIccPinForAppResponse"; "supplyIccPukForAppResponse"; "supplyIccPin2ForAppResponse";
  "supplyIccPuk2ForAppResponse"; "changeIccPinForAppResponse"; "changeIccPin2ForAppResponse";
  "supplyNetworkDepersonalizationResponse"; "getCurrentCallsResponse"; "dialResponse"; "getIMSIForAppResponse";
  "hangupConnectionResponse"; "hangupWaitingOrBackgroundResponse"; "hangupForegroundResumeBackgroundResponse";
  "switchWaitingOrHoldingAndActiveResponse"; "conferenceResponse"; "rejectCallResponse"; "getLastCallFailCauseResponse";
  "getSignalStrengthResponse"; "getVoiceRegistrationStateResponse"; "getDataRegistrationStateResponse";
  "getOperatorResponse"; "setRadioPowerResponse"; "sendDtmfResponse"; "sendSmsResponse"; "sendSMSExpectMoreResponse";
  "setupDataCallResponse"; "iccIOForAppResponse"; "sendUssdResponse"; "cancelPendingUssdResponse"; "getClirResponse";
  "setClirResponse"; "getCallForwardStatusResponse"; "setCallForwardResponse"; "getCallWaitingResponse";
  "setCallWaitingResponse"; "acknowledgeLastIncomingGsmSmsResponse"; ""; ""; "acceptCallResponse";
  "deactivateDataCallResponse"; "getFacilityLockForAppResponse"; "setFacilityLockForAppResponse";
  "setBarringPasswordResponse"; "getNetworkSelectionModeResponse"; "setNetworkSelectionModeAutomaticResponse";
  "setNetworkSelectionModeManualResponse"; "getAvailableNetworksResponse"; "startDtmfResponse"; "stopDtmfResponse";
  "getBasebandVersionResponse"; "separateConnectionResponse"; "setMuteResponse"; "getMuteResponse"; "getClipResponse"; "";
  "getDataCallListResponse"; ""; "sendRequestRawResponse"; "sendRequestStringsResponse"; "sendDeviceStateResponse";
  "setSuppServiceNotificationsResponse"; "writeSmsToSimResponse"; "deleteSmsOnSimResponse"; "setBandModeResponse";
  "getAvailableBandModesResponse"; ""; ""; "sendEnvelopeResponse"; "sendTerminalResponseToSimResponse";
  "handleStkCallSetupRequestFromSimResponse"; "explicitCallTransferResponse"; "setPreferredNetworkTypeResponse";
  "getPreferredNetworkTypeResponse"; "getNeighboringCidsResponse"; "setLocationUpdatesResponse";
  "setCdmaSubscriptionSourceResponse"; "setCdmaRoamingPreferenceResponse"; "getCdmaRoamingPreferenceResponse";
  "setTTYModeResponse"; "getTTYModeResponse"; "setPreferredVoicePrivacyResponse"; "getPreferredVoicePrivacyResponse";
  "sendCDMAFeatureCodeResponse"; "sendBurstDtmfResponse"; ""; "sendCdmaSmsResponse";
  "acknowledgeLastIncomingCdmaSmsResponse"; "getGsmBroadcastConfigResponse"; "setGsmBroadcastConfigResponse";
  "setGsmBroadcastActivationResponse"; "getCdmaBroadcastConfigResponse"; "setCdmaBroadcastConfigResponse";
  "setCdmaBroadcastActivationResponse"; "getCDMASubscriptionResponse"; "writeSmsToRuimResponse"; "deleteSmsOnRuimResponse";
  "getDeviceIdentityResponse"; "exitEmergencyCallbackModeResponse"; "getSmscAddressResponse"; "setSmscAddressResponse";
  "reportSmsMemoryStatusResponse"; "reportStkServiceIsRunningResponse"; "getCdmaSubscriptionSourceResponse";
  "requestIsimAuthenticationResponse"; "acknowledgeIncomingGsmSmsWithPduResponse"; "sendEnvelopeWithStatusResponse";
  "getVoiceRadioTechnologyResponse"; "getCellInfoListResponse"; "setCellInfoListRateResponse";
  "setInitialAttachApnResponse"; "getImsRegistrationStateResponse"; "sendImsSmsResponse";
  "iccTransmitApduBasicChannelResponse"; "iccOpenLogicalChannelResponse"; "iccCloseLogicalChannelResponse";
  "iccTransmitApduLogicalChannelResponse"; "nvReadItemResponse"; "nvWriteItemResponse"; "nvWriteCdmaPrlResponse";
  "nvResetConfigResponse"; "setUiccSubscriptionResponse"; "setDataAllowedResponse"; "getHardwareConfigResponse";
  "requestIccSimAuthenticationResponse"; ""; ""; "setDataProfileResponse"; "requestShutdownResponse";
  "getRadioCapabilityResponse"; "setRadioCapabilityResponse"; "startLceServiceResponse"; "stopLceServiceResponse";
  "pullLceDataResponse"; "getModemActivityInfoResponse"; "setAllowedCarriersResponse"; "getAllowedCarriersResponse";
  "sendDeviceStateResponse"; "setIndicationFilterResponse"; "setSimCardPowerResponse"].

Definition oem_method (method : string) : bool := String.eqb method "sendRequestRawResponse" || String.eqb method "sendRequestStringsResponse".

Section Every.
Context `{HT : RadioTypes}.
Variable mtk : bool.

Ltac good :=
  intros ? ? ? ? ?;
  repeat first
    [ lazymatch goal with
      | |- confined _ (answer _ _ _ _ _ _ _ _) _ => apply answer_good; intros; confine
      | |- confined _ (bindM _ _) _ => eapply confined_bind with (P := anything); [typeclasses eauto|solve [confine]|intros ? _]
      | |- confined _ (retM _) _ => apply confined_ret; [typeclasses eauto|]; first [apply proper_own | apply proper_invalid]
      | |- confined _ undefM _ => apply confined_undef
      end
    | case_goal ].

Lemma responseIntOrEmpty_good : good_body responseIntOrEmpty.
Proof. unfold responseIntOrEmpty. good. Qed.

Lemma answers_void m : answers_with true m (void_response m).
Proof. apply responds_answers, answer_good. confine. Qed.
Lemma answers_int m : answers_with true m (int_response m).
Proof. apply responds_answers, answer_good. intros. apply converts_read1. Qed.
Lemma answers_int_or_empty m : answers_with true m (int_or_empty m).
Proof. apply responds_answers, responseIntOrEmpty_good. Qed.
Lemma answers_string m : answers_with true m (string_response m).
Proof. apply responds_answers, answer_good. intros. apply converts_read1. Qed.
Lemma answers_sms m : answers_with true m (sms_response m).
Proof. apply responds_answers, answer_good. intros. apply converts_one_struct. Qed.
Lemma answers_icc_io m : answers_with true m (icc_io_response m).
Proof. apply responds_answers, answer_good. intros. apply converts_one_struct. Qed.
Lemma answers_capability m : answers_with true m (capability_response m).
Proof. apply responds_answers, answer_good. intros. apply converts_one_struct. Qed.
Lemma answers_lce m : answers_with true m (lce_status_response m).
Proof. apply responds_answers, answer_good. intros. apply converts_one_struct. Qed.

Hint Resolve answers_void answers_int answers_int_or_empty answers_string answers_sms answers_icc_io
  answers_capability answers_lce : says.

(** The method by which the function of a request answers: one of them answers by another's. *)
Definition answered_as (method : string) : string :=
  if String.eqb method "hangupForegroundResumeBackgroundResponse" then "hangupWaitingOrBackgroundResponse" else method.

Definition row_answers (o : option response_fn) (method : string) : Prop :=
  match o with
  | None => method = ""
  | Some f => answers_with (negb (oem_method method)) (answered_as method) f
  end.

(** A function that is not like the others. *)
Ltac answers_alone :=
  let rec head t := lazymatch t with ?f _ => head f | _ => t end in
  lazymatch goal with |- answers_with _ _ ?f => let h := head f in unfold h end;
  apply responds_answers; first [apply answer_good; intros; solve [confine] | solve [good]].

Lemma rows_answer : Forall2 row_answers (response_functions mtk) response_methods.
Proof.
  repeat apply List.Forall2_cons; [..|apply List.Forall2_nil]; unfold row_answers; try reflexivity;
    cbn [answered_as oem_method String.eqb Ascii.eqb Bool.eqb orb negb].
  all: first [solve [auto with says nocore] | answers_alone].
Qed.

(** The row of a function. *)
Lemma row_of_function i f method : response_function mtk i = Some f -> elem response_methods i = Some method -> row_answers (Some f) method.
Proof.
  unfold response_function, elem. destruct (i <? 0); [done|]. intros Hf Hm.
  destruct (response_functions mtk !! Z.to_nat i) as [o|] eqn:E; [|done]. cbn in Hf. subst o.
  by eapply Forall2_lookup_lr in Hm; [|apply rows_answer|exact E].
Qed.

(** C3: every function of the table of requests, whenever it returns, has answered the framework
    exactly once, with the method of its own name, the serial number of the request, the type asked
    for and the vendor's error (or that the data are wrong), or has done nothing because the slot
    has no client. It changes nothing of the library, sends no request and leaves no memory behind.
    The one exception is named. *)
Theorem every_answer i f method :
  response_function mtk i = Some f -> elem response_methods i = Some method -> method <> "hangupForegroundResumeBackgroundResponse" ->
  answers_with (negb (oem_method method)) method f.
Proof.
  intros Hf Hm Hne%String.eqb_neq. pose proof (row_of_function i f method Hf Hm) as H. cbn in H. unfold answered_as in H. by rewrite Hne in H.
Qed.
End Every.

(** * Who the clients are *)

Lemma elem_insert_eq {A} (l : list A) j x y : elem l j = Some y -> elem (<[Z.to_nat j := x]> l) j = Some x.
Proof.
  unfold elem. destruct (Z.ltb_spec j 0); [done|]. intros Hl%lookup_lt_Some. by rewrite list_lookup_insert_eq.
Qed.

Lemma elem_insert_ne {A} (l : list A) j k x : 0 <= j -> 0 <= k -> j <> k -> elem (<[Z.to_nat j := x]> l) k = elem l k.
Proof. intros Hj Hk Hn. unfold elem. destruct (Z.ltb_spec k 0); [lia|]. rewrite list_lookup_insert_ne; [done|lia]. Qed.

(** Both slots have both services and their counters. *)
Definition registered (s : Svc) : Prop :=
  forall radio slotId, 0 <= slotId < 2 ->
    (exists i, elem (services radio s) slotId = Some (Some i)) /\ (exists c, elem (counters radio s) slotId = Some c).

Definition touches (radio : bool) (slotId : Z) (u : update) : bool := Bool.eqb (up_radio u) radio && (up_slot u =? slotId).

(** The objects that some registrations leave, and how many there were. *)
Definition last_client (radio : bool) (slotId : Z) (us : list update) (i : Impl) : Impl :=
  fold_left (fun i u => if touches radio slotId u then up_impl u else i) us i.
Definition registrations (radio : bool) (slotId : Z) (us : list update) : Z :=
  zlen (List.filter (touches radio slotId) us).

Definition valid_update (u : update) : Prop := 0 <= up_slot u < 2.

(** [set_impl] and [count_up] on a registered service. *)
Lemma update_impl_run u s : registered s -> valid_update u ->
  exists s', update_impl u s = Ok (tt, s') /\ registered s' /\ held s' = held s /\ others s' = others s /\
  forall radio slotId, 0 <= slotId < 2 ->
    elem (services radio s') slotId = (if touches radio slotId u then Some (Some (up_impl u)) else elem (services radio s) slotId) /\
    elem (counters radio s') slotId = (if touches radio slotId u then (fun n => i32 (n + 1)) <$> elem (counters radio s) slotId else elem (counters radio s) slotId).
Proof.
  intros Hr Hu. destruct u as [r j i]. unfold valid_update in Hu. cbn in Hu. destruct (Hr r j Hu) as [[i0 Hi] [c Hc]].
  assert (forall radio slotId, 0 <= slotId < 2 -> touches radio slotId (mkUpdate r j i) = true -> radio = r /\ slotId = j) as Ht.
  { intros ro k _. unfold touches. cbn. rewrite andb_true_iff, Bool.eqb_true_iff, Z.eqb_eq. by intros [-> ->]. }
  exists (if r then s <| radioService := <[Z.to_nat j := Some i]> (radioService s) |> <| mCounterRadio := <[Z.to_nat j := i32 (c + 1)]> (mCounterRadio s) |>
          else s <| oemHookService := <[Z.to_nat j := Some i]> (oemHookService s) |>
                 <| mCounterOemHook := <[Z.to_nat j := i32 (c + 1)]> (mCounterOemHook s) |>).
  assert (forall radio slotId, 0 <= slotId < 2 ->
    let s' := if r then s <| radioService := <[Z.to_nat j := Some i]> (radioService s) |> <| mCounterRadio := <[Z.to_nat j := i32 (c + 1)]> (mCounterRadio s) |>
              else s <| oemHookService := <[Z.to_nat j := Some i]> (oemHookService s) |>
                     <| mCounterOemHook := <[Z.to_nat j := i32 (c + 1)]> (mCounterOemHook s) |> in
    elem (services radio s') slotId = (if touches radio slotId (mkUpdate r j i) then Some (Some i) else elem (services radio s) slotId) /\
    elem (counters radio s') slotId = (if touches radio slotId (mkUpdate r j i) then (fun n => i32 (n + 1)) <$> elem (counters radio s) slotId
                                       else elem (counters radio s) slotId)) as Hs.
  { intros ro k Hk s'. subst s'. destruct (touches ro k (mkUpdate r j i)) eqn:E.
    - destruct (Ht _ _ Hk E) as [-> ->]. rewrite Hc. destruct r; cbn in *; split; by (eapply elem_insert_eq).
    - unfold touches in E. cbn in E. destruct r, ro; cbn in *; try done; (split; apply elem_insert_ne; lia). }
  split_and!.
  - unfold update_impl, set_impl, count_up, get_impl, get_counter. cbn [up_radio up_slot up_impl]. run. rewrite Hi. run.
    destruct r; cbn in *; rewrite Hc; run; done.
  - intros ro k Hk. destruct (Hs ro k Hk) as [-> ->]. destruct (Hr ro k Hk) as [Hi' [c' Hc']]. rewrite Hc'. cbn.
    destruct (touches _ _ _); [|by eauto]. split; by eexists.
  - by destruct r.
  - by destruct r.
  - exact Hs.
Qed.

Lemma i32_add a b : i32 (i32 a + b) = i32 (a + b).
Proof.
  unfold i32. f_equal. replace ((a + 2 ^ 31) mod 2 ^ 32 - 2 ^ 31 + b + 2 ^ 31) with ((a + 2 ^ 31) mod 2 ^ 32 + b) by lia.
  rewrite Zplus_mod_idemp_l. f_equal. lia.
Qed.

Lemma apply_updates_run us : forall s, registered s -> Forall valid_update us ->
  exists s', apply_updates us s = Ok (tt, s') /\ registered s' /\ held s' = held s /\ others s' = others s /\
  forall radio slotId i c, 0 <= slotId < 2 -> elem (services radio s) slotId = Some (Some i) -> elem (counters radio s) slotId = Some c -> is_i32 c ->
    elem (services radio s') slotId = Some (Some (last_client radio slotId us i)) /\
    elem (counters radio s') slotId = Some (i32 (c + registrations radio slotId us)).
Proof.
  induction us as [|u us IH]; intros s Hr Hv.
  - exists s. split; [done|]. split; [done|]. do 2 (split; [done|]). intros radio slotId i c _ Hi Hc Hn. split; [done|].
    unfold registrations. cbn. by rewrite Z.add_0_r, i32_id.
  - apply list.Forall_cons in Hv as [Hu Hv]. destruct (update_impl_run u s Hr Hu) as (s1 & H1 & Hr1 & Hh1 & Ho1 & Hs1).
    destruct (IH s1 Hr1 Hv) as (s2 & H2 & Hr2 & Hh2 & Ho2 & Hs2). exists s2. split; [cbn; by rewrite (bindM_ok _ _ _ _ _ H1)|].
    split; [done|]. split; [congruence|]. split; [congruence|]. intros radio slotId i c Hk Hi Hc Hn.
    destruct (Hs1 radio slotId Hk) as [E1 E2]. unfold registrations. cbn [last_client fold_left List.filter]. destruct (touches radio slotId u).
    + rewrite Hc in E2. destruct (Hs2 _ _ _ _ Hk E1 E2 (i32_range _)) as [F1 F2]. split; [done|]. rewrite F2, i32_add, zlen_cons. do 2 f_equal. unfold registrations. lia.
    + rewrite Hi in E1. rewrite Hc in E2. by apply Hs2.
Qed.

Lemma registered_room radio slotId c us : is_i32 c -> zlen us < 2 ^ 32 ->
  (registrations radio slotId us = 0 -> (c =? i32 (c + registrations radio slotId us)) = true) /\
  (registrations radio slotId us <> 0 -> (c =? i32 (c + registrations radio slotId us)) = false).
Proof.
  intros Hc Hl. split.
  - intros ->. rewrite Z.add_0_r, i32_id by done. apply Z.eqb_refl.
  - intros Hn. apply Z.eqb_neq. intros E. assert (0 < registrations radio slotId us <= zlen us) as [H1 H2].
    { unfold registrations, zlen in *. pose proof (List.filter_length_le (touches radio slotId) us). lia. }
    unfold i32, is_i32 in *. pose proof (Z.div_mod (c + registrations radio slotId us + 2 ^ 31) (2 ^ 32) ltac:(lia)).
    pose proof (Z.mod_pos_bound (c + registrations radio slotId us + 2 ^ 31) (2 ^ 32) ltac:(lia)).
    set (q := (c + registrations radio slotId us + 2 ^ 31) / 2 ^ 32) in *. nia.
Qed.

Lemma rdlock_back slotId s s3 : held s !! getRadioServiceRwlock slotId = Some 1 ->
  held s3 = <[getRadioServiceRwlock slotId := 0]> (held s) -> rdlock slotId s3 = Ok (tt, s3 <| held := held s |>).
Proof.
  intros Hh H3. unfold rdlock. run.
  assert (alter (Z.add 1) (getRadioServiceRwlock slotId) (held s3) = held s) as ->; [|done]. rewrite H3. apply list_eq. intros k.
  destruct (decide (k = getRadioServiceRwlock slotId)) as [->|Hne].
  - rewrite list_lookup_alter_eq, list_lookup_insert_eq, Hh; [done|by apply lookup_lt_Some in Hh].
  - by rewrite list_lookup_alter_ne, list_lookup_insert_ne.
Qed.

(** C9: a call that fails takes the client away: both of its objects become NULL and the change is
    counted. But a client that another thread registers while the lock is given back for it stays,
    the last one of several. In either case the thread holds the lock again when it goes on, the
    lock is free in between, and nothing but the clients has changed. *)
Theorem dead_client s slotId radio i c us :
  registered s -> 0 <= slotId < 2 -> elem (services radio s) slotId = Some (Some i) -> elem (counters radio s) slotId = Some c -> is_i32 c ->
  held s !! getRadioServiceRwlock slotId = Some 1 ->
  default [] (head (others s)) = us -> Forall valid_update us -> zlen us < 2 ^ 32 ->
  exists s', checkReturnStatus slotId false radio s = Ok (tt, s') /\ held s' = held s /\ traces s' = traces s /\
    (if registrations radio slotId us =? 0 then
       elem (services radio s') slotId = Some (Some (mkImpl 0 0)) /\ elem (counters radio s') slotId = Some (i32 (c + 1))
     else
       elem (services radio s') slotId = Some (Some (last_client radio slotId us i)) /\
       elem (counters radio s') slotId = Some (i32 (c + registrations radio slotId us))).
Proof.
  intros Hr Hk Hi Hc Hn Hh Hus Hv Hl.
  set (lk := getRadioServiceRwlock slotId) in *.
  set (s1 := s <| held := <[lk := 0]> (held s) |> <| others := tail (others s) |>).
  assert (registered s1) as Hr1 by (intros [] j Hj; [exact (Hr true j Hj)|exact (Hr false j Hj)]).
  destruct (apply_updates_run us s1 Hr1 Hv) as (s2 & H2 & Hr2 & Hh2 & _ & Hs2).
  assert (services radio s1 = services radio s /\ counters radio s1 = counters radio s) as [Es Ec] by (by destruct radio).
  rewrite <- Es in Hi. rewrite <- Ec in Hc. destruct (Hs2 radio slotId i c Hk Hi Hc Hn) as [F1 F2]. rewrite Ec in Hc.
  assert (held s2 !! lk = Some 0) as Hlk.
  { rewrite Hh2. cbn. apply list_lookup_insert_eq. by apply lookup_lt_Some in Hh. }
  assert (checkReturnStatus slotId false radio s
          = (exclusive slotId (let* now := get_counter radio slotId in
               if c =? now then set_impl radio slotId (mkImpl 0 0);; count_up radio slotId else retM tt);; rdlock slotId) s2) as ->.
  { unfold checkReturnStatus. unfold get_counter at 1. run. rewrite Hc. run. unfold unlock. run. fold lk. rewrite Hh. cbn. run.
    unfold other_threads. run. rewrite Hus. change (apply_updates us _) with (apply_updates us s1). rewrite H2.
    unfold exclusive. by run. }
  destruct (registered_room radio slotId c us) as [Hz Hnz]; [done|done|].
  assert (traces s2 = traces s) as Ht.
  { pose proof (apply_updates_same us s1 tt s2 H2) as [_ Hx%same_run_traces]. by rewrite Hx. }
  unfold exclusive. run. fold lk. rewrite Hlk. cbn. unfold get_counter. run. rewrite F2. cbn.
  destruct (Z.eqb_spec (registrations radio slotId us) 0) as [E|E].
  - rewrite E, Z.add_0_r, i32_id, Z.eqb_refl by done.
    destruct (update_impl_run (mkUpdate radio slotId (mkImpl 0 0)) s2 Hr2) as (s3 & H3 & _ & Hh3 & _ & Hs3); [done|].
    change (update_impl (mkUpdate radio slotId (mkImpl 0 0)) s2) with ((set_impl radio slotId (mkImpl 0 0);; count_up radio slotId) s2) in H3.
    unfold bindM in H3. rewrite H3. rewrite (rdlock_back slotId s s3) by (try done; rewrite Hh3, Hh2; done).
    destruct (Hs3 radio slotId Hk) as [G1 G2]. unfold touches in G1, G2. cbn in G1, G2. rewrite Bool.eqb_reflx, Z.eqb_refl in G1, G2. cbn in G1, G2.
    eexists. split; [done|]. split; [done|]. split.
    { rewrite <- Ht. pose proof (update_impl_same (mkUpdate radio slotId (mkImpl 0 0)) s2 tt s3 H3) as [_ Hx%same_run_traces]. exact Hx. }
    assert (forall h, services radio (s3 <| held := h |>) = services radio s3 /\ counters radio (s3 <| held := h |>) = counters radio s3) as Hheld
      by (by destruct radio). destruct (Hheld (held s)) as [-> ->]. split; [done|]. rewrite G2, F2, E, Z.add_0_r. cbn. by rewrite (i32_id c).
  - rewrite Hnz by done. rewrite (rdlock_back slotId s s2) by (try done; rewrite Hh2; done).
    eexists. split; [done|]. split; [done|]. split; [by rewrite <- Ht|]. by destruct radio.
Qed.
