(* ===== verification/RilRefuse.v ===== *)
(** Requests of the radio service that are answered at once with an error: the answer goes through the
    function of the table without the lock, and the request stays in the list. *)

From stdpp Require Import base list gmap strings numbers.
From Stdlib Require Import ZArith Lia.
From S2P Require Import Prelude RilEvent RilTables Ril RilCore RilRequests RilMem RilStructs RilConvert RilService RilResponses RilCodes RilDispatch RilRadio.
From S2P Require Import RilIndications RilAnswers.

Local Open Scope Z_scope.
Local Open Scope st_scope.
Local Open Scope rec_scope.

Section Refuse.
Context `{HT : RadioTypes}.

(** An error without data: the client gets it, and what follows depends on whether it is alive. *)
Definition refuses (method : string) (f : response_fn) : Prop :=
  let radio := negb (oem_method method) in
  forall slotId responseType serial e s i,
    elem (services radio s) slotId = Some (Some i) -> mResponse i <> 0 -> e <> RIL_E_SUCCESS ->
    exists args, f slotId responseType serial e NULL 0 s
      = (checkReturnStatus slotId (hd true (oks s)) radio;; retM 0)
          (s <| hidl := hidl s ++ [Response (mResponse i) slotId (answered_as method) (populateResponseInfo serial responseType e) args] |>
             <| oks := tail (oks s) |>).

Lemma responds_refuses method body :
  (forall responseType serial e s, e <> RIL_E_SUCCESS -> exists args,
     body responseType serial e NULL 0 s = Ok ((populateResponseInfo serial responseType e, args), s)) ->
  refuses method (responds (negb (oem_method method)) (answered_as method) body).
Proof.
  intros Hb slotId ty serial e s i Hi Hc He. destruct (Hb ty serial e s He) as [args Hx]. exists args.
  unfold responds, get_impl. run. rewrite Hi. run. rewrite (proj2 (Z.eqb_neq _ 0) Hc), Hx. reflexivity.
Qed.

Definition row_refuses (o : option response_fn) (method : string) : Prop :=
  match o with Some f => refuses method f | None => True end.

(** A function of the table as an instance of the frame. *)
Ltac framed :=
  let rec head t := lazymatch t with ?f _ => head f | _ => t end in
  lazymatch goal with
  | |- refuses ?m (responds ?radio ?as_ ?body) =>
      change (refuses m (responds (negb (oem_method m)) (answered_as m) body)); apply responds_refuses
  | |- refuses _ ?f => let h := head f in unfold h; framed
  end.

Lemma rows_refuse : Forall2 row_refuses (response_functions true) response_methods.
Proof.
  repeat apply List.Forall2_cons; [..|apply List.Forall2_nil]; unfold row_refuses; try exact I.
  all: framed; intros ty serial e s He.
  all: destruct e as [|q|q]; [by destruct He|by eexists|by eexists].
Qed.

Lemma row_of_refusal i f method : response_function true i = Some f -> elem response_methods i = Some method -> refuses method f.
Proof.
  unfold response_function, elem. destruct (i <? 0); [done|]. intros Hf Hm.
  destruct (response_functions true !! Z.to_nat i) as [o|] eqn:E; [|done]. cbn in Hf. subst o.
  by eapply Forall2_lookup_lr in Hm; [|apply rows_refuse|exact E].
Qed.

(** A failed call while the lock is not held ends in giving back a lock that is not held. *)
Lemma unlocked_failure slotId radio s c : elem (counters radio s) slotId = Some c -> held s !! getRadioServiceRwlock slotId = Some 0 ->
  checkReturnStatus slotId false radio s = Undef.
Proof. intros Hc Hh. unfold checkReturnStatus, get_counter, unlock. run. rewrite Hc. run. by rewrite Hh. Qed.

(** The client of a service: its pointer and its counter, and the lock is free. *)
Definition idle_client (radio : bool) (slotId : Z) (i : Impl) (c : Z) (s : Svc) : Prop :=
  elem (services radio s) slotId = Some (Some i) /\ mResponse i <> 0 /\ elem (counters radio s) slotId = Some c /\
  held s !! getRadioServiceRwlock slotId = Some 0.

(** An error for a request that is in the list. *)
Lemma sendErrorResponse_run p err s r f method i c : requests (lib s) !! p = Some r ->
  response_function true (pCI r) = Some f -> elem response_methods (pCI r) = Some method ->
  idle_client (negb (oem_method method)) (socket_id r) i c s -> err <> RIL_E_SUCCESS -> exists args,
  sendErrorResponse true p err s =
    if hd true (oks s) then
      Ok (tt, s <| hidl := hidl s ++ [Response (mResponse i) (socket_id r) (answered_as method)
                                        (populateResponseInfo (token r) TYPE_SOLICITED err) args] |> <| oks := tail (oks s) |>)
    else Undef.
Proof.
  intros Hr Hf Hm (Hi & Hp & Hc & Hh) He.
  destruct (row_of_refusal _ _ _ Hf Hm (socket_id r) TYPE_SOLICITED (token r) err s i Hi Hp He) as [args Ha]. exists args.
  assert (sendErrorResponse true p err s = (f (socket_id r) TYPE_SOLICITED (token r) err NULL 0;; retM tt) s) as ->.
  { unfold sendErrorResponse, on_lib, get_request. run. rewrite Hr. run. rewrite Hf. run. by destruct s as [[]]. }
  run. rewrite Ha. run. destruct (hd true (oks s)); [reflexivity|].
  rewrite (unlocked_failure _ _ _ c); [done|by destruct (negb (oem_method method))|done].
Qed.
End Refuse.

(** * Requests that the service does not support *)

Section Unsupported.
Context `{HT : RadioTypes}.

(** The requests that this build answers by itself, with the functions that answer them. *)
Definition unsupported_calls (slotId serial : Z) (aid : list Z) (p2 reportInterval : Z) (pullMode : bool) : list (Z * string * SVC unit) := [
  (RIL_REQUEST_SIGNAL_STRENGTH, "getSignalStrengthResponse", getSignalStrength true slotId serial);
  (RIL_REQUEST_QUERY_TTY_MODE, "getTTYModeResponse", getTTYMode true slotId serial);
  (RIL_REQUEST_CDMA_GET_SUBSCRIPTION_SOURCE, "getCdmaSubscriptionSourceResponse", getCdmaSubscriptionSource true slotId serial);
  (RIL_REQUEST_SIM_OPEN_CHANNEL, "iccOpenLogicalChannelResponse", iccOpenLogicalChannel true slotId serial aid p2);
  (RIL_REQUEST_GET_HARDWARE_CONFIG, "getHardwareConfigResponse", getHardwareConfig true slotId serial);
  (RIL_REQUEST_START_LCE, "startLceServiceResponse", startLceService true slotId serial reportInterval pullMode)].

(** They are all one function, of requests with a row in both tables. *)
Lemma unsupported_refuse slotId serial aid p2 interval pull request method m :
  In (request, method, m) (unsupported_calls slotId serial aid p2 interval pull) ->
  m = refuse true serial slotId request RIL_E_REQUEST_NOT_SUPPORTED /\ request < RIL_REQUEST_VENDOR_BASE /\
  is_Some (response_function true request) /\ elem response_methods request = Some method /\ is_Some (elem s_commands request) /\
  oem_method method = false /\ answered_as method = method.
Proof.
  cbn. intros H. repeat destruct H as [[= <- <- <-]|H]; try done.
  all: split_and!; by eauto.
Qed.

Lemma ril_wf_hook (l : Ril) slotId : ril_wf l -> 0 <= slotId < 2 -> is_Some (s_pendingRequests l !! hook slotId).
Proof. intros [Hw _] Hs. apply lookup_lt_is_Some. rewrite (rw_slots _ Hw). by apply hook_range. Qed.

Lemma on_lib_ok {A} (m : ST Ril A) s a l : m (lib s) = Ok (a, l) -> on_lib m s = Ok (a, s <| lib := l |>).
Proof. unfold on_lib. by intros ->. Qed.

(** What the entry of a request changes, when there is memory for it. *)
Lemma refuse_run serial slotId request err s i : ril_wf (lib s) -> 0 <= slotId < 2 -> request < RIL_REQUEST_VENDOR_BASE ->
  elem s_commands request = Some i ->
  let p := hd NULL (allocs (lib s)) in let r := new_request (lib s) serial slotId request i in
  refuse true serial slotId request err s =
    if p =? NULL then Ok (tt, s <| lib := (lib s) <| allocs := tail (allocs (lib s)) |> |>)
    else sendErrorResponse true p err (s <| lib := added (lib s) p r |>).
Proof.
  intros Hwf Hs Hv Hi p r. unfold refuse.
  assert (command_index (lib s) request = request) as Hx by (unfold command_index; by rewrite (proj2 (Z.ltb_lt _ _) Hv)).
  destruct (addRequest_spec (lib s) serial slotId request i Hwf Hs) as [(Hp & Ha & _)|(Hp & Ha & _)]; [by rewrite Hx|..]; fold p in Hp, Ha.
  - rewrite (bindM_ok _ _ _ _ _ (on_lib_ok _ _ _ _ Ha)), Hp. done.
  - rewrite (bindM_ok _ _ _ _ _ (on_lib_ok _ _ _ _ Ha)). apply Z.eqb_neq in Hp. by rewrite Hp.
Qed.

(** C15: the six requests that the service answers itself because this build does not support them
    ([getSignalStrength], [getTTYMode], [getCdmaSubscriptionSource], [iccOpenLogicalChannel],
    [getHardwareConfig] and [startLceService]), on a slot with a client: the request is entered and then answered by
    the service: the client gets exactly one answer with the method of the request, its serial number
    and the error, and the vendor's library gets nothing. But when the call returns the request is
    still in the list of those that wait for the vendor's answer, which was told nothing of it.
    When the client has died, the answer ends in giving back a lock that is not held. And when
    there is no memory for one of these requests, there is no answer at all. *)
Theorem unsupported_request_kept s slotId serial aid p2 interval pull request method m i c :
  ril_wf (lib s) -> 0 <= slotId < 2 -> In (request, method, m) (unsupported_calls slotId serial aid p2 interval pull) ->
  idle_client true slotId i c s ->
  let p := hd NULL (allocs (lib s)) in
  if p =? NULL then m s = Ok (tt, s <| lib := (lib s) <| allocs := tail (allocs (lib s)) |> |>)
  else if negb (hd true (oks s)) then m s = Undef
  else exists s' args r, m s = Ok (tt, s') /\
    hidl s' = hidl s ++ [Response (mResponse i) slotId method (populateResponseInfo serial TYPE_SOLICITED RIL_E_REQUEST_NOT_SUPPORTED) args] /\
    sent s' = sent s /\ heap s' = heap s /\ out (lib s') = out (lib s) /\
    requests (lib s') !! p = Some r /\ token r = serial /\ pCI r = request /\ p ∈ default [] (s_pendingRequests (lib s') !! hook slotId).
Proof.
  intros Hwf Hs Hin Hc p. destruct (unsupported_refuse _ _ _ _ _ _ _ _ _ Hin) as (-> & Hv & [f Hf] & Hm & [ci Hci] & Ho & Has).
  rewrite (refuse_run _ _ _ _ _ ci Hwf Hs Hv Hci). fold p. destruct (p =? NULL); [done|].
  set (r := new_request (lib s) serial slotId request ci).
  assert (pCI r = request) as Hr by (cbn; unfold command_index; by rewrite (proj2 (Z.ltb_lt _ _) Hv)).
  destruct (sendErrorResponse_run p RIL_E_REQUEST_NOT_SUPPORTED (s <| lib := added (lib s) p r |>) r f method i c) as [args ->].
  - cbn. by rewrite lookup_insert_eq.
  - by rewrite Hr.
  - by rewrite Hr.
  - by rewrite Ho.
  - done.
  - change (oks (s <| lib := added (lib s) p r |>)) with (oks s). destruct (hd true (oks s)); [|done].
    rewrite Has. eexists _, args, r. split; [done|]. do 4 (split; [done|]). split; [cbn; by rewrite lookup_insert_eq|].
    split; [done|]. split; [done|]. cbn. destruct (ril_wf_hook (lib s) slotId Hwf Hs) as [l Hl]. rewrite list_lookup_alter_eq, Hl. cbn. left.
Qed.
End Unsupported.
