(* ===== verification/RilSend.v ===== *)
(** What the radio service sends to the vendor's library: the strings and numbers of a request arrive
    as they are, the copies in between are given back (or which of them are not), and a request
    for which there is no memory is answered with an error. *)

From stdpp Require Import base list gmap strings numbers.
From Stdlib Require Import ZArith Lia.
From S2P Require Import Prelude RilEvent RilTables Ril RilCore RilRequests RilMem RilStructs RilConvert RilService RilResponses RilCodes.
From S2P Require Import RilDispatch RilRadio RilIndications RilAnswers RilRefuse.

Local Open Scope Z_scope.
Local Open Scope st_scope.
Local Open Scope rec_scope.

(** * The heap *)

(** What the vendor's library reads of a string of the framework. *)
Definition text (s : list Z) : pval := match s with [] => VNull | _ => VStr (c_str s) end.

(** [h'] is [h] with copies of the strings [ss] at [ps], which are made one after the other. *)
Fixpoint holds (h : gmap Z block) (ps : list Z) (ss : list (list Z)) (h' : gmap Z block) : Prop :=
  match ps, ss with
  | [], [] => h' = h
  | p :: ps', [] :: ss' => p = NULL /\ holds h ps' ss' h'
  | p :: ps', s :: ss' => p <> NULL /\ h !! p = None /\ holds (<[p := Chars (c_str s)]> h) ps' ss' h'
  | _, _ => False
  end.

Lemma holds_ind' (P : gmap Z block -> list Z -> list (list Z) -> gmap Z block -> Prop) :
  (forall h, P h [] [] h) ->
  (forall h ps ss h', holds h ps ss h' -> P h ps ss h' -> P h (NULL :: ps) ([] :: ss) h') ->
  (forall h p ps s ss h', s <> [] -> p <> NULL -> h !! p = None -> holds (<[p := Chars (c_str s)]> h) ps ss h' ->
     P (<[p := Chars (c_str s)]> h) ps ss h' -> P h (p :: ps) (s :: ss) h') ->
  forall h ps ss h', holds h ps ss h' -> P h ps ss h'.
Proof.
  intros P0 P1 P2 h ps. revert h. induction ps as [|p ps IH]; intros h [|[|c s] ss] h' H; cbn in H; try done.
  - by subst.
  - destruct H as [-> H]. auto.
  - destruct H as (Hp & Hh & H). by apply P2; auto.
Qed.

Lemma holds_mono h ps ss h' : holds h ps ss h' -> h ⊆ h'.
Proof.
  intros H. pattern h, ps, ss, h'. apply holds_ind'; [done|done| |done].
  intros h0 p ps0 s ss0 h1 _ _ Hh _ IH. etrans; [|exact IH]. by apply insert_subseteq.
Qed.

(** One more copy behind the others. *)
Lemma holds_snoc h ps ss h' : holds h ps ss h' -> forall p s, s <> [] -> p <> NULL -> h' !! p = None ->
  holds h (ps ++ [p]) (ss ++ [s]) (<[p := Chars (c_str s)]> h').
Proof.
  intros H. pattern h, ps, ss, h'. apply holds_ind'; [..|done].
  - intros h0 p [|c s] Hs Hp Hh; [done|]. cbn. done.
  - intros h0 ps0 ss0 h1 _ IH p s Hs Hp Hh. cbn. auto.
  - intros h0 q ps0 [|c s0] ss0 h1 Hs0 Hq Hh _ IH p s Hs Hp Hh1; [done|]. cbn. auto.
Qed.

Lemma holds_snoc_empty h ps ss h' : holds h ps ss h' -> holds h (ps ++ [NULL]) (ss ++ [[]]) h'.
Proof.
  intros H. pattern h, ps, ss, h'. apply holds_ind'; [done|cbn; auto| |done].
  intros h0 q [|] [|c s0] ss0 h1 Hs0 Hq Hh _ IH; done.
Qed.

Lemma read_chars_ok h p s : p <> NULL -> h !! p = Some (Chars s) -> read_chars h p = Some (VStr s).
Proof. intros Hp%Z.eqb_neq Hh. unfold read_chars. by rewrite Hp, Hh. Qed.

(** The vendor's library reads the strings through the pointers. *)
Lemma holds_reads h ps ss h' : holds h ps ss h' -> each (read_chars h') ps = Some (map text ss).
Proof.
  intros H. pattern h, ps, ss, h'. apply holds_ind'; [done| | |done].
  - intros h0 ps0 ss0 h1 _ IH. cbn. by rewrite IH.
  - intros h0 p ps0 [|c s] ss0 h1 Hs Hp Hh Hh1 IH; [done|]. cbn [each map]. pose proof (holds_mono _ _ _ _ Hh1) as Hm.
    rewrite (read_chars_ok _ _ _ Hp (lookup_weaken _ _ _ _ (lookup_insert_eq _ _ _) Hm)). cbn. by rewrite IH.
Qed.

(** Another block is not concerned. *)
Lemma holds_insert q b b' h ps ss h' : holds h ps ss h' -> h !! q = Some b -> holds (<[q := b']> h) ps ss (<[q := b']> h').
Proof.
  intros H. pattern h, ps, ss, h'. apply holds_ind'; [done| | |done].
  - intros h0 ps0 ss0 h1 _ IH Hq. cbn. auto.
  - intros h0 p ps0 [|c s] ss0 h1 Hs Hp Hh _ IH Hq; [done|]. assert (p <> q) as Hpq by congruence.
    split; [done|]. split; [by rewrite lookup_insert_ne|]. rewrite insert_insert_ne by done. apply IH. by rewrite lookup_insert_ne.
Qed.

Lemma holds_delete q b h ps ss h' : holds (<[q := b]> h) ps ss h' -> h !! q = None -> h' !! q = Some b /\ holds h ps ss (delete q h').
Proof.
  intros H Hq. split; [by eapply lookup_weaken; [apply lookup_insert_eq|by eapply holds_mono]|].
  remember (<[q := b]> h) as h0 eqn:E. revert h E Hq. pattern h0, ps, ss, h'. apply holds_ind'; [..|done]; clear.
  - intros h0 h -> Hq. cbn. by rewrite delete_insert_id.
  - intros h0 ps ss h' _ IH h -> Hq. cbn. auto.
  - intros h0 p ps [|c s] ss h' Hs Hp Hh _ IH h -> Hq; [done|]. assert (p <> q) as Hpq by (intros ->; by rewrite lookup_insert_eq in Hh).
    rewrite lookup_insert_ne in Hh by done. split; [done|]. split; [done|]. apply IH; [by rewrite insert_insert_ne|by rewrite lookup_insert_ne].
Qed.

(** [memsetAndFreeStrings] gives all copies back. *)
Lemma memsetAndFreeStrings_run ps : forall h ss s, holds h ps ss (heap s) -> memsetAndFreeStrings ps s = Ok (tt, s <| heap := h |>).
Proof.
  induction ps as [|p ps IH]; intros h [|[|c t] ss] s H; try done.
  - cbn in H. subst h. by destruct s.
  - destruct H as [-> H]. cbn [memsetAndFreeStrings]. run. by apply (IH _ ss).
  - destruct H as (Hp & Hh & H). cbn [memsetAndFreeStrings]. destruct (holds_delete _ _ _ _ _ _ H Hh) as [Hl Hd].
    unfold free. rewrite (proj2 (Z.eqb_neq _ _) Hp). run. rewrite Hl. run. by rewrite (IH h ss).
Qed.

(** * Allocation *)

(** What the next allocations give is new, and so is each compared with the others. *)
Definition room (al : list Z) (h : gmap Z block) : Prop :=
  NoDup (filter (fun p => p <> NULL) al) /\ forall p, p ∈ al -> p <> NULL -> h !! p = None.

Lemma room_tail p al h : room (p :: al) h -> room al h.
Proof.
  intros [Hn Hf]. split; [|intros q Hq; apply Hf; by right]. rewrite list.filter_cons in Hn. destruct (decide _); [|done].
  by apply list.NoDup_cons in Hn as [_ Hn].
Qed.

Lemma room_insert p al h b : room (p :: al) h -> p <> NULL -> h !! p = None /\ room al (<[p := b]> h).
Proof.
  intros [Hn Hf] Hp. split; [apply Hf; [left|done]|]. rewrite list.filter_cons, decide_True in Hn by done.
  apply list.NoDup_cons in Hn as [Hpn Hn]. split; [done|]. intros q Hq Hq0. rewrite lookup_insert_ne; [apply Hf; [by right|done]|].
  intros ->. apply Hpn, list_elem_of_filter. done.
Qed.

Lemma room_replace p al h b b' : room al h -> h !! p = Some b -> room al (<[p := b']> h).
Proof. intros [Hn Hf] Hp. split; [done|]. intros q Hq Hq0. specialize (Hf q Hq Hq0). rewrite lookup_insert_ne; [done|congruence]. Qed.

(** The next [k] allocations succeed. *)
Fixpoint enough (k : nat) (al : list Z) : bool :=
  match k, al with
  | O, _ => true
  | S k', p :: al' => negb (p =? NULL) && enough k' al'
  | S _, [] => false
  end.

(** How many strings are copied: the empty one is NULL. *)
Definition copies (ss : list (list Z)) : nat := length (List.filter (fun s => match s with [] => false | _ => true end) ss).

(** The state with another heap and other allocations to come. *)
Definition with_mem (s : Svc) (al : list Z) (h : gmap Z block) : Svc :=
  s <| lib := (lib s) <| allocs := al |> |> <| heap := h |>.

Lemma with_mem_id s : with_mem s (allocs (lib s)) (heap s) = s.
Proof. by destruct s as [[]]. Qed.

Lemma alloc_run b s al h : alloc b (with_mem s al h) =
  if hd NULL al =? NULL then Ok (NULL, with_mem s (tail al) h) else Ok (hd NULL al, with_mem s (tail al) (<[hd NULL al := b]> h)).
Proof. unfold alloc, on_lib, calloc, with_mem. run. destruct (hd NULL al =? NULL); reflexivity. Qed.

Section Send.
Context `{HT : RadioTypes}.

(** A request that is in the list, and whose client is there to be answered. *)
Record answerable (p : Z) (r : RequestInfo) (method : string) (i : Impl) (s : Svc) : Prop := {
  an_request : requests (lib s) !! p = Some r;
  an_function : is_Some (response_function true (pCI r));
  an_method : elem response_methods (pCI r) = Some method;
  an_client : exists c, idle_client (negb (oem_method method)) (socket_id r) i c s;
  an_alive : hd true (oks s) = true;
}.

Definition answered (r : RequestInfo) (method : string) (i : Impl) (err : Z) (args : list hval) (s : Svc) : Svc :=
  s <| hidl := hidl s ++ [Response (mResponse i) (socket_id r) (answered_as method) (populateResponseInfo (token r) TYPE_SOLICITED err) args] |>
    <| oks := tail (oks s) |>.

Lemma sendError_alive p err r method i s : answerable p r method i s -> err <> RIL_E_SUCCESS ->
  exists args, sendErrorResponse true p err s = Ok (tt, answered r method i err args s).
Proof.
  intros [Hr [f Hf] Hm [c Hc] Ho] He. destruct (sendErrorResponse_run p err s r f method i c Hr Hf Hm Hc He) as [args Ha].
  exists args. by rewrite Ha, Ho.
Qed.

Context (p : Z) (r : RequestInfo) (method : string) (i : Impl).

Lemma answerable_mem s al h : answerable p r method i s -> answerable p r method i (with_mem s al h).
Proof.
  intros [Hr Hf Hm [c Hc] Ho]. split; [done|done|done| |done]. exists c. destruct Hc as (? & ? & ? & ?).
  split; [by destruct (negb (oem_method method))|]. split; [done|]. split; [by destruct (negb (oem_method method))|done].
Qed.

Lemma copy_strings_cons s strs done : copy_strings true p (s :: strs) done =
  bindM (copyHidlStringToRil true s p) (fun o => match o with
    | None => memsetAndFreeStrings done;; retM None
    | Some d => copy_strings true p strs (done ++ [d]) end).
Proof. done. Qed.

Lemma app_cons_assoc {A} (l : list A) x l' : l ++ x :: l' = (l ++ [x]) ++ l'.
Proof. by rewrite <- app_assoc. Qed.

Lemma copy_string_run s str al h : answerable p r method i s -> str <> [] ->
  if hd NULL al =? NULL then
    exists args, copyHidlStringToRil true str p (with_mem s al h) = Ok (None, answered r method i RIL_E_NO_MEMORY args (with_mem s (tail al) h))
  else copyHidlStringToRil true str p (with_mem s al h) = Ok (Some (hd NULL al), with_mem s (tail al) (<[hd NULL al := Chars (c_str str)]> h)).
Proof.
  intros Ha Hs. pose proof (alloc_run (Chars (c_str str)) s al h) as Hal. unfold copyHidlStringToRil. destruct str as [|c str]; [done|].
  destruct (Z.eqb_spec (hd NULL al) NULL) as [Hq|Hq]; rewrite (bindM_ok _ _ _ _ _ Hal).
  - destruct (sendError_alive p RIL_E_NO_MEMORY r method i (with_mem s (tail al) h)) as [args Hx]; [by apply answerable_mem|done|].
    exists args. cbn [Z.eqb NULL]. by rewrite (bindM_ok _ _ _ _ _ Hx).
  - apply Z.eqb_neq in Hq. by rewrite Hq.
Qed.

(** Either all strings are copied, or none stays and the request is answered. *)
Lemma copy_strings_run s h0 : answerable p r method i s -> forall strs al h ps ss, room al h -> holds h0 ps ss h ->
  if enough (copies strs) al then
    exists ptrs h', copy_strings true p strs ps (with_mem s al h) = Ok (Some (ps ++ ptrs), with_mem s (drop (copies strs) al) h') /\
      holds h0 (ps ++ ptrs) (ss ++ strs) h' /\ room (drop (copies strs) al) h'
  else exists al' args, copy_strings true p strs ps (with_mem s al h) = Ok (None, answered r method i RIL_E_NO_MEMORY args (with_mem s al' h0)).
Proof.
  intros Ha. induction strs as [|str strs IH]; intros al h ps ss Hr Hh.
  { cbn. exists [], h. by rewrite !app_nil_r. }
  rewrite copy_strings_cons. destruct str as [|c str].
  - cbn [copyHidlStringToRil]. change (copies ([] :: strs)) with (copies strs).
    specialize (IH al h (ps ++ [NULL]) (ss ++ [[]]) Hr (holds_snoc_empty _ _ _ _ Hh)).
    destruct (enough _ _); [|exact IH]. destruct IH as (ptrs & h' & Hx & Hy & Hz). exists (NULL :: ptrs), h'.
    rewrite !(app_cons_assoc _ _ ptrs), (app_cons_assoc ss). by split; [exact Hx|].
  - change (copies ((c :: str) :: strs)) with (S (copies strs)). pose proof (copy_string_run s (c :: str) al h Ha ltac:(done)) as Hc.
    assert (hd NULL al = NULL -> exists al' args, bindM (copyHidlStringToRil true (c :: str) p) (fun o => match o with
      | None => memsetAndFreeStrings ps;; retM None | Some d => copy_strings true p strs (ps ++ [d]) end) (with_mem s al h)
      = Ok (None, answered r method i RIL_E_NO_MEMORY args (with_mem s al' h0))) as Hfail.
    { intros Hq. rewrite Hq in Hc. destruct Hc as [args Hc]. exists (tail al), args. rewrite (bindM_ok _ _ _ _ _ Hc).
      by rewrite (bindM_ok _ _ _ _ _ (memsetAndFreeStrings_run ps h0 ss (answered r method i RIL_E_NO_MEMORY args (with_mem s (tail al) h)) Hh)). }
    destruct al as [|q al]; cbn [enough hd tail] in *; [by apply Hfail|].
    destruct (Z.eqb_spec q NULL) as [Hq|Hq]; cbn [negb andb]; [by apply Hfail|]. rewrite (bindM_ok _ _ _ _ _ Hc).
    destruct (room_insert q al h (Chars (c_str (c :: str))) Hr Hq) as [Hfree Hr'].
    specialize (IH al _ (ps ++ [q]) (ss ++ [c :: str]) Hr' (holds_snoc _ _ _ _ Hh q (c :: str) ltac:(done) Hq Hfree)).
    destruct (enough _ _); [|exact IH]. destruct IH as (ptrs & h' & Hx & Hy & Hz). exists (q :: ptrs), h'.
    rewrite !(app_cons_assoc _ _ ptrs), (app_cons_assoc ss). by split; [exact Hx|].
Qed.

(** * Handing over *)

(** The vendor's library has been called. *)
Definition handed (request : Z) (v : pval) (n : Z) (s : Svc) : Svc :=
  s <| lib := (lib s) <| out := out (lib s) ++ [OnRequest request p (socket_id r)] |> |>
    <| sent := sent s ++ [mkVendorRequest request p v n] |>.

Lemma enqueue_run request buf v n bf ci s : requests (lib s) !! p = Some r -> elem s_commands (pCI r) = Some ci ->
  read_field (heap s) buf = Some v ->
  my_enqueue request buf n bf p s = match bf with FMT_IGNORE => retM tt | _ => clearPendingBuffer bf buf end (handed request v n s).
Proof.
  intros Hr Hci Hv. unfold my_enqueue. erewrite bindM_ok; [|apply on_lib_ok; unfold Ril.my_enqueue, get_request, get_command, emit; run; rewrite Hr; run;
    rewrite Hci; run; reflexivity].
  remember (s <| lib := _ |>) as s1 eqn:E. assert (read_field (heap s1) buf = Some v) as Hv1 by (by subst).
  run. rewrite Hv1. run. by subst.
Qed.

Lemma ignoreBF_run s ci : requests (lib s) !! p = Some r -> elem s_commands (pCI r) = Some ci ->
  ignoreBF p s = Ok (negb (queued_channel (proxyId ci)), s).
Proof.
  intros Hr Hci. unfold ignoreBF, on_lib, get_request, get_command, queued_channel. run. rewrite Hr. run. rewrite Hci. run.
  rewrite negb_orb. by destruct s as [[]].
Qed.

Lemma free_run q b h s : heap s = <[q := b]> h -> q <> NULL -> h !! q = None -> free q s = Ok (tt, s <| heap := h |>).
Proof.
  intros Hs Hq%Z.eqb_neq Hh. unfold free. rewrite Hq. run. rewrite Hs, lookup_insert_eq. run. by rewrite Hs, delete_insert_id.
Qed.

(** * Strings *)

(** The state when a request has been entered. *)
Definition entered (s : Svc) (q : Z) (x : RequestInfo) : Svc := s <| lib := added (lib s) q x |>.

Lemma entered_allocs s q x : allocs (lib (entered s q x)) = tail (allocs (lib s)).
Proof. done. Qed.

(** What is left on the heap: the array of pointers, when the channel of the request has a queue. *)
Definition left_over (ci : CommandInfo) (q : Z) (b : block) (h : gmap Z block) : gmap Z block :=
  if queued_channel (proxyId ci) then <[q := b]> h else h.

(** [dispatchStrings] when the request is in the list. *)
Definition strings_body (request : Z) (data : list (list Z)) : SVC bool :=
  let* pStrings := alloc (Ptrs (repeat NULL (length data))) in
  if pStrings =? NULL then sendErrorResponse true p RIL_E_NO_MEMORY;; retM false
  else
    let* o := copy_strings true p data [] in
    match o with
    | None => free pStrings;; retM false
    | Some ptrs =>
        modM (fun s => s <| heap := <[pStrings := Ptrs ptrs]> (heap s) |>);;
        let* ig := ignoreBF p in
        (if ig then
           my_enqueue request (FPtr pStrings) (zlen data * 4) FMT_IGNORE p;;
           memsetAndFreeStrings ptrs;;
           free pStrings
         else my_enqueue request (FPtr pStrings) (zlen data * 4) FMT_STRS p);;
        retM true
    end.

Lemma answerable_here s al h : answerable p r method i s -> requests (lib (with_mem s al h)) !! p = Some r.
Proof. by intros [Hr _ _ _ _]. Qed.

(** With the strings and the array in place. *)
Lemma hand_over_strings request ci s data q ptrs al h h' : answerable p r method i s -> elem s_commands (pCI r) = Some ci ->
  q <> NULL -> h !! q = None -> holds (<[q := Ptrs ptrs]> h) ptrs data h' ->
  (let* ig := ignoreBF p in
   (if ig then my_enqueue request (FPtr q) (zlen data * 4) FMT_IGNORE p;; memsetAndFreeStrings ptrs;; free q
    else my_enqueue request (FPtr q) (zlen data * 4) FMT_STRS p);;
   retM true) (with_mem s al h')
  = Ok (true, with_mem (handed request (VVec (map text data)) (zlen data * 4) s) al (left_over ci q (Ptrs ptrs) h)).
Proof.
  intros Ha Hci Hq Hh Hhold. pose proof (answerable_here s al h' Ha) as Hr.
  assert (h' !! q = Some (Ptrs ptrs)) as Hq'. { eapply lookup_weaken; [apply lookup_insert_eq|by eapply holds_mono]. }
  assert (read_field h' (FPtr q) = Some (VVec (map text data))) as Hv.
  { cbn. unfold read_ptr. rewrite (proj2 (Z.eqb_neq _ _) Hq), Hq'. by rewrite (holds_reads _ _ _ _ Hhold). }
  rewrite (bindM_ok _ _ _ _ _ (ignoreBF_run _ ci Hr Hci)). unfold left_over. destruct (queued_channel (proxyId ci)); cbn [negb].
  - erewrite bindM_ok; [reflexivity|]. rewrite (enqueue_run _ _ _ _ _ ci _ Hr Hci Hv). cbn [clearPendingBuffer]. run. rewrite Hq'.
    by rewrite (memsetAndFreeStrings_run ptrs (<[q := Ptrs ptrs]> h) data).
  - erewrite bindM_ok; [reflexivity|]. erewrite bindM_ok; [|by apply (enqueue_run _ _ _ _ FMT_IGNORE ci _ Hr Hci Hv)].
    erewrite bindM_ok; [|by apply (memsetAndFreeStrings_run ptrs (<[q := Ptrs ptrs]> h) data)]. by rewrite (free_run q (Ptrs ptrs) h).
Qed.

(** Without memory, one answer, and the heap as it was. *)
Definition refused (s s' : Svc) : Prop := exists al' args, s' = answered r method i RIL_E_NO_MEMORY args (with_mem s al' (heap s)).

Lemma strings_body_run request ci s data : answerable p r method i s -> elem s_commands (pCI r) = Some ci -> room (allocs (lib s)) (heap s) ->
  let al := allocs (lib s) in
  exists s', strings_body request data s = Ok (enough (S (copies data)) al, s') /\
  if enough (S (copies data)) al then
    exists ptrs, s' = with_mem (handed request (VVec (map text data)) (zlen data * 4) s) (drop (S (copies data)) al)
                        (left_over ci (hd NULL al) (Ptrs ptrs) (heap s))
  else refused s s'.
Proof.
  intros Ha Hci Hr al. assert (strings_body request data s = strings_body request data (with_mem s al (heap s))) as -> by (unfold al; by rewrite with_mem_id).
  pose proof (alloc_run (Ptrs (repeat NULL (length data))) s al (heap s)) as Hal.
  assert (hd NULL al = NULL -> exists s', strings_body request data (with_mem s al (heap s)) = Ok (false, s') /\ refused s s') as Hfail.
  { intros Hq. rewrite Hq in Hal. unfold strings_body. rewrite (bindM_ok _ _ _ _ _ Hal). cbn [Z.eqb NULL].
    destruct (sendError_alive p RIL_E_NO_MEMORY r method i (with_mem s (tail al) (heap s))) as [args Hx]; [by apply answerable_mem|done|].
    rewrite (bindM_ok _ _ _ _ _ Hx). eexists. split; [done|]. by exists (tail al), args. }
  destruct al as [|q al'] eqn:Eal; cbn [enough hd tail] in *; [by apply Hfail|].
  destruct (Z.eqb_spec q NULL) as [Hq|Hq]; cbn [negb andb]; [by apply Hfail|]. unfold strings_body. rewrite (bindM_ok _ _ _ _ _ Hal).
  rewrite (proj2 (Z.eqb_neq _ _) Hq).
  unfold al in Eal. rewrite Eal in Hr. destruct (room_insert q al' (heap s) (Ptrs (repeat NULL (length data))) Hr Hq) as [Hfree Hr'].
  pose proof (copy_strings_run s _ Ha data al' _ [] [] Hr' eq_refl) as Hc. destruct (enough (copies data) al').
  - destruct Hc as (ptrs & h' & Hx & Hhold & _). rewrite (bindM_ok _ _ _ _ _ Hx). cbn [app] in *.
    eapply (holds_insert q _ (Ptrs ptrs)) in Hhold; [|apply lookup_insert_eq]. rewrite insert_insert_eq in Hhold.
    eexists. split; [|by exists ptrs]. by apply (hand_over_strings request ci s data q ptrs _ _ _ Ha Hci Hq Hfree Hhold).
  - destruct Hc as (al1 & args & Hx). rewrite (bindM_ok _ _ _ _ _ Hx).
    erewrite bindM_ok; [|by apply (free_run q (Ptrs (repeat NULL (length data))) (heap s))].
    eexists. split; [done|]. by exists al1, args.
Qed.
End Send.

(** * Requests *)

Section Requests.
Context `{HT : RadioTypes}.

(** A request of the framework for a slot whose client is there, as a code of the two tables. *)
Record can_send (slotId request : Z) (ci : CommandInfo) (method : string) (i : Impl) (s : Svc) : Prop := {
  rd_wf : ril_wf (lib s);
  rd_room : room (allocs (lib s)) (heap s);
  rd_slot : 0 <= slotId < 2;
  rd_code : request < RIL_REQUEST_VENDOR_BASE;
  rd_row : elem s_commands request = Some ci;
  rd_function : is_Some (response_function true request);
  rd_method : elem response_methods request = Some method;
  rd_client : exists c, idle_client (negb (oem_method method)) slotId i c s;
  rd_alive : hd true (oks s) = true;
}.

Lemma can_send_room slotId request ci method i s : can_send slotId request ci method i s -> room (tail (allocs (lib s))) (heap s).
Proof. intros [_ Hr _ _ _ _ _ _ _]. destruct (allocs (lib s)); [done|]. by eapply room_tail. Qed.

(** Its entry in the list. *)
Lemma can_send_enter slotId request ci method i s serial : can_send slotId request ci method i s ->
  let p := hd NULL (allocs (lib s)) in let r := new_request (lib s) serial slotId request ci in
  if p =? NULL then addRequestToList serial slotId request s = Ok (NULL, with_mem s (tail (allocs (lib s))) (heap s))
  else addRequestToList serial slotId request s = Ok (p, entered s p r) /\ answerable p r method i (entered s p r) /\
       elem s_commands (pCI r) = Some ci.
Proof.
  intros [Hwf Hr Hs Hv Hci Hf Hm [c Hc] Ho] p r.
  assert (command_index (lib s) request = request) as Hx by (unfold command_index; by rewrite (proj2 (Z.ltb_lt _ _) Hv)).
  destruct (addRequest_spec (lib s) serial slotId request ci Hwf Hs) as [(Hp & Ha & _)|(Hp & Ha & _)]; [by rewrite Hx|..]; fold p in Hp, Ha.
  - rewrite Hp. cbn [Z.eqb NULL]. unfold addRequestToList. rewrite (on_lib_ok _ _ _ _ Ha). unfold with_mem. by destruct s.
  - apply Z.eqb_neq in Hp. rewrite Hp. split; [exact (on_lib_ok _ _ _ _ Ha)|]. cbn [pCI r new_request]. rewrite Hx. split; [|done].
    split; [cbn; by rewrite lookup_insert_eq|cbn; by rewrite Hx|cbn; by rewrite Hx| |done]. exists c. destruct Hc as (? & ? & ? & ?).
    split; [by destruct (negb (oem_method method))|]. split; [done|]. split; [by destruct (negb (oem_method method))|done].
Qed.

(** What a request that is not sent leaves: the heap as it was and nothing sent. When not even the
    request could be entered there is no answer, and the list is as it was; otherwise there is one
    answer, and the request stays in the list. *)
Definition not_sent (serial slotId : Z) (method : string) (i : Impl) (s s' : Svc) : Prop :=
  heap s' = heap s /\ sent s' = sent s /\
  let p := hd NULL (allocs (lib s)) in
  if p =? NULL then hidl s' = hidl s /\ requests (lib s') = requests (lib s)
  else (exists args, hidl s' = hidl s ++ [Response (mResponse i) slotId (answered_as method)
                                             (populateResponseInfo serial TYPE_SOLICITED RIL_E_NO_MEMORY) args]) /\
       (exists r, requests (lib s') !! p = Some r /\ token r = serial) /\
       p ∈ default [] (s_pendingRequests (lib s') !! hook slotId).

(** What a request that is sent leaves: it is in the list with its serial number, and the vendor's
    library has been given the data; the heap is as it was up to the array that the queue was to
    release. *)
Definition is_sent (serial request : Z) (ci : CommandInfo) (v : pval) (n : Z) (leak : block) (s s' : Svc) : Prop :=
  sent s' = sent s ++ [mkVendorRequest request (hd NULL (allocs (lib s))) v n] /\ hidl s' = hidl s /\
  (exists r, requests (lib s') !! hd NULL (allocs (lib s)) = Some r /\ token r = serial) /\
  heap s' = left_over ci (hd NULL (tail (allocs (lib s)))) leak (heap s).

(** The state when it has been sent. *)
Definition sent_state (serial slotId request : Z) (ci : CommandInfo) (v : pval) (n : Z) (k : nat) (leak : block) (s : Svc) : Svc :=
  let al := allocs (lib s) in let p := hd NULL al in let r := new_request (lib s) serial slotId request ci in
  with_mem (handed p r request v n (entered s p r)) (drop k (tail al)) (left_over ci (hd NULL (tail al)) leak (heap s)).

Lemma sent_state_is_sent serial slotId request ci v n k leak s : is_sent serial request ci v n leak s (sent_state serial slotId request ci v n k leak s).
Proof.
  split; [done|]. split; [done|]. split; [|done]. exists (new_request (lib s) serial slotId request ci). split; [|done].
  cbn. by rewrite lookup_insert_eq.
Qed.

(** A request that has been entered is on the list of its slot. *)
Lemma entered_listed s p serial slotId request ci : ril_wf (lib s) -> 0 <= slotId < 2 ->
  p ∈ default [] (s_pendingRequests (lib (entered s p (new_request (lib s) serial slotId request ci))) !! hook slotId).
Proof.
  intros Hw Hs. destruct (ril_wf_hook (lib s) slotId Hw Hs) as [l Hl]. cbn [entered lib added s_pendingRequests set socket_id new_request].
  unfold added. cbn. rewrite list_lookup_alter_eq, Hl. cbn. apply elem_of_cons. by left.
Qed.

(** A dispatcher: the request is entered, and what follows either hands [v] over or answers. *)
Lemma dispatch_run slotId request ci method i s serial v n k (leak : block -> Prop) (body : Z -> SVC bool) :
  can_send slotId request ci method i s ->
  let al := allocs (lib s) in let p := hd NULL al in let r := new_request (lib s) serial slotId request ci in
  (p <> NULL -> answerable p r method i (entered s p r) -> elem s_commands (pCI r) = Some ci -> room (tail al) (heap s) ->
   exists s', body p (entered s p r) = Ok (enough k (tail al), s') /\
   if enough k (tail al) then exists b, leak b /\ s' = sent_state serial slotId request ci v n k b s else refused r method i (entered s p r) s') ->
  exists s', (let* p := addRequestToList serial slotId request in if p =? NULL then retM false else body p) s = Ok (enough (S k) al, s') /\
  if enough (S k) al then exists b, leak b /\ s' = sent_state serial slotId request ci v n k b s else not_sent serial slotId method i s s'.
Proof.
  intros Hrd al p r Hbody. pose proof (can_send_enter _ _ _ _ _ _ serial Hrd) as He. cbv zeta in He. fold al p r in He.
  destruct (Z.eqb_spec p NULL) as [Hp|Hp].
  - rewrite (bindM_ok _ _ _ _ _ He). cbn [Z.eqb NULL]. assert (enough (S k) al = false) as ->.
    { subst p. destruct al; [done|]. cbn in *. by subst. }
    eexists. split; [done|]. unfold not_sent. fold al p. cbv zeta. by rewrite Hp.
  - destruct He as (He & Ha & Hci). rewrite (bindM_ok _ _ _ _ _ He), (proj2 (Z.eqb_neq _ _) Hp).
    destruct (Hbody Hp Ha Hci (can_send_room _ _ _ _ _ _ Hrd)) as (s' & Hx & Hs').
    assert (enough (S k) al = enough k (tail al)) as ->.
    { clear -Hp. subst p. destruct al as [|q al1]; [done|]. cbn in *. apply Z.eqb_neq in Hp. by rewrite Hp. }
    exists s'. split; [done|]. destruct (enough k (tail al)); [done|].
    destruct Hs' as (al' & args & ->). split; [done|]. split; [done|]. fold al p. cbv zeta. rewrite (proj2 (Z.eqb_neq _ _) Hp).
    split; [by exists args|]. destruct Ha as [Hreq _ _ _ _]. cbn in Hreq |- *. split; [by exists r|]. destruct Hrd as [Hwf _ Hs]. exact (entered_listed s p serial slotId request ci Hwf Hs).
Qed.

(** [dispatchStrings] in full. *)
Lemma dispatchStrings_run slotId request ci method i s serial data : can_send slotId request ci method i s ->
  let memory := enough (2 + copies data) (allocs (lib s)) in
  exists s', dispatchStrings true serial slotId request data s = Ok (memory, s') /\
  if memory then exists ptrs, s' = sent_state serial slotId request ci (VVec (map text data)) (zlen data * 4) (S (copies data)) (Ptrs ptrs) s
  else not_sent serial slotId method i s s'.
Proof.
  intros Hrd memory.
  destruct (dispatch_run slotId request ci method i s serial (VVec (map text data)) (zlen data * 4) (S (copies data))
    (fun b => exists ptrs, b = Ptrs ptrs) (fun p => strings_body p request data) Hrd) as (s' & Hx & Hs').
  - clear memory. intros Hp Ha Hci Hr. destruct (strings_body_run _ _ method i request ci _ data Ha Hci Hr) as (s1 & Hs1 & Hs2).
    rewrite entered_allocs in Hs1, Hs2. exists s1. split; [exact Hs1|]. destruct (enough _ _); [|exact Hs2]. destruct Hs2 as [ptrs ->].
    eexists. split; [by exists ptrs|done].
  - exists s'. split; [exact Hx|]. unfold memory. destruct (enough _ _); [|done]. destruct Hs' as (b & [ptrs ->] & Hb). by exists ptrs.
Qed.

(** C4: a request with strings on a slot whose client is alive: if there is memory for it, for its array and for the copies of the
    strings that are not empty, then the vendor's library is called once with these strings, each up
    to its first zero and NULL in place of an empty one, and the request is in the list. All copies
    are given back; the array of pointers is, too, unless the channel of the request is one of those
    that have a queue in other builds. If some allocation fails, then what was allocated for the array and
    the copies is given back and nothing is sent. When it is the request itself that could not be
    allocated, the framework gets no answer; otherwise it gets one answer, that there is no memory,
    but the request stays in the list. *)
Theorem strings_reach_vendor slotId request ci method i s serial data : can_send slotId request ci method i s ->
  let memory := enough (2 + copies data) (allocs (lib s)) in
  exists s', dispatchStrings true serial slotId request data s = Ok (memory, s') /\
  if memory then exists ptrs, is_sent serial request ci (VVec (map text data)) (zlen data * 4) (Ptrs ptrs) s s'
  else not_sent serial slotId method i s s'.
Proof.
  intros Hrd memory. destruct (dispatchStrings_run slotId request ci method i s serial data Hrd) as (s' & Hx & Hs').
  exists s'. split; [exact Hx|]. fold memory in Hs'. destruct memory; [|done]. destruct Hs' as [ptrs ->]. exists ptrs. apply sent_state_is_sent.
Qed.

(** [dispatchInts] when the request is in the list. *)
Lemma ints_body_run p r method i request ci s args : answerable p r method i s -> elem s_commands (pCI r) = Some ci ->
  room (allocs (lib s)) (heap s) ->
  let al := allocs (lib s) in
  exists s', (let* pInts := alloc (Ints args) in
    if pInts =? NULL then sendErrorResponse true p RIL_E_NO_MEMORY;; retM false
    else
      let* ig := ignoreBF p in
      (if ig then my_enqueue request (FPtr pInts) (zlen args * 4) FMT_IGNORE p;; free pInts
       else my_enqueue request (FPtr pInts) (zlen args * 4) FMT_INTS p);;
      retM true) s = Ok (enough 1 al, s') /\
  if enough 1 al then
    s' = with_mem (handed p r request (VVec (map VInt args)) (zlen args * 4) s) (drop 1 al)
           (left_over ci (hd NULL al) (Ints (map (fun _ => 0) args)) (heap s))
  else refused r method i s s'.
Proof.
  intros Ha Hci Hr al. pose proof (alloc_run (Ints args) s al (heap s)) as Hal. unfold al in Hal at 1. rewrite with_mem_id in Hal.
  destruct (Z.eqb_spec (hd NULL al) NULL) as [Hq|Hq]; rewrite (bindM_ok _ _ _ _ _ Hal).
  - destruct (sendError_alive p RIL_E_NO_MEMORY r method i (with_mem s (tail al) (heap s))) as [a Hx]; [by apply answerable_mem|done|].
    cbn [Z.eqb NULL]. rewrite (bindM_ok _ _ _ _ _ Hx). assert (enough 1 al = false) as ->.
    { clear -Hq. destruct al as [|q al]; [done|]. cbn in *. by rewrite Hq. }
    eexists. split; [done|]. by exists (tail al), a.
  - destruct al as [|q al'] eqn:Eal; [done|]. cbn [hd tail] in *. rewrite (proj2 (Z.eqb_neq _ _) Hq). unfold al in Eal. rewrite Eal in Hr.
    destruct (room_insert q al' (heap s) (Ints args) Hr Hq) as [Hfree _].
    set (h' := <[q := Ints args]> (heap s)) in *. pose proof (answerable_here p r method i s al' h' Ha) as Hreq.
    assert (h' !! q = Some (Ints args)) as Hl by apply lookup_insert_eq.
    assert (read_field h' (FPtr q) = Some (VVec (map VInt args))) as Hv.
    { cbn. unfold read_ptr. by rewrite (proj2 (Z.eqb_neq _ _) Hq), Hl. }
    assert (enough 1 (q :: al') = true) as -> by (cbn; by rewrite (proj2 (Z.eqb_neq _ _) Hq)).
    rewrite (bindM_ok _ _ _ _ _ (ignoreBF_run _ _ _ ci Hreq Hci)). unfold left_over.
    destruct (queued_channel (proxyId ci)); cbn [negb]; eexists; (split; [|done]); (erewrite bindM_ok; [reflexivity|]).
    + rewrite (enqueue_run _ _ _ _ _ _ _ ci _ Hreq Hci Hv). cbn [clearPendingBuffer]. run. rewrite Hl.
      assert (<[q := Ints (map (fun _ => 0) args)]> (heap s) = <[q := Ints (map (fun _ => 0) args)]> h') as -> by (unfold h'; by rewrite insert_insert_eq).
      done.
    + erewrite bindM_ok; [|by apply (enqueue_run _ _ _ _ _ _ FMT_IGNORE ci _ Hreq Hci Hv)]. by rewrite (free_run q (Ints args) (heap s)).
Qed.

(** a request with numbers: if there is memory for it and for the numbers, the vendor's library is
    called once with them and the request is in the list; without memory nothing is sent and the
    framework gets one answer that there is no memory, or none when the request itself could not be
    allocated. On a channel that has a queue in other builds
    the array is set to zero and never given back. *)
Theorem ints_reach_vendor slotId request ci method i s serial args : can_send slotId request ci method i s ->
  let memory := enough 2 (allocs (lib s)) in
  exists s', dispatchInts true serial slotId request args s = Ok (memory, s') /\
  if memory then is_sent serial request ci (VVec (map VInt args)) (zlen args * 4) (Ints (map (fun _ => 0) args)) s s'
  else not_sent serial slotId method i s s'.
Proof.
  intros Hrd memory.
  destruct (dispatch_run slotId request ci method i s serial (VVec (map VInt args)) (zlen args * 4) 1
    (fun b => b = Ints (map (fun _ => 0) args)) (fun p => let* pInts := alloc (Ints args) in
      if pInts =? NULL then sendErrorResponse true p RIL_E_NO_MEMORY;; retM false
      else
        let* ig := ignoreBF p in
        (if ig then my_enqueue request (FPtr pInts) (zlen args * 4) FMT_IGNORE p;; free pInts
         else my_enqueue request (FPtr pInts) (zlen args * 4) FMT_INTS p);;
        retM true) Hrd) as (s' & Hx & Hs').
  - clear memory. intros Hp Ha Hci Hr. destruct (ints_body_run _ _ method i request ci _ args Ha Hci Hr) as (s1 & Hs1 & Hs2).
    rewrite entered_allocs in Hs1, Hs2. exists s1. split; [exact Hs1|]. destruct (enough _ _); [|exact Hs2]. eexists. split; [done|exact Hs2].
  - exists s'. split; [exact Hx|]. unfold memory. destruct (enough _ _); [|done]. destruct Hs' as (b & -> & ->). apply sent_state_is_sent.
Qed.
End Requests.
