(* ===== verification/RilNotices.v ===== *)
(** What the indications of the radio service do: each tells the framework at most once, with its own
    method, and changes nothing of the requests; messages in hexadecimal digits arrive as the
    bytes that the digits stand for. *)

From stdpp Require Import base list gmap strings numbers.
From Stdlib Require Import ZArith Lia.
From S2P Require Import Prelude RilEvent RilTables Ril RilMem RilStructs RilConvert RilService RilResponses RilCodes RilDispatch.
From S2P Require Import RilIndications RilAnswers RilRefuse RilSend.

Local Open Scope Z_scope.
Local Open Scope st_scope.
Local Open Scope rec_scope.

(** * Messages in hexadecimal digits *)

(** A digit, in capitals or not. *)
Definition digit (capital : bool) (d : Z) : Z := if d <? 10 then 48 + d else if capital then 65 + (d - 10) else 97 + (d - 10).
Fixpoint hex_text (capital : bool) (bs : list Z) : list Z :=
  match bs with
  | [] => []
  | b :: bs' => digit capital (b / 16) :: digit capital (b mod 16) :: hex_text capital bs'
  end.

(** A property of the numbers below a bound, by trying them. *)
Lemma below (n : nat) (P : Z -> bool) : forallb P (map Z.of_nat (seq 0 n)) = true -> forall z, 0 <= z < Z.of_nat n -> P z = true.
Proof. rewrite List.forallb_forall. intros H z Hz. apply H, in_map_iff. exists (Z.to_nat z). rewrite in_seq. lia. Qed.

Lemma hexCharToInt_digit capital d : 0 <= d < 16 -> hexCharToInt (digit capital d) = d /\ digit capital d <> 0.
Proof.
  intros Hd. assert ((hexCharToInt (digit capital d) =? d) && negb (digit capital d =? 0) = true) as H.
  { revert d Hd. apply (below 16 (fun d => (hexCharToInt (digit capital d) =? d) && negb (digit capital d =? 0))). by destruct capital. }
  by rewrite andb_true_iff, Z.eqb_eq, negb_true_iff, Z.eqb_neq in H.
Qed.

Lemma nibbles_join b : is_byte b -> Z.lor (Z.shiftl (b / 16) 4) (b mod 16) = b.
Proof.
  intros Hb. apply Z.eqb_eq. revert b Hb. apply (below 256 (fun b => Z.lor (Z.shiftl (b / 16) 4) (b mod 16) =? b)). by vm_compute.
Qed.

Lemma hex_bytes_text capital bs : Forall is_byte bs -> hex_bytes (hex_text capital bs) = Some bs.
Proof.
  induction 1 as [|b bs Hb Hbs IH]; [done|]. cbn [hex_text hex_bytes]. unfold is_byte in Hb.
  destruct (hexCharToInt_digit capital (b / 16)) as [-> _]; [split; [apply Z.div_pos; lia|apply Z.div_lt_upper_bound; lia]|].
  pose proof (Z.mod_pos_bound b 16 ltac:(lia)) as Hm. destruct (hexCharToInt_digit capital (b mod 16) Hm) as [-> _].
  assert (b / 16 < 16) by (apply Z.div_lt_upper_bound; lia).
  unfold INVALID_HEX_CHAR. rewrite (proj2 (Z.eqb_neq (b / 16) 16)), (proj2 (Z.eqb_neq (b mod 16) 16)) by lia. cbn [orb]. rewrite IH. cbn.
  by rewrite nibbles_join.
Qed.

Lemma hex_text_nonzero capital bs : Forall is_byte bs -> Forall (fun c => c <> 0) (hex_text capital bs).
Proof.
  induction 1 as [|b bs Hb Hbs IH]; [constructor|]. unfold is_byte in Hb. cbn. repeat constructor; [..|done]; apply hexCharToInt_digit.
  - split; [apply Z.div_pos; lia|apply Z.div_lt_upper_bound; lia].
  - apply Z.mod_pos_bound. lia.
Qed.

Lemma hex_bytes_length : forall bs text, hex_bytes text = Some bs -> length text = (2 * length bs)%nat.
Proof.
  fix IH 2. intros bs [|a [|b text]] H; [by injection H as <-|done|]. cbn in H. destruct (_ || _); [done|].
  destruct (hex_bytes text) as [bs'|] eqn:E; [|done]. cbn in H. injection H as <-. cbn. rewrite (IH bs' text E). lia.
Qed.

(** A text in the vendor's memory with its zero. *)
Definition text_at (m : cmem) (p : Z) (t : list Z) : Prop := forall i b, (t ++ [0]) !! i = Some b -> m !! (p + Z.of_nat i) = Some b.

Lemma rd_bytes_text t : forall m p, (forall i b, t !! i = Some b -> m !! (p + Z.of_nat i) = Some b) -> rd_bytes m p (length t) = Some t.
Proof.
  induction t as [|b t IH]; intros m p H; [done|]. cbn [length rd_bytes]. pose proof (H 0%nat b eq_refl) as H0. rewrite Z.add_0_r in H0.
  rewrite H0. cbn. rewrite (IH m (p + 1)); [done|]. intros i c Hi. rewrite <- (H (S i) c Hi). f_equal. lia.
Qed.

Lemma text_at_bytes m p t : text_at m p t -> rd_bytes m p (length t) = Some t.
Proof. intros H. apply rd_bytes_text. intros i b Hi. apply H. by apply lookup_app_l_Some. Qed.

Section Messages.
Context `{HT : RadioTypes}.

(** A client that is told, and that is alive. *)
Definition listening (radio : bool) (slotId : Z) (i : Impl) (s : Svc) : Prop :=
  elem (services radio s) slotId = Some (Some i) /\ mIndication i <> 0 /\ hd true (oks s) = true.

Lemma convertHexStringToBytes_run s al response t : room al (heap s) -> text_at (vmem s) response t ->
  exists p s', convertHexStringToBytes response (zlen t) (with_mem s al (heap s)) = Ok (p, s') /\
  match (if hd NULL al =? NULL then None else hex_bytes t) with
  | Some bs => p <> NULL /\ heap s !! p = None /\ exists al', s' = with_mem s al' (<[p := Chars (bs ++ bs)]> (heap s))
  | None => p = NULL /\ exists al', s' = with_mem s al' (heap s)
  end.
Proof.
  intros Hr Ht. unfold convertHexStringToBytes. destruct (zlen t mod 2 =? 0) eqn:Eodd; cbn [negb].
  2: { exists NULL, (with_mem s al (heap s)). split; [done|]. assert (hex_bytes t = None) as ->; [|destruct (_ =? NULL); by eauto].
       destruct (hex_bytes t) as [bs|] eqn:E; [|done]. apply hex_bytes_length in E. apply Z.eqb_neq in Eodd. destruct Eodd.
       unfold zlen. rewrite E, Nat2Z.inj_mul, Z.mul_comm. apply Z_mod_mult. }
  pose proof (alloc_run (Chars (repeat 0 (Z.to_nat (zlen t)))) s al (heap s)) as Hal.
  destruct (Z.eqb_spec (hd NULL al) NULL) as [Hq|Hq]; rewrite (bindM_ok _ _ _ _ _ Hal).
  { exists NULL, (with_mem s (tail al) (heap s)). split; [done|]. by eauto. }
  destruct al as [|q al]; [done|]. cbn [hd tail] in *. rewrite (proj2 (Z.eqb_neq _ _) Hq).
  destruct (room_insert q al (heap s) (Chars []) Hr Hq) as [Hfree _].
  assert (Z.to_nat (zlen t) = length t) as Hlen by (unfold zlen; lia). rewrite Hlen in *.
  erewrite bindM_ok; [|unfold reading; run; change (vmem (with_mem _ _ _)) with (vmem s); by rewrite (text_at_bytes _ _ _ Ht)].
  destruct (hex_bytes t) as [bs|].
  - eexists q, _. split; [reflexivity|]. split; [done|]. split; [done|]. exists al. unfold with_mem. cbn. by rewrite insert_insert_eq.
  - exists NULL. eexists. split.
    + erewrite bindM_ok; [reflexivity|]. by apply (free_run q (Chars (repeat 0 (length t))) (heap s)).
    + split; [done|]. by exists al.
Qed.

Lemma reading_ok {A} (f : cmem -> option A) s a : f (vmem s) = Some a -> reading f s = Ok (a, s).
Proof. unfold reading. run. by intros ->. Qed.

Lemma indication_client_ok radio slotId i s : elem (services radio s) slotId = Some (Some i) -> indication_client radio slotId s = Ok (mIndication i, s).
Proof. intros Hi. unfold indication_client. run. by rewrite Hi. Qed.

(** What a message does, whatever its text is. *)
Lemma hex_event_run s slotId type token e response responseLen i method t :
  listening true slotId i s -> room (allocs (lib s)) (heap s) -> response <> 0 -> responseLen <> 0 ->
  Forall (fun c => c <> 0) t -> text_at (vmem s) response t ->
  exists s', hex_event method slotId type token e response responseLen s = Ok (0, s') /\ heap s' = heap s /\ sent s' = sent s /\
  hidl s' = hidl s ++ match (if hd NULL (allocs (lib s)) =? NULL then None else hex_bytes t) with
                      | Some bs => [Indication (mIndication i) slotId method (convertIntToRadioIndicationType type) [HVec (map HInt bs)]]
                      | None => []
                      end.
Proof.
  intros (Hi & Hm & Hok) Hr H1 H2 Hnz Ht. unfold hex_event. rewrite (bindM_ok _ _ _ _ _ (indication_client_ok _ _ _ _ Hi)).
  rewrite (proj2 (Z.eqb_neq _ 0) Hm). unfold no_data. rewrite (proj2 (Z.eqb_neq _ 0) H1), (proj2 (Z.eqb_neq _ 0) H2). cbn [orb].
  rewrite (bindM_ok _ _ _ _ _ (reading_ok (fun m => cstring m response) s t (cstring_ok t _ _ Hnz Ht))).
  destruct (convertHexStringToBytes_run s _ response t Hr Ht) as (p & s1 & Hx & Hs1). rewrite with_mem_id in Hx. rewrite (bindM_ok _ _ _ _ _ Hx).
  destruct (if hd NULL (allocs (lib s)) =? NULL then None else hex_bytes t) as [bs|] eqn:Eb.
  - destruct Hs1 as (Hp & Hfree & al' & ->). rewrite (proj2 (Z.eqb_neq p NULL) Hp). run. rewrite lookup_insert_eq. cbn.
    assert (take (Z.to_nat (zlen t / 2)) (bs ++ bs) = bs) as ->.
    { destruct (_ =? NULL); [done|]. apply hex_bytes_length in Eb. unfold zlen. rewrite Eb.
      replace (Z.of_nat (2 * length bs) / 2) with (Z.of_nat (length bs)) by (rewrite Nat2Z.inj_mul, Z.mul_comm, Z.div_mul; lia).
      by rewrite Nat2Z.id, take_app_length. }
    cbn. rewrite Hok. cbn. unfold free. rewrite (proj2 (Z.eqb_neq p NULL) Hp). run. rewrite lookup_insert_eq. eexists. split; [done|].
    cbn. split; [by apply delete_insert_id|done].
  - destruct Hs1 as (-> & al' & ->). eexists. split; [done|]. cbn. by rewrite app_nil_r.
Qed.

(** C10: a message that comes as text in hexadecimal digits, in capitals or not, is passed on as the
    bytes that were written: for all bytes the client is told exactly once, with these bytes. A text
    that is not of pairs of digits is passed on to nobody, and neither is one for which there is no
    memory. In every case the memory for the bytes is given back. *)
Theorem messages_passed_on s slotId type token e response responseLen i method f t :
  In (method, f) [("newSms", newSmsInd); ("newSmsStatusReport", newSmsStatusReportInd)] ->
  listening true slotId i s -> room (allocs (lib s)) (heap s) -> response <> 0 -> responseLen <> 0 ->
  Forall (fun c => c <> 0) t -> text_at (vmem s) response t ->
  exists s', f slotId type token e response responseLen s = Ok (0, s') /\ heap s' = heap s /\ sent s' = sent s /\
  (forall capital bs, Forall is_byte bs -> t = hex_text capital bs -> hd NULL (allocs (lib s)) <> NULL ->
     hidl s' = hidl s ++ [Indication (mIndication i) slotId method (convertIntToRadioIndicationType type) [HVec (map HInt bs)]]) /\
  (hex_bytes t = None \/ hd NULL (allocs (lib s)) = NULL -> hidl s' = hidl s).
Proof.
  intros Hf Hl Hr H1 H2 Hnz Ht.
  destruct (hex_event_run s slotId type token e response responseLen i method t Hl Hr H1 H2 Hnz Ht) as (s' & Hx & Hh & Hs & Hc).
  exists s'. split; [by destruct Hf as [[= <- <-]|[[= <- <-]|[]]]|]. split; [done|]. split; [done|]. split.
  - intros capital bs Hbs -> Hn%Z.eqb_neq. by rewrite Hc, Hn, (hex_bytes_text _ _ Hbs).
  - intros [Hn|Hn]; rewrite Hc, Hn; [destruct (_ =? NULL)|]; by rewrite app_nil_r.
Qed.
End Messages.

(** * Every indication *)

(** Nothing is told, sent or entered, and the clients are those they were. *)
Definition quiet (s s' : Svc) : Prop :=
  hidl s' = hidl s /\ sent s' = sent s /\ oks s' = oks s /\ services true s' = services true s /\ services false s' = services false s /\
  requests (lib s') = requests (lib s) /\ s_pendingRequests (lib s') = s_pendingRequests (lib s) /\ out (lib s') = out (lib s).

#[export] Instance quiet_pre : PreOrder quiet.
Proof. split; [done|]. unfold quiet. intros s1 s2 s3 H1 H2. destruct_and?. split_and!; congruence. Qed.

#[export] Hint Extern 1 (confined quiet (modM _) anything) => (apply confined_mod; [intros []; done|exact I]) : confined.

Lemma quiet_converted {A} (m : SVC A) : confined converted m anything -> confined quiet m anything.
Proof. intros H s a s' Hm. split; [done|]. destruct (H s a s' Hm) as [_ ->]. done. Qed.

Lemma quiet_reading {A} (f : cmem -> option A) : confined quiet (reading f) anything.
Proof. apply quiet_converted, converts_reading. Qed.
Lemma quiet_read1 f response responseLen : confined quiet (read1 f response responseLen) anything.
Proof. apply quiet_converted, converts_read1. Qed.
Lemma quiet_one_struct c response responseLen : confined quiet (one_struct c response responseLen) anything.
Proof. apply quiet_converted, converts_read1. Qed.
Lemma quiet_signal_strength response : confined quiet (signal_strength response) anything.
Proof. apply quiet_converted, converts_signal_strength. Qed.
#[export] Hint Resolve quiet_reading quiet_read1 quiet_one_struct quiet_signal_strength : confined.

Lemma quiet_alloc b : confined quiet (alloc b) anything.
Proof.
  intros s a s' H. split; [done|]. rewrite <- (with_mem_id s) in H at 1. rewrite alloc_run in H.
  destruct (_ =? NULL); injection H as <- <-; done.
Qed.
Lemma quiet_free p : confined quiet (free p) anything.
Proof. unfold free. confine. Qed.
#[export] Hint Resolve quiet_alloc quiet_free : confined.

Lemma quiet_onStateRequest : confined quiet onStateRequest anything.
Proof. unfold onStateRequest. confine. Qed.
Lemma quiet_elapsedRealtime : confined quiet elapsedRealtime anything.
Proof. unfold elapsedRealtime. confine. Qed.
Lemma quiet_cut_indexes response : confined quiet (cut_indexes response) anything.
Proof. unfold cut_indexes. confine. Qed.
Lemma quiet_text_of p len buf max : confined quiet (text_of p len buf max) anything.
Proof. unfold text_of. confine. Qed.
#[export] Hint Resolve quiet_onStateRequest quiet_elapsedRealtime quiet_cut_indexes quiet_text_of : confined.
Lemma quiet_number_part part p : confined quiet (number_part part p) anything.
Proof. unfold number_part. confine. Qed.
Lemma quiet_plain_part name c p : confined quiet (plain_part name c p) anything.
Proof. unfold plain_part. confine. Qed.
#[export] Hint Resolve quiet_number_part quiet_plain_part : confined.
Lemma quiet_info_record p : confined quiet (info_record p) anything.
Proof. unfold info_record. confine. Qed.
#[export] Hint Resolve quiet_info_record : confined.
Lemma quiet_info_records n : forall p, confined quiet (info_records n p) anything.
Proof. induction n; intros p; cbn [info_records]; confine. Qed.
#[export] Hint Resolve quiet_info_records : confined.
Lemma quiet_convertHexStringToBytes response n : confined quiet (convertHexStringToBytes response n) anything.
Proof. unfold convertHexStringToBytes. confine. Qed.
#[export] Hint Resolve quiet_convertHexStringToBytes : confined.

(** One call of the object, with the method and some arguments. *)
Definition told_once `{RadioTypes} (client slotId type : Z) (method : string) (s s' : Svc) : Prop :=
  exists args, hidl s' = hidl s ++ [Indication client slotId method (convertIntToRadioIndicationType type) args].

(** The outcomes of an indication: without an object for it nothing changes. With one, it is told once with
    the method, or the data are refused; [test] says for which data and lengths, where that depends on
    nothing else. *)
Definition tells `{RadioTypes} (radio : bool) (method : string) (test : option (Z -> Z -> bool)) (f : indication_fn) : Prop :=
  forall slotId type token e response responseLen s v s',
    f slotId type token e response responseLen s = Ok (v, s') ->
    (sent s' = sent s /\ requests (lib s') = requests (lib s) /\ s_pendingRequests (lib s') = s_pendingRequests (lib s) /\ out (lib s') = out (lib s)) /\
    exists o, elem (services radio s) slotId = Some o /\
    let client := match o with Some i => mIndication i | None => 0 end in
    if client =? 0 then s' = s
    else match test with
         | Some bad => if bad response responseLen then hidl s' = hidl s else told_once client slotId type method s s'
         | None => hidl s' = hidl s \/ told_once client slotId type method s s'
         end.

(** The tests of the data: none; an array of numbers; some bytes; a structure; an array of them; more
    than the address and the length. *)
Definition never : option (Z -> Z -> bool) := Some (fun _ _ => false).
Definition numbers : option (Z -> Z -> bool) := Some (not_multiple 4).
Definition some_bytes : option (Z -> Z -> bool) := Some no_data.
Definition one_of_size (T : cty) : option (Z -> Z -> bool) := Some (not_size (sizeof T)).
Definition array_of (T : cty) : option (Z -> Z -> bool) := Some (not_multiple (sizeof T)).
Definition depends : option (Z -> Z -> bool) := None.

(** The methods of the functions of the standard table, in its order, with the tests. *)
Definition indication_rows `{RadioTypes} : list (string * option (Z -> Z -> bool)) := [
  ("radioStateChanged", never); ("callStateChanged", never); ("networkStateChanged", never); ("newSms", depends);
  ("newSmsStatusReport", depends); ("newSmsOnSim", numbers);
  ("onUssd", Some (fun response responseLen => (response =? 0) || (responseLen <? 8)));
  ("onUssd", Some (fun response responseLen => (response =? 0) || (responseLen <? 8)));
  ("nitzTimeReceived", some_bytes);
  ("currentSignalStrength", Some (fun response responseLen => (response =? 0) || (responseLen <? sizeof RIL_SignalStrength_v8)));
  ("dataCallListChanged", array_of RIL_Data_Call_Response_v6); ("suppSvcNotify", one_of_size RIL_SuppSvcNotification);
  ("stkSessionEnd", never); ("stkProactiveCommand", some_bytes); ("stkEventNotify", some_bytes); ("stkCallSetup", numbers);
  ("simSmsStorageFull", never); ("simRefresh", one_of_size RIL_SimRefreshResponse_v7);
  ("callRing", Some (fun response responseLen => negb (no_data response responseLen) && negb (responseLen =? sizeof RIL_CDMA_SignalInfoRecord)));
  ("simStatusChanged", never); ("cdmaNewSms", one_of_size RIL_CDMA_SMS_Message); ("newBroadcastSms", some_bytes);
  ("cdmaRuimSmsStorageFull", never); ("restrictedStateChanged", numbers); ("enterEmergencyCallbackMode", never);
  ("cdmaCallWaiting", one_of_size RIL_CDMA_CallWaiting_v6); ("cdmaOtaProvisionStatus", numbers); ("cdmaInfoRec", depends);
  ("oemHookRaw", some_bytes); ("indicateRingbackTone", numbers); ("resendIncallMute", never);
  ("cdmaSubscriptionSourceChanged", numbers); ("cdmaPrlChanged", numbers); ("exitEmergencyCallbackMode", never);
  ("rilConnected", never); ("voiceRadioTechChanged", numbers); ("cellInfoList", array_of RIL_CellInfo_v12);
  ("imsNetworkStateChanged", never); ("subscriptionStatusChanged", numbers); ("srvccStateNotify", numbers);
  ("hardwareConfigChanged", array_of RIL_HardwareConfig); ("", depends); ("radioCapabilityIndication", one_of_size RIL_RadioCapability);
  ("onSupplementaryServiceIndication", one_of_size RIL_StkCcUnsolSsResponse); ("stkCallControlAlphaNotify", some_bytes);
  ("lceData", one_of_size RIL_LceDataInfo); ("pcoData", one_of_size RIL_PCO_Data); ("modemReset", some_bytes)].

Section Tells.
Context `{HT : RadioTypes}.
Variable mtk : bool.

Lemma indication_client_inv radio slotId s c s' : indication_client radio slotId s = Ok (c, s') -> s' = s /\
  exists o, elem (services radio s) slotId = Some o /\ c = match o with Some i => mIndication i | None => 0 end.
Proof. unfold indication_client. run. destruct (elem _ _) as [o|]; run; [|done]. intros [= <- <-]. split; [done|]. by exists o. Qed.

(** Telling, and what the answer of the object leads to. *)
Lemma told radio slotId s1 c u s2 : (let* ok := hidl_do c in checkReturnStatus slotId ok radio) s1 = Ok (u, s2) ->
  hidl s2 = hidl s1 ++ [c] /\ sent s2 = sent s1 /\ lib s2 = lib s1.
Proof.
  intros (ok & s3 & H3 & H4)%bindM_inv. injection H3 as <- <-. apply checkReturnStatus_same in H4 as [_ Hs%same_run_traces].
  by injection Hs as -> -> _ -> _.
Qed.

(** The arguments are there exactly when the data pass the test. *)
Definition passes {A} (test : option (Z -> Z -> bool)) (response responseLen : Z) (o : option A) : Prop :=
  match test with Some bad => o = None <-> bad response responseLen = true | None => True end.

Lemma accept_passes bad conv slotId response responseLen : (forall response responseLen, confined quiet (conv response responseLen) anything) ->
  confined quiet (accept bad conv slotId response responseLen) (passes (Some bad) response responseLen).
Proof.
  intros Hc. unfold accept, passes. destruct (bad response responseLen); [by apply confined_ret; [typeclasses eauto|]|].
  eapply confined_bind with (P := anything); [typeclasses eauto|apply Hc|intros a _]. by apply confined_ret; [typeclasses eauto|].
Qed.

Lemma indicates_tells radio absent method test body :
  (forall slotId response responseLen, confined quiet (body slotId response responseLen) (passes test response responseLen)) ->
  tells radio method test (indicates radio absent method body).
Proof.
  intros Hb slotId ty token e response responseLen s v s' H. unfold indicates in H.
  apply bindM_inv in H as (c & s1 & [-> (o & Ho & ->)]%indication_client_inv & H).
  destruct (Z.eqb_spec (match o with Some i => mIndication i | None => 0 end) 0) as [E|E].
  - injection H as <- <-. split; [done|]. exists o. split; [done|]. cbv zeta. by rewrite E.
  - apply bindM_inv in H as (a & s2 & H2 & H). apply Hb in H2 as [Hpass Q]. unfold quiet in Q. destruct_and?.
    destruct a as [args|].
    + rewrite <- (bindM_assoc (hidl_do _)) in H. apply bindM_inv in H as (u & s3 & (T1 & T2 & T3)%told & H). injection H as <- <-.
      split; [split_and!; congruence|]. exists o. split; [done|]. cbv zeta. rewrite (proj2 (Z.eqb_neq _ _) E).
      assert (told_once (match o with Some i => mIndication i | None => 0 end) slotId ty method s s3) as Ht by (exists args; congruence).
      destruct test as [bad|]; [|by right]. cbn in Hpass. destruct (bad response responseLen); [|done]. by destruct Hpass as [_ Hp]; specialize (Hp eq_refl).
    + injection H as <- <-. split; [done|]. exists o. split; [done|]. cbv zeta. rewrite (proj2 (Z.eqb_neq _ _) E).
      destruct test as [bad|]; [|by left]. cbn in Hpass. by rewrite (proj1 Hpass eq_refl).
Qed.

Lemma hex_event_tells method : tells true method depends (hex_event method).
Proof.
  intros slotId ty token e response responseLen s v s' H. unfold hex_event in H.
  apply bindM_inv in H as (c & s1 & [-> (o & Ho & ->)]%indication_client_inv & H).
  destruct (Z.eqb_spec (match o with Some i => mIndication i | None => 0 end) 0) as [E|E].
  { injection H as <- <-. split; [done|]. exists o. split; [done|]. cbv zeta. by rewrite E. }
  enough ((sent s' = sent s /\ requests (lib s') = requests (lib s) /\ s_pendingRequests (lib s') = s_pendingRequests (lib s) /\
           out (lib s') = out (lib s)) /\
          (hidl s' = hidl s \/ told_once (match o with Some i => mIndication i | None => 0 end) slotId ty method s s')) as [? ?].
  { split; [done|]. exists o. split; [done|]. cbv zeta. by rewrite (proj2 (Z.eqb_neq _ _) E). }
  destruct (no_data response responseLen); [injection H as <- <-; by auto|].
  apply bindM_inv in H as (st & s2 & [_ Q2]%quiet_reading & H). apply bindM_inv in H as (b & s3 & [_ Q3]%quiet_convertHexStringToBytes & H).
  assert (quiet s s3) as Q by (by etrans). unfold quiet in Q. clear Q2 Q3. destruct_and?.
  destruct (b =? NULL); [injection H as <- <-; by auto|]. apply bindM_inv in H as (s3' & s4 & [= <- <-] & H).
  apply bindM_inv in H as (pdu & s5 & Hpdu & H). assert (s5 = s3) as -> by (destruct (heap s3 !! b) as [[]|]; by inversion Hpdu).
  rewrite <- (bindM_assoc (hidl_do _)) in H. apply bindM_inv in H as (u & s6 & (T1 & T2 & T3)%told & H).
  apply bindM_inv in H as ([] & s7 & [_ Q7]%quiet_free & H). injection H as <- <-. unfold quiet in Q7. destruct_and?.
  split; [split_and!; congruence|]. right. eexists. transitivity (hidl s6); [done|]. rewrite T1. by f_equal.
Qed.

Definition row_tells (o : option indication_fn) (row : string * option (Z -> Z -> bool)) : Prop :=
  match o with Some f => tells (negb (String.eqb row.1 "oemHookRaw")) row.1 row.2 f | None => True end.

(** A function as an instance of the frame, or as one for messages. *)
Ltac tells_framed :=
  let rec head t := lazymatch t with ?f _ => head f | _ => t end in
  lazymatch goal with
  | |- tells _ _ _ (indicates _ _ _ (accept _ _)) => apply indicates_tells; intros; apply accept_passes; intros; confine
  | |- tells _ _ _ (indicates _ _ _ _) => apply indicates_tells; intros
  | |- tells _ _ _ (hex_event _) => apply hex_event_tells
  | |- tells _ _ _ ?f => let h := head f in unfold h; tells_framed
  end.

Lemma rows_tell : Forall2 row_tells (indication_functions mtk) indication_rows.
Proof.
  repeat apply List.Forall2_cons; [..|apply List.Forall2_nil]; unfold row_tells; try exact I; cbn [fst snd String.eqb Ascii.eqb Bool.eqb negb].
  all: tells_framed.
  - eapply confined_bind with (P := anything); [typeclasses eauto|confine|intros state _]. by apply confined_ret; [typeclasses eauto|].
  - unfold passes. destruct (no_data response responseLen); cbn [negb andb]; [by apply confined_ret; [typeclasses eauto|]|].
    destruct (responseLen =? _); cbn [negb]; [|by apply confined_ret; [typeclasses eauto|]].
    eapply confined_bind with (P := anything); [typeclasses eauto|confine|intros record _]. by apply confined_ret; [typeclasses eauto|].
  - eapply confined_weaken with (P := anything); [confine|done].
Qed.

(** C11: every function of the standard table of unsolicited responses, whenever it returns, has told
    the framework exactly once, with the method of its own name, the type asked for and the object
    that is registered for the slot; but not at all when the data or their length fail the test of the
    function's row, and at most once for the messages and records whose contents may be
    refused. Without an object nothing changes. It never sends a request to the
    vendor's library, answers one or takes one out of the list. *)
Theorem every_indication i f method test :
  elem (indication_functions mtk) i = Some (Some f) -> elem indication_rows i = Some (method, test) ->
  tells (negb (String.eqb method "oemHookRaw")) method test f.
Proof.
  unfold elem. destruct (i <? 0); [done|]. intros Hf Hm.
  by eapply Forall2_lookup_lr in Hm; [|apply rows_tell|exact Hf].
Qed.
End Tells.
