(* ===== verification/RilWhole.v ===== *)
(** The library and the radio service together: what the completion of a request by the vendor's
    library tells the framework. *)

From stdpp Require Import base list gmap strings numbers.
From Stdlib Require Import ZArith Lia.
From S2P Require Import Prelude RilEvent RilTables Ril RilCore RilRequests RilMem RilStructs RilConvert RilService RilResponses RilCodes.
From S2P Require Import RilDispatch RilRadio RilIndications RilAnswers RilRefuse RilSend.

Local Open Scope Z_scope.
Local Open Scope st_scope.
Local Open Scope rec_scope.

Section Whole.
Context `{HT : RadioTypes}.

(** What the library does with an entry of its trace that concerns the service: the function of the
    table is called while the lock is held for reading. [responseLen] is the length of the
    vendor's data. *)
Definition deliver (mtk : bool) (responseLen : Z) (o : ril_out) : SVC unit :=
  match o with
  | Respond entry slot type token_ err (Pointer a) =>
      let* f := of_option (response_function mtk entry) in
      rdlock slot;;
      f slot type token_ err a responseLen;;
      unlock slot
  | AckRequest slot token_ => rdlock slot;; acknowledgeRequest slot token_;; unlock slot
  | _ => retM tt
  end.

Fixpoint deliver_all (mtk : bool) (responseLen : Z) (os : list ril_out) : SVC unit :=
  match os with
  | [] => retM tt
  | o :: os' => deliver mtk responseLen o;; deliver_all mtk responseLen os'
  end.

(** The vendor's library completes a request. *)
Definition complete (mtk : bool) (p e response responseLen : Z) : SVC unit :=
  let* s := getM in
  on_lib (RIL_onRequestComplete false p e response);;
  let* s' := getM in
  deliver_all mtk responseLen (drop (length (out (lib s))) (out (lib s'))).

(** A request of the framework that waits for the vendor's answer and is to be answered, whose client is alive and whose lock
    is free. The device's identity is answered from what the library keeps, and a request of the library
    itself is not answered. *)
Record outstanding (p : Z) (r : RequestInfo) (method : string) (i : Impl) (s : Svc) : Prop := {
  os_wf : ril_wf (lib s);
  os_request : requests (lib s) !! p = Some r;
  os_foreign : local_ r = 0;
  os_row : exists c, elem s_commands (pCI r) = Some c /\ has_response c = true /\ requestNumber c <> RIL_REQUEST_DEVICE_IDENTITY;
  os_method : elem response_methods (pCI r) = Some method;
  os_client : elem (services (negb (oem_method method)) s) (socket_id r) = Some (Some i) /\ mResponse i <> 0;
  os_free : held s !! getRadioServiceRwlock (socket_id r) = Some 0;
  os_alive : hd true (oks s) = true;
}.

(** The type of the answer: with an acknowledgement when the request was acknowledged. *)
Definition answer_type (s : Svc) (r : RequestInfo) : Z :=
  if (13 <=? version (lib s)) && (wasAckSent r =? 1) then RESPONSE_SOLICITED_ACK_EXP else RESPONSE_SOLICITED.

Lemma deliver_all_wakeup mtk n os k : os = [] \/ os = [WakeUpLoop] -> deliver_all mtk n (os ++ k) = deliver_all mtk n k.
Proof. by intros [->| ->]. Qed.

(** The library's part, and the one call that remains. *)
Lemma complete_run mtk p r method i e response n s : outstanding p r method i s -> exists l f,
  response_function mtk (pCI r) = Some f /\
  complete mtk p e response n s = bindM (rdlock (socket_id r);; f (socket_id r) (answer_type s r) (token r) e response n;; unlock (socket_id r)) (fun _ => retM tt)
    (s <| lib := l |>) /\
  requests l !! p = None /\ (forall q, q <> p -> requests l !! q = requests (lib s) !! q) /\
  (p ∉ default [] (s_pendingRequests l !! hook (socket_id r))) /\ ril_wf l.
Proof.
  intros [Hwf Hr Hloc (c & Hc & Hrow & Hid) Hm _ _ _].
  destruct (complete_spec (lib s) p r c e response Hwf Hr Hc) as (s2 & o & Hcomp & Hans & Hout & Ho).
  pose proof (freed_wf (lib s) p r s2 (proj1 Hwf) Hr Hans) as Hwf2.
  assert (exists f, response_function mtk (pCI r) = Some f) as [f Hf].
  { pose proof (response_functions_rows mtk) as Hrows. unfold response_function, elem in *. destruct (pCI r <? 0); [done|].
    assert ((map (fun o : option response_fn => match o with Some _ => true | None => false end) (response_functions mtk)) !! Z.to_nat (pCI r) = Some true) as Hx.
    { rewrite Hrows, list_lookup_fmap, Hc. cbn. by rewrite Hrow. }
    rewrite list_lookup_fmap in Hx. destruct (response_functions mtk !! Z.to_nat (pCI r)) as [[g|]|]; try done. by exists g. }
  exists (freed s2 p), f. split; [done|]. destruct Hans as (_ & Hreq & Hpend & _).
  split.
  - unfold complete. rewrite (bindM_ok _ _ _ _ _ (eq_refl : getM s = Ok (_, _))), (bindM_ok _ _ _ _ _ (on_lib_ok _ _ _ _ Hcomp)).
    rewrite (bindM_ok _ _ _ _ _ (eq_refl : getM _ = Ok (_, _))). change (out (lib (s <| lib := freed s2 p |>))) with (out s2).
    rewrite Hout, drop_app_length, deliver_all_wakeup by done. unfold RilRequests.answer. rewrite Hloc, Hrow. change ((0 <? 0) || negb true) with false.
    apply Z.eqb_neq in Hid. rewrite Hid. cbn [deliver_all deliver]. by rewrite Hf.
  - split; [cbn; apply lookup_delete_eq|]. split; [|split; [|done]].
    + intros q Hq. cbn. by rewrite lookup_delete_ne, Hreq by done.
    + intros Hin. destruct Hwf2 as [Hw _]. destruct (s_pendingRequests (freed s2 p) !! hook (socket_id r)) as [l|] eqn:El; [|by apply elem_of_nil in Hin].
      destruct (rw_list _ Hw _ _ _ El Hin) as (r' & Hr' & _). cbn in Hr'. by rewrite lookup_delete_eq in Hr'.
Qed.

(** The lock taken for reading and given back. *)
Lemma rdlock_run slotId s : rdlock slotId s = Ok (tt, s <| held := alter (Z.add 1) (getRadioServiceRwlock slotId) (held s) |>).
Proof. done. Qed.

Lemma unlock_run slotId (h : list Z) s : held s = alter (Z.add 1) (getRadioServiceRwlock slotId) h -> h !! getRadioServiceRwlock slotId = Some 0 ->
  unlock slotId s = Ok (tt, s <| held := h |>).
Proof.
  intros Hs Hh. unfold unlock. run. rewrite Hs, list_lookup_alter_eq, Hh. cbn [of_option retM option_map fmap option_fmap].
  unfold retM. change (1 + 0 =? 0) with false. cbv beta iota. rewrite Hs.
  assert (<[getRadioServiceRwlock slotId := 1 + 0 - 1]> (alter (Z.add 1) (getRadioServiceRwlock slotId) h) = h) as ->; [|done].
  apply list_eq. intros k. destruct (decide (k = getRadioServiceRwlock slotId)) as [->|Hne].
  - rewrite list_lookup_insert_eq, Hh; [done|]. rewrite length_alter. by eapply lookup_lt_Some.
  - by rewrite list_lookup_insert_ne, list_lookup_alter_ne.
Qed.

(** What the framework has got when the call has returned. *)
Definition answered_once (s s' : Svc) (p : Z) (r : RequestInfo) (method : string) (i : Impl) (e : Z) : Prop :=
  exists info args,
  hidl s' = hidl s ++ [Response (mResponse i) (socket_id r) (answered_as method) info args] /\ proper_info (answer_type s r) (token r) e info /\
  requests (lib s') !! p = None /\ (forall q, q <> p -> requests (lib s') !! q = requests (lib s) !! q) /\
  (p ∉ default [] (s_pendingRequests (lib s') !! hook (socket_id r))) /\ ril_wf (lib s') /\
  sent s' = sent s /\ heap s' = heap s /\ held s' = held s.

Lemma complete_answers mtk p r method i e response n s u s' : outstanding p r method i s ->
  complete mtk p e response n s = Ok (u, s') -> answered_once s s' p r method i e.
Proof.
  intros Ho H. destruct (complete_run mtk p r method i e response n s Ho) as (l & f & Hf & Hrun & Hp & Hq & Hin & Hwf).
  destruct Ho as [_ Hr _ _ Hm [Hc Hi] Hfree Halive]. rewrite Hrun in H. clear Hrun.
  apply bindM_inv in H as (u1 & s3 & H & H3). injection H3 as <- <-. rewrite (bindM_ok _ _ _ _ _ (rdlock_run _ _)) in H.
  apply bindM_inv in H as (v & s2 & H2 & H3).
  pose proof (row_of_function mtk (pCI r) f method Hf Hm) as Hans. cbn in Hans.
  destruct (Hans _ _ _ _ _ _ _ _ _ H2) as (_ & j & Hj & Hcase).
  assert (j = i) as -> by (destruct (negb (oem_method method)); cbn in Hj, Hc; congruence).
  destruct Hcase as [[? _]|(_ & info & args & E1 & Hinfo & E2 & E3 & E4 & _ & Hlive)]; [done|]. destruct (Hlive Halive) as (Hheld & _ & _).
  rewrite (unlock_run _ (held s) s2 Hheld Hfree) in H3. injection H3 as _ <-.
  exists info, args. cbn. rewrite E1, E2, E3, E4. by split_and!.
Qed.

(** C2: when the vendor's library completes a request of the framework that waits for its answer, and
    the service of its slot has a client that is alive, the framework gets exactly one answer: with
    the method of the request (that of [hangupWaitingOrBackground] for the one function that answers
    by another's method, [hangupForegroundResumeBackground]), the serial number that came with it, and
    the vendor's error (or that the data are wrong). The request is gone from the list and from
    memory, the others are as they were, and the lock is free again. This is so whenever the call
    returns; and it does return for an error without data. Of the requests that are answered,
    only that for the device's identity is left out: it is answered from what the library keeps.
    Without a client nothing is told, and what becomes of a dead client is another property. *)
Theorem completed_request_answered p r method i e response n s : outstanding p r method i s ->
  (forall mtk u s', complete mtk p e response n s = Ok (u, s') -> answered_once s s' p r method i e) /\
  (e <> RIL_E_SUCCESS -> exists s', complete true p e NULL 0 s = Ok (tt, s') /\ answered_once s s' p r method i e).
Proof.
  intros Ho. split; [intros mtk u s' H; by eapply complete_answers|]. intros He.
  destruct (complete_run true p r method i e NULL 0 s Ho) as (l & f & Hf & Hrun & _).
  pose proof Ho as [_ _ _ _ Hm [Hc Hi] Hfree Halive].
  assert (exists s', complete true p e NULL 0 s = Ok (tt, s')) as [s' Hs']; [|exists s'; split; [done|by eapply complete_answers]].
  rewrite Hrun. set (s1 := s <| lib := l |> <| held := alter (Z.add 1) (getRadioServiceRwlock (socket_id r)) (held s) |>).
  destruct (row_of_refusal _ _ _ Hf Hm (socket_id r) (answer_type s r) (token r) e s1 i) as [args Ha]; [by destruct (negb (oem_method method))|done|done|].
  change (hd true (oks s1)) with (hd true (oks s)) in Ha. rewrite Halive in Ha.
  erewrite bindM_ok; [by eexists|]. rewrite (bindM_ok _ _ _ _ _ (rdlock_run _ _)). erewrite bindM_ok; [|exact Ha].
  by apply (unlock_run _ (held s)).
Qed.
End Whole.
