(* ===== verification/RilSignal.v ===== *)
(** The signal strength as the radio service reports it: reading and writing words of the vendor's
    structures, and the values that the framework gets. *)

From stdpp Require Import base list gmap strings numbers.
From Stdlib Require Import ZArith Lia.
From S2P Require Import Prelude RilMem RilStructs RilConvert.

Local Open Scope Z_scope.

(** * Words in memory *)

(** A structure of numbers: its words, one after the other. *)
Definition words (m : cmem) (p : Z) (vs : list Z) : Prop := forall k v, vs !! k = Some v -> is_i32 v /\ int_at m p k = Some v.

Lemma get_word T path k m p : at_path T path = Some (4 * Z.of_nat k, INT) -> get T path m p = int_at m p k.
Proof. unfold get. by intros ->. Qed.

Lemma wr_bytes_cons m p b bs : wr_bytes m p (b :: bs) = wr_bytes (<[p := b]> m) (p + 1) bs.
Proof. done. Qed.

Lemma wr_bytes_other bs : forall m p q, q < p \/ p + zlen bs <= q -> wr_bytes m p bs !! q = m !! q.
Proof.
  induction bs as [|b bs IH]; intros m p q Hq; [done|]. rewrite zlen_cons in Hq. pose proof (zlen_nonneg bs).
  rewrite wr_bytes_cons, IH by lia. apply lookup_insert_ne. lia.
Qed.

Lemma rd_wr_bytes bs : forall m p, rd_bytes (wr_bytes m p bs) p (length bs) = Some bs.
Proof.
  induction bs as [|b bs IH]; intros m p; [done|]. rewrite wr_bytes_cons. cbn [length rd_bytes].
  rewrite wr_bytes_other by (pose proof (zlen_nonneg bs); lia). rewrite lookup_insert_eq. cbn. by rewrite IH.
Qed.

Lemma rd_bytes_other n : forall m m' q, (forall a, q <= a < q + Z.of_nat n -> m' !! a = m !! a) -> rd_bytes m' q n = rd_bytes m q n.
Proof.
  induction n as [|n IH]; intros m m' q H; [done|]. cbn [rd_bytes]. rewrite H by lia. destruct (m !! q); [|done]. cbn.
  rewrite (IH m m' (q + 1)); [done|]. intros a Ha. apply H. lia.
Qed.

Lemma word_bytes v : is_i32 v -> to_signed 4 (le_value (le_bytes 4 (v mod 2 ^ (8 * 4)))) = v.
Proof.
  unfold is_i32. intros Hv. rewrite le_value_bytes. change (256 ^ Z.of_nat 4) with (2 ^ 32). change (2 ^ (8 * 4)) with (2 ^ 32).
  rewrite Z.mod_mod by lia. unfold to_signed. change (2 ^ (8 * 4 - 1)) with (2 ^ 31). change (2 ^ (8 * 4)) with (2 ^ 32).
  destruct (Z.le_gt_cases 0 v) as [H|H].
  - rewrite Z.mod_small by lia. by rewrite (proj2 (Z.ltb_lt _ _)) by lia.
  - assert (v mod 2 ^ 32 = v + 2 ^ 32) as ->.
    { rewrite <- (Z_mod_plus_full v 1 (2 ^ 32)), Z.mod_small by lia. lia. }
    rewrite (proj2 (Z.ltb_ge _ _)) by lia. lia.
Qed.

(** Writing one word leaves the others. *)
Lemma put_word T path k m p vs v : at_path T path = Some (4 * Z.of_nat k, INT) -> words m p vs -> (k < length vs)%nat -> is_i32 v ->
  exists m', put T path v m p = Some m' /\ words m' p (<[k := v]> vs).
Proof.
  intros Hp Hw Hk Hv. destruct (lookup_lt_is_Some_2 vs k Hk) as [v0 Hv0]. destruct (Hw k v0 Hv0) as [_ Hint].
  exists (wr_bytes m (p + 4 * Z.of_nat k) (le_bytes 4 (v mod 2 ^ (8 * 4)))). split.
  { unfold put. rewrite (get_word T path k m p Hp), Hint, Hp. done. }
  intros j w Hj. destruct (decide (j = k)) as [->|Hne].
  - rewrite list_lookup_insert_eq in Hj by done. injection Hj as <-. split; [done|]. unfold int_at, rd_num.
    change (Z.to_nat 4) with (length (le_bytes 4 (v mod 2 ^ (8 * 4)))). rewrite rd_wr_bytes. cbn [option_bind mbind]. by rewrite word_bytes.
  - rewrite list_lookup_insert_ne in Hj by done. destruct (Hw j w Hj) as [Hi <-]. split; [done|]. unfold int_at, rd_num.
    rewrite (rd_bytes_other _ m); [done|]. intros a Ha. apply wr_bytes_other. rewrite zlen_le_bytes. lia.
Qed.

(** * Signal strength *)

(** A value of the LTE part as it is reported. *)
Definition unless_minus_one (v d : Z) : Z := if v =? -1 then d else v.
Definition positive_rsrp (v : Z) : Z := if v =? -1 then INT_MAX else if v <? -1 then - v else v.

Lemma instead_of_minus_one_word f d m p vs k v : at_path RIL_SignalStrength_v6 (lte f) = Some (4 * Z.of_nat k, INT) -> words m p vs ->
  vs !! k = Some v -> is_i32 d -> exists m', instead_of_minus_one f d m p = Some m' /\ words m' p (<[k := unless_minus_one v d]> vs).
Proof.
  intros Hp Hw Hk Hd. unfold instead_of_minus_one. destruct (Hw k v Hk) as [_ Hint]. rewrite (get_word _ _ k m p Hp), Hint. cbn [option_bind mbind].
  unfold unless_minus_one. destruct (v =? -1); [|exists m; by rewrite list_insert_id].
  apply (put_word _ _ k m p vs d Hp Hw); [by eapply lookup_lt_Some|done].
Qed.

(** The step for the reference power, in front of what follows. *)
Lemma rsrp_word m p vs v : words m p vs -> vs !! 8%nat = Some v -> v <> - 2 ^ 31 -> exists m', words m' p (<[8%nat := positive_rsrp v]> vs) /\
  forall A (K : cmem -> option A),
    (rsrp ← get RIL_SignalStrength_v6 (lte "rsrp") m p;
     m ← (if rsrp =? -1 then put RIL_SignalStrength_v6 (lte "rsrp") INT_MAX m p
          else if rsrp <? -1 then if rsrp =? - 2 ^ 31 then None else put RIL_SignalStrength_v6 (lte "rsrp") (- rsrp) m p
          else Some m);
     K m) = K m'.
Proof.
  intros Hw Hk Hmin. destruct (Hw 8%nat v Hk) as [Hv Hint]. assert (at_path RIL_SignalStrength_v6 (lte "rsrp") = Some (4 * Z.of_nat 8, INT)) as Hp by done.
  pose proof (lookup_lt_Some _ _ _ Hk) as Hlt. rewrite (get_word _ _ 8 m p Hp), Hint. unfold positive_rsrp. cbn [option_bind mbind].
  destruct (v =? -1); [|destruct (Z.ltb_spec v (-1)) as [Hneg|Hpos]].
  - destruct (put_word _ _ 8 m p vs INT_MAX Hp Hw Hlt) as (m' & -> & Hw'); [done|]. by exists m'.
  - apply Z.eqb_neq in Hmin. rewrite Hmin. apply Z.eqb_neq in Hmin.
    destruct (put_word _ _ 8 m p vs (- v) Hp Hw Hlt) as (m' & -> & Hw'); [unfold is_i32 in *; lia|]. by exists m'.
  - exists m. by rewrite list_insert_id.
Qed.

Lemma from_u32_word T path k m p vs v : at_path T path = Some (4 * Z.of_nat k, INT) -> words m p vs -> vs !! k = Some v ->
  from_u32 T path m p = Some (HInt (u32 v)).
Proof. intros Hp Hw Hk. unfold from_u32. destruct (Hw k v Hk) as [_ Hi]. by rewrite (get_word _ _ k m p Hp), Hi. Qed.

Lemma from_int_word T path k m p vs v : at_path T path = Some (4 * Z.of_nat k, INT) -> words m p vs -> vs !! k = Some v ->
  from_int T path m p = Some (HInt v).
Proof. intros Hp Hw Hk. unfold from_int. destruct (Hw k v Hk) as [_ Hi]. by rewrite (get_word _ _ k m p Hp), Hi. Qed.

Lemma positive_rsrp_u32 v : is_i32 v -> v <> - 2 ^ 31 -> u32 (positive_rsrp v) = positive_rsrp v.
Proof. unfold is_i32, u32, positive_rsrp, INT_MAX. intros Hv Hm. apply Z.mod_small. repeat case_goal; lia. Qed.

(** C16: the signal strength that the framework gets: the values of the vendor's library as they are,
    but in the LTE part -1 is replaced by 99 or by the largest number for "unknown", and a
    negative reference power by its opposite. The vendor's structure is left with these
    values. (Of the smallest number there is no opposite.) *)
Theorem signal_strength_reported m p gw ber cdbm cecio edbm eecio snr ss rsrp rsrq rssnr cqi :
  words m p [gw; ber; cdbm; cecio; edbm; eecio; snr; ss; rsrp; rsrq; rssnr; cqi] -> rsrp <> - 2 ^ 31 ->
  exists m', convertRilSignalStrengthToHal m p = Some (m', HRec [
    ("gw", HRec [("signalStrength", HInt (u32 gw)); ("bitErrorRate", HInt (u32 ber))]);
    ("cdma", HRec [("dbm", HInt (u32 cdbm)); ("ecio", HInt (u32 cecio))]);
    ("evdo", HRec [("dbm", HInt (u32 edbm)); ("ecio", HInt (u32 eecio)); ("signalNoiseRatio", HInt (u32 snr))]);
    ("lte", HRec [("signalStrength", HInt (u32 (unless_minus_one ss 99))); ("rsrp", HInt (positive_rsrp rsrp));
                  ("rsrq", HInt (u32 (unless_minus_one rsrq INT_MAX))); ("rssnr", HInt rssnr);
                  ("cqi", HInt (u32 (unless_minus_one cqi INT_MAX)))])]) /\
  words m' p [gw; ber; cdbm; cecio; edbm; eecio; snr; unless_minus_one ss 99; positive_rsrp rsrp; unless_minus_one rsrq INT_MAX; rssnr;
              unless_minus_one cqi INT_MAX].
Proof.
  intros Hw Hmin. destruct (Hw 8%nat rsrp eq_refl) as [Hr _]. unfold convertRilSignalStrengthToHal.
  destruct (instead_of_minus_one_word "signalStrength" 99 m p _ 7 ss eq_refl Hw eq_refl) as (m1 & -> & Hw1); [done|]. cbn [option_bind mbind].
  destruct (rsrp_word m1 p _ rsrp Hw1 eq_refl Hmin) as (m2 & Hw2 & HK). rewrite HK. clear HK.
  destruct (instead_of_minus_one_word "rsrq" INT_MAX m2 p _ 9 rsrq eq_refl Hw2 eq_refl) as (m3 & -> & Hw3); [done|]. cbn [option_bind mbind].
  destruct (instead_of_minus_one_word "cqi" INT_MAX m3 p _ 11 cqi eq_refl Hw3 eq_refl) as (m4 & -> & Hw4); [done|]. cbn [option_bind mbind].
  exists m4. split; [|exact Hw4]. rewrite <- (positive_rsrp_u32 rsrp Hr Hmin). unfold hrec. cbn [record].
  pose proof (fun k path v (Hp : at_path RIL_SignalStrength_v6 path = Some (4 * Z.of_nat k, INT)) => from_u32_word _ _ k m4 p _ v Hp Hw4) as U.
  rewrite (U 0%nat ["GW_SignalStrength"; "signalStrength"] _ eq_refl eq_refl),
    (U 1%nat ["GW_SignalStrength"; "bitErrorRate"] _ eq_refl eq_refl),
    (U 2%nat ["CDMA_SignalStrength"; "dbm"] _ eq_refl eq_refl),
    (U 3%nat ["CDMA_SignalStrength"; "ecio"] _ eq_refl eq_refl),
    (U 4%nat ["EVDO_SignalStrength"; "dbm"] _ eq_refl eq_refl),
    (U 5%nat ["EVDO_SignalStrength"; "ecio"] _ eq_refl eq_refl),
    (U 6%nat ["EVDO_SignalStrength"; "signalNoiseRatio"] _ eq_refl eq_refl),
    (U 7%nat (lte "signalStrength") _ eq_refl eq_refl),
    (U 8%nat (lte "rsrp") _ eq_refl eq_refl),
    (U 9%nat (lte "rsrq") _ eq_refl eq_refl),
    (from_int_word RIL_SignalStrength_v6 (lte "rssnr") 10 m4 p _ _ eq_refl Hw4 eq_refl),
    (U 11%nat (lte "cqi") _ eq_refl eq_refl).
  reflexivity.
Qed.
