(* ===== verification/RilServiceRun.v ===== *)
(** The radio service on examples: the theorems about it at concrete states, and what it does with data
    that it does not handle. *)

From stdpp Require Import base list gmap strings numbers.
From Stdlib Require Import ZArith Lia.
From S2P Require Import Prelude RilEvent RilTables Ril RilCore RilRequests RilRun RilMem RilStructs RilConvert RilService RilResponses RilCodes.
From S2P Require Import RilDispatch RilRadio RilIndications RilAnswers RilRefuse RilSend RilNotices RilWhole RilSignal.

Local Open Scope Z_scope.
Local Open Scope st_scope.
Local Open Scope rec_scope.

(** Numbers as in version 1.0 of the interface, and small structures for CDMA messages. *)
#[export] Instance radio_1_0 : RadioTypes := {|
  INVALID_RESPONSE := 66; TYPE_SOLICITED := 0; TYPE_SOLICITED_ACK_EXP := 2; TYPE_UNSOLICITED := 0; TYPE_UNSOLICITED_ACK_EXP := 1;
  ERROR_UNSPECIFIED := 65535; OPERATOR_UNKNOWN := 0; OPERATOR_AVAILABLE := 1; OPERATOR_CURRENT := 2; OPERATOR_FORBIDDEN := 3;
  MVNO_NONE := 0; MVNO_IMSI := 1; MVNO_GID := 2; MVNO_SPN := 3; RESET_RELOAD := 0; RESET_ERASE := 1; RESET_FACTORY_RESET := 2;
  LOW_DATA_EXPECTED := 2; RIL_CDMA_SMS_ADDRESS_MAX := 36; RIL_CDMA_SMS_SUBADDRESS_MAX := 36; RIL_CDMA_SMS_BEARER_DATA_MAX := 255;
  RIL_CDMA_SMS_Message := Struct []; RIL_CDMA_SMS_Ack := Struct []; RIL_CDMA_SMS_WriteArgs := Struct []; RIL_SelectUiccSub := Struct [];
  RIL_CDMA_BroadcastSmsConfigInfo := Struct [] |}.

(** Both slots have a client; the vendor's memory has some bytes. *)
Definition client_of (slot : Z) : Impl := mkImpl (500 + slot) (600 + slot).
Definition both : list (option Impl) := [Some (client_of 0); Some (client_of 1)].
Definition service (l : Ril) (bytes : list (Z * Z)) : Svc :=
  mkSvc l both both [1; 1] [1; 1] [0; 0] (list_to_map bytes) ∅ [0; 0; 0; 0] [] [] [10] [777] [] [] [].

(** The bytes of a text with its zero. *)
Definition bytes_at (p : Z) (t : list Z) : list (Z * Z) := imap (fun i b => (p + Z.of_nat i, b)) (t ++ [0]).

Definition allocations : list Z := [1000; 1100; 1200; 1300; 1400].
Definition started : Svc := service (RilRun.ready 15 allocations) [].

Lemma allocations_fresh : fresh_allocs allocations.
Proof. split_and!; apply (bool_decide_unpack _); by vm_compute. Qed.

Lemma started_wf : ril_wf (lib started).
Proof. apply ready_wf, allocations_fresh. Qed.

Lemma started_room : room (allocs (lib started)) (heap started).
Proof. split; [apply allocations_fresh|]. intros p _ _. apply lookup_empty. Qed.

(** * The theorems at work *)

Lemma every_answer_witness : answers_with true "sendDtmfResponse" sendDtmfResponse.
Proof. apply (every_answer true RIL_REQUEST_DTMF sendDtmfResponse "sendDtmfResponse"); [reflexivity|reflexivity|discriminate]. Defined.

(** Both clients are there; a request holds the lock; another thread registers a client. *)
Definition dying (us : list update) : Svc := started <| held := [1; 0] |> <| others := [us] |>.

Lemma dying_registered us : registered (dying us).
Proof. intros [] slotId Hs; assert (slotId = 0 \/ slotId = 1) as [-> | ->] by lia; split; by eexists. Qed.

Lemma dead_client_witness :
  let us := [mkUpdate true 0 (mkImpl 700 701); mkUpdate false 1 (mkImpl 0 0)] in
  exists s', checkReturnStatus 0 false true (dying us) = Ok (tt, s') /\ held s' = [1; 0] /\ traces s' = traces (dying us) /\
    elem (services true s') 0 = Some (Some (mkImpl 700 701)) /\ elem (counters true s') 0 = Some 2.
Proof.
  intros us. apply (dead_client (dying us) 0 true (client_of 0) 1 us); try reflexivity; [apply dying_registered|lia|done|].
  repeat constructor; cbn; lia.
Defined.

Lemma client_idle slotId : 0 <= slotId < 2 -> idle_client true slotId (client_of slotId) 1 started.
Proof. intros Hs. assert (slotId = 0 \/ slotId = 1) as [-> | ->] by lia; split_and!; try reflexivity; done. Qed.

Lemma unsupported_request_kept_witness :
  exists s' args r, getTTYMode true 1 42 started = Ok (tt, s') /\
    hidl s' = [Response 501 1 "getTTYModeResponse" (mkRespInfo 0 42 RIL_E_REQUEST_NOT_SUPPORTED) args] /\
    sent s' = [] /\ heap s' = ∅ /\ out (lib s') = [] /\
    requests (lib s') !! 1000 = Some r /\ token r = 42 /\ pCI r = RIL_REQUEST_QUERY_TTY_MODE /\
    1000 ∈ default [] (s_pendingRequests (lib s') !! hook 1).
Proof.
  refine (unsupported_request_kept started 1 42 [] 0 0 true RIL_REQUEST_QUERY_TTY_MODE "getTTYModeResponse" (getTTYMode true 1 42)
    (client_of 1) 1 _ _ _ _); [apply started_wf|lia|cbn; by auto|apply client_idle; lia].
Defined.

(** A request of slot 0 in the starting state. *)
Lemma started_can_send request ci method : request < RIL_REQUEST_VENDOR_BASE -> elem s_commands request = Some ci ->
  is_Some (response_function true request) -> elem response_methods request = Some method -> oem_method method = false ->
  can_send 0 request ci method (client_of 0) started.
Proof.
  intros H1 H2 H3 H4 H5. split; try done; [apply started_wf|apply started_room|]. rewrite H5. exists 1. apply client_idle. lia.
Qed.

Lemma strings_reach_vendor_witness :
  exists s', dispatchStrings true 7 0 RIL_REQUEST_SEND_SMS [[]; str "0011"] started = Ok (true, s') /\
  exists ptrs, is_sent 7 RIL_REQUEST_SEND_SMS (cmd 25 true PROXY_1) (VVec [VNull; VStr (str "0011")]) 8 (Ptrs ptrs) started s'.
Proof.
  apply (strings_reach_vendor 0 RIL_REQUEST_SEND_SMS (cmd 25 true PROXY_1) "sendSmsResponse" (client_of 0) started 7 [[]; str "0011"]).
  apply started_can_send; try reflexivity; by eexists.
Defined.

Lemma ints_reach_vendor_witness :
  exists s', dispatchInts true 7 0 RIL_REQUEST_HANGUP [3] started = Ok (true, s') /\
  is_sent 7 RIL_REQUEST_HANGUP (cmd 12 true PROXY_4) (VVec [VInt 3]) 4 (Ints [0]) started s'.
Proof.
  apply (ints_reach_vendor 0 RIL_REQUEST_HANGUP (cmd 12 true PROXY_4) "hangupConnectionResponse" (client_of 0) started 7 [3]).
  apply started_can_send; try reflexivity; by eexists.
Defined.

(** A message of two bytes in the vendor's memory. *)
Definition with_message : Svc := service (RilRun.ready 15 allocations) (bytes_at 2000 (hex_text true [10; 255])).

Lemma message_there : text_at (vmem with_message) 2000 (hex_text true [10; 255]).
Proof. intros i b Hi. do 5 (destruct i as [|i]; [injection Hi as <-; by vm_compute|]). discriminate. Qed.

Lemma messages_passed_on_witness :
  exists s', newSmsInd 1 RESPONSE_UNSOLICITED 0 0 2000 5 with_message = Ok (0, s') /\ heap s' = ∅ /\
  hidl s' = [Indication 601 1 "newSms" 0 [HVec [HInt 10; HInt 255]]].
Proof.
  destruct (messages_passed_on with_message 1 RESPONSE_UNSOLICITED 0 0 2000 5 (client_of 1) "newSms" newSmsInd (hex_text true [10; 255]))
    as (s' & Hx & Hh & _ & Hc & _); [by left|by split_and!|apply started_room|done|done|apply hex_text_nonzero; repeat constructor; done|apply message_there|].
  exists s'. split; [exact Hx|]. split; [exact Hh|]. apply (Hc true [10; 255]); [repeat constructor; done|reflexivity|done].
Defined.

Lemma every_indication_witness : tells true "newSmsOnSim" numbers newSmsOnSimInd.
Proof. apply (every_indication true 5 newSmsOnSimInd "newSmsOnSim" numbers); reflexivity. Defined.

(** A request for the SIM card's state that has been sent. *)
Definition card_request : RequestInfo := new_request (lib started) 77 1 RIL_REQUEST_GET_SIM_STATUS (cmd 1 true PROXY_1).
Definition card_state_asked : Svc := started <| lib := added (lib started) 1000 card_request |>.

Lemma card_state_outstanding : outstanding 1000 card_request "getIccCardStatusResponse" (client_of 1) card_state_asked.
Proof.
  split; try reflexivity.
  - apply (added_wf (lib started) 1000 card_request (cmd 1 true PROXY_1)); try reflexivity; [apply started_wf|done|done].
  - exists (cmd 1 true PROXY_1). split_and!; reflexivity || done.
  - split; [reflexivity|done].
Qed.

Lemma completed_request_answered_witness :
  exists s', complete true 1000 RIL_E_NO_MEMORY NULL 0 card_state_asked = Ok (tt, s') /\
  answered_once card_state_asked s' 1000 card_request "getIccCardStatusResponse" (client_of 1) RIL_E_NO_MEMORY.
Proof.
  destruct (completed_request_answered 1000 card_request "getIccCardStatusResponse" (client_of 1) RIL_E_NO_MEMORY NULL 0 card_state_asked
    card_state_outstanding) as [_ H]. apply H. discriminate.
Defined.

(** A structure of words in the vendor's memory. *)
Definition words_at (p : Z) (vs : list Z) : cmem := list_to_map (bytes_at p (flat_map (fun v => le_bytes 4 (v mod 2 ^ 32)) vs)).
Definition strength : list Z := [13; 99; -1; -1; -1; -1; -1; -1; -95; -1; 30; 7].

Lemma strength_words : words (words_at 4000 strength) 4000 strength.
Proof.
  intros k v Hk. do 12 (destruct k as [|k]; [injection Hk as <-; split; [unfold is_i32; lia|by vm_compute]|]). discriminate.
Qed.

Lemma signal_strength_reported_witness : exists m',
  convertRilSignalStrengthToHal (words_at 4000 strength) 4000 = Some (m', HRec [
    ("gw", HRec [("signalStrength", HInt 13); ("bitErrorRate", HInt 99)]);
    ("cdma", HRec [("dbm", HInt (2 ^ 32 - 1)); ("ecio", HInt (2 ^ 32 - 1))]);
    ("evdo", HRec [("dbm", HInt (2 ^ 32 - 1)); ("ecio", HInt (2 ^ 32 - 1)); ("signalNoiseRatio", HInt (2 ^ 32 - 1))]);
    ("lte", HRec [("signalStrength", HInt 99); ("rsrp", HInt 95); ("rsrq", HInt INT_MAX); ("rssnr", HInt 30); ("cqi", HInt 7)])]) /\
  words m' 4000 [13; 99; -1; -1; -1; -1; -1; 99; 95; INT_MAX; 30; 7].
Proof. apply (signal_strength_reported (words_at 4000 strength) 4000 13 99 (-1) (-1) (-1) (-1) (-1) (-1) (-95) (-1) 30 7); [apply strength_words|lia]. Defined.

(** * Data that are not handled *)

(** The trace of a function for an answer or an indication. *)
Definition told_by (m : SVC Z) (s : Svc) : option (list hidl_call) := match m s with Ok (_, s') => Some (hidl s') | _ => None end.

(** One number as the cause of the end of the last call is taken for wrong data, six bytes for a
    number: the test for an array of numbers is the wrong way round. *)
Definition with_cause : Svc := service (RilRun.ready 15 allocations) (bytes_at 2000 [16; 0; 0; 0; 0]).
Lemma last_call_fail_cause_refused :
  told_by (getLastCallFailCauseResponse 0 RESPONSE_SOLICITED 5 RIL_E_SUCCESS 2000 4) with_cause
    = Some [Response 500 0 "getLastCallFailCauseResponse" (mkRespInfo 0 5 INVALID_RESPONSE) [zeroed]] /\
  told_by (getLastCallFailCauseResponse 0 RESPONSE_SOLICITED 5 RIL_E_SUCCESS 2000 6) with_cause
    = Some [Response 500 0 "getLastCallFailCauseResponse" (mkRespInfo 0 5 0) [HRec [("causeCode", HInt 16)]]].
Proof. by vm_compute. Qed.

(** A call with user-to-user information: the vector for it is empty, and its first element is written. *)
Definition with_call (uus : Z) : Svc :=
  service (RilRun.ready 15 allocations)
    (bytes_at 2000 (le_bytes 4 3000) ++ bytes_at 3000 (repeat 0 36 ++ le_bytes 4 uus) ++ bytes_at 3100 (repeat 1 16)).
Lemma calls_with_uus_undefined :
  told_by (getCurrentCallsResponse 0 RESPONSE_SOLICITED 5 RIL_E_SUCCESS 2000 4) (with_call 3100) = None /\
  told_by (getCurrentCallsResponse 0 RESPONSE_SOLICITED 5 RIL_E_SUCCESS 2000 4) (with_call 0) <> None.
Proof. vm_compute. split; [done|]. discriminate. Qed.

(** Two profiles for a vendor's library of version 14: the array is released with the first of them. *)
Definition profile : DataProfileInfo := mkDataProfileInfo 0 (str "a") (str "IP") (str "IP") 0 [] [] 0 0 0 0 true 0 0 0 0 [].
Definition profiles_set (v : Z) (n : nat) : bool :=
  match setDataProfile true 0 9 (repeat profile n) false (service (RilRun.ready v (seqZ 1000 20)) []) with Ok _ => true | _ => false end.
Lemma two_profiles_undefined : profiles_set 14 1 = true /\ profiles_set 14 2 = false /\ profiles_set 15 2 = true.
Proof. by vm_compute. Qed.

(** The two slots have one lock. *)
Lemma slots_share_lock : getRadioServiceRwlock 0 = getRadioServiceRwlock 1.
Proof. done. Qed.
