(* ===== verification/WifiNl.v ===== *)
(** Netlink messages of the Wi-Fi HAL (src/hal/wifi_hal/cpp_bindings.h, cpp_bindings.cpp): the
    view of a received message ([WifiEvent]), the iterator over nested attributes
    ([nl_iterator]) and the construction of a request ([WifiRequest]). The libnl functions the
    HAL calls are the operations of the class [Libnl], with what their documentation promises
    as the laws of [LibnlLaws]; the numbers of nl80211 and of the generic netlink controller are
    the fields of [Nl80211]. A received message is an array of bytes, and a read outside of it
    is undefined. *)

From stdpp Require Import base list gmap numbers.
From Stdlib Require Import ZArith Lia.
From S2P Require Import Prelude.

Local Open Scope Z_scope.
Local Open Scope st_scope.
Local Open Scope rec_scope.

(** * Attributes in memory

    [struct nlattr] is a 16-bit length, which counts the header, and a 16-bit type; attributes
    are aligned to four bytes. *)

Definition NLA_HDRLEN : Z := 4.
Definition nla_align (n : Z) : Z := (n + 3) / 4 * 4.
Definition nlattr_len (m : list Z) (p : Z) : Z := at_ m p + 256 * at_ m (p + 1).
Definition nlattr_type (m : list Z) (p : Z) : Z := at_ m (p + 2) + 256 * at_ m (p + 3).

(** The [n] bytes at [p] are in the message. *)
Definition readable (m : list Z) (p n : Z) : bool := (0 <=? p) && (0 <=? n) && (p + n <=? zlen m).

(** A call of the library while a request is built: what is in the message is the sequence of
    the calls that put something into it. An attribute that was started is referred to by its
    position in the sequence. *)
Inductive nlop :=
  | OpHeader (family cmd flags hdrlen : Z)
  | OpPut (type : Z) (payload : list Z)
  | OpNest (type : Z)
  | OpEnd (start : nat).

#[export] Instance nlop_eq_dec : EqDecision nlop.
Proof. solve_decision. Defined.

Class Libnl := {
  nla_ok : list Z -> Z -> Z -> bool;
  nla_next : list Z -> Z -> Z -> Z * Z;
  nla_data : Z -> Z;
  nla_len : list Z -> Z -> Z;
  nla_get : nat -> list Z -> Z -> option Z;
  nla_get_u64 : list Z -> Z -> option Z;
  nla_parse : list Z -> Z -> Z -> Z -> Z * (Z -> option Z);
  nla_put : list nlop -> Z -> Z -> Z;
  nla_nest_start : list nlop -> Z -> bool;
}.

(** The bytes the message takes once the calls are made. *)
Definition op_size (o : nlop) : Z :=
  match o with
  | OpHeader _ _ _ h => 20 + nla_align h
  | OpPut _ bs => NLA_HDRLEN + nla_align (zlen bs)
  | OpNest _ => NLA_HDRLEN
  | OpEnd _ => 0
  end.
Definition msg_size (l : list nlop) : Z := foldr (fun o n => op_size o + n) 0 l.

(** The laws: an attribute is accessible when its header and its payload are within the bytes
    that remain; [nla_next] skips it with its padding; the getters read the payload; a parsed
    table holds at each index an attribute of that type inside of the stream; a put succeeds
    when the message has room for it and fails with an error otherwise. *)
Class LibnlLaws `{Libnl} := {
  nla_ok_law m p rem : nla_ok m p rem = (NLA_HDRLEN <=? rem) && (NLA_HDRLEN <=? nlattr_len m p) && (nlattr_len m p <=? rem);
  nla_next_law m p rem : nla_next m p rem = (p + nla_align (nlattr_len m p), rem - nla_align (nlattr_len m p));
  nla_data_law p : nla_data p = p + NLA_HDRLEN;
  nla_len_law m p : nla_len m p = nlattr_len m p - NLA_HDRLEN;
  nla_get_law n m p : nla_get n m p = le_value <$> mem_read m (nla_data p) (Z.of_nat n);
  nla_get_u64_law m p : nla_get_u64 m p = if nla_len m p <? 8 then Some 0 else le_value <$> mem_read m (nla_data p) 8;
  nla_parse_law m head len max t p : snd (nla_parse m head len max) t = Some p ->
    0 < t <= max /\ head <= p /\ NLA_HDRLEN <= nlattr_len m p /\ p + nlattr_len m p <= head + len /\
    Z.land (nlattr_type m p) 16383 = t;
  nlmsg_max : Z;
  nla_put_law l t n : 0 <= n -> nla_put l t n = 0 <-> msg_size l + NLA_HDRLEN + nla_align n <= nlmsg_max;
  nla_put_err l t n : nla_put l t n <= 0;
  nla_nest_law l t : nla_nest_start l t = true <-> msg_size l + NLA_HDRLEN <= nlmsg_max;
}.

(** The numbers of nl80211 and of the controller that the HAL uses. *)
Class Nl80211 := {
  NL80211_CMD_VENDOR : Z;
  NL80211_ATTR_WIPHY : Z;
  NL80211_ATTR_IFINDEX : Z;
  NL80211_ATTR_VENDOR_ID : Z;
  NL80211_ATTR_VENDOR_SUBCMD : Z;
  NL80211_ATTR_VENDOR_DATA : Z;
  CTRL_CMD_GETFAMILY : Z;
  CTRL_ATTR_FAMILY_NAME : Z;
  CTRL_ATTR_MCAST_GROUPS : Z;
  CTRL_ATTR_MCAST_GRP_MAX : Z;
  CTRL_ATTR_MCAST_GRP_NAME : Z;
  CTRL_ATTR_MCAST_GRP_ID : Z;
}.

(** What a callback tells the library to do with the rest of the messages. *)
Inductive nl_cb_action := NL_OK | NL_SKIP | NL_STOP.
#[export] Instance nl_cb_action_eq_dec : EqDecision nl_cb_action.
Proof. solve_decision. Defined.

(** A received message: its bytes, the command of its generic netlink header, and where its
    attributes are. *)
Record nl_msg := mkMsg { nm_mem : list Z; nm_cmd : Z; nm_attrdata : Z; nm_attrlen : Z }.

(** * Events *)

Definition NL80211_ATTR_MAX_INTERNAL : Z := 256.

Section Bindings.
Context `{NL : Libnl} `{N80211 : Nl80211}.

(** cpp_bindings.h:6-89 [WifiEvent]. The message and its attributes, by type. *)
Record WifiEvent := mkEvent { mMsg : list Z; ev_cmd : Z; mAttributes : Z -> option Z }.

(** cpp_bindings.cpp:528-538 [WifiEvent::parse] on a new event: its result, and the event. *)
Definition WifiEvent_parse (msg : nl_msg) : Z * WifiEvent :=
  let (result, tb) := nla_parse (nm_mem msg) (nm_attrdata msg) (nm_attrlen msg) NL80211_ATTR_MAX_INTERNAL in
  (result, mkEvent (nm_mem msg) (nm_cmd msg) tb).

(** cpp_bindings.h:33-35 [get_cmd]. *)
Definition get_cmd (e : WifiEvent) : Z := ev_cmd e.

(** cpp_bindings.h:59-61 [get_attribute]. *)
Definition get_attribute (e : WifiEvent) (attribute : Z) : option Z := mAttributes e attribute.

Definition get_uint (n : nat) (e : WifiEvent) (attribute : Z) : option Z :=
  match mAttributes e attribute with Some p => nla_get n (mMsg e) p | None => Some 0 end.

(** cpp_bindings.h:63-65 [get_u8]. *)
Definition get_u8 : WifiEvent -> Z -> option Z := get_uint 1.
(** cpp_bindings.h:67-69 [get_u16]. *)
Definition get_u16 : WifiEvent -> Z -> option Z := get_uint 2.
(** cpp_bindings.h:71-73 [get_u32]. *)
Definition get_u32 : WifiEvent -> Z -> option Z := get_uint 4.

(** cpp_bindings.h:75-77 [get_u64]. *)
Definition get_u64 (e : WifiEvent) (attribute : Z) : option Z :=
  match mAttributes e attribute with Some p => nla_get_u64 (mMsg e) p | None => Some 0 end.

(** cpp_bindings.h:79-81 [get_len]. *)
Definition get_len (e : WifiEvent) (attribute : Z) : option Z :=
  match mAttributes e attribute with
  | Some p => if readable (mMsg e) p NLA_HDRLEN then Some (nla_len (mMsg e) p) else None
  | None => Some 0
  end.

(** cpp_bindings.h:83-85 [get_data]. [None] inside is the null pointer. *)
Definition get_data (e : WifiEvent) (attribute : Z) : option Z :=
  match mAttributes e attribute with Some p => Some (nla_data p) | None => None end.

(** cpp_bindings.h:37-39 [get_vendor_id]. *)
Definition get_vendor_id (e : WifiEvent) : option Z := i32 <$> get_u32 e NL80211_ATTR_VENDOR_ID.
(** cpp_bindings.h:41-43 [get_vendor_subcmd]. *)
Definition get_vendor_subcmd (e : WifiEvent) : option Z := i32 <$> get_u32 e NL80211_ATTR_VENDOR_SUBCMD.
(** cpp_bindings.h:45-47 [get_vendor_data]. *)
Definition get_vendor_data (e : WifiEvent) : option Z := get_data e NL80211_ATTR_VENDOR_DATA.
(** cpp_bindings.h:49-51 [get_vendor_data_len]. *)
Definition get_vendor_data_len (e : WifiEvent) : option Z := get_len e NL80211_ATTR_VENDOR_DATA.

(** Fields of the [struct nlattr] at a pointer. *)
Definition ptr_nla_type (m : list Z) (p : Z) : option Z :=
  if readable m p NLA_HDRLEN then Some (nlattr_type m p) else None.
Definition ptr_nla_len (m : list Z) (p : Z) : option Z :=
  if readable m p NLA_HDRLEN then Some (nlattr_len m p) else None.

(** * The iterator *)

(** cpp_bindings.h:91-131 [nl_iterator]. *)
Record nl_iterator := mkIter { it_pos : Z; it_rem : Z }.

(** cpp_bindings.h:95-98 [nl_iterator::nl_iterator, constructor]. *)
Definition nl_iterator_of (m : list Z) (attr : Z) : option nl_iterator :=
  if readable m attr NLA_HDRLEN then Some (mkIter (nla_data attr) (nla_len m attr)) else None.

(** cpp_bindings.h:99-101 [has_next]. The header is looked at when enough bytes remain for it. *)
Definition has_next (m : list Z) (it : nl_iterator) : option bool :=
  if (NLA_HDRLEN <=? it_rem it) && negb (readable m (it_pos it) NLA_HDRLEN) then None
  else Some (nla_ok m (it_pos it) (it_rem it)).

(** cpp_bindings.h:102-104 [next]. *)
Definition it_next (m : list Z) (it : nl_iterator) : nl_iterator :=
  let (pos, rem) := nla_next m (it_pos it) (it_rem it) in mkIter pos rem.

(** The loops over the attributes nested in [attr]: [body] is given each one, and says whether
    to [break]. *)
Fixpoint nl_loop {S} (fuel : nat) (m : list Z) (it : nl_iterator) (body : Z -> ST S bool) : ST S unit :=
  match fuel with
  | O => blockM
  | Datatypes.S fuel' =>
      let* b := of_option (has_next m it) in
      if b then
        let* stop := body (it_pos it) in
        if stop then retM tt else nl_loop fuel' m (it_next m it) body
      else retM tt
  end.

Definition nl_for {S} (m : list Z) (attr : Z) (body : Z -> ST S bool) : ST S unit :=
  let* it := of_option (nl_iterator_of m attr) in
  nl_loop (Datatypes.S (length m)) m it body.

(** * Requests *)

(** cpp_bindings.h:133-163 [WifiRequest]. [nl_alloc] is what the next allocations of a message return. *)
Record WifiRequest := mkRequest { mFamily : Z; mIface : Z; rq_msg : option (list nlop); nl_alloc : list bool }.
#[export] Instance eta_WifiRequest : Eta WifiRequest := fun r =>
  mkRequest (mFamily r) (mIface r) (rq_msg r) (nl_alloc r).

(** cpp_bindings.h:157-162 [destroy]. *)
Definition destroy : ST WifiRequest unit := modM (fun r => r <| rq_msg := None |>).

(** cpp_bindings.cpp:540-552 [WifiRequest::create]. [error] is WIFI_ERROR_OUT_OF_MEMORY. *)
Definition WifiRequest_create (error family cmd flags hdrlen : Z) : ST WifiRequest Z :=
  destroy;;
  let* r := getM in
  modM (fun r => r <| nl_alloc := tail (nl_alloc r) |>);;
  if hd true (nl_alloc r) then
    modM (fun r => r <| rq_msg := Some [OpHeader family cmd flags hdrlen] |>);;
    retM 0
  else retM error.

(** cpp_bindings.h:176-178 [put]. *)
Definition put (attribute : Z) (bs : list Z) : ST WifiRequest Z :=
  let* r := getM in
  match rq_msg r with
  | None => undefM
  | Some l =>
      let ret := nla_put l attribute (zlen bs) in
      (if ret =? 0 then modM (fun r => r <| rq_msg := Some (l ++ [OpPut attribute bs]) |>) else retM tt);;
      retM ret
  end.

(** cpp_bindings.h:179-181 [put_u8]. *)
Definition put_u8 (attribute value : Z) : ST WifiRequest Z := put attribute (le_bytes 1 value).
(** cpp_bindings.h:182-184 [put_u16]. *)
Definition put_u16 (attribute value : Z) : ST WifiRequest Z := put attribute (le_bytes 2 value).
(** cpp_bindings.h:185-187 [put_u32]. *)
Definition put_u32 (attribute value : Z) : ST WifiRequest Z := put attribute (le_bytes 4 value).
(** cpp_bindings.h:188-190 [put_u64]. *)
Definition put_u64 (attribute value : Z) : ST WifiRequest Z := put attribute (le_bytes 8 value).
(** cpp_bindings.h:191-193 [put_string] of a string without its terminator. *)
Definition put_string (attribute : Z) (value : list Z) : ST WifiRequest Z := put attribute (value ++ [0]).
(** cpp_bindings.h:194-196 [put_addr]. *)
Definition put_addr (attribute : Z) (value : list Z) : ST WifiRequest Z :=
  let* bs := of_option (mem_read value 0 6) in put attribute bs.

(** cpp_bindings.h:198-200 [attr_start]. [None] is the null pointer. *)
Definition attr_start (attribute : Z) : ST WifiRequest (option nat) :=
  let* r := getM in
  match rq_msg r with
  | None => undefM
  | Some l =>
      if nla_nest_start l attribute then
        modM (fun r => r <| rq_msg := Some (l ++ [OpNest attribute]) |>);;
        retM (Some (length l))
      else retM None
  end.

(** cpp_bindings.h:201-203 [attr_end]. *)
Definition attr_end (attr : option nat) : ST WifiRequest unit :=
  let* r := getM in
  match attr, rq_msg r with
  | Some i, Some l => modM (fun r => r <| rq_msg := Some (l ++ [OpEnd i]) |>)
  | _, _ => undefM
  end.

(** cpp_bindings.h:205-207 [set_iface_id]. *)
Definition set_iface_id (ifindex : Z) : ST WifiRequest Z := put_u32 NL80211_ATTR_IFINDEX ifindex.

End Bindings.

(** [return] of a negative result; [r] is the result otherwise. *)
Notation "'try' r := m 'in' k" := (bindM m (fun r => if r <? 0 then retM r else k))
  (at level 10, r binder, m at level 99, k at level 200) : st_scope.
Notation "m ?; k" := (bindM m (fun r => if r <? 0 then retM r else k))
  (at level 100, k at level 200, right associativity) : st_scope.

Section Create.
Context `{NL : Libnl} `{N80211 : Nl80211}.

(** cpp_bindings.cpp:554-577 [WifiRequest::create, vendor command]. *)
Definition create_vendor (error id subcmd : Z) : ST WifiRequest Z :=
  let* r := getM in
  WifiRequest_create error (mFamily r) NL80211_CMD_VENDOR 0 0 ?;
  put_u32 NL80211_ATTR_VENDOR_ID id ?;
  try res := put_u32 NL80211_ATTR_VENDOR_SUBCMD subcmd in
  if negb (mIface r =? -1) then set_iface_id (mIface r) else retM res.

End Create.

(** * What a request says

    The attributes the calls describe: a put is an attribute with its payload, and what is put
    between the start of an attribute and its end is nested in it. *)

Inductive attr :=
  | Leaf (type : Z) (payload : list Z)
  | Nested (type : Z) (attrs : list attr).

Fixpoint read_ops (i : nat) (l : list nlop) (open : list (nat * Z * list attr)) (cur : list attr) : option (list attr) :=
  match l with
  | [] => match open with [] => Some (rev cur) | _ => None end
  | OpHeader _ _ _ _ :: l' => if bool_decide (i = 0%nat) then read_ops 1 l' open cur else None
  | OpPut t bs :: l' => read_ops (S i) l' open (Leaf t bs :: cur)
  | OpNest t :: l' => read_ops (S i) l' ((i, t, cur) :: open) []
  | OpEnd j :: l' =>
      match open with
      | (k, t, up) :: open' => if bool_decide (k = j) then read_ops (S i) l' open' (Nested t (rev cur) :: up) else None
      | [] => None
      end
  end.

Definition request_attrs (l : list nlop) : option (list attr) := read_ops 0 l [] [].
