(* ===== verification/WifiTypes.v ===== *)
(** Data of the Wi-Fi HAL (src/hal/wifi_hal): the numbers of its commands, attributes and events
    (common.h, gscan.cpp, rtt.cpp, wifi_offload.cpp), the structures it shares with the driver,
    and the state behind a [wifi_handle] (common.h). What the header of the framework declares
    (wifi_hal.h of libhardware_legacy) is given by the class [WifiHalH]. *)

From stdpp Require Import base list gmap numbers.
From Stdlib Require Import ZArith Lia.
From S2P Require Import Prelude WifiNl.

Local Open Scope Z_scope.
Local Open Scope st_scope.
Local Open Scope rec_scope.

(** * Numbers *)

Definition GOOGLE_OUI : Z := 6673.
Definition DEFAULT_EVENT_CB_SIZE : Z := 64.
Definition DEFAULT_CMD_SIZE : Z := 64.
Definition DOT11_MAX_SSID_LEN : Z := 32.
Definition MAX_PROBE_RESP_IE_LEN : Z := 2048.
Definition PNO_SSID_FOUND : Z := 1.

(** common.h:41-70 [ANDROID_VENDOR_SUB_COMMAND]. *)
Inductive ANDROID_VENDOR_SUB_COMMAND :=
  | ANDROID_NL80211_SUBCMD_UNSPECIFIED | ANDROID_NL80211_SUBCMD_WIFI_RANGE_START
  | ANDROID_NL80211_SUBCMD_WIFI_RANGE_END | ANDROID_NL80211_SUBCMD_GSCAN_RANGE_START
  | ANDROID_NL80211_SUBCMD_GSCAN_RANGE_END | ANDROID_NL80211_SUBCMD_RTT_RANGE_START
  | ANDROID_NL80211_SUBCMD_RTT_RANGE_END | ANDROID_NL80211_SUBCMD_LSTATS_RANGE_START
  | ANDROID_NL80211_SUBCMD_LSTATS_RANGE_END | ANDROID_NL80211_SUBCMD_DEBUG_RANGE_START
  | ANDROID_NL80211_SUBCMD_DEBUG_RANGE_END | ANDROID_NL80211_SUBCMD_WIFI_OFFLOAD_RANGE_START
  | ANDROID_NL80211_SUBCMD_WIFI_OFFLOAD_RANGE_END.

Definition android_vendor_sub_command (x : ANDROID_VENDOR_SUB_COMMAND) : Z :=
  match x with
  | ANDROID_NL80211_SUBCMD_UNSPECIFIED => 0 | ANDROID_NL80211_SUBCMD_WIFI_RANGE_START => 1
  | ANDROID_NL80211_SUBCMD_WIFI_RANGE_END => 4095 | ANDROID_NL80211_SUBCMD_GSCAN_RANGE_START => 4096
  | ANDROID_NL80211_SUBCMD_GSCAN_RANGE_END => 4351 | ANDROID_NL80211_SUBCMD_RTT_RANGE_START => 4352
  | ANDROID_NL80211_SUBCMD_RTT_RANGE_END => 4607 | ANDROID_NL80211_SUBCMD_LSTATS_RANGE_START => 4608
  | ANDROID_NL80211_SUBCMD_LSTATS_RANGE_END => 4863 | ANDROID_NL80211_SUBCMD_DEBUG_RANGE_START => 5120
  | ANDROID_NL80211_SUBCMD_DEBUG_RANGE_END => 5375
  | ANDROID_NL80211_SUBCMD_WIFI_OFFLOAD_RANGE_START => 5632
  | ANDROID_NL80211_SUBCMD_WIFI_OFFLOAD_RANGE_END => 5887
  end.
Coercion android_vendor_sub_command : ANDROID_VENDOR_SUB_COMMAND >-> Z.

(** common.h:72-83 [WIFI_SUB_COMMAND]. *)
Inductive WIFI_SUB_COMMAND :=
  | WIFI_SUBCMD_GET_CHANNEL_LIST | WIFI_SUBCMD_GET_FEATURE_SET | WIFI_SUBCMD_GET_FEATURE_SET_MATRIX
  | WIFI_SUBCMD_SET_PNO_RANDOM_MAC_OUI | WIFI_SUBCMD_NODFS_SET | WIFI_SUBCMD_SET_COUNTRY_CODE
  | WIFI_SUBCMD_SET_RSSI_MONITOR.

Definition wifi_sub_command (x : WIFI_SUB_COMMAND) : Z :=
  match x with
  | WIFI_SUBCMD_GET_CHANNEL_LIST => 1 | WIFI_SUBCMD_GET_FEATURE_SET => 2
  | WIFI_SUBCMD_GET_FEATURE_SET_MATRIX => 3 | WIFI_SUBCMD_SET_PNO_RANDOM_MAC_OUI => 4
  | WIFI_SUBCMD_NODFS_SET => 5 | WIFI_SUBCMD_SET_COUNTRY_CODE => 6 | WIFI_SUBCMD_SET_RSSI_MONITOR => 7
  end.
Coercion wifi_sub_command : WIFI_SUB_COMMAND >-> Z.

(** common.h:85-110 [GSCAN_SUB_COMMAND]. *)
Inductive GSCAN_SUB_COMMAND :=
  | GSCAN_SUBCMD_GET_CAPABILITIES | GSCAN_SUBCMD_SET_CONFIG | GSCAN_SUBCMD_SET_SCAN_CONFIG
  | GSCAN_SUBCMD_ENABLE_GSCAN | GSCAN_SUBCMD_GET_SCAN_RESULTS | GSCAN_SUBCMD_SCAN_RESULTS
  | GSCAN_SUBCMD_SET_HOTLIST | GSCAN_SUBCMD_SET_SIGNIFICANT_CHANGE_CONFIG
  | GSCAN_SUBCMD_ENABLE_FULL_SCAN_RESULTS | GSCAN_SUBCMD_SET_EPNO_SSID | GSCAN_SUBCMD_SET_SSID_WHITE_LIST
  | GSCAN_SUBCMD_SET_ROAM_PARAMS | GSCAN_SUBCMD_ENABLE_LAZY_ROAM | GSCAN_SUBCMD_SET_BSSID_PREF
  | GSCAN_SUBCMD_SET_BSSID_BLACKLIST | GSCAN_SUBCMD_ANQPO_CONFIG.

Definition gscan_sub_command (x : GSCAN_SUB_COMMAND) : Z :=
  match x with
  | GSCAN_SUBCMD_GET_CAPABILITIES => 4096 | GSCAN_SUBCMD_SET_CONFIG => 4097
  | GSCAN_SUBCMD_SET_SCAN_CONFIG => 4098 | GSCAN_SUBCMD_ENABLE_GSCAN => 4099
  | GSCAN_SUBCMD_GET_SCAN_RESULTS => 4100 | GSCAN_SUBCMD_SCAN_RESULTS => 4101
  | GSCAN_SUBCMD_SET_HOTLIST => 4102 | GSCAN_SUBCMD_SET_SIGNIFICANT_CHANGE_CONFIG => 4103
  | GSCAN_SUBCMD_ENABLE_FULL_SCAN_RESULTS => 4104 | GSCAN_SUBCMD_SET_EPNO_SSID => 4111
  | GSCAN_SUBCMD_SET_SSID_WHITE_LIST => 4112 | GSCAN_SUBCMD_SET_ROAM_PARAMS => 4113
  | GSCAN_SUBCMD_ENABLE_LAZY_ROAM => 4114 | GSCAN_SUBCMD_SET_BSSID_PREF => 4115
  | GSCAN_SUBCMD_SET_BSSID_BLACKLIST => 4116 | GSCAN_SUBCMD_ANQPO_CONFIG => 4117
  end.
Coercion gscan_sub_command : GSCAN_SUB_COMMAND >-> Z.

(** common.h:112-126 [WIFI_ATTRIBUTE]. *)
Inductive WIFI_ATTRIBUTE :=
  | WIFI_ATTRIBUTE_BAND | WIFI_ATTRIBUTE_NUM_CHANNELS | WIFI_ATTRIBUTE_CHANNEL_LIST
  | WIFI_ATTRIBUTE_NUM_FEATURE_SET | WIFI_ATTRIBUTE_FEATURE_SET | WIFI_ATTRIBUTE_PNO_RANDOM_MAC_OUI
  | WIFI_ATTRIBUTE_NODFS_VALUE | WIFI_ATTRIBUTE_COUNTRY_CODE | WIFI_ATTRIBUTE_MAX_RSSI
  | WIFI_ATTRIBUTE_MIN_RSSI | WIFI_ATTRIBUTE_RSSI_MONITOR_START.

Definition wifi_attribute (x : WIFI_ATTRIBUTE) : Z :=
  match x with
  | WIFI_ATTRIBUTE_BAND => 1 | WIFI_ATTRIBUTE_NUM_CHANNELS => 2 | WIFI_ATTRIBUTE_CHANNEL_LIST => 3
  | WIFI_ATTRIBUTE_NUM_FEATURE_SET => 4 | WIFI_ATTRIBUTE_FEATURE_SET => 5
  | WIFI_ATTRIBUTE_PNO_RANDOM_MAC_OUI => 6 | WIFI_ATTRIBUTE_NODFS_VALUE => 7
  | WIFI_ATTRIBUTE_COUNTRY_CODE => 8 | WIFI_ATTRIBUTE_MAX_RSSI => 9 | WIFI_ATTRIBUTE_MIN_RSSI => 10
  | WIFI_ATTRIBUTE_RSSI_MONITOR_START => 11
  end.
Coercion wifi_attribute : WIFI_ATTRIBUTE >-> Z.

(** common.h:128-139 [WIFI_VENDOR_EVENT]. *)
Inductive WIFI_VENDOR_EVENT :=
  | GSCAN_EVENT_SIGNIFICANT_CHANGE_RESULTS | GSCAN_EVENT_HOTLIST_RESULTS_FOUND
  | GSCAN_EVENT_SCAN_RESULTS_AVAILABLE | GSCAN_EVENT_FULL_SCAN_RESULTS | RTT_EVENT_COMPLETE
  | GSCAN_EVENT_COMPLETE_SCAN | GSCAN_EVENT_HOTLIST_RESULTS_LOST | WIFI_EVENT_RSSI_MONITOR
  | GSCAN_EVENT_EPNO_EVENT | GSCAN_EVENT_ANQPO_HOTSPOT_MATCH.

Definition wifi_vendor_event (x : WIFI_VENDOR_EVENT) : Z :=
  match x with
  | GSCAN_EVENT_SIGNIFICANT_CHANGE_RESULTS => 0 | GSCAN_EVENT_HOTLIST_RESULTS_FOUND => 1
  | GSCAN_EVENT_SCAN_RESULTS_AVAILABLE => 2 | GSCAN_EVENT_FULL_SCAN_RESULTS => 3 | RTT_EVENT_COMPLETE => 4
  | GSCAN_EVENT_COMPLETE_SCAN => 5 | GSCAN_EVENT_HOTLIST_RESULTS_LOST => 6 | WIFI_EVENT_RSSI_MONITOR => 7
  | GSCAN_EVENT_EPNO_EVENT => 8 | GSCAN_EVENT_ANQPO_HOTSPOT_MATCH => 9
  end.
Coercion wifi_vendor_event : WIFI_VENDOR_EVENT >-> Z.

(** gscan.cpp:29-134 [GSCAN_ATTRIBUTE]. *)
Inductive GSCAN_ATTRIBUTE :=
  | GSCAN_ATTRIBUTE_CAPABILITIES | GSCAN_ATTRIBUTE_NUM_BUCKETS | GSCAN_ATTRIBUTE_BASE_PERIOD
  | GSCAN_ATTRIBUTE_BUCKETS_BAND | GSCAN_ATTRIBUTE_BUCKET_ID | GSCAN_ATTRIBUTE_BUCKET_PERIOD
  | GSCAN_ATTRIBUTE_BUCKET_NUM_CHANNELS | GSCAN_ATTRIBUTE_BUCKET_CHANNELS | GSCAN_ATTRIBUTE_NUM_AP_PER_SCAN
  | GSCAN_ATTRIBUTE_REPORT_THRESHOLD | GSCAN_ATTRIBUTE_NUM_SCANS_TO_CACHE | GSCAN_ATTRIBUTE_ENABLE_FEATURE
  | GSCAN_ATTRIBUTE_SCAN_RESULTS_COMPLETE | GSCAN_ATTRIBUTE_FLUSH_FEATURE | GSCAN_ENABLE_FULL_SCAN_RESULTS
  | GSCAN_ATTRIBUTE_REPORT_EVENTS | GSCAN_ATTRIBUTE_BUCKET_STEP_COUNT | GSCAN_ATTRIBUTE_BUCKET_MAX_PERIOD
  | GSCAN_ATTRIBUTE_NUM_OF_RESULTS | GSCAN_ATTRIBUTE_FLUSH_RESULTS | GSCAN_ATTRIBUTE_SCAN_RESULTS
  | GSCAN_ATTRIBUTE_SCAN_ID | GSCAN_ATTRIBUTE_SCAN_FLAGS | GSCAN_ATTRIBUTE_AP_FLAGS
  | GSCAN_ATTRIBUTE_CH_BUCKET_BITMASK | GSCAN_ATTRIBUTE_SSID | GSCAN_ATTRIBUTE_BSSID
  | GSCAN_ATTRIBUTE_CHANNEL | GSCAN_ATTRIBUTE_RSSI | GSCAN_ATTRIBUTE_TIMESTAMP | GSCAN_ATTRIBUTE_RTT
  | GSCAN_ATTRIBUTE_RTTSD | GSCAN_ATTRIBUTE_HOTLIST_BSSIDS | GSCAN_ATTRIBUTE_RSSI_LOW
  | GSCAN_ATTRIBUTE_RSSI_HIGH | GSCAN_ATTRIBUTE_HOTLIST_ELEM | GSCAN_ATTRIBUTE_HOTLIST_FLUSH
  | GSCAN_ATTRIBUTE_RSSI_SAMPLE_SIZE | GSCAN_ATTRIBUTE_LOST_AP_SAMPLE_SIZE | GSCAN_ATTRIBUTE_MIN_BREACHING
  | GSCAN_ATTRIBUTE_NUM_AP | GSCAN_ATTRIBUTE_SIGNIFICANT_CHANGE_BSSIDS
  | GSCAN_ATTRIBUTE_SIGNIFICANT_CHANGE_FLUSH | GSCAN_ATTRIBUTE_EPNO_SSID_LIST | GSCAN_ATTRIBUTE_EPNO_SSID
  | GSCAN_ATTRIBUTE_EPNO_SSID_LEN | GSCAN_ATTRIBUTE_EPNO_RSSI | GSCAN_ATTRIBUTE_EPNO_FLAGS
  | GSCAN_ATTRIBUTE_EPNO_AUTH | GSCAN_ATTRIBUTE_EPNO_SSID_NUM | GSCAN_ATTRIBUTE_EPNO_FLUSH
  | GSCAN_ATTRIBUTE_WHITELIST_SSID | GSCAN_ATTRIBUTE_NUM_WL_SSID | GSCAN_ATTRIBUTE_WL_SSID_LEN
  | GSCAN_ATTRIBUTE_WL_SSID_FLUSH | GSCAN_ATTRIBUTE_WHITELIST_SSID_ELEM | GSCAN_ATTRIBUTE_NUM_BSSID
  | GSCAN_ATTRIBUTE_BSSID_PREF_LIST | GSCAN_ATTRIBUTE_BSSID_PREF_FLUSH | GSCAN_ATTRIBUTE_BSSID_PREF
  | GSCAN_ATTRIBUTE_RSSI_MODIFIER | GSCAN_ATTRIBUTE_A_BAND_BOOST_THRESHOLD
  | GSCAN_ATTRIBUTE_A_BAND_PENALTY_THRESHOLD | GSCAN_ATTRIBUTE_A_BAND_BOOST_FACTOR
  | GSCAN_ATTRIBUTE_A_BAND_PENALTY_FACTOR | GSCAN_ATTRIBUTE_A_BAND_MAX_BOOST
  | GSCAN_ATTRIBUTE_LAZY_ROAM_HYSTERESIS | GSCAN_ATTRIBUTE_ALERT_ROAM_RSSI_TRIGGER
  | GSCAN_ATTRIBUTE_LAZY_ROAM_ENABLE | GSCAN_ATTRIBUTE_BSSID_BLACKLIST_FLUSH
  | GSCAN_ATTRIBUTE_BLACKLIST_BSSID | GSCAN_ATTRIBUTE_ANQPO_HS_LIST | GSCAN_ATTRIBUTE_ANQPO_HS_LIST_SIZE
  | GSCAN_ATTRIBUTE_ANQPO_HS_NETWORK_ID | GSCAN_ATTRIBUTE_ANQPO_HS_NAI_REALM
  | GSCAN_ATTRIBUTE_ANQPO_HS_ROAM_CONSORTIUM_ID | GSCAN_ATTRIBUTE_ANQPO_HS_PLMN
  | GSCAN_ATTRIBUTE_EPNO_5G_RSSI_THR | GSCAN_ATTRIBUTE_EPNO_2G_RSSI_THR
  | GSCAN_ATTRIBUTE_EPNO_INIT_SCORE_MAX | GSCAN_ATTRIBUTE_EPNO_CUR_CONN_BONUS
  | GSCAN_ATTRIBUTE_EPNO_SAME_NETWORK_BONUS | GSCAN_ATTRIBUTE_EPNO_SECURE_BONUS
  | GSCAN_ATTRIBUTE_EPNO_5G_BONUS | GSCAN_ATTRIBUTE_MAX.

Definition gscan_attribute (x : GSCAN_ATTRIBUTE) : Z :=
  match x with
  | GSCAN_ATTRIBUTE_CAPABILITIES => 1 | GSCAN_ATTRIBUTE_NUM_BUCKETS => 10
  | GSCAN_ATTRIBUTE_BASE_PERIOD => 11 | GSCAN_ATTRIBUTE_BUCKETS_BAND => 12
  | GSCAN_ATTRIBUTE_BUCKET_ID => 13 | GSCAN_ATTRIBUTE_BUCKET_PERIOD => 14
  | GSCAN_ATTRIBUTE_BUCKET_NUM_CHANNELS => 15 | GSCAN_ATTRIBUTE_BUCKET_CHANNELS => 16
  | GSCAN_ATTRIBUTE_NUM_AP_PER_SCAN => 17 | GSCAN_ATTRIBUTE_REPORT_THRESHOLD => 18
  | GSCAN_ATTRIBUTE_NUM_SCANS_TO_CACHE => 19 | GSCAN_ATTRIBUTE_ENABLE_FEATURE => 20
  | GSCAN_ATTRIBUTE_SCAN_RESULTS_COMPLETE => 21 | GSCAN_ATTRIBUTE_FLUSH_FEATURE => 22
  | GSCAN_ENABLE_FULL_SCAN_RESULTS => 23 | GSCAN_ATTRIBUTE_REPORT_EVENTS => 24
  | GSCAN_ATTRIBUTE_BUCKET_STEP_COUNT => 25 | GSCAN_ATTRIBUTE_BUCKET_MAX_PERIOD => 26
  | GSCAN_ATTRIBUTE_NUM_OF_RESULTS => 30 | GSCAN_ATTRIBUTE_FLUSH_RESULTS => 31
  | GSCAN_ATTRIBUTE_SCAN_RESULTS => 32 | GSCAN_ATTRIBUTE_SCAN_ID => 33 | GSCAN_ATTRIBUTE_SCAN_FLAGS => 34
  | GSCAN_ATTRIBUTE_AP_FLAGS => 35 | GSCAN_ATTRIBUTE_CH_BUCKET_BITMASK => 36 | GSCAN_ATTRIBUTE_SSID => 40
  | GSCAN_ATTRIBUTE_BSSID => 41 | GSCAN_ATTRIBUTE_CHANNEL => 42 | GSCAN_ATTRIBUTE_RSSI => 43
  | GSCAN_ATTRIBUTE_TIMESTAMP => 44 | GSCAN_ATTRIBUTE_RTT => 45 | GSCAN_ATTRIBUTE_RTTSD => 46
  | GSCAN_ATTRIBUTE_HOTLIST_BSSIDS => 50 | GSCAN_ATTRIBUTE_RSSI_LOW => 51 | GSCAN_ATTRIBUTE_RSSI_HIGH => 52
  | GSCAN_ATTRIBUTE_HOTLIST_ELEM => 53 | GSCAN_ATTRIBUTE_HOTLIST_FLUSH => 54
  | GSCAN_ATTRIBUTE_RSSI_SAMPLE_SIZE => 60 | GSCAN_ATTRIBUTE_LOST_AP_SAMPLE_SIZE => 61
  | GSCAN_ATTRIBUTE_MIN_BREACHING => 62 | GSCAN_ATTRIBUTE_NUM_AP => 63
  | GSCAN_ATTRIBUTE_SIGNIFICANT_CHANGE_BSSIDS => 64 | GSCAN_ATTRIBUTE_SIGNIFICANT_CHANGE_FLUSH => 65
  | GSCAN_ATTRIBUTE_EPNO_SSID_LIST => 70 | GSCAN_ATTRIBUTE_EPNO_SSID => 71
  | GSCAN_ATTRIBUTE_EPNO_SSID_LEN => 72 | GSCAN_ATTRIBUTE_EPNO_RSSI => 73
  | GSCAN_ATTRIBUTE_EPNO_FLAGS => 74 | GSCAN_ATTRIBUTE_EPNO_AUTH => 75
  | GSCAN_ATTRIBUTE_EPNO_SSID_NUM => 76 | GSCAN_ATTRIBUTE_EPNO_FLUSH => 77
  | GSCAN_ATTRIBUTE_WHITELIST_SSID => 80 | GSCAN_ATTRIBUTE_NUM_WL_SSID => 81
  | GSCAN_ATTRIBUTE_WL_SSID_LEN => 82 | GSCAN_ATTRIBUTE_WL_SSID_FLUSH => 83
  | GSCAN_ATTRIBUTE_WHITELIST_SSID_ELEM => 84 | GSCAN_ATTRIBUTE_NUM_BSSID => 85
  | GSCAN_ATTRIBUTE_BSSID_PREF_LIST => 86 | GSCAN_ATTRIBUTE_BSSID_PREF_FLUSH => 87
  | GSCAN_ATTRIBUTE_BSSID_PREF => 88 | GSCAN_ATTRIBUTE_RSSI_MODIFIER => 89
  | GSCAN_ATTRIBUTE_A_BAND_BOOST_THRESHOLD => 90 | GSCAN_ATTRIBUTE_A_BAND_PENALTY_THRESHOLD => 91
  | GSCAN_ATTRIBUTE_A_BAND_BOOST_FACTOR => 92 | GSCAN_ATTRIBUTE_A_BAND_PENALTY_FACTOR => 93
  | GSCAN_ATTRIBUTE_A_BAND_MAX_BOOST => 94 | GSCAN_ATTRIBUTE_LAZY_ROAM_HYSTERESIS => 95
  | GSCAN_ATTRIBUTE_ALERT_ROAM_RSSI_TRIGGER => 96 | GSCAN_ATTRIBUTE_LAZY_ROAM_ENABLE => 97
  | GSCAN_ATTRIBUTE_BSSID_BLACKLIST_FLUSH => 100 | GSCAN_ATTRIBUTE_BLACKLIST_BSSID => 101
  | GSCAN_ATTRIBUTE_ANQPO_HS_LIST => 110 | GSCAN_ATTRIBUTE_ANQPO_HS_LIST_SIZE => 111
  | GSCAN_ATTRIBUTE_ANQPO_HS_NETWORK_ID => 112 | GSCAN_ATTRIBUTE_ANQPO_HS_NAI_REALM => 113
  | GSCAN_ATTRIBUTE_ANQPO_HS_ROAM_CONSORTIUM_ID => 114 | GSCAN_ATTRIBUTE_ANQPO_HS_PLMN => 115
  | GSCAN_ATTRIBUTE_EPNO_5G_RSSI_THR => 130 | GSCAN_ATTRIBUTE_EPNO_2G_RSSI_THR => 131
  | GSCAN_ATTRIBUTE_EPNO_INIT_SCORE_MAX => 132 | GSCAN_ATTRIBUTE_EPNO_CUR_CONN_BONUS => 133
  | GSCAN_ATTRIBUTE_EPNO_SAME_NETWORK_BONUS => 134 | GSCAN_ATTRIBUTE_EPNO_SECURE_BONUS => 135
  | GSCAN_ATTRIBUTE_EPNO_5G_BONUS => 136 | GSCAN_ATTRIBUTE_MAX => 137
  end.
Coercion gscan_attribute : GSCAN_ATTRIBUTE >-> Z.

(** rtt.cpp:33-40 [RTT_SUB_COMMAND]. *)
Inductive RTT_SUB_COMMAND :=
  | RTT_SUBCMD_SET_CONFIG | RTT_SUBCMD_CANCEL_CONFIG | RTT_SUBCMD_GETCAPABILITY
  | RTT_SUBCMD_GETAVAILCHANNEL | RTT_SUBCMD_SET_RESPONDER | RTT_SUBCMD_CANCEL_RESPONDER.

Definition rtt_sub_command (x : RTT_SUB_COMMAND) : Z :=
  match x with
  | RTT_SUBCMD_SET_CONFIG => 4352 | RTT_SUBCMD_CANCEL_CONFIG => 4353 | RTT_SUBCMD_GETCAPABILITY => 4354
  | RTT_SUBCMD_GETAVAILCHANNEL => 4355 | RTT_SUBCMD_SET_RESPONDER => 4356
  | RTT_SUBCMD_CANCEL_RESPONDER => 4357
  end.
Coercion rtt_sub_command : RTT_SUB_COMMAND >-> Z.

(** rtt.cpp:42-65 [RTT_ATTRIBUTE]. *)
Inductive RTT_ATTRIBUTE :=
  | RTT_ATTRIBUTE_CAPABILITIES | RTT_ATTRIBUTE_TARGET_CNT | RTT_ATTRIBUTE_TARGET_INFO
  | RTT_ATTRIBUTE_TARGET_MAC | RTT_ATTRIBUTE_TARGET_TYPE | RTT_ATTRIBUTE_TARGET_PEER
  | RTT_ATTRIBUTE_TARGET_CHAN | RTT_ATTRIBUTE_TARGET_PERIOD | RTT_ATTRIBUTE_TARGET_NUM_BURST
  | RTT_ATTRIBUTE_TARGET_NUM_FTM_BURST | RTT_ATTRIBUTE_TARGET_NUM_RETRY_FTM
  | RTT_ATTRIBUTE_TARGET_NUM_RETRY_FTMR | RTT_ATTRIBUTE_TARGET_LCI | RTT_ATTRIBUTE_TARGET_LCR
  | RTT_ATTRIBUTE_TARGET_BURST_DURATION | RTT_ATTRIBUTE_TARGET_PREAMBLE | RTT_ATTRIBUTE_TARGET_BW
  | RTT_ATTRIBUTE_RESULTS_COMPLETE | RTT_ATTRIBUTE_RESULTS_PER_TARGET | RTT_ATTRIBUTE_RESULT_CNT
  | RTT_ATTRIBUTE_RESULT.

Definition rtt_attribute (x : RTT_ATTRIBUTE) : Z :=
  match x with
  | RTT_ATTRIBUTE_CAPABILITIES => 1 | RTT_ATTRIBUTE_TARGET_CNT => 10 | RTT_ATTRIBUTE_TARGET_INFO => 11
  | RTT_ATTRIBUTE_TARGET_MAC => 12 | RTT_ATTRIBUTE_TARGET_TYPE => 13 | RTT_ATTRIBUTE_TARGET_PEER => 14
  | RTT_ATTRIBUTE_TARGET_CHAN => 15 | RTT_ATTRIBUTE_TARGET_PERIOD => 16
  | RTT_ATTRIBUTE_TARGET_NUM_BURST => 17 | RTT_ATTRIBUTE_TARGET_NUM_FTM_BURST => 18
  | RTT_ATTRIBUTE_TARGET_NUM_RETRY_FTM => 19 | RTT_ATTRIBUTE_TARGET_NUM_RETRY_FTMR => 20
  | RTT_ATTRIBUTE_TARGET_LCI => 21 | RTT_ATTRIBUTE_TARGET_LCR => 22
  | RTT_ATTRIBUTE_TARGET_BURST_DURATION => 23 | RTT_ATTRIBUTE_TARGET_PREAMBLE => 24
  | RTT_ATTRIBUTE_TARGET_BW => 25 | RTT_ATTRIBUTE_RESULTS_COMPLETE => 30
  | RTT_ATTRIBUTE_RESULTS_PER_TARGET => 31 | RTT_ATTRIBUTE_RESULT_CNT => 32 | RTT_ATTRIBUTE_RESULT => 33
  end.
Coercion rtt_attribute : RTT_ATTRIBUTE >-> Z.

(** wifi_offload.cpp:34-37 [WIFI_OFFLOAD_SUB_COMMAND]. *)
Inductive WIFI_OFFLOAD_SUB_COMMAND :=
  | WIFI_OFFLOAD_START_MKEEP_ALIVE | WIFI_OFFLOAD_STOP_MKEEP_ALIVE.

Definition wifi_offload_sub_command (x : WIFI_OFFLOAD_SUB_COMMAND) : Z :=
  match x with
  | WIFI_OFFLOAD_START_MKEEP_ALIVE => 5632 | WIFI_OFFLOAD_STOP_MKEEP_ALIVE => 5633
  end.
Coercion wifi_offload_sub_command : WIFI_OFFLOAD_SUB_COMMAND >-> Z.

(** wifi_offload.cpp:39-46 [WIFI_MKEEP_ALIVE_ATTRIBUTE]. *)
Inductive WIFI_MKEEP_ALIVE_ATTRIBUTE :=
  | MKEEP_ALIVE_ATTRIBUTE_ID | MKEEP_ALIVE_ATTRIBUTE_IP_PKT_LEN | MKEEP_ALIVE_ATTRIBUTE_IP_PKT
  | MKEEP_ALIVE_ATTRIBUTE_SRC_MAC_ADDR | MKEEP_ALIVE_ATTRIBUTE_DST_MAC_ADDR
  | MKEEP_ALIVE_ATTRIBUTE_PERIOD_MSEC.

Definition wifi_mkeep_alive_attribute (x : WIFI_MKEEP_ALIVE_ATTRIBUTE) : Z :=
  match x with
  | MKEEP_ALIVE_ATTRIBUTE_ID => 1 | MKEEP_ALIVE_ATTRIBUTE_IP_PKT_LEN => 2
  | MKEEP_ALIVE_ATTRIBUTE_IP_PKT => 3 | MKEEP_ALIVE_ATTRIBUTE_SRC_MAC_ADDR => 4
  | MKEEP_ALIVE_ATTRIBUTE_DST_MAC_ADDR => 5 | MKEEP_ALIVE_ATTRIBUTE_PERIOD_MSEC => 6
  end.
Coercion wifi_mkeep_alive_attribute : WIFI_MKEEP_ALIVE_ATTRIBUTE >-> Z.

(** wifi_offload.cpp:48-51 [GetCmdType]. *)
Inductive GetCmdType := START_MKEEP_ALIVE | STOP_MKEEP_ALIVE.

(** Errors, limits and sizes of wifi_hal.h. *)
Class WifiHalH := {
  WIFI_ERROR_UNKNOWN : Z;
  WIFI_ERROR_NOT_SUPPORTED : Z;
  WIFI_ERROR_NOT_AVAILABLE : Z;
  WIFI_ERROR_INVALID_ARGS : Z;
  WIFI_ERROR_OUT_OF_MEMORY : Z;
  WIFI_BAND_UNSPECIFIED : Z;
  WIFI_BAND_ABG : Z;
  WIFI_BAND_ABG_WITH_DFS : Z;
  WIFI_FEATURE_INFRA_5G : Z;
  WIFI_FEATURE_P2P : Z;
  WIFI_FEATURE_SOFT_AP : Z;
  WIFI_FEATURE_TDLS : Z;
  WIFI_FEATURE_PNO : Z;
  MAX_AP_CACHE_PER_SCAN : Z;
  MAX_EPNO_NETWORKS : Z;
  N_AVAIL_ID : Z;
  MKEEP_ALIVE_IP_PKT_MAX : Z;
  sizeof_wifi_scan_result : Z;
  sizeof_wifi_gscan_capabilities : Z;
  off_max_scan_cache_size : Z;
  off_max_scan_buckets : Z;
  off_max_ap_cache_per_scan : Z;
  sizeof_wifi_rtt_capabilities : Z;
  sizeof_wifi_rtt_responder : Z;
  sizeof_wifi_rtt_result : Z;
}.

(** The errors are negative, the limits and sizes positive. *)
Class WifiHalHLaws `{WifiHalH} := {
  errors_negative : WIFI_ERROR_UNKNOWN < 0 /\ WIFI_ERROR_NOT_SUPPORTED < 0 /\ WIFI_ERROR_NOT_AVAILABLE < 0 /\
    WIFI_ERROR_INVALID_ARGS < 0 /\ WIFI_ERROR_OUT_OF_MEMORY < 0;
  limits_positive : 0 < MAX_AP_CACHE_PER_SCAN /\ 0 < MAX_EPNO_NETWORKS /\ 0 < N_AVAIL_ID;
  sizes_positive : 0 < sizeof_wifi_scan_result /\ 0 < sizeof_wifi_gscan_capabilities /\ 0 < sizeof_wifi_rtt_capabilities /\
    0 < sizeof_wifi_rtt_responder /\ 0 < sizeof_wifi_rtt_result;
}.

Definition WIFI_SUCCESS : Z := 0.

(** * Structures *)

(** A result as the framework gets it. *)
Record wifi_scan_result := mkScanResult {
  sr_ts : Z; sr_ssid : list Z; sr_bssid : list Z; sr_channel : Z; sr_rssi : Z; sr_rtt : Z; sr_rtt_sd : Z;
  sr_beacon_period : Z; sr_capability : Z; sr_ie_length : Z; sr_ie_data : list Z;
}.
#[export] Instance eta_wifi_scan_result : Eta wifi_scan_result := fun r =>
  mkScanResult (sr_ts r) (sr_ssid r) (sr_bssid r) (sr_channel r) (sr_rssi r) (sr_rtt r) (sr_rtt_sd r)
    (sr_beacon_period r) (sr_capability r) (sr_ie_length r) (sr_ie_data r).
#[export] Instance wifi_scan_result_eq_dec : EqDecision wifi_scan_result.
Proof. solve_decision. Defined.

Definition zero_result : wifi_scan_result := mkScanResult 0 (zeros 33) (zeros 6) 0 0 0 0 0 0 0 [].

(** Offsets of the members of the driver's structures, each member being aligned to its size,
    and the sizes of the structures. *)
Record gscan_result_layout := mkLayout {
  off_ts : Z; off_ssid : Z; off_bssid : Z; off_channel : Z; off_rssi : Z; off_rtt : Z; off_rtt_sd : Z;
  off_beacon_period : Z; off_capability : Z; off_ie_length : Z; off_ie_data : Z; sizeof_gscan_result : Z;
}.
Record gscan_full_layout := mkFullLayout {
  off_fixed : Z; off_scan_ch_bucket : Z; off_full_ie_length : Z; off_full_ie_data : Z; sizeof_gscan_full : Z;
}.
Record pno_result_layout := mkPnoLayout {
  off_pno_ssid : Z; off_pno_ssid_len : Z; off_pno_rssi : Z; off_pno_channel : Z; off_pno_flags : Z; off_pno_bssid : Z;
  sizeof_pno : Z;
}.

(** common.h:196-203 [wifi_pno_result]. *)
Definition wifi_pno_result_t : pno_result_layout := mkPnoLayout 0 32 33 34 36 38 44.
(** common.h:205-217 [wifi_gscan_result]. *)
Definition wifi_gscan_result_t : gscan_result_layout := mkLayout 0 8 41 48 52 56 64 72 74 76 80 88.
(** common.h:219-224 [wifi_gscan_full_result]. *)
Definition wifi_gscan_full_result_t : gscan_full_layout := mkFullLayout 0 88 92 96 104.

(** The results of one scan that the framework asks for. *)
Record wifi_cached_scan_results := mkCached {
  cs_scan_id : Z; cs_flags : Z; cs_num_results : Z; cs_buckets_scanned : Z; cs_results : list wifi_scan_result;
}.

Record wifi_scan_bucket_spec := mkBucket {
  bk_bucket : Z; bk_band : Z; bk_period : Z; bk_report_events : Z; bk_max_period : Z; bk_step_count : Z; bk_channels : list Z;
}.
Record wifi_scan_cmd_params := mkScanParams {
  base_period : Z; max_ap_per_scan : Z; report_threshold_percent : Z; report_threshold_num_scans : Z;
  buckets : list wifi_scan_bucket_spec;
}.
Record ap_threshold_param := mkAp { ap_bssid : list Z; ap_low : Z; ap_high : Z }.
Record wifi_bssid_hotlist_params := mkHotlist { hl_lost_ap_sample_size : Z; hl_ap : list ap_threshold_param }.
Record wifi_significant_change_params := mkSigChange {
  sc_rssi_sample_size : Z; sc_lost_ap_sample_size : Z; sc_min_breaching : Z; sc_ap : list ap_threshold_param;
}.
Record wifi_epno_network := mkEpnoNet { en_ssid : list Z; en_flags : Z; en_auth_bit_field : Z }.
Record wifi_epno_params := mkEpno {
  min5GHz_rssi : Z; min24GHz_rssi : Z; initial_score_max : Z; current_connection_bonus : Z; same_network_bonus : Z;
  secure_bonus : Z; band5GHz_bonus : Z; num_networks : Z; networks : list wifi_epno_network;
}.
Record wifi_passpoint_network := mkPasspoint { pp_id : Z; pp_realm : list Z; pp_roamingConsortiumIds : list Z; pp_plmn : list Z }.
Record wifi_rtt_config := mkRtt {
  rc_addr : list Z; rc_type : Z; rc_peer : Z; rc_channel : list Z; rc_burst_period : Z; rc_num_burst : Z;
  rc_num_frames_per_burst : Z; rc_num_retries_per_rtt_frame : Z; rc_num_retries_per_ftmr : Z; rc_LCI_request : Z;
  rc_LCR_request : Z; rc_burst_duration : Z; rc_preamble : Z; rc_bw : Z;
}.

(** One change of the history of an access point, as the framework gets it. *)
Record wifi_significant_change_result := mkChange { ch_bssid : list Z; ch_channel : Z; ch_num_rssi : Z; ch_rssi : list Z }.

(** A ranging result: its bytes, and where its location elements are in them. *)
Record wifi_rtt_result := mkRttResult { rr_bytes : list Z; rr_LCI : option Z; rr_LCR : option Z }.

(** * Commands *)

(** The function pointers of the handlers, null or not. *)
Record wifi_scan_result_handler := mkScanHandler { on_scan_event : bool; on_full_scan_result : bool }.
Record wifi_hotlist_handler := mkHotlistHandler { on_hotlist_ap_found : bool; on_hotlist_ap_lost : bool }.

(** rtt.cpp:309-314 [RttCommand, members]. The results that have been stored, and the flag. *)
Record rtt_state := mkRttState { mCompleted : Z; totalCnt : Z; rttResults : list wifi_rtt_result }.
#[export] Instance eta_rtt_state : Eta rtt_state := fun r => mkRttState (mCompleted r) (totalCnt r) (rttResults r).

Inductive command_body :=
  | ScanCommand (params : wifi_scan_cmd_params) (handler : wifi_scan_result_handler)
  | FullScanResultsCommand (handler : wifi_scan_result_handler)
  | GetScanResultsCommand
  | BssidHotlistCommand (params : wifi_bssid_hotlist_params) (handler : wifi_hotlist_handler)
  | ePNOCommand (params : wifi_epno_params) (on_network_found : bool)
  | SignificantWifiChangeCommand (params : wifi_significant_change_params) (on_significant_change : bool)
  | AnqpoConfigureCommand (mNetworks : list wifi_passpoint_network) (on_passpoint_network_found : bool)
  | SetRSSIMonitorCommand (mMax_rssi mMin_rssi : Z) (on_rssi_threshold_breached : bool)
  | RttCommand (rttParams : list wifi_rtt_config) (state : rtt_state) (on_rtt_results : bool)
  | MKeepAliveCommand.

(** cpp_bindings.h:213-245 [WifiCommand]. *)
Record WifiCommand := mkCommand { mId : Z; ifaceId : Z; mRefs : Z; body : command_body }.
#[export] Instance eta_WifiCommand : Eta WifiCommand := fun c => mkCommand (mId c) (ifaceId c) (mRefs c) (body c).

(** What is seen from outside: messages to the driver and calls of the framework's handlers. The
    results of the hot list are handed on as the driver's bytes. *)
Inductive wifi_out :=
  | Sent (msg : list nlop)
  | OnScanEvent (id event : Z)
  | OnFullScanResult (id : Z) (result : wifi_scan_result) (buckets_scanned : Z)
  | OnHotlistApFound (id num : Z) (results : list Z)
  | OnHotlistApLost (id num : Z) (results : list Z)
  | OnNetworkFound (id : Z) (results : list wifi_scan_result)
  | OnSignificantChange (id : Z) (results : list wifi_significant_change_result)
  | OnPasspointNetworkFound (id networkId : Z) (result : wifi_scan_result) (anqp : list Z)
  | OnRssiThresholdBreached (id : Z) (bssid : list Z) (rssi : Z)
  | OnRttResults (id num : Z) (results : list wifi_rtt_result)
  | CleanedUp.

(** * The state behind a handle *)

(** common.h:145-151 [cb_info]. The function is always [WifiCommand::event_handler]. *)
Record cb_info := mkCb { nl_cmd : Z; vendor_id : Z; vendor_subcmd : Z; cb_arg : Z }.
(** common.h:153-156 [cmd_info]. *)
Record cmd_info := mkCmdInfo { ci_id : Z; ci_cmd : Z }.
#[export] Instance cb_info_eq_dec : EqDecision cb_info.
Proof. solve_decision. Defined.
#[export] Instance cmd_info_eq_dec : EqDecision cmd_info.
Proof. solve_decision. Defined.

(** common.h:164-191 [hal_info]. The two tables are arrays of fixed size whose first entries are
    in use. *)
Record hal_info := mkHal {
  nl80211_family_id : Z;
  in_event_loop : bool;
  clean_up : bool;
  event_cb : list cb_info;
  num_event_cb : Z;
  alloc_event_cb : Z;
  cmd : list cmd_info;
  num_cmd : Z;
  alloc_cmd : Z;
}.
#[export] Instance eta_hal_info : Eta hal_info := fun h =>
  mkHal (nl80211_family_id h) (in_event_loop h) (clean_up h) (event_cb h) (num_event_cb h) (alloc_event_cb h)
    (cmd h) (num_cmd h) (alloc_cmd h).

(** A callback of the library while a reply is waited for. *)
Inductive reply :=
  | RValid (msg : nl_msg)
  | RAck
  | RFinish
  | RError (error : Z).

(** The commands are objects at addresses. What the environment answers is given in advance:
    the addresses of the next objects (0 when memory is short), whether [malloc] and the
    allocation of a message succeed, whether the callbacks of a request can, what sending returns, and the callbacks
    of each call of [nl_recvmsgs]. *)
Record Wifi := mkWifi {
  info : hal_info;
  commands : gmap Z WifiCommand;
  news : list Z;
  mallocs : list bool;
  msg_allocs : list bool;
  cb_allocs : list bool;
  sends : list Z;
  replies : list (list reply);
  trace : list wifi_out;
  table_in_use : bool;
}.
#[export] Instance eta_Wifi : Eta Wifi := fun s =>
  mkWifi (info s) (commands s) (news s) (mallocs s) (msg_allocs s) (cb_allocs s) (sends s) (replies s) (trace s) (table_in_use s).

Definition WIFI (A : Type) : Type := ST Wifi A.

Definition malloc_ok : WIFI bool :=
  let* s := getM in modM (fun s => s <| mallocs := tail (mallocs s) |>);; retM (hd true (mallocs s)).
Definition emit (o : wifi_out) : WIFI unit := modM (fun s => s <| trace := trace s ++ [o] |>).
Definition mod_info (f : hal_info -> hal_info) : WIFI unit := modM (fun s => s <| info := f (info s) |>).
