(* ===== verification/WifiHal.v ===== *)
(** The core of the Wi-Fi HAL (src/hal/wifi_hal): the tables of event handlers and of commands
    (common.cpp), the reference counts of commands, the exchange of a request for its reply
    (cpp_bindings.cpp) and the dispatch of an event (wifi_hal.cpp). A function during which the
    other thread of the HAL may run is a [prog], a sequence of atomic actions; the critical
    sections of [cb_lock] are actions. *)

From stdpp Require Import base list gmap numbers.
From Stdlib Require Import ZArith Lia.
From S2P Require Import Prelude WifiNl WifiTypes.

Local Open Scope Z_scope.
Local Open Scope st_scope.
Local Open Scope rec_scope.

(** * Programs *)

Inductive prog (A : Type) : Type :=
  | Ret (a : A)
  | Act (X : Type) (m : WIFI X) (k : X -> prog A)
  | While (X Y : Type) (body : X -> WIFI (X + Y)) (x : X) (k : Y -> prog A).
Arguments Ret {A} a.
Arguments Act {A X} m k.
Arguments While {A X Y} body x k.

Fixpoint pbind {A B} (p : prog A) (f : A -> prog B) : prog B :=
  match p with
  | Ret a => f a
  | Act m k => Act m (fun x => pbind (k x) f)
  | While body x k => While body x (fun y => pbind (k y) f)
  end.

Definition act {A} (m : WIFI A) : prog A := Act m Ret.

Declare Scope wprog_scope.
Delimit Scope wprog_scope with wprog.
Notation "'let!' x := p 'in' k" := (pbind p (fun x => k))
  (at level 10, x pattern, p at level 99, k at level 200) : wprog_scope.
Notation "p ;! k" := (pbind p (fun _ => k))
  (at level 100, k at level 200, right associativity) : wprog_scope.
Local Open Scope wprog_scope.

(** The next atomic step. *)
Definition pstep {A} (p : prog A) : WIFI (prog A) :=
  match p with
  | Ret _ => blockM
  | Act m k => let* x := m in retM (k x)
  | While body x k => let* r := body x in retM (match r with inl x' => While body x' k | inr y => k y end)
  end.

(** Execution without interference, of at most [fuel] steps. *)
Fixpoint exec {A} (fuel : nat) (p : prog A) : WIFI A :=
  match p with
  | Ret a => retM a
  | _ => match fuel with O => blockM | S fuel' => let* p' := pstep p in exec fuel' p' end
  end.

Lemma exec_act {A X} n (m : WIFI X) (k : X -> prog A) s x s' : m s = Ok (x, s') -> exec (S n) (Act m k) s = exec n (k x) s'.
Proof. intros E. cbn. unfold bindM. by rewrite E. Qed.

Lemma exec_while {A X Y} n (body : X -> WIFI (X + Y)) x (k : Y -> prog A) s r s' : body x s = Ok (r, s') ->
  exec (S n) (While body x k) s = exec n (match r with inl x' => While body x' k | inr y => k y end) s'.
Proof. intros E. cbn. unfold bindM. rewrite E. by destruct r. Qed.

Lemma exec_ret {A} n (a : A) s : exec n (Ret a) s = Ok (a, s).
Proof. by destruct n. Qed.

(** More steps change nothing. *)
Lemma exec_more {A} n m (p : prog A) s r : exec n p s = Ok r -> (n <= m)%nat -> exec m p s = Ok r.
Proof.
  revert m p s. induction n as [|n IH]; intros m p s E Hn.
  - destruct p; [by rewrite exec_ret|done..].
  - destruct m as [|m]; [lia|]. destruct p as [a|X c k|X Y b x k]; [done| |]; cbn in *; unfold bindM, retM in *.
    + destruct (c s) as [[y s']| |]; [|done..]. apply IH; [done|lia].
    + destruct (b x s) as [[y s']| |]; [|done..]. apply IH; [done|lia].
Qed.

(** Runs one after the other. *)
Lemma exec_bind {A B} n m (p : prog A) (f : A -> prog B) s a s' r :
  exec n p s = Ok (a, s') -> exec m (f a) s' = Ok r -> exec (n + m) (pbind p f) s = Ok r.
Proof.
  revert p s. induction n as [|n IH]; intros p s E1 E2.
  - destruct p; [|done..]. rewrite exec_ret in E1. injection E1 as -> ->. done.
  - destruct p as [b|X c k|X Y b x k]; cbn [exec pbind pstep] in *.
    + injection E1 as -> ->. eapply exec_more; [done|lia].
    + cbn. unfold bindM, retM in *. destruct (c s) as [[y s1]| |]; [|done..]. by apply IH.
    + cbn. unfold bindM, retM in *. destruct (b x s) as [[[y|y] s1]| |]; [| |done..]; by apply IH in E1.
Qed.

(** * The tables *)

(** [memmove (&a[i], &a[i+1], (n - i - 1) * sizeof ( *a))]. *)
Definition move_down {A} (a : list A) (i n : nat) : list A :=
  take i a ++ take (n - i - 1) (drop (i + 1) a) ++ drop (n - 1) a.

(** The entry at [num], and the count. *)
Definition add_cb (x : cb_info) (h : hal_info) : hal_info :=
  h <| event_cb := <[Z.to_nat (num_event_cb h) := x]> (event_cb h) |> <| num_event_cb := num_event_cb h + 1 |>.
Definition remove_cb (i : nat) (h : hal_info) : hal_info :=
  h <| event_cb := move_down (event_cb h) i (Z.to_nat (num_event_cb h)) |> <| num_event_cb := num_event_cb h - 1 |>.
Definition remove_cmd (i : nat) (h : hal_info) : hal_info :=
  h <| cmd := move_down (cmd h) i (Z.to_nat (num_cmd h)) |> <| num_cmd := num_cmd h - 1 |>.

(** The entries in use. *)
Definition handlers (h : hal_info) : list cb_info := take (Z.to_nat (num_event_cb h)) (event_cb h).
Definition registered (h : hal_info) : list cmd_info := take (Z.to_nat (num_cmd h)) (cmd h).

Section Hal.
Context `{NL : Libnl} `{N80211 : Nl80211} `{HH : WifiHalH}.

(** common.cpp:52-75 [wifi_register_handler]. *)
Definition wifi_register_handler (cmd arg : Z) : WIFI Z :=
  let* s := getM in
  if num_event_cb (info s) <? alloc_event_cb (info s) then
    mod_info (add_cb (mkCb cmd 0 0 arg));; retM WIFI_SUCCESS
  else retM WIFI_ERROR_OUT_OF_MEMORY.

(** common.cpp:77-101 [wifi_register_vendor_handler]. *)
Definition wifi_register_vendor_handler (id subcmd arg : Z) : WIFI Z :=
  let* s := getM in
  if num_event_cb (info s) <? alloc_event_cb (info s) then
    mod_info (add_cb (mkCb NL80211_CMD_VENDOR id subcmd arg));; retM WIFI_SUCCESS
  else retM WIFI_ERROR_OUT_OF_MEMORY.

(** common.cpp:103-127 [wifi_unregister_handler]. *)
Definition wifi_unregister_handler (cmd : Z) : WIFI unit :=
  if cmd =? NL80211_CMD_VENDOR then retM tt
  else
    let* s := getM in
    match list_find (fun x => nl_cmd x = cmd) (handlers (info s)) with
    | Some (i, _) => mod_info (remove_cb i)
    | None => retM tt
    end.

(** The entry of a vendor's event. *)
Definition vendor_cb (id subcmd : Z) (x : cb_info) : bool :=
  (nl_cmd x =? NL80211_CMD_VENDOR) && (vendor_id x =? id) && (vendor_subcmd x =? subcmd).

(** common.cpp:129-150 [wifi_unregister_vendor_handler]. *)
Definition wifi_unregister_vendor_handler (id subcmd : Z) : WIFI unit :=
  let* s := getM in
  match list_find (fun x => vendor_cb id subcmd x = true) (handlers (info s)) with
  | Some (i, _) => mod_info (remove_cb i)
  | None => retM tt
  end.

(** common.cpp:153-173 [wifi_register_cmd]. *)
Definition wifi_register_cmd (id c : Z) : WIFI Z :=
  let* s := getM in
  if num_cmd (info s) <? alloc_cmd (info s) then
    mod_info (fun h => h <| cmd := <[Z.to_nat (num_cmd h) := mkCmdInfo id c]> (cmd h) |> <| num_cmd := num_cmd h + 1 |>);;
    retM WIFI_SUCCESS
  else retM WIFI_ERROR_OUT_OF_MEMORY.

(** common.cpp:175-198 [wifi_unregister_cmd, by id]. The null pointer is 0. *)
Definition wifi_unregister_cmd (id : Z) : WIFI Z :=
  let* s := getM in
  match list_find (fun x => ci_id x = id) (registered (info s)) with
  | Some (i, x) => mod_info (remove_cmd i);; retM (ci_cmd x)
  | None => retM 0
  end.

(** No lock protects the table of commands. What a thread does with it is not one action: it
    begins and, later, it is done. A thread that comes to the table in between reads and writes
    the same entries and the same count at the same time, a data race, which is undefined. *)
Definition enter_table : WIFI unit :=
  let* s := getM in
  if table_in_use s then undefM else modM (fun s => s <| table_in_use := true |>).
Definition leave_table {A} (m : WIFI A) : WIFI A :=
  let* r := m in modM (fun s => s <| table_in_use := false |>);; retM r.
Definition in_table {A} (m : WIFI A) : prog A := act enter_table ;! act (leave_table m).

(** common.cpp:200-214 [wifi_get_cmd]. *)
Definition wifi_get_cmd (id : Z) : WIFI Z :=
  let* s := getM in
  retM (match list_find (fun x => ci_id x = id) (registered (info s)) with Some (_, x) => ci_cmd x | None => 0 end).

(** common.cpp:216-229 [wifi_unregister_cmd, by pointer]. *)
Definition wifi_unregister_cmd_ptr (c : Z) : WIFI unit :=
  let* s := getM in
  match list_find (fun x => ci_cmd x = c) (registered (info s)) with
  | Some (i, _) => mod_info (remove_cmd i)
  | None => retM tt
  end.

(** * Commands *)

(** An access to a command that has been deleted is undefined. *)
Definition get_command (c : Z) : WIFI WifiCommand := let* s := getM in of_option (commands s !! c).
Definition put_command (c : Z) (x : WifiCommand) : WIFI unit := modM (fun s => s <| commands := <[c := x]> (commands s) |>).

(** cpp_bindings.h:231-239 [WifiCommand::WifiCommand, and new]. *)
Definition new_command (id iface : Z) (b : command_body) : WIFI Z :=
  let* s := getM in
  let c := hd 0 (news s) in
  modM (fun s => s <| news := tail (news s) |>);;
  (if c =? 0 then retM tt else put_command c (mkCommand id iface 1 b));;
  retM c.

(** cpp_bindings.h:253-256 [addRef]. *)
Definition addRef (c : Z) : WIFI unit :=
  let* x := get_command c in put_command c (x <| mRefs := mRefs x + 1 |>).

(** cpp_bindings.h:258-265 [releaseRef]. *)
Definition releaseRef (c : Z) : WIFI unit :=
  let* x := get_command c in
  if mRefs x - 1 =? 0 then modM (fun s => s <| commands := delete c (commands s) |>)
  else put_command c (x <| mRefs := mRefs x - 1 |>).

(** * Requests and replies *)

(** [WifiRequest request (familyId (), ifaceId ())] and the construction of its message. *)
Definition build (c : Z) (m : ST WifiRequest Z) : WIFI (Z * option (list nlop)) :=
  let* x := get_command c in
  let* s := getM in
  match m (mkRequest (nl80211_family_id (info s)) (ifaceId x) None (msg_allocs s)) with
  | Ok (r, rq) => modM (fun s => s <| msg_allocs := nl_alloc rq |>);; retM (r, rq_msg rq)
  | Undef => undefM
  | Blocked => blockM
  end.

(** What a command does with a reply, on its own state [L]. *)
Definition response_fn (L : Type) : Type := WifiEvent -> ST L nl_cb_action.

(** cpp_bindings.cpp:682-694 [WifiCommand::response_handler]. *)
Definition response_handler {L} (h : response_fn L) (msg : nl_msg) : ST L nl_cb_action :=
  let (res, reply) := WifiEvent_parse msg in
  if res <? 0 then retM NL_SKIP else h reply.

(** cpp_bindings.cpp:719-739 [ack_handler, finish_handler, error_handler]. One call of
    [nl_recvmsgs]: the callbacks in order, until one of them stops it. *)
Fixpoint nl_recvmsgs {L} (h : response_fn L) (rs : list reply) (err : Z) (l : L) : outcome (Z * L) :=
  match rs with
  | [] => Ok (err, l)
  | RValid msg :: rs' =>
      match response_handler h msg l with
      | Ok (NL_STOP, l') => Ok (err, l')
      | Ok (_, l') => nl_recvmsgs h rs' err l'
      | Undef => Undef
      | Blocked => Blocked
      end
  | RAck :: _ => Ok (0, l)
  | RFinish :: rs' => nl_recvmsgs h rs' 0 l
  | RError e :: rs' => nl_recvmsgs h rs' e l
  end.

(** One turn of the loop that waits for the reply; without anything to receive the thread
    sleeps. *)
Definition recv_turn {L} (h : response_fn L) (st : Z * L) : WIFI ((Z * L) + (Z * L)) :=
  if 0 <? st.1 then
    let* s := getM in
    match replies s with
    | [] => blockM
    | rs :: rest =>
        modM (fun s => s <| replies := rest |>);;
        match nl_recvmsgs h rs st.1 st.2 with
        | Ok st' => retM (inl st')
        | Undef => undefM
        | Blocked => blockM
        end
    end
  else retM (inr st).

(** cpp_bindings.cpp:594-626 [WifiCommand::requestResponse, of a request]. *)
Definition requestResponse {L} (h : response_fn L) (msg : option (list nlop)) (l : L) : prog (Z * L) :=
  let! cb := act (let* s := getM in modM (fun s => s <| cb_allocs := tail (cb_allocs s) |>);; retM (hd true (cb_allocs s))) in
  if negb cb then Ret (0, l)
  else
    let! err := act (
      let* s := getM in
      modM (fun s => s <| sends := tail (sends s) |>);;
      let err := hd 0 (sends s) in
      match msg with
      | None => undefM
      | Some ops => (if err <? 0 then retM tt else emit (Sent ops));; retM err
      end) in
    if err <? 0 then Ret (err, l) else While (recv_turn h) (1, l) Ret.

(** [handleResponse] of the commands with nothing to do on a response. *)
Definition skip_response : response_fn unit := fun _ => retM NL_SKIP.

Definition request (msg : option (list nlop)) : prog Z := let! r := requestResponse skip_response msg tt in Ret r.1.

(** [registerVendorHandler] and [unregisterVendorHandler] of a command for events of Google's
    OUI. *)
Definition registerVendorHandler (event c : Z) : prog Z := act (wifi_register_vendor_handler GOOGLE_OUI event c).
Definition unregisterVendorHandler (event : Z) : prog unit := act (wifi_unregister_vendor_handler GOOGLE_OUI event).

End Hal.
