(* ===== verification/WifiReq.v ===== *)
(** The requests the Wi-Fi HAL sends to the driver (src/hal/wifi_hal/gscan.cpp, rtt.cpp,
    wifi_hal.cpp, wifi_offload.cpp): the functions that build their messages, each returning on
    the first put that fails. *)

From stdpp Require Import base list gmap numbers.
From Stdlib Require Import ZArith Lia.
From S2P Require Import Prelude WifiNl WifiTypes.

Local Open Scope Z_scope.
Local Open Scope st_scope.
Local Open Scope rec_scope.

Section Requests.
Context `{NL : Libnl} `{N80211 : Nl80211} `{HH : WifiHalH}.

Definition create (subcmd : Z) : ST WifiRequest Z := create_vendor WIFI_ERROR_OUT_OF_MEMORY GOOGLE_OUI subcmd.

(** An attribute that is started, filled and ended; a function that fails in between returns
    without ending it. *)
Definition nested (type : Z) (fields : ST WifiRequest Z) : ST WifiRequest Z :=
  let* attr := attr_start type in
  try result := fields in
  attr_end attr;; retM result.

Definition vendor_data : ST WifiRequest Z -> ST WifiRequest Z := nested NL80211_ATTR_VENDOR_DATA.

(** The bytes [put] reads: the first [n] of an array. *)
Definition put_array (attribute : Z) (array : list Z) (n : Z) : ST WifiRequest Z :=
  let* bs := of_option (mem_read array 0 n) in put attribute bs.

(** A loop that builds one element after the other and returns on the first failure. [r] is the
    result so far. *)
Fixpoint put_each {A} (f : nat -> A -> ST WifiRequest Z) (i : nat) (r : Z) (l : list A) : ST WifiRequest Z :=
  match l with
  | [] => retM r
  | x :: l' => try r' := f i x in put_each f (S i) r' l'
  end.

(** * gscan.cpp *)

(** gscan.cpp:170-180 [GetCapabilitiesCommand::create]. *)
Definition GetCapabilities_create : ST WifiRequest Z := create GSCAN_SUBCMD_GET_CAPABILITIES.

(** gscan.cpp:256-274 [GetChannelListCommand::create]. *)
Definition GetChannelList_create (band : Z) : ST WifiRequest Z :=
  create WIFI_SUBCMD_GET_CHANNEL_LIST ?;
  vendor_data (put_u32 WIFI_ATTRIBUTE_BAND band).

(** gscan.cpp:371-386 [createFeatureRequest]. *)
Definition createFeatureRequest (subcmd enable : Z) : ST WifiRequest Z :=
  create subcmd ?;
  vendor_data (put_u32 GSCAN_ATTRIBUTE_ENABLE_FEATURE enable) ?;
  retM WIFI_SUCCESS.

(** gscan.cpp:399-414 [FullScanResultsCommand::createRequest]. *)
Definition FullScan_createRequest (subcmd enable : Z) : ST WifiRequest Z :=
  create subcmd ?;
  vendor_data (put_u32 GSCAN_ENABLE_FULL_SCAN_RESULTS enable) ?;
  retM WIFI_SUCCESS.

(** gscan.cpp:507-510 [createSetupRequest, band]. *)
Definition checked_band (b : Z) : Z := if (b <? WIFI_BAND_UNSPECIFIED) || (WIFI_BAND_ABG_WITH_DFS <? b) then WIFI_BAND_ABG else b.

(** gscan.cpp:496-553 [createSetupRequest, bucket]. *)
Definition put_bucket (i : nat) (b : wifi_scan_bucket_spec) : ST WifiRequest Z :=
  nested (Z.of_nat i) (
    put_u32 GSCAN_ATTRIBUTE_BUCKET_ID (bk_bucket b) ?;
    put_u32 GSCAN_ATTRIBUTE_BUCKET_PERIOD (bk_period b) ?;
    put_u32 GSCAN_ATTRIBUTE_BUCKETS_BAND (checked_band (bk_band b)) ?;
    put_u32 GSCAN_ATTRIBUTE_BUCKET_STEP_COUNT (bk_step_count b) ?;
    put_u32 GSCAN_ATTRIBUTE_BUCKET_MAX_PERIOD (bk_max_period b) ?;
    put_u32 GSCAN_ATTRIBUTE_REPORT_EVENTS (bk_report_events b) ?;
    try r := put_u32 GSCAN_ATTRIBUTE_BUCKET_NUM_CHANNELS (zlen (bk_channels b)) in
    if negb (zlen (bk_channels b) =? 0) then
      nested GSCAN_ATTRIBUTE_BUCKET_CHANNELS (put_each (fun j c => put_u32 (Z.of_nat j) c) 0 r (bk_channels b))
    else retM r).

(** gscan.cpp:479-557 [ScanCommand::createSetupRequest]. *)
Definition Scan_createSetupRequest (p : wifi_scan_cmd_params) : ST WifiRequest Z :=
  create GSCAN_SUBCMD_SET_CONFIG ?;
  vendor_data (
    put_u32 GSCAN_ATTRIBUTE_BASE_PERIOD (base_period p) ?;
    try r := put_u32 GSCAN_ATTRIBUTE_NUM_BUCKETS (zlen (buckets p)) in
    put_each put_bucket 0 r (buckets p)) ?;
  retM WIFI_SUCCESS.

(** gscan.cpp:571-573 [createScanConfigRequest, threshold]. *)
Definition checked_percent (n : Z) : Z := if (n <? 0) || (100 <? n) then 100 else n.

(** gscan.cpp:559-589 [ScanCommand::createScanConfigRequest]. *)
Definition Scan_createScanConfigRequest (p : wifi_scan_cmd_params) : ST WifiRequest Z :=
  create GSCAN_SUBCMD_SET_SCAN_CONFIG ?;
  vendor_data (
    put_u32 GSCAN_ATTRIBUTE_NUM_AP_PER_SCAN (max_ap_per_scan p) ?;
    put_u32 GSCAN_ATTRIBUTE_REPORT_THRESHOLD (checked_percent (report_threshold_percent p)) ?;
    put_u32 GSCAN_ATTRIBUTE_NUM_SCANS_TO_CACHE (report_threshold_num_scans p)) ?;
  retM WIFI_SUCCESS.

(** gscan.cpp:591-593 [createStartRequest]. *)
Definition Scan_createStartRequest : ST WifiRequest Z := createFeatureRequest GSCAN_SUBCMD_ENABLE_GSCAN 1.
(** gscan.cpp:595-597 [createStopRequest]. *)
Definition Scan_createStopRequest : ST WifiRequest Z := createFeatureRequest GSCAN_SUBCMD_ENABLE_GSCAN 0.

(** gscan.cpp:868-887 [GetScanResultsCommand::createRequest]. *)
Definition GetScanResults_createRequest (num flush : Z) : ST WifiRequest Z :=
  create GSCAN_SUBCMD_GET_SCAN_RESULTS ?;
  vendor_data (
    put_u32 GSCAN_ATTRIBUTE_NUM_OF_RESULTS num ?;
    put_u8 GSCAN_ATTRIBUTE_FLUSH_RESULTS flush) ?;
  retM WIFI_SUCCESS.

(** An attribute that holds elements; a null pointer for an element is an error. *)
Definition put_elem (type : Z) (fields : ST WifiRequest Z) : ST WifiRequest Z :=
  let* attr2 := attr_start type in
  match attr2 with
  | None => retM WIFI_ERROR_OUT_OF_MEMORY
  | Some _ => try r := fields in attr_end attr2;; retM r
  end.

(** The thresholds of an access point, in the hot list and in the list of significant changes. *)
Definition put_threshold (a : ap_threshold_param) : ST WifiRequest Z :=
  put_addr GSCAN_ATTRIBUTE_BSSID (ap_bssid a) ?;
  put_u32 GSCAN_ATTRIBUTE_RSSI_HIGH (ap_high a) ?;
  put_u32 GSCAN_ATTRIBUTE_RSSI_LOW (ap_low a).

(** gscan.cpp:1043-1088 [BssidHotlistCommand::createSetupRequest]. *)
Definition Hotlist_createSetupRequest (p : wifi_bssid_hotlist_params) : ST WifiRequest Z :=
  create GSCAN_SUBCMD_SET_HOTLIST ?;
  vendor_data (
    put_u8 GSCAN_ATTRIBUTE_HOTLIST_FLUSH 1 ?;
    put_u32 GSCAN_ATTRIBUTE_LOST_AP_SAMPLE_SIZE (hl_lost_ap_sample_size p) ?;
    try r := put_u16 GSCAN_ATTRIBUTE_NUM_AP (zlen (hl_ap p)) in
    nested GSCAN_ATTRIBUTE_HOTLIST_BSSIDS
      (put_each (fun _ a => put_elem GSCAN_ATTRIBUTE_HOTLIST_ELEM (put_threshold a)) 0 r (hl_ap p))).

(** gscan.cpp:1090-1106 [BssidHotlistCommand::createTeardownRequest]. *)
Definition Hotlist_createTeardownRequest : ST WifiRequest Z :=
  create GSCAN_SUBCMD_SET_HOTLIST ?;
  vendor_data (
    try r := put_u8 GSCAN_ATTRIBUTE_HOTLIST_FLUSH 1 in
    nested GSCAN_ATTRIBUTE_HOTLIST_BSSIDS (retM r)).

(** gscan.cpp:1281-1306 [createSetupRequest, network]. *)
Definition put_epno_network (i : nat) (n : wifi_epno_network) : ST WifiRequest Z :=
  put_elem (Z.of_nat i) (
    put_array GSCAN_ATTRIBUTE_EPNO_SSID (en_ssid n) DOT11_MAX_SSID_LEN ?;
    put_u32 GSCAN_ATTRIBUTE_EPNO_SSID_LEN (zlen (cstr (en_ssid n))) ?;
    put_u32 GSCAN_ATTRIBUTE_EPNO_FLAGS (en_flags n) ?;
    put_u32 GSCAN_ATTRIBUTE_EPNO_AUTH (en_auth_bit_field n)).

(** gscan.cpp:1224-1310 [ePNOCommand::createSetupRequest]. The networks are an array of
    MAX_EPNO_NETWORKS entries of which the first [num_networks] are sent. *)
Definition ePNO_createSetupRequest (p : wifi_epno_params) : ST WifiRequest Z :=
  if MAX_EPNO_NETWORKS <? num_networks p then retM WIFI_ERROR_INVALID_ARGS
  else
    create GSCAN_SUBCMD_SET_EPNO_SSID ?;
    vendor_data (
      put_u8 GSCAN_ATTRIBUTE_EPNO_FLUSH 1 ?;
      put_u8 GSCAN_ATTRIBUTE_EPNO_5G_RSSI_THR (min5GHz_rssi p) ?;
      put_u8 GSCAN_ATTRIBUTE_EPNO_2G_RSSI_THR (min24GHz_rssi p) ?;
      put_u16 GSCAN_ATTRIBUTE_EPNO_INIT_SCORE_MAX (initial_score_max p) ?;
      put_u16 GSCAN_ATTRIBUTE_EPNO_CUR_CONN_BONUS (current_connection_bonus p) ?;
      put_u16 GSCAN_ATTRIBUTE_EPNO_SAME_NETWORK_BONUS (same_network_bonus p) ?;
      put_u16 GSCAN_ATTRIBUTE_EPNO_SECURE_BONUS (secure_bonus p) ?;
      put_u16 GSCAN_ATTRIBUTE_EPNO_5G_BONUS (band5GHz_bonus p) ?;
      try r := put_u8 GSCAN_ATTRIBUTE_EPNO_SSID_NUM (num_networks p) in
      nested GSCAN_ATTRIBUTE_EPNO_SSID_LIST
        (put_each put_epno_network 0 r (take (Z.to_nat (num_networks p)) (networks p)))).

(** gscan.cpp:1312-1325 [ePNOCommand::createTeardownRequest]. *)
Definition ePNO_createTeardownRequest : ST WifiRequest Z :=
  create GSCAN_SUBCMD_SET_EPNO_SSID ?;
  vendor_data (put_u8 GSCAN_ATTRIBUTE_EPNO_FLUSH 1).

(** gscan.cpp:1458-1512 [SignificantWifiChangeCommand::createSetupRequest]. *)
Definition SigChange_createSetupRequest (p : wifi_significant_change_params) : ST WifiRequest Z :=
  create GSCAN_SUBCMD_SET_SIGNIFICANT_CHANGE_CONFIG ?;
  vendor_data (
    put_u8 GSCAN_ATTRIBUTE_SIGNIFICANT_CHANGE_FLUSH 1 ?;
    put_u16 GSCAN_ATTRIBUTE_RSSI_SAMPLE_SIZE (sc_rssi_sample_size p) ?;
    put_u16 GSCAN_ATTRIBUTE_LOST_AP_SAMPLE_SIZE (sc_lost_ap_sample_size p) ?;
    put_u16 GSCAN_ATTRIBUTE_MIN_BREACHING (sc_min_breaching p) ?;
    try r := put_u16 GSCAN_ATTRIBUTE_NUM_AP (zlen (sc_ap p)) in
    nested GSCAN_ATTRIBUTE_SIGNIFICANT_CHANGE_BSSIDS
      (put_each (fun i a => put_elem (Z.of_nat i) (put_threshold a)) 0 r (sc_ap p))).

(** gscan.cpp:1514-1528 [SignificantWifiChangeCommand::createTeardownRequest]. *)
Definition SigChange_createTeardownRequest : ST WifiRequest Z :=
  create GSCAN_SUBCMD_SET_SIGNIFICANT_CHANGE_CONFIG ?;
  vendor_data (put_u16 GSCAN_ATTRIBUTE_SIGNIFICANT_CHANGE_FLUSH 1).

(** gscan.cpp:1730-1754 [createRequest, network]. *)
Definition put_passpoint_network (i : nat) (n : wifi_passpoint_network) : ST WifiRequest Z :=
  put_elem (Z.of_nat i) (
    put_u32 GSCAN_ATTRIBUTE_ANQPO_HS_NETWORK_ID (pp_id n) ?;
    put_array GSCAN_ATTRIBUTE_ANQPO_HS_NAI_REALM (pp_realm n) 256 ?;
    put_array GSCAN_ATTRIBUTE_ANQPO_HS_ROAM_CONSORTIUM_ID (pp_roamingConsortiumIds n) 128 ?;
    put_array GSCAN_ATTRIBUTE_ANQPO_HS_PLMN (pp_plmn n) 3).

(** gscan.cpp:1719-1760 [AnqpoConfigureCommand::createRequest]. The argument [val] is not used,
    and the result of [create] is not looked at. *)
Definition Anqpo_createRequest (mNetworks : list wifi_passpoint_network) (val : Z) : ST WifiRequest Z :=
  create GSCAN_SUBCMD_ANQPO_CONFIG;;
  try r := put_u32 GSCAN_ATTRIBUTE_ANQPO_HS_LIST_SIZE (zlen mNetworks) in
  vendor_data (nested GSCAN_ATTRIBUTE_ANQPO_HS_LIST (put_each put_passpoint_network 0 r mNetworks)) ?;
  retM WIFI_SUCCESS.

(** * rtt.cpp *)

(** rtt.cpp:129-138 [GetRttCapabilitiesCommand::create]. *)
Definition GetRttCapabilities_create : ST WifiRequest Z := create RTT_SUBCMD_GETCAPABILITY.
(** rtt.cpp:189-198 [GetRttResponderInfoCommand::create]. *)
Definition GetRttResponderInfo_create : ST WifiRequest Z := create RTT_SUBCMD_GETAVAILCHANNEL.
(** rtt.cpp:240-249 [EnableResponderCommand::create]. *)
Definition EnableResponder_create : ST WifiRequest Z := create RTT_SUBCMD_SET_RESPONDER.
(** rtt.cpp:287-296 [CancelResponderCommand::create]. *)
Definition CancelResponder_create : ST WifiRequest Z := create RTT_SUBCMD_CANCEL_RESPONDER.

(** rtt.cpp:350-436 [createSetupRequest, target]. *)
Definition put_rtt_target (i : nat) (c : wifi_rtt_config) : ST WifiRequest Z :=
  put_elem (Z.of_nat i) (
    put_addr RTT_ATTRIBUTE_TARGET_MAC (rc_addr c) ?;
    put_u8 RTT_ATTRIBUTE_TARGET_TYPE (rc_type c) ?;
    put_u8 RTT_ATTRIBUTE_TARGET_PEER (rc_peer c) ?;
    put RTT_ATTRIBUTE_TARGET_CHAN (rc_channel c) ?;
    put_u32 RTT_ATTRIBUTE_TARGET_NUM_BURST (rc_num_burst c) ?;
    put_u32 RTT_ATTRIBUTE_TARGET_NUM_FTM_BURST (rc_num_frames_per_burst c) ?;
    put_u32 RTT_ATTRIBUTE_TARGET_NUM_RETRY_FTM (rc_num_retries_per_rtt_frame c) ?;
    put_u32 RTT_ATTRIBUTE_TARGET_NUM_RETRY_FTMR (rc_num_retries_per_ftmr c) ?;
    put_u32 RTT_ATTRIBUTE_TARGET_PERIOD (rc_burst_period c) ?;
    put_u32 RTT_ATTRIBUTE_TARGET_BURST_DURATION (rc_burst_duration c) ?;
    put_u8 RTT_ATTRIBUTE_TARGET_LCI (rc_LCI_request c) ?;
    put_u8 RTT_ATTRIBUTE_TARGET_LCR (rc_LCR_request c) ?;
    put_u8 RTT_ATTRIBUTE_TARGET_BW (rc_bw c) ?;
    put_u8 RTT_ATTRIBUTE_TARGET_PREAMBLE (rc_preamble c)).

(** rtt.cpp:338-441 [RttCommand::createSetupRequest]. *)
Definition Rtt_createSetupRequest (params : list wifi_rtt_config) : ST WifiRequest Z :=
  create RTT_SUBCMD_SET_CONFIG ?;
  vendor_data (
    try r := put_u8 RTT_ATTRIBUTE_TARGET_CNT (zlen params) in
    nested RTT_ATTRIBUTE_TARGET_INFO (put_each put_rtt_target 0 r params)) ?;
  retM WIFI_SUCCESS.

(** rtt.cpp:443-459 [RttCommand::createTeardownRequest]. The result of the first put is not
    looked at. *)
Definition Rtt_createTeardownRequest (addr : list (list Z)) : ST WifiRequest Z :=
  try r := create RTT_SUBCMD_CANCEL_CONFIG in
  vendor_data (
    put_u8 RTT_ATTRIBUTE_TARGET_CNT (zlen addr);;
    put_each (fun _ a => put_addr RTT_ATTRIBUTE_TARGET_MAC a) 0 r addr).

(** * wifi_hal.cpp *)

(** wifi_hal.cpp:565-574 [GetMulticastIdCommand::create]. [nlctrl] is the family of the
    controller. *)
Definition GetMulticastId_create (nlctrl : Z) (name : list Z) : ST WifiRequest Z :=
  WifiRequest_create WIFI_ERROR_OUT_OF_MEMORY nlctrl CTRL_CMD_GETFAMILY 0 0 ?;
  put_string CTRL_ATTR_FAMILY_NAME name.

(** wifi_hal.cpp:627-644 [SetCountryCodeCommand::create]. *)
Definition SetCountryCode_create (country_code : list Z) : ST WifiRequest Z :=
  create WIFI_SUBCMD_SET_COUNTRY_CODE ?;
  vendor_data (put_string WIFI_ATTRIBUTE_COUNTRY_CODE country_code) ?;
  retM WIFI_SUCCESS.

(** wifi_hal.cpp:662-687 [SetRSSIMonitorCommand::createRequest]. *)
Definition RSSI_createRequest (mMax_rssi mMin_rssi enable : Z) : ST WifiRequest Z :=
  create WIFI_SUBCMD_SET_RSSI_MONITOR ?;
  vendor_data (
    put_u32 WIFI_ATTRIBUTE_MAX_RSSI (if truth enable then mMax_rssi else 0) ?;
    put_u32 WIFI_ATTRIBUTE_MIN_RSSI (if truth enable then mMin_rssi else 0) ?;
    put_u32 WIFI_ATTRIBUTE_RSSI_MONITOR_START enable).

(** wifi_hal.cpp:795-812 [GetFeatureSetCommand::create]. *)
Definition GetFeatureSet_create (feature_type : Z) : ST WifiRequest Z :=
  if feature_type =? WIFI_ATTRIBUTE_FEATURE_SET then create WIFI_SUBCMD_GET_FEATURE_SET
  else if feature_type =? WIFI_ATTRIBUTE_NUM_FEATURE_SET then create WIFI_SUBCMD_GET_FEATURE_SET_MATRIX
  else retM (-1).

(** * wifi_offload.cpp *)

(** wifi_offload.cpp:79-158 [MKeepAliveCommand::createRequest]. *)
Definition MKeepAlive_createRequest (type : GetCmdType) (index : Z) (ip_pkt src dst : list Z) (period_msec : Z) : ST WifiRequest Z :=
  match type with
  | START_MKEEP_ALIVE =>
      let* result := create WIFI_OFFLOAD_START_MKEEP_ALIVE in
      if negb (result =? WIFI_SUCCESS) then retM result
      else
        vendor_data (
          put_u8 MKEEP_ALIVE_ATTRIBUTE_ID index ?;
          put_u16 MKEEP_ALIVE_ATTRIBUTE_IP_PKT_LEN (zlen ip_pkt) ?;
          put MKEEP_ALIVE_ATTRIBUTE_IP_PKT ip_pkt ?;
          put_addr MKEEP_ALIVE_ATTRIBUTE_SRC_MAC_ADDR src ?;
          put_addr MKEEP_ALIVE_ATTRIBUTE_DST_MAC_ADDR dst ?;
          put_u32 MKEEP_ALIVE_ATTRIBUTE_PERIOD_MSEC period_msec)
  | STOP_MKEEP_ALIVE =>
      let* result := create WIFI_OFFLOAD_STOP_MKEEP_ALIVE in
      if negb (result =? WIFI_SUCCESS) then retM result
      else vendor_data (put_u8 MKEEP_ALIVE_ATTRIBUTE_ID index)
  end.

End Requests.
