(* ===== verification/WifiEvents.v ===== *)
(** What the Wi-Fi HAL reads out of the driver's messages (src/hal/wifi_hal/gscan.cpp, rtt.cpp,
    wifi_hal.cpp, wifi_offload.cpp): the [handleResponse] and [handleEvent] methods of its
    commands. Reads outside of the message, writes outside of an array and calls through a null
    pointer are undefined; what is only logged is left out. *)

From stdpp Require Import base list gmap numbers.
From Stdlib Require Import ZArith Lia.
From S2P Require Import Prelude WifiNl WifiTypes WifiHal.

Local Open Scope Z_scope.
Local Open Scope st_scope.
Local Open Scope rec_scope.

(** The unsigned and the signed integer of [n] bytes at [p]. *)
Definition rd (m : list Z) (p n : Z) : option Z := le_value <$> mem_read m p n.
Definition signed (n z : Z) : Z := (z + 2 ^ (8 * n - 1)) mod 2 ^ (8 * n) - 2 ^ (8 * n - 1).
Definition rds (m : list Z) (p n : Z) : option Z := signed n <$> rd m p n.

Section Events.
Context `{NL : Libnl} `{N80211 : Nl80211} `{HH : WifiHalH}.

(** gscan.cpp:145-156 [convert_to_hal_result]. *)
Definition convert_to_hal_result (m : list Z) (from : Z) (to : wifi_scan_result) : option wifi_scan_result :=
  let l := wifi_gscan_result_t in
  ts ← rd m (from + off_ts l) 8;
  channel ← rd m (from + off_channel l) 4;
  rssi ← rds m (from + off_rssi l) 4;
  rtt ← rd m (from + off_rtt l) 8;
  rtt_sd ← rd m (from + off_rtt_sd l) 8;
  beacon_period ← rd m (from + off_beacon_period l) 2;
  capability ← rd m (from + off_capability l) 2;
  ssid ← mem_read m (from + off_ssid l) (DOT11_MAX_SSID_LEN + 1);
  bssid ← mem_read m (from + off_bssid l) 6;
  Some (mkScanResult ts ssid bssid channel rssi rtt rtt_sd beacon_period capability (sr_ie_length to) (sr_ie_data to)).

(** * Responses *)

(** The members that say whether the driver supports scans. *)
Definition no_gscan (caps : list Z) : option bool :=
  c0 ← rds caps off_max_scan_cache_size 4;
  c1 ← rds caps off_max_scan_buckets 4;
  c2 ← rds caps off_max_ap_cache_per_scan 4;
  Some ((c0 =? 0) && (c1 =? 0) && (c2 =? 0)).

(** [memcpy] of [n] bytes at [p] of the message to the start of the caller's structure. *)
Definition copy_out (m : list Z) (p n : Z) : ST (list Z) unit :=
  let* dst := getM in
  let* bs := of_option (mem_read m p n) in
  let* dst' := of_option (mem_write dst 0 bs) in
  modM (fun _ => dst').

(** gscan.cpp:183-226 [GetCapabilitiesCommand::handleResponse]. The caller's structure is an array of
    bytes. A pointer to no vendor data is followed. *)
Definition GetCapabilities_handleResponse : response_fn (list Z) := fun reply =>
  if negb (get_cmd reply =? NL80211_CMD_VENDOR) then retM NL_SKIP
  else
    let* vendor_data := of_option (get_vendor_data reply) in
    let* len := of_option (get_vendor_data_len reply) in
    let* type := of_option (ptr_nla_type (mMsg reply) vendor_data) in
    (if type =? GSCAN_ATTRIBUTE_CAPABILITIES then
       copy_out (mMsg reply) (nla_data vendor_data) (Z.min (len - NLA_HDRLEN) sizeof_wifi_gscan_capabilities)
     else retM tt);;
    let* caps := getM in
    let* none := of_option (no_gscan caps) in
    retM (if none : bool then NL_STOP else NL_OK).

(** rtt.cpp:141-174 [GetRttCapabilitiesCommand::handleResponse]. *)
Definition GetRttCapabilities_handleResponse : response_fn (list Z) := fun reply =>
  if negb (get_cmd reply =? NL80211_CMD_VENDOR) then retM NL_SKIP
  else
    let* vendor_data := of_option (get_vendor_data reply) in
    let* len := of_option (get_vendor_data_len reply) in
    let* type := of_option (ptr_nla_type (mMsg reply) vendor_data) in
    (if type =? RTT_ATTRIBUTE_CAPABILITIES then
       copy_out (mMsg reply) (nla_data vendor_data) (Z.min (len - NLA_HDRLEN) sizeof_wifi_rtt_capabilities)
     else retM tt);;
    retM NL_OK.

(** A copy of the vendor data, as far as it goes, to the caller's structure of [size] bytes;
    nothing is copied from a null pointer when there is none. *)
Definition copy_vendor_data (size : Z) : response_fn (list Z) := fun reply =>
  if negb (get_cmd reply =? NL80211_CMD_VENDOR) then retM NL_SKIP
  else
    let* len := of_option (get_vendor_data_len reply) in
    match get_vendor_data reply with
    | Some data => copy_out (mMsg reply) data (Z.min len size);; retM NL_OK
    | None => retM NL_OK
    end.

(** rtt.cpp:201-222 [GetRttResponderInfoCommand::handleResponse]. *)
Definition GetRttResponderInfo_handleResponse : response_fn (list Z) := copy_vendor_data sizeof_wifi_rtt_responder.
(** rtt.cpp:252-273 [EnableResponderCommand::handleResponse]. *)
Definition EnableResponder_handleResponse : response_fn (list Z) := copy_vendor_data sizeof_wifi_rtt_responder.
(** rtt.cpp:299-302 [CancelResponderCommand::handleResponse]. *)
Definition CancelResponder_handleResponse : response_fn unit := skip_response.

(** gscan.cpp:238-242 [GetChannelListCommand, members]. The caller's array, and the count. *)
Record channel_list := mkChannels { cl_channels : list Z; cl_num : Z; cl_local : Z }.
#[export] Instance eta_channel_list : Eta channel_list := fun c => mkChannels (cl_channels c) (cl_num c) (cl_local c).

(** The four-byte numbers in a string of bytes. *)
Fixpoint words (n : nat) (bs : list Z) : list Z :=
  match n with O => [] | S n' => le_value (take 4 bs) :: words n' (drop 4 bs) end.

(** gscan.cpp:277-316 [GetChannelListCommand::handleResponse]. A negative count is a huge size. *)
Definition GetChannelList_handleResponse (mMaxChannels : Z) : response_fn channel_list := fun reply =>
  if negb (get_cmd reply =? NL80211_CMD_VENDOR) then retM NL_SKIP
  else
    let* len := of_option (get_vendor_data_len reply) in
    match get_attribute reply NL80211_ATTR_VENDOR_DATA with
    | Some vendor =>
        if len =? 0 then retM NL_SKIP
        else
          let m := mMsg reply in
          modM (fun c => c <| cl_local := 0 |>);;
          nl_for m vendor (fun it =>
            let type := nlattr_type m it in
            let* c := getM in
            (if type =? WIFI_ATTRIBUTE_NUM_CHANNELS then
               let* v := of_option (nla_get 4 m it) in
               let num_channels := if mMaxChannels <? i32 v then mMaxChannels else i32 v in
               modM (fun c => c <| cl_local := num_channels |> <| cl_num := num_channels |>)
             else if (type =? WIFI_ATTRIBUTE_CHANNEL_LIST) && truth (cl_local c) then
               let* bs := of_option (mem_read m (nla_data it) (4 * cl_local c)) in
               if zlen (cl_channels c) <? cl_local c then undefM
               else
                 let n := Z.to_nat (cl_local c) in
                 modM (fun c => c <| cl_channels := words n bs ++ drop n (cl_channels c) |>)
             else retM tt);;
            retM false);;
          retM NL_OK
    | None => retM NL_SKIP
    end.

(** wifi_hal.cpp:776-781 [GetFeatureSetCommand, members]. The caller's set, its matrix and the
    number of its entries; a pointer may be null. *)
Record feature_sets := mkFeatures { fset : option Z; feature_matrix : option (list Z); fm_size : option Z; fs_num : Z; fs_i : Z }.
#[export] Instance eta_feature_sets : Eta feature_sets := fun f =>
  mkFeatures (fset f) (feature_matrix f) (fm_size f) (fs_num f) (fs_i f).

(** wifi_hal.cpp:815-871 [GetFeatureSetCommand::handleResponse]. [feature_set] is a 32-bit integer, of
    which the first bytes may be replaced. *)
Definition GetFeatureSet_handleResponse (feature_type set_size_max : Z) : response_fn feature_sets := fun reply =>
  if negb (get_cmd reply =? NL80211_CMD_VENDOR) then retM NL_SKIP
  else
    let m := mMsg reply in
    let* len := of_option (get_vendor_data_len reply) in
    match get_attribute reply NL80211_ATTR_VENDOR_DATA with
    | None => retM NL_SKIP
    | Some vendor =>
        if len =? 0 then retM NL_SKIP
        else
          let* f := getM in
          if feature_type =? WIFI_ATTRIBUTE_FEATURE_SET then
            match fset f with
            | None => retM NL_SKIP
            | Some old =>
                let* bs := of_option (mem_read m (nla_data vendor) (Z.min len 4)) in
                let* v := of_option (mem_write (le_bytes 4 old) 0 bs) in
                modM (fun f => f <| fset := Some (le_value v) |>);;
                retM NL_OK
            end
          else if feature_type =? WIFI_ATTRIBUTE_NUM_FEATURE_SET then
            match feature_matrix f, fm_size f with
            | Some _, Some _ =>
                modM (fun f => f <| fs_num := 0 |> <| fs_i := 0 |>);;
                nl_for m vendor (fun it =>
                  let type := nlattr_type m it in
                  let* f := getM in
                  (if type =? WIFI_ATTRIBUTE_NUM_FEATURE_SET then
                     let* v := of_option (nla_get 4 m it) in
                     let num := if truth set_size_max && (set_size_max <? i32 v) then set_size_max else i32 v in
                     modM (fun f => f <| fs_num := num |> <| fm_size := Some num |>)
                   else if (type =? WIFI_ATTRIBUTE_FEATURE_SET) && (fs_i f <? fs_num f) then
                     let* v := of_option (nla_get 4 m it) in
                     let* a := of_option (feature_matrix f) in
                     if zlen a <=? fs_i f then undefM
                     else modM (fun f => f <| feature_matrix := Some (<[Z.to_nat (fs_i f) := v]> a) |> <| fs_i := fs_i f + 1 |>)
                   else retM tt);;
                  retM false);;
                retM NL_OK
            | _, _ => retM NL_SKIP
            end
          else retM NL_OK
    end.

(** wifi_hal.cpp:576-615 [GetMulticastIdCommand::handleResponse]. The id that was found; a group's name
    is compared over the length of its attribute. *)
Definition GetMulticastId_handleResponse (mGroup : list Z) : response_fn Z := fun reply =>
  let m := mMsg reply in
  match get_attribute reply CTRL_ATTR_MCAST_GROUPS with
  | None => retM NL_SKIP
  | Some groups =>
      nl_for m groups (fun mcgrp =>
        let tb2 := snd (nla_parse m (nla_data mcgrp) (nla_len m mcgrp) CTRL_ATTR_MCAST_GRP_MAX) in
        match tb2 CTRL_ATTR_MCAST_GRP_NAME, tb2 CTRL_ATTR_MCAST_GRP_ID with
        | Some n, Some i =>
            let* grpName := of_option (mem_read m (nla_data n) (nla_len m n)) in
            if bytes_eqb (cstr (take (length grpName) (mGroup ++ [0]))) (cstr grpName) then
              let* v := of_option (nla_get 4 m i) in
              modM (fun _ => i32 v);; retM true
            else retM false
        | _, _ => retM false
        end);;
      retM NL_SKIP
  end.

(** wifi_offload.cpp:176-193 [MKeepAliveCommand::handleResponse]. *)
Definition MKeepAlive_handleResponse : response_fn unit := fun reply =>
  retM (if negb (get_cmd reply =? NL80211_CMD_VENDOR) then NL_SKIP else NL_OK).

(** gscan.cpp:855-860 [GetScanResultsCommand, members]. The caller's array, what has been retrieved and
    the flag; the last four are the variables of the loop. *)
Record scan_results := mkScans {
  mScans : list wifi_cached_scan_results; mRetrieved : Z; gs_completed : Z;
  v_scan_id : Z; v_flags : Z; v_num : Z; v_mask : Z;
}.
#[export] Instance eta_scan_results : Eta scan_results := fun g =>
  mkScans (mScans g) (mRetrieved g) (gs_completed g) (v_scan_id g) (v_flags g) (v_num g) (v_mask g).

(** gscan.cpp:986-994 [handleResponse, results]. *)
Fixpoint copy_results (n i : nat) (m : list Z) (results : Z) (to : list wifi_scan_result) : option (list wifi_scan_result) :=
  match n with
  | O => Some to
  | S n' =>
      let from := results + Z.of_nat i * sizeof_gscan_result wifi_gscan_result_t in
      old ← to !! i;
      r ← convert_to_hal_result m from old;
      ie ← rd m (from + off_ie_length wifi_gscan_result_t) 4;
      copy_results n' (S i) m results (<[i := r <| sr_ie_length := ie |>]> to)
  end.

(** gscan.cpp:961-1005 [handleResponse, attribute]. *)
Definition scan_attribute (mMax : Z) (m : list Z) (it2 : Z) : ST scan_results bool :=
  let type := nlattr_type m it2 in
  let* g := getM in
  if type =? GSCAN_ATTRIBUTE_SCAN_ID then
    let* v := of_option (nla_get 4 m it2) in modM (fun g => g <| v_scan_id := i32 v |>);; retM false
  else if type =? GSCAN_ATTRIBUTE_SCAN_FLAGS then
    let* v := of_option (nla_get 1 m it2) in modM (fun g => g <| v_flags := v |>);; retM false
  else if type =? GSCAN_ATTRIBUTE_NUM_OF_RESULTS then
    let* v := of_option (nla_get 4 m it2) in modM (fun g => g <| v_num := i32 v |>);; retM false
  else if type =? GSCAN_ATTRIBUTE_CH_BUCKET_BITMASK then
    let* v := of_option (nla_get 4 m it2) in modM (fun g => g <| v_mask := i32 v |>);; retM false
  else if (type =? GSCAN_ATTRIBUTE_SCAN_RESULTS) && truth (v_num g) then
    if mMax <=? mRetrieved g then retM true
    else
      let num := Z.min (v_num g) (nla_len m it2 / sizeof_wifi_scan_result) in
      let num := Z.min num MAX_AP_CACHE_PER_SCAN in
      let* scan := of_option (mScans g !! Z.to_nat (mRetrieved g)) in
      let* results := of_option (copy_results (Z.to_nat num) 0 m (nla_data it2) (cs_results scan)) in
      modM (fun g => g <| v_num := num |>
        <| mScans := <[Z.to_nat (mRetrieved g) := mkCached (v_scan_id g) (v_flags g) num (v_mask g) results]> (mScans g) |>
        <| mRetrieved := mRetrieved g + 1 |>);;
      retM false
  else retM false.

(** gscan.cpp:926-1013 [GetScanResultsCommand::handleResponse]. *)
Definition GetScanResults_handleResponse (mMax : Z) : response_fn scan_results := fun reply =>
  if negb (get_cmd reply =? NL80211_CMD_VENDOR) then retM NL_SKIP
  else
    let m := mMsg reply in
    let* len := of_option (get_vendor_data_len reply) in
    match get_vendor_data reply with
    | None => retM NL_SKIP
    | Some vendor_data =>
        if len =? 0 then retM NL_SKIP
        else
          nl_for m vendor_data (fun it =>
            let type := nlattr_type m it in
            if type =? GSCAN_ATTRIBUTE_SCAN_RESULTS_COMPLETE then
              let* v := of_option (nla_get 1 m it) in
              modM (fun g => g <| gs_completed := v |>);; retM false
            else if (GSCAN_ATTRIBUTE_NUM_OF_RESULTS <=? type) && (type <=? GSCAN_ATTRIBUTE_CH_BUCKET_BITMASK) then
              modM (fun g => g <| v_scan_id := 0 |> <| v_flags := 0 |> <| v_num := 0 |> <| v_mask := 0 |>);;
              nl_for m it (scan_attribute mMax m);;
              retM false
            else retM false);;
          retM NL_OK
    end.

(** gscan.cpp:342-360 [parseScanResults, attribute]. The channel is stored as the time stamp. *)
Definition parse_scan_attribute (m : list Z) (it2 : Z) : ST wifi_scan_result bool :=
  let type := nlattr_type m it2 in
  let* r := getM in
  (if type =? GSCAN_ATTRIBUTE_SSID then
     let* bs := of_option (mem_read m (nla_data it2) (nla_len m it2)) in
     let* ssid := of_option (mem_write (sr_ssid r) 0 (cstr bs ++ zeros (length bs - length (cstr bs)) ++ [0])) in
     modM (fun r => r <| sr_ssid := ssid |>)
   else if type =? GSCAN_ATTRIBUTE_BSSID then
     let* bs := of_option (mem_read m (nla_data it2) 6) in modM (fun r => r <| sr_bssid := bs |>)
   else if type =? GSCAN_ATTRIBUTE_TIMESTAMP then
     let* v := of_option (nla_get_u64 m it2) in modM (fun r => r <| sr_ts := v |>)
   else if type =? GSCAN_ATTRIBUTE_CHANNEL then
     let* v := of_option (nla_get 2 m it2) in modM (fun r => r <| sr_ts := v |>)
   else if type =? GSCAN_ATTRIBUTE_RSSI then
     let* v := of_option (nla_get 1 m it2) in modM (fun r => r <| sr_rssi := v |>)
   else if type =? GSCAN_ATTRIBUTE_RTT then
     let* v := of_option (nla_get_u64 m it2) in modM (fun r => r <| sr_rtt := v |>)
   else if type =? GSCAN_ATTRIBUTE_RTTSD then
     let* v := of_option (nla_get_u64 m it2) in modM (fun r => r <| sr_rtt_sd := v |>)
   else retM tt);;
  retM false.

(** gscan.cpp:330-369 [parseScanResults]. The results that were stored; an element's payload is
    taken for an attribute that holds the fields. *)
Definition parseScanResults (num : Z) (m : list Z) (attr : Z) : ST (list wifi_scan_result) Z :=
  nl_for m attr (fun it =>
    let* rs := getM in
    if num <=? zlen rs then retM true
    else
      match nl_for m (nla_data it) (parse_scan_attribute m) zero_result with
      | Ok (_, r) => modM (fun rs => rs ++ [r]);; retM false
      | Undef => undefM
      | Blocked => blockM
      end);;
  let* rs := getM in retM (zlen rs).

(** * Events *)

(** gscan.cpp:779-828 [wifi_handle_full_scan_event]. *)
Definition wifi_handle_full_scan_event (id : Z) (event : WifiEvent) (handler : wifi_scan_result_handler) : WIFI unit :=
  let m := mMsg event in
  let* len := of_option (get_vendor_data_len event) in
  let* event_id := of_option (get_vendor_subcmd event) in
  match get_vendor_data event with
  | None => retM tt
  | Some vendor_data =>
      if len <? sizeof_gscan_full wifi_gscan_full_result_t then retM tt
      else if negb (event_id =? GSCAN_EVENT_FULL_SCAN_RESULTS) then retM tt
      else
        let drv_res := nla_data vendor_data in
        let* n := of_option (rd m (drv_res + off_full_ie_length wifi_gscan_full_result_t) 4) in
        let ie_len := Z.min MAX_PROBE_RESP_IE_LEN n in
        if len <? ie_len + off_full_ie_data wifi_gscan_full_result_t then retM tt
        else
          let* ok := malloc_ok in
          if negb ok then retM tt
          else
            let* r := of_option (convert_to_hal_result m (drv_res + off_fixed wifi_gscan_full_result_t) zero_result) in
            let* ie := of_option (mem_read m (drv_res + off_full_ie_data wifi_gscan_full_result_t) ie_len) in
            let* bucket := of_option (rd m (drv_res + off_scan_ch_bucket wifi_gscan_full_result_t) 4) in
            if on_full_scan_result handler then
              emit (OnFullScanResult id (r <| sr_ie_length := ie_len |> <| sr_ie_data := ie |>) bucket)
            else retM tt
  end.

(** gscan.cpp:676-704 [ScanCommand::handleEvent]. *)
Definition Scan_handleEvent (id : Z) (handler : wifi_scan_result_handler) (event : WifiEvent) : WIFI unit :=
  let m := mMsg event in
  let* event_id := of_option (get_vendor_subcmd event) in
  if (event_id =? GSCAN_EVENT_COMPLETE_SCAN) || (event_id =? GSCAN_EVENT_SCAN_RESULTS_AVAILABLE) then
    match get_vendor_data event with
    | None => retM tt
    | Some vendor_data =>
        let* nla_len := of_option (ptr_nla_len m vendor_data) in
        if negb (nla_len =? 8) then retM tt
        else
          let* evt_type := of_option (nla_get 4 m vendor_data) in
          if on_scan_event handler then emit (OnScanEvent id evt_type) else retM tt
    end
  else if event_id =? GSCAN_EVENT_FULL_SCAN_RESULTS then wifi_handle_full_scan_event id event handler
  else retM tt.

(** gscan.cpp:461-464 [FullScanResultsCommand::handleEvent]. *)
Definition FullScan_handleEvent (id : Z) (handler : wifi_scan_result_handler) (event : WifiEvent) : WIFI unit :=
  wifi_handle_full_scan_event id event handler.

(** gscan.cpp:1170-1203 [BssidHotlistCommand::handleEvent]. *)
Definition Hotlist_handleEvent (id : Z) (handler : wifi_hotlist_handler) (event : WifiEvent) : WIFI unit :=
  let MAX_RESULTS := 64 in
  let m := mMsg event in
  let* event_id := of_option (get_vendor_subcmd event) in
  let* len := of_option (get_vendor_data_len event) in
  match get_vendor_data event with
  | None => retM tt
  | Some vendor_data =>
      if len =? 0 then retM tt
      else
        let num := Z.min MAX_RESULTS (len / sizeof_wifi_scan_result) in
        let* type := of_option (ptr_nla_type m vendor_data) in
        let* results := of_option (
          if (type =? GSCAN_EVENT_HOTLIST_RESULTS_LOST) || (type =? GSCAN_EVENT_HOTLIST_RESULTS_FOUND) then
            mem_read m (nla_data vendor_data) (num * sizeof_wifi_scan_result)
          else Some (zeros (Z.to_nat (num * sizeof_wifi_scan_result)))) in
        if event_id =? GSCAN_EVENT_HOTLIST_RESULTS_FOUND then
          if on_hotlist_ap_found handler then emit (OnHotlistApFound id num results) else retM tt
        else if event_id =? GSCAN_EVENT_HOTLIST_RESULTS_LOST then
          if on_hotlist_ap_lost handler then emit (OnHotlistApLost id num results) else retM tt
        else retM tt
  end.

(** gscan.cpp:1391-1400 [handleEvent, result]. *)
Definition epno_result (m : list Z) (res : Z) : option wifi_scan_result :=
  let l := wifi_pno_result_t in
  flags ← rd m (res + off_pno_flags l) 2;
  if flags =? PNO_SSID_FOUND then
    ssid_len ← rd m (res + off_pno_ssid_len l) 1;
    bs ← mem_read m (res + off_pno_ssid l) ssid_len;
    ssid ← mem_write (sr_ssid zero_result) 0 (bs ++ [0]);
    bssid ← mem_read m (res + off_pno_bssid l) 6;
    channel ← rd m (res + off_pno_channel l) 2;
    rssi ← rds m (res + off_pno_rssi l) 1;
    Some (zero_result <| sr_ssid := ssid |> <| sr_bssid := bssid |> <| sr_channel := channel |> <| sr_rssi := rssi |>)
  else Some zero_result.

(** gscan.cpp:1372-1404 [ePNOCommand::handleEvent]. *)
Definition ePNO_handleEvent (id : Z) (on_network_found : bool) (event : WifiEvent) : WIFI unit :=
  let m := mMsg event in
  let* len := of_option (get_vendor_data_len event) in
  match get_vendor_data event with
  | None => retM tt
  | Some res =>
      if len =? 0 then retM tt
      else
        let num := Z.min MAX_EPNO_NETWORKS (len / sizeof_pno wifi_pno_result_t) in
        let* results := of_option (mapM (fun i => epno_result m (res + Z.of_nat i * sizeof_pno wifi_pno_result_t)) (seq 0 (Z.to_nat num))) in
        if on_network_found then emit (OnNetworkFound id results) else retM tt
  end.

(** gscan.cpp:1616-1623 [handleEvent, change]. *)
Definition change_info (m : list Z) (ci : Z) : option wifi_significant_change_result :=
  channel ← rd m (ci + 2) 2;
  bssid ← mem_read m (ci + 4) 6;
  history ← mem_read m (ci + 10) 8;
  Some (mkChange bssid channel 8 (signed 1 <$> history)).

(** gscan.cpp:1591-1634 [SignificantWifiChangeCommand::handleEvent]. [ChangeInfo] has 18 bytes; the
    handler is called without a look at its pointer. *)
Definition SigChange_handleEvent (id : Z) (on_significant_change : bool) (event : WifiEvent) : WIFI unit :=
  let MAX_RESULTS := 64 in
  let m := mMsg event in
  let* len := of_option (get_vendor_data_len event) in
  match get_vendor_data event with
  | None => retM tt
  | Some vendor_data =>
      if len =? 0 then retM tt
      else
        let num := Z.min (len / 18) MAX_RESULTS in
        let* type := of_option (ptr_nla_type m vendor_data) in
        if negb (type =? GSCAN_EVENT_SIGNIFICANT_CHANGE_RESULTS) then retM tt
        else
          let ci := nla_data vendor_data in
          let* results := of_option (mapM (fun i => change_info m (ci + Z.of_nat i * 18)) (seq 0 (Z.to_nat num))) in
          if num =? 0 then retM tt
          else if on_significant_change then emit (OnSignificantChange id results) else undefM
  end.

(** gscan.cpp:1806-1853 [AnqpoConfigureCommand::handleEvent]. The lengths in the message are used as
    they are. *)
Definition Anqpo_handleEvent (id : Z) (on_passpoint_network_found : bool) (event : WifiEvent) : WIFI unit :=
  let m := mMsg event in
  let* len := of_option (get_vendor_data_len event) in
  match get_vendor_data event with
  | None => retM tt
  | Some drv_res =>
      if len <? sizeof_wifi_scan_result then retM tt
      else
        let* ok := malloc_ok in
        if negb ok then retM tt
        else
          let* mResult := of_option (convert_to_hal_result m (drv_res + off_fixed wifi_gscan_full_result_t) zero_result) in
          let* ie_length := of_option (rd m (drv_res + off_full_ie_length wifi_gscan_full_result_t) 4) in
          let anqp := drv_res + off_full_ie_data wifi_gscan_full_result_t + ie_length in
          let* data_len := of_option (rd m (anqp + 6) 2) in
          let anqp_len := 8 + data_len in
          let* networkId := of_option (rds m (anqp + anqp_len) 4) in
          let* bs := of_option (mem_read m anqp anqp_len) in
          if on_passpoint_network_found then emit (OnPasspointNetworkFound id networkId mResult bs) else retM tt
  end.

(** wifi_hal.cpp:732-771 [SetRSSIMonitorCommand::handleEvent]. *)
Definition RSSI_handleEvent (id : Z) (on_rssi_threshold_breached : bool) (event : WifiEvent) : WIFI unit :=
  let RSSI_MONITOR_EVT_VERSION := 1 in
  let m := mMsg event in
  let* len := of_option (get_vendor_data_len event) in
  match get_vendor_data event with
  | None => retM tt
  | Some vendor_data =>
      if len =? 0 then retM tt
      else
        let* type := of_option (ptr_nla_type m vendor_data) in
        if negb (type =? WIFI_EVENT_RSSI_MONITOR) then retM tt
        else
          let data := nla_data vendor_data in
          let* version := of_option (rd m data 1) in
          if negb (version =? RSSI_MONITOR_EVT_VERSION) then retM tt
          else if on_rssi_threshold_breached then
            let* cur_rssi := of_option (rds m (data + 1) 1) in
            let* BSSID := of_option (mem_read m (data + 2) 6) in
            emit (OnRssiThresholdBreached id BSSID cur_rssi)
          else retM tt
  end.

(** * Ranging *)

Definition DOT11_HDR_LEN : Z := 2.
Definition DOT11_MNG_MEASURE_REQUEST_ID : Z := 38.
Definition DOT11_MEASURE_TYPE_LCI : Z := 8.
Definition DOT11_MEASURE_TYPE_CIVICLOC : Z := 11.

(** rtt.cpp:72-78 [dot11_rm_ie]. *)
Record dot11_rm_ie := mkIe { ie_id : Z; ie_len : Z; ie_token : Z; ie_mode : Z; ie_type : Z }.
Definition read_ie (bs : list Z) (p : Z) : option dot11_rm_ie :=
  b ← mem_read bs p 5; Some (mkIe (at_ b 0) (at_ b 1) (at_ b 2) (at_ b 3) (at_ b 4)).

(** rtt.cpp:548-591 [handleEvent, result]. The location elements behind a result of [len] bytes; the
    length of the result is subtracted twice. *)
Definition rtt_elements (bs : list Z) : option wifi_rtt_result :=
  let size := sizeof_wifi_rtt_result in
  let result_len := i32 (zlen bs - size) in
  if 0 <? result_len then
    let result_len := i32 (result_len - size) in
    ele_1 ← read_ie bs size;
    if ie_id ele_1 =? DOT11_MNG_MEASURE_REQUEST_ID then
      let result_len := result_len - (ie_len ele_1 + DOT11_HDR_LEN) in
      let p2 := size + (ie_len ele_1 + DOT11_HDR_LEN) in
      if ie_type ele_1 =? DOT11_MEASURE_TYPE_LCI then
        if 0 <? result_len then
          ele_2 ← read_ie bs p2;
          Some (mkRttResult bs (Some size)
            (if (ie_id ele_2 =? DOT11_MNG_MEASURE_REQUEST_ID) && (ie_type ele_2 =? DOT11_MEASURE_TYPE_CIVICLOC) then Some p2 else None))
        else Some (mkRttResult bs (Some size) None)
      else if ie_type ele_1 =? DOT11_MEASURE_TYPE_CIVICLOC then
        if 0 <? result_len then
          ele_2 ← read_ie bs p2;
          Some (mkRttResult bs
            (if (ie_id ele_2 =? DOT11_MNG_MEASURE_REQUEST_ID) && (ie_type ele_2 =? DOT11_MEASURE_TYPE_LCI) then Some p2 else None) (Some size))
        else Some (mkRttResult bs None (Some size))
      else Some (mkRttResult bs None None)
    else Some (mkRttResult bs None None)
  else Some (mkRttResult bs None None).

(** rtt.cpp:535-604 [handleEvent, attribute]. The state of the command, and what [malloc] returns. *)
Definition rtt_attribute_of (m : list Z) (it2 : Z) : ST (rtt_state * list bool) bool :=
  let MAX_RESULTS := 1024 in
  let type := nlattr_type m it2 in
  if type =? RTT_ATTRIBUTE_TARGET_MAC then let* _ := of_option (mem_read m (nla_data it2) 6) in retM false
  else if type =? RTT_ATTRIBUTE_RESULT_CNT then let* _ := of_option (nla_get 4 m it2) in retM false
  else if type =? RTT_ATTRIBUTE_RESULT then
    let* s := getM in
    if MAX_RESULTS <=? zlen (rttResults s.1) then undefM
    else if negb (hd true s.2) then modM (fun s => (s.1 <| mCompleted := 1 |>, tail s.2));; retM true
    else
      let* bs := of_option (mem_read m (nla_data it2) (nla_len m it2)) in
      let* r := of_option (rtt_elements bs) in
      modM (fun s => (s.1 <| totalCnt := totalCnt s.1 + 1 |> <| rttResults := rttResults s.1 ++ [r] |>, tail s.2));;
      retM false
  else retM false.

(** rtt.cpp:523-607 [handleEvent, results]. A null pointer to the vendor data is followed. *)
Definition rtt_parse (event : WifiEvent) : ST (rtt_state * list bool) unit :=
  let m := mMsg event in
  let* vendor_data := of_option (get_attribute event NL80211_ATTR_VENDOR_DATA) in
  nl_for m vendor_data (fun it =>
    let type := nlattr_type m it in
    if type =? RTT_ATTRIBUTE_RESULTS_COMPLETE then
      let* v := of_option (nla_get 4 m it) in
      modM (fun s => (s.1 <| mCompleted := i32 v |>, s.2));; retM false
    else if type =? RTT_ATTRIBUTE_RESULTS_PER_TARGET then
      nl_for m it (rtt_attribute_of m);; retM false
    else retM false).

End Events.
