(* ===== verification/WifiApi.v ===== *)
(** The commands of the Wi-Fi HAL and its interface (src/hal/wifi_hal/gscan.cpp, rtt.cpp,
    wifi_hal.cpp, wifi_offload.cpp, common.cpp): starting and cancelling a command, the queries
    that wait for their answer, the dispatch of events, the event loop and the clean-up. *)

From stdpp Require Import base list gmap strings numbers.
From Stdlib Require Import ZArith Lia.
From S2P Require Import Prelude WifiNl WifiTypes WifiHal WifiReq WifiEvents.

Local Open Scope Z_scope.
Local Open Scope st_scope.
Local Open Scope rec_scope.
Local Open Scope wprog_scope.

Section Api.
Context `{NL : Libnl} `{N80211 : Nl80211} `{HH : WifiHalH}.

Definition failed (r : Z) : bool := negb (r =? WIFI_SUCCESS).

(** * Commands *)

(** gscan.cpp:416-435 [FullScanResultsCommand::start]. *)
Definition FullScan_start (c : Z) : prog Z :=
  let! (result, msg) := act (build c (FullScan_createRequest GSCAN_SUBCMD_ENABLE_FULL_SCAN_RESULTS 1)) in
  if failed result then Ret result
  else
    registerVendorHandler GSCAN_EVENT_FULL_SCAN_RESULTS c ;!
    let! result := request msg in
    if failed result then unregisterVendorHandler GSCAN_EVENT_FULL_SCAN_RESULTS ;! Ret result
    else Ret result.

(** gscan.cpp:437-453 [FullScanResultsCommand::cancel]. *)
Definition FullScan_cancel (c : Z) : prog Z :=
  let! (result, msg) := act (build c (FullScan_createRequest GSCAN_SUBCMD_ENABLE_FULL_SCAN_RESULTS 0)) in
  (if failed result then Ret result else request msg) ;!
  unregisterVendorHandler GSCAN_EVENT_FULL_SCAN_RESULTS ;!
  Ret WIFI_SUCCESS.

(** gscan.cpp:599-649 [ScanCommand::start]. *)
Definition Scan_start (params : wifi_scan_cmd_params) (c : Z) : prog Z :=
  let! (result, msg) := act (build c (Scan_createSetupRequest params)) in
  if failed result then Ret result
  else
    let! result := request msg in
    if failed result then Ret result
    else
      let! (result, msg) := act (build c (Scan_createScanConfigRequest params)) in
      if failed result then Ret result
      else
        let! result := request msg in
        if failed result then Ret result
        else
          let! (result, msg) := act (build c Scan_createStartRequest) in
          if failed result then Ret result
          else
            registerVendorHandler GSCAN_EVENT_SCAN_RESULTS_AVAILABLE c ;!
            registerVendorHandler GSCAN_EVENT_COMPLETE_SCAN c ;!
            registerVendorHandler GSCAN_EVENT_FULL_SCAN_RESULTS c ;!
            let! result := request msg in
            if failed result then
              unregisterVendorHandler GSCAN_EVENT_COMPLETE_SCAN ;!
              unregisterVendorHandler GSCAN_EVENT_SCAN_RESULTS_AVAILABLE ;!
              unregisterVendorHandler GSCAN_EVENT_FULL_SCAN_RESULTS ;!
              Ret result
            else Ret result.

(** gscan.cpp:651-669 [ScanCommand::cancel]. *)
Definition Scan_cancel (c : Z) : prog Z :=
  let! (result, msg) := act (build c Scan_createStopRequest) in
  (if failed result then Ret result else request msg) ;!
  unregisterVendorHandler GSCAN_EVENT_COMPLETE_SCAN ;!
  unregisterVendorHandler GSCAN_EVENT_SCAN_RESULTS_AVAILABLE ;!
  unregisterVendorHandler GSCAN_EVENT_FULL_SCAN_RESULTS ;!
  Ret WIFI_SUCCESS.

(** gscan.cpp:1108-1143 [BssidHotlistCommand::start]. *)
Definition Hotlist_start (params : wifi_bssid_hotlist_params) (c : Z) : prog Z :=
  let! (result, msg) := act (build c (Hotlist_createSetupRequest params)) in
  if result <? 0 then Ret result
  else
    let! result := request msg in
    if result <? 0 then
      unregisterVendorHandler GSCAN_EVENT_HOTLIST_RESULTS_FOUND ;!
      unregisterVendorHandler GSCAN_EVENT_HOTLIST_RESULTS_LOST ;!
      Ret result
    else
      let! (result, msg) := act (build c (createFeatureRequest GSCAN_SUBCMD_ENABLE_GSCAN 1)) in
      if result <? 0 then Ret result
      else
        registerVendorHandler GSCAN_EVENT_HOTLIST_RESULTS_FOUND c ;!
        registerVendorHandler GSCAN_EVENT_HOTLIST_RESULTS_LOST c ;!
        let! result := request msg in
        if result <? 0 then
          unregisterVendorHandler GSCAN_EVENT_HOTLIST_RESULTS_FOUND ;!
          unregisterVendorHandler GSCAN_EVENT_HOTLIST_RESULTS_LOST ;!
          Ret result
        else Ret result.

(** gscan.cpp:1145-1163 [BssidHotlistCommand::cancel]. *)
Definition Hotlist_cancel (c : Z) : prog Z :=
  unregisterVendorHandler GSCAN_EVENT_HOTLIST_RESULTS_FOUND ;!
  unregisterVendorHandler GSCAN_EVENT_HOTLIST_RESULTS_LOST ;!
  let! (result, msg) := act (build c Hotlist_createTeardownRequest) in
  if result <? 0 then Ret result else request msg.

(** gscan.cpp:1327-1346 [ePNOCommand::start]. *)
Definition ePNO_start (params : wifi_epno_params) (c : Z) : prog Z :=
  let! (result, msg) := act (build c (ePNO_createSetupRequest params)) in
  if result <? 0 then Ret result
  else
    let! result := request msg in
    if result <? 0 then unregisterVendorHandler GSCAN_EVENT_EPNO_EVENT ;! Ret result
    else registerVendorHandler GSCAN_EVENT_EPNO_EVENT c ;! Ret result.

(** gscan.cpp:1348-1365 [ePNOCommand::cancel]. *)
Definition ePNO_cancel (c : Z) : prog Z :=
  unregisterVendorHandler GSCAN_EVENT_EPNO_EVENT ;!
  let! (result, msg) := act (build c ePNO_createTeardownRequest) in
  if result <? 0 then Ret result else request msg.

(** gscan.cpp:1530-1563 [SignificantWifiChangeCommand::start]. *)
Definition SigChange_start (params : wifi_significant_change_params) (c : Z) : prog Z :=
  let! (result, msg) := act (build c (SigChange_createSetupRequest params)) in
  if result <? 0 then Ret result
  else
    let! result := request msg in
    if result <? 0 then Ret result
    else
      let! (result, msg) := act (build c (createFeatureRequest GSCAN_SUBCMD_ENABLE_GSCAN 1)) in
      if result <? 0 then Ret result
      else
        registerVendorHandler GSCAN_EVENT_SIGNIFICANT_CHANGE_RESULTS c ;!
        let! result := request msg in
        if result <? 0 then unregisterVendorHandler GSCAN_EVENT_SIGNIFICANT_CHANGE_RESULTS ;! Ret result
        else Ret result.

(** gscan.cpp:1565-1584 [SignificantWifiChangeCommand::cancel]. *)
Definition SigChange_cancel (c : Z) : prog Z :=
  unregisterVendorHandler GSCAN_EVENT_SIGNIFICANT_CHANGE_RESULTS ;!
  let! (result, msg) := act (build c SigChange_createTeardownRequest) in
  if result <? 0 then Ret result else request msg.

(** gscan.cpp:1762-1781 [AnqpoConfigureCommand::start]. *)
Definition Anqpo_start (mNetworks : list wifi_passpoint_network) (c : Z) : prog Z :=
  let! (result, msg) := act (build c (Anqpo_createRequest mNetworks (zlen mNetworks))) in
  if failed result then Ret result
  else
    registerVendorHandler GSCAN_EVENT_ANQPO_HOTSPOT_MATCH c ;!
    let! result := request msg in
    if failed result then unregisterVendorHandler GSCAN_EVENT_ANQPO_HOTSPOT_MATCH ;! Ret result
    else Ret result.

(** gscan.cpp:1783-1798 [AnqpoConfigureCommand::cancel]. *)
Definition Anqpo_cancel (mNetworks : list wifi_passpoint_network) (c : Z) : prog Z :=
  let! (result, msg) := act (build c (Anqpo_createRequest mNetworks 0)) in
  (if failed result then Ret result else request msg) ;!
  unregisterVendorHandler GSCAN_EVENT_ANQPO_HOTSPOT_MATCH ;!
  Ret WIFI_SUCCESS.

(** wifi_hal.cpp:689-710 [SetRSSIMonitorCommand::start]. *)
Definition RSSI_start (mMax_rssi mMin_rssi : Z) (c : Z) : prog Z :=
  let! (result, msg) := act (build c (RSSI_createRequest mMax_rssi mMin_rssi 1)) in
  if result <? 0 then Ret result
  else
    let! result := request msg in
    if result <? 0 then Ret result
    else registerVendorHandler WIFI_EVENT_RSSI_MONITOR c ;! Ret result.

(** wifi_hal.cpp:712-725 [SetRSSIMonitorCommand::cancel]. *)
Definition RSSI_cancel (mMax_rssi mMin_rssi : Z) (c : Z) : prog Z :=
  let! (result, msg) := act (build c (RSSI_createRequest mMax_rssi mMin_rssi 0)) in
  (if failed result then Ret result else request msg) ;!
  unregisterVendorHandler WIFI_EVENT_RSSI_MONITOR ;!
  Ret WIFI_SUCCESS.

(** rtt.cpp:460-478 [RttCommand::start]. *)
Definition Rtt_start (params : list wifi_rtt_config) (c : Z) : prog Z :=
  let! (result, msg) := act (build c (Rtt_createSetupRequest params)) in
  if failed result then Ret result
  else
    let! result := request msg in
    if failed result then Ret result
    else registerVendorHandler RTT_EVENT_COMPLETE c ;! Ret result.

(** rtt.cpp:498-514 [RttCommand::cancel_specific]. *)
Definition Rtt_cancel_specific (addr : list (list Z)) (c : Z) : prog Z :=
  let! (result, msg) := act (build c (Rtt_createTeardownRequest addr)) in
  (if failed result then Ret result else request msg) ;!
  unregisterVendorHandler RTT_EVENT_COMPLETE ;!
  Ret WIFI_SUCCESS.

(** rtt.cpp:480-496 [RttCommand::cancel]. *)
Definition Rtt_cancel (c : Z) : prog Z := Rtt_cancel_specific [] c.

(** cpp_bindings.h:273-276 [WifiCommand::cancel]. The method of each class; there is no way to cancel by
    default. *)
Definition cancel (c : Z) : prog Z :=
  let! x := act (get_command c) in
  match body x with
  | ScanCommand _ _ => Scan_cancel c
  | FullScanResultsCommand _ => FullScan_cancel c
  | BssidHotlistCommand _ _ => Hotlist_cancel c
  | ePNOCommand _ _ => ePNO_cancel c
  | SignificantWifiChangeCommand _ _ => SigChange_cancel c
  | AnqpoConfigureCommand networks _ => Anqpo_cancel networks c
  | SetRSSIMonitorCommand max min _ => RSSI_cancel max min c
  | RttCommand _ _ _ => Rtt_cancel c
  | GetScanResultsCommand | MKeepAliveCommand => Ret WIFI_ERROR_NOT_SUPPORTED
  end.

(** The method of each class that starts it. *)
Definition start (b : command_body) (c : Z) : prog Z :=
  match b with
  | ScanCommand params _ => Scan_start params c
  | FullScanResultsCommand _ => FullScan_start c
  | BssidHotlistCommand params _ => Hotlist_start params c
  | ePNOCommand params _ => ePNO_start params c
  | SignificantWifiChangeCommand params _ => SigChange_start params c
  | AnqpoConfigureCommand networks _ => Anqpo_start networks c
  | SetRSSIMonitorCommand max min _ => RSSI_start max min c
  | RttCommand params _ _ => Rtt_start params c
  | GetScanResultsCommand | MKeepAliveCommand => Ret WIFI_ERROR_NOT_SUPPORTED
  end.

(** * Starting and stopping *)

(** What the functions of the interface that start a command have in common: the command is
    created and registered, then started; when that fails it is taken out again. *)
Definition start_command (id iface : Z) (b : command_body) : prog Z :=
  let! c := act (new_command id iface b) in
  if c =? 0 then Ret WIFI_ERROR_OUT_OF_MEMORY
  else
    let! result := in_table (wifi_register_cmd id c) in
    if failed result then act (releaseRef c) ;! Ret result
    else
      let! result := start b c in
      if failed result then
        in_table (wifi_unregister_cmd id) ;! act (releaseRef c) ;! Ret result
      else Ret result.

(** common.cpp:231-244 [wifi_cancel_cmd]. *)
Definition wifi_cancel_cmd (id : Z) : prog Z :=
  let! c := in_table (wifi_unregister_cmd id) in
  if c =? 0 then Ret WIFI_ERROR_INVALID_ARGS
  else cancel c ;! act (releaseRef c) ;! Ret WIFI_SUCCESS.

(** A command that exists only to be cancelled, for the id -1. *)
Definition cancel_anonymous (id iface : Z) (b : command_body) : prog Z :=
  let! c := act (new_command id iface b) in
  if c =? 0 then Ret WIFI_ERROR_OUT_OF_MEMORY
  else cancel c ;! act (releaseRef c) ;! Ret WIFI_SUCCESS.

(** gscan.cpp:707-731 [wifi_start_gscan]. *)
Definition wifi_start_gscan (id iface : Z) (params : wifi_scan_cmd_params) (handler : wifi_scan_result_handler) : prog Z :=
  start_command id iface (ScanCommand params handler).

Definition no_params : wifi_scan_cmd_params := mkScanParams 0 0 0 0 [].

(** gscan.cpp:733-751 [wifi_stop_gscan]. *)
Definition wifi_stop_gscan (id iface : Z) : prog Z :=
  if id =? -1 then cancel_anonymous id iface (ScanCommand no_params (mkScanHandler false false)) else wifi_cancel_cmd id.

(** gscan.cpp:754-777 [wifi_enable_full_scan_results]. *)
Definition wifi_enable_full_scan_results (id iface : Z) (handler : wifi_scan_result_handler) : prog Z :=
  start_command id iface (FullScanResultsCommand handler).

(** gscan.cpp:830-849 [wifi_disable_full_scan_results]. *)
Definition wifi_disable_full_scan_results (id iface : Z) : prog Z :=
  if id =? -1 then cancel_anonymous 0 iface (FullScanResultsCommand (mkScanHandler false false)) else wifi_cancel_cmd id.

(** gscan.cpp:1407-1426 [wifi_set_bssid_hotlist]. *)
Definition wifi_set_bssid_hotlist (id iface : Z) (params : wifi_bssid_hotlist_params) (handler : wifi_hotlist_handler) : prog Z :=
  start_command id iface (BssidHotlistCommand params handler).
(** gscan.cpp:1428-1431 [wifi_reset_bssid_hotlist]. *)
Definition wifi_reset_bssid_hotlist (id iface : Z) : prog Z := wifi_cancel_cmd id.

(** gscan.cpp:1637-1657 [wifi_set_significant_change_handler]. *)
Definition wifi_set_significant_change_handler (id iface : Z) (params : wifi_significant_change_params) (handler : bool) : prog Z :=
  start_command id iface (SignificantWifiChangeCommand params handler).
(** gscan.cpp:1659-1662 [wifi_reset_significant_change_handler]. *)
Definition wifi_reset_significant_change_handler (id iface : Z) : prog Z := wifi_cancel_cmd id.

Definition no_epno : wifi_epno_params := mkEpno 0 0 0 0 0 0 0 0 [].

(** gscan.cpp:1664-1678 [wifi_reset_epno_list]. *)
Definition wifi_reset_epno_list (id iface : Z) : prog Z :=
  if id =? -1 then cancel_anonymous id iface (ePNOCommand no_epno false) else wifi_cancel_cmd id.
(** gscan.cpp:1680-1699 [wifi_set_epno_list]. *)
Definition wifi_set_epno_list (id iface : Z) (params : option wifi_epno_params) (handler : bool) : prog Z :=
  start_command id iface (ePNOCommand (default no_epno params) handler).

(** gscan.cpp:1856-1875 [wifi_set_passpoint_list]. *)
Definition wifi_set_passpoint_list (id iface : Z) (networks : list wifi_passpoint_network) (handler : bool) : prog Z :=
  start_command id iface (AnqpoConfigureCommand networks handler).
(** gscan.cpp:1877-1880 [wifi_reset_passpoint_list]. *)
Definition wifi_reset_passpoint_list (id iface : Z) : prog Z := wifi_cancel_cmd id.

(** wifi_hal.cpp:1022-1041 [wifi_start_rssi_monitoring]. *)
Definition wifi_start_rssi_monitoring (id iface max_rssi min_rssi : Z) (eh : bool) : prog Z :=
  start_command id iface (SetRSSIMonitorCommand max_rssi min_rssi eh).
(** wifi_hal.cpp:1043-1059 [wifi_stop_rssi_monitoring]. *)
Definition wifi_stop_rssi_monitoring (id iface : Z) : prog Z :=
  if id =? -1 then cancel_anonymous id iface (SetRSSIMonitorCommand 0 0 false) else wifi_cancel_cmd id.

Definition rtt_init : rtt_state := mkRttState 0 0 [].

(** rtt.cpp:626-644 [wifi_rtt_range_request]. *)
Definition wifi_rtt_range_request (id iface : Z) (rtt_config : list wifi_rtt_config) (handler : bool) : prog Z :=
  start_command id iface (RttCommand rtt_config rtt_init handler).

(** rtt.cpp:647-656 [wifi_rtt_range_cancel]. *)
Definition wifi_rtt_range_cancel (id iface : Z) (addr : list (list Z)) : prog Z :=
  let! c := act (new_command id iface (RttCommand [] rtt_init false)) in
  if c =? 0 then Ret WIFI_ERROR_OUT_OF_MEMORY
  else Rtt_cancel_specific addr c ;! act (releaseRef c) ;! Ret WIFI_SUCCESS.

(** * Queries *)

(** cpp_bindings.cpp:585-592 [WifiCommand::requestResponse]. A command on the stack: its message is built
    by [create], and its replies are handled by [h] on the caller's data [l]. *)
Definition query {L} (iface : Z) (create : ST WifiRequest Z) (h : response_fn L) (l : L) : prog (Z * L) :=
  let! (err, msg) := act (
    let* s := getM in
    match create (mkRequest (nl80211_family_id (info s)) iface None (msg_allocs s)) with
    | Ok (r, rq) => modM (fun s => s <| msg_allocs := nl_alloc rq |>);; retM (r, rq_msg rq)
    | Undef => undefM
    | Blocked => blockM
    end) in
  if err <? 0 then Ret (err, l) else requestResponse h msg l.

(** gscan.cpp:229-234 [wifi_get_gscan_capabilities]. *)
Definition wifi_get_gscan_capabilities (iface : Z) : prog (Z * list Z) :=
  query iface GetCapabilities_create GetCapabilities_handleResponse (zeros (Z.to_nat sizeof_wifi_gscan_capabilities)).

(** gscan.cpp:319-324 [wifi_get_valid_channels]. *)
Definition wifi_get_valid_channels (iface band max_channels num_channels : Z) : prog (Z * channel_list) :=
  query iface (GetChannelList_create band) (GetChannelList_handleResponse max_channels)
    (mkChannels (zeros (Z.to_nat max_channels)) num_channels 0).

(** wifi_hal.cpp:1008-1013 [wifi_get_concurrency_matrix]. *)
Definition wifi_get_concurrency_matrix (iface set_size_max : Z) (set : option (list Z)) (set_size : option Z) : prog (Z * feature_sets) :=
  query iface (GetFeatureSet_create WIFI_ATTRIBUTE_NUM_FEATURE_SET)
    (GetFeatureSet_handleResponse WIFI_ATTRIBUTE_NUM_FEATURE_SET set_size_max) (mkFeatures None set set_size 0 0).

(** wifi_hal.cpp:1016-1020 [wifi_set_country_code]. *)
Definition wifi_set_country_code (iface : Z) (country_code : list Z) : prog (Z * unit) :=
  query iface (SetCountryCode_create country_code) skip_response tt.

(** rtt.cpp:659-664 [wifi_get_rtt_capabilities]. *)
Definition wifi_get_rtt_capabilities (iface : Z) : prog (Z * list Z) :=
  query iface GetRttCapabilities_create GetRttCapabilities_handleResponse (zeros (Z.to_nat sizeof_wifi_rtt_capabilities)).

(** rtt.cpp:667-673 [wifi_rtt_get_responder_info]. *)
Definition wifi_rtt_get_responder_info (iface : Z) : prog (Z * list Z) :=
  query iface GetRttResponderInfo_create GetRttResponderInfo_handleResponse (zeros (Z.to_nat sizeof_wifi_rtt_responder)).

(** rtt.cpp:681-687 [wifi_enable_responder]. The hint and the duration are not sent. *)
Definition wifi_enable_responder (iface : Z) : prog (Z * list Z) :=
  query iface EnableResponder_create EnableResponder_handleResponse (zeros (Z.to_nat sizeof_wifi_rtt_responder)).

(** rtt.cpp:692-696 [wifi_disable_responder]. *)
Definition wifi_disable_responder (iface : Z) : prog (Z * unit) :=
  query iface CancelResponder_create CancelResponder_handleResponse tt.

(** wifi_hal.cpp:875-883 [wifi_get_multicast_id]. *)
Definition wifi_get_multicast_id (nlctrl : Z) (name group : list Z) : prog Z :=
  let! (res, id) := query (-1) (GetMulticastId_create nlctrl name) (GetMulticastId_handleResponse group) (-1) in
  Ret (if res <? 0 then res else id).

(** gscan.cpp:889-924 [GetScanResultsCommand::execute]. At most [n] more rounds. *)
Fixpoint execute_loop (n : nat) (c mMax mFlush : Z) (g : scan_results) : prog (Z * scan_results) :=
  match n with
  | O => Ret (WIFI_SUCCESS, g)
  | S n' =>
      if mRetrieved g <? mMax then
        let! (result, msg) := act (build c (GetScanResults_createRequest (mMax - mRetrieved g) mFlush)) in
        if result <? 0 then Ret (result, g)
        else
          let! (result, g') := requestResponse (GetScanResults_handleResponse mMax) msg g in
          if failed result then Ret (result, g')
          else if (mRetrieved g' =? mRetrieved g) || truth (gs_completed g') then Ret (WIFI_SUCCESS, g')
          else execute_loop n' c mMax mFlush g'
      else Ret (WIFI_SUCCESS, g)
  end.

(** gscan.cpp:1016-1026 [wifi_get_cached_gscan_results]. The caller's array and, on success, the number of
    scans stored. *)
Definition wifi_get_cached_gscan_results (iface flush max : Z) (results : list wifi_cached_scan_results) (num : Z)
    : prog (Z * list wifi_cached_scan_results * Z) :=
  let! c := act (new_command (-1) iface GetScanResultsCommand) in
  if c =? 0 then Ret (WIFI_ERROR_OUT_OF_MEMORY, results, num)
  else
    let! (err, g) := execute_loop 10 c max flush (mkScans results 0 0 0 0 0 0) in
    act (releaseRef c) ;!
    Ret (err, mScans g, if err =? WIFI_SUCCESS then mRetrieved g else num).

(** wifi_offload.cpp:160-174 [MKeepAliveCommand::start]. *)
Definition MKeepAlive_start (c : Z) (rq : ST WifiRequest Z) : prog Z :=
  let! (result, msg) := act (build c rq) in
  if failed result then Ret result
  else let! r := requestResponse MKeepAlive_handleResponse msg tt in Ret r.1.

(** wifi_offload.cpp:203-219 [wifi_start_sending_offloaded_packet]. A null pointer is [None]; the index is
    stored in a byte. *)
Definition wifi_start_sending_offloaded_packet (index iface : Z) (ip_packet src_mac_addr dst_mac_addr : option (list Z))
    (period_msec : Z) : prog Z :=
  match ip_packet, src_mac_addr, dst_mac_addr with
  | Some ip, Some src, Some dst =>
      if ((0 <? index) && (index <=? N_AVAIL_ID)) && (0 <? period_msec) && (zlen ip <=? MKEEP_ALIVE_IP_PKT_MAX) then
        let! c := act (new_command 0 iface MKeepAliveCommand) in
        if c =? 0 then Ret WIFI_ERROR_OUT_OF_MEMORY
        else
          let! result := MKeepAlive_start c (MKeepAlive_createRequest START_MKEEP_ALIVE (u8 index) ip src dst period_msec) in
          act (releaseRef c) ;! Ret result
      else Ret WIFI_ERROR_INVALID_ARGS
  | _, _, _ => Ret WIFI_ERROR_INVALID_ARGS
  end.

(** wifi_offload.cpp:222-234 [wifi_stop_sending_offloaded_packet]. *)
Definition wifi_stop_sending_offloaded_packet (index iface : Z) : prog Z :=
  if (0 <? index) && (index <=? N_AVAIL_ID) then
    let! c := act (new_command 0 iface MKeepAliveCommand) in
    if c =? 0 then Ret WIFI_ERROR_OUT_OF_MEMORY
    else
      let! result := MKeepAlive_start c (MKeepAlive_createRequest STOP_MKEEP_ALIVE (u8 index) [] [] [] 0) in
      act (releaseRef c) ;! Ret result
  else Ret WIFI_ERROR_INVALID_ARGS.

(** * Events *)

(** rtt.cpp:521-607 [RttCommand::handleEvent, results]. The results of the event are added to those of the
    command; when the measurement is complete, they are returned with the id. *)
Definition Rtt_collect (c : Z) (event : WifiEvent) : WIFI (option (Z * rtt_state * bool)) :=
  let* x := get_command c in
  match body x with
  | RttCommand params st h =>
      let* s := getM in
      match rtt_parse event (st, mallocs s) with
      | Ok (_, (st', ms)) =>
          modM (fun s => s <| mallocs := ms |>);;
          put_command c (x <| body := RttCommand params st' h |>);;
          retM (if truth (mCompleted st') then Some (mId x, st', h) else None)
      | Undef => undefM
      | Blocked => blockM
      end
  | _ => retM None
  end.

(** rtt.cpp:611-615 [RttCommand::handleEvent, freeing]. *)
Definition Rtt_clear (c : Z) : WIFI unit :=
  let* x := get_command c in
  match body x with
  | RttCommand params st h => put_command c (x <| body := RttCommand params (st <| totalCnt := 0 |> <| rttResults := [] |>) h |>)
  | _ => retM tt
  end.

(** rtt.cpp:521-621 [RttCommand::handleEvent]. The handler is called without a look at its pointer. *)
Definition Rtt_handleEvent (c : Z) (event : WifiEvent) : prog unit :=
  let! done := act (Rtt_collect c event) in
  match done with
  | None => Ret tt
  | Some (id, st, h) =>
      unregisterVendorHandler RTT_EVENT_COMPLETE ;!
      act (if h : bool then emit (OnRttResults id (totalCnt st) (rttResults st)) else undefM) ;!
      act (Rtt_clear c) ;!
      let! d := in_table (wifi_unregister_cmd id) in
      if d =? 0 then Ret tt else act (releaseRef d)
  end.

(** cpp_bindings.h:307-310 [WifiCommand::handleEvent]. The method of each class. *)
Definition handleEvent (c : Z) (event : WifiEvent) : prog unit :=
  let! x := act (get_command c) in
  let id := mId x in
  match body x with
  | ScanCommand _ h => act (Scan_handleEvent id h event)
  | FullScanResultsCommand h => act (FullScan_handleEvent id h event)
  | BssidHotlistCommand _ h => act (Hotlist_handleEvent id h event)
  | ePNOCommand _ h => act (ePNO_handleEvent id h event)
  | SignificantWifiChangeCommand _ h => act (SigChange_handleEvent id h event)
  | AnqpoConfigureCommand _ h => act (Anqpo_handleEvent id h event)
  | SetRSSIMonitorCommand _ _ h => act (RSSI_handleEvent id h event)
  | RttCommand _ _ _ => Rtt_handleEvent c event
  | GetScanResultsCommand | MKeepAliveCommand => Ret tt
  end.

(** cpp_bindings.cpp:696-709 [WifiCommand::event_handler]. *)
Definition event_handler (msg : nl_msg) (c : Z) : prog unit :=
  let (res, event) := WifiEvent_parse msg in
  if res <? 0 then Ret tt else handleEvent c event.

(** wifi_hal.cpp:511-518 [internal_valid_message_handler, match]. *)
Definition matches (cmd id subcmd : Z) (x : cb_info) : bool :=
  (cmd =? nl_cmd x) && negb ((cmd =? NL80211_CMD_VENDOR) && (negb (id =? vendor_id x) || negb (subcmd =? vendor_subcmd x))).

(** wifi_hal.cpp:493-528 [internal_valid_message_handler, look-up]. The command of the first handler that
    matches, with one more reference. *)
Definition find_handler (event : WifiEvent) : WIFI (option Z) :=
  let cmd := get_cmd event in
  let* id := of_option (if cmd =? NL80211_CMD_VENDOR then get_u32 event NL80211_ATTR_VENDOR_ID else Some 0) in
  let* subcmd := of_option (if cmd =? NL80211_CMD_VENDOR then i32 <$> get_u32 event NL80211_ATTR_VENDOR_SUBCMD else Some 0) in
  let* s := getM in
  match list_find (fun x => matches cmd id subcmd x = true) (handlers (info s)) with
  | Some (_, x) => addRef (cb_arg x);; retM (Some (cb_arg x))
  | None => retM None
  end.

(** wifi_hal.cpp:481-541 [internal_valid_message_handler]. *)
Definition internal_valid_message_handler (msg : nl_msg) : prog nl_cb_action :=
  let (res, event) := WifiEvent_parse msg in
  if res <? 0 then Ret NL_SKIP
  else
    let! found := act (find_handler event) in
    match found with
    | Some c => event_handler msg c ;! act (releaseRef c) ;! Ret NL_OK
    | None => Ret NL_OK
    end.

(** wifi_hal.cpp:404-412 [internal_pollin_handler]. The messages that have arrived, in order. *)
Fixpoint internal_pollin_handler (msgs : list nl_msg) : prog unit :=
  match msgs with
  | [] => Ret tt
  | msg :: msgs' => internal_valid_message_handler msg ;! internal_pollin_handler msgs'
  end.

(** What a call of [poll] finds: its result, the events of the two descriptors, the messages and
    the bytes there are to read. *)
Record poll_result := mkPoll {
  po_result : Z; po_err : bool; po_hup : bool; po_in : bool; po_cleanup : bool; po_msgs : list nl_msg; po_buf : list Z;
}.

(** wifi_hal.cpp:435-470 [wifi_event_loop, turn]. Whether the loop is left. *)
Definition event_loop_turn (p : poll_result) : prog bool :=
  if po_result p <? 0 then Ret false
  else if po_err p then Ret false
  else if po_hup p then Ret true
  else if po_in p then internal_pollin_handler (po_msgs p) ;! Ret false
  else if po_cleanup p then Ret (has_prefix (str "Exit") (po_buf p))
  else Ret false.

(** The turns, each with what [poll] finds; without an event the thread sleeps. *)
Fixpoint event_loop_turns (ps : list poll_result) : prog unit :=
  match ps with
  | [] => act blockM
  | p :: ps' =>
      let! leave := event_loop_turn p in
      if leave : bool then Ret tt
      else
        let! s := act getM in
        if clean_up (info s) then Ret tt else event_loop_turns ps'
  end.

(** wifi_hal.cpp:415-473 [wifi_event_loop]. *)
Definition wifi_event_loop (ps : list poll_result) : prog unit :=
  let! running := act (let* s := getM in mod_info (fun h => h <| in_event_loop := true |>);; retM (in_event_loop (info s))) in
  if running then Ret tt else event_loop_turns ps.

(** * Clean-up *)

(** wifi_hal.cpp:377-393 [wifi_cleanup, loop]. A null pointer in the table would be looked at for ever. *)
Fixpoint cleanup_loop (fuel : nat) (bad_commands : Z) : prog unit :=
  match fuel with
  | O => act blockM
  | S fuel' =>
      let! s := act getM in
      if bad_commands <? num_cmd (info s) then
        let! x := act (of_option (cmd (info s) !! Z.to_nat bad_commands)) in
        if ci_cmd x =? 0 then cleanup_loop fuel' bad_commands
        else
          cancel (ci_cmd x) ;!
          let! s' := act getM in
          act (releaseRef (ci_cmd x)) ;!
          cleanup_loop fuel' (if num_cmd (info s) =? num_cmd (info s') then bad_commands + 1 else bad_commands)
      else Ret tt
  end.

(** wifi_hal.cpp:341-402 [wifi_cleanup]. The exchange with the event loop has taken place; the handler of
    the caller is called at the end. *)
Definition wifi_cleanup : prog unit :=
  act (mod_info (fun h => h <| clean_up := true |>)) ;!
  let! s := act getM in
  cleanup_loop (S (Z.to_nat (num_cmd (info s)))) 0 ;!
  act (emit CleanedUp).

End Api.
