(* ===== verification/WifiTables.v ===== *)
(** The tables of event handlers and of commands of the Wi-Fi HAL
    (src/hal/wifi_hal/common.cpp) as the lists they stand for: the arrays of fixed size, with
    their counts and [memmove], refine bounded lists with removal of the first match. *)

From stdpp Require Import base list gmap numbers.
From Stdlib Require Import ZArith Lia.
From S2P Require Import Prelude WifiNl WifiTypes WifiHal.

Local Open Scope Z_scope.
Local Open Scope st_scope.
Local Open Scope rec_scope.

(** The arrays have the sizes [wifi_initialize] gives them, and the counts are within them. *)
Record hal_wf (h : hal_info) : Prop := {
  wf_event_cb : zlen (event_cb h) = DEFAULT_EVENT_CB_SIZE;
  wf_alloc_event_cb : alloc_event_cb h = DEFAULT_EVENT_CB_SIZE;
  wf_num_event_cb : 0 <= num_event_cb h <= DEFAULT_EVENT_CB_SIZE;
  wf_cmd : zlen (cmd h) = DEFAULT_CMD_SIZE;
  wf_alloc_cmd : alloc_cmd h = DEFAULT_CMD_SIZE;
  wf_num_cmd : 0 <= num_cmd h <= DEFAULT_CMD_SIZE;
}.

Lemma length_handlers h : hal_wf h -> zlen (handlers h) = num_event_cb h.
Proof. intros []. unfold handlers, zlen in *. rewrite length_take. lia. Qed.

Lemma length_registered h : hal_wf h -> zlen (registered h) = num_cmd h.
Proof. intros []. unfold registered, zlen in *. rewrite length_take. lia. Qed.

(** * Removal *)

(** The list without the entry at [i]. *)
Definition remove_at {A} (i : nat) (l : list A) : list A := take i l ++ drop (S i) l.

Fixpoint remove_first {A} (f : A -> bool) (l : list A) : list A :=
  match l with
  | [] => []
  | x :: l' => if f x then l' else x :: remove_first f l'
  end.

Fixpoint find_first {A} (f : A -> bool) (l : list A) : option A :=
  match l with
  | [] => None
  | x :: l' => if f x then Some x else find_first f l'
  end.

Lemma list_find_remove {A} (P : A -> Prop) `{!forall x, Decision (P x)} (f : A -> bool) (l : list A) :
  (forall x, P x <-> f x = true) ->
  match list_find P l with
  | Some (i, x) => find_first f l = Some x /\ remove_at i l = remove_first f l /\ (i < length l)%nat
  | None => find_first f l = None /\ remove_first f l = l
  end.
Proof.
  intros Hf. induction l as [|y l IH]; cbn; [done|].
  case_decide as Hy; cbn.
  - rewrite (proj1 (Hf y) Hy). unfold remove_at. cbn. split; [done|]. split; [done|lia].
  - destruct (f y) eqn:E; [by apply Hf in E|]. destruct (list_find P l) as [[i x]|]; cbn.
    + destruct IH as (IH1 & IH2 & IH3). split; [done|]. split; [|lia]. unfold remove_at in *. cbn. by rewrite IH2.
    + destruct IH as (IH1 & IH2). by rewrite IH2.
Qed.

Lemma move_down_take {A} (a : list A) i n : (i < n <= length a)%nat ->
  take (n - 1) (move_down a i n) = remove_at i (take n a) /\ length (move_down a i n) = length a.
Proof.
  intros Hi. unfold move_down, remove_at. split.
  - rewrite take_take, Nat.min_l by lia. rewrite take_app, take_app.
    rewrite !length_take, !length_drop, take_take, take_take, Nat.min_r by lia.
    replace (n - 1 - _ - _)%nat with 0%nat by lia. rewrite take_0, app_nil_r. f_equal.
    rewrite Nat.min_r by lia. rewrite skipn_firstn_comm. replace (i + 1)%nat with (S i) by lia. f_equal. lia.
  - rewrite !length_app, !length_take, !length_drop. lia.
Qed.

Lemma remove_first_sublist {A} f (l : list A) : remove_first f l `sublist_of` l.
Proof. induction l as [|x l IH]; cbn; [done|]. destruct (f x); [by apply sublist_cons|by apply sublist_skip]. Qed.

Lemma elem_of_remove_first {A} f (l : list A) x : x ∈ remove_first f l -> x ∈ l.
Proof.
  induction l as [|y l IH]; cbn; [done|]. destruct (f y); [by right|].
  intros [->|H]%elem_of_cons; [left|right; auto].
Qed.

Lemma find_first_Some {A} f (l : list A) x : find_first f l = Some x -> x ∈ l /\ f x = true.
Proof.
  induction l as [|y l IH]; cbn; [done|]. destruct (f y) eqn:E.
  - intros [= <-]. split; [left|done].
  - intros [H1 H2]%IH. split; [by right|done].
Qed.

Lemma find_first_None {A} f (l : list A) : find_first f l = None <-> Forall (fun x => f x = false) l.
Proof.
  induction l as [|y l IH]; cbn; [done|]. rewrite list.Forall_cons. destruct (f y) eqn:E; [|by rewrite IH; intuition].
  split; [done|]. by intros [? _].
Qed.

Lemma remove_first_none {A} f (l : list A) : Forall (fun x => f x = false) l -> remove_first f l = l.
Proof. induction 1 as [|x l Hx Hl IH]; cbn; [done|]. by rewrite Hx, IH. Qed.

Lemma remove_first_app {A} f (l k : list A) : Forall (fun x => f x = false) l -> remove_first f (l ++ k) = l ++ remove_first f k.
Proof. induction 1 as [|x l Hx Hl IH]; cbn; [done|]. by rewrite Hx, IH. Qed.

(** * The operations *)

(** The state with its tables replaced. *)
Definition same_but_tables (s s' : Wifi) : Prop := s' = s <| info := info s' |>.

Section Tables.
Context `{N80211 : Nl80211} `{HH : WifiHalH}.

Lemma add_cb_spec h x : hal_wf h -> num_event_cb h < DEFAULT_EVENT_CB_SIZE ->
  hal_wf (add_cb x h) /\ handlers (add_cb x h) = handlers h ++ [x] /\ registered (add_cb x h) = registered h.
Proof.
  intros [] Hn. split; [|split; [|done]].
  - split; cbn; try done; [|lia]. unfold zlen in *. by rewrite length_insert.
  - unfold handlers. cbn. replace (Z.to_nat (num_event_cb h + 1)) with (S (Z.to_nat (num_event_cb h))) by lia.
    rewrite (take_S_r _ _ x) by (apply list_lookup_insert_eq; unfold zlen, DEFAULT_EVENT_CB_SIZE in *; lia).
    by rewrite take_insert_ge by lia.
Qed.

Lemma remove_cb_spec h i : hal_wf h -> (i < length (handlers h))%nat ->
  hal_wf (remove_cb i h) /\ handlers (remove_cb i h) = remove_at i (handlers h) /\ registered (remove_cb i h) = registered h.
Proof.
  intros [] Hi. unfold handlers in Hi. rewrite length_take in Hi.
  assert (Hn : (i < Z.to_nat (num_event_cb h) <= length (event_cb h))%nat) by (unfold zlen in *; lia).
  destruct (move_down_take _ _ _ Hn) as [H1 H2]. split; [|split; [|done]].
  - split; cbn; try done; [|lia]. unfold zlen in *. by rewrite H2.
  - unfold handlers. cbn. replace (Z.to_nat (num_event_cb h - 1)) with (Z.to_nat (num_event_cb h) - 1)%nat by lia. done.
Qed.

Lemma remove_cmd_spec h i : hal_wf h -> (i < length (registered h))%nat ->
  hal_wf (remove_cmd i h) /\ registered (remove_cmd i h) = remove_at i (registered h) /\ handlers (remove_cmd i h) = handlers h.
Proof.
  intros [] Hi. unfold registered in Hi. rewrite length_take in Hi.
  assert (Hn : (i < Z.to_nat (num_cmd h) <= length (cmd h))%nat) by (unfold zlen in *; lia).
  destruct (move_down_take _ _ _ Hn) as [H1 H2]. split; [|split; [|done]].
  - split; cbn; try done; [|lia]. unfold zlen in *. by rewrite H2.
  - unfold registered. cbn. replace (Z.to_nat (num_cmd h - 1)) with (Z.to_nat (num_cmd h) - 1)%nat by lia. done.
Qed.

(** What each operation returns and how it leaves the state, on the lists. *)
Definition table_step {A} (m : WIFI A) (s : Wifi) (r : A) (hs : list cb_info) (cs : list cmd_info) : Prop :=
  exists s', m s = Ok (r, s') /\ same_but_tables s s' /\ hal_wf (info s') /\ handlers (info s') = hs /\ registered (info s') = cs.

Lemma add_handler_step s x (e : Z) : hal_wf (info s) ->
  table_step (let* s := getM in
    if num_event_cb (info s) <? alloc_event_cb (info s) then mod_info (add_cb x);; retM WIFI_SUCCESS else retM e) s
    (if zlen (handlers (info s)) <? DEFAULT_EVENT_CB_SIZE then WIFI_SUCCESS else e)
    (if zlen (handlers (info s)) <? DEFAULT_EVENT_CB_SIZE then handlers (info s) ++ [x] else handlers (info s))
    (registered (info s)).
Proof.
  intros Hwf. rewrite length_handlers by done. unfold table_step. rewrite (bindM_ok _ _ s s s) by done.
  rewrite (wf_alloc_event_cb _ Hwf). destruct (Z.ltb_spec (num_event_cb (info s)) DEFAULT_EVENT_CB_SIZE) as [Hlt|Hge].
  - destruct (add_cb_spec (info s) x Hwf Hlt) as (H1 & H2 & H3). eexists. split; [reflexivity|]. done.
  - exists s. split; [done|]. split; [by destruct s|done].
Qed.

Lemma remove_handler_step s (P : cb_info -> Prop) `{!forall x, Decision (P x)} f : (forall x, P x <-> f x = true) -> hal_wf (info s) ->
  table_step (let* s := getM in
    match list_find P (handlers (info s)) with Some (i, _) => mod_info (remove_cb i) | None => retM tt end) s tt
    (remove_first f (handlers (info s))) (registered (info s)).
Proof.
  intros Hf Hwf. unfold table_step. rewrite (bindM_ok _ _ s s s) by done.
  pose proof (list_find_remove P f (handlers (info s)) Hf) as Hfind.
  destruct (list_find P (handlers (info s))) as [[i x]|].
  - destruct Hfind as (_ & <- & Hi). destruct (remove_cb_spec _ i Hwf Hi) as (H1 & H2 & H3).
    eexists. split; [reflexivity|]. done.
  - destruct Hfind as [_ ->]. exists s. split; [done|]. split; [by destruct s|done].
Qed.

Lemma remove_command_step {B} s (P : cmd_info -> Prop) `{!forall x, Decision (P x)} f (g : cmd_info -> B) (d : B) :
  (forall x, P x <-> f x = true) -> hal_wf (info s) ->
  table_step (let* s := getM in
    match list_find P (registered (info s)) with Some (i, x) => mod_info (remove_cmd i);; retM (g x) | None => retM d end) s
    (match find_first f (registered (info s)) with Some x => g x | None => d end)
    (handlers (info s)) (remove_first f (registered (info s))).
Proof.
  intros Hf Hwf. unfold table_step. rewrite (bindM_ok _ _ s s s) by done.
  pose proof (list_find_remove P f (registered (info s)) Hf) as Hfind.
  destruct (list_find P (registered (info s))) as [[i x]|].
  - destruct Hfind as (-> & <- & Hi). destruct (remove_cmd_spec _ i Hwf Hi) as (H1 & H2 & H3).
    eexists. split; [reflexivity|]. done.
  - destruct Hfind as [-> ->]. exists s. split; [done|]. split; [by destruct s|done].
Qed.

Lemma register_vendor_step s id subcmd arg : hal_wf (info s) ->
  let room := zlen (handlers (info s)) <? DEFAULT_EVENT_CB_SIZE in
  table_step (wifi_register_vendor_handler id subcmd arg) s (if room then WIFI_SUCCESS else WIFI_ERROR_OUT_OF_MEMORY)
    (if room then handlers (info s) ++ [mkCb NL80211_CMD_VENDOR id subcmd arg] else handlers (info s)) (registered (info s)).
Proof. apply add_handler_step. Qed.

Lemma unregister_vendor_step s id subcmd : hal_wf (info s) ->
  table_step (wifi_unregister_vendor_handler id subcmd) s tt
    (remove_first (vendor_cb id subcmd) (handlers (info s))) (registered (info s)).
Proof. by apply remove_handler_step. Qed.

Lemma register_cmd_step s id c : hal_wf (info s) ->
  let room := zlen (registered (info s)) <? DEFAULT_CMD_SIZE in
  table_step (wifi_register_cmd id c) s (if room then WIFI_SUCCESS else WIFI_ERROR_OUT_OF_MEMORY)
    (handlers (info s)) (if room then registered (info s) ++ [mkCmdInfo id c] else registered (info s)).
Proof.
  intros Hwf. pose proof Hwf as []. cbv zeta. rewrite length_registered by done. unfold table_step, wifi_register_cmd.
  rewrite (bindM_ok _ _ s s s) by done. rewrite wf_alloc_cmd0.
  destruct (Z.ltb_spec (num_cmd (info s)) DEFAULT_CMD_SIZE) as [Hlt|Hge].
  - eexists. split; [reflexivity|]. split; [done|]. split; [|split; [done|]].
    + split; cbn; try done; [|lia]. unfold zlen in *. by rewrite length_insert.
    + unfold registered. cbn. replace (Z.to_nat (num_cmd (info s) + 1)) with (S (Z.to_nat (num_cmd (info s)))) by lia.
      rewrite (take_S_r _ _ (mkCmdInfo id c)) by (apply list_lookup_insert_eq; unfold zlen, DEFAULT_CMD_SIZE in *; lia).
      by rewrite take_insert_ge by lia.
  - exists s. split; [done|]. split; [by destruct s|done].
Qed.

Definition has_id (id : Z) (x : cmd_info) : bool := ci_id x =? id.

Lemma unregister_cmd_step s id : hal_wf (info s) ->
  table_step (wifi_unregister_cmd id) s (match find_first (has_id id) (registered (info s)) with Some x => ci_cmd x | None => 0 end)
    (handlers (info s)) (remove_first (has_id id) (registered (info s))).
Proof. apply remove_command_step. intros x. symmetry. apply Z.eqb_eq. Qed.

(** * The tables as lists *)

Inductive table_op :=
  | TRegisterHandler (cmd arg : Z)
  | TRegisterVendorHandler (id subcmd arg : Z)
  | TUnregisterHandler (cmd : Z)
  | TUnregisterVendorHandler (id subcmd : Z)
  | TRegisterCmd (id c : Z)
  | TUnregisterCmd (id : Z)
  | TUnregisterCmdPtr (c : Z)
  | TGetCmd (id : Z).

Definition table_run (o : table_op) : WIFI Z :=
  match o with
  | TRegisterHandler cmd arg => wifi_register_handler cmd arg
  | TRegisterVendorHandler id subcmd arg => wifi_register_vendor_handler id subcmd arg
  | TUnregisterHandler cmd => wifi_unregister_handler cmd;; retM 0
  | TUnregisterVendorHandler id subcmd => wifi_unregister_vendor_handler id subcmd;; retM 0
  | TRegisterCmd id c => wifi_register_cmd id c
  | TUnregisterCmd id => wifi_unregister_cmd id
  | TUnregisterCmdPtr c => wifi_unregister_cmd_ptr c;; retM 0
  | TGetCmd id => wifi_get_cmd id
  end.

(** The same on lists of at most 64 entries: an entry is added at the end, the first entry that
    matches is removed, and the others stay in their order. *)
Definition table_spec (o : table_op) (hs : list cb_info) (cs : list cmd_info) : Z * list cb_info * list cmd_info :=
  let add x := if zlen hs <? 64 then (0, hs ++ [x], cs) else (WIFI_ERROR_OUT_OF_MEMORY, hs, cs) in
  match o with
  | TRegisterHandler cmd arg => add (mkCb cmd 0 0 arg)
  | TRegisterVendorHandler id subcmd arg => add (mkCb NL80211_CMD_VENDOR id subcmd arg)
  | TUnregisterHandler cmd =>
      if cmd =? NL80211_CMD_VENDOR then (0, hs, cs) else (0, remove_first (fun x => nl_cmd x =? cmd) hs, cs)
  | TUnregisterVendorHandler id subcmd => (0, remove_first (vendor_cb id subcmd) hs, cs)
  | TRegisterCmd id c => if zlen cs <? 64 then (0, hs, cs ++ [mkCmdInfo id c]) else (WIFI_ERROR_OUT_OF_MEMORY, hs, cs)
  | TUnregisterCmd id =>
      (match find_first (fun x => ci_id x =? id) cs with Some x => ci_cmd x | None => 0 end, hs,
       remove_first (fun x => ci_id x =? id) cs)
  | TUnregisterCmdPtr c => (0, hs, remove_first (fun x => ci_cmd x =? c) cs)
  | TGetCmd id => (match find_first (fun x => ci_id x =? id) cs with Some x => ci_cmd x | None => 0 end, hs, cs)
  end.

Lemma table_step_unit (m : WIFI unit) s hs cs : table_step m s tt hs cs -> table_step (m;; retM 0) s 0 hs cs.
Proof. intros (s' & E & H). exists s'. by rewrite (bindM_ok _ _ _ _ _ E). Qed.

Lemma table_op_step o s : hal_wf (info s) ->
  let '(r, hs, cs) := table_spec o (handlers (info s)) (registered (info s)) in table_step (table_run o) s r hs cs.
Proof.
  intros Hwf. destruct o; cbn [table_spec table_run].
  - pose proof (add_handler_step s (mkCb cmd 0 0 arg) WIFI_ERROR_OUT_OF_MEMORY Hwf) as H.
    unfold DEFAULT_EVENT_CB_SIZE in H. by destruct (_ <? 64).
  - pose proof (register_vendor_step s id subcmd arg Hwf) as H. cbv zeta in H.
    unfold DEFAULT_EVENT_CB_SIZE in H. by destruct (_ <? 64).
  - unfold wifi_unregister_handler. destruct (_ =? NL80211_CMD_VENDOR).
    + exists s. split; [done|]. split; [by destruct s|done].
    + apply table_step_unit, remove_handler_step; [|done]. intros x. symmetry. apply Z.eqb_eq.
  - by apply table_step_unit, unregister_vendor_step.
  - pose proof (register_cmd_step s id c Hwf) as H. cbv zeta in H. unfold DEFAULT_CMD_SIZE in H. by destruct (_ <? 64).
  - by apply unregister_cmd_step.
  - apply table_step_unit.
    pose proof (remove_command_step s (fun x => ci_cmd x = c) (fun x => ci_cmd x =? c) (fun _ => tt) tt) as H.
    destruct H as (s' & E & H); [intros x; symmetry; apply Z.eqb_eq|done|]. exists s'. split; [|done].
    rewrite (bindM_ok _ _ s s s) in E by done. unfold wifi_unregister_cmd_ptr. rewrite (bindM_ok _ _ s s s) by done.
    revert E. destruct (find_first _ _), (list_find _ _) as [[i x]|]; done.
  - exists s. split; [|split; [by destruct s|done]]. unfold wifi_get_cmd, bindM, getM, retM.
    pose proof (list_find_remove (fun x => ci_id x = id) (fun x => ci_id x =? id) (registered (info s))) as H.
    assert (forall x, ci_id x = id <-> (ci_id x =? id) = true) as Hid by (intros x; symmetry; apply Z.eqb_eq).
    specialize (H Hid). destruct (list_find _ _) as [[i x]|]; by destruct H as [-> _].
Qed.

Fixpoint table_runs (os : list table_op) : WIFI (list Z) :=
  match os with
  | [] => retM []
  | o :: os' => let* r := table_run o in let* rs := table_runs os' in retM (r :: rs)
  end.

Fixpoint table_specs (os : list table_op) (hs : list cb_info) (cs : list cmd_info) : list Z * list cb_info * list cmd_info :=
  match os with
  | [] => ([], hs, cs)
  | o :: os' =>
      let '(r, hs1, cs1) := table_spec o hs cs in
      let '(rs, hs2, cs2) := table_specs os' hs1 cs1 in (r :: rs, hs2, cs2)
  end.

(** C19: The tables are bounded lists. Whatever sequence of registrations, removals and look-ups is
    made from a state whose arrays have their 64 entries, every operation returns, nothing but
    the tables changes, and the results and the entries in use are those of lists of at most 64
    entries: a new entry is added at the end or refused, the first match is removed and the
    others stay in their order. *)
Theorem wifi_tables_refine os s : hal_wf (info s) ->
  exists rs s', table_runs os s = Ok (rs, s') /\ same_but_tables s s' /\ hal_wf (info s') /\
    table_specs os (handlers (info s)) (registered (info s)) = (rs, handlers (info s'), registered (info s')) /\
    zlen (handlers (info s')) <= 64 /\ zlen (registered (info s')) <= 64.
Proof.
  revert s. induction os as [|o os IH]; intros s Hwf.
  - exists [], s. rewrite length_handlers, length_registered by done. destruct (wf_num_cmd _ Hwf), (wf_num_event_cb _ Hwf).
    split; [done|]. split; [by destruct s|done].
  - pose proof (table_op_step o s Hwf) as Hstep. cbn [table_runs table_specs].
    destruct (table_spec o _ _) as [[r hs1] cs1]. destruct Hstep as (s1 & E & S1 & Hwf1 & <- & <-).
    destruct (IH s1 Hwf1) as (rs & s2 & E2 & S2 & Hwf2 & -> & H). exists (r :: rs), s2.
    rewrite (bindM_ok _ _ _ _ _ E), (bindM_ok _ _ _ _ _ E2). split; [done|]. split; [|done].
    unfold same_but_tables in *. rewrite S2. rewrite S1. by destruct s.
Qed.

End Tables.
