(* ===== verification/WifiMsgs.v ===== *)
(** What the requests of the Wi-Fi HAL say (WifiReq): each function that builds a message either
    puts exactly the attributes of its specification into it, properly nested, or, when they do
    not fit into a message, returns an error. *)

From stdpp Require Import base list gmap numbers.
From Stdlib Require Import ZArith Lia.
From S2P Require Import Prelude WifiNl WifiTypes WifiReq.

Local Open Scope Z_scope.
Local Open Scope st_scope.
Local Open Scope rec_scope.

(** * Attributes and calls *)

(** The calls that describe an attribute, the first of which is the [n]-th of the message. *)
Fixpoint ops_of (n : nat) (a : attr) : list nlop :=
  match a with
  | Leaf t bs => [OpPut t bs]
  | Nested t l =>
      OpNest t ::
      (fix go n l := match l with [] => [] | a :: l' => let o := ops_of n a in o ++ go (n + length o)%nat l' end) (S n) l
      ++ [OpEnd n]
  end.

Fixpoint ops_list (n : nat) (l : list attr) : list nlop :=
  match l with [] => [] | a :: l' => ops_of n a ++ ops_list (n + length (ops_of n a)) l' end.

Lemma ops_of_nested n t l : ops_of n (Nested t l) = OpNest t :: ops_list (S n) l ++ [OpEnd n].
Proof. reflexivity. Qed.

Lemma ops_list_app n l k : ops_list n (l ++ k) = ops_list n l ++ ops_list (n + length (ops_list n l)) k.
Proof.
  revert n. induction l as [|a l IH]; intros n; cbn; [by rewrite Nat.add_0_r|].
  rewrite IH, <- app_assoc, length_app. do 2 f_equal. f_equal. lia.
Qed.

Fixpoint attr_size (a : attr) : Z :=
  match a with
  | Leaf _ bs => NLA_HDRLEN + nla_align (zlen bs)
  | Nested _ l => NLA_HDRLEN + foldr (fun a n => attr_size a + n) 0 l
  end.
Definition attrs_size (l : list attr) : Z := foldr (fun a n => attr_size a + n) 0 l.

(** An induction principle for trees of attributes. *)
Lemma attr_ind' (P : attr -> Prop) : (forall t bs, P (Leaf t bs)) -> (forall t l, Forall P l -> P (Nested t l)) -> forall a, P a.
Proof.
  intros HL HN. fix IH 1. intros [t bs|t l]; [apply HL|]. apply HN. induction l as [|a l IHl]; constructor; [apply IH|done].
Qed.

Lemma msg_size_app l k : msg_size (l ++ k) = msg_size l + msg_size k.
Proof. induction l as [|o l IH]; cbn; [done|]. unfold msg_size in IH. rewrite IH. unfold msg_size. lia. Qed.

Lemma msg_size_cons o l : msg_size (o :: l) = op_size o + msg_size l.
Proof. done. Qed.

Lemma msg_size_nil : msg_size [] = 0.
Proof. done. Qed.

Lemma nla_align_ge n : n <= nla_align n.
Proof. unfold nla_align. pose proof (Z.div_mod (n + 3) 4). pose proof (Z.mod_pos_bound (n + 3) 4). lia. Qed.

Lemma op_size_nonneg o : 0 <= op_size o \/ exists f c g h, o = OpHeader f c g h.
Proof.
  destruct o; cbn; [right; by eauto 10| | |lia]; left; unfold NLA_HDRLEN; [|lia].
  pose proof (nla_align_ge (zlen payload)). pose proof (zlen_nonneg payload). lia.
Qed.

Lemma attrs_size_app l k : attrs_size (l ++ k) = attrs_size l + attrs_size k.
Proof. induction l as [|a l IH]; cbn; [done|]. unfold attrs_size in IH. rewrite IH. unfold attrs_size. lia. Qed.

Lemma attrs_size_nested t l : attr_size (Nested t l) = NLA_HDRLEN + attrs_size l.
Proof. done. Qed.

Lemma attr_size_pos a : NLA_HDRLEN <= attr_size a.
Proof.
  induction a as [t bs|t l IH] using attr_ind'; cbn.
  - pose proof (nla_align_ge (zlen bs)). pose proof (zlen_nonneg bs). lia.
  - assert (0 <= foldr (fun a n => attr_size a + n) 0 l); [|lia].
    induction IH as [|a l Ha Hl IHl]; cbn; unfold NLA_HDRLEN in *; lia.
Qed.

Lemma attrs_size_nonneg l : 0 <= attrs_size l.
Proof. induction l as [|a l IH]; cbn; [done|]. pose proof (attr_size_pos a). unfold NLA_HDRLEN, attrs_size in *. lia. Qed.

Lemma size_ops_of a n : msg_size (ops_of n a) = attr_size a.
Proof.
  revert n. induction a as [t bs|t l IH] using attr_ind'; intros n; [cbn; lia|].
  rewrite ops_of_nested, attrs_size_nested. cbn. fold (msg_size (ops_list (S n) l ++ [OpEnd n])). rewrite msg_size_app. cbn.
  rewrite Z.add_0_r. f_equal. generalize (S n). induction IH as [|a l Ha Hl IHl]; intros k; cbn; [done|].
  rewrite msg_size_app, Ha, IHl. done.
Qed.

Lemma size_ops_list l n : msg_size (ops_list n l) = attrs_size l.
Proof.
  revert n. induction l as [|a l IH]; intros n; cbn; [done|]. rewrite msg_size_app, size_ops_of, IH. done.
Qed.

(** Reading the calls of attributes gives the attributes back. *)
Lemma read_ops_of a : forall n rest open cur,
  n <> 0%nat -> read_ops n (ops_of n a ++ rest) open cur = read_ops (n + length (ops_of n a)) rest open (a :: cur).
Proof.
  induction a as [t bs|t l IH] using attr_ind'; intros n rest open cur Hn.
  - cbn. by rewrite Nat.add_1_r.
  - rewrite ops_of_nested. cbn [app read_ops]. rewrite <- app_assoc.
    assert (forall k pre rest', k <> 0%nat ->
      read_ops k (ops_list k l ++ rest') ((n, t, cur) :: open) pre =
      read_ops (k + length (ops_list k l)) rest' ((n, t, cur) :: open) (rev l ++ pre)) as Hl.
    { clear rest. induction IH as [|a l Ha Hl IHl]; intros k pre rest' Hk; cbn [ops_list app rev length].
      - by rewrite Nat.add_0_r.
      - rewrite <- app_assoc, Ha by done. rewrite IHl by lia. rewrite length_app, <- app_assoc. f_equal. lia. }
    rewrite Hl by lia. cbn [app read_ops]. rewrite bool_decide_true by done. rewrite app_nil_r, rev_involutive.
    f_equal. cbn [length]. rewrite length_app. cbn. lia.
Qed.

Lemma read_ops_list l : forall n rest open cur,
  n <> 0%nat -> read_ops n (ops_list n l ++ rest) open cur = read_ops (n + length (ops_list n l)) rest open (rev l ++ cur).
Proof.
  induction l as [|a l IH]; intros n rest open cur Hn; cbn; [by rewrite Nat.add_0_r|].
  rewrite <- app_assoc, read_ops_of, IH by lia. rewrite length_app, <- app_assoc. f_equal. lia.
Qed.

(** The message of a request with the attributes [l]. *)
Definition message (family cmd : Z) (l : list attr) : list nlop := OpHeader family cmd 0 0 :: ops_list 1 l.

Lemma message_attrs family cmd l : request_attrs (message family cmd l) = Some l.
Proof.
  unfold request_attrs, message. cbn [read_ops]. rewrite bool_decide_true by done.
  rewrite <- (app_nil_r (ops_list 1 l)), read_ops_list by done. cbn. by rewrite app_nil_r, rev_involutive.
Qed.

Lemma message_size family cmd l : msg_size (message family cmd l) = 20 + attrs_size l.
Proof. unfold message. cbn. fold (msg_size (ops_list 1 l)). by rewrite size_ops_list. Qed.

(** * Building *)

Section Building.
Context `{NL : Libnl} `{NLL : !LibnlLaws} `{N80211 : Nl80211} `{HH : WifiHalH} `{HHL : !WifiHalHLaws}.
(** A message is a page. *)
Hypothesis page : 4096 <= nlmsg_max.

(** Called on a message of at most [B] bytes, [m] adds the attributes [l] and returns 0, or
    returns an error when they do not fit. *)
Definition puts (B : Z) (m : ST WifiRequest Z) (l : list attr) : Prop :=
  forall rq ops, rq_msg rq = Some ops -> msg_size ops <= B -> msg_size ops <= nlmsg_max ->
  let ops' := ops ++ ops_list (length ops) l in
  exists r k, m rq = Ok (r, rq <| rq_msg := Some k |>) /\
    ((r = 0 /\ k = ops' /\ msg_size ops' <= nlmsg_max) \/ (r < 0 /\ nlmsg_max < msg_size ops')).

Lemma put_puts B t bs : puts B (put t bs) [Leaf t bs].
Proof.
  intros rq ops Hm HB Hfit. cbn [ops_list ops_of app]. rewrite msg_size_app, msg_size_cons, msg_size_nil. cbn [op_size].
  unfold put. rewrite (bindM_ok _ _ rq rq rq) by done. rewrite Hm.
  pose proof (nla_put_law ops t (zlen bs) (zlen_nonneg bs)) as Hlaw. pose proof (nla_put_err ops t (zlen bs)) as Herr.
  destruct (Z.eqb_spec (nla_put ops t (zlen bs)) 0) as [E|E].
  - apply Hlaw in E as E'. eexists _, _. split; [reflexivity|]. left. rewrite E. split; [done|]. split; [done|lia].
  - exists (nla_put ops t (zlen bs)), ops. split; [run; destruct rq; cbn in *; by subst|]. right. split; [lia|].
    destruct (decide (msg_size ops + NLA_HDRLEN + nla_align (zlen bs) <= nlmsg_max)) as [Hf|Hf]; [by apply Hlaw in Hf|lia].
Qed.

Lemma nested_size_tail ops t l l2 n :
  msg_size ops + (NLA_HDRLEN + attrs_size l) + attrs_size l2 =
  msg_size (ops ++ (OpNest t :: ops_list (S (length ops)) l ++ [OpEnd (length ops)]) ++ ops_list n l2).
Proof. rewrite msg_size_app, msg_size_app, <- ops_of_nested, size_ops_of, size_ops_list, attrs_size_nested. lia. Qed.

Lemma puts_mono B B' m l : puts B m l -> B' <= B -> puts B' m l.
Proof. intros H HB rq ops Hm Hs Hfit. apply H; [done|lia|done]. Qed.

Lemma puts_ret B : puts B (retM 0) [].
Proof.
  intros rq ops Hm Hs Hfit. cbn. rewrite app_nil_r. exists 0, ops. split; [run; destruct rq; cbn in *; by subst|].
  left. split; [done|]. split; [done|lia].
Qed.

Lemma puts_bind B m1 (k : Z -> ST WifiRequest Z) l1 l2 :
  puts B m1 l1 -> puts (B + attrs_size l1) (k 0) l2 ->
  puts B (bindM m1 (fun r => if r <? 0 then retM r else k r)) (l1 ++ l2).
Proof.
  intros H1 H2 rq ops Hm HB Hfit. destruct (H1 rq ops Hm HB Hfit) as (r & ops1 & E1 & Hr).
  rewrite (bindM_ok _ _ _ _ _ E1). rewrite ops_list_app, app_assoc.
  destruct Hr as [(-> & -> & Hs)|(Hr & Hs)].
  - replace (0 <? 0) with false by done.
    destruct (H2 (rq <| rq_msg := Some (ops ++ ops_list (length ops) l1) |>) (ops ++ ops_list (length ops) l1))
      as (r & ops2 & E2 & Hr2); [done| |done|].
    { rewrite msg_size_app, size_ops_list. lia. }
    rewrite E2. rewrite length_app in Hr2. exists r, ops2. split; [done|]. exact Hr2.
  - rewrite (proj2 (Z.ltb_lt _ _) Hr). exists r, ops1. split; [done|]. right. split; [done|].
    rewrite msg_size_app, size_ops_list. pose proof (attrs_size_nonneg l2). lia.
Qed.

Lemma attr_start_run t rq ops : rq_msg rq = Some ops ->
  (attr_start t rq = Ok (Some (length ops), rq <| rq_msg := Some (ops ++ [OpNest t]) |>) /\ msg_size ops + NLA_HDRLEN <= nlmsg_max) \/
  (attr_start t rq = Ok (None, rq) /\ nlmsg_max < msg_size ops + NLA_HDRLEN).
Proof.
  intros Hmsg. unfold attr_start. rewrite (bindM_ok _ _ rq rq rq) by done. rewrite Hmsg.
  pose proof (nla_nest_law ops t) as Hlaw. destruct (nla_nest_start ops t) eqn:Et; [left|right].
  - split; [done|]. by apply Hlaw.
  - split; [done|]. destruct (decide (msg_size ops + NLA_HDRLEN <= nlmsg_max)) as [Hf|Hf]; [by apply Hlaw in Hf|lia].
Qed.

(** What is put between the start and the end of an attribute is nested in it; [k] is the rest. *)
Lemma nested_run B t m l (k : Z -> ST WifiRequest Z) l2 rq ops :
  puts (B + NLA_HDRLEN) m l -> puts (B + NLA_HDRLEN + attrs_size l) (k 0) l2 -> msg_size ops <= B ->
  msg_size ops + NLA_HDRLEN <= nlmsg_max ->
  let ops' := ops ++ ops_list (length ops) (Nested t l :: l2) in
  exists r o, bindM m (fun r => if r <? 0 then retM r else (attr_end (Some (length ops));; k r))
      (rq <| rq_msg := Some (ops ++ [OpNest t]) |>) = Ok (r, rq <| rq_msg := Some o |>) /\
    ((r = 0 /\ o = ops' /\ msg_size ops' <= nlmsg_max) \/ (r < 0 /\ nlmsg_max < msg_size ops')).
Proof.
  intros Hm Hk HB Hroom. cbn [ops_list]. rewrite ops_of_nested.
  destruct (Hm (rq <| rq_msg := Some (ops ++ [OpNest t]) |>) (ops ++ [OpNest t])) as (r & ops1 & E1 & Hr); [done| | |].
  1, 2: rewrite msg_size_app, msg_size_cons, msg_size_nil; cbn [op_size]; lia.
  rewrite (bindM_ok _ _ _ _ _ E1). rewrite length_app in Hr. cbn [length] in Hr. rewrite Nat.add_1_r in Hr.
  rewrite <- app_assoc in Hr. cbn [app] in Hr.
  destruct Hr as [(-> & -> & Hs)|(Hr & Hs)].
  - replace (0 <? 0) with false by done.
    set (ops2 := ops ++ OpNest t :: ops_list (S (length ops)) l ++ [OpEnd (length ops)]).
    rewrite (bindM_ok _ _ _ tt (rq <| rq_msg := Some ops2 |>)).
    2: { run. unfold ops2. rewrite <- app_assoc. done. }
    destruct (Hk (rq <| rq_msg := Some ops2 |>) ops2) as (r & ops3 & E3 & Hr3); [done| | |].
    1, 2: unfold ops2; revert Hs; rewrite !msg_size_app, !msg_size_cons, !msg_size_app, !size_ops_list, ?msg_size_cons, ?msg_size_nil;
      cbn [op_size]; lia.
    rewrite E3. exists r, ops3. split; [done|]. unfold ops2 in Hr3. rewrite length_app in Hr3.
    rewrite <- app_assoc in Hr3. exact Hr3.
  - rewrite (proj2 (Z.ltb_lt _ _) Hr). exists r, ops1. split; [done|]. right. split; [done|].
    revert Hs. rewrite <- nested_size_tail. rewrite msg_size_app, msg_size_cons, size_ops_list.
    pose proof (attrs_size_nonneg l2). cbn [op_size]. lia.
Qed.

(** A null pointer for the attribute is followed only when nothing is put into it. *)
Lemma puts_nest B t m l (k : Z -> ST WifiRequest Z) l2 :
  puts (B + NLA_HDRLEN) m l -> (B + NLA_HDRLEN <= nlmsg_max \/ l <> []) ->
  puts (B + NLA_HDRLEN + attrs_size l) (k 0) l2 ->
  puts B (let* a := attr_start t in bindM m (fun r => if r <? 0 then retM r else (attr_end a;; k r))) (Nested t l :: l2).
Proof.
  intros Hm Hne Hk rq ops Hmsg HB Hfit. destruct (attr_start_run t rq ops Hmsg) as [(E & Hroom)|(E & Hfull)]; rewrite (bindM_ok _ _ _ _ _ E).
  - by eapply nested_run.
  - destruct Hne as [Hne|Hne]; [lia|]. cbn [ops_list]. rewrite ops_of_nested.
    destruct (Hm rq ops Hmsg) as (r & ops1 & E1 & Hr); [unfold NLA_HDRLEN; lia|done|]. rewrite (bindM_ok _ _ _ _ _ E1).
    assert (NLA_HDRLEN <= attrs_size l) as Hl.
    { destruct l as [|a l]; [done|]. cbn. pose proof (attr_size_pos a). pose proof (attrs_size_nonneg l). unfold attrs_size in *. lia. }
    destruct Hr as [(-> & -> & Hs)|(Hr & Hs)].
    { rewrite msg_size_app, size_ops_list in Hs. lia. }
    rewrite (proj2 (Z.ltb_lt _ _) Hr). exists r, ops1. split; [done|]. right. split; [done|].
    rewrite <- nested_size_tail. pose proof (attrs_size_nonneg l2). unfold NLA_HDRLEN in *. lia.
Qed.

Lemma puts_elem B t m l : puts (B + NLA_HDRLEN) m l -> puts B (put_elem t m) [Nested t l].
Proof.
  intros Hm rq ops Hmsg HB Hfit. unfold put_elem.
  destruct (attr_start_run t rq ops Hmsg) as [(E & Hroom)|(E & Hfull)]; rewrite (bindM_ok _ _ _ _ _ E).
  - eapply (nested_run B t m l (fun r => retM r) []); [done|apply puts_ret|done..].
  - exists WIFI_ERROR_OUT_OF_MEMORY, ops. split; [run; destruct rq; cbn in *; by subst|]. right.
    split; [by destruct errors_negative as (_ & _ & _ & _ & ?)|].
    rewrite msg_size_app, size_ops_list. cbn [attrs_size foldr]. rewrite attrs_size_nested. pose proof (attrs_size_nonneg l). lia.
Qed.

Lemma puts_nested B t m l : puts (B + NLA_HDRLEN) m l -> (B + NLA_HDRLEN <= nlmsg_max \/ l <> []) -> puts B (nested t m) [Nested t l].
Proof. intros Hm Hne. apply puts_nest; [done..|apply puts_ret]. Qed.

Lemma puts_each {A} (f : nat -> A -> ST WifiRequest Z) (g : nat -> A -> attr) B i l :
  Forall (fun x => forall B i, puts B (f i x) [g i x]) l -> puts B (put_each f i 0 l) (imap (fun j => g (i + j)%nat) l).
Proof.
  intros Hf. revert i B. induction Hf as [|x l Hx Hl IH]; intros i B; cbn [put_each imap]; [apply puts_ret|].
  rewrite Nat.add_0_r. change (g i x :: ?k) with ([g i x] ++ k). apply puts_bind; [apply Hx|].
  eapply eq_ind; [apply (IH (S i))|]. apply imap_ext. intros j y _. cbn. f_equal. lia.
Qed.

Lemma put_addr_puts B t a : zlen a = 6 -> puts B (put_addr t a) [Leaf t a].
Proof.
  intros Ha rq ops Hm HB Hfit. unfold put_addr.
  assert (mem_read a 0 6 = Some a) as E.
  { unfold mem_read. rewrite Ha. change (Some (take 6 a) = Some a). by rewrite take_ge by (unfold zlen in Ha; lia). }
  rewrite E, (bindM_ok _ _ rq a rq) by done. by apply (put_puts B).
Qed.

Lemma put_array_puts B t a n : 0 <= n <= zlen a -> puts B (put_array t a n) [Leaf t (take (Z.to_nat n) a)].
Proof.
  intros Ha rq ops Hm HB Hfit. unfold put_array.
  assert (mem_read a 0 n = Some (take (Z.to_nat n) a)) as E.
  { unfold mem_read. zb; cbn; try lia. done. }
  rewrite E, (bindM_ok _ _ rq _ rq) by done. by apply (put_puts B).
Qed.

(** A message built from the start: with its memory, it has the header and the attributes [l] or
    does not hold them; without, there is no message. *)
Definition builds (rq : WifiRequest) (m : ST WifiRequest Z) (family cmd : Z) (l : list attr) : Prop :=
  exists r rq', m rq = Ok (r, rq') /\ nl_alloc rq' = tail (nl_alloc rq) /\
    if hd true (nl_alloc rq) then
      exists ops, rq_msg rq' = Some ops /\
        ((r = 0 /\ ops = message family cmd l /\ 20 + attrs_size l <= nlmsg_max) \/ (r < 0 /\ nlmsg_max < 20 + attrs_size l))
    else r = WIFI_ERROR_OUT_OF_MEMORY /\ rq_msg rq' = None.

Lemma create_run rq family cmd :
  WifiRequest_create WIFI_ERROR_OUT_OF_MEMORY family cmd 0 0 rq =
  Ok (if hd true (nl_alloc rq) then 0 else WIFI_ERROR_OUT_OF_MEMORY,
      mkRequest (mFamily rq) (mIface rq) (if hd true (nl_alloc rq) then Some [OpHeader family cmd 0 0] else None) (tail (nl_alloc rq))).
Proof. unfold WifiRequest_create, destroy. run. by destruct (hd true (nl_alloc rq)). Qed.

Lemma builds_create rq family cmd (k : Z -> ST WifiRequest Z) l :
  puts 20 (k 0) l ->
  builds rq (bindM (WifiRequest_create WIFI_ERROR_OUT_OF_MEMORY family cmd 0 0) (fun r => if r <? 0 then retM r else k r)) family cmd l.
Proof.
  intros Hk. unfold builds. rewrite (bindM_ok _ _ _ _ _ (create_run rq family cmd)).
  destruct (hd true (nl_alloc rq)) eqn:Ea.
  - cbn [Z.ltb Z.compare]. set (rq1 := mkRequest _ _ _ _).
    destruct (Hk rq1 [OpHeader family cmd 0 0]) as (r & ops & E & Hr); [done|done|change (20 <= nlmsg_max); lia|].
    cbn [length app] in Hr. fold (message family cmd l) in Hr. rewrite message_size in Hr.
    exists r, (rq1 <| rq_msg := Some ops |>). split; [done|]. split; [done|]. by exists ops.
  - destruct errors_negative as (_ & _ & _ & _ & Hneg). rewrite (proj2 (Z.ltb_lt _ _) Hneg). by eexists _, _.
Qed.

(** The attributes every vendor command starts with. *)
Definition vendor_head (iface subcmd : Z) : list attr :=
  [Leaf NL80211_ATTR_VENDOR_ID (le_bytes 4 GOOGLE_OUI); Leaf NL80211_ATTR_VENDOR_SUBCMD (le_bytes 4 subcmd)] ++
  if iface =? -1 then [] else [Leaf NL80211_ATTR_IFINDEX (le_bytes 4 iface)].

Lemma vendor_head_size iface subcmd : attrs_size (vendor_head iface subcmd) <= 24.
Proof. unfold vendor_head. destruct (iface =? -1); cbn; done. Qed.

Lemma builds_vendor rq subcmd (k : Z -> ST WifiRequest Z) l :
  puts 44 (k 0) l ->
  builds rq (bindM (create subcmd) (fun r => if r <? 0 then retM r else k r)) (mFamily rq) NL80211_CMD_VENDOR
    (vendor_head (mIface rq) subcmd ++ l).
Proof.
  intros Hk. unfold create, create_vendor, builds.
  set (head := fun r : Z => put_u32 NL80211_ATTR_VENDOR_ID GOOGLE_OUI ?;
    try res := put_u32 NL80211_ATTR_VENDOR_SUBCMD subcmd in
    if negb (mIface rq =? -1) then set_iface_id (mIface rq) else retM res).
  assert (puts 20 (bindM (head 0) (fun r => if r <? 0 then retM r else k r)) (vendor_head (mIface rq) subcmd ++ l)) as Hhead.
  { apply puts_bind; [|eapply puts_mono; [done|pose proof (vendor_head_size (mIface rq) subcmd); lia]].
    unfold head, vendor_head. apply (puts_bind _ _ _ [Leaf _ _]); [apply put_puts|].
    apply (puts_bind _ _ _ [Leaf _ _]); [apply put_puts|]. destruct (mIface rq =? -1); [apply puts_ret|apply put_puts]. }
  destruct (builds_create rq (mFamily rq) NL80211_CMD_VENDOR (fun _ => bindM (head 0) (fun r => if r <? 0 then retM r else k r)) _ Hhead)
    as (r & rq' & E & H). exists r, rq'. split; [|done]. rewrite <- E.
  rewrite !bindM_assoc. rewrite (bindM_ok getM _ rq rq rq) by done. rewrite bindM_assoc.
  rewrite !(bindM_ok _ _ _ _ _ (create_run rq _ _)).
  destruct (hd true (nl_alloc rq)); [done|]. destruct errors_negative as (_ & _ & _ & _ & Hneg).
  rewrite (proj2 (Z.ltb_lt _ _) Hneg). run. by rewrite (proj2 (Z.ltb_lt _ _) Hneg).
Qed.

(** * The requests *)

Inductive wifi_request :=
  | RqGetCapabilities
  | RqGetChannelList (band : Z)
  | RqEnableFullScan (enable : Z)
  | RqScanSetup (p : wifi_scan_cmd_params)
  | RqScanConfig (p : wifi_scan_cmd_params)
  | RqScanEnable (enable : Z)
  | RqGetScanResults (num flush : Z)
  | RqHotlistSetup (p : wifi_bssid_hotlist_params)
  | RqHotlistTeardown
  | RqEpnoSetup (p : wifi_epno_params)
  | RqEpnoTeardown
  | RqSigChangeSetup (p : wifi_significant_change_params)
  | RqSigChangeTeardown
  | RqRttCapabilities
  | RqRttResponderInfo
  | RqRttEnableResponder
  | RqRttCancelResponder
  | RqRttSetup (params : list wifi_rtt_config)
  | RqRttTeardown (addr : list (list Z))
  | RqCountryCode (code : list Z)
  | RqRssiMonitor (max_rssi min_rssi enable : Z)
  | RqFeatureMatrix
  | RqKeepAlive (index : Z) (ip_pkt src dst : list Z) (period_msec : Z)
  | RqStopKeepAlive (index : Z)
  | RqPasspoint (networks : list wifi_passpoint_network)
  | RqMulticastId (nlctrl : Z) (name : list Z).

Definition request_code (q : wifi_request) : ST WifiRequest Z :=
  match q with
  | RqGetCapabilities => GetCapabilities_create
  | RqGetChannelList band => GetChannelList_create band
  | RqEnableFullScan enable => FullScan_createRequest GSCAN_SUBCMD_ENABLE_FULL_SCAN_RESULTS enable
  | RqScanSetup p => Scan_createSetupRequest p
  | RqScanConfig p => Scan_createScanConfigRequest p
  | RqScanEnable enable => createFeatureRequest GSCAN_SUBCMD_ENABLE_GSCAN enable
  | RqGetScanResults num flush => GetScanResults_createRequest num flush
  | RqHotlistSetup p => Hotlist_createSetupRequest p
  | RqHotlistTeardown => Hotlist_createTeardownRequest
  | RqEpnoSetup p => ePNO_createSetupRequest p
  | RqEpnoTeardown => ePNO_createTeardownRequest
  | RqSigChangeSetup p => SigChange_createSetupRequest p
  | RqSigChangeTeardown => SigChange_createTeardownRequest
  | RqRttCapabilities => GetRttCapabilities_create
  | RqRttResponderInfo => GetRttResponderInfo_create
  | RqRttEnableResponder => EnableResponder_create
  | RqRttCancelResponder => CancelResponder_create
  | RqRttSetup params => Rtt_createSetupRequest params
  | RqRttTeardown addr => Rtt_createTeardownRequest addr
  | RqCountryCode code => SetCountryCode_create code
  | RqRssiMonitor max_rssi min_rssi enable => RSSI_createRequest max_rssi min_rssi enable
  | RqFeatureMatrix => GetFeatureSet_create WIFI_ATTRIBUTE_NUM_FEATURE_SET
  | RqKeepAlive index ip src dst period => MKeepAlive_createRequest START_MKEEP_ALIVE index ip src dst period
  | RqStopKeepAlive index => MKeepAlive_createRequest STOP_MKEEP_ALIVE index [] [] [] 0
  | RqPasspoint networks => Anqpo_createRequest networks (zlen networks)
  | RqMulticastId nlctrl name => GetMulticastId_create nlctrl name
  end.

Definition request_subcmd (q : wifi_request) : Z :=
  match q with
  | RqGetCapabilities => GSCAN_SUBCMD_GET_CAPABILITIES
  | RqGetChannelList _ => WIFI_SUBCMD_GET_CHANNEL_LIST
  | RqEnableFullScan _ => GSCAN_SUBCMD_ENABLE_FULL_SCAN_RESULTS
  | RqScanSetup _ => GSCAN_SUBCMD_SET_CONFIG
  | RqScanConfig _ => GSCAN_SUBCMD_SET_SCAN_CONFIG
  | RqScanEnable _ => GSCAN_SUBCMD_ENABLE_GSCAN
  | RqGetScanResults _ _ => GSCAN_SUBCMD_GET_SCAN_RESULTS
  | RqHotlistSetup _ | RqHotlistTeardown => GSCAN_SUBCMD_SET_HOTLIST
  | RqEpnoSetup _ | RqEpnoTeardown => GSCAN_SUBCMD_SET_EPNO_SSID
  | RqSigChangeSetup _ | RqSigChangeTeardown => GSCAN_SUBCMD_SET_SIGNIFICANT_CHANGE_CONFIG
  | RqRttCapabilities => RTT_SUBCMD_GETCAPABILITY
  | RqRttResponderInfo => RTT_SUBCMD_GETAVAILCHANNEL
  | RqRttEnableResponder => RTT_SUBCMD_SET_RESPONDER
  | RqRttCancelResponder => RTT_SUBCMD_CANCEL_RESPONDER
  | RqRttSetup _ => RTT_SUBCMD_SET_CONFIG
  | RqRttTeardown _ => RTT_SUBCMD_CANCEL_CONFIG
  | RqCountryCode _ => WIFI_SUBCMD_SET_COUNTRY_CODE
  | RqRssiMonitor _ _ _ => WIFI_SUBCMD_SET_RSSI_MONITOR
  | RqFeatureMatrix => WIFI_SUBCMD_GET_FEATURE_SET_MATRIX
  | RqKeepAlive _ _ _ _ _ => WIFI_OFFLOAD_START_MKEEP_ALIVE
  | RqStopKeepAlive _ => WIFI_OFFLOAD_STOP_MKEEP_ALIVE
  | RqPasspoint _ => GSCAN_SUBCMD_ANQPO_CONFIG
  | RqMulticastId _ _ => 0
  end.

(** The request for the groups goes to the controller of the families. *)
Definition request_family (family : Z) (q : wifi_request) : Z := match q with RqMulticastId nlctrl _ => nlctrl | _ => family end.
Definition request_cmd (q : wifi_request) : Z := match q with RqMulticastId _ _ => CTRL_CMD_GETFAMILY | _ => NL80211_CMD_VENDOR end.

Definition b8 (t v : Z) : attr := Leaf t (le_bytes 1 v).
Definition b16 (t v : Z) : attr := Leaf t (le_bytes 2 v).
Definition b32 (t v : Z) : attr := Leaf t (le_bytes 4 v).

Definition bucket_attr (i : nat) (b : wifi_scan_bucket_spec) : attr :=
  Nested (Z.of_nat i) ([
    b32 GSCAN_ATTRIBUTE_BUCKET_ID (bk_bucket b); b32 GSCAN_ATTRIBUTE_BUCKET_PERIOD (bk_period b);
    b32 GSCAN_ATTRIBUTE_BUCKETS_BAND (checked_band (bk_band b)); b32 GSCAN_ATTRIBUTE_BUCKET_STEP_COUNT (bk_step_count b);
    b32 GSCAN_ATTRIBUTE_BUCKET_MAX_PERIOD (bk_max_period b); b32 GSCAN_ATTRIBUTE_REPORT_EVENTS (bk_report_events b);
    b32 GSCAN_ATTRIBUTE_BUCKET_NUM_CHANNELS (zlen (bk_channels b))] ++
    match bk_channels b with
    | [] => []
    | cs => [Nested GSCAN_ATTRIBUTE_BUCKET_CHANNELS (imap (fun j c => b32 (Z.of_nat j) c) cs)]
    end).
Definition threshold_attrs (a : ap_threshold_param) : list attr :=
  [Leaf GSCAN_ATTRIBUTE_BSSID (ap_bssid a); b32 GSCAN_ATTRIBUTE_RSSI_HIGH (ap_high a); b32 GSCAN_ATTRIBUTE_RSSI_LOW (ap_low a)].
Definition epno_attr (i : nat) (n : wifi_epno_network) : attr :=
  Nested (Z.of_nat i) [
    Leaf GSCAN_ATTRIBUTE_EPNO_SSID (take 32 (en_ssid n)); b32 GSCAN_ATTRIBUTE_EPNO_SSID_LEN (zlen (cstr (en_ssid n)));
    b32 GSCAN_ATTRIBUTE_EPNO_FLAGS (en_flags n); b32 GSCAN_ATTRIBUTE_EPNO_AUTH (en_auth_bit_field n)].
Definition rtt_attr (i : nat) (c : wifi_rtt_config) : attr :=
  Nested (Z.of_nat i) [
    Leaf RTT_ATTRIBUTE_TARGET_MAC (rc_addr c); b8 RTT_ATTRIBUTE_TARGET_TYPE (rc_type c); b8 RTT_ATTRIBUTE_TARGET_PEER (rc_peer c);
    Leaf RTT_ATTRIBUTE_TARGET_CHAN (rc_channel c); b32 RTT_ATTRIBUTE_TARGET_NUM_BURST (rc_num_burst c);
    b32 RTT_ATTRIBUTE_TARGET_NUM_FTM_BURST (rc_num_frames_per_burst c);
    b32 RTT_ATTRIBUTE_TARGET_NUM_RETRY_FTM (rc_num_retries_per_rtt_frame c);
    b32 RTT_ATTRIBUTE_TARGET_NUM_RETRY_FTMR (rc_num_retries_per_ftmr c); b32 RTT_ATTRIBUTE_TARGET_PERIOD (rc_burst_period c);
    b32 RTT_ATTRIBUTE_TARGET_BURST_DURATION (rc_burst_duration c); b8 RTT_ATTRIBUTE_TARGET_LCI (rc_LCI_request c);
    b8 RTT_ATTRIBUTE_TARGET_LCR (rc_LCR_request c); b8 RTT_ATTRIBUTE_TARGET_BW (rc_bw c); b8 RTT_ATTRIBUTE_TARGET_PREAMBLE (rc_preamble c)].

Definition passpoint_attr (i : nat) (n : wifi_passpoint_network) : attr :=
  Nested (Z.of_nat i) [
    b32 GSCAN_ATTRIBUTE_ANQPO_HS_NETWORK_ID (pp_id n); Leaf GSCAN_ATTRIBUTE_ANQPO_HS_NAI_REALM (pp_realm n);
    Leaf GSCAN_ATTRIBUTE_ANQPO_HS_ROAM_CONSORTIUM_ID (pp_roamingConsortiumIds n); Leaf GSCAN_ATTRIBUTE_ANQPO_HS_PLMN (pp_plmn n)].

(** The vendor data of a request, if it has any. *)
Definition request_fields (q : wifi_request) : option (list attr) :=
  match q with
  | RqGetCapabilities | RqRttCapabilities | RqRttResponderInfo | RqRttEnableResponder | RqRttCancelResponder | RqFeatureMatrix | RqMulticastId _ _ => None
  | RqGetChannelList band => Some [b32 WIFI_ATTRIBUTE_BAND band]
  | RqEnableFullScan enable => Some [b32 GSCAN_ENABLE_FULL_SCAN_RESULTS enable]
  | RqScanSetup p =>
      Some ([b32 GSCAN_ATTRIBUTE_BASE_PERIOD (base_period p); b32 GSCAN_ATTRIBUTE_NUM_BUCKETS (zlen (buckets p))] ++ imap bucket_attr (buckets p))
  | RqScanConfig p =>
      Some [b32 GSCAN_ATTRIBUTE_NUM_AP_PER_SCAN (max_ap_per_scan p);
            b32 GSCAN_ATTRIBUTE_REPORT_THRESHOLD (checked_percent (report_threshold_percent p));
            b32 GSCAN_ATTRIBUTE_NUM_SCANS_TO_CACHE (report_threshold_num_scans p)]
  | RqScanEnable enable => Some [b32 GSCAN_ATTRIBUTE_ENABLE_FEATURE enable]
  | RqGetScanResults num flush => Some [b32 GSCAN_ATTRIBUTE_NUM_OF_RESULTS num; b8 GSCAN_ATTRIBUTE_FLUSH_RESULTS flush]
  | RqHotlistSetup p =>
      Some [b8 GSCAN_ATTRIBUTE_HOTLIST_FLUSH 1; b32 GSCAN_ATTRIBUTE_LOST_AP_SAMPLE_SIZE (hl_lost_ap_sample_size p);
            b16 GSCAN_ATTRIBUTE_NUM_AP (zlen (hl_ap p));
            Nested GSCAN_ATTRIBUTE_HOTLIST_BSSIDS (imap (fun _ a => Nested GSCAN_ATTRIBUTE_HOTLIST_ELEM (threshold_attrs a)) (hl_ap p))]
  | RqHotlistTeardown => Some [b8 GSCAN_ATTRIBUTE_HOTLIST_FLUSH 1; Nested GSCAN_ATTRIBUTE_HOTLIST_BSSIDS []]
  | RqEpnoSetup p =>
      Some [b8 GSCAN_ATTRIBUTE_EPNO_FLUSH 1; b8 GSCAN_ATTRIBUTE_EPNO_5G_RSSI_THR (min5GHz_rssi p);
            b8 GSCAN_ATTRIBUTE_EPNO_2G_RSSI_THR (min24GHz_rssi p); b16 GSCAN_ATTRIBUTE_EPNO_INIT_SCORE_MAX (initial_score_max p);
            b16 GSCAN_ATTRIBUTE_EPNO_CUR_CONN_BONUS (current_connection_bonus p);
            b16 GSCAN_ATTRIBUTE_EPNO_SAME_NETWORK_BONUS (same_network_bonus p); b16 GSCAN_ATTRIBUTE_EPNO_SECURE_BONUS (secure_bonus p);
            b16 GSCAN_ATTRIBUTE_EPNO_5G_BONUS (band5GHz_bonus p); b8 GSCAN_ATTRIBUTE_EPNO_SSID_NUM (num_networks p);
            Nested GSCAN_ATTRIBUTE_EPNO_SSID_LIST (imap epno_attr (take (Z.to_nat (num_networks p)) (networks p)))]
  | RqEpnoTeardown => Some [b8 GSCAN_ATTRIBUTE_EPNO_FLUSH 1]
  | RqSigChangeSetup p =>
      Some [b8 GSCAN_ATTRIBUTE_SIGNIFICANT_CHANGE_FLUSH 1; b16 GSCAN_ATTRIBUTE_RSSI_SAMPLE_SIZE (sc_rssi_sample_size p);
            b16 GSCAN_ATTRIBUTE_LOST_AP_SAMPLE_SIZE (sc_lost_ap_sample_size p); b16 GSCAN_ATTRIBUTE_MIN_BREACHING (sc_min_breaching p);
            b16 GSCAN_ATTRIBUTE_NUM_AP (zlen (sc_ap p));
            Nested GSCAN_ATTRIBUTE_SIGNIFICANT_CHANGE_BSSIDS (imap (fun i a => Nested (Z.of_nat i) (threshold_attrs a)) (sc_ap p))]
  | RqSigChangeTeardown => Some [b16 GSCAN_ATTRIBUTE_SIGNIFICANT_CHANGE_FLUSH 1]
  | RqRttSetup params => Some [b8 RTT_ATTRIBUTE_TARGET_CNT (zlen params); Nested RTT_ATTRIBUTE_TARGET_INFO (imap rtt_attr params)]
  | RqRttTeardown addr => Some (b8 RTT_ATTRIBUTE_TARGET_CNT (zlen addr) :: imap (fun _ a => Leaf RTT_ATTRIBUTE_TARGET_MAC a) addr)
  | RqCountryCode code => Some [Leaf WIFI_ATTRIBUTE_COUNTRY_CODE (code ++ [0])]
  | RqRssiMonitor max_rssi min_rssi enable =>
      Some [b32 WIFI_ATTRIBUTE_MAX_RSSI (if truth enable then max_rssi else 0); b32 WIFI_ATTRIBUTE_MIN_RSSI (if truth enable then min_rssi else 0);
            b32 WIFI_ATTRIBUTE_RSSI_MONITOR_START enable]
  | RqKeepAlive index ip src dst period =>
      Some [b8 MKEEP_ALIVE_ATTRIBUTE_ID index; b16 MKEEP_ALIVE_ATTRIBUTE_IP_PKT_LEN (zlen ip); Leaf MKEEP_ALIVE_ATTRIBUTE_IP_PKT ip;
            Leaf MKEEP_ALIVE_ATTRIBUTE_SRC_MAC_ADDR src; Leaf MKEEP_ALIVE_ATTRIBUTE_DST_MAC_ADDR dst;
            b32 MKEEP_ALIVE_ATTRIBUTE_PERIOD_MSEC period]
  | RqStopKeepAlive index => Some [b8 MKEEP_ALIVE_ATTRIBUTE_ID index]
  | RqPasspoint networks => Some [Nested GSCAN_ATTRIBUTE_ANQPO_HS_LIST (imap passpoint_attr networks)]
  end.

(** The number of networks of Passpoint is not in the vendor data but before it. *)
Definition request_tree (iface : Z) (q : wifi_request) : list attr :=
  match q with
  | RqMulticastId _ name => [Leaf CTRL_ATTR_FAMILY_NAME (name ++ [0])]
  | _ =>
      vendor_head iface (request_subcmd q) ++
      match q with RqPasspoint networks => [b32 GSCAN_ATTRIBUTE_ANQPO_HS_LIST_SIZE (zlen networks)] | _ => [] end ++
      match request_fields q with Some l => [Nested NL80211_ATTR_VENDOR_DATA l] | None => [] end
  end.

(** Addresses have six bytes, names are in arrays of 33 bytes, and the fields of a network of
    Passpoint have the sizes of their arrays. *)
Definition request_wf (q : wifi_request) : Prop :=
  match q with
  | RqHotlistSetup p => Forall (fun a => zlen (ap_bssid a) = 6) (hl_ap p)
  | RqSigChangeSetup p => Forall (fun a => zlen (ap_bssid a) = 6) (sc_ap p)
  | RqEpnoSetup p => Forall (fun n => zlen (en_ssid n) = 33) (networks p)
  | RqRttSetup params => Forall (fun c => zlen (rc_addr c) = 6) params
  | RqRttTeardown addr => Forall (fun a => zlen a = 6) addr
  | RqKeepAlive _ _ src dst _ => zlen src = 6 /\ zlen dst = 6
  | RqPasspoint networks => Forall (fun n => zlen (pp_realm n) = 256 /\ zlen (pp_roamingConsortiumIds n) = 128 /\ zlen (pp_plmn n) = 3) networks
  | _ => True
  end.

(** A list of too many preferred networks is refused, and the function for the networks of
    Passpoint goes on when there is no message. *)
Definition refused (q : wifi_request) : bool := match q with RqEpnoSetup p => MAX_EPNO_NETWORKS <? num_networks p | _ => false end.
Definition unchecked (q : wifi_request) : bool := match q with RqPasspoint _ => true | _ => false end.

Lemma puts_cons B m1 (k : Z -> ST WifiRequest Z) a l2 :
  puts B m1 [a] -> puts (B + attr_size a) (k 0) l2 ->
  puts B (bindM m1 (fun r => if r <? 0 then retM r else k r)) (a :: l2).
Proof. intros H1 H2. apply (puts_bind B m1 k [a] l2); [done|]. cbn. by rewrite Z.add_0_r. Qed.

Lemma b8_size t v : attr_size (b8 t v) = 8.
Proof. done. Qed.
Lemma b16_size t v : attr_size (b16 t v) = 8.
Proof. done. Qed.
Lemma b32_size t v : attr_size (b32 t v) = 8.
Proof. done. Qed.

(** The puts of a sequence one after the other; loops and nested attributes are left. *)
Local Ltac fields :=
  repeat first
    [ apply puts_cons; [solve [apply put_puts|by apply put_addr_puts]|]
    | apply put_puts | apply puts_ret ].
Local Ltac small := left; rewrite ?b8_size, ?b16_size, ?b32_size; unfold NLA_HDRLEN; lia.

Lemma put_threshold_puts B a : zlen (ap_bssid a) = 6 -> puts B (put_threshold a) (threshold_attrs a).
Proof. intros Ha. unfold put_threshold, threshold_attrs. fields. Qed.

Lemma put_bucket_puts B i b : puts B (put_bucket i b) [bucket_attr i b].
Proof.
  apply puts_nested; [|by right]. cbn [app]. fields. destruct (bk_channels b) as [|c cs]; [apply puts_ret|].
  change (negb (zlen (c :: cs) =? 0)) with true. cbv iota. apply puts_nested; [|by right].
  apply (puts_each (fun j c => put_u32 (Z.of_nat j) c) (fun j c => b32 (Z.of_nat j) c)). apply Forall_true.
  intros x B' j. apply put_puts.
Qed.

Lemma put_epno_puts B i n : zlen (en_ssid n) = 33 -> puts B (put_epno_network i n) [epno_attr i n].
Proof.
  intros Hn. apply puts_elem. apply puts_cons; [apply (put_array_puts _ _ _ 32); lia|]. fields.
Qed.

Lemma put_rtt_puts B i c : zlen (rc_addr c) = 6 -> puts B (put_rtt_target i c) [rtt_attr i c].
Proof. intros Hc. apply puts_elem. fields. Qed.

(** A put whose result is not looked at, in a message with room for it. *)
Lemma puts_ignore B t bs m l : B + NLA_HDRLEN + nla_align (zlen bs) <= nlmsg_max ->
  puts (B + attr_size (Leaf t bs)) m l -> puts B (put t bs;; m) (Leaf t bs :: l).
Proof.
  intros Hroom Hm rq ops Hmsg HB Hfit. destruct (puts_cons B (put t bs) (fun _ => m) (Leaf t bs) l (put_puts B t bs) Hm rq ops Hmsg HB Hfit)
    as (r & k & E & Hr). exists r, k. split; [|done]. rewrite <- E.
  destruct (put_puts B t bs rq ops Hmsg HB Hfit) as (r1 & k1 & E1 & Hr1). rewrite !(bindM_ok _ _ _ _ _ E1).
  destruct Hr1 as [(-> & _)|(_ & Hs)]; [done|]. cbn [ops_list ops_of app] in Hs.
  rewrite msg_size_app, msg_size_cons, msg_size_nil in Hs. cbn [op_size] in Hs. lia.
Qed.

Lemma builds_ext rq m m' family cmd l : m rq = m' rq -> builds rq m' family cmd l -> builds rq m family cmd l.
Proof. intros E H. unfold builds. by rewrite E. Qed.

Lemma builds_plain rq subcmd : builds rq (create subcmd) (mFamily rq) NL80211_CMD_VENDOR (vendor_head (mIface rq) subcmd ++ []).
Proof.
  eapply builds_ext; [|apply (builds_vendor rq subcmd (fun r => retM r)), puts_ret].
  unfold bindM. destruct (create subcmd rq) as [[r rq']| |]; [|done..]. by destruct (r <? 0).
Qed.

(** The test of the result for success instead of for an error is the same. *)
Lemma create_result rq subcmd (m : ST WifiRequest Z) :
  (let* r := create subcmd in if negb (r =? WIFI_SUCCESS) then retM r else m) rq = (create subcmd ?; m) rq.
Proof.
  destruct (builds_plain rq subcmd) as (r & rq' & E & _ & H). rewrite !(bindM_ok _ _ _ _ _ E).
  assert (r = 0 \/ r < 0) as [-> |Hr]; [|done|].
  - destruct (hd true (nl_alloc rq)); [destruct H as (ops & _ & [[? _]|[? _]]); [by left|by right]|].
    destruct H as [-> _]. right. by destruct errors_negative as (_ & _ & _ & _ & ?).
  - rewrite (proj2 (Z.ltb_lt _ _) Hr). destruct (Z.eqb_spec r WIFI_SUCCESS) as [->|]; [unfold WIFI_SUCCESS in Hr; lia|done].
Qed.

Lemma data_puts m l : puts 48 m l -> puts 44 (vendor_data m) [Nested NL80211_ATTR_VENDOR_DATA l].
Proof. intros H. apply puts_nested; [done|]. left. unfold NLA_HDRLEN. lia. Qed.

Lemma data_then_puts m l : puts 48 m l ->
  puts 44 (vendor_data m ?; retM WIFI_SUCCESS) [Nested NL80211_ATTR_VENDOR_DATA l].
Proof. intros H. apply puts_cons; [by apply data_puts|apply puts_ret]. Qed.

Lemma puts_each_in {A} (f : nat -> A -> ST WifiRequest Z) (g : nat -> A -> attr) (P : A -> Prop) B l :
  (forall B i x, P x -> puts B (f i x) [g i x]) -> Forall P l -> puts B (put_each f 0 0 l) (imap g l).
Proof. intros Hf Hl. apply (puts_each f g B 0%nat). eapply list.Forall_impl; [exact Hl|]. intros x Hx B' i. by apply Hf. Qed.

Lemma full_array B t a n : zlen a = n -> 0 <= n -> puts B (put_array t a n) [Leaf t a].
Proof.
  intros Ha Hn. pose proof (put_array_puts B t a n ltac:(lia)) as H. rewrite take_ge in H; [done|]. unfold zlen in Ha. lia.
Qed.

Lemma passpoint_puts B i n : zlen (pp_realm n) = 256 /\ zlen (pp_roamingConsortiumIds n) = 128 /\ zlen (pp_plmn n) = 3 ->
  puts B (put_passpoint_network i n) [passpoint_attr i n].
Proof. intros (H1 & H2 & H3). apply puts_elem. fields. repeat (apply puts_cons; [by apply full_array|]). by apply full_array. Qed.

(** With memory, the first attributes fit, so that the result that is not looked at is success. *)
Lemma create_unchecked rq subcmd (m : ST WifiRequest Z) : hd true (nl_alloc rq) = true ->
  (create subcmd;; m) rq = (create subcmd ?; m) rq.
Proof.
  intros Ha. destruct (builds_plain rq subcmd) as (r & rq' & E & _ & H). rewrite !(bindM_ok _ _ _ _ _ E). rewrite Ha in H.
  destruct H as (ops & _ & [(-> & _)|[_ H]]); [done|]. exfalso. rewrite app_nil_r in H. pose proof (vendor_head_size (mIface rq) subcmd). lia.
Qed.

Lemma passpoint_builds networks rq : request_wf (RqPasspoint networks) -> hd true (nl_alloc rq) = true ->
  builds rq (Anqpo_createRequest networks (zlen networks)) (mFamily rq) NL80211_CMD_VENDOR (request_tree (mIface rq) (RqPasspoint networks)).
Proof.
  intros Hwf Ha. eapply builds_ext; [by apply create_unchecked|]. apply builds_vendor. cbn [app request_fields]. fields.
  apply puts_cons; [|apply puts_ret]. apply puts_nested; [|small]. apply puts_nested; [|small].
  eapply (puts_each_in _ passpoint_attr); [|exact Hwf]. intros B i n Hn. by apply passpoint_puts.
Qed.

Lemma passpoint_without_memory networks val rq : hd true (nl_alloc rq) = false -> Anqpo_createRequest networks val rq = Undef.
Proof.
  intros Ha. unfold Anqpo_createRequest. destruct (builds_plain rq GSCAN_SUBCMD_ANQPO_CONFIG) as (r & rq' & E & _ & H). rewrite Ha in H.
  destruct H as [_ Hm]. rewrite (bindM_ok _ _ _ _ _ E). unfold put_u32, put, bindM, getM. by rewrite Hm.
Qed.

Lemma request_builds q rq : request_wf q -> refused q = false -> (unchecked q = true -> hd true (nl_alloc rq) = true) ->
  builds rq (request_code q) (request_family (mFamily rq) q) (request_cmd q) (request_tree (mIface rq) q).
Proof.
  intros Hwf Href Hun. unfold request_tree. destruct q; cbn [request_code request_subcmd request_fields request_wf request_family request_cmd refused app] in *;
    try (solve [apply builds_plain | apply builds_vendor, data_puts; fields | apply builds_vendor, data_then_puts; fields]).
  - (* scan *) apply builds_vendor, data_then_puts. cbn [app]. fields.
    apply (puts_each_in _ _ (fun _ => True)); [intros; apply put_bucket_puts|by apply Forall_true].
  - (* hot list *) apply builds_vendor, data_puts. fields. apply puts_nested; [|small].
    eapply (puts_each_in _ (fun _ a => Nested _ (threshold_attrs a))); [|exact Hwf].
    intros B i a Ha. by apply puts_elem, put_threshold_puts.
  - (* empty hot list *) apply builds_vendor, data_puts. fields. apply puts_nested; [apply puts_ret|small].
  - (* preferred networks *) unfold ePNO_createSetupRequest. rewrite Href.
    apply builds_vendor, data_puts. fields. apply puts_nested; [|small].
    eapply (puts_each_in _ epno_attr); [|by apply Forall_take]. intros B i n Hi. by apply put_epno_puts.
  - (* significant change *) apply builds_vendor, data_puts. fields. apply puts_nested; [|small].
    eapply (puts_each_in _ (fun i a => Nested (Z.of_nat i) (threshold_attrs a))); [|exact Hwf].
    intros B i a Ha. by apply puts_elem, put_threshold_puts.
  - (* ranging *) apply builds_vendor, data_then_puts. fields. apply puts_nested; [|small].
    eapply puts_each_in; [|exact Hwf]. intros B i c Hc. by apply put_rtt_puts.
  - (* end of ranging *) apply (builds_vendor rq _ (fun r => vendor_data (put_u8 _ _;; put_each _ 0 r addr))), data_puts.
    apply puts_ignore; [change (48 + 4 + 4 <= nlmsg_max); lia|].
    eapply (puts_each_in _ (fun _ a => Leaf _ a)); [|exact Hwf]. intros B i a Ha. by apply put_addr_puts.
  - (* keep-alive packets *) destruct Hwf as [Hs Hd]. eapply builds_ext; [apply create_result|]. apply builds_vendor, data_puts. fields.
  - eapply builds_ext; [apply create_result|]. apply builds_vendor, data_puts. fields.
  - (* networks of Passpoint *) by apply (passpoint_builds _ rq Hwf), Hun.
  - (* groups *) apply (builds_create rq _ _ (fun _ => put_string _ _)). apply put_puts.
Qed.

(** C18: Every request says what it should: those for scans, hot lists, preferred networks,
    significant changes, networks of Passpoint, ranging, signal strength, country code, features,
    keep-alive packets and the groups of the controller. Building it returns, whether or not there is
    memory for the message; without memory the result is the error for that. Otherwise, if the
    header and the attributes of the specification fit into a message, the result is 0 and the calls
    put exactly these attributes into the message, each nested where it belongs; if they do not fit,
    the result is an error. There are two exceptions: a list of too many preferred networks is an
    invalid argument, and nothing is built; and the request for networks of Passpoint is undefined
    without memory, since the result of the creation is not looked at. *)
Theorem wifi_requests_built q rq : request_wf q ->
  if refused q then request_code q rq = Ok (WIFI_ERROR_INVALID_ARGS, rq)
  else if unchecked q && negb (hd true (nl_alloc rq)) then request_code q rq = Undef
  else exists r rq', request_code q rq = Ok (r, rq') /\ nl_alloc rq' = tail (nl_alloc rq) /\
    let tree := request_tree (mIface rq) q in
    if hd true (nl_alloc rq) then
      exists ops, rq_msg rq' = Some ops /\
        ((r = 0 /\ head ops = Some (OpHeader (request_family (mFamily rq) q) (request_cmd q) 0 0) /\ request_attrs ops = Some tree /\ msg_size ops = 20 + attrs_size tree /\ msg_size ops <= nlmsg_max) \/
         (r < 0 /\ nlmsg_max < 20 + attrs_size tree))
    else r = WIFI_ERROR_OUT_OF_MEMORY /\ rq_msg rq' = None.
Proof.
  intros Hwf. destruct (refused q) eqn:Href.
  { destruct q; try done. cbn in *. unfold ePNO_createSetupRequest. by rewrite Href. }
  destruct (unchecked q && negb (hd true (nl_alloc rq))) eqn:Hun.
  { apply andb_true_iff in Hun as [Hu Ha%negb_true_iff]. destruct q; try done. by apply passpoint_without_memory. }
  destruct (request_builds q rq Hwf Href) as (r & rq' & E & Ha & H).
  { intros Hu. rewrite Hu in Hun. by destruct (hd true (nl_alloc rq)). }
  exists r, rq'. split; [done|]. split; [done|].
  cbv zeta. destruct (hd true (nl_alloc rq)); [|done]. destruct H as (ops & -> & H). exists ops. split; [done|].
  destruct H as [(-> & -> & Hs)|H]; [left|by right]. rewrite message_attrs, message_size. done.
Qed.

End Building.
