(* ===== verification/WifiWire.v ===== *)
(** Netlink messages of the Wi-Fi HAL as bytes: how attributes are laid out in a message, and
    what the loops over nested attributes (src/hal/wifi_hal/cpp_bindings.h, [nl_iterator]) do on
    every message and on a well-formed one. *)

From stdpp Require Import base list gmap numbers.
From Stdlib Require Import ZArith Lia.
From S2P Require Import Prelude WifiNl WifiTypes WifiMsgs.

Local Open Scope Z_scope.
Local Open Scope st_scope.
Local Open Scope rec_scope.

(** * Attributes as bytes *)

Definition header (len type : Z) : list Z := [len mod 256; len / 256; type mod 256; type / 256].
Definition padding (n : Z) : list Z := zeros (Z.to_nat (nla_align n - n)).

Fixpoint wire (a : attr) : list Z :=
  match a with
  | Leaf t bs => header (NLA_HDRLEN + zlen bs) t ++ bs ++ padding (zlen bs)
  | Nested t l => let bs := concat (map wire l) in header (NLA_HDRLEN + zlen bs) t ++ bs
  end.
Definition wires (l : list attr) : list Z := concat (map wire l).

(** A message with attributes. *)
Definition message_of (cmd : Z) (l : list attr) : nl_msg := mkMsg (wires l) cmd 0 (zlen (wires l)).

(** The header of an attribute holds its length and its type in 16 bits each. *)
Fixpoint attr_wf (a : attr) : Prop :=
  match a with
  | Leaf t bs => 0 <= t < 65536 /\ NLA_HDRLEN + zlen bs < 65536
  | Nested t l => 0 <= t < 65536 /\ attr_size a < 65536 /\ foldr (fun a P => attr_wf a /\ P) True l
  end.

Definition attr_type (a : attr) : Z := match a with Leaf t _ => t | Nested t _ => t end.
Definition payload (a : attr) : list Z := match a with Leaf _ bs => bs | Nested _ l => wires l end.

Lemma nested_wf t l : attr_wf (Nested t l) -> Forall attr_wf l.
Proof. cbn. intros (_ & _ & H). induction l as [|a l IH]; constructor; [by destruct H|]. apply IH. by destruct H. Qed.

Lemma wire_split a : wire a = header (NLA_HDRLEN + zlen (payload a)) (attr_type a) ++ payload a ++
  match a with Leaf _ bs => padding (zlen bs) | Nested _ _ => [] end.
Proof. destruct a; cbn [wire payload attr_type]; [done|]. by rewrite app_nil_r. Qed.

Lemma zlen_wire a : zlen (wire a) = attr_size a.
Proof.
  induction a as [t bs|t l IH] using attr_ind'.
  - cbn [wire attr_size]. unfold padding. rewrite !zlen_app, zlen_zeros. pose proof (nla_align_ge (zlen bs)). change (zlen (header _ _)) with 4.
    unfold NLA_HDRLEN. lia.
  - cbn [wire attr_size]. rewrite zlen_app. change (zlen (header _ _)) with 4. unfold NLA_HDRLEN. f_equal.
    induction IH as [|a l Ha Hl IHl]; [done|]. cbn. by rewrite zlen_app, Ha, IHl.
Qed.

Lemma zlen_wires l : zlen (wires l) = attrs_size l.
Proof. induction l as [|a l IH]; [done|]. change (wires (a :: l)) with (wire a ++ wires l). rewrite zlen_app, zlen_wire, IH. done. Qed.

Lemma nla_align_mult n : nla_align (4 * n) = 4 * n.
Proof. unfold nla_align. replace (4 * n + 3) with (3 + n * 4) by lia. rewrite Z.div_add by lia. change (3 / 4) with 0. lia. Qed.

Lemma nla_align_hdr n : nla_align (NLA_HDRLEN + n) = NLA_HDRLEN + nla_align n.
Proof. unfold nla_align, NLA_HDRLEN. replace (4 + n + 3) with (n + 3 + 1 * 4) by lia. rewrite Z.div_add by lia. lia. Qed.

Lemma attr_size_mult a : exists n, attr_size a = 4 * n.
Proof.
  induction a as [t bs|t l IH] using attr_ind'; cbn [attr_size].
  - unfold nla_align, NLA_HDRLEN. eexists (1 + (zlen bs + 3) / 4). lia.
  - assert (exists n, foldr (fun a n => attr_size a + n) 0 l = 4 * n) as [n ->]; [|exists (1 + n); unfold NLA_HDRLEN; lia].
    induction IH as [|a l [k Hk] _ [n Hn]]; [by exists 0|]. cbn. exists (k + n). lia.
Qed.

(** The length of an attribute with its padding is where the next one starts. *)
Lemma align_payload a : nla_align (NLA_HDRLEN + zlen (payload a)) = attr_size a.
Proof.
  rewrite nla_align_hdr. destruct a as [t bs|t l]; cbn [payload attr_size]; [done|]. rewrite zlen_wires. unfold attrs_size. f_equal.
  destruct (attr_size_mult (Nested t l)) as [n Hn]. cbn [attr_size] in Hn. unfold NLA_HDRLEN in Hn.
  replace (foldr _ 0 l) with (4 * (n - 1)) by lia. apply nla_align_mult.
Qed.

(** * Bytes at a place of a message *)

Definition lies (m : list Z) (p : Z) (bs : list Z) : Prop := exists pre post, m = pre ++ bs ++ post /\ zlen pre = p.

Lemma lies_app m p a b : lies m p (a ++ b) -> lies m p a /\ lies m (p + zlen a) b.
Proof.
  intros (pre & post & -> & <-). split.
  - exists pre, (b ++ post). by rewrite <- app_assoc.
  - exists (pre ++ a), post. by rewrite zlen_app, <- !app_assoc.
Qed.

Lemma lies_read m p bs : lies m p bs -> mem_read m p (zlen bs) = Some bs.
Proof. intros (pre & post & -> & <-). apply mem_read_at. Qed.

Lemma lies_readable m p bs n : lies m p bs -> 0 <= n <= zlen bs -> readable m p n = true.
Proof.
  intros (pre & post & -> & <-) Hn. unfold readable. rewrite !zlen_app. pose proof (zlen_nonneg pre). pose proof (zlen_nonneg post). zb; cbn; try lia.
Qed.

Lemma lies_at m p bs i : lies m p bs -> 0 <= i < zlen bs -> at_ m (p + i) = at_ bs i.
Proof.
  intros (pre & post & -> & <-) Hi. unfold at_. pose proof (zlen_nonneg pre). zb; try lia. unfold zlen in *.
  replace (Z.to_nat (Z.of_nat (length pre) + i)) with (length pre + Z.to_nat i)%nat by lia.
  rewrite app_nth2_plus, app_nth1 by lia. done.
Qed.

Lemma lies_header m p len t rest : lies m p (header len t ++ rest) -> 0 <= len < 65536 -> 0 <= t < 65536 ->
  nlattr_len m p = len /\ nlattr_type m p = t /\ readable m p NLA_HDRLEN = true.
Proof.
  intros [H _]%lies_app Hlen Ht. unfold nlattr_len, nlattr_type.
  assert (forall i, 0 <= i < 4 -> at_ m (p + i) = at_ (header len t) i) as Hat by (intros i Hi; by apply lies_at).
  rewrite <- (Z.add_0_r p) at 1. rewrite !Hat by lia.
  change (at_ (header len t) 0) with (len mod 256). change (at_ (header len t) 1) with (len / 256).
  change (at_ (header len t) 2) with (t mod 256). change (at_ (header len t) 3) with (t / 256).
  pose proof (Z.div_mod len 256). pose proof (Z.div_mod t 256). split_and!; [lia|lia|]. by eapply lies_readable.
Qed.

(** * The loops over attributes *)

Section Loops.
Context `{NL : Libnl} `{NLL : !LibnlLaws}.

Lemma nla_ok_spec m p rem : nla_ok m p rem = true <-> NLA_HDRLEN <= rem /\ NLA_HDRLEN <= nlattr_len m p <= rem.
Proof. rewrite nla_ok_law. zb; cbn; split; intros; lia || done. Qed.

Lemma nl_loop_returns {S} fuel m it (body : Z -> ST S bool) s : (forall p s, body p s <> Blocked) -> (1 <= fuel)%nat ->
  (0 <= it_pos it -> zlen m - it_pos it < Z.of_nat fuel) -> nl_loop fuel m it body s <> Blocked.
Proof.
  intros Hb. revert it s. induction fuel as [|fuel IH]; intros it s H1 Hm; [lia|]. cbn [nl_loop]. unfold bindM, of_option, has_next.
  destruct (Z.leb_spec NLA_HDRLEN (it_rem it)) as [Hr|Hr]; cbn [andb].
  - destruct (readable m (it_pos it) NLA_HDRLEN) eqn:Hread; [|done]. cbn [negb]. unfold retM. destruct (nla_ok m (it_pos it) (it_rem it)) eqn:Hok; [|done].
    apply nla_ok_spec in Hok as [_ Hok]. unfold readable, NLA_HDRLEN in *. destruct (Z.leb_spec 0 (it_pos it)) as [Hpos|]; [|done]. cbn [andb] in Hread.
    change (0 <=? 4) with true in Hread. apply Z.leb_le in Hread. specialize (Hm Hpos). pose proof (Hb (it_pos it) s) as Hbs. destruct (body (it_pos it) s) as [[[] s']| |]; try done.
    apply IH; [lia|]. unfold it_next. rewrite nla_next_law. cbn. pose proof (nla_align_ge (nlattr_len m (it_pos it))). lia.
  - unfold retM. destruct (nla_ok m (it_pos it) (it_rem it)) eqn:Hok; [|done]. apply nla_ok_spec in Hok. lia.
Qed.

(** Every loop over nested attributes ends, whatever the bytes of the message are. *)
Lemma nl_for_returns {S} m attr (body : Z -> ST S bool) s : (forall p s, body p s <> Blocked) -> nl_for m attr body s <> Blocked.
Proof.
  intros Hb. unfold nl_for, bindM, of_option. destruct (nl_iterator_of m attr) as [it|]; [|done].
  apply nl_loop_returns; [done|lia|]. unfold zlen. lia.
Qed.

(** The same over attributes that are known: [body] gets each one with where it is. *)
Fixpoint visit {S} (body : attr -> Z -> ST S bool) (p : Z) (l : list attr) : ST S unit :=
  match l with
  | [] => retM tt
  | a :: l' => let* stop := body a p in if stop : bool then retM tt else visit body (p + attr_size a) l'
  end.

Lemma wire_len a : attr_wf a -> 0 <= NLA_HDRLEN + zlen (payload a) < 65536 /\ 0 <= attr_type a < 65536.
Proof.
  intros Ha. pose proof (zlen_nonneg (payload a)). destruct a as [t bs|t l]; cbn in *; unfold NLA_HDRLEN in *; [lia|].
  destruct Ha as (Ht & Hs & _). rewrite zlen_wires in *. unfold attrs_size, NLA_HDRLEN in *. lia.
Qed.

Lemma lies_attr m p a rest : lies m p (wire a ++ rest) -> attr_wf a ->
  nlattr_len m p = NLA_HDRLEN + zlen (payload a) /\ nlattr_type m p = attr_type a /\ readable m p NLA_HDRLEN = true /\
  lies m (nla_data p) (payload a) /\ lies m (p + attr_size a) rest.
Proof.
  intros H Ha. destruct (wire_len a Ha) as [Hl Ht]. apply lies_app in H as H'. destruct H' as [Hw Hr]. rewrite zlen_wire in Hr.
  rewrite wire_split in Hw. apply lies_header in Hw as Hh; [|done..]. destruct Hh as (H1 & H2 & H3). split_and!; try done.
  rewrite nla_data_law. apply lies_app in Hw as [_ Hw]. change (zlen (header _ _)) with 4 in Hw. by apply lies_app in Hw as [Hw _].
Qed.

Lemma nl_loop_visit {S} (body : Z -> ST S bool) (f : attr -> Z -> ST S bool) m l : forall fuel p s,
  lies m p (wires l) -> Forall attr_wf l -> (length l < fuel)%nat ->
  (forall a q, a ∈ l -> lies m q (wire a) -> forall s, body q s = f a q s) ->
  nl_loop fuel m (mkIter p (attrs_size l)) body s = visit f p l s.
Proof.
  induction l as [|a l IH]; intros fuel p s Hm Hwf Hfuel Hbody; (destruct fuel as [|fuel]; [cbn in Hfuel; lia|]); cbn [nl_loop visit].
  - unfold has_next. cbn [attrs_size foldr it_rem it_pos]. change (NLA_HDRLEN <=? 0) with false. cbn [andb]. unfold bindM, of_option, retM.
    rewrite nla_ok_law. done.
  - apply list.Forall_cons in Hwf as [Ha Hl]. change (wires (a :: l)) with (wire a ++ wires l) in Hm.
    destruct (lies_attr m p a _ Hm Ha) as (H1 & H2 & H3 & H4 & H5). unfold has_next. cbn [it_rem it_pos]. rewrite H3, andb_false_r.
    change (attrs_size (a :: l)) with (attr_size a + attrs_size l).
    assert (nla_ok m p (attr_size a + attrs_size l) = true) as Hok.
    { apply nla_ok_spec. rewrite H1. pose proof (attr_size_pos a). pose proof (attrs_size_nonneg l). pose proof (zlen_nonneg (payload a)).
      pose proof (nla_align_ge (NLA_HDRLEN + zlen (payload a))) as Hal. rewrite align_payload in Hal. lia. }
    rewrite Hok. unfold bindM at 1, of_option, retM at 1. unfold bindM at 1. unfold bindM. rewrite (Hbody a p); [|by left|by apply lies_app in Hm as [? _]].
    destruct (f a p s) as [[[] s']| |]; try done. unfold it_next. cbn [it_pos it_rem]. rewrite nla_next_law, H1, align_payload.
    replace (attr_size a + attrs_size l - attr_size a) with (attrs_size l) by lia.
    apply IH; [done|done|cbn in Hfuel; lia|]. intros b q Hb. apply Hbody. by right.
Qed.

(** On a well-formed attribute the loop visits the nested attributes in their order. *)
Lemma nl_for_visit {S} (body : Z -> ST S bool) (f : attr -> Z -> ST S bool) m p t l s :
  lies m p (wire (Nested t l)) -> attr_wf (Nested t l) ->
  (forall a q, a ∈ l -> lies m q (wire a) -> forall s, body q s = f a q s) ->
  nl_for m p body s = visit f (p + NLA_HDRLEN) l s.
Proof.
  intros Hm Hwf Hbody. rewrite <- (app_nil_r (wire _)) in Hm. destruct (lies_attr m p _ _ Hm Hwf) as (H1 & H2 & H3 & H4 & H5).
  unfold nl_for, nl_iterator_of. rewrite H3. unfold bindM at 1, of_option, retM at 1. rewrite nla_len_law, H1. rewrite nla_data_law in *. cbn [payload] in *.
  replace (NLA_HDRLEN + zlen (wires l) - NLA_HDRLEN) with (attrs_size l) by (rewrite zlen_wires; lia).
  apply nl_loop_visit; [done|by apply nested_wf in Hwf| |done].
  destruct H4 as (pre & post & -> & _). rewrite !length_app. enough (length l <= length (wires l))%nat by lia.
  clear. induction l as [|a l IH]; [done|]. change (wires (a :: l)) with (wire a ++ wires l). rewrite length_app. cbn [length].
  pose proof (zlen_wire a). pose proof (attr_size_pos a). unfold zlen, NLA_HDRLEN in *. lia.
Qed.

(** The loop when no attribute ends it: the attributes stand for [items], and [f] says what each
    one does to the state. *)
Lemma nl_for_fold {S A} (I : S -> Prop) (body : Z -> ST S bool) (enc : A -> attr) (f : A -> S -> S) m p t items s :
  lies m p (wire (Nested t (map enc items))) -> attr_wf (Nested t (map enc items)) -> I s ->
  (forall x q s, x ∈ items -> lies m q (wire (enc x)) -> attr_wf (enc x) -> I s -> body q s = Ok (false, f x s) /\ I (f x s)) ->
  nl_for m p body s = Ok (tt, foldl (fun s x => f x s) s items) /\ I (foldl (fun s x => f x s) s items).
Proof.
  intros Hm Hwf HI Hbody. rewrite (nl_for_visit body (fun _ => body) m p t _ s Hm Hwf) by done.
  rewrite <- (app_nil_r (wire _)) in Hm. destruct (lies_attr m p _ _ Hm Hwf) as (_ & _ & _ & H4 & _). rewrite nla_data_law in H4. cbn [payload] in H4.
  clear Hm. apply nested_wf in Hwf. revert H4 HI. generalize (p + NLA_HDRLEN). clear p. revert s. induction items as [|x items IH]; intros s p Hm HI; [done|].
  cbn [map] in *. apply list.Forall_cons in Hwf as [Ha Hl]. change (wires (enc x :: ?l)) with (wire (enc x) ++ wires l) in Hm. apply lies_app in Hm as [Hm1 Hm2].
  destruct (Hbody x p s ltac:(by left) Hm1 Ha HI) as [E HI']. cbn [visit foldl]. rewrite (bindM_ok _ _ _ _ _ E). rewrite zlen_wire in Hm2.
  apply IH; [done| |done|done]. intros y q s' Hy. apply Hbody. by right.
Qed.

(** The attributes an unrolled loop has in front of it. *)
Lemma visit_cons {S} (body : attr -> Z -> ST S bool) p a l s s' : body a p s = Ok (false, s') ->
  visit body p (a :: l) s = visit body (p + attr_size a) l s'.
Proof. intros E. cbn [visit]. by rewrite (bindM_ok _ _ _ _ _ E). Qed.

End Loops.
