(* ===== verification/WifiInv.v ===== *)
(** The life of a command of the Wi-Fi HAL (src/hal/wifi_hal): what the table of commands, the
    table of event handlers and the reference counts have to do with each other, while a thread
    of the framework starts and stops commands and the event thread hands events to them. *)

From stdpp Require Import base list gmap numbers.
From Stdlib Require Import ZArith Lia.
From S2P Require Import Prelude WifiNl WifiTypes WifiHal WifiReq WifiEvents WifiApi WifiTables.

Local Open Scope Z_scope.
Local Open Scope st_scope.
Local Open Scope rec_scope.

(** The events a command registers for. *)
Definition events_of (b : command_body) : list Z :=
  match b with
  | ScanCommand _ _ => [GSCAN_EVENT_SCAN_RESULTS_AVAILABLE : Z; GSCAN_EVENT_COMPLETE_SCAN : Z; GSCAN_EVENT_FULL_SCAN_RESULTS : Z]
  | FullScanResultsCommand _ => [GSCAN_EVENT_FULL_SCAN_RESULTS : Z]
  | BssidHotlistCommand _ _ => [GSCAN_EVENT_HOTLIST_RESULTS_FOUND : Z; GSCAN_EVENT_HOTLIST_RESULTS_LOST : Z]
  | ePNOCommand _ _ => [GSCAN_EVENT_EPNO_EVENT : Z]
  | SignificantWifiChangeCommand _ _ => [GSCAN_EVENT_SIGNIFICANT_CHANGE_RESULTS : Z]
  | AnqpoConfigureCommand _ _ => [GSCAN_EVENT_ANQPO_HOTSPOT_MATCH : Z]
  | SetRSSIMonitorCommand _ _ _ => [WIFI_EVENT_RSSI_MONITOR : Z]
  | RttCommand _ _ _ => [RTT_EVENT_COMPLETE : Z]
  | GetScanResultsCommand | MKeepAliveCommand => []
  end.

Definition is_rtt (b : command_body) : bool := match b with RttCommand _ _ _ => true | _ => false end.

(** The handler of a ranging command is not null, and there is no command with networks of
    Passpoint, whose request is built without a look at the allocation of its message. *)
Definition rtt_handler (b : command_body) : bool := match b with RttCommand _ _ h => h | _ => true end.
Definition supported (b : command_body) : bool := match b with AnqpoConfigureCommand _ _ => false | _ => true end.

(** What of a command never changes. *)
Definition static (b : command_body) : command_body :=
  match b with RttCommand params _ h => RttCommand params rtt_init h | _ => b end.
Definition same_kind (x y : WifiCommand) : Prop := mId x = mId y /\ static (body x) = static (body y).

Lemma static_events b b' : static b = static b' -> events_of b = events_of b'.
Proof. intros H. destruct b, b'; try discriminate H; done. Qed.
Lemma static_is_rtt b b' : static b = static b' -> is_rtt b = is_rtt b'.
Proof. intros H. destruct b, b'; try discriminate H; done. Qed.
Lemma static_handler b b' : static b = static b' -> rtt_handler b = rtt_handler b'.
Proof. intros H. destruct b, b'; try discriminate H; try done. by injection H. Qed.
Lemma static_supported b b' : static b = static b' -> supported b = supported b'.
Proof. intros H. destruct b, b'; try discriminate H; done. Qed.

(** * The invariant *)

(** Where the thread of the framework is: between calls, before the removal of a command, holding
    a command that is not in the table, or starting one that is. *)
Inductive fw_phase :=
  | FIdle
  | FPre (id : Z)
  | FCancel (id : Z)
  | FOwned (c id : Z) (b : command_body) (fresh : bool)
  | FStarting (c id : Z) (b : command_body).

(** Where the event thread is: holding no command, holding one (known not to be a ranging command,
    or not), handing a ranging event to one
    (whose handler has been removed, or not), or holding one twice. *)
Inductive ev_phase :=
  | EIdle
  | EHold (c : Z) (plain : bool)
  | ERtt (c id : Z) (clean : bool)
  | ETook (c : Z).

Definition fw_own (f : fw_phase) : list Z := match f with FOwned c _ _ _ => [c] | _ => [] end.
Definition ev_own (e : ev_phase) : list Z :=
  match e with EIdle => [] | EHold c _ | ERtt c _ _ => [c] | ETook c => [c; c] end.

Definition count (c : Z) (l : list Z) : Z := zlen (filter (fun d => d = c) l).

(** The references to the commands: the entries of the table, and the threads that hold one. *)
Definition holders (rs : list cmd_info) (f : fw_phase) (e : ev_phase) : list Z := (ci_cmd <$> rs) ++ fw_own f ++ ev_own e.

Definition no_handler_of (c : Z) (hs : list cb_info) : Prop := Forall (fun h => cb_arg h <> c) hs.
Definition no_handler_for (k : Z) (hs : list cb_info) : Prop := Forall (fun h => vendor_subcmd h <> k) hs.

Section Inv.
Context `{N80211 : Nl80211}.

(** A handler belongs to a command that is alive and in the table, or held by the framework. *)
Definition handler_ok (rs : list cmd_info) (cs : gmap Z WifiCommand) (f : fw_phase) (h : cb_info) : Prop :=
  exists x, cs !! cb_arg h = Some x /\ vendor_subcmd h ∈ events_of (body x) /\
    nl_cmd h = NL80211_CMD_VENDOR /\ vendor_id h = GOOGLE_OUI /\
    (mkCmdInfo (mId x) (cb_arg h) ∈ rs \/ (cb_arg h ∈ fw_own f /\ is_rtt (body x) = false)).

Definition fw_ok (hs : list cb_info) (rs : list cmd_info) (cs : gmap Z WifiCommand) (f : fw_phase) (e : ev_phase) : Prop :=
  match f with
  | FIdle => True
  | FPre id => id ∉ (ci_id <$> rs)
  | FCancel id => forall c x, mkCmdInfo id c ∈ rs -> cs !! c = Some x -> is_rtt (body x) = false
  | FOwned c id b fresh =>
      exists x, cs !! c = Some x /\ mId x = id /\ static (body x) = static b /\
        (is_rtt b = true -> no_handler_of c hs /\ c ∉ ev_own e) /\
        (fresh = true -> id ∉ (ci_id <$> rs) /\ rtt_handler b = true)
  | FStarting c id b =>
      exists x, cs !! c = Some x /\ mId x = id /\ static (body x) = static b /\ mkCmdInfo id c ∈ rs /\
        (is_rtt b = true -> no_handler_of c hs /\ c ∉ ev_own e)
  end.

Definition ev_ok (hs : list cb_info) (rs : list cmd_info) (cs : gmap Z WifiCommand) (e : ev_phase) : Prop :=
  match e with
  | ERtt c id clean =>
      exists x, cs !! c = Some x /\ mId x = id /\ is_rtt (body x) = true /\ mkCmdInfo id c ∈ rs /\
        (clean = true -> no_handler_of c hs)
  | EHold c plain => plain = true -> exists x, cs !! c = Some x /\ is_rtt (body x) = false
  | _ => True
  end.

(** [hs] and [rs] are the handlers and the commands in the tables, [cs] the objects; there is no
    handler for the events in [free]. *)
Record Inv (hs : list cb_info) (rs : list cmd_info) (cs : gmap Z WifiCommand) (f : fw_phase) (free : list Z) (e : ev_phase) : Prop := {
  i_ids : NoDup (ci_id <$> rs);
  i_refs : forall c x, cs !! c = Some x ->
    c <> 0 /\ mRefs x = count c (holders rs f e) /\ 0 < mRefs x /\ supported (body x) = true;
  i_live : forall c, c ∈ holders rs f e -> is_Some (cs !! c);
  i_reg : forall y x, y ∈ rs -> cs !! ci_cmd y = Some x -> mId x = ci_id y /\ rtt_handler (body x) = true;
  i_handlers : Forall (handler_ok rs cs f) hs;
  i_kinds : NoDup (vendor_subcmd <$> hs);
  i_free : Forall (fun k => no_handler_for k hs) free;
  i_fw : fw_ok hs rs cs f e;
  i_ev : ev_ok hs rs cs e;
}.

(** * Counting *)

Lemma count_app c l k : count c (l ++ k) = count c l + count c k.
Proof. unfold count. by rewrite list.filter_app, zlen_app. Qed.

Lemma count_cons c d l : count c (d :: l) = (if decide (d = c) then 1 else 0) + count c l.
Proof. unfold count. rewrite list.filter_cons. case_decide; [by rewrite zlen_cons|done]. Qed.

Lemma count_nil c : count c [] = 0.
Proof. done. Qed.

Lemma count_nonneg c l : 0 <= count c l.
Proof. apply zlen_nonneg. Qed.

Lemma count_pos c l : 0 < count c l <-> c ∈ l.
Proof.
  induction l as [|d l IH]; [rewrite count_nil; by split; [|intros ?%elem_of_nil]|].
  rewrite count_cons, elem_of_cons. pose proof (count_nonneg c l). case_decide; [subst; split; [by left|lia]|].
  rewrite Z.add_0_l, IH. split; [by right|]. intros [->|?]; done.
Qed.

Lemma count_zero c l : count c l = 0 <-> c ∉ l.
Proof. pose proof (count_pos c l). pose proof (count_nonneg c l). split; [intros H1 H2%H; lia|]. intros Hc. destruct (decide (count c l = 0)); [done|]. exfalso. apply Hc, count_pos. lia. Qed.

Lemma count_remove_first (l : list cmd_info) f y c : find_first f l = Some y ->
  count c (ci_cmd <$> l) = (if decide (ci_cmd y = c) then 1 else 0) + count c (ci_cmd <$> remove_first f l).
Proof.
  induction l as [|x l IH]; cbn; [done|]. destruct (f x) eqn:E.
  - intros [= ->]. by rewrite count_cons.
  - intros Hy. cbn. rewrite !count_cons, IH by done. lia.
Qed.

Lemma NoDup_remove_first {A B} (g : A -> B) f (l : list A) : NoDup (g <$> l) -> NoDup (g <$> remove_first f l).
Proof.
  induction l as [|x l IH]; cbn; [done|]. intros [Hx Hl]%list.NoDup_cons. destruct (f x); [done|]. cbn.
  apply list.NoDup_cons. split; [|by apply IH]. intros (y & E & Hy%elem_of_remove_first)%list_elem_of_fmap.
  apply Hx. apply list_elem_of_fmap. by exists y.
Qed.

Lemma Forall_remove_first {A} (P : A -> Prop) f l : Forall P l -> Forall P (remove_first f l).
Proof. rewrite !list.Forall_forall. intros H x Hx. by apply H, (elem_of_remove_first f). Qed.

Lemma remove_first_other {A} (f : A -> bool) l x : x ∈ l -> f x = false -> x ∈ remove_first f l.
Proof.
  induction l as [|y l IH]; cbn; [by intros ?%elem_of_nil|]. intros [->|Hx]%elem_of_cons Hf; [rewrite Hf; left|].
  destruct (f y); [done|]. right. by apply IH.
Qed.

(** Entries of the table are unique. *)
Lemma find_id rs y : NoDup (ci_id <$> rs) -> y ∈ rs -> find_first (has_id (ci_id y)) rs = Some y.
Proof.
  induction rs as [|z rs IH]; cbn; [by intros _ ?%elem_of_nil|]. intros [Hz Hn]%list.NoDup_cons [->|Hy]%elem_of_cons; unfold has_id.
  - by rewrite Z.eqb_refl.
  - destruct (Z.eqb_spec (ci_id z) (ci_id y)) as [E|_]; [|by apply IH].
    exfalso. apply Hz. rewrite E. apply list_elem_of_fmap. by exists y.
Qed.

Lemma same_id rs y z : NoDup (ci_id <$> rs) -> y ∈ rs -> z ∈ rs -> ci_id y = ci_id z -> y = z.
Proof. intros Hn Hy Hz E. pose proof (find_id _ _ Hn Hy) as F. rewrite E, (find_id _ _ Hn Hz) in F. by injection F. Qed.

Lemma removed_id rs id : NoDup (ci_id <$> rs) -> id ∉ (ci_id <$> remove_first (has_id id) rs).
Proof.
  induction rs as [|z rs IH]; cbn; [by intros _ ?%elem_of_nil|]. intros [Hz Hn]%list.NoDup_cons. unfold has_id at 1.
  destruct (Z.eqb_spec (ci_id z) id) as [<-|E]; [done|]. cbn. intros [->|H]%elem_of_cons; [done|]. by apply IH.
Qed.

(** * Moves *)

Implicit Types (hs : list cb_info) (rs : list cmd_info) (cs : gmap Z WifiCommand).

Lemma holders_reg rs f e y : y ∈ rs -> ci_cmd y ∈ holders rs f e.
Proof. intros Hy. unfold holders. apply elem_of_app. left. apply list_elem_of_fmap. by exists y. Qed.

Lemma holders_fw rs f e c : c ∈ fw_own f -> c ∈ holders rs f e.
Proof. intros Hc. unfold holders. rewrite !elem_of_app. by right; left. Qed.

Lemma holders_ev rs f e c : c ∈ ev_own e -> c ∈ holders rs f e.
Proof. intros Hc. unfold holders. rewrite !elem_of_app. by right; right. Qed.

Lemma holders_count c rs f e : count c (holders rs f e) = count c (ci_cmd <$> rs) + count c (fw_own f) + count c (ev_own e).
Proof. unfold holders. rewrite !count_app. lia. Qed.

Lemma fw_ok_kind hs rs cs cs' f e e' :
  fw_ok hs rs cs f e -> (forall c x', cs' !! c = Some x' -> exists x, cs !! c = Some x /\ same_kind x x') ->
  (forall c, c ∈ holders rs f e' -> is_Some (cs' !! c)) -> (forall c, c ∈ ev_own e' -> c ∈ ev_own e \/ ~ no_handler_of c hs) ->
  fw_ok hs rs cs' f e'.
Proof.
  intros Hf Hk Hl He. destruct f as [| | |c id b fresh|c id b]; cbn in *; [done..| | |].
  - intros c x' Hc Hx'. destruct (Hk _ _ Hx') as (x & Hx & _ & Hb). rewrite <- (static_is_rtt _ _ Hb). by eapply Hf.
  - destruct Hf as (x & Hx & Hid & Hb & Hr & Hn). destruct (Hl c) as [x' Hx']; [apply holders_fw; by left|].
    exists x'. destruct (Hk _ _ Hx') as (y & Hy & Hi & Hs). simplify_eq.
    split; [done|]. split; [done|]. split; [congruence|]. split; [|done]. intros E. destruct (Hr E). split; [done|]. by intros [?|?]%He.
  - destruct Hf as (x & Hx & Hid & Hb & Hc & Hr). destruct (Hl c) as [x' Hx'].
    { by apply (holders_reg _ _ _ _ Hc). }
    exists x'. destruct (Hk _ _ Hx') as (y & Hy & Hi & Hs). simplify_eq.
    split; [done|]. split; [done|]. split; [congruence|]. split; [done|]. intros E. destruct (Hr E). split; [done|]. by intros [?|?]%He.
Qed.

Lemma ev_ok_kind hs rs cs cs' e : ev_ok hs rs cs e -> (forall c x', cs' !! c = Some x' -> exists x, cs !! c = Some x /\ same_kind x x') ->
  (forall c, c ∈ ev_own e -> is_Some (cs' !! c)) -> ev_ok hs rs cs' e.
Proof.
  intros He Hk Hl. destruct e as [|c plain|c id b|c]; cbn in *; try done.
  { intros E. destruct (He E) as (x & Hx & Hr). destruct (Hl c) as [x' Hx']; [by left|].
    destruct (Hk _ _ Hx') as (y & Hy & Hi & Hs). simplify_eq. exists x'. by rewrite <- (static_is_rtt _ _ Hs). }
  destruct He as (x & Hx & Hm & Hr & Hc & Hn).
  destruct (Hl c) as [x' Hx']; [by left|]. destruct (Hk _ _ Hx') as (y & Hy & Hi & Hs). simplify_eq.
  exists x'. rewrite <- (static_is_rtt _ _ Hs), <- Hi. done.
Qed.

(** A change of the objects and of who holds them. *)
Lemma Inv_update hs rs cs f free e cs' f' e' :
  Inv hs rs cs f free e ->
  (forall c x', cs' !! c = Some x' ->
    (exists x, cs !! c = Some x /\ same_kind x x') /\ mRefs x' = count c (holders rs f' e') /\ 0 < mRefs x') ->
  (forall c, c ∈ holders rs f' e' -> is_Some (cs' !! c)) ->
  (forall h, h ∈ hs -> cb_arg h ∈ fw_own f -> cb_arg h ∈ fw_own f') ->
  fw_ok hs rs cs' f' e' -> ev_ok hs rs cs' e' -> Inv hs rs cs' f' free e'.
Proof.
  intros [] Hcs Hlive Hown Hf He. split; try done.
  - intros c x' Hx'. destruct (Hcs c x' Hx') as ((x & Hx & _ & Hs) & Hr & Hp). destruct (i_refs0 c x Hx) as (Hc & _ & _ & Hb).
    rewrite <- (static_supported _ _ Hs). done.
  - intros y x' Hy Hx'. destruct (Hcs _ _ Hx') as ((x & Hx & Hi & Hs) & _). rewrite <- Hi, <- (static_handler _ _ Hs). by eapply i_reg0.
  - apply list.Forall_forall. intros h Hh. destruct (proj1 (list.Forall_forall _ _) i_handlers0 h Hh) as (x & Hx & Hk & Hn & Hv & Hreg).
    destruct (Hlive (cb_arg h)) as [x' Hx'].
    { destruct Hreg as [Hreg|[Hreg _]]; [by apply (holders_reg _ _ _ _ Hreg)|]. by apply holders_fw, Hown. }
    destruct (Hcs _ _ Hx') as ((y & Hy & Hi & Hs) & _). simplify_eq. exists x'.
    rewrite <- (static_events _ _ Hs), <- (static_is_rtt _ _ Hs), <- Hi. split_and!; try done.
    destruct Hreg as [?|[? ?]]; [by left|]. right. split; [by apply Hown|done].
Qed.

(** A new command. *)
Lemma Inv_new hs rs cs f free e c id iface b fresh :
  Inv hs rs cs f free e -> fw_own f = [] -> cs !! c = None -> c <> 0 -> supported b = true ->
  (fresh = true -> id ∉ (ci_id <$> rs) /\ rtt_handler b = true) ->
  Inv hs rs (<[c := mkCommand id iface 1 b]> cs) (FOwned c id b fresh) free e.
Proof.
  intros [] Hown Hc Hc0 Hb Hfresh.
  assert (c ∉ holders rs f e) as Hnot by (intros [x Hx]%i_live0; congruence).
  assert (forall d, count d (holders rs (FOwned c id b fresh) e) = (if decide (c = d) then 1 else 0) + count d (holders rs f e)) as Hcount.
  { intros d. rewrite !holders_count, Hown. cbn [fw_own]. rewrite count_cons, count_nil. lia. }
  assert (c ∉ ev_own e) as He by (intros H; by apply Hnot, holders_ev).
  assert (forall h, h ∈ hs -> cb_arg h <> c) as Hh.
  { intros h Hh <-. destruct (proj1 (list.Forall_forall _ _) i_handlers0 h Hh) as (x & Hx & _). congruence. }
  split; try done.
  - intros d x Hx. rewrite Hcount. destruct (decide (c = d)) as [<-|Hd].
    + rewrite lookup_insert_eq in Hx. simplify_eq. cbn. rewrite (proj2 (count_zero _ _) Hnot). split_and!; [done|lia|lia|done].
    + rewrite lookup_insert_ne in Hx by done. rewrite Z.add_0_l. by apply i_refs0.
  - intros d Hd. destruct (decide (c = d)) as [<-|Hn]; [rewrite lookup_insert_eq; by eexists|]. rewrite lookup_insert_ne by done.
    apply i_live0, count_pos. apply count_pos in Hd. rewrite Hcount in Hd. by rewrite decide_False in Hd.
  - intros y x Hy Hx. destruct (decide (c = ci_cmd y)) as [->|Hn]; [by destruct Hnot; apply holders_reg|].
    rewrite lookup_insert_ne in Hx by done. by apply i_reg0.
  - apply list.Forall_forall. intros h Hin. destruct (proj1 (list.Forall_forall _ _) i_handlers0 h Hin) as (x & Hx & Hk & H1 & H2 & Hreg).
    exists x. rewrite lookup_insert_ne by (intros E; by apply (Hh h Hin)). split_and!; try done. left.
    destruct Hreg as [?|[H _]]; [done|]. rewrite Hown in H. by apply elem_of_nil in H.
  - exists (mkCommand id iface 1 b). rewrite lookup_insert_eq. split_and!; try done. intros _. split; [|done].
    apply list.Forall_forall. intros h Hin. by apply Hh.
  - destruct e as [|d pl|d id' b'|d]; try done; cbn in i_ev0 |- *.
    + intros E. destruct (i_ev0 E) as (x & Hx & Hr). exists x. rewrite lookup_insert_ne; [done|]. intros ->. by apply He; left.
    + destruct i_ev0 as (x & Hx & Hr). exists x. rewrite lookup_insert_ne; [done|]. intros ->. by apply He; left.
Qed.

(** The command is put into the table. *)
Lemma Inv_register hs rs cs free e c id b :
  Inv hs rs cs (FOwned c id b true) free e -> Inv hs (rs ++ [mkCmdInfo id c]) cs (FStarting c id b) free e.
Proof.
  intros []. destruct i_fw0 as (x & Hx & Hid & Hs & Hr & Hfresh). destruct (Hfresh eq_refl) as [Hnew Hh].
  assert (forall d, count d (holders (rs ++ [mkCmdInfo id c]) (FStarting c id b) e) = count d (holders rs (FOwned c id b true) e)) as Hcount.
  { intros d. rewrite !holders_count, fmap_app, count_app. change (ci_cmd <$> [mkCmdInfo id c]) with [c]. cbn [fw_own]. rewrite count_nil. lia. }
  split; try done.
  - rewrite fmap_app. apply list.NoDup_app. split_and!; [done| |apply NoDup_singleton].
    intros d Hd [->|?%elem_of_nil]%elem_of_cons; done.
  - intros d y Hy. rewrite Hcount. by apply i_refs0.
  - intros d Hd. apply i_live0, count_pos. rewrite <- Hcount. by apply count_pos.
  - intros y x' [Hy|[->|?%elem_of_nil]%elem_of_cons]%elem_of_app Hx'; [by apply i_reg0| |done].
    cbn in Hx' |- *. simplify_eq. by rewrite (static_handler _ _ Hs).
  - eapply list.Forall_impl; [exact i_handlers0|]. intros h (y & Hy & Hk & H1 & H2 & Hreg). exists y. split_and!; try done. left.
    apply elem_of_app. destruct Hreg as [?|[[E|?%elem_of_nil]%elem_of_cons _]]; [by left| |done]. right. rewrite E in *. simplify_eq. by left.
  - exists x. split_and!; try done. apply elem_of_app. right. by left.
  - destruct e as [|d pl|d id' b'|d]; try done. destruct i_ev0 as (y & Hy & Hm & H1 & H2 & H3). exists y. split_and!; try done. apply elem_of_app. by left.
Qed.

(** The number of references to a command that one thread takes over from the table. *)
Lemma count_take rs y d : NoDup (ci_id <$> rs) -> y ∈ rs ->
  count d (ci_cmd <$> rs) = (if decide (ci_cmd y = d) then 1 else 0) + count d (ci_cmd <$> remove_first (has_id (ci_id y)) rs).
Proof. intros Hn Hy. by apply count_remove_first, find_id. Qed.

Lemma still_in rs y z : y ∈ rs -> z ∈ rs -> ci_id z <> ci_id y -> z ∈ remove_first (has_id (ci_id y)) rs.
Proof. intros Hy Hz Hne. apply remove_first_other; [done|]. by apply Z.eqb_neq. Qed.

(** A command is taken out of the table by a thread that holds it from then on. A handler of it
    is left only when the framework holds it, and it is not a ranging command. *)
Lemma Inv_take hs rs cs f free e y x f' e' :
  Inv hs rs cs f free e -> y ∈ rs -> cs !! ci_cmd y = Some x ->
  (forall d, count d (fw_own f') + count d (ev_own e') =
    (if decide (ci_cmd y = d) then 1 else 0) + count d (fw_own f) + count d (ev_own e)) ->
  (forall h, h ∈ hs -> cb_arg h = ci_cmd y -> ci_cmd y ∈ fw_own f' /\ is_rtt (body x) = false) ->
  (forall h, h ∈ hs -> cb_arg h ∈ fw_own f -> cb_arg h ∈ fw_own f') ->
  fw_ok hs (remove_first (has_id (ci_id y)) rs) cs f' e' -> ev_ok hs (remove_first (has_id (ci_id y)) rs) cs e' ->
  Inv hs (remove_first (has_id (ci_id y)) rs) cs f' free e'.
Proof.
  intros [] Hy Hx Hown Hhs Hfw Hf He.
  assert (forall d, count d (holders (remove_first (has_id (ci_id y)) rs) f' e') = count d (holders rs f e)) as Hcount.
  { intros d. rewrite !holders_count. rewrite (count_take rs y d) by done. specialize (Hown d). lia. }
  split; try done.
  - by apply NoDup_remove_first.
  - intros d z Hz. rewrite Hcount. by apply i_refs0.
  - intros d Hd. apply i_live0, count_pos. rewrite <- Hcount. by apply count_pos.
  - intros z x' Hz%elem_of_remove_first Hx'. by apply i_reg0.
  - apply list.Forall_forall. intros h Hh. destruct (proj1 (list.Forall_forall _ _) i_handlers0 h Hh) as (z & Hz & Hk & H1 & H2 & Hreg).
    exists z. split_and!; try done. destruct (decide (cb_arg h = ci_cmd y)) as [E|Hne].
    + right. destruct (Hhs h Hh E) as [H3 H4]. rewrite E in *. simplify_eq. done.
    + destruct Hreg as [Hreg|[Hreg ?]]; [|right; split; [by apply Hfw|done]]. left. apply still_in; [done..|]. cbn. intros E.
      by pose proof (same_id _ _ _ i_ids0 Hreg Hy E) as <-.
Qed.

Lemma ev_ok_other hs rs cs e y : ev_ok hs rs cs e -> y ∈ rs -> NoDup (ci_id <$> rs) -> ci_cmd y ∉ ev_own e ->
  ev_ok hs (remove_first (has_id (ci_id y)) rs) cs e.
Proof.
  intros He Hy Hn Hd. destruct e as [|d pl|d id b|d]; try done. destruct He as (x & Hx & Hm & H1 & H2 & H3). exists x. split_and!; try done.
  apply still_in; [done..|]. cbn. intros E. pose proof (same_id _ _ _ Hn H2 Hy E) as <-. apply Hd. by left.
Qed.

(** A ranging event is handled only of a command the event thread holds. *)
Lemma ev_ok_not_rtt hs rs cs e c x : ev_ok hs rs cs e -> cs !! c = Some x -> is_rtt (body x) = false ->
  match e with ERtt d _ _ => d <> c | _ => True end.
Proof. intros He Hx Hr. destruct e as [|d pl|d id b|d]; try done. destruct He as (y & Hy & _ & H1 & _). intros ->. congruence. Qed.

Lemma Inv_unregister hs rs cs f free e y x b :
  Inv hs rs cs f free e -> fw_own f = [] -> y ∈ rs -> cs !! ci_cmd y = Some x -> static (body x) = static b ->
  (is_rtt b = true -> no_handler_of (ci_cmd y) hs /\ ci_cmd y ∉ ev_own e) ->
  Inv hs (remove_first (has_id (ci_id y)) rs) cs (FOwned (ci_cmd y) (ci_id y) b false) free e.
Proof.
  intros HI Hown Hy Hx Hb Hr. pose proof HI as []. destruct (i_reg0 y x Hy Hx) as [Hid _]. rewrite <- (static_is_rtt _ _ Hb) in Hr.
  eapply (Inv_take _ _ _ f _ e y x); try done.
  - intros d. rewrite Hown. cbn [fw_own]. rewrite count_cons, count_nil. lia.
  - intros h Hh E. split; [by left|]. destruct (is_rtt (body x)); [|done]. destruct (Hr eq_refl) as [Hno _].
    by apply (proj1 (list.Forall_forall _ _) Hno h Hh) in E.
  - intros h Hh. rewrite Hown. by intros ?%elem_of_nil.
  - exists x. rewrite <- (static_is_rtt _ _ Hb). done.
  - destruct (is_rtt (body x)) eqn:E.
    + apply ev_ok_other; [done..|]. by apply Hr.
    + pose proof (ev_ok_not_rtt _ _ _ _ _ _ i_ev0 Hx E) as Hne. destruct e as [|d pl|d id' b'|d]; try done.
      apply ev_ok_other; [done..|]. intros [E'|?%elem_of_nil]%elem_of_cons; [by apply Hne|done].
Qed.

(** The framework takes the command it has started out of the table again. *)
Lemma Inv_unregister_started hs rs cs free e c id b : Inv hs rs cs (FStarting c id b) free e ->
  find_first (has_id id) rs = Some (mkCmdInfo id c) /\ Inv hs (remove_first (has_id id) rs) cs (FOwned c id b false) free e.
Proof.
  intros HI. pose proof HI as []. destruct i_fw0 as (x & Hx & Hid & Hb & Hreg & Hr). split; [by apply (find_id _ _ i_ids0 Hreg)|].
  by apply (Inv_unregister _ _ _ _ _ _ (mkCmdInfo id c) x b HI).
Qed.

(** The event thread takes a command that has its result out of the table. *)
Lemma Inv_unregister_rtt hs rs cs f free c id :
  Inv hs rs cs f free (ERtt c id true) ->
  find_first (has_id id) rs = Some (mkCmdInfo id c) /\ Inv hs (remove_first (has_id id) rs) cs f free (ETook c).
Proof.
  intros HI. pose proof HI as []. destruct i_ev0 as (x & Hx & Hm & Hr & Hreg & Hno). subst id. split; [by apply (find_id _ _ i_ids0 Hreg)|].
  apply (Inv_take _ _ _ f _ _ (mkCmdInfo (mId x) c) x f (ETook c) HI); try done.
  - intros d. cbn [ev_own ci_cmd]. rewrite !count_cons, count_nil. lia.
  - intros h Hh E. by apply (proj1 (list.Forall_forall _ _) (Hno eq_refl) h Hh) in E.
  - destruct f as [|id|id|d id b fresh|d id b]; cbn in *; try done.
    + intros Hin. apply i_fw0. apply list_elem_of_fmap in Hin as (z & -> & Hz%elem_of_remove_first). apply list_elem_of_fmap. by exists z.
    + intros d z Hd%elem_of_remove_first. by apply i_fw0.
    + destruct i_fw0 as (z & Hz & Hid & Hb & Hr' & Hn). exists z. split_and!; try done.
      * intros E. destruct (Hr' E). split; [done|]. set_solver.
      * intros E. destruct (Hn E) as [Hn1 Hn2]. split; [|done]. intros Hin. apply Hn1.
        apply list_elem_of_fmap in Hin as (w & -> & Hw%elem_of_remove_first). apply list_elem_of_fmap. by exists w.
    + destruct i_fw0 as (z & Hz & Hid & Hb & Hin & Hr'). exists z. split_and!; try done.
      * apply (still_in rs (mkCmdInfo (mId x) c)); [done..|]. cbn. intros E.
        pose proof (same_id _ _ _ i_ids0 Hin Hreg E). simplify_eq. rewrite (static_is_rtt _ _ Hb) in Hr. destruct (Hr' Hr) as [_ H]. apply H. by left.
      * intros E. destruct (Hr' E). split; [done|]. set_solver.
Qed.

(** * References *)

(** What [releaseRef] leaves. *)
Definition released (c : Z) (x : WifiCommand) cs : gmap Z WifiCommand :=
  if mRefs x - 1 =? 0 then delete c cs else <[c := x <| mRefs := mRefs x - 1 |>]> cs.

Lemma Inv_release hs rs cs f free e c x f' e' :
  Inv hs rs cs f free e -> cs !! c = Some x ->
  (forall d, count d (fw_own f) + count d (ev_own e) =
    (if decide (c = d) then 1 else 0) + count d (fw_own f') + count d (ev_own e')) ->
  (forall h, h ∈ hs -> cb_arg h ∈ fw_own f -> cb_arg h ∈ fw_own f') ->
  (forall cs', (forall d y, cs' !! d = Some y -> exists z, cs !! d = Some z /\ same_kind z y) ->
    (forall d, d ∈ holders rs f' e' -> is_Some (cs' !! d)) -> fw_ok hs rs cs' f' e' /\ ev_ok hs rs cs' e') ->
  Inv hs rs (released c x cs) f' free e'.
Proof.
  intros HI Hx Hown Hfw Hok. pose proof HI as [].
  assert (forall d, count d (holders rs f e) = (if decide (c = d) then 1 else 0) + count d (holders rs f' e')) as Hcount.
  { intros d. rewrite !holders_count. specialize (Hown d). lia. }
  destruct (i_refs0 c x Hx) as (_ & Hrefs & _ & _). pose proof (Hcount c) as Hcc. rewrite decide_True in Hcc by done.
  assert (forall d y, released c x cs !! d = Some y ->
    (exists z, cs !! d = Some z /\ same_kind z y) /\ mRefs y = count d (holders rs f' e') /\ 0 < mRefs y) as Hcs.
  { intros d y Hy. unfold released in Hy. pose proof (count_nonneg c (holders rs f' e')).
    destruct (decide (c = d)) as [<-|Hne].
    - destruct (Z.eqb_spec (mRefs x - 1) 0); [by rewrite lookup_delete_eq in Hy|].
      rewrite lookup_insert_eq in Hy. simplify_eq. cbn. split; [by exists x|lia].
    - assert (cs !! d = Some y) as Hd.
      { destruct (_ =? 0); [by rewrite lookup_delete_ne in Hy|by rewrite lookup_insert_ne in Hy]. }
      destruct (i_refs0 d y Hd) as (_ & Hr & Hp & _). specialize (Hcount d). rewrite decide_False in Hcount by done.
      split; [by exists y|lia]. }
  assert (forall d, d ∈ holders rs f' e' -> is_Some (released c x cs !! d)) as Hlive.
  { intros d Hd%count_pos. unfold released. destruct (decide (c = d)) as [<-|Hne].
    - destruct (Z.eqb_spec (mRefs x - 1) 0); [lia|]. rewrite lookup_insert_eq. by eexists.
    - assert (is_Some (cs !! d)) as [y Hy].
      { apply i_live0, count_pos. specialize (Hcount d). rewrite decide_False in Hcount by done. lia. }
      exists y. destruct (_ =? 0); [by rewrite lookup_delete_ne|by rewrite lookup_insert_ne]. }
  destruct (Hok (released c x cs)) as [Hf He]; [intros d y Hy; by apply Hcs|done|].
  by eapply Inv_update.
Qed.

(** The events of the command have no handler: the command itself has none. *)
Lemma free_no_handler hs rs cs f free e c x : Inv hs rs cs f free e -> cs !! c = Some x -> events_of (body x) ⊆ free -> no_handler_of c hs.
Proof.
  intros [] Hx Hfree. apply list.Forall_forall. intros h Hh <-.
  destruct (proj1 (list.Forall_forall _ _) i_handlers0 h Hh) as (y & Hy & Hk & _). simplify_eq. apply Hfree in Hk.
  pose proof (proj1 (list.Forall_forall _ _) i_free0 _ Hk) as Hno. by apply (proj1 (list.Forall_forall _ _) Hno h Hh).
Qed.

(** The framework gives the command it holds back. *)
Lemma Inv_release_fw hs rs cs free e c id b fresh x : Inv hs rs cs (FOwned c id b fresh) free e -> cs !! c = Some x ->
  events_of b ⊆ free -> Inv hs rs (released c x cs) FIdle free e.
Proof.
  intros HI Hx Hfree. pose proof HI as []. destruct i_fw0 as (y & Hy & _ & Hb & _). rewrite Hx in Hy. injection Hy as <-. eapply Inv_release; [done..| | |].
  - intros d. cbn [fw_own]. rewrite count_cons, count_nil. lia.
  - intros h Hh [E|?%elem_of_nil]%elem_of_cons; [|done]. rewrite <- (static_events _ _ Hb) in Hfree.
    by apply (proj1 (list.Forall_forall _ _) (free_no_handler _ _ _ _ _ _ _ _ HI Hx Hfree) h Hh) in E.
  - intros cs' Hk Hl. split; [done|]. eapply ev_ok_kind; [done..|]. intros d Hd. by apply Hl, holders_ev.
Qed.

(** The event thread gives a command back: the one it handled an event of, or one of the two
    references it has. *)
Definition ev_next (e : ev_phase) : ev_phase := match e with ETook c => EHold c false | _ => EIdle end.

Lemma Inv_release_ev hs rs cs f free e c x : Inv hs rs cs f free e -> c ∈ ev_own e -> cs !! c = Some x ->
  Inv hs rs (released c x cs) f free (ev_next e).
Proof.
  intros HI Hc Hx. pose proof HI as []. eapply Inv_release; [done..| |done|].
  - intros d. destruct e as [|k pl|k id b|k]; cbn [ev_own ev_next] in *; [by apply elem_of_nil in Hc|..];
      assert (c = k) as -> by set_solver; rewrite !count_cons, ?count_nil; lia.
  - intros cs' Hk Hl. split; [|by destruct e]. eapply fw_ok_kind; [done..|]. intros d. destruct e; cbn; set_solver.
Qed.

(** The event thread finds the handler of an event. *)
Definition ev_found (c : Z) (x : WifiCommand) : ev_phase := if is_rtt (body x) then ERtt c (mId x) false else EHold c true.

Lemma Inv_found hs rs cs f free h x : Inv hs rs cs f free EIdle -> h ∈ hs -> cs !! cb_arg h = Some x ->
  Inv hs rs (<[cb_arg h := x <| mRefs := mRefs x + 1 |>]> cs) f free (ev_found (cb_arg h) x).
Proof.
  intros HI Hh Hx. pose proof HI as []. set (c := cb_arg h) in *.
  destruct (proj1 (list.Forall_forall _ _) i_handlers0 h Hh) as (y & Hy & _ & _ & _ & Hreg). fold c in Hy, Hreg. rewrite Hx in Hy. injection Hy as <-.
  assert (forall d, count d (holders rs f (ev_found c x)) = (if decide (c = d) then 1 else 0) + count d (holders rs f EIdle)) as Hcount.
  { intros d. rewrite !holders_count. unfold ev_found. destruct (is_rtt (body x)); cbn [ev_own]; rewrite !count_cons, ?count_nil; lia. }
  assert (forall d z, <[c := x <| mRefs := mRefs x + 1 |>]> cs !! d = Some z -> exists y, cs !! d = Some y /\ same_kind y z) as Hkind.
  { intros d z Hz. destruct (decide (c = d)) as [<-|Hne]; [rewrite lookup_insert_eq in Hz; simplify_eq; by exists x|].
    rewrite lookup_insert_ne in Hz by done. by exists z. }
  assert (forall d, d ∈ holders rs f (ev_found c x) -> is_Some (<[c := x <| mRefs := mRefs x + 1 |>]> cs !! d)) as Hlive.
  { intros d Hd%count_pos. destruct (decide (c = d)) as [<-|Hne]; [rewrite lookup_insert_eq; by eexists|].
    rewrite lookup_insert_ne by done. apply i_live0, count_pos. rewrite Hcount, decide_False in Hd by done. lia. }
  eapply Inv_update; try done.
  - intros d z Hz. split; [by apply Hkind|]. rewrite Hcount. destruct (decide (c = d)) as [<-|Hne].
    + rewrite lookup_insert_eq in Hz. simplify_eq. cbn. destruct (i_refs0 c x Hx) as (_ & -> & ? & _). lia.
    + rewrite lookup_insert_ne in Hz by done. destruct (i_refs0 d z Hz) as (_ & -> & ? & _). lia.
  - eapply fw_ok_kind; [done..|]. intros d Hd. right. intros Hno. apply (proj1 (list.Forall_forall _ _) Hno h Hh).
    unfold ev_found in Hd. destruct (is_rtt (body x)); cbn in Hd; set_solver.
  - unfold ev_found. destruct (is_rtt (body x)) eqn:E; [|intros _; exists (x <| mRefs := mRefs x + 1 |>); by rewrite lookup_insert_eq].
    exists (x <| mRefs := mRefs x + 1 |>). rewrite lookup_insert_eq.
    split_and!; try done. by destruct Hreg as [?|[_ ?]].
Qed.

(** * Handlers *)

Lemma Inv_weaken hs rs cs f free e f' free' : Inv hs rs cs f free e -> f' = f \/ (f' = FIdle /\ fw_own f = []) -> free' ⊆ free ->
  Inv hs rs cs f' free' e.
Proof.
  intros [] Hf Hfree. assert (fw_own f' = fw_own f) as Hown by (destruct Hf as [->|[-> ->]]; done).
  split; try done.
  - intros c x Hx. unfold holders. rewrite Hown. by apply i_refs0.
  - intros c. unfold holders. rewrite Hown. by apply i_live0.
  - unfold handler_ok. by rewrite Hown.
  - apply list.Forall_forall. intros k Hk%Hfree. by apply (proj1 (list.Forall_forall _ _) i_free0).
  - by destruct Hf as [->|[-> _]].
Qed.

(** The events of which a handler may have been added are not free any more. *)
Definition used (k : Z) (free : list Z) : list Z := filter (fun j => j <> k) free.
Definition fw_started (f : fw_phase) : fw_phase :=
  match f with FStarting _ _ b => if is_rtt b then FIdle else f | _ => f end.

Lemma used_subset k free : used k free ⊆ free.
Proof. intros j. unfold used. by intros [_ ?]%list_elem_of_filter. Qed.

Lemma fw_started_weaker c id b : fw_started (FStarting c id b) = FStarting c id b \/ (fw_started (FStarting c id b) = FIdle /\ fw_own (FStarting c id b) = []).
Proof. unfold fw_started. destruct (is_rtt b); [by right|by left]. Qed.

Lemma Inv_add_handler hs rs cs free e c id b k : Inv hs rs cs (FStarting c id b) free e -> k ∈ events_of b -> k ∈ free ->
  Inv (hs ++ [mkCb NL80211_CMD_VENDOR GOOGLE_OUI k c]) rs cs (fw_started (FStarting c id b)) (used k free) e.
Proof.
  intros HI Hk Hfree. pose proof HI as []. destruct i_fw0 as (x & Hx & Hid & Hb & Hreg & Hr).
  pose proof (proj1 (list.Forall_forall _ _) i_free0 _ Hfree) as Hno.
  pose proof (Inv_weaken _ _ _ _ _ _ _ (used k free) HI (fw_started_weaker c id b) (used_subset k free)) as [].
  assert (match e with ERtt d _ _ => d <> c | _ => True end) as He.
  { destruct (is_rtt b) eqn:E; [|by apply (ev_ok_not_rtt _ _ _ _ _ _ i_ev0 Hx); rewrite (static_is_rtt _ _ Hb)].
    destruct (Hr eq_refl) as [_ He]. destruct e; try done. intros ->. by apply He; left. }
  split; try done.
  - apply list.Forall_app. split; [done|]. apply Forall_singleton. exists x. cbn. rewrite (static_events _ _ Hb), Hid. split_and!; try done. by left.
  - rewrite fmap_app. apply list.NoDup_app. split_and!; [done| |apply NoDup_singleton].
    intros j Hj [E|?%elem_of_nil]%elem_of_cons; [|done]. apply list_elem_of_fmap in Hj as (h & Ej & Hh).
    apply (proj1 (list.Forall_forall _ _) Hno h Hh). by rewrite <- Ej, E.
  - apply list.Forall_forall. intros j Hj. apply list.Forall_app. split; [by apply (proj1 (list.Forall_forall _ _) i_free1)|].
    apply Forall_singleton. cbn. intros <-. by apply list_elem_of_filter in Hj as [? _].
  - unfold fw_started in *. destruct (is_rtt b) eqn:E; [done|]. exists x. split_and!; try done. congruence.
  - destruct e as [|d pl|d id' b'|d]; try done. destruct i_ev1 as (y & Hy & Hm & H1 & H2 & H3). exists y. split_and!; try done.
    intros E. apply list.Forall_app. split; [by apply H3|]. apply Forall_singleton. cbn. congruence.
Qed.

Lemma no_kind_left hs k : Forall (fun h => nl_cmd h = NL80211_CMD_VENDOR /\ vendor_id h = GOOGLE_OUI) hs -> NoDup (vendor_subcmd <$> hs) ->
  no_handler_for k (remove_first (vendor_cb GOOGLE_OUI k) hs).
Proof.
  induction 1 as [|h hs [H1 H2] Hhs IH]; cbn; [by constructor|]. intros [Hh Hn]%list.NoDup_cons. unfold vendor_cb at 1.
  rewrite H1, H2, !Z.eqb_refl. cbn. destruct (Z.eqb_spec (vendor_subcmd h) k) as [<-|Hne].
  - apply list.Forall_forall. intros j Hj E. apply Hh. rewrite <- E. apply list_elem_of_fmap. by exists j.
  - constructor; [done|]. by apply IH.
Qed.

(** Whether the handler of the ranging command is known to be gone. *)
Definition ev_clean (k : Z) (e : ev_phase) : ev_phase :=
  match e with ERtt c id clean => ERtt c id (clean || (k =? RTT_EVENT_COMPLETE)) | _ => e end.

Lemma Inv_remove_handler hs rs cs f free e k : Inv hs rs cs f free e ->
  Inv (remove_first (vendor_cb GOOGLE_OUI k) hs) rs cs f (k :: free) (ev_clean k e).
Proof.
  intros []. assert (ev_own (ev_clean k e) = ev_own e) as Hown by by destruct e.
  assert (no_handler_for k (remove_first (vendor_cb GOOGLE_OUI k) hs)) as Hk.
  { apply no_kind_left; [|done]. eapply list.Forall_impl; [exact i_handlers0|]. intros h (x & _ & _ & H1 & H2 & _). done. }
  split; try done.
  - intros c x Hx. unfold holders. rewrite Hown. by apply i_refs0.
  - intros c. unfold holders. rewrite Hown. by apply i_live0.
  - by apply Forall_remove_first.
  - by apply NoDup_remove_first.
  - constructor; [done|]. eapply list.Forall_impl; [exact i_free0|]. intros j Hj. by apply Forall_remove_first.
  - destruct f as [| | |c id b fresh|c id b]; try done; cbn in *; rewrite Hown;
      destruct i_fw0 as (x & Hx & H1 & H2 & H3 & H4); exists x; split_and!; try done.
    + intros E. destruct (H3 E). split; [by apply Forall_remove_first|done].
    + intros E. destruct (H4 E). split; [by apply Forall_remove_first|done].
  - destruct e as [|c pl|c id clean|c]; try done. destruct i_ev0 as (x & Hx & Hm & H1 & H2 & H3). exists x. split_and!; try done.
    destruct clean; cbn; [intros _; by apply Forall_remove_first, H3|]. intros ->%Z.eqb_eq. apply list.Forall_forall. intros h Hh E.
    pose proof (elem_of_remove_first _ _ _ Hh) as Hh'. destruct (proj1 (list.Forall_forall _ _) i_handlers0 h Hh') as (y & Hy & Hev & _).
    rewrite E, Hx in Hy. injection Hy as <-. destruct (body x); try done. apply elem_of_cons in Hev as [Hev|?%elem_of_nil]; [|done].
    by apply (proj1 (list.Forall_forall _ _) Hk h Hh).
Qed.

(** The results of a ranging command are stored in it. *)
Lemma Inv_store hs rs cs f free e c x x' : Inv hs rs cs f free e -> cs !! c = Some x -> same_kind x x' -> mRefs x' = mRefs x ->
  Inv hs rs (<[c := x']> cs) f free e.
Proof.
  intros HI Hx Hk Hr. pose proof HI as [].
  assert (forall d y, <[c := x']> cs !! d = Some y -> exists z, cs !! d = Some z /\ same_kind z y /\ mRefs y = mRefs z) as Hcs.
  { intros d y Hy. destruct (decide (c = d)) as [<-|Hne]; [rewrite lookup_insert_eq in Hy; simplify_eq; by exists x|].
    rewrite lookup_insert_ne in Hy by done. by exists y. }
  assert (forall d, d ∈ holders rs f e -> is_Some (<[c := x']> cs !! d)) as Hlive.
  { intros d Hd. destruct (decide (c = d)) as [<-|Hne]; [rewrite lookup_insert_eq; by eexists|]. rewrite lookup_insert_ne by done. by apply i_live0. }
  eapply Inv_update; try done.
  - intros d y Hy. destruct (Hcs d y Hy) as (z & Hz & H1 & ->). destruct (i_refs0 d z Hz) as (_ & ? & ? & _). split; [by exists z|done].
  - eapply fw_ok_kind; [done| |done|by left]. intros d y Hy. destruct (Hcs d y Hy) as (z & Hz & H1 & _). by exists z.
  - eapply ev_ok_kind; [done| |]; [intros d y Hy; destruct (Hcs d y Hy) as (z & Hz & H1 & _); by exists z|]. intros d Hd. by apply Hlive, holders_ev.
Qed.

End Inv.
