(* ===== verification/WifiSys.v ===== *)
(** The Wi-Fi HAL with its two threads (src/hal/wifi_hal): a thread of the framework starts and
    stops commands while the event thread hands the driver's events to them, one atomic step at a
    time. As long as the framework keeps to a few rules, no command is used after it has been
    deleted. *)

From stdpp Require Import base list gmap numbers.
From Stdlib Require Import ZArith Lia.
From S2P Require Import Prelude WifiNl WifiTypes WifiHal WifiReq WifiEvents WifiApi WifiTables WifiMsgs WifiInv.

Local Open Scope Z_scope.
Local Open Scope st_scope.
Local Open Scope rec_scope.
Local Open Scope wprog_scope.

(** * Safe programs

    [I] relates the state to the phase of the thread that runs the program and to that of the
    other thread. Every action keeps it, whatever the other thread does in between; undefined
    behaviour is excused by [U] only, or by a data race on the table of commands. *)

(** Who is in the table of commands: this thread or the other one, but not both. *)
Definition in_use_by (b be : bool) (s : Wifi) : Prop := table_in_use s = b || be /\ b && be = false.

Section Safe.
Context {P E : Type} (I : Wifi -> P -> E -> Prop) (U : Wifi -> Prop).

(** [b] says whether this thread is in the table. If it is, its next action leaves the table and is
    defined; if the other thread is in it, this thread may come to a race. *)
Fixpoint safe_from {A} (b : bool) (p : prog A) (Q : A -> P -> Prop) (q : P) : Prop :=
  match p with
  | Ret a => b = false /\ Q a q
  | Act m k =>
      forall s e be, I s q e -> in_use_by b be s ->
      match m s with
      | Ok (x, s') => exists q' b', I s' q' e /\ in_use_by b' be s' /\ b && b' = false /\ safe_from b' (k x) Q q'
      | Undef => b = false /\ (U s \/ be = true)
      | Blocked => b = false
      end
  | While body x k =>
      b = false /\ exists J, J x /\ forall x s e, J x -> I s q e ->
      match body x s with
      | Ok (inl x', s') => table_in_use s' = table_in_use s /\ I s' q e /\ J x'
      | Ok (inr y, s') => table_in_use s' = table_in_use s /\ I s' q e /\ safe_from false (k y) Q q
      | Undef => U s
      | Blocked => True
      end
  end.
Definition safe {A} : prog A -> (A -> P -> Prop) -> P -> Prop := safe_from false.

Lemma safe_from_bind {A B} b (p : prog A) (f : A -> prog B) Q q : safe_from b p (fun a => safe (f a) Q) q -> safe_from b (pbind p f) Q q.
Proof.
  revert b q. induction p as [a|X m k IH|X Y body x k IH]; intros b q; cbn; [by intros [-> ?]| |].
  - intros H s e be HI Hb. specialize (H s e be HI Hb). destruct (m s) as [[y s']| |]; [|done..].
    destruct H as (q' & b' & HI' & Hb' & Hbb & H). exists q', b'. split_and!; try done. by apply IH.
  - intros [-> (J & Hx & H)]. split; [done|]. exists J. split; [done|]. intros y s e Hy HI. specialize (H y s e Hy HI).
    destruct (body y s) as [[[z|z] s']| |]; [done| |done..]. destruct H as (? & ? & ?). split_and!; try done. by apply IH.
Qed.

Lemma safe_bind {A B} (p : prog A) (f : A -> prog B) Q q : safe p (fun a => safe (f a) Q) q -> safe (pbind p f) Q q.
Proof. apply safe_from_bind. Qed.

Lemma safe_from_conseq {A} b (p : prog A) (Q Q' : A -> P -> Prop) q :
  safe_from b p Q q -> (forall a q, Q a q -> Q' a q) -> safe_from b p Q' q.
Proof.
  intros Hp HQ. revert b q Hp. induction p as [a|X m k IH|X Y body x k IH]; intros b q; cbn; [by intros [? ?%HQ]| |].
  - intros H s e be HI Hb. specialize (H s e be HI Hb). destruct (m s) as [[y s']| |]; [|done..].
    destruct H as (q' & b' & HI' & Hb' & Hbb & H). exists q', b'. split_and!; try done. by apply IH.
  - intros [-> (J & Hx & H)]. split; [done|]. exists J. split; [done|]. intros y s e Hy HI. specialize (H y s e Hy HI).
    destruct (body y s) as [[[z|z] s']| |]; [done| |done..]. destruct H as (? & ? & ?). split_and!; try done. by apply IH.
Qed.

Lemma safe_conseq {A} (p : prog A) (Q Q' : A -> P -> Prop) q : safe p Q q -> (forall a q, Q a q -> Q' a q) -> safe p Q' q.
Proof. apply safe_from_conseq. Qed.

Lemma safe_ret {A} (a : A) (Q : A -> P -> Prop) q : Q a q -> safe (Ret a) Q q.
Proof. done. Qed.

(** An action that is not one on the table of commands. *)
Lemma safe_act {A B} (m : WIFI A) (k : A -> prog B) Q q :
  (forall s e, I s q e ->
    match m s with
    | Ok (x, s') => table_in_use s' = table_in_use s /\ exists q', I s' q' e /\ safe (k x) Q q'
    | Undef => U s
    | Blocked => True
    end) ->
  safe (pbind (act m) k) Q q.
Proof.
  intros H s e be HI Hb. specialize (H s e HI). destruct (m s) as [[x s']| |]; [|by auto|done].
  destruct H as (Hu & q' & HI' & H). exists q', false. unfold in_use_by in *. by rewrite Hu.
Qed.

(** An operation on the table of commands. *)
Lemma safe_in_table {A B} (m : WIFI A) (k : A -> prog B) Q q :
  (forall s b q e, I s q e -> I (s <| table_in_use := b |>) q e) ->
  (forall s e, I s q e -> exists x s' q', m s = Ok (x, s') /\ I s' q' e /\ safe (k x) Q q') ->
  safe (pbind (in_table m) k) Q q.
Proof.
  intros HI' H s e be HI [Hu _]. unfold enter_table, bindM, getM, modM. cbn in Hu. rewrite Hu. destruct be; [by split; [|right]|].
  exists q, true. split; [by apply HI'|]. split; [done|]. split; [done|]. intros s1 e1 be1 HI1 [Hu1 Hbe1]. destruct be1; [done|].
  unfold leave_table, bindM, modM, retM. destruct (H s1 e1 HI1) as (x & s' & q' & -> & HIx & Hk). exists q', false.
  split; [by apply HI'|]. done.
Qed.

(** The next step of a safe program. *)
Lemma safe_step {A} b (p : prog A) Q q s e be : safe_from b p Q q -> I s q e -> in_use_by b be s ->
  match pstep p s with
  | Ok (p', s') => exists q' b', I s' q' e /\ in_use_by b' be s' /\ b && b' = false /\ safe_from b' p' Q q'
  | Undef => b = false /\ (U s \/ be = true)
  | Blocked => b = false
  end.
Proof.
  intros Hp HI Hb. destruct p as [a|X m k|X Y body x k]; cbn in *; [by destruct Hp| |].
  - specialize (Hp s e be HI Hb). unfold bindM. by destruct (m s) as [[y s']| |].
  - destruct Hp as [-> (J & Hx & H)]. pose proof (H x s e Hx HI) as Hs. unfold bindM.
    destruct (body x s) as [[[y|y] s']| |]; [| |by auto|done]; destruct Hs as (Hu & HI' & Hy); exists q, false;
      (split; [done|]); (split; [by unfold in_use_by in *; rewrite Hu|]); split; try done. cbn. split; [done|]. by exists J.
Qed.

End Safe.

(** * The state and the phases *)

(** What the tables, the objects and the allocator agree on, and the use of the table. *)
Definition core (s : Wifi) : hal_info * gmap Z WifiCommand * list Z * bool := (info s, commands s, news s, table_in_use s).

(** A new object is at an address that is not in use. *)
Definition news_ok (s : Wifi) : Prop :=
  match news s with [] => True | [a] => a <> 0 -> commands s !! a = None | _ => False end.

Section Sys.
Context `{NL : Libnl} `{NLL : !LibnlLaws} `{N80211 : Nl80211} `{HH : WifiHalH} `{HHL : !WifiHalHLaws}.
(** A message is a page. *)
Hypothesis page : 4096 <= nlmsg_max.

Record SInv (s : Wifi) (q : fw_phase * list Z) (e : ev_phase) : Prop := {
  s_wf : hal_wf (info s);
  s_news : news_ok s;
  s_inv : Inv (handlers (info s)) (registered (info s)) (commands s) q.1 q.2 e;
}.

Lemma SInv_core s s' q e : core s' = core s -> SInv s q e -> SInv s' q e.
Proof. unfold core. intros [= E1 E2 E3 _] []. split; unfold news_ok; by rewrite ?E1, ?E2, ?E3. Qed.

Lemma SInv_use s b q e : SInv s q e -> SInv (s <| table_in_use := b |>) q e.
Proof. by intros []. Qed.

(** A step of the tables. *)
Lemma SInv_table {A} (m : WIFI A) s r hs rs q q' e :
  table_step m s r hs rs -> SInv s q e -> (Inv (handlers (info s)) (registered (info s)) (commands s) q.1 q.2 e -> Inv hs rs (commands s) q'.1 q'.2 e) ->
  exists s', m s = Ok (r, s') /\ table_in_use s' = table_in_use s /\ SInv s' q' e.
Proof.
  intros (s' & E & Hsame & Hwf & <- & <-) [] Hinv. exists s'. split; [done|].
  assert (commands s' = commands s /\ news s' = news s) as [Ec En] by by rewrite Hsame. split; [by rewrite Hsame|].
  split; [done|unfold news_ok; by rewrite Ec, En|]. rewrite Ec. by apply Hinv.
Qed.

Notation fsafe := (safe SInv (fun _ => False)).

(** * The framework's actions *)

(** An action that leaves the tables and the objects alone. *)
Lemma fw_quiet {A B} (m : WIFI A) (k : A -> prog B) Q q :
  (forall s e, SInv s q e -> match m s with Ok (x, s') => core s' = core s /\ fsafe (k x) Q q | Undef => False | Blocked => True end) ->
  fsafe (pbind (act m) k) Q q.
Proof.
  intros H. apply safe_act. intros s e HI. specialize (H s e HI). destruct (m s) as [[x s']| |]; [|done..].
  destruct H as [Hc H]. split; [by injection Hc|]. exists q. split; [|done]. by eapply SInv_core.
Qed.

(** The command the framework is working on. *)
Definition working (c : Z) (f : fw_phase) : Prop := match f with FOwned d _ _ _ | FStarting d _ _ => d = c | _ => False end.

Lemma working_alive s c q e : SInv s q e -> working c q.1 -> exists x, commands s !! c = Some x.
Proof. intros [] H. destruct s_inv0. destruct q as [[| | |d id b fresh|d id b] free]; cbn in *; try done; destruct i_fw as (x & Hx & _); subst; eauto. Qed.

(** A function that builds a message returns an error, or success with a message. *)
Definition good (m : ST WifiRequest Z) : Prop :=
  forall rq, exists r rq', m rq = Ok (r, rq') /\ (r < 0 \/ (r = 0 /\ is_Some (rq_msg rq'))).

Lemma good_request q : request_wf q -> unchecked q = false -> good (request_code q).
Proof.
  intros Hq Hun rq. destruct (refused q) eqn:Href.
  { exists WIFI_ERROR_INVALID_ARGS, rq. split; [|left; by destruct errors_negative as (_ & _ & _ & ? & _)].
    destruct q; try done. cbn in *. unfold ePNO_createSetupRequest. by rewrite Href. }
  destruct (request_builds page q rq Hq Href) as (r & rq' & E & _ & H); [by rewrite Hun|]. exists r, rq'. split; [done|].
  destruct (hd true (nl_alloc rq)).
  - destruct H as (ops & -> & [(-> & _)|(? & _)]); [right; split; [done|by eexists]|by left].
  - destruct H as [-> _]. left. by destruct errors_negative as (_ & _ & _ & _ & ?).
Qed.

Lemma fw_build {B} c m (k : _ -> prog B) Q q : working c q.1 -> good m ->
  (forall r msg, r < 0 \/ (r = 0 /\ is_Some msg) -> fsafe (k (r, msg)) Q q) -> fsafe (pbind (act (build c m)) k) Q q.
Proof.
  intros Hc Hm Hk. apply fw_quiet. intros s e HI. destruct (working_alive s c q e HI Hc) as [x Hx].
  unfold build, get_command. run. rewrite Hx. cbn.
  destruct (Hm (mkRequest (nl80211_family_id (info s)) (ifaceId x) None (msg_allocs s))) as (r & rq' & -> & Hr). cbn. split; [done|]. by apply Hk.
Qed.

(** A reaction to replies that always returns. *)
Definition total {L} (h : response_fn L) : Prop := forall event l, exists a l', h event l = Ok (a, l').

Lemma recvmsgs_total {L} (h : response_fn L) rs err l : total h -> exists st, nl_recvmsgs h rs err l = Ok st.
Proof.
  intros Hh. revert err l. induction rs as [|[msg| | |er] rs IH]; intros err l; cbn; [by eexists| |by eexists|apply IH|apply IH].
  unfold response_handler. destruct (WifiEvent_parse msg) as [res ev]. destruct (res <? 0); cbn; [apply IH|].
  destruct (Hh ev l) as (a & l' & ->). destruct a; [apply IH|apply IH|by eexists].
Qed.

(** An exchange returns 0 or an error. *)
Lemma fw_response {L} (h : response_fn L) ops l Q q : total h -> (forall r l', r <= 0 -> Q (r, l') q) ->
  fsafe (requestResponse h (Some ops) l) Q q.
Proof.
  intros Hh HQ. unfold requestResponse. apply fw_quiet. intros s e _. run. split; [done|].
  destruct (hd true (cb_allocs s)); cbn [negb]; [|by apply safe_ret, HQ].
  apply fw_quiet. intros s1 e1 _. run. destruct (Z.ltb_spec (hd 0 (sends s1)) 0) as [Hlt|Hge]; (split; [done|]).
  - rewrite (proj2 (Z.ltb_lt _ _) Hlt). apply safe_ret, HQ. lia.
  - rewrite (proj2 (Z.ltb_ge _ _) Hge). cbn. split; [done|]. exists (fun _ => True). split; [done|]. intros [err l'] s2 e2 _ HI. unfold recv_turn. cbn [fst snd].
    destruct (Z.ltb_spec 0 err); [|do 3 (split; [done|]); by apply HQ].
    run. destruct (replies s2) as [|rs rest]; [done|]. destruct (recvmsgs_total h rs err l' Hh) as [st ->]. cbn. split_and!; [done| |done].
    by apply (SInv_core s2).
Qed.

Lemma fw_request_end ops (Q : Z -> _ -> Prop) q : (forall r, r <= 0 -> Q r q) -> fsafe (request (Some ops)) Q q.
Proof. intros HQ. apply safe_bind, fw_response; [intros ev l; by eexists _, _|]. intros r l' Hr. by apply safe_ret, HQ. Qed.

Lemma fw_request {B} ops (k : Z -> prog B) Q q :
  (forall r, r <= 0 -> fsafe (k r) Q q) -> fsafe (pbind (request (Some ops)) k) Q q.
Proof. intros Hk. by apply safe_bind, fw_request_end. Qed.

Lemma fw_add {B} ev c id b free (k : Z -> prog B) Q : ev ∈ events_of b -> ev ∈ free ->
  (forall r, fsafe (k r) Q (fw_started (FStarting c id b), used ev free)) ->
  fsafe (pbind (registerVendorHandler ev c) k) Q (FStarting c id b, free).
Proof.
  intros Hev Hfree Hk. apply safe_act. intros s e HI. pose proof HI as [Hwf _ _].
  pose proof (register_vendor_step s GOOGLE_OUI ev c Hwf) as Hstep. cbv zeta in Hstep.
  destruct (SInv_table _ _ _ _ _ _ (fw_started (FStarting c id b), used ev free) e Hstep HI) as (s' & -> & Hu & HI').
  { intros Hi. destruct (_ <? DEFAULT_EVENT_CB_SIZE); [by apply Inv_add_handler|]. cbn [fst snd].
    eapply Inv_weaken; [exact Hi|apply fw_started_weaker|apply used_subset]. }
  split; [done|]. eexists. split; [exact HI'|]. apply Hk.
Qed.

Lemma Inv_unclean hs rs cs f free k e : Inv hs rs cs f free (ev_clean k e) -> Inv hs rs cs f free e.
Proof.
  intros []. assert (ev_own (ev_clean k e) = ev_own e) as Hown by by destruct e.
  split; try done.
  - unfold holders in *. by rewrite <- Hown.
  - unfold holders in *. by rewrite <- Hown.
  - destruct f; cbn in *; rewrite <- ?Hown; done.
  - destruct e as [|c pl|c id clean|c]; try done. destruct i_ev as (x & H1 & H2 & H3 & H4 & H5). exists x. split_and!; try done. intros ->. by apply H5.
Qed.

Lemma fw_remove {B} ev f free (k : unit -> prog B) Q :
  fsafe (k tt) Q (f, ev :: free) -> fsafe (pbind (unregisterVendorHandler ev) k) Q (f, free).
Proof.
  intros Hk. apply safe_act. intros s e HI. pose proof HI as [Hwf _ _].
  destruct (SInv_table _ _ _ _ _ _ (f, ev :: free) e (unregister_vendor_step s GOOGLE_OUI ev Hwf) HI) as (s' & -> & Hu & HI').
  { intros Hi. eapply Inv_unclean, Inv_remove_handler, Hi. }
  split; [done|]. eexists. split; [exact HI'|]. exact Hk.
Qed.

(** * Starting a command *)

(** What the request of a command needs: addresses have six bytes, and names are in arrays of 33
    bytes. *)
Definition body_wf (b : command_body) : Prop :=
  match b with
  | BssidHotlistCommand p _ => request_wf (RqHotlistSetup p)
  | ePNOCommand p _ => request_wf (RqEpnoSetup p)
  | SignificantWifiChangeCommand p _ => request_wf (RqSigChangeSetup p)
  | RttCommand params _ _ => request_wf (RqRttSetup params)
  | _ => True
  end.

(** [start] returns with success, or with an error and no handler for the events of the
    command. *)
Definition started (c id : Z) (b : command_body) (r : Z) (q : fw_phase * list Z) : Prop :=
  r <= 0 /\ (r = 0 -> fw_own q.1 = []) /\ (r <> 0 -> q.1 = FStarting c id b /\ events_of b ⊆ q.2).

Lemma started_ok c id b q : fw_own q.1 = [] -> started c id b 0 q.
Proof. intros H. split_and!; [done..|]. done. Qed.

Lemma started_error c id b r free : r < 0 -> events_of b ⊆ free -> started c id b r (FStarting c id b, free).
Proof. intros Hr Hf. split_and!; [lia|lia|done]. Qed.

Lemma failed_neg r : r < 0 -> failed r = true.
Proof. intros Hr. unfold failed, WIFI_SUCCESS. by rewrite (proj2 (Z.eqb_neq r 0)) by lia. Qed.

Lemma ltb_neg r : r < 0 -> (r <? 0) = true.
Proof. apply Z.ltb_lt. Qed.

(** The pieces of [start] and [cancel], one after the other. *)
Local Ltac build_step q :=
  apply fw_build; [done|by apply (good_request q)|]; intros ? ? [?Hr|[-> [?ops ->]]]; cbn beta iota;
  [rewrite ?failed_neg, ?ltb_neg by done|change (failed 0) with false; change (0 <? 0) with false; cbn iota].
Local Ltac request_step :=
  apply fw_request; intros ?r ?Hr;
  match goal with r : Z, Hr : ?r <= 0 |- _ =>
    let H := fresh in destruct (decide (r = 0)) as [->|H];
    [change (failed 0) with false; change (0 <? 0) with false; cbn iota
    |assert (r < 0) by lia; rewrite ?failed_neg, ?ltb_neg by done; cbn iota] end.
Local Ltac add_step := apply fw_add; [set_solver|set_solver|]; intros _; cbn [fw_started is_rtt].
Local Ltac remove_step := apply fw_remove.
Local Ltac finish := apply safe_ret; solve [by apply started_ok | apply started_error; [done|set_solver]].

Lemma start_body_safe b c id : supported b = true -> body_wf b ->
  fsafe (start b c) (started c id b) (FStarting c id b, events_of b).
Proof.
  intros Hsup Hwf. destruct b as [p h|h| |p h|p h|p h|n h|max min h|p st h|]; try done; cbn [start events_of].
  - unfold Scan_start. build_step (RqScanSetup p); [finish|]. request_step; [|finish]. build_step (RqScanConfig p); [finish|].
    request_step; [|finish]. build_step (RqScanEnable 1); [finish|]. do 3 add_step.
    request_step; [finish|]. do 3 remove_step. finish.
  - unfold FullScan_start. build_step (RqEnableFullScan 1); [finish|]. add_step. request_step; [finish|]. remove_step. finish.
  - apply safe_ret, started_error; [by destruct errors_negative as (_ & ? & _)|set_solver].
  - unfold Hotlist_start. build_step (RqHotlistSetup p); [finish|]. request_step; [|do 2 remove_step; finish].
    build_step (RqScanEnable 1); [finish|]. do 2 add_step. request_step; [finish|]. do 2 remove_step. finish.
  - unfold ePNO_start. build_step (RqEpnoSetup p); [finish|]. request_step; [add_step; finish|remove_step; finish].
  - unfold SigChange_start. build_step (RqSigChangeSetup p); [finish|]. request_step; [|finish].
    build_step (RqScanEnable 1); [finish|]. add_step. request_step; [finish|]. remove_step. finish.
  - unfold RSSI_start. build_step (RqRssiMonitor max min 1); [finish|]. request_step; [add_step; finish|finish].
  - unfold Rtt_start. build_step (RqRttSetup p); [finish|]. request_step; [add_step; finish|finish].
  - apply safe_ret, started_error; [by destruct errors_negative as (_ & ? & _)|set_solver].
Qed.

(** * Objects *)

Lemma fw_new {B} f free id iface b fresh (k : Z -> prog B) Q :
  fw_own f = [] -> supported b = true -> (fresh = true -> f = FPre id /\ rtt_handler b = true) ->
  fsafe (k 0) Q (f, free) -> (forall c, c <> 0 -> fsafe (k c) Q (FOwned c id b fresh, free)) ->
  fsafe (pbind (act (new_command id iface b)) k) Q (f, free).
Proof.
  intros Hown Hsup Hfresh H0 Hk. apply safe_act. intros s e HI. pose proof HI as [Hwf Hnews Hinv].
  unfold new_command, put_command. run. unfold news_ok in Hnews. destruct (news s) as [|a [|a' n]] eqn:En; [| |done].
  - cbn. split; [done|]. exists (f, free). split; [|done]. split; [done|done|done].
  - cbn. destruct (Z.eqb_spec a 0) as [->|Ha]; cbn.
    + split; [done|]. exists (f, free). split; [|done]. split; [done|done|done].
    + split; [done|]. exists (FOwned a id b fresh, free). split; [|by apply Hk]. split; [done|done|].
      cbn. eapply Inv_new; [done..|by apply Hnews|done|done|]. intros E. destruct (Hfresh E) as [-> ?]. split; [|done]. by destruct Hinv.
Qed.

Lemma fw_register {B} c id b free (k : Z -> prog B) Q :
  fsafe (k WIFI_SUCCESS) Q (FStarting c id b, free) -> fsafe (k WIFI_ERROR_OUT_OF_MEMORY) Q (FOwned c id b true, free) ->
  fsafe (pbind (in_table (wifi_register_cmd id c)) k) Q (FOwned c id b true, free).
Proof.
  intros Hok Herr. apply safe_in_table; [by apply SInv_use|]. intros s e HI. pose proof HI as [Hwf _ _]. pose proof (register_cmd_step s id c Hwf) as Hstep. cbv zeta in Hstep.
  destruct (zlen (registered (info s)) <? DEFAULT_CMD_SIZE).
  - destruct (SInv_table _ _ _ _ _ _ (FStarting c id b, free) e Hstep HI) as (s' & -> & _ & HI'); [intros Hi; by apply Inv_register|].
    eexists _, _, _. split; [reflexivity|]. split; [exact HI'|done].
  - destruct (SInv_table _ _ _ _ _ _ (FOwned c id b true, free) e Hstep HI) as (s' & -> & _ & HI'); [done|].
    eexists _, _, _. split; [reflexivity|]. split; [exact HI'|done].
Qed.

Lemma released_run s c x : commands s !! c = Some x -> releaseRef c s = Ok (tt, s <| commands := released c x (commands s) |>).
Proof. intros Hx. unfold releaseRef, get_command, put_command, released. run. rewrite Hx. cbn. by destruct (_ =? 0). Qed.

Lemma news_released s c x : news_ok s -> commands s !! c = Some x -> news_ok (s <| commands := released c x (commands s) |>).
Proof.
  unfold news_ok. cbn. intros H Hx. destruct (news s) as [|a [|? ?]]; [done| |done]. intros Ha. specialize (H Ha). unfold released.
  destruct (_ =? 0); [rewrite lookup_delete_None; by right|]. rewrite lookup_insert_ne; [done|]. congruence.
Qed.

Lemma fw_release {B} c id b fresh free (k : unit -> prog B) Q : events_of b ⊆ free ->
  fsafe (k tt) Q (FIdle, free) -> fsafe (pbind (act (releaseRef c)) k) Q (FOwned c id b fresh, free).
Proof.
  intros Hfree Hk. apply safe_act. intros s e HI. destruct (working_alive s c _ e HI eq_refl) as [x Hx]. rewrite (released_run s c x Hx). split; [done|].
  exists (FIdle, free). split; [|done]. destruct HI. split; [done|by apply news_released|]. cbn. by eapply Inv_release_fw.
Qed.

Lemma fw_unregister_started {B} c id b free (k : Z -> prog B) Q :
  fsafe (k c) Q (FOwned c id b false, free) -> fsafe (pbind (in_table (wifi_unregister_cmd id)) k) Q (FStarting c id b, free).
Proof.
  intros Hk. apply safe_in_table; [by apply SInv_use|]. intros s e HI. pose proof HI as [Hwf _ Hi]. pose proof (unregister_cmd_step s id Hwf) as Hstep.
  destruct (Inv_unregister_started _ _ _ _ _ _ _ _ Hi) as [E Hi']. rewrite E in Hstep.
  destruct (SInv_table _ _ _ _ _ _ (FOwned c id b false, free) e Hstep HI) as (s' & -> & _ & HI'); [done|].
  eexists _, _, _. split; [reflexivity|]. split; [exact HI'|done].
Qed.

(** * The calls *)

(** At the end of a call the framework holds nothing. *)
Definition returned {A} (r : A) (q : fw_phase * list Z) : Prop := fw_own q.1 = [].

Lemma start_command_safe id iface b : supported b = true -> body_wf b -> rtt_handler b = true ->
  fsafe (start_command id iface b) returned (FPre id, events_of b).
Proof.
  intros Hsup Hwf Hrtt. unfold start_command. apply fw_new with (fresh := true); [done..|]. intros c Hc. rewrite (proj2 (Z.eqb_neq _ _) Hc).
  apply fw_register.
  - change (failed WIFI_SUCCESS) with false. cbn iota. apply safe_bind. eapply safe_conseq; [by apply (start_body_safe b c id)|].
    intros r [f free] (Hr & Hok & Herr). cbn [fst snd] in *. destruct (decide (r = 0)) as [->|Hne].
    + change (failed 0) with false. by apply safe_ret, Hok.
    + rewrite failed_neg by lia. destruct (Herr Hne) as [-> Hfree]. apply fw_unregister_started. by apply fw_release.
  - rewrite failed_neg by (by destruct errors_negative as (_ & _ & _ & _ & ?)). by apply fw_release.
Qed.

(** A cancelled command has no handlers. *)
Definition cancelled (c id : Z) (b : command_body) (fresh : bool) {A} (r : A) (q : fw_phase * list Z) : Prop :=
  q.1 = FOwned c id b fresh /\ events_of b ⊆ q.2.

Local Ltac cancel_end := lazymatch goal with |- safe _ _ _ _ _ => apply safe_ret | _ => idtac end; solve [cbn; split; [done|set_solver]].

Lemma rtt_cancel_safe c id b fresh free addr : is_rtt b = true -> Forall (fun a => zlen a = 6) addr ->
  fsafe (Rtt_cancel_specific addr c) (cancelled c id b fresh) (FOwned c id b fresh, free).
Proof.
  intros Hb Ha. unfold Rtt_cancel_specific. destruct b; try done. build_step (RqRttTeardown addr).
  - remove_step. cancel_end.
  - apply fw_request. intros _ _. remove_step. cancel_end.
Qed.

Lemma cancel_safe c id b fresh free : supported b = true ->
  fsafe (cancel c) (cancelled c id b fresh) (FOwned c id b fresh, free).
Proof.
  intros Hsup. unfold cancel. apply safe_act. intros s e HI. pose proof HI as [_ _ []]. destruct i_fw as (x & Hx & Hid & Hb & _).
  unfold get_command, of_option, bindM, getM. rewrite Hx. unfold retM. split; [done|]. exists (FOwned c id b fresh, free). split; [done|].
  rewrite <- (static_supported _ _ Hb) in Hsup.
  destruct (body x) as [p h|h| |p h|p h|p h|n h|max min h|p st h|], b; try discriminate Hb; try done; try cancel_end.
  - unfold Scan_cancel. build_step (RqScanEnable 0); [|apply fw_request; intros _ _]; do 3 remove_step; cancel_end.
  - unfold FullScan_cancel. build_step (RqEnableFullScan 0); [|apply fw_request; intros _ _]; remove_step; cancel_end.
  - unfold Hotlist_cancel. do 2 remove_step. build_step RqHotlistTeardown; [cancel_end|]. apply fw_request_end. intros ? _. cancel_end.
  - unfold ePNO_cancel. remove_step. build_step RqEpnoTeardown; [cancel_end|]. apply fw_request_end. intros ? _. cancel_end.
  - unfold SigChange_cancel. remove_step. build_step RqSigChangeTeardown; [cancel_end|]. apply fw_request_end. intros ? _. cancel_end.
  - unfold RSSI_cancel. build_step (RqRssiMonitor max min 0); [|apply fw_request; intros _ _]; remove_step; cancel_end.
  - by apply rtt_cancel_safe.
Qed.

(** A call that makes a command only to cancel it. *)
Lemma anonymous_safe {A} id iface b (p : Z -> prog A) (r1 r2 : Z) : supported b = true ->
  (forall c, fsafe (p c) (cancelled c id b false) (FOwned c id b false, [])) ->
  fsafe (let! c := act (new_command id iface b) in if c =? 0 then Ret r1 else p c ;! act (releaseRef c) ;! Ret r2) returned (FIdle, []).
Proof.
  intros Hsup Hp. apply fw_new with (fresh := false); [done..|]. intros c Hc. rewrite (proj2 (Z.eqb_neq _ _) Hc).
  apply safe_bind. eapply safe_conseq; [apply Hp|]. intros r [f free] [Hf Hfree]. cbn in Hf, Hfree. subst f. by apply fw_release.
Qed.

Lemma fw_unregister {B} id (k : Z -> prog B) Q : fsafe (k 0) Q (FIdle, []) ->
  (forall c b, c <> 0 -> supported b = true -> fsafe (k c) Q (FOwned c id b false, [])) ->
  fsafe (pbind (in_table (wifi_unregister_cmd id)) k) Q (FCancel id, []).
Proof.
  intros H0 Hk. apply safe_in_table; [by apply SInv_use|]. intros s e HI. pose proof HI as [Hwf _ Hi]. pose proof (unregister_cmd_step s id Hwf) as Hstep.
  destruct (find_first (has_id id) (registered (info s))) as [y|] eqn:E.
  - apply find_first_Some in E as [Hy E]. apply Z.eqb_eq in E. pose proof Hi as [].
    destruct (i_live (ci_cmd y)) as [x Hx]; [by apply holders_reg|]. destruct (i_refs _ _ Hx) as (Hc & _ & _ & Hb).
    assert (is_rtt (body x) = false) as Hr by (apply (i_fw (ci_cmd y)); [destruct y; cbn in *; by subst|done]).
    destruct (SInv_table _ _ _ _ _ _ (FOwned (ci_cmd y) id (body x) false, []) e Hstep HI) as (s' & -> & _ & HI').
    { intros _. cbn [fst snd]. subst id. eapply Inv_unregister; try done. congruence. }
    eexists _, _, _. split; [reflexivity|]. split; [exact HI'|]. by apply Hk.
  - apply find_first_None in E as Hnone. rewrite (remove_first_none _ _ Hnone) in Hstep.
    destruct (SInv_table _ _ _ _ _ _ (FIdle, []) e Hstep HI) as (s' & -> & _ & HI'); [|eexists _, _, _; split; [reflexivity|split; [exact HI'|done]]].
    intros _. eapply Inv_weaken; [exact Hi|by right|done].
Qed.

Lemma cancel_cmd_safe id : fsafe (wifi_cancel_cmd id) returned (FCancel id, []).
Proof.
  unfold wifi_cancel_cmd. apply fw_unregister; [done|]. intros c b Hc Hb. rewrite (proj2 (Z.eqb_neq _ _) Hc).
  apply safe_bind. eapply safe_conseq; [by apply cancel_safe|]. intros r [f free] [Hf Hfree]. cbn in Hf, Hfree. subst f. by apply fw_release.
Qed.

(** A packet that is sent again and again. *)
Lemma keep_alive_safe iface (m : ST WifiRequest Z) (r1 : Z) : good m ->
  fsafe (let! c := act (new_command 0 iface MKeepAliveCommand) in
    if c =? 0 then Ret r1 else let! result := MKeepAlive_start c m in act (releaseRef c) ;! Ret result) returned (FIdle, []).
Proof.
  intros Hm. apply fw_new with (fresh := false); [done..|]. intros c Hc. rewrite (proj2 (Z.eqb_neq _ _) Hc).
  apply safe_bind. unfold MKeepAlive_start. apply fw_build; [done|done|]. intros r msg [Hr|[-> [ops ->]]].
  - rewrite failed_neg by done. apply safe_ret, fw_release; [cbn; set_solver|done].
  - change (failed 0) with false. cbn iota. apply safe_bind, fw_response; [intros ev l; by eexists _, _|]. intros r l' _.
    split; [done|]. apply fw_release; [cbn; set_solver|done].
Qed.

(** * The event thread *)

(** What a command does with a message, whatever the state of the command. *)
Definition reading (id : Z) (b : command_body) (event : WifiEvent) : WIFI unit :=
  match b with
  | ScanCommand _ h => Scan_handleEvent id h event
  | FullScanResultsCommand h => FullScan_handleEvent id h event
  | BssidHotlistCommand _ h => Hotlist_handleEvent id h event
  | ePNOCommand _ h => ePNO_handleEvent id h event
  | SignificantWifiChangeCommand _ h => SigChange_handleEvent id h event
  | AnqpoConfigureCommand _ h => Anqpo_handleEvent id h event
  | SetRSSIMonitorCommand _ _ h => RSSI_handleEvent id h event
  | RttCommand _ st _ => fun s => match rtt_parse event (st, mallocs s) with Ok _ => Ok (tt, s) | Undef => Undef | Blocked => Blocked end
  | GetScanResultsCommand | MKeepAliveCommand => retM tt
  end.

(** Reading the message itself is undefined. *)
Definition unreadable (msg : nl_msg) (s : Wifi) : Prop :=
  let event := snd (WifiEvent_parse msg) in
  get_u32 event NL80211_ATTR_VENDOR_ID = None \/ get_u32 event NL80211_ATTR_VENDOR_SUBCMD = None \/
  exists id b, reading id b event s = Undef.

Notation esafe msg := (safe (fun s e q => SInv s q e) (unreadable msg)).

Definition keeps_core {A} (m : WIFI A) : Prop := forall k, preserves (fun s => core s = k) m.

Lemma keeps_wifi_emit o : keeps_core (emit o).
Proof. intros k s a s' Hs [= <- <-]. done. Qed.
Lemma keeps_malloc : keeps_core malloc_ok.
Proof. intros k s a s' Hs [= <- <-]. done. Qed.
Lemma keeps_option {A} (o : option A) : keeps_core (of_option o).
Proof. intros k. destruct o; [apply preserves_ret|apply preserves_undef]. Qed.

Local Ltac keeps_core := 
  repeat first
    [ apply keeps_wifi_emit | apply keeps_malloc | apply keeps_option | apply preserves_ret | apply preserves_undef
    | apply preserves_bind; [|intros ?] | apply preserves_if
    | match goal with |- preserves _ (match ?x with _ => _ end) => destruct x end ].

Lemma full_scan_keeps id event h : keeps_core (wifi_handle_full_scan_event id event h).
Proof. intros k. unfold wifi_handle_full_scan_event. cbv zeta. keeps_core. Qed.

Lemma reading_keeps id b event : keeps_core (reading id b event).
Proof.
  intros k. destruct b; cbn [reading]; try apply full_scan_keeps.
  - unfold Scan_handleEvent. cbv zeta. keeps_core.
  - keeps_core.
  - unfold Hotlist_handleEvent. cbv zeta. keeps_core.
  - unfold ePNO_handleEvent. cbv zeta. keeps_core.
  - unfold SigChange_handleEvent. cbv zeta. keeps_core.
  - unfold Anqpo_handleEvent. cbv zeta. keeps_core.
  - unfold RSSI_handleEvent. cbv zeta. keeps_core.
  - intros s a s' Hs E. destruct (rtt_parse event _) as [[? ?]| |]; by simplify_eq.
  - keeps_core.
Qed.

(** The event thread's steps on the tables and on the commands. *)
Lemma ev_alive s q e c : SInv s q e -> c ∈ ev_own e -> exists x, commands s !! c = Some x.
Proof. intros [_ _ []] Hc. destruct (i_live c) as [x Hx]; [by apply holders_ev|]. by exists x. Qed.

Lemma ev_release {B} msg c e (k : unit -> prog B) Q : c ∈ ev_own e ->
  esafe msg (k tt) Q (ev_next e) -> esafe msg (pbind (act (releaseRef c)) k) Q e.
Proof.
  intros Hc Hk. apply safe_act. intros s q HI. destruct (ev_alive s q e c HI Hc) as [x Hx]. rewrite (released_run s c x Hx). split; [done|].
  exists (ev_next e). split; [|done]. destruct HI. split; [done|by apply news_released|]. cbn. by apply Inv_release_ev.
Qed.

Lemma ev_remove {B} msg c id (k : unit -> prog B) Q :
  esafe msg (k tt) Q (ERtt c id true) -> esafe msg (pbind (unregisterVendorHandler RTT_EVENT_COMPLETE) k) Q (ERtt c id false).
Proof.
  intros Hk. apply safe_act. intros s q HI. destruct HI as [Hwf Hnews Hi].
  destruct (unregister_vendor_step s GOOGLE_OUI RTT_EVENT_COMPLETE Hwf) as (s' & -> & Hsame & Hwf' & Eh & Er).
  assert (commands s' = commands s /\ news s' = news s) as [Ec En] by by rewrite Hsame. split; [by rewrite Hsame|].
  exists (ERtt c id true). split; [|done]. split; [done|unfold news_ok; by rewrite Ec, En|]. rewrite Ec, Eh, Er.
  apply Inv_remove_handler with (k := RTT_EVENT_COMPLETE) in Hi. cbn [ev_clean orb] in Hi. rewrite Z.eqb_refl in Hi.
  eapply Inv_weaken; [exact Hi|by left|]. intros j Hj. by right.
Qed.

(** A look at a message of a command that is not a ranging command. *)
Lemma ev_reading msg e id b (k : unit -> prog unit) Q :
  esafe msg (k tt) Q e -> esafe msg (pbind (act (reading id b (snd (WifiEvent_parse msg)))) k) Q e.
Proof.
  intros Hk. apply safe_act. intros s q HI. destruct (reading id b (snd (WifiEvent_parse msg)) s) as [[[] s']| |] eqn:E; [| |done].
  - pose proof (reading_keeps id b _ (core s) s tt s' eq_refl E) as Hc. split; [by injection Hc|].
    exists e. split; [|done]. by eapply SInv_core; [|exact HI].
  - right. right. by exists id, b.
Qed.

Lemma put_command_run s c x : put_command c x s = Ok (tt, s <| commands := <[c := x]> (commands s) |>).
Proof. done. Qed.

(** The command that is being used does not lose its address. *)
Lemma SInv_store s q e c x x' : SInv s q e -> commands s !! c = Some x -> same_kind x x' -> mRefs x' = mRefs x ->
  SInv (s <| commands := <[c := x']> (commands s) |>) q e.
Proof.
  intros [] Hx Hk Hr. split; [done| |by eapply Inv_store]. unfold news_ok in *. cbn. destruct (news s) as [|a [|? ?]]; [done| |done].
  intros Ha. rewrite lookup_insert_ne; [by apply s_news0|]. intros ->. specialize (s_news0 Ha). congruence.
Qed.

Lemma rtt_event_safe msg c id : esafe msg (Rtt_handleEvent c (snd (WifiEvent_parse msg))) (fun _ e => c ∈ ev_own e /\ ev_next e = EIdle) (ERtt c id false).
Proof.
  unfold Rtt_handleEvent. apply safe_act. intros s q HI. pose proof HI as [Hwf Hnews Hi]. pose proof Hi as []. destruct i_ev as (x & Hx & Hid & Hrtt & Hreg & _).
  unfold Rtt_collect, get_command, bindM, getM, of_option. rewrite Hx. unfold retM. destruct (body x) as [| | | | | | | |p st h|] eqn:Eb; try done.
  destruct (rtt_parse _ (st, mallocs s)) as [[u [st' ms]]| |] eqn:Ep; [| |done].
  2: { right. right. exists id, (RttCommand p st h). cbn. by rewrite Ep. }
  unfold modM. rewrite put_command_run. split; [done|]. exists (ERtt c id false). split.
  { apply (SInv_store (s <| mallocs := ms |>) q _ c x); [by apply (SInv_core s)|done| |done]. split; [done|]. cbn. by rewrite Eb. }
  destruct (truth (mCompleted st')); [|by apply safe_ret; split; [left|]].
  assert (h = true) as ->. { destruct (i_reg _ x Hreg Hx) as [_ Hh]. by rewrite Eb in Hh. }
  apply ev_remove. apply safe_act. intros s1 q1 HI1. unfold emit, modM. split; [done|]. exists (ERtt c id true). split; [by apply (SInv_core s1)|].
  apply safe_act. intros s2 q2 HI2. pose proof HI2 as [_ _ Hi2]. pose proof Hi2 as []. destruct i_ev as (x2 & Hx2 & Hid2 & Hrtt2 & Hreg2 & _).
  unfold Rtt_clear, get_command, bindM, getM, of_option. rewrite Hx2. unfold retM. destruct (body x2) as [| | | | | | | |p2 st2 h2|] eqn:Eb2; try done.
  rewrite put_command_run. split; [done|]. exists (ERtt c id true). split.
  { apply (SInv_store s2 q2 _ c x2); [done..| |done]. split; [done|]. cbn. by rewrite Eb2. }
  rewrite Hid. clear dependent s s1 s2. apply safe_in_table; [by intros ? ? ? ? []|]. intros s q3 HI. pose proof HI as [Hwf Hnews Hi].
  pose proof (unregister_cmd_step s id Hwf) as Hstep. destruct (Inv_unregister_rtt _ _ _ _ _ _ _ Hi) as [E Hi']. rewrite E in Hstep. cbn in Hstep.
  destruct Hstep as (s' & -> & Hsame & Hwf' & Eh & Er). exists c, s', (ETook c). split; [done|].
  assert (commands s' = commands s /\ news s' = news s) as [Ec En] by by rewrite Hsame. split.
  { split; [done|unfold news_ok; by rewrite Ec, En|]. by rewrite Ec, Eh, Er. }
  assert (c <> 0) as Hc. { destruct (ev_alive s q3 _ c HI) as [y Hy]; [by left|]. by destruct (i_refs _ _ _ _ _ _ Hi c y Hy). }
  rewrite (proj2 (Z.eqb_neq _ _) Hc). apply (ev_release msg c (ETook c) Ret); [by left|]. apply safe_ret. by split; [left|].
Qed.

(** A phase in which an event can be handed to [c]. *)
Definition handing (c : Z) (e : ev_phase) : Prop := e = EHold c true \/ exists id, e = ERtt c id false.

Lemma handle_safe msg c e : handing c e ->
  esafe msg (handleEvent c (snd (WifiEvent_parse msg))) (fun _ e => c ∈ ev_own e /\ ev_next e = EIdle) e.
Proof.
  intros He. unfold handleEvent. apply safe_act. intros s q HI.
  destruct (ev_alive s q e c HI) as [x Hx]; [destruct He as [->|[id ->]]; by left|].
  unfold get_command, bindM, getM, of_option. rewrite Hx. unfold retM. split; [done|]. exists e. split; [done|].
  destruct HI as [_ _ []]. destruct He as [->|[id ->]].
  - destruct (i_ev eq_refl) as (y & Hy & Hr). rewrite Hx in Hy. injection Hy as <-.
    assert (c ∈ ev_own (EHold c true) /\ ev_next (EHold c true) = EIdle) as Hend by (split; [by left|done]).
    set (Q := fun (_ : unit) e => c ∈ ev_own e /\ ev_next e = EIdle). pose proof (fun b => ev_reading msg (EHold c true) (mId x) b Ret Q (conj eq_refl Hend)) as Hread.
    destruct (body x) as [p h|h| |p h|p h|p h|n h|max min h|p st h|] eqn:Eb; try done.
    + exact (Hread (ScanCommand p h)).
    + exact (Hread (FullScanResultsCommand h)).
    + exact (Hread (BssidHotlistCommand p h)).
    + exact (Hread (ePNOCommand p h)).
    + exact (Hread (SignificantWifiChangeCommand p h)).
    + exact (Hread (AnqpoConfigureCommand n h)).
    + exact (Hread (SetRSSIMonitorCommand max min h)).
  - destruct i_ev as (y & Hy & _ & Hr & _). rewrite Hx in Hy. injection Hy as <-. destruct (body x); try done. apply rtt_event_safe.
Qed.

Lemma find_safe {B} msg (k : option Z -> prog B) Q : esafe msg (k None) Q EIdle ->
  (forall c e, handing c e -> esafe msg (k (Some c)) Q e) -> esafe msg (pbind (act (find_handler (snd (WifiEvent_parse msg)))) k) Q EIdle.
Proof.
  intros Hnone Hsome. apply safe_act. intros s q HI. set (event := snd (WifiEvent_parse msg)). unfold find_handler, bindM, getM, of_option.
  destruct (if get_cmd event =? NL80211_CMD_VENDOR then get_u32 event NL80211_ATTR_VENDOR_ID else Some 0) as [id|] eqn:E1.
  2: { left. by destruct (_ =? _). }
  destruct (if get_cmd event =? NL80211_CMD_VENDOR then i32 <$> get_u32 event NL80211_ATTR_VENDOR_SUBCMD else Some 0) as [subcmd|] eqn:E2.
  2: { right. left. destruct (_ =? _); [|done]. fold event. by destruct (get_u32 event NL80211_ATTR_VENDOR_SUBCMD). }
  unfold retM. destruct (list_find _ _) as [[i h]|] eqn:F; [|by split; [|exists EIdle]].
  apply list_find_Some in F as (Hh%list_elem_of_lookup_2 & _ & _). pose proof HI as [Hwf Hnews Hi].
  destruct (proj1 (list.Forall_forall _ _) (i_handlers _ _ _ _ _ _ Hi) h Hh) as (x & Hx & _).
  unfold addRef, get_command, bindM, getM, of_option. rewrite Hx. unfold retM. rewrite put_command_run. split; [done|].
  exists (ev_found (cb_arg h) x). split.
  - split; [done| |by apply Inv_found]. unfold news_ok in *. cbn. destruct (news s) as [|a [|? ?]]; [done| |done].
    intros Ha. rewrite lookup_insert_ne; [by apply Hnews|]. intros <-. specialize (Hnews Ha). congruence.
  - apply Hsome. unfold ev_found. destruct (is_rtt (body x)); [right; by eexists|by left].
Qed.

(** A message is handled, and nothing is held at the end. *)
Lemma message_safe msg : esafe msg (internal_valid_message_handler msg) (fun _ e => e = EIdle) EIdle.
Proof.
  unfold internal_valid_message_handler, event_handler. destruct (WifiEvent_parse msg) as [res event] eqn:Ep.
  destruct (res <? 0); [done|]. replace event with (snd (WifiEvent_parse msg)) by by rewrite Ep.
  apply find_safe; [done|]. intros c e He. apply safe_bind. eapply safe_conseq; [by apply handle_safe|].
  intros [] e' [Hc Hn]. apply ev_release; [done|]. by rewrite Hn.
Qed.

(** * The system *)

Inductive wifi_call :=
  | StartGscan (id iface : Z) (params : wifi_scan_cmd_params) (handler : wifi_scan_result_handler)
  | StopGscan (id iface : Z)
  | EnableFullScanResults (id iface : Z) (handler : wifi_scan_result_handler)
  | DisableFullScanResults (id iface : Z)
  | SetBssidHotlist (id iface : Z) (params : wifi_bssid_hotlist_params) (handler : wifi_hotlist_handler)
  | ResetBssidHotlist (id iface : Z)
  | SetSignificantChange (id iface : Z) (params : wifi_significant_change_params) (handler : bool)
  | ResetSignificantChange (id iface : Z)
  | SetEpnoList (id iface : Z) (params : option wifi_epno_params) (handler : bool)
  | ResetEpnoList (id iface : Z)
  | StartRssiMonitoring (id iface max_rssi min_rssi : Z) (handler : bool)
  | StopRssiMonitoring (id iface : Z)
  | RttRangeRequest (id iface : Z) (config : list wifi_rtt_config) (handler : bool)
  | RttRangeCancel (id iface : Z) (addr : list (list Z))
  | StartSendingPacket (index iface : Z) (ip src dst : option (list Z)) (period : Z)
  | StopSendingPacket (index iface : Z).

Definition call_prog (c : wifi_call) : prog Z :=
  match c with
  | StartGscan id iface params h => wifi_start_gscan id iface params h
  | StopGscan id iface => wifi_stop_gscan id iface
  | EnableFullScanResults id iface h => wifi_enable_full_scan_results id iface h
  | DisableFullScanResults id iface => wifi_disable_full_scan_results id iface
  | SetBssidHotlist id iface params h => wifi_set_bssid_hotlist id iface params h
  | ResetBssidHotlist id iface => wifi_reset_bssid_hotlist id iface
  | SetSignificantChange id iface params h => wifi_set_significant_change_handler id iface params h
  | ResetSignificantChange id iface => wifi_reset_significant_change_handler id iface
  | SetEpnoList id iface params h => wifi_set_epno_list id iface params h
  | ResetEpnoList id iface => wifi_reset_epno_list id iface
  | StartRssiMonitoring id iface max min h => wifi_start_rssi_monitoring id iface max min h
  | StopRssiMonitoring id iface => wifi_stop_rssi_monitoring id iface
  | RttRangeRequest id iface config h => wifi_rtt_range_request id iface config h
  | RttRangeCancel id iface addr => wifi_rtt_range_cancel id iface addr
  | StartSendingPacket index iface ip src dst period => wifi_start_sending_offloaded_packet index iface ip src dst period
  | StopSendingPacket index iface => wifi_stop_sending_offloaded_packet index iface
  end.

(** A command is started under a number that is not in use, when no handler is registered for its
    events, with addresses and names of the right length and, for ranging, with a handler; a
    ranging command is not stopped by its number. *)
Definition start_rule (s : Wifi) (id : Z) (b : command_body) : Prop :=
  id ∉ (ci_id <$> registered (info s)) /\ Forall (fun k => no_handler_for k (handlers (info s))) (events_of b) /\
  body_wf b /\ rtt_handler b = true.

Definition stop_rule (s : Wifi) (id : Z) : Prop :=
  forall c x, mkCmdInfo id c ∈ registered (info s) -> commands s !! c = Some x -> is_rtt (body x) = false.

Definition call_rule (s : Wifi) (c : wifi_call) : Prop :=
  match c with
  | StartGscan id _ params h => start_rule s id (ScanCommand params h)
  | EnableFullScanResults id _ h => start_rule s id (FullScanResultsCommand h)
  | SetBssidHotlist id _ params h => start_rule s id (BssidHotlistCommand params h)
  | SetSignificantChange id _ params h => start_rule s id (SignificantWifiChangeCommand params h)
  | SetEpnoList id _ params h => start_rule s id (ePNOCommand (default no_epno params) h)
  | StartRssiMonitoring id _ max min h => start_rule s id (SetRSSIMonitorCommand max min h)
  | RttRangeRequest id _ config h => start_rule s id (RttCommand config rtt_init h)
  | StopGscan id _ | DisableFullScanResults id _ | ResetEpnoList id _ | StopRssiMonitoring id _ => id <> -1 -> stop_rule s id
  | ResetBssidHotlist id _ | ResetSignificantChange id _ => stop_rule s id
  | RttRangeCancel _ _ addr => Forall (fun a => zlen a = 6) addr
  | StartSendingPacket _ _ _ src dst _ => Forall (fun a => zlen a = 6) (option_list src ++ option_list dst)
  | StopSendingPacket _ _ => True
  end.

(** The state, the call the framework has made and has not returned from, and the message the
    event thread is handling, if any. *)
Record sys := mkSys { st : Wifi; fw : option (prog Z); ev : option (nl_msg * prog nl_cb_action) }.

Inductive sys_step : sys -> sys -> Prop :=
  | step_supply s s' f e a : core s' = (info s, commands s, [a], table_in_use s) -> (a <> 0 -> commands s !! a = None) ->
      sys_step (mkSys s f e) (mkSys s' f e)
  | step_call s e c : call_rule s c -> sys_step (mkSys s None e) (mkSys s (Some (call_prog c)) e)
  | step_fw s p e p' s' : pstep p s = Ok (p', s') -> sys_step (mkSys s (Some p) e) (mkSys s' (Some p') e)
  | step_return s r e : sys_step (mkSys s (Some (Ret r)) e) (mkSys s None e)
  | step_message s f msg : sys_step (mkSys s f None) (mkSys s f (Some (msg, internal_valid_message_handler msg)))
  | step_ev s f msg p p' s' : pstep p s = Ok (p', s') -> sys_step (mkSys s f (Some (msg, p))) (mkSys s' f (Some (msg, p')))
  | step_handled s f msg a : sys_step (mkSys s f (Some (msg, Ret a))) (mkSys s f None).

(** The state [wifi_initialize] leaves: the tables are empty. *)
Record sys_init (x : sys) : Prop := {
  init_wf : hal_wf (info (st x));
  init_handlers : num_event_cb (info (st x)) = 0;
  init_registered : num_cmd (info (st x)) = 0;
  init_commands : commands (st x) = ∅;
  init_news : news (st x) = [];
  init_use : table_in_use (st x) = false;
  init_fw : fw x = None;
  init_ev : ev x = None;
}.

Definition sys_inv (x : sys) : Prop :=
  exists q e b be, SInv (st x) q e /\ in_use_by b be (st x) /\
    match fw x with None => b = false /\ q = (FIdle, []) | Some p => safe_from SInv (fun _ => False) b p returned q end /\
    match ev x with
    | None => be = false /\ e = EIdle
    | Some (msg, p) => safe_from (fun s e q => SInv s q e) (unreadable msg) be p (fun _ e => e = EIdle) e
    end.

Lemma init_inv x : sys_init x -> sys_inv x.
Proof.
  intros []. exists (FIdle, []), EIdle, false, false. rewrite init_fw0, init_ev0. split; [|by split].
  assert (handlers (info (st x)) = [] /\ registered (info (st x)) = []) as [Eh Er].
  { unfold handlers, registered. by rewrite init_handlers0, init_registered0. }
  split; [done|unfold news_ok; by rewrite init_news0|]. rewrite Eh, Er, init_commands0. split; cbn; try done.
  - apply NoDup_nil_2.
  - by intros c ?%elem_of_nil.
  - apply NoDup_nil_2.
Qed.

(** The framework begins a call by its rules. *)
Lemma begin_start s e id iface b : SInv s (FIdle, []) e -> supported b = true -> start_rule s id b ->
  exists q, SInv s q e /\ fsafe (start_command id iface b) returned q.
Proof.
  intros [Hwf Hnews []] Hsup (Hid & Hfree & Hb & Hh). exists (FPre id, events_of b). split; [|by apply start_command_safe].
  by split; [..|split].
Qed.

Lemma begin_stop s e id : SInv s (FIdle, []) e -> stop_rule s id -> exists q, SInv s q e /\ fsafe (wifi_cancel_cmd id) returned q.
Proof. intros [Hwf Hnews []] Hid. exists (FCancel id, []). split; [|apply cancel_cmd_safe]. by split; [..|split]. Qed.

Lemma begin_anonymous s e id iface b : SInv s (FIdle, []) e -> supported b = true ->
  exists q, SInv s q e /\ fsafe (cancel_anonymous id iface b) returned q.
Proof. intros HI Hb. exists (FIdle, []). split; [done|]. apply anonymous_safe; [done|]. intros c. by apply cancel_safe. Qed.

Lemma begin_call s e c : SInv s (FIdle, []) e -> call_rule s c -> exists q, SInv s q e /\ fsafe (call_prog c) returned q.
Proof.
  intros HI Hc. destruct c; cbn [call_prog call_rule] in *; try (by apply begin_start); try (by apply begin_stop).
  1: unfold wifi_stop_gscan. 2: unfold wifi_disable_full_scan_results. 3: unfold wifi_reset_epno_list. 4: unfold wifi_stop_rssi_monitoring.
  1-4: destruct (Z.eqb_spec id (-1)); [by apply begin_anonymous|apply begin_stop; auto].
  - exists (FIdle, []). split; [done|]. apply anonymous_safe; [done|]. intros c. by apply rtt_cancel_safe.
  - exists (FIdle, []). split; [done|]. unfold wifi_start_sending_offloaded_packet. destruct ip as [ip|], src as [src|], dst as [dst|]; try done.
    destruct (_ && _ && _); [|done]. cbn in Hc. apply keep_alive_safe, (good_request (RqKeepAlive _ _ _ _ _)); [|done].
    rewrite !list.Forall_cons in Hc. by destruct Hc as (? & ? & _).
  - exists (FIdle, []). split; [done|]. unfold wifi_stop_sending_offloaded_packet.
    destruct (_ && _); [|done]. by apply keep_alive_safe, (good_request (RqStopKeepAlive _)).
Qed.

Lemma in_use_sym b be s : in_use_by b be s -> in_use_by be b s.
Proof. unfold in_use_by. by rewrite orb_comm, andb_comm. Qed.

Lemma step_inv x y : sys_inv x -> sys_step x y -> sys_inv y.
Proof.
  intros (q & e & b & be & HI & Hb & Hf & He) Hstep.
  destruct Hstep as [s s' f v a Hcore Ha|s v c Hc|s p v p' s' Hp|s r v|s f msg|s f msg p p' s' Hp|s f msg a]; cbn in *.
  - exists q, e, b, be. unfold core in Hcore. injection Hcore as E1 E2 E3 E4. split; [|split; [unfold in_use_by in *; cbn; by rewrite E4|done]].
    destruct HI. split; cbn; [by rewrite E1| |by rewrite E1, E2]. unfold news_ok. by rewrite E2, E3.
  - destruct Hf as [-> ->]. destruct (begin_call s e c HI Hc) as (q & HI' & Hq). by exists q, e, false, be.
  - pose proof (safe_step _ _ _ _ _ _ _ _ _ Hf HI Hb) as H. rewrite Hp in H. destruct H as (q' & b' & HI' & Hb' & _ & Hq). by exists q', e, b', be.
  - destruct Hf as [-> Hf]. exists (FIdle, []), e, false, be. split; [|done]. destruct HI. split; [done..|].
    eapply Inv_weaken; [done|by right|]. intros j ?%elem_of_nil. done.
  - destruct He as [-> ->]. exists q, EIdle, b, false. split_and!; [done..|]. apply message_safe.
  - pose proof (safe_step _ _ _ _ _ _ _ _ _ He HI (in_use_sym _ _ _ Hb)) as H. rewrite Hp in H. destruct H as (e' & b' & HI' & Hb' & _ & Hq).
    exists q, e', b, b'. split; [done|]. split; [by apply in_use_sym|done].
  - destruct He as [-> He]. by exists q, e, b, false.
Qed.

Lemma reachable_sys_inv x y : sys_init x -> rtc sys_step x y -> sys_inv y.
Proof. intros Hx%init_inv Hs. induction Hs as [x|x y z Hxy _ IH]; [done|]. by eapply IH, step_inv. Qed.

(** In the table, a command has one entry. *)
Lemma registered_once hs rs cs c x : Inv hs rs cs FIdle [] EIdle -> cs !! c = Some x -> mRefs x = 1 /\ mkCmdInfo (mId x) c ∈ rs.
Proof.
  intros [] Hx. destruct (i_refs c x Hx) as (_ & Hr & Hp & _). rewrite holders_count in Hr. cbn [fw_own ev_own] in Hr. rewrite !count_nil in Hr.
  assert (c ∈ (ci_cmd <$> rs)) as Hin by (apply count_pos; lia). apply list_elem_of_fmap in Hin as (y & -> & Hy).
  destruct (i_reg y x Hy Hx) as [Hid _]. split; [|by rewrite Hid; destruct y].
  rewrite (count_take rs y _ i_ids Hy), decide_True in Hr by done. enough (count (ci_cmd y) (ci_cmd <$> remove_first (has_id (ci_id y)) rs) = 0) by lia.
  apply count_zero. intros (z & Ez & Hz)%list_elem_of_fmap. pose proof (elem_of_remove_first _ _ _ Hz) as Hz'.
  destruct (i_reg z x Hz') as [Hid' _]; [by rewrite <- Ez|]. apply (removed_id rs (ci_id y) i_ids). apply list_elem_of_fmap. exists z. split; [congruence|done].
Qed.

(** A thread that is in the table of commands. Its next action ends what it does there. *)
Definition inside {A} (p : prog A) (s : Wifi) : Prop :=
  table_in_use s = true /\ exists p' s', pstep p s = Ok (p', s') /\ table_in_use s' = false.

Lemma safe_inside {P E A} (I : Wifi -> P -> E -> Prop) U (p : prog A) Q s q e be :
  safe_from I U true p Q q -> I s q e -> in_use_by true be s -> inside p s.
Proof.
  intros Hp HI Hb. pose proof (safe_step _ _ _ _ _ _ _ _ _ Hp HI Hb) as H. destruct Hb as [Hu Hbe]. cbn in Hu, Hbe. subst be.
  split; [done|]. destruct (pstep p s) as [[p' s']| |]; [|by destruct H|done]. destruct H as (q' & b' & _ & [Hu' _] & Hb' & _).
  cbn in Hb'. subst b'. by exists p', s'.
Qed.


(** * Runs of one thread are steps of the system *)

(** Where a thread is, and the state, after [n] steps of its own. *)
Fixpoint steps {A} (n : nat) (p : prog A) : WIFI (prog A) :=
  match n with O => retM p | S n' => let* p' := pstep p in steps n' p' end.
Definition defined {A} (o : outcome A) : bool := match o with Ok _ => true | _ => false end.
Definition after {A} (n : nat) (p : prog A) (s : Wifi) : prog A * Wifi := match steps n p s with Ok r => r | _ => (p, s) end.

Lemma steps_ev n msg (p : prog nl_cb_action) s f : defined (steps n p s) = true ->
  rtc sys_step (mkSys s f (Some (msg, p))) (mkSys (after n p s).2 f (Some (msg, (after n p s).1))).
Proof.
  unfold after. revert p s. induction n as [|n IH]; intros p s E; [apply rtc_refl|]. cbn [steps] in *. unfold bindM in *.
  destruct (pstep p s) as [[p' s']| |] eqn:Es; [|done..]. eapply rtc_l; [by apply step_ev|]. specialize (IH p' s' E).
  by destruct (steps n p' s') as [[? ?]| |].
Qed.

Lemma steps_fw n (p : prog Z) s e : defined (steps n p s) = true ->
  rtc sys_step (mkSys s (Some p) e) (mkSys (after n p s).2 (Some (after n p s).1) e).
Proof.
  unfold after. revert p s. induction n as [|n IH]; intros p s E; [apply rtc_refl|]. cbn [steps] in *. unfold bindM in *.
  destruct (pstep p s) as [[p' s']| |] eqn:Es; [|done..]. eapply rtc_l; [by apply step_fw|]. specialize (IH p' s' E).
  by destruct (steps n p' s') as [[? ?]| |].
Qed.

Lemma exec_step {A} n (p : prog A) s r s' : exec (S n) p s = Ok (r, s') ->
  (p = Ret r /\ s' = s) \/ exists q s1, pstep p s = Ok (q, s1) /\ exec n q s1 = Ok (r, s').
Proof.
  intros E. destruct p as [a|X m k|X Y b x k]; [left; by injection E as -> ->|right..].
  - change (bindM (pstep (Act m k)) (exec n) s = Ok (r, s')) in E. by apply bindM_inv in E.
  - change (bindM (pstep (While b x k)) (exec n) s = Ok (r, s')) in E. by apply bindM_inv in E.
Qed.

Lemma exec_fw n (p : prog Z) s r s' e : exec n p s = Ok (r, s') -> rtc sys_step (mkSys s (Some p) e) (mkSys s' (Some (Ret r)) e).
Proof.
  revert p s. induction n as [|n IH]; intros p s E; [destruct p; [|done..]; injection E as -> ->; apply rtc_refl|].
  apply exec_step in E as [[-> ->]|(q & s1 & Es & E)]; [apply rtc_refl|]. eapply rtc_l; [by apply step_fw|]. by apply IH.
Qed.

Lemma exec_ev n msg (p : prog nl_cb_action) s r s' f : exec n p s = Ok (r, s') -> rtc sys_step (mkSys s f (Some (msg, p))) (mkSys s' f (Some (msg, Ret r))).
Proof.
  revert p s. induction n as [|n IH]; intros p s E; [destruct p; [|done..]; injection E as -> ->; apply rtc_refl|].
  apply exec_step in E as [[-> ->]|(q & s1 & Es & E)]; [apply rtc_refl|]. eapply rtc_l; [by apply step_ev|]. by apply IH.
Qed.

End Sys.
