(* ===== verification/WifiStop.v ===== *)
(** Stopping a command of the Wi-Fi HAL (src/hal/wifi_hal/common.cpp, gscan.cpp) whose event another
    command has a handler for, too: handlers are removed by their event, not by their command. *)

From stdpp Require Import base list gmap numbers.
From Stdlib Require Import ZArith Lia.
From S2P Require Import Prelude WifiNl WifiTypes WifiHal WifiReq WifiEvents WifiApi WifiTables WifiInv WifiSys.

Local Open Scope Z_scope.
Local Open Scope st_scope.
Local Open Scope rec_scope.
Local Open Scope wprog_scope.

(** A run without interference, from a safe program. *)
Lemma safe_exec {P E A} (I : Wifi -> P -> E -> Prop) U n b (p : prog A) Q q s e be a s' :
  safe_from I U b p Q q -> I s q e -> in_use_by b be s -> exec n p s = Ok (a, s') -> exists q', I s' q' e /\ Q a q'.
Proof.
  revert b p q s. induction n as [|n IH]; intros b p q s Hp HI Hb Hx.
  - destruct p; [|done..]. cbn in Hp, Hx. injection Hx as -> ->. destruct Hp. by exists q.
  - destruct p as [r|X m k|X Y body x k]; [cbn in Hp, Hx; injection Hx as -> ->; destruct Hp; by exists q|..];
      pose proof (safe_step _ _ _ _ _ _ _ _ _ Hp HI Hb) as Hs; apply bindM_inv in Hx as (p' & s1 & E1 & E2);
      rewrite E1 in Hs; destruct Hs as (q1 & b1 & HI1 & Hb1 & _ & Hp1); by eapply IH.
Qed.

(** A run of a program is one of its first part and then one of the rest. *)
Lemma exec_bind_inv {A B} n (p : prog A) (f : A -> prog B) s r :
  exec n (pbind p f) s = Ok r -> exists a s1, exec n p s = Ok (a, s1) /\ exec n (f a) s1 = Ok r.
Proof.
  revert p s. induction n as [|n IH]; intros p s E.
  - destruct p as [a|X m k|X Y body x k]; [|done..]. by exists a, s.
  - destruct p as [a|X m k|X Y body x k]; [by exists a, s|..]; cbn [exec pbind pstep] in *; unfold bindM in *.
    + destruct (m s) as [[y s1]| |]; [|done..]. apply IH in E as (a & s2 & E1 & E2). exists a, s2. split; [done|]. apply (exec_more n (S n) (f a)); [done|lia].
    + destruct (body x s) as [[[y|y] s1]| |]; [| |done..]; cbn in E; cbn;
        [change (While body y (fun z => pbind (k z) f)) with (pbind (While body y k) f) in E|];
        apply IH in E as (a & s2 & E1 & E2); exists a, s2; (split; [done|]); (apply (exec_more n (S n) (f a)); [done|lia]).
Qed.

Lemma exec_act_inv {A} n (m : WIFI A) s r : exec n (act m) s = Ok r -> m s = Ok r.
Proof.
  destruct n as [|n]; [done|]. cbn. unfold bindM, retM. destruct (m s) as [[a s1]| |]; [|done..]. by rewrite exec_ret.
Qed.

Section Stop.
Context `{NL : Libnl} `{N80211 : Nl80211} `{HH : WifiHalH}.

(** The handlers for an event, in the order of the table. *)
Definition handlers_for (k : Z) (hs : list cb_info) : list cb_info := List.filter (vendor_cb GOOGLE_OUI k) hs.

Lemma handlers_for_removed k hs : handlers_for k (remove_first (vendor_cb GOOGLE_OUI k) hs) = tail (handlers_for k hs).
Proof.
  unfold handlers_for. induction hs as [|h hs IH]; [done|]. cbn. destruct (vendor_cb GOOGLE_OUI k h) eqn:E; [done|]. cbn. by rewrite E.
Qed.

Lemma vendor_cb_other k j h : j <> k -> vendor_cb GOOGLE_OUI j h = true -> vendor_cb GOOGLE_OUI k h = false.
Proof.
  unfold vendor_cb. intros Hjk [_ Hj%Z.eqb_eq]%andb_true_iff. rewrite Hj, (proj2 (Z.eqb_neq j k)) by done. by rewrite andb_false_r.
Qed.

Lemma handlers_for_other k j hs : j <> k -> handlers_for k (remove_first (vendor_cb GOOGLE_OUI j) hs) = handlers_for k hs.
Proof.
  intros Hjk. unfold handlers_for. induction hs as [|h hs IH]; [done|]. cbn. destruct (vendor_cb GOOGLE_OUI j h) eqn:E; cbn; [|by rewrite IH].
  by rewrite (vendor_cb_other k j h Hjk E).
Qed.

(** While the command at [c] is being stopped: [ks] are the events of which a handler has been
    removed. *)
Definition stopping (c : Z) (x : WifiCommand) (cs : gmap Z WifiCommand) (k : Z) (hs : list cb_info) (s : Wifi) (ks : list Z) (_ : unit) : Prop :=
  hal_wf (info s) /\ commands s = cs /\ cs !! c = Some x /\
  handlers_for k (handlers (info s)) = if decide (k ∈ ks) then tail hs else hs.

Section Run.
Context (c : Z) (x : WifiCommand) (cs : gmap Z WifiCommand) (k : Z) (hs : list cb_info).
Notation run p Q ks := (safe (stopping c x cs k hs) (fun _ => True) p Q ks).

Lemma stop_quiet {A B} (m : WIFI A) (f : A -> prog B) Q ks : keeps_core m -> (forall a, run (f a) Q ks) -> run (pbind (act m) f) Q ks.
Proof.
  intros Hm Hf. apply safe_act. intros s e HI. destruct (m s) as [[a s']| |] eqn:E; [|done..].
  pose proof (Hm (core s) s a s' eq_refl E) as Hc. unfold core in Hc. injection Hc as E1 E2 E3 E4. split; [done|].
  exists ks. split; [|done]. unfold stopping in *. by rewrite E1, E2.
Qed.

Lemma build_keeps (m : ST WifiRequest Z) : keeps_core (build c m).
Proof.
  intros k0 s a s' Hs E. apply bindM_inv in E as (y & s1 & E1 & E). unfold get_command in E1. apply bindM_inv in E1 as (s2 & s3 & E2 & E3).
  injection E2 as <- <-. unfold of_option in E3. destruct (commands s !! c); [|done]. injection E3 as _ <-.
  unfold bindM, getM in E. destruct (m _) as [[r rq]| |]; [|done..]. injection E as <- <-. done.
Qed.

Lemma stop_request_end msg (Q : Z -> list Z -> Prop) ks : (forall r, Q r ks) -> run (request msg) Q ks.
Proof.
  intros HQ. unfold request. apply safe_bind. unfold requestResponse. apply stop_quiet.
  { intros k0 s a s' Hs [= <- <-]. done. }
  intros cb. destruct cb; cbn [negb]; [|by apply safe_ret, safe_ret]. apply stop_quiet.
  { intros k0 s a s' Hs. run. destruct msg; [|done]. destruct (hd 0 (sends s) <? 0); by intros [= <- <-]. }
  intros err. destruct (err <? 0); [by apply safe_ret, safe_ret|]. split; [done|]. exists (fun _ => True). split; [done|].
  intros [er l] s e _ HI. unfold recv_turn. cbn [fst snd]. destruct (0 <? er); [|by split_and!].
  run. destruct (replies s) as [|rs rest]; [done|]. by destruct (nl_recvmsgs _ _ _ _) as [[? ?]| |].
Qed.

Lemma stop_request {B} msg (f : Z -> prog B) Q ks : (forall r, run (f r) Q ks) -> run (pbind (request msg) f) Q ks.
Proof. intros Hf. by apply safe_bind, stop_request_end. Qed.

Lemma stop_remove {B} j (f : unit -> prog B) Q ks : j ∉ ks -> run (f tt) Q (j :: ks) -> run (pbind (unregisterVendorHandler j) f) Q ks.
Proof.
  intros Hj Hf. apply safe_act. intros s e (Hwf & Hcs & Hx & Hh).
  destruct (unregister_vendor_step s GOOGLE_OUI j Hwf) as (s' & -> & Hsame & Hwf' & Eh & _).
  assert (commands s' = commands s /\ table_in_use s' = table_in_use s) as [Ec Eu] by by rewrite Hsame.
  split; [done|]. exists (j :: ks). split; [|done]. split; [done|]. rewrite Ec, Eh. split; [done|]. split; [done|].
  destruct (decide (j = k)) as [->|Hjk].
  - rewrite handlers_for_removed, Hh, decide_False, decide_True by set_solver. done.
  - rewrite handlers_for_other, Hh by done. by do 2 case_decide; set_solver.
Qed.

(** Cancelling removes one handler for each event of the command. *)
Definition all_removed (b : command_body) {A} (_ : A) (ks : list Z) : Prop := events_of b ⊆ ks.

Local Ltac stop_step :=
  lazymatch goal with
  | |- safe _ _ (Ret _) _ _ => apply safe_ret; unfold all_removed; cbn [events_of]; set_solver
  | |- safe _ _ (pbind (act (build _ _)) _) _ _ => apply stop_quiet; [apply build_keeps|intros [? ?]; cbn beta iota]
  | |- safe _ _ (request _) _ _ => apply stop_request_end; intro; unfold all_removed; cbn [events_of]; set_solver
  | |- safe _ _ (pbind (request _) _) _ _ => apply stop_request; intro
  | |- safe _ _ (pbind (unregisterVendorHandler _) _) _ _ => apply stop_remove; [set_solver|]
  | |- safe _ _ (pbind (Ret _) _) _ _ => cbn [pbind]
  | |- safe _ _ (pbind (pbind _ _) _) _ _ => apply safe_bind
  | |- safe _ _ (pbind (if ?b then _ else _) _) _ _ => destruct b
  | |- safe _ _ (if ?b then _ else _) _ _ => destruct b
  end.

Lemma cancel_stops : run (cancel c) (all_removed (body x)) [].
Proof.
  unfold cancel. apply safe_act. intros s e (Hwf & Hcs & Hx & Hh). unfold get_command, bindM, getM, of_option. rewrite Hcs, Hx. unfold retM.
  split; [done|]. exists []. split; [done|]. destruct (body x) as [p h|h| |p h|p h|p h|n h|max min h|p st h|].
  - unfold Scan_cancel. repeat stop_step.
  - unfold FullScan_cancel. repeat stop_step.
  - stop_step.
  - unfold Hotlist_cancel. repeat stop_step.
  - unfold ePNO_cancel. repeat stop_step.
  - unfold SigChange_cancel. repeat stop_step.
  - unfold Anqpo_cancel. repeat stop_step.
  - unfold RSSI_cancel. repeat stop_step.
  - unfold Rtt_cancel, Rtt_cancel_specific. repeat stop_step.
  - stop_step.
Qed.

End Run.

(** A message with the event [k] of the driver. *)
Definition event_of (k : Z) (msg : nl_msg) : Prop :=
  exists res event, WifiEvent_parse msg = (res, event) /\ 0 <= res /\ get_cmd event = NL80211_CMD_VENDOR /\
    get_u32 event NL80211_ATTR_VENDOR_ID = Some GOOGLE_OUI /\ i32 <$> get_u32 event NL80211_ATTR_VENDOR_SUBCMD = Some k.

Lemma find_filter {A} (f : A -> bool) (P : A -> Prop) `{!forall x, Decision (P x)} (l : list A) y ys :
  (forall x, P x <-> f x = true) -> List.filter f l = y :: ys -> exists i, list_find P l = Some (i, y).
Proof.
  intros Hf. induction l as [|z l IH]; [done|]. cbn. destruct (f z) eqn:E.
  - intros [= -> _]. rewrite decide_True by by apply Hf. by eexists.
  - intros [i Hi]%IH. rewrite decide_False by (rewrite Hf; congruence). rewrite Hi. by eexists.
Qed.

(** An event for a command that does not exist any more. *)
Lemma event_dangles k msg n h hs s : event_of k msg -> handlers_for k (handlers (info s)) = h :: hs -> commands s !! cb_arg h = None ->
  exec (S n) (internal_valid_message_handler msg) s = Undef.
Proof.
  intros (res & event & Ep & Hres & Hcmd & Hid & Hsub) Hh Hc. unfold internal_valid_message_handler. rewrite Ep, (proj2 (Z.ltb_ge _ _)) by done.
  cbn [pbind act exec pstep]. unfold bindM at 1 2. unfold find_handler. rewrite Hcmd, Z.eqb_refl, Hid, Hsub. cbn [of_option]. unfold bindM, retM, getM.
  destruct (find_filter (vendor_cb GOOGLE_OUI k) (fun y => matches NL80211_CMD_VENDOR GOOGLE_OUI k y = true) (handlers (info s)) h hs) as [i ->].
  - intros y. unfold matches, vendor_cb. rewrite Z.eqb_refl, (Z.eqb_sym NL80211_CMD_VENDOR), (Z.eqb_sym GOOGLE_OUI), (Z.eqb_sym k). cbn [andb].
    by destruct (nl_cmd y =? _), (vendor_id y =? _), (vendor_subcmd y =? k).
  - exact Hh.
  - unfold addRef, get_command, bindM, getM, of_option. by rewrite Hc.
Qed.

(** C28: Stopping a command takes away the handler of another one. Let [c] be a registered command
    that nobody else holds, and let [h1], of another command, be the first handler in the table for
    one of its events, before its own [h2]. However the request to stop [c] goes, and whatever the
    driver answers, when [wifi_cancel_cmd] returns it has returned success and [c] is deleted; but it
    is [h1] that has been removed, and [h2] is now the first handler for the event. The next message
    with that event uses the deleted command. *)
Theorem stop_removes_other_handler n s id c x k h1 h2 hs r s' :
  hal_wf (info s) -> find_first (has_id id) (registered (info s)) = Some (mkCmdInfo id c) ->
  c <> 0 -> commands s !! c = Some x -> mRefs x = 1 -> k ∈ events_of (body x) ->
  handlers_for k (handlers (info s)) = h1 :: h2 :: hs -> cb_arg h1 <> c -> cb_arg h2 = c ->
  exec n (wifi_cancel_cmd id) s = Ok (r, s') ->
  r = WIFI_SUCCESS /\ commands s' = delete c (commands s) /\ handlers_for k (handlers (info s')) = h2 :: hs /\
  forall m msg, event_of k msg -> exec (S m) (internal_valid_message_handler msg) s' = Undef.
Proof.
  intros Hwf Hf Hc Hx Hr Hk Hh H1 H2 Hrun.
  unfold wifi_cancel_cmd in Hrun. apply exec_bind_inv in Hrun as (c' & s1 & E1 & Hrun).
  unfold in_table in E1. apply exec_bind_inv in E1 as ([] & s0 & E0%exec_act_inv & E1%exec_act_inv).
  unfold enter_table in E0. apply bindM_inv in E0 as (? & ? & [= <- <-] & E0). destruct (table_in_use s); [done|]. injection E0 as <-.
  unfold leave_table in E1. apply bindM_inv in E1 as (c1 & s2 & E1 & [= -> <-]).
  pose (s0 := s <| table_in_use := true |>).
  destruct (unregister_cmd_step s0 id Hwf) as (s3 & E3 & Hsame & Hwf3 & Eh & _).
  pose proof (eq_trans (eq_sym E1) E3) as E. injection E as -> ->. change (registered (info s0)) with (registered (info s)) in *; change (handlers (info s0)) with (handlers (info s)) in *. rewrite Hf in *.
  cbn [ci_cmd] in *. rewrite (proj2 (Z.eqb_neq _ _) Hc) in Hrun.
  apply exec_bind_inv in Hrun as (rc & s4 & Ec & Hrun). apply exec_bind_inv in Hrun as ([] & s5 & Er%exec_act_inv & Hrun).
  assert (commands s3 = commands s) as Ecs by by rewrite Hsame.
  pose (s3' := s3 <| table_in_use := false |>). destruct (safe_exec _ _ n false (cancel c) _ _ s3' tt false rc s4 (cancel_stops c x (commands s) k (h1 :: h2 :: hs))) 
    as (ks & (Hwf4 & Ec4 & _ & Hh4) & Hks); [|by split|exact Ec|].
  { split; [done|]. split; [done|]. split; [done|]. rewrite decide_False by apply not_elem_of_nil. cbn. by rewrite <- Hh, <- Eh. }
  rewrite decide_True in Hh4 by by apply Hks. rewrite (released_run s4 c x) in Er by by rewrite Ec4. injection Er as <-.
  assert (released c x (commands s4) = delete c (commands s)) as Erel by (unfold released; by rewrite Hr, Ec4). rewrite Erel in Hrun.
  rewrite exec_ret in Hrun. injection Hrun as <- <-. split; [done|]. split; [done|]. split; [exact Hh4|].
  intros m msg Hm. eapply event_dangles; [exact Hm|exact Hh4|]. change (delete c (commands s) !! cb_arg h2 = None). by rewrite H2, lookup_delete_eq.
Qed.
End Stop.
