(* ===== verification/WifiScans.v ===== *)
(** The cached scans of the driver (src/hal/wifi_hal/gscan.cpp, [GetScanResultsCommand]): how a
    scan and its results are laid out in a reply, and what of them is stored in the caller's
    array. *)

From stdpp Require Import base list gmap numbers.
From Stdlib Require Import ZArith Lia.
From S2P Require Import Prelude WifiNl WifiTypes WifiHal WifiReq WifiEvents WifiApi WifiMsgs WifiWire.

Local Open Scope Z_scope.
Local Open Scope st_scope.
Local Open Scope rec_scope.

(** * Numbers in a message *)

Lemma rd_lies n m p v : lies m p (le_bytes n v) -> 0 <= v < 256 ^ Z.of_nat n -> rd m p (Z.of_nat n) = Some v.
Proof.
  intros H Hv. unfold rd. pose proof (lies_read _ _ _ H) as E. rewrite zlen_le_bytes in E. rewrite E. cbn. by rewrite le_value_bytes, Z.mod_small.
Qed.

Lemma rds_lies n m p v : (0 < n)%nat -> lies m p (le_bytes n v) -> - 2 ^ (8 * Z.of_nat n - 1) <= v < 2 ^ (8 * Z.of_nat n - 1) ->
  rds m p (Z.of_nat n) = Some v.
Proof.
  intros Hn H Hv. unfold rds, rd. pose proof (lies_read _ _ _ H) as E. rewrite zlen_le_bytes in E. rewrite E. cbn -[Z.pow Z.mul]. rewrite le_value_bytes.
  unfold signed. f_equal. replace (256 ^ Z.of_nat n) with (2 ^ (8 * Z.of_nat n)) by (rewrite Z.pow_mul_r by lia; done).
  assert (2 ^ (8 * Z.of_nat n) = 2 * 2 ^ (8 * Z.of_nat n - 1)) as Ep.
  { rewrite <- Z.pow_succ_r by lia. f_equal. lia. }
  rewrite Zplus_mod_idemp_l, Z.mod_small by lia. lia.
Qed.

(** * Results and scans as the driver sends them *)

Definition encode_result (r : wifi_scan_result) : list Z :=
  le_bytes 8 (sr_ts r) ++ sr_ssid r ++ sr_bssid r ++ [0] ++ le_bytes 4 (sr_channel r) ++ le_bytes 4 (sr_rssi r) ++
  le_bytes 8 (sr_rtt r) ++ le_bytes 8 (sr_rtt_sd r) ++ le_bytes 2 (sr_beacon_period r) ++ le_bytes 2 (sr_capability r) ++
  le_bytes 4 (sr_ie_length r) ++ zeros 8.

Definition result_wf (r : wifi_scan_result) : Prop :=
  0 <= sr_ts r < 256 ^ 8 /\ zlen (sr_ssid r) = 33 /\ zlen (sr_bssid r) = 6 /\ 0 <= sr_channel r < 256 ^ 4 /\
  - 2 ^ 31 <= sr_rssi r < 2 ^ 31 /\ 0 <= sr_rtt r < 256 ^ 8 /\ 0 <= sr_rtt_sd r < 256 ^ 8 /\ 0 <= sr_beacon_period r < 256 ^ 2 /\
  0 <= sr_capability r < 256 ^ 2 /\ 0 <= sr_ie_length r < 256 ^ 4.

Lemma zlen_result r : result_wf r -> zlen (encode_result r) = 88.
Proof. intros (_ & H1 & H2 & _). unfold encode_result. rewrite !zlen_app, !zlen_le_bytes, H1, H2, zlen_zeros. done. Qed.

Lemma convert_lies m p r to : lies m p (encode_result r) -> result_wf r ->
  convert_to_hal_result m p to = Some (r <| sr_ie_length := sr_ie_length to |> <| sr_ie_data := sr_ie_data to |>) /\
  rd m (p + off_ie_length wifi_gscan_result_t) 4 = Some (sr_ie_length r).
Proof.
  intros H (W1 & W2 & W3 & W4 & W5 & W6 & W7 & W8 & W9 & W10). unfold encode_result in H.
  do 11 (let Hi := fresh "L" in apply lies_app in H as [Hi H]; rewrite ?zlen_le_bytes, ?W2, ?W3 in H; rewrite <- ?Z.add_assoc in H).
  assert (rd m (p + 0) 8 = Some (sr_ts r)) as E0 by (rewrite Z.add_0_r; by apply (rd_lies 8)).
  assert (mem_read m (p + 8) 33 = Some (sr_ssid r)) as E1 by (rewrite <- W2 at 1; by apply lies_read).
  assert (mem_read m (p + 41) 6 = Some (sr_bssid r)) as E2 by (rewrite <- W3 at 1; by apply lies_read).
  assert (rd m (p + 48) 4 = Some (sr_channel r)) as E3 by by apply (rd_lies 4).
  assert (rds m (p + 52) 4 = Some (sr_rssi r)) as E4 by (apply (rds_lies 4); [lia|done|exact W5]).
  assert (rd m (p + 56) 8 = Some (sr_rtt r)) as E5 by by apply (rd_lies 8).
  assert (rd m (p + 64) 8 = Some (sr_rtt_sd r)) as E6 by by apply (rd_lies 8).
  assert (rd m (p + 72) 2 = Some (sr_beacon_period r)) as E7 by by apply (rd_lies 2).
  assert (rd m (p + 74) 2 = Some (sr_capability r)) as E8 by by apply (rd_lies 2).
  assert (rd m (p + 76) 4 = Some (sr_ie_length r)) as E9 by by apply (rd_lies 4).
  split; [|exact E9]. unfold convert_to_hal_result. change (DOT11_MAX_SSID_LEN + 1) with 33.
  cbn [off_ts off_ssid off_bssid off_channel off_rssi off_rtt off_rtt_sd off_beacon_period off_capability wifi_gscan_result_t].
  rewrite E0, E1, E2, E3, E4, E5, E6, E7, E8. done.
Qed.

(** What is stored of a result: what the slot has of the elements stays. *)
Definition stored_result (r old : wifi_scan_result) : wifi_scan_result := r <| sr_ie_data := sr_ie_data old |>.

Fixpoint stored_results (rs slots : list wifi_scan_result) : list wifi_scan_result :=
  match rs, slots with
  | r :: rs', old :: slots' => stored_result r old :: stored_results rs' slots'
  | _, _ => slots
  end.

Lemma length_stored rs slots : length (stored_results rs slots) = length slots.
Proof. revert slots. induction rs as [|r rs IH]; intros [|o slots]; cbn; [done..|]. by rewrite IH. Qed.

Lemma copy_results_lies m p rs : forall i done slots, Forall result_wf rs -> length done = i ->
  lies m (p + 88 * Z.of_nat i) (concat (map encode_result rs)) -> (length rs <= length slots)%nat ->
  copy_results (length rs) i m p (done ++ slots) = Some (done ++ stored_results rs slots).
Proof.
  induction rs as [|r rs IH]; intros i done slots Hwf Hi Hm Hlen; cbn [copy_results length stored_results]; [by destruct slots|].
  apply list.Forall_cons in Hwf as [Hr Hrs]. destruct slots as [|o slots]; [cbn in Hlen; lia|].
  cbn [map concat] in Hm. apply lies_app in Hm as [Hm1 Hm2]. rewrite zlen_result in Hm2 by done.
  rewrite lookup_app_r, Hi, Nat.sub_diag by lia. cbn [mret option_ret mbind option_bind].
  replace (p + Z.of_nat i * sizeof_gscan_result wifi_gscan_result_t) with (p + 88 * Z.of_nat i) by (cbn [sizeof_gscan_result wifi_gscan_result_t]; lia).
  change ((o :: slots) !! 0%nat) with (Some o). cbn [mbind option_bind]. destruct (convert_lies m _ r o Hm1 Hr) as [-> E]. cbn [mbind option_bind].
  rewrite E. cbn [mbind option_bind]. rewrite insert_app_r_alt, Hi, Nat.sub_diag by lia. cbn [insert list_insert].
  specialize (IH (S i) (done ++ [stored_result r o]) slots Hrs). rewrite <- app_assoc in IH.
  change ([stored_result r o] ++ slots) with (stored_result r o :: slots) in IH.
  assert (stored_result r o = r <| sr_ie_length := sr_ie_length o |> <| sr_ie_data := sr_ie_data o |> <| sr_ie_length := sr_ie_length r |>) as Es by by destruct r.
  rewrite <- Es, IH; [by rewrite <- app_assoc|rewrite length_app; cbn; lia| |cbn in Hlen; lia].
  replace (p + 88 * Z.of_nat (S i)) with (p + 88 * Z.of_nat i + 88) by lia. done.
Qed.

(** A scan: its number, flags and channels, and its results. *)
Record scan := mkScan { sc_id : Z; sc_flags : Z; sc_mask : Z; sc_results : list wifi_scan_result }.

Definition scan_attr (sc : scan) : attr :=
  Nested GSCAN_ATTRIBUTE_SCAN_RESULTS [
    b32 GSCAN_ATTRIBUTE_SCAN_ID (sc_id sc); b8 GSCAN_ATTRIBUTE_SCAN_FLAGS (sc_flags sc);
    b32 GSCAN_ATTRIBUTE_NUM_OF_RESULTS (zlen (sc_results sc)); b32 GSCAN_ATTRIBUTE_CH_BUCKET_BITMASK (sc_mask sc);
    Leaf GSCAN_ATTRIBUTE_SCAN_RESULTS (concat (map encode_result (sc_results sc)))].

Definition scan_wf (sc : scan) : Prop :=
  - 2 ^ 31 <= sc_id sc < 2 ^ 31 /\ 0 <= sc_flags sc < 256 /\ - 2 ^ 31 <= sc_mask sc < 2 ^ 31 /\
  Forall result_wf (sc_results sc).

(** The scans that are stored are those with a result. *)
Definition with_results (scs : list scan) : list scan := filter (fun sc => sc_results sc <> []) scs.

Section Scans.
Context `{NL : Libnl} `{NLL : !LibnlLaws} `{N80211 : Nl80211} `{HH : WifiHalH} `{HHL : !WifiHalHLaws}.
(** The two structures of a result have the same size. *)
Hypothesis same_size : sizeof_wifi_scan_result = 88.

Lemma get_lies n m q t v : lies m q (wire (Leaf t (le_bytes n v))) -> attr_wf (Leaf t (le_bytes n v)) ->
  nlattr_type m q = t /\ nla_get n m q = Some (le_value (le_bytes n v)).
Proof.
  intros H Hwf. rewrite <- (app_nil_r (wire _)) in H. destruct (lies_attr m q _ _ H Hwf) as (_ & Ht & _ & Hd & _). split; [done|].
  rewrite nla_get_law. apply lies_read in Hd. cbn [payload] in Hd. rewrite zlen_le_bytes in Hd. by rewrite Hd.
Qed.

Lemma get_i32 m q t v : lies m q (wire (b32 t v)) -> 0 <= t < 65536 -> - 2 ^ 31 <= v < 2 ^ 31 ->
  nlattr_type m q = t /\ exists w, nla_get 4 m q = Some w /\ i32 w = v.
Proof.
  intros H Ht Hv. destruct (get_lies 4 m q t v H) as [H1 H2]; [by split|]. split; [done|]. eexists. split; [exact H2|].
  rewrite le_value_bytes. unfold i32. change (256 ^ Z.of_nat 4) with (2 ^ 32). rewrite Zplus_mod_idemp_l, Z.mod_small by lia. lia.
Qed.

(** The caller's array: its entries have room for [MAX_AP_CACHE_PER_SCAN] results. *)
Definition slots_ok (mMax : Z) (g : scan_results) : Prop :=
  0 <= mRetrieved g /\ mMax <= zlen (mScans g) /\ Forall (fun c => zlen (cs_results c) = MAX_AP_CACHE_PER_SCAN) (mScans g).

(** The scan in an entry of the array. *)
Definition cached (sc : scan) (old : wifi_cached_scan_results) : wifi_cached_scan_results :=
  let num := Z.min (zlen (sc_results sc)) MAX_AP_CACHE_PER_SCAN in
  mkCached (sc_id sc) (sc_flags sc) num (sc_mask sc) (stored_results (take (Z.to_nat num) (sc_results sc)) (cs_results old)).

Definition store_scan (mMax : Z) (sc : scan) (g : scan_results) : scan_results :=
  let g1 := g <| v_scan_id := sc_id sc |> <| v_flags := sc_flags sc |> <| v_num := zlen (sc_results sc) |> <| v_mask := sc_mask sc |> in
  if bool_decide (sc_results sc = []) || (mMax <=? mRetrieved g) then g1
  else match mScans g !! Z.to_nat (mRetrieved g) with
       | Some old =>
           g1 <| v_num := Z.min (zlen (sc_results sc)) MAX_AP_CACHE_PER_SCAN |>
              <| mScans := <[Z.to_nat (mRetrieved g) := cached sc old]> (mScans g) |> <| mRetrieved := mRetrieved g + 1 |>
       | None => g1
       end.

Lemma store_slots_ok mMax sc g : slots_ok mMax g -> slots_ok mMax (store_scan mMax sc g).
Proof.
  intros (H1 & H2 & H3). unfold store_scan. case_bool_decide; [done|]. cbn [orb]. destruct (Z.leb_spec mMax (mRetrieved g)); [done|].
  destruct (mScans g !! _) as [old|] eqn:E; [|done]. split_and!; cbn.
  - lia.
  - unfold zlen in *. by rewrite length_insert.
  - apply Forall_insert; [done|]. cbn. unfold zlen. rewrite length_stored. by apply (proj1 (list.Forall_lookup _ _) H3 _ _ E).
Qed.

Lemma concat_take {A} (f : A -> list Z) l n : exists rest, concat (map f l) = concat (map f (take n l)) ++ rest.
Proof. exists (concat (map f (drop n l))). by rewrite <- concat_app, <- map_app, take_drop. Qed.

Lemma zlen_encoded rs : Forall result_wf rs -> zlen (concat (map encode_result rs)) = 88 * zlen rs.
Proof. induction 1 as [|r rs Hr Hrs IH]; [done|]. cbn [map concat]. rewrite zlen_app, zlen_result, IH, zlen_cons by done. lia. Qed.

(** The attributes of a scan that hold numbers. *)
Lemma scan_id_run mMax m q v g : lies m q (wire (b32 GSCAN_ATTRIBUTE_SCAN_ID v)) -> - 2 ^ 31 <= v < 2 ^ 31 ->
  scan_attribute mMax m q g = Ok (false, g <| v_scan_id := v |>).
Proof. intros H Hv. destruct (get_i32 m q _ v H) as [Ht (w & Hw & <-)]; [done..|]. unfold scan_attribute. rewrite Ht. run. by rewrite Hw. Qed.

Lemma scan_flags_run mMax m q v g : lies m q (wire (b8 GSCAN_ATTRIBUTE_SCAN_FLAGS v)) -> 0 <= v < 256 ->
  scan_attribute mMax m q g = Ok (false, g <| v_flags := v |>).
Proof.
  intros H Hv. destruct (get_lies 1 m q _ v H) as [Ht Hw]; [by split|]. unfold scan_attribute. rewrite Ht. run. rewrite Hw.
  cbn. rewrite Z.mod_small by done. by rewrite Z.add_0_r.
Qed.

Lemma scan_num_run mMax m q v g : lies m q (wire (b32 GSCAN_ATTRIBUTE_NUM_OF_RESULTS v)) -> - 2 ^ 31 <= v < 2 ^ 31 ->
  scan_attribute mMax m q g = Ok (false, g <| v_num := v |>).
Proof. intros H Hv. destruct (get_i32 m q _ v H) as [Ht (w & Hw & <-)]; [done..|]. unfold scan_attribute. rewrite Ht. run. by rewrite Hw. Qed.

Lemma scan_mask_run mMax m q v g : lies m q (wire (b32 GSCAN_ATTRIBUTE_CH_BUCKET_BITMASK v)) -> - 2 ^ 31 <= v < 2 ^ 31 ->
  scan_attribute mMax m q g = Ok (false, g <| v_mask := v |>).
Proof. intros H Hv. destruct (get_i32 m q _ v H) as [Ht (w & Hw & <-)]; [done..|]. unfold scan_attribute. rewrite Ht. run. by rewrite Hw. Qed.

(** The results: they are copied into the next entry of the array, if there is one; without
    results nothing is stored and no entry is used. *)
Lemma scan_results_run mMax m q sc g : let a := Leaf GSCAN_ATTRIBUTE_SCAN_RESULTS (concat (map encode_result (sc_results sc))) in
  lies m q (wire a) -> attr_wf a -> scan_wf sc -> slots_ok mMax g ->
  v_scan_id g = sc_id sc -> v_flags g = sc_flags sc -> v_num g = zlen (sc_results sc) -> v_mask g = sc_mask sc ->
  exists stop, scan_attribute mMax m q g = Ok (stop, store_scan mMax sc g).
Proof.
  intros a H Hwf (_ & _ & _ & Hrs) (Hret & Harr & Hslots) E1 E2 E3 E4. rewrite <- (app_nil_r (wire a)) in H.
  destruct (lies_attr m q a _ H Hwf) as (Hlen & Ht & _ & Hd & _). cbn [payload a] in Hlen, Hd. rewrite zlen_encoded in Hlen by done.
  unfold scan_attribute. rewrite Ht. cbn [attr_type a]. unfold bindM at 1, getM.
  change (GSCAN_ATTRIBUTE_SCAN_RESULTS =? GSCAN_ATTRIBUTE_SCAN_ID) with false. change (GSCAN_ATTRIBUTE_SCAN_RESULTS =? GSCAN_ATTRIBUTE_SCAN_FLAGS) with false.
  change (GSCAN_ATTRIBUTE_SCAN_RESULTS =? GSCAN_ATTRIBUTE_NUM_OF_RESULTS) with false. change (GSCAN_ATTRIBUTE_SCAN_RESULTS =? GSCAN_ATTRIBUTE_CH_BUCKET_BITMASK) with false.
  rewrite Z.eqb_refl, E3.
  assert (g <| v_scan_id := sc_id sc |> <| v_flags := sc_flags sc |> <| v_num := zlen (sc_results sc) |> <| v_mask := sc_mask sc |> = g) as Eg.
  { rewrite <- E1, <- E2, <- E3, <- E4. by destruct g. }
  unfold store_scan. rewrite Eg. case_bool_decide as Hempty; [exists false; by rewrite Hempty|]. cbn [orb].
  assert (0 < zlen (sc_results sc)) as Hn by (destruct (sc_results sc); [done|rewrite zlen_cons; pose proof (zlen_nonneg l); lia]).
  replace (truth (zlen (sc_results sc))) with true by (unfold truth; zb; done || lia). cbn [andb].
  destruct (Z.leb_spec mMax (mRetrieved g)) as [Hfull|Hroom]; [by exists true|]. exists false.
  assert (nla_len m q / sizeof_wifi_scan_result = zlen (sc_results sc)) as En.
  { rewrite nla_len_law, Hlen, same_size. replace (NLA_HDRLEN + 88 * zlen (sc_results sc) - NLA_HDRLEN) with (zlen (sc_results sc) * 88) by lia.
    by apply Z.div_mul. }
  rewrite En, Z.min_id. set (num := Z.min (zlen (sc_results sc)) MAX_AP_CACHE_PER_SCAN).
  destruct (mScans g !! Z.to_nat (mRetrieved g)) as [old|] eqn:Eo.
  2: { exfalso. apply lookup_ge_None in Eo. unfold zlen in Harr. lia. }
  assert (0 < MAX_AP_CACHE_PER_SCAN) as Hmax by by destruct limits_positive.
  pose proof (proj1 (list.Forall_lookup _ _) Hslots _ _ Eo) as Hold. cbn in Hold.
  assert (copy_results (Z.to_nat num) 0 m (nla_data q) (cs_results old) =
    Some (stored_results (take (Z.to_nat num) (sc_results sc)) (cs_results old))) as Ec.
  { destruct (concat_take encode_result (sc_results sc) (Z.to_nat num)) as [rest Er]. rewrite Er in Hd. apply lies_app in Hd as [Hd _].
    pose proof (copy_results_lies m (nla_data q) (take (Z.to_nat num) (sc_results sc)) 0 [] (cs_results old)) as Hc.
    rewrite length_take in Hc. replace (Z.to_nat num `min` length (sc_results sc))%nat with (Z.to_nat num) in Hc by (unfold num, zlen in *; lia).
    apply Hc; [by apply Forall_take|done| |unfold num, zlen in *; lia]. by rewrite Z.add_0_r. }
  run. rewrite Ec. cbn. f_equal. f_equal. unfold cached. fold num. rewrite E1, E2, E4. by destruct g.
Qed.

(** One scan of a reply. *)
Lemma scan_body_run mMax m q sc g : lies m q (wire (scan_attr sc)) -> attr_wf (scan_attr sc) -> scan_wf sc -> slots_ok mMax g ->
  nl_for m q (scan_attribute mMax m) (g <| v_scan_id := 0 |> <| v_flags := 0 |> <| v_num := 0 |> <| v_mask := 0 |>) = Ok (tt, store_scan mMax sc g).
Proof.
  intros H Hwf Hsc Hok. rewrite (nl_for_visit _ (fun _ => scan_attribute mMax m) _ _ _ _ _ H Hwf) by done.
  pose proof Hsc as (W1 & W2 & W3 & W4). pose proof (nested_wf _ _ Hwf) as Hwf'. do 4 apply list.Forall_cons in Hwf' as [_ Hwf'].
  apply list.Forall_cons in Hwf' as [Hwf' _].
  assert (- 2 ^ 31 <= zlen (sc_results sc) < 2 ^ 31) as W5.
  { pose proof (zlen_nonneg (sc_results sc)). destruct Hwf' as [_ Hsize]. unfold NLA_HDRLEN in Hsize. rewrite zlen_encoded in Hsize by done. lia. }
  rewrite <- (app_nil_r (wire _)) in H. destruct (lies_attr m q _ _ H Hwf) as (_ & _ & _ & Hd & _).
  rewrite nla_data_law in Hd. cbn [payload scan_attr] in Hd. unfold wires in Hd. cbn [map concat] in Hd.
  do 5 (let L := fresh "L" in apply lies_app in Hd as [L Hd]; rewrite zlen_wire in Hd).
  unfold scan_attr. rewrite (visit_cons _ _ _ _ _ _ (scan_id_run mMax m _ _ _ L W1)), (visit_cons _ _ _ _ _ _ (scan_flags_run mMax m _ _ _ L0 W2)).
  rewrite (visit_cons _ _ _ _ _ _ (scan_num_run mMax m _ _ _ L1 W5)), (visit_cons _ _ _ _ _ _ (scan_mask_run mMax m _ _ _ L2 W3)).
  cbn [visit]. pose (g' := g <| v_scan_id := sc_id sc |> <| v_flags := sc_flags sc |> <| v_num := zlen (sc_results sc) |> <| v_mask := sc_mask sc |>).
  destruct (scan_results_run mMax m _ sc g' L3 Hwf' Hsc Hok eq_refl eq_refl eq_refl eq_refl) as [stop Es].
  rewrite (bindM_ok _ _ g' _ _ Es). destruct g. by destruct stop.
Qed.

(** * A reply *)

(** The library finds the attribute [a] as the vendor data of a message. *)
Definition carries (msg : nl_msg) (a : attr) : Prop :=
  exists p res event, WifiEvent_parse msg = (res, event) /\ 0 <= res /\ get_cmd event = NL80211_CMD_VENDOR /\
    get_attribute event NL80211_ATTR_VENDOR_DATA = Some p /\ lies (mMsg event) p (wire a) /\ attr_wf a.

(** A reply holds scans, and whether there are no more. *)
Definition reply_attr (i : scan + Z) : attr :=
  match i with inl sc => scan_attr sc | inr flag => b8 GSCAN_ATTRIBUTE_SCAN_RESULTS_COMPLETE flag end.
Definition reply_store (mMax : Z) (i : scan + Z) (g : scan_results) : scan_results :=
  match i with inl sc => store_scan mMax sc g | inr flag => g <| gs_completed := flag |> end.
Definition reply_items (scs : list scan) (flag : Z) : list (scan + Z) := (inl <$> scs) ++ [inr flag].
Definition scans_attr (d t : Z) (scs : list scan) (flag : Z) : attr := Nested d [Nested t (map reply_attr (reply_items scs flag))].

(** The state after the scans of a reply. *)
Definition store_scans (mMax : Z) (scs : list scan) (g : scan_results) : scan_results := foldl (fun g sc => store_scan mMax sc g) g scs.

Lemma store_reply mMax scs flag g :
  foldl (fun g i => reply_store mMax i g) g (reply_items scs flag) = (store_scans mMax scs g) <| gs_completed := flag |>.
Proof.
  unfold reply_items. rewrite foldl_app. cbn. unfold store_scans.
  enough (foldl (fun g i => reply_store mMax i g) g (inl <$> scs) = foldl (fun g sc => store_scan mMax sc g) g scs) as -> by done.
  revert g. induction scs as [|sc scs IH]; intros g; [done|]. apply IH.
Qed.

(** The vendor data of a reply is one attribute, which holds the others. *)
Lemma inner_attr m p d t l : lies m p (wire (Nested d [Nested t l])) -> attr_wf (Nested d [Nested t l]) ->
  readable m p NLA_HDRLEN = true /\ nla_len m p <> 0 /\ lies m (nla_data p) (wire (Nested t l)) /\ attr_wf (Nested t l).
Proof.
  intros H Hwf. rewrite <- (app_nil_r (wire _)) in H. destruct (lies_attr m p _ _ H Hwf) as (Hl & _ & Hr & Hd & _). split; [done|].
  cbn [payload] in Hl, Hd. rewrite nla_len_law, Hl, zlen_wires. cbn [attrs_size foldr]. pose proof (attr_size_pos (Nested t l)). unfold NLA_HDRLEN in *.
  split; [lia|]. unfold wires in Hd. cbn [map concat] in Hd. rewrite app_nil_r in Hd. split; [done|].
  apply nested_wf in Hwf. by apply list.Forall_cons in Hwf as [? _].
Qed.

Lemma response_stores mMax event p d t scs flag g :
  get_cmd event = NL80211_CMD_VENDOR -> get_attribute event NL80211_ATTR_VENDOR_DATA = Some p ->
  lies (mMsg event) p (wire (scans_attr d t scs flag)) -> attr_wf (scans_attr d t scs flag) -> Forall scan_wf scs -> 0 <= flag < 256 -> slots_ok mMax g ->
  GetScanResults_handleResponse mMax event g = Ok (NL_OK, (store_scans mMax scs g) <| gs_completed := flag |>).
Proof.
  intros Hcmd Hattr H Hwf Hscs Hflag Hok. destruct (inner_attr _ _ _ _ _ H Hwf) as (Hr & Hl & H' & Hwf').
  unfold GetScanResults_handleResponse, get_vendor_data, get_vendor_data_len, get_data, get_len. unfold get_attribute in Hattr. rewrite Hcmd, Z.eqb_refl, Hattr, Hr.
  cbn [negb]. unfold bindM at 1, of_option, retM at 1. rewrite (proj2 (Z.eqb_neq _ _) Hl). rewrite <- (store_reply mMax scs flag g).
  match goal with |- bindM (nl_for _ _ ?body) _ _ = _ => destruct (nl_for_fold (slots_ok mMax) body reply_attr (reply_store mMax) _ _ _ _ _ H' Hwf' Hok) as [E _] end.
  2: by rewrite (bindM_ok _ _ _ _ _ E).
  intros [sc|fl] q s Hin Hq Hwfq Hs; cbn [reply_attr reply_store] in *.
  - assert (scan_wf sc) as Hsc.
    { apply elem_of_app in Hin as [Hin|Hin]; [|by apply elem_of_cons in Hin as [?|?%elem_of_nil]].
      apply list_elem_of_fmap in Hin as (y & [= ->] & Hy). by apply (proj1 (list.Forall_forall _ _) Hscs). }
    split; [|by apply store_slots_ok]. rewrite <- (app_nil_r (wire _)) in Hq. destruct (lies_attr _ q _ _ Hq Hwfq) as (_ & -> & _). rewrite app_nil_r in Hq. cbn [attr_type scan_attr].
    change (GSCAN_ATTRIBUTE_SCAN_RESULTS =? GSCAN_ATTRIBUTE_SCAN_RESULTS_COMPLETE) with false.
    change ((GSCAN_ATTRIBUTE_NUM_OF_RESULTS <=? GSCAN_ATTRIBUTE_SCAN_RESULTS) && (GSCAN_ATTRIBUTE_SCAN_RESULTS <=? GSCAN_ATTRIBUTE_CH_BUCKET_BITMASK)) with true.
    cbn iota. unfold bindM at 1, modM. by rewrite (bindM_ok _ _ _ _ _ (scan_body_run mMax _ q sc s Hq Hwfq Hsc Hs)).
  - assert (fl = flag) as ->.
    { apply elem_of_app in Hin as [Hin|Hin]; [by apply list_elem_of_fmap in Hin as (y & [=] & _)|].
      by apply elem_of_cons in Hin as [[= ->]|?%elem_of_nil]. }
    split; [|done]. destruct (get_lies 1 _ q _ _ Hq Hwfq) as [-> E]. rewrite Z.eqb_refl. run. rewrite E. cbn.
    rewrite Z.mod_small, Z.add_0_r by done. done.
Qed.

(** * The array *)

Lemma with_results_cons sc scs : with_results (sc :: scs) = (if bool_decide (sc_results sc = []) then [] else [sc]) ++ with_results scs.
Proof. unfold with_results. case_bool_decide; [by rewrite filter_cons_False by tauto|by rewrite filter_cons_True]. Qed.

(** The scans [scs] are stored from the entry [r] on, as far as there is room. *)
Definition scans_stored (mMax : Z) (r : nat) (scs : list scan) (before after : list wifi_cached_scan_results) : Prop :=
  length after = length before /\
  (forall j sc old, scs !! j = Some sc -> before !! (r + j)%nat = Some old -> Z.of_nat (r + j) < mMax ->
    after !! (r + j)%nat = Some (cached sc old)) /\
  (forall k, (k < r)%nat \/ (r + length scs <= k)%nat \/ mMax <= Z.of_nat k -> after !! k = before !! k).

Lemma scans_stored_nil mMax r l : scans_stored mMax r [] l l.
Proof. done. Qed.

Lemma scans_stored_app mMax r scs scs' l l1 l2 :
  scans_stored mMax r scs l l1 -> scans_stored mMax (r + length scs) scs' l1 l2 -> scans_stored mMax r (scs ++ scs') l l2.
Proof.
  intros (Hl1 & Hj1 & Hk1) (Hl2 & Hj2 & Hk2). split; [by rewrite Hl2|]. split.
  - intros j sc old Hsc Hold Hlt. apply lookup_app_Some in Hsc as [Hsc|[Hge Hsc]].
    + rewrite Hk2; [by eapply Hj1|]. left. apply lookup_lt_Some in Hsc. lia.
    + replace (r + j)%nat with (r + length scs + (j - length scs))%nat in * by lia. eapply Hj2; [done| |done]. rewrite Hk1; [done|]. lia.
  - intros k Hk. rewrite length_app in Hk. rewrite Hk2 by lia. apply Hk1. lia.
Qed.

(** Nothing is stored when the array is full. *)
Lemma scans_stored_full mMax r scs l : mMax <= Z.of_nat r -> scans_stored mMax r scs l l.
Proof. intros H. split; [done|]. split; [|done]. lia. Qed.

Lemma store_scan_stored mMax sc g : slots_ok mMax g -> mRetrieved g <= mMax ->
  mRetrieved (store_scan mMax sc g) = Z.min mMax (mRetrieved g + zlen (with_results [sc])) /\
  scans_stored mMax (Z.to_nat (mRetrieved g)) (with_results [sc]) (mScans g) (mScans (store_scan mMax sc g)).
Proof.
  intros (H0 & Harr & _) Hr. rewrite with_results_cons. change (with_results []) with (@nil scan). rewrite app_nil_r. unfold store_scan.
  case_bool_decide; [cbn; rewrite zlen_nil; split; [lia|done]|]. change (zlen [sc]) with 1. cbn [orb].
  destruct (Z.leb_spec mMax (mRetrieved g)) as [Hf|Hf].
  - cbn. split; [lia|]. apply scans_stored_full. lia.
  - destruct (mScans g !! _) as [old|] eqn:Eo; [|exfalso; apply lookup_ge_None in Eo; unfold zlen in Harr; lia]. cbn. split; [lia|].
    split; [by rewrite length_insert|]. split.
    + intros [|j] sc' old' Hj Ho Hlt; [|done]. injection Hj as ->. rewrite Nat.add_0_r in *. rewrite Eo in Ho. injection Ho as ->.
      apply list_lookup_insert_eq. by eapply lookup_lt_Some.
    + intros k Hk. apply list_lookup_insert_ne. cbn in Hk. lia.
Qed.

Lemma store_scans_stored mMax scs : forall g, slots_ok mMax g -> mRetrieved g <= mMax ->
  mRetrieved (store_scans mMax scs g) = Z.min mMax (mRetrieved g + zlen (with_results scs)) /\
  scans_stored mMax (Z.to_nat (mRetrieved g)) (with_results scs) (mScans g) (mScans (store_scans mMax scs g)).
Proof.
  induction scs as [|sc scs IH]; intros g Hok Hr.
  - cbn. rewrite zlen_nil. split; [lia|apply scans_stored_nil].
  - pose proof (store_slots_ok mMax sc g Hok) as Hok'. change (store_scans mMax (sc :: scs) g) with (store_scans mMax scs (store_scan mMax sc g)).
    destruct (store_scan_stored mMax sc g Hok Hr) as [Er Hs1]. destruct (IH _ Hok') as [E Hs]; [lia|].
    pose proof (zlen_nonneg (with_results scs)). pose proof (zlen_nonneg (with_results [sc])).
    change (sc :: scs) with ([sc] ++ scs). unfold with_results in *. rewrite list.filter_app, zlen_app. destruct Hok as (Hpos & _). split; [rewrite E, Er; lia|].
    set (n := filter _ [sc]) in *. destruct (Z.le_gt_cases (mRetrieved g + zlen n) mMax) as [Hroom|Hfull].
    + apply (scans_stored_app _ _ _ _ _ _ _ Hs1). replace (Z.to_nat (mRetrieved g) + length n)%nat with (Z.to_nat (mRetrieved (store_scan mMax sc g))); [done|].
      rewrite Er. unfold zlen in *. lia.
    + assert (mScans (store_scans mMax scs (store_scan mMax sc g)) = mScans (store_scan mMax sc g)) as ->.
      { destruct Hs as (_ & _ & Hk). apply list_eq. intros k. apply Hk. rewrite Er. lia. }
      apply (scans_stored_app _ _ _ _ _ _ _ Hs1), scans_stored_full. unfold zlen in *. lia.
Qed.

(** * The call *)

Hypothesis page : 4096 <= nlmsg_max.

(** An exchange in which the driver answers with one message. *)
Definition answered (s : Wifi) (msg : nl_msg) (rest : list (list reply)) : Prop :=
  hd true (msg_allocs s) = true /\ hd true (cb_allocs s) = true /\ 0 <= hd 0 (sends s) /\ replies s = [RValid msg; RAck] :: rest.

(** The exchange itself: what the command made of the message is the result. *)
Lemma exec_exchange {L} (h : response_fn L) ops msg rest (l l' : L) s :
  hd true (cb_allocs s) = true -> 0 <= hd 0 (sends s) -> replies s = [RValid msg; RAck] :: rest -> response_handler h msg l = Ok (NL_OK, l') ->
  exists s', exec 4 (requestResponse h (Some ops) l) s = Ok ((0, l'), s') /\
    info s' = info s /\ commands s' = commands s /\ replies s' = rest /\ trace s' = trace s ++ [Sent ops].
Proof.
  intros Hcb Hsend Hrep Hh. unfold requestResponse. eexists. split.
  - cbn [pbind act]. erewrite exec_act; [|reflexivity]. rewrite Hcb. cbn [negb pbind act]. erewrite exec_act.
    2: { run. rewrite (proj2 (Z.ltb_ge _ _) Hsend). reflexivity. }
    rewrite (proj2 (Z.ltb_ge _ _) Hsend). cbn [pbind]. erewrite exec_while.
    2: { unfold recv_turn. run. rewrite Hrep. cbn. rewrite Hh. reflexivity. }
    cbn iota. erewrite exec_while; [|reflexivity]. reflexivity.
  - done.
Qed.

(** The request for scans fits into a message. *)
Lemma scans_request_built num flush rq : hd true (nl_alloc rq) = true ->
  exists rq' ops, GetScanResults_createRequest num flush rq = Ok (0, rq') /\ rq_msg rq' = Some ops.
Proof.
  intros Ha. destruct (request_builds page (RqGetScanResults num flush) rq I eq_refl ltac:(done)) as (r & rq' & E & _ & Hb). rewrite Ha in Hb.
  destruct Hb as (ops & Eops & [(-> & _ & _)|(_ & Hbig)]); [by exists rq', ops|]. exfalso.
  pose proof (vendor_head_size (mIface rq) (GSCAN_SUBCMD_GET_SCAN_RESULTS : Z)) as Hv. unfold request_tree in Hbig. cbn [request_fields request_subcmd app] in Hbig.
  rewrite attrs_size_app in Hbig. replace (attrs_size [Nested NL80211_ATTR_VENDOR_DATA _]) with 20 in Hbig by reflexivity. lia.
Qed.

(** A round after which there are no more scans. *)
Lemma last_round n c x max flush msg rest g g' s :
  commands s !! c = Some x -> answered s msg rest -> mRetrieved g < max -> gs_completed g' <> 0 ->
  response_handler (GetScanResults_handleResponse max) msg g = Ok (NL_OK, g') ->
  exists s', exec 5 (execute_loop (S n) c max flush g) s = Ok ((WIFI_SUCCESS, g'), s') /\ info s' = info s /\ commands s' = commands s.
Proof.
  intros Hx (Hma & Hcb & Hsend & Hrep) Hlt Hcomp Hh. cbn [execute_loop]. rewrite (proj2 (Z.ltb_lt _ _) Hlt). cbn [pbind act].
  destruct (scans_request_built (max - mRetrieved g) flush (mkRequest (nl80211_family_id (info s)) (ifaceId x) None (msg_allocs s)) Hma) as (rq & ops & Eb & Eops).
  erewrite exec_act; [|unfold build, get_command, of_option; run; rewrite Hx; cbn; rewrite Eb; reflexivity]. rewrite Eops. change (0 <? 0) with false. cbn iota.
  match goal with |- context [exec 4 _ ?s1] => destruct (exec_exchange (GetScanResults_handleResponse max) ops msg rest g g' s1 Hcb Hsend Hrep Hh)
    as (s' & E & E1 & E2 & _) end.
  exists s'. split; [|done]. eapply (exec_bind 4 0); [exact E|]. change (failed 0) with false. cbn iota.
  replace (truth (gs_completed g')) with true by (unfold truth; zb; done). rewrite orb_true_r. done.
Qed.

(** C17: The cached scans reach the caller. When the driver answers the request with a message that
    holds the scans [scs] and says that there are no more, the call returns success with the
    number of scans stored, which is the number of the scans that have a result or the size [max]
    of the caller's array if there are more; the entries of the array hold these scans in their
    order, each with its number, flags, channels and as many of its results as an entry has room
    for, with every field as it was sent; a scan without results is left out and takes no entry;
    the other entries are as they were; and the command made for the call is gone. The entries
    have room for [MAX_AP_CACHE_PER_SCAN] results, as the code assumes, and memory for the command, its message and
    its callbacks is to be had. *)
Theorem cached_scans_returned s iface flush max results num c msg rest d t scs flag :
  hd 0 (news s) = c -> c <> 0 -> commands s !! c = None -> answered s msg rest -> 0 < max ->
  carries msg (scans_attr d t scs flag) -> Forall scan_wf scs -> 0 < flag < 256 -> slots_ok max (mkScans results 0 0 0 0 0 0) ->
  exists arr s', exec 7 (wifi_get_cached_gscan_results iface flush max results num) s = Ok ((WIFI_SUCCESS, arr, Z.min max (zlen (with_results scs))), s') /\
    scans_stored max 0 (with_results scs) results arr /\ commands s' = commands s /\ info s' = info s.
Proof.
  intros Hc Hc0 Hnone Hans Hmax (p & res & event & Hparse & Hres & Hcmd & Hattr & Hlies & Hwf) Hscs Hflag Hslots.
  set (g0 := mkScans results 0 0 0 0 0 0) in *. destruct (store_scans_stored max scs g0 Hslots) as [Er Hst]; [cbn; lia|].
  set (g1 := (store_scans max scs g0) <| gs_completed := flag |>).
  assert (response_handler (GetScanResults_handleResponse max) msg g0 = Ok (NL_OK, g1)) as Hh.
  { unfold response_handler. rewrite Hparse, (proj2 (Z.ltb_ge _ _) Hres). eapply response_stores; try done. lia. }
  set (s1 := s <| news := tail (news s) |> <| commands := <[c := mkCommand (-1) iface 1 GetScanResultsCommand]> (commands s) |>).
  destruct (last_round 9 c (mkCommand (-1) iface 1 GetScanResultsCommand) max flush msg rest g0 g1 s1) as (s2 & E2 & Ei & Ec);
    [by apply lookup_insert_eq|done|done|cbn; lia|done|].
  exists (mScans g1), (s2 <| commands := commands s |>). split; [|by split; [exact Hst|]].
  unfold wifi_get_cached_gscan_results. cbn [pbind act].
  erewrite exec_act; [|unfold new_command, put_command; run; rewrite Hc, (proj2 (Z.eqb_neq _ _) Hc0); reflexivity].
  rewrite (proj2 (Z.eqb_neq _ _) Hc0). eapply (exec_bind 5 1); [exact E2|]. cbn iota. erewrite exec_act.
  2: { unfold releaseRef, get_command, of_option. run. rewrite Ec. cbn [commands set s1]. rewrite lookup_insert_eq. reflexivity. }
  rewrite exec_ret. change (WIFI_SUCCESS =? WIFI_SUCCESS) with true. cbn iota. change (mRetrieved g1) with (mRetrieved (store_scans max scs g0)).
  rewrite Er. do 2 f_equal. destruct s2. cbn in Ec |- *. subst. by rewrite delete_insert_id.
Qed.

End Scans.
