(* ===== verification/WifiReplies.v ===== *)
(** What the Wi-Fi HAL makes of the driver's replies and events (WifiEvents, WifiApi): reading a
    message always ends; the values of a well-formed reply reach the caller. *)

From stdpp Require Import base list gmap numbers.
From Stdlib Require Import ZArith Lia.
From S2P Require Import Prelude WifiNl WifiTypes WifiHal WifiReq WifiEvents WifiApi WifiTables WifiMsgs WifiWire WifiInv WifiSys.

Local Open Scope Z_scope.
Local Open Scope st_scope.
Local Open Scope rec_scope.
Local Open Scope wprog_scope.

Section Replies.
Context `{NL : Libnl} `{NLL : !LibnlLaws} `{N80211 : Nl80211} `{HH : WifiHalH} `{HHL : !WifiHalHLaws}.

(** * Reading ends *)

Definition returns {S A} (m : ST S A) : Prop := forall s, m s <> Blocked.

Lemma returns_ret {S A} (a : A) : returns (@retM S A a).
Proof. done. Qed.
Lemma returns_bind {S A B} (m : ST S A) (k : A -> ST S B) : returns m -> (forall a, returns (k a)) -> returns (bindM m k).
Proof. intros Hm Hk s. unfold bindM. specialize (Hm s). destruct (m s) as [[a s']| |]; [apply Hk|done..]. Qed.
Lemma returns_option {S A} (o : option A) : returns (@of_option S A o).
Proof. by destruct o. Qed.
Lemma returns_for {S} m p (body : Z -> ST S bool) : (forall q, returns (body q)) -> returns (nl_for m p body).
Proof. intros Hb s. apply nl_for_returns. intros q s'. apply Hb. Qed.
Lemma returns_if {S A} (b : bool) (m1 m2 : ST S A) : returns m1 -> returns m2 -> returns (if b then m1 else m2).
Proof. by destruct b. Qed.

Create HintDb reads.
Hint Resolve returns_ret returns_option : reads.

Local Ltac reads :=
  repeat first
    [ apply returns_for; intro | apply returns_bind; [|intro] | apply returns_if
    | solve [auto with reads] | solve [intro; done]
    | match goal with |- returns (match ?x with _ => _ end) => destruct x eqn:? end ].

Lemma full_scan_returns id event h : returns (wifi_handle_full_scan_event id event h).
Proof. unfold wifi_handle_full_scan_event. cbv zeta. reads. Qed.

Lemma rtt_parse_returns event : returns (rtt_parse event).
Proof. unfold rtt_parse, rtt_attribute_of. cbv zeta. reads. Qed.

Lemma reading_returns id b event : returns (reading id b event).
Proof.
  destruct b; cbn [reading]; try apply full_scan_returns.
  - unfold Scan_handleEvent. cbv zeta. reads.
  - reads.
  - unfold Hotlist_handleEvent. cbv zeta. reads.
  - unfold ePNO_handleEvent. cbv zeta. reads.
  - unfold SigChange_handleEvent. cbv zeta. reads.
  - unfold Anqpo_handleEvent. cbv zeta. reads.
  - unfold RSSI_handleEvent. cbv zeta. reads.
  - intros s. pose proof (rtt_parse_returns event (state, mallocs s)). by destruct (rtt_parse event (state, mallocs s)).
  - reads.
Qed.

(** A program of at most [n] actions, each of which returns. *)
Fixpoint bounded {A} (n : nat) (p : prog A) {struct p} : Prop :=
  match p with
  | Ret _ => True
  | Act m k => match n with O => False | S n' => returns m /\ forall x, bounded n' (k x) end
  | While _ _ _ => False
  end.

Lemma bounded_mono {A} n n' (p : prog A) : bounded n p -> (n <= n')%nat -> bounded n' p.
Proof.
  revert n n'. induction p as [a|X m k IH|X Y body x k IH]; intros n n' H Hn; cbn in *; [done| |done].
  destruct n as [|n]; [done|]. destruct n' as [|n']; [lia|]. destruct H as [Hm Hk]. split; [done|]. intros x. eapply IH; [apply Hk|lia].
Qed.

Lemma bounded_bind {A B} n n' (p : prog A) (f : A -> prog B) : bounded n p -> (forall a, bounded n' (f a)) -> bounded (n + n') (pbind p f).
Proof.
  revert n. induction p as [a|X m k IH|X Y body x k IH]; intros n Hp Hf; cbn in *; [eapply bounded_mono; [apply Hf|lia]| |done].
  destruct n as [|n]; [done|]. destruct Hp as [Hm Hk]. split; [done|]. intros x. by apply IH.
Qed.

Lemma bounded_act {A B} n (m : WIFI A) (k : A -> prog B) : returns m -> (forall a, bounded n (k a)) -> bounded (S n) (pbind (act m) k).
Proof. done. Qed.

Lemma bounded_exec {A} n (p : prog A) : bounded n p -> returns (exec n p).
Proof.
  revert n. induction p as [a|X m k IH|X Y body x k IH]; intros n Hp; [by destruct n| |done].
  destruct n as [|n]; [done|]. destruct Hp as [Hm Hk]. intros s. cbn. unfold bindM. specialize (Hm s). destruct (m s) as [[x s']| |]; [|done..].
  by apply IH.
Qed.

Lemma command_returns c : returns (get_command c).
Proof. intros s. unfold get_command, bindM, getM. apply returns_option. Qed.

Lemma release_returns c : returns (releaseRef c).
Proof. apply returns_bind; [apply command_returns|]. intros x s. by destruct (_ =? 0). Qed.

Lemma rtt_event_bounded c event : bounded 7 (Rtt_handleEvent c event).
Proof.
  unfold Rtt_handleEvent. apply bounded_act.
  { apply returns_bind; [apply command_returns|]. intros x s. destruct (body x); try done. unfold bindM, getM.
    pose proof (rtt_parse_returns event (state, mallocs s)). by destruct (rtt_parse event (state, mallocs s)) as [[? [? ?]]| |]. }
  intros [[[id st] h]|]; [|done]. apply bounded_act.
  { intros s. unfold wifi_unregister_vendor_handler, bindM, getM. by destruct (list_find _ _) as [[? ?]|]. }
  intros _. apply bounded_act; [intros s; by destruct h|]. intros _. apply bounded_act.
  { apply returns_bind; [apply command_returns|]. intros x s. by destruct (body x). }
  intros _. apply bounded_act.
  { intros s. unfold enter_table, bindM, getM. by destruct (table_in_use s). }
  intros _. apply bounded_act.
  { apply returns_bind; [|done]. intros s. unfold wifi_unregister_cmd, bindM, getM. by destruct (list_find _ _) as [[? ?]|]. }
  intros d. destruct (d =? 0); [done|]. split; [apply release_returns|done].
Qed.

Lemma handle_bounded c event : bounded 8 (handleEvent c event).
Proof.
  unfold handleEvent. apply bounded_act; [apply command_returns|]. intros x.
  destruct (body x) as [p h|h| |p h|p h|p h|n h|max min h|p st h|] eqn:E; try done; try (by apply rtt_event_bounded);
    (split; [rewrite <- ?E|done]).
  - apply (reading_returns (mId x) (ScanCommand p h) event).
  - apply (reading_returns (mId x) (FullScanResultsCommand h) event).
  - apply (reading_returns (mId x) (BssidHotlistCommand p h) event).
  - apply (reading_returns (mId x) (ePNOCommand p h) event).
  - apply (reading_returns (mId x) (SignificantWifiChangeCommand p h) event).
  - apply (reading_returns (mId x) (AnqpoConfigureCommand n h) event).
  - apply (reading_returns (mId x) (SetRSSIMonitorCommand max min h) event).
Qed.

Lemma message_bounded msg : bounded 10 (internal_valid_message_handler msg).
Proof.
  unfold internal_valid_message_handler, event_handler. destruct (WifiEvent_parse msg) as [res event].
  destruct (res <? 0); [done|]. apply bounded_act.
  { unfold find_handler. apply returns_bind; [apply returns_option|]. intros id. apply returns_bind; [apply returns_option|]. intros subcmd s.
    unfold bindM, getM. destruct (list_find _ _) as [[i x]|]; [|done]. unfold addRef, bindM.
    pose proof (command_returns (cb_arg x) s). by destruct (get_command (cb_arg x) s) as [[? ?]| |]. }
  intros [c|]; [|done]. apply (bounded_bind 8 1); [apply handle_bounded|]. intros _. split; [apply release_returns|done].
Qed.

(** C27: The event thread never hangs on what it receives. However many messages have arrived and
    whatever their bytes are, in every state of the HAL, handling them takes at most ten steps
    each, and none of the loops over nested attributes goes on for ever. *)
Theorem wifi_messages_end msgs s : exec (10 * length msgs) (internal_pollin_handler msgs) s <> Blocked.
Proof.
  apply bounded_exec. induction msgs as [|msg msgs IH]; [done|]. cbn [length internal_pollin_handler].
  rewrite Nat.mul_succ_r, Nat.add_comm. apply bounded_bind; [apply message_bounded|done].
Qed.

End Replies.
