(* ===== verification/WifiInit.v ===== *)
(** Initialising the Wi-Fi HAL (src/hal/wifi_hal/wifi_hal.cpp): the sockets, the tables, the
    interfaces and the multicast groups, and what is given back when one of them cannot be had;
    and the functions of the vendor's table that answer by themselves. *)

From stdpp Require Import base list gmap strings numbers.
From Stdlib Require Import ZArith Lia.
From S2P Require Import Prelude WifiNl WifiTypes WifiHal WifiReq WifiEvents WifiApi WifiTables WifiMsgs WifiWire WifiReplies.

Local Open Scope Z_scope.
Local Open Scope st_scope.
Local Open Scope rec_scope.

(** * Resources and environment *)

(** What the process holds: memory, sockets, the lock and directories, by number. *)
Record resources := mkRes {
  r_info : Z; r_cleanup_socks : Z; r_nl_socks : Z; r_event_cb : Z; r_cmd : Z; r_lock : Z; r_dirs : Z; r_interfaces : Z; r_ifinfo : Z;
}.
#[export] Instance eta_resources : Eta resources := fun r =>
  mkRes (r_info r) (r_cleanup_socks r) (r_nl_socks r) (r_event_cb r) (r_cmd r) (r_lock r) (r_dirs r) (r_interfaces r) (r_ifinfo r).
#[export] Instance resources_eq_dec : EqDecision resources.
Proof. solve_decision. Defined.
Definition nothing : resources := mkRes 0 0 0 0 0 0 0 0 0.

(** common.h:158-162 [interface_info]. *)
Record interface_info := mkIface { if_name : list Z; if_id : Z }.

(** What the environment answers, in the order of the calls: memory, the pair of sockets, netlink
    sockets and their connection, the callbacks of the event socket, the family, the listings
    of /sys/class/net, for the requests to the controller what WifiTypes says of them (the messages that
    are sent are [b_sent]), and the memberships. *)
Record Boot := mkBoot {
  b_mallocs : list bool; b_socketpair : Z; b_sockets : list bool; b_connects : list Z; b_get_cb : bool; b_family : Z;
  b_listings : list (option (list (list Z))); b_msg_allocs : list bool; b_cb_allocs : list bool; b_sends : list Z;
  b_replies : list (list reply); b_sent : list wifi_out; b_memberships : list Z;
  b_ports : list Z; b_ifaces : list interface_info; b_res : resources;
}.
#[export] Instance eta_Boot : Eta Boot := fun b =>
  mkBoot (b_mallocs b) (b_socketpair b) (b_sockets b) (b_connects b) (b_get_cb b) (b_family b) (b_listings b) (b_msg_allocs b)
    (b_cb_allocs b) (b_sends b) (b_replies b) (b_sent b) (b_memberships b) (b_ports b) (b_ifaces b) (b_res b).

Definition boot_malloc : ST Boot bool :=
  let* b := getM in modM (fun b => b <| b_mallocs := tail (b_mallocs b) |>);; retM (hd true (b_mallocs b)).
Definition holds (f : resources -> resources) : ST Boot unit := modM (fun b => b <| b_res := f (b_res b) |>).

Section Boot.
Context `{NL : Libnl} `{N80211 : Nl80211} `{HH : WifiHalH}.
(** The process, the index of an interface, and the family of the controller. *)
Context (pid : Z) (if_nametoindex : list Z -> Z) (nlctrl : Z).

(** * Sockets *)

(** wifi_hal.cpp:88-92 [wifi_socket_set_local_port]. The port in the upper ten bits, the process in the
    others. *)
Definition local_port (port : Z) : Z := u32 (Z.land pid 4194303 + u32 (Z.shiftl port 22)).

(** wifi_hal.cpp:94-114 [wifi_create_nl_socket]. *)
Definition wifi_create_nl_socket (port : Z) : ST Boot bool :=
  let* b := getM in
  modM (fun b => b <| b_sockets := tail (b_sockets b) |>);;
  if negb (hd true (b_sockets b)) then retM false
  else
    holds (fun r => r <| r_nl_socks := r_nl_socks r + 1 |>);;
    modM (fun b => b <| b_ports := b_ports b ++ [local_port port] |>);;
    let* b := getM in
    modM (fun b => b <| b_connects := tail (b_connects b) |>);;
    if negb (hd 0 (b_connects b) =? 0) then holds (fun r => r <| r_nl_socks := r_nl_socks r - 1 |>);; retM false
    else retM true.

Definition free_nl_sock : ST Boot unit := holds (fun r => r <| r_nl_socks := r_nl_socks r - 1 |>).
Definition free_info : ST Boot unit := holds (fun r => r <| r_info := r_info r - 1 |>).
Definition free_event_cb : ST Boot unit := holds (fun r => r <| r_event_cb := r_event_cb r - 1 |>).
Definition free_cmd : ST Boot unit := holds (fun r => r <| r_cmd := r_cmd r - 1 |>).
Definition destroy_lock : ST Boot unit := holds (fun r => r <| r_lock := r_lock r - 1 |>).

(** * Interfaces *)

(** wifi_hal.cpp:887-895 [is_wifi_interface]. *)
Definition is_wifi_interface (name : list Z) : bool := has_prefix (str "wlan") name || has_prefix (str "p2p") name.

(** [strncpy] into an array of [n] bytes. *)
Definition strncpy (n : nat) (src : list Z) : list Z := take n (cstr src ++ zeros n).

(** wifi_hal.cpp:897-904 [get_interface]. The name is cut off after eight bytes. *)
Definition get_interface (name : list Z) : interface_info := mkIface (take 8 (strncpy 9 name) ++ [0]) (if_nametoindex name).

Definition close_dir : ST Boot unit := holds (fun r => r <| r_dirs := r_dirs r - 1 |>).
Definition open_dir : ST Boot (option (list (list Z))) :=
  let* b := getM in
  modM (fun b => b <| b_listings := tail (b_listings b) |>);;
  let d := default None (head (b_listings b)) in
  (if d then holds (fun r => r <| r_dirs := r_dirs r + 1 |>) else retM tt);;
  retM d.

(** The entries that are interfaces of Wi-Fi. *)
Definition wifi_entries (names : list (list Z)) : list (list Z) :=
  List.filter (fun name => negb (at_ name 0 =? 46) && is_wifi_interface name) names.

(** wifi_hal.cpp:941-954 [wifi_init_interfaces, second pass]. The array has [n] entries, and memory for an
    interface is taken to be there. *)
Fixpoint fill_interfaces (n i : nat) (names : list (list Z)) : ST Boot unit :=
  match names with
  | [] => retM tt
  | name :: names' =>
      let* ok := boot_malloc in
      if negb ok then undefM
      else
        holds (fun r => r <| r_ifinfo := r_ifinfo r + 1 |>);;
        if (n <=? i)%nat then undefM
        else modM (fun b => b <| b_ifaces := b_ifaces b ++ [get_interface name] |>);; fill_interfaces n (S i) names'
  end.

(** wifi_hal.cpp:906-960 [wifi_init_interfaces]. The number of interfaces, when there are some. *)
Definition wifi_init_interfaces : ST Boot (Z * nat) :=
  let* d := open_dir in
  match d with
  | None => retM (WIFI_ERROR_UNKNOWN, 0%nat)
  | Some names =>
      let n := length (wifi_entries names) in
      close_dir;;
      if (n =? 0)%nat then retM (WIFI_ERROR_NOT_AVAILABLE, 0%nat)
      else
        let* d := open_dir in
        match d with
        | None => retM (WIFI_ERROR_UNKNOWN, 0%nat)
        | Some names =>
            let* ok := boot_malloc in
            if negb ok then close_dir;; retM (WIFI_ERROR_OUT_OF_MEMORY, 0%nat)
            else
              holds (fun r => r <| r_interfaces := r_interfaces r + 1 |>);;
              fill_interfaces n 0 (wifi_entries names);;
              close_dir;;
              retM (WIFI_SUCCESS, n)
        end
  end.

(** wifi_hal.cpp:962-970 [wifi_get_ifaces]. *)
Definition wifi_get_ifaces (interfaces : list interface_info) (n : Z) : Z * Z * list interface_info := (WIFI_SUCCESS, n, interfaces).

(** wifi_hal.cpp:972-977 [wifi_get_iface_name]. *)
Definition wifi_get_iface_name (i : interface_info) (size : nat) : Z * list Z := (WIFI_SUCCESS, strncpy size (if_name i)).

(** * Initialisation *)

(** A program of the HAL while there is no other thread yet. The steps are enough: each turn of the
    loop that waits takes the callbacks of one [nl_recvmsgs], and without any it sleeps for ever. *)
Definition boot_state (i : hal_info) (b : Boot) : Wifi :=
  mkWifi i ∅ [] [] (b_msg_allocs b) (b_cb_allocs b) (b_sends b) (b_replies b) (b_sent b) false.
Definition on_boot {A} (i : hal_info) (p : prog A) : ST Boot A := fun b =>
  match exec (5 + length (b_replies b)) p (boot_state i b) with
  | Ok (a, s) =>
      Ok (a, b <| b_msg_allocs := msg_allocs s |> <| b_cb_allocs := cb_allocs s |> <| b_sends := sends s |>
               <| b_replies := replies s |> <| b_sent := trace s |>)
  | Undef => Undef
  | Blocked => Blocked
  end.

(** wifi_hal.cpp:301-318 [wifi_add_membership]. *)
Definition wifi_add_membership (i : hal_info) (group : list Z) : ST Boot Z :=
  let* id := on_boot i (wifi_get_multicast_id nlctrl (str "nl80211") group) in
  if id <? 0 then retM id
  else
    let* b := getM in
    modM (fun b => b <| b_memberships := tail (b_memberships b) |>);; retM (hd 0 (b_memberships b)).

(** wifi_hal.cpp:275-278 [wifi_initialize, groups]. One after the other until one fails. *)
Fixpoint add_memberships (i : hal_info) (groups : list (list Z)) : ST Boot bool :=
  match groups with
  | [] => retM true
  | group :: groups' =>
      let* r := wifi_add_membership i group in
      if r <? 0 then retM false else add_memberships i groups'
  end.

Definition event_groups : list (list Z) := [str "scan"; str "mlme"; str "regulatory"; str "vendor"].

(** wifi_hal.cpp:227-248 [wifi_initialize, tables]. Their memory is not cleared. *)
Definition initial_info (family : Z) (cbs : list cb_info) (cmds : list cmd_info) : hal_info :=
  mkHal family false false cbs 0 DEFAULT_EVENT_CB_SIZE cmds 0 DEFAULT_CMD_SIZE.

(** wifi_hal.cpp:179-299 [wifi_initialize]. The result, the state behind the handle and the number of
    interfaces. [cbs] and [cmds] are what is in the memory of the tables. *)
Definition wifi_initialize (cbs : list cb_info) (cmds : list cmd_info) : ST Boot (Z * option (hal_info * nat)) :=
  let* ok := boot_malloc in
  if negb ok then retM (WIFI_ERROR_OUT_OF_MEMORY, None)
  else
    holds (fun r => r <| r_info := r_info r + 1 |>);;
    let* b := getM in
    if b_socketpair b <? 0 then free_info;; retM (WIFI_ERROR_UNKNOWN, None)
    else
      holds (fun r => r <| r_cleanup_socks := r_cleanup_socks r + 2 |>);;
      let* cmd_sock := wifi_create_nl_socket 644 in
      if negb cmd_sock then free_info;; retM (WIFI_ERROR_UNKNOWN, None)
      else
        let* event_sock := wifi_create_nl_socket 645 in
        if negb event_sock then free_nl_sock;; free_info;; retM (WIFI_ERROR_UNKNOWN, None)
        else if negb (b_get_cb b) then free_nl_sock;; free_nl_sock;; free_info;; retM (WIFI_ERROR_UNKNOWN, None)
        else
          let* ok := boot_malloc in
          if negb ok then free_nl_sock;; free_nl_sock;; free_info;; retM (WIFI_ERROR_OUT_OF_MEMORY, None)
          else
            holds (fun r => r <| r_event_cb := r_event_cb r + 1 |>);;
            let* ok := boot_malloc in
            if negb ok then free_nl_sock;; free_nl_sock;; free_event_cb;; free_info;; retM (WIFI_ERROR_OUT_OF_MEMORY, None)
            else
              holds (fun r => r <| r_cmd := r_cmd r + 1 |>);;
              if b_family b <? 0 then free_nl_sock;; free_nl_sock;; free_event_cb;; free_cmd;; free_info;; retM (WIFI_ERROR_UNKNOWN, None)
              else
                holds (fun r => r <| r_lock := r_lock r + 1 |>);;
                let* (r, n) := wifi_init_interfaces in
                let give_back := free_nl_sock;; free_nl_sock;; free_event_cb;; free_cmd;; destroy_lock;; free_info in
                if negb (r =? WIFI_SUCCESS) then give_back;; retM (WIFI_ERROR_NOT_AVAILABLE, None)
                else
                  let* member := add_memberships (initial_info (b_family b) cbs cmds) event_groups in
                  if negb member then give_back;; retM (WIFI_ERROR_NOT_AVAILABLE, None)
                  else retM (WIFI_SUCCESS, Some (initial_info (b_family b) cbs cmds, n)).

(** wifi_hal.cpp:320-339 [internal_cleaned_up_handler]. The tables and the interfaces stay allocated. *)
Definition internal_cleaned_up_handler : ST Boot unit :=
  holds (fun r => r <| r_cleanup_socks := r_cleanup_socks r - 2 |>);;
  free_nl_sock;; free_nl_sock;; destroy_lock;; free_info.

(** * The functions that answer by themselves *)

(** wifi_hal.cpp:979-1006 [wifi_get_supported_feature_set]. The value of ro.wlan.mtk.wifi.5g; whether there
    is support for preferred networks is a choice of the build. *)
Definition wifi_get_supported_feature_set (pno : bool) (prop : list Z) : Z * Z :=
  let set := if bytes_eqb (cstr prop) (str "1") then WIFI_FEATURE_INFRA_5G else 0 in
  let set := Z.lor (Z.lor (Z.lor set WIFI_FEATURE_P2P) WIFI_FEATURE_SOFT_AP) WIFI_FEATURE_TDLS in
  (WIFI_SUCCESS, if pno then Z.lor set WIFI_FEATURE_PNO else set).

(** An answer that is stored through a pointer, if it is not null. *)
Definition answer {A} (ptr : bool) (a : A) : Z * option A := if ptr then (WIFI_SUCCESS, Some a) else (WIFI_ERROR_INVALID_ARGS, None).

(** wifi_hal.cpp:1074-1082 [wifi_get_wake_reason_stats_dummy]. *)
Definition wifi_get_wake_reason_stats_dummy (ptr : bool) (size : nat) : Z * option (list Z) := answer ptr (zeros size).
(** wifi_hal.cpp:1084-1093 [wifi_get_packet_filter_capabilities_dummy]. *)
Definition wifi_get_packet_filter_capabilities_dummy (version max_len : bool) : Z * option (Z * Z) := answer (version && max_len) (0, 0).
(** wifi_hal.cpp:1105-1113 [wifi_get_tx_pkt_fates_dummy]. *)
Definition wifi_get_tx_pkt_fates_dummy (n_provided_fates : bool) : Z * option Z := answer n_provided_fates 0.
(** wifi_hal.cpp:1115-1123 [wifi_get_rx_pkt_fates_dummy]. *)
Definition wifi_get_rx_pkt_fates_dummy (n_provided_fates : bool) : Z * option Z := answer n_provided_fates 0.
(** wifi_hal.cpp:1136-1144 [wifi_get_firmware_version_dummy]. *)
Definition wifi_get_firmware_version_dummy (buffer : bool) (buffer_size : Z) : Z * option (list Z) :=
  answer (buffer && (0 <? buffer_size)) (strncpy (Z.to_nat buffer_size) (str "0")).
(** wifi_hal.cpp:1146-1154 [wifi_get_driver_version_dummy]. *)
Definition wifi_get_driver_version_dummy (buffer : bool) (buffer_size : Z) : Z * option (list Z) :=
  answer (buffer && (0 <? buffer_size)) (strncpy (Z.to_nat buffer_size) (str "0")).
(** wifi_hal.cpp:1156-1162 [wifi_get_ring_data_dummy]. *)
Definition wifi_get_ring_data_dummy (ring_name : bool) : Z * option unit := answer ring_name tt.
(** wifi_hal.cpp:1164-1174 [wifi_get_ring_buffers_status_dummy]. The size of one element of the name is the
    number of bytes that are copied. *)
Definition wifi_get_ring_buffers_status_dummy (num_rings status : bool) (size : nat) : Z * option (Z * list Z) :=
  answer (num_rings && status) (1, strncpy 1 (str "dummy") ++ zeros (size - 1)).
(** wifi_hal.cpp:1176-1184 [wifi_get_logger_supported_feature_set_dummy]. *)
Definition wifi_get_logger_supported_feature_set_dummy (support : bool) : Z * option Z := answer support 0.
(** wifi_hal.cpp:1186-1193 [wifi_start_logging_dummy]. *)
Definition wifi_start_logging_dummy (ring_name : bool) : Z * option unit := answer ring_name tt.

(** * What is held at the end *)

(** From the resources [R], a run that returns leaves those [Q] says. *)
Definition leaves {A} (R : resources) (m : ST Boot A) (Q : A -> resources -> Prop) : Prop :=
  forall b, b_res b = R -> match m b with Ok (a, b') => Q a (b_res b') | _ => True end.

Lemma leaves_bind {A B} R (m : ST Boot A) (k : A -> ST Boot B) Q1 Q :
  leaves R m Q1 -> (forall a R', Q1 a R' -> leaves R' (k a) Q) -> leaves R (bindM m k) Q.
Proof.
  intros Hm Hk b Hb. specialize (Hm b Hb). unfold bindM. destruct (m b) as [[a b']| |]; [|done..]. by apply (Hk a (b_res b')).
Qed.

Lemma leaves_ret {A} R (a : A) (Q : A -> resources -> Prop) : Q a R -> leaves R (retM a) Q.
Proof. intros HQ b <-. done. Qed.

Lemma leaves_undef {A} R (Q : A -> resources -> Prop) : leaves R undefM Q.
Proof. done. Qed.

Lemma leaves_get {B} R (k : Boot -> ST Boot B) Q : (forall b, leaves R (k b) Q) -> leaves R (bindM getM k) Q.
Proof. intros Hk b Hb. by apply (Hk b). Qed.

(** A change of what is not a resource, and of the resources. *)
Lemma leaves_mod {B} R f (k : unit -> ST Boot B) Q : (forall b, b_res (f b) = b_res b) -> leaves R (k tt) Q -> leaves R (bindM (modM f) k) Q.
Proof. intros Hf Hk b Hb. apply (Hk (f b)). by rewrite Hf. Qed.

Lemma leaves_holds {B} R f (k : unit -> ST Boot B) Q : leaves (f R) (k tt) Q -> leaves R (bindM (holds f) k) Q.
Proof. intros Hk b Hb. apply (Hk (b <| b_res := f (b_res b) |>)). cbn. by rewrite Hb. Qed.

Lemma leaves_malloc {B} R (k : bool -> ST Boot B) Q : (forall ok, leaves R (k ok) Q) -> leaves R (bindM boot_malloc k) Q.
Proof. intros Hk b Hb. apply (Hk _ (b <| b_mallocs := tail (b_mallocs b) |>)). done. Qed.

Lemma leaves_pure {A B} R (a : A) (k : A -> ST Boot B) Q : leaves R (k a) Q -> leaves R (bindM (retM a) k) Q.
Proof. done. Qed.

Lemma leaves_assoc {A B C} R (m : ST Boot A) (f : A -> ST Boot B) (g : B -> ST Boot C) Q :
  leaves R (bindM m (fun x => bindM (f x) g)) Q -> leaves R (bindM (bindM m f) g) Q.
Proof. intros H b Hb. rewrite bindM_assoc. by apply H. Qed.

Lemma leaves_if {A} R (c : bool) (m1 m2 : ST Boot A) Q : (c = true -> leaves R m1 Q) -> (c = false -> leaves R m2 Q) -> leaves R (if c then m1 else m2) Q.
Proof. by destruct c; auto. Qed.

Local Ltac leaves_step :=
  lazymatch goal with
  | |- leaves _ (retM _) _ => apply leaves_ret
  | |- leaves _ undefM _ => apply leaves_undef
  | |- leaves _ (if _ then _ else _) _ => apply leaves_if; intro
  | |- leaves _ (bindM (retM _) _) _ => apply leaves_pure
  | |- leaves _ (bindM getM _) _ => apply leaves_get; intro
  | |- leaves _ (bindM boot_malloc _) _ => apply leaves_malloc; intro
  | |- leaves _ (bindM (modM _) _) _ => apply leaves_mod; [done|]
  | |- leaves _ (bindM (bindM _ _) _) _ => apply leaves_assoc
  | |- leaves _ (bindM _ _) _ => apply leaves_holds
  end.

Local Ltac res_eq := unfold set, eta_resources; cbn -[Z.add Z.sub Z.of_nat]; f_equal; lia.

Lemma socket_leaves {B} R port (k : bool -> ST Boot B) Q :
  leaves R (k false) Q -> leaves (R <| r_nl_socks := r_nl_socks R + 1 |>) (k true) Q -> leaves R (bindM (wifi_create_nl_socket port) k) Q.
Proof.
  intros Hf Ht. eapply (leaves_bind _ _ _ (fun ok R' => R' = if ok : bool then R <| r_nl_socks := r_nl_socks R + 1 |> else R)).
  - unfold wifi_create_nl_socket. repeat leaves_step; try done. destruct R; res_eq.
  - by intros [] R' ->.
Qed.

Lemma fill_leaves n names : forall i R, (i <= n)%nat ->
  leaves R (fill_interfaces n i names) (fun _ R' => R' = R <| r_ifinfo := r_ifinfo R + zlen names |> /\ (i + length names <= n)%nat).
Proof.
  induction names as [|name names IH]; intros i R Hi; cbn [fill_interfaces].
  - apply leaves_ret. rewrite zlen_nil, Z.add_0_r. split; [by destruct R|cbn; lia].
  - apply leaves_malloc. intros ok. apply leaves_if; intros _; [leaves_step|]. leaves_step. apply leaves_if; intros Hn; [leaves_step|]. apply Nat.leb_gt in Hn.
    leaves_step. intros b Hb.
    pose proof (IH (S i) (R <| r_ifinfo := r_ifinfo R + 1 |>) ltac:(lia) b Hb) as Hf.
    destruct (fill_interfaces n (S i) names b) as [[[] b']| |]; [|done..]. destruct Hf as [-> Hl]. split; [|cbn; lia].
    rewrite zlen_cons. destruct R; res_eq.
Qed.

Context `{NLL : !LibnlLaws} `{HHL : !WifiHalHLaws}.

Lemma interfaces_leave R :
  leaves R wifi_init_interfaces (fun r R' =>
    if r.1 =? 0 then exists k : nat, (k <= r.2)%nat /\ R' = R <| r_interfaces := r_interfaces R + 1 |> <| r_ifinfo := r_ifinfo R + Z.of_nat k |>
    else R' = R).
Proof.
  destruct errors_negative as (E1 & _ & E3 & _ & E5).
  assert (forall e (R' : resources), e < 0 -> R' = R -> if (e, 0%nat).1 =? 0 then exists k : nat, (k <= (e, 0%nat).2)%nat /\ R' = R <| r_interfaces := r_interfaces R + 1 |> <| r_ifinfo := r_ifinfo R + Z.of_nat k |> else R' = R) as Herr.
  { intros e R' He HR. cbn. by rewrite (proj2 (Z.eqb_neq e 0)) by lia. }
  assert (forall Q (k : option (list (list Z)) -> ST Boot (Z * nat)), (forall names, leaves (R <| r_dirs := r_dirs R + 1 |>) (k (Some names)) Q) -> leaves R (k None) Q ->
    leaves R (bindM open_dir k) Q) as Hopen.
  { intros Q k Hsome Hnone. unfold open_dir. repeat leaves_step. destruct (default None (head (b_listings b))) as [names|]; cbn iota; repeat leaves_step; done. }
  unfold wifi_init_interfaces. apply Hopen; [intros names|leaves_step; by apply Herr].
  leaves_step. apply leaves_if; intros _; [leaves_step; apply Herr; [done|destruct R; res_eq]|].
  assert (R <| r_dirs := r_dirs R + 1 |> <| r_dirs := r_dirs R + 1 - 1 |> = R) as ER by (destruct R; res_eq).
  cbn -[Z.add Z.sub]. rewrite ER. apply Hopen; [intros names2|leaves_step; by apply Herr].
  leaves_step. apply leaves_if; intros _; [leaves_step; leaves_step; apply Herr; [done|exact ER]|].
  leaves_step. eapply leaves_bind; [apply fill_leaves; lia|]. intros [] R' [-> Hn]. leaves_step. leaves_step. cbn -[Z.add Z.sub].
  exists (length (wifi_entries names2)). split; [lia|]. unfold zlen. destruct R; res_eq.
Qed.

Lemma memberships_leave R i groups : leaves R (add_memberships i groups) (fun _ R' => R' = R).
Proof.
  induction groups as [|g groups IH]; cbn [add_memberships]; [by leaves_step|]. eapply (leaves_bind _ _ _ (fun _ R' => R' = R)).
  - unfold wifi_add_membership. eapply (leaves_bind _ _ _ (fun _ R' => R' = R)).
    + intros b Hb. unfold on_boot. by destruct (exec _ _ _) as [[a s]| |].
    + intros id R' ->. repeat leaves_step; done.
  - intros r R' ->. repeat leaves_step; done.
Qed.

(** What [wifi_initialize] holds at the end: on success, the state, the sockets, the tables, the
    lock and the interfaces; on failure, the pair of sockets and the interfaces, if it came to
    them. *)
Definition initialized (b : Boot) (r : Z * option (hal_info * nat)) (R : resources) : Prop :=
  match r.2 with
  | Some (i, n) =>
      r.1 = WIFI_SUCCESS /\ hal_wf i /\ handlers i = [] /\ registered i = [] /\
      exists k : nat, (k <= n)%nat /\ R = mkRes 1 2 2 1 1 1 0 1 (Z.of_nat k)
  | None =>
      r.1 < 0 /\ exists socks arr infos, R = mkRes 0 socks 0 0 0 0 0 arr infos /\
        socks = (if hd true (b_mallocs b) && (0 <=? b_socketpair b) then 2 else 0)
  end.

Lemma initial_hal_wf family cbs cmds : zlen cbs = 64 -> zlen cmds = 64 ->
  hal_wf (initial_info family cbs cmds) /\ handlers (initial_info family cbs cmds) = [] /\ registered (initial_info family cbs cmds) = [].
Proof. intros Hc Hd. split; [|done]. by split. Qed.

(** * Waiting for the groups *)

(** What one call of [nl_recvmsgs] makes of the state of the wait. *)
Fixpoint batch_err (rs : list reply) (err : Z) : Z :=
  match rs with
  | [] => err
  | RValid _ :: rs' => batch_err rs' err
  | RAck :: _ => 0
  | RFinish :: rs' => batch_err rs' 0
  | RError e :: rs' => batch_err rs' e
  end.
Definition ends_wait (rs : list reply) : bool := batch_err rs 1 <=? 0.

(** A message whose groups can be read. *)
Definition readable (r : reply) : Prop :=
  match r with RValid msg => forall group id, response_handler (GetMulticastId_handleResponse group) msg id <> Undef | _ => True end.

(** At least [k] of the coming calls of [nl_recvmsgs] end a wait. *)
Definition answered (k : nat) (rss : list (list reply)) : Prop :=
  Forall (Forall readable) rss /\ (k <= length (List.filter ends_wait rss))%nat.

Lemma multicast_skips group msg id : readable (RValid msg) -> exists id', response_handler (GetMulticastId_handleResponse group) msg id = Ok (NL_SKIP, id').
Proof.
  intros Hr. specialize (Hr group id). unfold response_handler in *. destruct (WifiEvent_parse msg) as [res ev]. destruct (res <? 0); [by eexists|].
  unfold GetMulticastId_handleResponse in *. cbv zeta in *. destruct (get_attribute _ _) as [groups|]; [|by eexists].
  match goal with |- context [nl_for ?m ?p ?f] => assert (returns (nl_for m p f)) as Hf; [|specialize (Hf id)] end.
  { apply returns_for. intros q. cbv zeta. repeat first
      [ apply returns_bind; [|intro] | apply returns_if | apply returns_option | solve [intro; done]
      | match goal with |- returns (match ?x with _ => _ end) => destruct x end ]. }
  unfold bindM in *. destruct (nl_for _ _ _ id) as [[[] id']| |]; [by exists id'|done..].
Qed.

Lemma recv_batch group rs : Forall readable rs -> forall err id, exists id',
  nl_recvmsgs (GetMulticastId_handleResponse group) rs err id = Ok (batch_err rs err, id').
Proof.
  induction 1 as [|r rs Hr Hrs IH]; intros err id; [by exists id|]. destruct r as [msg| | |e]; cbn [nl_recvmsgs batch_err].
  - destruct (multicast_skips group msg id Hr) as [id' ->]. apply IH.
  - by exists id.
  - apply IH.
  - apply IH.
Qed.

Lemma batch_err_end rs err : 0 < err -> batch_err rs err <= 0 <-> batch_err rs 1 <= 0.
Proof.
  revert err. assert (forall rs err err', 0 < err -> 0 < err' -> batch_err rs err <= 0 -> batch_err rs err' <= 0) as H.
  { clear. induction rs as [|[msg| | |e] rs IH]; intros err err' H1 H2; cbn [batch_err]; [lia|by apply IH|done|done|done]. }
  intros err Herr. split; apply H; lia.
Qed.

(** The loop that waits ends with the first call that ends a wait. *)
Lemma wait_ends group k (rss : list (list reply)) : answered (S k) rss -> forall err id s, 0 < err -> replies s = rss ->
  exists n r id' s', exec n (While (recv_turn (GetMulticastId_handleResponse group)) (err, id) Ret) s = Ok ((r, id'), s') /\
    r <= 0 /\ answered k (replies s') /\ (n + length (replies s') <= length rss + 1)%nat.
Proof.
  induction rss as [|rs rss IH]; intros [Hread Hk] err id s Herr Hs; [cbn in Hk; lia|].
  apply Forall_cons_1 in Hread as [Hrs Hread]. destruct (recv_batch group rs Hrs err id) as [id1 E].
  pose (s1 := s <| replies := rss |>).
  assert (recv_turn (GetMulticastId_handleResponse group) (err, id) s = Ok (inl (batch_err rs err, id1), s1)) as E1.
  { unfold recv_turn. cbn [fst snd]. rewrite (proj2 (Z.ltb_lt _ _) Herr). run. rewrite Hs, E. done. }
  destruct (Z.leb_spec (batch_err rs err) 0) as [He|He].
  - exists 2%nat, (batch_err rs err), id1, s1. rewrite (exec_while _ _ _ _ _ _ _ E1). split; [|split; [done|split; [|cbn; lia]]].
    + erewrite (exec_while 0); [|unfold recv_turn; cbn [fst]; rewrite (proj2 (Z.ltb_ge _ _)) by done; reflexivity]. done.
    + split; [done|]. cbn in Hk |- *. unfold ends_wait at 1 in Hk. destruct (batch_err rs 1 <=? 0); cbn in Hk; lia.
  - assert (ends_wait rs = false) as Eends by (apply Z.leb_gt, Z.lt_nge; rewrite <- (batch_err_end rs err Herr); lia).
    cbn [List.filter] in Hk. rewrite Eends in Hk. destruct (IH (conj Hread Hk) (batch_err rs err) id1 s1 He eq_refl)
      as (n & r & id' & s' & E2 & H1 & H2 & H3).
    exists (S n), r, id', s'. rewrite (exec_while _ _ _ _ _ _ _ E1). split; [done|]. split; [done|]. split; [done|]. cbn. lia.
Qed.

Lemma answered_le k k' rss : (k <= k')%nat -> answered k' rss -> answered k rss.
Proof. intros Hk [H1 H2]. split; [done|lia]. Qed.

Lemma multicast_create name rq : exists r rq', GetMulticastId_create nlctrl name rq = Ok (r, rq') /\ (r < 0 \/ is_Some (rq_msg rq')).
Proof.
  unfold GetMulticastId_create. rewrite (bindM_ok _ _ _ _ _ (create_run rq nlctrl CTRL_CMD_GETFAMILY)).
  destruct (hd true (nl_alloc rq)).
  - unfold put_string, put, bindM, getM. cbn. destruct (nla_put _ _ _ =? 0); eexists _, _; (split; [reflexivity|right; by eexists]).
  - destruct errors_negative as (_ & _ & _ & _ & Hneg). rewrite (proj2 (Z.ltb_lt _ _) Hneg). eexists _, _. split; [reflexivity|by left].
Qed.

(** A request for a group returns, in as many steps as there are. *)
Lemma multicast_run name group k s : answered (S k) (replies s) -> exists n r s',
  exec n (wifi_get_multicast_id nlctrl name group) s = Ok (r, s') /\ (n <= 5 + length (replies s))%nat /\ answered k (replies s').
Proof.
  intros Ha. assert (answered k (replies s)) as Hak by (eapply answered_le; [|done]; lia).
  destruct (multicast_create name (mkRequest (nl80211_family_id (info s)) (-1) None (msg_allocs s))) as (err & rq & Ec & Herr).
  set (f := fun '(res, id) => @Ret Z (if res <? 0 then res else id)).
  assert (exists n (x : Z * Z) s', exec n (query (-1) (GetMulticastId_create nlctrl name) (GetMulticastId_handleResponse group) (-1)) s = Ok (x, s') /\
    (n <= 5 + length (replies s))%nat /\ answered k (replies s')) as (n & x & s' & E & Hn & Hs').
  { unfold query. set (s1 := s <| msg_allocs := nl_alloc rq |>). cbn [pbind act].
    destruct (Z.ltb_spec err 0) as [Hlt|Hge].
    { exists 1%nat, (err, -1), s1. erewrite exec_act; [|unfold bindM at 1, getM; rewrite Ec; reflexivity]. cbn beta iota.
      rewrite (proj2 (Z.ltb_lt _ _) Hlt). split; [done|]. split; [lia|done]. }
    destruct Herr as [Herr|[ops Hops]]; [lia|].
    set (s2 := s1 <| cb_allocs := tail (cb_allocs s1) |>). destruct (hd true (cb_allocs s1)) eqn:Ecb.
    2: { exists 2%nat, (0, -1), s2. erewrite exec_act; [|unfold bindM at 1, getM; rewrite Ec; reflexivity]. cbn beta iota.
      rewrite (proj2 (Z.ltb_ge _ _) Hge). unfold requestResponse. cbn [pbind act]. erewrite exec_act; [|reflexivity]. cbn beta iota. fold s1 s2. rewrite Ecb. split; [done|]. split; [lia|done]. }
    set (s3 := s2 <| sends := tail (sends s2) |>). destruct (Z.ltb_spec (hd 0 (sends s2)) 0) as [Hsend|Hsend].
    { exists 3%nat, (hd 0 (sends s2), -1), s3. erewrite exec_act; [|unfold bindM at 1, getM; rewrite Ec; reflexivity]. cbn beta iota.
      rewrite (proj2 (Z.ltb_ge _ _) Hge), Hops. unfold requestResponse. cbn [pbind act]. erewrite exec_act; [|reflexivity]. cbn beta iota. fold s1 s2. rewrite Ecb. cbn [negb pbind act].
      erewrite exec_act; [|unfold bindM, getM, modM, retM; rewrite (proj2 (Z.ltb_lt _ _) Hsend); reflexivity]. cbn beta iota. rewrite (proj2 (Z.ltb_lt _ _) Hsend). split; [done|]. split; [lia|done]. }
    set (s4 := s3 <| trace := trace s3 ++ [Sent ops] |>).
    destruct (wait_ends group k (replies s) Ha 1 (-1) s4 eq_refl eq_refl) as (n & r & id' & s' & E & _ & Hs' & Hn).
    exists (3 + n)%nat, (r, id'), s'. split; [|split; [lia|done]]. cbn [Nat.add]. erewrite exec_act; [|unfold bindM at 1, getM; rewrite Ec; reflexivity]. cbn beta iota.
    rewrite (proj2 (Z.ltb_ge _ _) Hge), Hops. unfold requestResponse. cbn [pbind act]. erewrite exec_act; [|reflexivity]. cbn beta iota. fold s1 s2. rewrite Ecb. cbn [negb pbind act].
    erewrite exec_act; [|unfold bindM, getM, modM, retM; rewrite (proj2 (Z.ltb_ge _ _) Hsend); reflexivity]. cbn beta iota. rewrite (proj2 (Z.ltb_ge _ _) Hsend). exact E. }
  exists n, (if x.1 <? 0 then x.1 else x.2), s'. split; [|done]. change (wifi_get_multicast_id nlctrl name group) with
    (pbind (query (-1) (GetMulticastId_create nlctrl name) (GetMulticastId_handleResponse group) (-1)) f).
  rewrite <- (Nat.add_0_r n). eapply exec_bind; [exact E|]. by destruct x.
Qed.

Lemma membership_runs i group k :
  hoare (fun b => answered (S k) (b_replies b)) (wifi_add_membership i group) (fun _ b => answered k (b_replies b)).
Proof.
  intros b Hb. destruct (multicast_run (str "nl80211") group k (boot_state i b) Hb) as (n & id & s' & E & Hn & Hs').
  unfold wifi_add_membership. unfold bindM at 1, on_boot. rewrite (exec_more _ (5 + length (b_replies b)) _ _ _ E Hn).
  destruct (id <? 0); eexists _, _; (split; [reflexivity|exact Hs']).
Qed.

Lemma memberships_run i groups : hoare (fun b => answered (length groups) (b_replies b)) (add_memberships i groups) (fun _ _ => True).
Proof.
  induction groups as [|g groups IH]; cbn [add_memberships length]; [by apply hoare_ret|]. eapply hoare_bind; [apply membership_runs|].
  intros r. destruct (r <? 0); [by apply hoare_ret|]. apply IH.
Qed.

(** * When it returns *)

(** Every reading of the directory gives the same, after [k] more calls memory is there, and the
    controller answers a request for each group. *)
Definition steady (d : option (list (list Z))) (k : nat) (b : Boot) : Prop :=
  Forall (eq d) (b_listings b) /\ Forall (eq true) (drop k (b_mallocs b)) /\ answered (length event_groups) (b_replies b).

(** In such an environment a run returns, and leaves one that is [R]. *)
Definition runs {A} d k (R : Boot -> Prop) (m : ST Boot A) : Prop := hoare (steady d k) m (fun _ => R).

Lemma steady_le d k k' b : (k <= k')%nat -> steady d k b -> steady d k' b.
Proof. intros Hk (Hl & Hm & Ha). split; [done|]. split; [|done]. replace k' with (k + (k' - k))%nat by lia. rewrite <- drop_drop. by apply list.Forall_drop. Qed.

Section Runs.
Context (d : option (list (list Z))) (R : Boot -> Prop) (HR : forall b, steady d 4 b -> R b).

Lemma boot_runs_ret {A} k (a : A) : (k <= 4)%nat -> runs d k R (retM a).
Proof using HR. intros Hk. apply hoare_ret. intros b Hb. by apply HR, (steady_le _ _ _ _ Hk). Qed.

Lemma boot_runs_bind {A B} k (m : ST Boot A) (f : A -> ST Boot B) : runs d k (steady d 4) m -> (forall a, runs d 4 R (f a)) -> runs d k R (bindM m f).
Proof using Type. intros Hm Hf. by eapply hoare_bind. Qed.

Lemma runs_if {A} k (c : bool) (m1 m2 : ST Boot A) : runs d k R m1 -> runs d k R m2 -> runs d k R (if c then m1 else m2).
Proof using Type. by destruct c. Qed.

Lemma runs_get {B} k (f : Boot -> ST Boot B) : (forall b, runs d k R (f b)) -> runs d k R (bindM getM f).
Proof using Type. intros Hf b Hb. by apply (Hf b). Qed.

Lemma runs_mod {B} k g (f : unit -> ST Boot B) :
  (forall b, b_listings (g b) = b_listings b /\ b_mallocs (g b) = b_mallocs b /\ b_replies (g b) = b_replies b) ->
  runs d k R (f tt) -> runs d k R (bindM (modM g) f).
Proof using Type. intros Hg Hf b (Hl & Hm & Ha). apply (Hf (g b)). destruct (Hg b) as (El & Em & Ea). unfold steady. by rewrite El, Em, Ea. Qed.

Lemma runs_malloc {B} k (f : bool -> ST Boot B) : (forall ok, runs d k R (f ok)) -> runs d (S k) R (bindM boot_malloc f).
Proof using Type.
  intros Hf b (Hl & Hm & Ha). apply (Hf _ (b <| b_mallocs := tail (b_mallocs b) |>)). split; [done|]. split; [|done]. cbn.
  by destruct (b_mallocs b); destruct k.
Qed.

Lemma runs_pure {A B} k (a : A) (f : A -> ST Boot B) : runs d k R (f a) -> runs d k R (bindM (retM a) f).
Proof using Type. done. Qed.

Lemma runs_assoc {A B C} k (m : ST Boot A) (f : A -> ST Boot B) (g : B -> ST Boot C) :
  runs d k R (bindM m (fun x => bindM (f x) g)) -> runs d k R (bindM (bindM m f) g).
Proof using Type. intros H b Hb. rewrite bindM_assoc. by apply H. Qed.

Lemma runs_bind_if {A B} k (c : bool) (m1 m2 : ST Boot A) (f : A -> ST Boot B) :
  runs d k R (bindM m1 f) -> runs d k R (bindM m2 f) -> runs d k R (bindM (if c then m1 else m2) f).
Proof using Type. by destruct c. Qed.

Lemma runs_open {B} k (f : option (list (list Z)) -> ST Boot B) : runs d k R (f d) -> runs d k R (f None) -> runs d k R (bindM open_dir f).
Proof using Type.
  clear HR. intros Hd Hn b (Hl & Hm & Ha). assert (steady d k (b <| b_listings := tail (b_listings b) |>)) as H0.
  { split; [|done]. cbn. destruct Hl; [constructor|done]. }
  destruct b as [ms sp ss cs cb fam ls0 ma ca se re st mm ps is_ r]. cbn in Hl. destruct Hl as [|d' ls <- Hl]; [exact (Hn _ H0)|].
  destruct d as [names|]; [|exact (Hd _ H0)].
  pose (r' := r <| r_dirs := r_dirs r + 1 |>). exact (Hd (mkBoot ms sp ss cs cb fam ls ma ca se re st mm ps is_ r') H0).
Qed.
End Runs.

Local Ltac runs_step :=
  lazymatch goal with
  | |- runs _ _ _ (retM _) => apply boot_runs_ret; [by intro|lia]
  | |- runs _ _ _ (if _ then _ else _) => apply runs_if
  | |- runs _ _ _ (bindM (retM _) _) => apply runs_pure
  | |- runs _ _ _ (bindM (if _ then _ else _) _) => apply runs_bind_if
  | |- runs _ _ _ (bindM getM _) => apply runs_get; intro
  | |- runs _ _ _ (bindM boot_malloc _) => apply runs_malloc; intro
  | |- runs _ _ _ (bindM (bindM _ _) _) => apply runs_assoc
  | |- runs _ _ _ (bindM _ _) => apply runs_mod; [by repeat split|]
  end.

Lemma fill_runs d n names : forall i, (i + length names <= n)%nat -> runs d 0 (steady d 4) (fill_interfaces n i names).
Proof.
  induction names as [|name names IH]; intros i Hi; cbn [fill_interfaces]; [runs_step|]. cbn [length] in Hi. intros b (Hl & Hm & Ha). cbn in Hm.
  assert (hd true (b_mallocs b) = true) as Eb by (destruct (b_mallocs b); [done|by inversion Hm]).
  rewrite (bindM_ok boot_malloc _ b true (b <| b_mallocs := tail (b_mallocs b) |>)) by (unfold boot_malloc; run; by rewrite Eb). cbn [negb].
  assert (runs d 0 (steady d 4) (holds (fun r => r <| r_ifinfo := r_ifinfo r + 1 |>);;
    if (n <=? i)%nat then undefM
    else modM (fun b => b <| b_ifaces := b_ifaces b ++ [get_interface name] |>);; fill_interfaces n (S i) names)) as Hr.
  { rewrite (proj2 (Nat.leb_gt _ _)) by lia. do 2 runs_step. apply IH. lia. }
  apply Hr. split; [done|]. split; [|done]. cbn. destruct (b_mallocs b); [done|by inversion Hm].
Qed.

Lemma interfaces_run d : runs d 1 (steady d 4) wifi_init_interfaces.
Proof.
  unfold wifi_init_interfaces. apply runs_open; [|runs_step]. destruct d as [names|]; [|runs_step]. runs_step. runs_step; [runs_step|].
  apply runs_open; [|runs_step]. runs_step. runs_step; [repeat runs_step|]. runs_step. eapply boot_runs_bind; [apply fill_runs; lia|].
  intros []. repeat runs_step.
Qed.

Lemma all_memberships_run {B} d k i (f : bool -> ST Boot B) : (forall r, hoare (fun _ => True) (f r) (fun _ _ => True)) ->
  runs d k (fun _ => True) (bindM (add_memberships i event_groups) f).
Proof. intros Hf. eapply hoare_bind; [|exact Hf]. eapply hoare_conseq; [apply memberships_run| |done]. by intros b (_ & _ & Ha). Qed.

Lemma initialize_runs d cbs cmds : runs d 4 (fun _ => True) (wifi_initialize cbs cmds).
Proof.
  unfold wifi_initialize, wifi_create_nl_socket.
  repeat (runs_step || (eapply boot_runs_bind; [apply interfaces_run|intros [? ?]]) ||
    (apply all_memberships_run; intros []; intros ? _; eexists _, _; (split; [reflexivity|done]))).
Qed.

(** C34: Initialisation gives back what it took, up to the sockets for the clean-up. It returns
    when there is memory for the description of each interface, the directory lists the same when it
    is read for the second time, and the controller answers the request for each of the four groups,
    with messages that can be read; for an answer that does not come it waits, without end. If it
    returns, whatever the environment answers: on success the tables are empty and of their size, and
    the process holds the state, two local sockets, two netlink sockets, the two tables, the lock and
    the interfaces, of which there may be fewer than their number says; on failure the result is an
    error, and of all this only the two local sockets, once they were made, and the interfaces are
    still held; no directory stays open. *)
Theorem initialize_resources cbs cmds b : zlen cbs = 64 -> zlen cmds = 64 -> b_res b = nothing ->
  (forall d, steady d 4 b -> exists r b', wifi_initialize cbs cmds b = Ok (r, b')) /\
  (forall r b', wifi_initialize cbs cmds b = Ok (r, b') -> initialized b r (b_res b')).
Proof.
  intros Hcbs Hcmds Hb. split; [intros d Hd; destruct (initialize_runs d cbs cmds b Hd) as (r & b' & E & _); eauto|intros r b']. destruct errors_negative as (E1 & _ & E3 & _ & E5). enough (match wifi_initialize cbs cmds b with Ok (r, b') => initialized b r (b_res b') | _ => True end) as H by (intros E; by rewrite E in H).
  unfold wifi_initialize. rewrite (bindM_ok boot_malloc _ b (hd true (b_mallocs b)) (b <| b_mallocs := tail (b_mallocs b) |>)) by done.
  destruct (hd true (b_mallocs b)) eqn:Em; cbn [negb].
  2: { cbn. rewrite Hb. split; [done|]. exists 0, 0, 0. by rewrite Em. }
  assert (forall e socks arr infos, e < 0 -> socks = (if 0 <=? b_socketpair b then 2 else 0) -> initialized b (e, None) (mkRes 0 socks 0 0 0 0 0 arr infos)) as Herr.
  { intros e socks arr infos He Hs. split; [done|]. exists socks, arr, infos. split; [done|]. by rewrite Em. }
  set (b1 := b <| b_mallocs := tail (b_mallocs b) |> <| b_res := (fun r => r <| r_info := r_info r + 1 |>) (b_res b) |>).
  rewrite (bindM_ok (holds _) _ _ tt b1) by done. rewrite (bindM_ok getM _ b1 b1 b1) by done.
  assert (b_res b1 = mkRes 1 0 0 0 0 0 0 0 0) as Hb1 by (cbn; by rewrite Hb).
  change (b_socketpair b1) with (b_socketpair b). clearbody b1. revert b1 Hb1.
  assert (forall (m : Boot -> ST Boot (Z * option (hal_info * nat))) R, (forall b1, leaves R (m b1) (initialized b)) ->
    forall b1, b_res b1 = R -> match m b1 b1 with Ok (r, b') => initialized b r (b_res b') | _ => True end) as Hgo.
  { intros m R Hm b1 Hb1. by apply (Hm b1). }
  apply (Hgo (fun b1 => _)). intros b1. destruct (Z.ltb_spec (b_socketpair b) 0) as [Hs|Hs].
  { leaves_step. leaves_step. apply Herr; [done|]. zb; lia || done. }
  assert (2 = (if 0 <=? b_socketpair b then 2 else 0)) as Hsocks by (zb; lia || done).
  assert (forall e R arr infos, e < 0 -> R = mkRes 0 2 0 0 0 0 0 arr infos -> initialized b (e, None) R) as Hback by (intros e R arr infos He ->; by apply Herr).
  leaves_step. apply socket_leaves; [cbn [negb]; repeat leaves_step; by apply (Hback _ _ 0 0)|]. cbn [negb].
  apply socket_leaves; [cbn [negb]; repeat leaves_step; by apply (Hback _ _ 0 0)|]. cbn [negb]. leaves_step; [repeat leaves_step; by apply (Hback _ _ 0 0)|].
  leaves_step. leaves_step; [repeat leaves_step; by apply (Hback _ _ 0 0)|]. do 3 leaves_step; [repeat leaves_step; by apply (Hback _ _ 0 0)|].
  do 2 leaves_step; [repeat leaves_step; by apply (Hback _ _ 0 0)|]. leaves_step. eapply leaves_bind; [apply interfaces_leave|]. intros [r0 n] R' Hr. cbn [fst snd] in Hr.
  unfold WIFI_SUCCESS. destruct (r0 =? 0); cbn [negb].
  - destruct Hr as (k & Hk & ->). eapply leaves_bind; [apply memberships_leave|]. intros member R' ->. leaves_step; [repeat leaves_step; by apply (Hback _ _ 1 (Z.of_nat k))|].
    leaves_step. destruct (initial_hal_wf (b_family b1) cbs cmds Hcbs Hcmds) as (? & ? & ?). split_and!; try done. by exists k.
  - subst R'. repeat leaves_step. by apply (Hback _ _ 0 0).
Qed.

End Boot.
