(* ===== verification/WifiRun.v ===== *)
(** Runs of the Wi-Fi HAL (src/hal/wifi_hal): an instance of what it gets from libnl, nl80211 and
    wifi_hal.h, by which it can be run; what happens when the framework does not keep to the
    rules of the system; and concrete inputs of the theorems. *)

From stdpp Require Import base list gmap strings numbers.
From Stdlib Require Import ZArith Lia.
From S2P Require Import Prelude WifiNl WifiTypes WifiHal WifiReq WifiEvents WifiApi WifiTables WifiMsgs WifiWire WifiInv WifiSys WifiStop WifiScans WifiReplies WifiInit.

Local Open Scope Z_scope.
Local Open Scope st_scope.
Local Open Scope rec_scope.
Local Open Scope wprog_scope.

(** * The instances: attributes are laid out as in netlink messages, and a message is a page *)

Definition wire_ok (m : list Z) (p rem : Z) : bool :=
  (NLA_HDRLEN <=? rem) && (NLA_HDRLEN <=? nlattr_len m p) && (nlattr_len m p <=? rem).

(** The last attribute of each type, as the library's table has it. *)
Fixpoint wire_parse (fuel : nat) (m : list Z) (p rem max : Z) (tb : Z -> option Z) : Z -> option Z :=
  match fuel with
  | O => tb
  | S fuel' =>
      if wire_ok m p rem then
        let t := Z.land (nlattr_type m p) 16383 in
        let step := nla_align (nlattr_len m p) in
        let tb' := if (0 <? t) && (t <=? max) then (fun t' => if t' =? t then Some p else tb t') else tb in
        wire_parse fuel' m (p + step) (rem - step) max tb'
      else tb
  end.

Definition PAGE : Z := 4096.

#[export] Instance wire_libnl : Libnl := {|
  nla_ok := wire_ok;
  nla_next m p rem := (p + nla_align (nlattr_len m p), rem - nla_align (nlattr_len m p));
  nla_data p := p + NLA_HDRLEN;
  nla_len m p := nlattr_len m p - NLA_HDRLEN;
  nla_get n m p := le_value <$> mem_read m (p + NLA_HDRLEN) (Z.of_nat n);
  nla_get_u64 m p := if nlattr_len m p - NLA_HDRLEN <? 8 then Some 0 else le_value <$> mem_read m (p + NLA_HDRLEN) 8;
  nla_parse m head len max := (0, wire_parse (S (length m)) m head len max (fun _ => None));
  nla_put l t n := if msg_size l + NLA_HDRLEN + nla_align n <=? PAGE then 0 else -5;
  nla_nest_start l t := msg_size l + NLA_HDRLEN <=? PAGE;
|}.

Lemma wire_parse_spec fuel m head len max : forall p rem tb,
  head <= p -> p + rem = head + len ->
  let entry t q := 0 < t <= max /\ head <= q /\ NLA_HDRLEN <= nlattr_len m q /\ q + nlattr_len m q <= head + len /\
    Z.land (nlattr_type m q) 16383 = t in
  (forall t q, tb t = Some q -> entry t q) -> forall t q, wire_parse fuel m p rem max tb t = Some q -> entry t q.
Proof.
  induction fuel as [|fuel IH]; intros p rem tb Hp Hrem entry Htb t q; cbn [wire_parse]; [apply Htb|].
  destruct (wire_ok m p rem) eqn:Hok; [|apply Htb]. unfold wire_ok, NLA_HDRLEN in *.
  apply andb_prop in Hok as [Hok H3%Z.leb_le]. apply andb_prop in Hok as [H1%Z.leb_le H2%Z.leb_le].
  pose proof (nla_align_ge (nlattr_len m p)). apply IH; [lia|lia|].
  destruct ((0 <? Z.land (nlattr_type m p) 16383) && (Z.land (nlattr_type m p) 16383 <=? max)) eqn:Ht; [|done].
  apply andb_prop in Ht as [Ht1%Z.ltb_lt Ht2%Z.leb_le]. intros t' q'. destruct (Z.eqb_spec t' (Z.land (nlattr_type m p) 16383)) as [->|]; [|apply Htb].
  intros [= <-]. split_and!; lia.
Qed.

#[export] Instance wire_laws : LibnlLaws.
Proof.
  refine {| nlmsg_max := PAGE |}; try done.
  - intros m head len max t p. cbn [nla_parse wire_libnl snd]. by apply (wire_parse_spec _ m head len max).
  - intros l t n Hn. cbn [nla_put wire_libnl]. destruct (Z.leb_spec (msg_size l + NLA_HDRLEN + nla_align n) PAGE); split; lia || done.
  - intros l t n. cbn [nla_put wire_libnl]. destruct (_ <=? _); lia.
  - intros l t. cbn [nla_nest_start wire_libnl]. apply Z.leb_le.
Defined.

#[export] Instance linux_nl80211 : Nl80211 := {|
  NL80211_CMD_VENDOR := 103; NL80211_ATTR_WIPHY := 1; NL80211_ATTR_IFINDEX := 3; NL80211_ATTR_VENDOR_ID := 195;
  NL80211_ATTR_VENDOR_SUBCMD := 196; NL80211_ATTR_VENDOR_DATA := 197; CTRL_CMD_GETFAMILY := 3; CTRL_ATTR_FAMILY_NAME := 2;
  CTRL_ATTR_MCAST_GROUPS := 7; CTRL_ATTR_MCAST_GRP_MAX := 2; CTRL_ATTR_MCAST_GRP_NAME := 1; CTRL_ATTR_MCAST_GRP_ID := 2;
|}.

#[export] Instance legacy_wifi_hal : WifiHalH := {|
  WIFI_ERROR_UNKNOWN := -1; WIFI_ERROR_NOT_SUPPORTED := -3; WIFI_ERROR_NOT_AVAILABLE := -4; WIFI_ERROR_INVALID_ARGS := -5;
  WIFI_ERROR_OUT_OF_MEMORY := -9; WIFI_BAND_UNSPECIFIED := 0; WIFI_BAND_ABG := 3; WIFI_BAND_ABG_WITH_DFS := 7;
  WIFI_FEATURE_INFRA_5G := 2; WIFI_FEATURE_P2P := 8; WIFI_FEATURE_SOFT_AP := 16; WIFI_FEATURE_TDLS := 4096; WIFI_FEATURE_PNO := 1024;
  MAX_AP_CACHE_PER_SCAN := 32; MAX_EPNO_NETWORKS := 64; N_AVAIL_ID := 3; MKEEP_ALIVE_IP_PKT_MAX := 256;
  sizeof_wifi_scan_result := 88; sizeof_wifi_gscan_capabilities := 44; off_max_scan_cache_size := 0; off_max_scan_buckets := 4;
  off_max_ap_cache_per_scan := 8; sizeof_wifi_rtt_capabilities := 12; sizeof_wifi_rtt_responder := 24; sizeof_wifi_rtt_result := 128;
|}.

#[export] Instance legacy_wifi_hal_laws : WifiHalHLaws.
Proof. by split. Defined.

(** * Runs *)

(** The state [wifi_initialize] leaves, with an environment in which everything succeeds. *)
Definition fresh_hal : hal_info :=
  mkHal 25 true false (replicate 64 (mkCb 0 0 0 0)) 0 64 (replicate 64 (mkCmdInfo 0 0)) 0 64.
Definition acks (n : nat) : list (list reply) := replicate n [RAck].
Definition fresh (addresses : list Z) (requests : nat) : Wifi := mkWifi fresh_hal ∅ addresses [] [] [] [] (acks requests) [] false.

(** Events of the driver. *)
Definition vendor_event (subcmd : Z) (data : list attr) : nl_msg :=
  message_of NL80211_CMD_VENDOR [
    Leaf NL80211_ATTR_VENDOR_ID (le_bytes 4 GOOGLE_OUI); Leaf NL80211_ATTR_VENDOR_SUBCMD (le_bytes 4 subcmd);
    Nested NL80211_ATTR_VENDOR_DATA data].
Definition bssid1 : list Z := [1; 2; 3; 4; 5; 6].
Definition rssi_event : nl_msg := vendor_event WIFI_EVENT_RSSI_MONITOR [Leaf WIFI_EVENT_RSSI_MONITOR ([1; 196] ++ bssid1)].

Definition rssi_run : prog Z :=
  let! r := wifi_start_rssi_monitoring 7 2 (-40) (-80) true in
  internal_valid_message_handler rssi_event ;!
  let! r' := wifi_stop_rssi_monitoring 7 2 in Ret (r + r').

Example rssi_trace :
  match exec 200 rssi_run (fresh [4096] 2) with
  | Ok (r, s) => r = 0 /\ commands s = ∅ /\ registered (info s) = [] /\ handlers (info s) = [] /\
      drop 1 (trace s) = OnRssiThresholdBreached 7 bssid1 (-60) :: drop 2 (trace s)
  | _ => False
  end.
Proof. vm_compute. split_and!; reflexivity. Qed.

(** The state after a run. *)
Definition result {A} (n : nat) (p : prog A) (s : Wifi) : Wifi := match exec n p s with Ok (_, s') => s' | _ => s end.

(** * Two commands for the same event *)

Definition gscan_params : wifi_scan_cmd_params := mkScanParams 1000 10 50 5 [mkBucket 0 1 10000 1 0 0 [2412; 2437]].
Definition scan_handler : wifi_scan_result_handler := mkScanHandler true true.

Definition scan_complete : nl_msg := vendor_event GSCAN_EVENT_COMPLETE_SCAN [Leaf 0 (le_bytes 4 1)].

(** Both scans are running. *)
Definition both_scans : Wifi :=
  result 100 (let! r1 := wifi_start_gscan 1 2 gscan_params scan_handler in wifi_start_gscan 2 2 gscan_params scan_handler) (fresh [4096; 8192] 8).
Definition after_stop : Wifi := result 60 (wifi_cancel_cmd 2) both_scans.

Lemma both_scans_wf : hal_wf (info both_scans).
Proof. split; vm_compute; (reflexivity || (split; discriminate)). Qed.

Lemma stop_runs : exec 60 (wifi_cancel_cmd 2) both_scans = Ok (0, after_stop).
Proof. vm_compute. reflexivity. Qed.

Lemma scan_complete_event : event_of GSCAN_EVENT_COMPLETE_SCAN scan_complete.
Proof. eexists _, _. split; [reflexivity|]. split; [done|]. split; [reflexivity|]. split; vm_compute; reflexivity. Qed.

Lemma stop_removes_other_handler_witness : hal_wf (info both_scans) /\ registered (info after_stop) = [mkCmdInfo 1 4096] /\
  commands after_stop !! 8192 = None /\ exec 1 (internal_valid_message_handler scan_complete) after_stop = Undef.
Proof.
  split; [apply both_scans_wf|]. split; [vm_compute; reflexivity|].
  destruct (commands both_scans !! 8192) as [x|] eqn:Ex; [|vm_compute in Ex; discriminate].
  assert (body x = ScanCommand gscan_params scan_handler /\ mRefs x = 1) as [Hb Hr].
  { vm_compute in Ex. injection Ex as <-. split; reflexivity. }
  destruct (stop_removes_other_handler 60 both_scans 2 8192 x GSCAN_EVENT_COMPLETE_SCAN
    (mkCb NL80211_CMD_VENDOR GOOGLE_OUI GSCAN_EVENT_COMPLETE_SCAN 4096) (mkCb NL80211_CMD_VENDOR GOOGLE_OUI GSCAN_EVENT_COMPLETE_SCAN 8192) []
    0 after_stop) as (_ & Hc & _ & Hu).
  - apply both_scans_wf.
  - vm_compute. reflexivity.
  - discriminate.
  - exact Ex.
  - exact Hr.
  - rewrite Hb. right. left.
  - vm_compute. reflexivity.
  - discriminate.
  - reflexivity.
  - apply stop_runs.
  - split; [rewrite Hc; apply lookup_delete_eq|]. apply (Hu 0%nat), scan_complete_event.
Defined.

(** * Ranging that is cancelled *)

Definition rtt_target : wifi_rtt_config := mkRtt bssid1 1 1 (zeros 16) 0 0 8 3 3 0 0 15 4 4.

(** A request for ranging and its cancellation, [n] times, each with its own number. *)
Fixpoint range_cancel (n : nat) : prog (list Z) :=
  match n with
  | O => Ret []
  | S n' =>
      let! rs := range_cancel n' in
      let! r := wifi_rtt_range_request (Z.of_nat n) 2 [rtt_target] true in
      let! r' := wifi_rtt_range_cancel (Z.of_nat n) 2 [bssid1] in
      Ret (rs ++ [r; r'])
  end.

(** Cancelling leaves the command in the table: after ranging has been requested and cancelled 64
    times, every call with success, no command can be started any more. *)
Theorem cancelled_ranging_leaks :
  exists s, exec 2000 (range_cancel 64) (fresh (map (fun n => 4096 + Z.of_nat n) (seq 0 200)) 200) = Ok (replicate 128 0, s) /\
    zlen (registered (info s)) = 64 /\ handlers (info s) = [] /\
    match exec 100 (wifi_start_rssi_monitoring 99 2 (-40) (-80) true) s with
    | Ok (r, _) => r = WIFI_ERROR_OUT_OF_MEMORY
    | _ => False
    end.
Proof.
  destruct (exec 2000 (range_cancel 64) _) as [[r s]| |] eqn:E; [|vm_compute in E; discriminate..].
  vm_compute in E. injection E as <- <-. eexists. split; [reflexivity|]. split; [reflexivity|]. split; [reflexivity|]. vm_compute. reflexivity.
Qed.

(** * The theorems at concrete inputs *)

Lemma fresh_wf : hal_wf fresh_hal.
Proof. by split. Defined.

Lemma wifi_tables_refine_witness : hal_wf fresh_hal /\
  exists rs s', table_runs [TRegisterCmd 1 4096; TRegisterVendorHandler 1 2 4096; TUnregisterCmd 1; TGetCmd 1] (fresh [] 0) = Ok (rs, s') /\
    rs = [0; 0; 4096; 0].
Proof.
  split; [apply fresh_wf|].
  destruct (wifi_tables_refine [TRegisterCmd 1 4096; TRegisterVendorHandler 1 2 4096; TUnregisterCmd 1; TGetCmd 1] (fresh [] 0) fresh_wf)
    as (rs & s' & E & _ & _ & Hspec & _). exists rs, s'. split; [exact E|]. vm_compute in Hspec. congruence.
Defined.

Lemma page_fits : 4096 <= nlmsg_max.
Proof. vm_compute. discriminate. Defined.

Lemma wifi_requests_built_witness : request_wf (RqScanSetup gscan_params) /\
  exists r rq', request_code (RqScanSetup gscan_params) (mkRequest 25 2 None []) = Ok (r, rq') /\ r = 0.
Proof.
  split; [exact I|]. destruct (wifi_requests_built page_fits (RqScanSetup gscan_params) (mkRequest 25 2 None []) I) as (r & rq' & E & _ & H).
  exists r, rq'. split; [exact E|]. cbn [hd nl_alloc] in H. destruct H as (ops & _ & [[Hr _]|[_ Hbig]]); [exact Hr|]. exfalso. vm_compute in Hbig. discriminate Hbig.
Defined.

(** A command is started, an event of it is handled, and it is stopped. *)
Definition sys0 : sys := mkSys (fresh [] 0) None None.
Definition supplied : Wifi := fresh [4096] 2.
Definition sys_running : sys :=
  mkSys (result 9 (internal_valid_message_handler rssi_event) (result 20 (call_prog (StartRssiMonitoring 7 2 (-40) (-80) true)) supplied)) None None.

Lemma running_reachable : rtc sys_step sys0 sys_running.
Proof.
  eapply rtc_l; [apply (step_supply (fresh [] 0) supplied None None 4096); [reflexivity|intros _; apply lookup_empty]|].
  eapply rtc_l; [apply (step_call supplied None (StartRssiMonitoring 7 2 (-40) (-80) true))|].
  { split; [apply not_elem_of_nil|]. split; [|split; [exact I|reflexivity]]. constructor; [|constructor]. constructor. }
  etrans.
  { apply (exec_fw 20 _ supplied 0 (result 20 (call_prog (StartRssiMonitoring 7 2 (-40) (-80) true)) supplied)). vm_compute. reflexivity. }
  eapply rtc_l; [apply step_return|]. eapply rtc_l; [apply (step_message _ _ rssi_event)|]. etrans.
  { apply (exec_ev 9 rssi_event _ _ NL_OK (result 9 (internal_valid_message_handler rssi_event) (result 20 (call_prog (StartRssiMonitoring 7 2 (-40) (-80) true)) supplied))).
    vm_compute. reflexivity. }
  eapply rtc_l; [apply step_handled|]. apply rtc_refl.
Qed.

Lemma sys0_init : sys_init sys0.
Proof. split; [apply fresh_wf|reflexivity..]. Defined.


(** * The race for the table of commands *)

(** Ranging is requested. While the event thread, which has handed over the last results, is taking
    the command out of the table, the framework registers another command. *)
Definition ranging : Wifi := result 30 (call_prog (RttRangeRequest 1 2 [rtt_target] true)) (fresh [4096] 4).
Definition two_commands : Wifi := ranging <| news := [8192] |>.
Definition ranging_done : nl_msg := vendor_event RTT_EVENT_COMPLETE [Leaf RTT_ATTRIBUTE_RESULTS_COMPLETE (le_bytes 4 1)].
Definition event_thread : prog nl_cb_action * Wifi := after 7 (internal_valid_message_handler ranging_done) two_commands.
Definition framework : prog Z * Wifi := after 1 (call_prog (StartRssiMonitoring 7 2 (-40) (-80) true)) event_thread.2.
Definition racing : sys := mkSys framework.2 (Some framework.1) (Some (ranging_done, event_thread.1)).

Lemma event_thread_runs : rtc sys_step (mkSys two_commands None (Some (ranging_done, internal_valid_message_handler ranging_done)))
  (mkSys event_thread.2 None (Some (ranging_done, event_thread.1))).
Proof. unfold event_thread. apply (steps_ev 7). vm_compute. reflexivity. Qed.

Lemma framework_runs e : rtc sys_step (mkSys event_thread.2 (Some (call_prog (StartRssiMonitoring 7 2 (-40) (-80) true))) e)
  (mkSys framework.2 (Some framework.1) e).
Proof. unfold framework. apply (steps_fw 1). vm_compute. reflexivity. Qed.

Lemma second_call_allowed : call_rule event_thread.2 (StartRssiMonitoring 7 2 (-40) (-80) true).
Proof.
  assert ((ci_id <$> registered (info event_thread.2)) = [1] /\ handlers (info event_thread.2) = []) as [E1 E2] by (split; vm_compute; reflexivity).
  cbn [call_rule]. unfold start_rule. rewrite E2. split; [|by repeat split; repeat constructor].
  clear E2. rewrite E1. by intros ?%list_elem_of_singleton.
Qed.

Lemma racing_reachable : rtc sys_step sys0 racing.
Proof.
  eapply rtc_l; [apply (step_supply (fresh [] 0) (fresh [4096] 4) None None 4096); [reflexivity|intros _; apply lookup_empty]|].
  eapply rtc_l; [apply (step_call (fresh [4096] 4) None (RttRangeRequest 1 2 [rtt_target] true))|].
  { split; [apply not_elem_of_nil|]. split; [by repeat constructor|]. split; [repeat constructor|reflexivity]. }
  etrans; [apply (exec_fw 30 _ (fresh [4096] 4) 0 ranging); vm_compute; reflexivity|].
  eapply rtc_l; [apply step_return|]. eapply rtc_l; [apply (step_supply ranging two_commands None None 8192); [reflexivity|intros _; vm_compute; reflexivity]|].
  eapply rtc_l; [apply (step_message _ _ ranging_done)|]. etrans; [apply event_thread_runs|].
  eapply rtc_l; [apply step_call, second_call_allowed|]. apply framework_runs.
Qed.

(** The calls keep the rules, and the next step of the framework's thread is undefined. *)
Theorem ranging_races : rtc sys_step sys0 racing /\ pstep framework.1 (st racing) = Undef /\ inside event_thread.1 (st racing).
Proof.
  split; [apply racing_reachable|]. split; [vm_compute; reflexivity|]. split; [vm_compute; reflexivity|].
  assert (match pstep event_thread.1 (st racing) with Ok (_, s) => table_in_use s = false | _ => False end) as H by (vm_compute; reflexivity).
  destruct (pstep event_thread.1 (st racing)) as [[p' s']| |]; [|done..]. by exists p', s'.
Qed.

(** A reply with one scan of one result. *)
Definition result1 : wifi_scan_result := mkScanResult 1234567 (str "net" ++ zeros 30) bssid1 2412 (-55) 10 3 100 1 40 [].
Definition scan1 : scan := mkScan 5 1 3 [result1].
(** A scan that found nothing. *)
Definition scan0 : scan := mkScan 4 1 3 [].
Definition reply_head : list attr := [b32 NL80211_ATTR_VENDOR_ID GOOGLE_OUI; b32 NL80211_ATTR_VENDOR_SUBCMD (GSCAN_SUBCMD_GET_SCAN_RESULTS : Z)].
Definition scans_reply : nl_msg := message_of NL80211_CMD_VENDOR (reply_head ++ [scans_attr NL80211_ATTR_VENDOR_DATA 0 [scan0; scan1] 1]).
Definition scans_state : Wifi := mkWifi fresh_hal ∅ [4096] [] [] [] [] [[RValid scans_reply; RAck]] [] false.
Definition empty_slots : list wifi_cached_scan_results := replicate 2 (mkCached 0 0 0 0 (replicate 32 zero_result)).

Lemma result1_wf : result_wf result1.
Proof. unfold result_wf. repeat match goal with |- _ /\ _ => split end; first [reflexivity|vm_compute; discriminate]. Qed.

Lemma scans_wf : Forall scan_wf [scan0; scan1].
Proof.
  repeat constructor; try (cbn; lia); try apply result1_wf.
Qed.

Lemma size_fits : sizeof_wifi_scan_result = 88.
Proof. reflexivity. Defined.

Lemma scans_carried : carries scans_reply (scans_attr NL80211_ATTR_VENDOR_DATA 0 [scan0; scan1] 1).
Proof.
  exists 16, 0, (snd (WifiEvent_parse scans_reply)). split; [reflexivity|]. split; [done|]. split; [reflexivity|]. split; [vm_compute; reflexivity|].
  split; [|vm_compute; intuition discriminate]. exists (wires reply_head), []. split; [vm_compute; reflexivity|reflexivity].
Qed.

Lemma cached_scans_returned_witness :
  carries scans_reply (scans_attr NL80211_ATTR_VENDOR_DATA 0 [scan0; scan1] 1) /\
  exists arr s', exec 7 (wifi_get_cached_gscan_results 2 0 2 empty_slots 0) scans_state = Ok ((WIFI_SUCCESS, arr, 1), s') /\
    arr !! 0%nat = Some (mkCached 5 1 1 3 (result1 :: replicate 31 zero_result)).
Proof.
  split; [apply scans_carried|].
  destruct (cached_scans_returned size_fits page_fits scans_state 2 0 2 empty_slots 0 4096 scans_reply [] NL80211_ATTR_VENDOR_DATA 0 [scan0; scan1] 1)
    as (arr & s' & E & (_ & Hj & _) & _).
  - reflexivity.
  - discriminate.
  - apply lookup_empty.
  - split_and!; [reflexivity|reflexivity|vm_compute; discriminate|reflexivity].
  - reflexivity.
  - apply scans_carried.
  - apply scans_wf.
  - split; reflexivity.
  - split_and!; [vm_compute; discriminate..|]. constructor; [reflexivity|]. constructor; [reflexivity|constructor].
  - exists arr, s'. split; [exact E|]. etrans; [exact (Hj 0%nat scan1 (mkCached 0 0 0 0 (replicate 32 zero_result)) eq_refl eq_refl eq_refl)|vm_compute; reflexivity].
Defined.

(** The HAL is initialised with one interface. The controller knows the group [scan] but not the
    others. *)
Definition groups_reply : nl_msg := message_of CTRL_CMD_GETFAMILY [Nested CTRL_ATTR_MCAST_GROUPS [Nested 1 [
  Leaf CTRL_ATTR_MCAST_GRP_NAME (str "scan" ++ [0]); Leaf CTRL_ATTR_MCAST_GRP_ID (le_bytes 4 3)]]].
Definition boot (answers : nat) : Boot :=
  mkBoot [] 0 [] [] true 25 [Some [str "lo"; str "wlan0"]; Some [str "wlan0"; str "lo"]] [] [] []
    (replicate answers [RValid groups_reply; RAck]) [] [] [] [] nothing.
Definition init (answers : nat) := wifi_initialize 4321 (fun _ => 2) 16 (event_cb fresh_hal) (cmd fresh_hal) (boot answers).

(** The request for the first group is answered, that for the second one is not. *)
Lemma initialize_waits : init 1 = Blocked.
Proof. vm_compute. reflexivity. Qed.

(** The directory does not change, and the controller acknowledges each request. *)
Definition interfaces : option (list (list Z)) := Some [str "lo"; str "wlan0"].
Definition calm : Boot := (boot 0) <| b_listings := [interfaces; interfaces] |> <| b_replies := replicate 4 [RAck] |>.

Lemma calm_steady : steady interfaces 4 calm.
Proof. split; [by repeat constructor|]. split; [constructor|]. split; [by repeat constructor|cbn; lia]. Defined.

Lemma initialize_resources_witness :
  zlen (event_cb fresh_hal) = 64 /\ zlen (cmd fresh_hal) = 64 /\
  (exists r b', wifi_initialize 4321 (fun _ => 2) 16 (event_cb fresh_hal) (cmd fresh_hal) calm = Ok (r, b')) /\
  exists r b', init 2 = Ok (r, b') /\ r.1 = WIFI_ERROR_NOT_AVAILABLE /\ initialized (boot 2) r (b_res b').
Proof.
  split; [reflexivity|]. split; [reflexivity|].
  split; [exact (proj1 (initialize_resources 4321 (fun _ => 2) 16 (event_cb fresh_hal) (cmd fresh_hal) calm eq_refl eq_refl eq_refl) interfaces calm_steady)|].
  eexists _, _. split; [vm_compute; reflexivity|]. split; [reflexivity|].
  eapply (proj2 (initialize_resources 4321 (fun _ => 2) 16 (event_cb fresh_hal) (cmd fresh_hal) (boot 2) eq_refl eq_refl eq_refl)). vm_compute. reflexivity.
Defined.
